(* ===== verification/_CoqProject ===== *)
-Q . S2P
Prelude.v
Til.v
VtTypes.v
Chars.v
StateMachine.v
TraceEngine.v
ParserInvariant.v
StateMachineSafety.v
StateMachineStream.v
ParserProps.v
ParserSyntax.v
ParserBehaviour.v
MacroBuffer.v
FontBuffer.v
FontProps.v
MacroBufferProps.v
Utils.v
ColorTable.v
UtilsProps.v
Base64.v
ActionCodes.v
TermDispatch.v
OutputEngine.v
OutputEngineLaws.v
OutputEngineProps.v
TextAttributes.v
Graphics.v
GraphicsProps.v
Rle.v
RleProps.v
UnicodeTables.v
CodepointWidth.v
CodepointWidthProps.v
Geometry.v
GeometryProps.v
ImageSlice.v
Row.v
RowWrite.v
RowProps.v
RowWriteProps.v
RowText.v
RowTextProps.v
RowQueries.v
RowCopy.v
RowInvariant.v
Cursor.v
TextBuffer.v
TextBufferProps.v
BufferScroll.v
BufferSamples.v
Charsets.v
TerminalOutput.v
TerminalOutputProps.v
InputEngine.v
TerminalInput.v
InputEngineProps.v
TerminalInputProps.v
RenderSettings.v
Pages.v
BufferMarks.v
BufferText.v
Cells.v
Navigation.v
TerminalCore.v
AdaptDispatch.v
AdaptScreen.v
AdaptAreas.v
AdaptModes.v
AdaptReports.v
SixelParser.v
AdaptShell.v
AdaptProps.v
NavigationProps.v
Reflow.v
AdaptRoundtrips.v
AdaptWriting.v
AdaptTabs.v
SixelProps.v
AdaptSamples.v
WholeTerminal.v
