(* ===== verification/Prelude.v ===== *)
(** * The virtual terminal core of Intelligent Terminal

    ** The program

    Intelligent Terminal is a terminal application and console host. Programs that run
    in it write a stream of UTF-16 text with embedded control sequences; everything the
    user sees comes from interpreting that stream. This development models the
    interpreter from the characters of the stream to the cells of the screen, and the
    way back from the keyboard to the program. The paths below start at the
    repository's own src directory.

    - [StateMachine] (terminal/parser/stateMachine.cpp) splits the stream into text,
      C0/C1 controls, escape and control sequences, operating system commands and
      device control strings, and reports them to an [IStateMachineEngine].
    - [OutputStateMachineEngine] maps identifiers and parameters to the methods of
      [ITermDispatch]; [InputStateMachineEngine] maps the sequences of a hosting
      terminal to keys and mouse events.
    - [AdaptDispatch] (terminal/adapter) implements [ITermDispatch]: cursor, margins,
      pages, modes, reports, charsets, macros, soft fonts and sixel images. It works on
      an [ITerminalApi], the terminal behind it.
    - [Terminal] (cascadia/TerminalCore) is that terminal in Windows Terminal: a main
      and an alternate [TextBuffer] with viewport, scrolling and selection.
    - [TextBuffer] (buffer/out) is a ring of [ROW]s committed on demand; a row has
      characters, offsets, run-length encoded attributes and an image slice. How text
      divides into glyphs is decided by [CodepointWidthDetector].
    - [TerminalInput] (terminal/input) encodes keys and mouse events for the program.

    A macro or a string with a handler is processed from within the terminal, so the
    parser is re-entered; responses of the terminal are part of its state.

    ** Files

    Each component is a file of definitions, followed by files of theorems about it.

    - Prelude: machine integers, code units, the outcome monad [comp] (an exception
      keeps the state; undefined behaviour and exhausted fuel are outcomes of their own),
      weakest preconditions [wp] and simulations [simulates]. Til: inc/til/enumset.h.
    - VtTypes: terminal/adapter/DispatchTypes.hpp: identifiers and parameters.
    - Chars: terminal/parser/ascii.hpp, the character classes of stateMachine.cpp and
      the scan for control characters of types/utils.cpp, the SSE2 loop and the plain one.
    - StateMachine: stateMachine.{hpp,cpp}. The object is a record of a [Parser] (what is
      accumulated), a [Run] (the string being processed), a [Config] and the engine's
      state, with one definition per action, event and public method. The class
      [IStateMachineEngine] is the virtual interface. TraceEngine: engines that record their
      calls and answer from the record ([Recorder]), the engines of the stream theorems.
      ParserInvariant, StateMachineSafety, StateMachineStream, ParserProps: invariant,
      safety, termination, independence of chunks. ParserSyntax, ParserBehaviour: an
      abstract syntax of sequences, its rendering, and the round trips.
    - MacroBuffer, MacroBufferProps; FontBuffer, FontProps; SixelParser, SixelProps: the
      files of those names in terminal/adapter.
    - Utils, ColorTable, UtilsProps: helpers of types/utils.cpp, inc/til/string.h,
      inc/til/color.h, inc/til/static_map.h and types/colorTable.cpp.
      Base64: terminal/parser/base64.cpp.
    - ActionCodes, TermDispatch, OutputEngine: the enumerations of
      OutputStateMachineEngine.hpp, the interface [ITermDispatch] (one constructor per
      method) and the engine, an [IStateMachineEngine] for every instance of the class
      [TermDispatch]. OutputEngineLaws: the laws [BoundedDispatch] and [TextDispatch] of
      a terminal, with which the engine has the laws of engines; terminals that record
      their calls and answer from the record ([RecordingDispatch]).
      OutputEngineProps: its theorems.
    - TextAttributes, Graphics, GraphicsProps: buffer/out/TextAttribute and TextColor,
      adaptDispatchGraphics.cpp and types/sgrStack.cpp.
    - Rle, RleProps: inc/til/rle.h. UnicodeTables, CodepointWidth, CodepointWidthProps:
      types/CodepointWidthDetector.cpp; the class [Measurement] with its laws is what
      rows ask of it. Geometry, GeometryProps: points, rectangles and viewports.
    - ImageSlice, Row, RowWrite: buffer/out/ImageSlice.cpp, Row.hpp and Row.cpp.
      RowProps (the glyphs a row stands for), RowWriteProps, RowText, RowTextProps,
      RowQueries, RowCopy, RowInvariant: its theorems.
    - Cursor, TextBuffer, BufferMarks, BufferText, Cells, Navigation, Reflow:
      buffer/out/cursor.cpp, textBuffer.cpp, Marks.hpp, the cells of OutputCell.cpp and the
      iterator over them, textBufferCellIterator.cpp. TextBufferProps, BufferScroll, BufferSamples,
      NavigationProps: theorems about the ring, words and cells, and concrete buffers.
    - Charsets, TerminalOutput, TerminalOutputProps: charsets.hpp and terminalOutput.cpp.
    - InputEngine, TerminalInput, InputEngineProps, TerminalInputProps: the input engine,
      and terminal/input.
    - RenderSettings: renderer/base/RenderSettings.cpp. Pages: ITerminalApi.hpp as a class
      with the laws [ITerminalApiLaws], and PageManager.cpp. TerminalCore: the terminal of
      Windows Terminal, an instance of that class.
    - AdaptDispatch (state, cursor, margins, tab stops), AdaptScreen (writing, scrolling),
      AdaptAreas (erasing, rectangles), AdaptModes (modes, charsets, resets), AdaptReports
      (reports and restoring), AdaptShell (shell integration, images, fonts, and the
      instance of [TermDispatch]): adaptDispatch.cpp. AdaptProps, AdaptRoundtrips,
      AdaptWriting, AdaptTabs: theorems over any terminal with [ITerminalApiLaws];
      AdaptSamples: [Terminal] has these laws, and the dispatcher over it.
    - WholeTerminal: parser, output engine, dispatcher and terminal together.

    ** What the theorems show

    - The parser: for every engine its accumulators stay well formed, and a string leads
      to undefined behaviour only if it is empty, in the middle of a sequence for input
      ([parser_memory_safe]); with bounded nesting of injected strings it comes back
      ([ProcessString_terminates]). For output engines and terminals that are described by
      their answers and are not told where a string ends, printing in runs makes the calls
      of processing character by character, and how the stream is cut does not show
      ([ProcessString_equals_ProcessCharacter], [ProcessString_chunk_independent],
      [terminal_stream]); sixel images ask for the last character of a string and are
      outside of these three. Rendered sequences come back as the calls they denote
      ([csi_roundtrip], [osc_roundtrip]); ESC, and CAN and SUB, which are executed,
      resynchronise unless the handler of a string throws ([ESC_resynchronises],
      [cancel_aborts]); unexpected sub-parameters are rejected ([subparameters_rejected]).
    - The screen: printed text is on the page and the cursor behind it ([text_is_printed],
      [session_shows_text] for the stream of a whole session with its answer), a full page
      scrolls ([line_feed_scrolls]), the cursor never leaves a page of two columns or more
      ([cursor_stays_on_page]), page, margins and tab stops stay in order
      ([screen_stays_in_order], [tabs_go_to_stops]), what is saved or set comes back
      ([saved_cursor_restored], [modes_are_reported]).
    - Fonts, images and macros: what the data draws is what the memory holds
      ([soft_font_shows_drawing], [sixels_are_drawn]), no data leads outside of it
      ([soft_fonts_memory_safe], [sixel_display_bounded]), the macros stay within their
      memory in 64-bit builds ([macro_memory_bounded]). The fonts' theorems are for strings
      of less than 2^31 characters.
    - The buffer: runs refine plain vectors ([rle_refines_vector]), rows refine lists of
      glyphs as long as row and text are less than 0x8000 units together
      ([rows_stay_rows], [ReplaceText_lays_out], [row_queries_see_glyphs]), the
      ring refines a list of lines, whatever is committed ([rows_on_demand],
      [IncrementCircularBuffer_scrolls], [ScrollRows_moves]); clusters do not depend on how
      text arrives ([clusters_across_strings]); words are maximal runs, and the iterator
      shows the cells in reading order ([word_is_maximal_run], [iterator_shows_cells]); the
      renditions of serialised text can be restored from it ([renditions_restored]); a
      reflow comes back and leaves both buffers in order ([reflow_terminates]).
    - Renditions and charsets: SGR is the composition of its options, the ring of pushed
      renditions refines a bounded stack, and translation follows ISO 2022
      ([sgr_applies_options], [sgr_stack_refines], [printing_follows_iso2022]).
    - Input: the encoder's state stays consistent ([terminal_input_invariant]), and keys and
      mouse events that it encodes are decoded by the input engine
      ([win32_keys_roundtrip], [sgr_mouse_roundtrip]).

    The doc comment of each of these theorems names the conditions under which it holds, and
    the lemma that shows what happens otherwise.

    Where the code departs from its comments or its evident intent, a lemma pins down what
    it does. Parser and engines: [DcsParam_dispatches_controls],
    [dropped_parameter_leaks_subparameter], [empty_input_string_undefined],
    [wide_final_aliases], [omitted_mode_sets_DECCKM], [hyperlink_id_anywhere],
    [missing_key_accepted]; helpers: [inner_padding_accepted], [StringToUint_wraps],
    [x11_names_unreachable], [repeat_check_wraps_on_x86], [empty_fill_leaves_empty_run],
    [postfix_increment_stays], [exclusive_walk_leaves_bounds], [negative_rect_subtraction];
    keyboard: [altgr_timing_unused], [alternate_screen_loses_flags]; charsets:
    [restore_keeps_gr_translation], [restore_forgets_soft_set], [resized_soft_set_dropped];
    rows: [mark_behind_last_column_is_lost], [mark_on_second_half_widens_space],
    [long_cluster_hides_the_rest], [copy_erases_beyond_range]; buffer:
    [ClearScrollback_loses_lines], [scrolled_lines_lose_marks], [padded_column_not_copied],
    [last_line_blink_missed], [last_row_counts_as_committed], [text_behind_estimate_missed],
    [fit_exceeds_limit], [fit_differs_from_rows], [cleared_marks_not_joined],
    [underline_color_lost], [intense_lost], [previous_glyph_second_half],
    [exclusive_end_unreachable], [overrun_stays], [word_start_stops_at_margin],
    [rects_end_exclusive], [reflow_swaps_lines], [reflow_loses_mark],
    [one_column_spins]; dispatcher: [nine_is_dropped],
    [tab_in_last_column_stays], [backward_tab_reads_beyond], [cursor_left_of_page],
    [reset_keeps_saved_state], [scrolling_writes_outside_margins]; fonts and images:
    [font_string_never_ends], [sixel_column_overflows], [iterator_past_the_end],
    [centering_hint_wraps], [reload_of_unfinished_font], [sixel_before_buffer].

    ** Fuel and bounds

    - [ProcessString depth]: [depth] bounds how many strings can be in progress inside one
      another. [BoundedNesting] gives each engine state a budget that drops with each
      nested string, and any depth above it is enough; with macros the budget is the
      nesting limit of 16 of [MacroBuffer]. The loop of [ProcessString] takes the length of
      the string: every round consumes a character.
    - [flush_fuel] bounds the recursion of [_SafeExecute] and [FlushToTerminal], which goes
      on only while the pass-through action returns [false]; the engines never do, and
      [BoundedNesting] has that as a law.
    - Loops over a list or a range have fuel for its length, since each round moves on by
      at least one: [SplitString], [apply_options], [fill_scratchpad] (the width of a row),
      the copies of cells (width times height), tab stops (the width of the page),
      [serialize_rows] (the rows up to the last one with text), [draw_image] and
      [reserve_rows] of images (rows of the page, pixels of the margin), [run_start] and
      [run_end] of words ([walk_fuel], the positions of the buffer). [GetCellDistance] takes
      its fuel as an argument: it does not return if its end lies before its start.
    - [write_loop], which prints a string line by line, takes (height + 3) * length + 1
      rounds: a round consumes a character or goes to another line.
    - [Reflow] takes the rounds of its inner loop: two per column of the old buffer and two
      more are enough if both buffers have two columns ([reflow_terminates]); with one
      column and a wide glyph no practical number is ([one_column_spins]).
    - [decimal n v] renders a number below 10^n. [wchar_t] is 16 bits, unsigned arithmetic
      wraps with [u8], [u16], [u32] and [u64], and [int] results outside of the type are
      undefined where the operands are not bounded otherwise. The width of [size_t] is a
      parameter where a 32-bit build behaves differently.

    ** Parameters

    Engines, terminals, the measurement of text and the input dispatcher are classes. What
    the operating system or the hardware decides is a parameter: the keyboard layout, the
    conversion from UTF-8, paths from links, the steady clock, whether a file can be
    written, whether AVX2 is there, the addresses of allocations and the contents of
    memory that is not initialised (rows, fonts), the size of a row in memory, the order
    of a hash map, the renderer's answer about ambiguous glyphs, and the feature flags of the
    build. The two computations with floating-point numbers (hues to colours, and colours
    that are hard to tell apart) are functions that are parameters as well.

    ** Not modelled

    Of the buffer: HTML and RTF, the search with the regular expressions of ICU and the
    iterators over console records. Of the terminal: resizing, links in the text, selection by keyboard and mouse. Rendering, the
    WinRT application, accessibility, the console server and ConPTY are input and output around
    that core; tracing and telemetry do not feed back into the state. *)

From Stdlib Require Export ZArith Lia String Ascii.
From stdpp Require Export base numbers option list.

#[global] Open Scope Z_scope.

(** ** Machine integers *)

(** A [wchar_t] is one UTF-16 code unit; strings are lists of code units. *)
Abbreviation wchar := Z (only parsing).
Abbreviation wstring := (list Z) (only parsing).

(** [lia] with the defining equations of [/] and [mod]. *)
Ltac div_lia := Z.to_euclidean_division_equations; lia.

Definition u8 (z : Z) : Z := z mod 2 ^ 8.
Definition u16 (z : Z) : Z := z mod 2 ^ 16.
Definition u32 (z : Z) : Z := z mod 2 ^ 32.
Definition u64 (z : Z) : Z := z mod 2 ^ 64.

Definition is_wchar (c : wchar) : Prop := 0 <= c < 2 ^ 16.

Lemma u16_small z : 0 <= z < 2 ^ 16 -> u16 z = z.
Proof. apply Z.mod_small. Qed.

(** [til::CoordType] is [int32_t]. *)
Definition CoordTypeMin : Z := - 2 ^ 31.
Definition CoordTypeMax : Z := 2 ^ 31 - 1.

(** [std::clamp] *)
Definition clamp (value lo hi : Z) : Z := if value <? lo then lo else if hi <? value then hi else value.

Lemma clamp_spec value lo hi : lo <= hi -> clamp value lo hi = Z.max lo (Z.min value hi).
Proof. intros. unfold clamp. destruct (Z.ltb_spec value lo), (Z.ltb_spec hi value); lia. Qed.

(** ** Lists *)
Lemma Forall_snoc {A} (P : A -> Prop) l x : Forall P (l ++ [x]) <-> Forall P l /\ P x.
Proof. rewrite Forall_app. split; intros [Hl Hx]; (split; [done|]); [by apply Forall_inv in Hx|by repeat constructor]. Qed.

(** ** Strings *)

(** The decimal representation of a number of at most [digits] digits. *)
Fixpoint decimal (digits : nat) (v : Z) : wstring :=
  match digits with
  | O => []
  | S n => if v <? 10 then [0x30 + v] else decimal n (v / 10) ++ [0x30 + v mod 10]
  end.

(** A string literal of the source, as code units. *)
Definition wide (s : string) : wstring := map (fun a => Z.of_N (N_of_ascii a)) (list_ascii_of_string s).

(** [std::basic_string_view::find] for a character: what precedes its first
    occurrence and what follows it. *)
Fixpoint split_at (delimiter : wchar) (s : wstring) : option (wstring * wstring) :=
  match s with
  | [] => None
  | c :: s =>
    if c =? delimiter then Some ([], s)
    else '(before, after) ← split_at delimiter s; Some (c :: before, after)
  end.

(** ** Control flow *)

(** A [switch] statement whose cases all end in [break]. *)
Fixpoint switch {A} (value : Z) (cases : list (Z * A)) (otherwise : A) : A :=
  match cases with
  | [] => otherwise
  | (label, body) :: cases => if value =? label then body else switch value cases otherwise
  end.

Lemma Forall_switch {A} (P : A -> Prop) value cases otherwise :
  Forall (fun c => P c.2) cases -> P otherwise -> P (switch value cases otherwise).
Proof.
  intros Hc Ho. induction Hc as [|[label body] cases Hb Hc IH]; simpl; [done|]. by destruct (value =? label).
Qed.

(** The same, knowing which case was taken. *)
Lemma switch_cases {A} (P : A -> Prop) value cases otherwise :
  Forall (fun c => value = c.1 -> P c.2) cases -> P otherwise -> P (switch value cases otherwise).
Proof.
  intros Hc Ho. induction Hc as [|[label body] cases Hb Hc IH]; simpl; [done|].
  destruct (Z.eqb_spec value label); auto.
Qed.

(** ** Flags

    The macros of wil for testing and changing bits of a flags word. *)
Definition WI_IsFlagSet (flags flag : Z) : bool := negb (Z.land flags flag =? 0).
Definition WI_IsFlagClear (flags flag : Z) : bool := Z.land flags flag =? 0.
Definition WI_IsAnyFlagSet (flags mask : Z) : bool := negb (Z.land flags mask =? 0).
Definition WI_AreAllFlagsSet (flags mask : Z) : bool := Z.land flags mask =? mask.
Definition WI_UpdateFlag (flags flag : Z) (isSet : bool) : Z := if isSet then Z.lor flags flag else Z.ldiff flags flag.
Definition WI_ToggleFlag (flags flag : Z) : Z := Z.lxor flags flag.
Definition WI_SetFlag (flags flag : Z) : Z := Z.lor flags flag.
Definition WI_ClearFlag (flags flag : Z) : Z := Z.ldiff flags flag.
Definition WI_SetFlagIf (flags flag : Z) (condition : bool) : Z := if condition then Z.lor flags flag else flags.
Definition WI_ClearFlagIf (flags flag : Z) (condition : bool) : Z := if condition then Z.ldiff flags flag else flags.

(** ** Outcomes of C++ code

    A call either returns a value, throws a C++ exception, runs into undefined
    behaviour, or does not return within the recursion budget of the model. *)

Inductive outcome (A : Type) : Type :=
| Returned (a : A)
| Threw
| Undefined
| OutOfFuel.
Arguments Returned {A} _.
Arguments Threw {A}.
Arguments Undefined {A}.
Arguments OutOfFuel {A}.

(** State passing with outcomes: the state survives an exception, as it does in
    C++ (every mutation made before the throw is kept). *)
Definition comp (S A : Type) : Type := S -> S * outcome A.

#[global] Instance comp_ret S : MRet (comp S) := fun A a s => (s, Returned a).

#[global] Instance comp_bind S : MBind (comp S) := fun A B k m s =>
  match m s with
  | (s', Returned a) => k a s'
  | (s', Threw) => (s', Threw)
  | (s', Undefined) => (s', Undefined)
  | (s', OutOfFuel) => (s', OutOfFuel)
  end.

Definition gets {S A} (f : S -> A) : comp S A := fun s => (s, Returned (f s)).
Definition modify {S} (f : S -> S) : comp S unit := fun s => (f s, Returned tt).
Definition throw {S A} : comp S A := fun s => (s, Threw).
Definition undefined {S A} : comp S A := fun s => (s, Undefined).
Definition out_of_fuel {S A} : comp S A := fun s => (s, OutOfFuel).

Lemma comp_bind_unit {S} (m : comp S unit) s : (m;; mret tt) s = m s.
Proof. unfold mbind, comp_bind. by destruct (m s) as [s' [[]| | |]]. Qed.

(** ** Reasoning about computations

    [wp m Q T F s]: running [m] from [s] never reaches undefined behaviour, and
    satisfies [Q] when it returns, [T] when it throws and [F] when it runs out
    of fuel. [F := False] makes the statement one of total correctness. *)
Definition wp {S A} (m : comp S A) (Q : A -> S -> Prop) (T : S -> Prop) (F : Prop) (s : S) : Prop :=
  match m s with
  | (s', Returned a) => Q a s'
  | (s', Threw) => T s'
  | (_, Undefined) => False
  | (_, OutOfFuel) => F
  end.

Section wp_rules.
Context {S : Type}.
Implicit Types (s : S) (T : S -> Prop) (F : Prop).

Lemma wp_ret {A} (a : A) (Q : A -> S -> Prop) T F s : Q a s -> wp (mret a) Q T F s.
Proof. done. Qed.

Lemma wp_bind {A B} (m : comp S A) (k : A -> comp S B) (Q : B -> S -> Prop) T F s :
  wp m (fun a => wp (k a) Q T F) T F s -> wp (m ≫= k) Q T F s.
Proof. unfold wp, mbind, comp_bind. by destruct (m s) as [s' [a| | |]]. Qed.

Lemma wp_gets {A} (f : S -> A) (Q : A -> S -> Prop) T F s : Q (f s) s -> wp (gets f) Q T F s.
Proof. done. Qed.

Lemma wp_modify (f : S -> S) (Q : unit -> S -> Prop) T F s : Q tt (f s) -> wp (modify f) Q T F s.
Proof. done. Qed.

Lemma wp_throw {A} (Q : A -> S -> Prop) T F s : T s -> wp throw Q T F s.
Proof. done. Qed.

Lemma wp_out_of_fuel {A} (Q : A -> S -> Prop) T F s : F -> wp out_of_fuel Q T F s.
Proof. done. Qed.

Lemma wp_mono {A} (m : comp S A) (Q Q' : A -> S -> Prop) T T' (F F' : Prop) s :
  wp m Q T F s -> (forall a s', Q a s' -> Q' a s') -> (forall s', T s' -> T' s') -> (F -> F') ->
  wp m Q' T' F' s.
Proof. unfold wp. destruct (m s) as [s' [a| | |]]; naive_solver. Qed.

Lemma wp_and {A} (m : comp S A) (Q1 Q2 : A -> S -> Prop) T1 T2 (F1 F2 : Prop) s :
  wp m Q1 T1 F1 s -> wp m Q2 T2 F2 s ->
  wp m (fun a s' => Q1 a s' /\ Q2 a s') (fun s' => T1 s' /\ T2 s') (F1 /\ F2) s.
Proof. unfold wp. destruct (m s) as [s' [a| | |]]; naive_solver. Qed.
End wp_rules.

(** [simulates R m1 m2]: from related states the two computations have the same
    outcome and end in related states. *)
Definition same_outcome {S1 S2 A} (R : S1 -> S2 -> Prop) (r1 : S1 * outcome A) (r2 : S2 * outcome A) : Prop :=
  R r1.1 r2.1 /\ r1.2 = r2.2.

Definition simulates {S1 S2 A} (R : S1 -> S2 -> Prop) (m1 : comp S1 A) (m2 : comp S2 A) : Prop :=
  forall s1 s2, R s1 s2 -> same_outcome R (m1 s1) (m2 s2).

Section simulation_rules.
Context {S1 S2 : Type} (R : S1 -> S2 -> Prop).

Lemma simulates_ret {A} (a : A) : simulates R (mret a) (mret a).
Proof. by split. Qed.

Lemma simulates_bind {A B} (m1 : comp S1 A) (m2 : comp S2 A) (k1 : A -> comp S1 B) (k2 : A -> comp S2 B) :
  simulates R m1 m2 -> (forall a, simulates R (k1 a) (k2 a)) -> simulates R (m1 ≫= k1) (m2 ≫= k2).
Proof.
  intros Hm Hk s1 s2 HR. unfold mbind, comp_bind.
  destruct (Hm s1 s2 HR) as [HR' Ho].
  destruct (m1 s1) as [s1' [a1| | |]], (m2 s2) as [s2' [a2| | |]]; simplify_eq/=; try by split.
  by apply Hk.
Qed.

Lemma simulates_gets {A} (f1 : S1 -> A) (f2 : S2 -> A) :
  (forall s1 s2, R s1 s2 -> f1 s1 = f2 s2) -> simulates R (gets f1) (gets f2).
Proof. intros H s1 s2 HR. split; simpl; [done|]. by rewrite (H _ _ HR). Qed.

Lemma simulates_modify (f1 : S1 -> S1) (f2 : S2 -> S2) :
  (forall s1 s2, R s1 s2 -> R (f1 s1) (f2 s2)) -> simulates R (modify f1) (modify f2).
Proof. intros H s1 s2 HR. split; simpl; auto. Qed.

Lemma simulates_throw {A} : simulates (A:=A) R throw throw.
Proof. by split. Qed.

Lemma simulates_undefined {A} : simulates (A:=A) R undefined undefined.
Proof. by split. Qed.

Lemma simulates_out_of_fuel {A} : simulates (A:=A) R out_of_fuel out_of_fuel.
Proof. by split. Qed.
End simulation_rules.

Create HintDb sim.
#[export] Hint Resolve simulates_ret simulates_throw simulates_undefined simulates_out_of_fuel : sim.

Create HintDb defined.
