(* ===== verification/Til.v ===== *)
(** * Small containers of src/inc/til

    [til::enumset]: a set of enumerators as the bits of an unsigned word
    (src/inc/til/enumset.h). *)

From S2P Require Import Prelude.

Module enumset.

(** [UnderlyingType{ 1 } << position] for [uintptr_t], 64 bits wide. *)
Definition to_underlying (pos : Z) : Z := u64 (Z.shiftl 1 pos).

(** The bits of several positions, or'ed together. *)
Definition to_underlying_all (positions : list Z) : Z :=
  fold_right (fun pos acc => Z.lor (to_underlying pos) acc) 0 positions.

(** [~mask] on 64 bits. *)
Definition complement (mask : Z) : Z := u64 (Z.lnot mask).

Definition of_positions (positions : list Z) : Z := to_underlying_all positions.
Definition test (data pos : Z) : bool := negb (Z.land data (to_underlying pos) =? 0).
Definition any (data : Z) : bool := negb (data =? 0).
Definition any_of (data : Z) (positions : list Z) : bool :=
  negb (Z.land data (to_underlying_all positions) =? 0).
Definition all_of (data : Z) (positions : list Z) : bool :=
  Z.land data (to_underlying_all positions) =? to_underlying_all positions.
Definition set_all (data : Z) (positions : list Z) : Z := Z.lor data (to_underlying_all positions).
(** [(_data & ~mask) | (-val & mask)] *)
Definition set (data pos : Z) (val : bool) : Z :=
  let mask := to_underlying pos in
  Z.lor (Z.land data (complement mask)) (Z.land (u64 (- Z.b2z val)) mask).
Definition reset_all (data : Z) (positions : list Z) : Z :=
  Z.land data (complement (to_underlying_all positions)).
Definition flip_all (data : Z) (positions : list Z) : Z := Z.lxor data (to_underlying_all positions).

(** ** Laws *)

Lemma to_underlying_pow pos : 0 <= pos < 64 -> to_underlying pos = 2 ^ pos.
Proof.
  intros H. unfold to_underlying, u64. rewrite Z.shiftl_1_l. apply Z.mod_small.
  split; [lia|]. apply Z.pow_lt_mono_r; lia.
Qed.

Lemma testbit_u64 z i : 0 <= i < 64 -> Z.testbit (u64 z) i = Z.testbit z i.
Proof. intros H. unfold u64. by rewrite Z.mod_pow2_bits_low by lia. Qed.

Lemma testbit_to_underlying pos i : 0 <= pos < 64 -> 0 <= i -> Z.testbit (to_underlying pos) i = (i =? pos).
Proof.
  intros Hp Hi. rewrite to_underlying_pow by done.
  destruct (Z.eqb_spec i pos) as [->|Hne].
  - apply Z.pow2_bits_true. lia.
  - apply Z.pow2_bits_false. lia.
Qed.

(** [test] reads exactly one bit of the word. *)
Lemma test_testbit data pos : 0 <= pos < 64 -> test data pos = Z.testbit data pos.
Proof.
  intros Hp. unfold test. destruct (Z.eqb_spec (Z.land data (to_underlying pos)) 0) as [H|H]; simpl.
  - apply (f_equal (fun z => Z.testbit z pos)) in H.
    rewrite Z.land_spec, testbit_to_underlying, Z.eqb_refl, Z.bits_0, andb_true_r in H by lia. done.
  - destruct (Z.testbit data pos) eqn:Hb; [done|]. exfalso. apply H.
    apply Z.bits_inj'. intros n Hn. rewrite Z.land_spec, testbit_to_underlying, Z.bits_0 by lia.
    destruct (Z.eqb_spec n pos) as [->|]; [by rewrite Hb|apply andb_false_r].
Qed.

Lemma testbit_opp_b2z val i : 0 <= i < 64 -> Z.testbit (u64 (- Z.b2z val)) i = val.
Proof.
  intros Hi. rewrite testbit_u64 by done. destruct val; simpl.
  - by rewrite Z.bits_m1 by lia.
  - apply Z.bits_0.
Qed.

(** [set] writes one enumerator and leaves every other one alone. *)
Lemma test_set data pos pos' val :
  0 <= pos < 64 -> 0 <= pos' < 64 ->
  test (set data pos val) pos' = if pos' =? pos then val else test data pos'.
Proof.
  intros Hp Hp'. rewrite !test_testbit by done. unfold set, complement.
  rewrite Z.lor_spec, !Z.land_spec, testbit_u64, Z.lnot_spec, testbit_opp_b2z, testbit_to_underlying by lia.
  destruct (Z.eqb_spec pos' pos); simpl; rewrite ?andb_false_r, ?andb_true_r, ?orb_false_r; done.
Qed.

Lemma testbit_to_underlying_all positions i : Forall (fun pos => 0 <= pos < 64) positions -> 0 <= i ->
  Z.testbit (to_underlying_all positions) i = bool_decide (i ∈ positions).
Proof.
  intros Hp Hi. induction Hp as [|pos positions Hpos Hp IH]; simpl.
  - by rewrite Z.bits_0.
  - rewrite Z.lor_spec, testbit_to_underlying, IH by done. destruct (Z.eqb_spec i pos) as [->|Hne]; simpl.
    + symmetry. apply bool_decide_eq_true. by apply list_elem_of_here.
    + apply bool_decide_ext. rewrite elem_of_cons. tauto.
Qed.

Lemma test_reset_all data positions pos : Forall (fun pos => 0 <= pos < 64) positions -> 0 <= pos < 64 ->
  test (reset_all data positions) pos = test data pos && negb (bool_decide (pos ∈ positions)).
Proof.
  intros Hp Hpos. rewrite !test_testbit by done. unfold reset_all, complement.
  by rewrite Z.land_spec, testbit_u64, Z.lnot_spec, testbit_to_underlying_all by (done || lia).
Qed.

End enumset.
