(* ===== verification/VtTypes.v ===== *)
(** * Identifiers and parameters of control sequences

    Models the value types of src/terminal/adapter/DispatchTypes.hpp that the
    parser hands to its engines: [VTID], [VTIDBuilder], [VTParameter],
    [VTSubParameters] and [VTParameters]. *)

From S2P Require Import Prelude.

(** ** VTID *)
Module VTID.

(** The constructor from a [uint64_t] keeps seven bytes, so that the string view
    of the union is always NUL terminated. *)
Definition of_value (value : Z) : Z := Z.land value 0x00FFFFFFFFFFFFFF.

(** [_FromString]: the loop runs from the last character down to the first. *)
Definition _FromString (s : list Z) : Z :=
  fold_right (fun c value => u64 (Z.shiftl value 8 + c)) 0 s.

Definition SubSequence (id : Z) (offset : Z) : Z := of_value (Z.shiftr id (8 * offset)).

(** [operator[]]: a single character of the identifier. *)
Definition char_at (id : Z) (offset : Z) : Z := Z.land (SubSequence id offset) 0xFF.

End VTID.

(** ** VTIDBuilder *)
Module VTIDBuilder.

Record t := mk { _idAccumulator : Z; _idShift : Z }.

Definition Clear : t := mk 0 0.

Definition AddIntermediate (b : t) (intermediateChar : wchar) : t :=
  if 8 * 8 <=? _idShift b + 8 * 2
  then mk 0 (_idShift b)
  else mk (u64 (_idAccumulator b + u64 (Z.shiftl intermediateChar (_idShift b)))) (_idShift b + 8).

Definition Finalize (b : t) (finalChar : wchar) : Z :=
  VTID.of_value (u64 (_idAccumulator b + u64 (Z.shiftl finalChar (_idShift b)))).

End VTIDBuilder.

(** ** VTParameter

    A parameter is a [VTInt]; a negative value stands for an omitted one. *)
Module VTParameter.

Definition default : Z := -1.
Definition has_value (p : Z) : bool := 0 <=? p.
Definition value_or (p defaultValue : Z) : Z := if p <? 0 then defaultValue else p.
(** The conversion to an enum: omitted parameters select 0. *)
Definition to_enum (p : Z) : Z := value_or p 0.
(** The conversion to a number: both 0 and omitted parameters count as 1. *)
Definition to_VTInt (p : Z) : Z := if p <=? 0 then 1 else p.

End VTParameter.

(** ** VTParameters *)
Module VTParameters.

Record t := mk {
  _params : list Z;
  _subParams : list Z;
  _subParamRanges : list (Z * Z);
}.

(** [VTParameters(paramsPtr, paramsCount)] *)
Definition of_params (params : list Z) : t := mk params [] [].

Definition at_ (ps : t) (index : nat) : Z := default VTParameter.default (_params ps !! index).
Definition empty (ps : t) : bool := bool_decide (_params ps = []).
Definition size (ps : t) : nat := Nat.max (length (_params ps)) 1.

Definition subspan (ps : t) (offset : nat) : t :=
  mk (drop (Nat.min offset (length (_params ps))) (_params ps))
     (_subParams ps)
     (drop (Nat.min offset (length (_subParamRanges ps))) (_subParamRanges ps)).

Definition subParamsFor (ps : t) (index : nat) : list Z :=
  match _subParamRanges ps !! index with
  | Some (first, second) => take (Z.to_nat (second - first)) (drop (Z.to_nat first) (_subParams ps))
  | None => []
  end.

(** [VTSubParameters::at] *)
Definition sub_at (subParams : list Z) (index : nat) : Z := default VTParameter.default (subParams !! index).

Definition hasSubParams (ps : t) : bool := negb (bool_decide (_subParams ps = [])).

Definition hasSubParamsFor (ps : t) (index : nat) : bool :=
  match _subParamRanges ps !! index with
  | Some (first, second) => first <? second
  | None => false
  end.

(** The values [for_each] visits, in order. *)
Definition for_each_values (ps : t) : list Z :=
  match _params ps with
  | [] => [VTParameter.default]
  | params => params
  end.

End VTParameters.

(** ** Identifiers: lemmas and properties

    A [VTID] packs the characters of a control sequence into an integer, first
    character in the lowest byte. The theorems relate the incremental builder to
    [_FromString], and [_FromString] to the characters it was given. *)

Definition is_byte (c : Z) : Prop := 0 <= c < 256.
(** A character of an identifier: not NUL, which ends the string view. *)
Definition id_char (c : Z) : Prop := 0 < c < 256.

(** The packed value, without any wrap-around. *)
Definition packed (s : list Z) : Z := fold_right (fun c value => value * 256 + c) 0 s.

Lemma id_char_byte s : Forall id_char s -> Forall is_byte s.
Proof. intros Hs. eapply Forall_impl; [exact Hs|]. unfold id_char, is_byte. lia. Qed.

Lemma pow256_S n : 256 ^ Z.of_nat (S n) = 256 * 256 ^ Z.of_nat n.
Proof. rewrite Nat2Z.inj_succ, Z.pow_succ_r by lia. done. Qed.

Lemma packed_cons c s : packed (c :: s) = packed s * 256 + c.
Proof. done. Qed.

Lemma packed_bound s : Forall is_byte s -> 0 <= packed s < 256 ^ Z.of_nat (length s).
Proof.
  unfold is_byte. induction 1 as [|c s Hc Hs IH]; simpl length; [done|].
  rewrite pow256_S. rewrite packed_cons. nia.
Qed.

Lemma packed_app s1 s2 : packed (s1 ++ s2) = packed s1 + 256 ^ Z.of_nat (length s1) * packed s2.
Proof.
  induction s1 as [|c s1 IH]; [simpl; lia|].
  simpl length. rewrite pow256_S. simpl. fold (packed (s1 ++ s2)) (packed s1). rewrite IH. ring.
Qed.

Lemma pow256_le n m : (n <= m)%nat -> 256 ^ Z.of_nat n <= 256 ^ Z.of_nat m.
Proof. intros. apply Z.pow_le_mono_r; lia. Qed.

Lemma FromString_packed s : Forall is_byte s -> (length s <= 7)%nat -> VTID._FromString s = packed s.
Proof.
  induction 1 as [|c s Hc Hs IH]; simpl length; intros Hl; [done|].
  simpl. fold (VTID._FromString s) (packed s). rewrite IH by lia.
  rewrite Z.shiftl_mul_pow2 by lia. pose proof (packed_bound s Hs).
  pose proof (pow256_le (length s) 6 ltac:(lia)). unfold is_byte in Hc. unfold u64.
  rewrite Z.mod_small; [done|]. change (256 ^ Z.of_nat 6) with (2 ^ 48) in *. lia.
Qed.

Lemma of_value_small z : 0 <= z < 2 ^ 56 -> VTID.of_value z = z.
Proof.
  intros. unfold VTID.of_value. change 0x00FFFFFFFFFFFFFF with (Z.ones 56).
  rewrite Z.land_ones by lia. by apply Z.mod_small.
Qed.

Lemma packed_56 s : Forall is_byte s -> (length s <= 7)%nat -> 0 <= packed s < 2 ^ 56.
Proof. intros Hs Hl. pose proof (packed_bound s Hs). pose proof (pow256_le _ 7 Hl). by change (2 ^ 56) with (256 ^ Z.of_nat 7) in *; lia. Qed.

(** ** The builder *)
Definition collected (cs : list Z) : VTIDBuilder.t := fold_left VTIDBuilder.AddIntermediate cs VTIDBuilder.Clear.

Lemma shift_pow n : 2 ^ (8 * Z.of_nat n) = 256 ^ Z.of_nat n.
Proof. rewrite Z.pow_mul_r by lia. done. Qed.

Lemma collected_packed cs : Forall is_byte cs -> (length cs <= 6)%nat ->
  collected cs = VTIDBuilder.mk (packed cs) (8 * Z.of_nat (length cs)).
Proof.
  intros Hcs. induction cs as [|c cs IH] using rev_ind; [done|].
  apply Forall_snoc in Hcs as [Hcs Hc].
  intros Hl. rewrite length_app in Hl. simpl in Hl. unfold collected in *. rewrite fold_left_app.
  simpl fold_left. rewrite IH by (done || lia). unfold VTIDBuilder.AddIntermediate.
  cbn [VTIDBuilder._idShift VTIDBuilder._idAccumulator].
  destruct (Z.leb_spec (8 * 8) (8 * Z.of_nat (length cs) + 8 * 2)); [lia|].
  assert (0 <= packed (cs ++ [c]) < 2 ^ 56) as Hb.
  { apply packed_56; [by apply Forall_snoc|rewrite length_app; simpl; lia]. }
  rewrite packed_app in *. simpl in Hb.
  rewrite Z.shiftl_mul_pow2, shift_pow by lia. unfold is_byte in Hc.
  pose proof (packed_bound cs Hcs). unfold u64. rewrite (Z.mod_small (c * _)) by nia. rewrite Z.mod_small by nia.
  f_equal; simpl; [ring|]. rewrite length_app. simpl. lia.
Qed.

Lemma Finalize_collected cs final : Forall is_byte cs -> (length cs <= 6)%nat -> is_byte final ->
  VTIDBuilder.Finalize (collected cs) final = VTID._FromString (cs ++ [final]).
Proof.
  intros Hcs Hl Hf. assert (Forall is_byte (cs ++ [final])) as Hall by (by apply Forall_snoc).
  assert (length (cs ++ [final]) <= 7)%nat by (rewrite length_app; simpl; lia).
  rewrite collected_packed, FromString_packed by done. unfold VTIDBuilder.Finalize. simpl.
  pose proof (packed_56 (cs ++ [final]) Hall ltac:(done)) as Hb. pose proof (packed_bound cs Hcs).
  rewrite Z.shiftl_mul_pow2, shift_pow by lia. rewrite packed_app in *. simpl in *. unfold is_byte in Hf.
  unfold u64. rewrite (Z.mod_small (final * _)) by nia. rewrite Z.mod_small by nia.
  rewrite of_value_small by nia. ring.
Qed.

(** After an overflow every byte below the final one is zero. *)
Lemma collected_overflow cs : Forall is_byte cs -> (6 < length cs)%nat ->
  collected cs = VTIDBuilder.mk 0 48.
Proof.
  intros Hcs Hl. rewrite <- (take_drop 6 cs). unfold collected. rewrite fold_left_app.
  fold (collected (take 6 cs)). rewrite collected_packed by (by apply Forall_take || (rewrite length_take; lia)).
  rewrite length_take, Nat.min_l by lia. assert (drop 6 cs <> []) as Hne by (rewrite <- length_zero_iff_nil, length_drop; lia).
  destruct (drop 6 cs) as [|c rest]; [done|]. simpl. clear Hne.
  induction rest as [|c' rest IH]; [done|]. simpl. exact IH.
Qed.

Lemma packed_head s : Forall is_byte s -> packed s mod 256 = default 0 (head s).
Proof.
  destruct 1 as [|c s Hc Hs]; [done|]. rewrite packed_cons. simpl head. unfold is_byte in Hc.
  rewrite Z.add_comm, Z.mod_add by lia. by apply Z.mod_small.
Qed.

Lemma packed_inj s1 s2 : Forall id_char s1 -> Forall id_char s2 -> packed s1 = packed s2 -> s1 = s2.
Proof.
  intros H1. revert s2. induction H1 as [|c1 s1 Hc1 Hs1 IH]; intros s2 H2; destruct H2 as [|c2 s2 Hc2 Hs2];
    intros Heq; rewrite ?packed_cons in Heq; change (packed []) with 0 in Heq; unfold id_char in *; try done.
  - pose proof (packed_bound s2 (id_char_byte _ Hs2)). lia.
  - pose proof (packed_bound s1 (id_char_byte _ Hs1)). lia.
  - pose proof (packed_bound s1 (id_char_byte _ Hs1)). pose proof (packed_bound s2 (id_char_byte _ Hs2)).
    assert (c1 = c2) as -> by lia. f_equal. apply IH; [done|lia].
Qed.

Lemma char_at_packed s i : Forall is_byte s -> (length s <= 7)%nat ->
  VTID.char_at (packed s) (Z.of_nat i) = default 0 (s !! i).
Proof.
  intros Hs Hl. unfold VTID.char_at, VTID.SubSequence. pose proof (packed_56 s Hs Hl) as Hb.
  rewrite Z.shiftr_div_pow2, shift_pow by lia.
  assert (0 < 256 ^ Z.of_nat i) by (apply Z.pow_pos_nonneg; lia).
  rewrite of_value_small by (split; [apply Z.div_pos; lia|]; apply Z.div_lt_upper_bound; nia).
  change 0xFF with (Z.ones 8). rewrite Z.land_ones by lia. change (2 ^ 8) with 256.
  destruct (decide (i < length s)%nat) as [Hi|Hi].
  - rewrite <- (take_drop i s) at 1. rewrite packed_app, length_take, Nat.min_l by lia.
    rewrite (Z.add_comm (packed _)), Z.mul_comm, Z.div_add_l by lia.
    pose proof (packed_bound (take i s) (Forall_take _ _ _ Hs)) as Ht. rewrite length_take, Nat.min_l in Ht by lia.
    rewrite (Z.div_small (packed (take i s))), Z.add_0_r by lia.
    rewrite packed_head by (by apply Forall_drop). by rewrite head_lookup, lookup_drop, Nat.add_0_r.
  - rewrite lookup_ge_None_2 by lia. pose proof (packed_bound s Hs). pose proof (pow256_le (length s) i ltac:(lia)).
    rewrite Z.div_small by lia. done.
Qed.

(** Identifiers are faithful: building an identifier character by character
    gives the constant that [_FromString] computes for the same characters, from
    which each character can be read back, so two sequences with different
    intermediates or finals never share an identifier. *)
Lemma VTID_faithful cs final : Forall id_char (cs ++ [final]) -> (length cs <= 6)%nat ->
  VTIDBuilder.Finalize (fold_left VTIDBuilder.AddIntermediate cs VTIDBuilder.Clear) final = VTID._FromString (cs ++ [final]) /\
  (forall i, VTID.char_at (VTID._FromString (cs ++ [final])) (Z.of_nat i) = default 0 ((cs ++ [final]) !! i)) /\
  (forall s, Forall id_char s -> (length s <= 7)%nat -> VTID._FromString s = VTID._FromString (cs ++ [final]) ->
             s = cs ++ [final]).
Proof.
  intros Hall Hl. pose proof (id_char_byte _ Hall) as Hb. pose proof (proj1 (Forall_snoc _ _ _) Hb) as [Hcs Hf].
  assert (length (cs ++ [final]) <= 7)%nat by (rewrite length_app; simpl; lia).
  split; [by apply Finalize_collected|]. split.
  - intros i. rewrite FromString_packed by done. by apply char_at_packed.
  - intros s Hs Hls. rewrite !FromString_packed by (done || by apply id_char_byte). by apply packed_inj.
Qed.

(** A sequence with more than six intermediates is recognised as none of the
    known ones: its identifier differs from that of every non-empty string of
    characters. *)
Lemma VTID_overflow_unknown cs final s : Forall is_byte cs -> (6 < length cs)%nat -> is_byte final ->
  Forall id_char s -> (0 < length s <= 7)%nat ->
  VTIDBuilder.Finalize (fold_left VTIDBuilder.AddIntermediate cs VTIDBuilder.Clear) final <> VTID._FromString s.
Proof.
  intros Hcs Hl Hf Hs Hls Heq. fold (collected cs) in Heq. rewrite collected_overflow in Heq by done.
  rewrite FromString_packed in Heq by (by apply id_char_byte || lia).
  apply (f_equal (fun z => z mod 256)) in Heq. rewrite packed_head in Heq by (by apply id_char_byte).
  destruct Hs as [|c s Hc Hs]; [simpl in Hls; lia|]. unfold VTIDBuilder.Finalize in Heq.
  cbn [VTIDBuilder._idAccumulator VTIDBuilder._idShift head default from_option id] in Heq.
  unfold id_char, is_byte in *. rewrite Z.shiftl_mul_pow2 in Heq by lia. unfold u64 in Heq.
  rewrite Z.add_0_l in Heq. rewrite !(Z.mod_small (final * _)) in Heq by lia. rewrite of_value_small in Heq by lia.
  replace (final * 2 ^ 48) with (final * 2 ^ 40 * 256) in Heq by ring. rewrite Z.mod_mul in Heq by lia. lia.
Qed.

(** A final character outside of Latin-1 spills into the next byte: the single
    character U+7024 yields the identifier of [$ p] (DECRQM). *)
Lemma wide_final_aliases : VTIDBuilder.Finalize VTIDBuilder.Clear 0x7024 = VTID._FromString [0x24; 0x70].
Proof. reflexivity. Qed.
