(* ===== verification/Chars.v ===== *)
(** * Character classes of the VT parser

    Models src/terminal/parser/ascii.hpp, the static predicates at the top of
    src/terminal/parser/stateMachine.cpp and the scan for actionable characters
    of src/types/utils.cpp. *)

From S2P Require Import Prelude.

(** ** ascii.hpp *)
Module AsciiChars.
Definition NUL : Z := 0x0.
Definition ETX : Z := 0x3.
Definition ENQ : Z := 0x5.
Definition BEL : Z := 0x7.
Definition BS : Z := 0x8.
Definition TAB : Z := 0x9.
Definition LF : Z := 0xA.
Definition VT : Z := 0xB.
Definition FF : Z := 0xC.
Definition CR : Z := 0xD.
Definition SO : Z := 0xE.
Definition SI : Z := 0xF.
Definition ETB : Z := 0x17.
Definition CAN : Z := 0x18.
Definition EM : Z := 0x19.
Definition SUB : Z := 0x1A.
Definition ESC : Z := 0x1B.
Definition FS : Z := 0x1C.
Definition US : Z := 0x1F.
Definition SPC : Z := 0x20.
Definition DEL : Z := 0x7F.
End AsciiChars.

(** ** Predicates of stateMachine.cpp *)
Definition _isNumericParamValue (wch : wchar) : bool := (0x30 <=? wch) && (wch <=? 0x39).
Definition _isC0Code (wch : wchar) : bool :=
  ((AsciiChars.NUL <=? wch) && (wch <=? AsciiChars.ETB)) || (wch =? AsciiChars.EM)
  || ((AsciiChars.FS <=? wch) && (wch <=? AsciiChars.US)).
Definition _isC1ControlCharacter (wch : wchar) : bool := (0x80 <=? wch) && (wch <=? 0x9F).
Definition _c1To7Bit (wch : wchar) : wchar := u16 (wch - 0x40).
Definition _isIntermediate (wch : wchar) : bool := (0x20 <=? wch) && (wch <=? 0x2F).
Definition _isDelete (wch : wchar) : bool := wch =? AsciiChars.DEL.
Definition _isEscape (wch : wchar) : bool := wch =? AsciiChars.ESC.
Definition _isParameterDelimiter (wch : wchar) : bool := wch =? 0x3B.
Definition _isSubParameterDelimiter (wch : wchar) : bool := wch =? 0x3A.
Definition _isCsiIndicator (wch : wchar) : bool := wch =? 0x5B.
Definition _isCsiPrivateMarker (wch : wchar) : bool :=
  (wch =? 0x3C) || (wch =? 0x3D) || (wch =? 0x3E) || (wch =? 0x3F).
Definition _isIntermediateInvalid (wch : wchar) : bool :=
  _isNumericParamValue wch || _isSubParameterDelimiter wch || _isParameterDelimiter wch
  || _isCsiPrivateMarker wch.
Definition _isParameterInvalid (wch : wchar) : bool := _isCsiPrivateMarker wch.
Definition _isStringTerminatorIndicator (wch : wchar) : bool := wch =? 0x5C.
Definition _isSs3Indicator (wch : wchar) : bool := wch =? 0x4F.
Definition _isVt52CursorAddress (wch : wchar) : bool := wch =? 0x59.
Definition _isOscIndicator (wch : wchar) : bool := wch =? 0x5D.
Definition _isOscDelimiter (wch : wchar) : bool := wch =? 0x3B.
Definition _isOscInvalid (wch : wchar) : bool :=
  (wch <=? 0x17) || (wch =? 0x19) || ((0x1C <=? wch) && (wch <=? 0x1F)).
Definition _isOscTerminator (wch : wchar) : bool := wch =? AsciiChars.BEL.
Definition _isDcsIndicator (wch : wchar) : bool := wch =? 0x50.
Definition _isDcsPassThroughValid (wch : wchar) : bool := (AsciiChars.SPC <=? wch) && (wch <? AsciiChars.DEL).
Definition _isSosIndicator (wch : wchar) : bool := wch =? 0x58.
Definition _isPmIndicator (wch : wchar) : bool := wch =? 0x5E.
Definition _isApcIndicator (wch : wchar) : bool := wch =? 0x5F.

(** ** utils.cpp: FindActionableControlCharacter *)

(** [wch - 0x7f] is an [int]; the cast back to [wchar_t] wraps. *)
Definition isActionableFromGround (wch : wchar) : bool :=
  (wch <=? 0x1f) || (u16 (wch - 0x7f) <=? 0x20).

(** [plainSearch]: the scalar loop, as the number of characters it skips. *)
Fixpoint plainSearch (s : wstring) : nat :=
  match s with
  | [] => O
  | wch :: s' => if isActionableFromGround wch then O else S (plainSearch s')
  end.

(** [_mm_subs_epu16]: subtraction that saturates at zero. *)
Definition subs_epu16 (a b : Z) : Z := Z.max 0 (a - b).
(** [_mm_add_epi16]: addition modulo 2^16. *)
Definition add_epi16 (a b : Z) : Z := u16 (a + b).

(** One 16-bit lane of the comparison mask of the SSE loop. *)
Definition sse_lane (wch : wchar) : bool :=
  let a := subs_epu16 wch 0x1f in
  let b := subs_epu16 (add_epi16 wch 0xff81) 0x20 in
  (a =? 0) || (b =? 0).

(** [_mm_movemask_epi8] of the lane mask: two bits per 16-bit lane. *)
Fixpoint movemask_epi8 (lanes : list bool) : Z :=
  match lanes with
  | [] => 0
  | b :: lanes' => (if b then 3 else 0) + 4 * movemask_epi8 lanes'
  end.

(** [_BitScanForward]: the index of the lowest set bit of a non-zero mask. *)
Fixpoint BitScanForward (bits : nat) (mask : Z) : Z :=
  match bits with
  | O => 0
  | S n => if Z.odd mask then 0 else 1 + BitScanForward n (Z.div2 mask)
  end.

(** The SSE build: whole blocks of eight characters first, then the scalar loop
    on what is left. [blocks] is [len / 8]. *)
Fixpoint sseSearch (blocks : nat) (s : wstring) : nat :=
  match blocks with
  | O => plainSearch s
  | S n =>
    let mask := movemask_epi8 (map sse_lane (take 8 s)) in
    if mask =? 0 then (8 + sseSearch n (drop 8 s))%nat
    else Z.to_nat (BitScanForward 16 mask / 2)
  end.

Definition FindActionableControlCharacter (s : wstring) : nat :=
  sseSearch (length s / 8) s.

(** ** The vectorised scan

    A lane of the SSE mask is the scalar predicate, the position of the lowest
    bit of the mask is the first actionable character of the block, and so the
    block-wise scan finds what the scalar loop finds. *)
Lemma isActionable_range wch :
  is_wchar wch -> isActionableFromGround wch = (wch <=? 0x1f) || ((0x7f <=? wch) && (wch <=? 0x9f)).
Proof.
  unfold is_wchar, isActionableFromGround, u16. intros Hw.
  destruct (Z.leb_spec 0x7f wch).
  - rewrite Z.mod_small by lia. lia.
  - rewrite <- (Z.mod_add _ 1), Z.mod_small by lia. lia.
Qed.

Lemma sse_lane_scalar wch : is_wchar wch -> sse_lane wch = isActionableFromGround wch.
Proof.
  intros Hw. rewrite isActionable_range by done. unfold is_wchar in Hw.
  unfold sse_lane, subs_epu16, add_epi16, u16.
  destruct (Z.leb_spec 0x7f wch).
  - rewrite <- (Z.mod_add _ (-1)), Z.mod_small by lia. lia.
  - rewrite Z.mod_small by lia. lia.
Qed.

Lemma plainSearch_le s : (plainSearch s <= length s)%nat.
Proof. induction s as [|c s IH]; simpl; [lia|]. destruct (isActionableFromGround c); lia. Qed.

Lemma plainSearch_app s1 s2 :
  plainSearch s1 = length s1 -> plainSearch (s1 ++ s2) = (length s1 + plainSearch s2)%nat.
Proof.
  induction s1 as [|c s1 IH]; simpl; [done|]. destruct (isActionableFromGround c); [done|].
  intros [= H]. by rewrite IH.
Qed.

Lemma plainSearch_app_lt s1 s2 :
  (plainSearch s1 < length s1)%nat -> plainSearch (s1 ++ s2) = plainSearch s1.
Proof.
  induction s1 as [|c s1 IH]; simpl; [lia|]. destruct (isActionableFromGround c); [done|].
  intros H. rewrite IH by lia. done.
Qed.

Lemma movemask_nonneg lanes : 0 <= movemask_epi8 lanes.
Proof. induction lanes as [|[] lanes IH]; simpl; lia. Qed.

(** With no lane set the whole block is plain text. *)
Lemma movemask_zero s :
  Forall is_wchar s -> movemask_epi8 (map sse_lane s) = 0 -> plainSearch s = length s.
Proof.
  induction 1 as [|c s Hc Hs IH]; simpl; [done|]. rewrite sse_lane_scalar by done.
  pose proof (movemask_nonneg (map sse_lane s)).
  destruct (isActionableFromGround c); intros; [lia|]. f_equal. apply IH. lia.
Qed.

(** Otherwise half the index of the lowest set bit is the first such lane. *)
Lemma BitScanForward_movemask s bits :
  Forall is_wchar s -> (2 * length s <= bits)%nat -> movemask_epi8 (map sse_lane s) <> 0 ->
  Z.to_nat (BitScanForward bits (movemask_epi8 (map sse_lane s)) / 2) = plainSearch s /\
  (plainSearch s < length s)%nat /\ 0 <= BitScanForward bits (movemask_epi8 (map sse_lane s)).
Proof.
  intros Hs. revert bits. induction Hs as [|c s Hc Hs IH]; intros bits Hbits Hne; simpl in *; [done|].
  destruct bits as [|[|bits]]; [lia..|]. rewrite sse_lane_scalar in * by done.
  destruct (isActionableFromGround c).
  - simpl. replace (Z.odd _) with true by (symmetry; rewrite Z.odd_add_mul_even by (by exists 2); done).
    split; [done|]. lia.
  - assert (0 + 4 * movemask_epi8 (map sse_lane s) = 2 * (2 * movemask_epi8 (map sse_lane s))) as -> by lia.
    assert (forall x, Z.div2 (2 * x) = x) as Hdiv
      by (intros; rewrite Z.div2_div, Z.mul_comm; by apply Z.div_mul).
    simpl BitScanForward. rewrite !Hdiv, !Z.odd_mul. change (Z.odd 2) with false. cbn [andb].
    destruct (IH bits) as (IH1 & IH2 & IH3); [lia|lia|].
    set (n := BitScanForward bits _) in *. replace (1 + (1 + n)) with (n + 1 * 2) by lia.
    rewrite Z.div_add by lia. split; [|lia].
    rewrite <- IH1. rewrite Z2Nat.inj_add by (try apply Z.div_pos; lia). simpl. lia.
Qed.

Lemma sseSearch_plainSearch blocks s :
  Forall is_wchar s -> (8 * blocks <= length s)%nat -> sseSearch blocks s = plainSearch s.
Proof.
  revert s. induction blocks as [|n IH]; intros s Hs Hlen; simpl; [done|].
  assert (length (take 8 s) = 8%nat) as Htake by (rewrite length_take; lia).
  assert (Forall is_wchar (take 8 s)) by by apply Forall_take.
  transitivity (plainSearch (take 8 s ++ drop 8 s)); [|by rewrite take_drop].
  destruct (Z.eqb_spec (movemask_epi8 (map sse_lane (take 8 s))) 0) as [Hz|Hz].
  - rewrite plainSearch_app, Htake by (by apply movemask_zero).
    rewrite IH; [done|by apply Forall_drop|]. rewrite length_drop. lia.
  - destruct (BitScanForward_movemask (take 8 s) 16) as (H1 & H2 & _); [done|lia|done|].
    rewrite plainSearch_app_lt by done. exact H1.
Qed.

Lemma FindActionable_plainSearch s :
  Forall is_wchar s -> FindActionableControlCharacter s = plainSearch s.
Proof.
  intros Hs. apply sseSearch_plainSearch; [done|].
  pose proof (Nat.div_mod_eq (length s) 8). lia.
Qed.

Lemma plainSearch_first s :
  (forall i c, (i < plainSearch s)%nat -> s !! i = Some c -> isActionableFromGround c = false) /\
  (forall c, s !! plainSearch s = Some c -> isActionableFromGround c = true).
Proof.
  induction s as [|a s [IH1 IH2]]; simpl; [split; [intros; lia|done]|].
  destruct (isActionableFromGround a) eqn:Ha.
  - split; [intros; lia|]. simpl. intros c Hc. by simplify_eq.
  - split; [|exact IH2]. intros [|i] c Hi Hc; simpl in Hc; [by simplify_eq|]. apply (IH1 i c); [lia|done].
Qed.

(** The vectorised scan (saturating and wrapping 16-bit lanes, a byte mask,
    a bit scan, then the scalar loop for the tail) finds the first control
    character: everything before the index is plain text, and the index is a
    control character or the end. *)
Lemma FindActionable_first s : Forall is_wchar s ->
  (FindActionableControlCharacter s <= length s)%nat /\
  (forall i c, (i < FindActionableControlCharacter s)%nat -> s !! i = Some c -> ~ (c < 0x20 \/ 0x7F <= c < 0xA0)) /\
  (forall c, s !! FindActionableControlCharacter s = Some c -> c < 0x20 \/ 0x7F <= c < 0xA0).
Proof.
  intros Hs. rewrite FindActionable_plainSearch by done. destruct (plainSearch_first s) as [H1 H2].
  rewrite Forall_lookup in Hs. split; [apply plainSearch_le|]. split.
  - intros i c Hi Hc Hr. pose proof (H1 i c Hi Hc) as Hn. rewrite isActionable_range in Hn by eauto. lia.
  - intros c Hc. pose proof (H2 c Hc) as Hn. rewrite isActionable_range in Hn by eauto. lia.
Qed.

Definition sample_text : wstring := repeat 0x263A 11 ++ [0x9B; 0x41].

