(* ===== verification/StateMachine.v ===== *)
(** * The VT parser: state machine

    Models src/terminal/parser/stateMachine.{hpp,cpp}: the parser's state, the
    actions, the per-state events, [ProcessCharacter] and [ProcessString]. The
    engine behind [IStateMachineEngine] is an abstract interface; it is given by
    a class, and its instances are the output engine or any other listener. *)

From S2P Require Import Prelude Til VtTypes Chars.

(** stateMachine.hpp: limits *)
Definition MAX_PARAMETER_VALUE : Z := 65535.
Definition MAX_PARAMETER_COUNT : nat := 32.
Definition MAX_SUBPARAMETER_COUNT : Z := 6.

Inductive InjectionType := RIS | DECSET_FOCUS | W32IM.
Record Injection := mkInjection { injection_type : InjectionType; injection_offset : nat }.

Inductive Mode := AcceptC1 | Ansi.
(** The enumerators' values, as [til::enumset] sees them. *)
Definition Mode_pos (mode : Mode) : Z := match mode with AcceptC1 => 0 | Ansi => 1 end.

Inductive VTStates :=
| Ground | Escape | EscapeIntermediate | CsiEntry | CsiIntermediate | CsiIgnore | CsiParam
| CsiSubParam | OscParam | OscString | OscTermination | Ss3Entry | Ss3Param | Vt52Param
| DcsEntry | DcsIgnore | DcsIntermediate | DcsParam | DcsPassThrough | SosPmApcString.

#[global] Instance VTStates_eq_dec : EqDecision VTStates.
Proof. solve_decision. Defined.
#[global] Instance InjectionType_eq_dec : EqDecision InjectionType.
Proof. solve_decision. Defined.
#[global] Instance Mode_eq_dec : EqDecision Mode.
Proof. solve_decision. Defined.

(** ** The engine interface

    [IStateMachineEngine]. A call of the engine sees the public state of the
    machine that engines read ([GetParserMode], [IsProcessingLastCharacter]) and
    may call back the machine's public setters ([SetParserMode],
    [InjectSequence], [OnCsiComplete]); those calls are the [requests] of the
    reply and are applied in order. A reply without a value is a C++ exception. *)

Record View := mkView { view_AcceptC1 : bool; view_Ansi : bool; view_lastCharacter : bool }.

Inductive Request (CB : Type) :=
| ReqSetParserMode (mode : Mode) (enabled : bool)
| ReqInjectSequence (type : InjectionType)
| ReqOnCsiComplete (callback : CB).
Arguments ReqSetParserMode {CB} _ _.
Arguments ReqInjectSequence {CB} _.
Arguments ReqOnCsiComplete {CB} _.

Record Reply (E CB A : Type) := mkReply {
  reply_engine : E;
  reply_requests : list (Request CB);
  reply_value : option A;
}.
Arguments mkReply {E CB A} _ _ _.
Arguments reply_engine {E CB A} _.
Arguments reply_requests {E CB A} _.
Arguments reply_value {E CB A} _.

(** [Callback] is the type of the closures given to [OnCsiComplete] and
    [StringHandler] that of the closures returned by [ActionDcsDispatch]. A
    callback may inject one string: [CallbackBegin] runs up to the nested
    [ProcessString] and says which string it gets, if any, and [CallbackEnd] is
    what the callback does afterwards. Calling a string handler may change what
    the closure captured by value, so it returns the handler to keep. *)
Class IStateMachineEngine (E StringHandler Callback : Type) := {
  UnknownSequence : E -> E;
  EncounteredWin32InputModeSequence : E -> bool;
  ActionExecute : wchar -> View -> E -> Reply E Callback bool;
  ActionExecuteFromEscape : wchar -> View -> E -> Reply E Callback bool;
  ActionPrint : wchar -> View -> E -> Reply E Callback bool;
  ActionPrintString : wstring -> View -> E -> Reply E Callback bool;
  ActionPassThroughString : wstring -> View -> E -> Reply E Callback bool;
  ActionEscDispatch : Z -> View -> E -> Reply E Callback bool;
  ActionVt52EscDispatch : Z -> VTParameters.t -> View -> E -> Reply E Callback bool;
  ActionCsiDispatch : Z -> VTParameters.t -> View -> E -> Reply E Callback bool;
  ActionDcsDispatch : Z -> VTParameters.t -> View -> E -> Reply E Callback (option StringHandler);
  ActionOscDispatch : Z -> wstring -> View -> E -> Reply E Callback bool;
  ActionSs3Dispatch : wchar -> VTParameters.t -> View -> E -> Reply E Callback bool;
  CallStringHandler : StringHandler -> wchar -> View -> E -> StringHandler * Reply E Callback bool;
  CallbackBegin : Callback -> E -> E * option wstring;
  CallbackEnd : Callback -> E -> E;
}.

(** ** State

    The fields of [class StateMachine], in four groups: what a sequence has
    accumulated so far ([Parser]), the string being processed ([Run]), the
    configuration that engines can reach ([Conf]) and the engine. The tracing object is left out: it only writes ETW events. *)

Record Parser (H : Type) := mkParser {
  _state : VTStates;
  _identifier : VTIDBuilder.t;
  _parameters : list Z;
  _parameterLimitOverflowed : bool;
  _subParameters : list Z;
  _subParameterRanges : list (Z * Z);
  _subParameterLimitOverflowed : bool;
  _subParameterCounter : Z;
  _oscString : wstring;
  _oscParameter : Z;
  _dcsStringHandler : option H;
}.
Arguments mkParser {H} _ _ _ _ _ _ _ _ _ _ _.
Arguments _state {H} _.
Arguments _identifier {H} _.
Arguments _parameters {H} _.
Arguments _parameterLimitOverflowed {H} _.
Arguments _subParameters {H} _.
Arguments _subParameterRanges {H} _.
Arguments _subParameterLimitOverflowed {H} _.
Arguments _subParameterCounter {H} _.
Arguments _oscString {H} _.
Arguments _oscParameter {H} _.
Arguments _dcsStringHandler {H} _.

Definition set_state {H} (v : VTStates) (r : Parser H) : Parser H :=
  mkParser v (r.(_identifier)) (r.(_parameters)) (r.(_parameterLimitOverflowed)) (r.(_subParameters)) (r.(_subParameterRanges)) (r.(_subParameterLimitOverflowed)) (r.(_subParameterCounter)) (r.(_oscString)) (r.(_oscParameter)) (r.(_dcsStringHandler)).
Definition set_identifier {H} (v : VTIDBuilder.t) (r : Parser H) : Parser H :=
  mkParser (r.(_state)) v (r.(_parameters)) (r.(_parameterLimitOverflowed)) (r.(_subParameters)) (r.(_subParameterRanges)) (r.(_subParameterLimitOverflowed)) (r.(_subParameterCounter)) (r.(_oscString)) (r.(_oscParameter)) (r.(_dcsStringHandler)).
Definition set_parameters {H} (v : list Z) (r : Parser H) : Parser H :=
  mkParser (r.(_state)) (r.(_identifier)) v (r.(_parameterLimitOverflowed)) (r.(_subParameters)) (r.(_subParameterRanges)) (r.(_subParameterLimitOverflowed)) (r.(_subParameterCounter)) (r.(_oscString)) (r.(_oscParameter)) (r.(_dcsStringHandler)).
Definition set_parameterLimitOverflowed {H} (v : bool) (r : Parser H) : Parser H :=
  mkParser (r.(_state)) (r.(_identifier)) (r.(_parameters)) v (r.(_subParameters)) (r.(_subParameterRanges)) (r.(_subParameterLimitOverflowed)) (r.(_subParameterCounter)) (r.(_oscString)) (r.(_oscParameter)) (r.(_dcsStringHandler)).
Definition set_subParameters {H} (v : list Z) (r : Parser H) : Parser H :=
  mkParser (r.(_state)) (r.(_identifier)) (r.(_parameters)) (r.(_parameterLimitOverflowed)) v (r.(_subParameterRanges)) (r.(_subParameterLimitOverflowed)) (r.(_subParameterCounter)) (r.(_oscString)) (r.(_oscParameter)) (r.(_dcsStringHandler)).
Definition set_subParameterRanges {H} (v : list (Z * Z)) (r : Parser H) : Parser H :=
  mkParser (r.(_state)) (r.(_identifier)) (r.(_parameters)) (r.(_parameterLimitOverflowed)) (r.(_subParameters)) v (r.(_subParameterLimitOverflowed)) (r.(_subParameterCounter)) (r.(_oscString)) (r.(_oscParameter)) (r.(_dcsStringHandler)).
Definition set_subParameterLimitOverflowed {H} (v : bool) (r : Parser H) : Parser H :=
  mkParser (r.(_state)) (r.(_identifier)) (r.(_parameters)) (r.(_parameterLimitOverflowed)) (r.(_subParameters)) (r.(_subParameterRanges)) v (r.(_subParameterCounter)) (r.(_oscString)) (r.(_oscParameter)) (r.(_dcsStringHandler)).
Definition set_subParameterCounter {H} (v : Z) (r : Parser H) : Parser H :=
  mkParser (r.(_state)) (r.(_identifier)) (r.(_parameters)) (r.(_parameterLimitOverflowed)) (r.(_subParameters)) (r.(_subParameterRanges)) (r.(_subParameterLimitOverflowed)) v (r.(_oscString)) (r.(_oscParameter)) (r.(_dcsStringHandler)).
Definition set_oscString {H} (v : wstring) (r : Parser H) : Parser H :=
  mkParser (r.(_state)) (r.(_identifier)) (r.(_parameters)) (r.(_parameterLimitOverflowed)) (r.(_subParameters)) (r.(_subParameterRanges)) (r.(_subParameterLimitOverflowed)) (r.(_subParameterCounter)) v (r.(_oscParameter)) (r.(_dcsStringHandler)).
Definition set_oscParameter {H} (v : Z) (r : Parser H) : Parser H :=
  mkParser (r.(_state)) (r.(_identifier)) (r.(_parameters)) (r.(_parameterLimitOverflowed)) (r.(_subParameters)) (r.(_subParameterRanges)) (r.(_subParameterLimitOverflowed)) (r.(_subParameterCounter)) (r.(_oscString)) v (r.(_dcsStringHandler)).
Definition set_dcsStringHandler {H} (v : option H) (r : Parser H) : Parser H :=
  mkParser (r.(_state)) (r.(_identifier)) (r.(_parameters)) (r.(_parameterLimitOverflowed)) (r.(_subParameters)) (r.(_subParameterRanges)) (r.(_subParameterLimitOverflowed)) (r.(_subParameterCounter)) (r.(_oscString)) (r.(_oscParameter)) v.

Record Run := mkRun {
  _currentString : wstring;
  _runOffset : nat;
  _runSize : nat;
  _cachedSequence : option wstring;
  _injections : list Injection;
  _processingLastCharacter : bool;
}.

Definition set_currentString (v : wstring) (r : Run) : Run :=
  mkRun v (r.(_runOffset)) (r.(_runSize)) (r.(_cachedSequence)) (r.(_injections)) (r.(_processingLastCharacter)).
Definition set_runOffset (v : nat) (r : Run) : Run :=
  mkRun (r.(_currentString)) v (r.(_runSize)) (r.(_cachedSequence)) (r.(_injections)) (r.(_processingLastCharacter)).
Definition set_runSize (v : nat) (r : Run) : Run :=
  mkRun (r.(_currentString)) (r.(_runOffset)) v (r.(_cachedSequence)) (r.(_injections)) (r.(_processingLastCharacter)).
Definition set_cachedSequence (v : option wstring) (r : Run) : Run :=
  mkRun (r.(_currentString)) (r.(_runOffset)) (r.(_runSize)) v (r.(_injections)) (r.(_processingLastCharacter)).
Definition set_injections (v : list Injection) (r : Run) : Run :=
  mkRun (r.(_currentString)) (r.(_runOffset)) (r.(_runSize)) (r.(_cachedSequence)) v (r.(_processingLastCharacter)).
Definition set_processingLastCharacter (v : bool) (r : Run) : Run :=
  mkRun (r.(_currentString)) (r.(_runOffset)) (r.(_runSize)) (r.(_cachedSequence)) (r.(_injections)) v.

Record Conf (CB : Type) := mkConf {
  _isEngineForInput : bool;
  _parserMode : Z;
  _onCsiCompleteCallback : option CB;
}.
Arguments mkConf {CB} _ _ _.
Arguments _isEngineForInput {CB} _.
Arguments _parserMode {CB} _.
Arguments _onCsiCompleteCallback {CB} _.

Definition set_parserMode {CB} (v : Z) (r : Conf CB) : Conf CB :=
  mkConf (r.(_isEngineForInput)) v (r.(_onCsiCompleteCallback)).
Definition set_onCsiCompleteCallback {CB} (v : option CB) (r : Conf CB) : Conf CB :=
  mkConf (r.(_isEngineForInput)) (r.(_parserMode)) v.


Record StateMachine (E : Type) (H : Type) (CB : Type) := mkStateMachine {
  _engine : E;
  sm_conf : Conf CB;
  sm_parser : Parser H;
  sm_run : Run;
}.
Arguments mkStateMachine {E} {H} {CB} _ _ _ _.
Arguments _engine {E} {H} {CB} _.
Arguments sm_conf {E} {H} {CB} _.
Arguments sm_parser {E} {H} {CB} _.
Arguments sm_run {E} {H} {CB} _.

Definition set_engine {E} {H} {CB} (v : E) (r : StateMachine E H CB) : StateMachine E H CB :=
  mkStateMachine v (r.(sm_conf)) (r.(sm_parser)) (r.(sm_run)).
Definition set_conf {E} {H} {CB} (v : Conf CB) (r : StateMachine E H CB) : StateMachine E H CB :=
  mkStateMachine (r.(_engine)) v (r.(sm_parser)) (r.(sm_run)).
Definition set_parser {E} {H} {CB} (v : Parser H) (r : StateMachine E H CB) : StateMachine E H CB :=
  mkStateMachine (r.(_engine)) (r.(sm_conf)) v (r.(sm_run)).
Definition set_run {E} {H} {CB} (v : Run) (r : StateMachine E H CB) : StateMachine E H CB :=
  mkStateMachine (r.(_engine)) (r.(sm_conf)) (r.(sm_parser)) v.


Definition init_Parser {H} : Parser H := mkParser Ground VTIDBuilder.Clear [] false [] [] false 0 [] 0 None.

(** Helpers for [std::vector]'s [back()], which is undefined on an empty vector. *)
Definition set_back {A} (l : list A) (x : A) : list A := take (length l - 1) l ++ [x].

(** ** Operations on the parser's own fields *)
Section Parser_operations.
Context {H : Type}.
Implicit Types p : Parser H.

Definition _AccumulateTo (wch : wchar) (value : Z) : Z :=
  let digit := wch - 0x30 in
  let value := value * 10 + digit in
  if MAX_PARAMETER_VALUE <? value then MAX_PARAMETER_VALUE else value.

Definition _ActionCollect (wch : wchar) (p : Parser H) : Parser H :=
  set_identifier (VTIDBuilder.AddIntermediate (_identifier p) wch) p.

(** The common start of [_ActionParam] and [_ActionSubParam]: with no parameter
    yet, an empty one is added together with its empty range. *)
Definition add_empty_parameter (p : Parser H) : Parser H :=
  let rangeStart := u8 (Z.of_nat (length (_subParameters p))) in
  set_subParameterRanges (_subParameterRanges p ++ [(rangeStart, rangeStart)])
    (set_parameters (_parameters p ++ [VTParameter.default]) p).

Definition ensure_parameter (p : Parser H) : Parser H :=
  match _parameters p with
  | [] => add_empty_parameter p
  | _ => p
  end.

Definition _ActionParam (wch : wchar) (p : Parser H) : Parser H :=
  if _parameterLimitOverflowed p then p
  else
    let p := ensure_parameter p in
    if _isParameterDelimiter wch then
      if (MAX_PARAMETER_COUNT <=? length (_parameters p))%nat
      then set_parameterLimitOverflowed true p
      else add_empty_parameter (set_subParameterLimitOverflowed false (set_subParameterCounter 0 p))
    else
      let currentParameter := VTParameter.value_or (default VTParameter.default (last (_parameters p))) 0 in
      set_parameters (set_back (_parameters p) (_AccumulateTo wch currentParameter)) p.

(** [None] stands for a call of [back()] on an empty vector. *)
Definition _ActionSubParam (wch : wchar) (p : Parser H) : option (Parser H) :=
  if _subParameterLimitOverflowed p then Some p
  else
    let p := ensure_parameter p in
    if _isSubParameterDelimiter wch then
      if MAX_SUBPARAMETER_COUNT <=? _subParameterCounter p
      then Some (set_subParameterLimitOverflowed true p)
      else
        match last (_subParameterRanges p) with
        | None => None
        | Some (first, second) =>
          Some (set_subParameterCounter (u8 (_subParameterCounter p + 1))
                 (set_subParameterRanges (set_back (_subParameterRanges p) (first, u8 (second + 1)))
                   (set_subParameters (_subParameters p ++ [VTParameter.default]) p)))
        end
    else
      match last (_subParameters p) with
      | None => None
      | Some current =>
        let currentSubParameter := VTParameter.value_or current 0 in
        Some (set_subParameters (set_back (_subParameters p) (_AccumulateTo wch currentSubParameter)) p)
      end.

Definition _ActionOscParam (wch : wchar) (p : Parser H) : Parser H :=
  set_oscParameter (_AccumulateTo wch (_oscParameter p)) p.

Definition _ActionOscPut (wch : wchar) (p : Parser H) : Parser H :=
  set_oscString (_oscString p ++ [wch]) p.

Definition _ActionClear (p : Parser H) : Parser H :=
  mkParser (_state p) VTIDBuilder.Clear [] false [] [] false 0 [] 0 None.
End Parser_operations.

(** ** The machine *)
Section Machine.
Context {E H CB : Type} `{IStateMachineEngine E H CB}.

Abbreviation M := (comp (StateMachine E H CB)).

Definition SetParserMode (mode : Mode) (enabled : bool) (s : StateMachine E H CB) : StateMachine E H CB :=
  set_conf (set_parserMode (enumset.set (_parserMode (sm_conf s)) (Mode_pos mode) enabled) (sm_conf s)) s.

Definition GetParserMode (mode : Mode) (s : StateMachine E H CB) : bool :=
  enumset.test (_parserMode (sm_conf s)) (Mode_pos mode).

Definition IsProcessingLastCharacter (s : StateMachine E H CB) : bool := _processingLastCharacter (sm_run s).

Definition InjectSequence (type : InjectionType) (s : StateMachine E H CB) : StateMachine E H CB :=
  let r := sm_run s in
  set_run (set_injections (_injections r ++ [mkInjection type (_runOffset r + _runSize r)]) r) s.

Definition GetInjections (s : StateMachine E H CB) : list Injection := _injections (sm_run s).

Definition OnCsiComplete (callback : CB) (s : StateMachine E H CB) : StateMachine E H CB :=
  set_conf (set_onCsiCompleteCallback (Some callback) (sm_conf s)) s.

(** The constructor. [_runOffset], [_runSize] and [_processingLastCharacter] are
    not initialised by the source; [ProcessString] sets them before any use. *)
Definition make_StateMachine (engine : E) (isEngineForInput : bool) : StateMachine E H CB :=
  mkStateMachine engine
    (mkConf isEngineForInput
       (enumset.set (enumset.of_positions [Mode_pos Ansi]) (Mode_pos AcceptC1) isEngineForInput) None)
    (_ActionClear init_Parser)
    (mkRun [] 0 0 None [] false).

(** *** Calling the engine *)
Definition view (s : StateMachine E H CB) : View :=
  mkView (GetParserMode AcceptC1 s) (GetParserMode Ansi s) (IsProcessingLastCharacter s).

Definition apply_request (s : StateMachine E H CB) (r : Request CB) : StateMachine E H CB :=
  match r with
  | ReqSetParserMode mode enabled => SetParserMode mode enabled s
  | ReqInjectSequence type => InjectSequence type s
  | ReqOnCsiComplete callback => OnCsiComplete callback s
  end.

Definition apply_reply {A} (r : Reply E CB A) : M A := fun s =>
  let s' := fold_left apply_request (reply_requests r) (set_engine (reply_engine r) s) in
  (s', match reply_value r with Some a => Returned a | None => Threw end).

Definition engine_call {A} (f : View -> E -> Reply E CB A) : M A := fun s =>
  apply_reply (f (view s) (_engine s)) s.

Definition with_parser {A} (f : Parser H -> A) : M A := gets (fun s => f (sm_parser s)).
Definition modify_parser (f : Parser H -> Parser H) : M unit :=
  modify (fun s => set_parser (f (sm_parser s)) s).
Definition try_parser (f : Parser H -> option (Parser H)) : M unit := fun s =>
  match f (sm_parser s) with
  | Some p => (set_parser p s, Returned tt)
  | None => (s, Undefined)
  end.
Definition modify_run (f : Run -> Run) : M unit := modify (fun s => set_run (f (sm_run s)) s).

(** [std::basic_string_view::substr] throws when the offset is past the end. *)
Definition _CurrentRun : M wstring := fun s =>
  let r := sm_run s in
  if (_runOffset r <=? length (_currentString r))%nat
  then (s, Returned (take (_runSize r) (drop (_runOffset r) (_currentString r))))
  else (s, Threw).

(** *** _SafeExecute and FlushToTerminal

    The two call each other: a lambda that returns [false] makes [_SafeExecute]
    flush, and flushing runs the pass-through action under [_SafeExecute]. The
    fuel bounds that recursion. *)
Definition SafeExecute_with (flush : M bool) (lambda : M bool) : M bool := fun s =>
  match lambda s with
  | (s', Returned true) => (s', Returned true)
  | (s', Returned false) =>
    match flush s' with
    | (s'', Returned _) => (s'', Returned false)
    | (s'', Threw) => (s'', Returned false)
    | (s'', Undefined) => (s'', Undefined)
    | (s'', OutOfFuel) => (s'', OutOfFuel)
    end
  | (s', Threw) => (s', Returned false)
  | (s', Undefined) => (s', Undefined)
  | (s', OutOfFuel) => (s', OutOfFuel)
  end.

Fixpoint FlushToTerminal (fuel : nat) : M bool :=
  match fuel with
  | O => out_of_fuel
  | S fuel =>
    let _SafeExecute := SafeExecute_with (FlushToTerminal fuel) in
    cachedSequence ← gets (fun s => _cachedSequence (sm_run s));
    success ← match cachedSequence with
              | Some sequence =>
                success ← _SafeExecute (engine_call (ActionPassThroughString sequence));
                modify_run (set_cachedSequence None);; mret success
              | None => mret true
              end;
    if success : bool
    then _SafeExecute (run ← _CurrentRun; engine_call (ActionPassThroughString run))
    else mret success
  end.

(** Flushing twice in a row is already more than any engine of the repository
    asks for: their pass-through actions never return [false]. *)
Definition flush_fuel : nat := 2.

Definition _SafeExecute (lambda : M bool) : M bool := SafeExecute_with (FlushToTerminal flush_fuel) lambda.

(** The result of [_SafeExecute] only feeds the tracing in the actions below. *)
Definition execute (lambda : M bool) : M unit := _SafeExecute lambda;; mret tt.

(** *** Actions *)
Definition _ActionExecute (wch : wchar) : M unit := execute (engine_call (ActionExecute wch)).
Definition _ActionExecuteFromEscape (wch : wchar) : M unit :=
  execute (engine_call (ActionExecuteFromEscape wch)).
Definition _ActionPrint (wch : wchar) : M unit := execute (engine_call (ActionPrint wch)).
Definition _ActionPrintString (string : wstring) : M unit := execute (engine_call (ActionPrintString string)).

Definition _ActionEscDispatch (wch : wchar) : M unit :=
  execute (id ← with_parser (fun p => VTIDBuilder.Finalize (_identifier p) wch);
           engine_call (ActionEscDispatch id)).

Definition _ActionVt52EscDispatch (wch : wchar) : M unit :=
  execute (id ← with_parser (fun p => VTIDBuilder.Finalize (_identifier p) wch);
           parameters ← with_parser (fun p => VTParameters.of_params (_parameters p));
           engine_call (ActionVt52EscDispatch id parameters)).

Definition _ActionCsiDispatch (wch : wchar) : M unit :=
  execute (id ← with_parser (fun p => VTIDBuilder.Finalize (_identifier p) wch);
           parameters ← with_parser (fun p =>
             VTParameters.mk (_parameters p) (_subParameters p) (_subParameterRanges p));
           engine_call (ActionCsiDispatch id parameters)).

Definition _ActionOscDispatch : M unit :=
  execute (parameter ← with_parser _oscParameter;
           string ← with_parser _oscString;
           engine_call (ActionOscDispatch parameter string)).

Definition _ActionSs3Dispatch (wch : wchar) : M unit :=
  execute (parameters ← with_parser (fun p => VTParameters.of_params (_parameters p));
           engine_call (ActionSs3Dispatch wch parameters)).

Definition _ActionIgnore : M unit := mret tt.

(** Calling the stored [std::function]; an empty one throws [bad_function_call]. *)
Definition invoke_handler (handler : H) (wch : wchar) : M bool := fun s =>
  let '(handler', reply) := CallStringHandler handler wch (view s) (_engine s) in
  apply_reply reply (set_parser (set_dcsStringHandler (Some handler') (sm_parser s)) s).

Definition call_dcsStringHandler (wch : wchar) : M bool :=
  handler ← with_parser _dcsStringHandler;
  match handler with
  | None => throw
  | Some handler => invoke_handler handler wch
  end.

Definition _ActionInterrupt : M unit :=
  state ← with_parser _state;
  if decide (state = DcsPassThrough) then
    call_dcsStringHandler AsciiChars.ESC;;
    modify_parser (set_dcsStringHandler None)
  else mret tt.

(** *** Entering states *)
Definition enter (state : VTStates) : M unit := modify_parser (set_state state).
Definition reset_cachedSequence : M unit := modify_run (set_cachedSequence None).

Definition _EnterGround : M unit := enter Ground;; reset_cachedSequence.
Definition _EnterEscape : M unit := enter Escape;; modify_parser _ActionClear.
Definition _EnterEscapeIntermediate : M unit := enter EscapeIntermediate.
Definition _EnterCsiEntry : M unit := enter CsiEntry;; modify_parser _ActionClear.
Definition _EnterCsiParam : M unit := enter CsiParam.
Definition _EnterCsiSubParam : M unit := enter CsiSubParam.
Definition _EnterCsiIgnore : M unit := enter CsiIgnore.
Definition _EnterCsiIntermediate : M unit := enter CsiIntermediate.
Definition _EnterOscParam : M unit := enter OscParam.
Definition _EnterOscString : M unit := enter OscString.
Definition _EnterOscTermination : M unit := enter OscTermination.
Definition _EnterSs3Entry : M unit := enter Ss3Entry;; modify_parser _ActionClear.
Definition _EnterSs3Param : M unit := enter Ss3Param.
Definition _EnterVt52Param : M unit := enter Vt52Param.
Definition _EnterDcsEntry : M unit := enter DcsEntry;; modify_parser _ActionClear.
Definition _EnterDcsParam : M unit := enter DcsParam.
Definition _EnterDcsIgnore : M unit := enter DcsIgnore;; reset_cachedSequence.
Definition _EnterDcsIntermediate : M unit := enter DcsIntermediate.
Definition _EnterDcsPassThrough : M unit := enter DcsPassThrough;; reset_cachedSequence.
Definition _EnterSosPmApcString : M unit :=
  enter SosPmApcString;; reset_cachedSequence;; modify (fun s => set_engine (UnknownSequence (_engine s)) s).

Definition ResetState : M unit := _EnterGround.

(** The lambda assigns the handler the engine returns; when the engine throws,
    the old value stays. *)
Definition _ActionDcsDispatch (wch : wchar) : M unit :=
  _SafeExecute (id ← with_parser (fun p => VTIDBuilder.Finalize (_identifier p) wch);
                parameters ← with_parser (fun p => VTParameters.of_params (_parameters p));
                handler ← engine_call (ActionDcsDispatch id parameters);
                modify_parser (set_dcsStringHandler handler);;
                mret true);;
  handler ← with_parser _dcsStringHandler;
  match handler with
  | Some _ => _EnterDcsPassThrough
  | None => _EnterDcsIgnore
  end.

(** *** Events *)
Definition collect (wch : wchar) : M unit := modify_parser (_ActionCollect wch).
Definition param (wch : wchar) : M unit := modify_parser (_ActionParam wch).
Definition subParam (wch : wchar) : M unit := try_parser (_ActionSubParam wch).

Definition _EventGround (wch : wchar) : M unit :=
  if _isC0Code wch || _isDelete wch then _ActionExecute wch else _ActionPrint wch.

Definition _EventEscape (wch : wchar) : M unit :=
  isEngineForInput ← gets (fun s => _isEngineForInput (sm_conf s));
  ansi ← gets (GetParserMode Ansi);
  if _isC0Code wch then
    if isEngineForInput : bool then _ActionExecuteFromEscape wch;; _EnterGround
    else _ActionExecute wch
  else if _isDelete wch then _ActionIgnore
  else if _isIntermediate wch then
    if isEngineForInput then _ActionEscDispatch wch;; _EnterGround
    else collect wch;; _EnterEscapeIntermediate
  else if ansi : bool then
    if _isCsiIndicator wch then _EnterCsiEntry
    else if _isOscIndicator wch then _EnterOscParam
    else if _isSs3Indicator wch && isEngineForInput then _EnterSs3Entry
    else if _isDcsIndicator wch then _EnterDcsEntry
    else if _isSosIndicator wch || _isPmIndicator wch || _isApcIndicator wch then _EnterSosPmApcString
    else _ActionEscDispatch wch;; _EnterGround
  else if _isVt52CursorAddress wch then _EnterVt52Param
  else _ActionVt52EscDispatch wch;; _EnterGround.

Definition _EventEscapeIntermediate (wch : wchar) : M unit :=
  ansi ← gets (GetParserMode Ansi);
  if _isC0Code wch then _ActionExecute wch
  else if _isIntermediate wch then collect wch
  else if _isDelete wch then _ActionIgnore
  else if ansi : bool then _ActionEscDispatch wch;; _EnterGround
  else if _isVt52CursorAddress wch then _EnterVt52Param
  else _ActionVt52EscDispatch wch;; _EnterGround.

Definition _EventOscParam (wch : wchar) : M unit :=
  if _isOscTerminator wch then _ActionOscDispatch;; _EnterGround
  else if _isEscape wch then _EnterOscTermination
  else if _isNumericParamValue wch then modify_parser (_ActionOscParam wch)
  else if _isOscDelimiter wch then _EnterOscString
  else _ActionIgnore.

Definition _EventOscString (wch : wchar) : M unit :=
  if _isOscTerminator wch then _ActionOscDispatch;; _EnterGround
  else if _isEscape wch then _EnterOscTermination
  else if _isOscInvalid wch then _ActionIgnore
  else modify_parser (_ActionOscPut wch).

Definition _EventOscTermination (wch : wchar) : M unit :=
  if _isStringTerminatorIndicator wch then _ActionOscDispatch;; _EnterGround
  else _EnterEscape;; _EventEscape wch.

Definition _EventSs3Entry (wch : wchar) : M unit :=
  if _isC0Code wch then _ActionExecute wch
  else if _isDelete wch then _ActionIgnore
  else if _isSubParameterDelimiter wch then _EnterCsiIgnore
  else if _isNumericParamValue wch || _isParameterDelimiter wch then param wch;; _EnterSs3Param
  else _ActionSs3Dispatch wch;; _EnterGround.

Definition _EventSs3Param (wch : wchar) : M unit :=
  if _isC0Code wch then _ActionExecute wch
  else if _isDelete wch then _ActionIgnore
  else if _isNumericParamValue wch || _isParameterDelimiter wch then param wch
  else if _isParameterInvalid wch || _isSubParameterDelimiter wch then _EnterCsiIgnore
  else _ActionSs3Dispatch wch;; _EnterGround.

Definition _EventVt52Param (wch : wchar) : M unit :=
  if _isC0Code wch then _ActionExecute wch
  else if _isDelete wch then _ActionIgnore
  else
    modify_parser (fun p => set_parameters (_parameters p ++ [wch]) p);;
    size ← with_parser (fun p => length (_parameters p));
    if decide (size = 2%nat) then _ActionVt52EscDispatch 0x59;; _EnterGround else mret tt.

Definition _EventDcsEntry (wch : wchar) : M unit :=
  if _isC0Code wch then _ActionIgnore
  else if _isDelete wch then _ActionIgnore
  else if _isSubParameterDelimiter wch then _EnterDcsIgnore
  else if _isNumericParamValue wch || _isParameterDelimiter wch then param wch;; _EnterDcsParam
  else if _isIntermediate wch then collect wch;; _EnterDcsIntermediate
  else _ActionDcsDispatch wch.

Definition _EventDcsIgnore : M unit := _ActionIgnore.

Definition _EventDcsIntermediate (wch : wchar) : M unit :=
  if _isC0Code wch then _ActionIgnore
  else if _isDelete wch then _ActionIgnore
  else if _isIntermediate wch then collect wch
  else if _isIntermediateInvalid wch then _EnterDcsIgnore
  else _ActionDcsDispatch wch.

(** The source has no [else] between the C0/DEL test and what follows it. *)
Definition _EventDcsParam (wch : wchar) : M unit :=
  (if _isC0Code wch then _ActionIgnore
   else if _isDelete wch then _ActionIgnore
   else mret tt);;
  if _isNumericParamValue wch || _isParameterDelimiter wch then param wch
  else if _isIntermediate wch then collect wch;; _EnterDcsIntermediate
  else if _isParameterInvalid wch || _isSubParameterDelimiter wch then _EnterDcsIgnore
  else _ActionDcsDispatch wch.

Definition _EventDcsPassThrough (wch : wchar) : M unit :=
  if _isC0Code wch || _isDcsPassThroughValid wch then
    ok ← call_dcsStringHandler wch;
    if ok : bool then mret tt else _EnterDcsIgnore
  else _ActionIgnore.

Definition _EventSosPmApcString : M unit := _ActionIgnore.

(** *** Control sequences

    The CSI events run the callback registered with [OnCsiComplete], which may
    process another string: [nested] is that inner [ProcessString]. *)
Section WithNested.
Variable nested : wstring -> M unit.

(** The callback's tail runs when the nested string throws as well: it is a
    [wil::scope_exit] in the source. *)
Definition run_callback (callback : CB) : M unit := fun s =>
  let '(e, string) := CallbackBegin callback (_engine s) in
  let s := set_engine e s in
  match string with
  | None => (s, Returned tt)
  | Some string =>
    let '(s', r) := nested string s in
    (set_engine (CallbackEnd callback (_engine s')) s', r)
  end.

Definition _ExecuteCsiCompleteCallback : M unit :=
  callback ← gets (fun s => _onCsiCompleteCallback (sm_conf s));
  match callback with
  | None => mret tt
  | Some callback =>
    savedCurrentString ← gets (fun s => _currentString (sm_run s));
    savedRunOffset ← gets (fun s => _runOffset (sm_run s));
    savedRunSize ← gets (fun s => _runSize (sm_run s));
    modify (fun s => set_conf (set_onCsiCompleteCallback None (sm_conf s)) s);;
    run_callback callback;;
    modify_run (fun r => set_runSize savedRunSize
      (set_runOffset savedRunOffset (set_currentString savedCurrentString r)))
  end.

Definition csiDispatch (wch : wchar) : M unit :=
  _ActionCsiDispatch wch;; _EnterGround;; _ExecuteCsiCompleteCallback.

Definition _EventCsiEntry (wch : wchar) : M unit :=
  if _isC0Code wch then _ActionExecute wch
  else if _isDelete wch then _ActionIgnore
  else if _isIntermediate wch then collect wch;; _EnterCsiIntermediate
  else if _isNumericParamValue wch || _isParameterDelimiter wch then param wch;; _EnterCsiParam
  else if _isSubParameterDelimiter wch then subParam wch;; _EnterCsiSubParam
  else if _isCsiPrivateMarker wch then collect wch;; _EnterCsiParam
  else csiDispatch wch.

Definition _EventCsiIntermediate (wch : wchar) : M unit :=
  if _isC0Code wch then _ActionExecute wch
  else if _isIntermediate wch then collect wch
  else if _isDelete wch then _ActionIgnore
  else if _isIntermediateInvalid wch then _EnterCsiIgnore
  else csiDispatch wch.

Definition _EventCsiIgnore (wch : wchar) : M unit :=
  if _isC0Code wch then _ActionExecute wch
  else if _isDelete wch then _ActionIgnore
  else if _isIntermediate wch then _ActionIgnore
  else if _isIntermediateInvalid wch then _ActionIgnore
  else _EnterGround.

Definition _EventCsiParam (wch : wchar) : M unit :=
  if _isC0Code wch then _ActionExecute wch
  else if _isDelete wch then _ActionIgnore
  else if _isNumericParamValue wch || _isParameterDelimiter wch then param wch
  else if _isSubParameterDelimiter wch then subParam wch;; _EnterCsiSubParam
  else if _isIntermediate wch then collect wch;; _EnterCsiIntermediate
  else if _isParameterInvalid wch then _EnterCsiIgnore
  else csiDispatch wch.

Definition _EventCsiSubParam (wch : wchar) : M unit :=
  if _isC0Code wch then _ActionExecute wch
  else if _isDelete wch then _ActionIgnore
  else if _isNumericParamValue wch || _isSubParameterDelimiter wch then subParam wch
  else if _isParameterDelimiter wch then param wch;; _EnterCsiParam
  else if _isIntermediate wch then collect wch;; _EnterCsiIntermediate
  else if _isParameterInvalid wch then _EnterCsiIgnore
  else csiDispatch wch.

Definition dispatch_event (state : VTStates) (wch : wchar) : M unit :=
  match state with
  | Ground => _EventGround wch
  | Escape => _EventEscape wch
  | EscapeIntermediate => _EventEscapeIntermediate wch
  | CsiEntry => _EventCsiEntry wch
  | CsiIntermediate => _EventCsiIntermediate wch
  | CsiIgnore => _EventCsiIgnore wch
  | CsiParam => _EventCsiParam wch
  | CsiSubParam => _EventCsiSubParam wch
  | OscParam => _EventOscParam wch
  | OscString => _EventOscString wch
  | OscTermination => _EventOscTermination wch
  | Ss3Entry => _EventSs3Entry wch
  | Ss3Param => _EventSs3Param wch
  | Vt52Param => _EventVt52Param wch
  | DcsEntry => _EventDcsEntry wch
  | DcsIgnore => _EventDcsIgnore
  | DcsIntermediate => _EventDcsIntermediate wch
  | DcsParam => _EventDcsParam wch
  | DcsPassThrough => _EventDcsPassThrough wch
  | SosPmApcString => _EventSosPmApcString
  end.

(** The body of [ProcessCharacter]; [self] is its recursive call, which happens
    for C1 controls only. *)
Definition ProcessCharacter_body (self : wchar -> M unit) (wch : wchar) : M unit :=
  state ← with_parser _state;
  isEngineForInput ← gets (fun s => _isEngineForInput (sm_conf s));
  acceptC1 ← gets (GetParserMode AcceptC1);
  let isFromAnywhereChar := (wch =? AsciiChars.CAN) || (wch =? AsciiChars.SUB) in
  if isFromAnywhereChar && negb (bool_decide (state = Escape) && isEngineForInput) then
    _ActionInterrupt;; _ActionExecute wch;; _EnterGround
  else if _isC1ControlCharacter wch then
    if acceptC1 : bool then self AsciiChars.ESC;; self (_c1To7Bit wch) else mret tt
  else if _isEscape wch && negb (bool_decide (state = OscString)) && negb (bool_decide (state = OscParam)) then
    _ActionInterrupt;; _EnterEscape
  else dispatch_event state wch.

(** The recursion is one level deep: neither ESC nor the 7-bit equivalent of a
    C1 control is itself a C1 control ([ProcessCharacter_unfold] of
    StateMachineSafety.v shows that the two levels are enough). *)
Definition ProcessCharacter : wchar -> M unit :=
  ProcessCharacter_body (ProcessCharacter_body (fun _ => out_of_fuel)).

(** *** ProcessString

    The inner [do ... while] loop: one character at a time until the machine is
    back in the ground state or the string ends; returns what is left. *)
Fixpoint process_vt (rest : wstring) : M wstring :=
  match rest with
  | [] => mret []
  | wch :: rest =>
    modify_run (fun r => set_runSize (_runSize r + 1) r);;
    modify_run (set_processingLastCharacter (bool_decide (rest = [])));;
    ProcessCharacter wch;;
    state ← with_parser _state;
    if decide (state = Ground) then mret rest else process_vt rest
  end.

(** The first half of a round: the text up to the next actionable character is
    printed in one go. *)
Definition print_run (i runSize : nat) : M unit :=
  modify_run (fun r => set_runSize runSize (set_runOffset i r));;
  if decide (runSize = 0%nat) then mret tt
  else
    run ← _CurrentRun;
    _ActionPrintString run;;
    modify_run (fun r => set_runSize 0 (set_runOffset (i + runSize) r)).

(** From the label [processStringLoopVtStart] to the end of the round. *)
Definition vt_start (continue : wstring -> M unit) (rest : wstring) : M unit :=
  match rest with
  | [] => mret tt
  | _ => rest ← process_vt rest; continue rest
  end.

(** The outer loop; [rest] is [string.substr(i)]. The fuel bounds the number of
    rounds; every round consumes a character, so the length is enough. *)
Fixpoint process_loop (fuel : nat) (string rest : wstring) : M unit :=
  match rest with
  | [] => mret tt
  | _ =>
    match fuel with
    | O => out_of_fuel
    | S fuel =>
      let i := (length string - length rest)%nat in
      let runSize := FindActionableControlCharacter rest in
      print_run i runSize;;
      vt_start (process_loop fuel string) (drop runSize rest)
    end
  end.

(** What is left over at the end of the string: for the input engine a trailing
    ESC or Alt+key is dispatched, everything else is kept in case it has to be
    flushed. [run.front()] and [run.back()] are undefined on an empty run. *)
Definition cache_run (run : wstring) : M unit :=
  modify_run (fun r => set_cachedSequence (Some (default [] (_cachedSequence r) ++ run)) r).

Definition handle_trailing_input (run : wstring) : M unit :=
  win32 ← gets (fun s => EncounteredWin32InputModeSequence (_engine s));
  if win32 : bool then cache_run run
  else if (length run <=? 2)%nat then
    match run with
    | [] => undefined
    | front :: tail =>
      if front =? AsciiChars.ESC then
        _EnterGround;;
        match tail with
        | [] => _ActionExecute AsciiChars.ESC
        | _ => _EnterEscape;; _ActionEscDispatch (List.last run front)
        end;;
        _EnterGround
      else cache_run run
    end
  else cache_run run.

Definition finish_string : M unit :=
  state ← with_parser _state;
  if decide (state = Ground) then mret tt
  else
    run ← _CurrentRun;
    isEngineForInput ← gets (fun s => _isEngineForInput (sm_conf s));
    if isEngineForInput : bool then handle_trailing_input run
    else if bool_decide (state = SosPmApcString) || bool_decide (state = DcsPassThrough)
            || bool_decide (state = DcsIgnore) then mret tt
    else cache_run run.

Definition process_current (string : wstring) : M unit :=
  state ← with_parser _state;
  (if decide (state = Ground) then process_loop (length string) string string
   else vt_start (process_loop (length string) string) string);;
  finish_string.

Definition ProcessString_body (string : wstring) : M unit :=
  modify_run (fun r => mkRun string 0 0 (_cachedSequence r) [] (_processingLastCharacter r));;
  process_current string.
End WithNested.

(** [ProcessString] with a bound on how deeply callbacks may inject strings. *)
Fixpoint ProcessString (depth : nat) (string : wstring) : M unit :=
  match depth with
  | O => out_of_fuel
  | S depth => ProcessString_body (ProcessString depth) string
  end.
End Machine.
