(* ===== verification/TraceEngine.v ===== *)
(** * A recording engine

    An instance of the engine interface that logs every action it receives, in
    the manner of the listeners of the parser's unit tests; like the output
    engine it swallows passed-through strings. It is used to state
    what the parser tells its engine and to evaluate the model on concrete
    strings. *)

From S2P Require Import Prelude VtTypes Chars StateMachine.

Inductive Action :=
| Execute (wch : wchar)
| ExecuteFromEscape (wch : wchar)
| Print (string : wstring)
| EscDispatch (id : Z)
| Vt52EscDispatch (id : Z) (parameters : VTParameters.t)
| CsiDispatch (id : Z) (parameters : VTParameters.t)
| DcsDispatch (id : Z) (parameters : VTParameters.t)
| DcsData (wch : wchar)
| OscDispatch (parameter : Z) (string : wstring)
| Ss3Dispatch (wch : wchar) (parameters : VTParameters.t)
| Unknown.

(** The log, oldest action first; consecutive printed text is one entry. *)
Definition Log := list Action.

Definition log_print (string : wstring) (log : Log) : Log :=
  match string with
  | [] => log
  | _ =>
    match last log with
    | Some (Print before) => set_back log (Print (before ++ string))
    | _ => log ++ [Print string]
    end
  end.

(** The recording engine never registers a callback. *)
Definition record (a : Action) (_ : View) (log : Log) : Reply Log Empty_set bool :=
  mkReply (log ++ [a]) [] (Some true).

#[global] Instance TraceEngine : IStateMachineEngine Log unit Empty_set := {
  UnknownSequence := fun log => log ++ [Unknown];
  EncounteredWin32InputModeSequence := fun _ => false;
  ActionExecute := fun wch => record (Execute wch);
  ActionExecuteFromEscape := fun wch => record (ExecuteFromEscape wch);
  ActionPrint := fun wch _ log => mkReply (log_print [wch] log) [] (Some true);
  ActionPrintString := fun string _ log => mkReply (log_print string log) [] (Some true);
  ActionPassThroughString := fun _ _ log => mkReply log [] (Some true);
  ActionEscDispatch := fun id => record (EscDispatch id);
  ActionVt52EscDispatch := fun id parameters => record (Vt52EscDispatch id parameters);
  ActionCsiDispatch := fun id parameters => record (CsiDispatch id parameters);
  ActionDcsDispatch := fun id parameters _ log => mkReply (log ++ [DcsDispatch id parameters]) [] (Some (Some tt));
  ActionOscDispatch := fun parameter string => record (OscDispatch parameter string);
  ActionSs3Dispatch := fun wch parameters => record (Ss3Dispatch wch parameters);
  CallStringHandler := fun _ wch _ log => (tt, mkReply (log ++ [DcsData wch]) [] (Some true));
  CallbackBegin := fun callback log => match callback with end;
  CallbackEnd := fun _ log => log;
}.

(** What the parser tells the engine when a fresh machine gets the strings. *)
Definition run_strings (isEngineForInput : bool) (strings : list wstring) : StateMachine Log unit Empty_set :=
  fold_left (fun s string => (ProcessString 1 string s).1) strings (make_StateMachine [] isEngineForInput).

Definition actions (isEngineForInput : bool) (strings : list wstring) : Log :=
  _engine (run_strings isEngineForInput strings).

(** ** An engine with macros

    After a control sequence with the final character [z] it injects a fixed
    string that ends with that very control sequence, as a macro that invokes
    itself does, until [remaining] invocations are nested. *)
Record Nest := mkNest { nest_log : Log; remaining : nat }.

Definition invocation : wstring := [AsciiChars.ESC; 0x5B; 0x7A].
Definition macro : wstring := 0x61 :: invocation.

Definition nest {A} (f : View -> Log -> Reply Log Empty_set A) (v : View) (e : Nest) : Reply Nest unit A :=
  let r := f v (nest_log e) in
  mkReply (mkNest (reply_engine r) (remaining e)) [] (reply_value r).

#[global] Instance NestEngine : IStateMachineEngine Nest unit unit := {
  UnknownSequence := fun e => mkNest (UnknownSequence (nest_log e)) (remaining e);
  EncounteredWin32InputModeSequence := fun _ => false;
  ActionExecute := fun wch => nest (ActionExecute wch);
  ActionExecuteFromEscape := fun wch => nest (ActionExecuteFromEscape wch);
  ActionPrint := fun wch => nest (ActionPrint wch);
  ActionPrintString := fun string => nest (ActionPrintString string);
  ActionPassThroughString := fun string => nest (ActionPassThroughString string);
  ActionEscDispatch := fun id => nest (ActionEscDispatch id);
  ActionVt52EscDispatch := fun id parameters => nest (ActionVt52EscDispatch id parameters);
  ActionCsiDispatch := fun id parameters v e =>
    let r := nest (ActionCsiDispatch id parameters) v e in
    mkReply (reply_engine r) (if id =? 0x7A then [ReqOnCsiComplete tt] else []) (reply_value r);
  ActionDcsDispatch := fun id parameters => nest (ActionDcsDispatch id parameters);
  ActionOscDispatch := fun parameter string => nest (ActionOscDispatch parameter string);
  ActionSs3Dispatch := fun wch parameters => nest (ActionSs3Dispatch wch parameters);
  CallStringHandler := fun h wch v e => (h, nest (fun v log => (CallStringHandler h wch v log).2) v e);
  CallbackBegin := fun _ e =>
    match remaining e with
    | O => (e, None)
    | S n => (mkNest (nest_log e) n, Some macro)
    end;
  CallbackEnd := fun _ e => mkNest (nest_log e) (S (remaining e));
}.

(** ** Every engine, as seen by the parser

    An engine is what it answers to the calls made so far. It may throw, call back the
    setters of the machine, decline or handle device control strings and inject strings
    from callbacks, all depending on the log and on the modes of the parser. It does not
    answer differently at the end of a string ([IsProcessingLastCharacter]), it swallows
    passed-through strings, and printing neither fails nor calls back. *)
Record Answers (H CB : Type) := mkAnswers {
  on_action : Action -> View -> Log -> list (Request CB) * option bool;
  on_dcs : Z -> VTParameters.t -> View -> Log -> list (Request CB) * option (option H);
  on_data : H -> wchar -> View -> Log -> H * (list (Request CB) * option bool);
  on_callback : CB -> Log -> option wstring
}.
Arguments on_action {H CB} _ _ _ _.
Arguments on_dcs {H CB} _ _ _ _ _.
Arguments on_data {H CB} _ _ _ _ _.
Arguments on_callback {H CB} _ _ _.

(** What it sees of the parser: its modes. *)
Definition unaware (v : View) : View := mkView (view_AcceptC1 v) (view_Ansi v) false.

Definition answered {CB A} (entry : Action) (answer : View -> Log -> list (Request CB) * option A) (v : View) (log : Log) : Reply Log CB A :=
  let '(requests, value) := answer (unaware v) log in mkReply (log ++ [entry]) requests value.

Definition Recorder {H CB} (a : Answers H CB) : IStateMachineEngine Log H CB :=
  let act entry := answered entry (on_action a entry) in {|
  UnknownSequence := fun log => log ++ [Unknown];
  EncounteredWin32InputModeSequence := fun _ => false;
  ActionExecute := fun wch => act (Execute wch);
  ActionExecuteFromEscape := fun wch => act (ExecuteFromEscape wch);
  ActionPrint := fun wch _ log => mkReply (log_print [wch] log) [] (Some true);
  ActionPrintString := fun string _ log => mkReply (log_print string log) [] (Some true);
  ActionPassThroughString := fun _ _ log => mkReply log [] (Some true);
  ActionEscDispatch := fun id => act (EscDispatch id);
  ActionVt52EscDispatch := fun id parameters => act (Vt52EscDispatch id parameters);
  ActionCsiDispatch := fun id parameters => act (CsiDispatch id parameters);
  ActionDcsDispatch := fun id parameters => answered (DcsDispatch id parameters) (on_dcs a id parameters);
  ActionOscDispatch := fun parameter string => act (OscDispatch parameter string);
  ActionSs3Dispatch := fun wch parameters => act (Ss3Dispatch wch parameters);
  CallStringHandler := fun h wch v log => let '(h', (requests, value)) := on_data a h wch (unaware v) log in (h', mkReply (log ++ [DcsData wch]) requests value);
  CallbackBegin := fun callback log => (log, on_callback a callback log);
  CallbackEnd := fun _ log => log
|}.
