(* ===== verification/ParserInvariant.v ===== *)
(** * The well-formedness invariant of the parser

    What holds of the accumulated parameters, sub-parameters, identifier and
    string handler in every state of the machine, and that the operations on the
    parser's own fields preserve it. *)

From S2P Require Import Prelude VtTypes Chars StateMachine.

(** A parameter is omitted (-1) or a value up to [MAX_PARAMETER_VALUE]. *)
Definition param_value_ok (v : Z) : Prop := -1 <= v <= MAX_PARAMETER_VALUE.

(** Consecutive ranges that cover the sub-parameters from [start] to [stop], each
    holding at most [MAX_SUBPARAMETER_COUNT] of them. *)
Fixpoint ranges_chain (start : Z) (ranges : list (Z * Z)) (stop : Z) : Prop :=
  match ranges with
  | [] => start = stop
  | (first, second) :: ranges =>
    first = start /\ first <= second <= first + MAX_SUBPARAMETER_COUNT /\ ranges_chain second ranges stop
  end.

(** [_idAccumulator] holds exactly the bytes below [_idShift]. *)
Definition identifier_ok (b : VTIDBuilder.t) : Prop :=
  exists k, VTIDBuilder._idShift b = 8 * k /\ 0 <= k <= 6 /\
            0 <= VTIDBuilder._idAccumulator b < 2 ^ (8 * k).

Definition current_range_size (ranges : list (Z * Z)) : Z :=
  match last ranges with Some (first, second) => second - first | None => 0 end.

(** ** The part that does not depend on the state *)
Record core_ok {H} (p : Parser H) : Prop := {
  ok_parameter_count : (length (_parameters p) <= MAX_PARAMETER_COUNT)%nat;
  ok_parameters : Forall param_value_ok (_parameters p);
  ok_subParameters : Forall param_value_ok (_subParameters p);
  ok_ranges : ranges_chain 0 (_subParameterRanges p) (Z.of_nat (length (_subParameters p)));
  ok_range_count : (length (_subParameterRanges p) <= length (_parameters p))%nat;
  ok_counter : _subParameterCounter p = current_range_size (_subParameterRanges p);
  ok_oscParameter : 0 <= _oscParameter p <= MAX_PARAMETER_VALUE;
  ok_identifier : identifier_ok (_identifier p);
}.

(** ** The part that does *)
Definition ranges_follow_parameters {H} (p : Parser H) : Prop :=
  length (_subParameterRanges p) = length (_parameters p).

Definition state_ok {H} (state : VTStates) (p : Parser H) : Prop :=
  match state with
  | Escape | EscapeIntermediate => _parameters p = []
  | Vt52Param => (length (_parameters p) < 2)%nat
  | CsiEntry | CsiParam | Ss3Entry | Ss3Param | DcsEntry | DcsParam => ranges_follow_parameters p
  | CsiSubParam =>
    ranges_follow_parameters p /\
    (_subParameterLimitOverflowed p = false -> 0 < _subParameterCounter p)
  | DcsPassThrough => is_Some (_dcsStringHandler p)
  | _ => True
  end.

Definition parser_ok {H} (p : Parser H) : Prop := core_ok p /\ state_ok (_state p) p.

(** ** Ranges *)
Lemma ranges_chain_app start r1 r2 stop :
  ranges_chain start (r1 ++ r2) stop <-> exists mid, ranges_chain start r1 mid /\ ranges_chain mid r2 stop.
Proof.
  revert start. induction r1 as [|[a b] r1 IH]; intros start; simpl.
  - split; [by exists start|by intros (? & -> & ?)].
  - rewrite IH. split.
    + intros (-> & Hb & mid & H1 & H2). exists mid. done.
    + intros (mid & (-> & Hb & H1) & H2). split; [done|]. split; [done|]. by exists mid.
Qed.

Lemma ranges_chain_bound start ranges stop :
  ranges_chain start ranges stop ->
  start <= stop <= start + MAX_SUBPARAMETER_COUNT * Z.of_nat (length ranges).
Proof.
  revert start. induction ranges as [|[a b] ranges IH]; intros start; simpl; [lia|].
  intros (-> & Hb & Hr). specialize (IH _ Hr). lia.
Qed.

(** All indices of sub-parameters fit in a byte: 32 * 6 = 192. *)
Lemma subParameter_count_bound {H} (p : Parser H) :
  core_ok p -> Z.of_nat (length (_subParameters p)) <= 192.
Proof.
  intros [? _ _ Hr Hn _ _ _]. apply ranges_chain_bound in Hr.
  unfold MAX_PARAMETER_COUNT, MAX_SUBPARAMETER_COUNT in *. lia.
Qed.

Lemma u8_small z : 0 <= z < 256 -> u8 z = z.
Proof. intros. by apply Z.mod_small. Qed.

Lemma set_back_snoc {A} (l : list A) x y : set_back (l ++ [x]) y = l ++ [y].
Proof.
  unfold set_back. rewrite length_app. simpl. f_equal.
  replace (length l + 1 - 1)%nat with (length l) by lia. by rewrite take_app_length.
Qed.

Lemma last_set_back {A} (l : list A) x : last (set_back l x) = Some x.
Proof. unfold set_back. apply last_snoc. Qed.

Lemma set_back_twice {A} (l : list A) x y : set_back (set_back l x) y = set_back l y.
Proof. unfold set_back at 2. by rewrite set_back_snoc. Qed.

Lemma length_set_back {A} (l : list A) y : l <> [] -> length (set_back l y) = length l.
Proof.
  intros Hl. destruct (list_eq_nil_dec l) as [->|]; [done|].
  destruct (exists_last Hl) as (l' & x & ->). rewrite set_back_snoc, !length_app. done.
Qed.

Lemma Forall_set_back {A} (P : A -> Prop) l y : Forall P l -> P y -> Forall P (set_back l y).
Proof. intros Hl Hy. apply Forall_app. split; [by apply Forall_take|by constructor]. Qed.

Lemma last_ok {A} (P : A -> Prop) l d : Forall P l -> P d -> P (default d (last l)).
Proof.
  intros Hl Hd. destruct (last l) eqn:E; simpl; [|done].
  rewrite Forall_forall in Hl. apply Hl. apply last_Some_elem_of in E. done.
Qed.

(** ** Operations *)
Lemma AccumulateTo_ok wch value :
  _isNumericParamValue wch = true -> 0 <= value <= MAX_PARAMETER_VALUE ->
  0 <= _AccumulateTo wch value <= MAX_PARAMETER_VALUE.
Proof.
  unfold _isNumericParamValue, _AccumulateTo, MAX_PARAMETER_VALUE. intros Hw Hv.
  rewrite andb_true_iff, !Z.leb_le in Hw.
  destruct (Z.ltb_spec 65535 (value * 10 + (wch - 48))); lia.
Qed.

Lemma value_or_ok v : param_value_ok v -> 0 <= VTParameter.value_or v 0 <= MAX_PARAMETER_VALUE.
Proof.
  unfold param_value_ok, VTParameter.value_or. intros.
  destruct (Z.ltb_spec v 0); unfold MAX_PARAMETER_VALUE in *; lia.
Qed.

Lemma default_param_ok : param_value_ok VTParameter.default.
Proof. unfold param_value_ok, VTParameter.default, MAX_PARAMETER_VALUE. lia. Qed.

Lemma accumulated_param_ok wch l :
  _isNumericParamValue wch = true -> Forall param_value_ok l ->
  param_value_ok (_AccumulateTo wch (VTParameter.value_or (default VTParameter.default (last l)) 0)).
Proof.
  intros Hw Hl. pose proof (last_ok _ l VTParameter.default Hl default_param_ok) as Hd.
  pose proof (AccumulateTo_ok wch _ Hw (value_or_ok _ Hd)).
  unfold param_value_ok. lia.
Qed.

Lemma identifier_ok_Clear : identifier_ok VTIDBuilder.Clear.
Proof. exists 0. simpl. lia. Qed.

Lemma identifier_ok_AddIntermediate b wch :
  identifier_ok b -> 0 <= wch < 256 -> identifier_ok (VTIDBuilder.AddIntermediate b wch).
Proof.
  intros (k & Hs & Hk & Ha) Hw. unfold VTIDBuilder.AddIntermediate. rewrite Hs.
  destruct (Z.leb_spec (8 * 8) (8 * k + 8 * 2)); [exists k; simpl; lia|].
  exists (k + 1). simpl. split; [lia|]. split; [lia|].
  rewrite Z.shiftl_mul_pow2 by lia.
  assert (2 ^ (8 * (k + 1)) = 256 * 2 ^ (8 * k)) as Hp
    by (replace (8 * (k + 1)) with (8 + 8 * k) by lia; by rewrite Z.pow_add_r by lia).
  assert (2 ^ (8 * (k + 1)) <= 2 ^ 64) by (apply Z.pow_le_mono_r; lia).
  rewrite Hp in *. set (P := 2 ^ (8 * k)) in *.
  assert (wch * P <= 255 * P) by (apply Z.mul_le_mono_nonneg_r; lia).
  assert (0 <= wch * P) by (apply Z.mul_nonneg_nonneg; lia).
  unfold u64. rewrite (Z.mod_small (wch * P)) by lia. rewrite Z.mod_small by lia. lia.
Qed.

Section operations.
Context {H : Type}.
Implicit Types p : Parser H.

Lemma core_ok_ActionClear p : core_ok (_ActionClear p).
Proof.
  constructor; simpl; unfold MAX_PARAMETER_COUNT, MAX_PARAMETER_VALUE; try done; try lia.
  apply identifier_ok_Clear.
Qed.

Lemma core_ok_set_state st p : core_ok p -> core_ok (set_state st p).
Proof. intros []; by constructor. Qed.

Lemma core_ok_set_handler h p : core_ok p -> core_ok (set_dcsStringHandler h p).
Proof. intros []; by constructor. Qed.

Lemma core_ok_ActionCollect wch p : core_ok p -> 0 <= wch < 256 -> core_ok (_ActionCollect wch p).
Proof. intros [] Hw; constructor; simpl; try done. by apply identifier_ok_AddIntermediate. Qed.

Lemma core_ok_ActionOscPut wch p : core_ok p -> core_ok (_ActionOscPut wch p).
Proof. intros []; by constructor. Qed.

Lemma core_ok_ActionOscParam wch p :
  core_ok p -> _isNumericParamValue wch = true -> core_ok (_ActionOscParam wch p).
Proof. intros [] Hw; constructor; simpl; try done. by apply AccumulateTo_ok. Qed.

Lemma core_ok_set_limit b p : core_ok p -> core_ok (set_subParameterLimitOverflowed b p).
Proof. intros []; by constructor. Qed.

(** A new, empty parameter: its range is empty and the counter starts again. *)
Lemma core_ok_add_empty_parameter p (q := set_subParameterCounter 0 p) :
  core_ok p -> ranges_follow_parameters p -> (length (_parameters p) < MAX_PARAMETER_COUNT)%nat ->
  core_ok (add_empty_parameter q) /\ ranges_follow_parameters (add_empty_parameter q).
Proof.
  intros Hok Hf Hl. pose proof (subParameter_count_bound p Hok) as Hb. destruct Hok.
  unfold ranges_follow_parameters in *. split.
  - constructor; simpl; rewrite ?length_app, ?u8_small by lia; simpl; try done; try lia.
    + apply Forall_app. split; [done|]. constructor; [apply default_param_ok|done].
    + apply ranges_chain_app. exists (Z.of_nat (length (_subParameters p))). split; [done|].
      simpl. unfold MAX_SUBPARAMETER_COUNT. lia.
    + unfold current_range_size. rewrite last_snoc. lia.
  - simpl. rewrite !length_app. simpl. lia.
Qed.

Lemma core_ok_ensure_parameter p :
  core_ok p -> ranges_follow_parameters p ->
  core_ok (ensure_parameter p) /\ ranges_follow_parameters (ensure_parameter p).
Proof.
  intros Hok Hf. unfold ensure_parameter. destruct (_parameters p) eqn:E; [|done].
  assert (_subParameterRanges p = []) as Hr
    by (apply nil_length_inv; rewrite Hf, E; done).
  replace p with (set_subParameterCounter 0 p)
    by (destruct Hok, p; unfold set_subParameterCounter; simpl in *; by subst).
  apply core_ok_add_empty_parameter; try done.
  rewrite E. unfold MAX_PARAMETER_COUNT. simpl. lia.
Qed.

Lemma ensure_parameter_nonempty p : _parameters (ensure_parameter p) <> [].
Proof.
  unfold ensure_parameter. destruct (_parameters p) eqn:E; simpl; [|by rewrite E].
  rewrite E. done.
Qed.

Lemma core_ok_ActionParam wch p :
  core_ok p -> ranges_follow_parameters p ->
  _isNumericParamValue wch = true \/ _isParameterDelimiter wch = true ->
  core_ok (_ActionParam wch p) /\ ranges_follow_parameters (_ActionParam wch p).
Proof.
  intros Hok Hf Hw. unfold _ActionParam. destruct (_parameterLimitOverflowed p); [done|].
  destruct (core_ok_ensure_parameter p Hok Hf) as [Hok' Hf'].
  pose proof (ensure_parameter_nonempty p) as Hne.
  destruct (_isParameterDelimiter wch) eqn:Hd.
  - destruct (Nat.leb_spec MAX_PARAMETER_COUNT (length (_parameters (ensure_parameter p)))).
    + split; [|done]. destruct Hok'. by constructor.
    + by apply (core_ok_add_empty_parameter (set_subParameterLimitOverflowed false (ensure_parameter p)));
        [apply core_ok_set_limit|..].
  - destruct Hw as [Hw|Hw]; [|done]. unfold ranges_follow_parameters in *. destruct Hok'. split.
    + constructor; simpl; rewrite ?length_set_back by done; try done.
      apply Forall_set_back; [done|]. by apply accumulated_param_ok.
    + simpl. by rewrite length_set_back.
Qed.

Lemma last_ranges_chain start ranges first second stop :
  ranges_chain start (ranges ++ [(first, second)]) stop -> second = stop /\ start <= first.
Proof.
  intros Hc. apply ranges_chain_app in Hc as (mid & Hc & Hl). simpl in Hl.
  apply ranges_chain_bound in Hc. destruct Hl as (-> & _ & ->). lia.
Qed.

(** A sub-parameter digit or delimiter never reads the back of an empty vector,
    keeps the invariant, and leaves the machine with a current sub-parameter
    unless the limit has been exceeded. *)
Lemma ActionSubParam_ok wch p :
  core_ok p -> ranges_follow_parameters p ->
  _isSubParameterDelimiter wch = true \/
  (_isNumericParamValue wch = true /\ (_subParameterLimitOverflowed p = false -> 0 < _subParameterCounter p)) ->
  exists p', _ActionSubParam wch p = Some p' /\ core_ok p' /\ ranges_follow_parameters p' /\
             (_subParameterLimitOverflowed p' = false -> 0 < _subParameterCounter p').
Proof.
  intros Hok Hf Hw. unfold _ActionSubParam.
  destruct (_subParameterLimitOverflowed p) eqn:Hlim; [exists p; rewrite Hlim; done|].
  destruct (core_ok_ensure_parameter p Hok Hf) as [Hok' Hf'].
  pose proof (ensure_parameter_nonempty p) as Hne.
  pose proof (subParameter_count_bound _ Hok') as Hb.
  remember (ensure_parameter p) as q eqn:Hq. pose proof Hok' as Hok''. destruct Hok''.
  unfold ranges_follow_parameters in *.
  assert (_subParameterRanges q <> []) as Hrne.
  { intros E. rewrite E in Hf'. by destruct (_parameters q). }
  destruct (exists_last Hrne) as (ranges & [first second] & Hr).
  rewrite Hr in *. pose proof (last_ranges_chain _ _ _ _ _ ok_ranges0) as [Hsec Hfirst].
  unfold current_range_size in ok_counter0. rewrite last_snoc in ok_counter0.
  destruct (_isSubParameterDelimiter wch) eqn:Hd.
  - destruct (Z.leb_spec MAX_SUBPARAMETER_COUNT (_subParameterCounter q)) as [Hc|Hc].
    + eexists. split; [done|]. simpl. split; [by apply core_ok_set_limit|]. by rewrite Hr.
    + rewrite last_snoc. unfold MAX_SUBPARAMETER_COUNT in Hc.
      pose proof ok_ranges0 as Hch. apply ranges_chain_app in Hch as (mid & Hch & Hl). simpl in Hl.
      eexists. split; [done|]. rewrite set_back_snoc. simpl.
      rewrite !u8_small by lia. split; [|split; [rewrite <- Hf', !length_app; done|lia]].
      constructor; simpl; rewrite ?length_app; try done.
      * apply Forall_app. split; [done|]. constructor; [apply default_param_ok|done].
      * apply ranges_chain_app. exists mid. split; [done|]. simpl.
        unfold MAX_SUBPARAMETER_COUNT. lia.
      * rewrite length_app in ok_range_count0. done.
      * unfold current_range_size. rewrite last_snoc. lia.
  - destruct Hw as [Hw|[Hw Hpos]]; [done|]. specialize (Hpos eq_refl).
    assert (_subParameterCounter q = _subParameterCounter p) as Hcq
      by (rewrite Hq; unfold ensure_parameter; by destruct (_parameters p)).
    assert (_subParameters q <> []) as Hsne by (intros E; rewrite E in Hsec; simpl in Hsec; lia).
    destruct (exists_last Hsne) as (subs & sub & Hs). rewrite Hs in *.
    rewrite last_snoc. eexists. split; [done|]. rewrite set_back_snoc.
    split; [|split; [simpl; by rewrite Hr|simpl; lia]].
    apply Forall_app in ok_subParameters0 as [Hs1 Hs2]. inv Hs2.
    constructor; simpl; rewrite ?Hr; try done.
    + apply Forall_app. split; [done|]. constructor; [|done].
      pose proof (AccumulateTo_ok wch _ Hw (value_or_ok sub H2)). unfold param_value_ok. lia.
    + rewrite !length_app in *. done.
    + unfold current_range_size. by rewrite last_snoc.
Qed.
End operations.
