(* ===== verification/StateMachineSafety.v ===== *)
(** * Safety and termination of the parser

    For every engine, processing a string keeps the invariant of
    [ParserInvariant] and never reaches undefined behaviour; with an engine whose
    callbacks nest to a bounded depth, it also returns. *)

From S2P Require Import Prelude VtTypes Chars StateMachine ParserInvariant.

(** ** What an engine promises about nesting

    [budget e] bounds how many more callbacks may still inject strings inside
    each other. Under [F] nothing is asked of the budget or of the pass-through
    action, and the conclusions are about what holds if the call returns. *)
Definition keeps_budget {E CB A} (budget : E -> nat) (f : View -> E -> Reply E CB A) : Prop :=
  forall v e, budget (reply_engine (f v e)) = budget e.

Class BoundedNesting {E H CB} `{IStateMachineEngine E H CB} (F : Prop) (budget : E -> nat) : Prop := {
  bn_UnknownSequence : forall e, budget (UnknownSequence e) = budget e;
  bn_Execute : forall wch, keeps_budget budget (ActionExecute wch);
  bn_ExecuteFromEscape : forall wch, keeps_budget budget (ActionExecuteFromEscape wch);
  bn_Print : forall wch, keeps_budget budget (ActionPrint wch);
  bn_PrintString : forall s, keeps_budget budget (ActionPrintString s);
  bn_PassThrough : forall s, keeps_budget budget (ActionPassThroughString s);
  bn_Esc : forall id, keeps_budget budget (ActionEscDispatch id);
  bn_Vt52 : forall id ps, keeps_budget budget (ActionVt52EscDispatch id ps);
  bn_Csi : forall id ps, keeps_budget budget (ActionCsiDispatch id ps);
  bn_Dcs : forall id ps, keeps_budget budget (ActionDcsDispatch id ps);
  bn_Osc : forall n s, keeps_budget budget (ActionOscDispatch n s);
  bn_Ss3 : forall wch ps, keeps_budget budget (ActionSs3Dispatch wch ps);
  bn_Handler : forall h wch, keeps_budget budget (fun v e => (CallStringHandler h wch v e).2);
  bn_Begin_None : forall cb e, (CallbackBegin cb e).2 = None -> budget (CallbackBegin cb e).1 = budget e;
  bn_Begin_Some : forall cb e, is_Some (CallbackBegin cb e).2 -> F \/ (budget (CallbackBegin cb e).1 < budget e)%nat;
  bn_End : forall cb e0 e1, is_Some (CallbackBegin cb e0).2 -> budget e1 = budget (CallbackBegin cb e0).1 ->
    budget (CallbackEnd cb e1) = budget e0;
  bn_PassThrough_value : F \/ (forall s v e, reply_value (ActionPassThroughString s v e) <> Some false);
}.

(** Without any assumption on the engine: partial correctness. *)
#[export] Instance BoundedNesting_True {E H CB} `{IStateMachineEngine E H CB} :
  BoundedNesting True (fun _ : E => 0%nat).
Proof. constructor; try done; intros; by left. Qed.

Section Safety.
Context {E H CB : Type} `{!IStateMachineEngine E H CB} (F : Prop) (budget : E -> nat)
        `{!BoundedNesting F budget}.
Abbreviation Mach := (StateMachine E H CB).
Implicit Types s : Mach.

Ltac budget := intros; first
  [ apply (bn_Execute (F:=F)) | apply (bn_ExecuteFromEscape (F:=F)) | apply (bn_Print (F:=F))
  | apply (bn_PrintString (F:=F)) | apply (bn_PassThrough (F:=F)) | apply (bn_Esc (F:=F))
  | apply (bn_Vt52 (F:=F)) | apply (bn_Csi (F:=F)) | apply (bn_Dcs (F:=F)) | apply (bn_Osc (F:=F))
  | apply (bn_Ss3 (F:=F)) ].

(** What no engine call and no event changes. *)
Definition kept s s' : Prop :=
  _isEngineForInput (sm_conf s') = _isEngineForInput (sm_conf s) /\ budget (_engine s') = budget (_engine s).

Definition position (s : Mach) := (_currentString (sm_run s), _runOffset (sm_run s), _runSize (sm_run s)).

(** What an engine call leaves alone. *)
Definition framed s s' : Prop :=
  sm_parser s' = sm_parser s /\ kept s s' /\ position s' = position s.

Lemma framed_refl s : framed s s.
Proof. repeat split. Qed.

Lemma framed_trans s1 s2 s3 : framed s1 s2 -> framed s2 s3 -> framed s1 s3.
Proof. unfold framed, kept. intuition congruence. Qed.

Lemma framed_request s r : framed s (apply_request s r).
Proof. destruct r; repeat split. Qed.

Lemma framed_requests s rs : framed s (fold_left apply_request rs s).
Proof.
  revert s. induction rs as [|r rs IH]; intros s; simpl; [apply framed_refl|].
  eapply framed_trans; [apply framed_request|apply IH].
Qed.

Definition framing {A} (m : comp Mach A) : Prop :=
  forall s, wp m (fun _ => framed s) (framed s) F s.

Lemma framing_engine_call {A} (f : View -> E -> Reply E CB A) : keeps_budget budget f -> framing (engine_call f).
Proof.
  intros Hf s. unfold wp, engine_call, apply_reply.
  assert (framed s (fold_left apply_request (reply_requests (f (view s) (_engine s)))
                      (set_engine (reply_engine (f (view s) (_engine s))) s))) as Hfr.
  { eapply framed_trans; [|apply framed_requests]. repeat split. apply Hf. }
  by destruct (reply_value _).
Qed.

Lemma framing_bind {A B} (m : comp Mach A) (k : A -> comp Mach B) :
  framing m -> (forall a, framing (k a)) -> framing (m ≫= k).
Proof.
  intros Hm Hk s. apply wp_bind. eapply wp_mono; [apply Hm| |done|done].
  intros a s' Hs'. eapply wp_mono; [apply (Hk a s')| | |done].
  - intros b s'' Hs''. by apply (framed_trans _ s').
  - intros s'' Hs''. by apply (framed_trans _ s').
Qed.

Lemma framing_gets {A} (f : Mach -> A) : framing (gets f).
Proof. intros s. apply framed_refl. Qed.

Lemma framing_ret {A} (a : A) : framing (mret a).
Proof. intros s. apply framed_refl. Qed.

Lemma framing_run (f : Run -> Run) :
  (forall r, (_currentString (f r), _runOffset (f r), _runSize (f r)) = (_currentString r, _runOffset r, _runSize r)) ->
  framing (modify_run f).
Proof. intros Hf s. split; [done|]. split; [done|]. apply Hf. Qed.

Lemma framing_CurrentRun : framing _CurrentRun.
Proof. intros s. unfold wp, _CurrentRun. destruct (_ <=? _)%nat; apply framed_refl. Qed.

Lemma framing_SafeExecute_with flush lambda :
  framing flush -> framing lambda -> framing (SafeExecute_with flush lambda).
Proof.
  intros Hf Hl s. specialize (Hl s). unfold wp, SafeExecute_with in *.
  destruct (lambda s) as [s' [[]| | |]]; try done.
  specialize (Hf s'). unfold wp in Hf.
  destruct (flush s') as [s'' []]; try done; by eapply framed_trans.
Qed.

Definition never_false : Prop :=
  forall str v e, reply_value (ActionPassThroughString str v e) <> Some false.

(** Flushing needs one level of recursion: the pass-through action does not
    return [false], or else running out of fuel is allowed. *)
Lemma framing_passthrough flush (m : comp Mach wstring) :
  framing flush \/ never_false -> framing m ->
  framing (SafeExecute_with flush (run ← m; engine_call (ActionPassThroughString run))).
Proof.
  intros Hflush Hm.
  assert (framing (run ← m; engine_call (ActionPassThroughString run))) as Hl
    by (apply framing_bind; [done|]; intros; apply framing_engine_call; budget).
  destruct Hflush as [Hflush|Hv]; [by apply framing_SafeExecute_with|].
  intros s. specialize (Hl s). unfold wp, SafeExecute_with in *.
  destruct ((run ← m; engine_call (ActionPassThroughString run)) s) as [s' [[]| | |]] eqn:Hs; try done.
  exfalso.
  unfold mbind, comp_bind in Hs. destruct (m s) as [s1 [run| | |]]; try done.
  unfold engine_call, apply_reply in Hs. specialize (Hv run (view s1) (_engine s1)).
  destruct (reply_value _) as [[]|]; naive_solver.
Qed.

Lemma framing_FlushToTerminal_step n :
  framing (FlushToTerminal n) \/ never_false -> framing (FlushToTerminal (S n)).
Proof.
  intros Hn. simpl.
  assert (forall success : bool, framing (if success
    then SafeExecute_with (FlushToTerminal n) (run ← _CurrentRun; engine_call (ActionPassThroughString run))
    else mret success)) as Hrun.
  { intros [|]; [|apply framing_ret]. apply framing_passthrough; [done|apply framing_CurrentRun]. }
  apply framing_bind; [apply framing_gets|]. intros [sequence|];
    (apply framing_bind; [|apply Hrun]); [|apply framing_ret].
  apply framing_bind.
  - exact (framing_passthrough (FlushToTerminal n) (mret sequence) Hn (framing_ret _)).
  - intros success. apply framing_bind; [by apply framing_run|]. intros. apply framing_ret.
Qed.

Lemma framing_FlushToTerminal fuel : framing (FlushToTerminal (S fuel)).
Proof.
  destruct bn_PassThrough_value as [HF|Hv].
  - apply framing_FlushToTerminal_step. left. induction fuel as [|n IH]; [by intros s|].
    apply framing_FlushToTerminal_step. by left.
  - apply framing_FlushToTerminal_step. by right.
Qed.

Lemma framing_SafeExecute lambda : framing lambda -> framing (_SafeExecute lambda).
Proof. intros. apply framing_SafeExecute_with; [apply framing_FlushToTerminal|done]. Qed.

Lemma framing_execute lambda : framing lambda -> framing (execute lambda).
Proof. intros. apply framing_bind; [by apply framing_SafeExecute|]. intros. apply framing_ret. Qed.

(** [_SafeExecute] swallows every exception. *)
Definition quiet {A} (m : comp Mach A) : Prop := forall s, wp m (fun _ => framed s) (fun _ => False) F s.

Lemma quiet_execute lambda : framing lambda -> quiet (execute lambda).
Proof.
  intros Hl s. pose proof (framing_execute lambda Hl s) as Hs. revert Hs.
  unfold wp, execute, _SafeExecute, SafeExecute_with, mbind, comp_bind.
  destruct (lambda s) as [s' [[]| | |]]; try done.
  by destruct (FlushToTerminal flush_fuel s') as [s'' []].
Qed.

(** All actions that only talk to the engine are framing. *)
Ltac framing :=
  repeat first
    [ apply framing_execute | apply framing_engine_call; solve [budget]
    | apply framing_bind; [|intros] | apply framing_gets | apply framing_ret ].

Lemma quiet_Vt52EscDispatch wch : quiet (_ActionVt52EscDispatch wch).
Proof. apply quiet_execute. framing. Qed.
Lemma framing_ActionExecute wch : framing (_ActionExecute wch).
Proof. framing. Qed.
Lemma framing_ActionExecuteFromEscape wch : framing (_ActionExecuteFromEscape wch).
Proof. framing. Qed.
Lemma framing_ActionPrint wch : framing (_ActionPrint wch).
Proof. framing. Qed.
Lemma framing_ActionPrintString str : framing (_ActionPrintString str).
Proof. framing. Qed.
Lemma framing_ActionEscDispatch wch : framing (_ActionEscDispatch wch).
Proof. framing. Qed.
Lemma framing_ActionVt52EscDispatch wch : framing (_ActionVt52EscDispatch wch).
Proof. framing. Qed.
Lemma framing_ActionCsiDispatch wch : framing (_ActionCsiDispatch wch).
Proof. framing. Qed.
Lemma framing_ActionOscDispatch : framing _ActionOscDispatch.
Proof. framing. Qed.
Lemma framing_ActionSs3Dispatch wch : framing (_ActionSs3Dispatch wch).
Proof. framing. Qed.

(** ** Events keep the invariant *)
Definition good s s' : Prop := parser_ok (sm_parser s') /\ kept s s' /\ position s' = position s.
Definition gone s s' : Prop := parser_ok (sm_parser s') /\ kept s s'.

Definition step_ok {A} (m : comp Mach A) s : Prop := wp m (fun _ => good s) (gone s) F s.

Lemma framed_good s s' : framed s s' -> parser_ok (sm_parser s) -> good s s'.
Proof. intros (Hp & Hk & Hpos) Hok. split; [by rewrite Hp|done]. Qed.

Lemma good_gone s s' : good s s' -> gone s s'.
Proof. by intros (? & ? & ?). Qed.

Lemma good_trans s1 s2 s3 : good s1 s2 -> good s2 s3 -> good s1 s3.
Proof. unfold good, kept. intuition congruence. Qed.

Lemma good_gone_trans s1 s2 s3 : good s1 s2 -> gone s2 s3 -> gone s1 s3.
Proof. unfold good, gone, kept. intuition congruence. Qed.

Lemma step_ok_framing {A} (m : comp Mach A) s : framing m -> parser_ok (sm_parser s) -> step_ok m s.
Proof.
  intros Hm Hok. eapply wp_mono; [apply Hm| | |done]; simpl; intros.
  - by apply framed_good.
  - by apply good_gone, framed_good.
Qed.

Lemma step_ok_bind {A B} (m : comp Mach A) (k : A -> comp Mach B) s :
  step_ok m s -> (forall a s', good s s' -> step_ok (k a) s') -> step_ok (m ≫= k) s.
Proof.
  intros Hm Hk. apply wp_bind. eapply wp_mono; [apply Hm| |done|done]. simpl.
  intros a s' Hs'. eapply wp_mono; [by apply Hk| | |done]; simpl.
  - intros _ s'' Hs''. by eapply good_trans.
  - intros s'' Hs''. by eapply good_gone_trans.
Qed.

(** After an action that leaves the parser alone, more is known of the state. *)
Lemma step_ok_bind_framing {A B} (m : comp Mach A) (k : A -> comp Mach B) s :
  framing m -> parser_ok (sm_parser s) -> (forall a s', framed s s' -> step_ok (k a) s') -> step_ok (m ≫= k) s.
Proof.
  intros Hm Hok Hk. apply wp_bind.
  eapply wp_mono; [apply Hm| |intros; by apply good_gone, framed_good|done]. simpl.
  intros a s' Hs'. eapply wp_mono; [by apply Hk| | |done]; simpl; intros.
  - by eapply good_trans; [apply framed_good|].
  - by eapply good_gone_trans; [apply framed_good|].
Qed.

Lemma step_ok_gets {A B} (f : Mach -> A) (k : A -> comp Mach B) s : step_ok (k (f s)) s -> step_ok (gets f ≫= k) s.
Proof. done. Qed.

Lemma step_ok_ret {A} (a : A) s : parser_ok (sm_parser s) -> step_ok (mret a) s.
Proof. intros. apply step_ok_framing; [apply framing_ret|done]. Qed.

Lemma step_ok_parser f s : parser_ok (f (sm_parser s)) -> step_ok (modify_parser f) s.
Proof. intros Hok. split; [done|]. repeat split. Qed.

Lemma step_ok_run f s :
  (forall r, (_currentString (f r), _runOffset (f r), _runSize (f r)) = (_currentString r, _runOffset r, _runSize r)) ->
  parser_ok (sm_parser s) -> step_ok (modify_run f) s.
Proof. intros Hf Hok. by apply step_ok_framing; [apply framing_run|]. Qed.

Lemma state_ok_set_state st st' (p : Parser H) : state_ok st (set_state st' p) = state_ok st p.
Proof. by destruct st. Qed.

Lemma parser_ok_set_state st (p : Parser H) : core_ok p -> state_ok st p -> parser_ok (set_state st p).
Proof. intros. split; [by apply core_ok_set_state|]. simpl. by rewrite state_ok_set_state. Qed.

Lemma step_ok_enter st s : core_ok (sm_parser s) -> state_ok st (sm_parser s) -> step_ok (enter st) s.
Proof. intros. by apply step_ok_parser, parser_ok_set_state. Qed.

Lemma step_ok_EnterGround s : parser_ok (sm_parser s) -> step_ok _EnterGround s.
Proof.
  intros [Hc _]. apply step_ok_bind; [by apply step_ok_enter|].
  intros _ s' (Hok & _). by apply step_ok_run.
Qed.

Lemma step_ok_EnterDcsIgnore s : parser_ok (sm_parser s) -> step_ok _EnterDcsIgnore s.
Proof.
  intros [Hc _]. apply step_ok_bind; [by apply step_ok_enter|].
  intros _ s' (Hok & _). by apply step_ok_run.
Qed.

Lemma step_ok_then_ground (m : comp Mach unit) s :
  framing m -> parser_ok (sm_parser s) -> step_ok (m;; _EnterGround) s.
Proof.
  intros Hm Hok. apply step_ok_bind_framing; [done..|].
  intros _ s' (Hp & _). apply step_ok_EnterGround. by rewrite Hp.
Qed.

(** Changing the parser's fields and then entering a state. *)
Lemma step_ok_parser_enter f st s :
  core_ok (f (sm_parser s)) -> state_ok st (f (sm_parser s)) -> step_ok (modify_parser f;; enter st) s.
Proof.
  intros Hc Hs. assert (parser_ok (set_state st (f (sm_parser s)))) as Hok by by apply parser_ok_set_state.
  split; [done|]. repeat split.
Qed.

Lemma step_ok_enter_clear st s :
  state_ok st (_ActionClear (sm_parser s)) -> step_ok (enter st;; modify_parser _ActionClear) s.
Proof.
  intros Hst. assert (parser_ok (set_state st (_ActionClear (sm_parser s)))) as Hok
    by (apply parser_ok_set_state; [apply core_ok_ActionClear|done]).
  split; [done|]. repeat split.
Qed.

Lemma step_ok_EnterEscape s : step_ok _EnterEscape s.
Proof. by apply step_ok_enter_clear. Qed.

(** Intermediates and private markers are single bytes. *)
Lemma intermediate_byte wch : _isIntermediate wch = true -> 0 <= wch < 256.
Proof. unfold _isIntermediate. lia. Qed.
Lemma private_marker_byte wch : _isCsiPrivateMarker wch = true -> 0 <= wch < 256.
Proof. unfold _isCsiPrivateMarker. lia. Qed.

Lemma step_ok_collect wch s :
  parser_ok (sm_parser s) -> 0 <= wch < 256 -> step_ok (collect wch) s.
Proof.
  intros [Hc Hs] Hw. apply step_ok_parser. split; [by apply core_ok_ActionCollect|].
  simpl. revert Hs. destruct (_state (sm_parser s)); simpl; done.
Qed.

Lemma step_ok_collect_enter wch st s :
  core_ok (sm_parser s) -> state_ok st (sm_parser s) -> 0 <= wch < 256 -> step_ok (collect wch;; enter st) s.
Proof.
  intros Hc Hs Hw. apply step_ok_parser_enter; [by apply core_ok_ActionCollect|].
  revert Hs. by destruct st.
Qed.

Definition takes_params (st : VTStates) : bool :=
  match st with CsiParam | Ss3Param | DcsParam => true | _ => false end.

Lemma state_ok_takes_params st (p : Parser H) :
  takes_params st = true -> state_ok st p = ranges_follow_parameters p.
Proof. by destruct st. Qed.

Lemma state_ActionParam wch (p : Parser H) : _state (_ActionParam wch p) = _state p.
Proof.
  unfold _ActionParam, ensure_parameter. destruct (_parameterLimitOverflowed p); [done|].
  destruct (_parameters p), (_isParameterDelimiter wch); simpl; try done; by case_match.
Qed.

Lemma step_ok_param_enter wch st s :
  core_ok (sm_parser s) -> ranges_follow_parameters (sm_parser s) ->
  _isNumericParamValue wch || _isParameterDelimiter wch = true -> takes_params st = true ->
  step_ok (param wch;; enter st) s.
Proof.
  intros Hc Hf Hw Hst. apply orb_true_iff in Hw.
  destruct (core_ok_ActionParam wch _ Hc Hf Hw). apply step_ok_parser_enter; [done|].
  by rewrite state_ok_takes_params.
Qed.

Lemma step_ok_param wch s :
  parser_ok (sm_parser s) -> takes_params (_state (sm_parser s)) = true ->
  _isNumericParamValue wch || _isParameterDelimiter wch = true -> step_ok (param wch) s.
Proof.
  intros [Hc Hs] Hst Hw. apply orb_true_iff in Hw. rewrite state_ok_takes_params in Hs by done.
  destruct (core_ok_ActionParam wch _ Hc Hs Hw). apply step_ok_parser. split; [done|].
  by rewrite state_ActionParam, state_ok_takes_params.
Qed.

Lemma state_ActionSubParam wch (p p' : Parser H) : _ActionSubParam wch p = Some p' -> _state p' = _state p.
Proof.
  unfold _ActionSubParam, ensure_parameter. destruct (_subParameterLimitOverflowed p); [by intros [= <-]|].
  destruct (_parameters p), (_isSubParameterDelimiter wch); simpl; repeat case_match; intros; simplify_eq/=; done.
Qed.

Lemma step_ok_subParam_enter wch s :
  core_ok (sm_parser s) -> ranges_follow_parameters (sm_parser s) -> _isSubParameterDelimiter wch = true ->
  step_ok (subParam wch;; _EnterCsiSubParam) s.
Proof.
  intros Hc Hf Hw. destruct (ActionSubParam_ok wch (sm_parser s)) as (p' & Hp' & Hc' & Hf' & Hpos); [by auto..|].
  unfold step_ok, wp, subParam, try_parser, mbind, comp_bind. rewrite Hp'.
  assert (parser_ok (set_state CsiSubParam p')) by (by apply parser_ok_set_state).
  split; [done|]. repeat split.
Qed.

Lemma step_ok_subParam wch s :
  parser_ok (sm_parser s) -> _state (sm_parser s) = CsiSubParam ->
  _isNumericParamValue wch || _isSubParameterDelimiter wch = true -> step_ok (subParam wch) s.
Proof.
  intros [Hc Hs] Hst Hw. rewrite Hst in Hs. destruct Hs as [Hf Hpos].
  destruct (ActionSubParam_ok wch (sm_parser s)) as (p' & Hp' & Hc' & Hf' & Hpos'); [done..| |].
  { apply orb_true_iff in Hw as [Hw|Hw]; auto. }
  unfold step_ok, wp, subParam, try_parser. rewrite Hp'.
  assert (parser_ok p') by (split; [done|]; by rewrite (state_ActionSubParam _ _ _ Hp'), Hst).
  split; [done|]. repeat split.
Qed.

(** Device control strings: the pass-through state is entered with a handler. *)
Lemma parser_ok_set_handler h (p : Parser H) :
  parser_ok p -> parser_ok (set_dcsStringHandler (Some h) p).
Proof.
  intros [Hc Hs]. split; [by apply core_ok_set_handler|]. simpl.
  revert Hs. destruct (_state p); simpl; eauto.
Qed.

Lemma step_ok_requests s s' (r : Reply E CB bool) :
  budget (reply_engine r) = budget (_engine s) -> parser_ok (sm_parser s') -> kept s s' -> position s' = position s ->
  wp (apply_reply r) (fun _ => good s) (gone s) F s'.
Proof.
  intros Hb Hok Hk Hpos. unfold wp, apply_reply.
  assert (good s (fold_left apply_request (reply_requests r) (set_engine (reply_engine r) s'))) as Hg.
  { pose proof (framed_requests (set_engine (reply_engine r) s') (reply_requests r)) as (Hp & Hk' & Hpos').
    unfold good, kept in *. simpl in *. rewrite Hp, Hpos'. split; [done|].
    destruct Hk as [Hk1 Hk2], Hk' as [Hk1' Hk2']. split; [split; congruence|done]. }
  destruct (reply_value r); [done|by apply good_gone].
Qed.

Lemma step_ok_call_handler wch s : parser_ok (sm_parser s) -> step_ok (call_dcsStringHandler wch) s.
Proof.
  intros Hok. apply wp_bind, wp_gets. destruct (_dcsStringHandler (sm_parser s)) as [h|] eqn:Hh.
  - unfold wp, invoke_handler. pose proof (bn_Handler (F:=F) h wch (view s) (_engine s)) as Hb. simpl in Hb.
    destruct (CallStringHandler h wch (view s) (_engine s)) as [h' r]. simpl in Hb.
    apply step_ok_requests; [done|by apply parser_ok_set_handler|done..].
  - apply wp_throw. split; [done|]. split; done.
Qed.

Lemma step_ok_SafeExecute lambda s :
  wp lambda (fun _ => good s) (good s) F s -> step_ok (_SafeExecute lambda) s.
Proof.
  intros Hl. unfold step_ok, wp, _SafeExecute, SafeExecute_with in *.
  destruct (lambda s) as [s' [[]| | |]]; try done.
  pose proof (framing_FlushToTerminal 1 s') as Hf. unfold wp, flush_fuel in *.
  destruct (FlushToTerminal 2 s') as [s'' []]; try done;
    (eapply good_trans; [done|]; apply framed_good; [done|apply Hl]).
Qed.

Lemma step_ok_EnterDcsPassThrough s :
  core_ok (sm_parser s) -> is_Some (_dcsStringHandler (sm_parser s)) -> step_ok _EnterDcsPassThrough s.
Proof.
  intros Hc Hs. apply step_ok_bind; [by apply step_ok_enter|].
  intros _ s' (Hok & _). by apply step_ok_run.
Qed.

Lemma step_ok_ActionDcsDispatch wch s :
  parser_ok (sm_parser s) -> _state (sm_parser s) <> DcsPassThrough -> step_ok (_ActionDcsDispatch wch) s.
Proof.
  intros Hok Hst. apply step_ok_bind.
  - apply step_ok_SafeExecute. do 2 apply wp_bind, wp_gets. apply wp_bind.
    eapply wp_mono; [apply framing_engine_call; budget| |intros; by apply framed_good|done].
    intros h s' Hs'. apply wp_bind, wp_modify, wp_ret. destruct Hs' as (Hp & Hk & Hpos).
    split; [|done]. simpl. rewrite Hp. destruct Hok as [Hc Hs].
    split; [by apply core_ok_set_handler|]. simpl. destruct (_state (sm_parser s)); simpl in *; congruence || done.
  - intros _ s' (Hok' & _). apply wp_bind, wp_gets.
    destruct (_dcsStringHandler (sm_parser s')) as [h|] eqn:Hh.
    + apply step_ok_EnterDcsPassThrough; [apply Hok'|by rewrite Hh].
    + by apply step_ok_EnterDcsIgnore.
Qed.

Lemma step_ok_ActionInterrupt s : parser_ok (sm_parser s) ->
  wp _ActionInterrupt (fun _ s' => core_ok (sm_parser s') /\ kept s s' /\ position s' = position s) (gone s) F s.
Proof.
  intros Hok. apply wp_bind, wp_gets. case_decide as Hst.
  - apply wp_bind. eapply wp_mono; [by apply step_ok_call_handler| |done|done].
    intros _ s' (Hok' & Hk & Hpos). apply wp_modify. split; [|done].
    apply core_ok_set_handler, Hok'.
  - apply wp_ret. split; [apply Hok|]. split; done.
Qed.

Lemma step_ok_EnterSosPmApcString s : parser_ok (sm_parser s) -> step_ok _EnterSosPmApcString s.
Proof.
  intros [Hc _]. apply step_ok_bind; [by apply step_ok_enter|]. intros _ s' (Hok & _).
  apply step_ok_bind; [by apply step_ok_run|]. intros _ s'' (Hok' & _).
  apply step_ok_framing; [|done]. intros t. apply wp_modify. repeat split. apply (bn_UnknownSequence (F:=F)).
Qed.

Ltac byte := first [by apply intermediate_byte|by apply private_marker_byte].

(** Every event but those that end a control sequence. *)
Ltac event_step :=
  lazymatch goal with
  | |- step_ok (if ?b then _ else _) _ => destruct b eqn:?
  | |- step_ok (_ActionDcsDispatch _) _ => apply step_ok_ActionDcsDispatch; [assumption|congruence]
  | |- step_ok (collect _ ≫= fun _ => _) _ =>
    apply step_ok_collect_enter; [assumption|exact I || assumption|byte]
  | |- step_ok (param _ ≫= fun _ => _) _ => apply step_ok_param_enter; [assumption|assumption|assumption|reflexivity]
  | |- step_ok (subParam _ ≫= fun _ => _) _ => apply step_ok_subParam_enter; assumption
  | |- step_ok (_ ≫= fun _ => _EnterGround) _ => apply step_ok_then_ground; [|assumption]
  | |- step_ok (collect _) _ => apply step_ok_collect; [assumption|byte]
  | |- step_ok _EnterGround _ => apply step_ok_EnterGround; assumption
  | |- step_ok _EnterDcsIgnore _ => apply step_ok_EnterDcsIgnore; assumption
  | |- step_ok _EnterSosPmApcString _ => apply step_ok_EnterSosPmApcString; assumption
  | |- step_ok _EnterEscape _ => apply step_ok_EnterEscape
  | |- step_ok _EnterCsiEntry _ => apply step_ok_enter_clear; reflexivity
  | |- step_ok _EnterSs3Entry _ => apply step_ok_enter_clear; reflexivity
  | |- step_ok _EnterDcsEntry _ => apply step_ok_enter_clear; reflexivity
  | |- step_ok _ActionIgnore _ => apply step_ok_ret; assumption
  | |- step_ok (mret _) _ => apply step_ok_ret; assumption
  | |- step_ok (_ActionExecute _) _ => apply step_ok_framing; [|assumption]
  | |- step_ok (_ActionPrint _) _ => apply step_ok_framing; [|assumption]
  | |- step_ok _EnterOscParam _ => apply step_ok_enter; [assumption|exact I]
  | |- step_ok _EnterOscString _ => apply step_ok_enter; [assumption|exact I]
  | |- step_ok _EnterOscTermination _ => apply step_ok_enter; [assumption|exact I]
  | |- step_ok _EnterCsiIgnore _ => apply step_ok_enter; [assumption|exact I]
  | |- framing (_ActionExecute _) => apply framing_ActionExecute
  | |- framing (_ActionExecuteFromEscape _) => apply framing_ActionExecuteFromEscape
  | |- framing (_ActionPrint _) => apply framing_ActionPrint
  | |- framing (_ActionEscDispatch _) => apply framing_ActionEscDispatch
  | |- framing (_ActionVt52EscDispatch _) => apply framing_ActionVt52EscDispatch
  | |- framing _ActionOscDispatch => apply framing_ActionOscDispatch
  | |- framing (_ActionSs3Dispatch _) => apply framing_ActionSs3Dispatch
  end.

Ltac event := repeat event_step.

Lemma step_ok_EventGround wch s : parser_ok (sm_parser s) -> step_ok (_EventGround wch) s.
Proof. intros Hok. unfold _EventGround. event. Qed.

Lemma step_ok_EventEscape wch s :
  parser_ok (sm_parser s) -> _state (sm_parser s) = Escape -> step_ok (_EventEscape wch) s.
Proof.
  intros Hok Hst. pose proof Hok as [Hc Hs]. rewrite Hst in Hs. simpl in Hs.
  do 2 apply step_ok_gets. event.
  apply step_ok_enter; [done|]. simpl. rewrite Hs. simpl. lia.
Qed.

Lemma step_ok_EventEscapeIntermediate wch s :
  parser_ok (sm_parser s) -> _state (sm_parser s) = EscapeIntermediate -> step_ok (_EventEscapeIntermediate wch) s.
Proof.
  intros Hok Hst. pose proof Hok as [Hc Hs]. rewrite Hst in Hs. simpl in Hs.
  apply step_ok_gets. event.
  apply step_ok_enter; [done|]. simpl. rewrite Hs. simpl. lia.
Qed.

Lemma step_ok_EventOscParam wch s : parser_ok (sm_parser s) -> _state (sm_parser s) = OscParam -> step_ok (_EventOscParam wch) s.
Proof.
  intros Hok Hst. pose proof Hok as [Hc Hs]. unfold _EventOscParam. event.
  apply step_ok_parser. split; [by apply core_ok_ActionOscParam|]. simpl. by rewrite Hst.
Qed.

Lemma step_ok_EventOscString wch s : parser_ok (sm_parser s) -> _state (sm_parser s) = OscString -> step_ok (_EventOscString wch) s.
Proof.
  intros Hok Hst. pose proof Hok as [Hc Hs]. unfold _EventOscString. event.
  apply step_ok_parser. split; [by apply core_ok_ActionOscPut|]. simpl. by rewrite Hst.
Qed.

Lemma step_ok_EventOscTermination wch s : parser_ok (sm_parser s) -> step_ok (_EventOscTermination wch) s.
Proof.
  intros Hok. unfold _EventOscTermination. destruct (_isStringTerminatorIndicator wch); [event|].
  assert (wp _EnterEscape (fun _ s' => good s s' /\ _state (sm_parser s') = Escape) (gone s) F s) as Hesc
    by exact (conj (step_ok_EnterEscape s) eq_refl).
  apply wp_bind. eapply wp_mono; [apply Hesc| |done|done]. simpl. intros _ s' [Hg Hst].
  eapply wp_mono; [apply step_ok_EventEscape; [apply Hg|done]| | |done]; simpl; intros.
  - by eapply good_trans.
  - by eapply good_gone_trans.
Qed.

Lemma step_ok_EventSs3Entry wch s : parser_ok (sm_parser s) -> _state (sm_parser s) = Ss3Entry -> step_ok (_EventSs3Entry wch) s.
Proof. intros Hok Hst. pose proof Hok as [Hc Hs]. rewrite Hst in Hs. unfold _EventSs3Entry. event. Qed.

Lemma step_ok_EventSs3Param wch s : parser_ok (sm_parser s) -> _state (sm_parser s) = Ss3Param -> step_ok (_EventSs3Param wch) s.
Proof.
  intros Hok Hst. pose proof Hok as [Hc Hs]. unfold _EventSs3Param. event.
  apply step_ok_param; [done|by rewrite Hst|done].
Qed.

Lemma step_ok_EventVt52Param wch s :
  is_wchar wch -> parser_ok (sm_parser s) -> _state (sm_parser s) = Vt52Param -> step_ok (_EventVt52Param wch) s.
Proof.
  intros Hw Hok Hst. pose proof Hok as [Hc Hs]. rewrite Hst in Hs. unfold _EventVt52Param.
  destruct (_isC0Code wch) eqn:?; [event|]. destruct (_isDelete wch) eqn:?; [event|].
  apply wp_bind, wp_modify, wp_bind, wp_gets. simpl in *. rewrite length_app. simpl.
  set (s1 := set_parser _ s).
  assert (core_ok (sm_parser s1)) as Hc1.
  { destruct Hc. constructor; simpl; rewrite ?length_app; simpl; try done; try lia.
    - unfold MAX_PARAMETER_COUNT. lia.
    - apply Forall_app. split; [done|]. constructor; [|done].
      unfold is_wchar, param_value_ok, MAX_PARAMETER_VALUE in *. lia. }
  case_decide.
  - apply wp_bind. eapply wp_mono; [apply (quiet_Vt52EscDispatch 0x59 s1)| |done|done].
    intros _ s2 (Hp2 & Hk2 & Hpos2). split; [|split; [apply Hk2|exact Hpos2]].
    apply (parser_ok_set_state Ground); [by rewrite Hp2|done].
  - apply wp_ret. split; [|split; done]. split; [done|]. simpl. rewrite Hst. simpl.
    rewrite length_app. simpl. lia.
Qed.

Lemma step_ok_EventDcsEntry wch s : parser_ok (sm_parser s) -> _state (sm_parser s) = DcsEntry -> step_ok (_EventDcsEntry wch) s.
Proof. intros Hok Hst. pose proof Hok as [Hc Hs]. rewrite Hst in Hs. unfold _EventDcsEntry. event. Qed.

Lemma step_ok_EventDcsIntermediate wch s :
  parser_ok (sm_parser s) -> _state (sm_parser s) = DcsIntermediate -> step_ok (_EventDcsIntermediate wch) s.
Proof. intros Hok Hst. unfold _EventDcsIntermediate. event. Qed.

Lemma step_ok_EventDcsParam wch s : parser_ok (sm_parser s) -> _state (sm_parser s) = DcsParam -> step_ok (_EventDcsParam wch) s.
Proof.
  intros Hok Hst. unfold _EventDcsParam. apply step_ok_bind_framing; [|done|].
  { destruct (_isC0Code wch); [apply framing_ret|]. destruct (_isDelete wch); apply framing_ret. }
  intros _ s' (Hp & _). rewrite <- Hp in *. pose proof Hok as [Hc Hs]. event.
  apply step_ok_param; [done|by rewrite Hst|done].
Qed.

Lemma step_ok_EventDcsPassThrough wch s : parser_ok (sm_parser s) -> step_ok (_EventDcsPassThrough wch) s.
Proof.
  intros Hok. unfold _EventDcsPassThrough. destruct (_isC0Code wch || _isDcsPassThroughValid wch); [|event].
  apply step_ok_bind; [by apply step_ok_call_handler|]. intros [] s' (Hok' & _).
  - by apply step_ok_ret.
  - by apply step_ok_EnterDcsIgnore.
Qed.

(** ** Control sequences and the nested string *)
Section Nested.
Variable nested : wstring -> comp Mach unit.

(** What the nested [ProcessString] has to guarantee: it starts in the ground
    state, and the budget of the callback has been spent. *)
Definition nested_ok (bound : nat) : Prop :=
  forall str s, Forall is_wchar str -> parser_ok (sm_parser s) -> _state (sm_parser s) = Ground ->
    F \/ (budget (_engine s) < bound)%nat ->
    wp (nested str) (fun _ => gone s) (gone s) F s.

(** Injected strings are made of code units. *)
Definition callback_strings_ok : Prop :=
  forall cb e, match (CallbackBegin cb e).2 with Some str => Forall is_wchar str | None => True end.

Context (bound : nat) (Hnested : nested_ok bound) (Hcb : callback_strings_ok).

Definition budget_ok s : Prop := F \/ (budget (_engine s) <= bound)%nat.

Lemma run_callback_ok cb s :
  parser_ok (sm_parser s) -> _state (sm_parser s) = Ground -> budget_ok s ->
  wp (run_callback nested cb) (fun _ => gone s) (gone s) F s.
Proof.
  intros Hok Hst Hb. unfold wp, run_callback. specialize (Hcb cb (_engine s)).
  pose proof (bn_Begin_None (F:=F) cb (_engine s)) as Hnone.
  pose proof (bn_Begin_Some (F:=F) cb (_engine s)) as Hsome.
  pose proof (bn_End (F:=F) cb (_engine s)) as Hend.
  destruct (CallbackBegin cb (_engine s)) as [e [str|]]; simpl in *.
  - specialize (Hnested str (set_engine e s) Hcb Hok Hst).
    assert (F \/ (budget e < bound)%nat) as Hb'.
    { destruct (Hsome ltac:(eauto)); [by left|]. destruct Hb; [by left|]. right. lia. }
    specialize (Hnested Hb'). unfold wp in Hnested.
    destruct (nested str (set_engine e s)) as [s' []]; try done;
      destruct Hnested as (Hok' & Hk1 & Hk2); (split; [done|]; split; [done|]; by apply Hend; [eexists|]).
  - split; [done|]. split; [done|]. by apply Hnone.
Qed.

Lemma step_ok_callback s :
  parser_ok (sm_parser s) -> _state (sm_parser s) = Ground -> budget_ok s ->
  step_ok (_ExecuteCsiCompleteCallback nested) s.
Proof.
  intros Hok Hst Hb. apply step_ok_gets. destruct (_onCsiCompleteCallback (sm_conf s)) as [cb|];
    [|by apply step_ok_ret].
  do 3 apply step_ok_gets. apply wp_bind, wp_modify, wp_bind.
  eapply wp_mono; [by apply run_callback_ok| |done|done].
  intros _ s' (Hok' & Hk). apply wp_modify. split; [done|]. split; [done|]. done.
Qed.

Lemma step_ok_csiDispatch wch s : parser_ok (sm_parser s) -> budget_ok s -> step_ok (csiDispatch nested wch) s.
Proof.
  intros Hok Hb. apply step_ok_bind_framing; [apply framing_ActionCsiDispatch|done|].
  intros _ s1 (Hp1 & (_ & Hb1) & _).
  assert (wp _EnterGround (fun _ s' => good s1 s' /\ _state (sm_parser s') = Ground) (gone s1) F s1) as Hg.
  { refine (conj (step_ok_EnterGround s1 _) eq_refl). by rewrite Hp1. }
  apply wp_bind. eapply wp_mono; [apply Hg| |done|done]. simpl. intros _ s2 [Hg2 Hst2].
  eapply wp_mono; [apply step_ok_callback; [apply Hg2|done|]| | |done]; simpl; intros.
  - destruct Hg2 as (_ & (_ & Hb2) & _). unfold budget_ok in *. by rewrite Hb2, Hb1.
  - by eapply good_trans.
  - by eapply good_gone_trans.
Qed.

Ltac csi_event := repeat (event; try (apply step_ok_csiDispatch; done)).

Lemma step_ok_EventCsiEntry wch s :
  parser_ok (sm_parser s) -> _state (sm_parser s) = CsiEntry -> budget_ok s -> step_ok (_EventCsiEntry nested wch) s.
Proof. intros Hok Hst Hb. pose proof Hok as [Hc Hs]. rewrite Hst in Hs. unfold _EventCsiEntry. csi_event. Qed.

Lemma step_ok_EventCsiIntermediate wch s :
  parser_ok (sm_parser s) -> _state (sm_parser s) = CsiIntermediate -> budget_ok s ->
  step_ok (_EventCsiIntermediate nested wch) s.
Proof. intros Hok Hst Hb. pose proof Hok as [Hc Hs]. unfold _EventCsiIntermediate. csi_event. Qed.

Lemma step_ok_EventCsiIgnore wch s : parser_ok (sm_parser s) -> step_ok (_EventCsiIgnore wch) s.
Proof. intros Hok. unfold _EventCsiIgnore. event. Qed.

Lemma step_ok_EventCsiParam wch s :
  parser_ok (sm_parser s) -> _state (sm_parser s) = CsiParam -> budget_ok s -> step_ok (_EventCsiParam nested wch) s.
Proof.
  intros Hok Hst Hb. pose proof Hok as [Hc Hs]. rewrite Hst in Hs. unfold _EventCsiParam. csi_event.
  apply step_ok_param; [done|by rewrite Hst|done].
Qed.

Lemma step_ok_EventCsiSubParam wch s :
  parser_ok (sm_parser s) -> _state (sm_parser s) = CsiSubParam -> budget_ok s ->
  step_ok (_EventCsiSubParam nested wch) s.
Proof.
  intros Hok Hst Hb. pose proof Hok as [Hc Hs]. rewrite Hst in Hs. destruct Hs as [Hf _].
  unfold _EventCsiSubParam. csi_event.
  - by apply step_ok_subParam.
  - apply step_ok_param_enter; [done..| |done]. rewrite orb_true_iff. by right.
Qed.

Lemma step_ok_dispatch_event wch s :
  is_wchar wch -> parser_ok (sm_parser s) -> budget_ok s ->
  step_ok (dispatch_event nested (_state (sm_parser s)) wch) s.
Proof.
  intros Hw Hok Hb. destruct (_state (sm_parser s)) eqn:Hst; simpl.
  - by apply step_ok_EventGround.
  - by apply step_ok_EventEscape.
  - by apply step_ok_EventEscapeIntermediate.
  - by apply step_ok_EventCsiEntry.
  - by apply step_ok_EventCsiIntermediate.
  - by apply step_ok_EventCsiIgnore.
  - by apply step_ok_EventCsiParam.
  - by apply step_ok_EventCsiSubParam.
  - by apply step_ok_EventOscParam.
  - by apply step_ok_EventOscString.
  - by apply step_ok_EventOscTermination.
  - by apply step_ok_EventSs3Entry.
  - by apply step_ok_EventSs3Param.
  - by apply step_ok_EventVt52Param.
  - by apply step_ok_EventDcsEntry.
  - by apply step_ok_ret.
  - by apply step_ok_EventDcsIntermediate.
  - by apply step_ok_EventDcsParam.
  - by apply step_ok_EventDcsPassThrough.
  - by apply step_ok_ret.
Qed.

(** *** ProcessCharacter *)
Lemma step_ok_cancel wch s :
  parser_ok (sm_parser s) -> step_ok (_ActionInterrupt;; _ActionExecute wch;; _EnterGround) s.
Proof.
  intros Hok. apply wp_bind. eapply wp_mono; [by apply step_ok_ActionInterrupt| |done|done].
  intros _ s1 (Hc1 & Hk1 & Hpos1). apply wp_bind.
  eapply wp_mono; [apply (quiet_execute _ (framing_engine_call _ (bn_Execute (F:=F) wch)))| |done|done].
  intros _ s2 (Hp2 & Hk2 & Hpos2). unfold kept in *.
  split; [|split; [split; simpl; destruct Hk1, Hk2; congruence|exact (eq_trans Hpos2 Hpos1)]].
  apply (parser_ok_set_state Ground); [by rewrite Hp2|done].
Qed.

Lemma step_ok_escape s : parser_ok (sm_parser s) -> step_ok (_ActionInterrupt;; _EnterEscape) s.
Proof.
  intros Hok. apply wp_bind. eapply wp_mono; [by apply step_ok_ActionInterrupt| |done|done].
  intros _ s1 (Hc1 & Hk1 & Hpos1).
  split; [|split; done].
  apply (parser_ok_set_state Escape (_ActionClear (sm_parser s1))); [apply core_ok_ActionClear|done].
Qed.

Lemma step_ok_ProcessCharacter_body self wch s :
  _isC1ControlCharacter wch = false -> is_wchar wch -> parser_ok (sm_parser s) -> budget_ok s ->
  step_ok (ProcessCharacter_body nested self wch) s.
Proof.
  intros Hc1 Hw Hok Hb. do 3 apply step_ok_gets. rewrite Hc1. cbv zeta iota.
  event_step; [by apply step_ok_cancel|].
  event_step; [by apply step_ok_escape|].
  by apply step_ok_dispatch_event.
Qed.

Lemma c1To7Bit_range wch : _isC1ControlCharacter wch = true -> 0x40 <= _c1To7Bit wch <= 0x5F.
Proof.
  unfold _isC1ControlCharacter, _c1To7Bit, u16. intros H0.
  rewrite Z.mod_small; lia.
Qed.

(** Only C1 controls make [ProcessCharacter] call itself, with characters that
    are not C1 controls: the recursion of the source is the one of the model. *)
Lemma ProcessCharacter_body_self self1 self2 wch : _isC1ControlCharacter wch = false ->
  ProcessCharacter_body nested self1 wch = ProcessCharacter_body nested self2 wch.
Proof. intros Hw. unfold ProcessCharacter_body. by rewrite Hw. Qed.

Lemma ProcessCharacter_unfold wch s :
  ProcessCharacter nested wch s = ProcessCharacter_body nested (ProcessCharacter nested) wch s.
Proof.
  destruct (_isC1ControlCharacter wch) eqn:Hw.
  - pose proof (c1To7Bit_range wch Hw) as Hr. unfold ProcessCharacter at 1, ProcessCharacter_body at 1 3. rewrite Hw.
    unfold ProcessCharacter.
    rewrite (ProcessCharacter_body_self _ (ProcessCharacter_body nested (fun _ => out_of_fuel)) AsciiChars.ESC) by done.
    rewrite (ProcessCharacter_body_self _ (ProcessCharacter_body nested (fun _ => out_of_fuel)) (_c1To7Bit wch)); [done|].
    unfold _isC1ControlCharacter. lia.
  - unfold ProcessCharacter at 1. by rewrite (ProcessCharacter_body_self _ (ProcessCharacter nested)).
Qed.

Lemma step_ok_ProcessCharacter wch s :
  is_wchar wch -> parser_ok (sm_parser s) -> budget_ok s -> step_ok (ProcessCharacter nested wch) s.
Proof.
  intros Hw Hok Hb. destruct (_isC1ControlCharacter wch) eqn:Hc1; [|by apply step_ok_ProcessCharacter_body].
  pose proof (c1To7Bit_range wch Hc1). unfold ProcessCharacter. unfold ProcessCharacter_body at 1.
  do 3 apply step_ok_gets. rewrite Hc1. cbv zeta iota.
  event_step; [by apply step_ok_cancel|].
  destruct (GetParserMode AcceptC1 s); [|by apply step_ok_ret].
  apply step_ok_bind.
  - apply step_ok_ProcessCharacter_body; done.
  - intros _ s' (Hok' & (_ & Hb') & _). apply step_ok_ProcessCharacter_body; try done.
    + unfold _isC1ControlCharacter. lia.
    + unfold is_wchar. lia.
    + unfold budget_ok in *. by rewrite Hb'.
Qed.

(** *** ProcessString *)

(** The run ends where the unprocessed rest of the string begins. *)
Definition at_rest (string rest : wstring) s : Prop :=
  _currentString (sm_run s) = string /\
  (_runOffset (sm_run s) + _runSize (sm_run s) + length rest = length string)%nat.

(** When the string has been used up outside of the ground state, the run holds
    the beginning of the unfinished sequence. *)
Definition unfinished s : Prop :=
  _state (sm_parser s) <> Ground -> (0 < _runSize (sm_run s))%nat.

Lemma process_vt_ok string rest s :
  Forall is_wchar rest -> parser_ok (sm_parser s) -> budget_ok s -> at_rest string rest s -> rest <> [] ->
  wp (process_vt nested rest)
     (fun rest' s' => gone s s' /\ at_rest string rest' s' /\ Forall is_wchar rest' /\
                      (length rest' < length rest)%nat /\
                      (_state (sm_parser s') = Ground \/ rest' = []) /\ (0 < _runSize (sm_run s'))%nat)
     (gone s) F s.
Proof.
  intros Hrest. revert s. induction Hrest as [|wch rest Hw Hrest IH]; intros s Hok Hb [Hcur Hat] Hne; [done|].
  simpl. apply wp_bind, wp_modify, wp_bind, wp_modify. simpl. set (s1 := set_run _ _).
  apply wp_bind. eapply wp_mono; [by apply (step_ok_ProcessCharacter wch s1)| |done|done].
  intros _ s2 (Hok2 & Hk2 & Hpos2). unfold position in Hpos2. injection Hpos2 as Hcur2 Hoff2 Hsize2.
  simpl in *.
  assert (at_rest string rest s2) as Hat2.
  { split; [by rewrite Hcur2|]. rewrite Hoff2, Hsize2. lia. }
  apply wp_bind, wp_gets. case_decide as Hst.
  - apply wp_ret. split; [done|]. split; [done|]. split; [done|]. split; [lia|]. split; [by left|].
    rewrite Hsize2. lia.
  - destruct rest as [|c rest].
    + apply wp_ret. split; [done|]. split; [done|]. split; [done|]. split; [lia|]. split; [by right|].
      rewrite Hsize2. lia.
    + eapply wp_mono; [apply IH; try done| | |done].
      * unfold budget_ok in *. destruct Hk2 as [_ Hk2]. by rewrite Hk2.
      * intros rest' s' (Hg & Hat' & Hf' & Hlt & Hst' & Hsz). split; [|split; [done|]].
        { destruct Hg as [? [? ?]], Hk2. split; [done|]. unfold kept. simpl in *. split; congruence. }
        split; [done|]. split; [simpl in *; lia|]. done.
      * intros s' [Hok' [? ?]]. destruct Hk2. split; [done|]. unfold kept. simpl in *. split; congruence.
Qed.

Lemma gone_trans s1 s2 s3 : gone s1 s2 -> gone s2 s3 -> gone s1 s3.
Proof. unfold gone, kept. intuition congruence. Qed.

Lemma budget_ok_gone s s' : budget_ok s -> gone s s' -> budget_ok s'.
Proof. intros Hb (_ & _ & Hk). unfold budget_ok in *. by rewrite Hk. Qed.

Definition loop_post (string : wstring) s s' : Prop :=
  gone s s' /\ (exists rest, at_rest string rest s') /\ unfinished s'.

Lemma vt_start_ok string (continue : wstring -> comp Mach unit) rest s :
  Forall is_wchar rest -> parser_ok (sm_parser s) -> budget_ok s -> at_rest string rest s ->
  _state (sm_parser s) = Ground \/ rest <> [] ->
  (forall rest' s', (length rest' < length rest)%nat -> Forall is_wchar rest' -> gone s s' -> at_rest string rest' s' ->
     _state (sm_parser s') = Ground \/ rest' = [] -> (0 < _runSize (sm_run s'))%nat ->
     wp (continue rest') (fun _ => loop_post string s') (gone s') F s') ->
  wp (vt_start nested continue rest) (fun _ => loop_post string s) (gone s) F s.
Proof.
  intros Hw Hok Hb Hat Hst Hcont. unfold vt_start. destruct rest as [|c rest].
  - apply wp_ret. split; [split; [done|split; done]|]. split; [by exists []|]. intros ?. by destruct Hst.
  - apply wp_bind. eapply wp_mono; [by apply process_vt_ok| |done|done]. simpl.
    intros rest' s' (Hg & Hat' & Hw' & Hlt & Hst' & Hsz).
    eapply wp_mono; [by apply Hcont| | |done]; simpl; intros.
    + destruct H0 as (? & ? & ?). split; [by eapply gone_trans|done].
    + by eapply gone_trans.
Qed.

Lemma CurrentRun_at string rest s :
  at_rest string rest s ->
  _CurrentRun s = (s, Returned (take (_runSize (sm_run s)) (drop (_runOffset (sm_run s)) string))).
Proof.
  intros [Hcur Hat]. unfold _CurrentRun. rewrite Hcur.
  destruct (Nat.leb_spec (_runOffset (sm_run s)) (length string)); [done|lia].
Qed.

(** The print run at the start of a round. *)
Lemma print_run_ok string rest n s :
  parser_ok (sm_parser s) -> at_rest string rest s -> (n <= length rest)%nat ->
  wp (print_run (length string - length rest) n)
     (fun _ s' => gone s s' /\ at_rest string (drop n rest) s' /\ sm_parser s' = sm_parser s)
     (gone s) F s.
Proof.
  intros Hok [Hcur Hat] Hn. apply wp_bind, wp_modify. case_decide as Hz.
  - apply wp_ret. subst n. split; [split; [done|split; done]|]. split; [|done]. split; [done|]. simpl.
    rewrite drop_0. lia.
  - apply wp_bind. unfold wp. erewrite (CurrentRun_at string (drop n rest)) by
      (split; [done|]; simpl; rewrite length_drop; lia).
    apply wp_bind. set (s1 := set_run _ s).
    eapply wp_mono; [apply (framing_ActionPrintString _ s1)| | |done].
    + intros _ s' (Hp & Hk & Hpos). apply wp_modify.
      split; [split; [simpl; rewrite Hp; done|done]|]. split; [|done].
      injection Hpos as Hc' Ho' Hs'. split; [simpl; by rewrite Hc'|]. simpl. rewrite length_drop. lia.
    + intros s' (Hp & Hk & _). split; [rewrite Hp; done|done].
Qed.

Lemma process_loop_ok string fuel rest s :
  Forall is_wchar rest -> parser_ok (sm_parser s) -> budget_ok s -> (length rest <= fuel)%nat ->
  at_rest string rest s -> _state (sm_parser s) = Ground \/ (rest = [] /\ unfinished s) ->
  wp (process_loop nested fuel string rest) (fun _ => loop_post string s) (gone s) F s.
Proof.
  revert rest s. induction fuel as [|fuel IH]; intros rest s Hw Hok Hb Hfuel Hat Hst;
    (destruct rest as [|c rest];
     [apply wp_ret; split; [split; [done|split; done]|]; split; [by exists []|];
      intros ?; destruct Hst as [?|[_ Hu]]; [done|by apply Hu]|]); [simpl in Hfuel; lia|].
  destruct Hst as [Hst|[? _]]; [|done].
  assert (FindActionableControlCharacter (c :: rest) <= length (c :: rest))%nat as Hn
    by (rewrite FindActionable_plainSearch by done; apply plainSearch_le).
  cbn [process_loop]. set (n := FindActionableControlCharacter (c :: rest)) in *. cbv zeta.
  apply wp_bind. eapply wp_mono; [by apply print_run_ok| |done|done].
  intros _ s1 (Hg1 & Hat1 & Hp1).
  eapply wp_mono; [apply (vt_start_ok string)| | |done].
  - by apply Forall_drop.
  - apply Hg1.
  - by eapply budget_ok_gone.
  - done.
  - left. by rewrite Hp1.
  - intros rest' s' Hlt Hw' Hg' Hat' Hst' Hsz. apply IH; try done.
    + apply Hg'.
    + eapply budget_ok_gone; [|done]. by eapply budget_ok_gone.
    + rewrite length_drop in Hlt. simpl in *. lia.
    + destruct Hst' as [?| ->]; [by left|]. right. split; [done|by intros _].
  - intros _ s' (Hg' & ? & ?). split; [by eapply gone_trans|done].
  - intros s' Hg'. by eapply gone_trans.
Qed.

(** *** The end of the string *)
Lemma handle_trailing_input_ok run s :
  parser_ok (sm_parser s) -> run <> [] -> step_ok (handle_trailing_input run) s.
Proof.
  intros Hok Hne. assert (step_ok (cache_run run) s) as Hcache by by apply step_ok_run.
  apply step_ok_gets. destruct (EncounteredWin32InputModeSequence (_engine s)); [done|].
  event_step; [|done]. destruct run as [|front tail]; [done|]. event_step; [|done].
  apply step_ok_bind; [by apply step_ok_EnterGround|]. intros _ s1 (Hok1 & _).
  apply step_ok_bind.
  - destruct tail; [apply step_ok_framing; [apply framing_ActionExecute|done]|].
    apply step_ok_bind; [apply step_ok_EnterEscape|]. intros _ s2 (Hok2 & _).
    apply step_ok_framing; [apply framing_ActionEscDispatch|done].
  - intros _ s2 (Hok2 & _). by apply step_ok_EnterGround.
Qed.

Lemma finish_string_ok string rest s :
  parser_ok (sm_parser s) -> at_rest string rest s ->
  _state (sm_parser s) = Ground \/ (0 < _runSize (sm_run s))%nat \/ _isEngineForInput (sm_conf s) = false \/
    EncounteredWin32InputModeSequence (_engine s) = true ->
  step_ok finish_string s.
Proof.
  intros Hok Hat Hrun. apply step_ok_gets. case_decide as Hst; [by apply step_ok_ret|].
  unfold step_ok. apply wp_bind. unfold wp. erewrite CurrentRun_at by done.
  assert (step_ok (cache_run (take (_runSize (sm_run s)) (drop (_runOffset (sm_run s)) string))) s) as Hcache
    by by apply step_ok_run.
  apply step_ok_gets. destruct (_isEngineForInput (sm_conf s)) eqn:Hin.
  - destruct Hrun as [?|[Hsz|[?|Hwin]]]; [done| |done|].
    2: { apply step_ok_gets. by rewrite Hwin. }
    apply handle_trailing_input_ok; [done|]. destruct Hat as [_ Hat]. intros Hnil. apply (f_equal length) in Hnil.
    rewrite length_take, length_drop in Hnil. simpl in Hnil. lia.
  - event_step; [by apply step_ok_ret|done].
Qed.

(** An empty string outside of the ground state makes the machine for input look at the
    front of the empty run, unless it has seen a win32-input-mode sequence. *)
Definition acceptable (string : wstring) s : Prop :=
  string <> [] \/ _state (sm_parser s) = Ground \/ _isEngineForInput (sm_conf s) = false \/
    EncounteredWin32InputModeSequence (_engine s) = true.

Lemma ProcessString_body_ok string s :
  Forall is_wchar string -> parser_ok (sm_parser s) -> budget_ok s -> acceptable string s ->
  wp (ProcessString_body nested string) (fun _ => gone s) (gone s) F s.
Proof.
  intros Hw Hok Hb Hacc. apply wp_bind, wp_modify, wp_bind, wp_gets. simpl. set (s1 := set_run _ s).
  assert (at_rest string string s1) as Hat by done.
  assert (forall rest s', gone s1 s' -> at_rest string rest s' ->
    _state (sm_parser s') = Ground \/ (0 < _runSize (sm_run s'))%nat \/ _isEngineForInput (sm_conf s') = false \/
      EncounteredWin32InputModeSequence (_engine s') = true ->
    wp finish_string (fun _ => gone s) (gone s) F s') as Hfinish.
  { intros rest s' Hg Hat' Hs'. eapply wp_mono; [eapply finish_string_ok; [apply Hg|done|done]| | |done].
    - simpl. intros a s'' Hs''. by eapply gone_trans; [|apply good_gone].
    - simpl. intros s'' Hs''. by eapply gone_trans. }
  apply wp_bind. destruct string as [|c string].
  - assert (gone s1 s1) as Hrefl by (split; [done|split; done]).
    case_decide; apply wp_ret; (apply (Hfinish []); [done|done|]); (destruct Hacc as [?|[?|[?|?]]]; [done|auto..]).
  - assert (wp (if decide (_state (sm_parser s) = Ground)
                then process_loop nested (length (c :: string)) (c :: string) (c :: string)
                else vt_start nested (process_loop nested (length (c :: string)) (c :: string)) (c :: string))
              (fun _ => loop_post (c :: string) s1) (gone s1) F s1) as Hloop.
    { case_decide as Hst.
      - apply process_loop_ok; try done. by left.
      - apply vt_start_ok; try done; [by right|]. intros rest' s' Hlt Hw' Hg' Hat' Hst' Hsz.
        apply process_loop_ok; try done; [apply Hg'|by eapply budget_ok_gone|lia|].
        destruct Hst' as [?| ->]; [by left|]. right. split; [done|by intros _]. }
    eapply wp_mono; [exact Hloop| |done|done]. intros _ s' (Hg & [rest Hat'] & Hu).
    apply (Hfinish rest); [done|done|]. destruct (decide (_state (sm_parser s') = Ground)); auto.
Qed.
End Nested.

(** ** The two theorems behind the properties *)
Lemma ProcessString_ok depth string s :
  callback_strings_ok -> Forall is_wchar string -> parser_ok (sm_parser s) -> acceptable string s ->
  F \/ (budget (_engine s) < depth)%nat ->
  wp (ProcessString depth string) (fun _ => gone s) (gone s) F s.
Proof.
  intros Hcb. revert string s. induction depth as [|depth IH]; intros string s Hw Hok Hacc Hb.
  - apply wp_out_of_fuel. destruct Hb; [done|lia].
  - simpl. apply (ProcessString_body_ok (ProcessString depth) depth); try done.
    + intros str s' Hw' Hok' Hst' Hb'. apply IH; try done. right. by left.
    + unfold budget_ok. destruct Hb; [by left|]. right. lia.
Qed.
End Safety.
