(* ===== verification/StateMachineStream.v ===== *)
(** * The parser works on a stream of characters

    [ProcessString] prints plain text in runs and remembers where in the string
    it is; for an output engine none of this is visible: it has the effect of
    [ProcessCharacter] on each character in turn, and so how the stream is cut
    into strings does not matter. *)

From S2P Require Import Prelude VtTypes Chars StateMachine ParserInvariant StateMachineSafety TraceEngine.

(** The reference: one character after the other. *)
Fixpoint process_chars {E H CB} `{IStateMachineEngine E H CB} (nested : wstring -> comp (StateMachine E H CB) unit)
    (string : wstring) : comp (StateMachine E H CB) unit :=
  match string with
  | [] => mret tt
  | wch :: string => ProcessCharacter nested wch;; process_chars nested string
  end.

(** ** What an engine for a stream of text promises *)
Definition same_modes (v1 v2 : View) : Prop :=
  view_AcceptC1 v1 = view_AcceptC1 v2 /\ view_Ansi v1 = view_Ansi v2.

(** The call does not depend on whether more characters are to come. *)
Definition blind {E A} (f : View -> E -> A) : Prop :=
  forall v1 v2 e, same_modes v1 v2 -> f v1 e = f v2 e.

Definition plain (wch : wchar) : Prop := isActionableFromGround wch = false.

Definition print_all {E H CB} `{IStateMachineEngine E H CB} (v : View) (string : wstring) (e : E) : E :=
  fold_left (fun e wch => reply_engine (ActionPrint wch v e)) string e.

Class StreamEngine E H CB `{IStateMachineEngine E H CB} : Prop := {
  se_Execute : forall wch, blind (ActionExecute wch);
  se_ExecuteFromEscape : forall wch, blind (ActionExecuteFromEscape wch);
  se_Print : forall wch, blind (ActionPrint wch);
  se_PrintString : forall s, blind (ActionPrintString s);
  se_Esc : forall id, blind (ActionEscDispatch id);
  se_Vt52 : forall id ps, blind (ActionVt52EscDispatch id ps);
  se_Csi : forall id ps, blind (ActionCsiDispatch id ps);
  se_Dcs : forall id ps, blind (ActionDcsDispatch id ps);
  se_Osc : forall n s, blind (ActionOscDispatch n s);
  se_Ss3 : forall wch ps, blind (ActionSs3Dispatch wch ps);
  se_Handler : forall h wch, blind (CallStringHandler h wch);
  (** strings that are passed through are swallowed *)
  se_PassThrough : forall s v e, ActionPassThroughString s v e = mkReply e [] (Some true);
  (** printing succeeds, and printing a run prints its characters *)
  se_print : forall wch v e, plain wch ->
    ActionPrint wch v e = mkReply (reply_engine (ActionPrint wch v e)) [] (Some true);
  se_printString : forall s v e, s <> [] -> Forall plain s ->
    ActionPrintString s v e = mkReply (print_all v s e) [] (Some true);
}.

Section Stream.
Context {E H CB : Type} `{!IStateMachineEngine E H CB} `{!StreamEngine E H CB}.
Abbreviation Mach := (StateMachine E H CB).
Implicit Types s : Mach.

(** The two machines agree on everything but the position in the string and what
    is kept for a later flush; [b] asks for the position as well. *)
Definition same_but_run s1 s2 : Prop :=
  _engine s1 = _engine s2 /\ sm_conf s1 = sm_conf s2 /\ sm_parser s1 = sm_parser s2 /\
  _isEngineForInput (sm_conf s1) = false.

Definition same_upto (b : bool) s1 s2 : Prop :=
  same_but_run s1 s2 /\ (b = true -> position s1 = position s2).

Lemma same_but_run_sym s1 s2 : same_but_run s1 s2 -> same_but_run s2 s1.
Proof. unfold same_but_run. intuition congruence. Qed.

Lemma same_but_run_trans s1 s2 s3 : same_but_run s1 s2 -> same_but_run s2 s3 -> same_but_run s1 s3.
Proof. unfold same_but_run. intuition congruence. Qed.

Lemma R_sym b s1 s2 : same_upto b s1 s2 -> same_upto b s2 s1.
Proof.
  intros [(H1 & H2 & H3 & H4) H5]. split; [|intros Hb; by rewrite H5]. unfold same_but_run. by rewrite <- H2.
Qed.

Lemma R_trans b s1 s2 s3 : same_upto b s1 s2 -> same_upto b s2 s3 -> same_upto b s1 s3.
Proof. unfold same_upto, same_but_run. intuition congruence. Qed.

Lemma R_refl_l b s1 s2 : same_upto b s1 s2 -> same_upto b s1 s1.
Proof. intros HR. by eapply R_trans, R_sym. Qed.

Section Simulation.
Context (b : bool).
Abbreviation R := (same_upto b).

Lemma same_view s1 s2 : R s1 s2 -> same_modes (view s1) (view s2).
Proof. intros [(_ & Hc & _) _]. unfold same_modes, view, GetParserMode. simpl. by rewrite Hc. Qed.

Lemma R_request s1 s2 r : R s1 s2 -> R (apply_request s1 r) (apply_request s2 r).
Proof.
  intros [(H1 & H2 & H3 & H4) H5].
  destruct r; (split; [|done]); simpl; unfold SetParserMode, OnCsiComplete, same_but_run; simpl;
    rewrite ?H2; repeat split; try done; by rewrite <- H2.
Qed.

Lemma R_requests rs s1 s2 : R s1 s2 -> R (fold_left apply_request rs s1) (fold_left apply_request rs s2).
Proof. revert s1 s2. induction rs; intros; simpl; [done|]. by apply IHrs, R_request. Qed.

Lemma R_set_engine e s1 s2 : R s1 s2 -> R (set_engine e s1) (set_engine e s2).
Proof. intros [(? & ? & ? & ?) ?]. by repeat split. Qed.

Lemma R_set_parser p s1 s2 : R s1 s2 -> R (set_parser p s1) (set_parser p s2).
Proof. intros [(? & ? & ? & ?) ?]. by repeat split. Qed.

(** ** The primitives *)
Lemma sim_apply_reply {A} (r : Reply E CB A) : simulates R (apply_reply r) (apply_reply r).
Proof. intros s1 s2 HR. split; simpl; [|done]. by apply R_requests, R_set_engine. Qed.

Lemma sim_engine_call {A} (f : View -> E -> Reply E CB A) : blind f -> simulates R (engine_call f) (engine_call f).
Proof.
  intros Hf s1 s2 HR. unfold engine_call. rewrite (Hf _ _ _ (same_view _ _ HR)).
  pose proof HR as [(He & _) _]. rewrite He. by apply sim_apply_reply.
Qed.

Lemma sim_with_parser {A} (f : Parser H -> A) : simulates R (with_parser f) (with_parser f).
Proof. apply simulates_gets. by intros s1 s2 [(_ & _ & -> & _) _]. Qed.

Lemma sim_gets_conf {A} (f : Conf CB -> A) : simulates R (gets (fun s => f (sm_conf s))) (gets (fun s => f (sm_conf s))).
Proof. apply simulates_gets. by intros s1 s2 [(_ & -> & _) _]. Qed.

Lemma sim_GetParserMode m : simulates R (gets (GetParserMode m)) (gets (GetParserMode m)).
Proof. apply simulates_gets. intros s1 s2 [(_ & Hc & _) _]. unfold GetParserMode. by rewrite Hc. Qed.

Lemma sim_modify_parser f : simulates R (modify_parser f) (modify_parser f).
Proof.
  apply simulates_modify. intros s1 s2 HR. pose proof HR as [(_ & _ & Hp & _) _]. rewrite Hp.
  by apply R_set_parser.
Qed.

Lemma sim_try_parser f : simulates R (try_parser f) (try_parser f).
Proof.
  intros s1 s2 HR. unfold try_parser. pose proof HR as [(_ & _ & Hp & _) _]. rewrite Hp.
  destruct (f (sm_parser s2)); (split; [|done]); [by apply R_set_parser|done].
Qed.

Lemma sim_modify_run f :
  (forall r1 r2, _currentString r1 = _currentString r2 -> _runOffset r1 = _runOffset r2 -> _runSize r1 = _runSize r2 ->
     (_currentString (f r1), _runOffset (f r1), _runSize (f r1))
     = (_currentString (f r2), _runOffset (f r2), _runSize (f r2))) ->
  simulates R (modify_run f) (modify_run f).
Proof.
  intros Hf. apply simulates_modify. intros s1 s2 [HR Hpos]. split; [done|].
  intros Hb. specialize (Hpos Hb). injection Hpos as ? ? ?. by apply Hf.
Qed.

(** Flushing is invisible: the engine swallows what is passed through. *)
Lemma SafeExecute_passthrough flush str s :
  exists s', SafeExecute_with flush (engine_call (ActionPassThroughString str)) s = (s', Returned true) /\
             (forall t, R s t -> R s' t).
Proof.
  unfold SafeExecute_with, engine_call, apply_reply. rewrite se_PassThrough. simpl.
  eexists. split; [done|]. by destruct s.
Qed.

Lemma FlushToTerminal_silent n s :
  exists s' b, FlushToTerminal (S n) s = (s', Returned b) /\ (forall t, R s t -> R s' t).
Proof.
  assert (forall s0, exists s' b,
    SafeExecute_with (FlushToTerminal n) (run ← _CurrentRun; engine_call (ActionPassThroughString run)) s0
      = (s', Returned b) /\ (forall t, R s0 t -> R s' t)) as Hrun.
  { intros s0. unfold SafeExecute_with, mbind, comp_bind, _CurrentRun.
    destruct (_ <=? _)%nat; [|eauto]. unfold engine_call, apply_reply. rewrite se_PassThrough. simpl.
    do 2 eexists. split; [done|]. by destruct s0. }
  destruct (Hrun s) as (s1 & b1 & Hs1 & HR1).
  cbn [FlushToTerminal]. unfold mbind, comp_bind, gets, mret, comp_ret in *.
  destruct (_cachedSequence (sm_run s)) as [sequence|]; [|eauto].
  destruct (SafeExecute_passthrough (FlushToTerminal n) sequence s) as (s2 & Hs2 & HR2). rewrite Hs2.
  simpl. destruct (Hrun (set_run (set_cachedSequence None (sm_run s2)) s2)) as (s3 & b3 & Hs3 & HR3).
  exists s3, b3. split; [exact Hs3|]. intros t Ht. apply HR3. by apply (HR2 t Ht).
Qed.

Lemma sim_SafeExecute (l1 l2 : comp Mach bool) : simulates R l1 l2 -> simulates R (_SafeExecute l1) (_SafeExecute l2).
Proof.
  intros Hl s1 s2 HR. unfold _SafeExecute, SafeExecute_with.
  destruct (Hl s1 s2 HR) as [HR' Ho]. destruct (l1 s1) as [s1' o1], (l2 s2) as [s2' o2].
  cbn [fst snd] in HR', Ho. subst o2.
  destruct o1 as [[]| | |]; try by split.
  destruct (FlushToTerminal_silent 1 s1') as (t1 & b1 & Ht1 & Hr1).
  destruct (FlushToTerminal_silent 1 s2') as (t2 & b2 & Ht2 & Hr2).
  unfold flush_fuel. rewrite Ht1, Ht2. split; [|done]. simpl.
  apply Hr1, R_sym, Hr2, R_sym, HR'.
Qed.

Lemma sim_execute (l1 l2 : comp Mach bool) : simulates R l1 l2 -> simulates R (execute l1) (execute l2).
Proof.
  intros. apply simulates_bind; [by apply sim_SafeExecute|]. intros. apply simulates_ret.
Qed.

Lemma sim_call_handler wch : simulates R (call_dcsStringHandler wch) (call_dcsStringHandler wch).
Proof.
  apply simulates_bind; [apply sim_with_parser|]. intros [h|]; [|apply simulates_throw].
  intros s1 s2 HR. unfold invoke_handler. rewrite (se_Handler h wch _ _ _ (same_view _ _ HR)).
  pose proof HR as [(He & _ & Hp & _) _]. rewrite He, Hp.
  destruct (CallStringHandler h wch (view s2) (_engine s2)) as [h' r].
  by apply sim_apply_reply, R_set_parser.
Qed.

Ltac sim_step :=
  lazymatch goal with
  | |- simulates _ (if ?b then _ else _) _ => destruct b
  | |- simulates _ (match ?x with _ => _ end) _ => destruct x
  | |- simulates _ (_ ≫= _) _ => apply simulates_bind; [|intros]
  | |- simulates _ (execute _) _ => apply sim_execute
  | |- simulates _ (_SafeExecute _) _ => apply sim_SafeExecute
  | |- simulates _ (engine_call (ActionExecute _)) _ => apply sim_engine_call, se_Execute
  | |- simulates _ (engine_call (ActionExecuteFromEscape _)) _ => apply sim_engine_call, se_ExecuteFromEscape
  | |- simulates _ (engine_call (ActionPrint _)) _ => apply sim_engine_call, se_Print
  | |- simulates _ (engine_call (ActionPrintString _)) _ => apply sim_engine_call, se_PrintString
  | |- simulates _ (engine_call (ActionEscDispatch _)) _ => apply sim_engine_call, se_Esc
  | |- simulates _ (engine_call (ActionVt52EscDispatch _ _)) _ => apply sim_engine_call, se_Vt52
  | |- simulates _ (engine_call (ActionCsiDispatch _ _)) _ => apply sim_engine_call, se_Csi
  | |- simulates _ (engine_call (ActionDcsDispatch _ _)) _ => apply sim_engine_call, se_Dcs
  | |- simulates _ (engine_call (ActionOscDispatch _ _)) _ => apply sim_engine_call, se_Osc
  | |- simulates _ (engine_call (ActionSs3Dispatch _ _)) _ => apply sim_engine_call, se_Ss3
  | |- simulates _ (with_parser _) _ => apply sim_with_parser
  | |- simulates _ (gets (GetParserMode _)) _ => apply sim_GetParserMode
  | |- simulates _ (gets (fun s => _isEngineForInput (sm_conf s))) _ => apply (sim_gets_conf _isEngineForInput)
  | |- simulates _ (modify_parser _) _ => apply sim_modify_parser
  | |- simulates _ (try_parser _) _ => apply sim_try_parser
  | |- simulates _ (modify_run _) _ => apply sim_modify_run; simpl; congruence
  | |- simulates _ (mret _) _ => apply simulates_ret
  | |- simulates _ (call_dcsStringHandler _) _ => apply sim_call_handler
  end.

Ltac sim := repeat sim_step.

Lemma sim_enter st : simulates R (enter st) (enter st).
Proof. apply sim_modify_parser. Qed.

Lemma sim_EnterSosPmApcString : simulates R _EnterSosPmApcString _EnterSosPmApcString.
Proof.
  unfold _EnterSosPmApcString, enter, reset_cachedSequence. sim.
  apply simulates_modify. intros s1 s2 HR. pose proof HR as [(He & _) _]. rewrite He. by apply R_set_engine.
Qed.

Ltac unfold_actions :=
  unfold _ActionExecute, _ActionExecuteFromEscape, _ActionPrint, _ActionEscDispatch, _ActionVt52EscDispatch,
    _ActionCsiDispatch, _ActionOscDispatch, _ActionSs3Dispatch, _ActionDcsDispatch, _ActionIgnore, _ActionInterrupt,
    _EnterGround, _EnterEscape, _EnterEscapeIntermediate, _EnterCsiEntry, _EnterCsiParam, _EnterCsiSubParam,
    _EnterCsiIgnore, _EnterCsiIntermediate, _EnterOscParam, _EnterOscString, _EnterOscTermination, _EnterSs3Entry,
    _EnterSs3Param, _EnterVt52Param, _EnterDcsEntry, _EnterDcsParam, _EnterDcsIgnore, _EnterDcsIntermediate,
    _EnterDcsPassThrough, enter, reset_cachedSequence, collect, param, subParam.

(** ** Machines that differ in their position behave the same *)
Section Nested.
Variable nested : wstring -> comp Mach unit.
Hypothesis sim_nested : forall str, simulates R (nested str) (nested str).

Lemma sim_callback : simulates R (_ExecuteCsiCompleteCallback nested) (_ExecuteCsiCompleteCallback nested).
Proof.
  apply simulates_bind; [apply sim_gets_conf|]. intros [cb|]; [|apply simulates_ret].
  intros s1 s2 HR.
  unfold mbind, comp_bind, gets, modify, run_callback. cbn [_engine set_conf sm_conf].
  pose proof HR as [(He & Hc & Hp & Hi) Hpos]. rewrite He, Hc. simpl.
  assert (forall u1 u2 e', same_but_run u1 u2 -> R
    (set_run (set_runSize (_runSize (sm_run s1)) (set_runOffset (_runOffset (sm_run s1))
       (set_currentString (_currentString (sm_run s1)) (sm_run u1)))) (set_engine e' u1))
    (set_run (set_runSize (_runSize (sm_run s2)) (set_runOffset (_runOffset (sm_run s2))
       (set_currentString (_currentString (sm_run s2)) (sm_run u2)))) (set_engine e' u2))) as Hrestore.
  { intros u1 u2 e' (? & ? & ? & ?). split; [by repeat split|exact Hpos]. }
  destruct (CallbackBegin cb (_engine s2)) as [e [str|]]; cbn [fst snd].
  - set (t1 := set_engine e _). set (t2 := set_engine e (set_conf _ s2)).
    assert (R t1 t2) as HR' by (split; [unfold same_but_run; simpl; rewrite <- Hc; done|exact Hpos]).
    destruct (sim_nested str t1 t2 HR') as [HR'' Ho].
    destruct (nested str t1) as [u1 o1], (nested str t2) as [u2 o2]. cbn [fst snd] in HR'', Ho. subst o2.
    pose proof HR'' as [(He2 & _) _]. rewrite He2.
    destruct o1; (split; [|done]); try by apply (R_set_engine _ u1 u2).
    exact (Hrestore u1 u2 (CallbackEnd cb (_engine u2)) (proj1 HR'')).
  - split; [|done]. refine (Hrestore (set_conf (set_onCsiCompleteCallback None (sm_conf s2)) s1)
      (set_conf (set_onCsiCompleteCallback None (sm_conf s2)) s2) e _).
    unfold same_but_run. simpl. rewrite <- Hc. done.
Qed.

Lemma sim_csiDispatch wch : simulates R (csiDispatch nested wch) (csiDispatch nested wch).
Proof. unfold csiDispatch. unfold_actions. repeat (sim || apply sim_callback). Qed.

Lemma sim_dispatch_event st wch : simulates R (dispatch_event nested st wch) (dispatch_event nested st wch).
Proof.
  destruct st; simpl;
  unfold _EventGround, _EventEscape, _EventEscapeIntermediate, _EventCsiEntry, _EventCsiIntermediate, _EventCsiIgnore,
    _EventCsiParam, _EventCsiSubParam, _EventOscParam, _EventOscString, _EventOscTermination, _EventSs3Entry,
    _EventSs3Param, _EventVt52Param, _EventDcsEntry, _EventDcsIgnore, _EventDcsIntermediate, _EventDcsParam,
    _EventDcsPassThrough, _EventSosPmApcString, _EventEscape; unfold_actions;
  repeat (sim_step || apply sim_csiDispatch || apply sim_EnterSosPmApcString).
Qed.

Lemma sim_ProcessCharacter_body self wch :
  (forall c, simulates R (self c) (self c)) ->
  simulates R (ProcessCharacter_body nested self wch) (ProcessCharacter_body nested self wch).
Proof.
  intros Hself. unfold ProcessCharacter_body. unfold_actions.
  repeat (sim_step || apply Hself || apply sim_dispatch_event).
Qed.

Lemma sim_ProcessCharacter wch : simulates R (ProcessCharacter nested wch) (ProcessCharacter nested wch).
Proof.
  unfold ProcessCharacter. apply sim_ProcessCharacter_body. intros c.
  apply sim_ProcessCharacter_body. intros. apply simulates_out_of_fuel.
Qed.

Lemma sim_process_chars str : simulates R (process_chars nested str) (process_chars nested str).
Proof.
  induction str as [|c str IH]; simpl; [apply simulates_ret|].
  apply simulates_bind; [apply sim_ProcessCharacter|]. by intros.
Qed.

Lemma process_chars_app str1 str2 s :
  process_chars nested (str1 ++ str2) s = (process_chars nested str1;; process_chars nested str2) s.
Proof.
  revert s. induction str1 as [|c str1 IH]; intros s; [done|]. cbn [app process_chars].
  unfold mbind, comp_bind in *. by destruct (ProcessCharacter nested c s) as [s' [[]| | |]].
Qed.

Lemma sim_process_vt rest : simulates R (process_vt nested rest) (process_vt nested rest).
Proof.
  induction rest as [|c rest IH]; cbn [process_vt]; [apply simulates_ret|].
  repeat (sim_step || apply sim_ProcessCharacter || apply IH).
Qed.

(** *** Strings, when the positions agree *)
Hypothesis Hb : b = true.

Lemma sim_CurrentRun : simulates R _CurrentRun _CurrentRun.
Proof.
  intros s1 s2 HR. pose proof HR as [_ Hpos]. specialize (Hpos Hb). injection Hpos as Hc Ho Hs.
  unfold _CurrentRun. rewrite Hc, Ho, Hs. by case_match.
Qed.

Lemma sim_vt_start continue rest :
  (forall rest', simulates R (continue rest') (continue rest')) ->
  simulates R (vt_start nested continue rest) (vt_start nested continue rest).
Proof. intros Hc. unfold vt_start. repeat (sim_step || apply sim_process_vt || apply Hc). Qed.

Lemma sim_process_loop fuel string rest :
  simulates R (process_loop nested fuel string rest) (process_loop nested fuel string rest).
Proof.
  revert rest. induction fuel as [|fuel IH]; intros [|c rest]; cbn [process_loop];
    try apply simulates_ret; [apply simulates_out_of_fuel|]. cbv zeta.
  apply simulates_bind; [|intros; by apply sim_vt_start].
  unfold print_run, _ActionPrintString. repeat (sim_step || apply sim_CurrentRun).
Qed.

Lemma sim_finish_string : simulates R finish_string finish_string.
Proof.
  unfold finish_string, handle_trailing_input, cache_run. unfold_actions.
  repeat (sim_step || apply sim_CurrentRun || apply simulates_undefined).
  apply simulates_gets. by intros s1 s2 [(-> & _) _].
Qed.
End Nested.
End Simulation.

(** ** Runs of plain text *)
Section Equivalence.
Abbreviation R := (same_upto false).
Variable nested : wstring -> comp Mach unit.
Hypothesis sim_nested : forall b str, simulates (same_upto b) (nested str) (nested str).

Lemma plain_ground wch s :
  is_wchar wch -> plain wch -> _state (sm_parser s) = Ground ->
  ProcessCharacter nested wch s = (set_engine (reply_engine (ActionPrint wch (view s) (_engine s))) s, Returned tt).
Proof.
  intros Hw Hp Hst. pose proof Hp as Hr. unfold plain in Hr. rewrite isActionable_range in Hr by done.
  unfold ProcessCharacter, ProcessCharacter_body, with_parser, mbind, comp_bind, gets. rewrite Hst.
  assert (_isC1ControlCharacter wch = false) as -> by (unfold _isC1ControlCharacter; lia).
  assert ((wch =? AsciiChars.CAN) = false) as -> by (unfold AsciiChars.CAN; lia).
  assert ((wch =? AsciiChars.SUB) = false) as -> by (unfold AsciiChars.SUB; lia).
  assert (_isEscape wch = false) as -> by (unfold _isEscape, AsciiChars.ESC; lia).
  assert (_isC0Code wch = false) as Hc0 by (unfold _isC0Code, AsciiChars.NUL, AsciiChars.ETB, AsciiChars.EM,
    AsciiChars.FS, AsciiChars.US; lia).
  assert (_isDelete wch = false) as Hdel by (unfold _isDelete, AsciiChars.DEL; lia).
  cbn [andb orb dispatch_event]. unfold _EventGround. rewrite Hc0, Hdel. cbn [orb].
  unfold _ActionPrint, execute, _SafeExecute, SafeExecute_with, engine_call, apply_reply, mbind, comp_bind.
  rewrite (se_print wch (view s) (_engine s)) by done. done.
Qed.

Lemma process_chars_plain str s :
  Forall is_wchar str -> Forall plain str -> _state (sm_parser s) = Ground ->
  process_chars nested str s = (set_engine (print_all (view s) str (_engine s)) s, Returned tt).
Proof.
  intros Hw Hp. revert s. induction str as [|c str IH]; intros s Hst; [by destruct s|].
  inv Hw. inv Hp. simpl. unfold mbind, comp_bind. rewrite plain_ground by done.
  rewrite IH by done. done.
Qed.

Lemma plain_prefix rest : Forall plain (take (plainSearch rest) rest).
Proof.
  induction rest as [|c rest IH]; simpl; [constructor|].
  destruct (isActionableFromGround c) eqn:Hc; [constructor|]. simpl. by constructor.
Qed.

Lemma ActionPrintString_plain str s :
  str <> [] -> Forall plain str ->
  _ActionPrintString str s = (set_engine (print_all (view s) str (_engine s)) s, Returned tt).
Proof.
  intros Hne Hp.
  unfold _ActionPrintString, execute, _SafeExecute, SafeExecute_with, engine_call, apply_reply, mbind, comp_bind.
  rewrite se_printString by done. done.
Qed.

Lemma print_run_chars string rest s :
  Forall is_wchar rest -> R s s -> _state (sm_parser s) = Ground -> at_rest string rest s -> rest `suffix_of` string ->
  let n := FindActionableControlCharacter rest in
  exists s', print_run (length string - length rest) n s = (s', Returned tt) /\
    R s' (process_chars nested (take n rest) s).1 /\ (process_chars nested (take n rest) s).2 = Returned tt.
Proof.
  intros Hw HR Hst [Hcur Hat] [pre Hpre]. cbv zeta. rewrite FindActionable_plainSearch by done.
  set (n := plainSearch rest). assert (n <= length rest)%nat as Hn by apply plainSearch_le.
  rewrite process_chars_plain; [|by apply Forall_take|apply plain_prefix|done].
  unfold print_run, mbind, comp_bind. simpl. case_decide as Hz.
  - eexists. split; [done|]. rewrite Hz. simpl. split; [|done].
    destruct HR as [(_ & _ & _ & HR) _]. by repeat split.
  - unfold _CurrentRun. simpl. rewrite Hcur, Hpre.
    replace (length (pre ++ rest) - length rest)%nat with (length pre) by (rewrite length_app; lia).
    destruct (Nat.leb_spec (length pre) (length (pre ++ rest))); [|rewrite length_app in *; lia].
    rewrite drop_app_length. unfold mbind, comp_bind. rewrite ActionPrintString_plain.
    + eexists. split; [done|]. split; [|done]. destruct HR as [(_ & _ & _ & HR) _]. by repeat split.
    + intros Hnil. apply (f_equal length) in Hnil. rewrite length_take in Hnil. simpl in Hnil. lia.
    + apply plain_prefix.
Qed.

(** ** The inner loop *)
Lemma process_vt_chars rest :
  simulates R (process_vt nested rest ≫= process_chars nested) (process_chars nested rest).
Proof.
  induction rest as [|c rest IH]; [by intros s1 s2|].
  intros s1 s2 HR. cbn [process_vt process_chars]. unfold mbind, comp_bind, modify_run, modify.
  set (t1 := set_run _ (set_run _ s1)).
  assert (R t1 s2) as HR' by (destruct HR; by split).
  destruct (sim_ProcessCharacter false nested (sim_nested false) c t1 s2 HR') as [HR1 Ho].
  destruct (ProcessCharacter nested c t1) as [u1 o1], (ProcessCharacter nested c s2) as [u2 o2].
  cbn [fst snd] in HR1, Ho. subst o2. destruct o1 as [[]| | |]; try done.
  unfold with_parser, gets.
  rewrite (proj1 (proj2 (proj2 (proj1 HR1)))). case_decide; [by apply sim_process_chars; [apply sim_nested|]|by apply IH].
Qed.

Lemma process_vt_suffix rest s s' rest' :
  process_vt nested rest s = (s', Returned rest') -> rest' `suffix_of` rest.
Proof.
  revert s. induction rest as [|c rest IH]; intros s; cbn [process_vt]; [by intros [= _ <-]|].
  unfold mbind, comp_bind, modify_run, modify.
  destruct (ProcessCharacter nested c _) as [u [[]| | |]]; try done.
  unfold with_parser, gets. case_decide.
  - intros [= _ <-]. by apply suffix_cons_r.
  - intros Hvt. by apply suffix_cons_r, (IH u).
Qed.

(** ** The whole string *)
Context (Hcb : callback_strings_ok) (Hnested : nested_ok True (fun _ : E => 0%nat) nested 0).

Lemma same_outcome_trans {A} (r1 r2 r3 : Mach * outcome A) :
  same_outcome R r1 r2 -> same_outcome R r2 r3 -> same_outcome R r1 r3.
Proof. intros [? ?] [? ?]. split; [by eapply R_trans|congruence]. Qed.

Lemma vt_start_chars string (continue : wstring -> comp Mach unit) rest s :
  Forall is_wchar rest -> parser_ok (sm_parser s) -> R s s -> at_rest string rest s -> rest `suffix_of` string ->
  (forall rest' s', Forall is_wchar rest' -> (length rest' < length rest)%nat -> parser_ok (sm_parser s') -> R s' s' ->
     at_rest string rest' s' -> rest' `suffix_of` string -> _state (sm_parser s') = Ground \/ rest' = [] ->
     same_outcome R (continue rest' s') (process_chars nested rest' s')) ->
  same_outcome R (vt_start nested continue rest s) (process_chars nested rest s).
Proof.
  intros Hw Hok HR Hat Hsuf Hcont. destruct rest as [|c rest]; [done|]. unfold vt_start.
  pose proof (process_vt_chars (c :: rest) s s HR) as Hvt.
  pose proof (sim_process_vt false nested (sim_nested false) (c :: rest) s s HR) as [HR' _].
  pose proof (process_vt_suffix (c :: rest) s) as Hs.
  pose proof (process_vt_ok True (fun _ => 0%nat) nested 0 Hnested Hcb string (c :: rest) s Hw Hok
    (or_introl I) Hat) as Hwp. specialize (Hwp ltac:(done)). unfold wp in Hwp.
  unfold mbind, comp_bind in *. destruct (process_vt nested (c :: rest) s) as [s' [rest'| | |]]; try done.
  destruct Hwp as ((Hok' & _) & Hat' & Hw' & Hlt & Hst' & _).
  eapply same_outcome_trans; [|apply Hvt]. apply Hcont; try done.
  by etrans; [apply (Hs s')|].
Qed.

Lemma process_loop_chars string fuel rest s :
  Forall is_wchar rest -> parser_ok (sm_parser s) -> R s s -> (length rest <= fuel)%nat ->
  at_rest string rest s -> rest `suffix_of` string -> _state (sm_parser s) = Ground \/ rest = [] ->
  same_outcome R (process_loop nested fuel string rest s) (process_chars nested rest s).
Proof.
  revert rest s. induction fuel as [|fuel IH]; intros rest s Hw Hok HR Hfuel Hat Hsuf Hst;
    (destruct rest as [|c rest]; [done|]); [simpl in Hfuel; lia|].
  destruct Hst as [Hst|?]; [|done].
  destruct (print_run_chars string (c :: rest) s Hw HR Hst Hat Hsuf) as (s1 & Hp & HR1 & Ho1).
  cbn [process_loop]. cbv zeta in Hp, HR1, Ho1 |- *.
  set (n := FindActionableControlCharacter (c :: rest)) in *.
  assert (n <= length (c :: rest))%nat as Hn
    by (unfold n; rewrite FindActionable_plainSearch by done; apply plainSearch_le).
  pose proof (print_run_ok True (fun _ => 0%nat) string (c :: rest) n s Hok Hat Hn) as Hwp.
  unfold wp in Hwp. rewrite Hp in Hwp. destruct Hwp as ((Hok1 & _) & Hat1 & Hp1).
  unfold mbind at 1, comp_bind at 1. rewrite Hp.
  eapply same_outcome_trans with (process_chars nested (drop n (c :: rest)) s1).
  - apply (vt_start_chars string); try done.
    + by apply Forall_drop.
    + by eapply R_refl_l.
    + etrans; [|done]. apply suffix_drop.
    + intros rest' s' Hw' Hlt Hok' HR' Hat' Hsuf' Hst'. apply IH; try done.
      rewrite length_drop in Hlt. simpl in *. lia.
  - pose proof (process_chars_app nested (take n (c :: rest)) (drop n (c :: rest)) s) as Happ.
    rewrite take_drop in Happ. rewrite Happ. unfold mbind, comp_bind.
    destruct (process_chars nested (take n (c :: rest)) s) as [s2 o2]. cbn [fst snd] in HR1, Ho1. subst o2.
    by apply sim_process_chars; [apply sim_nested|].
Qed.

Lemma finish_string_silent s :
  R s s -> (exists string rest, at_rest string rest s) ->
  exists s', finish_string s = (s', Returned tt) /\ R s' s.
Proof.
  intros HR (string & rest & Hat). unfold finish_string, with_parser, mbind, comp_bind, gets.
  case_decide; [by exists s|]. erewrite CurrentRun_at by done.
  pose proof HR as [(_ & _ & _ & ->) _]. case_match; [by exists s|]. eexists. split; [done|].
  destruct HR. by split.
Qed.

Lemma ProcessString_body_chars string s :
  Forall is_wchar string -> parser_ok (sm_parser s) -> R s s ->
  same_outcome R (ProcessString_body nested string s) (process_chars nested string s).
Proof.
  intros Hw Hok HR. unfold ProcessString_body, process_current, modify_run, modify, with_parser, gets.
  unfold mbind at 1 2, comp_bind at 1 2. set (s1 := set_run _ s).
  assert (R s1 s) as HR1 by (destruct HR; by split). assert (R s1 s1) as HR11 by by eapply R_refl_l.
  assert (at_rest string string s1) as Hat by done.
  set (m := if decide _ then _ else _).
  assert (same_outcome R (m s1) (process_chars nested string s1)) as Hm.
  { unfold m. case_decide as Hst.
    - apply process_loop_chars; try done. by left.
    - apply (vt_start_chars string); try done. intros rest' s' Hw' Hlt Hok' HR' Hat' Hsuf' Hst'.
      apply process_loop_chars; try done. lia. }
  assert (wp m (fun _ s' => exists rest, at_rest string rest s') (fun _ => True) True s1) as Hwp.
  { unfold m. destruct string as [|c string].
    - case_decide; apply wp_ret; by exists [].
    - case_decide as Hst.
      + eapply wp_mono; [apply (process_loop_ok True (fun _ => 0%nat) nested 0 Hnested Hcb); try done; by left| |done|done].
        by intros _ s' (_ & ? & _).
      + eapply wp_mono; [apply (vt_start_ok True (fun _ => 0%nat) nested 0 Hnested Hcb (c :: string)); try done| |done|done].
        * by left.
        * by right.
        * intros rest' s' Hlt Hw' Hg' Hat' Hst' Hsz.
          apply (process_loop_ok True (fun _ => 0%nat) nested 0 Hnested Hcb); try done; [apply Hg'|by left|lia|].
          destruct Hst' as [?| ->]; [by left|]. right. split; [done|by intros _].
        * by intros _ s' (_ & ? & _). }
  eapply same_outcome_trans; [|by apply sim_process_chars; [apply sim_nested|]].
  eapply same_outcome_trans; [|apply Hm].
  unfold wp in Hwp. unfold mbind, comp_bind. destruct Hm as [HRm _].
  destruct (m s1) as [s2 [[]| | |]]; cbn [fst snd] in HRm.
  - assert (R s2 s2) as HR2 by by eapply R_refl_l.
    destruct (finish_string_silent s2 HR2 ltac:(eauto)) as (s3 & Hf & HR3). rewrite Hf. by split.
  - split; [|done]. by eapply R_refl_l.
  - done.
  - split; [|done]. by eapply R_refl_l.
Qed.
End Equivalence.

(** ** Every depth *)
Context (Hcb : callback_strings_ok).

Lemma sim_ProcessString b depth str : simulates (same_upto b) (ProcessString depth str) (ProcessString depth str).
Proof.
  revert b str. induction depth as [|depth IH]; intros b str; [apply simulates_out_of_fuel|].
  intros s1 s2 HR. set (begin := fun s : Mach => set_run (mkRun str 0 0 (_cachedSequence (sm_run s)) []
    (_processingLastCharacter (sm_run s))) s).
  change (same_outcome (same_upto b) (process_current (ProcessString depth) str (begin s1))
            (process_current (ProcessString depth) str (begin s2))).
  assert (same_upto true (begin s1) (begin s2)) as HRt by (destruct HR; by split).
  assert (simulates (same_upto true) (process_current (ProcessString depth) str)
            (process_current (ProcessString depth) str)) as Hm.
  { apply simulates_bind; [apply sim_with_parser|]. intros st. apply simulates_bind; [|intros; by apply sim_finish_string].
    case_decide; [by apply sim_process_loop|]. apply sim_vt_start; [done|]. intros. by apply sim_process_loop. }
  destruct (Hm _ _ HRt) as [HR' Ho]. split; [|done]. destruct HR' as [HR' Hpos]. split; [done|].
  intros _. by apply Hpos.
Qed.

Lemma ProcessString_nested_ok depth : nested_ok True (fun _ : E => 0%nat) (ProcessString depth) 0.
Proof.
  intros str s Hw Hok Hst _. apply (ProcessString_ok True (fun _ => 0%nat)); unfold acceptable; auto.
Qed.

(** [ProcessString] is [ProcessCharacter] on every character. *)
Lemma ProcessString_chars depth string s :
  Forall is_wchar string -> parser_ok (sm_parser s) -> _isEngineForInput (sm_conf s) = false ->
  same_outcome same_but_run (ProcessString (S depth) string s) (process_chars (ProcessString depth) string s).
Proof.
  intros Hw Hok Hin.
  destruct (ProcessString_body_chars (ProcessString depth) (fun b => sim_ProcessString b depth) Hcb
    (ProcessString_nested_ok depth) string s Hw Hok) as [[HR _] Ho]; [by repeat split|by split].
Qed.
End Stream.
