(* ===== verification/ParserProps.v ===== *)
(** * Properties of the parser

    The theorems about src/terminal/parser/stateMachine.cpp: safety for every
    engine, termination, and independence of how the stream is cut. *)

From S2P Require Import Prelude VtTypes Chars StateMachine ParserInvariant StateMachineSafety TraceEngine StateMachineStream.

(** ** The recording engine keeps the promises of the interfaces *)
Lemma log_print_app s1 s2 log : s1 <> [] -> log_print (s1 ++ s2) log = log_print s2 (log_print s1 log).
Proof.
  intros Hne. destruct s2 as [|c s2]; [by rewrite app_nil_r|]. destruct s1 as [|a s1]; [done|].
  unfold log_print. cbn [app]. destruct (last log) as [[]|];
    rewrite ?last_set_back, ?set_back_twice, ?last_snoc, ?set_back_snoc, <- ?app_assoc; done.
Qed.

Lemma print_all_log v s (log : Log) : print_all v s log = log_print s log.
Proof.
  revert log. induction s as [|c s IH]; intros log; [done|].
  change (print_all v (c :: s) log) with (print_all v s (log_print [c] log)). rewrite IH.
  by rewrite <- (log_print_app [c] s).
Qed.

#[export] Instance TraceEngine_stream : StreamEngine Log unit Empty_set.
Proof. constructor; try done. intros s v e _ _. simpl. by rewrite print_all_log. Qed.

Lemma print_all_nest v s e : print_all (H:=unit) (CB:=unit) v s e = mkNest (log_print s (nest_log e)) (remaining e).
Proof.
  revert e. induction s as [|c s IH]; intros [log n]; [done|].
  change (print_all v (c :: s) (mkNest log n)) with (print_all (H:=unit) (CB:=unit) v s (mkNest (log_print [c] log) n)).
  rewrite IH. cbn [nest_log remaining]. by rewrite <- (log_print_app [c] s).
Qed.

#[export] Instance NestEngine_stream : StreamEngine Nest unit unit.
Proof.
  constructor; try done.
  - by intros s v [].
  - intros s v e _ _. by rewrite print_all_nest.
Qed.

#[export] Instance NestEngine_bounded : BoundedNesting (E:=Nest) False remaining.
Proof.
  constructor; try done; try (by intros ? ? []).
  - intros cb [log []]; simpl; [done|congruence].
  - intros cb [log []]; simpl; [by intros [? ?]|right; lia].
  - intros cb [log []] [log' m]; simpl; [by intros [? ?]|intros _ ->; done].
  - by right.
Qed.

Lemma NestEngine_strings : callback_strings_ok (E:=Nest).
Proof. intros cb [log []]; simpl; [done|]. unfold macro, invocation. repeat constructor; done. Qed.

(** ** Reachable machines

    Everything the rest of the terminal does to a parser, as a step relation. *)
Section Reachable.
Context {E H CB : Type} `{!IStateMachineEngine E H CB}.
Abbreviation Mach := (StateMachine E H CB).

(** The call came back, normally or with an exception. *)
Definition came_back {A} (r : Mach * outcome A) (s' : Mach) : Prop :=
  (exists a, r = (s', Returned a)) \/ r = (s', Threw).

(** The string that must not be given to a machine: an empty one in the middle of a
    sequence, if the engine is the one for input and has not seen win32-input-mode. *)
Definition reads_empty_front (string : wstring) (s : Mach) : Prop :=
  string = [] /\ _state (sm_parser s) <> Ground /\ _isEngineForInput (sm_conf s) = true /\
  EncounteredWin32InputModeSequence (_engine s) = false.

Lemma acceptable_or_not string (s : Mach) : acceptable string s \/ reads_empty_front string s.
Proof.
  unfold acceptable, reads_empty_front. destruct string; [|by left; left]. destruct (decide (_state (sm_parser s) = Ground)); [by auto|].
  destruct (_isEngineForInput (sm_conf s)); [|by auto]. destruct (EncounteredWin32InputModeSequence (_engine s)); auto 6.
Qed.

Lemma empty_front_undefined depth string s : reads_empty_front string s -> (ProcessString (S depth) string s).2 = Undefined.
Proof.
  intros (-> & Hst & Hin & Hwin). cbn [ProcessString]. unfold ProcessString_body, modify_run, process_current, with_parser, gets, modify, mbind, comp_bind.
  cbn [sm_parser set_run]. rewrite decide_False by done. cbn [vt_start]. unfold mret, comp_ret, finish_string, with_parser, gets, mbind, comp_bind.
  cbn [sm_parser set_run]. rewrite decide_False by done. cbn. rewrite Hin. unfold handle_trailing_input, gets, mbind, comp_bind. cbn. by rewrite Hwin.
Qed.

Inductive step : Mach -> Mach -> Prop :=
| step_ProcessString depth string s s' :
    Forall is_wchar string -> came_back (ProcessString depth string s) s' -> step s s'
| step_ProcessCharacter depth wch s s' :
    is_wchar wch -> came_back (ProcessCharacter (ProcessString depth) wch s) s' -> step s s'
| step_SetParserMode mode enabled s : step s (SetParserMode mode enabled s)
| step_OnCsiComplete callback s : step s (OnCsiComplete callback s)
| step_InjectSequence type s : step s (InjectSequence type s)
| step_ResetState s s' : came_back (ResetState s) s' -> step s s'
| step_FlushToTerminal fuel s s' : came_back (FlushToTerminal fuel s) s' -> step s s'.

Inductive reachable : Mach -> Prop :=
| reachable_new engine isEngineForInput : reachable (make_StateMachine engine isEngineForInput)
| reachable_step s s' : reachable s -> step s s' -> reachable s'.

Lemma came_back_wp {A} (m : comp Mach A) (P : Mach -> Prop) F s s' :
  wp m (fun _ => P) P F s -> came_back (m s) s' -> P s'.
Proof. unfold wp. intros Hwp [[a Hr]|Hr]; by rewrite Hr in Hwp. Qed.

Lemma framing_flush_partial fuel s : wp (FlushToTerminal fuel) (fun _ => framed (fun _ : E => 0%nat) s)
  (framed (fun _ : E => 0%nat) s) True s.
Proof.
  destruct fuel as [|fuel]; [done|].
  apply (framing_FlushToTerminal True (fun _ : E => 0%nat)).
Qed.

Lemma step_keeps_ok s s' :
  callback_strings_ok -> step s s' -> parser_ok (sm_parser s) -> parser_ok (sm_parser s').
Proof.
  intros Hcb Hstep Hok. set (b0 := fun _ : E => 0%nat).
  assert (forall depth, nested_ok True b0 (ProcessString depth) 0) as Hnested.
  { intros depth str s0 Hw Hok0 Hst _. apply (ProcessString_ok True b0); unfold acceptable; auto. }
  assert (forall (m : comp Mach unit) t t', step_ok True b0 m t -> came_back (m t) t' -> parser_ok (sm_parser t')) as Hstep_ok.
  { intros m t t' Hm Hr. refine (came_back_wp m (fun t' => parser_ok (sm_parser t')) True _ _ _ Hr).
    eapply wp_mono; [apply Hm| | |done]; simpl; intros; [by apply H0|by apply H0]. }
  destruct Hstep as [depth str s s' Hw Hr|depth wch s s' Hw Hr|mode enabled s|cb s|t s|s s' Hr|fuel s s' Hr];
    try done.
  - destruct (acceptable_or_not str s) as [Hacc|Hempty].
    + refine (proj1 (came_back_wp _ _ _ _ _ (ProcessString_ok True b0 depth str s Hcb Hw Hok Hacc _) Hr)). by left.
    + destruct depth as [|depth]; [by destruct Hr as [[a Hr]|Hr]|]. pose proof (empty_front_undefined depth str s Hempty) as Eu. destruct Hr as [[a Hr]|Hr]; by rewrite Hr in Eu.
  - refine (Hstep_ok _ _ _ _ Hr). apply (step_ok_ProcessCharacter True b0 (ProcessString depth) 0); try done. by left.
  - refine (Hstep_ok _ _ _ _ Hr). by apply (step_ok_EnterGround True b0).
  - destruct (came_back_wp _ _ _ _ _ (framing_flush_partial fuel s) Hr) as [Hp _]. by rewrite Hp.
Qed.

Lemma init_ok engine isEngineForInput : parser_ok (sm_parser (make_StateMachine engine isEngineForInput : Mach)).
Proof. split; [apply core_ok_ActionClear|done]. Qed.

Lemma reachable_ok s : callback_strings_ok -> reachable s -> parser_ok (sm_parser s).
Proof. intros Hcb. induction 1; [apply init_ok|by eapply step_keeps_ok]. Qed.

(** C1: For every engine whatsoever, in every reachable machine the parser is
    well formed (at most 32 parameters, each omitted or at most 65535; at most six
    sub-parameters each, stored in consecutive byte-sized ranges; a string handler
    whenever a device control string is being passed through). Processing one more
    string, with up to [depth] strings that callbacks inject inside one another, has
    undefined behaviour in exactly one case: the string is empty, a sequence is in
    progress, and the engine is the one for input and has not seen a
    win32-input-mode sequence; then the front of the empty run is read. No back of an empty
    vector is read otherwise, and no run is empty. An engine that nests deeper than
    [depth] is cut off there; whether it comes back is not part of the claim. *)
Theorem parser_memory_safe depth string s :
  callback_strings_ok -> reachable s -> Forall is_wchar string ->
  parser_ok (sm_parser s) /\
  ((ProcessString (S depth) string s).2 = Undefined <->
   string = [] /\ _state (sm_parser s) <> Ground /\ _isEngineForInput (sm_conf s) = true /\ EncounteredWin32InputModeSequence (_engine s) = false).
Proof.
  intros Hcb Hr Hw. pose proof (reachable_ok s Hcb Hr) as Hok. split; [done|]. split; [|apply empty_front_undefined]. intros Hu.
  destruct (acceptable_or_not string s) as [Hacc|]; [|done].
  pose proof (ProcessString_ok True (fun _ => 0%nat) (S depth) string s Hcb Hw Hok Hacc (or_introl I)) as Hwp.
  unfold wp in Hwp. by destruct (ProcessString (S depth) string s) as [s' []].
Qed.

Lemma comes_back (budget : E -> nat) depth string s :
  BoundedNesting False budget -> callback_strings_ok -> reachable s -> Forall is_wchar string -> acceptable string s ->
  (budget (_engine s) < depth)%nat ->
  exists s', came_back (ProcessString depth string s) s' /\ parser_ok (sm_parser s').
Proof.
  intros Hbn Hcb Hr Hw Hacc Hb. pose proof (reachable_ok s Hcb Hr) as Hok.
  pose proof (ProcessString_ok False budget depth string s Hcb Hw Hok Hacc (or_intror Hb)) as Hwp.
  unfold wp in Hwp. destruct (ProcessString depth string s) as [s' [a| | |]]; try done; exists s'.
  - split; [left; by exists a|apply Hwp].
  - split; [by right|apply Hwp].
Qed.

(** C2: [ProcessString] comes back, normally or with an exception of the engine, with a
    well-formed parser: the loops over the string, the recursion for C1 controls, the
    flushing and the nested strings all end. The only other outcome is the read of the
    front of the empty run that an empty string causes in the middle of a sequence for input.
    This is for engines with [BoundedNesting]: callbacks nest at most [budget] deep, and the
    pass-through action never answers [false], which would make the flush repeat itself.
    The engine for input has it, and the one for output over every dispatcher that bounds the
    nesting of its macros. *)
Theorem ProcessString_terminates (budget : E -> nat) depth string s :
  BoundedNesting False budget -> callback_strings_ok -> reachable s -> Forall is_wchar string ->
  (budget (_engine s) < depth)%nat ->
  (exists s', came_back (ProcessString depth string s) s' /\ parser_ok (sm_parser s')) \/
  (string = [] /\ _state (sm_parser s) <> Ground /\ _isEngineForInput (sm_conf s) = true /\ EncounteredWin32InputModeSequence (_engine s) = false /\
   (ProcessString depth string s).2 = Undefined).
Proof.
  intros Hbn Hcb Hr Hw Hb. destruct (acceptable_or_not string s) as [Hacc|Hempty]; [left; by eapply comes_back|right].
  destruct depth as [|depth]; [lia|]. pose proof (empty_front_undefined depth string s Hempty). by destruct Hempty as (? & ? & ? & ?).
Qed.
End Reachable.

(** ** A machine in the middle of a sequence *)
Definition csi_start : wstring := [0x61; AsciiChars.ESC; 0x5B; 0x31; 0x3B].
Definition csi_end : wstring := [0x35; 0x3A; 0x32; 0x7A; 0x62].
Definition fresh : StateMachine Nest unit unit := make_StateMachine (mkNest [] 3) false.
Definition in_csi : StateMachine Nest unit unit := (ProcessString 4 csi_start fresh).1.

Lemma csi_start_wchars : Forall is_wchar csi_start.
Proof. repeat constructor; done. Qed.
Lemma csi_end_wchars : Forall is_wchar csi_end.
Proof. repeat constructor; done. Qed.

Lemma in_csi_reachable : reachable in_csi.
Proof.
  apply (reachable_step fresh); [apply reachable_new|].
  apply (step_ProcessString 4 csi_start); [apply csi_start_wchars|].
  left. exists tt. vm_compute. reflexivity.
Qed.

(** The theorem at work: the rest of a sequence whose macro invokes itself. *)
Lemma parser_memory_safe_witness :
  parser_ok (sm_parser in_csi) /\ (ProcessString 2 csi_end in_csi).2 <> Undefined.
Proof.
  destruct (parser_memory_safe 1 csi_end in_csi NestEngine_strings in_csi_reachable csi_end_wchars) as [Hok Hu].
  split; [exact Hok|]. intros E. apply Hu in E as [E _]. discriminate E.
Defined.

Lemma ProcessString_terminates_witness :
  exists s', came_back (ProcessString 4 csi_end in_csi) s' /\ parser_ok (sm_parser s').
Proof.
  destruct (ProcessString_terminates remaining 4 csi_end in_csi NestEngine_bounded NestEngine_strings in_csi_reachable csi_end_wchars) as [Hs|[E _]];
    [vm_compute; lia|exact Hs|discriminate E].
Defined.

(** ** The stream *)
Section Stream.
Context {E H CB : Type} `{!IStateMachineEngine E H CB} `{!StreamEngine E H CB}.
Abbreviation Mach := (StateMachine E H CB).

Lemma chunks depth (str1 str2 : wstring) (s : Mach) :
  callback_strings_ok -> Forall is_wchar str1 -> Forall is_wchar str2 -> parser_ok (sm_parser s) ->
  _isEngineForInput (sm_conf s) = false ->
  same_outcome same_but_run (ProcessString (S depth) (str1 ++ str2) s)
    ((ProcessString (S depth) str1;; ProcessString (S depth) str2) s).
Proof.
  intros Hcb Hw1 Hw2 Hok Hin.
  destruct (ProcessString_chars Hcb depth (str1 ++ str2) s) as [HR Ho]; [by apply Forall_app|done|done|].
  destruct (ProcessString_chars Hcb depth str1 s) as [HR1 Ho1]; [done..|].
  assert (acceptable str1 s) as Hacc by (unfold acceptable; auto).
  pose proof (ProcessString_ok True (fun _ => 0%nat) (S depth) str1 s Hcb Hw1 Hok Hacc (or_introl I)) as Hwp.
  rewrite process_chars_app in HR, Ho. unfold mbind, comp_bind, wp, same_outcome in *.
  destruct (ProcessString (S depth) str1 s) as [s1 o1], (process_chars (ProcessString depth) str1 s) as [t1 p1].
  cbn [fst snd] in *. subst p1. destruct o1 as [[]| | |]; try done;
    [|split; [by eapply same_but_run_trans, same_but_run_sym|done]..].
  destruct Hwp as [Hok1 [Hin1 _]].
  destruct (ProcessString_chars Hcb depth str2 s1) as [HR2 Ho2]; [done|done|congruence|].
  destruct (sim_process_chars false _ (sim_ProcessString false depth) str2 s1 t1) as [[HR3 _] Ho3]; [by split|].
  split; [|congruence].
  eapply same_but_run_trans; [done|]. apply same_but_run_sym. by eapply same_but_run_trans.
Qed.

End Stream.

(** What the parser tells any engine. *)
Section Recorded.
Context {H CB : Type} (a : Answers H CB).
#[local] Instance recorder : IStateMachineEngine Log H CB := Recorder a.
Abbreviation Mach := (StateMachine Log H CB).

Lemma answered_blind {A} entry (answer : View -> Log -> list (Request CB) * option A) : blind (answered entry answer).
Proof. intros v1 v2 log [Hv1 Hv2]. unfold answered, unaware. by rewrite Hv1, Hv2. Qed.

Lemma recorded_print v s (log : Log) : print_all (H:=H) (CB:=CB) v s log = log_print s log.
Proof.
  revert log. induction s as [|c s IH]; intros log; [done|].
  change (print_all v (c :: s) log) with (print_all (H:=H) (CB:=CB) v s (log_print [c] log)). rewrite IH. by rewrite <- (log_print_app [c] s).
Qed.

#[local] Instance Recorder_stream : StreamEngine Log H CB.
Proof.
  constructor; try (intros; apply answered_blind); try done.
  - intros h wch v1 v2 log [Hv1 Hv2]. cbn. unfold unaware. by rewrite Hv1, Hv2.
  - intros s v log _ _. by rewrite recorded_print.
Qed.

(** C4: The optimised string loop makes the calls of the plain one. For every output engine,
    described by its answers (it is not told where a string ends, swallows what is passed
    through, and printing neither fails nor calls back), [ProcessString] (text printed
    in runs found by the vectorised scan, position and last-character bookkeeping) ends with the
    same outcome, parser fields and modes as [ProcessCharacter] on every character, and with
    the same calls of the engine but for how the printed text is cut into runs. The machine
    for input is not meant: it treats a sequence at the end of a string specially. *)
Theorem ProcessString_equals_ProcessCharacter depth string (s : Mach) :
  callback_strings_ok -> reachable s -> _isEngineForInput (sm_conf s) = false -> Forall is_wchar string ->
  same_outcome same_but_run (ProcessString (S depth) string s) (process_chars (ProcessString depth) string s).
Proof. intros Hcb Hr Hin Hw. apply ProcessString_chars; try done. by apply reachable_ok. Qed.

(** C5: How the stream is cut into strings does not show in the calls of an output engine:
    a sequence may be split anywhere, even inside an escape sequence, and the outcome, the
    calls (but for how printed text is cut into runs), the parser fields and the modes are the
    same. The engine is any that answers from the calls so far, as above; one that asks
    for the last character of a string, as the sixel parser does to flush its image, can
    tell the difference. *)
Theorem ProcessString_chunk_independent depth (str1 str2 : wstring) (s : Mach) :
  callback_strings_ok -> reachable s -> _isEngineForInput (sm_conf s) = false ->
  Forall is_wchar str1 -> Forall is_wchar str2 ->
  same_outcome same_but_run (ProcessString (S depth) (str1 ++ str2) s)
    ((ProcessString (S depth) str1;; ProcessString (S depth) str2) s).
Proof. intros. apply chunks; try done. by apply reachable_ok. Qed.
End Recorded.

(** An engine that declines every second action, throws at a bell, turns C1 controls on with
    [CSI m], and injects text after [CSI z]. *)
Definition moody : Answers nat unit := mkAnswers nat unit
  (fun entry _ log => (match entry with CsiDispatch 0x6D _ => [ReqSetParserMode AcceptC1 true] | CsiDispatch 0x7A _ => [ReqOnCsiComplete tt] | _ => [] end,
    match entry with Execute 7 => None | _ => Some (Nat.even (length log)) end))
  (fun _ _ _ log => ([], Some (Some (length log))))
  (fun h wch _ _ => (S h, ([], Some (negb (wch =? 0x23)))))
  (fun _ log => Some [0x61; 0x62]).
#[local] Instance moody_engine : IStateMachineEngine Log nat unit := recorder moody.
Definition moody_machine : StateMachine Log nat unit := make_StateMachine [] false.
Lemma moody_strings : callback_strings_ok (E:=Log) (H:=nat) (CB:=unit).
Proof. intros [] log. repeat constructor; done. Qed.
(** The calls do depend on the sequence before. *)
Example moody_calls : _engine (ProcessString 2 (csi_start ++ csi_end) moody_machine).1 =
  [Print [0x61]; CsiDispatch 0x7A (VTParameters.mk [1; 5] [2] [(0, 0); (0, 1)]); Print [0x61; 0x62; 0x62]].
Proof. vm_compute. reflexivity. Qed.

Lemma ProcessString_equals_ProcessCharacter_witness :
  same_outcome same_but_run (ProcessString 4 (csi_start ++ csi_end) moody_machine) (process_chars (ProcessString 3) (csi_start ++ csi_end) moody_machine).
Proof.
  apply (ProcessString_equals_ProcessCharacter moody 3 (csi_start ++ csi_end) moody_machine);
    [apply moody_strings|apply reachable_new|reflexivity|apply Forall_app_2; [apply csi_start_wchars|apply csi_end_wchars]].
Defined.

Lemma ProcessString_chunk_independent_witness :
  same_outcome same_but_run (ProcessString 4 (csi_start ++ csi_end) moody_machine)
    ((ProcessString 4 csi_start;; ProcessString 4 csi_end) moody_machine).
Proof.
  apply (ProcessString_chunk_independent moody 3 csi_start csi_end moody_machine);
    [apply moody_strings|apply reachable_new|reflexivity|apply csi_start_wchars|apply csi_end_wchars].
Defined.
