(* ===== verification/ParserSyntax.v ===== *)
(** * The syntax the parser accepts

    An abstract syntax of control sequences and operating system commands, its
    rendering as characters, and the lemmas that the state machine reads the
    characters back. *)

From S2P Require Import Prelude VtTypes Chars StateMachine ParserInvariant StateMachineSafety StateMachineStream.

(** ** Abstract syntax *)
Record CsiArgument := mkCsiArgument { ca_value : option Z; ca_subs : list (option Z) }.

Record Csi := mkCsi {
  csi_marker : option wchar;
  csi_arguments : list CsiArgument;
  csi_intermediates : list wchar;
  csi_final : wchar;
}.

Definition empty_argument : CsiArgument := mkCsiArgument None [].

(** ** Rendering *)
(** Five digits are enough for the largest parameter value, 65535. *)
Definition render_value (o : option Z) : wstring :=
  match o with Some v => decimal 5 v | None => [] end.

Definition render_subs (subs : list (option Z)) : wstring :=
  concat (map (fun o => 0x3A :: render_value o) subs).

Definition render_argument (a : CsiArgument) : wstring := render_value (ca_value a) ++ render_subs (ca_subs a).

Fixpoint render_more (args : list CsiArgument) : wstring :=
  match args with
  | [] => []
  | a :: args => 0x3B :: render_argument a ++ render_more args
  end.

Definition render_arguments (args : list CsiArgument) : wstring :=
  match args with
  | [] => []
  | a :: args => render_argument a ++ render_more args
  end.

Definition render_csi (c : Csi) : wstring :=
  [AsciiChars.ESC; 0x5B] ++ option_list (csi_marker c) ++ render_arguments (csi_arguments c)
  ++ csi_intermediates c ++ [csi_final c].

(** An operating system command may end with BEL or with [ESC \ ]. *)
Inductive OscTerminator := OscBEL | OscST.

Definition render_terminator (t : OscTerminator) : wstring :=
  match t with OscBEL => [AsciiChars.BEL] | OscST => [AsciiChars.ESC; 0x5C] end.

Definition render_osc (parameter : Z) (text : wstring) (t : OscTerminator) : wstring :=
  [AsciiChars.ESC; 0x5D] ++ decimal 5 parameter ++ [0x3B] ++ text ++ render_terminator t.

(** ** What the engine is to be given *)
Definition value_of (o : option Z) : Z := default VTParameter.default o.

Fixpoint ranges_of (start : Z) (args : list CsiArgument) : list (Z * Z) :=
  match args with
  | [] => []
  | a :: args =>
    let stop := start + Z.of_nat (length (ca_subs a)) in
    (start, stop) :: ranges_of stop args
  end.

Definition subs_of (args : list CsiArgument) : list Z := concat (map (fun a => map value_of (ca_subs a)) args).

Definition csi_parameters (c : Csi) : VTParameters.t :=
  VTParameters.mk (map (fun a => value_of (ca_value a)) (csi_arguments c)) (subs_of (csi_arguments c))
    (ranges_of 0 (csi_arguments c)).

Definition csi_characters (c : Csi) : wstring := option_list (csi_marker c) ++ csi_intermediates c.
Definition csi_id (c : Csi) : Z := VTID._FromString (csi_characters c ++ [csi_final c]).

(** ** Well-formed sequences *)
Definition value_wf (o : option Z) : Prop := match o with Some v => 0 <= v <= MAX_PARAMETER_VALUE | None => True end.
Definition argument_wf (a : CsiArgument) : Prop :=
  value_wf (ca_value a) /\ Forall value_wf (ca_subs a) /\ Z.of_nat (length (ca_subs a)) <= MAX_SUBPARAMETER_COUNT.

(** A single empty argument renders like no argument at all, and is read so. *)
Record csi_wf (c : Csi) : Prop := {
  wf_marker : match csi_marker c with Some m => _isCsiPrivateMarker m = true | None => True end;
  wf_arguments : Forall argument_wf (csi_arguments c);
  wf_count : (length (csi_arguments c) <= MAX_PARAMETER_COUNT)%nat;
  wf_canonical : csi_arguments c <> [empty_argument];
  wf_intermediates : Forall (fun wch => _isIntermediate wch = true) (csi_intermediates c);
  wf_length : (length (csi_characters c) <= 6)%nat;
  wf_final : 0x40 <= csi_final c <= 0x7E;
}.

(** The characters an operating system command can carry. *)
Definition osc_char (wch : wchar) : Prop := 0x20 <= wch /\ _isC1ControlCharacter wch = false.

(** ** Reading numbers *)
Lemma digit_value d : 0 <= d < 10 -> _isNumericParamValue (0x30 + d) = true.
Proof. intros. unfold _isNumericParamValue. apply andb_true_iff. split; apply Z.leb_le; lia. Qed.

Lemma AccumulateTo_digit d v : 0 <= d < 10 -> 0 <= v -> v * 10 + d <= MAX_PARAMETER_VALUE ->
  _AccumulateTo (0x30 + d) v = v * 10 + d.
Proof.
  intros. unfold _AccumulateTo. replace (48 + d - 48) with d by lia.
  destruct (Z.ltb_spec MAX_PARAMETER_VALUE (v * 10 + d)); lia.
Qed.

(** Digits read one by one, starting from an omitted value, give the number. *)
Definition read_digit (o : option Z) (wch : wchar) : option Z := Some (_AccumulateTo wch (default 0 o)).

Lemma decimal_digits n v : 0 <= v -> Forall (fun wch => _isNumericParamValue wch = true) (decimal n v).
Proof.
  revert v. induction n as [|n IH]; intros v Hv; simpl; [done|]. pose proof (Z.mod_pos_bound v 10 ltac:(lia)).
  destruct (Z.ltb_spec v 10); [by repeat constructor; apply digit_value|].
  apply Forall_snoc. split; [apply IH, Z.div_pos; lia|by apply digit_value].
Qed.

Lemma decimal_read n v : 0 <= v <= MAX_PARAMETER_VALUE -> v < 10 ^ Z.of_nat n -> (0 < n)%nat ->
  fold_left read_digit (decimal n v) None = Some v.
Proof.
  revert v. induction n as [|n IH]; intros v Hv Hn Hpos; [lia|]. simpl.
  rewrite Nat2Z.inj_succ, Z.pow_succ_r in Hn by lia. pose proof (Z.mod_pos_bound v 10 ltac:(lia)).
  pose proof (Z.div_mod v 10 ltac:(lia)) as Hd.
  destruct (Z.ltb_spec v 10); simpl.
  - unfold read_digit. simpl. rewrite AccumulateTo_digit by lia. done.
  - assert (v / 10 < 10 ^ Z.of_nat n) by (apply Z.div_lt_upper_bound; lia).
    assert (0 < n)%nat by (destruct n; simpl in *; lia).
    rewrite fold_left_app, IH by lia. simpl. unfold read_digit. simpl.
    rewrite AccumulateTo_digit by lia. f_equal. lia.
Qed.

Lemma render_value_read o : value_wf o -> fold_left read_digit (render_value o) None = o.
Proof. destruct o as [v|]; [|done]. intros Hv. unfold value_wf, MAX_PARAMETER_VALUE in Hv. apply decimal_read; simpl; unfold MAX_PARAMETER_VALUE; lia. Qed.

Lemma render_value_digits o : value_wf o -> Forall (fun wch => _isNumericParamValue wch = true) (render_value o).
Proof. destruct o as [v|]; [|done]. intros Hv. unfold value_wf in Hv. apply decimal_digits. lia. Qed.

Lemma value_or_value_of o : 0 <= default 0 o -> VTParameter.value_or (value_of o) 0 = default 0 o.
Proof.
  intros Ho. unfold VTParameter.value_or, value_of. destruct o as [v|]; simpl in *; [|done].
  destruct (Z.ltb_spec v 0); [lia|done].
Qed.

(** ** Parsers that have read some arguments *)
Section Reading.
Context {H : Type}.
Implicit Types p : Parser H.

Record holds (args : list CsiArgument) p : Prop := {
  h_parameters : _parameters p = map (fun a => value_of (ca_value a)) args;
  h_subParameters : _subParameters p = subs_of args;
  h_ranges : _subParameterRanges p = ranges_of 0 args;
  h_limit : _parameterLimitOverflowed p = false;
  h_subLimit : _subParameterLimitOverflowed p = false;
  h_counter : _subParameterCounter p = Z.of_nat (length (default [] (ca_subs <$> last args)));
}.

(** Before the first parameter character the argument being read is not stored yet. *)
Definition current (args : list CsiArgument) p : Prop :=
  holds args p \/ (args = [empty_argument] /\ holds [] p).

Lemma subs_of_app a1 a2 : subs_of (a1 ++ a2) = subs_of a1 ++ subs_of a2.
Proof. unfold subs_of. by rewrite map_app, concat_app. Qed.

Lemma subs_of_one v subs : subs_of [mkCsiArgument v subs] = map value_of subs.
Proof. unfold subs_of. simpl. apply app_nil_r. Qed.

Lemma ranges_of_app start a1 a2 :
  ranges_of start (a1 ++ a2) = ranges_of start a1 ++ ranges_of (start + Z.of_nat (length (subs_of a1))) a2.
Proof.
  revert start. induction a1 as [|a a1 IH]; intros start; simpl; [f_equal; lia|].
  rewrite IH. do 3 f_equal. unfold subs_of. simpl. rewrite length_app, length_map. lia.
Qed.

Lemma subs_of_length args : Forall argument_wf args -> (length args <= MAX_PARAMETER_COUNT)%nat ->
  Z.of_nat (length (subs_of args)) <= 192.
Proof.
  unfold MAX_PARAMETER_COUNT. intros Hwf Hl.
  assert (Z.of_nat (length (subs_of args)) <= 6 * Z.of_nat (length args)); [|lia]. clear Hl.
  induction Hwf as [|a args (_ & _ & Ha) Hwf IH]; [done|]. change (a :: args) with ([a] ++ args).
  rewrite subs_of_app. unfold subs_of at 1. simpl. rewrite !length_app, length_map. simpl.
  unfold MAX_SUBPARAMETER_COUNT in Ha. lia.
Qed.

Lemma holds_add_empty args p : Forall argument_wf args -> (length args <= MAX_PARAMETER_COUNT)%nat ->
  holds args p -> holds (args ++ [empty_argument]) (add_empty_parameter (set_subParameterLimitOverflowed false (set_subParameterCounter 0 p))).
Proof.
  intros Hwf Hl [Hp Hs Hr Hlim Hsub Hc]. pose proof (subs_of_length args Hwf Hl).
  constructor; simpl; rewrite ?Hp, ?Hs, ?Hr, ?map_app, ?subs_of_app, ?ranges_of_app, ?app_nil_r, ?last_snoc; try done.
  rewrite u8_small by lia. simpl. by rewrite Z.add_0_r.
Qed.

Lemma holds_ensure args p : args <> [] -> current args p -> holds args (ensure_parameter p).
Proof.
  intros Hne [Hh|[-> Hh]]; unfold ensure_parameter.
  - destruct args as [|a args]; [done|]. by rewrite (h_parameters _ _ Hh).
  - rewrite (h_parameters _ _ Hh). simpl. destruct Hh as [Hp Hs Hr Hlim Hsub Hc].
    constructor; simpl; rewrite ?Hp, ?Hs, ?Hr; done.
Qed.

Lemma ensure_limit p : _parameterLimitOverflowed (ensure_parameter p) = _parameterLimitOverflowed p /\
  _subParameterLimitOverflowed (ensure_parameter p) = _subParameterLimitOverflowed p.
Proof. unfold ensure_parameter. by destruct (_parameters p). Qed.

Lemma current_limit args p : current args p ->
  _parameterLimitOverflowed p = false /\ _subParameterLimitOverflowed p = false.
Proof. intros [[]|[_ []]]; done. Qed.

Lemma current_delimiter args p : args <> [] -> Forall argument_wf args -> (length args < MAX_PARAMETER_COUNT)%nat ->
  current args p -> holds (args ++ [empty_argument]) (_ActionParam 0x3B p).
Proof.
  intros Hne Hwf Hl Hc. unfold _ActionParam. rewrite (proj1 (current_limit _ _ Hc)).
  pose proof (holds_ensure args p Hne Hc) as Hh. change (_isParameterDelimiter 0x3B) with true. cbv iota zeta.
  rewrite (h_parameters _ _ Hh), length_map. destruct (Nat.leb_spec MAX_PARAMETER_COUNT (length args)); [lia|].
  apply holds_add_empty; [done|lia|done].
Qed.

Lemma current_digit args v wch p : _isNumericParamValue wch = true -> 0 <= default 0 v -> current (args ++ [mkCsiArgument v []]) p ->
  holds (args ++ [mkCsiArgument (read_digit v wch) []]) (_ActionParam wch p).
Proof.
  intros Hd Hv Hc. unfold _ActionParam. rewrite (proj1 (current_limit _ _ Hc)).
  assert (args ++ [mkCsiArgument v []] <> []) as Hne by (by destruct args).
  pose proof (holds_ensure _ p Hne Hc) as [Hp Hs Hr Hlim Hsub Hcnt].
  assert (_isParameterDelimiter wch = false) as ->.
  { unfold _isNumericParamValue in Hd. unfold _isParameterDelimiter. apply Z.eqb_neq. lia. }
  rewrite map_app in Hp. simpl in Hp.
  constructor; simpl; rewrite ?Hp, ?Hs, ?Hr, ?Hlim, ?Hsub, ?Hcnt, ?map_app, ?subs_of_app, ?ranges_of_app, ?last_snoc; try done.
  rewrite set_back_snoc. simpl. unfold read_digit. by rewrite value_or_value_of.
Qed.

Lemma current_subDelimiter args v subs p :
  Z.of_nat (length subs) < MAX_SUBPARAMETER_COUNT -> Forall argument_wf (args ++ [mkCsiArgument v subs]) ->
  (length (args ++ [mkCsiArgument v subs]) <= MAX_PARAMETER_COUNT)%nat -> current (args ++ [mkCsiArgument v subs]) p ->
  exists p', _ActionSubParam 0x3A p = Some p' /\ holds (args ++ [mkCsiArgument v (subs ++ [None])]) p' /\
             _identifier p' = _identifier p.
Proof.
  intros Hl Hwf Hcnt Hc. unfold _ActionSubParam. rewrite (proj2 (current_limit _ _ Hc)).
  pose proof (subs_of_length _ Hwf Hcnt) as Hb.
  assert (args ++ [mkCsiArgument v subs] <> []) as Hne by (by destruct args).
  pose proof (holds_ensure _ p Hne Hc) as [Hp Hs Hr Hlim Hsub Hn]. rewrite last_snoc in Hn. simpl in Hn.
  change (_isSubParameterDelimiter 0x3A) with true. cbv iota zeta. rewrite Hn.
  destruct (Z.leb_spec MAX_SUBPARAMETER_COUNT (Z.of_nat (length subs))); [lia|].
  rewrite ranges_of_app in Hr. simpl in Hr. rewrite Hr, last_snoc. eexists. split; [done|]. split.
  - rewrite subs_of_app, subs_of_one, length_app, length_map in Hb.
    unfold MAX_SUBPARAMETER_COUNT in *.
    constructor; simpl; rewrite ?Hp, ?Hs, ?Hlim, ?Hsub, ?map_app, ?subs_of_app, ?ranges_of_app, ?last_snoc; simpl; try done.
    + by rewrite !subs_of_one, map_app, app_assoc.
    + rewrite set_back_snoc, u8_small by lia. rewrite length_app. simpl. do 3 f_equal. lia.
    + rewrite length_app, u8_small by lia. simpl. lia.
  - simpl. unfold ensure_parameter. by destruct (_parameters p).
Qed.

Lemma holds_subDigit args v subs w wch p : _isNumericParamValue wch = true -> 0 <= default 0 w ->
  holds (args ++ [mkCsiArgument v (subs ++ [w])]) p ->
  exists p', _ActionSubParam wch p = Some p' /\ holds (args ++ [mkCsiArgument v (subs ++ [read_digit w wch])]) p' /\
             _identifier p' = _identifier p.
Proof.
  intros Hd Hw Hh.
  assert (ensure_parameter p = p) as He.
  { unfold ensure_parameter. rewrite (h_parameters _ _ Hh), map_app. by destruct (map _ args). }
  unfold _ActionSubParam. rewrite (h_subLimit _ _ Hh), He. destruct Hh as [Hp Hs Hr Hlim Hsub Hn].
  assert (_isSubParameterDelimiter wch = false) as ->.
  { unfold _isNumericParamValue in Hd. unfold _isSubParameterDelimiter. apply Z.eqb_neq. lia. }
  rewrite subs_of_app, subs_of_one, map_app, app_assoc in Hs. simpl in Hs.
  rewrite Hs, last_snoc. eexists. split; [done|]. split; [|done].
  constructor; simpl; rewrite ?Hp, ?Hr, ?Hlim, ?Hsub, ?Hn, ?map_app, ?subs_of_app, ?ranges_of_app, ?last_snoc; simpl; try done.
  - rewrite set_back_snoc, subs_of_one, map_app, app_assoc. simpl.
    unfold read_digit. by rewrite value_or_value_of.
  - by rewrite !length_app.
  - by rewrite !length_app.
Qed.
End Reading.

(** ** Characters that only change the parser *)
Section Moves.
Context {E H CB : Type} `{!IStateMachineEngine E H CB}.
Abbreviation Mach := (StateMachine E H CB).
Context (nested : wstring -> comp Mach unit).
Implicit Types (s : Mach) (p : Parser H) (P Q R : Parser H -> Prop).

(** Printable ASCII characters go to the event of the current state. *)
Definition ordinary (wch : wchar) : Prop := 0x20 <= wch < 0x7F.

Lemma ProcessCharacter_dispatch wch s :
  wch <> AsciiChars.CAN -> wch <> AsciiChars.SUB -> _isC1ControlCharacter wch = false -> wch <> AsciiChars.ESC ->
  ProcessCharacter nested wch s = dispatch_event nested (_state (sm_parser s)) wch s.
Proof.
  intros H1%Z.eqb_neq H2%Z.eqb_neq H3 H4%Z.eqb_neq.
  unfold ProcessCharacter, ProcessCharacter_body at 1, _isEscape. by rewrite H1, H2, H3, H4.
Qed.

Lemma ProcessCharacter_ordinary wch s :
  ordinary wch -> ProcessCharacter nested wch s = dispatch_event nested (_state (sm_parser s)) wch s.
Proof.
  unfold ordinary. intros Hw. apply ProcessCharacter_dispatch; unfold AsciiChars.CAN, AsciiChars.SUB, AsciiChars.ESC; try lia.
  unfold _isC1ControlCharacter. apply andb_false_iff. left. apply Z.leb_gt. lia.
Qed.

(** [reads str p p']: the characters take the parser from [p] to [p'] without a
    word to the engine and without coming back to the ground state. *)
Fixpoint reads (str : wstring) p p' : Prop :=
  match str with
  | [] => p' = p
  | wch :: str => exists p1,
      (forall s, GetParserMode Ansi s = true -> sm_parser s = p -> ProcessCharacter nested wch s = (set_parser p1 s, Returned tt)) /\
      _state p1 <> Ground /\ reads str p1 p'
  end.

Lemma set_parser_same s : set_parser (sm_parser s) s = s.
Proof. by destruct s. Qed.

Lemma reads_app str1 str2 p p1 p2 : reads str1 p p1 -> reads str2 p1 p2 -> reads (str1 ++ str2) p p2.
Proof.
  revert p. induction str1 as [|wch str1 IH]; intros p; simpl; [by intros ->|].
  intros (q & Hq & Hst & Hr) H2. exists q. auto.
Qed.

Lemma reads_process_chars str s p' : GetParserMode Ansi s = true -> reads str (sm_parser s) p' ->
  process_chars nested str s = (set_parser p' s, Returned tt).
Proof.
  revert s. induction str as [|wch str IH]; intros s Ha Hr; cbn [process_chars].
  - simpl in Hr. subst p'. by rewrite set_parser_same.
  - destruct Hr as (p1 & Heq & _ & Hr). unfold mbind, comp_bind. rewrite Heq by done.
    by rewrite (IH (set_parser p1 s) Ha Hr).
Qed.

(** [moves str P Q]: from a parser with [P] the characters are read, and lead to a
    parser with [Q]. *)
Definition moves (str : wstring) P Q : Prop := forall p, P p -> exists p', reads str p p' /\ Q p'.

Lemma moves_nil P Q : (forall p, P p -> Q p) -> moves [] P Q.
Proof. intros HPQ p Hp. exists p. split; [done|auto]. Qed.

Lemma moves_app str1 str2 P Q R : moves str1 P Q -> moves str2 Q R -> moves (str1 ++ str2) P R.
Proof.
  intros H1 H2 p Hp. destruct (H1 p Hp) as (p1 & Hr1 & HQ). destruct (H2 p1 HQ) as (p2 & Hr2 & HR).
  exists p2. split; [by eapply reads_app|done].
Qed.

Lemma moves_mono str P P' Q Q' : moves str P Q -> (forall p, P' p -> P p) -> (forall p, Q p -> Q' p) -> moves str P' Q'.
Proof. intros Hm HP HQ p Hp. destruct (Hm p (HP _ Hp)) as (p' & ? & ?). eauto. Qed.

Lemma moves_process_chars str P Q s : moves str P Q -> GetParserMode Ansi s = true -> P (sm_parser s) ->
  exists p', process_chars nested str s = (set_parser p' s, Returned tt) /\ Q p'.
Proof.
  intros Hm Ha Hp. destruct (Hm _ Hp) as (p' & Hr & HQ). exists p'. split; [|done]. by apply reads_process_chars.
Qed.

(** One character, given what it does to the parser. *)
Lemma moves_char wch P Q : (forall p, Q p -> _state p <> Ground) ->
  (forall p, P p -> exists p',
     (forall s, GetParserMode Ansi s = true -> sm_parser s = p -> ProcessCharacter nested wch s = (set_parser p' s, Returned tt)) /\ Q p') ->
  moves [wch] P Q.
Proof. intros Hng Hd p Hp. destruct (Hd p Hp) as (p' & Heq & HQ). exists p'. split; [|done]. exists p'. split; [done|]. split; [by apply Hng|done]. Qed.

(** One ordinary character, given what its event does to the parser. *)
Lemma moves_one wch P Q : ordinary wch -> (forall p, Q p -> _state p <> Ground) ->
  (forall p, P p -> exists p',
     (forall s, GetParserMode Ansi s = true -> sm_parser s = p ->
        dispatch_event nested (_state (sm_parser s)) wch s = (set_parser p' s, Returned tt)) /\ Q p') ->
  moves [wch] P Q.
Proof.
  intros Hw Hng Hd. apply moves_char; [done|]. intros p Hp. destruct (Hd p Hp) as (p' & Heq & HQ). exists p'. split; [|done].
  intros s Ha Hs. rewrite ProcessCharacter_ordinary by done. by apply Heq.
Qed.

(** *** Reading arguments *)
Definition at_param (cs : list Z) (args : list CsiArgument) p : Prop :=
  (_state p = CsiEntry \/ _state p = CsiParam) /\ _identifier p = collected cs /\ current args p.
Definition at_sub (cs : list Z) (args : list CsiArgument) p : Prop :=
  _state p = CsiSubParam /\ _identifier p = collected cs /\ holds args p.
Definition anywhere (cs : list Z) (args : list CsiArgument) p : Prop := at_param cs args p \/ at_sub cs args p.

Lemma holds_set_state st args p : holds args p -> holds args (set_state st p).
Proof. intros []; by constructor. Qed.

Lemma set_state_same p : set_state (_state p) p = p.
Proof. by destruct p. Qed.

Lemma identifier_ActionParam wch p : _identifier (_ActionParam wch p) = _identifier p.
Proof.
  unfold _ActionParam, ensure_parameter. destruct (_parameterLimitOverflowed p); [done|].
  destruct (_parameters p); cbv zeta; repeat (case_match; try done).
Qed.

(** The predicates on parsers in a sequence exclude the ground state. *)
Ltac not_ground := unfold anywhere, at_param, at_sub; simpl; intros; intuition congruence.

Ltac ordinary_char := unfold ordinary; unfold _isNumericParamValue, _isIntermediate, _isCsiPrivateMarker in *; lia.
(** Evaluates the character tests of an event from what is known about [wch]. *)
Ltac class_lia := unfold _isIntermediateInvalid, _isParameterInvalid, _isC0Code, _isDelete, _isIntermediate, _isNumericParamValue, _isParameterDelimiter,
  _isSubParameterDelimiter, _isCsiPrivateMarker, _isCsiIndicator,
  _isOscIndicator, _isOscTerminator, _isEscape, _isOscDelimiter, _isOscInvalid, _isStringTerminatorIndicator,
  _isSs3Indicator, _isDcsIndicator, _isSosIndicator, _isPmIndicator, _isApcIndicator,
  _isCsiPrivateMarker, AsciiChars.NUL, AsciiChars.ETB, AsciiChars.EM, AsciiChars.FS, AsciiChars.US, AsciiChars.DEL,
  AsciiChars.ESC, AsciiChars.BEL in *; lia.
Ltac class_step f w := first [assert (f w = false) as -> by class_lia | assert (f w = true) as -> by class_lia].
Ltac classes :=
  repeat match goal with
  | |- context [_isC0Code ?w] => class_step _isC0Code w
  | |- context [_isDelete ?w] => class_step _isDelete w
  | |- context [_isIntermediate ?w] => class_step _isIntermediate w
  | |- context [_isNumericParamValue ?w] => class_step _isNumericParamValue w
  | |- context [_isParameterDelimiter ?w] => class_step _isParameterDelimiter w
  | |- context [_isSubParameterDelimiter ?w] => class_step _isSubParameterDelimiter w
  | |- context [_isCsiPrivateMarker ?w] => class_step _isCsiPrivateMarker w
  | |- context [_isParameterInvalid ?w] => class_step _isParameterInvalid w
  | |- context [_isIntermediateInvalid ?w] => class_step _isIntermediateInvalid w
  | |- context [_isOscTerminator ?w] => class_step _isOscTerminator w
  | |- context [_isEscape ?w] => class_step _isEscape w
  | |- context [_isOscDelimiter ?w] => class_step _isOscDelimiter w
  | |- context [_isOscInvalid ?w] => class_step _isOscInvalid w
  end; cbn [orb andb].

Lemma moves_digit cs args v wch : _isNumericParamValue wch = true -> 0 <= default 0 v ->
  moves [wch] (at_param cs (args ++ [mkCsiArgument v []])) (at_param cs (args ++ [mkCsiArgument (read_digit v wch) []])).
Proof.
  intros Hd Hv. apply moves_one; [ordinary_char|not_ground|]. intros p (Hst & Hid & Hc).
  exists (set_state CsiParam (_ActionParam wch p)). split.
  - intros s _ <-. destruct Hst as [Hst|Hst]; rewrite Hst; simpl; [unfold _EventCsiEntry|unfold _EventCsiParam]; classes; [done|].
    rewrite <- Hst, <- (state_ActionParam wch (sm_parser s)), set_state_same. done.
  - split; [by right|]. split; [simpl; by rewrite identifier_ActionParam|].
    left. apply holds_set_state. by apply current_digit.
Qed.

Lemma read_digit_nonneg v wch : _isNumericParamValue wch = true -> 0 <= default 0 v -> 0 <= default 0 (read_digit v wch).
Proof.
  intros Hd Hv. unfold read_digit, _AccumulateTo. cbn [default from_option id].
  unfold MAX_PARAMETER_VALUE. destruct (Z.ltb_spec 65535 (from_option id 0 v * 10 + (wch - 48))); [lia|].
  unfold _isNumericParamValue in Hd. lia.
Qed.

Lemma moves_digits cs args v str : Forall (fun wch => _isNumericParamValue wch = true) str -> 0 <= default 0 v ->
  moves str (at_param cs (args ++ [mkCsiArgument v []])) (at_param cs (args ++ [mkCsiArgument (fold_left read_digit str v) []])).
Proof.
  intros Hs. revert v. induction Hs as [|wch str Hd Hs IH]; intros v Hv; [by apply moves_nil|].
  apply (moves_app [wch] str) with (Q := at_param cs (args ++ [mkCsiArgument (read_digit v wch) []])).
  - by apply moves_digit.
  - simpl. by apply IH, read_digit_nonneg.
Qed.

Lemma moves_delimiter cs args : args <> [] -> Forall argument_wf args -> (length args < MAX_PARAMETER_COUNT)%nat ->
  moves [0x3B] (anywhere cs args) (at_param cs (args ++ [empty_argument])).
Proof.
  intros Hne Hwf Hl. apply moves_one; [ordinary_char|not_ground|]. intros p Hs.
  exists (set_state CsiParam (_ActionParam 0x3B p)).
  assert (_identifier p = collected cs /\ current args p) as [Hid Hc]
    by (destruct Hs as [(_ & ? & ?)|(_ & ? & ?)]; [done|split; [done|by left]]).
  split.
  - intros s _ <-. destruct Hs as [([Hst|Hst] & _)|(Hst & _)]; rewrite Hst; try done. simpl. unfold _EventCsiParam. classes.
    rewrite <- Hst, <- (state_ActionParam 0x3B (sm_parser s)), set_state_same. done.
  - split; [by right|]. split; [simpl; by rewrite identifier_ActionParam|].
    left. apply holds_set_state. by apply current_delimiter.
Qed.

Lemma moves_subDelimiter cs args v subs :
  Z.of_nat (length subs) < MAX_SUBPARAMETER_COUNT -> Forall argument_wf (args ++ [mkCsiArgument v subs]) ->
  (length (args ++ [mkCsiArgument v subs]) <= MAX_PARAMETER_COUNT)%nat ->
  moves [0x3A] (anywhere cs (args ++ [mkCsiArgument v subs])) (at_sub cs (args ++ [mkCsiArgument v (subs ++ [None])])).
Proof.
  intros Hsub Hwf Hl. apply moves_one; [ordinary_char|not_ground|]. intros p Hs.
  assert (_identifier p = collected cs /\ current (args ++ [mkCsiArgument v subs]) p) as [Hid Hc]
    by (destruct Hs as [(_ & ? & ?)|(_ & ? & ?)]; [done|split; [done|by left]]).
  destruct (current_subDelimiter args v subs p) as (p' & Heq & Hh & Hid'); [done..|].
  pose proof (state_ActionSubParam _ _ _ Heq) as Hst'.
  exists (set_state CsiSubParam p'). split.
  - intros s _ <-. destruct Hs as [([Hst|Hst] & _)|(Hst & _)]; rewrite Hst; simpl;
      [unfold _EventCsiEntry|unfold _EventCsiParam|unfold _EventCsiSubParam]; classes;
      unfold subParam, try_parser, mbind, comp_bind; rewrite Heq; try done.
    by rewrite <- Hst, <- Hst', set_state_same.
  - split; [done|]. split; [simpl; by rewrite Hid'|]. by apply holds_set_state.
Qed.

Lemma moves_subDigit cs args v subs w wch : _isNumericParamValue wch = true -> 0 <= default 0 w ->
  moves [wch] (at_sub cs (args ++ [mkCsiArgument v (subs ++ [w])])) (at_sub cs (args ++ [mkCsiArgument v (subs ++ [read_digit w wch])])).
Proof.
  intros Hd Hw. apply moves_one; [ordinary_char|not_ground|]. intros p (Hst & Hid & Hh).
  destruct (holds_subDigit args v subs w wch p) as (p' & Heq & Hh' & Hid'); [done..|].
  exists p'. split.
  - intros s _ <-. rewrite Hst. simpl. unfold _EventCsiSubParam. classes. unfold subParam, try_parser. by rewrite Heq.
  - split; [by rewrite (state_ActionSubParam _ _ _ Heq)|]. split; [by rewrite Hid'|done].
Qed.

Lemma moves_subDigits cs args v subs w str : Forall (fun wch => _isNumericParamValue wch = true) str -> 0 <= default 0 w ->
  moves str (at_sub cs (args ++ [mkCsiArgument v (subs ++ [w])]))
    (at_sub cs (args ++ [mkCsiArgument v (subs ++ [fold_left read_digit str w])])).
Proof.
  intros Hs. revert w. induction Hs as [|wch str Hd Hs IH]; intros w Hw; [by apply moves_nil|].
  apply (moves_app [wch] str) with (Q := at_sub cs (args ++ [mkCsiArgument v (subs ++ [read_digit w wch])])).
  - by apply moves_subDigit.
  - simpl. by apply IH, read_digit_nonneg.
Qed.

(** *** Whole arguments *)
Lemma moves_subs cs args v subs more :
  Forall value_wf more -> Z.of_nat (length (subs ++ more)) <= MAX_SUBPARAMETER_COUNT -> value_wf v -> Forall value_wf subs ->
  Forall argument_wf args -> (length args < MAX_PARAMETER_COUNT)%nat ->
  moves (render_subs more) (anywhere cs (args ++ [mkCsiArgument v subs])) (anywhere cs (args ++ [mkCsiArgument v (subs ++ more)])).
Proof.
  intros Hm. revert subs. induction Hm as [|o more Ho Hm IH]; intros subs Hn Hv Hs Hargs Hl;
    [rewrite app_nil_r; by apply moves_nil|].
  change (render_subs (o :: more)) with ((0x3A :: render_value o) ++ render_subs more). rewrite length_app in Hn. simpl in Hn.
  apply moves_app with (Q := anywhere cs (args ++ [mkCsiArgument v (subs ++ [o])])).
  - apply (moves_app [0x3A] (render_value o)) with (Q := at_sub cs (args ++ [mkCsiArgument v (subs ++ [None])])).
    + apply moves_subDelimiter; [lia| |rewrite length_app; simpl; lia].
      apply Forall_snoc. split; [done|]. split; [done|]. split; [done|]. simpl. lia.
    + eapply moves_mono; [apply (moves_subDigits cs args v subs None); [by apply render_value_digits|done]|done|].
      intros p. rewrite render_value_read by done. by right.
  - replace (subs ++ o :: more) with ((subs ++ [o]) ++ more) by (by rewrite <- app_assoc).
    apply IH; try done; [rewrite !length_app; simpl; lia|by apply Forall_snoc].
Qed.

Lemma moves_argument cs args a : argument_wf a -> Forall argument_wf args -> (length args < MAX_PARAMETER_COUNT)%nat ->
  moves (render_argument a) (at_param cs (args ++ [empty_argument])) (anywhere cs (args ++ [a])).
Proof.
  intros (Hv & Hs & Hn) Hargs Hl. unfold render_argument.
  apply moves_app with (Q := at_param cs (args ++ [mkCsiArgument (ca_value a) []])).
  - eapply moves_mono; [apply (moves_digits cs args None); [by apply render_value_digits|done]|done|].
    intros p. by rewrite render_value_read.
  - eapply moves_mono; [by apply (moves_subs cs args (ca_value a) [] (ca_subs a))|by left|]. by destruct a.
Qed.

Lemma moves_more cs args more : args <> [] -> Forall argument_wf args -> Forall argument_wf more ->
  (length (args ++ more) <= MAX_PARAMETER_COUNT)%nat ->
  moves (render_more more) (anywhere cs args) (anywhere cs (args ++ more)).
Proof.
  intros Hne Hargs Hm. revert args Hne Hargs. induction Hm as [|a more Ha Hm IH]; intros args Hne Hargs Hl;
    [rewrite app_nil_r; by apply moves_nil|].
  rewrite length_app in Hl. simpl in Hl. replace (args ++ a :: more) with ((args ++ [a]) ++ more) by (by rewrite <- app_assoc).
  change (render_more (a :: more)) with ([0x3B] ++ render_argument a ++ render_more more).
  eapply moves_app; [apply moves_delimiter; [done|done|lia]|].
  eapply moves_app; [apply moves_argument; [done|done|lia]|].
  apply IH; [by destruct args|by apply Forall_snoc|rewrite !length_app; simpl; lia].
Qed.

Definition before_arguments (cs : list Z) p : Prop :=
  (_state p = CsiEntry \/ _state p = CsiParam) /\ _identifier p = collected cs /\ holds [] p.

(** After the last argument character, before the intermediates. *)
Definition at_end (cs : list Z) (args : list CsiArgument) p : Prop :=
  (_state p = CsiEntry \/ _state p = CsiParam \/ _state p = CsiSubParam \/ _state p = CsiIntermediate) /\
  _identifier p = collected cs /\ holds args p.

Lemma anywhere_end cs args p : args <> [empty_argument] -> anywhere cs args p -> at_end cs args p.
Proof. unfold at_end. intros Hne [([Hst|Hst] & Hid & [Hh|[-> _]])|(Hst & Hid & Hh)]; rewrite ?Hst; auto; done. Qed.

Lemma moves_arguments cs args : Forall argument_wf args -> (length args <= MAX_PARAMETER_COUNT)%nat -> args <> [empty_argument] ->
  moves (render_arguments args) (before_arguments cs) (at_end cs args).
Proof.
  intros Hwf Hl Hne. destruct args as [|a args].
  - apply moves_nil. unfold at_end. intros p ([Hst|Hst] & Hid & Hh); rewrite Hst; auto.
  - apply Forall_cons in Hwf as [Ha Hargs]. unfold MAX_PARAMETER_COUNT in *. simpl in Hl.
    apply moves_app with (Q := anywhere cs ([] ++ [a])).
    + eapply moves_mono; [apply (moves_argument cs [] a); [done|done|unfold MAX_PARAMETER_COUNT; simpl; lia]| |done].
      intros p (Hst & Hid & Hh). split; [done|]. split; [done|]. by right.
    + eapply moves_mono; [apply (moves_more cs [a] args); [done|by apply Forall_singleton|done|done]|done|].
      intros p. by apply anywhere_end.
Qed.

(** *** Markers and intermediates *)
Lemma collected_snoc cs wch : collected (cs ++ [wch]) = VTIDBuilder.AddIntermediate (collected cs) wch.
Proof. unfold collected. by rewrite fold_left_app. Qed.

Lemma holds_collect wch args p : holds args p -> holds args (_ActionCollect wch p).
Proof. intros []; by constructor. Qed.

Lemma moves_marker marker : match marker with Some m => _isCsiPrivateMarker m = true | None => True end ->
  moves (option_list marker) (fun p => _state p = CsiEntry /\ _identifier p = VTIDBuilder.Clear /\ holds [] p)
    (before_arguments (option_list marker)).
Proof.
  destruct marker as [m|]; intros Hm; [|apply moves_nil; intros p (? & ? & ?); split; [by left|done]].
  apply moves_one; [ordinary_char|unfold before_arguments; not_ground|]. intros p (Hst & Hid & Hh).
  exists (set_state CsiParam (_ActionCollect m p)). split.
  - intros s _ <-. rewrite Hst. simpl. unfold _EventCsiEntry. classes. done.
  - split; [by right|]. split; [simpl; by rewrite Hid|]. by apply holds_set_state, holds_collect.
Qed.

Lemma moves_intermediate cs args wch : _isIntermediate wch = true -> moves [wch] (at_end cs args) (at_end (cs ++ [wch]) args).
Proof.
  intros Hw. apply moves_one; [ordinary_char|unfold at_end; not_ground|]. intros p (Hst & Hid & Hh).
  exists (set_state CsiIntermediate (_ActionCollect wch p)). split.
  - intros s _ <-. destruct Hst as [Hst|[Hst|[Hst|Hst]]]; rewrite Hst; simpl;
      [unfold _EventCsiEntry|unfold _EventCsiParam|unfold _EventCsiSubParam|unfold _EventCsiIntermediate]; classes; try done.
    destruct s as [e c p r]. simpl in *. destruct p. simpl in *. by subst.
  - split; [by auto|]. split; [simpl; by rewrite Hid, collected_snoc|]. by apply holds_set_state, holds_collect.
Qed.

Lemma moves_intermediates cs args ws : Forall (fun wch => _isIntermediate wch = true) ws ->
  moves ws (at_end cs args) (at_end (cs ++ ws) args).
Proof.
  intros Hws. revert cs. induction Hws as [|w ws Hw Hws IH]; intros cs; [rewrite app_nil_r; by apply moves_nil|].
  replace (cs ++ w :: ws) with ((cs ++ [w]) ++ ws) by (by rewrite <- app_assoc).
  apply (moves_app [w]) with (Q := at_end (cs ++ [w]) args); [by apply moves_intermediate|apply IH].
Qed.

(** *** The start and the end of the sequence *)
Definition not_in_string (st : VTStates) : Prop := st <> OscParam /\ st <> OscString /\ st <> DcsPassThrough.

Lemma ProcessCharacter_ESC s : not_in_string (_state (sm_parser s)) ->
  ProcessCharacter nested AsciiChars.ESC s = (set_parser (_ActionClear (set_state Escape (sm_parser s))) s, Returned tt).
Proof.
  intros (H1 & H2 & H3). unfold ProcessCharacter, ProcessCharacter_body at 1, mbind, comp_bind, with_parser, gets.
  change (_isC1ControlCharacter AsciiChars.ESC) with false. change (_isEscape AsciiChars.ESC) with true.
  change (AsciiChars.ESC =? AsciiChars.CAN) with false. change (AsciiChars.ESC =? AsciiChars.SUB) with false.
  cbn [orb andb]. rewrite (bool_decide_false (_ = OscString)), (bool_decide_false (_ = OscParam)) by done.
  cbn [negb andb]. unfold _ActionInterrupt, mbind, comp_bind, with_parser, gets. by rewrite decide_False.
Qed.

Lemma moves_introducer : moves [AsciiChars.ESC; 0x5B] (fun p => not_in_string (_state p))
  (fun p => _state p = CsiEntry /\ _identifier p = VTIDBuilder.Clear /\ holds [] p).
Proof.
  apply (moves_app [AsciiChars.ESC] [0x5B]) with (Q := fun p => _state p = Escape).
  - apply moves_char; [not_ground|]. intros p Hp. exists (_ActionClear (set_state Escape p)). split; [|done].
    intros s _ <-. by rewrite ProcessCharacter_ESC.
  - apply moves_one; [unfold ordinary; lia|not_ground|]. intros p Hst. exists (_ActionClear (set_state CsiEntry p)).
    split; [|done]. intros s Ha <-. rewrite Hst. simpl. unfold _EventEscape, mbind, comp_bind, gets. by rewrite Ha.
Qed.

Lemma dispatch_final cs args wch s : 0x40 <= wch <= 0x7E -> at_end cs args (sm_parser s) ->
  ProcessCharacter nested wch s = csiDispatch nested wch s.
Proof.
  intros Hw (Hst & _ & _). rewrite ProcessCharacter_ordinary by (unfold ordinary; lia).
  destruct Hst as [Hst|[Hst|[Hst|Hst]]]; rewrite Hst; simpl;
    [unfold _EventCsiEntry|unfold _EventCsiParam|unfold _EventCsiSubParam|unfold _EventCsiIntermediate]; classes; done.
Qed.

(** What the characters of a sequence before the final one lead to. *)
Lemma moves_csi c : csi_wf c ->
  moves ([AsciiChars.ESC; 0x5B] ++ option_list (csi_marker c) ++ render_arguments (csi_arguments c) ++ csi_intermediates c)
    (fun p => not_in_string (_state p)) (at_end (csi_characters c) (csi_arguments c)).
Proof.
  intros []. eapply moves_app; [apply moves_introducer|]. eapply moves_app; [by apply moves_marker|].
  eapply moves_app; [by apply moves_arguments|]. by apply moves_intermediates.
Qed.

Lemma csi_characters_bytes c : csi_wf c -> Forall is_byte (csi_characters c).
Proof.
  intros []. unfold csi_characters. apply Forall_app. split.
  - destruct (csi_marker c); simpl; [|done]. apply Forall_singleton. unfold is_byte, _isCsiPrivateMarker in *. lia.
  - eapply Forall_impl; [done|]. intros w. unfold _isIntermediate, is_byte. simpl. lia.
Qed.

(** The final character dispatches the sequence. *)
Lemma csi_final_dispatched c s : csi_wf c -> at_end (csi_characters c) (csi_arguments c) (sm_parser s) ->
  ProcessCharacter nested (csi_final c) s =
    (execute (engine_call (ActionCsiDispatch (csi_id c) (csi_parameters c)));;
     _EnterGround;; _ExecuteCsiCompleteCallback nested) s.
Proof.
  intros Hwf Hend. rewrite (dispatch_final (csi_characters c) (csi_arguments c)) by (apply Hwf || done).
  destruct Hend as (_ & Hid & Hh).
  assert (VTIDBuilder.Finalize (_identifier (sm_parser s)) (csi_final c) = csi_id c) as Hfin.
  { rewrite Hid. unfold csi_id. apply Finalize_collected; [by apply csi_characters_bytes|apply Hwf|].
    destruct Hwf. unfold is_byte. lia. }
  assert (VTParameters.mk (_parameters (sm_parser s)) (_subParameters (sm_parser s)) (_subParameterRanges (sm_parser s)) =
    csi_parameters c) as Hpar by (by destruct Hh as [-> -> -> _ _ _]).
  rewrite <- Hfin, <- Hpar. reflexivity.
Qed.

Lemma csi_dispatched c s : csi_wf c -> GetParserMode Ansi s = true -> not_in_string (_state (sm_parser s)) ->
  exists p', process_chars nested (render_csi c) s =
    (execute (engine_call (ActionCsiDispatch (csi_id c) (csi_parameters c)));;
     _EnterGround;; _ExecuteCsiCompleteCallback nested) (set_parser p' s).
Proof.
  intros Hwf Ha Hst. destruct (moves_process_chars _ _ _ s (moves_csi c Hwf) Ha Hst) as (p' & Heq & Hend). exists p'.
  unfold render_csi. rewrite !app_assoc. rewrite process_chars_app. unfold mbind at 1, comp_bind at 1.
  rewrite <- !app_assoc, Heq. cbn [process_chars]. rewrite comp_bind_unit. by apply csi_final_dispatched.
Qed.

(** *** Operating system commands *)
Definition at_osc (st : VTStates) (parameter : option Z) (text : wstring) p : Prop :=
  _state p = st /\ _oscParameter p = default 0 parameter /\ _oscString p = text.

Lemma moves_osc_introducer : moves [AsciiChars.ESC; 0x5D] (fun p => not_in_string (_state p)) (at_osc OscParam None []).
Proof.
  apply (moves_app [AsciiChars.ESC] [0x5D]) with (Q := at_osc Escape None []).
  - apply moves_char; [unfold at_osc; not_ground|]. intros p Hp. exists (_ActionClear (set_state Escape p)). split; [|done].
    intros s _ <-. by rewrite ProcessCharacter_ESC.
  - apply moves_one; [unfold ordinary; lia|unfold at_osc; not_ground|]. intros p (Hst & Hn & Ht). exists (set_state OscParam p).
    split; [|done]. intros s Ha <-. rewrite Hst. simpl. unfold _EventEscape, mbind, comp_bind, gets. by rewrite Ha.
Qed.

Lemma moves_osc_digits str o : Forall (fun wch => _isNumericParamValue wch = true) str ->
  moves str (at_osc OscParam o []) (at_osc OscParam (fold_left read_digit str o) []).
Proof.
  intros Hs. revert o. induction Hs as [|wch str Hd Hs IH]; intros o; [by apply moves_nil|].
  apply (moves_app [wch] str) with (Q := at_osc OscParam (read_digit o wch) []); [|apply IH].
  apply moves_one; [ordinary_char|unfold at_osc; not_ground|]. intros p (Hst & Hn & Ht). exists (_ActionOscParam wch p).
  split; [|split; [done|simpl; by rewrite Hn]]. intros s _ <-. rewrite Hst. simpl. unfold _EventOscParam. classes. done.
Qed.

Lemma moves_osc_delimiter o : moves [0x3B] (at_osc OscParam o []) (at_osc OscString o []).
Proof.
  apply moves_one; [unfold ordinary; lia|unfold at_osc; not_ground|]. intros p (Hst & Hn & Ht). exists (set_state OscString p).
  split; [|done]. intros s _ <-. by rewrite Hst.
Qed.

Lemma osc_char_dispatch wch s : osc_char wch ->
  ProcessCharacter nested wch s = dispatch_event nested (_state (sm_parser s)) wch s.
Proof. intros [Hw Hc]. apply ProcessCharacter_dispatch; unfold AsciiChars.CAN, AsciiChars.SUB, AsciiChars.ESC; try lia; done. Qed.

Lemma moves_osc_text o text more : Forall osc_char more -> moves more (at_osc OscString o text) (at_osc OscString o (text ++ more)).
Proof.
  intros Hm. revert text. induction Hm as [|wch more Hw Hm IH]; intros text; [rewrite app_nil_r; by apply moves_nil|].
  replace (text ++ wch :: more) with ((text ++ [wch]) ++ more) by (by rewrite <- app_assoc).
  apply (moves_app [wch] more) with (Q := at_osc OscString o (text ++ [wch])); [|apply IH].
  apply moves_char; [unfold at_osc; not_ground|].
  intros p (Hst & Hn & Ht). exists (_ActionOscPut wch p). split; [|split; [done|split; [done|simpl; by rewrite Ht]]].
  intros s _ <-. rewrite osc_char_dispatch, Hst by done. destruct Hw as [Hw _]. simpl.
  unfold _EventOscString. classes. done.
Qed.

Lemma moves_osc parameter text : 0 <= parameter <= MAX_PARAMETER_VALUE -> Forall osc_char text ->
  moves ([AsciiChars.ESC; 0x5D] ++ decimal 5 parameter ++ [0x3B] ++ text)
    (fun p => not_in_string (_state p)) (at_osc OscString (Some parameter) text).
Proof.
  intros Hn Ht. eapply moves_app; [apply moves_osc_introducer|].
  eapply moves_app; [apply moves_osc_digits, (render_value_digits (Some parameter)); done|].
  change (decimal 5 parameter) with (render_value (Some parameter)). rewrite render_value_read by done.
  eapply moves_app; [apply moves_osc_delimiter|]. by apply (moves_osc_text _ []).
Qed.

(** Both terminators lead to the dispatch. *)
Lemma osc_terminated o text t s : at_osc OscString o text (sm_parser s) ->
  exists p', process_chars nested (render_terminator t) s =
    (execute (engine_call (ActionOscDispatch (default 0 o) text));; _EnterGround) (set_parser p' s).
Proof.
  intros (Hst & Hn & Ht). destruct t; simpl render_terminator.
  - exists (sm_parser s). rewrite set_parser_same. cbn [process_chars]. rewrite comp_bind_unit.
    rewrite ProcessCharacter_dispatch, Hst by done. rewrite <- Hn, <- Ht. reflexivity.
  - exists (set_state OscTermination (sm_parser s)). cbn [process_chars].
    transitivity ((ProcessCharacter nested 0x5C) (set_parser (set_state OscTermination (sm_parser s)) s)).
    + unfold mbind at 1, comp_bind at 1. unfold ProcessCharacter at 1, ProcessCharacter_body at 1.
      unfold with_parser, gets, mbind, comp_bind. rewrite Hst. simpl. apply comp_bind_unit.
    + rewrite ProcessCharacter_dispatch by done. rewrite <- Hn, <- Ht. reflexivity.
Qed.

Lemma osc_dispatched parameter text t s :
  0 <= parameter <= MAX_PARAMETER_VALUE -> Forall osc_char text -> GetParserMode Ansi s = true ->
  not_in_string (_state (sm_parser s)) ->
  exists p', process_chars nested (render_osc parameter text t) s =
    (execute (engine_call (ActionOscDispatch parameter text));; _EnterGround) (set_parser p' s).
Proof.
  intros Hn Ht Ha Hst. destruct (moves_process_chars _ _ _ s (moves_osc parameter text Hn Ht) Ha Hst) as (p1 & Heq & Hosc).
  destruct (osc_terminated (Some parameter) text t (set_parser p1 s) Hosc) as (p2 & Heq2). exists p2.
  unfold render_osc. rewrite !app_assoc, process_chars_app. unfold mbind at 1, comp_bind at 1.
  rewrite <- !app_assoc, Heq. exact Heq2.
Qed.
End Moves.

(** ** One sequence in one string

    What [ProcessString] does, for every engine, with a string that is exactly one
    sequence: the run that the engine can flush is the whole string when the final
    character is dispatched. *)

Section Sequence.
Context {E H CB : Type} `{!IStateMachineEngine E H CB}.
Abbreviation Mach := (StateMachine E H CB).
Implicit Types (s : Mach) (p : Parser H).

(** The run after [n] more characters; [final] says whether the string ended. *)
Definition run_after (n : nat) (final : bool) (r : Run) : Run := set_processingLastCharacter final (set_runSize (_runSize r + n) r).

Lemma process_vt_reads nested str rest s p' : rest <> [] -> GetParserMode Ansi s = true -> reads nested str (sm_parser s) p' ->
  process_vt nested (str ++ rest) s =
  process_vt nested rest (set_parser p' (set_run (match str with [] => sm_run s | _ => run_after (length str) false (sm_run s) end) s)).
Proof.
  intros Hrest. revert s. induction str as [|wch str IH]; intros s Ha Hr.
  - simpl in Hr. subst p'. by destruct s.
  - destruct Hr as (p1 & Heq & Hst & Hr). cbn [app process_vt]. unfold mbind, comp_bind, modify_run, modify.
    set (s1 := set_run _ (set_run _ s)). rewrite (Heq s1) by done. unfold with_parser, gets. simpl sm_parser.
    rewrite decide_False by done. rewrite (IH (set_parser p1 s1)) by done. f_equal.
    unfold s1, run_after. rewrite bool_decide_eq_false_2 by (by destruct str). destruct s as [e c p [cs ro rs ca i l]]. simpl.
    destruct str as [|w str]; simpl; [done|]. by replace (rs + 1 + S (length str))%nat with (rs + S (S (length str)))%nat by lia.
Qed.

(** The machine when the final character of the string is about to be processed. *)
Definition at_final (str : wstring) p' s : Mach :=
  set_parser p' (set_run (mkRun str 0 (length str) (_cachedSequence (sm_run s)) [] true) s).

Lemma process_loop_ESC nested fuel str rest s : Forall is_wchar (AsciiChars.ESC :: rest) ->
  process_loop nested (S fuel) str (AsciiChars.ESC :: rest) s =
  (process_vt nested (AsciiChars.ESC :: rest) ≫= process_loop nested fuel str)
    (set_run (set_runSize 0 (set_runOffset (length str - length (AsciiChars.ESC :: rest)) (sm_run s))) s).
Proof. intros Hw. cbn [process_loop]. cbv zeta. by rewrite FindActionable_plainSearch. Qed.

Lemma ProcessString_sequence depth body wch s p' : let str := AsciiChars.ESC :: body ++ [wch] in
  Forall is_wchar str -> _state (sm_parser s) = Ground -> GetParserMode Ansi s = true ->
  reads (ProcessString depth) (AsciiChars.ESC :: body) (sm_parser s) p' ->
  ProcessString (S depth) str s = (ProcessCharacter (ProcessString depth) wch;; finish_string) (at_final str p' s).
Proof.
  intros str Hw Hst Ha Hr. cbn [ProcessString]. unfold ProcessString_body, process_current.
  unfold mbind, comp_bind, modify_run, modify, with_parser, gets. simpl sm_parser. rewrite decide_True by done.
  change (length str) with (S (length (body ++ [wch]))). unfold str at 2. rewrite process_loop_ESC by done. unfold mbind, comp_bind.
  rewrite app_comm_cons, (process_vt_reads _ (AsciiChars.ESC :: body) [wch] _ p') by done.
  cbn [process_vt]. unfold mbind, comp_bind, modify_run, modify.
  match goal with |- context [ProcessCharacter _ wch ?t] => replace t with (at_final str p' s) end.
  2:{ destruct s as [e c p [cs ro rs ca i l]]. unfold at_final, run_after, str. simpl. rewrite length_app. simpl.
      by rewrite Nat.sub_diag. }
  destruct (ProcessCharacter (ProcessString depth) wch (at_final str p' s)) as [s1 [[]| | |]]; try done.
  unfold with_parser, gets. case_decide; simpl; by destruct (length (body ++ [wch])).
Qed.

Lemma csi_body c : render_csi c =
  AsciiChars.ESC :: (0x5B :: option_list (csi_marker c) ++ render_arguments (csi_arguments c) ++ csi_intermediates c) ++ [csi_final c].
Proof. unfold render_csi. simpl. by rewrite <- !app_assoc. Qed.

(** A control sequence: it is dispatched once, with the string as the run. *)
Lemma ProcessString_csi depth c s : csi_wf c -> Forall is_wchar (render_csi c) ->
  _state (sm_parser s) = Ground -> GetParserMode Ansi s = true ->
  exists p', ProcessString (S depth) (render_csi c) s =
    (execute (engine_call (ActionCsiDispatch (csi_id c) (csi_parameters c)));;
     _EnterGround;; _ExecuteCsiCompleteCallback (ProcessString depth);; finish_string) (at_final (render_csi c) p' s).
Proof.
  intros Hwf Hw Hst Ha. destruct (moves_csi (ProcessString depth) c Hwf (sm_parser s)) as (p' & Hr & Hend); [by rewrite Hst|].
  exists p'. rewrite csi_body in Hw |- *. rewrite (ProcessString_sequence _ _ _ _ p') by done.
  unfold mbind at 1, comp_bind at 1. rewrite csi_final_dispatched by done. rewrite <- csi_body.
  unfold mbind, comp_bind. by destruct (execute _ _) as [s1 [a1| | |]].
Qed.

Lemma ActionOscDispatch_call s :
  _ActionOscDispatch s = execute (engine_call (ActionOscDispatch (_oscParameter (sm_parser s)) (_oscString (sm_parser s)))) s.
Proof. done. Qed.

(** An operating system command. *)
Lemma ProcessString_osc depth parameter text t s :
  0 <= parameter <= MAX_PARAMETER_VALUE -> Forall osc_char text -> Forall is_wchar (render_osc parameter text t) ->
  _state (sm_parser s) = Ground -> GetParserMode Ansi s = true ->
  exists p', ProcessString (S depth) (render_osc parameter text t) s =
    (execute (engine_call (ActionOscDispatch parameter text));; _EnterGround;; finish_string)
      (at_final (render_osc parameter text t) p' s).
Proof.
  intros Hn Ht Hw Hst Ha.
  destruct (moves_osc (ProcessString depth) parameter text Hn Ht (sm_parser s)) as (p' & Hr & Ho); [by rewrite Hst|].
  destruct Ho as (Ho1 & Ho2 & Ho3). destruct t.
  - exists p'. assert (render_osc parameter text OscBEL =
      AsciiChars.ESC :: (0x5D :: decimal 5 parameter ++ [0x3B] ++ text) ++ [AsciiChars.BEL]) as Heq
      by (unfold render_osc; simpl; by rewrite <- !app_assoc).
    rewrite Heq in Hw |- *. rewrite (ProcessString_sequence _ _ _ _ p') by done. rewrite <- Heq.
    unfold mbind at 1, comp_bind at 1. rewrite ProcessCharacter_dispatch by done.
    simpl sm_parser. rewrite Ho1.
    change (dispatch_event (ProcessString depth) OscString AsciiChars.BEL) with (_ActionOscDispatch;; _EnterGround).
    unfold mbind, comp_bind. rewrite ActionOscDispatch_call. simpl sm_parser. simpl _oscParameter. simpl _oscString. rewrite Ho2, Ho3.
    by destruct (execute _ _) as [s1 [a1| | |]].
  - set (p1 := set_state OscTermination p'). exists p1.
    assert (render_osc parameter text OscST =
      AsciiChars.ESC :: ((0x5D :: decimal 5 parameter ++ [0x3B] ++ text) ++ [AsciiChars.ESC]) ++ [0x5C]) as Heq
      by (unfold render_osc; simpl; by rewrite <- !app_assoc).
    assert (reads (ProcessString depth) ((AsciiChars.ESC :: 0x5D :: decimal 5 parameter ++ [0x3B] ++ text) ++ [AsciiChars.ESC])
      (sm_parser s) p1) as Hr1.
    { eapply reads_app; [exact Hr|]. exists p1. split; [|done]. intros s1 _ <-.
      unfold ProcessCharacter, ProcessCharacter_body at 1, with_parser, gets, mbind, comp_bind. rewrite Ho1. done. }
    rewrite Heq in Hw |- *. rewrite (ProcessString_sequence _ _ _ _ p1) by done. rewrite <- Heq.
    unfold mbind at 1, comp_bind at 1. rewrite ProcessCharacter_dispatch by done.
    change (dispatch_event (ProcessString depth) (_state (sm_parser (at_final (render_osc parameter text OscST) p1 s))) 0x5C)
      with (_ActionOscDispatch;; _EnterGround).
    unfold mbind, comp_bind. rewrite ActionOscDispatch_call. simpl sm_parser. simpl _oscParameter. simpl _oscString. rewrite Ho2, Ho3.
    by destruct (execute _ _) as [s1 [a1| | |]].
Qed.
End Sequence.
