(* ===== verification/ParserBehaviour.v ===== *)
(** * Behaviour of the parser

    What sequences do: round trips of rendered control sequences and operating
    system commands, cancellation and resynchronisation, controls inside of
    sequences, limits on parameters; and the places where the code departs from
    its own comments. *)

From S2P Require Import Prelude VtTypes Chars StateMachine ParserInvariant StateMachineSafety TraceEngine StateMachineStream ParserSyntax ParserProps.

Section Behaviour.
Context {E H CB : Type} `{!IStateMachineEngine E H CB}.
Abbreviation Mach := (StateMachine E H CB).
Implicit Types s : Mach.
Implicit Types nested : wstring -> comp Mach unit.

(** C9: Control sequences round-trip: whatever private marker, arguments (given
    or omitted, with sub-parameters), intermediates and final character a
    sequence has, feeding its rendering to the parser results in exactly one
    [ActionCsiDispatch] with the identifier of its characters and those
    parameters, after which the parser is in the ground state and runs the
    completion callback; nothing else is said to the engine. *)
Theorem csi_roundtrip nested c s : csi_wf c -> GetParserMode Ansi s = true -> not_in_string (_state (sm_parser s)) ->
  exists p', process_chars nested (render_csi c) s =
    (execute (engine_call (ActionCsiDispatch (csi_id c) (csi_parameters c)));;
     _EnterGround;; _ExecuteCsiCompleteCallback nested) (set_parser p' s).
Proof. apply csi_dispatched. Qed.

(** C10: Operating system commands round-trip: number and text of a rendered
    command arrive in one [ActionOscDispatch], whether the command is ended with
    BEL or with [ESC \ ]. *)
Theorem osc_roundtrip nested parameter text t s :
  0 <= parameter <= MAX_PARAMETER_VALUE -> Forall osc_char text -> GetParserMode Ansi s = true ->
  not_in_string (_state (sm_parser s)) ->
  exists p', process_chars nested (render_osc parameter text t) s =
    (execute (engine_call (ActionOscDispatch parameter text));; _EnterGround) (set_parser p' s).
Proof. apply osc_dispatched. Qed.

(** ** Resynchronisation *)

(** The parser at the beginning of an escape sequence. *)
Definition escape_start : Parser H := set_state Escape init_Parser.

(** ** Controls *)
Section Quiet.
Context (budget : E -> nat) `{!BoundedNesting False budget}.

Lemma execute_total wch s : wp (_ActionExecute wch) (fun _ s' => sm_parser s' = sm_parser s) (fun _ => False) False s.
Proof.
  assert (quiet False budget (_ActionExecute wch)) as Hq.
  { apply (quiet_execute False budget), framing_engine_call, (bn_Execute (F:=False)). }
  eapply wp_mono; [apply Hq| |done|done]. intros [] s' Hs. apply Hs.
Qed.

Definition executes_controls (st : VTStates) : bool :=
  match st with
  | Ground | EscapeIntermediate | CsiEntry | CsiIntermediate | CsiIgnore | CsiParam | CsiSubParam | Ss3Entry
  | Ss3Param | Vt52Param => true
  | _ => false
  end.

Lemma C0_range wch : _isC0Code wch = true -> wch <> AsciiChars.CAN /\ wch <> AsciiChars.SUB /\ wch <> AsciiChars.ESC /\
  _isC1ControlCharacter wch = false.
Proof.
  unfold _isC0Code, _isC1ControlCharacter, AsciiChars.NUL, AsciiChars.ETB, AsciiChars.EM, AsciiChars.FS, AsciiChars.US,
    AsciiChars.CAN, AsciiChars.SUB, AsciiChars.ESC. lia.
Qed.

(** A control character inside of a control or escape sequence is executed at
    once and leaves everything the sequence has accumulated as it was. *)
Lemma controls_are_transparent nested wch s : _isC0Code wch = true -> executes_controls (_state (sm_parser s)) = true ->
  ProcessCharacter nested wch s = _ActionExecute wch s /\
  wp (ProcessCharacter nested wch) (fun _ s' => sm_parser s' = sm_parser s) (fun _ => False) False s.
Proof.
  intros Hw Hst. destruct (C0_range wch Hw) as (H1 & H2 & H3 & H4).
  assert (ProcessCharacter nested wch s = _ActionExecute wch s) as Heq.
  { rewrite ProcessCharacter_dispatch by done.
    destruct (_state (sm_parser s)); try done; simpl; unfold _EventGround, _EventEscapeIntermediate, _EventCsiEntry,
      _EventCsiIntermediate, _EventCsiIgnore, _EventCsiParam, _EventCsiSubParam, _EventSs3Entry, _EventSs3Param,
      _EventVt52Param; by rewrite Hw. }
  split; [done|]. unfold wp. rewrite Heq. apply (execute_total wch s).
Qed.
End Quiet.

(** ** Departures from the comments *)

(** The comment of [_EventDcsParam] says that controls and DEL are ignored; they
    end the parameters and are dispatched as the final character instead. *)
Lemma DcsParam_dispatches_controls nested wch s : _isC0Code wch = true \/ _isDelete wch = true ->
  _state (sm_parser s) = DcsParam -> ProcessCharacter nested wch s = _ActionDcsDispatch wch s.
Proof.
  intros Hw Hst. assert (0 <= wch < 0x18 \/ wch = 0x19 \/ 0x1C <= wch < 0x20 \/ wch = 0x7F) as Hr.
  { unfold _isC0Code, _isDelete, AsciiChars.NUL, AsciiChars.ETB, AsciiChars.EM, AsciiChars.FS, AsciiChars.US, AsciiChars.DEL in Hw. lia. }
  rewrite ProcessCharacter_dispatch, Hst; unfold AsciiChars.CAN, AsciiChars.SUB, AsciiChars.ESC; try lia.
  2: { unfold _isC1ControlCharacter. lia. }
  simpl. unfold _EventDcsParam. clear Hw.
  assert (_isNumericParamValue wch = false) as -> by (unfold _isNumericParamValue; lia).
  assert (_isParameterDelimiter wch = false) as -> by (unfold _isParameterDelimiter; lia).
  assert (_isIntermediate wch = false) as -> by (unfold _isIntermediate; lia).
  assert (_isParameterInvalid wch = false) as -> by (unfold _isParameterInvalid, _isCsiPrivateMarker; lia).
  assert (_isSubParameterDelimiter wch = false) as -> by (unfold _isSubParameterDelimiter; lia).
  cbn [orb]. by destruct (_isC0Code wch), (_isDelete wch).
Qed.
End Behaviour.

(** ** Resynchronisation and cancellation *)
Section Recorded.
Context {H CB : Type} (a : Answers H CB).
#[local] Instance behaving : IStateMachineEngine Log H CB := Recorder a.
Abbreviation Mach := (StateMachine Log H CB).
Implicit Types s : Mach.

Lemma requests_frame requests s : let s' := fold_left apply_request requests s in sm_parser s' = sm_parser s /\ _engine s' = _engine s.
Proof. revert s. induction requests as [|r requests IH]; intros s; [done|]. cbn [fold_left]. destruct (IH (apply_request s r)) as [-> ->]. by destruct r. Qed.

(** A device control string is interrupted: its handler gets the end of the string. It may
    throw; a reachable machine has one. *)
Definition string_end s : Log := if decide (_state (sm_parser s) = DcsPassThrough) then [DcsData AsciiChars.ESC] else [].
Definition handler_throws s : bool :=
  bool_decide (_state (sm_parser s) = DcsPassThrough) &&
  match _dcsStringHandler (sm_parser s) with
  | Some h => match (on_data a h AsciiChars.ESC (unaware (view s)) (_engine s)).2.2 with Some _ => false | None => true end
  | None => true
  end.

Lemma interrupt_ok s :
  if handler_throws s then exists s', _ActionInterrupt s = (s', Threw) /\ _state (sm_parser s') = DcsPassThrough
  else exists s', _ActionInterrupt s = (s', Returned tt) /\ _engine s' = _engine s ++ string_end s.
Proof.
  unfold handler_throws, string_end, _ActionInterrupt, with_parser, gets, mbind, comp_bind. cbn. destruct (decide (_state (sm_parser s) = DcsPassThrough)) as [Hd|Hd].
  2: { rewrite bool_decide_false by done. exists s. by rewrite app_nil_r. }
  rewrite bool_decide_true by done. cbn [andb]. unfold call_dcsStringHandler, with_parser, gets, mbind, comp_bind.
  destruct (_dcsStringHandler (sm_parser s)) as [h|]; [|by exists s]. unfold invoke_handler. cbn. destruct (on_data _ _ _ _ _) as [h' [requests value]]. cbn.
  unfold apply_reply. cbn [reply_requests reply_engine reply_value]. set (s1 := set_engine _ _). destruct (requests_frame requests s1) as [Ep Ee].
  destruct value; eexists; (split; [reflexivity|]); cbn; [by rewrite Ee|by rewrite Ep].
Qed.

Lemma flush_keeps_engine n s : exists s' b, FlushToTerminal (S n) s = (s', Returned b) /\ _engine s' = _engine s.
Proof.
  assert (forall s0, exists s' b, SafeExecute_with (FlushToTerminal n) (run ← _CurrentRun; engine_call (ActionPassThroughString run)) s0 = (s', Returned b) /\ _engine s' = _engine s0) as Hrun.
  { intros s0. unfold SafeExecute_with, mbind, comp_bind, _CurrentRun. destruct (_ <=? _)%nat; [|eauto]. cbn. eauto. }
  cbn [FlushToTerminal]. unfold mbind, comp_bind, gets, mret, comp_ret in *. destruct (_cachedSequence (sm_run s)) as [sequence|]; [|apply Hrun].
  cbn. destruct (Hrun (set_run (set_cachedSequence None (sm_run s)) (set_engine (_engine s) s))) as (s3 & b3 & Hs3 & E3). cbn in Hs3, E3. exists s3, b3. by split.
Qed.
Lemma execute_recorded wch s : exists s', _ActionExecute wch s = (s', Returned tt) /\ _engine s' = _engine s ++ [Execute wch].
Proof.
  unfold _ActionExecute, execute, _SafeExecute, SafeExecute_with, engine_call, apply_reply, mbind, comp_bind, flush_fuel. cbn [ActionExecute behaving Recorder]. unfold answered.
  destruct (on_action _ _ _ _) as [requests value]. cbn [reply_value reply_requests reply_engine]. set (s1 := set_engine _ s). destruct (requests_frame requests s1) as [_ Ee]. destruct value as [[]|]; [by eexists| |by eexists].
  destruct (flush_keeps_engine 1 (fold_left apply_request requests s1)) as (s2 & b & -> & E2). exists s2. split; [done|]. by rewrite E2, Ee.
Qed.

(** C11: ESC resynchronises the parser: outside of operating system commands, which only
    a terminator ends, it leads to one and the same parser, whatever was received before, so a
    broken sequence does not change how the next one is read. The engine is told nothing,
    but the handler of a device control string gets the ESC as its end; if, and only if, that
    handler throws, the exception leaves the string in progress. *)
Theorem ESC_resynchronises nested s : _state (sm_parser s) <> OscParam -> _state (sm_parser s) <> OscString ->
  if handler_throws s then exists s', ProcessCharacter nested AsciiChars.ESC s = (s', Threw) /\ _state (sm_parser s') = DcsPassThrough
  else exists s', ProcessCharacter nested AsciiChars.ESC s = (s', Returned tt) /\ sm_parser s' = escape_start /\ _engine s' = _engine s ++ string_end s.
Proof.
  intros H1 H2. assert (ProcessCharacter nested AsciiChars.ESC s = (_ActionInterrupt;; _EnterEscape) s) as ->.
  { unfold ProcessCharacter, ProcessCharacter_body at 1, with_parser, gets, mbind, comp_bind. cbn. by rewrite (bool_decide_false (_ = OscString)), (bool_decide_false (_ = OscParam)) by done. }
  pose proof (interrupt_ok s) as Hi. unfold mbind, comp_bind. destruct (handler_throws s); destruct Hi as (s1 & -> & Hs1); [by exists s1|]. eexists. split; [reflexivity|]. by split.
Qed.

(** C12: CAN and SUB cancel: in every state the control is executed, and nothing else is said to
    the engine (but the handler of a device control string gets an ESC as its end); the text that was
    cached of the sequence is dropped and the parser is in the ground state. Excepted are
    Alt+Ctrl+X and Alt+Ctrl+Z of an input engine; and if the handler of the string
    throws, the exception leaves the string in progress. *)
Theorem cancel_aborts nested wch s :
  wch = AsciiChars.CAN \/ wch = AsciiChars.SUB -> _state (sm_parser s) <> Escape \/ _isEngineForInput (sm_conf s) = false ->
  if handler_throws s then exists s', ProcessCharacter nested wch s = (s', Threw) /\ _state (sm_parser s') = DcsPassThrough
  else exists s', ProcessCharacter nested wch s = (s', Returned tt) /\ _engine s' = _engine s ++ string_end s ++ [Execute wch] /\
    _state (sm_parser s') = Ground /\ _cachedSequence (sm_run s') = None.
Proof.
  intros Hw Hst. assert (ProcessCharacter nested wch s = (_ActionInterrupt;; _ActionExecute wch;; _EnterGround) s) as ->.
  { assert (bool_decide (_state (sm_parser s) = Escape) && _isEngineForInput (sm_conf s) = false) as He.
    { destruct Hst as [Hst|Hst]; [by rewrite bool_decide_false|]. rewrite Hst. apply andb_false_r. }
    unfold ProcessCharacter, ProcessCharacter_body at 1, with_parser, gets. unfold mbind at 1 2 3, comp_bind at 1 2 3. rewrite He. by destruct Hw as [-> | ->]. }
  pose proof (interrupt_ok s) as Hi. unfold mbind, comp_bind. destruct (handler_throws s); destruct Hi as (s1 & -> & Hs1); [by exists s1|].
  destruct (execute_recorded wch s1) as (s2 & -> & Hs2). eexists. split; [reflexivity|]. split; [|done]. cbn. by rewrite Hs2, Hs1, app_assoc.
Qed.
End Recorded.

(** ** Witnesses *)

(** SGR with sub-parameters, [CSI ? 4 : 3 ; ; 38 : 2 : : 65535 $ m]. *)
Definition sample_csi : Csi :=
  mkCsi (Some 0x3F) [mkCsiArgument (Some 4) [Some 3]; empty_argument; mkCsiArgument (Some 38) [Some 2; None; Some 65535]]
    [0x24] 0x6D.

Lemma sample_csi_wf : csi_wf sample_csi.
Proof.
  constructor; simpl; unfold MAX_PARAMETER_COUNT; try done; try lia;
    repeat first [apply Forall_nil | apply Forall_cons; split | split];
    simpl; unfold MAX_SUBPARAMETER_COUNT, MAX_PARAMETER_VALUE; try done; lia.
Qed.

Lemma csi_roundtrip_witness : exists p',
  process_chars (ProcessString 3) (render_csi sample_csi) in_csi =
  (execute (engine_call (ActionCsiDispatch (csi_id sample_csi) (csi_parameters sample_csi)));;
   _EnterGround;; _ExecuteCsiCompleteCallback (ProcessString 3)) (set_parser p' in_csi).
Proof.
  apply (csi_roundtrip (ProcessString 3) sample_csi in_csi); [exact sample_csi_wf|reflexivity|].
  vm_compute. repeat split; discriminate.
Defined.

Lemma osc_roundtrip_witness : exists p',
  process_chars (ProcessString 3) (render_osc 52 [0x63; 0x3B; 0x263A] OscST) in_csi =
  (execute (engine_call (ActionOscDispatch 52 [0x63; 0x3B; 0x263A]));; _EnterGround) (set_parser p' in_csi).
Proof.
  apply (osc_roundtrip (ProcessString 3) 52 [0x63; 0x3B; 0x263A] OscST in_csi);
    [unfold MAX_PARAMETER_VALUE; lia| |reflexivity|vm_compute; repeat split; discriminate].
  repeat (apply Forall_cons; split); try by apply Forall_nil.
  all: split; [lia|reflexivity].
Defined.

(** In the middle of a device control string. *)
#[local] Instance moody_behaviour : IStateMachineEngine Log nat unit := behaving moody.
Definition in_dcs : StateMachine Log nat unit := (ProcessString 2 [AsciiChars.ESC; 0x50; 0x31; 0x71; 0x41] moody_machine).1.

Lemma ESC_resynchronises_witness : exists s', ProcessCharacter (ProcessString 2) AsciiChars.ESC in_dcs = (s', Returned tt) /\ sm_parser s' = escape_start /\
  _engine s' = [DcsDispatch 0x71 (VTParameters.of_params [1]); DcsData 0x41; DcsData AsciiChars.ESC].
Proof. apply (ESC_resynchronises moody (ProcessString 2) in_dcs); vm_compute; discriminate. Defined.

Lemma cancel_aborts_witness : exists s', ProcessCharacter (ProcessString 2) AsciiChars.CAN in_dcs = (s', Returned tt) /\
  _engine s' = [DcsDispatch 0x71 (VTParameters.of_params [1]); DcsData 0x41; DcsData AsciiChars.ESC; Execute AsciiChars.CAN] /\
  _state (sm_parser s') = Ground /\ _cachedSequence (sm_run s') = None.
Proof. apply (cancel_aborts moody (ProcessString 2) AsciiChars.CAN in_dcs); [by left|by right]. Defined.

(** The parser and the recording engine at work. *)
Example recorded_csi : actions false [0x61 :: render_csi sample_csi ++ [0x62]] =
  [Print [0x61]; CsiDispatch (csi_id sample_csi) (csi_parameters sample_csi); Print [0x62]].
Proof. vm_compute. reflexivity. Qed.

(** The thirty-third parameter is dropped, but its sub-parameter is given to the
    thirty-second: [CSI 1;...;1;38:5 m]. *)
Definition too_many : wstring :=
  [AsciiChars.ESC; 0x5B] ++ concat (repeat [0x31; 0x3B] 32) ++ [0x33; 0x38; 0x3A; 0x35; 0x6D].

Lemma dropped_parameter_leaks_subparameter :
  actions false [too_many] =
  [CsiDispatch 0x6D (VTParameters.mk (repeat 1 32) [5] (repeat (0, 0) 31 ++ [(0, 1)]))].
Proof. vm_compute. reflexivity. Qed.

(** An empty string in the middle of a sequence reads the front of an empty run
    when the engine is the one for input. *)
Lemma empty_input_string_undefined :
  (ProcessString 1 [] (run_strings true [[AsciiChars.ESC; 0x5B; 0x31]])).2 = Undefined.
Proof. vm_compute. reflexivity. Qed.
