(* ===== verification/MacroBuffer.v ===== *)
(** * Macros

    Models src/terminal/adapter/MacroBuffer.{hpp,cpp}: the storage for the macros
    of DECDMAC, the parser of their definitions and the bookkeeping of nested
    invocations. *)

From S2P Require Import Prelude Chars StateMachine.

Inductive MacroState := ExpectingText | ExpectingHexDigit | ExpectingSecondHexDigit | ExpectingRepeatCount.
#[global] Instance MacroState_eq_dec : EqDecision MacroState.
Proof. solve_decision. Defined.

Definition MAX_SPACE : Z := 0x40000.
Definition MACRO_COUNT : nat := 64.

Record MacroBuffer := mkMacroBuffer {
  _parseState : MacroState;
  _decodedChar : Z;
  _repeatPending : bool;
  _repeatCount : Z;
  _repeatStart : Z;
  _macros : list wstring;
  _activeMacroId : nat;
  _spaceUsed : Z;
  _invokedDepth : Z;
  _invokedSequenceLength : Z;
}.

Definition new_MacroBuffer : MacroBuffer :=
  mkMacroBuffer ExpectingText 0 false 0 0 (repeat [] MACRO_COUNT) 0 0 0 0.

Definition set_parseState (v : MacroState) (b : MacroBuffer) : MacroBuffer :=
  mkMacroBuffer v (_decodedChar b) (_repeatPending b) (_repeatCount b) (_repeatStart b) (_macros b) (_activeMacroId b) (_spaceUsed b) (_invokedDepth b) (_invokedSequenceLength b).
Definition set_decodedChar (v : Z) (b : MacroBuffer) : MacroBuffer :=
  mkMacroBuffer (_parseState b) v (_repeatPending b) (_repeatCount b) (_repeatStart b) (_macros b) (_activeMacroId b) (_spaceUsed b) (_invokedDepth b) (_invokedSequenceLength b).
Definition set_repeatPending (v : bool) (b : MacroBuffer) : MacroBuffer :=
  mkMacroBuffer (_parseState b) (_decodedChar b) v (_repeatCount b) (_repeatStart b) (_macros b) (_activeMacroId b) (_spaceUsed b) (_invokedDepth b) (_invokedSequenceLength b).
Definition set_repeatCount (v : Z) (b : MacroBuffer) : MacroBuffer :=
  mkMacroBuffer (_parseState b) (_decodedChar b) (_repeatPending b) v (_repeatStart b) (_macros b) (_activeMacroId b) (_spaceUsed b) (_invokedDepth b) (_invokedSequenceLength b).
Definition set_repeatStart (v : Z) (b : MacroBuffer) : MacroBuffer :=
  mkMacroBuffer (_parseState b) (_decodedChar b) (_repeatPending b) (_repeatCount b) v (_macros b) (_activeMacroId b) (_spaceUsed b) (_invokedDepth b) (_invokedSequenceLength b).
Definition set_macros (v : list wstring) (b : MacroBuffer) : MacroBuffer :=
  mkMacroBuffer (_parseState b) (_decodedChar b) (_repeatPending b) (_repeatCount b) (_repeatStart b) v (_activeMacroId b) (_spaceUsed b) (_invokedDepth b) (_invokedSequenceLength b).
Definition set_activeMacroId (v : nat) (b : MacroBuffer) : MacroBuffer :=
  mkMacroBuffer (_parseState b) (_decodedChar b) (_repeatPending b) (_repeatCount b) (_repeatStart b) (_macros b) v (_spaceUsed b) (_invokedDepth b) (_invokedSequenceLength b).
Definition set_spaceUsed (v : Z) (b : MacroBuffer) : MacroBuffer :=
  mkMacroBuffer (_parseState b) (_decodedChar b) (_repeatPending b) (_repeatCount b) (_repeatStart b) (_macros b) (_activeMacroId b) v (_invokedDepth b) (_invokedSequenceLength b).
Definition set_invoked (depth length : Z) (b : MacroBuffer) : MacroBuffer :=
  mkMacroBuffer (_parseState b) (_decodedChar b) (_repeatPending b) (_repeatCount b) (_repeatStart b) (_macros b) (_activeMacroId b) (_spaceUsed b) depth length.

Section Operations.
(** The width of [size_t]: 64, or 32 in the x86 builds. *)
Context (size_bits : Z).
Definition usize (z : Z) : Z := z mod 2 ^ size_bits.

Abbreviation M := (comp MacroBuffer).

Definition GetSpaceAvailable (b : MacroBuffer) : Z := usize (MAX_SPACE - _spaceUsed b).

Definition CalculateChecksum (b : MacroBuffer) : Z :=
  fold_left (fun checksum macro => fold_left (fun checksum ch => u16 (checksum - ch)) macro checksum) (_macros b) 0.

(** [_macros.at(_activeMacroId)], which throws when the index is out of range. *)
Definition _activeMacro : M wstring := fun b =>
  match _macros b !! _activeMacroId b with
  | Some macro => (b, Returned macro)
  | None => (b, Threw)
  end.

(** Writing through the reference that [_activeMacro] returns. *)
Definition assign_activeMacro (macro : wstring) : M unit :=
  modify (fun b => set_macros (<[_activeMacroId b := macro]> (_macros b)) b).

(** [_deleteMacro] on the macro with index [id]. *)
Definition _deleteMacro (id : nat) : M unit :=
  modify (fun b =>
    let length := Z.of_nat (length (default [] (_macros b !! id))) in
    set_macros (<[id := []]> (_macros b)) (set_spaceUsed (usize (_spaceUsed b - length)) b)).

Definition delete_activeMacro : M unit :=
  _activeMacro;;
  id ← gets _activeMacroId;
  _deleteMacro id.

Definition _decodeHexDigit (ch : wchar) : M bool :=
  modify (fun b => set_decodedChar (u16 (Z.shiftl (_decodedChar b) 4)) b);;
  let add digit := modify (fun b => set_decodedChar (u16 (_decodedChar b + digit)) b);; mret true in
  if (0x30 <=? ch) && (ch <=? 0x39) then add (ch - 0x30)
  else if (0x41 <=? ch) && (ch <=? 0x46) then add (ch - 0x41 + 10)
  else if (0x61 <=? ch) && (ch <=? 0x66) then add (ch - 0x61 + 10)
  else mret false.

Definition _appendToActiveMacro (ch : wchar) : M bool :=
  space ← gets GetSpaceAvailable;
  if 0 <? space then
    macro ← _activeMacro;
    assign_activeMacro (macro ++ [ch]);;
    modify (fun b => set_spaceUsed (usize (_spaceUsed b + 1)) b);;
    mret true
  else mret false.

(** [activeMacro.substr(pos, count)] *)
Definition substr (string : wstring) (pos count : Z) : M wstring := fun b =>
  if pos <=? Z.of_nat (length string)
  then (b, Returned (take (Z.to_nat count) (drop (Z.to_nat pos) string)))
  else (b, Threw).

(** [copies] is how many rounds the [for] loop has left. *)
Fixpoint append_copies (copies : nat) (sequenceLength : Z) : M unit :=
  match copies with
  | O => mret tt
  | S copies =>
    activeMacro ← _activeMacro;
    start ← gets _repeatStart;
    sequence ← substr activeMacro start sequenceLength;
    assign_activeMacro (activeMacro ++ sequence);;
    modify (fun b => set_spaceUsed (usize (_spaceUsed b + sequenceLength)) b);;
    append_copies copies sequenceLength
  end.

Definition _applyPendingRepeat : M bool :=
  repeatCount ← gets _repeatCount;
  enough ← (if 1 <? repeatCount then
              activeMacro ← _activeMacro;
              start ← gets _repeatStart;
              let sequenceLength := usize (Z.of_nat (length activeMacro) - start) in
              let spaceRequired := usize (usize (repeatCount - 1) * sequenceLength) in
              space ← gets GetSpaceAvailable;
              if space <? spaceRequired then mret false
              else append_copies (Z.to_nat (repeatCount - 1)) sequenceLength;; mret true
            else mret true);
  if enough : bool then modify (set_repeatPending false);; mret true
  else mret false.

Definition ClearMacrosIfInUse (b : MacroBuffer) : MacroBuffer :=
  if 0 <? _invokedDepth b
  then set_macros (map (map (fun _ => AsciiChars.NUL)) (_macros b)) b
  else b.

(** MacroEncoding and MacroDeleteControl; both come from parameters, so that any
    other number is possible. *)
Definition MacroEncoding_Text : Z := 0.
Definition MacroEncoding_HexPair : Z := 1.
Definition MacroDeleteControl_DeleteId : Z := 0.
Definition MacroDeleteControl_DeleteAll : Z := 1.

Fixpoint delete_all (ids : list nat) : M unit :=
  match ids with
  | [] => mret tt
  | id :: ids => _deleteMacro id;; delete_all ids
  end.

Definition InitParser (macroId : nat) (deleteControl encoding : Z) : M bool :=
  size ← gets (fun b => length (_macros b));
  depth ← gets _invokedDepth;
  if (macroId <? size)%nat && (depth =? 0) then
    modify (fun b => set_repeatPending false (set_decodedChar 0 (set_activeMacroId macroId b)));;
    known ← (if encoding =? MacroEncoding_HexPair then modify (set_parseState ExpectingHexDigit);; mret true
             else if encoding =? MacroEncoding_Text then modify (set_parseState ExpectingText);; mret true
             else mret false);
    if known : bool then
      if deleteControl =? MacroDeleteControl_DeleteId then delete_activeMacro;; mret true
      else if deleteControl =? MacroDeleteControl_DeleteAll then
        ids ← gets (fun b => seq 0 (length (_macros b)));
        delete_all ids;; mret true
      else mret false
    else mret false
  else mret false.

(** The [switch] of [ParseDefinition]: whether the character was valid. *)
Definition parse_character (ch : wchar) : M bool :=
  state ← gets _parseState;
  pending ← gets _repeatPending;
  match state with
  | ExpectingText => _appendToActiveMacro ch
  | ExpectingHexDigit =>
    isDigit ← _decodeHexDigit ch;
    if isDigit : bool then modify (set_parseState ExpectingSecondHexDigit);; mret true
    else if (ch =? 0x21) && negb pending then
      modify (fun b => set_repeatCount 0 (set_parseState ExpectingRepeatCount b));; mret true
    else if (ch =? 0x3B) && pending then _applyPendingRepeat
    else mret false
  | ExpectingSecondHexDigit =>
    isDigit ← _decodeHexDigit ch;
    success ← (if isDigit : bool then decoded ← gets _decodedChar; _appendToActiveMacro decoded else mret false);
    modify (fun b => set_parseState ExpectingHexDigit (set_decodedChar 0 b));;
    mret success
  | ExpectingRepeatCount =>
    if (0x30 <=? ch) && (ch <=? 0x39) then
      modify (fun b =>
        let repeatCount := usize (_repeatCount b * 10 + (ch - 0x30)) in
        set_repeatCount (Z.min repeatCount MAX_PARAMETER_VALUE) b);;
      mret true
    else if ch =? 0x3B then
      macro ← _activeMacro;
      modify (fun b => set_parseState ExpectingHexDigit
        (set_repeatStart (Z.of_nat (length macro)) (set_repeatPending true b)));;
      mret true
    else mret false
  end.

Definition ParseDefinition (ch : wchar) : M bool :=
  if ch =? AsciiChars.ESC then
    pending ← gets _repeatPending;
    (if pending : bool then
       success ← _applyPendingRepeat;
       if success : bool then mret tt else delete_activeMacro
     else mret tt);;
    mret false
  else if ch <? 0x20 then mret true
  else
    success ← parse_character ch;
    (if success : bool then mret tt else delete_activeMacro);;
    mret success.

(** [InvokeMacro] up to the call of [ProcessString], with the string it gets. *)
Definition InvokeMacro_begin (macroId : nat) (b : MacroBuffer) : MacroBuffer * option wstring :=
  if (macroId <? length (_macros b))%nat then
    let macroSequence := default [] (_macros b !! macroId) in
    let length := Z.of_nat (length macroSequence) in
    let allowedLength := usize (MAX_SPACE - _invokedSequenceLength b) in
    if (_invokedDepth b <? 16) && (length <? allowedLength)
    then (set_invoked (usize (_invokedDepth b + 1)) (usize (_invokedSequenceLength b + length)) b, Some macroSequence)
    else (b, None)
  else (b, None).

(** Its [wil::scope_exit]. *)
Definition InvokeMacro_end (b : MacroBuffer) : MacroBuffer :=
  let depth := usize (_invokedDepth b - 1) in
  set_invoked depth (if depth =? 0 then 0 else _invokedSequenceLength b) b.

(** The state machine calls the handler for each character of the device
    control string until it returns [false], and finally with ESC. *)
Fixpoint feed (text : wstring) : M bool :=
  match text with
  | [] => mret true
  | ch :: text =>
    more ← ParseDefinition ch;
    if more : bool then feed text else mret false
  end.

(** A complete DECDMAC: [InitParser] and the handler calls. *)
Definition define_macro (macroId : nat) (deleteControl encoding : Z) (text : wstring) : M bool :=
  accepted ← InitParser macroId deleteControl encoding;
  if accepted : bool then feed (text ++ [AsciiChars.ESC]) else mret false.
End Operations.
