(* ===== verification/FontBuffer.v ===== *)
(** * Soft fonts

    Models src/terminal/adapter/FontBuffer.{hpp,cpp}: the storage of the font that the
    DECDLD control sequence downloads, and the decoder of its sixel data. The buffer is
    a list of 16-bit scanlines; [_currentCharBuffer] is the offset of the iterator of
    that name. Reading or writing outside of the buffer is undefined behaviour, forming
    an iterator is not: [std::next] is an addition. *)

From stdpp Require Import list.
From S2P Require Import Prelude VtTypes.

(** The enumerations of DispatchTypes.hpp that the sequence has parameters for. *)
Module DrcsEraseControl.
Definition AllChars : Z := 0.
Definition ReloadedChars : Z := 1.
Definition AllRenditions : Z := 2.
End DrcsEraseControl.
Module DrcsCellMatrix.
Definition Default : Z := 0.
Definition Invalid : Z := 1.
Definition Size5x10 : Z := 2.
Definition Size6x10 : Z := 3.
Definition Size7x10 : Z := 4.
End DrcsCellMatrix.
Module DrcsFontSet.
Definition Default : Z := 0.
Definition Size80x24 : Z := 1.
Definition Size132x24 : Z := 2.
Definition Size80x36 : Z := 11.
Definition Size132x36 : Z := 12.
Definition Size80x48 : Z := 21.
Definition Size132x48 : Z := 22.
End DrcsFontSet.
Module DrcsFontUsage.
Definition Default : Z := 0.
Definition Text : Z := 1.
Definition FullCell : Z := 2.
End DrcsFontUsage.
Module CharsetSize.
Definition Size94 : Z := 0.
Definition Size96 : Z := 1.
End CharsetSize.

Module Font.

Definition MAX_WIDTH : Z := 16.
Definition MAX_HEIGHT : Z := 32.
Definition MAX_CHARS : Z := 96.
(** The size of [buffer_type]. *)
Definition buffer_size : nat := Z.to_nat (MAX_HEIGHT * MAX_CHARS).

Record t := mk {
  _cellMatrix : Z;
  _pendingCellMatrix : Z;
  _cellHeight : Z;
  _pendingCellHeight : Z;
  _sizeDeclaredAsMatrix : bool;
  _declaredWidth : Z;
  _declaredHeight : Z;
  _usedWidth : Z;
  _usedHeight : Z;
  _fullWidth : Z;
  _fullHeight : Z;
  _textWidth : Z;
  _textOffset : Z;
  _textCenteringHint : Z;
  _fontSet : Z;
  _pendingFontSet : Z;
  _fontUsage : Z;
  _pendingFontUsage : Z;
  _linesPerPage : Z;
  _columnsPerPage : Z;
  _isTextFont : bool;
  _charsetSize : Z;
  _pendingCharsetSize : Z;
  _charsetId : Z;
  _pendingCharsetId : Z;
  _charsetIdInitialized : bool;
  _charsetIdBuilder : VTIDBuilder.t;
  _startChar : Z;
  _lastChar : Z;
  _currentChar : Z;
  _buffer : list Z;
  _currentCharBuffer : Z;
  _bufferCleared : bool;
  _sixelColumn : Z;
  _sixelRow : Z
}.

Definition set_cellMatrix (v0 : Z) (f : t) : t :=
  mk v0 (_pendingCellMatrix f) (_cellHeight f) (_pendingCellHeight f) (_sizeDeclaredAsMatrix f) (_declaredWidth f) (_declaredHeight f) (_usedWidth f) (_usedHeight f) (_fullWidth f) (_fullHeight f) (_textWidth f) (_textOffset f) (_textCenteringHint f) (_fontSet f) (_pendingFontSet f) (_fontUsage f) (_pendingFontUsage f) (_linesPerPage f) (_columnsPerPage f) (_isTextFont f) (_charsetSize f) (_pendingCharsetSize f) (_charsetId f) (_pendingCharsetId f) (_charsetIdInitialized f) (_charsetIdBuilder f) (_startChar f) (_lastChar f) (_currentChar f) (_buffer f) (_currentCharBuffer f) (_bufferCleared f) (_sixelColumn f) (_sixelRow f).
Definition set_page (v0 : Z) (v1 : Z) (f : t) : t :=
  mk (_cellMatrix f) (_pendingCellMatrix f) (_cellHeight f) (_pendingCellHeight f) (_sizeDeclaredAsMatrix f) (_declaredWidth f) (_declaredHeight f) (_usedWidth f) (_usedHeight f) (_fullWidth f) (_fullHeight f) (_textWidth f) (_textOffset f) (_textCenteringHint f) (_fontSet f) (_pendingFontSet f) (_fontUsage f) (_pendingFontUsage f) v1 v0 (_isTextFont f) (_charsetSize f) (_pendingCharsetSize f) (_charsetId f) (_pendingCharsetId f) (_charsetIdInitialized f) (_charsetIdBuilder f) (_startChar f) (_lastChar f) (_currentChar f) (_buffer f) (_currentCharBuffer f) (_bufferCleared f) (_sixelColumn f) (_sixelRow f).
Definition set_isTextFont (v0 : bool) (f : t) : t :=
  mk (_cellMatrix f) (_pendingCellMatrix f) (_cellHeight f) (_pendingCellHeight f) (_sizeDeclaredAsMatrix f) (_declaredWidth f) (_declaredHeight f) (_usedWidth f) (_usedHeight f) (_fullWidth f) (_fullHeight f) (_textWidth f) (_textOffset f) (_textCenteringHint f) (_fontSet f) (_pendingFontSet f) (_fontUsage f) (_pendingFontUsage f) (_linesPerPage f) (_columnsPerPage f) v0 (_charsetSize f) (_pendingCharsetSize f) (_charsetId f) (_pendingCharsetId f) (_charsetIdInitialized f) (_charsetIdBuilder f) (_startChar f) (_lastChar f) (_currentChar f) (_buffer f) (_currentCharBuffer f) (_bufferCleared f) (_sixelColumn f) (_sixelRow f).
Definition set_declared (v0 : bool) (v1 : Z) (v2 : Z) (f : t) : t :=
  mk (_cellMatrix f) (_pendingCellMatrix f) (_cellHeight f) (_pendingCellHeight f) v0 v1 v2 (_usedWidth f) (_usedHeight f) (_fullWidth f) (_fullHeight f) (_textWidth f) (_textOffset f) (_textCenteringHint f) (_fontSet f) (_pendingFontSet f) (_fontUsage f) (_pendingFontUsage f) (_linesPerPage f) (_columnsPerPage f) (_isTextFont f) (_charsetSize f) (_pendingCharsetSize f) (_charsetId f) (_pendingCharsetId f) (_charsetIdInitialized f) (_charsetIdBuilder f) (_startChar f) (_lastChar f) (_currentChar f) (_buffer f) (_currentCharBuffer f) (_bufferCleared f) (_sixelColumn f) (_sixelRow f).
Definition set_pending (v0 : Z) (v1 : Z) (v2 : Z) (v3 : Z) (f : t) : t :=
  mk (_cellMatrix f) v0 (_cellHeight f) v1 (_sizeDeclaredAsMatrix f) (_declaredWidth f) (_declaredHeight f) (_usedWidth f) (_usedHeight f) (_fullWidth f) (_fullHeight f) (_textWidth f) (_textOffset f) (_textCenteringHint f) (_fontSet f) v2 (_fontUsage f) v3 (_linesPerPage f) (_columnsPerPage f) (_isTextFont f) (_charsetSize f) (_pendingCharsetSize f) (_charsetId f) (_pendingCharsetId f) (_charsetIdInitialized f) (_charsetIdBuilder f) (_startChar f) (_lastChar f) (_currentChar f) (_buffer f) (_currentCharBuffer f) (_bufferCleared f) (_sixelColumn f) (_sixelRow f).
Definition set_used (v0 : Z) (v1 : Z) (f : t) : t :=
  mk (_cellMatrix f) (_pendingCellMatrix f) (_cellHeight f) (_pendingCellHeight f) (_sizeDeclaredAsMatrix f) (_declaredWidth f) (_declaredHeight f) v0 v1 (_fullWidth f) (_fullHeight f) (_textWidth f) (_textOffset f) (_textCenteringHint f) (_fontSet f) (_pendingFontSet f) (_fontUsage f) (_pendingFontUsage f) (_linesPerPage f) (_columnsPerPage f) (_isTextFont f) (_charsetSize f) (_pendingCharsetSize f) (_charsetId f) (_pendingCharsetId f) (_charsetIdInitialized f) (_charsetIdBuilder f) (_startChar f) (_lastChar f) (_currentChar f) (_buffer f) (_currentCharBuffer f) (_bufferCleared f) (_sixelColumn f) (_sixelRow f).
Definition set_startChar (v0 : Z) (f : t) : t :=
  mk (_cellMatrix f) (_pendingCellMatrix f) (_cellHeight f) (_pendingCellHeight f) (_sizeDeclaredAsMatrix f) (_declaredWidth f) (_declaredHeight f) (_usedWidth f) (_usedHeight f) (_fullWidth f) (_fullHeight f) (_textWidth f) (_textOffset f) (_textCenteringHint f) (_fontSet f) (_pendingFontSet f) (_fontUsage f) (_pendingFontUsage f) (_linesPerPage f) (_columnsPerPage f) (_isTextFont f) (_charsetSize f) (_pendingCharsetSize f) (_charsetId f) (_pendingCharsetId f) (_charsetIdInitialized f) (_charsetIdBuilder f) v0 (_lastChar f) (_currentChar f) (_buffer f) (_currentCharBuffer f) (_bufferCleared f) (_sixelColumn f) (_sixelRow f).
Definition set_currentChar (v0 : Z) (f : t) : t :=
  mk (_cellMatrix f) (_pendingCellMatrix f) (_cellHeight f) (_pendingCellHeight f) (_sizeDeclaredAsMatrix f) (_declaredWidth f) (_declaredHeight f) (_usedWidth f) (_usedHeight f) (_fullWidth f) (_fullHeight f) (_textWidth f) (_textOffset f) (_textCenteringHint f) (_fontSet f) (_pendingFontSet f) (_fontUsage f) (_pendingFontUsage f) (_linesPerPage f) (_columnsPerPage f) (_isTextFont f) (_charsetSize f) (_pendingCharsetSize f) (_charsetId f) (_pendingCharsetId f) (_charsetIdInitialized f) (_charsetIdBuilder f) (_startChar f) (_lastChar f) v0 (_buffer f) (_currentCharBuffer f) (_bufferCleared f) (_sixelColumn f) (_sixelRow f).
Definition set_pendingCharsetSize (v0 : Z) (f : t) : t :=
  mk (_cellMatrix f) (_pendingCellMatrix f) (_cellHeight f) (_pendingCellHeight f) (_sizeDeclaredAsMatrix f) (_declaredWidth f) (_declaredHeight f) (_usedWidth f) (_usedHeight f) (_fullWidth f) (_fullHeight f) (_textWidth f) (_textOffset f) (_textCenteringHint f) (_fontSet f) (_pendingFontSet f) (_fontUsage f) (_pendingFontUsage f) (_linesPerPage f) (_columnsPerPage f) (_isTextFont f) (_charsetSize f) v0 (_charsetId f) (_pendingCharsetId f) (_charsetIdInitialized f) (_charsetIdBuilder f) (_startChar f) (_lastChar f) (_currentChar f) (_buffer f) (_currentCharBuffer f) (_bufferCleared f) (_sixelColumn f) (_sixelRow f).
Definition set_charsetIdInitialized (v0 : bool) (f : t) : t :=
  mk (_cellMatrix f) (_pendingCellMatrix f) (_cellHeight f) (_pendingCellHeight f) (_sizeDeclaredAsMatrix f) (_declaredWidth f) (_declaredHeight f) (_usedWidth f) (_usedHeight f) (_fullWidth f) (_fullHeight f) (_textWidth f) (_textOffset f) (_textCenteringHint f) (_fontSet f) (_pendingFontSet f) (_fontUsage f) (_pendingFontUsage f) (_linesPerPage f) (_columnsPerPage f) (_isTextFont f) (_charsetSize f) (_pendingCharsetSize f) (_charsetId f) (_pendingCharsetId f) v0 (_charsetIdBuilder f) (_startChar f) (_lastChar f) (_currentChar f) (_buffer f) (_currentCharBuffer f) (_bufferCleared f) (_sixelColumn f) (_sixelRow f).
Definition set_charsetIdBuilder (v0 : VTIDBuilder.t) (f : t) : t :=
  mk (_cellMatrix f) (_pendingCellMatrix f) (_cellHeight f) (_pendingCellHeight f) (_sizeDeclaredAsMatrix f) (_declaredWidth f) (_declaredHeight f) (_usedWidth f) (_usedHeight f) (_fullWidth f) (_fullHeight f) (_textWidth f) (_textOffset f) (_textCenteringHint f) (_fontSet f) (_pendingFontSet f) (_fontUsage f) (_pendingFontUsage f) (_linesPerPage f) (_columnsPerPage f) (_isTextFont f) (_charsetSize f) (_pendingCharsetSize f) (_charsetId f) (_pendingCharsetId f) (_charsetIdInitialized f) v0 (_startChar f) (_lastChar f) (_currentChar f) (_buffer f) (_currentCharBuffer f) (_bufferCleared f) (_sixelColumn f) (_sixelRow f).
Definition set_pendingCharsetId (v0 : Z) (f : t) : t :=
  mk (_cellMatrix f) (_pendingCellMatrix f) (_cellHeight f) (_pendingCellHeight f) (_sizeDeclaredAsMatrix f) (_declaredWidth f) (_declaredHeight f) (_usedWidth f) (_usedHeight f) (_fullWidth f) (_fullHeight f) (_textWidth f) (_textOffset f) (_textCenteringHint f) (_fontSet f) (_pendingFontSet f) (_fontUsage f) (_pendingFontUsage f) (_linesPerPage f) (_columnsPerPage f) (_isTextFont f) (_charsetSize f) (_pendingCharsetSize f) (_charsetId f) v0 (_charsetIdInitialized f) (_charsetIdBuilder f) (_startChar f) (_lastChar f) (_currentChar f) (_buffer f) (_currentCharBuffer f) (_bufferCleared f) (_sixelColumn f) (_sixelRow f).
Definition set_current (v0 : Z) (v1 : Z) (v2 : Z) (v3 : Z) (v4 : Z) (v5 : Z) (f : t) : t :=
  mk v0 (_pendingCellMatrix f) v1 (_pendingCellHeight f) (_sizeDeclaredAsMatrix f) (_declaredWidth f) (_declaredHeight f) (_usedWidth f) (_usedHeight f) (_fullWidth f) (_fullHeight f) (_textWidth f) (_textOffset f) (_textCenteringHint f) v2 (_pendingFontSet f) v3 (_pendingFontUsage f) (_linesPerPage f) (_columnsPerPage f) (_isTextFont f) v4 (_pendingCharsetSize f) v5 (_pendingCharsetId f) (_charsetIdInitialized f) (_charsetIdBuilder f) (_startChar f) (_lastChar f) (_currentChar f) (_buffer f) (_currentCharBuffer f) (_bufferCleared f) (_sixelColumn f) (_sixelRow f).
Definition set_dimensions (v0 : Z) (v1 : Z) (v2 : Z) (f : t) : t :=
  mk (_cellMatrix f) (_pendingCellMatrix f) (_cellHeight f) (_pendingCellHeight f) (_sizeDeclaredAsMatrix f) (_declaredWidth f) (_declaredHeight f) (_usedWidth f) (_usedHeight f) v0 v1 v2 (_textOffset f) (_textCenteringHint f) (_fontSet f) (_pendingFontSet f) (_fontUsage f) (_pendingFontUsage f) (_linesPerPage f) (_columnsPerPage f) (_isTextFont f) (_charsetSize f) (_pendingCharsetSize f) (_charsetId f) (_pendingCharsetId f) (_charsetIdInitialized f) (_charsetIdBuilder f) (_startChar f) (_lastChar f) (_currentChar f) (_buffer f) (_currentCharBuffer f) (_bufferCleared f) (_sixelColumn f) (_sixelRow f).
Definition set_text (v0 : Z) (v1 : Z) (f : t) : t :=
  mk (_cellMatrix f) (_pendingCellMatrix f) (_cellHeight f) (_pendingCellHeight f) (_sizeDeclaredAsMatrix f) (_declaredWidth f) (_declaredHeight f) (_usedWidth f) (_usedHeight f) (_fullWidth f) (_fullHeight f) v0 v1 (_textCenteringHint f) (_fontSet f) (_pendingFontSet f) (_fontUsage f) (_pendingFontUsage f) (_linesPerPage f) (_columnsPerPage f) (_isTextFont f) (_charsetSize f) (_pendingCharsetSize f) (_charsetId f) (_pendingCharsetId f) (_charsetIdInitialized f) (_charsetIdBuilder f) (_startChar f) (_lastChar f) (_currentChar f) (_buffer f) (_currentCharBuffer f) (_bufferCleared f) (_sixelColumn f) (_sixelRow f).
Definition set_textCenteringHint (v0 : Z) (f : t) : t :=
  mk (_cellMatrix f) (_pendingCellMatrix f) (_cellHeight f) (_pendingCellHeight f) (_sizeDeclaredAsMatrix f) (_declaredWidth f) (_declaredHeight f) (_usedWidth f) (_usedHeight f) (_fullWidth f) (_fullHeight f) (_textWidth f) (_textOffset f) v0 (_fontSet f) (_pendingFontSet f) (_fontUsage f) (_pendingFontUsage f) (_linesPerPage f) (_columnsPerPage f) (_isTextFont f) (_charsetSize f) (_pendingCharsetSize f) (_charsetId f) (_pendingCharsetId f) (_charsetIdInitialized f) (_charsetIdBuilder f) (_startChar f) (_lastChar f) (_currentChar f) (_buffer f) (_currentCharBuffer f) (_bufferCleared f) (_sixelColumn f) (_sixelRow f).
Definition set_buffer (v0 : list Z) (f : t) : t :=
  mk (_cellMatrix f) (_pendingCellMatrix f) (_cellHeight f) (_pendingCellHeight f) (_sizeDeclaredAsMatrix f) (_declaredWidth f) (_declaredHeight f) (_usedWidth f) (_usedHeight f) (_fullWidth f) (_fullHeight f) (_textWidth f) (_textOffset f) (_textCenteringHint f) (_fontSet f) (_pendingFontSet f) (_fontUsage f) (_pendingFontUsage f) (_linesPerPage f) (_columnsPerPage f) (_isTextFont f) (_charsetSize f) (_pendingCharsetSize f) (_charsetId f) (_pendingCharsetId f) (_charsetIdInitialized f) (_charsetIdBuilder f) (_startChar f) (_lastChar f) (_currentChar f) v0 (_currentCharBuffer f) (_bufferCleared f) (_sixelColumn f) (_sixelRow f).
Definition set_bufferCleared (v0 : bool) (f : t) : t :=
  mk (_cellMatrix f) (_pendingCellMatrix f) (_cellHeight f) (_pendingCellHeight f) (_sizeDeclaredAsMatrix f) (_declaredWidth f) (_declaredHeight f) (_usedWidth f) (_usedHeight f) (_fullWidth f) (_fullHeight f) (_textWidth f) (_textOffset f) (_textCenteringHint f) (_fontSet f) (_pendingFontSet f) (_fontUsage f) (_pendingFontUsage f) (_linesPerPage f) (_columnsPerPage f) (_isTextFont f) (_charsetSize f) (_pendingCharsetSize f) (_charsetId f) (_pendingCharsetId f) (_charsetIdInitialized f) (_charsetIdBuilder f) (_startChar f) (_lastChar f) (_currentChar f) (_buffer f) (_currentCharBuffer f) v0 (_sixelColumn f) (_sixelRow f).
Definition set_lastChar (v0 : Z) (f : t) : t :=
  mk (_cellMatrix f) (_pendingCellMatrix f) (_cellHeight f) (_pendingCellHeight f) (_sizeDeclaredAsMatrix f) (_declaredWidth f) (_declaredHeight f) (_usedWidth f) (_usedHeight f) (_fullWidth f) (_fullHeight f) (_textWidth f) (_textOffset f) (_textCenteringHint f) (_fontSet f) (_pendingFontSet f) (_fontUsage f) (_pendingFontUsage f) (_linesPerPage f) (_columnsPerPage f) (_isTextFont f) (_charsetSize f) (_pendingCharsetSize f) (_charsetId f) (_pendingCharsetId f) (_charsetIdInitialized f) (_charsetIdBuilder f) (_startChar f) v0 (_currentChar f) (_buffer f) (_currentCharBuffer f) (_bufferCleared f) (_sixelColumn f) (_sixelRow f).
Definition set_currentCharBuffer (v0 : Z) (f : t) : t :=
  mk (_cellMatrix f) (_pendingCellMatrix f) (_cellHeight f) (_pendingCellHeight f) (_sizeDeclaredAsMatrix f) (_declaredWidth f) (_declaredHeight f) (_usedWidth f) (_usedHeight f) (_fullWidth f) (_fullHeight f) (_textWidth f) (_textOffset f) (_textCenteringHint f) (_fontSet f) (_pendingFontSet f) (_fontUsage f) (_pendingFontUsage f) (_linesPerPage f) (_columnsPerPage f) (_isTextFont f) (_charsetSize f) (_pendingCharsetSize f) (_charsetId f) (_pendingCharsetId f) (_charsetIdInitialized f) (_charsetIdBuilder f) (_startChar f) (_lastChar f) (_currentChar f) (_buffer f) v0 (_bufferCleared f) (_sixelColumn f) (_sixelRow f).
Definition set_sixelColumn (v0 : Z) (f : t) : t :=
  mk (_cellMatrix f) (_pendingCellMatrix f) (_cellHeight f) (_pendingCellHeight f) (_sizeDeclaredAsMatrix f) (_declaredWidth f) (_declaredHeight f) (_usedWidth f) (_usedHeight f) (_fullWidth f) (_fullHeight f) (_textWidth f) (_textOffset f) (_textCenteringHint f) (_fontSet f) (_pendingFontSet f) (_fontUsage f) (_pendingFontUsage f) (_linesPerPage f) (_columnsPerPage f) (_isTextFont f) (_charsetSize f) (_pendingCharsetSize f) (_charsetId f) (_pendingCharsetId f) (_charsetIdInitialized f) (_charsetIdBuilder f) (_startChar f) (_lastChar f) (_currentChar f) (_buffer f) (_currentCharBuffer f) (_bufferCleared f) v0 (_sixelRow f).
Definition set_sixelRow (v0 : Z) (f : t) : t :=
  mk (_cellMatrix f) (_pendingCellMatrix f) (_cellHeight f) (_pendingCellHeight f) (_sizeDeclaredAsMatrix f) (_declaredWidth f) (_declaredHeight f) (_usedWidth f) (_usedHeight f) (_fullWidth f) (_fullHeight f) (_textWidth f) (_textOffset f) (_textCenteringHint f) (_fontSet f) (_pendingFontSet f) (_fontUsage f) (_pendingFontUsage f) (_linesPerPage f) (_columnsPerPage f) (_isTextFont f) (_charsetSize f) (_pendingCharsetSize f) (_charsetId f) (_pendingCharsetId f) (_charsetIdInitialized f) (_charsetIdBuilder f) (_startChar f) (_lastChar f) (_currentChar f) (_buffer f) (_currentCharBuffer f) (_bufferCleared f) (_sixelColumn f) v0.

(** ** Parameters of the sequence *)

(** The switches of [SetEraseControl] and [SetAttributes], which end in the answer
    whether the parameter is valid. *)
Definition SetEraseControl (eraseControl : Z) (f : t) : t * bool :=
  switch eraseControl
    [(DrcsEraseControl.AllChars, (set_cellMatrix DrcsCellMatrix.Invalid f, true));
     (DrcsEraseControl.AllRenditions, (set_cellMatrix DrcsCellMatrix.Invalid f, true));
     (DrcsEraseControl.ReloadedChars, (f, true))]
    (f, false).

(** The constructor: what it does not initialise is as it was in [memory]. *)
Definition new_FontBuffer (memory : t) : t :=
  (SetEraseControl DrcsEraseControl.AllRenditions (set_pendingCharsetId 0 (set_charsetIdBuilder VTIDBuilder.Clear
    (set_current (_cellMatrix memory) (_cellHeight memory) (_fontSet memory) (_fontUsage memory) (_charsetSize memory) 0 memory)))).1.

Definition attribute_page (fontSet : Z) (f : t) : t * bool :=
  switch fontSet
    [(DrcsFontSet.Default, (set_page 80 24 f, true)); (DrcsFontSet.Size80x24, (set_page 80 24 f, true));
     (DrcsFontSet.Size80x36, (set_page 80 36 f, true)); (DrcsFontSet.Size80x48, (set_page 80 48 f, true));
     (DrcsFontSet.Size132x24, (set_page 132 24 f, true)); (DrcsFontSet.Size132x36, (set_page 132 36 f, true));
     (DrcsFontSet.Size132x48, (set_page 132 48 f, true))]
    (f, false).

Definition attribute_usage (fontUsage : Z) (f : t) : t * bool :=
  switch fontUsage
    [(DrcsFontUsage.Default, (set_isTextFont true f, true)); (DrcsFontUsage.Text, (set_isTextFont true f, true));
     (DrcsFontUsage.FullCell, (set_isTextFont false f, true))]
    (f, false).

Definition attribute_matrix (cellMatrix cellHeight : Z) (f : t) : t * bool :=
  switch cellMatrix
    [(DrcsCellMatrix.Invalid, (f, false));
     (DrcsCellMatrix.Size5x10, (set_declared true 5 10 f, _isTextFont f));
     (DrcsCellMatrix.Size6x10, (set_declared true 6 10 f, _isTextFont f || (_columnsPerPage f =? 132)));
     (DrcsCellMatrix.Size7x10, (set_declared true 7 10 f, _isTextFont f))]
    (let height := VTParameter.value_or cellHeight 0 in
     (set_declared false cellMatrix height f, (cellMatrix <=? MAX_WIDTH) && (height <=? MAX_HEIGHT))).

Definition SetAttributes (cellMatrix cellHeight fontSet fontUsage : Z) (f : t) : t * bool :=
  let '(f, valid) := attribute_page fontSet f in
  let '(f, valid) := if valid then attribute_usage fontUsage f else (f, false) in
  let '(f, valid) := if valid then attribute_matrix cellMatrix cellHeight f else (f, false) in
  (set_used 0 0 (set_pending cellMatrix (VTParameter.value_or cellHeight 0) fontSet fontUsage f), valid).

Definition SetStartChar (startChar charsetSize : Z) (f : t) : t * bool :=
  let accept first :=
    (set_charsetIdBuilder VTIDBuilder.Clear (set_charsetIdInitialized false
      (set_pendingCharsetSize charsetSize (set_currentChar first (set_startChar first f)))), true) in
  switch charsetSize
    [(CharsetSize.Size94, accept (VTParameter.value_or startChar 1));
     (CharsetSize.Size96, accept (VTParameter.value_or startChar 0))]
    (f, false).

(** ** The buffer *)

Local Abbreviation M := (comp t).

Definition load (offset : Z) : M Z :=
  buffer ← gets _buffer;
  if (0 <=? offset) && (offset <? Z.of_nat (length buffer)) then mret (default 0 (buffer !! Z.to_nat offset)) else undefined.
Definition store (offset value : Z) : M unit :=
  buffer ← gets _buffer;
  if (0 <=? offset) && (offset <? Z.of_nat (length buffer)) then modify (set_buffer (<[Z.to_nat offset := value]> buffer)) else undefined.

(** [std::copy_n] of scanlines to an offset; [std::fill_n] copies zeros. *)
Fixpoint copy_lines (lines : list Z) (offset : Z) : M unit :=
  match lines with
  | [] => mret tt
  | line :: lines => store offset line;; copy_lines lines (offset + 1)
  end.

(** ** Sixel data *)

Definition _prepareNextCharacter : M unit :=
  f ← gets id;
  let current := _currentChar f * _fullHeight f in
  modify (set_lastChar (_currentChar f));;
  modify (set_currentCharBuffer current);;
  modify (set_sixelColumn 0);;
  modify (set_sixelRow 0);;
  if negb (_bufferCleared f) && (_currentChar f <? MAX_CHARS)
  then copy_lines (repeat 0 (Z.to_nat (_fullHeight f))) current
  else mret tt.

Definition attributes_changed (f : t) : bool :=
  negb (_cellMatrix f =? _pendingCellMatrix f) || negb (_cellHeight f =? _pendingCellHeight f) ||
  negb (_fontSet f =? _pendingFontSet f) || negb (_fontUsage f =? _pendingFontUsage f) ||
  negb (_charsetSize f =? _pendingCharsetSize f) || negb (_charsetId f =? _pendingCharsetId f).

Definition _prepareCharacterBuffer : M unit :=
  f ← gets id;
  (if attributes_changed f then
     modify (set_current (_pendingCellMatrix f) (_pendingCellHeight f) (_pendingFontSet f) (_pendingFontUsage f) (_pendingCharsetSize f) (_pendingCharsetId f));;
     modify (set_dimensions MAX_WIDTH MAX_HEIGHT MAX_WIDTH);;
     modify (set_text MAX_WIDTH 0);;
     modify (set_buffer (repeat 0 buffer_size));;
     modify (set_bufferCleared true)
   else modify (set_bufferCleared false));;
  _prepareNextCharacter.

Definition _buildCharsetId (ch : wchar) : M unit :=
  if (0x20 <=? ch) && (ch <=? 0x2F) then modify (fun f => set_charsetIdBuilder (VTIDBuilder.AddIntermediate (_charsetIdBuilder f) ch) f)
  else if (0x30 <=? ch) && (ch <=? 0x7E) then
    modify (fun f => set_pendingCharsetId (VTIDBuilder.Finalize (_charsetIdBuilder f) ch) f);;
    modify (set_charsetIdInitialized true);;
    _prepareCharacterBuffer
  else mret tt.

(** The loop of [_addSixelValue]: [rounds] of the six rows are left, the first of them
    is row [i] of the band. *)
Fixpoint sixel_rows (rounds : nat) (i row height value columnBit output : Z) : M unit :=
  match rounds with
  | O => mret tt
  | S rounds =>
    if row + i <? height then
      line ← load output;
      store output (u16 (Z.lor line (if negb (Z.land value (Z.shiftl 1 i) =? 0) then columnBit else 0)));;
      sixel_rows rounds (i + 1) row height value columnBit (output + 1)
    else mret tt
  end.

(** The greatest [VTInt], beyond which [_sixelColumn++] is undefined. *)
Definition VTInt_max : Z := 2 ^ 31 - 1.
Definition _addSixelValue (value : Z) : M unit :=
  f ← gets id;
  (if (_currentChar f <? MAX_CHARS) && (_sixelColumn f <? _textWidth f)
   then sixel_rows 6 0 (_sixelRow f) (_fullHeight f) value (Z.shiftr 0x8000 (_sixelColumn f + _textOffset f)) (_currentCharBuffer f)
   else mret tt);;
  column ← gets _sixelColumn;
  if column <? VTInt_max then modify (set_sixelColumn (column + 1)) else undefined.

Definition maxSixelRow : Z := (MAX_HEIGHT + 5) / 6 * 6.

Definition _endOfSixelLine : M unit :=
  f ← gets id;
  if MAX_CHARS <=? _currentChar f then throw
  else
    let currentCharEnd := (_currentChar f + 1) * _fullHeight f in
    let rowsRemaining := currentCharEnd - _currentCharBuffer f in
    let row := Z.min (_sixelRow f + 6) maxSixelRow in
    modify (set_currentCharBuffer (_currentCharBuffer f + clamp rowsRemaining 0 6));;
    modify (set_sixelRow row);;
    modify (set_used (Z.max (_usedWidth f) (_sixelColumn f)) (Z.max (_usedHeight f) row));;
    modify (set_sixelColumn 0).

Definition _endOfCharacter : M unit :=
  _endOfSixelLine;;
  modify (fun f => set_currentChar (_currentChar f + 1) f);;
  _prepareNextCharacter.

Definition AddSixelData (ch : wchar) : M unit :=
  f ← gets id;
  if negb (_charsetIdInitialized f) then _buildCharsetId ch
  else if (0x3F <=? ch) && (ch <=? 0x7E) then _addSixelValue (ch - 0x3F)
  else if ch =? 0x2F then _endOfSixelLine
  else if ch =? 0x3B then _endOfCharacter
  else mret tt.

(** ** The finished font *)

Definition in_range (f : t) (cellWidth cellHeight : Z) : bool :=
  let sixelHeight := (cellHeight + 5) / 6 * 6 in
  let heightInRange := if negb (_declaredHeight f =? 0) then _declaredHeight f <=? cellHeight else _usedHeight f <=? sixelHeight in
  let widthInRange := if negb (_declaredWidth f =? 0) then _declaredWidth f <=? cellWidth else _usedWidth f <=? cellWidth in
  heightInRange && widthInRange.

Definition _calculateDimensions (f : t) : Z * Z * Z :=
  let textWidth := if _isTextFont f then _declaredWidth f else 0 in
  let noDeclaredSize := (_declaredWidth f =? 0) && (_declaredHeight f =? 0) in
  if _sizeDeclaredAsMatrix f then
    if (_columnsPerPage f =? 132) && (_declaredWidth f <=? 6) then (6, 10, 0) else (10, 10, 8)
  else if negb (_declaredWidth f =? 0) && negb (_declaredHeight f =? 0) && negb (_isTextFont f) then (_declaredWidth f, _declaredHeight f, 0)
  else if negb (_linesPerPage f =? 24) then
    (if _columnsPerPage f =? 132 then 6 else 10, if _linesPerPage f =? 48 then 8 else 10, textWidth)
  else if _columnsPerPage f =? 80 then
    if in_range f 8 10 && noDeclaredSize then (10, 10, 8)
    else if in_range f 15 12 then (15, 12, textWidth)
    else if in_range f 10 16 then (10, 16, textWidth)
    else if in_range f 10 20 then (10, 20, textWidth)
    else if in_range f 12 30 then (12, 30, textWidth)
    else (MAX_WIDTH, MAX_HEIGHT, textWidth)
  else
    if in_range f 6 10 && noDeclaredSize then (6, 10, 0)
    else if in_range f 9 12 then (9, 12, textWidth)
    else if in_range f 6 16 then (6, 16, textWidth)
    else if in_range f 6 20 then (6, 20, textWidth)
    else if in_range f 7 30 then (7, 30, textWidth)
    else (MAX_WIDTH, MAX_HEIGHT, textWidth).

(** The bit pattern of the error glyph, and the masks of the rows and columns to take
    of it for a height and a width. *)
Definition inputBitPattern : list Z :=
  repeat 0 6 ++
  [0x1FF0; 0x3FF8; 0x701C; 0x701C; 0x7000; 0x7000;
   0x7800; 0x3E00; 0x0780; 0x0380; 0x0380; 0x0380;
   0x0380; 0x0000; 0x0380; 0x0380; 0x0380] ++ repeat 0 9.
Definition widthMasks : list Z :=
  [0; 1; 3; 32771; 8457; 9481; 9545; 9673; 42441; 26061; 58829; 28141; 60909; 63453; 63485; 65533; 65535].
Definition heightMasks : list Z :=
  [0; 1; 3; 7; 15; 1613952; 10002560; 10002816; 10068352; 10068353; 26845569; 26847617; 26847619; 26864003; 28961155; 28961219;
   28961731; 62516163; 62516167; 129625031; 129625039; 129756111; 263973839; 263974863; 268169167; 536604623; 536608719; 536608735;
   536870879; 1073741791; 2147483615; 2147483647; 4294967295].

(** [std::array::at], which throws. *)
Definition array_at (l : list Z) (index : Z) : option Z := if 0 <=? index then l !! Z.to_nat index else None.

Fixpoint error_columns (x : nat) (widthMask inputScanline output : Z) : Z :=
  match x with
  | O => output
  | S x =>
    let xBit := Z.shiftl 1 (Z.of_nat x) in
    error_columns x widthMask inputScanline
      (if negb (Z.land widthMask xBit =? 0) then u16 (Z.lor (u16 (Z.shiftl output 1)) (if negb (Z.land inputScanline xBit =? 0) then 1 else 0)) else output)
  end.
Definition error_scanline (widthMask fullWidth inputScanline : Z) : Z :=
  u16 (Z.shiftl (error_columns 16 widthMask inputScanline 0) (MAX_WIDTH - fullWidth)).

(** The scanlines are written one after the other, and the array is zero behind them. *)
Definition error_glyph (widthMask heightMask fullWidth : Z) : list Z :=
  let lines := flat_map (fun y => if negb (Z.land heightMask (Z.shiftl 1 (Z.of_nat y)) =? 0)
                                  then [error_scanline widthMask fullWidth (default 0 (inputBitPattern !! y))] else []) (seq 0 32) in
  lines ++ repeat 0 (32 - length lines).
Definition _generateErrorGlyph : M (list Z) :=
  f ← gets id;
  match array_at widthMasks (_fullWidth f), array_at heightMasks (_fullHeight f) with
  | Some widthMask, Some heightMask => mret (error_glyph widthMask heightMask (_fullWidth f))
  | _, _ => throw
  end.

Fixpoint fill_unused (rounds : nat) (ch startChar lastChar height : Z) (pattern : list Z) : M unit :=
  match rounds with
  | O => mret tt
  | S rounds =>
    (if (ch <? startChar) || (lastChar <? ch) then copy_lines (take (Z.to_nat height) pattern) (ch * height) else mret tt);;
    fill_unused rounds (ch + 1) startChar lastChar height pattern
  end.
Definition _fillUnusedCharacters : M unit :=
  errorPattern ← _generateErrorGlyph;
  f ← gets id;
  fill_unused 96 0 (_startChar f) (_lastChar f) (_fullHeight f) errorPattern.

(** A scanline, clipped and moved to the middle of the cell. *)
Definition center_line (textWidth textOffset line : Z) : Z :=
  Z.shiftr (Z.land line (Z.lnot (Z.shiftr 0xFFFF textWidth))) textOffset.

Fixpoint pack_lines (rounds : nat) (srcLine dstLine height textWidth textOffset : Z) : M unit :=
  match rounds with
  | O => mret tt
  | S rounds =>
    if srcLine mod MAX_HEIGHT <? height then
      line ← load srcLine;
      store dstLine (center_line textWidth textOffset line);;
      pack_lines rounds (srcLine + 1) (dstLine + 1) height textWidth textOffset
    else pack_lines rounds (srcLine + 1) dstLine height textWidth textOffset
  end.

(** The width of [size_t], which holds [_textCenteringHint]. *)
Section Packing.
Variable size_bits : Z.

Definition _packAndCenterBitPatterns : M unit :=
  f ← gets id;
  let textWidth := Z.min (if negb (_textWidth f =? 0) then _textWidth f else _fullWidth f) (_fullWidth f) in
  let textOffset := (_fullWidth f - textWidth) ÷ 2 in
  modify (set_text textWidth textOffset);;
  modify (set_textCenteringHint ((if negb (_declaredWidth f =? 0) then _fullWidth f - (_declaredWidth f + textOffset * 2) else 0) mod 2 ^ size_bits));;
  pack_lines buffer_size 0 0 (_fullHeight f) textWidth textOffset.

Definition FinalizeSixelData : M bool :=
  initialized ← gets _charsetIdInitialized;
  if negb initialized then mret false
  else
    _endOfSixelLine;;
    f ← gets id;
    (if _bufferCleared f then
       let '(fullWidth, fullHeight, textWidth) := _calculateDimensions f in
       modify (set_dimensions fullWidth fullHeight textWidth);;
       _packAndCenterBitPatterns;;
       _fillUnusedCharacters
     else mret tt);;
    mret true.
End Packing.

Definition GetBitPattern (f : t) : list Z := take (Z.to_nat (MAX_CHARS * _fullHeight f)) (_buffer f).
Definition GetCellSize (f : t) : Z * Z := (_fullWidth f, _fullHeight f).
Definition GetTextCenteringHint (f : t) : Z := _textCenteringHint f.
Definition GetDesignation (f : t) : Z := _charsetId f.

(** ** A download

    What [AdaptDispatch::DownloadDRCS] and the handler of its data string do to the
    buffer: the parameters of the sequence, the characters of the string up to the first
    exception, and the ESC at its end. *)
Record drcs := mkDrcs {
  fontNumber : Z;
  startChar : Z;
  eraseControl : Z;
  cellMatrix : Z;
  fontSet : Z;
  fontUsage : Z;
  cellHeight : Z;
  charsetSize : Z
}.

Definition lift (op : t -> t * bool) : M bool := fun f => let '(f, ok) := op f in (f, Returned ok).

Definition drcs_parameters (p : drcs) : M bool :=
  if negb (fontNumber p <=? 1) then mret false
  else
    erase ← lift (SetEraseControl (eraseControl p));
    if negb erase then mret false
    else
      attributes ← lift (SetAttributes (cellMatrix p) (cellHeight p) (fontSet p) (fontUsage p));
      if negb attributes then mret false else lift (SetStartChar (startChar p) (charsetSize p)).

(** The answer of the handler to a character that is not ESC. *)
Definition drcs_character (ch : wchar) : M bool := fun f =>
  match AddSixelData ch f with
  | (f, Returned tt) => (f, Returned true)
  | (f, Threw) => (f, Returned false)
  | (f, Undefined) => (f, Undefined)
  | (f, OutOfFuel) => (f, OutOfFuel)
  end.

(** The string up to the first character that is refused. *)
Fixpoint drcs_string (data : wstring) : M bool :=
  match data with
  | [] => mret true
  | ch :: data => go ← drcs_character ch; if (go : bool) then drcs_string data else mret false
  end.

Definition download (size_bits : Z) (p : drcs) (data : wstring) : M bool :=
  accepted ← drcs_parameters p;
  if negb accepted then mret false
  else
    go ← drcs_string data;
    if (go : bool) then FinalizeSixelData size_bits else mret false.

End Font.
