(* ===== verification/FontProps.v ===== *)
(** * Soft fonts: theorems

    The buffer of a soft font is a stack of scanlines, and the sixel data of a download
    a drawing on a canvas without borders. The theorems relate the two: the buffer holds
    the part of the drawing that fits the cells, centred in them, and whatever a program
    sends, no scanline outside of the buffer is touched. *)

From stdpp Require Import list.
From S2P Require Import Prelude VtTypes FontBuffer.
Import Font.

(** Decides the comparisons of the goal. *)
Ltac bounds :=
  repeat match goal with
  | |- context [?a <=? ?b] => destruct (Z.leb_spec a b)
  | |- context [?a <? ?b] => destruct (Z.ltb_spec a b)
  | |- context [?a =? ?b] => destruct (Z.eqb_spec a b)
  end; simpl; try lia; try done.

(** ** Scanlines *)

Definition scanline (l : list Z) (j : Z) : Z := default 0 (l !! Z.to_nat j).
Definition is_buffer (l : list Z) : Prop := length l = buffer_size /\ Forall (fun v => 0 <= v < 2 ^ 16) l.

Lemma buffer_length l : is_buffer l -> Z.of_nat (length l) = 3072.
Proof. intros [-> _]. by vm_compute. Qed.

Lemma scanline_range l j : is_buffer l -> 0 <= scanline l j < 2 ^ 16.
Proof.
  intros [_ Hl]. unfold scanline. destruct (l !! Z.to_nat j) as [v|] eqn:E; simpl; [|lia].
  rewrite Forall_lookup in Hl. exact (Hl _ _ E).
Qed.

Lemma repeat_zero n : Forall (fun v => 0 <= v < 2 ^ 16) (repeat 0 n).
Proof. apply Forall_forall. intros v Hv%list_elem_of_In%repeat_spec. lia. Qed.

Lemma is_buffer_blank : is_buffer (repeat 0 buffer_size).
Proof. split; [by rewrite repeat_length|apply repeat_zero]. Qed.

Lemma scanline_blank n j : scanline (repeat 0 n) j = 0.
Proof.
  unfold scanline. destruct (repeat 0 n !! Z.to_nat j) as [v|] eqn:E; [|done].
  apply list_elem_of_lookup_2, list_elem_of_In, repeat_spec in E. done.
Qed.

Lemma is_buffer_insert l j v : is_buffer l -> 0 <= v < 2 ^ 16 -> is_buffer (<[Z.to_nat j := v]> l).
Proof. intros [Hn Hl] Hv. split; [by rewrite length_insert|]. apply Forall_insert; auto. Qed.

Lemma scanline_insert l j v i : is_buffer l -> 0 <= j < 3072 -> 0 <= i ->
  scanline (<[Z.to_nat j := v]> l) i = if i =? j then v else scanline l i.
Proof.
  intros Hl Hj Hi. pose proof (buffer_length l Hl). unfold scanline. destruct (Z.eqb_spec i j) as [->|Hne].
  - rewrite list_lookup_insert_eq; [done|lia].
  - rewrite list_lookup_insert_ne; [done|lia].
Qed.

Lemma store_ok f j v : is_buffer (_buffer f) -> 0 <= j < 3072 ->
  store j v f = (set_buffer (<[Z.to_nat j := v]> (_buffer f)) f, Returned tt).
Proof.
  intros Hl Hj. pose proof (buffer_length _ Hl). unfold store, mbind, comp_bind, gets.
  by rewrite (proj2 (Z.leb_le _ _)), (proj2 (Z.ltb_lt _ _)) by lia.
Qed.

Lemma load_ok f j : is_buffer (_buffer f) -> 0 <= j < 3072 -> load j f = (f, Returned (scanline (_buffer f) j)).
Proof.
  intros Hl Hj. pose proof (buffer_length _ Hl). unfold load, mbind, comp_bind, gets.
  by rewrite (proj2 (Z.leb_le _ _)), (proj2 (Z.ltb_lt _ _)) by lia.
Qed.

Lemma set_buffer_same f : set_buffer (_buffer f) f = f.
Proof. by destruct f. Qed.

(** [touches m f P]: [m] returns, and changes nothing but scanlines, which [P] relates. *)
Definition touches (m : comp t unit) (f : t) (P : list Z -> Prop) : Prop :=
  exists l, m f = (set_buffer l f, Returned tt) /\ is_buffer l /\ P l.

Lemma touches_ret f (P : list Z -> Prop) : is_buffer (_buffer f) -> P (_buffer f) -> touches (mret tt) f P.
Proof. intros Hl HP. exists (_buffer f). by rewrite set_buffer_same. Qed.

Lemma touches_bind m k f (P : list Z -> Prop) :
  touches m f (fun l => touches k (set_buffer l f) P) -> touches (m;; k) f P.
Proof.
  intros (l & E & Hl & l' & E' & Hl' & HP). exists l'. unfold mbind, comp_bind. by rewrite E, E'.
Qed.

Lemma touches_mono m f (P Q : list Z -> Prop) : touches m f P -> (forall l, is_buffer l -> P l -> Q l) -> touches m f Q.
Proof. intros (l & E & Hl & HP) H. exists l. auto. Qed.

Lemma copy_lines_spec lines f offset : is_buffer (_buffer f) -> Forall (fun v => 0 <= v < 2 ^ 16) lines ->
  0 <= offset -> offset + Z.of_nat (length lines) <= 3072 ->
  touches (copy_lines lines offset) f (fun l => forall j, 0 <= j ->
    scanline l j = if (offset <=? j) && (j <? offset + Z.of_nat (length lines)) then scanline lines (j - offset) else scanline (_buffer f) j).
Proof.
  revert f offset. induction lines as [|line lines IH]; intros f offset Hl Hlines H0 H1; simpl in *.
  - apply touches_ret; [done|]. intros j Hj. bounds.
  - inversion Hlines as [|? ? Hv Hvs]; subst. apply touches_bind. eexists. split; [apply store_ok; [done|lia]|].
    assert (Hl' : is_buffer (<[Z.to_nat offset := line]> (_buffer f))) by (by apply is_buffer_insert). split; [done|].
    eapply touches_mono; [apply (IH (set_buffer _ f) (offset + 1)); simpl; [done|done|lia|lia]|].
    intros l _ E j Hj. rewrite E by done. simpl. rewrite scanline_insert by (done || lia).
    bounds.
    + unfold scanline. replace (Z.to_nat (j - offset)) with (S (Z.to_nat (j - (offset + 1)))) by lia. done.
    + replace (j - offset) with 0 by lia. done.
Qed.

(** A line of a band of six: the bit of the column is set where the sixel has a dot. *)
Definition dotted (value columnBit d line : Z) : Z := Z.lor line (if Z.testbit value d then columnBit else 0).

Lemma testbit_land_shift value d : 0 <= d -> negb (Z.land value (Z.shiftl 1 d) =? 0) = Z.testbit value d.
Proof.
  intros Hd. rewrite Z.shiftl_1_l. destruct (Z.testbit value d) eqn:E.
  - apply negb_true_iff, Z.eqb_neq. intros Hz. apply (f_equal (fun z => Z.testbit z d)) in Hz.
    rewrite Z.land_spec, E, Z.pow2_bits_true, Z.bits_0 in Hz by lia. done.
  - apply negb_false_iff, Z.eqb_eq, Z.bits_inj'. intros i Hi. rewrite Z.land_spec, Z.bits_0, Z.pow2_bits_eqb by lia.
    destruct (Z.eqb_spec d i) as [->|]; [by rewrite E|apply andb_false_r].
Qed.

Lemma lor_range a b n : 0 <= n -> 0 <= a < 2 ^ n -> 0 <= b < 2 ^ n -> 0 <= Z.lor a b < 2 ^ n.
Proof.
  intros Hn Ha Hb. split; [apply Z.lor_nonneg; lia|]. destruct (Z.eq_dec (Z.lor a b) 0) as [->|Hne]; [lia|].
  apply Z.log2_lt_pow2; [pose proof (proj2 (Z.lor_nonneg a b)); lia|]. rewrite Z.log2_lor by lia.
  apply Z.max_lub_lt.
  - destruct (Z.eq_dec a 0) as [->|]; [|apply Z.log2_lt_pow2; lia]. change (Z.log2 0) with 0. destruct (Z.eq_dec n 0) as [->|]; [|lia].
    change (2 ^ 0) with 1 in *. replace b with 0 in Hne by lia. done.
  - destruct (Z.eq_dec b 0) as [->|]; [|apply Z.log2_lt_pow2; lia]. change (Z.log2 0) with 0. destruct (Z.eq_dec n 0) as [->|]; [|lia].
    change (2 ^ 0) with 1 in *. replace a with 0 in Hne by lia. done.
Qed.

Lemma dotted_range value columnBit d line : 0 <= columnBit < 2 ^ 16 -> 0 <= line < 2 ^ 16 -> 0 <= dotted value columnBit d line < 2 ^ 16.
Proof. intros. unfold dotted. apply lor_range; [lia|done|]. destruct (Z.testbit value d); lia. Qed.

Lemma sixel_rows_spec rounds i row height value columnBit output f :
  is_buffer (_buffer f) -> 0 <= columnBit < 2 ^ 16 -> 0 <= i -> 0 <= output ->
  (row + i < height -> output + (height - (row + i)) <= 3072) ->
  touches (sixel_rows rounds i row height value columnBit output) f (fun l => forall j, 0 <= j ->
    scanline l j = if (output <=? j) && (j <? output + Z.min (Z.of_nat rounds) (height - row - i))
                   then dotted value columnBit (i + (j - output)) (scanline (_buffer f) j) else scanline (_buffer f) j).
Proof.
  revert i output f. induction rounds as [|rounds IH]; intros i output f Hl Hc Hi Ho Hh; cbn [sixel_rows].
  - apply touches_ret; [done|]. intros j Hj. bounds.
  - destruct (Z.ltb_spec (row + i) height) as [Hlt|Hge].
    + specialize (Hh Hlt). set (line := scanline (_buffer f) output).
      assert (Hline : 0 <= dotted value columnBit i line < 2 ^ 16) by (apply dotted_range; [done|by apply scanline_range]).
      assert (Hl' : is_buffer (<[Z.to_nat output := dotted value columnBit i line]> (_buffer f))) by by apply is_buffer_insert.
      destruct (IH (i + 1) (output + 1) (set_buffer (<[Z.to_nat output := dotted value columnBit i line]> (_buffer f)) f)) as (l & E & Hl1 & HP);
        [done|done|lia|lia|lia|].
      exists l. unfold mbind, comp_bind. rewrite load_ok by (done || lia). rewrite testbit_land_shift by done.
      rewrite u16_small by (fold line; exact Hline). rewrite store_ok by (done || lia). fold line.
      change (Z.lor line (if Z.testbit value i then columnBit else 0)) with (dotted value columnBit i line). rewrite E.
      split; [done|]. split; [done|]. intros j Hj. rewrite HP by done. simpl. rewrite scanline_insert by (done || lia).
      bounds.
      * f_equal; lia.
      * replace j with output by lia. f_equal; lia.
    + apply touches_ret; [done|]. intros j Hj. bounds.
Qed.

(** ** The invariant

    The dimensions of a font are those of a cell, and the text lies inside of it. *)
Definition dims (f : t) : Prop :=
  1 <= _fullWidth f <= MAX_WIDTH /\ 1 <= _fullHeight f <= MAX_HEIGHT /\
  0 <= _textWidth f /\ 0 <= _textOffset f /\ _textOffset f + _textWidth f <= _fullWidth f.

(** Between downloads: there are dimensions, unless the font is to be replaced. *)
Definition idle (f : t) : Prop := is_buffer (_buffer f) /\ (_cellMatrix f = DrcsCellMatrix.Invalid \/ dims f).

(** The iterator is at the row of the sixel position, or at the end of the glyph. *)
Record at_sixel (f : t) : Prop := mk_at_sixel {
  sixel_dims : dims f;
  sixel_last : _lastChar f = _currentChar f;
  sixel_position : 0 <= _sixelColumn f /\ 0 <= _sixelRow f <= maxSixelRow;
  sixel_iterator : _currentCharBuffer f = _currentChar f * _fullHeight f + Z.min (_sixelRow f) (_fullHeight f)
}.

(** During a download. *)
Record receiving (f : t) : Prop := mk_receiving {
  receiving_idle : idle f;
  receiving_matrix : _pendingCellMatrix f <> DrcsCellMatrix.Invalid;
  receiving_width : 0 <= _declaredWidth f <= MAX_WIDTH;
  receiving_height : 0 <= _declaredHeight f <= MAX_HEIGHT;
  receiving_chars : 0 <= _startChar f <= _currentChar f;
  receiving_sixel : _charsetIdInitialized f = true -> at_sixel f
}.

Definition keeps (m : comp t unit) : Prop := forall f, receiving f -> wp m (fun _ => receiving) receiving False f.

Lemma idle_erase control f : idle f -> idle (SetEraseControl control f).1.
Proof.
  intros Hf. unfold SetEraseControl. apply (Forall_switch (fun r : t * bool => idle r.1)); [|done].
  repeat apply Forall_cons_2; [..|apply Forall_nil_2]; simpl; first [exact Hf|split; [apply Hf|by left]].
Qed.

Lemma matrix_unchanged_page fontSet f : _cellMatrix (attribute_page fontSet f).1 = _cellMatrix f.
Proof. apply (Forall_switch (fun r : t * bool => _cellMatrix r.1 = _cellMatrix f)); [|done]. repeat apply Forall_cons_2; by try apply Forall_nil_2. Qed.

Lemma matrix_unchanged_usage fontUsage f : _cellMatrix (attribute_usage fontUsage f).1 = _cellMatrix f.
Proof. apply (Forall_switch (fun r : t * bool => _cellMatrix r.1 = _cellMatrix f)); [|done]. repeat apply Forall_cons_2; by try apply Forall_nil_2. Qed.

Lemma matrix_unchanged_matrix cellMatrix cellHeight f : _cellMatrix (attribute_matrix cellMatrix cellHeight f).1 = _cellMatrix f.
Proof. apply (Forall_switch (fun r : t * bool => _cellMatrix r.1 = _cellMatrix f)); [|done]. repeat apply Forall_cons_2; by try apply Forall_nil_2. Qed.

Lemma idle_page fontSet f : idle f -> idle (attribute_page fontSet f).1.
Proof. intros Hf. apply (Forall_switch (fun r : t * bool => idle r.1)); [|done]. repeat apply Forall_cons_2; [..|apply Forall_nil_2]; apply Hf. Qed.

Lemma idle_usage fontUsage f : idle f -> idle (attribute_usage fontUsage f).1.
Proof. intros Hf. apply (Forall_switch (fun r : t * bool => idle r.1)); [|done]. repeat apply Forall_cons_2; [..|apply Forall_nil_2]; apply Hf. Qed.

Lemma idle_matrix cellMatrix cellHeight f : idle f -> idle (attribute_matrix cellMatrix cellHeight f).1.
Proof. intros Hf. apply (Forall_switch (fun r : t * bool => idle r.1)); [|done]. repeat apply Forall_cons_2; [..|apply Forall_nil_2]; apply Hf. Qed.

(** A matrix that is valid declares dimensions a cell can have. *)
Lemma matrix_declares cellMatrix cellHeight f : 0 <= cellMatrix -> (attribute_matrix cellMatrix cellHeight f).2 = true ->
  let f' := (attribute_matrix cellMatrix cellHeight f).1 in
  cellMatrix <> DrcsCellMatrix.Invalid /\ 0 <= _declaredWidth f' <= MAX_WIDTH /\ 0 <= _declaredHeight f' <= MAX_HEIGHT.
Proof.
  intros Hm. unfold attribute_matrix, DrcsCellMatrix.Invalid, DrcsCellMatrix.Size5x10, DrcsCellMatrix.Size6x10, DrcsCellMatrix.Size7x10, MAX_WIDTH, MAX_HEIGHT.
  cbn [switch]. unfold VTParameter.value_or. repeat case_match; cbn; intros; try done; lia.
Qed.

Lemma SetAttributes_spec cellMatrix cellHeight fontSet fontUsage f : idle f -> 0 <= cellMatrix ->
  let '(f', valid) := SetAttributes cellMatrix cellHeight fontSet fontUsage f in
  idle f' /\ _cellMatrix f' = _cellMatrix f /\ (valid = true ->
    cellMatrix <> DrcsCellMatrix.Invalid /\ _pendingCellMatrix f' = cellMatrix /\ 0 <= _declaredWidth f' <= MAX_WIDTH /\ 0 <= _declaredHeight f' <= MAX_HEIGHT).
Proof.
  intros Hf Hm. unfold SetAttributes.
  pose proof (idle_page fontSet f Hf) as H1. pose proof (matrix_unchanged_page fontSet f) as E1.
  destruct (attribute_page fontSet f) as [f1 []]; simpl in H1, E1; [|by repeat split; try apply H1].
  pose proof (idle_usage fontUsage f1 H1) as H2. pose proof (matrix_unchanged_usage fontUsage f1) as E2.
  destruct (attribute_usage fontUsage f1) as [f2 []]; simpl in H2, E2; [|split; [exact H2|split; [cbn; congruence|done]]].
  pose proof (idle_matrix cellMatrix cellHeight f2 H2) as H3. pose proof (matrix_declares cellMatrix cellHeight f2 Hm) as H4.
  pose proof (matrix_unchanged_matrix cellMatrix cellHeight f2) as E3.
  destruct (attribute_matrix cellMatrix cellHeight f2) as [f3 valid]; simpl in *. split; [exact H3|]. split; [congruence|].
  intros Hv. by destruct (H4 Hv) as (? & ? & ?).
Qed.

(** The first character of a download. *)
Definition first_char (startChar charsetSize : Z) : Z := VTParameter.value_or startChar (if charsetSize =? CharsetSize.Size94 then 1 else 0).

Lemma SetStartChar_spec startChar charsetSize f : idle f ->
  let '(f', valid) := SetStartChar startChar charsetSize f in
  idle f' /\ (valid = true ->
    0 <= _startChar f' /\ _startChar f' = first_char startChar charsetSize /\ _cellMatrix f' = _cellMatrix f /\
    _currentChar f' = _startChar f' /\ _charsetIdInitialized f' = false /\ _charsetIdBuilder f' = VTIDBuilder.Clear /\ _pendingCellMatrix f' = _pendingCellMatrix f /\
    _declaredWidth f' = _declaredWidth f /\ _declaredHeight f' = _declaredHeight f).
Proof.
  intros Hf. unfold SetStartChar, first_char, CharsetSize.Size94, CharsetSize.Size96. cbn [switch]. unfold VTParameter.value_or.
  repeat case_match; simplify_eq; (split; [apply Hf|]); intros; try done; cbn; repeat split; try lia.
Qed.

Lemma erase_invalidates control f : (SetEraseControl control f).2 = true -> control <> DrcsEraseControl.ReloadedChars ->
  _cellMatrix (SetEraseControl control f).1 = DrcsCellMatrix.Invalid.
Proof. unfold SetEraseControl. cbn [switch]. repeat case_match; try done. rewrite Z.eqb_eq in *. done. Qed.

(** The parameters of a sequence: those the parser passes are not negative. *)
Lemma parameters_accepted p f : idle f -> 0 <= cellMatrix p ->
  exists f' accepted, drcs_parameters p f = (f', Returned accepted) /\ idle f' /\
    (accepted = true -> receiving f' /\ _charsetIdInitialized f' = false /\ _charsetIdBuilder f' = VTIDBuilder.Clear /\ _startChar f' = first_char (startChar p) (charsetSize p) /\
      _currentChar f' = _startChar f' /\ (eraseControl p <> DrcsEraseControl.ReloadedChars -> _cellMatrix f' = DrcsCellMatrix.Invalid)).
Proof.
  intros Hf Hm. unfold drcs_parameters, lift, mbind, comp_bind, mret, comp_ret. destruct (fontNumber p <=? 1); simpl; [|by eexists _, _].
  pose proof (idle_erase (eraseControl p) f Hf) as H1. pose proof (erase_invalidates (eraseControl p) f) as He.
  destruct (SetEraseControl (eraseControl p) f) as [f1 []]; simpl in *; [|by eexists _, _].
  pose proof (SetAttributes_spec (cellMatrix p) (cellHeight p) (fontSet p) (fontUsage p) f1 H1 Hm) as H2.
  destruct (SetAttributes _ _ _ _ f1) as [f2 []]; simpl in *; destruct H2 as (H2 & Emat & Hd); [|by eexists _, _].
  pose proof (SetStartChar_spec (startChar p) (charsetSize p) f2 H2) as H3.
  destruct (SetStartChar _ _ f2) as [f3 valid]; destruct H3 as [H3 Hs]. eexists _, _. split; [done|]. split; [done|]. intros ->.
  destruct (Hd eq_refl) as (? & Em & ? & ?), (Hs eq_refl) as (? & Ef & Emat' & Ec & Ei & Eb & Ep & Ew & Eh).
  split; [constructor; [done|by rewrite Ep, Em|by rewrite Ew|by rewrite Eh|lia|by rewrite Ei]|].
  repeat split; [done|done|done|done|]. intros Hr. rewrite Emat', Emat. auto.
Qed.

(** ** Every operation on every state of a download *)

Lemma prepare_next f : is_buffer (_buffer f) -> dims f -> 0 <= _currentChar f ->
  exists l, _prepareNextCharacter f =
      (set_buffer l (set_sixelRow 0 (set_sixelColumn 0 (set_currentCharBuffer (_currentChar f * _fullHeight f) (set_lastChar (_currentChar f) f)))), Returned tt) /\
    is_buffer l /\ forall j, 0 <= j ->
      scanline l j = if negb (_bufferCleared f) && (_currentChar f <? MAX_CHARS) && (_currentChar f * _fullHeight f <=? j) && (j <? (_currentChar f + 1) * _fullHeight f)
                     then 0 else scanline (_buffer f) j.
Proof.
  intros Hl (Hw & Hh & _) Hc. unfold _prepareNextCharacter, mbind, comp_bind, gets, modify, id. unfold MAX_CHARS, MAX_HEIGHT in *.
  set (f' := set_sixelRow 0 _).
  destruct (negb (_bufferCleared f) && (_currentChar f <? 96)) eqn:E; simpl.
  - apply andb_true_iff in E as [_ E]. apply Z.ltb_lt in E.
    destruct (copy_lines_spec (repeat 0 (Z.to_nat (_fullHeight f))) f' (_currentChar f * _fullHeight f)) as (l & -> & Hl' & HP).
    + exact Hl.
    + apply repeat_zero.
    + nia.
    + rewrite repeat_length. nia.
    + exists l. split; [done|]. split; [done|]. intros j Hj. rewrite HP by done. rewrite repeat_length, Z2Nat.id by lia.
      replace ((_currentChar f + 1) * _fullHeight f) with (_currentChar f * _fullHeight f + _fullHeight f) by lia. change (_buffer f') with (_buffer f).
      bounds. apply scanline_blank.
  - exists (_buffer f). split; [done|]. split; [done|]. intros. done.
Qed.

Lemma column_bit n : 0 <= n -> 0 <= Z.shiftr 0x8000 n < 2 ^ 16.
Proof.
  intros Hn. rewrite Z.shiftr_div_pow2 by done. assert (0 < 2 ^ n) by lia. split; [apply Z.div_pos; lia|].
  apply Z.div_lt_upper_bound; nia.
Qed.

Lemma add_value value f : is_buffer (_buffer f) -> at_sixel f -> 0 <= _currentChar f -> _sixelColumn f < VTInt_max ->
  exists l, _addSixelValue value f = (set_sixelColumn (_sixelColumn f + 1) (set_buffer l f), Returned tt) /\
    is_buffer l /\ forall j, 0 <= j ->
      scanline l j = if (_currentChar f <? MAX_CHARS) && (_sixelColumn f <? _textWidth f) && (_currentChar f * _fullHeight f + _sixelRow f <=? j) &&
                        (j <? _currentChar f * _fullHeight f + Z.min (_sixelRow f + 6) (_fullHeight f))
                     then dotted value (Z.shiftr 0x8000 (_sixelColumn f + _textOffset f)) (j - (_currentChar f * _fullHeight f + _sixelRow f)) (scanline (_buffer f) j)
                     else scanline (_buffer f) j.
Proof.
  intros Hl [(Hw & Hh & Ht) _ Hp Hi] Hc Hmax. apply Z.ltb_lt in Hmax. unfold _addSixelValue, mbind, comp_bind, gets, modify, id. unfold MAX_CHARS, MAX_HEIGHT in *.
  destruct ((_currentChar f <? 96) && (_sixelColumn f <? _textWidth f)) eqn:E.
  - apply andb_true_iff in E as [Ec _]. apply Z.ltb_lt in Ec.
    destruct (sixel_rows_spec 6 0 (_sixelRow f) (_fullHeight f) value (Z.shiftr 0x8000 (_sixelColumn f + _textOffset f)) (_currentCharBuffer f) f)
      as (l & -> & Hl' & HP); [done|apply column_bit; lia|lia|rewrite Hi; nia|rewrite Hi; nia|].
    exists l. change (_sixelColumn (set_buffer l f)) with (_sixelColumn f). rewrite Hmax. split; [done|]. split; [done|]. intros j Hj. rewrite HP by done. rewrite Hi. clear HP Hi. change (Z.of_nat 6) with 6.
    set (b := _currentChar f * _fullHeight f). bounds. f_equal; lia.
  - exists (_buffer f). rewrite set_buffer_same. unfold mret, comp_ret. rewrite Hmax. split; [done|]. split; [done|]. done.
Qed.

Lemma end_line f : _currentChar f < MAX_CHARS -> _endOfSixelLine f =
  (set_sixelColumn 0 (set_used (Z.max (_usedWidth f) (_sixelColumn f)) (Z.max (_usedHeight f) (Z.min (_sixelRow f + 6) maxSixelRow))
    (set_sixelRow (Z.min (_sixelRow f + 6) maxSixelRow)
      (set_currentCharBuffer (_currentCharBuffer f + clamp ((_currentChar f + 1) * _fullHeight f - _currentCharBuffer f) 0 6) f))), Returned tt).
Proof. intros Hc. unfold _endOfSixelLine, mbind, comp_bind, gets, modify, id. by destruct (Z.leb_spec MAX_CHARS (_currentChar f)); [lia|]. Qed.

Lemma end_line_full f : MAX_CHARS <= _currentChar f -> _endOfSixelLine f = (f, Threw).
Proof. intros Hc. unfold _endOfSixelLine, mbind, comp_bind, gets, id. by destruct (Z.leb_spec MAX_CHARS (_currentChar f)); [|lia]. Qed.

Lemma end_line_iterator f : at_sixel f ->
  _currentCharBuffer f + clamp ((_currentChar f + 1) * _fullHeight f - _currentCharBuffer f) 0 6 =
  _currentChar f * _fullHeight f + Z.min (Z.min (_sixelRow f + 6) maxSixelRow) (_fullHeight f).
Proof.
  intros [(_ & Hh & _) _ Hp ->]. unfold MAX_HEIGHT in Hh. assert (maxSixelRow = 36) as E by done. rewrite E in *.
  rewrite clamp_spec by lia. lia.
Qed.

Lemma keeps_end_line f : receiving f -> _charsetIdInitialized f = true ->
  wp _endOfSixelLine (fun _ f' => receiving f' /\ _charsetIdInitialized f' = true /\ _currentChar f' = _currentChar f /\ _currentChar f < MAX_CHARS /\ _sixelColumn f' = 0) receiving False f.
Proof.
  intros Hf Hi. destruct (Z.lt_ge_cases (_currentChar f) MAX_CHARS) as [Hc|Hc]; unfold wp; [rewrite end_line by done|by rewrite end_line_full].
  split; [|done]. pose proof (receiving_sixel f Hf Hi) as Hs. pose proof (end_line_iterator f Hs) as Hit. destruct Hf as [Hid ? ? ? ? _], Hs as [Hd Hl [Hcol Hrow] _].
  constructor; [exact Hid|done|done|done|done|]. intros _. constructor; [exact Hd|exact Hl| |exact Hit].
  cbn. assert (maxSixelRow = 36) as E by done. rewrite E in *. lia.
Qed.

Lemma keeps_prepare_next f : is_buffer (_buffer f) -> dims f -> _pendingCellMatrix f <> DrcsCellMatrix.Invalid ->
  0 <= _declaredWidth f <= MAX_WIDTH -> 0 <= _declaredHeight f <= MAX_HEIGHT -> 0 <= _startChar f <= _currentChar f ->
  wp _prepareNextCharacter (fun _ f' => receiving f' /\ _sixelColumn f' = 0) receiving False f.
Proof.
  intros Hl Hd Hm Hw Hh Hc. unfold wp. destruct (prepare_next f Hl Hd) as (l & -> & Hl' & _); [lia|]. split; [|done].
  constructor; [split; [done|by right]|done..|]. intros _. constructor; [exact Hd|done|cbn; split; [lia|by vm_compute]|].
  cbn. destruct Hd as (_ & ? & _). lia.
Qed.

(** There is room for the columns of [n] more characters. *)
Definition room (n : Z) (f : t) : Prop := 0 <= n <= VTInt_max /\ (_charsetIdInitialized f = true -> _sixelColumn f + n <= VTInt_max).
Lemma room_start n f : 0 <= n <= VTInt_max -> _sixelColumn f = 0 -> room n f.
Proof. intros Hn E. split; [done|]. intros _. lia. Qed.

Lemma keeps_AddSixelData ch n f : receiving f -> room (n + 1) f -> 0 <= n -> wp (AddSixelData ch) (fun _ f' => receiving f' /\ room n f') receiving False f.
Proof.
  intros Hf [Hn Hroom] Hn0. unfold AddSixelData. apply wp_bind, wp_gets. unfold id. destruct (_charsetIdInitialized f) eqn:Hi; simpl.
  - specialize (Hroom eq_refl). destruct (_ && _).
    + pose proof (receiving_sixel f Hf Hi) as Hs. unfold wp.
      destruct (add_value (ch - 0x3F) f) as (l & -> & Hl & _); [apply Hf|done|pose proof (receiving_chars f Hf); lia|lia|].
      destruct Hf as [[_ Hd] ? ? ? ? _], Hs as [? ? [? ?] ?]. split; [|split; [lia|cbn; lia]]. constructor; [by split|done..|]. intros _. constructor; [done..| |done]. cbn. lia.
    + destruct (ch =? 0x2F); [|destruct (ch =? 0x3B); [|apply wp_ret; split; [done|split; lia]]].
      * eapply wp_mono; [by apply keeps_end_line| |done|done]. intros _ f1 (? & _ & _ & _ & ?). split; [done|apply room_start; [lia|done]].
      * apply wp_bind. eapply wp_mono; [by apply keeps_end_line| |done|done]. intros _ f1 (H1 & Hi1 & Hc & _). apply wp_bind, wp_modify.
        destruct (receiving_sixel f1 H1 Hi1) as [Hd _ _ _]. destruct H1 as [[Hl _] ? ? ? ? _].
        eapply wp_mono; [apply keeps_prepare_next; cbn; [done|done|done|done|done|lia]| |done|done]. intros _ f2 [? ?]. split; [done|apply room_start; [lia|done]].
  - assert (forall f', receiving f' /\ _sixelColumn f' = 0 -> receiving f' /\ room n f') as Hstart by (intros f' [? ?]; split; [done|apply room_start; [lia|done]]).
    unfold _buildCharsetId. destruct (_ && _); [apply wp_modify; split; [destruct Hf; constructor; auto; cbn; congruence|split; [lia|cbn; congruence]]|].
    destruct (_ && _); [|apply wp_ret; split; [done|split; [lia|congruence]]]. apply wp_bind, wp_modify, wp_bind, wp_modify.
    set (f1 := set_charsetIdInitialized true _). apply wp_bind, wp_gets, wp_bind. destruct Hf as [[Hl Hd] Hm Hw Hh Hc _].
    destruct (attributes_changed (id f1)) eqn:Ha.
    + do 4 (apply wp_bind, wp_modify). apply wp_modify. eapply wp_mono; [apply keeps_prepare_next; [apply is_buffer_blank|by vm_compute|done..]|intros ? ?; apply Hstart|done|done].
    + apply wp_modify. eapply wp_mono; [apply keeps_prepare_next; cbn; [done| |done..]|intros ? ?; apply Hstart|done|done]. destruct Hd as [Hd|Hd]; [|done]. exfalso.
      unfold attributes_changed in Ha. cbn in Ha. rewrite !orb_false_iff, !negb_false_iff, !Z.eqb_eq in Ha. intuition congruence.
Qed.

(** ** Packing

    Scanline [r] of glyph [c] moves from row [32 c + r] to row [H c + r]. *)

Lemma testbit_high a i : 0 <= a < 2 ^ 16 -> 16 <= i -> Z.testbit a i = false.
Proof. intros Ha Hi. rewrite <- (Z.mod_small a (2 ^ 16)) by done. by apply Z.mod_pow2_bits_high. Qed.

Lemma testbit_center tw off line b : 0 <= tw <= 16 -> 0 <= off -> 0 <= line < 2 ^ 16 -> 0 <= b ->
  Z.testbit (center_line tw off line) b = Z.testbit line (b + off) && (16 - tw <=? b + off).
Proof.
  intros Htw Hoff Hl Hb. unfold center_line. rewrite Z.shiftr_spec, Z.land_spec, Z.lnot_spec, Z.shiftr_spec by lia.
  destruct (Z.le_gt_cases 16 (b + off)); [by rewrite (testbit_high line) by lia|].
  f_equal. change 0xFFFF with (Z.ones 16). rewrite Z.testbit_ones_nonneg by lia. bounds.
Qed.

Lemma center_range tw off line : 0 <= tw <= 16 -> 0 <= off -> 0 <= line < 2 ^ 16 -> 0 <= center_line tw off line < 2 ^ 16.
Proof.
  intros Htw Hoff Hl. assert (center_line tw off line = center_line tw off line mod 2 ^ 16) as ->.
  - apply Z.bits_inj'. intros b Hb. destruct (Z.le_gt_cases 16 b).
    + rewrite Z.mod_pow2_bits_high by lia. rewrite testbit_center, testbit_high by lia. done.
    + by rewrite Z.mod_pow2_bits_low by lia.
  - apply Z.mod_pos_bound. lia.
Qed.

Section Packing.
Variable H : Z.
Hypothesis Hheight : 1 <= H <= MAX_HEIGHT.

(** Where the scanlines before row [src] end, and where row [dst] comes from. *)
Definition packed_end (src : Z) : Z := H * (src / 32) + Z.min (src mod 32) H.
Definition unpacked (dst : Z) : Z := 32 * (dst / H) + dst mod H.

Lemma packed_end_next src : 0 <= src -> packed_end (src + 1) = if src mod 32 <? H then packed_end src + 1 else packed_end src.
Proof.
  intros Hs. unfold packed_end. unfold MAX_HEIGHT in Hheight.
  pose proof (Z.div_mod src 32). pose proof (Z.mod_pos_bound src 32).
  destruct (Z.eq_dec (src mod 32) 31) as [E|E].
  - assert ((src + 1) / 32 = src / 32 + 1) as -> by (symmetry; apply (Z.div_unique _ _ _ 0); lia).
    assert ((src + 1) mod 32 = 0) as -> by (symmetry; apply (Z.mod_unique _ _ (src / 32 + 1)); lia).
    destruct (Z.ltb_spec (src mod 32) H); lia.
  - assert ((src + 1) / 32 = src / 32) as -> by (symmetry; apply (Z.div_unique _ _ _ (src mod 32 + 1)); lia).
    assert ((src + 1) mod 32 = src mod 32 + 1) as -> by (symmetry; apply (Z.mod_unique _ _ (src / 32)); lia).
    destruct (Z.ltb_spec (src mod 32) H); lia.
Qed.

Lemma packed_end_le src : 0 <= src -> 0 <= packed_end src <= src.
Proof.
  intros Hs. unfold packed_end. unfold MAX_HEIGHT in Hheight.
  pose proof (Z.div_mod src 32). pose proof (Z.mod_pos_bound src 32). pose proof (Z.div_pos src 32). nia.
Qed.

Lemma unpacked_end src : 0 <= src -> src mod 32 < H -> unpacked (packed_end src) = src.
Proof.
  intros Hs Hr. unfold unpacked, packed_end. pose proof (Z.div_mod src 32). pose proof (Z.mod_pos_bound src 32).
  rewrite Z.min_l by lia.
  assert ((H * (src / 32) + src mod 32) / H = src / 32) as -> by (symmetry; apply (Z.div_unique _ _ _ (src mod 32)); lia).
  assert ((H * (src / 32) + src mod 32) mod H = src mod 32) as -> by (symmetry; apply (Z.mod_unique _ _ (src / 32)); lia).
  lia.
Qed.

Lemma pack_lines_spec tw off rounds src f l0 :
  is_buffer (_buffer f) -> 0 <= src -> src + Z.of_nat rounds = 3072 -> 0 <= tw <= 16 -> 0 <= off ->
  (forall j, packed_end src <= j -> src <= j -> scanline (_buffer f) j = scanline l0 j) ->
  (forall j, 0 <= j < packed_end src -> scanline (_buffer f) j = center_line tw off (scanline l0 (unpacked j))) ->
  touches (pack_lines rounds src (packed_end src) H tw off) f (fun l =>
    forall j, 0 <= j < packed_end 3072 -> scanline l j = center_line tw off (scanline l0 (unpacked j))).
Proof.
  revert src f. induction rounds as [|rounds IH]; intros src f Hl Hs Hr Htw Hoff Hkeep Hdone; cbn [pack_lines].
  - apply touches_ret; [done|]. by replace 3072 with src by lia.
  - pose proof (packed_end_le src Hs). pose proof (packed_end_next src Hs) as Hn. unfold MAX_HEIGHT. destruct (Z.ltb_spec (src mod 32) H) as [Hlt|Hge].
    + set (v := center_line tw off (scanline (_buffer f) src)).
      assert (Hv : 0 <= v < 2 ^ 16) by (apply center_range; [done..|by apply scanline_range]).
      assert (Hb : is_buffer (<[Z.to_nat (packed_end src) := v]> (_buffer f))) by by apply is_buffer_insert.
      destruct (IH (src + 1) (set_buffer (<[Z.to_nat (packed_end src) := v]> (_buffer f)) f)) as (l & E & Hl' & HP); [done|lia|lia|done|done|..].
      * intros j H1 H2. cbn. rewrite scanline_insert by (done || lia). bounds. apply Hkeep; lia.
      * intros j Hj. cbn. rewrite scanline_insert by (done || lia). rewrite Hn in Hj. destruct (Z.eqb_spec j (packed_end src)) as [->|].
        -- unfold v. rewrite unpacked_end by done. rewrite Hkeep by lia. done.
        -- apply Hdone; lia.
      * exists l. unfold mbind, comp_bind. rewrite load_ok by (done || lia). rewrite store_ok by (done || lia). fold v.
        rewrite <- Hn, E. done.
    + rewrite <- Hn. apply IH; [done|lia|lia|done|done|..]; rewrite Hn.
      * intros j ? ?. apply Hkeep; lia.
      * exact Hdone.
Qed.
End Packing.

(** ** Filling the rest *)

(** The error glyph of a cell size, where the tables have one. *)
Definition error_pattern (width height : Z) : list Z :=
  match array_at widthMasks width, array_at heightMasks height with
  | Some widthMask, Some heightMask => error_glyph widthMask heightMask width
  | _, _ => []
  end.

Definition error_pattern_check (width height : Z) : bool :=
  bool_decide (is_Some (array_at widthMasks width)) && bool_decide (is_Some (array_at heightMasks height)) &&
  (length (error_pattern width height) =? 32)%nat && forallb (fun v => (0 <=? v) && (v <? 2 ^ 16)) (error_pattern width height).

Lemma error_patterns_checked :
  forallb (fun width => forallb (fun height => error_pattern_check (Z.of_nat width) (Z.of_nat height)) (seq 1 32)) (seq 1 16) = true.
Proof. by vm_compute. Qed.

Lemma error_pattern_ok width height : 1 <= width <= MAX_WIDTH -> 1 <= height <= MAX_HEIGHT ->
  is_Some (array_at widthMasks width) /\ is_Some (array_at heightMasks height) /\
  length (error_pattern width height) = 32%nat /\ Forall (fun v => 0 <= v < 2 ^ 16) (error_pattern width height).
Proof.
  intros Hw Hh. unfold MAX_WIDTH, MAX_HEIGHT in *. pose proof error_patterns_checked as E. rewrite forallb_forall in E.
  specialize (E (Z.to_nat width)). rewrite in_seq, forallb_forall in E. specialize (E ltac:(lia) (Z.to_nat height)). rewrite in_seq in E.
  specialize (E ltac:(lia)). rewrite !Z2Nat.id in E by lia. unfold error_pattern_check in E.
  rewrite !andb_true_iff, !bool_decide_eq_true, Nat.eqb_eq, forallb_forall in E. destruct E as [[[? ?] ?] E]. repeat split; auto.
  apply Forall_forall. intros v Hv. apply list_elem_of_In in Hv. specialize (E v Hv). lia.
Qed.

Lemma fill_unused_spec rounds ch first last H pattern f :
  is_buffer (_buffer f) -> 1 <= H <= MAX_HEIGHT -> 0 <= ch -> ch + Z.of_nat rounds = MAX_CHARS ->
  length pattern = 32%nat -> Forall (fun v => 0 <= v < 2 ^ 16) pattern ->
  touches (fill_unused rounds ch first last H pattern) f (fun l => forall c r, 0 <= c < MAX_CHARS -> 0 <= r < H ->
    scanline l (c * H + r) = if (ch <=? c) && ((c <? first) || (last <? c)) then scanline pattern r else scanline (_buffer f) (c * H + r)).
Proof.
  intros Hl HH Hch Hr Hp Hv. unfold MAX_CHARS, MAX_HEIGHT in *. revert ch f Hl Hch Hr. induction rounds as [|rounds IH]; intros ch f Hl Hch Hr; cbn [fill_unused].
  - apply touches_ret; [done|]. intros c r Hc Hr'. bounds.
  - apply touches_bind. destruct ((ch <? first) || (last <? ch)) eqn:Eu.
    + assert (Hlen : Z.of_nat (length (take (Z.to_nat H) pattern)) = H) by (rewrite length_take; lia).
      eapply touches_mono; [apply copy_lines_spec; [done|by apply Forall_take|nia|rewrite Hlen; nia]|].
      intros l Hl' E. eapply touches_mono; [apply (IH (ch + 1)); [done|lia|lia]|]. intros l' _ E' c r Hc Hr'. rewrite E' by done. cbn.
      rewrite E by nia. rewrite Hlen. destruct (Z.eq_dec c ch) as [->|Hne].
      * rewrite Eu. bounds. replace (ch * H + r - ch * H) with r by lia. unfold scanline. rewrite lookup_take_lt by lia. done.
      * destruct (Z.leb_spec (ch * H) (c * H + r)), (Z.ltb_spec (c * H + r) (ch * H + H)); simpl; try (exfalso; nia); bounds.
    + apply touches_ret; [done|]. rewrite set_buffer_same. eapply touches_mono; [apply (IH (ch + 1)); [done|lia|lia]|].
      intros l' _ E' c r Hc Hr'. rewrite E' by done. destruct (Z.eq_dec c ch) as [->|Hne]; [rewrite Eu; bounds|].
      bounds.
Qed.

(** ** Finishing *)

Lemma calculated f w h tw : 0 <= _declaredWidth f <= MAX_WIDTH -> 0 <= _declaredHeight f <= MAX_HEIGHT -> _calculateDimensions f = (w, h, tw) ->
  1 <= w <= MAX_WIDTH /\ 1 <= h <= MAX_HEIGHT /\ 0 <= tw <= MAX_WIDTH.
Proof.
  unfold MAX_WIDTH, MAX_HEIGHT. intros Hw Hh. unfold _calculateDimensions, MAX_WIDTH, MAX_HEIGHT.
  repeat case_match; intros [= <- <- <-]; try lia.
Qed.

(** The font that [FinalizeSixelData] makes of the lines [l0] of a new font. *)
Record finished (f0 f : t) : Prop := mk_finished {
  finished_size : (_fullWidth f, _fullHeight f) = (_calculateDimensions f0).1;
  finished_text : _textWidth f = Z.min (if negb ((_calculateDimensions f0).2 =? 0) then (_calculateDimensions f0).2 else _fullWidth f) (_fullWidth f) /\
                  _textOffset f = (_fullWidth f - _textWidth f) / 2;
  finished_lines : forall c r, 0 <= c < MAX_CHARS -> 0 <= r < _fullHeight f ->
    scanline (_buffer f) (c * _fullHeight f + r) =
      if (c <? _startChar f0) || (_lastChar f0 <? c) then scanline (error_pattern (_fullWidth f) (_fullHeight f)) r
      else center_line (_textWidth f) (_textOffset f) (scanline (_buffer f0) (c * MAX_HEIGHT + r));
  finished_id : _charsetId f = _charsetId f0
}.

Section Finishing.
Variable size_bits : Z.

Lemma pack_and_fill f : is_buffer (_buffer f) -> 0 <= _declaredWidth f <= MAX_WIDTH -> 0 <= _declaredHeight f <= MAX_HEIGHT ->
  exists f', (let '(fullWidth, fullHeight, textWidth) := _calculateDimensions f in
              modify (set_dimensions fullWidth fullHeight textWidth);; _packAndCenterBitPatterns size_bits;; _fillUnusedCharacters) f = (f', Returned tt) /\
    is_buffer (_buffer f') /\ dims f' /\ finished f f'.
Proof.
  intros Hl Hdw Hdh. destruct (_calculateDimensions f) as [[w h] tw0] eqn:Ed.
  destruct (calculated f w h tw0 Hdw Hdh Ed) as (Hw & Hh & Ht). destruct (error_pattern_ok w h Hw Hh) as ([wm Ewm] & [hm Ehm] & Hlen & Hbits).
  set (tw := Z.min (if negb (tw0 =? 0) then tw0 else w) w). assert (Htw : 1 <= tw <= w) by (unfold tw; destruct (Z.eqb_spec tw0 0); simpl; lia).
  set (off := (w - tw) / 2). assert (Hoff : 0 <= off /\ off + tw <= w) by (unfold off; Z.to_euclidean_division_equations; lia).
  assert (Hq : (w - tw) ÷ 2 = off) by (unfold off; apply Z.quot_div_nonneg; lia). unfold MAX_WIDTH, MAX_HEIGHT, MAX_CHARS in *.
  set (hint := (if negb (_declaredWidth f =? 0) then w - (_declaredWidth f + off * 2) else 0) mod 2 ^ size_bits).
  set (f1 := set_textCenteringHint hint (set_text tw off (set_dimensions w h tw0 f))).
  destruct (pack_lines_spec h Hh tw off buffer_size 0 f1 (_buffer f)) as (l & Ep & Hl1 & HP); [exact Hl|done|by vm_compute|lia|lia|done| |].
  { intros j Hj. unfold packed_end in Hj. rewrite Z.div_0_l, Z.mod_0_l in Hj by lia. lia. }
  replace (packed_end h 0) with 0 in Ep by (unfold packed_end; rewrite Z.div_0_l, Z.mod_0_l by lia; lia).
  replace (packed_end h 3072) with (96 * h) in HP
    by (unfold packed_end; change (3072 / 32) with 96; change (3072 mod 32) with 0; lia).
  destruct (fill_unused_spec 96 0 (_startChar f) (_lastChar f) h (error_pattern w h) (set_buffer l f1)) as (l' & Ef & Hl2 & HF); [done..|].
  exists (set_buffer l' f1). split.
  - unfold _packAndCenterBitPatterns, _fillUnusedCharacters, _generateErrorGlyph, mbind, comp_bind, gets, modify, id. cbn -[pack_lines fill_unused error_glyph buffer_size Z.quot Z.modulo Z.pow].
    fold tw. rewrite Hq. fold hint. change (set_textCenteringHint hint _) with f1. rewrite Ep. cbn -[fill_unused error_glyph]. rewrite Ewm, Ehm.
    unfold error_pattern in Ef. rewrite Ewm, Ehm in Ef. cbn -[fill_unused error_glyph]. change (_fullHeight _) with h. rewrite Ef. done.
  - split; [done|]. split; [cbn; unfold dims; cbn; unfold MAX_WIDTH, MAX_HEIGHT; lia|]. constructor; cbn; rewrite ?Ed; cbn; [done|by split| |done].
    unfold MAX_CHARS, MAX_HEIGHT. intros c r Hc Hr. rewrite HF by done. cbn. destruct (Z.leb_spec 0 c); [|lia]. cbn.
    destruct ((c <? _startChar f) || (_lastChar f <? c)); [done|]. rewrite HP by nia. f_equal. f_equal. unfold unpacked.
    rewrite Z.div_add_l, Z.div_small, (Z.add_comm (c * h)), Z.mod_add, Z.mod_small by lia. lia.
Qed.

(** The state in which the last line of the string is complete. *)
Definition ended (f : t) : t := (_endOfSixelLine f).1.

Lemma finish f : receiving f -> _charsetIdInitialized f = true -> _currentChar f < MAX_CHARS ->
  exists f', FinalizeSixelData size_bits f = (f', Returned true) /\ idle f' /\
    if _bufferCleared f then dims f' /\ finished (ended f) f' else f' = ended f.
Proof.
  intros Hf Hi Hc. unfold ended. pose proof (end_line f Hc) as E.
  unfold FinalizeSixelData. unfold mbind at 1, comp_bind at 1, gets at 1. rewrite Hi. cbn [negb]. unfold mbind at 1, comp_bind at 1. rewrite E.
  set (f1 := set_sixelColumn 0 _). unfold mbind at 1, comp_bind at 1, gets at 1. unfold mbind at 1, comp_bind at 1. change (id f1) with f1. change (_bufferCleared f1) with (_bufferCleared f).
  destruct Hf as [[Hl Hd] ? ? ? ? Hs]. destruct (_bufferCleared f).
  - destruct (pack_and_fill f1) as (f' & -> & Hl' & Hd' & Hfin); [done..|]. exists f'. split; [done|]. split; [split; [done|by right]|by split].
  - exists f1. split; [done|]. split; [|done]. split; [done|]. right. apply (Hs Hi).
Qed.

Lemma keeps_finalize f : receiving f -> wp (FinalizeSixelData size_bits) (fun done f' => idle f' /\ (done = true -> dims f')) idle False f.
Proof.
  intros Hf. destruct (_charsetIdInitialized f) eqn:Hi.
  - destruct (Z.lt_ge_cases (_currentChar f) MAX_CHARS) as [Hc|Hc]; unfold wp.
    + destruct (finish f Hf Hi Hc) as (f' & -> & Hid & Hd). split; [done|]. intros _. destruct (_bufferCleared f); [apply Hd|]. subst f'. unfold ended. rewrite end_line by done. apply (receiving_sixel f Hf Hi).
    + unfold FinalizeSixelData, mbind, comp_bind, gets. rewrite Hi. simpl. rewrite end_line_full by done. apply Hf.
  - unfold wp, FinalizeSixelData, mbind, comp_bind, gets. rewrite Hi. split; [apply Hf|done].
Qed.
End Finishing.

(** ** Any sequence of downloads *)

Lemma string_received data f : receiving f -> room (Z.of_nat (length data)) f -> exists f' go, drcs_string data f = (f', Returned go) /\ receiving f'.
Proof.
  revert f. induction data as [|ch data IH]; intros f Hf Hroom; cbn [drcs_string]; [by eexists _, _|]. cbn [length] in Hroom. rewrite Nat2Z.inj_succ in Hroom.
  pose proof (keeps_AddSixelData ch (Z.of_nat (length data)) f Hf Hroom ltac:(lia)) as Hk. unfold wp in Hk. unfold mbind, comp_bind, drcs_character.
  destruct (AddSixelData ch f) as [f1 [[]| | |]]; [apply IH; apply Hk|by eexists _, _|done|done].
Qed.

(** What a sequence of downloads leaves; an exception at the end of a string reaches the
    state machine, and the next download finds the font as it was then. *)
Fixpoint downloads (size_bits : Z) (l : list (drcs * wstring)) : comp t unit :=
  match l with
  | [] => mret tt
  | (p, data) :: l => fun f =>
    match download size_bits p data f with
    | (f, Returned _) | (f, Threw) => downloads size_bits l f
    | (f, Undefined) => (f, Undefined)
    | (f, OutOfFuel) => (f, OutOfFuel)
    end
  end.

(** A string that is not too long for the column counter. *)
Definition measurable (data : wstring) : Prop := Z.of_nat (length data) <= VTInt_max.

Lemma download_keeps size_bits p data f : idle f -> 0 <= cellMatrix p -> measurable data ->
  wp (download size_bits p data) (fun done f' => idle f' /\ (done = true -> dims f')) idle False f.
Proof.
  intros Hf Hm Hlen. destruct (parameters_accepted p f Hf Hm) as (f1 & accepted & E1 & H1 & Ha).
  unfold wp, download, mbind, comp_bind. rewrite E1. destruct accepted; simpl; [|by split]. destruct (Ha eq_refl) as (H2 & Hi & _).
  destruct (string_received data f1 H2) as (f3 & go & -> & H3); [split; [unfold measurable in Hlen; lia|congruence]|]. destruct go; [|split; [apply H3|done]]. exact (keeps_finalize size_bits f3 H3).
Qed.

Lemma downloads_keep size_bits l f : idle f -> Forall (fun d => 0 <= cellMatrix d.1 /\ measurable d.2) l ->
  exists f', downloads size_bits l f = (f', Returned tt) /\ idle f'.
Proof.
  intros Hf Hl. revert f Hf. induction Hl as [|[p data] l [Hm Hlen] Hl IH]; intros f Hf; cbn [downloads]; [by eexists|].
  pose proof (download_keeps size_bits p data f Hf Hm Hlen) as Hd. unfold wp in Hd.
  destruct (download size_bits p data f) as [f1 [a| | |]]; [apply IH, Hd|by apply IH|done|done].
Qed.

Lemma idle_new memory : is_buffer (_buffer memory) -> idle (new_FontBuffer memory).
Proof. intros Hb. split; [exact Hb|]. by left. Qed.

(** C15: The font buffer is memory safe for any sequence of DECDLD sequences, whatever
    their parameters and data, as long as no string has more than 2^31 - 1 characters (the counter
    of its columns is an [int]), and whatever the memory the buffer was built in: no scanline outside of the
    buffer is read or written, and nothing runs forever. Each further download ends with an exception or
    with the answer whether it succeeded; and if it did, the font has a cell of at most 16 by 32 pixels, 96
    glyphs of which lie inside of the buffer. *)
Theorem soft_fonts_memory_safe (size_bits : Z) (memory : t) (l : list (drcs * wstring)) (p : drcs) (data : wstring) :
  is_buffer (_buffer memory) -> Forall (fun d => 0 <= cellMatrix d.1 /\ Z.of_nat (length d.2) < 2 ^ 31) l -> 0 <= cellMatrix p -> Z.of_nat (length data) < 2 ^ 31 ->
  exists f f', downloads size_bits l (new_FontBuffer memory) = (f, Returned tt) /\
    (download size_bits p data f = (f', Threw) \/ download size_bits p data f = (f', Returned false) \/
     download size_bits p data f = (f', Returned true) /\ 1 <= (GetCellSize f').1 <= MAX_WIDTH /\ 1 <= (GetCellSize f').2 <= MAX_HEIGHT /\
       Z.of_nat (length (GetBitPattern f')) = MAX_CHARS * (GetCellSize f').2).
Proof.
  intros Hb Hl Hm Hlen. destruct (downloads_keep size_bits l _ (idle_new memory Hb)) as (f & E & Hf).
  { eapply Forall_impl; [exact Hl|]. intros d [? ?]. split; [done|unfold measurable, VTInt_max; lia]. }
  pose proof (download_keeps size_bits p data f Hf Hm ltac:(unfold measurable, VTInt_max; lia)) as Hd. unfold wp in Hd. exists f.
  destruct (download size_bits p data f) as [f' [[]| | |]]; try done; exists f'; (split; [done|]); [|by auto|by auto]. right. right. split; [done|].
  destruct Hd as [[Hbuf _] Hd]. destruct (Hd eq_refl) as (Hw & Hh & _). pose proof (buffer_length _ Hbuf). unfold GetBitPattern, MAX_CHARS, MAX_HEIGHT in *.
  rewrite length_take. cbn. repeat split; lia.
Qed.

(** ** The drawing

    The reference: sixel data draws on a canvas without borders, one per character. A
    sixel is a column of six dots, [/] starts a line six dots further down, [;] the next
    character. *)
Record canvas := mkCanvas { at_char : Z; at_row : Z; at_column : Z; dot : Z -> Z -> Z -> bool }.

Definition blank (first : Z) : canvas := mkCanvas first 0 0 (fun _ _ _ => false).

Definition is_sixel (ch : wchar) : bool := (0x3F <=? ch) && (ch <=? 0x7E).

Definition draw_sixel (p : canvas) (value : Z) : Z -> Z -> Z -> bool := fun c r k =>
  dot p c r k || ((c =? at_char p) && (k =? at_column p) && (at_row p <=? r) && (r <? at_row p + 6) && Z.testbit value (r - at_row p)).

Definition draw (p : canvas) (ch : wchar) : canvas :=
  if is_sixel ch then mkCanvas (at_char p) (at_row p) (at_column p + 1) (draw_sixel p (ch - 0x3F))
  else if ch =? 0x2F then mkCanvas (at_char p) (at_row p + 6) 0 (dot p)
  else if ch =? 0x3B then mkCanvas (at_char p + 1) 0 0 (dot p)
  else p.
Definition drawing (first : Z) (data : wstring) : canvas := foldl draw (blank first) data.

(** A dot of a glyph, and of the glyphs in a buffer with the dimensions of [f]. *)
Definition line_dot (line k : Z) : bool := Z.testbit line (15 - k).
Definition glyph_dot (f : t) (c r k : Z) : bool := line_dot (scanline (_buffer f) (c * _fullHeight f + r)) k.

(** The buffer during a download: the characters from the first to the current one show
    the drawing, moved by the offset of the text and cut off at its width; the others
    show what was there before. *)
Record drawn (old : Z -> Z -> Z -> bool) (p : canvas) (f : t) : Prop := mk_drawn {
  drawn_receiving : receiving f;
  drawn_initialized : _charsetIdInitialized f = true;
  drawn_char : at_char p = _currentChar f;
  drawn_column : at_column p = _sixelColumn f;
  drawn_row : 0 <= at_row p /\ _sixelRow f = Z.min (at_row p) maxSixelRow;
  drawn_blank : forall c r k, at_char p < c -> dot p c r k = false;
  drawn_cleared : _bufferCleared f = true -> forall c r k, old c r k = false;
  drawn_dots : forall c r k, 0 <= c < MAX_CHARS -> 0 <= r < _fullHeight f -> 0 <= k < 16 ->
    glyph_dot f c r k = if (_startChar f <=? c) && (c <=? _currentChar f)
                        then (_textOffset f <=? k) && (k <? _textOffset f + _textWidth f) && dot p c r (k - _textOffset f)
                        else old c r k
}.

(** What the data of a download does not change. *)
Definition same_font (f f' : t) : Prop :=
  _startChar f' = _startChar f /\ _fullWidth f' = _fullWidth f /\ _fullHeight f' = _fullHeight f /\ _textWidth f' = _textWidth f /\
  _textOffset f' = _textOffset f /\ _bufferCleared f' = _bufferCleared f /\ _charsetId f' = _charsetId f.

#[global] Instance same_font_preorder : PreOrder same_font.
Proof. split; [done|]. unfold same_font. intros ? ? ? ? ?. intuition congruence. Qed.

Lemma line_unique H c r c' r' : 0 <= r < H -> 0 <= r' < H -> c * H + r = c' * H + r' -> c = c' /\ r = r'.
Proof. intros Hr Hr' E. assert (c = c') as -> by nia. lia. Qed.

Lemma line_dot_dotted value n d line k : 0 <= n <= 15 -> 0 <= k < 16 ->
  line_dot (dotted value (Z.shiftr 0x8000 n) d line) k = line_dot line k || ((k =? n) && Z.testbit value d).
Proof.
  intros Hn Hk. unfold line_dot, dotted. rewrite Z.lor_spec. f_equal. destruct (Z.testbit value d); [|by rewrite Z.bits_0, andb_false_r].
  rewrite andb_true_r, Z.shiftr_spec by lia. change 0x8000 with (2 ^ 15). rewrite Z.pow2_bits_eqb by lia. bounds.
Qed.

Lemma drawn_sixel old p f ch : drawn old p f -> is_sixel ch = true -> at_column p < VTInt_max ->
  exists f', AddSixelData ch f = (f', Returned tt) /\ drawn old (draw p ch) f' /\ same_font f f' /\ _currentChar f' = _currentChar f.
Proof.
  intros Hd Hs Hmax. assert (room (0 + 1) f) as Hroom by (split; [by vm_compute|intros _; rewrite <- (drawn_column _ _ _ Hd); lia]).
  pose proof (keeps_AddSixelData ch 0 f (drawn_receiving _ _ _ Hd) Hroom ltac:(done)) as Hk. unfold wp in Hk.
  destruct Hd as [Hf Hi Hc Hcol [Hr0 Hr] Hb Hcl Hdots]. pose proof (receiving_sixel f Hf Hi) as Hs6.
  assert (E : AddSixelData ch f = _addSixelValue (ch - 0x3F) f).
  { unfold AddSixelData, mbind, comp_bind, gets, id. rewrite Hi. unfold is_sixel in Hs. by rewrite Hs. }
  destruct (add_value (ch - 0x3F) f) as (l & Ev & Hl & HP); [apply Hf|done|pose proof (receiving_chars f Hf); lia|lia|].
  rewrite E, Ev in *. apply proj1 in Hk. eexists. split; [done|]. split; [|done]. unfold draw. rewrite Hs.
  destruct Hs6 as [(Hw & Hh & Ht) _ Hpos _]. pose proof (receiving_chars f Hf) as Hch.
  constructor; [exact Hk|exact Hi|exact Hc|cbn; lia|done| |exact Hcl|].
  - intros c r k Hlt. cbn in *. unfold draw_sixel. rewrite Hb by done. cbn. bounds.
  - intros c r k Hc' Hr' Hk'. specialize (Hdots c r k Hc' Hr' Hk'). unfold glyph_dot in *. cbn in *. rewrite HP by nia. unfold draw_sixel.
    set (v := ch - 63) in *. unfold MAX_CHARS, MAX_HEIGHT, MAX_WIDTH in *. assert (Hms : maxSixelRow = 36) by done. rewrite Hms in *. rewrite Hc, Hcol.
    destruct (Z.eq_dec c (_currentChar f)) as [->|Hne].
    + replace (_startChar f <=? _currentChar f) with true in * by lia. rewrite Z.leb_refl, Z.eqb_refl in *. cbn [andb] in *.
      replace (_currentChar f <? 96) with true by lia. cbn [andb].
      replace (_currentChar f * _fullHeight f + _sixelRow f <=? _currentChar f * _fullHeight f + r) with (_sixelRow f <=? r) by bounds.
      replace (_currentChar f * _fullHeight f + r <? _currentChar f * _fullHeight f + Z.min (_sixelRow f + 6) (_fullHeight f)) with (r <? _sixelRow f + 6) by bounds.
      replace (_currentChar f * _fullHeight f + r - (_currentChar f * _fullHeight f + _sixelRow f)) with (r - _sixelRow f) by lia.
      replace (_sixelRow f <=? r) with (at_row p <=? r) by bounds. replace (r <? _sixelRow f + 6) with ((at_row p <=? r) && (r <? at_row p + 6) || (r <? _sixelRow f)) by bounds.
      destruct (Z.leb_spec (at_row p) r) as [Hle|Hgt]; cbn [andb orb].
      2: { rewrite !andb_false_r. cbn [andb]. rewrite Hdots. by rewrite orb_false_r. }
      replace (_sixelRow f) with (at_row p) by lia. replace (r <? at_row p) with false by bounds. rewrite orb_false_r.
      destruct (Z.ltb_spec (_sixelColumn f) (_textWidth f)) as [Hin|Hout]; cbn [andb].
      * destruct (r <? at_row p + 6); cbn [andb].
        -- rewrite line_dot_dotted by lia. rewrite Hdots.
           replace (k - _textOffset f =? _sixelColumn f) with (k =? _sixelColumn f + _textOffset f) by bounds.
           destruct (Z.eqb_spec k (_sixelColumn f + _textOffset f)) as [->|]; cbn [andb]; [|by rewrite !orb_false_r].
           replace (_textOffset f <=? _sixelColumn f + _textOffset f) with true by bounds.
           replace (_sixelColumn f + _textOffset f <? _textOffset f + _textWidth f) with true by bounds. done.
        -- rewrite !andb_false_r. cbn [andb]. by rewrite orb_false_r.
      * rewrite Hdots. destruct (Z.eqb_spec (k - _textOffset f) (_sixelColumn f)); cbn [andb]; [|by rewrite orb_false_r].
        replace (k <? _textOffset f + _textWidth f) with false by bounds. by rewrite !andb_false_r.
    + replace (c =? _currentChar f) with false by bounds. cbn [andb]. rewrite orb_false_r. rewrite <- Hdots. 
      match goal with |- line_dot (if ?b then _ else _) _ = _ => destruct b eqn:Ebad; [|done] end.
      exfalso. rewrite !andb_true_iff, Z.leb_le, !Z.ltb_lt in Ebad. assert (c = _currentChar f); [|done]. nia.
Qed.

Lemma drawn_line old p f : drawn old p f -> _currentChar f < MAX_CHARS ->
  drawn old (mkCanvas (at_char p) (at_row p + 6) 0 (dot p)) (ended f) /\ same_font f (ended f) /\ _currentChar (ended f) = _currentChar f /\ _lastChar (ended f) = _lastChar f.
Proof.
  intros Hd Hc. pose proof (keeps_end_line f (drawn_receiving _ _ _ Hd) (drawn_initialized _ _ _ Hd)) as Hk. unfold wp in Hk. unfold ended.
  destruct Hd as [Hf Hi Hch Hcol [Hr0 Hr] Hb Hcl Hdots]. rewrite end_line in * by done. destruct Hk as [Hk _].
  split; [|done]. constructor; [exact Hk|exact Hi|exact Hch|done| |exact Hb|exact Hcl|exact Hdots].
  cbn. assert (maxSixelRow = 36) as E by done. rewrite E in *. lia.
Qed.

Lemma AddSixelData_line f : _charsetIdInitialized f = true -> _currentChar f < MAX_CHARS -> AddSixelData 0x2F f = (ended f, Returned tt).
Proof.
  intros Hi Hc. unfold ended, AddSixelData, mbind, comp_bind, gets, id. rewrite Hi. cbn. by rewrite end_line by done.
Qed.

(** The glyph of the next character is blank when its turn comes. *)
Lemma drawn_next old dots first f : is_buffer (_buffer f) -> dims f -> _pendingCellMatrix f <> DrcsCellMatrix.Invalid ->
  0 <= _declaredWidth f <= MAX_WIDTH -> 0 <= _declaredHeight f <= MAX_HEIGHT -> 0 <= _startChar f <= _currentChar f ->
  _charsetIdInitialized f = true -> _currentChar f = first -> (forall c r k, first <= c -> dots c r k = false) ->
  (_bufferCleared f = true -> forall c r k, old c r k = false) ->
  (forall c r k, 0 <= c < MAX_CHARS -> 0 <= r < _fullHeight f -> 0 <= k < 16 ->
    glyph_dot f c r k = if (_startChar f <=? c) && (c <? first)
                        then (_textOffset f <=? k) && (k <? _textOffset f + _textWidth f) && dots c r (k - _textOffset f)
                        else old c r k) ->
  exists f', _prepareNextCharacter f = (f', Returned tt) /\ drawn old (mkCanvas first 0 0 dots) f' /\ same_font f f' /\ _currentChar f' = first /\ _lastChar f' = first.
Proof.
  intros Hl Hd Hm Hw Hh Hc Hi Hfirst Hblank Hcl Hdots. pose proof (keeps_prepare_next f Hl Hd Hm Hw Hh Hc) as Hk. unfold wp in Hk.
  destruct (prepare_next f Hl Hd) as (l & E & Hl' & HP); [lia|]. rewrite E in *. eexists. split; [done|]. split; [|by subst].
  constructor; [exact (proj1 Hk)|done|done|done|cbn; split; [lia|by vm_compute]| |done|].
  - intros c r k Hlt. cbn in *. apply Hblank. lia.
  - intros c r k Hc' Hr' Hk'. specialize (Hdots c r k Hc' Hr' Hk'). unfold glyph_dot in *. cbn in *. rewrite HP by nia.
    destruct (Z.eq_dec c first) as [->|Hne].
    + rewrite Hfirst in *. replace (_startChar f <=? first) with true in * by bounds. rewrite Z.leb_refl, Z.ltb_irrefl in *. cbn [andb] in *.
      rewrite Hblank, andb_false_r by lia. replace (first <? MAX_CHARS) with true by bounds.
      replace (first * _fullHeight f <=? first * _fullHeight f + r) with true by bounds.
      replace (first * _fullHeight f + r <? (first + 1) * _fullHeight f) with true by (symmetry; apply Z.ltb_lt; lia).
      destruct (_bufferCleared f); cbn [negb andb]; [by rewrite Hdots, Hcl|]. apply Z.bits_0.
    + replace (c <=? _currentChar f) with (c <? first) by bounds. rewrite <- Hdots.
      match goal with |- line_dot (if ?b then _ else _) _ = _ => destruct b eqn:Ebad; [|done] end.
      exfalso. rewrite !andb_true_iff, Z.leb_le, !Z.ltb_lt in Ebad. assert (c = _currentChar f); [|lia]. nia.
Qed.

Lemma drawn_character old p f : drawn old p f -> _currentChar f < MAX_CHARS ->
  exists f', AddSixelData 0x3B f = (f', Returned tt) /\ drawn old (mkCanvas (at_char p + 1) 0 0 (dot p)) f' /\ same_font f f' /\ _currentChar f' = _currentChar f + 1.
Proof.
  intros Hd Hc. destruct (drawn_line old p f Hd Hc) as (H1 & Hsame & Hcur & _). pose proof (drawn_initialized _ _ _ Hd) as Hi.
  assert (E : AddSixelData 0x3B f = _prepareNextCharacter (set_currentChar (_currentChar f + 1) (ended f))).
  { unfold ended, AddSixelData, _endOfCharacter, mbind, comp_bind, gets, modify, id. rewrite Hi. cbn. by rewrite end_line by done. }
  rewrite E. destruct H1 as [Hf1 Hi1 Hch1 _ _ Hb1 Hcl1 Hdots1]. pose proof (receiving_sixel _ Hf1 Hi1) as Hs1. cbn in Hch1, Hb1.
  destruct (drawn_next old (dot p) (at_char p + 1) (set_currentChar (_currentChar f + 1) (ended f))) as (f' & E' & H' & Hs' & Hc' & _);
    [apply Hf1|apply Hs1|apply Hf1|apply Hf1|apply Hf1|pose proof (receiving_chars _ Hf1); cbn; lia|exact Hi1|cbn; lia|..].
  - intros c r k Hlt. apply Hb1. lia.
  - exact Hcl1.
  - intros c r k Hc0 Hr0 Hk0. specialize (Hdots1 c r k Hc0 Hr0 Hk0). unfold glyph_dot in *. cbn in *. rewrite Hdots1. rewrite <- Hch1.
    replace (c <? at_char p + 1) with (c <=? at_char p) by bounds. done.
  - exists f'. split; [done|]. split; [done|]. split; [|lia]. etrans; [exact Hsame|exact Hs'].
Qed.

(** One character of the data; the string fits when no line ends behind the last glyph. *)
Lemma drawn_step old p f ch : drawn old p f -> at_char (draw p ch) < MAX_CHARS -> at_char p < MAX_CHARS -> at_column p < VTInt_max ->
  exists f', AddSixelData ch f = (f', Returned tt) /\ drawn old (draw p ch) f' /\ same_font f f'.
Proof.
  intros Hd Hfits Hc Hmax. pose proof (drawn_char _ _ _ Hd) as Hch. pose proof (drawn_initialized _ _ _ Hd) as Hi.
  destruct (is_sixel ch) eqn:Es.
  - destruct (drawn_sixel old p f ch Hd Es Hmax) as (f' & ? & ? & ? & _). by exists f'.
  - unfold draw in *. rewrite Es in *. destruct (Z.eqb_spec ch 0x2F) as [->|H1]; [|destruct (Z.eqb_spec ch 0x3B) as [->|H2]].
    + exists (ended f). destruct (drawn_line old p f Hd) as (? & ? & _); [lia|]. by rewrite AddSixelData_line by (done || lia).
    + destruct (drawn_character old p f Hd) as (f' & ? & ? & ? & _); [lia|]. by exists f'.
    + exists f. split; [|done]. unfold AddSixelData, mbind, comp_bind, gets, id. rewrite Hi. unfold is_sixel in Es. rewrite Es. cbn. bounds.
Qed.

Lemma at_char_mono data p : at_char p <= at_char (foldl draw p data).
Proof.
  revert p. induction data as [|ch data IH]; intros p; cbn; [done|]. etrans; [|apply IH]. unfold draw. repeat case_match; cbn; lia.
Qed.

Lemma at_column_draw p ch : 0 <= at_column p -> 0 <= at_column (draw p ch) <= at_column p + 1.
Proof. intros Hp. unfold draw. repeat case_match; cbn; lia. Qed.

Lemma drawn_string old p f data : drawn old p f -> at_char (foldl draw p data) < MAX_CHARS -> 0 <= at_column p -> at_column p + Z.of_nat (length data) <= VTInt_max ->
  exists f', drcs_string data f = (f', Returned true) /\ drawn old (foldl draw p data) f' /\ same_font f f'.
Proof.
  revert p f. induction data as [|ch data IH]; intros p f Hd Hfits Hcol Hmax; cbn [drcs_string foldl length] in *; [by exists f|].
  pose proof (at_char_mono data (draw p ch)). pose proof (at_char_mono [ch] p). pose proof (at_column_draw p ch Hcol) as Hd1. cbn in *.
  destruct (drawn_step old p f ch Hd) as (f1 & E & H1 & Hs); [lia|lia|lia|].
  destruct (IH _ f1 H1 Hfits ltac:(lia) ltac:(lia)) as (f2 & E2 & H2 & Hs2). exists f2. unfold mbind, comp_bind, drcs_character. rewrite E.
  split; [done|]. split; [done|]. by etrans.
Qed.

(** ** From the designation to the finished font *)

Definition is_intermediate (ch : wchar) : Prop := 0x20 <= ch <= 0x2F.
Definition is_final (ch : wchar) : Prop := 0x30 <= ch <= 0x7E.
Definition designation (intermediates : wstring) (final : wchar) : Z :=
  VTIDBuilder.Finalize (foldl VTIDBuilder.AddIntermediate VTIDBuilder.Clear intermediates) final.

(** The designation alone decides whether the attributes have changed. *)
Definition renewed (intermediates : wstring) (final : wchar) (f : t) : bool := attributes_changed (set_pendingCharsetId (designation intermediates final) f).

Lemma build_intermediates ids rest f : _charsetIdInitialized f = false -> Forall is_intermediate ids ->
  drcs_string (ids ++ rest) f = drcs_string rest (set_charsetIdBuilder (foldl VTIDBuilder.AddIntermediate (_charsetIdBuilder f) ids) f).
Proof.
  intros Hi Hids. revert f Hi. induction Hids as [|ch ids Hch Hids IH]; intros f Hi; cbn; [by destruct f|].
  unfold is_intermediate in Hch. assert (E : AddSixelData ch f = (set_charsetIdBuilder (VTIDBuilder.AddIntermediate (_charsetIdBuilder f) ch) f, Returned tt)).
  { unfold AddSixelData, _buildCharsetId, mbind, comp_bind, gets, modify, id. rewrite Hi. cbn.
    by rewrite (proj2 (Z.leb_le 0x20 ch)), (proj2 (Z.leb_le ch 0x2F)) by lia. }
  unfold mbind, comp_bind, drcs_character. rewrite E. by rewrite IH.
Qed.

Lemma drawn_start f final : receiving f -> _charsetIdInitialized f = false -> _currentChar f = _startChar f -> is_final final ->
  let id := VTIDBuilder.Finalize (_charsetIdBuilder f) final in
  let changed := attributes_changed (set_pendingCharsetId id f) in
  exists f', AddSixelData final f = (f', Returned tt) /\
    drawn (if changed then fun _ _ _ => false else glyph_dot f) (blank (_startChar f)) f' /\ _startChar f' = _startChar f /\ _bufferCleared f' = changed /\
    if changed then _fullHeight f' = MAX_HEIGHT /\ _textWidth f' = MAX_WIDTH /\ _textOffset f' = 0 /\ _charsetId f' = id
    else _fullHeight f' = _fullHeight f /\ _fullWidth f' = _fullWidth f /\ _textWidth f' = _textWidth f /\ _textOffset f' = _textOffset f.
Proof.
  intros Hf Hi Hc Hfin. unfold is_final in Hfin. cbn zeta. set (ident := VTIDBuilder.Finalize _ _).
  set (f1 := set_charsetIdInitialized true (set_pendingCharsetId ident f)). destruct Hf as [[Hl Hd] Hm Hw Hh Hch _].
  assert (E : AddSixelData final f = _prepareCharacterBuffer f1).
  { unfold AddSixelData, _buildCharsetId, mbind at 1, comp_bind at 1, gets at 1, id. rewrite Hi. cbn [negb].
    replace ((0x20 <=? final) && (final <=? 0x2F)) with false by bounds. by replace ((0x30 <=? final) && (final <=? 0x7E)) with true by bounds. }
  rewrite E. change (attributes_changed (set_pendingCharsetId ident f)) with (attributes_changed f1).
  destruct (attributes_changed f1) eqn:Ha.
  - set (f2 := set_bufferCleared true (set_buffer (repeat 0 buffer_size) (set_text MAX_WIDTH 0 (set_dimensions MAX_WIDTH MAX_HEIGHT MAX_WIDTH
      (set_current (_pendingCellMatrix f1) (_pendingCellHeight f1) (_pendingFontSet f1) (_pendingFontUsage f1) (_pendingCharsetSize f1) (_pendingCharsetId f1) f1))))).
    assert (_prepareCharacterBuffer f1 = _prepareNextCharacter f2) as ->
      by (unfold _prepareCharacterBuffer, mbind at 1, comp_bind at 1, gets at 1, id; by rewrite Ha).
    destruct (drawn_next (fun _ _ _ => false) (fun _ _ _ => false) (_startChar f) f2) as (f' & -> & H' & (Hs' & _ & Hh' & Ht' & Ho' & Hb' & Hid') & _);
      [apply is_buffer_blank|by vm_compute|done..| |].
    + intros c r k _ _ _. rewrite andb_false_r. assert (glyph_dot f2 c r k = false) as -> by (unfold glyph_dot; change (_buffer f2) with (repeat 0 buffer_size); rewrite scanline_blank; apply Z.bits_0). by destruct (_ && _).
    + exists f'. by split_and!.
  - set (f2 := set_bufferCleared false f1).
    assert (_prepareCharacterBuffer f1 = _prepareNextCharacter f2) as ->
      by (unfold _prepareCharacterBuffer, mbind at 1, comp_bind at 1, gets at 1, id; by rewrite Ha).
    assert (Hd2 : dims f2).
    { destruct Hd as [Hd|Hd]; [|exact Hd]. exfalso. unfold attributes_changed in Ha. cbn in Ha.
      rewrite !orb_false_iff, !negb_false_iff, !Z.eqb_eq in Ha. intuition congruence. }
    destruct (drawn_next (glyph_dot f) (fun _ _ _ => false) (_startChar f) f2) as (f' & -> & H' & (Hs' & Hw' & Hh' & Ht' & Ho' & Hb' & Hid') & _); [done..| |].
    + intros c r k _ _ _. change (glyph_dot f2 c r k) with (glyph_dot f c r k). cbn. bounds.
    + exists f'. by split_and!.
Qed.

(** The state when the string has been received, and the font is not finished. *)
Lemma download_draws p f ids final data :
  idle f -> 0 <= cellMatrix p -> (drcs_parameters p f).2 = Returned true -> Forall is_intermediate ids -> is_final final ->
  let f1 := (drcs_parameters p f).1 in
  let first := first_char (startChar p) (charsetSize p) in
  let changed := renewed ids final f1 in
  at_char (drawing first data) < MAX_CHARS -> measurable data ->
  (forall size_bits f2, drcs_string (ids ++ final :: data) f1 = (f2, Returned true) ->
     download size_bits p (ids ++ final :: data) f = FinalizeSixelData size_bits f2) /\
  exists f2, drcs_string (ids ++ final :: data) f1 = (f2, Returned true) /\
    drawn (if changed then fun _ _ _ => false else glyph_dot f1) (drawing first data) f2 /\ _startChar f2 = first /\ _bufferCleared f2 = changed /\
    if changed then _fullHeight f2 = MAX_HEIGHT /\ _textWidth f2 = MAX_WIDTH /\ _textOffset f2 = 0 /\ _charsetId f2 = designation ids final
    else _fullHeight f2 = _fullHeight f1 /\ _fullWidth f2 = _fullWidth f1 /\ _textWidth f2 = _textWidth f1 /\ _textOffset f2 = _textOffset f1.
Proof.
  intros Hf Hm Hacc Hids Hfin. destruct (parameters_accepted p f Hf Hm) as (f1 & accepted & E1 & _ & Ha).
  rewrite E1 in *. cbn [fst snd] in *. injection Hacc as ->. destruct (Ha eq_refl) as (Hr & Hi & Hb & Hstart & Hcur & _). cbn zeta. intros Hfits Hlen.
  split; [intros size_bits f2 E; unfold download, mbind, comp_bind; rewrite E1; cbn [negb]; by rewrite E|].
  rewrite build_intermediates by done. rewrite Hb. set (f1' := set_charsetIdBuilder _ f1). rewrite <- Hstart in *.
  destruct (drawn_start f1' final) as (f2 & E2 & Hd & Hs2 & Hc2 & Hrest); [destruct Hr as [? ? ? ? ? _]; constructor; auto; cbn; congruence|done..|].
  destruct (drawn_string _ _ f2 data Hd Hfits ltac:(done) Hlen) as (f3 & E3 & Hd3 & Hs3 & Hw3 & Hh3 & Ht3 & Ho3 & Hb3 & Hid3).
  exists f3. cbn [drcs_string]. unfold mbind at 1, comp_bind at 1, drcs_character at 1. rewrite E2, E3.
  change (attributes_changed _) with (renewed ids final f1) in *. change (glyph_dot f1') with (glyph_dot f1) in *.
  change (_startChar f1') with (_startChar f1) in *. change (VTIDBuilder.Finalize (_charsetIdBuilder f1') final) with (designation ids final) in *.
  split; [done|]. split; [done|]. split; [congruence|]. split; [congruence|].
  destruct (renewed ids final f1); cbn in Hrest; intuition congruence.
Qed.

Lemma invalid_renewed ids final f : receiving f -> _cellMatrix f = DrcsCellMatrix.Invalid -> renewed ids final f = true.
Proof.
  intros Hf He. unfold renewed, attributes_changed. cbn. rewrite He. pose proof (receiving_matrix f Hf) as Hm.
  by rewrite (proj2 (Z.eqb_neq _ _)) by congruence.
Qed.

(** A dot of a scanline that was centred. *)
Lemma line_dot_center tw off line k : 0 <= tw <= 16 -> 0 <= off -> 0 <= line < 2 ^ 16 -> 0 <= k < 16 ->
  line_dot (center_line tw off line) k = (off <=? k) && (k <? off + tw) && line_dot line (k - off).
Proof.
  intros Htw Hoff Hl Hk. unfold line_dot. rewrite testbit_center by lia.
  replace (16 - tw <=? 15 - k + off) with (k <? off + tw) by bounds. replace (15 - (k - off)) with (15 - k + off) by lia.
  destruct (Z.leb_spec off k); [by rewrite andb_comm|]. rewrite testbit_high by lia. done.
Qed.

(** C14: A downloaded font shows what was drawn. For a sequence whose parameters are valid and ask for the
    font to be erased (all characters, or all renditions of the set; a reload that keeps the other glyphs is not meant),
    and a string that designates a character set, draws no more glyphs than there are and has less than 2^31
    characters, which is what the counter of its columns can hold: the download succeeds, the font has the designation, and each pixel of each glyph in its cell is lit exactly if
    the sixel data, drawn on a canvas without borders, lights it - the drawing is moved right to be centred in
    the cell and clipped to the width of the text. The glyphs before the first and after the last character
    show the error glyph. *)
Theorem soft_font_shows_drawing (size_bits : Z) (f : t) (p : drcs) (ids : wstring) (final : wchar) (data : wstring) :
  idle f -> 0 <= cellMatrix p -> (drcs_parameters p f).2 = Returned true -> eraseControl p <> DrcsEraseControl.ReloadedChars ->
  Forall is_intermediate ids -> is_final final ->
  let first := first_char (startChar p) (charsetSize p) in
  let picture := drawing first data in
  at_char picture < MAX_CHARS -> Z.of_nat (length data) < 2 ^ 31 ->
  exists f', download size_bits p (ids ++ final :: data) f = (f', Returned true) /\
    GetDesignation f' = designation ids final /\ 1 <= (GetCellSize f').1 <= MAX_WIDTH /\ 1 <= (GetCellSize f').2 <= MAX_HEIGHT /\
    1 <= _textWidth f' /\ _textOffset f' = ((GetCellSize f').1 - _textWidth f') / 2 /\
    forall c r k, 0 <= c < MAX_CHARS -> 0 <= r < (GetCellSize f').2 -> 0 <= k < MAX_WIDTH ->
      glyph_dot f' c r k =
        if (first <=? c) && (c <=? at_char picture)
        then (_textOffset f' <=? k) && (k <? _textOffset f' + _textWidth f') && dot picture c r (k - _textOffset f')
        else line_dot (scanline (error_pattern (GetCellSize f').1 (GetCellSize f').2) r) k.
Proof.
  intros Hf Hm Hacc He Hids Hfin first picture Hfits Hlen. destruct (download_draws p f ids final data Hf Hm Hacc Hids Hfin Hfits ltac:(unfold measurable, VTInt_max; lia)) as [Hdl (f2 & E2 & Hd & Hs2 & Hc2 & Hrest)].
  destruct (parameters_accepted p f Hf Hm) as (f1 & accepted & E1 & _ & Ha). rewrite E1 in *. cbn [fst snd] in *. injection Hacc as ->.
  destruct (Ha eq_refl) as (Hr & _ & _ & _ & _ & Herase). rewrite (invalid_renewed ids final f1 Hr (Herase He)) in *.
  destruct Hrest as (Hh2 & Ht2 & Ho2 & Hid2). fold first in Hd, Hs2. fold picture in Hd. pose proof Hd as [Hf2 Hi2 Hch2 _ _ _ _ Hdots].
  destruct (finish size_bits f2 Hf2 Hi2) as (f' & E' & [Hb' _] & Hfin'); [lia|]. rewrite Hc2 in Hfin'. destruct Hfin' as [(Hw' & Hh' & Ht' & Ho' & Hto') [Hsz [Htw Hoff] Hlines Hident]].
  destruct (drawn_line _ _ f2 Hd) as (Hde & (Hs & _ & _ & _ & _ & _ & Hide) & _ & Hlast); [lia|].
  assert (Hbuf : _buffer (ended f2) = _buffer f2) by (unfold ended; by rewrite end_line by lia).
  exists f'. rewrite (Hdl size_bits f2 E2), E'. unfold GetDesignation, GetCellSize. cbn [fst snd]. unfold MAX_WIDTH, MAX_HEIGHT, MAX_CHARS in *.
  split_and!; [done|congruence|lia|lia|lia|lia|destruct (_ =? 0) eqn:E0; cbn in Htw; lia|done|].
  intros c r k Hc Hr' Hk. unfold glyph_dot. rewrite Hlines by lia. rewrite Hs, Hs2, Hlast, Hbuf.
  rewrite (sixel_last _ (receiving_sixel _ Hf2 Hi2)), <- Hch2.
  replace ((c <? first) || (at_char picture <? c)) with (negb ((first <=? c) && (c <=? at_char picture))) by bounds.
  destruct ((first <=? c) && (c <=? at_char picture)) eqn:Ein; cbn [negb]; [|done].
  rewrite line_dot_center by (try apply scanline_range; try apply Hf2; lia).
  destruct (Z.leb_spec (_textOffset f') k); [|done]. destruct (Z.ltb_spec k (_textOffset f' + _textWidth f')); [|done]. cbn [andb].
  specialize (Hdots c r (k - _textOffset f') Hc). unfold glyph_dot in Hdots. rewrite Hh2, Ht2, Ho2, Hs2, <- Hch2, Ein in Hdots.
  rewrite Hdots by lia. rewrite Z.sub_0_r. bounds.
Qed.

(** A reload, with the attributes and the designation of the font that is there: the
    dimensions stay, the glyphs that are drawn replace the old ones, and the others are
    as they were. *)
Lemma soft_font_reloads size_bits f p ids final data :
  idle f -> 0 <= cellMatrix p -> (drcs_parameters p f).2 = Returned true -> Forall is_intermediate ids -> is_final final ->
  let f1 := (drcs_parameters p f).1 in
  let first := first_char (startChar p) (charsetSize p) in
  let picture := drawing first data in
  renewed ids final f1 = false -> at_char picture < MAX_CHARS -> measurable data ->
  exists f', download size_bits p (ids ++ final :: data) f = (f', Returned true) /\ GetCellSize f' = GetCellSize f1 /\
    forall c r k, 0 <= c < MAX_CHARS -> 0 <= r < (GetCellSize f').2 -> 0 <= k < MAX_WIDTH ->
      glyph_dot f' c r k =
        if (first <=? c) && (c <=? at_char picture)
        then (_textOffset f1 <=? k) && (k <? _textOffset f1 + _textWidth f1) && dot picture c r (k - _textOffset f1)
        else glyph_dot f1 c r k.
Proof.
  intros Hf Hm Hacc Hids Hfin f1 first picture Hren Hfits Hlen.
  destruct (download_draws p f ids final data Hf Hm Hacc Hids Hfin Hfits Hlen) as [Hdl (f2 & E2 & Hd & Hs2 & Hc2 & Hrest)].
  fold f1 in Hdl, E2, Hd, Hc2, Hrest. rewrite Hren in *. destruct Hrest as (Hh2 & Hw2 & Ht2 & Ho2). pose proof (drawn_char _ _ _ Hd) as Hch.
  fold first in Hd, Hs2, Hch. fold picture in Hd, Hch.
  destruct (finish size_bits f2 (drawn_receiving _ _ _ Hd) (drawn_initialized _ _ _ Hd)) as (f' & E' & _ & Hfin'); [lia|]. rewrite Hc2 in Hfin'. subst f'.
  destruct (drawn_line _ _ f2 Hd) as (Hde & (Hs & Hw & Hh & Ht & Ho & _) & Hcur & _); [lia|].
  exists (ended f2). rewrite (Hdl size_bits f2 E2), E'. unfold GetCellSize. cbn [fst snd]. split; [done|]. split; [congruence|].
  intros c r k Hc Hr Hk. rewrite (drawn_dots _ _ _ Hde c r k Hc Hr Hk). cbn [dot]. rewrite Hs, Hs2, Hcur, <- Hch, Ho, Ho2, Ht, Ht2. done.
Qed.

(** ** Beyond the last character

    Once the data has gone past the last of the 96 characters, the end of the string
    throws, and changes nothing: it throws again the next time. *)
Lemma finalize_throws size_bits f : _charsetIdInitialized f = true -> MAX_CHARS <= _currentChar f -> FinalizeSixelData size_bits f = (f, Threw).
Proof. intros Hi Hc. unfold FinalizeSixelData, mbind, comp_bind, gets. rewrite Hi. simpl. by rewrite end_line_full. Qed.

(** Memory with 7 in every member. *)
Definition some_memory : t :=
  mk 7 7 7 7 true 7 7 7 7 7 7 7 7 7 7 7 7 7 7 7 true 7 7 7 7 true VTIDBuilder.Clear 7 7 7 (repeat 7 buffer_size) 7 true 7 7.
Definition request_94 (start matrix set usage : Z) : drcs := mkDrcs 0 start DrcsEraseControl.AllChars matrix set usage VTParameter.default CharsetSize.Size94.
Definition feed (p : drcs) (data : wstring) : t := (drcs_string data (drcs_parameters p (new_FontBuffer some_memory)).1).1.

(** A string that draws characters up to the last one and ends with a separator: nothing
    of the font is finished. *)
Lemma trailing_separator_throws :
  (download 64 (request_94 95 0 0 0) (wide "@~;") (new_FontBuffer some_memory)).2 = Threw.
Proof. by vm_compute. Qed.

(** The start character is not checked: the iterator is formed far behind the buffer. *)
Lemma iterator_past_the_end : _currentCharBuffer (feed (request_94 4000 0 0 0) (wide "@")) = 128000.
Proof. by vm_compute. Qed.

(** A declared width that is larger than the cell of the page: the hint is negative, and
    wraps around as a [size_t]. *)
Lemma centering_hint_wraps :
  GetTextCenteringHint (download 64 (request_94 1 12 DrcsFontSet.Size80x36 1) (wide "@~") (new_FontBuffer some_memory)).1 = 2 ^ 64 - 2.
Proof. by vm_compute. Qed.

(** After a string with too many characters the font is neither packed nor filled up, and
    a reload with the same attributes keeps it that way: its cell has the maximum size. *)
Lemma reload_of_unfinished_font :
  let f := (download 64 (request_94 95 0 0 0) (wide "@~;~/") (new_FontBuffer some_memory)).1 in
  let reload := mkDrcs 0 1 DrcsEraseControl.ReloadedChars 0 0 0 VTParameter.default CharsetSize.Size94 in
  GetCellSize (download 64 reload (wide "@~") f).1 = (16, 32) /\
  GetCellSize (download 64 reload (wide "@~") (new_FontBuffer some_memory)).1 = (10, 10).
Proof. by vm_compute. Qed.

(** A line of sixels that is too long for its counter, at its end. *)
Lemma sixel_column_overflows value f : _sixelColumn f = VTInt_max -> MAX_CHARS <= _currentChar f -> (_addSixelValue value f).2 = Undefined.
Proof.
  intros Hc Hm. unfold _addSixelValue, mbind, comp_bind, gets, id, mret, comp_ret. destruct (Z.ltb_spec (_currentChar f) MAX_CHARS); [lia|]. cbn [andb]. by rewrite Hc.
Qed.

Lemma soft_fonts_memory_safe_witness :
  exists f f', downloads 64 [(request_94 1 0 0 0, wide " @~~/??;??"); (request_94 4000 3 11 2, wide "A~/;~")] (new_FontBuffer some_memory) = (f, Returned tt) /\
    download 64 (request_94 1 0 0 0) (wide " @~~/??;??") f = (f', Returned true) /\ 1 <= (GetCellSize f').1 <= MAX_WIDTH /\ 1 <= (GetCellSize f').2 <= MAX_HEIGHT.
Proof.
  destruct (soft_fonts_memory_safe 64 some_memory [(request_94 1 0 0 0, wide " @~~/??;??"); (request_94 4000 3 11 2, wide "A~/;~")] (request_94 1 0 0 0) (wide " @~~/??;??")) as (f & f' & E & Hd).
  - split; [by vm_compute|]. apply Forall_forall. intros v Hv%list_elem_of_In%repeat_spec. lia.
  - repeat constructor; by vm_compute.
  - by vm_compute.
  - by vm_compute.
  - assert (f = (downloads 64 [(request_94 1 0 0 0, wide " @~~/??;??"); (request_94 4000 3 11 2, wide "A~/;~")] (new_FontBuffer some_memory)).1) as Ef by by rewrite E.
    exists f, f'. split; [exact E|]. destruct Hd as [Hd|[Hd|(Hd & Hw & Hh & _)]]; [exfalso; rewrite Ef in Hd; vm_compute in Hd; discriminate Hd..|]. split; [exact Hd|]. split; [exact Hw|exact Hh].
Defined.

Lemma soft_font_shows_drawing_witness :
  exists f', download 64 (request_94 1 0 0 0) (wide " " ++ 0x40 :: wide "~A/B") (new_FontBuffer some_memory) = (f', Returned true) /\ glyph_dot f' 1 0 1 = true.
Proof.
  destruct (soft_font_shows_drawing 64 (new_FontBuffer some_memory) (request_94 1 0 0 0) (wide " ") 0x40 (wide "~A/B")) as (f' & E & _ & _ & _ & _ & _ & _).
  - apply idle_new. split; [by vm_compute|]. apply Forall_forall. intros v Hv%list_elem_of_In%repeat_spec. lia.
  - done.
  - by vm_compute.
  - done.
  - by repeat constructor.
  - done.
  - by vm_compute.
  - by vm_compute.
  - exists f'. split; [exact E|]. assert (f' = (download 64 (request_94 1 0 0 0) (wide " " ++ 0x40 :: wide "~A/B") (new_FontBuffer some_memory)).1) as -> by by rewrite E.
    by vm_compute.
Defined.
