(* ===== verification/MacroBufferProps.v ===== *)
(** * Macros: invariant, definitions, invocations

    The memory accounting of the macro buffer is exact and bounded, a definition
    stores the string it denotes, and nested invocations are bounded. *)

From S2P Require Import Prelude Chars StateMachine ParserInvariant ParserSyntax MacroBuffer.

(** The number of characters in all macros. *)
Definition total (macros : list wstring) : Z := fold_right (fun m n => Z.of_nat (length m) + n) 0 macros.

Lemma total_nonneg macros : 0 <= total macros.
Proof. induction macros as [|m macros IH]; simpl; [done|]. fold (total macros). lia. Qed.

Lemma total_insert macros id old m : macros !! id = Some old ->
  total (<[id := m]> macros) = total macros - Z.of_nat (length old) + Z.of_nat (length m).
Proof.
  revert id. induction macros as [|x macros IH]; intros [|id] Hid; simpl in *; try done.
  - simplify_eq. fold (total macros). lia.
  - fold (total macros) (total (<[id := m]> macros)). rewrite (IH id Hid). lia.
Qed.

Lemma total_lookup macros id m : macros !! id = Some m -> Z.of_nat (length m) <= total macros.
Proof. intros Hm. pose proof (total_insert macros id m [] Hm). pose proof (total_nonneg (<[id := []]> macros)). simpl in *. lia. Qed.

Section Props.
Context (size_bits : Z) (Hsize : 35 <= size_bits).

Lemma usize_small z : 0 <= z < 2 ^ 35 -> usize size_bits z = z.
Proof.
  intros Hz. unfold usize. apply Z.mod_small. pose proof (Z.pow_le_mono_r 2 35 size_bits ltac:(lia) Hsize). lia.
Qed.

(** ** The invariant *)
Record buffer_ok (b : MacroBuffer) : Prop := {
  bo_count : length (_macros b) = MACRO_COUNT;
  bo_active : (_activeMacroId b < MACRO_COUNT)%nat;
  bo_space : _spaceUsed b = total (_macros b);
  bo_max : total (_macros b) <= MAX_SPACE;
  bo_chars : Forall (Forall is_wchar) (_macros b);
  bo_repeat : 0 <= _repeatCount b <= MAX_PARAMETER_VALUE;
  bo_depth : 0 <= _invokedDepth b <= 16;
  bo_length : 0 <= _invokedSequenceLength b <= MAX_SPACE;
}.

Definition active_length (b : MacroBuffer) : Z := Z.of_nat (length (default [] (_macros b !! _activeMacroId b))).

(** While a definition is being read, the pending repeat starts inside the macro. *)
Definition definition_ok (b : MacroBuffer) : Prop :=
  buffer_ok b /\ (_repeatPending b = true -> 0 <= _repeatStart b <= active_length b).

(** What a definition does not touch. *)
Definition same_rest (b b' : MacroBuffer) : Prop :=
  _activeMacroId b' = _activeMacroId b /\ _invokedDepth b' = _invokedDepth b /\
  _invokedSequenceLength b' = _invokedSequenceLength b /\
  forall i, i <> _activeMacroId b -> _macros b' !! i = _macros b !! i.

Lemma same_rest_refl b : same_rest b b.
Proof. done. Qed.

Lemma same_rest_trans b1 b2 b3 : same_rest b1 b2 -> same_rest b2 b3 -> same_rest b1 b3.
Proof.
  intros (H1 & H2 & H3 & H4) (H1' & H2' & H3' & H4'). repeat split; try congruence.
  intros i Hi. rewrite H4', H4; congruence.
Qed.

Lemma active_lookup b : buffer_ok b -> exists m, _macros b !! _activeMacroId b = Some m.
Proof. intros []. apply lookup_lt_is_Some_2. congruence. Qed.

Lemma wp_activeMacro b (Q : wstring -> MacroBuffer -> Prop) T F :
  buffer_ok b -> (forall m, _macros b !! _activeMacroId b = Some m -> Q m b) -> wp _activeMacro Q T F b.
Proof. intros Hok HQ. destruct (active_lookup b Hok) as [m Hm]. unfold wp, _activeMacro. rewrite Hm. auto. Qed.

(** Replacing the active macro, with the accounting brought up to date. *)
Definition with_active (m : wstring) (b : MacroBuffer) : MacroBuffer :=
  set_spaceUsed (total (<[_activeMacroId b := m]> (_macros b))) (set_macros (<[_activeMacroId b := m]> (_macros b)) b).

Lemma buffer_ok_with_active m b : buffer_ok b -> Forall is_wchar m ->
  total (<[_activeMacroId b := m]> (_macros b)) <= MAX_SPACE -> buffer_ok (with_active m b).
Proof.
  intros [] Hm Ht. constructor; simpl; try done; [by rewrite length_insert|]. by apply Forall_insert.
Qed.

Lemma same_rest_with_active m b : same_rest b (with_active m b).
Proof. repeat split. intros i Hi. simpl. by rewrite list_lookup_insert_ne. Qed.

Lemma active_with_active m b : buffer_ok b -> _macros (with_active m b) !! _activeMacroId b = Some m.
Proof. intros Hok. destruct (active_lookup b Hok) as [old Hold]. simpl. apply list_lookup_insert_eq. by eapply lookup_lt_Some. Qed.

Lemma delete_active_eq b m : buffer_ok b -> _macros b !! _activeMacroId b = Some m ->
  delete_activeMacro size_bits b = (with_active [] b, Returned tt).
Proof.
  intros Hok Hm. unfold delete_activeMacro, mbind, comp_bind, _activeMacro. rewrite Hm. simpl.
  unfold _deleteMacro, modify. rewrite Hm. unfold with_active, set_macros, set_spaceUsed. simpl. do 2 f_equal.
  pose proof (total_lookup _ _ _ Hm). pose proof (bo_max b Hok). rewrite (total_insert _ _ m), (bo_space b Hok) by done.
  unfold MAX_SPACE in *. rewrite usize_small by lia. simpl. lia.
Qed.

Lemma delete_active_ok b : buffer_ok b ->
  wp (delete_activeMacro size_bits) (fun _ b' => buffer_ok b' /\ same_rest b b' /\ _macros b' !! _activeMacroId b = Some [])
    (fun _ => False) False b.
Proof.
  intros Hok. destruct (active_lookup b Hok) as [m Hm]. unfold wp. rewrite (delete_active_eq b m) by done.
  split; [|split; [apply same_rest_with_active|by apply active_with_active]].
  apply buffer_ok_with_active; [done|done|]. rewrite (total_insert _ _ m) by done. destruct Hok. simpl. lia.
Qed.

Lemma with_active_twice m1 m2 b : with_active m2 (with_active m1 b) = with_active m2 b.
Proof. unfold with_active, set_spaceUsed, set_macros. simpl. by rewrite list_insert_insert_eq. Qed.

Lemma with_active_same m b : buffer_ok b -> _macros b !! _activeMacroId b = Some m -> with_active m b = b.
Proof.
  intros Hok Hm. unfold with_active. rewrite list_insert_id by done. rewrite <- (bo_space b Hok). by destruct b.
Qed.

Lemma space_eq b : buffer_ok b -> GetSpaceAvailable size_bits b = MAX_SPACE - total (_macros b).
Proof.
  intros []. unfold GetSpaceAvailable. pose proof (total_nonneg (_macros b)). rewrite bo_space0.
  unfold MAX_SPACE in *. by rewrite usize_small by lia.
Qed.

(** ** Appending *)
Lemma total_grow b m more : _macros b !! _activeMacroId b = Some m ->
  total (<[_activeMacroId b := m ++ more]> (_macros b)) = total (_macros b) + Z.of_nat (length more).
Proof. intros Hm. rewrite (total_insert _ _ m) by done. rewrite length_app. lia. Qed.

Lemma assign_grow_eq b m more : buffer_ok b -> _macros b !! _activeMacroId b = Some m ->
  total (_macros b) + Z.of_nat (length more) <= MAX_SPACE ->
  set_spaceUsed (usize size_bits (_spaceUsed b + Z.of_nat (length more)))
    (set_macros (<[_activeMacroId b := m ++ more]> (_macros b)) b) = with_active (m ++ more) b.
Proof.
  intros Hok Hm Ht. unfold with_active. rewrite total_grow by done. rewrite (bo_space b Hok).
  pose proof (total_nonneg (_macros b)). unfold MAX_SPACE in Ht. by rewrite usize_small by lia.
Qed.

Lemma append_eq b m ch : buffer_ok b -> _macros b !! _activeMacroId b = Some m ->
  _appendToActiveMacro size_bits ch b =
  if total (_macros b) <? MAX_SPACE then (with_active (m ++ [ch]) b, Returned true) else (b, Returned false).
Proof.
  intros Hok Hm. unfold _appendToActiveMacro, mbind, comp_bind, gets. rewrite space_eq by done.
  pose proof (assign_grow_eq b m [ch] Hok Hm) as Hgrow. simpl length in Hgrow.
  destruct (Z.ltb_spec 0 (MAX_SPACE - total (_macros b))), (Z.ltb_spec (total (_macros b)) MAX_SPACE); try lia; [|done].
  unfold _activeMacro. rewrite Hm. simpl. rewrite <- Hgrow by lia. done.
Qed.

Lemma grow_ok b m more : buffer_ok b -> _macros b !! _activeMacroId b = Some m -> Forall is_wchar more ->
  total (_macros b) + Z.of_nat (length more) <= MAX_SPACE -> buffer_ok (with_active (m ++ more) b).
Proof.
  intros Hok Hm Hmore Ht. apply buffer_ok_with_active; [done| |by rewrite total_grow].
  apply Forall_app. split; [|done]. pose proof (bo_chars b Hok) as Hc. rewrite Forall_lookup in Hc. by eapply Hc.
Qed.

Lemma append_ok b ch : buffer_ok b -> is_wchar ch ->
  wp (_appendToActiveMacro size_bits ch) (fun _ b' => buffer_ok b' /\ same_rest b b' /\ active_length b <= active_length b' /\
    _repeatPending b' = _repeatPending b /\ _repeatStart b' = _repeatStart b) (fun _ => False) False b.
Proof.
  intros Hok Hch. destruct (active_lookup b Hok) as [m Hm]. unfold wp. rewrite (append_eq b m) by done.
  destruct (Z.ltb_spec (total (_macros b)) MAX_SPACE); [|done]. split; [|split; [apply same_rest_with_active|]].
  - apply grow_ok; [done|done|by apply Forall_singleton|simpl; lia].
  - split; [|done]. unfold active_length. simpl. rewrite Hm, list_lookup_insert_eq by (by eapply lookup_lt_Some).
    simpl. rewrite length_app. lia.
Qed.

(** ** Repeats *)
Definition copies (n : Z) (sequence : wstring) : wstring := concat (repeat sequence (Z.to_nat n)).

Lemma copies_length n sequence : 0 <= n -> Z.of_nat (length (copies n sequence)) = n * Z.of_nat (length sequence).
Proof.
  intros Hn. unfold copies. rewrite <- (Z2Nat.id n Hn) at 2. induction (Z.to_nat n) as [|k IH]; simpl; [done|].
  rewrite length_app. lia.
Qed.

Lemma append_copies_eq n b a sequence : buffer_ok b -> _macros b !! _activeMacroId b = Some a ->
  0 <= _repeatStart b -> _repeatStart b + Z.of_nat (length sequence) <= Z.of_nat (length a) ->
  take (length sequence) (drop (Z.to_nat (_repeatStart b)) a) = sequence ->
  total (_macros b) + Z.of_nat n * Z.of_nat (length sequence) <= MAX_SPACE ->
  append_copies size_bits n (Z.of_nat (length sequence)) b = (with_active (a ++ concat (repeat sequence n)) b, Returned tt).
Proof.
  revert b a. induction n as [|n IH]; intros b a Hok Ha Hs Hl Htake Ht.
  - simpl. rewrite app_nil_r. by rewrite with_active_same.
  - assert (Forall is_wchar sequence) as Hw.
    { rewrite <- Htake. apply Forall_take, Forall_drop. pose proof (bo_chars b Hok) as Hc.
      rewrite Forall_lookup in Hc. by eapply Hc. }
    cbn [append_copies]. unfold mbind, comp_bind, _activeMacro, gets, substr, assign_activeMacro, modify. rewrite Ha.
    destruct (Z.leb_spec (_repeatStart b) (Z.of_nat (length a))); [|lia]. rewrite Nat2Z.id, Htake. simpl.
    rewrite assign_grow_eq by (done || lia). pose proof (grow_ok b a sequence Hok Ha Hw ltac:(lia)) as Hok'.
    rewrite (IH _ (a ++ sequence)); [|done|exact (active_with_active _ _ Hok)|done| | |].
    + rewrite with_active_twice, <- app_assoc. done.
    + simpl. rewrite length_app. lia.
    + simpl. rewrite drop_app_le by lia. rewrite take_app_le by (rewrite length_drop; lia). done.
    + simpl. rewrite total_grow by done. lia.
Qed.

Lemma applyPendingRepeat_eq b a sequence : buffer_ok b -> _macros b !! _activeMacroId b = Some (a ++ sequence) ->
  _repeatStart b = Z.of_nat (length a) ->
  _applyPendingRepeat size_bits b =
  if total (_macros b) + (_repeatCount b - 1) * Z.of_nat (length sequence) <=? Z.max MAX_SPACE (total (_macros b))
  then (set_repeatPending false (with_active (a ++ sequence ++ copies (_repeatCount b - 1) sequence) b), Returned true)
  else (b, Returned false).
Proof.
  intros Hok Ha Hs. pose proof (bo_repeat b Hok) as Hr. pose proof (bo_max b Hok) as Hmax. unfold MAX_PARAMETER_VALUE in Hr.
  pose proof (total_lookup _ _ _ Ha) as Hlen. rewrite length_app in Hlen.
  unfold _applyPendingRepeat, mbind, comp_bind, gets. destruct (Z.ltb_spec 1 (_repeatCount b)) as [Hc|Hc].
  - unfold _activeMacro. rewrite Ha, space_eq, Hs, length_app by done. unfold MAX_SPACE in *.
    replace (Z.of_nat (length a + length sequence) - Z.of_nat (length a)) with (Z.of_nat (length sequence)) by lia.
    assert (0 <= (_repeatCount b - 1) * Z.of_nat (length sequence) <= 65534 * 262144) by nia.
    rewrite !usize_small; [|lia|lia|rewrite !usize_small by lia; lia].
    destruct (Z.ltb_spec (262144 - total (_macros b)) ((_repeatCount b - 1) * Z.of_nat (length sequence))),
      (Z.leb_spec (total (_macros b) + (_repeatCount b - 1) * Z.of_nat (length sequence)) (Z.max 262144 (total (_macros b))));
      try lia; [done|].
    rewrite (append_copies_eq _ _ (a ++ sequence)); try done; rewrite ?Hs, ?length_app; unfold MAX_SPACE; try lia.
    + simpl. by rewrite <- app_assoc.
    + rewrite Nat2Z.id, drop_app_length. apply take_ge. done.
  - destruct (Z.leb_spec (total (_macros b) + (_repeatCount b - 1) * Z.of_nat (length sequence)) (Z.max MAX_SPACE (total (_macros b))));
      [|nia].
    unfold copies. replace (Z.to_nat (_repeatCount b - 1)) with 0%nat by lia. simpl. rewrite app_nil_r.
    by rewrite with_active_same.
Qed.

Lemma copies_wchar n sequence : Forall is_wchar sequence -> Forall is_wchar (copies n sequence).
Proof. intros Hs. unfold copies. induction (Z.to_nat n) as [|k IH]; simpl; [done|]. by apply Forall_app. Qed.

Lemma buffer_ok_set_repeatPending v b : buffer_ok b -> buffer_ok (set_repeatPending v b).
Proof. by intros []. Qed.
Lemma buffer_ok_set_parseState v b : buffer_ok b -> buffer_ok (set_parseState v b).
Proof. by intros []. Qed.
Lemma buffer_ok_set_decodedChar v b : buffer_ok b -> buffer_ok (set_decodedChar v b).
Proof. by intros []. Qed.

(** [m] only changes the fields of the definition parser and the active macro. *)
Definition parses (m : comp MacroBuffer bool) (b : MacroBuffer) : Prop :=
  wp m (fun ok b' => buffer_ok b' /\ same_rest b b' /\ (ok = true -> definition_ok b')) (fun _ => False) False b.

Lemma applyPendingRepeat_ok b : definition_ok b -> _repeatPending b = true -> parses (_applyPendingRepeat size_bits) b.
Proof.
  intros [Hok Hp] Hpend. specialize (Hp Hpend). destruct (active_lookup b Hok) as [m Hm].
  unfold active_length in Hp. rewrite Hm in Hp. simpl in Hp. unfold parses, wp.
  rewrite (applyPendingRepeat_eq b (take (Z.to_nat (_repeatStart b)) m) (drop (Z.to_nat (_repeatStart b)) m));
    [|done|by rewrite take_drop|rewrite length_take; lia].
  set (sequence := drop _ m). pose proof (bo_max b Hok).
  destruct (Z.leb_spec (total (_macros b) + (_repeatCount b - 1) * Z.of_nat (length sequence)) (Z.max MAX_SPACE (total (_macros b)))) as [Hfit|];
    [|done].
  rewrite app_assoc. replace (take _ m ++ sequence) with m by (unfold sequence; by rewrite take_drop).
  assert (Forall is_wchar sequence) as Hw.
  { apply Forall_drop. pose proof (bo_chars b Hok) as Hc. rewrite Forall_lookup in Hc. by eapply Hc. }
  assert (buffer_ok (with_active (m ++ copies (_repeatCount b - 1) sequence) b)) as Hok'.
  { apply grow_ok; [done|done|by apply copies_wchar|].
    destruct (Z.leb_spec 0 (_repeatCount b - 1)); [rewrite copies_length by done; lia|].
    unfold copies. replace (Z.to_nat (_repeatCount b - 1)) with 0%nat by lia. simpl. lia. }
  split; [by apply buffer_ok_set_repeatPending|]. split; [apply same_rest_with_active|].
  intros _. split; [by apply buffer_ok_set_repeatPending|done].
Qed.

Lemma decodeHexDigit_eq ch b : exists d r, _decodeHexDigit ch b = (set_decodedChar (u16 d) b, Returned r).
Proof.
  unfold _decodeHexDigit, mbind, comp_bind, modify. simpl.
  destruct ((48 <=? ch) && (ch <=? 57)); [by eexists _, _|].
  destruct ((65 <=? ch) && (ch <=? 70)); [by eexists _, _|].
  destruct ((97 <=? ch) && (ch <=? 102)); by eexists _, _.
Qed.

Lemma u16_wchar z : is_wchar (u16 z).
Proof. unfold is_wchar, u16. by apply Z.mod_pos_bound. Qed.

Lemma definition_ok_append b ch : definition_ok b -> is_wchar ch -> parses (_appendToActiveMacro size_bits ch) b.
Proof.
  intros [Hok Hp] Hch. eapply wp_mono; [by apply append_ok| |done|done].
  intros ok b' (Hok' & Hr & Hl & Hpend & Hstart). split; [done|]. split; [done|]. intros _. split; [done|].
  rewrite Hpend, Hstart. intros H. specialize (Hp H). lia.
Qed.

Lemma parse_character_ok b ch : definition_ok b -> is_wchar ch -> parses (parse_character size_bits ch) b.
Proof.
  intros Hdef Hch. pose proof Hdef as [Hok Hp]. unfold parse_character. apply wp_bind, wp_gets, wp_bind, wp_gets.
  destruct (_parseState b).
  - by apply definition_ok_append.
  - destruct (decodeHexDigit_eq ch b) as (d & r & Hd). apply wp_bind. unfold wp at 1. rewrite Hd.
    pose proof (buffer_ok_set_decodedChar (u16 d) b Hok) as Hok'. destruct r.
    { apply wp_bind, wp_modify, wp_ret. split; [by apply buffer_ok_set_parseState|]. split; [done|].
      intros _. split; [by apply buffer_ok_set_parseState|done]. }
    destruct ((ch =? 33) && negb (_repeatPending b)) eqn:Hbang.
    { apply andb_true_iff in Hbang as [_ Hn%negb_true_iff]. apply wp_bind, wp_modify, wp_ret.
      assert (buffer_ok (set_repeatCount 0 (set_parseState ExpectingRepeatCount (set_decodedChar (u16 d) b)))) as Hok''
        by (destruct Hok; by constructor).
      split; [done|]. split; [done|]. intros _. split; [done|]. simpl. congruence. }
    destruct ((ch =? 59) && _repeatPending b) eqn:Hsemi; [|done].
    apply andb_true_iff in Hsemi as [_ Hpend].
    by apply (applyPendingRepeat_ok (set_decodedChar (u16 d) b)).
  - destruct (decodeHexDigit_eq ch b) as (d & r & Hd). apply wp_bind. unfold wp at 1. rewrite Hd.
    assert (definition_ok (set_decodedChar (u16 d) b)) as Hdef' by (split; [by apply buffer_ok_set_decodedChar|done]).
    apply wp_bind. eapply (wp_mono _ (fun ok b' => buffer_ok b' /\ same_rest b b' /\ (ok = true -> definition_ok b')) _ (fun _ => False) _ False);
      [|intros ok b' (Hok' & Hr & Hd')|done|done].
    + destruct r; [|apply wp_ret; split; [by apply buffer_ok_set_decodedChar|done]].
      apply wp_bind, wp_gets. apply (definition_ok_append _ _ Hdef'). apply u16_wchar.
    + apply wp_bind, wp_modify, wp_ret. split; [by apply buffer_ok_set_parseState, buffer_ok_set_decodedChar|].
      split; [done|]. intros Ht. split; [by apply buffer_ok_set_parseState, buffer_ok_set_decodedChar|apply (Hd' Ht)].
  - destruct ((48 <=? ch) && (ch <=? 57)) eqn:Hdig.
    { apply andb_true_iff in Hdig as [H1%Z.leb_le H2%Z.leb_le]. apply wp_bind, wp_modify, wp_ret.
      assert (0 <= Z.min (usize size_bits (_repeatCount b * 10 + (ch - 48))) MAX_PARAMETER_VALUE <= MAX_PARAMETER_VALUE) as Hb.
      { pose proof (bo_repeat b Hok). unfold MAX_PARAMETER_VALUE in *. rewrite usize_small by lia. lia. }
      assert (forall v, 0 <= v <= MAX_PARAMETER_VALUE -> buffer_ok (set_repeatCount v b)) as Hset
        by (intros; destruct Hok; by constructor).
      split; [by apply Hset|]. split; [done|]. intros _. split; [by apply Hset|done]. }
    destruct (ch =? 59); [|done]. apply wp_bind, wp_activeMacro; [done|]. intros m Hm. apply wp_bind, wp_modify, wp_ret.
    assert (buffer_ok (set_parseState ExpectingHexDigit (set_repeatStart (Z.of_nat (length m)) (set_repeatPending true b)))) as Hok'
      by (destruct Hok; by constructor).
    split; [done|]. split; [done|]. intros _. split; [done|]. intros _. unfold active_length. simpl. rewrite Hm. simpl. lia.
Qed.

Lemma ParseDefinition_ok b ch : definition_ok b -> is_wchar ch -> parses (ParseDefinition size_bits ch) b.
Proof.
  intros Hdef Hch. pose proof Hdef as [Hok Hp]. unfold ParseDefinition.
  assert (forall b', buffer_ok b' -> same_rest b b' ->
    wp (delete_activeMacro size_bits) (fun _ b'' => buffer_ok b'' /\ same_rest b b'') (fun _ => False) False b') as Hdel.
  { intros b' Hok' Hr. eapply wp_mono; [by apply delete_active_ok| |done|done].
    intros _ b'' (? & ? & _). split; [done|]. by eapply same_rest_trans. }
  destruct (ch =? AsciiChars.ESC).
  - apply wp_bind, wp_gets, wp_bind. destruct (_repeatPending b) eqn:Hpend; [|done].
    apply wp_bind. eapply wp_mono; [by apply applyPendingRepeat_ok| |done|done].
    intros [] b' (Hok' & Hr & _); [done|]. eapply wp_mono; [by apply Hdel| |done|done]. intros _ b'' []. done.
  - destruct (ch <? 32); [done|]. apply wp_bind. eapply wp_mono; [by apply parse_character_ok| |done|done].
    intros ok b' (Hok' & Hr & Hd). apply wp_bind. destruct ok; [apply wp_ret, wp_ret; auto|].
    eapply wp_mono; [by apply Hdel| |done|done]. intros _ b'' []. done.
Qed.

Lemma feed_ok b text : definition_ok b -> Forall is_wchar text ->
  wp (feed size_bits text) (fun _ b' => buffer_ok b' /\ same_rest b b') (fun _ => False) False b.
Proof.
  intros Hdef Ht. revert b Hdef. induction Ht as [|ch text Hch Ht IH]; intros b Hdef; [by split; [apply Hdef|]|].
  simpl. apply wp_bind. eapply wp_mono; [by apply ParseDefinition_ok| |done|done].
  intros [] b' (Hok & Hr & Hd); [|done]. eapply wp_mono; [by apply IH, Hd| |done|done].
  intros _ b'' [? ?]. split; [done|]. by eapply same_rest_trans.
Qed.

(** ** Starting a definition *)
Lemma delete_eq id b m : buffer_ok b -> _macros b !! id = Some m ->
  _deleteMacro size_bits id b = (set_spaceUsed (total (<[id := []]> (_macros b))) (set_macros (<[id := []]> (_macros b)) b), Returned tt).
Proof.
  intros Hok Hm. unfold _deleteMacro, modify, set_macros, set_spaceUsed. rewrite Hm. simpl. do 2 f_equal.
  pose proof (total_lookup _ _ _ Hm). pose proof (bo_max b Hok). rewrite (total_insert _ _ m), (bo_space b Hok) by done.
  unfold MAX_SPACE in *. rewrite usize_small by lia. simpl. lia.
Qed.

(** Deleting keeps everything but the macros, and those only shrink. *)
Lemma delete_all_ok ids b : buffer_ok b -> (forall id, id ∈ ids -> (id < MACRO_COUNT)%nat) ->
  wp (delete_all size_bits ids) (fun _ b' => buffer_ok b' /\ _activeMacroId b' = _activeMacroId b /\
    _invokedDepth b' = _invokedDepth b /\ _repeatPending b' = _repeatPending b) (fun _ => False) False b.
Proof.
  revert b. induction ids as [|id ids IH]; intros b Hok Hids; [done|].
  assert (is_Some (_macros b !! id)) as [m Hm].
  { apply lookup_lt_is_Some_2. rewrite (bo_count b Hok). apply Hids. left. }
  simpl. apply wp_bind. unfold wp at 1. rewrite (delete_eq id b m) by done.
  eapply wp_mono; [apply IH| |done|done].
  - pose proof (total_insert _ _ m [] Hm) as Ht. simpl in Ht. destruct Hok.
    constructor; simpl; try done; [by rewrite length_insert|lia|by apply Forall_insert].
  - intros i Hi. apply Hids. by right.
  - done.
Qed.

Lemma InitParser_ok macroId deleteControl encoding b : buffer_ok b ->
  wp (InitParser size_bits macroId deleteControl encoding) (fun ok b' => buffer_ok b' /\
    _invokedDepth b' = _invokedDepth b /\ (ok = true -> definition_ok b')) (fun _ => False) False b.
Proof.
  intros Hok. unfold InitParser. do 2 apply wp_bind, wp_gets.
  destruct ((macroId <? length (_macros b))%nat && (_invokedDepth b =? 0)) eqn:Hg; [|done].
  apply andb_true_iff in Hg as [Hid%Nat.ltb_lt _]. rewrite (bo_count b Hok) in Hid. apply wp_bind, wp_modify.
  set (b1 := set_repeatPending false (set_decodedChar 0 (set_activeMacroId macroId b))).
  set (started := fun b2 => buffer_ok b2 /\ _invokedDepth b2 = _invokedDepth b /\ _repeatPending b2 = false).
  assert (started b1) as Hb1 by (split; [by destruct Hok|done]).
  apply wp_bind, (wp_mono _ (fun _ => started) _ (fun _ => False) _ False); [|intros known b2 Hb2|done|done].
  { destruct (encoding =? MacroEncoding_HexPair), (encoding =? MacroEncoding_Text); (split; [by destruct Hok|done]). }
  assert (forall b3, started b3 -> buffer_ok b3 /\ _invokedDepth b3 = _invokedDepth b /\ definition_ok b3) as Hfin.
  { intros b3 (H1 & H2 & H3). repeat (split; [done|]). rewrite H3. done. }
  destruct known; [|split; [apply Hb2|]; split; [apply Hb2|done]].
  destruct (deleteControl =? MacroDeleteControl_DeleteId).
  - apply wp_bind. destruct Hb2 as (H1 & H2 & H3). destruct (active_lookup b2 H1) as [m Hm].
    assert (buffer_ok (with_active [] b2)) as H4.
    { apply buffer_ok_with_active; [done|done|]. rewrite (total_insert _ _ m) by done. pose proof (bo_max b2 H1). simpl. lia. }
    unfold wp at 1. rewrite (delete_active_eq b2 m) by done. apply wp_ret. split; [done|]. split; [done|].
    intros _. split; [done|]. simpl. by rewrite H3.
  - destruct (deleteControl =? MacroDeleteControl_DeleteAll); [|split; [apply Hb2|]; split; [apply Hb2|done]].
    apply wp_bind, wp_gets, wp_bind. destruct Hb2 as (H1 & H2 & H3).
    eapply wp_mono; [apply delete_all_ok; [done|]| |done|done].
    + intros id Hin%elem_of_seq. pose proof (bo_count b2 H1). lia.
    + intros _ b3 (H4 & _ & H5 & H6). apply wp_ret. split; [done|]. split; [congruence|].
      intros _. split; [done|]. rewrite H6, H3. done.
Qed.

Lemma define_macro_ok macroId deleteControl encoding text b : buffer_ok b -> Forall is_wchar text ->
  wp (define_macro size_bits macroId deleteControl encoding text)
    (fun _ b' => buffer_ok b' /\ _invokedDepth b' = _invokedDepth b) (fun _ => False) False b.
Proof.
  intros Hok Ht. apply wp_bind. eapply wp_mono; [by apply InitParser_ok| |done|done].
  intros [] b1 (H1 & H2 & H3); [|done]. eapply wp_mono; [apply feed_ok; [by apply H3|]| |done|done].
  - apply Forall_snoc. done.
  - intros _ b2 (H4 & _ & H5 & _). split; [done|congruence].
Qed.

(** ** Invocations *)
Lemma invoke_begin_ok macroId b : buffer_ok b ->
  match InvokeMacro_begin size_bits macroId b with
  | (b', Some string) =>
    buffer_ok b' /\ _invokedDepth b' = _invokedDepth b + 1 /\ Forall is_wchar string /\ _macros b' = _macros b /\
    _macros b !! macroId = Some string
  | (b', None) => b' = b
  end.
Proof.
  intros Hok. unfold InvokeMacro_begin. destruct (Nat.ltb_spec macroId (length (_macros b))) as [Hid|]; [|done].
  apply lookup_lt_is_Some_2 in Hid as [m Hm]. rewrite Hm. simpl.
  pose proof (bo_depth b Hok). pose proof (bo_length b Hok). pose proof (bo_chars b Hok) as Hc. unfold MAX_SPACE in *.
  pose proof (total_lookup _ _ _ Hm). pose proof (bo_max b Hok). unfold MAX_SPACE in *.
  rewrite (usize_small (262144 - _)) by lia.
  destruct (Z.ltb_spec (_invokedDepth b) 16), (Z.ltb_spec (Z.of_nat (length m)) (262144 - _invokedSequenceLength b)); simpl; try done.
  rewrite !usize_small by lia. split; [|split; [done|]; split; [|done]].
  - destruct Hok; constructor; simpl; unfold MAX_SPACE; done || lia.
  - rewrite Forall_lookup in Hc. by eapply Hc.
Qed.

Lemma invoke_end_ok b : buffer_ok b -> 0 < _invokedDepth b ->
  buffer_ok (InvokeMacro_end size_bits b) /\ _invokedDepth (InvokeMacro_end size_bits b) = _invokedDepth b - 1.
Proof.
  intros Hok Hd. pose proof (bo_depth b Hok). unfold InvokeMacro_end. rewrite usize_small by lia. simpl. split; [|done].
  destruct Hok. constructor; simpl; unfold MAX_SPACE in *; try done; try lia. destruct (_ =? 0); lia.
Qed.

Lemma total_map_NUL (macros : list wstring) : total (map (map (fun _ => AsciiChars.NUL)) macros) = total macros.
Proof. induction macros as [|m macros IH]; simpl; [done|]. fold (total macros). fold (total (map (map (fun _ => AsciiChars.NUL)) macros)). rewrite IH, length_map. done. Qed.

Lemma clear_ok b : buffer_ok b -> buffer_ok (ClearMacrosIfInUse b).
Proof.
  intros Hok. unfold ClearMacrosIfInUse. destruct (0 <? _invokedDepth b); [|done]. destruct Hok.
  constructor; simpl; rewrite ?length_map, ?total_map_NUL; try done.
  apply Forall_map. eapply Forall_impl; [done|]. intros m _. simpl. apply Forall_map, Forall_true. intros; split; done.
Qed.

(** ** Everything that happens to a macro buffer *)
Inductive macro_step : MacroBuffer -> MacroBuffer -> Prop :=
| step_define macroId deleteControl encoding text b :
    Forall is_wchar text -> macro_step b (define_macro size_bits macroId deleteControl encoding text b).1
| step_clear b : macro_step b (ClearMacrosIfInUse b)
| step_invoke macroId b : macro_step b (InvokeMacro_begin size_bits macroId b).1
| step_return b : 0 < _invokedDepth b -> macro_step b (InvokeMacro_end size_bits b).

Inductive macro_reachable : MacroBuffer -> Prop :=
| macro_new : macro_reachable new_MacroBuffer
| macro_next b b' : macro_reachable b -> macro_step b b' -> macro_reachable b'.

Lemma new_ok : buffer_ok new_MacroBuffer.
Proof.
  assert (forall n, total (repeat [] n) = 0) as Ht by (intros n; induction n; simpl; [done|]; fold (total (repeat [] n)); lia).
  constructor; simpl; unfold MAX_PARAMETER_VALUE, MAX_SPACE, MACRO_COUNT; try done; try lia.
  by repeat constructor.
Qed.

Lemma macro_reachable_ok b : macro_reachable b -> buffer_ok b.
Proof.
  induction 1 as [|b b' Hr IH Hs]; [apply new_ok|]. destruct Hs as [macroId del enc text b Ht|b|macroId b|b Hd].
  - pose proof (define_macro_ok macroId del enc text b IH Ht) as Hwp. unfold wp in Hwp.
    destruct (define_macro _ _ _ _ _ b) as [b' []]; try done. apply Hwp.
  - by apply clear_ok.
  - pose proof (invoke_begin_ok macroId b IH) as Hi. destruct (InvokeMacro_begin _ _ b) as [b' [str|]]; [apply Hi|by subst].
  - by apply invoke_end_ok.
Qed.

(** ** Definitions and what they denote *)
Inductive HexItem :=
| HexBytes (bytes : list Z)
| HexRepeat (count : Z) (bytes : list Z).

Definition hex_digit (d : Z) : wchar := if d <? 10 then 0x30 + d else 0x41 + d - 10.
Definition render_bytes (bytes : list Z) : wstring := concat (map (fun c => [hex_digit (c / 16); hex_digit (c mod 16)]) bytes).
Definition render_item (i : HexItem) : wstring :=
  match i with
  | HexBytes bytes => render_bytes bytes
  | HexRepeat count bytes => [0x21] ++ decimal 5 count ++ [0x3B] ++ render_bytes bytes ++ [0x3B]
  end.
Definition denote_item (i : HexItem) : wstring :=
  match i with
  | HexBytes bytes => bytes
  | HexRepeat count bytes => copies (Z.max 1 count) bytes
  end.
Definition render_items (items : list HexItem) : wstring := concat (map render_item items).
Definition denote_items (items : list HexItem) : wstring := concat (map denote_item items).

Definition hex_byte (c : Z) : Prop := 0 <= c < 256.
Definition item_wf (i : HexItem) : Prop :=
  match i with
  | HexBytes bytes => Forall hex_byte bytes
  | HexRepeat count bytes => 0 <= count <= MAX_PARAMETER_VALUE /\ Forall hex_byte bytes
  end.

Lemma copies_max count bytes : copies (Z.max 1 count) bytes = bytes ++ copies (count - 1) bytes.
Proof.
  unfold copies. replace (Z.to_nat (Z.max 1 count)) with (S (Z.to_nat (count - 1))) by lia. done.
Qed.

Lemma item_grows count (bytes : list Z) : (length bytes <= length (copies (Z.max 1 count) bytes))%nat.
Proof. rewrite copies_max, length_app. lia. Qed.

Section Reading.
Context (base : list wstring) (id : nat) (Hbase : length base = MACRO_COUNT) (Hid : (id < MACRO_COUNT)%nat).

(** What the other macros leave free. *)
Definition room : Z := MAX_SPACE - total (<[id := []]> base).

Record reading (st : MacroState) (decoded : Z) (pending : option (Z * Z)) (text : wstring) (b : MacroBuffer) : Prop := {
  rd_ok : buffer_ok b;
  rd_id : _activeMacroId b = id;
  rd_macros : _macros b = <[id := text]> base;
  rd_state : _parseState b = st;
  rd_decoded : _decodedChar b = decoded;
  rd_pending : match pending with
               | None => _repeatPending b = false
               | Some (start, count) => _repeatPending b = true /\ _repeatStart b = start /\ _repeatCount b = count
               end;
}.

Lemma room_total text : total (<[id := text]> base) = MAX_SPACE - room + Z.of_nat (length text).
Proof.
  unfold room. assert (is_Some (base !! id)) as [m Hm] by (apply lookup_lt_is_Some_2; lia).
  rewrite !(total_insert _ _ m) by done. simpl. lia.
Qed.

Lemma reading_lookup st d pending text b : reading st d pending text b -> _macros b !! _activeMacroId b = Some text.
Proof. intros []. rewrite rd_id0, rd_macros0. apply list_lookup_insert_eq. lia. Qed.

(** Characters that are consumed and lead from one situation to another. *)
Definition reads (text : wstring) (P Q : MacroBuffer -> Prop) : Prop :=
  forall b, P b -> exists b', feed size_bits text b = (b', Returned true) /\ Q b'.

Lemma reads_nil P : reads [] P P.
Proof. intros b Hb. by exists b. Qed.

Lemma feed_app t1 t2 b b' : feed size_bits t1 b = (b', Returned true) -> feed size_bits (t1 ++ t2) b = feed size_bits t2 b'.
Proof.
  revert b. induction t1 as [|ch t1 IH]; intros b; simpl; [by intros [= ->]|]. unfold mbind, comp_bind.
  destruct (ParseDefinition size_bits ch b) as [b1 [[]| | |]]; try done. apply IH.
Qed.

Lemma macro_reads_app t1 t2 P Q R : reads t1 P Q -> reads t2 Q R -> reads (t1 ++ t2) P R.
Proof.
  intros H1 H2 b Hb. destruct (H1 b Hb) as (b1 & E1 & Hb1). destruct (H2 b1 Hb1) as (b2 & E2 & Hb2).
  exists b2. by rewrite (feed_app t1 t2 b b1).
Qed.

Lemma reads_one ch P Q : 0x20 <= ch ->
  (forall b, P b -> exists b', parse_character size_bits ch b = (b', Returned true) /\ Q b') -> reads [ch] P Q.
Proof.
  intros Hch Hp b Hb. destruct (Hp b Hb) as (b' & E & Hb'). exists b'. split; [|done].
  simpl. unfold mbind, comp_bind, ParseDefinition. assert ((ch =? AsciiChars.ESC) = false) as -> by (apply Z.eqb_neq; unfold AsciiChars.ESC; lia).
  assert ((ch <? 32) = false) as -> by (apply Z.ltb_ge; lia). unfold mbind, comp_bind. by rewrite E.
Qed.

Lemma reading_append st d pending text c b : reading st d pending text b -> Z.of_nat (length text) < room -> is_wchar c ->
  _appendToActiveMacro size_bits c b = (with_active (text ++ [c]) b, Returned true) /\
  reading st d pending (text ++ [c]) (with_active (text ++ [c]) b).
Proof.
  intros Hr Hroom Hc. pose proof (reading_lookup _ _ _ _ _ Hr) as Hl. destruct Hr.
  assert (total (_macros b) < MAX_SPACE) as Hlt by (rewrite rd_macros0, room_total; lia).
  rewrite (append_eq b text) by done. destruct (Z.ltb_spec (total (_macros b)) MAX_SPACE); [|lia]. split; [done|].
  constructor; simpl; try done.
  - apply grow_ok; [done|done|by apply Forall_singleton|simpl; lia].
  - rewrite rd_id0, rd_macros0. by rewrite list_insert_insert_eq.
Qed.

(** *** Text *)
Lemma reads_text text more pending : Forall (fun c => 0x20 <= c) more -> Forall is_wchar more ->
  Z.of_nat (length (text ++ more)) <= room ->
  reads more (reading ExpectingText 0 pending text) (reading ExpectingText 0 pending (text ++ more)).
Proof.
  intros Hm. revert text. induction Hm as [|c more Hc Hm IH]; intros text Hw Hroom; [rewrite app_nil_r; apply reads_nil|].
  apply Forall_cons in Hw as [Hwc Hw]. rewrite length_app in Hroom. simpl in Hroom.
  apply (macro_reads_app [c]) with (Q := reading ExpectingText 0 pending (text ++ [c])).
  - apply reads_one; [done|]. intros b Hb. destruct (reading_append _ _ _ _ c b Hb) as [E Hb']; [lia|done|].
    eexists. split; [|done]. unfold parse_character, mbind, comp_bind, gets. by rewrite (rd_state _ _ _ _ _ Hb).
  - replace (text ++ c :: more) with ((text ++ [c]) ++ more) by (by rewrite <- app_assoc).
    apply IH; [done|]. rewrite !length_app. simpl. lia.
Qed.

(** *** Hex pairs *)
Lemma hex_digit_decode d b : 0 <= d < 16 -> 0 <= _decodedChar b < 16 ->
  _decodeHexDigit (hex_digit d) b = (set_decodedChar (_decodedChar b * 16 + d) b, Returned true).
Proof.
  intros Hd Hb. unfold _decodeHexDigit, mbind, comp_bind, modify, hex_digit.
  assert (u16 (Z.shiftl (_decodedChar b) 4) = _decodedChar b * 16) as Hs.
  { rewrite Z.shiftl_mul_pow2 by lia. unfold u16. rewrite Z.mod_small; lia. }
  assert (forall v, v = d -> u16 (_decodedChar b * 16 + v) = _decodedChar b * 16 + d) as Hv
    by (intros v ->; unfold u16; rewrite Z.mod_small; lia).
  destruct (Z.ltb_spec d 10).
  - replace ((48 <=? 48 + d) && (48 + d <=? 57)) with true by lia. simpl. rewrite Hs, Hv by lia. done.
  - replace ((48 <=? 65 + d - 10) && (65 + d - 10 <=? 57)) with false by lia.
    replace ((65 <=? 65 + d - 10) && (65 + d - 10 <=? 70)) with true by lia. simpl. rewrite Hs, Hv by lia. done.
Qed.

Lemma hex_digit_printable d : 0 <= d < 16 -> 0x20 <= hex_digit d.
Proof. intros. unfold hex_digit. destruct (d <? 10); lia. Qed.

Lemma reading_set st d pending text b st' d' : reading st d pending text b ->
  reading st' d' pending text (set_parseState st' (set_decodedChar d' b)).
Proof. intros []. constructor; try done. by apply buffer_ok_set_parseState, buffer_ok_set_decodedChar. Qed.

Lemma reads_pair c pending text : hex_byte c -> Z.of_nat (length text) < room ->
  reads [hex_digit (c / 16); hex_digit (c mod 16)] (reading ExpectingHexDigit 0 pending text)
    (reading ExpectingHexDigit 0 pending (text ++ [c])).
Proof.
  unfold hex_byte. intros Hc Hroom. pose proof (Z.mod_pos_bound c 16 ltac:(lia)). pose proof (Z.div_mod c 16 ltac:(lia)).
  apply (macro_reads_app [_] [_]) with (Q := reading ExpectingSecondHexDigit (c / 16) pending text).
  - apply reads_one; [apply hex_digit_printable; lia|]. intros b Hb. eexists. split.
    + unfold parse_character, mbind, comp_bind, gets. rewrite (rd_state _ _ _ _ _ Hb).
      rewrite hex_digit_decode by (rewrite ?(rd_decoded _ _ _ _ _ Hb); lia). rewrite (rd_decoded _ _ _ _ _ Hb). done.
    + apply (reading_set _ _ _ _ _ ExpectingSecondHexDigit (c / 16)) in Hb. exact Hb.
  - apply reads_one; [apply hex_digit_printable; lia|]. intros b Hb.
    pose proof (reading_set _ _ _ _ _ ExpectingSecondHexDigit c Hb) as Hb1.
    assert (set_parseState ExpectingSecondHexDigit (set_decodedChar c b) = set_decodedChar c b) as He
      by (rewrite <- (rd_state _ _ _ _ _ Hb); by destruct b).
    rewrite He in Hb1. destruct (reading_append _ _ _ _ c _ Hb1) as [E Hb2]; [done|unfold is_wchar; lia|].
    eexists. split.
    + unfold parse_character, mbind, comp_bind, gets. rewrite (rd_state _ _ _ _ _ Hb).
      rewrite hex_digit_decode by (rewrite ?(rd_decoded _ _ _ _ _ Hb); lia). rewrite (rd_decoded _ _ _ _ _ Hb).
      replace (c / 16 * 16 + c mod 16) with c by lia. simpl. rewrite E. done.
    + apply (reading_set _ _ _ _ _ ExpectingHexDigit 0) in Hb2. exact Hb2.
Qed.

Lemma reads_pairs bytes pending text : Forall hex_byte bytes -> Z.of_nat (length (text ++ bytes)) <= room ->
  reads (render_bytes bytes) (reading ExpectingHexDigit 0 pending text) (reading ExpectingHexDigit 0 pending (text ++ bytes)).
Proof.
  intros Hb. revert text. induction Hb as [|c bytes Hc Hb IH]; intros text Hroom; [rewrite app_nil_r; apply reads_nil|].
  rewrite length_app in Hroom. simpl in Hroom.
  change (render_bytes (c :: bytes)) with ([hex_digit (c / 16); hex_digit (c mod 16)] ++ render_bytes bytes).
  eapply macro_reads_app; [apply reads_pair; [done|lia]|].
  replace (text ++ c :: bytes) with ((text ++ [c]) ++ bytes) by (by rewrite <- app_assoc).
  apply IH. rewrite !length_app. simpl. lia.
Qed.

(** *** Repeats *)
Definition counting (count : Z) (text : wstring) (b : MacroBuffer) : Prop :=
  reading ExpectingRepeatCount 0 None text b /\ _repeatCount b = count.

Lemma reads_bang text : reads [0x21] (reading ExpectingHexDigit 0 None text) (counting 0 text).
Proof.
  apply reads_one; [lia|]. intros b Hb. eexists. split.
  - unfold parse_character, mbind, comp_bind, gets. rewrite (rd_state _ _ _ _ _ Hb), (rd_pending _ _ _ _ _ Hb).
    unfold _decodeHexDigit, mbind, comp_bind, modify. simpl. rewrite (rd_decoded _ _ _ _ _ Hb). done.
  - split; [|done]. destruct Hb. constructor; try done. destruct rd_ok0. by constructor.
Qed.

Lemma reads_count_digit ch count text : _isNumericParamValue ch = true -> 0 <= count <= MAX_PARAMETER_VALUE ->
  reads [ch] (counting count text) (counting (_AccumulateTo ch count) text).
Proof.
  intros Hd Hc. assert (48 <= ch <= 57) as Hr by (unfold _isNumericParamValue in Hd; lia).
  apply reads_one; [lia|]. intros b [Hb Hcount]. eexists. split.
  - unfold parse_character, mbind, comp_bind, gets. rewrite (rd_state _ _ _ _ _ Hb).
    replace ((48 <=? ch) && (ch <=? 57)) with true by lia. unfold modify. rewrite Hcount. done.
  - unfold MAX_PARAMETER_VALUE in Hc. assert (Z.min (usize size_bits (count * 10 + (ch - 48))) MAX_PARAMETER_VALUE = _AccumulateTo ch count) as ->.
    { unfold _AccumulateTo, MAX_PARAMETER_VALUE. rewrite usize_small by lia. destruct (Z.ltb_spec 65535 (count * 10 + (ch - 48))); lia. }
    split; [|done]. destruct Hb. constructor; try done. destruct rd_ok0. constructor; try done. simpl.
    unfold _AccumulateTo, MAX_PARAMETER_VALUE. destruct (Z.ltb_spec 65535 (count * 10 + (ch - 48))); lia.
Qed.

Lemma reads_count str o text : Forall (fun wch => _isNumericParamValue wch = true) str -> 0 <= default 0 o <= MAX_PARAMETER_VALUE ->
  reads str (counting (default 0 o) text) (counting (default 0 (fold_left read_digit str o)) text).
Proof.
  intros Hs. revert o. induction Hs as [|ch str Hd Hs IH]; intros o Ho; [apply reads_nil|].
  apply (macro_reads_app [ch] str) with (Q := counting (default 0 (read_digit o ch)) text).
  - by apply reads_count_digit.
  - apply (IH (read_digit o ch)). split; [apply read_digit_nonneg; [done|lia]|]. unfold read_digit, _AccumulateTo. simpl.
    destruct (Z.ltb_spec MAX_PARAMETER_VALUE (default 0 o * 10 + (ch - 48))); [done|]. lia.
Qed.

Lemma reads_count_end count text :
  reads [0x3B] (counting count text) (reading ExpectingHexDigit 0 (Some (Z.of_nat (length text), count)) text).
Proof.
  apply reads_one; [lia|]. intros b [Hb Hcount]. eexists. split.
  - unfold parse_character, mbind, comp_bind, gets. rewrite (rd_state _ _ _ _ _ Hb). simpl.
    unfold _activeMacro. rewrite (reading_lookup _ _ _ _ _ Hb). done.
  - destruct Hb. constructor; try done. destruct rd_ok0. by constructor.
Qed.

Lemma reading_repeat count text bytes b : 0 <= count -> Forall hex_byte bytes ->
  reading ExpectingHexDigit 0 (Some (Z.of_nat (length text), count)) (text ++ bytes) b ->
  Z.of_nat (length (text ++ copies (Z.max 1 count) bytes)) <= room ->
  exists b', _applyPendingRepeat size_bits b = (b', Returned true) /\
             reading ExpectingHexDigit 0 None (text ++ copies (Z.max 1 count) bytes) b'.
Proof.
  intros Hcount Hbytes Hb Hroom. pose proof (reading_lookup _ _ _ _ _ Hb) as Hl. destruct Hb as [Hok Hi Hm Hst Hd (Hp & Hs & Hc)].
  rewrite copies_max in *. rewrite !length_app in Hroom.
  assert (total (_macros b) = MAX_SPACE - room + Z.of_nat (length text) + Z.of_nat (length bytes)) as Htot
    by (rewrite Hm, room_total, length_app; lia).
  eexists. split.
  - rewrite (applyPendingRepeat_eq b text bytes) by done. rewrite Hc.
    destruct (Z.leb_spec (total (_macros b) + (count - 1) * Z.of_nat (length bytes)) (Z.max MAX_SPACE (total (_macros b)))) as [|Hno]; [done|].
    exfalso. destruct (Z.leb_spec 1 count); [|nia]. rewrite !Nat2Z.inj_add, copies_length in Hroom by lia. lia.
  - rewrite app_assoc. constructor; simpl; try done; [|by rewrite Hi, Hm, list_insert_insert_eq].
    apply buffer_ok_set_repeatPending, grow_ok; [done|done| |lia].
    apply copies_wchar. eapply Forall_impl; [done|]. unfold hex_byte, is_wchar. intros; simpl in *. lia.
Qed.

Lemma reads_repeat_end count text bytes : 0 <= count -> Forall hex_byte bytes ->
  Z.of_nat (length (text ++ copies (Z.max 1 count) bytes)) <= room ->
  reads [0x3B] (reading ExpectingHexDigit 0 (Some (Z.of_nat (length text), count)) (text ++ bytes))
    (reading ExpectingHexDigit 0 None (text ++ copies (Z.max 1 count) bytes)).
Proof.
  intros Hcount Hbytes Hroom. apply reads_one; [lia|]. intros b Hb.
  assert (set_decodedChar 0 b = b) as He by (rewrite <- (rd_decoded _ _ _ _ _ Hb); by destruct b).
  destruct (reading_repeat count text bytes b) as (b' & E & Hb'); try done. exists b'. split; [|done].
  unfold parse_character, mbind, comp_bind, gets. rewrite (rd_state _ _ _ _ _ Hb).
  destruct (rd_pending _ _ _ _ _ Hb) as (-> & _). unfold _decodeHexDigit, mbind, comp_bind, modify. simpl.
  rewrite (rd_decoded _ _ _ _ _ Hb). change (u16 (Z.shiftl 0 4)) with 0. by rewrite He.
Qed.

Lemma reads_repeat_open count text bytes : 0 <= count <= MAX_PARAMETER_VALUE -> Forall hex_byte bytes ->
  Z.of_nat (length (text ++ bytes)) <= room ->
  reads ([0x21] ++ decimal 5 count ++ [0x3B] ++ render_bytes bytes) (reading ExpectingHexDigit 0 None text)
    (reading ExpectingHexDigit 0 (Some (Z.of_nat (length text), count)) (text ++ bytes)).
Proof.
  intros Hcount Hbytes Hroom. eapply macro_reads_app; [apply reads_bang|].
  eapply macro_reads_app; [apply (reads_count (decimal 5 count) None); [apply decimal_digits; lia|done]|].
  change (decimal 5 count) with (render_value (Some count)). rewrite render_value_read by done.
  eapply macro_reads_app; [apply reads_count_end|]. by apply reads_pairs.
Qed.

Lemma reads_item i text : item_wf i -> Z.of_nat (length (text ++ denote_item i)) <= room ->
  reads (render_item i) (reading ExpectingHexDigit 0 None text) (reading ExpectingHexDigit 0 None (text ++ denote_item i)).
Proof.
  destruct i as [bytes|count bytes]; simpl item_wf; simpl denote_item; [by apply reads_pairs|].
  intros [Hcount Hbytes] Hroom. pose proof (item_grows count bytes). rewrite length_app in Hroom.
  change (render_item (HexRepeat count bytes)) with ([0x21] ++ decimal 5 count ++ [0x3B] ++ render_bytes bytes ++ [0x3B]).
  rewrite !app_assoc. eapply macro_reads_app; [rewrite <- !app_assoc; apply reads_repeat_open; [done|done|rewrite length_app; lia]|].
  apply reads_repeat_end; [lia|done|rewrite length_app; lia].
Qed.

Lemma reads_items items text : Forall item_wf items -> Z.of_nat (length (text ++ denote_items items)) <= room ->
  reads (render_items items) (reading ExpectingHexDigit 0 None text) (reading ExpectingHexDigit 0 None (text ++ denote_items items)).
Proof.
  intros Hi. revert text. induction Hi as [|i items Hi Hitems IH]; intros text Hroom; [rewrite app_nil_r; apply reads_nil|].
  change (denote_items (i :: items)) with (denote_item i ++ denote_items items) in *. rewrite !length_app in Hroom.
  change (render_items (i :: items)) with (render_item i ++ render_items items). rewrite app_assoc.
  eapply macro_reads_app; [apply reads_item; [done|rewrite length_app; lia]|]. apply IH. rewrite !length_app. lia.
Qed.

(** *** Text with controls, and too much of it *)
Definition printable (text : wstring) : wstring := filter (fun c => 0x20 <= c) text.

Lemma feed_text more text b : Forall is_wchar more -> Forall (fun c => c <> AsciiChars.ESC) more ->
  Z.of_nat (length text) <= room -> reading ExpectingText 0 None text b ->
  if decide (Z.of_nat (length (text ++ printable more)) <= room)
  then exists b', feed size_bits more b = (b', Returned true) /\ reading ExpectingText 0 None (text ++ printable more) b'
  else exists b', feed size_bits more b = (b', Returned false) /\ buffer_ok b' /\ _macros b' = <[id := []]> base.
Proof.
  intros Hw. revert text b. induction Hw as [|c more Hc Hw IH]; intros text b He Hl Hb.
  - change (printable []) with (@nil Z). rewrite app_nil_r, decide_True by done. by exists b.
  - apply Forall_cons in He as [Hne He]. unfold printable. rewrite filter_cons. fold (printable more). destruct (decide (32 <= c)) as [Hp|Hp].
    + destruct (Z.ltb_spec (Z.of_nat (length text)) room) as [Hlt|Hge].
      * assert (reads [c] (reading ExpectingText 0 None text) (reading ExpectingText 0 None (text ++ [c]))) as Hread.
        { apply reads_text; [by apply Forall_singleton|by apply Forall_singleton|rewrite length_app; simpl; lia]. }
        destruct (Hread b Hb) as (b1 & E1 & Hb1).
        specialize (IH (text ++ [c]) b1 He). rewrite <- app_assoc in IH. cbn [app] in IH.
        change (c :: more) with ([c] ++ more). rewrite (feed_app [c] more b b1) by done.
        apply IH; [rewrite length_app; simpl; lia|done].
      * rewrite decide_False by (rewrite length_app; simpl; lia). pose proof (reading_lookup _ _ _ _ _ Hb) as Hlook.
        destruct Hb. exists (with_active [] b).
        assert (total (_macros b) = MAX_SPACE) as Htot by (pose proof (bo_max b rd_ok0); rewrite rd_macros0, room_total in *; lia).
        split; [|split; [apply buffer_ok_with_active; [done|done|]|]].
        -- simpl. unfold ParseDefinition. replace (c =? AsciiChars.ESC) with false by (symmetry; by apply Z.eqb_neq).
           replace (c <? 32) with false by (symmetry; apply Z.ltb_ge; lia). unfold mbind, comp_bind, parse_character, gets.
           unfold mbind, comp_bind. rewrite rd_state0, (append_eq b text) by done.
           destruct (Z.ltb_spec (total (_macros b)) MAX_SPACE); [lia|]. by rewrite (delete_active_eq b text).
        -- rewrite (total_insert _ _ text) by done. simpl. lia.
        -- simpl. by rewrite rd_id0, rd_macros0, list_insert_insert_eq.
    + assert (feed size_bits (c :: more) b = feed size_bits more b) as ->; [|by apply IH].
      simpl. unfold ParseDefinition. replace (c =? AsciiChars.ESC) with false by (symmetry; by apply Z.eqb_neq).
      replace (c <? 32) with true by (symmetry; apply Z.ltb_lt; lia). done.
Qed.

(** The ESC at the end of a definition. *)
Lemma feed_end st d text b : reading st d None text b -> feed size_bits [AsciiChars.ESC] b = (b, Returned false).
Proof. intros Hb. simpl. unfold ParseDefinition, mbind, comp_bind, gets. simpl. unfold mbind, comp_bind. by rewrite (rd_pending _ _ _ _ _ Hb). Qed.
End Reading.

Lemma InitParser_DeleteId macroId encoding st b : buffer_ok b -> _invokedDepth b = 0 -> (macroId < MACRO_COUNT)%nat ->
  (encoding = MacroEncoding_HexPair /\ st = ExpectingHexDigit) \/ (encoding = MacroEncoding_Text /\ st = ExpectingText) ->
  exists b', InitParser size_bits macroId MacroDeleteControl_DeleteId encoding b = (b', Returned true) /\
             reading (_macros b) macroId st 0 None [] b' /\ same_rest (set_activeMacroId macroId b) b'.
Proof.
  intros Hok Hd Hid Henc. assert (is_Some (_macros b !! macroId)) as [m Hm].
  { apply lookup_lt_is_Some_2. by rewrite (bo_count b Hok). }
  set (b1 := set_parseState st (set_repeatPending false (set_decodedChar 0 (set_activeMacroId macroId b)))).
  assert (buffer_ok b1) as Hok1 by (destruct Hok; by constructor).
  exists (with_active [] b1). split.
  - unfold InitParser, mbind, comp_bind, gets. rewrite Hd, (bo_count b Hok).
    apply Nat.ltb_lt in Hid. rewrite Hid. simpl.
    destruct Henc as [[-> Hst]|[-> Hst]]; simpl; unfold mbind, comp_bind, modify;
      rewrite <- Hst; fold b1; by rewrite (delete_active_eq b1 m).
  - split; [|apply (same_rest_with_active [] b1)]. constructor; try done.
    apply buffer_ok_with_active; [done|done|]. simpl. rewrite (total_insert _ _ m) by done. pose proof (bo_max b Hok). simpl. lia.
Qed.

(** An unterminated repeat at the end of a definition is applied as well. *)
Definition render_tail (tail : option (Z * list Z)) : wstring :=
  match tail with None => [] | Some (count, bytes) => [0x21] ++ decimal 5 count ++ [0x3B] ++ render_bytes bytes end.
Definition denote_tail (tail : option (Z * list Z)) : wstring :=
  match tail with None => [] | Some (count, bytes) => copies (Z.max 1 count) bytes end.
Definition tail_wf (tail : option (Z * list Z)) : Prop :=
  match tail with None => True | Some (count, bytes) => item_wf (HexRepeat count bytes) end.

Lemma define_hex macroId items tail b : buffer_ok b -> _invokedDepth b = 0 -> (macroId < MACRO_COUNT)%nat ->
  Forall item_wf items -> tail_wf tail ->
  Z.of_nat (length (denote_items items ++ denote_tail tail)) <= room (_macros b) macroId ->
  exists b', define_macro size_bits macroId MacroDeleteControl_DeleteId MacroEncoding_HexPair (render_items items ++ render_tail tail) b
             = (b', Returned false) /\ _macros b' = <[macroId := denote_items items ++ denote_tail tail]> (_macros b).
Proof.
  intros Hok Hd Hid Hitems Htail Hroom. pose proof (bo_count b Hok) as Hcount. rewrite length_app in Hroom.
  destruct (InitParser_DeleteId macroId MacroEncoding_HexPair ExpectingHexDigit b) as (b1 & E1 & Hb1 & _); [done..|by left|].
  destruct (reads_items (_macros b) macroId Hcount Hid items [] Hitems) with (b := b1) as (b2 & E2 & Hb2); [simpl; lia|done|].
  cbn [app] in Hb2. unfold define_macro, mbind, comp_bind. rewrite E1. rewrite <- app_assoc, (feed_app _ _ b1 b2) by done.
  destruct tail as [[count bytes]|]; cbn [denote_tail render_tail] in *.
  - destruct Htail as [Hc Hbytes]. pose proof (item_grows count bytes).
    destruct (reads_repeat_open (_macros b) macroId Hcount Hid count (denote_items items) bytes Hc Hbytes) with (b := b2)
      as (b3 & E3 & Hb3); [rewrite length_app; lia|done|].
    rewrite (feed_app _ _ b2 b3) by done.
    destruct (reading_repeat (_macros b) macroId Hcount Hid count (denote_items items) bytes b3) as (b4 & E4 & Hb4);
      [lia|done|done|rewrite length_app; lia|].
    exists b4. split; [|by destruct Hb4]. simpl. unfold ParseDefinition, mbind, comp_bind, gets. simpl.
    destruct (rd_pending _ _ _ _ _ _ _ Hb3) as (Hp & _). unfold mbind, comp_bind. by rewrite Hp, E4.
  - exists b2. split; [by eapply feed_end|]. rewrite app_nil_r. by destruct Hb2.
Qed.

Lemma define_text macroId text b : buffer_ok b -> _invokedDepth b = 0 -> (macroId < MACRO_COUNT)%nat ->
  Forall is_wchar text -> Forall (fun c => c <> AsciiChars.ESC) text ->
  exists b', define_macro size_bits macroId MacroDeleteControl_DeleteId MacroEncoding_Text text b = (b', Returned false) /\
    _macros b' = <[macroId := if decide (Z.of_nat (length (printable text)) <= room (_macros b) macroId)
                              then printable text else []]> (_macros b).
Proof.
  intros Hok Hd Hid Hw He. pose proof (bo_count b Hok) as Hcount.
  destruct (InitParser_DeleteId macroId MacroEncoding_Text ExpectingText b) as (b1 & E1 & Hb1 & _); [done..|by right|].
  pose proof (feed_text (_macros b) macroId Hcount Hid text [] b1 Hw He) as Hfeed.
  unfold define_macro, mbind, comp_bind. rewrite E1.
  assert (0 <= room (_macros b) macroId) as Hr.
  { pose proof (rd_macros _ _ _ _ _ _ _ Hb1) as Hm. pose proof (bo_max b1 (rd_ok _ _ _ _ _ _ _ Hb1)) as Hmax. rewrite Hm in Hmax.
    unfold room. lia. }
  specialize (Hfeed ltac:(simpl; lia) Hb1). cbn [app] in Hfeed. case_decide.
  - destruct Hfeed as (b2 & E2 & Hb2). exists b2. rewrite (feed_app _ _ b1 b2) by done.
    split; [by eapply feed_end|by destruct Hb2].
  - destruct Hfeed as (b2 & E2 & _ & Hb2). exists b2. split; [|done].
    clear -E2. revert b1 E2. induction text as [|c text IH]; intros b1 E2; [done|]. simpl in *. unfold mbind, comp_bind in *.
    destruct (ParseDefinition size_bits c b1) as [b3 [[]| | |]]; try done. by apply IH.
Qed.
End Props.

(** ** Properties *)
Definition size_bits_x64 : Z := 64.

Lemma x64_wide : 35 <= size_bits_x64.
Proof. unfold size_bits_x64. lia. Qed.

Section Theorems.
Implicit Types b : MacroBuffer.

(** C26: In builds with a 64-bit size_t, the macro memory is accounted for exactly
    and never exceeds 0x40000 characters, whatever definitions, invocations and resets
    happen: the space that is reported is the space that is left, invocations nest at
    most 16 deep, and every definition, however malformed, is processed without an
    exception and leaves the memory within its bound. For the 32-bit build see
    [repeat_check_wraps_on_x86]. *)
Theorem macro_memory_bounded macroId deleteControl encoding text b :
  macro_reachable size_bits_x64 b -> Forall is_wchar text ->
  length (_macros b) = MACRO_COUNT /\
  GetSpaceAvailable size_bits_x64 b = MAX_SPACE - total (_macros b) /\ total (_macros b) <= MAX_SPACE /\
  0 <= _invokedDepth b <= 16 /\ 0 <= _invokedSequenceLength b <= MAX_SPACE /\
  exists b' r, define_macro size_bits_x64 macroId deleteControl encoding text b = (b', Returned r) /\
    total (_macros b') <= MAX_SPACE /\ _spaceUsed b' = total (_macros b').
Proof.
  intros Hr Ht. pose proof (macro_reachable_ok _ x64_wide b Hr) as Hok.
  rewrite (space_eq _ x64_wide b Hok). pose proof Hok as [Hcount _ _ Hmax _ _ Hdepth Hlen].
  repeat (split; [done|]).
  pose proof (define_macro_ok _ x64_wide macroId deleteControl encoding text b Hok Ht) as Hwp.
  unfold wp in Hwp. destruct (define_macro _ _ _ _ _ b) as [b' [r| | |]]; try done. exists b', r.
  destruct Hwp as [[] _]. done.
Qed.

(** A hex-encoded definition stores the characters it denotes: pairs of hex
    digits, repeats [!n;...;] and a trailing repeat without its semicolon, provided
    they fit beside the other macros, which keep their contents. *)
Lemma macro_hex_definition macroId items tail b :
  macro_reachable size_bits_x64 b -> _invokedDepth b = 0 -> (macroId < MACRO_COUNT)%nat ->
  Forall item_wf items -> tail_wf tail ->
  Z.of_nat (length (denote_items items ++ denote_tail tail)) <= MAX_SPACE - total (<[macroId := []]> (_macros b)) ->
  exists b', define_macro size_bits_x64 macroId MacroDeleteControl_DeleteId MacroEncoding_HexPair
               (render_items items ++ render_tail tail) b = (b', Returned false) /\
             _macros b' = <[macroId := denote_items items ++ denote_tail tail]> (_macros b).
Proof. intros Hr. apply (define_hex _ x64_wide), (macro_reachable_ok _ x64_wide), Hr. Qed.

(** A text definition stores its printable characters when they fit into the
    memory that the other macros leave, and leaves the macro empty otherwise;
    no other macro changes. *)
Lemma macro_text_definition macroId text b :
  macro_reachable size_bits_x64 b -> _invokedDepth b = 0 -> (macroId < MACRO_COUNT)%nat ->
  Forall is_wchar text -> Forall (fun c => c <> AsciiChars.ESC) text ->
  exists b', define_macro size_bits_x64 macroId MacroDeleteControl_DeleteId MacroEncoding_Text text b = (b', Returned false) /\
    _macros b' = <[macroId := if decide (Z.of_nat (length (printable text)) <= MAX_SPACE - total (<[macroId := []]> (_macros b)))
                              then printable text else []]> (_macros b).
Proof. intros Hr. apply (define_text _ x64_wide), (macro_reachable_ok _ x64_wide), Hr. Qed.

Lemma checksum_macro macro checksum : 
  fold_left (fun checksum ch => u16 (checksum - ch)) macro (u16 checksum) = u16 (checksum - fold_right Z.add 0 macro).
Proof.
  revert checksum. induction macro as [|c macro IH]; intros checksum; simpl; [f_equal; lia|].
  replace (u16 (u16 checksum - c)) with (u16 (checksum - c)) by (unfold u16; by rewrite Zminus_mod_idemp_l).
  rewrite IH. f_equal. lia.
Qed.

Lemma macro_sum_app (l1 l2 : list Z) : fold_right Z.add 0 (l1 ++ l2) = fold_right Z.add 0 l1 + fold_right Z.add 0 l2.
Proof. induction l1 as [|c l1 IH]; simpl; lia. Qed.

Lemma checksum_macros (macros : list wstring) checksum :
  fold_left (fun checksum macro => fold_left (fun checksum ch => u16 (checksum - ch)) macro checksum) macros (u16 checksum) =
  u16 (checksum - fold_right Z.add 0 (concat macros)).
Proof.
  revert checksum. induction macros as [|m macros IH]; intros checksum; simpl; [f_equal; lia|].
  rewrite checksum_macro, IH, macro_sum_app. f_equal. lia.
Qed.

(** The checksum is the negated sum of all characters, modulo 2^16. *)
Lemma macro_checksum b :
  CalculateChecksum b = (- fold_right Z.add 0 (concat (_macros b))) mod 2 ^ 16.
Proof.
  unfold CalculateChecksum. change 0 with (u16 0) at 1. rewrite checksum_macros. unfold u16. f_equal.
Qed.

(** On x86 the space that a repeat needs is computed modulo 2^32, so that a full
    buffer repeated 16385 times passes the check. *)
Lemma repeat_check_wraps_on_x86 b macro : _repeatCount b = 16385 -> _repeatStart b = 0 ->
  _macros b !! _activeMacroId b = Some macro -> Z.of_nat (length macro) = MAX_SPACE -> _spaceUsed b = MAX_SPACE ->
  _applyPendingRepeat 32 b =
  (append_copies 32 (Z.to_nat 16384) MAX_SPACE;; modify (set_repeatPending false);; mret true) b.
Proof.
  intros Hc Hs Hm Hl Hu. unfold _applyPendingRepeat. unfold mbind at 1, comp_bind at 1, gets at 1. rewrite Hc.
  change (1 <? 16385) with true. cbv iota. unfold mbind, comp_bind, gets.
  unfold _activeMacro. rewrite Hm, Hs, Hl. unfold GetSpaceAvailable. rewrite Hu.
  change (usize 32 (MAX_SPACE - MAX_SPACE) <? usize 32 (usize 32 (16385 - 1) * usize 32 (MAX_SPACE - 0))) with false.
  change (16385 - 1) with 16384. change (usize 32 (MAX_SPACE - 0)) with MAX_SPACE.
  cbv beta iota. by destruct (append_copies 32 (Z.to_nat 16384) MAX_SPACE b) as [b' []].
Qed.
End Theorems.

(** ** Witnesses *)

(** A buffer with one macro, [A], and one invocation of it under way. *)
Definition one_macro : MacroBuffer :=
  (define_macro size_bits_x64 3 MacroDeleteControl_DeleteId MacroEncoding_Text [0x41; 0xA; 0x42] new_MacroBuffer).1.

Lemma one_macro_reachable : macro_reachable size_bits_x64 one_macro.
Proof.
  eapply macro_next; [apply macro_new|]. apply step_define.
  repeat (apply Forall_cons; split); try by apply Forall_nil. all: unfold is_wchar; lia.
Qed.

(** [48690A!3;2E;] and an open repeat [!2;21]. *)
Definition sample_items : list HexItem := [HexBytes [0x48; 0x69; 0x0A]; HexRepeat 3 [0x2E]].
Definition sample_tail : option (Z * list Z) := Some (2, [0x21]).

Lemma macro_memory_bounded_witness :
  length (_macros one_macro) = MACRO_COUNT /\ GetSpaceAvailable size_bits_x64 one_macro = MAX_SPACE - 2.
Proof.
  destruct (macro_memory_bounded 3 0 1 [0x21; 0x3B] one_macro) as (H1 & H2 & _).
  - exact one_macro_reachable.
  - repeat (apply Forall_cons; split); try by apply Forall_nil. all: unfold is_wchar; lia.
  - split; [exact H1|]. rewrite H2. reflexivity.
Defined.

