(* ===== verification/Utils.v ===== *)
(** * Helpers for strings, numbers and colours

    Models the helpers of src/types/utils.cpp and src/inc/til/string.h that the
    output engine uses to take apart operating system commands, and the colour
    type of src/inc/til/color.h. *)

From S2P Require Import Prelude.

(** ** til::color *)
Record color := mkColor { color_r : Z; color_g : Z; color_b : Z; color_a : Z }.
#[global] Instance color_eq_dec : EqDecision color.
Proof. solve_decision. Defined.

Definition color_rgb (r g b : Z) : color := mkColor r g b 255.
(** The union member [abgr] of a little-endian machine. *)
Definition color_abgr (c : color) : Z :=
  Z.lor (color_r c) (Z.lor (Z.shiftl (color_g c) 8) (Z.lor (Z.shiftl (color_b c) 16) (Z.shiftl (color_a c) 24))).
(** The conversion to [COLORREF]. *)
Definition color_COLORREF (c : color) : Z := Z.land (color_abgr c) 0x00FFFFFF.
Definition LOBYTE (z : Z) : Z := Z.land z 0xFF.

(** ** Numbers *)
Definition _isNumber (wch : wchar) : bool := (0x30 <=? wch) && (wch <=? 0x39).

Definition HexToUint (wch : wchar) : option Z :=
  if (0x30 <=? wch) && (wch <=? 0x39) then Some (wch - 0x30)
  else if (0x41 <=? wch) && (wch <=? 0x46) then Some (wch - 0x41 + 10)
  else if (0x61 <=? wch) && (wch <=? 0x66) then Some (wch - 0x61 + 10)
  else None.

(** The loop of [StringToUint]; an [unsigned int] wraps around. *)
Fixpoint StringToUint_loop (result : Z) (wstr : wstring) : option Z :=
  match wstr with
  | [] => Some result
  | wch :: wstr => if _isNumber wch then StringToUint_loop (u32 (u32 (result * 10) + (wch - 0x30))) wstr else None
  end.

Definition StringToUint (wstr : wstring) : option Z :=
  match wstr with
  | [] => None
  | _ => StringToUint_loop 0 wstr
  end.

(** The value of a digit in [details::parse_u64]; invalid characters have values above 35. *)
Definition digit_value (ch : wchar) : Z :=
  let mask := 2 ^ 64 - 1 - 0x20 in
  let sub := if (0x30 <=? ch) && (ch <=? 0x39) then Z.land (0x30 - 1) mask else Z.land (0x41 - 1) mask - 10 in
  u64 (Z.land (u64 (ch - 1)) mask - sub).

Fixpoint parse_digits (base accumulator : Z) (str : wstring) : option Z :=
  match str with
  | [] => Some accumulator
  | ch :: str =>
    let value := digit_value ch in
    let acc := u64 (u64 (accumulator * base) + value) in
    if (base <=? value) || ((2 ^ 64 - 1) / base <? accumulator) || (acc <? accumulator) then None
    else parse_digits base acc str
  end.

(** The base that a prefix stands for, and what follows the prefix. *)
Definition detect_base (str : wstring) : Z * wstring :=
  match str with
  | 0x30 :: ch :: rest =>
    let lower := Z.lor ch 0x20 in
    if lower =? 0x62 then (2, rest)
    else if lower =? 0x78 then (16, rest)
    else (8, ch :: rest)
  | _ => (10, str)
  end.

(** [details::parse_u64] *)
Definition parse_u64 (base : Z) (str : wstring) : option Z :=
  let '(base_uint64, str) := if base <=? 0 then detect_base str else (base, str) in
  match str with
  | [] => None
  | _ => if 36 <? base_uint64 then None else parse_digits base_uint64 0 str
  end.

(** ** SplitString

    The loop runs once per delimiter, so the length is fuel enough. *)
Fixpoint SplitString_loop (fuel : nat) (wstr : wstring) (delimiter : wchar) : list wstring :=
  match fuel, wstr with
  | O, _ => []
  | _, [] => []
  | S fuel, _ =>
    match split_at delimiter wstr with
    | None => [wstr]
    | Some (part, rest) =>
      part :: match rest with [] => [[]] | _ => SplitString_loop fuel rest delimiter end
    end
  end.

Definition SplitString (wstr : wstring) (delimiter : wchar) : list wstring :=
  SplitString_loop (length wstr) wstr delimiter.

(** ** ColorFromXParseColorSpec

    One component: the loop over [i], for at most [iterations] digits. The result
    holds [foundColor], the value, [rgbHexDigitCount] and the rest of the string;
    [None] is the early return on a character that is no hex digit. *)
Fixpoint parse_component (sharp : bool) (component : nat) (iterations i : nat) (value : Z) (digits : nat) (found : bool)
    (curr : wstring) : option (bool * Z * nat * wstring) :=
  match iterations, curr with
  | O, _ => Some (found, value, digits, curr)
  | _, [] => Some (found, value, digits, curr)
  | S iterations, wch :: curr =>
    intVal ← HexToUint wch;
    let value := u32 (u32 (value * 16) + intVal) in
    if sharp then
      if (digits <=? i)%nat then Some (true, value, digits, curr)
      else parse_component sharp component iterations (S i) value digits true curr
    else
      let digits := S i in
      match curr with
      | [] => Some (true, value, digits, curr)
      | next :: curr' =>
        if (component <? 2)%nat && (next =? 0x2F) then Some (true, value, digits, curr')
        else parse_component sharp component iterations (S i) value digits found curr
      end
  end.

Definition scale (sharp : bool) (digits : nat) (value : Z) : Z :=
  let scaleMultiplier := if sharp then 0x10 else 0x11 in
  let scaleDivisor := Z.shiftr (Z.shiftl scaleMultiplier 8) (4 * (4 - Z.of_nat digits)) in
  u32 (value * scaleMultiplier) / scaleDivisor.

(** One round of the loop over the components. *)
Definition parse_scaled (sharp : bool) (digits : nat) (component : nat) (curr : wstring) : option (Z * nat * wstring) :=
  '(found, value, digits, curr) ← parse_component sharp component (if sharp then digits else 4) 0 0 digits false curr;
  if found : bool then Some (scale sharp digits value, digits, curr) else None.

Definition parse_components (sharp : bool) (digits : nat) (curr : wstring) : option color :=
  '(r, digits, curr) ← parse_scaled sharp digits 0 curr;
  '(g, digits, curr) ← parse_scaled sharp digits 1 curr;
  '(b, digits, curr) ← parse_scaled sharp digits 2 curr;
  match curr with
  | [] => Some (color_rgb (LOBYTE r) (LOBYTE g) (LOBYTE b))
  | _ => None
  end.

Definition tolower_ascii (c : wchar) : wchar := if (0x41 <=? c) && (c <=? 0x5A) then Z.lor c 0x20 else c.

Definition ColorFromXParseColorSpec (string : wstring) : option color :=
  let stringSize := length string in
  if (4 <? stringSize)%nat && bool_decide (map tolower_ascii (take 4 string) = wide "rgb:") then
    if (stringSize <? 9)%nat || (18 <? stringSize)%nat then None
    else parse_components false 0 (drop 4 string)
  else
    match string with
    | 0x23 :: _ :: _ =>
      if (stringSize =? 4)%nat || (stringSize =? 7)%nat || (stringSize =? 10)%nat || (stringSize =? 13)%nat
      then parse_components true ((stringSize - 1) / 3) (drop 1 string)
      else None
    | _ => None
    end.
