(* ===== verification/ColorTable.v ===== *)
(** * Named colours

    The tables of src/types/colorTable.cpp and the lookup of X11 colour names. *)

From S2P Require Import Prelude Utils.

(** ** Static maps

    Models src/inc/til/static_map.h: a sorted array of pairs, searched with
    [std::partition_point]. *)

(** [operator<] of strings. *)
Fixpoint wstring_ltb (s1 s2 : wstring) : bool :=
  match s1, s2 with
  | _, [] => false
  | [], _ :: _ => true
  | c1 :: s1, c2 :: s2 => (c1 <? c2) || ((c1 =? c2) && wstring_ltb s1 s2)
  end.

(** [std::partition_point]: the range is halved until it is empty. The number of
    rounds is at most the number of elements, which is the fuel. *)
Fixpoint partition_point {A} (fuel : nat) (pred : A -> bool) (l : list A) (first count : nat) : nat :=
  match fuel, count with
  | O, _ => first
  | _, O => first
  | S fuel, _ =>
    let step := (count / 2)%nat in
    match l !! (first + step)%nat with
    | Some a =>
      if pred a then partition_point fuel pred l (first + step + 1) (count - (step + 1))
      else partition_point fuel pred l first step
    | None => first
    end
  end.

(** [static_map::find] *)
Definition static_map_find {V} (map : list (wstring * V)) (key : wstring) : option V :=
  match map !! partition_point (length map) (fun p => wstring_ltb p.1 key) map 0 (length map) with
  | Some (k, v) => if bool_decide (key = k) then Some v else None
  | None => None
  end.

(** What [presorted_static_map] relies on: the keys are strictly increasing. *)
Fixpoint presorted {V} (map : list (wstring * V)) : bool :=
  match map with
  | [] => true
  | (k, _) :: rest =>
    match rest with
    | [] => true
    | (k', _) :: _ => wstring_ltb k k' && presorted rest
    end
  end.

(** ** The order on strings *)
Lemma wstring_ltb_trans s1 s2 s3 : wstring_ltb s1 s2 = true -> wstring_ltb s2 s3 = true -> wstring_ltb s1 s3 = true.
Proof.
  revert s2 s3. induction s1 as [|c1 s1 IH]; intros [|c2 s2] [|c3 s3]; simpl; try done.
  rewrite !orb_true_iff, !andb_true_iff, !Z.ltb_lt, !Z.eqb_eq.
  intros [?|[-> H1]] [?|[-> H2]]; try (left; lia); try (by left). right. split; [done|]. by eapply IH.
Qed.

Lemma wstring_ltb_irrefl s : wstring_ltb s s = false.
Proof. induction s as [|c s IH]; simpl; [done|]. rewrite Z.ltb_irrefl, Z.eqb_refl, IH. done. Qed.

(** ** The search *)
Lemma partition_point_spec {A} (pred : A -> bool) (l : list A) fuel first count k :
  (first <= k <= first + count)%nat -> (first + count <= length l)%nat -> (count <= fuel)%nat ->
  (forall i a, l !! i = Some a -> (i < k)%nat -> pred a = true) ->
  (forall i a, l !! i = Some a -> (k <= i)%nat -> pred a = false) ->
  partition_point fuel pred l first count = k.
Proof.
  revert first count. induction fuel as [|fuel IH]; intros first count Hk Hl Hf Ht Hn; [simpl; lia|].
  destruct count as [|count]; [simpl; lia|]. cbn [partition_point].
  assert (S count / 2 < S count)%nat as Hstep by (apply Nat.div_lt; lia).
  set (step := (S count / 2)%nat) in *. clearbody step.
  destruct (l !! (first + step)%nat) as [a|] eqn:Ha; [|apply lookup_ge_None in Ha; lia].
  destruct (Nat.lt_ge_cases (first + step) k).
  - rewrite (Ht _ _ Ha) by lia. apply IH; try done; lia.
  - rewrite (Hn _ _ Ha) by lia. apply IH; try done; lia.
Qed.

Lemma presorted_tail {V} (p : wstring * V) map : presorted (p :: map) = true ->
  presorted map = true /\ Forall (fun q => wstring_ltb p.1 q.1 = true) map.
Proof.
  revert p. induction map as [|[k' v'] map IH]; intros [k v] Hs; [done|].
  simpl in Hs. apply andb_true_iff in Hs as [Hlt Hs]. split; [done|].
  apply Forall_cons. split; [done|]. destruct (IH (k', v') Hs) as [_ Hall].
  eapply Forall_impl; [done|]. intros q Hq. simpl in *. by eapply wstring_ltb_trans.
Qed.

Lemma presorted_lookup {V} (map : list (wstring * V)) i j p q : presorted map = true ->
  map !! i = Some p -> map !! j = Some q -> (i < j)%nat -> wstring_ltb p.1 q.1 = true.
Proof.
  revert i j. induction map as [|x map IH]; intros i j Hs Hi Hj Hij; [done|].
  destruct (presorted_tail x map Hs) as [Hs' Hall]. destruct j as [|j]; [lia|]. destruct i as [|i]; simpl in *.
  - simplify_eq. rewrite Forall_lookup in Hall. by eapply Hall.
  - apply (IH i j); try done. lia.
Qed.

(** In a map whose keys are sorted, the binary search finds every entry by
    its key, and nothing for a key that is not there. *)
Lemma static_map_find_correct {V} (map : list (wstring * V)) key : presorted map = true ->
  (forall i v, map !! i = Some (key, v) -> static_map_find map key = Some v) /\
  ((forall i v, map !! i <> Some (key, v)) -> static_map_find map key = None).
Proof.
  intros Hs. split.
  - intros i v Hi. unfold static_map_find. rewrite (partition_point_spec _ _ _ _ _ i); [by rewrite Hi, bool_decide_true| |lia|lia| |].
    + apply lookup_lt_Some in Hi. lia.
    + intros j q Hj Hlt. by apply (presorted_lookup map j i q (key, v)).
    + intros j q Hj Hle. destruct (decide (i = j)) as [->|Hne]; [rewrite Hi in Hj; simplify_eq; apply wstring_ltb_irrefl|].
      destruct (wstring_ltb q.1 key) eqn:Hlt; [|done].
      pose proof (presorted_lookup map i j (key, v) q Hs Hi Hj ltac:(lia)) as Hlt'. simpl in Hlt'.
      pose proof (wstring_ltb_trans _ _ _ Hlt Hlt') as Hc. by rewrite wstring_ltb_irrefl in Hc.
  - intros Hno. unfold static_map_find. destruct (map !! _) as [[k v]|] eqn:Hl; [|done].
    rewrite bool_decide_false; [done|]. intros <-. by eapply Hno.
Qed.

Definition campbellColorTable : list color :=
  [color_rgb 12 12 12; color_rgb 197 15 31; color_rgb 19 161 14; color_rgb 193 156 0;
   color_rgb 0 55 218; color_rgb 136 23 152; color_rgb 58 150 221; color_rgb 204 204 204;
   color_rgb 118 118 118; color_rgb 231 72 86; color_rgb 22 198 12; color_rgb 249 241 165;
   color_rgb 59 120 255; color_rgb 180 0 158; color_rgb 97 214 214; color_rgb 242 242 242].

Definition vt340ColorTable : list color :=
  [color_rgb 0 0 0; color_rgb 51 51 204; color_rgb 204 36 36; color_rgb 51 204 51;
   color_rgb 204 51 204; color_rgb 51 204 204; color_rgb 204 204 51; color_rgb 120 120 120;
   color_rgb 69 69 69; color_rgb 87 87 153; color_rgb 153 69 69; color_rgb 87 153 87;
   color_rgb 153 87 153; color_rgb 87 153 153; color_rgb 153 153 87; color_rgb 204 204 204].

(** ** The default colour table

    A table is a span of [COLORREF]s; writes are in range by the size tests. *)
Definition overwrite (values table : list Z) : list Z := values ++ drop (length values) table.

Definition InitializeANSIColorTable (table : list Z) : list Z :=
  if (length campbellColorTable <=? length table)%nat then overwrite (map color_COLORREF campbellColorTable) table else table.

Definition InitializeVT340ColorTable (table : list Z) : list Z :=
  if (length vt340ColorTable <=? length table)%nat then overwrite (map color_COLORREF vt340ColorTable) table else table.

(** The colour cube, entry [i] of 216. *)
Definition cube_scale : list Z := [0; 0x5F; 0x87; 0xAF; 0xD7; 0xFF].
Definition cube_color (monochrome : bool) (i : nat) : color :=
  let r := nth ((i / 36) mod 6) cube_scale 0 in
  let g := nth ((i / 6) mod 6) cube_scale 0 in
  let b := nth (i mod 6) cube_scale 0 in
  if monochrome then let l := (r + g + b) / 3 in color_rgb l l l else color_rgb r g b.
Definition gray_color (i : nat) : color := let l := u8 (Z.of_nat i * 10 + 8) in color_rgb l l l.

Definition InitializeExtendedColorTable (table : list Z) (monochrome : bool) : list Z :=
  if (256 <=? length table)%nat then
    take 16 table ++
    overwrite (map (fun i => color_COLORREF (cube_color monochrome i)) (seq 0 216) ++
               map (fun i => color_COLORREF (gray_color i)) (seq 0 24)) (drop 16 table)
  else table.

Definition InitializeColorTable (table : list Z) : list Z :=
  InitializeExtendedColorTable (InitializeANSIColorTable table) false.

(** ** Names *)
Definition xorgAppVariantColorTable : list (wstring * list color) :=
  [(wide "antiquewhite", [color_rgb 250 235 215; color_rgb 255 239 219; color_rgb 238 223 204; color_rgb 205 192 176; color_rgb 139 131 120]);
   (wide "aquamarine", [color_rgb 127 255 212; color_rgb 127 255 212; color_rgb 118 238 198; color_rgb 102 205 170; color_rgb 69 139 116]);
   (wide "azure", [color_rgb 240 255 255; color_rgb 240 255 255; color_rgb 224 238 238; color_rgb 193 205 205; color_rgb 131 139 139]);
   (wide "bisque", [color_rgb 255 228 196; color_rgb 255 228 196; color_rgb 238 213 183; color_rgb 205 183 158; color_rgb 139 125 107]);
   (wide "blue", [color_rgb 0 0 255; color_rgb 0 0 255; color_rgb 0 0 238; color_rgb 0 0 205; color_rgb 0 0 139]);
   (wide "brown", [color_rgb 165 42 42; color_rgb 255 64 64; color_rgb 238 59 59; color_rgb 205 51 51; color_rgb 139 35 35]);
   (wide "burlywood", [color_rgb 222 184 135; color_rgb 255 211 155; color_rgb 238 197 145; color_rgb 205 170 125; color_rgb 139 115 85]);
   (wide "cadetblue", [color_rgb 95 158 160; color_rgb 152 245 255; color_rgb 142 229 238; color_rgb 122 197 205; color_rgb 83 134 139]);
   (wide "chartreuse", [color_rgb 127 255 0; color_rgb 127 255 0; color_rgb 118 238 0; color_rgb 102 205 0; color_rgb 69 139 0]);
   (wide "chocolate", [color_rgb 210 105 30; color_rgb 255 127 36; color_rgb 238 118 33; color_rgb 205 102 29; color_rgb 139 69 19]);
   (wide "coral", [color_rgb 255 127 80; color_rgb 255 114 86; color_rgb 238 106 80; color_rgb 205 91 69; color_rgb 139 62 47]);
   (wide "cornsilk", [color_rgb 255 248 220; color_rgb 255 248 220; color_rgb 238 232 205; color_rgb 205 200 177; color_rgb 139 136 120]);
   (wide "cyan", [color_rgb 0 255 255; color_rgb 0 255 255; color_rgb 0 238 238; color_rgb 0 205 205; color_rgb 0 139 139]);
   (wide "darkgoldenrod", [color_rgb 184 134 11; color_rgb 255 185 15; color_rgb 238 173 14; color_rgb 205 149 12; color_rgb 139 101 8]);
   (wide "darkolivegreen", [color_rgb 85 107 47; color_rgb 202 255 112; color_rgb 188 238 104; color_rgb 162 205 90; color_rgb 110 139 61]);
   (wide "darkorange", [color_rgb 255 140 0; color_rgb 255 127 0; color_rgb 238 118 0; color_rgb 205 102 0; color_rgb 139 69 0]);
   (wide "darkorchid", [color_rgb 153 50 204; color_rgb 191 62 255; color_rgb 178 58 238; color_rgb 154 50 205; color_rgb 104 34 139]);
   (wide "darkseagreen", [color_rgb 143 188 143; color_rgb 193 255 193; color_rgb 180 238 180; color_rgb 155 205 155; color_rgb 105 139 105]);
   (wide "darkslategray", [color_rgb 47 79 79; color_rgb 151 255 255; color_rgb 141 238 238; color_rgb 121 205 205; color_rgb 82 139 139]);
   (wide "deeppink", [color_rgb 255 20 147; color_rgb 255 20 147; color_rgb 238 18 137; color_rgb 205 16 118; color_rgb 139 10 80]);
   (wide "deepskyblue", [color_rgb 0 191 255; color_rgb 0 191 255; color_rgb 0 178 238; color_rgb 0 154 205; color_rgb 0 104 139]);
   (wide "dodgerblue", [color_rgb 30 144 255; color_rgb 30 144 255; color_rgb 28 134 238; color_rgb 24 116 205; color_rgb 16 78 139]);
   (wide "firebrick", [color_rgb 178 34 34; color_rgb 255 48 48; color_rgb 238 44 44; color_rgb 205 38 38; color_rgb 139 26 26]);
   (wide "gold", [color_rgb 255 215 0; color_rgb 255 215 0; color_rgb 238 201 0; color_rgb 205 173 0; color_rgb 139 117 0]);
   (wide "goldenrod", [color_rgb 218 165 32; color_rgb 255 193 37; color_rgb 238 180 34; color_rgb 205 155 29; color_rgb 139 105 20]);
   (wide "green", [color_rgb 0 255 0; color_rgb 0 255 0; color_rgb 0 238 0; color_rgb 0 205 0; color_rgb 0 139 0]);
   (wide "honeydew", [color_rgb 240 255 240; color_rgb 240 255 240; color_rgb 224 238 224; color_rgb 193 205 193; color_rgb 131 139 131]);
   (wide "hotpink", [color_rgb 255 105 180; color_rgb 255 110 180; color_rgb 238 106 167; color_rgb 205 96 144; color_rgb 139 58 98]);
   (wide "indianred", [color_rgb 205 92 92; color_rgb 255 106 106; color_rgb 238 99 99; color_rgb 205 85 85; color_rgb 139 58 58]);
   (wide "ivory", [color_rgb 255 255 240; color_rgb 255 255 240; color_rgb 238 238 224; color_rgb 205 205 193; color_rgb 139 139 131]);
   (wide "khaki", [color_rgb 240 230 140; color_rgb 255 246 143; color_rgb 238 230 133; color_rgb 205 198 115; color_rgb 139 134 78]);
   (wide "lavenderblush", [color_rgb 255 240 245; color_rgb 255 240 245; color_rgb 238 224 229; color_rgb 205 193 197; color_rgb 139 131 134]);
   (wide "lemonchiffon", [color_rgb 255 250 205; color_rgb 255 250 205; color_rgb 238 233 191; color_rgb 205 201 165; color_rgb 139 137 112]);
   (wide "lightblue", [color_rgb 173 216 230; color_rgb 191 239 255; color_rgb 178 223 238; color_rgb 154 192 205; color_rgb 104 131 139]);
   (wide "lightcyan", [color_rgb 224 255 255; color_rgb 224 255 255; color_rgb 209 238 238; color_rgb 180 205 205; color_rgb 122 139 139]);
   (wide "lightgoldenrod", [color_rgb 238 221 130; color_rgb 255 236 139; color_rgb 238 220 130; color_rgb 205 190 112; color_rgb 139 129 76]);
   (wide "lightpink", [color_rgb 255 182 193; color_rgb 255 174 185; color_rgb 238 162 173; color_rgb 205 140 149; color_rgb 139 95 101]);
   (wide "lightsalmon", [color_rgb 255 160 122; color_rgb 255 160 122; color_rgb 238 149 114; color_rgb 205 129 98; color_rgb 139 87 66]);
   (wide "lightskyblue", [color_rgb 135 206 250; color_rgb 176 226 255; color_rgb 164 211 238; color_rgb 141 182 205; color_rgb 96 123 139]);
   (wide "lightsteelblue", [color_rgb 176 196 222; color_rgb 202 225 255; color_rgb 188 210 238; color_rgb 162 181 205; color_rgb 110 123 139]);
   (wide "lightyellow", [color_rgb 255 255 224; color_rgb 255 255 224; color_rgb 238 238 209; color_rgb 205 205 180; color_rgb 139 139 122]);
   (wide "magenta", [color_rgb 255 0 255; color_rgb 255 0 255; color_rgb 238 0 238; color_rgb 205 0 205; color_rgb 139 0 139]);
   (wide "maroon", [color_rgb 176 48 96; color_rgb 255 52 179; color_rgb 238 48 167; color_rgb 205 41 144; color_rgb 139 28 98]);
   (wide "mediumorchid", [color_rgb 186 85 211; color_rgb 224 102 255; color_rgb 209 95 238; color_rgb 180 82 205; color_rgb 122 55 139]);
   (wide "mediumpurple", [color_rgb 147 112 219; color_rgb 171 130 255; color_rgb 159 121 238; color_rgb 137 104 205; color_rgb 93 71 139]);
   (wide "mistyrose", [color_rgb 255 228 225; color_rgb 255 228 225; color_rgb 238 213 210; color_rgb 205 183 181; color_rgb 139 125 123]);
   (wide "navajowhite", [color_rgb 255 222 173; color_rgb 255 222 173; color_rgb 238 207 161; color_rgb 205 179 139; color_rgb 139 121 94]);
   (wide "olivedrab", [color_rgb 107 142 35; color_rgb 192 255 62; color_rgb 179 238 58; color_rgb 154 205 50; color_rgb 105 139 34]);
   (wide "orange", [color_rgb 255 165 0; color_rgb 255 165 0; color_rgb 238 154 0; color_rgb 205 133 0; color_rgb 139 90 0]);
   (wide "orangered", [color_rgb 255 69 0; color_rgb 255 69 0; color_rgb 238 64 0; color_rgb 205 55 0; color_rgb 139 37 0]);
   (wide "orchid", [color_rgb 218 112 214; color_rgb 255 131 250; color_rgb 238 122 233; color_rgb 205 105 201; color_rgb 139 71 137]);
   (wide "palegreen", [color_rgb 152 251 152; color_rgb 154 255 154; color_rgb 144 238 144; color_rgb 124 205 124; color_rgb 84 139 84]);
   (wide "paleturquoise", [color_rgb 175 238 238; color_rgb 187 255 255; color_rgb 174 238 238; color_rgb 150 205 205; color_rgb 102 139 139]);
   (wide "palevioletred", [color_rgb 219 112 147; color_rgb 255 130 171; color_rgb 238 121 159; color_rgb 205 104 137; color_rgb 139 71 93]);
   (wide "peachpuff", [color_rgb 255 218 185; color_rgb 255 218 185; color_rgb 238 203 173; color_rgb 205 175 149; color_rgb 139 119 101]);
   (wide "pink", [color_rgb 255 192 203; color_rgb 255 181 197; color_rgb 238 169 184; color_rgb 205 145 158; color_rgb 139 99 108]);
   (wide "plum", [color_rgb 221 160 221; color_rgb 255 187 255; color_rgb 238 174 238; color_rgb 205 150 205; color_rgb 139 102 139]);
   (wide "purple", [color_rgb 160 32 240; color_rgb 155 48 255; color_rgb 145 44 238; color_rgb 125 38 205; color_rgb 85 26 139]);
   (wide "red", [color_rgb 255 0 0; color_rgb 255 0 0; color_rgb 238 0 0; color_rgb 205 0 0; color_rgb 139 0 0]);
   (wide "rosybrown", [color_rgb 188 143 143; color_rgb 255 193 193; color_rgb 238 180 180; color_rgb 205 155 155; color_rgb 139 105 105]);
   (wide "royalblue", [color_rgb 65 105 225; color_rgb 72 118 255; color_rgb 67 110 238; color_rgb 58 95 205; color_rgb 39 64 139]);
   (wide "salmon", [color_rgb 250 128 114; color_rgb 255 140 105; color_rgb 238 130 98; color_rgb 205 112 84; color_rgb 139 76 57]);
   (wide "seagreen", [color_rgb 46 139 87; color_rgb 84 255 159; color_rgb 78 238 148; color_rgb 67 205 128; color_rgb 46 139 87]);
   (wide "seashell", [color_rgb 255 245 238; color_rgb 255 245 238; color_rgb 238 229 222; color_rgb 205 197 191; color_rgb 139 134 130]);
   (wide "sienna", [color_rgb 160 82 45; color_rgb 255 130 71; color_rgb 238 121 66; color_rgb 205 104 57; color_rgb 139 71 38]);
   (wide "skyblue", [color_rgb 135 206 235; color_rgb 135 206 255; color_rgb 126 192 238; color_rgb 108 166 205; color_rgb 74 112 139]);
   (wide "slateblue", [color_rgb 106 90 205; color_rgb 131 111 255; color_rgb 122 103 238; color_rgb 105 89 205; color_rgb 71 60 139]);
   (wide "slategray", [color_rgb 112 128 144; color_rgb 198 226 255; color_rgb 185 211 238; color_rgb 159 182 205; color_rgb 108 123 139]);
   (wide "snow", [color_rgb 255 250 250; color_rgb 255 250 250; color_rgb 238 233 233; color_rgb 205 201 201; color_rgb 139 137 137]);
   (wide "springgreen", [color_rgb 0 255 127; color_rgb 0 255 127; color_rgb 0 238 118; color_rgb 0 205 102; color_rgb 0 139 69]);
   (wide "steelblue", [color_rgb 70 130 180; color_rgb 99 184 255; color_rgb 92 172 238; color_rgb 79 148 205; color_rgb 54 100 139]);
   (wide "tan", [color_rgb 210 180 140; color_rgb 255 165 79; color_rgb 238 154 73; color_rgb 205 133 63; color_rgb 139 90 43]);
   (wide "thistle", [color_rgb 216 191 216; color_rgb 255 225 255; color_rgb 238 210 238; color_rgb 205 181 205; color_rgb 139 123 139]);
   (wide "tomato", [color_rgb 255 99 71; color_rgb 255 99 71; color_rgb 238 92 66; color_rgb 205 79 57; color_rgb 139 54 38]);
   (wide "turquoise", [color_rgb 64 224 208; color_rgb 0 245 255; color_rgb 0 229 238; color_rgb 0 197 205; color_rgb 0 134 139]);
   (wide "violetred", [color_rgb 208 32 144; color_rgb 255 62 150; color_rgb 238 58 140; color_rgb 205 50 120; color_rgb 139 34 82]);
   (wide "wheat", [color_rgb 245 222 179; color_rgb 255 231 186; color_rgb 238 216 174; color_rgb 205 186 150; color_rgb 139 126 102]);
   (wide "yellow", [color_rgb 255 255 0; color_rgb 255 255 0; color_rgb 238 238 0; color_rgb 205 205 0; color_rgb 139 139 0])].

Definition xorgAppColorTable : list (wstring * color) :=
  [(wide "aliceblue", color_rgb 240 248 255);
   (wide "aqua", color_rgb 0 255 255);
   (wide "beige", color_rgb 245 245 220);
   (wide "black", color_rgb 0 0 0);
   (wide "blanchedalmond", color_rgb 255 235 205);
   (wide "blueviolet", color_rgb 138 43 226);
   (wide "cornflowerblue", color_rgb 100 149 237);
   (wide "crimson", color_rgb 220 20 60);
   (wide "darkblue", color_rgb 0 0 139);
   (wide "darkcyan", color_rgb 0 139 139);
   (wide "darkgray", color_rgb 169 169 169);
   (wide "darkgreen", color_rgb 0 100 0);
   (wide "darkgrey", color_rgb 169 169 169);
   (wide "darkkhaki", color_rgb 189 183 107);
   (wide "darkmagenta", color_rgb 139 0 139);
   (wide "darkred", color_rgb 139 0 0);
   (wide "darksalmon", color_rgb 233 150 122);
   (wide "darkslateblue", color_rgb 72 61 139);
   (wide "darkslategrey", color_rgb 47 79 79);
   (wide "darkturquoise", color_rgb 0 206 209);
   (wide "darkviolet", color_rgb 148 0 211);
   (wide "dimgray", color_rgb 105 105 105);
   (wide "dimgrey", color_rgb 105 105 105);
   (wide "floralwhite", color_rgb 255 250 240);
   (wide "forestgreen", color_rgb 34 139 34);
   (wide "fuchsia", color_rgb 255 0 255);
   (wide "gainsboro", color_rgb 220 220 220);
   (wide "ghostwhite", color_rgb 248 248 255);
   (wide "gray", color_rgb 190 190 190);
   (wide "greenyellow", color_rgb 173 255 47);
   (wide "grey", color_rgb 190 190 190);
   (wide "indigo", color_rgb 75 0 130);
   (wide "lavender", color_rgb 230 230 250);
   (wide "lawngreen", color_rgb 124 252 0);
   (wide "lightcoral", color_rgb 240 128 128);
   (wide "lightgoldenrodyellow", color_rgb 250 250 210);
   (wide "lightgray", color_rgb 211 211 211);
   (wide "lightgreen", color_rgb 144 238 144);
   (wide "lightgrey", color_rgb 211 211 211);
   (wide "lightseagreen", color_rgb 32 178 170);
   (wide "lightslateblue", color_rgb 132 112 255);
   (wide "lightslategray", color_rgb 119 136 153);
   (wide "lightslategrey", color_rgb 119 136 153);
   (wide "lime", color_rgb 0 255 0);
   (wide "limegreen", color_rgb 50 205 50);
   (wide "linen", color_rgb 250 240 230);
   (wide "mediumaquamarine", color_rgb 102 205 170);
   (wide "mediumblue", color_rgb 0 0 205);
   (wide "mediumseagreen", color_rgb 60 179 113);
   (wide "mediumslateblue", color_rgb 123 104 238);
   (wide "mediumspringgreen", color_rgb 0 250 154);
   (wide "mediumturquoise", color_rgb 72 209 204);
   (wide "mediumvioletred", color_rgb 199 21 133);
   (wide "midnightblue", color_rgb 25 25 112);
   (wide "mintcream", color_rgb 245 255 250);
   (wide "moccasin", color_rgb 255 228 181);
   (wide "navy", color_rgb 0 0 128);
   (wide "navyblue", color_rgb 0 0 128);
   (wide "oldlace", color_rgb 253 245 230);
   (wide "olive", color_rgb 128 128 0);
   (wide "palegoldenrod", color_rgb 238 232 170);
   (wide "papayawhip", color_rgb 255 239 213);
   (wide "peru", color_rgb 205 133 63);
   (wide "powderblue", color_rgb 176 224 230);
   (wide "rebeccapurple", color_rgb 102 51 153);
   (wide "saddlebrown", color_rgb 139 69 19);
   (wide "sandybrown", color_rgb 244 164 96);
   (wide "silver", color_rgb 192 192 192);
   (wide "slategrey", color_rgb 112 128 144);
   (wide "teal", color_rgb 0 128 128);
   (wide "violet", color_rgb 238 130 238);
   (wide "webgray", color_rgb 128 128 128);
   (wide "webgreen", color_rgb 0 128 0);
   (wide "webgrey", color_rgb 128 128 128);
   (wide "webmaroon", color_rgb 128 0 0);
   (wide "webpurple", color_rgb 128 0 128);
   (wide "white", color_rgb 255 255 255);
   (wide "whitesmoke", color_rgb 245 245 245);
   (wide "x11gray", color_rgb 190 190 190);
   (wide "x11green", color_rgb 0 255 0);
   (wide "x11grey", color_rgb 190 190 190);
   (wide "x11maroon", color_rgb 176 48 96);
   (wide "x11purple", color_rgb 160 32 240);
   (wide "yellowgreen", color_rgb 154 205 50)].

Definition is_name_space (c : wchar) : bool :=
  (c =? 0x20) || (c =? 0xC) || (c =? 0xA) || (c =? 0xD) || (c =? 0x9) || (c =? 0xB).

(** The loop over the characters: the stem, the variant and whether one was seen. *)
Fixpoint parse_name (wstr stem : wstring) (variantIndex : Z) (foundVariant : bool) : option (wstring * Z * bool) :=
  match wstr with
  | [] => Some (stem, variantIndex, foundVariant)
  | c :: wstr =>
    if 127 <? c then None
    else if (0x30 <=? c) && (c <=? 0x39) then
      parse_name wstr stem (u64 (u64 (variantIndex * 10) + (c - 0x30))) true
    else if is_name_space c then parse_name wstr stem variantIndex foundVariant
    else if foundVariant then None
    else parse_name wstr (stem ++ [tolower_ascii c]) variantIndex foundVariant
  end.

Definition ColorFromXOrgAppColorName (wstr : wstring) : option color :=
  '(stem, variantIndex, foundVariant) ← parse_name wstr [] 0 false;
  match (colors ← static_map_find xorgAppVariantColorTable stem;
         if variantIndex <? Z.of_nat (length colors) then colors !! Z.to_nat variantIndex else None) with
  | Some color => Some color
  | None =>
    if (bool_decide (stem = wide "gray") || bool_decide (stem = wide "grey")) && foundVariant then
      if 100 <? variantIndex then None
      else
        let component := Z.min 255 (u64 (u64 (variantIndex * 255) + 50) / 100) in
        Some (color_rgb component component component)
    else static_map_find xorgAppColorTable stem
  end.

Definition ColorFromXTermColor (string : wstring) : option color :=
  match ColorFromXParseColorSpec string with
  | Some color => Some color
  | None => ColorFromXOrgAppColorName string
  end.
