(* ===== verification/UtilsProps.v ===== *)
(** * Strings, numbers and colours: properties

    Splitting loses nothing, numbers are parsed exactly or rejected on overflow,
    and colour specifications and names are read back as the colours they denote. *)

From S2P Require Import Prelude Utils ColorTable.

(** ** Splitting *)
Definition join (delimiter : wchar) (parts : list wstring) : wstring :=
  match parts with
  | [] => []
  | part :: parts => part ++ concat (map (fun p => delimiter :: p) parts)
  end.

Lemma split_at_Some delimiter s before after : split_at delimiter s = Some (before, after) ->
  s = before ++ delimiter :: after /\ Forall (fun c => c <> delimiter) before.
Proof.
  revert before. induction s as [|c s IH]; intros before; simpl; [done|]. destruct (Z.eqb_spec c delimiter) as [->|Hne].
  - intros [= <- <-]. done.
  - destruct (split_at delimiter s) as [[b a]|]; simpl; [|done]. intros [= <- <-].
    destruct (IH b eq_refl) as [-> Hb]. split; [done|]. by apply Forall_cons.
Qed.

Lemma split_at_None delimiter s : split_at delimiter s = None -> Forall (fun c => c <> delimiter) s.
Proof.
  induction s as [|c s IH]; simpl; [done|]. destruct (Z.eqb_spec c delimiter); [done|].
  destruct (split_at delimiter s) as [[b a]|]; simpl; [done|]. intros _. apply Forall_cons. auto.
Qed.

Lemma join_cons delimiter part parts : parts <> [] -> join delimiter (part :: parts) = part ++ delimiter :: join delimiter parts.
Proof. by destruct parts. Qed.

Lemma SplitString_loop_join fuel wstr delimiter : wstr <> [] -> (length wstr <= fuel)%nat ->
  join delimiter (SplitString_loop fuel wstr delimiter) = wstr /\ SplitString_loop fuel wstr delimiter <> [] /\
  Forall (Forall (fun c => c <> delimiter)) (SplitString_loop fuel wstr delimiter).
Proof.
  revert wstr. induction fuel as [|fuel IH]; intros [|c wstr] Hne Hl; [done|simpl in Hl; lia|done|].
  set (s := c :: wstr) in *. assert (SplitString_loop (S fuel) s delimiter = match split_at delimiter s with
    | None => [s] | Some (part, rest) => part :: match rest with [] => [[]] | _ => SplitString_loop fuel rest delimiter end end) as -> by done.
  destruct (split_at delimiter s) as [[part rest]|] eqn:Hsp.
  - apply split_at_Some in Hsp as [Hs Hp]. destruct rest as [|r rest].
    + split; [by rewrite Hs|]. split; [done|]. by repeat (apply Forall_cons; split).
    + assert (length (r :: rest) <= fuel)%nat as Hf by (rewrite Hs, length_app in Hl; simpl in *; lia).
      destruct (IH (r :: rest) ltac:(done) Hf) as (Hj & Hn & Hall).
      split; [rewrite join_cons by done; by rewrite Hj|]. split; [done|]. by apply Forall_cons.
  - apply split_at_None in Hsp. split; [by apply app_nil_r|]. split; [done|]. by apply Forall_singleton.
Qed.

Lemma split_at_app delimiter before after : Forall (fun c => c <> delimiter) before ->
  split_at delimiter (before ++ delimiter :: after) = Some (before, after).
Proof.
  induction 1 as [|c before Hc Hb IH]; simpl; [by rewrite Z.eqb_refl|]. apply Z.eqb_neq in Hc as ->. by rewrite IH.
Qed.

Lemma split_at_free delimiter s : Forall (fun c => c <> delimiter) s -> split_at delimiter s = None.
Proof. induction 1 as [|c s Hc Hs IH]; simpl; [done|]. apply Z.eqb_neq in Hc as ->. by rewrite IH. Qed.

Lemma split_at_length delimiter s before after : split_at delimiter s = Some (before, after) -> (length after < length s)%nat.
Proof. intros [-> _]%split_at_Some. rewrite length_app. simpl. lia. Qed.

Lemma SplitString_loop_fuel fuel1 fuel2 wstr delimiter : (length wstr <= fuel1)%nat -> (length wstr <= fuel2)%nat ->
  SplitString_loop fuel1 wstr delimiter = SplitString_loop fuel2 wstr delimiter.
Proof.
  revert fuel2 wstr. induction fuel1 as [|fuel1 IH]; intros [|fuel2] [|c wstr] H1 H2; try done; try (simpl in *; lia).
  cbn [SplitString_loop]. destruct (split_at delimiter (c :: wstr)) as [[part [|r rest]]|] eqn:Hsp; try done.
  apply split_at_length in Hsp. f_equal. apply IH; simpl in *; lia.
Qed.

Lemma SplitString_free delimiter s : s <> [] -> Forall (fun c => c <> delimiter) s -> SplitString s delimiter = [s].
Proof. intros Hne Hs. destruct s as [|c s]; [done|]. unfold SplitString. cbn [length SplitString_loop]. by rewrite split_at_free. Qed.

Lemma SplitString_cons delimiter part rest : Forall (fun c => c <> delimiter) part -> rest <> [] ->
  SplitString (part ++ delimiter :: rest) delimiter = part :: SplitString rest delimiter.
Proof.
  intros Hp Hr. unfold SplitString. pose proof (split_at_app delimiter part rest Hp) as Hsp.
  destruct (part ++ delimiter :: rest) as [|c s] eqn:Hs; [by destruct part|]. apply split_at_length in Hsp as Hl.
  cbn [length SplitString_loop] in *. rewrite Hsp. destruct rest as [|r rest]; [done|]. f_equal. apply SplitString_loop_fuel; simpl in *; lia.
Qed.

Lemma SplitString_trailing delimiter part : Forall (fun c => c <> delimiter) part ->
  SplitString (part ++ [delimiter]) delimiter = [part; []].
Proof.
  intros Hp. unfold SplitString. pose proof (split_at_app delimiter part [] Hp) as Hsp.
  destruct (part ++ [delimiter]) as [|c s] eqn:Hs; [by destruct part|]. cbn [length SplitString_loop]. by rewrite Hsp.
Qed.

Lemma join_nil delimiter parts : join delimiter parts = [] -> parts = [] \/ parts = [[]].
Proof. destruct parts as [|[|c part] [|q parts]]; simpl; auto; done. Qed.

(** Splitting inverts joining, except that the empty string has no parts at all. *)
Lemma SplitString_of_join delimiter parts : Forall (Forall (fun c => c <> delimiter)) parts -> parts <> [[]] ->
  SplitString (join delimiter parts) delimiter = parts.
Proof.
  induction 1 as [|part parts Hp Hps IH]; intros Hne; [done|]. destruct parts as [|q parts].
  - simpl. rewrite app_nil_r. apply SplitString_free; [|done]. by intros ->.
  - rewrite join_cons by done. destruct (decide (q :: parts = [[]])) as [[= -> ->]|Hq]; [by apply SplitString_trailing|].
    rewrite SplitString_cons; [by rewrite IH|done|]. by intros [|]%join_nil.
Qed.

(** Splitting loses nothing: joining the parts of a non-empty string with the
    delimiter gives the string back, and no part contains the delimiter. *)
Lemma SplitString_join wstr delimiter : wstr <> [] ->
  join delimiter (SplitString wstr delimiter) = wstr /\ Forall (Forall (fun c => c <> delimiter)) (SplitString wstr delimiter).
Proof. intros Hne. destruct (SplitString_loop_join (length wstr) wstr delimiter Hne ltac:(lia)) as (H1 & _ & H3). done. Qed.

(** ** Numbers *)

(** The value of a string of digits, most significant first. *)
Definition number (base : Z) (acc : Z) (str : wstring) : Z := fold_left (fun acc ch => acc * base + digit_value ch) str acc.

Lemma number_mono base str acc : 1 <= base -> 0 <= acc -> Forall (fun ch => 0 <= digit_value ch) str -> acc <= number base acc str.
Proof.
  intros Hb Ha Hs. revert acc Ha. induction Hs as [|ch str Hc Hs IH]; intros acc Ha; simpl; [lia|].
  specialize (IH (acc * base + digit_value ch) ltac:(nia)). unfold number in *. nia.
Qed.

Lemma digit_value_u64 ch : 0 <= digit_value ch < 2 ^ 64.
Proof. unfold digit_value, u64. apply Z.mod_pos_bound. lia. Qed.

Lemma parse_digits_spec base str acc : 2 <= base <= 36 -> 0 <= acc < 2 ^ 64 -> Forall (fun ch => digit_value ch < base) str ->
  parse_digits base acc str = if number base acc str <? 2 ^ 64 then Some (number base acc str) else None.
Proof.
  intros Hb Ha Hs. revert acc Ha. induction Hs as [|ch str Hc Hs IH]; intros acc Ha.
  - simpl. unfold number. simpl. apply proj2, Z.ltb_lt in Ha as ->. done.
  - assert (Forall (fun ch => 0 <= digit_value ch) str) as Hpos by (apply Forall_forall; intros; apply digit_value_u64).
    pose proof (digit_value_u64 ch) as Hd. cbn [parse_digits].
    change (number base acc (ch :: str)) with (number base (acc * base + digit_value ch) str).
    pose proof (number_mono base str (acc * base + digit_value ch) ltac:(lia) ltac:(nia) Hpos) as Hmono.
    destruct (Z.leb_spec base (digit_value ch)); [lia|]. cbn [orb].
    pose proof (Z.div_mod (2 ^ 64 - 1) base ltac:(lia)) as Hdm. pose proof (Z.mod_pos_bound (2 ^ 64 - 1) base ltac:(lia)) as Hmod.
    set (q := (2 ^ 64 - 1) / base) in *.
    destruct (Z.ltb_spec q acc) as [Hq|Hq].
    + cbn [orb]. assert (2 ^ 64 <= acc * base) by nia. destruct (Z.ltb_spec (number base (acc * base + digit_value ch) str) (2 ^ 64)); [lia|done].
    + cbn [orb]. unfold u64. assert (acc * base <= 2 ^ 64 - 1) by nia. rewrite (Z.mod_small (acc * base)) by nia.
      destruct (Z.ltb_spec (acc * base + digit_value ch) (2 ^ 64)) as [Hfit|Hover].
      * rewrite Z.mod_small by nia. destruct (Z.ltb_spec (acc * base + digit_value ch) acc); [nia|]. apply IH. nia.
      * assert ((acc * base + digit_value ch) mod 2 ^ 64 = acc * base + digit_value ch - 2 ^ 64) as ->.
        { symmetry. apply (Z.mod_unique _ _ 1); lia. }
        destruct (Z.ltb_spec (acc * base + digit_value ch - 2 ^ 64) acc); [|nia].
        destruct (Z.ltb_spec (number base (acc * base + digit_value ch) str) (2 ^ 64)); [lia|done].
Qed.

Lemma digit_value_decimal d : 0 <= d < 10 -> digit_value (0x30 + d) = d.
Proof.
  intros Hd. assert (d = 0 \/ d = 1 \/ d = 2 \/ d = 3 \/ d = 4 \/ d = 5 \/ d = 6 \/ d = 7 \/ d = 8 \/ d = 9) as Hc by lia.
  repeat (destruct Hc as [->|Hc]; [reflexivity|]). subst. reflexivity.
Qed.

Lemma parse_u64_digits base str : 2 <= base <= 36 -> str <> [] -> Forall (fun ch => digit_value ch < base) str ->
  parse_u64 base str = if number base 0 str <? 2 ^ 64 then Some (number base 0 str) else None.
Proof.
  intros Hb Hne Hs. unfold parse_u64. destruct (Z.leb_spec base 0); [lia|]. destruct str as [|ch str]; [done|].
  destruct (Z.ltb_spec 36 base); [lia|]. apply parse_digits_spec; [done|lia|done].
Qed.

(** *** Decimal numbers are read back *)
Lemma decimal_numeric n v : 0 <= v -> Forall (fun ch => 0x30 <= ch <= 0x39) (decimal n v).
Proof.
  revert v. induction n as [|n IH]; intros v Hv; cbn [decimal]; [done|]. pose proof (Z.mod_pos_bound v 10 ltac:(lia)).
  destruct (Z.ltb_spec v 10); [apply Forall_singleton; lia|].
  apply Forall_snoc. split; [apply IH, Z.div_pos; lia|lia].
Qed.

Lemma decimal_not_nil n v : (0 < n)%nat -> decimal n v <> [].
Proof. destruct n as [|n]; [lia|]. cbn [decimal]. destruct (v <? 10); [done|]. by destruct (decimal n (v / 10)). Qed.

Lemma numeric_digit ch : 0x30 <= ch <= 0x39 -> digit_value ch = ch - 0x30.
Proof. intros Hc. replace ch with (0x30 + (ch - 0x30)) at 1 by lia. apply digit_value_decimal. lia. Qed.

Lemma decimal_number n v : (0 < n)%nat -> 0 <= v < 10 ^ Z.of_nat n -> number 10 0 (decimal n v) = v.
Proof.
  revert v. induction n as [|n IH]; intros v Hn Hv; [lia|]. cbn [decimal].
  rewrite Nat2Z.inj_succ, Z.pow_succ_r in Hv by lia. pose proof (Z.mod_pos_bound v 10 ltac:(lia)).
  pose proof (Z.div_mod v 10 ltac:(lia)) as Hd. destruct (Z.ltb_spec v 10); [apply digit_value_decimal; lia|].
  assert (v / 10 < 10 ^ Z.of_nat n) by (apply Z.div_lt_upper_bound; lia).
  assert (0 < n)%nat by (destruct n; simpl in *; lia).
  unfold number. rewrite fold_left_app. fold (number 10 0 (decimal n (v / 10))). rewrite IH by lia.
  simpl. rewrite digit_value_decimal by lia. lia.
Qed.

Lemma parse_u64_decimal n v : (0 < n)%nat -> 0 <= v < 10 ^ Z.of_nat n -> v < 2 ^ 64 -> parse_u64 10 (decimal n v) = Some v.
Proof.
  intros Hn Hv Hmax. rewrite parse_u64_digits, decimal_number by (done || lia || by apply decimal_not_nil ||
    (eapply Forall_impl; [apply (decimal_numeric n v); lia|]; intros ch Hc; simpl in Hc; rewrite numeric_digit by lia; lia)).
  by destruct (Z.ltb_spec v (2 ^ 64)); [|lia].
Qed.

Lemma StringToUint_loop_number str acc : Forall (fun ch => 0x30 <= ch <= 0x39) str -> 0 <= acc -> number 10 acc str < 2 ^ 32 ->
  StringToUint_loop acc str = Some (number 10 acc str).
Proof.
  intros Hs. revert acc. induction Hs as [|ch str Hc Hs IH]; intros acc Ha Hmax; [done|].
  change (number 10 acc (ch :: str)) with (number 10 (acc * 10 + digit_value ch) str) in *. rewrite numeric_digit in * by lia.
  pose proof (number_mono 10 str (acc * 10 + (ch - 0x30)) ltac:(lia) ltac:(lia)
    ltac:(apply Forall_forall; intros; apply digit_value_u64)) as Hmono.
  cbn [StringToUint_loop]. unfold _isNumber, u32. destruct (Z.leb_spec 0x30 ch), (Z.leb_spec ch 0x39); try lia. cbn [andb].
  rewrite (Z.mod_small (acc * 10)), Z.mod_small by lia. by apply IH; [lia|].
Qed.

Lemma StringToUint_decimal n v : (0 < n)%nat -> 0 <= v < 10 ^ Z.of_nat n -> v < 2 ^ 32 -> StringToUint (decimal n v) = Some v.
Proof.
  intros Hn Hv Hmax. unfold StringToUint. destruct (decimal n v) as [|ch str] eqn:Hd; [by apply decimal_not_nil in Hd|].
  rewrite <- Hd, StringToUint_loop_number; rewrite ?decimal_number by lia; [done|apply decimal_numeric; lia|lia|done].
Qed.

(** [parse_unsigned] on a string of digits of any base up to 36 returns the
    number exactly when it fits into 64 bits; the overflow tests neither miss an
    overflow nor report one that does not happen. *)
Lemma parse_u64_exact base str : 2 <= base <= 36 -> str <> [] -> Forall (fun ch => digit_value ch < base) str ->
  parse_u64 base str = if number base 0 str <? 2 ^ 64 then Some (number base 0 str) else None.
Proof. apply parse_u64_digits. Qed.

(** [StringToUint], in contrast, wraps around. *)
Lemma StringToUint_wraps : StringToUint (wide "4294967297") = Some 1.
Proof. reflexivity. Qed.

(** ** Colours *)
Definition hex_char (upper : bool) (d : Z) : wchar := if d <? 10 then 0x30 + d else (if upper then 0x41 else 0x61) + d - 10.

(** [n] hex digits of [v]. *)
Fixpoint hex (upper : bool) (n : nat) (v : Z) : wstring :=
  match n with
  | O => []
  | S n => hex upper n (v / 16) ++ [hex_char upper (v mod 16)]
  end.

(** A component of [n] digits as an 8-bit intensity. *)
Definition intensity (sharp : bool) (n : nat) (v : Z) : Z :=
  match n with
  | 1%nat => if sharp then v * 16 else v * 17
  | 2%nat => v
  | 3%nat => v / 16
  | _ => v / 256
  end.

Lemma HexToUint_hex_char upper d : 0 <= d < 16 -> HexToUint (hex_char upper d) = Some d /\ hex_char upper d <> 0x2F.
Proof.
  intros Hd. unfold hex_char, HexToUint. destruct (Z.ltb_spec d 10).
  - replace ((48 <=? 48 + d) && (48 + d <=? 57)) with true by lia. split; [f_equal; lia|lia].
  - destruct upper.
    + replace ((48 <=? 65 + d - 10) && (65 + d - 10 <=? 57)) with false by lia.
      replace ((65 <=? 65 + d - 10) && (65 + d - 10 <=? 70)) with true by lia. split; [f_equal; lia|lia].
    + replace ((48 <=? 97 + d - 10) && (97 + d - 10 <=? 57)) with false by lia.
      replace ((65 <=? 97 + d - 10) && (97 + d - 10 <=? 70)) with false by lia.
      replace ((97 <=? 97 + d - 10) && (97 + d - 10 <=? 102)) with true by lia. split; [f_equal; lia|lia].
Qed.

(** The digits of a component, and their value. *)
Definition digits_value (acc : Z) (ds : list Z) : Z := fold_left (fun acc d => u32 (u32 (acc * 16) + d)) ds acc.

Fixpoint digits_of (n : nat) (v : Z) : list Z :=
  match n with O => [] | S n => digits_of n (v / 16) ++ [v mod 16] end.

Lemma hex_digits upper n v : hex upper n v = map (hex_char upper) (digits_of n v).
Proof. revert v. induction n as [|n IH]; intros v; simpl; [done|]. by rewrite IH, map_app. Qed.

Lemma digits_of_range n v : Forall (fun d => 0 <= d < 16) (digits_of n v).
Proof.
  revert v. induction n as [|n IH]; intros v; simpl; [done|]. apply Forall_snoc. split; [done|]. apply Z.mod_pos_bound. lia.
Qed.

Lemma digits_of_length n v : length (digits_of n v) = n.
Proof. revert v. induction n as [|n IH]; intros v; simpl; [done|]. rewrite length_app, IH. simpl. lia. Qed.

Lemma digits_of_value n v : 0 <= v < 16 ^ Z.of_nat n -> (n <= 4)%nat -> digits_value 0 (digits_of n v) = v.
Proof.
  revert v. induction n as [|n IH]; intros v Hv Hn; [simpl in *; lia|].
  rewrite Nat2Z.inj_succ, Z.pow_succ_r in Hv by lia. simpl. unfold digits_value. rewrite fold_left_app.
  fold (digits_value 0 (digits_of n (v / 16))). rewrite IH by (lia || div_lia).
  assert (16 ^ Z.of_nat n <= 16 ^ 3) by (apply Z.pow_le_mono_r; lia). change (16 ^ 3) with 4096 in *.
  simpl. unfold u32. rewrite (Z.mod_small (v / 16 * 16)) by div_lia. rewrite Z.mod_small by div_lia. div_lia.
Qed.

(** A component of the [rgb:] format ends at a slash or, if it is the last, with the string. *)
Lemma parse_component_rgb upper component n i value d0 ds rest : (0 < length ds)%nat -> (length ds <= n)%nat ->
  Forall (fun d => 0 <= d < 16) ds -> rest = [] \/ (component < 2)%nat /\ head rest = Some 0x2F ->
  parse_component false component n i value d0 false (map (hex_char upper) ds ++ rest) =
  Some (true, digits_value value ds, (i + length ds)%nat, tail rest).
Proof.
  intros Hne Hn Hds Hrest. revert n i value d0 Hne Hn. induction Hds as [|d ds Hd Hds IH]; intros n i value d0 Hne Hn; [simpl in Hne; lia|].
  destruct n as [|n]; [simpl in Hn; lia|]. destruct (HexToUint_hex_char upper d Hd) as [Hx _].
  cbn [map app parse_component]. rewrite Hx. cbn [mbind option_bind]. destruct ds as [|d1 ds].
  - cbn [map app length]. destruct Hrest as [->|[Hc Hh]].
    + simpl. do 2 f_equal. f_equal. lia.
    + destruct rest as [|c rest]; [done|]. simpl in Hh. simplify_eq. apply Nat.ltb_lt in Hc. rewrite Hc. simpl. do 2 f_equal. f_equal. lia.
  - apply Forall_cons in Hds as Hd1. destruct Hd1 as [Hd1 _]. destruct (HexToUint_hex_char upper d1 Hd1) as [_ Hs].
    specialize (IH n (S i) (u32 (u32 (value * 16) + d)) (S i) ltac:(simpl; lia) ltac:(simpl in *; lia)).
    cbn [map app] in *. apply Z.eqb_neq in Hs. rewrite Hs, andb_false_r. rewrite IH. f_equal. f_equal. f_equal. simpl. lia.
Qed.

Lemma scale_intensity sharp n v : (1 <= n <= 4)%nat -> 0 <= v < 16 ^ Z.of_nat n ->
  LOBYTE (scale sharp n v) = intensity sharp n v.
Proof.
  intros Hn Hv. assert (forall z, 0 <= z < 256 -> LOBYTE z = z) as Hlow.
  { intros z Hz. unfold LOBYTE. change 0xFF with (Z.ones 8). rewrite Z.land_ones by lia. by apply Z.mod_small. }
  unfold scale. destruct n as [|[|[|[|[|]]]]]; try lia; simpl in Hv; destruct sharp;
    match goal with |- context [Z.shiftr ?a ?b] => let k := eval vm_compute in (Z.shiftr a b) in change (Z.shiftr a b) with k end;
    unfold u32, intensity; rewrite Z.mod_small by lia; (rewrite Hlow; [div_lia|div_lia]).
Qed.

Lemma parse_scaled_rgb upper component n v d0 rest : (1 <= n <= 4)%nat -> 0 <= v < 16 ^ Z.of_nat n ->
  rest = [] \/ (component < 2)%nat /\ head rest = Some 0x2F ->
  parse_scaled false d0 component (hex upper n v ++ rest) = Some (scale false n v, n, tail rest).
Proof.
  intros Hn Hv Hr. unfold parse_scaled. rewrite hex_digits, parse_component_rgb;
    [|rewrite digits_of_length; lia|rewrite digits_of_length; lia|apply digits_of_range|done].
  cbn [mbind option_bind]. by rewrite digits_of_value, digits_of_length by (done || lia).
Qed.

Lemma hex_length upper n v : length (hex upper n v) = n.
Proof. by rewrite hex_digits, length_map, digits_of_length. Qed.

Lemma rgb_spec_parsed upper n1 n2 n3 r g b :
  (1 <= n1 <= 4)%nat -> (1 <= n2 <= 4)%nat -> (1 <= n3 <= 4)%nat ->
  0 <= r < 16 ^ Z.of_nat n1 -> 0 <= g < 16 ^ Z.of_nat n2 -> 0 <= b < 16 ^ Z.of_nat n3 ->
  ColorFromXTermColor (wide "rgb:" ++ hex upper n1 r ++ [0x2F] ++ hex upper n2 g ++ [0x2F] ++ hex upper n3 b) =
  Some (color_rgb (intensity false n1 r) (intensity false n2 g) (intensity false n3 b)).
Proof.
  intros Hn1 Hn2 Hn3 Hr Hg Hb. unfold ColorFromXTermColor, ColorFromXParseColorSpec.
  set (body := hex upper n1 r ++ [0x2F] ++ hex upper n2 g ++ [0x2F] ++ hex upper n3 b).
  assert (length (wide "rgb:" ++ body) = 6 + n1 + n2 + n3)%nat as Hlen.
  { unfold body. rewrite !length_app, !hex_length. simpl. lia. }
  rewrite Hlen. change (take 4 (wide "rgb:" ++ body)) with (wide "rgb:"). change (drop 4 (wide "rgb:" ++ body)) with body.
  rewrite bool_decide_true by reflexivity.
  replace ((4 <? 6 + n1 + n2 + n3)%nat && true) with true by (symmetry; apply andb_true_iff; split; [apply Nat.ltb_lt; lia|done]).
  replace ((6 + n1 + n2 + n3 <? 9)%nat || (18 <? 6 + n1 + n2 + n3)%nat) with false
    by (symmetry; apply orb_false_iff; split; apply Nat.ltb_ge; lia).
  unfold parse_components, body. rewrite parse_scaled_rgb; [|done|done|right; by split; [lia|]]. cbn [mbind option_bind app tail].
  rewrite parse_scaled_rgb; [|done|done|right; by split; [lia|]]. cbn [mbind option_bind app tail].
  rewrite <- (app_nil_r (hex upper n3 b)) at 1. rewrite parse_scaled_rgb; [|done|done|by left]. cbn [mbind option_bind tail].
  by rewrite !scale_intensity.
Qed.

(** Colour specifications in the [rgb:] format are read back: each component
    may have one to four hex digits of either case, and its intensity is scaled
    to eight bits. *)
Lemma rgb_spec_roundtrip upper n1 n2 n3 r g b :
  (1 <= n1 <= 4)%nat -> (1 <= n2 <= 4)%nat -> (1 <= n3 <= 4)%nat ->
  0 <= r < 16 ^ Z.of_nat n1 -> 0 <= g < 16 ^ Z.of_nat n2 -> 0 <= b < 16 ^ Z.of_nat n3 ->
  ColorFromXTermColor (wide "rgb:" ++ hex upper n1 r ++ [0x2F] ++ hex upper n2 g ++ [0x2F] ++ hex upper n3 b) =
  Some (color_rgb (intensity false n1 r) (intensity false n2 g) (intensity false n3 b)).
Proof. apply rgb_spec_parsed. Qed.

Definition has_digit (name : wstring) : bool := existsb (fun c => (0x30 <=? c) && (c <=? 0x39)) name.

(** Every colour name of the tables that has no digit in it resolves to its
    colour (the first of its variants): the tables are sorted as the binary search
    requires, and no name of one table hides one of the other. *)
Lemma color_names_found :
  presorted xorgAppVariantColorTable = true /\ presorted xorgAppColorTable = true /\
  (forall name colors, In (name, colors) xorgAppVariantColorTable -> ColorFromXOrgAppColorName name = head colors) /\
  (forall name color, In (name, color) xorgAppColorTable -> has_digit name = false -> ColorFromXOrgAppColorName name = Some color).
Proof.
  split; [vm_compute; reflexivity|]. split; [vm_compute; reflexivity|].
  assert (forallb (fun entry => bool_decide (ColorFromXOrgAppColorName entry.1 = head entry.2)) xorgAppVariantColorTable = true) as H1
    by (vm_compute; reflexivity).
  assert (forallb (fun entry => has_digit entry.1 || bool_decide (ColorFromXOrgAppColorName entry.1 = Some entry.2)) xorgAppColorTable = true) as H2
    by (vm_compute; reflexivity).
  rewrite forallb_forall in H1, H2. split.
  - intros name colors Hin. exact (bool_decide_eq_true_1 _ (H1 _ Hin)).
  - intros name color Hin Hd. specialize (H2 _ Hin). cbn [fst snd] in H2. rewrite Hd in H2. exact (bool_decide_eq_true_1 _ H2).
Qed.

(** The table also has names with digits in the middle, which the parser of names
    takes for a misplaced variant: they can never be found. *)
Lemma x11_names_unreachable :
  In (wide "x11green", color_rgb 0 255 0) xorgAppColorTable /\ ColorFromXOrgAppColorName (wide "x11green") = None /\
  ColorFromXOrgAppColorName (wide "x11gray") = None /\ ColorFromXOrgAppColorName (wide "x11grey") = None /\
  ColorFromXOrgAppColorName (wide "x11maroon") = None /\ ColorFromXOrgAppColorName (wide "x11purple") = None.
Proof. split; [vm_compute; tauto|]. by vm_compute. Qed.
