(* ===== verification/Base64.v ===== *)
(** * Base64

    Models src/terminal/parser/base64.cpp, which decodes the clipboard contents of
    OSC 52. The conversion from UTF-8 to UTF-16 at its end calls the operating
    system and is a parameter. *)

From S2P Require Import Prelude VtTypes.

Definition decodeTable : list Z :=
  [255; 255; 255; 255; 255; 255; 255; 255; 255; 255; 255; 255; 255; 255; 255; 255;
   255; 255; 255; 255; 255; 255; 255; 255; 255; 255; 255; 255; 255; 255; 255; 255;
   255; 255; 255; 255; 255; 255; 255; 255; 255; 255; 255; 62; 255; 62; 255; 63;
   52; 53; 54; 55; 56; 57; 58; 59; 60; 61; 255; 255; 255; 255; 255; 255;
   255; 0; 1; 2; 3; 4; 5; 6; 7; 8; 9; 10; 11; 12; 13; 14;
   15; 16; 17; 18; 19; 20; 21; 22; 23; 24; 25; 255; 255; 255; 255; 63;
   255; 26; 27; 28; 29; 30; 31; 32; 33; 34; 35; 36; 37; 38; 39; 40;
   41; 42; 43; 44; 45; 46; 47; 48; 49; 50; 51; 255; 255; 255; 255; 255].

(** The remainder and the error state, both unsigned and at least 32 bits wide. *)
Record Base64State := mkBase64State { b64_r : Z; b64_error : Z }.

(** The index is at most 127: the subscript stays inside the table. *)
Definition accumulate (st : Base64State) (ch : wchar) : Base64State :=
  let n := nth (Z.to_nat (Z.land ch 0x7f)) decodeTable 0 in
  mkBase64State (Z.lor (u32 (Z.shiftl (b64_r st) 6)) n) (Z.lor (b64_error st) (Z.land (Z.lor ch n) 0xff80)).

(** [gsl::narrow_cast<char>], seen as an unsigned byte. *)
Definition narrow (z : Z) : Z := Z.land z 0xff.

(** The batched loop: four characters at a time while more than [stop] are left. *)
Fixpoint batched (stop : nat) (st : Base64State) (out : list Z) (src : wstring) : Base64State * list Z * wstring :=
  match src with
  | ch0 :: ch1 :: ch2 :: ch3 :: rest =>
    if (stop <? length src)%nat then
      let st := accumulate (accumulate (accumulate (accumulate st ch0) ch1) ch2) ch3 in
      let r := b64_r st in
      batched stop st (out ++ [narrow (Z.shiftr r 16); narrow (Z.shiftr r 8); narrow (Z.shiftr r 0)]) rest
    else (st, out, src)
  | _ => (st, out, src)
  end.

(** The loop over the last characters, which skips padding; [ri] counts the others. *)
Fixpoint tail (st : Base64State) (ri : Z) (src : wstring) : Base64State * Z :=
  match src with
  | [] => (st, ri)
  | ch :: rest => if ch =? 0x3D then tail st ri rest else tail (accumulate st ch) (u8 (ri + 1)) rest
  end.

(** The [switch] on the number of characters left over. *)
Definition flush (st : Base64State) (ri : Z) (out : list Z) : Base64State * list Z :=
  let r := b64_r st in
  if ri =? 2 then (st, out ++ [narrow (Z.shiftr r 4)])
  else if ri =? 3 then (st, out ++ [narrow (Z.shiftr r 10); narrow (Z.shiftr r 2)])
  else if ri =? 4 then (st, out ++ [narrow (Z.shiftr r 16); narrow (Z.shiftr r 8); narrow (Z.shiftr r 0)])
  else (mkBase64State r (Z.lor (b64_error st) ri), out).

(** The decoded bytes; [None] is [ERROR_INVALID_DATA]. *)
Definition decode_bytes (src : wstring) : option (list Z) :=
  let '(st, out, rest) := batched (Nat.min 5 (length src)) (mkBase64State 0 0) [] src in
  let '(st, ri) := tail st 0 rest in
  let '(st, out) := flush st ri out in
  if b64_error st =? 0 then Some out else None.

(** [Base64::Decode], with [til::u8u16] as a parameter. *)
Definition Decode (u8u16 : list Z -> option wstring) (src : wstring) : option wstring :=
  match decode_bytes src with
  | Some result => u8u16 result
  | None => None
  end.

(** The size of the buffer that [result.resize] allocates up front. *)
Definition result_capacity (src : wstring) : nat := ((length src + 3) / 4) * 3.

(** ** Base64: equivalence with the textbook decoder, and round trip

    The batched, branch-free decoder computes what the decoder of RFC 4648 that
    works on one group at a time does, and decodes what an encoder produces in
    either alphabet, padded or not. *)

(** ** The reference *)

(** The value of a character of either alphabet. *)
Definition char_value (ch : wchar) : option Z :=
  if (0x41 <=? ch) && (ch <=? 0x5A) then Some (ch - 0x41)
  else if (0x61 <=? ch) && (ch <=? 0x7A) then Some (ch - 0x61 + 26)
  else if (0x30 <=? ch) && (ch <=? 0x39) then Some (ch - 0x30 + 52)
  else if (ch =? 0x2B) || (ch =? 0x2D) then Some 62
  else if (ch =? 0x2F) || (ch =? 0x5F) then Some 63
  else None.

Definition group3 (n0 n1 n2 n3 : Z) : list Z := [n0 * 4 + n1 / 16; n1 mod 16 * 16 + n2 / 4; n2 mod 4 * 64 + n3].

Fixpoint decode_reference (src : wstring) : option (list Z) :=
  match src with
  | [] => Some []
  | [a] => None
  | [a; b] => n0 ← char_value a; n1 ← char_value b; Some [n0 * 4 + n1 / 16]
  | [a; b; c] =>
    n0 ← char_value a; n1 ← char_value b; n2 ← char_value c; Some [n0 * 4 + n1 / 16; n1 mod 16 * 16 + n2 / 4]
  | a :: b :: c :: d :: rest =>
    n0 ← char_value a; n1 ← char_value b; n2 ← char_value c; n3 ← char_value d;
    bytes ← decode_reference rest; Some (group3 n0 n1 n2 n3 ++ bytes)
  end.

(** RFC 4648 encoding; [url] selects the alphabet of section 5. *)
Definition encode_value (url : bool) (n : Z) : wchar :=
  if n <? 26 then 0x41 + n
  else if n <? 52 then 0x61 + n - 26
  else if n <? 62 then 0x30 + n - 52
  else if n =? 62 then (if url then 0x2D else 0x2B)
  else (if url then 0x5F else 0x2F).

Fixpoint encode (url : bool) (bytes : list Z) : wstring :=
  match bytes with
  | [] => []
  | [x] => [encode_value url (x / 4); encode_value url (x mod 4 * 16)]
  | [x; y] => [encode_value url (x / 4); encode_value url (x mod 4 * 16 + y / 16); encode_value url (y mod 16 * 4)]
  | x :: y :: z :: rest =>
    [encode_value url (x / 4); encode_value url (x mod 4 * 16 + y / 16); encode_value url (y mod 16 * 4 + z / 64);
     encode_value url (z mod 64)] ++ encode url rest
  end.

(** The padding that completes the last group. *)
Definition padding (bytes : list Z) : wstring := repeat 0x3D ((3 - length bytes mod 3) mod 3).

(** Induction over groups of four. *)
Lemma list_ind4 {A} (P : list A -> Prop) :
  P [] -> (forall a, P [a]) -> (forall a b, P [a; b]) -> (forall a b c, P [a; b; c]) ->
  (forall a b c d l, P l -> P (a :: b :: c :: d :: l)) -> forall l, P l.
Proof.
  intros H0 H1 H2 H3 H4. fix IH 1. intros [|a [|b [|c [|d l]]]]; [exact H0|apply H1|apply H2|apply H3|apply H4, IH].
Qed.

Lemma list_ind3 {A} (P : list A -> Prop) :
  P [] -> (forall a, P [a]) -> (forall a b, P [a; b]) -> (forall a b c l, P l -> P (a :: b :: c :: l)) -> forall l, P l.
Proof. intros H0 H1 H2 H3. fix IH 1. intros [|a [|b [|c l]]]; [exact H0|apply H1|apply H2|apply H3, IH]. Qed.

(** ** One character *)
Definition table (ch : Z) : Z := nth (Z.to_nat (Z.land ch 0x7f)) decodeTable 0.

Definition table_check (ch : Z) : bool :=
  match char_value ch with
  | Some n => (table ch =? n) && (0 <=? n) && (n <? 64)
  | None => table ch =? 255
  end.

Lemma table_ascii ch : 0 <= ch < 128 -> table_check ch = true.
Proof.
  intros Hch. assert (forallb (fun k => table_check (Z.of_nat k)) (seq 0 128) = true) as Hall by (vm_compute; reflexivity).
  rewrite forallb_forall in Hall. specialize (Hall (Z.to_nat ch)). rewrite Z2Nat.id in Hall by lia. apply Hall, in_seq. lia.
Qed.

Lemma land_high ch : 0 <= ch < 2 ^ 16 -> Z.land ch 0xff80 = 0 -> ch < 128.
Proof.
  intros Hch Hz. assert (ch = Z.land ch 0xffff) as He.
  { change 0xffff with (Z.ones 16). rewrite Z.land_ones by lia. symmetry. by apply Z.mod_small. }
  change 0xffff with (Z.lor 0xff80 0x7f) in He. rewrite Z.land_lor_distr_r, Hz, Z.lor_0_l in He.
  change 0x7f with (Z.ones 7) in He. rewrite Z.land_ones in He by lia. pose proof (Z.mod_pos_bound ch (2 ^ 7) ltac:(lia)). lia.
Qed.

Lemma table_byte ch : 0 <= table ch < 256.
Proof.
  unfold table. assert (Forall (fun n => 0 <= n < 256) decodeTable) as Hall by (repeat (apply Forall_cons; split; [lia|]); by apply Forall_nil).
  destruct (nth_in_or_default (Z.to_nat (Z.land ch 127)) decodeTable 0) as [Hin| ->]; [|lia].
  rewrite List.Forall_forall in Hall. by apply Hall.
Qed.

Lemma lor_disjoint x n : 0 <= n < 64 -> Z.lor (x * 64) n = x * 64 + n.
Proof.
  intros Hn. assert (Z.land (x * 64) n = 0) as Hl.
  { assert (n = Z.land n (Z.ones 6)) as -> by (rewrite Z.land_ones by lia; symmetry; by apply Z.mod_small).
    rewrite (Z.land_comm n), Z.land_assoc, Z.land_ones by lia. change (2 ^ 6) with 64. rewrite Z.mod_mul by lia. apply Z.land_0_l. }
  pose proof (Z.add_lor_land (x * 64) n). lia.
Qed.

Lemma u32_mul64 r : u32 (r * 64) = (r mod 2 ^ 26) * 64.
Proof. unfold u32. change (2 ^ 32) with (2 ^ 26 * 64). by rewrite Zmult_mod_distr_r. Qed.

Lemma accumulate_valid st ch n : char_value ch = Some n ->
  accumulate st ch = mkBase64State ((b64_r st mod 2 ^ 26) * 64 + n) (b64_error st) /\ 0 <= n < 64.
Proof.
  intros Hv. assert (0 <= ch < 128) as Hch.
  { unfold char_value in Hv. repeat (case_match; [lia|]). done. }
  pose proof (table_ascii ch Hch) as Ht. unfold table_check in Ht. rewrite Hv in Ht.
  assert (table ch = n /\ 0 <= n < 64) as [Hn Hr] by lia. split; [|done].
  unfold accumulate. fold (table ch). rewrite Hn. f_equal.
  - rewrite Z.shiftl_mul_pow2 by lia. change (2 ^ 6) with 64. rewrite u32_mul64. by apply lor_disjoint.
  - assert (Z.land (Z.lor ch n) 0xff80 = 0) as ->; [|apply Z.lor_0_r].
    rewrite Z.land_lor_distr_l.
    assert (forall x, 0 <= x < 128 -> Z.land x 0xff80 = 0) as Hlow; [|by rewrite !Hlow by lia].
    intros x Hx. assert (x = Z.land x (Z.ones 7)) as -> by (rewrite Z.land_ones by lia; symmetry; by apply Z.mod_small).
    rewrite <- Z.land_assoc. change (Z.land (Z.ones 7) 0xff80) with 0. apply Z.land_0_r.
Qed.

Lemma accumulate_error st ch : b64_error st <> 0 -> b64_error (accumulate st ch) <> 0.
Proof. intros He Hz. simpl in Hz. apply Z.lor_eq_0_iff in Hz as [Hz _]. done. Qed.

Lemma accumulate_invalid st ch : is_wchar ch -> char_value ch = None -> b64_error (accumulate st ch) <> 0.
Proof.
  intros Hw Hv Hz. unfold accumulate in Hz. cbn [b64_error] in Hz. fold (table ch) in Hz. apply Z.lor_eq_0_iff in Hz as [_ Hz].
  rewrite Z.land_lor_distr_l in Hz. apply Z.lor_eq_0_iff in Hz as [Hc Ht]. unfold is_wchar in Hw.
  pose proof (land_high ch Hw Hc) as Hlt. pose proof (table_ascii ch ltac:(lia)) as Hcheck. unfold table_check in Hcheck. rewrite Hv in Hcheck.
  apply Z.eqb_eq in Hcheck. rewrite Hcheck in Ht. done.
Qed.

(** ** Groups *)
Lemma narrow_mod z : narrow z = z mod 256.
Proof. unfold narrow. change 0xff with (Z.ones 8). by rewrite Z.land_ones by lia. Qed.

(** The bytes of a group do not depend on what the remainder held before. *)
Lemma shiftr_narrow z k : 0 <= k -> narrow (Z.shiftr z k) = z / 2 ^ k mod 256.
Proof. intros. by rewrite narrow_mod, Z.shiftr_div_pow2. Qed.

Lemma shift_in y n j : 0 <= n < 64 -> 0 <= j <= 26 ->
  ((y mod 2 ^ 26) * 64 + n) mod 2 ^ (j + 6) = (y mod 2 ^ j) * 64 + n.
Proof.
  intros Hn Hj. rewrite Z.pow_add_r by lia. change (2 ^ 6) with 64.
  assert (y mod 2 ^ 26 mod 2 ^ j = y mod 2 ^ j) as Hm.
  { apply Z.mod_mod_divide.
    exists (2 ^ (26 - j)). rewrite <- Z.pow_add_r by lia. f_equal. lia. }
  assert (0 < 2 ^ j) by (apply Z.pow_pos_nonneg; lia).
  rewrite <- Hm. set (x := y mod 2 ^ 26). rewrite (Z.div_mod x (2 ^ j)) at 1 by lia.
  pose proof (Z.mod_pos_bound x (2 ^ j) ltac:(lia)).
  replace ((2 ^ j * (x / 2 ^ j) + x mod 2 ^ j) * 64 + n) with (x mod 2 ^ j * 64 + n + x / 2 ^ j * (2 ^ j * 64)) by ring.
  rewrite Z.mod_add by lia. apply Z.mod_small. nia.
Qed.

Lemma narrow_low z k m : 0 <= k -> k + 8 <= m -> narrow (Z.shiftr z k) = (z mod 2 ^ m) / 2 ^ k mod 256.
Proof.
  intros Hk Hm. rewrite shiftr_narrow by lia. assert (0 < 2 ^ k) by (apply Z.pow_pos_nonneg; lia).
  assert (2 ^ m = 2 ^ k * (256 * 2 ^ (m - k - 8))) as Hp.
  { change 256 with (2 ^ 8). rewrite <- !Z.pow_add_r by lia. f_equal. lia. }
  assert (0 < 2 ^ (m - k - 8)) by (apply Z.pow_pos_nonneg; lia).
  rewrite (Z.div_mod z (2 ^ m)) at 1 by lia. rewrite Hp at 1.
  replace (2 ^ k * (256 * 2 ^ (m - k - 8)) * (z / 2 ^ m) + z mod 2 ^ m)
    with (z mod 2 ^ m + 256 * (2 ^ (m - k - 8) * (z / 2 ^ m)) * 2 ^ k) by ring.
  rewrite Z.div_add by lia. rewrite (Z.mul_comm 256), Z.mod_add by lia. done.
Qed.

(** The state after reading valid characters. *)
Definition shift (y n : Z) : Z := (y mod 2 ^ 26) * 64 + n.

Lemma shift2_low r n0 n1 : 0 <= n0 < 64 -> 0 <= n1 < 64 -> shift (shift r n0) n1 mod 2 ^ 12 = n0 * 64 + n1.
Proof.
  intros. unfold shift at 1. rewrite (shift_in _ _ 6) by lia. unfold shift. rewrite (shift_in _ _ 0) by lia.
  rewrite Z.mod_1_r. lia.
Qed.

Lemma shift3_low r n0 n1 n2 : 0 <= n0 < 64 -> 0 <= n1 < 64 -> 0 <= n2 < 64 ->
  shift (shift (shift r n0) n1) n2 mod 2 ^ 18 = (n0 * 64 + n1) * 64 + n2.
Proof. intros. unfold shift at 1. rewrite (shift_in _ _ 12) by lia. by rewrite shift2_low. Qed.

Lemma shift4_low r n0 n1 n2 n3 : 0 <= n0 < 64 -> 0 <= n1 < 64 -> 0 <= n2 < 64 -> 0 <= n3 < 64 ->
  shift (shift (shift (shift r n0) n1) n2) n3 mod 2 ^ 24 = ((n0 * 64 + n1) * 64 + n2) * 64 + n3.
Proof. intros. unfold shift at 1. rewrite (shift_in _ _ 18) by lia. by rewrite shift3_low. Qed.

Lemma bytes_of_2 r n0 n1 : 0 <= n0 < 64 -> 0 <= n1 < 64 ->
  narrow (Z.shiftr (shift (shift r n0) n1) 4) = n0 * 4 + n1 / 16.
Proof. intros. rewrite (narrow_low _ 4 12), shift2_low by lia. change (2 ^ 4) with 16. div_lia. Qed.

Lemma bytes_of_3 r n0 n1 n2 : 0 <= n0 < 64 -> 0 <= n1 < 64 -> 0 <= n2 < 64 ->
  [narrow (Z.shiftr (shift (shift (shift r n0) n1) n2) 10); narrow (Z.shiftr (shift (shift (shift r n0) n1) n2) 2)] =
  [n0 * 4 + n1 / 16; n1 mod 16 * 16 + n2 / 4].
Proof.
  intros. rewrite (narrow_low _ 10 18), (narrow_low _ 2 18), shift3_low by lia. change (2 ^ 10) with 1024. change (2 ^ 2) with 4.
  f_equal; [div_lia|]. f_equal. div_lia.
Qed.

Lemma bytes_of_4 r n0 n1 n2 n3 : 0 <= n0 < 64 -> 0 <= n1 < 64 -> 0 <= n2 < 64 -> 0 <= n3 < 64 ->
  let z := shift (shift (shift (shift r n0) n1) n2) n3 in
  [narrow (Z.shiftr z 16); narrow (Z.shiftr z 8); narrow (Z.shiftr z 0)] = group3 n0 n1 n2 n3.
Proof.
  intros. unfold z. rewrite (narrow_low _ 16 24), (narrow_low _ 8 24), (narrow_low _ 0 24), shift4_low by lia.
  change (2 ^ 16) with 65536. change (2 ^ 8) with 256. rewrite Z.div_1_r. unfold group3.
  f_equal; [div_lia|]. f_equal; [div_lia|]. f_equal. div_lia.
Qed.

(** ** The whole decoder *)
Definition finish (x : Base64State * list Z * wstring) : option (list Z) :=
  let '(st, out, rest) := x in
  let '(st, ri) := tail st 0 rest in
  let '(st, out) := flush st ri out in
  if b64_error st =? 0 then Some out else None.

Lemma tail_error st ri src : b64_error st <> 0 -> b64_error (tail st ri src).1 <> 0.
Proof.
  revert st ri. induction src as [|ch src IH]; intros st ri He; simpl; [done|].
  destruct (ch =? 0x3D); [by apply IH|]. by apply IH, accumulate_error.
Qed.

Lemma finish_error st out src : b64_error st <> 0 -> finish (st, out, src) = None.
Proof.
  intros He. unfold finish. pose proof (tail_error st 0 src He) as Ht. destruct (tail st 0 src) as [st' ri]. simpl in Ht.
  unfold flush. repeat case_match; simplify_eq/=; try done; exfalso; apply Ht; try lia.
  apply Z.eqb_eq, Z.lor_eq_0_iff in H3. tauto.
Qed.

Lemma batched_stop stop st out src : (length src <= stop)%nat \/ (length src < 4)%nat -> batched stop st out src = (st, out, src).
Proof.
  intros Hl. destruct src as [|a [|b [|c [|d src]]]]; try reflexivity. cbn [batched].
  destruct (Nat.ltb_spec stop (length (a :: b :: c :: d :: src))); [simpl in *; lia|reflexivity].
Qed.

Definition accumulate4 (st : Base64State) (a b c d : wchar) : Base64State :=
  accumulate (accumulate (accumulate (accumulate st a) b) c) d.

Lemma batched_step stop st out a b c d src : (stop < length (a :: b :: c :: d :: src))%nat ->
  batched stop st out (a :: b :: c :: d :: src) =
  let st' := accumulate4 st a b c d in
  batched stop st' (out ++ [narrow (Z.shiftr (b64_r st') 16); narrow (Z.shiftr (b64_r st') 8); narrow (Z.shiftr (b64_r st') 0)]) src.
Proof. intros Hl%Nat.ltb_lt. cbn [batched]. rewrite Hl. reflexivity. Qed.

Lemma accumulate4_error st a b c d : b64_error st <> 0 -> b64_error (accumulate4 st a b c d) <> 0.
Proof. intros He. unfold accumulate4. by do 4 apply accumulate_error. Qed.

Lemma batched_error stop st out src : b64_error st <> 0 -> finish (batched stop st out src) = None.
Proof.
  revert st out. induction src as [| | | |a b c d src IH] using list_ind4; intros st out He;
    try (rewrite batched_stop by (simpl; lia); by apply finish_error).
  destruct (decide (stop < length (a :: b :: c :: d :: src))%nat) as [Hl|Hl].
  - rewrite batched_step by done. apply IH. by apply accumulate4_error.
  - rewrite batched_stop by lia. by apply finish_error.
Qed.

Lemma decode_finish src : decode_bytes src = finish (batched 5 (mkBase64State 0 0) [] src).
Proof.
  unfold decode_bytes. assert (batched (Nat.min 5 (length src)) (mkBase64State 0 0) [] src = batched 5 (mkBase64State 0 0) [] src) as ->; [|done].
  destruct (Nat.le_gt_cases 5 (length src)); [by rewrite Nat.min_l|]. rewrite Nat.min_r by lia.
  by rewrite !batched_stop by lia.
Qed.

(** What the decoder owes for the characters [src] that are left. *)
Definition expected (st : Base64State) (out : list Z) (src : wstring) : option (list Z) :=
  if b64_error st =? 0 then (fun bytes => out ++ bytes) <$> decode_reference src else None.

Definition valid_char (ch : wchar) : Prop := is_wchar ch /\ ch <> 0x3D.

Lemma tail_char st ri a src : valid_char a -> tail st ri (a :: src) = tail (accumulate st a) (u8 (ri + 1)) src.
Proof. intros [_ Ha]. simpl. by apply Z.eqb_neq in Ha as ->. Qed.

Lemma tail_padding st ri k : tail st ri (repeat 0x3D k) = (st, ri).
Proof. induction k as [|k IH]; simpl; done. Qed.

(** Valid characters shift their values in; an invalid one spoils the result. *)
Fixpoint accumulate_all (st : Base64State) (src : wstring) : Base64State :=
  match src with [] => st | ch :: src => accumulate_all (accumulate st ch) src end.

Lemma tail_all src st ri k : Forall valid_char src -> 0 <= ri -> ri + Z.of_nat (length src) < 256 ->
  tail st ri (src ++ repeat 0x3D k) = (accumulate_all st src, ri + Z.of_nat (length src)).
Proof.
  intros Hs. revert st ri. induction Hs as [|a src Ha Hs IH]; intros st ri Hri Hl; simpl length in *.
  - simpl app. rewrite tail_padding, Z.add_0_r. done.
  - simpl app. rewrite tail_char by done. unfold u8. rewrite Z.mod_small by lia. rewrite IH by lia. simpl. f_equal. lia.
Qed.

Lemma accumulate_all_error src st : b64_error st <> 0 -> b64_error (accumulate_all st src) <> 0.
Proof. revert st. induction src as [|a src IH]; intros st He; [done|]. simpl. by apply IH, accumulate_error. Qed.

Lemma accumulate_all_spec src st : Forall valid_char src ->
  match mapM char_value src with
  | Some ns => accumulate_all st src = mkBase64State (fold_left shift ns (b64_r st)) (b64_error st) /\ Forall (fun n => 0 <= n < 64) ns
  | None => b64_error (accumulate_all st src) <> 0
  end.
Proof.
  intros Hs. revert st. induction Hs as [|a src [Ha _] Hs IH]; intros st; simpl; [by destruct st|].
  destruct (char_value a) as [n|] eqn:Hv; simpl.
  - destruct (accumulate_valid st a n Hv) as [-> Hn]. specialize (IH (mkBase64State (shift (b64_r st) n) (b64_error st))).
    fold (shift (b64_r st) n). destruct (mapM char_value src) as [ns|]; simpl; [|done].
    destruct IH as [-> Hns]. split; [done|]. by constructor.
  - by apply accumulate_all_error, accumulate_invalid.
Qed.

Definition conclude (x : Base64State * list Z) : option (list Z) := if b64_error x.1 =? 0 then Some x.2 else None.

Lemma conclude_error st ri out : b64_error st <> 0 -> conclude (flush st ri out) = None.
Proof.
  intros He. unfold conclude, flush. destruct (ri =? 2), (ri =? 3), (ri =? 4); cbn [fst b64_error];
    try (by apply Z.eqb_neq in He as ->).
  destruct (Z.eqb_spec (Z.lor (b64_error st) ri) 0) as [Hz|]; [|done]. apply Z.lor_eq_0_iff in Hz. tauto.
Qed.

(** The values of at most five characters, and what the last step makes of them. *)
Definition conclude_values (r : Z) (ns : list Z) (out : list Z) : option (list Z) :=
  conclude (flush (mkBase64State (fold_left shift ns r) 0) (Z.of_nat (length ns)) out).

Lemma conclude_2 r n0 n1 out : 0 <= n0 < 64 -> 0 <= n1 < 64 -> conclude_values r [n0; n1] out = Some (out ++ [n0 * 4 + n1 / 16]).
Proof. intros. rewrite <- (bytes_of_2 r) by lia. reflexivity. Qed.

Lemma conclude_3 r n0 n1 n2 out : 0 <= n0 < 64 -> 0 <= n1 < 64 -> 0 <= n2 < 64 ->
  conclude_values r [n0; n1; n2] out = Some (out ++ [n0 * 4 + n1 / 16; n1 mod 16 * 16 + n2 / 4]).
Proof. intros. rewrite <- (bytes_of_3 r) by lia. reflexivity. Qed.

Lemma conclude_4 r n0 n1 n2 n3 out : 0 <= n0 < 64 -> 0 <= n1 < 64 -> 0 <= n2 < 64 -> 0 <= n3 < 64 ->
  conclude_values r [n0; n1; n2; n3] out = Some (out ++ group3 n0 n1 n2 n3).
Proof. intros. rewrite <- (bytes_of_4 r) by lia. reflexivity. Qed.

Lemma finish_tail src k st out : Forall valid_char src -> (length src <= 5)%nat ->
  finish (st, out, src ++ repeat 0x3D k) = expected st out src.
Proof.
  intros Hs Hl. assert (finish (st, out, src ++ repeat 0x3D k) = conclude (flush (accumulate_all st src) (Z.of_nat (length src)) out)) as ->.
  { unfold finish. rewrite tail_all by (done || lia). rewrite Z.add_0_l. by destruct (flush _ _ _). }
  unfold expected. destruct (Z.eqb_spec (b64_error st) 0) as [He|He].
  2: { by apply conclude_error, accumulate_all_error. }
  pose proof (accumulate_all_spec src st Hs) as Hspec. rewrite He in Hspec.
  destruct (mapM char_value src) as [ns|] eqn:Hm.
  - destruct Hspec as [-> Hns]. apply mapM_Some in Hm. rewrite (Forall2_length _ _ _ Hm). fold (conclude_values (b64_r st) ns out).
    destruct Hm as [|a n0 src ns Ha Hm]; [simpl; by rewrite app_nil_r|]. apply Forall_cons in Hns as [Hn0 Hns].
    destruct Hm as [|b n1 src ns Hb Hm]; [reflexivity|]. apply Forall_cons in Hns as [Hn1 Hns].
    destruct Hm as [|c n2 src ns Hc Hm]; [rewrite conclude_2 by done; simpl; by rewrite Ha, Hb|]. apply Forall_cons in Hns as [Hn2 Hns].
    destruct Hm as [|d n3 src ns Hd Hm]; [rewrite conclude_3 by done; simpl; by rewrite Ha, Hb, Hc|]. apply Forall_cons in Hns as [Hn3 Hns].
    destruct Hm as [|e n4 src ns He' Hm]; [rewrite conclude_4 by done; simpl; by rewrite Ha, Hb, Hc, Hd|].
    destruct Hm; [|simpl in Hl; lia]. simpl. rewrite Ha, Hb, Hc, Hd. reflexivity.
  - rewrite conclude_error by done. symmetry. clear Hspec He Hs.
    destruct src as [|a [|b [|c [|d [|e [|f src]]]]]]; simpl in *; try lia; try done;
      repeat (match type of Hm with context [char_value ?x] => destruct (char_value x); simpl in * end; try done).
Qed.

(** The decoder computes what the reference computes, padding aside. *)
Lemma batched_expected src k st out : Forall valid_char src -> (k <= 2)%nat ->
  finish (batched 5 st out (src ++ repeat 0x3D k)) = expected st out src.
Proof.
  intros Hs Hk. revert st out Hs. induction src as [|a|a b|a b c|a b c d src IH] using list_ind4; intros st out Hs;
    try (rewrite batched_stop by (rewrite length_app, repeat_length; simpl; lia); apply finish_tail; [done|simpl; lia]).
  destruct (decide (5 < length ((a :: b :: c :: d :: src) ++ repeat 61%Z k))%nat) as [Hl|Hl].
  2: { rewrite batched_stop by lia. apply finish_tail; [done|]. rewrite length_app in Hl. simpl in *. lia. }
  cbn [app] in *. rewrite batched_step by done. cbv zeta.
  assert (Forall valid_char [a; b; c; d] /\ Forall valid_char src) as [H4 Hsrc] by (by apply (Forall_app _ [a; b; c; d])).
  rewrite IH by done. unfold expected. pose proof (accumulate_all_spec [a; b; c; d] st H4) as Hspec.
  change (accumulate_all st [a; b; c; d]) with (accumulate4 st a b c d) in Hspec.
  destruct (Z.eqb_spec (b64_error st) 0) as [He|He].
  2: { pose proof (accumulate4_error st a b c d He) as Hn. by apply Z.eqb_neq in Hn as ->. }
  destruct (mapM char_value [a; b; c; d]) as [ns|] eqn:Hm.
  - apply mapM_Some in Hm. destruct Hspec as [-> Hns]. rewrite He.
    destruct ns as [|n0 [|n1 [|n2 [|n3 [|]]]]]; try (by inversion Hm; simplify_eq; repeat match goal with H : Forall2 _ _ _ |- _ => inversion H; clear H end).
    repeat match goal with H : Forall2 _ (_ :: _) _ |- _ => apply Forall2_cons in H as [? ?] end.
    repeat match goal with H : Forall _ (_ :: _) |- _ => apply Forall_cons in H as [? ?] end.
    cbn [b64_r b64_error fold_left]. rewrite (bytes_of_4 (b64_r st) n0 n1 n2 n3) by done.
    cbn [decode_reference]. repeat match goal with H : char_value _ = Some _ |- _ => rewrite H; clear H end.
    simpl. destruct (decode_reference src); simpl; [|done]. by rewrite <- app_assoc.
  - apply Z.eqb_neq in Hspec as ->. symmetry. simpl in Hm. cbn [decode_reference].
    repeat (match type of Hm with context [char_value ?x] => destruct (char_value x); simpl in * end; try done).
Qed.

(** ** Encoding *)
Lemma char_value_encode url n : 0 <= n < 64 -> char_value (encode_value url n) = Some n.
Proof.
  intros Hn. assert (forallb (fun k => match char_value (encode_value url (Z.of_nat k)) with Some m => m =? Z.of_nat k | None => false end) (seq 0 64) = true)
    as Hall by (destruct url; vm_compute; reflexivity).
  rewrite forallb_forall in Hall. specialize (Hall (Z.to_nat n)). rewrite Z2Nat.id in Hall by lia.
  specialize (Hall ltac:(apply in_seq; lia)). destruct (char_value _); [|done]. apply Z.eqb_eq in Hall as ->. done.
Qed.

Lemma encode_value_valid url n : valid_char (encode_value url n) \/ ~ 0 <= n < 64.
Proof.
  unfold encode_value, valid_char, is_wchar. destruct (decide (0 <= n < 64)) as [Hn|]; [left|by right].
  repeat case_match; lia.
Qed.

Lemma encode_valid url bytes : Forall is_byte bytes -> Forall valid_char (encode url bytes).
Proof.
  assert (forall n, 0 <= n < 64 -> valid_char (encode_value url n)) as Hv
    by (intros n Hn; destruct (encode_value_valid url n); [done|lia]).
  unfold is_byte. induction bytes as [|x|x y|x y z bytes IH] using list_ind3; intros Hb; simpl encode;
    repeat match goal with H : Forall _ (_ :: _) |- _ => apply Forall_cons in H as [? ?] end.
  - done.
  - repeat (apply Forall_cons; split; [apply Hv; div_lia|]). done.
  - repeat (apply Forall_cons; split; [apply Hv; div_lia|]). done.
  - repeat (apply Forall_cons; split; [apply Hv; div_lia|]). auto.
Qed.

Lemma decode_encode url bytes : Forall is_byte bytes -> decode_reference (encode url bytes) = Some bytes.
Proof.
  unfold is_byte. induction bytes as [|x|x y|x y z bytes IH] using list_ind3; intros Hb; simpl encode;
    repeat match goal with H : Forall _ (_ :: _) |- _ => apply Forall_cons in H as [? ?] end; cbn [decode_reference app].
  - done.
  - rewrite !char_value_encode by div_lia. simpl. do 2 f_equal. div_lia.
  - rewrite !char_value_encode by div_lia. simpl. f_equal. f_equal; [div_lia|]. f_equal. div_lia.
  - rewrite !char_value_encode by div_lia. simpl. rewrite IH by done. simpl. f_equal. unfold group3.
    f_equal; [div_lia|]. f_equal; [div_lia|]. f_equal. div_lia.
Qed.

Lemma Decode_encode (u8u16 : list Z -> option wstring) url padded bytes : Forall is_byte bytes ->
  Decode u8u16 (encode url bytes ++ (if padded : bool then padding bytes else [])) = u8u16 bytes.
Proof.
  intros Hb. unfold Decode.
  assert (decode_bytes (encode url bytes ++ (if padded then padding bytes else [])) = Some bytes) as ->; [|done].
  assert (exists k, (if padded then padding bytes else []) = repeat 0x3D k /\ (k <= 2)%nat) as (k & -> & Hk).
  { destruct padded; [|by exists 0%nat; split; [|lia]]. eexists. split; [reflexivity|].
    pose proof (Nat.mod_upper_bound (3 - length bytes mod 3) 3). lia. }
  rewrite decode_finish, batched_expected by (done || by apply encode_valid). unfold expected. simpl.
  by rewrite decode_encode.
Qed.

(** ** Properties *)

(** The optimised decoder (a remainder register that is never cleared, an
    error mask instead of branches, batches of four) computes exactly what the
    textbook decoder computes on the characters before at most two padding
    characters, errors included. *)
Lemma base64_decodes_reference src k : Forall valid_char src -> (k <= 2)%nat ->
  decode_bytes (src ++ repeat 0x3D k) = decode_reference src.
Proof.
  intros Hs Hk. rewrite decode_finish, batched_expected by done. unfold expected. simpl. by destruct (decode_reference src).
Qed.

Definition sample_base64 : wstring := [0x59; 0x57; 0x4A; 0x6A; 0x5A; 0x41].

(** Decoding inverts encoding, for the standard and the URL alphabet, with or
    without padding, and hands the bytes to the UTF-8 conversion. *)
Lemma base64_roundtrip (u8u16 : list Z -> option wstring) url padded bytes : Forall is_byte bytes ->
  Decode u8u16 (encode url bytes ++ (if padded : bool then padding bytes else [])) = u8u16 bytes.
Proof. apply Decode_encode. Qed.

Lemma batched_length stop st out src : let '(_, out', rest) := batched stop st out src in
  exists g, (length out' = length out + 3 * g)%nat /\ (length src = 4 * g + length rest)%nat.
Proof.
  revert st out. induction src as [|a|a b|a b c|a b c d src IH] using list_ind4; intros st out;
    try (rewrite batched_stop by (simpl; lia); exists 0%nat; lia).
  destruct (decide (stop < length (a :: b :: c :: d :: src))%nat) as [Hl|Hl].
  - rewrite batched_step by done. cbv zeta. specialize (IH (accumulate4 st a b c d) (out ++ [narrow (Z.shiftr (b64_r (accumulate4 st a b c d)) 16);
      narrow (Z.shiftr (b64_r (accumulate4 st a b c d)) 8); narrow (Z.shiftr (b64_r (accumulate4 st a b c d)) 0)])).
    destruct (batched _ _ _ src) as [[st' out'] rest]. destruct IH as (g & H1 & H2). rewrite length_app in H1.
    exists (S g). simpl in *. lia.
  - rewrite batched_stop by lia. exists 0%nat. lia.
Qed.

Lemma tail_count st ri src : 0 <= ri -> ri + Z.of_nat (length src) < 256 -> 0 <= (tail st ri src).2 <= ri + Z.of_nat (length src).
Proof.
  revert st ri. induction src as [|a src IH]; intros st ri Hri Hl; simpl in *; [lia|]. destruct (a =? 61).
  - specialize (IH st ri ltac:(lia) ltac:(lia)). lia.
  - unfold u8. rewrite Z.mod_small by lia. specialize (IH (accumulate st a) (ri + 1) ltac:(lia) ltac:(lia)). lia.
Qed.

Lemma batched_rest st out src : let '(_, _, rest) := batched (Nat.min 5 (length src)) st out src in (length rest <= 5)%nat.
Proof.
  destruct (Nat.le_gt_cases (length src) 5); [rewrite batched_stop by lia; lia|]. rewrite Nat.min_l by lia. clear H.
  revert st out. induction src as [|a|a b|a b c|a b c d src IH] using list_ind4; intros st out;
    try (rewrite batched_stop by (simpl; lia); simpl; lia).
  destruct (decide (5 < length (a :: b :: c :: d :: src))%nat) as [Hl|Hl].
  - rewrite batched_step by done. cbv zeta. apply IH.
  - rewrite batched_stop by lia. lia.
Qed.

(** The decoder never writes past the buffer it has allocated, whatever the
    input: the bytes stored by the batched loop and by the final switch fit into
    three bytes for every four characters, rounded up. *)
Lemma base64_stays_in_buffer src :
  let '(st, out, rest) := batched (Nat.min 5 (length src)) (mkBase64State 0 0) [] src in
  let '(st, ri) := tail st 0 rest in
  (length (flush st ri out).2 <= result_capacity src)%nat.
Proof.
  pose proof (batched_length (Nat.min 5 (length src)) (mkBase64State 0 0) [] src) as Hb.
  pose proof (batched_rest (mkBase64State 0 0) [] src) as Hr.
  destruct (batched _ _ _ src) as [[st out] rest]. destruct Hb as (g & Hout & Hsrc).
  pose proof (tail_count st 0 rest ltac:(lia) ltac:(lia)) as Ht. destruct (tail st 0 rest) as [st' ri]. simpl in Ht, Hout.
  unfold result_capacity. rewrite Hsrc. replace (4 * g + length rest + 3)%nat with ((length rest + 3) + g * 4)%nat by lia.
  rewrite Nat.div_add by lia.
  assert (2 <= length rest -> 1 <= (length rest + 3) / 4)%nat as Hq by (intros; apply Nat.div_le_lower_bound; lia).
  assert (length rest < 2 \/ 1 <= (length rest + 3) / 4)%nat by lia.
  set (q := ((length rest + 3) / 4)%nat) in *. clearbody q.
  unfold flush. destruct (Z.eqb_spec ri 2), (Z.eqb_spec ri 3), (Z.eqb_spec ri 4); simpl; rewrite ?length_app; simpl; lia.
Qed.

(** Padding characters are skipped anywhere among the last characters, not only
    at the end: [Q=UJD] decodes like [QUJD]. *)
Lemma inner_padding_accepted : decode_bytes [0x51; 0x3D; 0x55; 0x4A; 0x44] = Some [0x41; 0x42; 0x43].
Proof. reflexivity. Qed.
