(* ===== verification/ActionCodes.v ===== *)
(** * Identifiers of the sequences the output engine knows

    The enumerations of src/terminal/parser/OutputStateMachineEngine.hpp. An
    enumerator is the [VTID] of the characters that identify the sequence. *)

From S2P Require Import Prelude VtTypes.

Module EscActionCodes.
Definition DECBI_BackIndex : Z := VTID._FromString (wide "6").
Definition DECSC_CursorSave : Z := VTID._FromString (wide "7").
Definition DECRC_CursorRestore : Z := VTID._FromString (wide "8").
Definition DECFI_ForwardIndex : Z := VTID._FromString (wide "9").
Definition DECKPAM_KeypadApplicationMode : Z := VTID._FromString (wide "=").
Definition DECKPNM_KeypadNumericMode : Z := VTID._FromString (wide ">").
Definition IND_Index : Z := VTID._FromString (wide "D").
Definition NEL_NextLine : Z := VTID._FromString (wide "E").
Definition HTS_HorizontalTabSet : Z := VTID._FromString (wide "H").
Definition RI_ReverseLineFeed : Z := VTID._FromString (wide "M").
Definition SS2_SingleShift : Z := VTID._FromString (wide "N").
Definition SS3_SingleShift : Z := VTID._FromString (wide "O").
Definition DECID_IdentifyDevice : Z := VTID._FromString (wide "Z").
Definition ST_StringTerminator : Z := VTID._FromString [0x5C].
Definition RIS_ResetToInitialState : Z := VTID._FromString (wide "c").
Definition LS2_LockingShift : Z := VTID._FromString (wide "n").
Definition LS3_LockingShift : Z := VTID._FromString (wide "o").
Definition LS1R_LockingShift : Z := VTID._FromString (wide "~").
Definition LS2R_LockingShift : Z := VTID._FromString (wide "}").
Definition LS3R_LockingShift : Z := VTID._FromString (wide "|").
Definition DECAC1_AcceptC1Controls : Z := VTID._FromString (wide " 7").
Definition S7C1T_Send7bitC1Controls : Z := VTID._FromString (wide " F").
Definition S8C1T_Send8bitC1Controls : Z := VTID._FromString (wide " G").
Definition ACS_AnsiLevel1 : Z := VTID._FromString (wide " L").
Definition ACS_AnsiLevel2 : Z := VTID._FromString (wide " M").
Definition ACS_AnsiLevel3 : Z := VTID._FromString (wide " N").
Definition DECDHL_DoubleHeightLineTop : Z := VTID._FromString (wide "#3").
Definition DECDHL_DoubleHeightLineBottom : Z := VTID._FromString (wide "#4").
Definition DECSWL_SingleWidthLine : Z := VTID._FromString (wide "#5").
Definition DECDWL_DoubleWidthLine : Z := VTID._FromString (wide "#6").
Definition DECALN_ScreenAlignmentPattern : Z := VTID._FromString (wide "#8").
End EscActionCodes.

Module CsiActionCodes.
Definition ICH_InsertCharacter : Z := VTID._FromString (wide "@").
Definition CUU_CursorUp : Z := VTID._FromString (wide "A").
Definition CUD_CursorDown : Z := VTID._FromString (wide "B").
Definition CUF_CursorForward : Z := VTID._FromString (wide "C").
Definition CUB_CursorBackward : Z := VTID._FromString (wide "D").
Definition CNL_CursorNextLine : Z := VTID._FromString (wide "E").
Definition CPL_CursorPrevLine : Z := VTID._FromString (wide "F").
Definition CHA_CursorHorizontalAbsolute : Z := VTID._FromString (wide "G").
Definition CUP_CursorPosition : Z := VTID._FromString (wide "H").
Definition CHT_CursorForwardTab : Z := VTID._FromString (wide "I").
Definition ED_EraseDisplay : Z := VTID._FromString (wide "J").
Definition DECSED_SelectiveEraseDisplay : Z := VTID._FromString (wide "?J").
Definition EL_EraseLine : Z := VTID._FromString (wide "K").
Definition DECSEL_SelectiveEraseLine : Z := VTID._FromString (wide "?K").
Definition IL_InsertLine : Z := VTID._FromString (wide "L").
Definition DL_DeleteLine : Z := VTID._FromString (wide "M").
Definition DCH_DeleteCharacter : Z := VTID._FromString (wide "P").
Definition SU_ScrollUp : Z := VTID._FromString (wide "S").
Definition SD_ScrollDown : Z := VTID._FromString (wide "T").
Definition NP_NextPage : Z := VTID._FromString (wide "U").
Definition PP_PrecedingPage : Z := VTID._FromString (wide "V").
Definition DECST8C_SetTabEvery8Columns : Z := VTID._FromString (wide "?W").
Definition ECH_EraseCharacters : Z := VTID._FromString (wide "X").
Definition CBT_CursorBackTab : Z := VTID._FromString (wide "Z").
Definition HPA_HorizontalPositionAbsolute : Z := VTID._FromString (wide "`").
Definition HPR_HorizontalPositionRelative : Z := VTID._FromString (wide "a").
Definition REP_RepeatCharacter : Z := VTID._FromString (wide "b").
Definition DA_DeviceAttributes : Z := VTID._FromString (wide "c").
Definition DA2_SecondaryDeviceAttributes : Z := VTID._FromString (wide ">c").
Definition DA3_TertiaryDeviceAttributes : Z := VTID._FromString (wide "=c").
Definition VPA_VerticalLinePositionAbsolute : Z := VTID._FromString (wide "d").
Definition VPR_VerticalPositionRelative : Z := VTID._FromString (wide "e").
Definition HVP_HorizontalVerticalPosition : Z := VTID._FromString (wide "f").
Definition TBC_TabClear : Z := VTID._FromString (wide "g").
Definition SM_SetMode : Z := VTID._FromString (wide "h").
Definition DECSET_PrivateModeSet : Z := VTID._FromString (wide "?h").
Definition RM_ResetMode : Z := VTID._FromString (wide "l").
Definition DECRST_PrivateModeReset : Z := VTID._FromString (wide "?l").
Definition SGR_SetGraphicsRendition : Z := VTID._FromString (wide "m").
Definition DSR_DeviceStatusReport : Z := VTID._FromString (wide "n").
Definition DSR_PrivateDeviceStatusReport : Z := VTID._FromString (wide "?n").
Definition DECSTBM_SetTopBottomMargins : Z := VTID._FromString (wide "r").
Definition DECSLRM_SetLeftRightMargins : Z := VTID._FromString (wide "s").
Definition DTTERM_WindowManipulation : Z := VTID._FromString (wide "t").
Definition ANSISYSRC_CursorRestore : Z := VTID._FromString (wide "u").
Definition DECREQTPARM_RequestTerminalParameters : Z := VTID._FromString (wide "x").
Definition PPA_PagePositionAbsolute : Z := VTID._FromString (wide " P").
Definition PPR_PagePositionRelative : Z := VTID._FromString (wide " Q").
Definition PPB_PagePositionBack : Z := VTID._FromString (wide " R").
Definition DECSCUSR_SetCursorStyle : Z := VTID._FromString (wide " q").
Definition DECSTR_SoftReset : Z := VTID._FromString (wide "!p").
Definition DECSCA_SetCharacterProtectionAttribute : Z := VTID._FromString [0x22; 0x71].
Definition DECRQDE_RequestDisplayedExtent : Z := VTID._FromString [0x22; 0x76].
Definition XT_PushSgrAlias : Z := VTID._FromString (wide "#p").
Definition XT_PopSgrAlias : Z := VTID._FromString (wide "#q").
Definition XT_PushSgr : Z := VTID._FromString (wide "#{").
Definition XT_PopSgr : Z := VTID._FromString (wide "#}").
Definition DECRQM_RequestMode : Z := VTID._FromString (wide "$p").
Definition DECRQM_PrivateRequestMode : Z := VTID._FromString (wide "?$p").
Definition DECCARA_ChangeAttributesRectangularArea : Z := VTID._FromString (wide "$r").
Definition DECRARA_ReverseAttributesRectangularArea : Z := VTID._FromString (wide "$t").
Definition DECRQTSR_RequestTerminalStateReport : Z := VTID._FromString (wide "$u").
Definition DECCRA_CopyRectangularArea : Z := VTID._FromString (wide "$v").
Definition DECRQPSR_RequestPresentationStateReport : Z := VTID._FromString (wide "$w").
Definition DECFRA_FillRectangularArea : Z := VTID._FromString (wide "$x").
Definition DECERA_EraseRectangularArea : Z := VTID._FromString (wide "$z").
Definition DECSERA_SelectiveEraseRectangularArea : Z := VTID._FromString (wide "${").
Definition DECSCPP_SetColumnsPerPage : Z := VTID._FromString (wide "$|").
Definition DECRQUPSS_RequestUserPreferenceSupplementalSet : Z := VTID._FromString (wide "&u").
Definition DECIC_InsertColumn : Z := VTID._FromString (wide "'}").
Definition DECDC_DeleteColumn : Z := VTID._FromString (wide "'~").
Definition DECSACE_SelectAttributeChangeExtent : Z := VTID._FromString (wide "*x").
Definition DECRQCRA_RequestChecksumRectangularArea : Z := VTID._FromString (wide "*y").
Definition DECINVM_InvokeMacro : Z := VTID._FromString (wide "*z").
Definition DECAC_AssignColor : Z := VTID._FromString (wide ",|").
Definition DECPS_PlaySound : Z := VTID._FromString (wide ",~").
Definition KKP_KittyKeyboardSet : Z := VTID._FromString (wide "=u").
Definition KKP_KittyKeyboardQuery : Z := VTID._FromString (wide "?u").
Definition KKP_KittyKeyboardPush : Z := VTID._FromString (wide ">u").
Definition KKP_KittyKeyboardPop : Z := VTID._FromString (wide "<u").
End CsiActionCodes.

Module DcsActionCodes.
Definition SIXEL_DefineImage : Z := VTID._FromString (wide "q").
Definition DECDLD_DownloadDRCS : Z := VTID._FromString (wide "{").
Definition DECAUPSS_AssignUserPreferenceSupplementalSet : Z := VTID._FromString (wide "!u").
Definition DECDMAC_DefineMacro : Z := VTID._FromString (wide "!z").
Definition DECRSTS_RestoreTerminalState : Z := VTID._FromString (wide "$p").
Definition DECRQSS_RequestSetting : Z := VTID._FromString (wide "$q").
Definition DECRSPS_RestorePresentationState : Z := VTID._FromString (wide "$t").
End DcsActionCodes.

Module Vt52ActionCodes.
Definition CursorUp : Z := VTID._FromString (wide "A").
Definition CursorDown : Z := VTID._FromString (wide "B").
Definition CursorRight : Z := VTID._FromString (wide "C").
Definition CursorLeft : Z := VTID._FromString (wide "D").
Definition EnterGraphicsMode : Z := VTID._FromString (wide "F").
Definition ExitGraphicsMode : Z := VTID._FromString (wide "G").
Definition CursorToHome : Z := VTID._FromString (wide "H").
Definition ReverseLineFeed : Z := VTID._FromString (wide "I").
Definition EraseToEndOfScreen : Z := VTID._FromString (wide "J").
Definition EraseToEndOfLine : Z := VTID._FromString (wide "K").
Definition DirectCursorAddress : Z := VTID._FromString (wide "Y").
Definition Identify : Z := VTID._FromString (wide "Z").
Definition EnterAlternateKeypadMode : Z := VTID._FromString (wide "=").
Definition ExitAlternateKeypadMode : Z := VTID._FromString (wide ">").
Definition ExitVt52Mode : Z := VTID._FromString (wide "<").
End Vt52ActionCodes.

Module OscActionCodes.
Definition SetIconAndWindowTitle : Z := 0.
Definition SetWindowIcon : Z := 1.
Definition SetWindowTitle : Z := 2.
Definition SetWindowProperty : Z := 3.
Definition SetColor : Z := 4.
Definition CurrentWorkingDirectory : Z := 7.
Definition Hyperlink : Z := 8.
Definition ConEmuAction : Z := 9.
Definition SetForegroundColor : Z := 10.
Definition SetBackgroundColor : Z := 11.
Definition SetCursorColor : Z := 12.
Definition SetHighlightColor : Z := 17.
Definition DECSWT_SetWindowTitle : Z := 21.
Definition SetClipboard : Z := 52.
Definition ResetColor : Z := 104.
Definition ResetForegroundColor : Z := 110.
Definition ResetBackgroundColor : Z := 111.
Definition ResetCursorColor : Z := 112.
Definition ResetHighlightColor : Z := 117.
Definition FinalTermAction : Z := 133.
Definition VsCodeAction : Z := 633.
Definition UrxvtAction : Z := 777.
Definition ITerm2Action : Z := 1337.
Definition WTAction : Z := 9001.
End OscActionCodes.
