(* ===== verification/TermDispatch.v ===== *)
(** * The interface between the output engine and the terminal

    Models [ITermDispatch] of src/terminal/adapter/ITermDispatch.hpp: one
    constructor per virtual method, with its arguments. [VTInt]s, enumerators,
    identifiers and [VTParameter]s (raw, negative when omitted) are numbers. *)

From S2P Require Import Prelude VtTypes StateMachine.

Module ITermDispatch.

(** The methods that return nothing; [UnknownSequence] is separate since it
    can neither throw nor reach the parser. *)
Inductive Call :=
| Print (wchPrintable : wchar)
| PrintString (string : wstring)
| CursorUp (distance : Z)
| CursorDown (distance : Z)
| CursorForward (distance : Z)
| CursorBackward (distance : Z)
| CursorNextLine (distance : Z)
| CursorPrevLine (distance : Z)
| CursorHorizontalPositionAbsolute (column : Z)
| VerticalLinePositionAbsolute (line : Z)
| HorizontalPositionRelative (distance : Z)
| VerticalPositionRelative (distance : Z)
| CursorPosition (line column : Z)
| CursorSaveState
| CursorRestoreState
| InsertCharacter (count : Z)
| DeleteCharacter (count : Z)
| ScrollUp (distance : Z)
| ScrollDown (distance : Z)
| NextPage (pageCount : Z)
| PrecedingPage (pageCount : Z)
| PagePositionAbsolute (page : Z)
| PagePositionRelative (pageCount : Z)
| PagePositionBack (pageCount : Z)
| RequestDisplayedExtent
| InsertLine (distance : Z)
| DeleteLine (distance : Z)
| InsertColumn (distance : Z)
| DeleteColumn (distance : Z)
| SetKeypadMode (applicationMode : bool)
| SetAnsiMode (ansiMode : bool)
| SetKittyKeyboardProtocol (flags mode : Z)
| QueryKittyKeyboardProtocol
| PushKittyKeyboardProtocol (flags : Z)
| PopKittyKeyboardProtocol (count : Z)
| SetTopBottomScrollingMargins (topMargin bottomMargin : Z)
| SetLeftRightScrollingMargins (leftMargin rightMargin : Z)
| EnquireAnswerback
| WarningBell
| CarriageReturn
| LineFeed (lineFeedType : Z)
| ReverseLineFeed
| BackIndex
| ForwardIndex
| SetWindowTitle (title : wstring)
| SetCurrentWorkingDirectory (uri : wstring)
| HorizontalTabSet
| ForwardTab (numTabs : Z)
| BackwardsTab (numTabs : Z)
| TabClear (clearType : Z)
| TabSet (setType : Z)
| SetColorTableEntry (tableIndex color : Z)
| RequestColorTableEntry (tableIndex : Z)
| ResetColorTable
| ResetColorTableEntry (tableIndex : Z)
| SetXtermColorResource (resource color : Z)
| RequestXtermColorResource (resource : Z)
| ResetXtermColorResource (resource : Z)
| AssignColor (item fgIndex bgIndex : Z)
| EraseInDisplay (eraseType : Z)
| EraseInLine (eraseType : Z)
| EraseCharacters (numChars : Z)
| SelectiveEraseInDisplay (eraseType : Z)
| SelectiveEraseInLine (eraseType : Z)
| ChangeAttributesRectangularArea (top left bottom right : Z) (attrs : VTParameters.t)
| ReverseAttributesRectangularArea (top left bottom right : Z) (attrs : VTParameters.t)
| CopyRectangularArea (top left bottom right page dstTop dstLeft dstPage : Z)
| FillRectangularArea (ch top left bottom right : Z)
| EraseRectangularArea (top left bottom right : Z)
| SelectiveEraseRectangularArea (top left bottom right : Z)
| SelectAttributeChangeExtent (changeExtent : Z)
| RequestChecksumRectangularArea (id page top left bottom right : Z)
| SetGraphicsRendition (options : VTParameters.t)
| SetLineRendition (rendition : Z)
| SetCharacterProtectionAttribute (options : VTParameters.t)
| PushGraphicsRendition (options : VTParameters.t)
| PopGraphicsRendition
| SetMode (param : Z)
| ResetMode (param : Z)
| RequestMode (param : Z)
| DeviceStatusReport (statusType id : Z)
| DeviceAttributes
| SecondaryDeviceAttributes
| TertiaryDeviceAttributes
| Vt52DeviceAttributes
| RequestTerminalParameters (permission : Z)
| DesignateCodingSystem (codingSystem : Z)
| Designate94Charset (gsetNumber charset : Z)
| Designate96Charset (gsetNumber charset : Z)
| LockingShift (gsetNumber : Z)
| LockingShiftRight (gsetNumber : Z)
| SingleShift (gsetNumber : Z)
| AcceptC1Controls (enabled : bool)
| SendC1Controls (enabled : bool)
| AnnounceCodeStructure (ansiLevel : Z)
| SoftReset
| HardReset (erase : bool)
| ScreenAlignmentPattern
| SetCursorStyle (cursorStyle : Z)
| SetClipboard (content : wstring)
| WindowManipulation (function parameter1 parameter2 : Z)
| AddHyperlink (uri params : wstring)
| EndHyperlink
| DoConEmuAction (string : wstring)
| DoITerm2Action (string : wstring)
| DoFinalTermAction (string : wstring)
| DoVsCodeAction (string : wstring)
| DoWTAction (string : wstring)
| DoUrxvtAction (string : wstring)
| RequestUserPreferenceCharset
| InvokeMacro (macroId : Z)
| RequestTerminalStateReport (format formatOption : Z)
| RequestPresentationStateReport (format : Z)
| PlaySounds (parameters : VTParameters.t)
| SetOptionalFeatures (features : Z)
| NotifyVtSequence (sequence : wstring).

(** The methods that return a handler for the data string of the sequence. *)
Inductive StringCall :=
| DefineSixelImage (macroParameter backgroundSelect backgroundColor : Z)
| DownloadDRCS (fontNumber startChar eraseControl cellMatrix fontSet fontUsage cellHeight charsetSize : Z)
| AssignUserPreferenceCharset (charsetSize : Z)
| DefineMacro (macroId deleteControl encoding : Z)
| RestoreTerminalState (format : Z)
| RequestSetting
| RestorePresentationState (format : Z).

End ITermDispatch.

(** An implementation of the interface with state [D]. [H] is the type of the
    string handlers and [CB] that of the callbacks given to [OnCsiComplete]. *)
Class TermDispatch (D H CB : Type) := {
  unknownSequence : D -> D;
  invoke : ITermDispatch.Call -> View -> D -> Reply D CB unit;
  invokeString : ITermDispatch.StringCall -> View -> D -> Reply D CB (option H);
  callHandler : H -> wchar -> View -> D -> H * Reply D CB bool;
  callbackBegin : CB -> D -> D * option wstring;
  callbackEnd : CB -> D -> D;
}.

(** ** The enumerators of [DispatchTypes] that the output engine names *)
Module DispatchTypes.
Module LineFeedType.
Definition WithReturn : Z := 0.
Definition WithoutReturn : Z := 1.
Definition DependsOnMode : Z := 2.
End LineFeedType.

Module EraseType.
Definition ToEnd : Z := 0.
End EraseType.

Module CharacterSets.
Definition DecSpecialGraphics : Z := VTID._FromString (wide "0").
Definition ASCII : Z := VTID._FromString (wide "B").
End CharacterSets.

(** [FlaggedEnumValue<Flag>]: the constructor from a parameter converts it to a
    [VTInt], which turns 0 and omitted parameters into 1. *)
Definition FlaggedEnumValue (flag value : Z) : Z := Z.lor value flag.
Definition FlaggedEnumValue_of_parameter (flag parameter : Z) : Z :=
  FlaggedEnumValue flag (VTParameter.to_VTInt parameter).

Definition ANSIStandardMode : Z -> Z := FlaggedEnumValue_of_parameter 0x00000000.
Definition DECPrivateMode : Z -> Z := FlaggedEnumValue_of_parameter 0x01000000.
Definition ANSIStandardStatus : Z -> Z := FlaggedEnumValue_of_parameter 0x00000000.
Definition DECPrivateStatus : Z -> Z := FlaggedEnumValue_of_parameter 0x01000000.

Definition DECCKM_CursorKeysMode : Z := FlaggedEnumValue 0x01000000 1.
Definition DECANM_AnsiMode : Z := FlaggedEnumValue 0x01000000 2.
End DispatchTypes.

(** [LineRendition] of src/buffer/out/LineRendition.hpp *)
Module LineRendition.
Definition SingleWidth : Z := 0.
Definition DoubleWidth : Z := 1.
Definition DoubleHeightTop : Z := 2.
Definition DoubleHeightBottom : Z := 3.
End LineRendition.
