(* ===== verification/OutputEngine.v ===== *)
(** * The output engine

    Models src/terminal/parser/OutputStateMachineEngine.cpp: the engine that
    turns the parser's actions into calls of [ITermDispatch]. It is an instance
    of the engine interface, for every implementation of the dispatch interface. *)

From S2P Require Import Prelude VtTypes Chars StateMachine Utils ColorTable Base64 ActionCodes TermDispatch.

(** ** State *)
Record OutputStateMachineEngine (D : Type) := mkOutputEngine { _dispatch : D; _lastPrintedChar : wchar }.
Arguments mkOutputEngine {D} _ _.
Arguments _dispatch {D} _.
Arguments _lastPrintedChar {D} _.

(** ** Effects

    The body of a method: it calls the dispatch, whose requests to the parser are
    collected and seen by later calls, and stops at the first exception. *)
Definition view_after {CB} (v : View) (r : Request CB) : View :=
  match r with
  | ReqSetParserMode AcceptC1 enabled => mkView enabled (view_Ansi v) (view_lastCharacter v)
  | ReqSetParserMode Ansi enabled => mkView (view_AcceptC1 v) enabled (view_lastCharacter v)
  | _ => v
  end.

Definition engineM (D CB A : Type) : Type :=
  View -> OutputStateMachineEngine D -> Reply (OutputStateMachineEngine D) CB A.

#[global] Instance engineM_ret D CB : MRet (engineM D CB) := fun A a _ e => mkReply e [] (Some a).
#[global] Instance engineM_bind D CB : MBind (engineM D CB) := fun A B k m v e =>
  let r := m v e in
  match reply_value r with
  | None => mkReply (reply_engine r) (reply_requests r) None
  | Some a =>
    let r' := k a (fold_left view_after (reply_requests r) v) (reply_engine r) in
    mkReply (reply_engine r') (reply_requests r ++ reply_requests r') (reply_value r')
  end.

(** The conversion from UTF-8 that [Base64::Decode] ends with. *)
Class U8U16 := u8u16 : list Z -> option wstring.

(** ** Parsing the strings of operating system commands *)
Definition COLOR_INQUIRY_COLOR : Z := 0xfeffffff.
Definition INVALID_COLOR : Z := 0xffffffff.
Definition MAX_URL_LENGTH : Z := 2 * 1048576.
Definition hyperlinkIDParameter : wstring := wide "id=".
Definition question_mark : wstring := wide "?".
Definition semicolon : wchar := 0x3B.
Definition colon : wchar := 0x3A.

(** [substr(0, count)] *)
Fixpoint substr (count : Z) (s : wstring) : wstring :=
  match s with
  | [] => []
  | c :: s => if count <=? 0 then [] else c :: substr (count - 1) s
  end.

(** [find] for a string: what follows its first occurrence. *)
Fixpoint find_after (pattern s : wstring) : option wstring :=
  if bool_decide (take (length pattern) s = pattern) then Some (drop (length pattern) s)
  else match s with
       | [] => None
       | _ :: s => find_after pattern s
       end.

(** The loop of [_GetOscSetColorTable]; table index and colour are pushed
    together, so the two vectors are one list of pairs. *)
Fixpoint color_table_pairs (parts : list wstring) : list (Z * Z) :=
  match parts with
  | index :: color :: parts =>
    let rest := color_table_pairs parts in
    match StringToUint index with
    | Some tableIndex =>
      if bool_decide (color = question_mark) then (tableIndex, COLOR_INQUIRY_COLOR) :: rest
      else match ColorFromXTermColor color with
           | Some c => (tableIndex, color_COLORREF c) :: rest
           | None => rest
           end
    | None => rest
    end
  | _ => []
  end.

Definition _GetOscSetColorTable (string : wstring) : option (list (Z * Z)) :=
  let parts := SplitString string semicolon in
  if (length parts <? 2)%nat then None
  else match color_table_pairs parts with
       | [] => None
       | pairs => Some pairs
       end.

Definition _GetOscSetColor (string : wstring) : option (list Z) :=
  let parts := SplitString string semicolon in
  if (length parts <? 1)%nat then None
  else
    match map (fun part =>
            if bool_decide (part = question_mark) then COLOR_INQUIRY_COLOR
            else match ColorFromXTermColor part with
                 | Some c => color_COLORREF c
                 | None => INVALID_COLOR
                 end) parts with
    | [] => None
    | rgbs => Some rgbs
    end.

(** The result: the content and whether the clipboard is queried. *)
Definition _GetOscSetClipboard `{!U8U16} (string : wstring) : option (wstring * bool) :=
  match split_at semicolon string with
  | None => None
  | Some (_, rest) =>
    if bool_decide (rest = question_mark) then Some ([], true)
    else content ← Decode u8u16 rest; Some (content, false)
  end.

(** The result: the id parameter and the URI. *)
Definition _ParseHyperlink (string : wstring) : option (wstring * wstring) :=
  if bool_decide (string = [semicolon]) then Some ([], [])
  else
    match split_at semicolon string with
    | Some (paramStr, rest) =>
      let params := fold_left (fun params part => default params (find_after hyperlinkIDParameter part))
                      (SplitString paramStr colon) [] in
      Some (params, substr MAX_URL_LENGTH rest)
    | None => None
    end.

(** [til::split_iterator]: [it] and [tok] are what is left of the string from
    the iterators [_it] and [_tok] on. One turn of the loop: [valid], [value],
    the body, [advance]. *)
Fixpoint split_tokens (fuel : nat) (needle : wchar) (it tok : wstring) : list wstring :=
  match fuel, tok with
  | O, _ | _, [] => []
  | S fuel, _ =>
    match split_at needle it with
    | Some (value, after) => value :: split_tokens fuel needle after (needle :: after)
    | None => [it]
    end
  end.

Definition split_iterator (str : wstring) (needle : wchar) : list wstring :=
  split_tokens (S (length str)) needle str str.

(** The indices before the first token that is no number. *)
Fixpoint leading_indices (tokens : list wstring) : list Z :=
  match tokens with
  | [] => []
  | c :: tokens => match parse_u64 10 c with Some index => index :: leading_indices tokens | None => [] end
  end.

Definition _CanSeqAcceptSubParam (id : Z) (parameters : VTParameters.t) : bool :=
  let only_attributes := negb (VTParameters.hasSubParamsFor parameters 0) && negb (VTParameters.hasSubParamsFor parameters 1) &&
                         negb (VTParameters.hasSubParamsFor parameters 2) && negb (VTParameters.hasSubParamsFor parameters 3) in
  switch id
    [(CsiActionCodes.SGR_SetGraphicsRendition, true);
     (CsiActionCodes.DECCARA_ChangeAttributesRectangularArea, only_attributes);
     (CsiActionCodes.DECRARA_ReverseAttributesRectangularArea, only_attributes)]
    false.

(** ** The actions *)
Section OutputEngine.
Context {D H CB : Type} `{!TermDispatch D H CB} `{!U8U16}.
Abbreviation Engine := (OutputStateMachineEngine D).
Abbreviation M := (engineM D CB).

Definition make_OutputEngine (pDispatch : D) : Engine := mkOutputEngine pDispatch AsciiChars.NUL.

(** A call of the dispatch leaves the engine's own field alone. *)
Definition dispatched {A} (f : View -> D -> Reply D CB A) : M A := fun v e =>
  let r := f v (_dispatch e) in
  mkReply (mkOutputEngine (reply_engine r) (_lastPrintedChar e)) (reply_requests r) (reply_value r).

Definition call (c : ITermDispatch.Call) : M unit := dispatched (invoke c).
Definition callString (c : ITermDispatch.StringCall) : M (option H) := dispatched (invokeString c).
Definition skip : M unit := mret tt.
Definition call_UnknownSequence : M unit := fun _ e =>
  mkReply (mkOutputEngine (unknownSequence (_dispatch e)) (_lastPrintedChar e)) [] (Some tt).
Definition for_each {A} (f : A -> M unit) (values : list A) : M unit :=
  fold_right (fun a rest => f a;; rest) skip values.

Definition set_lastPrintedChar (wch : wchar) : M unit := fun _ e => mkReply (mkOutputEngine (_dispatch e) wch) [] (Some tt).
Definition get_lastPrintedChar : M wchar := fun _ e => mkReply e [] (Some (_lastPrintedChar e)).
Definition _ClearLastChar : M unit := set_lastPrintedChar AsciiChars.NUL.

Definition engine_UnknownSequence (e : Engine) : Engine :=
  mkOutputEngine (unknownSequence (_dispatch e)) (_lastPrintedChar e).

Definition execute_cases (wch : wchar) : list (Z * M unit) :=
  [(AsciiChars.ENQ, call ITermDispatch.EnquireAnswerback);
   (AsciiChars.BEL, call ITermDispatch.WarningBell);
   (AsciiChars.BS, call (ITermDispatch.CursorBackward 1));
   (AsciiChars.TAB, call (ITermDispatch.ForwardTab 1));
   (AsciiChars.CR, call ITermDispatch.CarriageReturn);
   (AsciiChars.LF, call (ITermDispatch.LineFeed DispatchTypes.LineFeedType.DependsOnMode));
   (AsciiChars.FF, call (ITermDispatch.LineFeed DispatchTypes.LineFeedType.DependsOnMode));
   (AsciiChars.VT, call (ITermDispatch.LineFeed DispatchTypes.LineFeedType.DependsOnMode));
   (AsciiChars.SI, call (ITermDispatch.LockingShift 0));
   (AsciiChars.SO, call (ITermDispatch.LockingShift 1));
   (AsciiChars.SUB, call (ITermDispatch.Print 0x2426));
   (AsciiChars.DEL, call (ITermDispatch.Print wch))].

Definition engine_ActionExecute (wch : wchar) : M bool :=
  switch wch (execute_cases wch) skip;; _ClearLastChar;; mret true.

Definition engine_ActionExecuteFromEscape (wch : wchar) : M bool := engine_ActionExecute wch.

Definition stash_lastPrintedChar (wch : wchar) : M unit :=
  if AsciiChars.SPC <=? wch then set_lastPrintedChar wch else skip.

Definition engine_ActionPrint (wch : wchar) : M bool :=
  stash_lastPrintedChar wch;; call (ITermDispatch.Print wch);; mret true.

Definition engine_ActionPrintString (string : wstring) : M bool :=
  match last string with
  | None => mret true
  | Some wch => stash_lastPrintedChar wch;; call (ITermDispatch.PrintString string);; mret true
  end.

Definition engine_ActionPassThroughString (string : wstring) : M bool := mret true.

(** *** Escape sequences *)
Definition esc_cases : list (Z * M unit) :=
  [(EscActionCodes.ST_StringTerminator, skip);
   (EscActionCodes.DECBI_BackIndex, call ITermDispatch.BackIndex);
   (EscActionCodes.DECSC_CursorSave, call ITermDispatch.CursorSaveState);
   (EscActionCodes.DECRC_CursorRestore, call ITermDispatch.CursorRestoreState);
   (EscActionCodes.DECFI_ForwardIndex, call ITermDispatch.ForwardIndex);
   (EscActionCodes.DECKPAM_KeypadApplicationMode, call (ITermDispatch.SetKeypadMode true));
   (EscActionCodes.DECKPNM_KeypadNumericMode, call (ITermDispatch.SetKeypadMode false));
   (EscActionCodes.NEL_NextLine, call (ITermDispatch.LineFeed DispatchTypes.LineFeedType.WithReturn));
   (EscActionCodes.IND_Index, call (ITermDispatch.LineFeed DispatchTypes.LineFeedType.WithoutReturn));
   (EscActionCodes.RI_ReverseLineFeed, call ITermDispatch.ReverseLineFeed);
   (EscActionCodes.HTS_HorizontalTabSet, call ITermDispatch.HorizontalTabSet);
   (EscActionCodes.DECID_IdentifyDevice, call ITermDispatch.DeviceAttributes);
   (EscActionCodes.RIS_ResetToInitialState, call (ITermDispatch.HardReset true));
   (EscActionCodes.SS2_SingleShift, call (ITermDispatch.SingleShift 2));
   (EscActionCodes.SS3_SingleShift, call (ITermDispatch.SingleShift 3));
   (EscActionCodes.LS2_LockingShift, call (ITermDispatch.LockingShift 2));
   (EscActionCodes.LS3_LockingShift, call (ITermDispatch.LockingShift 3));
   (EscActionCodes.LS1R_LockingShift, call (ITermDispatch.LockingShiftRight 1));
   (EscActionCodes.LS2R_LockingShift, call (ITermDispatch.LockingShiftRight 2));
   (EscActionCodes.LS3R_LockingShift, call (ITermDispatch.LockingShiftRight 3));
   (EscActionCodes.DECAC1_AcceptC1Controls, call (ITermDispatch.AcceptC1Controls true));
   (EscActionCodes.S7C1T_Send7bitC1Controls, call (ITermDispatch.SendC1Controls false));
   (EscActionCodes.S8C1T_Send8bitC1Controls, call (ITermDispatch.SendC1Controls true));
   (EscActionCodes.ACS_AnsiLevel1, call (ITermDispatch.AnnounceCodeStructure 1));
   (EscActionCodes.ACS_AnsiLevel2, call (ITermDispatch.AnnounceCodeStructure 2));
   (EscActionCodes.ACS_AnsiLevel3, call (ITermDispatch.AnnounceCodeStructure 3));
   (EscActionCodes.DECDHL_DoubleHeightLineTop, call (ITermDispatch.SetLineRendition LineRendition.DoubleHeightTop));
   (EscActionCodes.DECDHL_DoubleHeightLineBottom, call (ITermDispatch.SetLineRendition LineRendition.DoubleHeightBottom));
   (EscActionCodes.DECSWL_SingleWidthLine, call (ITermDispatch.SetLineRendition LineRendition.SingleWidth));
   (EscActionCodes.DECDWL_DoubleWidthLine, call (ITermDispatch.SetLineRendition LineRendition.DoubleWidth));
   (EscActionCodes.DECALN_ScreenAlignmentPattern, call ITermDispatch.ScreenAlignmentPattern)].

(** The default case: character set designations. *)
Definition designate (id : Z) : M unit :=
  let commandChar := VTID.char_at id 0 in
  let commandParameter := VTID.SubSequence id 1 in
  switch commandChar
    [(0x25, call (ITermDispatch.DesignateCodingSystem commandParameter));
     (0x28, call (ITermDispatch.Designate94Charset 0 commandParameter));
     (0x29, call (ITermDispatch.Designate94Charset 1 commandParameter));
     (0x2A, call (ITermDispatch.Designate94Charset 2 commandParameter));
     (0x2B, call (ITermDispatch.Designate94Charset 3 commandParameter));
     (0x2D, call (ITermDispatch.Designate96Charset 1 commandParameter));
     (0x2E, call (ITermDispatch.Designate96Charset 2 commandParameter));
     (0x2F, call (ITermDispatch.Designate96Charset 3 commandParameter))]
    skip.

Definition engine_ActionEscDispatch (id : Z) : M bool :=
  switch id esc_cases (designate id);; _ClearLastChar;; mret true.

(** *** VT52 *)
Definition vt52_cases (parameters : VTParameters.t) : list (Z * M unit) :=
  [(Vt52ActionCodes.CursorUp, call (ITermDispatch.CursorUp 1));
   (Vt52ActionCodes.CursorDown, call (ITermDispatch.CursorDown 1));
   (Vt52ActionCodes.CursorRight, call (ITermDispatch.CursorForward 1));
   (Vt52ActionCodes.CursorLeft, call (ITermDispatch.CursorBackward 1));
   (Vt52ActionCodes.EnterGraphicsMode, call (ITermDispatch.Designate94Charset 0 DispatchTypes.CharacterSets.DecSpecialGraphics));
   (Vt52ActionCodes.ExitGraphicsMode, call (ITermDispatch.Designate94Charset 0 DispatchTypes.CharacterSets.ASCII));
   (Vt52ActionCodes.CursorToHome, call (ITermDispatch.CursorPosition 1 1));
   (Vt52ActionCodes.ReverseLineFeed, call ITermDispatch.ReverseLineFeed);
   (Vt52ActionCodes.EraseToEndOfScreen, call (ITermDispatch.EraseInDisplay DispatchTypes.EraseType.ToEnd));
   (Vt52ActionCodes.EraseToEndOfLine, call (ITermDispatch.EraseInLine DispatchTypes.EraseType.ToEnd));
   (Vt52ActionCodes.DirectCursorAddress,
      call (ITermDispatch.CursorPosition (VTParameters.at_ parameters 0 - 0x20 + 1) (VTParameters.at_ parameters 1 - 0x20 + 1)));
   (Vt52ActionCodes.Identify, call ITermDispatch.Vt52DeviceAttributes);
   (Vt52ActionCodes.EnterAlternateKeypadMode, call (ITermDispatch.SetKeypadMode true));
   (Vt52ActionCodes.ExitAlternateKeypadMode, call (ITermDispatch.SetKeypadMode false));
   (Vt52ActionCodes.ExitVt52Mode, call (ITermDispatch.SetMode DispatchTypes.DECANM_AnsiMode))].

Definition engine_ActionVt52EscDispatch (id : Z) (parameters : VTParameters.t) : M bool :=
  switch id (vt52_cases parameters) skip;; _ClearLastChar;; mret true.

(** *** Control sequences

    How the parameters are converted depends on the type of the argument. *)
Definition int_at (parameters : VTParameters.t) (index : nat) : Z := VTParameter.to_VTInt (VTParameters.at_ parameters index).
Definition enum_at (parameters : VTParameters.t) (index : nat) : Z := VTParameter.to_enum (VTParameters.at_ parameters index).
Definition zero_at (parameters : VTParameters.t) (index : nat) : Z := VTParameter.value_or (VTParameters.at_ parameters index) 0.

(** [parameters.for_each] with a call per parameter. *)
Definition call_each (parameters : VTParameters.t) (f : Z -> ITermDispatch.Call) : M unit :=
  for_each (fun p => call (f p)) (VTParameters.for_each_values parameters).

Definition call_if_zero (parameters : VTParameters.t) (c : ITermDispatch.Call) : M unit :=
  if zero_at parameters 0 =? 0 then call c else skip.

(** REP *)
Definition repeat_last (parameters : VTParameters.t) : M unit :=
  wch ← get_lastPrintedChar;
  if wch =? AsciiChars.NUL then skip
  else call (ITermDispatch.PrintString (repeat wch (Z.to_nat (int_at parameters 0)))).

Definition csi_cases_cursor (ps : VTParameters.t) : list (Z * M unit) :=
  [(CsiActionCodes.CUU_CursorUp, call (ITermDispatch.CursorUp (int_at ps 0)));
   (CsiActionCodes.CUD_CursorDown, call (ITermDispatch.CursorDown (int_at ps 0)));
   (CsiActionCodes.CUF_CursorForward, call (ITermDispatch.CursorForward (int_at ps 0)));
   (CsiActionCodes.CUB_CursorBackward, call (ITermDispatch.CursorBackward (int_at ps 0)));
   (CsiActionCodes.CNL_CursorNextLine, call (ITermDispatch.CursorNextLine (int_at ps 0)));
   (CsiActionCodes.CPL_CursorPrevLine, call (ITermDispatch.CursorPrevLine (int_at ps 0)));
   (CsiActionCodes.CHA_CursorHorizontalAbsolute, call (ITermDispatch.CursorHorizontalPositionAbsolute (int_at ps 0)));
   (CsiActionCodes.HPA_HorizontalPositionAbsolute, call (ITermDispatch.CursorHorizontalPositionAbsolute (int_at ps 0)));
   (CsiActionCodes.VPA_VerticalLinePositionAbsolute, call (ITermDispatch.VerticalLinePositionAbsolute (int_at ps 0)));
   (CsiActionCodes.HPR_HorizontalPositionRelative, call (ITermDispatch.HorizontalPositionRelative (int_at ps 0)));
   (CsiActionCodes.VPR_VerticalPositionRelative, call (ITermDispatch.VerticalPositionRelative (int_at ps 0)));
   (CsiActionCodes.CUP_CursorPosition, call (ITermDispatch.CursorPosition (int_at ps 0) (int_at ps 1)));
   (CsiActionCodes.HVP_HorizontalVerticalPosition, call (ITermDispatch.CursorPosition (int_at ps 0) (int_at ps 1)));
   (CsiActionCodes.DECSTBM_SetTopBottomMargins, call (ITermDispatch.SetTopBottomScrollingMargins (zero_at ps 0) (zero_at ps 1)));
   (CsiActionCodes.DECSLRM_SetLeftRightMargins, call (ITermDispatch.SetLeftRightScrollingMargins (zero_at ps 0) (zero_at ps 1)));
   (CsiActionCodes.ICH_InsertCharacter, call (ITermDispatch.InsertCharacter (int_at ps 0)));
   (CsiActionCodes.DCH_DeleteCharacter, call (ITermDispatch.DeleteCharacter (int_at ps 0)));
   (CsiActionCodes.ED_EraseDisplay, call_each ps (fun p => ITermDispatch.EraseInDisplay (VTParameter.to_enum p)));
   (CsiActionCodes.DECSED_SelectiveEraseDisplay, call_each ps (fun p => ITermDispatch.SelectiveEraseInDisplay (VTParameter.to_enum p)));
   (CsiActionCodes.EL_EraseLine, call_each ps (fun p => ITermDispatch.EraseInLine (VTParameter.to_enum p)));
   (CsiActionCodes.DECSEL_SelectiveEraseLine, call_each ps (fun p => ITermDispatch.SelectiveEraseInLine (VTParameter.to_enum p)));
   (CsiActionCodes.SM_SetMode, call_each ps (fun p => ITermDispatch.SetMode (DispatchTypes.ANSIStandardMode p)));
   (CsiActionCodes.DECSET_PrivateModeSet, call_each ps (fun p => ITermDispatch.SetMode (DispatchTypes.DECPrivateMode p)));
   (CsiActionCodes.RM_ResetMode, call_each ps (fun p => ITermDispatch.ResetMode (DispatchTypes.ANSIStandardMode p)));
   (CsiActionCodes.DECRST_PrivateModeReset, call_each ps (fun p => ITermDispatch.ResetMode (DispatchTypes.DECPrivateMode p)));
   (CsiActionCodes.SGR_SetGraphicsRendition, call (ITermDispatch.SetGraphicsRendition ps));
   (CsiActionCodes.DSR_DeviceStatusReport,
      call (ITermDispatch.DeviceStatusReport (DispatchTypes.ANSIStandardStatus (VTParameters.at_ ps 0)) (VTParameters.at_ ps 1)));
   (CsiActionCodes.DSR_PrivateDeviceStatusReport,
      call (ITermDispatch.DeviceStatusReport (DispatchTypes.DECPrivateStatus (VTParameters.at_ ps 0)) (VTParameters.at_ ps 1)));
   (CsiActionCodes.DA_DeviceAttributes, call_if_zero ps ITermDispatch.DeviceAttributes);
   (CsiActionCodes.DA2_SecondaryDeviceAttributes, call_if_zero ps ITermDispatch.SecondaryDeviceAttributes);
   (CsiActionCodes.DA3_TertiaryDeviceAttributes, call_if_zero ps ITermDispatch.TertiaryDeviceAttributes);
   (CsiActionCodes.DECREQTPARM_RequestTerminalParameters, call (ITermDispatch.RequestTerminalParameters (enum_at ps 0)))].

Definition csi_cases_page (ps : VTParameters.t) : list (Z * M unit) :=
  [(CsiActionCodes.SU_ScrollUp, call (ITermDispatch.ScrollUp (int_at ps 0)));
   (CsiActionCodes.SD_ScrollDown, call (ITermDispatch.ScrollDown (int_at ps 0)));
   (CsiActionCodes.NP_NextPage, call (ITermDispatch.NextPage (int_at ps 0)));
   (CsiActionCodes.PP_PrecedingPage, call (ITermDispatch.PrecedingPage (int_at ps 0)));
   (CsiActionCodes.ANSISYSRC_CursorRestore, call ITermDispatch.CursorRestoreState);
   (CsiActionCodes.IL_InsertLine, call (ITermDispatch.InsertLine (int_at ps 0)));
   (CsiActionCodes.DL_DeleteLine, call (ITermDispatch.DeleteLine (int_at ps 0)));
   (CsiActionCodes.CHT_CursorForwardTab, call (ITermDispatch.ForwardTab (int_at ps 0)));
   (CsiActionCodes.CBT_CursorBackTab, call (ITermDispatch.BackwardsTab (int_at ps 0)));
   (CsiActionCodes.TBC_TabClear, call_each ps (fun p => ITermDispatch.TabClear (VTParameter.to_enum p)));
   (CsiActionCodes.DECST8C_SetTabEvery8Columns, call_each ps ITermDispatch.TabSet);
   (CsiActionCodes.ECH_EraseCharacters, call (ITermDispatch.EraseCharacters (int_at ps 0)));
   (CsiActionCodes.DTTERM_WindowManipulation,
      call (ITermDispatch.WindowManipulation (enum_at ps 0) (VTParameters.at_ ps 1) (VTParameters.at_ ps 2)));
   (CsiActionCodes.REP_RepeatCharacter, repeat_last ps);
   (CsiActionCodes.PPA_PagePositionAbsolute, call (ITermDispatch.PagePositionAbsolute (int_at ps 0)));
   (CsiActionCodes.PPR_PagePositionRelative, call (ITermDispatch.PagePositionRelative (int_at ps 0)));
   (CsiActionCodes.PPB_PagePositionBack, call (ITermDispatch.PagePositionBack (int_at ps 0)));
   (CsiActionCodes.DECSCUSR_SetCursorStyle, call (ITermDispatch.SetCursorStyle (enum_at ps 0)));
   (CsiActionCodes.DECSTR_SoftReset, call ITermDispatch.SoftReset);
   (CsiActionCodes.DECSCA_SetCharacterProtectionAttribute, call (ITermDispatch.SetCharacterProtectionAttribute ps));
   (CsiActionCodes.DECRQDE_RequestDisplayedExtent, call ITermDispatch.RequestDisplayedExtent);
   (CsiActionCodes.XT_PushSgr, call (ITermDispatch.PushGraphicsRendition ps));
   (CsiActionCodes.XT_PushSgrAlias, call (ITermDispatch.PushGraphicsRendition ps));
   (CsiActionCodes.XT_PopSgr, call ITermDispatch.PopGraphicsRendition);
   (CsiActionCodes.XT_PopSgrAlias, call ITermDispatch.PopGraphicsRendition);
   (CsiActionCodes.DECRQM_RequestMode, call (ITermDispatch.RequestMode (DispatchTypes.ANSIStandardMode (VTParameters.at_ ps 0))));
   (CsiActionCodes.DECRQM_PrivateRequestMode, call (ITermDispatch.RequestMode (DispatchTypes.DECPrivateMode (VTParameters.at_ ps 0))))].

Definition csi_cases_area (ps : VTParameters.t) : list (Z * M unit) :=
  [(CsiActionCodes.DECCARA_ChangeAttributesRectangularArea,
      call (ITermDispatch.ChangeAttributesRectangularArea (int_at ps 0) (int_at ps 1) (zero_at ps 2) (zero_at ps 3) (VTParameters.subspan ps 4)));
   (CsiActionCodes.DECRARA_ReverseAttributesRectangularArea,
      call (ITermDispatch.ReverseAttributesRectangularArea (int_at ps 0) (int_at ps 1) (zero_at ps 2) (zero_at ps 3) (VTParameters.subspan ps 4)));
   (CsiActionCodes.DECCRA_CopyRectangularArea,
      call (ITermDispatch.CopyRectangularArea (int_at ps 0) (int_at ps 1) (zero_at ps 2) (zero_at ps 3)
              (int_at ps 4) (int_at ps 5) (int_at ps 6) (int_at ps 7)));
   (CsiActionCodes.DECRQTSR_RequestTerminalStateReport, call (ITermDispatch.RequestTerminalStateReport (enum_at ps 0) (VTParameters.at_ ps 1)));
   (CsiActionCodes.DECRQPSR_RequestPresentationStateReport, call (ITermDispatch.RequestPresentationStateReport (enum_at ps 0)));
   (CsiActionCodes.DECFRA_FillRectangularArea,
      call (ITermDispatch.FillRectangularArea (VTParameters.at_ ps 0) (int_at ps 1) (int_at ps 2) (zero_at ps 3) (zero_at ps 4)));
   (CsiActionCodes.DECERA_EraseRectangularArea,
      call (ITermDispatch.EraseRectangularArea (int_at ps 0) (int_at ps 1) (zero_at ps 2) (zero_at ps 3)));
   (CsiActionCodes.DECSERA_SelectiveEraseRectangularArea,
      call (ITermDispatch.SelectiveEraseRectangularArea (int_at ps 0) (int_at ps 1) (zero_at ps 2) (zero_at ps 3)));
   (CsiActionCodes.DECRQUPSS_RequestUserPreferenceSupplementalSet, call ITermDispatch.RequestUserPreferenceCharset);
   (CsiActionCodes.DECIC_InsertColumn, call (ITermDispatch.InsertColumn (int_at ps 0)));
   (CsiActionCodes.DECDC_DeleteColumn, call (ITermDispatch.DeleteColumn (int_at ps 0)));
   (CsiActionCodes.DECSACE_SelectAttributeChangeExtent, call (ITermDispatch.SelectAttributeChangeExtent (enum_at ps 0)));
   (CsiActionCodes.DECRQCRA_RequestChecksumRectangularArea,
      call (ITermDispatch.RequestChecksumRectangularArea (zero_at ps 0) (zero_at ps 1) (int_at ps 2) (int_at ps 3) (zero_at ps 4) (zero_at ps 5)));
   (CsiActionCodes.DECINVM_InvokeMacro, call (ITermDispatch.InvokeMacro (zero_at ps 0)));
   (CsiActionCodes.DECAC_AssignColor, call (ITermDispatch.AssignColor (enum_at ps 0) (zero_at ps 1) (zero_at ps 2)));
   (CsiActionCodes.DECPS_PlaySound, call (ITermDispatch.PlaySounds ps));
   (CsiActionCodes.KKP_KittyKeyboardSet, call (ITermDispatch.SetKittyKeyboardProtocol (VTParameters.at_ ps 0) (VTParameters.at_ ps 1)));
   (CsiActionCodes.KKP_KittyKeyboardQuery, call ITermDispatch.QueryKittyKeyboardProtocol);
   (CsiActionCodes.KKP_KittyKeyboardPush, call (ITermDispatch.PushKittyKeyboardProtocol (VTParameters.at_ ps 0)));
   (CsiActionCodes.KKP_KittyKeyboardPop, call (ITermDispatch.PopKittyKeyboardProtocol (VTParameters.at_ ps 0)))].

Definition csi_cases (ps : VTParameters.t) : list (Z * M unit) :=
  csi_cases_cursor ps ++ csi_cases_page ps ++ csi_cases_area ps.

Definition engine_ActionCsiDispatch (id : Z) (parameters : VTParameters.t) : M bool :=
  if VTParameters.hasSubParams parameters && negb (_CanSeqAcceptSubParam id parameters) then mret true
  else switch id (csi_cases parameters) call_UnknownSequence;; _ClearLastChar;; mret true.

(** *** Device control strings *)
Definition dcs_cases (ps : VTParameters.t) : list (Z * M (option H)) :=
  [(DcsActionCodes.SIXEL_DefineImage, callString (ITermDispatch.DefineSixelImage (int_at ps 0) (enum_at ps 1) (VTParameters.at_ ps 2)));
   (DcsActionCodes.DECDLD_DownloadDRCS,
      callString (ITermDispatch.DownloadDRCS (int_at ps 0) (VTParameters.at_ ps 1) (enum_at ps 2) (enum_at ps 3)
                    (enum_at ps 4) (enum_at ps 5) (VTParameters.at_ ps 6) (enum_at ps 7)));
   (DcsActionCodes.DECAUPSS_AssignUserPreferenceSupplementalSet, callString (ITermDispatch.AssignUserPreferenceCharset (enum_at ps 0)));
   (DcsActionCodes.DECDMAC_DefineMacro, callString (ITermDispatch.DefineMacro (zero_at ps 0) (enum_at ps 1) (enum_at ps 2)));
   (DcsActionCodes.DECRSTS_RestoreTerminalState, callString (ITermDispatch.RestoreTerminalState (enum_at ps 0)));
   (DcsActionCodes.DECRQSS_RequestSetting, callString ITermDispatch.RequestSetting);
   (DcsActionCodes.DECRSPS_RestorePresentationState, callString (ITermDispatch.RestorePresentationState (enum_at ps 0)))].

Definition engine_ActionDcsDispatch (id : Z) (parameters : VTParameters.t) : M (option H) :=
  handler ← switch id (dcs_cases parameters) (call_UnknownSequence;; mret None);
  _ClearLastChar;; mret handler.

Definition engine_ActionSs3Dispatch (wch : wchar) (parameters : VTParameters.t) : M bool :=
  call_UnknownSequence;; _ClearLastChar;; mret true.

(** *** Operating system commands *)

(** The string forwarded to protocol clients; the parameter is a [size_t]. *)
Definition forwarded (parameter : Z) (string : wstring) : wstring :=
  wide "osc:" ++ decimal 20 parameter ++ [semicolon] ++ string.

Definition osc_SetColor (string : wstring) : M unit :=
  match _GetOscSetColorTable string with
  | Some pairs =>
    for_each (fun '(tableIndex, rgb) =>
      if rgb =? COLOR_INQUIRY_COLOR then call (ITermDispatch.RequestColorTableEntry tableIndex)
      else call (ITermDispatch.SetColorTableEntry tableIndex rgb)) pairs
  | None => skip
  end.

(** The loop over the colours, which counts the resources up. *)
Fixpoint set_resources (resource : Z) (colors : list Z) : M unit :=
  match colors with
  | [] => skip
  | color :: colors =>
    (if color =? COLOR_INQUIRY_COLOR then call (ITermDispatch.RequestXtermColorResource resource)
     else if color =? INVALID_COLOR then skip
     else call (ITermDispatch.SetXtermColorResource resource color));;
    set_resources (resource + 1) colors
  end.

Definition osc_SetXtermColors (parameter : Z) (string : wstring) : M unit :=
  match _GetOscSetColor string with
  | Some colors => set_resources parameter colors
  | None => skip
  end.

Definition osc_SetClipboard (string : wstring) : M unit :=
  match _GetOscSetClipboard string with
  | Some (content, false) => call (ITermDispatch.SetClipboard content)
  | _ => skip
  end.

Definition osc_ResetColor (string : wstring) : M unit :=
  match string with
  | [] => call ITermDispatch.ResetColorTable
  | _ => for_each (fun index => call (ITermDispatch.ResetColorTableEntry index)) (leading_indices (split_iterator string semicolon))
  end.

Definition osc_ResetXtermColor (parameter : Z) (string : wstring) : M unit :=
  match string with
  | [] => call (ITermDispatch.ResetXtermColorResource (parameter - 100))
  | _ => skip
  end.

Definition osc_Hyperlink (string : wstring) : M unit :=
  match _ParseHyperlink string with
  | Some (params, uri) =>
    match uri with
    | [] => call ITermDispatch.EndHyperlink
    | _ => call (ITermDispatch.AddHyperlink uri params)
    end
  | None => skip
  end.

Definition osc_cases (parameter : Z) (string : wstring) : list (Z * M unit) :=
  [(OscActionCodes.SetIconAndWindowTitle, call (ITermDispatch.SetWindowTitle string));
   (OscActionCodes.SetWindowIcon, call (ITermDispatch.SetWindowTitle string));
   (OscActionCodes.SetWindowTitle, call (ITermDispatch.SetWindowTitle string));
   (OscActionCodes.DECSWT_SetWindowTitle, call (ITermDispatch.SetWindowTitle string));
   (OscActionCodes.SetColor, osc_SetColor string);
   (OscActionCodes.SetForegroundColor, osc_SetXtermColors parameter string);
   (OscActionCodes.SetBackgroundColor, osc_SetXtermColors parameter string);
   (OscActionCodes.SetCursorColor, osc_SetXtermColors parameter string);
   (OscActionCodes.SetHighlightColor, osc_SetXtermColors parameter string);
   (OscActionCodes.SetClipboard, osc_SetClipboard string);
   (OscActionCodes.ResetColor, osc_ResetColor string);
   (OscActionCodes.ResetForegroundColor, osc_ResetXtermColor parameter string);
   (OscActionCodes.ResetBackgroundColor, osc_ResetXtermColor parameter string);
   (OscActionCodes.ResetCursorColor, osc_ResetXtermColor parameter string);
   (OscActionCodes.ResetHighlightColor, osc_ResetXtermColor parameter string);
   (OscActionCodes.CurrentWorkingDirectory, call (ITermDispatch.SetCurrentWorkingDirectory string));
   (OscActionCodes.Hyperlink, osc_Hyperlink string);
   (OscActionCodes.ConEmuAction, call (ITermDispatch.DoConEmuAction string));
   (OscActionCodes.ITerm2Action, call (ITermDispatch.DoITerm2Action string));
   (OscActionCodes.FinalTermAction, call (ITermDispatch.DoFinalTermAction string));
   (OscActionCodes.VsCodeAction, call (ITermDispatch.DoVsCodeAction string));
   (OscActionCodes.WTAction, call (ITermDispatch.DoWTAction string));
   (OscActionCodes.UrxvtAction, call (ITermDispatch.DoUrxvtAction string))].

Definition engine_ActionOscDispatch (parameter : Z) (string : wstring) : M bool :=
  call (ITermDispatch.NotifyVtSequence (forwarded parameter string));;
  switch parameter (osc_cases parameter string) call_UnknownSequence;;
  _ClearLastChar;; mret true.

(** *** Handlers and callbacks belong to the dispatch *)
Definition engine_CallStringHandler (h : H) (wch : wchar) (v : View) (e : Engine) : H * Reply Engine CB bool :=
  let '(h', r) := callHandler h wch v (_dispatch e) in
  (h', mkReply (mkOutputEngine (reply_engine r) (_lastPrintedChar e)) (reply_requests r) (reply_value r)).

Definition engine_CallbackBegin (callback : CB) (e : Engine) : Engine * option wstring :=
  let '(d, injected) := callbackBegin callback (_dispatch e) in
  (mkOutputEngine d (_lastPrintedChar e), injected).

Definition engine_CallbackEnd (callback : CB) (e : Engine) : Engine :=
  mkOutputEngine (callbackEnd callback (_dispatch e)) (_lastPrintedChar e).

End OutputEngine.

#[global] Instance OutputEngine {D H CB} `{!TermDispatch D H CB} `{!U8U16} :
    IStateMachineEngine (OutputStateMachineEngine D) H CB := {
  UnknownSequence := engine_UnknownSequence;
  EncounteredWin32InputModeSequence := fun _ => false;
  ActionExecute := engine_ActionExecute;
  ActionExecuteFromEscape := engine_ActionExecuteFromEscape;
  ActionPrint := engine_ActionPrint;
  ActionPrintString := engine_ActionPrintString;
  ActionPassThroughString := engine_ActionPassThroughString;
  ActionEscDispatch := engine_ActionEscDispatch;
  ActionVt52EscDispatch := engine_ActionVt52EscDispatch;
  ActionCsiDispatch := engine_ActionCsiDispatch;
  ActionDcsDispatch := engine_ActionDcsDispatch;
  ActionOscDispatch := engine_ActionOscDispatch;
  ActionSs3Dispatch := engine_ActionSs3Dispatch;
  CallStringHandler := engine_CallStringHandler;
  CallbackBegin := engine_CallbackBegin;
  CallbackEnd := engine_CallbackEnd;
}.
