(* ===== verification/OutputEngineLaws.v ===== *)
(** * The output engine keeps the promises of the parser's interfaces

    What is asked of an implementation of [ITermDispatch] ([BoundedDispatch],
    [TextDispatch]) and, proved once for every action, that the output engine
    then is an engine with bounded nesting and an engine for streams of text. *)

From S2P Require Import Prelude VtTypes Til Chars StateMachine ParserInvariant StateMachineSafety TraceEngine StateMachineStream Utils TermDispatch ActionCodes OutputEngine.

(** ** Predicates on actions

    A predicate that holds of the primitive effects and is closed under
    sequencing holds of every action of the engine. *)
Section Actions.
Context {D H CB : Type} `{!TermDispatch D H CB} `{!U8U16}.
Abbreviation Engine := (OutputStateMachineEngine D).

Record ActionPredicate (P : forall A, engineM D CB A -> Prop) : Prop := {
  ap_ret : forall A (a : A), P A (mret a);
  ap_bind : forall A B (m : engineM D CB A) (k : A -> engineM D CB B), P A m -> (forall a, P B (k a)) -> P B (m ≫= k);
  ap_call : forall c, P unit (call c);
  ap_callString : forall c, P (option H) (callString c);
  ap_UnknownSequence : P unit call_UnknownSequence;
  ap_set : forall wch, P unit (set_lastPrintedChar wch);
  ap_get : P wchar get_lastPrintedChar;
}.

Context (P : forall A, engineM D CB A -> Prop) (HP : ActionPredicate P).

Lemma P_for_each {A} (f : A -> engineM D CB unit) values : (forall a, P unit (f a)) -> P unit (for_each f values).
Proof. intros Hf. induction values; [apply (ap_ret P HP)|]. by apply (ap_bind P HP). Qed.

Lemma P_set_resources resource colors : P unit (set_resources resource colors).
Proof.
  revert resource. induction colors as [|color colors IH]; intros resource; [apply (ap_ret P HP)|].
  apply (ap_bind P HP); [|intros; apply IH].
  destruct (color =? COLOR_INQUIRY_COLOR); [apply (ap_call P HP)|].
  destruct (color =? INVALID_COLOR); [apply (ap_ret P HP)|apply (ap_call P HP)].
Qed.

(** Takes an action apart into its effects. *)
Local Ltac effects :=
  repeat first
    [ apply (ap_ret P HP) | apply (ap_call P HP) | apply (ap_callString P HP) | apply (ap_UnknownSequence P HP)
    | apply (ap_set P HP) | apply (ap_get P HP) | apply P_set_resources | apply P_for_each
    | apply (ap_bind P HP) | apply Forall_switch | apply Forall_app_2 | apply Forall_cons_2 | apply Forall_nil_2
    | progress cbn [snd] | progress intros | case_match ].

Lemma P_Execute wch : P bool (engine_ActionExecute wch).
Proof. unfold engine_ActionExecute, execute_cases. effects. Qed.

Lemma P_Print wch : P bool (engine_ActionPrint wch).
Proof. unfold engine_ActionPrint, stash_lastPrintedChar. effects. Qed.

Lemma P_PrintString s : P bool (engine_ActionPrintString s).
Proof. unfold engine_ActionPrintString, stash_lastPrintedChar. effects. Qed.

Lemma P_Esc id : P bool (engine_ActionEscDispatch id).
Proof. unfold engine_ActionEscDispatch, esc_cases, designate. effects. Qed.

Lemma P_Vt52 id ps : P bool (engine_ActionVt52EscDispatch id ps).
Proof. unfold engine_ActionVt52EscDispatch, vt52_cases. effects. Qed.

Lemma P_Csi id ps : P bool (engine_ActionCsiDispatch id ps).
Proof.
  unfold engine_ActionCsiDispatch, csi_cases, csi_cases_cursor, csi_cases_page, csi_cases_area, call_each, call_if_zero,
    repeat_last. effects.
Qed.

Lemma P_Dcs id ps : P (option H) (engine_ActionDcsDispatch id ps).
Proof. unfold engine_ActionDcsDispatch, dcs_cases. effects. Qed.

Lemma P_Osc parameter s : P bool (engine_ActionOscDispatch parameter s).
Proof.
  unfold engine_ActionOscDispatch, osc_cases, osc_SetColor, osc_SetXtermColors, osc_SetClipboard, osc_ResetColor,
    osc_ResetXtermColor, osc_Hyperlink. effects.
Qed.

Lemma P_Ss3 wch ps : P bool (engine_ActionSs3Dispatch wch ps).
Proof. unfold engine_ActionSs3Dispatch. effects. Qed.
End Actions.

(** ** Bounded nesting *)
Class BoundedDispatch {D H CB} `{TermDispatch D H CB} (budget : D -> nat) : Prop := {
  bd_UnknownSequence : forall d, budget (unknownSequence d) = budget d;
  bd_invoke : forall c, keeps_budget budget (invoke c);
  bd_invokeString : forall c, keeps_budget budget (invokeString c);
  bd_handler : forall h wch, keeps_budget budget (fun v d => (callHandler h wch v d).2);
  bd_Begin_None : forall cb d, (callbackBegin cb d).2 = None -> budget (callbackBegin cb d).1 = budget d;
  bd_Begin_Some : forall cb d, is_Some (callbackBegin cb d).2 -> (budget (callbackBegin cb d).1 < budget d)%nat;
  bd_End : forall cb d0 d1, is_Some (callbackBegin cb d0).2 -> budget d1 = budget (callbackBegin cb d0).1 ->
    budget (callbackEnd cb d1) = budget d0;
}.

Section Bounded.
Context {D H CB : Type} `{!TermDispatch D H CB} `{!U8U16} (budget : D -> nat) `{!BoundedDispatch budget}.

Definition engine_budget (e : OutputStateMachineEngine D) : nat := budget (_dispatch e).

Lemma keeps_budget_actions : ActionPredicate (fun A (m : engineM D CB A) => keeps_budget engine_budget m).
Proof.
  constructor; try (by intros; intros v e).
  - intros A B m k Hm Hk v e. unfold mbind, engineM_bind. specialize (Hm v e).
    destruct (reply_value (m v e)) as [a|]; [|done]. simpl. by rewrite Hk.
  - intros c v e. apply (bd_invoke c v (_dispatch e)).
  - intros c v e. apply (bd_invokeString c v (_dispatch e)).
  - intros v e. apply (bd_UnknownSequence (_dispatch e)).
Qed.

#[export] Instance OutputEngine_bounded : BoundedNesting (E:=OutputStateMachineEngine D) False engine_budget.
Proof.
  pose proof keeps_budget_actions as HP. constructor; simpl.
  - intros e. apply (bd_UnknownSequence (_dispatch e)).
  - intros. by apply (P_Execute _ HP).
  - intros. by apply (P_Execute _ HP).
  - intros. by apply (P_Print _ HP).
  - intros. by apply (P_PrintString _ HP).
  - done.
  - intros. by apply (P_Esc _ HP).
  - intros. by apply (P_Vt52 _ HP).
  - intros. by apply (P_Csi _ HP).
  - intros. by apply (P_Dcs _ HP).
  - intros. by apply (P_Osc _ HP).
  - intros. by apply (P_Ss3 _ HP).
  - intros h wch v e. unfold engine_CallStringHandler, engine_budget. pose proof (bd_handler h wch v (_dispatch e)) as Hb. simpl in Hb.
    destruct (callHandler h wch v (_dispatch e)) as [h0 r]. exact Hb.
  - intros cb e. unfold engine_CallbackBegin. pose proof (bd_Begin_None cb (_dispatch e)) as Hb.
    destruct (callbackBegin cb (_dispatch e)). apply Hb.
  - intros cb e. unfold engine_CallbackBegin. pose proof (bd_Begin_Some cb (_dispatch e)) as Hb.
    destruct (callbackBegin cb (_dispatch e)). intros Hs. right. by apply Hb.
  - intros cb e0 e1. unfold engine_CallbackBegin. pose proof (bd_End cb (_dispatch e0) (_dispatch e1)) as Hb.
    destruct (callbackBegin cb (_dispatch e0)). apply Hb.
  - by right.
Qed.
End Bounded.

(** ** Streams of text *)
Definition print_chars {D H CB} `{TermDispatch D H CB} (v : View) (s : wstring) (d : D) : D :=
  fold_left (fun d wch => reply_engine (invoke (ITermDispatch.Print wch) v d)) s d.

Class TextDispatch D H CB `{TermDispatch D H CB} : Prop := {
  td_invoke : forall c, blind (invoke c);
  td_invokeString : forall c, blind (invokeString c);
  td_handler : forall h wch, blind (callHandler h wch);
  (** printing succeeds, and printing a string prints its characters *)
  td_print : forall wch v d, plain wch ->
    invoke (ITermDispatch.Print wch) v d = mkReply (reply_engine (invoke (ITermDispatch.Print wch) v d)) [] (Some tt);
  td_printString : forall s v d, s <> [] -> Forall plain s ->
    invoke (ITermDispatch.PrintString s) v d = mkReply (print_chars v s d) [] (Some tt);
}.

Section Text.
Context {D H CB : Type} `{!TermDispatch D H CB} `{!U8U16} `{!TextDispatch D H CB}.

Lemma view_after_modes (requests : list (Request CB)) v1 v2 :
  same_modes v1 v2 -> same_modes (fold_left view_after requests v1) (fold_left view_after requests v2).
Proof.
  revert v1 v2. induction requests as [|[[] b| |] requests IH]; intros v1 v2 [H1 H2]; simpl; [by split|..]; by apply IH.
Qed.

Lemma blind_actions : ActionPredicate (fun A (m : engineM D CB A) => blind m).
Proof.
  constructor; try (by intros; intros v1 v2 e Hv).
  - intros A B m k Hm Hk v1 v2 e Hv. unfold mbind, engineM_bind. rewrite (Hm v1 v2 e Hv).
    destruct (reply_value (m v2 e)) as [a|]; [|done].
    by rewrite (Hk a _ (fold_left view_after (reply_requests (m v2 e)) v2)) by by apply view_after_modes.
  - intros c v1 v2 e Hv. unfold call, dispatched. by rewrite (td_invoke c v1 v2).
  - intros c v1 v2 e Hv. unfold callString, dispatched. by rewrite (td_invokeString c v1 v2).
Qed.

Lemma plain_graphical wch : plain wch -> (AsciiChars.SPC <=? wch) = true.
Proof. unfold plain, isActionableFromGround, AsciiChars.SPC. lia. Qed.

Lemma engine_print wch v e : plain wch -> engine_ActionPrint wch v e =
  mkReply (mkOutputEngine (reply_engine (invoke (ITermDispatch.Print wch) v (_dispatch e))) wch) [] (Some true).
Proof.
  intros Hp. unfold engine_ActionPrint, stash_lastPrintedChar. rewrite plain_graphical by done.
  unfold mbind, engineM_bind, call, dispatched. simpl. by rewrite td_print.
Qed.

Lemma print_all_dispatch v s e : Forall plain s ->
  print_all (E:=OutputStateMachineEngine D) v s e = mkOutputEngine (print_chars v s (_dispatch e)) (default (_lastPrintedChar e) (last s)).
Proof.
  intros Hs. revert e. induction Hs as [|wch s Hw Hs IH]; intros e; [by destruct e|].
  change (print_all v (wch :: s) e) with (print_all (E:=OutputStateMachineEngine D) v s (reply_engine (engine_ActionPrint wch v e))).
  rewrite engine_print by done. cbn [reply_engine]. rewrite IH. cbn [_dispatch _lastPrintedChar].
  f_equal. rewrite last_cons. by destruct (last s).
Qed.

#[export] Instance OutputEngine_stream : StreamEngine (OutputStateMachineEngine D) H CB.
Proof.
  pose proof blind_actions as HP. constructor; simpl.
  - intros. by apply (P_Execute _ HP).
  - intros. by apply (P_Execute _ HP).
  - intros. by apply (P_Print _ HP).
  - intros. by apply (P_PrintString _ HP).
  - intros. by apply (P_Esc _ HP).
  - intros. by apply (P_Vt52 _ HP).
  - intros. by apply (P_Csi _ HP).
  - intros. by apply (P_Dcs _ HP).
  - intros. by apply (P_Osc _ HP).
  - intros. by apply (P_Ss3 _ HP).
  - intros h wch v1 v2 e Hv. unfold engine_CallStringHandler. by rewrite (td_handler h wch v1 v2).
  - done.
  - intros wch v e Hp. by rewrite engine_print.
  - intros s v e Hne Hs. rewrite print_all_dispatch by done. unfold engine_ActionPrintString.
    destruct (last s) as [wch|] eqn:Hl; [|by apply last_None in Hl].
    unfold stash_lastPrintedChar. rewrite plain_graphical.
    2: { apply last_Some_elem_of in Hl. rewrite Forall_forall in Hs. auto. }
    unfold mbind, engineM_bind, call, dispatched. simpl. by rewrite td_printString.
Qed.
End Text.

(** ** The parser's view of the modes *)

(** What later calls of one action see is what the parser would report. *)
Lemma view_after_requests {E H CB} (requests : list (Request CB)) (s : StateMachine E H CB) :
  view (fold_left apply_request requests s) = fold_left view_after requests (view s).
Proof.
  revert s. induction requests as [|r requests IH]; intros s; [done|]. simpl. rewrite IH. f_equal.
  destruct r as [mode b| |]; try done. unfold view, GetParserMode. simpl.
  rewrite !enumset.test_set by (destruct mode; simpl; lia). by destruct mode.
Qed.

(** ** A recording terminal

    An implementation of the dispatch interface that logs the calls it gets, as
    the mock dispatchers of the unit tests do; text is logged character by
    character. DECINVM injects a string that itself ends in DECINVM, until
    [nesting] invocations are active, as macros that invoke each other do. *)

Inductive Entry :=
| Called (c : ITermDispatch.Call)
| CalledString (c : ITermDispatch.StringCall)
| Data (wch : wchar)
| Unrecognised.

Record Terminal := mkTerminal { term_log : list Entry; nesting : nat }.

Definition log (entries : list Entry) (d : Terminal) : Terminal := mkTerminal (term_log d ++ entries) (nesting d).

Definition entries_of (c : ITermDispatch.Call) : list Entry :=
  match c with
  | ITermDispatch.PrintString s => map (fun wch => Called (ITermDispatch.Print wch)) s
  | _ => [Called c]
  end.

Definition requests_of (c : ITermDispatch.Call) : list (Request Z) :=
  match c with
  | ITermDispatch.InvokeMacro macroId => [ReqOnCsiComplete macroId]
  | ITermDispatch.AcceptC1Controls enabled => [ReqSetParserMode AcceptC1 enabled]
  | _ => []
  end.

(** [x CSI * z] *)
Definition injected_macro : wstring := [0x78; AsciiChars.ESC; 0x5B; 0x2A; 0x7A].

#[global] Instance TraceDispatch : TermDispatch Terminal unit Z := {
  unknownSequence := log [Unrecognised];
  invoke := fun c _ d => mkReply (log (entries_of c) d) (requests_of c) (Some tt);
  invokeString := fun c _ d => mkReply (log [CalledString c] d) [] (Some (Some tt));
  callHandler := fun h wch _ d => (h, mkReply (log [Data wch] d) [] (Some true));
  callbackBegin := fun _ d =>
    match nesting d with
    | O => (d, None)
    | S n => (mkTerminal (term_log d) n, Some injected_macro)
    end;
  callbackEnd := fun _ d => mkTerminal (term_log d) (S (nesting d));
}.

(** Bytes of ASCII are their own code units. *)
#[global] Instance ascii_u8u16 : U8U16 := Some.

#[export] Instance TraceDispatch_bounded : BoundedDispatch (D:=Terminal) nesting.
Proof.
  constructor; try done.
  - intros cb [l []]; simpl; [done|congruence].
  - intros cb [l []]; simpl; [by intros [? ?]|lia].
  - intros cb [l []] [l' m]; simpl; [by intros [? ?]|intros _ ->; done].
Qed.

Lemma print_chars_log v s d : print_chars (D:=Terminal) v s d = log (entries_of (ITermDispatch.PrintString s)) d.
Proof.
  revert d. induction s as [|c s IH]; intros [l n]; [unfold log; simpl; by rewrite app_nil_r|].
  change (print_chars v (c :: s) (mkTerminal l n)) with
    (print_chars (D:=Terminal) v s (log [Called (ITermDispatch.Print c)] (mkTerminal l n))).
  rewrite IH. unfold log. simpl. by rewrite <- app_assoc.
Qed.

#[export] Instance TraceDispatch_text : TextDispatch Terminal unit Z.
Proof. constructor; try done. intros s v d _ _. by rewrite print_chars_log. Qed.

Lemma TraceDispatch_strings : callback_strings_ok (E:=OutputStateMachineEngine Terminal).
Proof. intros cb [[l []] c]; simpl; [done|]. unfold injected_macro. repeat constructor; done. Qed.

(** The terminal that received the strings. *)
Definition new_terminal (nested : nat) : StateMachine (OutputStateMachineEngine Terminal) unit Z :=
  make_StateMachine (make_OutputEngine (mkTerminal [] nested)) false.

Definition calls (strings : list wstring) : list Entry :=
  term_log (_dispatch (_engine (fold_left (fun s string => (ProcessString 4 string s).1) strings (new_terminal 3)))).

(** ** Every dispatcher, as seen by the output engine

    A dispatcher is what it answers to the calls made so far. It may throw, call back the setters
    of the parser, decline or handle device control strings, and inject the strings of
    macros, up to [nesting] inside one another. It is not told where a string ends, and
    printing neither fails nor calls back. *)
Record DispatchAnswers (H CB : Type) := mkDispatchAnswers {
  at_call : ITermDispatch.Call -> View -> list Entry -> list (Request CB) * option unit;
  at_string : ITermDispatch.StringCall -> View -> list Entry -> list (Request CB) * option (option H);
  at_data : H -> wchar -> View -> list Entry -> H * (list (Request CB) * option bool);
  at_callback : CB -> list Entry -> option wstring
}.
Arguments at_call {H CB} _ _ _ _.
Arguments at_string {H CB} _ _ _ _.
Arguments at_data {H CB} _ _ _ _ _.
Arguments at_callback {H CB} _ _ _.

Definition RecordingDispatch {H CB} (a : DispatchAnswers H CB) : TermDispatch Terminal H CB := {|
  unknownSequence := log [Unrecognised];
  invoke := fun c v d =>
    match c with
    | ITermDispatch.Print _ | ITermDispatch.PrintString _ => mkReply (log (entries_of c) d) [] (Some tt)
    | _ => let '(requests, value) := at_call a c (unaware v) (term_log d) in mkReply (log (entries_of c) d) requests value
    end;
  invokeString := fun c v d => let '(requests, value) := at_string a c (unaware v) (term_log d) in mkReply (log [CalledString c] d) requests value;
  callHandler := fun h wch v d => let '(h', (requests, value)) := at_data a h wch (unaware v) (term_log d) in (h', mkReply (log [Data wch] d) requests value);
  callbackBegin := fun callback d =>
    match nesting d, at_callback a callback (term_log d) with
    | S n, Some string => (mkTerminal (term_log d) n, Some string)
    | _, _ => (d, None)
    end;
  callbackEnd := fun _ d => mkTerminal (term_log d) (S (nesting d))
|}.

Section Recorded.
Context {H CB : Type} (a : DispatchAnswers H CB).
#[local] Instance recording : TermDispatch Terminal H CB := RecordingDispatch a.

Lemma recording_bounded : BoundedDispatch (D:=Terminal) nesting.
Proof.
  constructor; try done.
  - intros c v d. cbn. case_match; try done; by destruct (at_call _ _ _ _).
  - intros c v d. cbn. by destruct (at_string _ _ _ _).
  - intros h wch v d. cbn. by destruct (at_data _ _ _ _ _) as [? [? ?]].
  - intros cb [l []]; cbn; [done|]. by destruct (at_callback _ _ _).
  - intros cb [l []]; cbn; [by intros [? ?]|]. destruct (at_callback _ _ _); cbn; [lia|by intros [? ?]].
  - intros cb [l []] [l' m]; cbn; [by intros [? ?]|]. destruct (at_callback _ _ _); cbn; [by intros _ ->|by intros [? ?]].
Qed.

Lemma recorded_chars v s d : print_chars (D:=Terminal) (H:=H) (CB:=CB) v s d = log (entries_of (ITermDispatch.PrintString s)) d.
Proof.
  revert d. induction s as [|c s IH]; intros [l n]; [unfold log; simpl; by rewrite app_nil_r|].
  change (print_chars v (c :: s) (mkTerminal l n)) with (print_chars (D:=Terminal) (H:=H) (CB:=CB) v s (log [Called (ITermDispatch.Print c)] (mkTerminal l n))).
  rewrite IH. unfold log. simpl. by rewrite <- app_assoc.
Qed.

Lemma recording_text : TextDispatch Terminal H CB.
Proof.
  constructor; try done.
  - intros c v1 v2 d [Hv1 Hv2]. cbn. unfold unaware. by rewrite Hv1, Hv2.
  - intros c v1 v2 d [Hv1 Hv2]. cbn. unfold unaware. by rewrite Hv1, Hv2.
  - intros h wch v1 v2 d [Hv1 Hv2]. cbn. unfold unaware. by rewrite Hv1, Hv2.
  - intros s v d _ _. by rewrite recorded_chars.
Qed.
End Recorded.
