(* ===== verification/OutputEngineProps.v ===== *)
(** * Properties of the output engine

    The theorems about src/terminal/parser/OutputStateMachineEngine.cpp: the
    parser and the engine together, REP, sub-parameters, and the operating
    system commands for links, colours and the clipboard. *)

From S2P Require Import Prelude VtTypes Chars StateMachine ParserInvariant StateMachineSafety StateMachineStream ParserProps Utils UtilsProps ColorTable Base64 ActionCodes TermDispatch OutputEngine OutputEngineLaws.

(** ** Parser and engine together *)
Section Together.
Context {H CB : Type} (a : DispatchAnswers H CB) `{!U8U16}.
#[local] Instance dispatcher : TermDispatch Terminal H CB := RecordingDispatch a.
Abbreviation Engine := (OutputStateMachineEngine Terminal).

(** C3: Parser and output engine together, over any dispatcher, described by its answers
    to the calls of [ITermDispatch] so far (it may throw, set modes of the parser, handle
    strings and inject macros that nest at most [nesting] deep; it is not told where a string
    ends, and printing neither fails nor calls back). From every reachable state a string
    is processed to its end, or to an exception of the dispatcher; and how the
    stream was cut into strings shows neither in the outcome nor in the calls, text being
    counted by character, nor in the parser, the last printed character or the modes. *)
Theorem terminal_stream depth (str1 str2 : wstring) (s : StateMachine Engine H CB) :
  callback_strings_ok (E:=Engine) -> reachable s -> _isEngineForInput (sm_conf s) = false ->
  Forall is_wchar str1 -> Forall is_wchar str2 -> (nesting (_dispatch (_engine s)) < S depth)%nat ->
  (exists s', came_back (ProcessString (S depth) (str1 ++ str2) s) s') /\
  same_outcome same_but_run (ProcessString (S depth) (str1 ++ str2) s)
    ((ProcessString (S depth) str1;; ProcessString (S depth) str2) s).
Proof.
  pose proof (recording_text a) as Ht. pose proof (recording_bounded a) as Hbd.
  intros Hcb Hr Hin H1 H2 Hb. split; [|pose proof (reachable_ok s Hcb Hr); by apply chunks].
  destruct (comes_back (engine_budget nesting) (S depth) (str1 ++ str2) s) as [s' [Hs' _]];
    [apply _|done|done|by apply Forall_app|unfold acceptable; auto|done|by exists s'].
Qed.
End Together.

(** A dispatcher with a macro that invokes itself; it throws at a bell. *)
Definition with_macro : DispatchAnswers nat Z := mkDispatchAnswers nat Z
  (fun c _ _ => (requests_of c, match c with ITermDispatch.WarningBell => None | _ => Some tt end))
  (fun _ _ calls => ([], Some (Some (length calls)))) (fun h _ _ _ => (h, ([], Some true))) (fun _ _ => Some injected_macro).
#[local] Instance macro_dispatcher : TermDispatch Terminal nat Z := dispatcher with_macro.
Definition macro_terminal : StateMachine (OutputStateMachineEngine Terminal) nat Z := make_StateMachine (make_OutputEngine (mkTerminal [] 3)) false.
Lemma macro_strings : callback_strings_ok (E:=OutputStateMachineEngine Terminal) (H:=nat) (CB:=Z).
Proof. intros cb [[l []] c]; simpl; [done|]. unfold injected_macro. repeat constructor; done. Qed.

Lemma terminal_stream_witness :
  (exists s', came_back (ProcessString 4 (injected_macro ++ csi_start) macro_terminal) s') /\
  same_outcome same_but_run (ProcessString 4 (injected_macro ++ csi_start) macro_terminal)
    ((ProcessString 4 injected_macro;; ProcessString 4 csi_start) macro_terminal).
Proof.
  apply (terminal_stream with_macro 3 injected_macro csi_start macro_terminal);
    [apply macro_strings|apply reachable_new|reflexivity|unfold injected_macro; repeat constructor; done|apply csi_start_wchars|simpl; lia].
Defined.

(** ** Laws of the effects *)
Section Effects.
Context {D H CB : Type} `{!TermDispatch D H CB} `{!U8U16}.
Abbreviation Engine := (OutputStateMachineEngine D).
Implicit Types e : Engine.

Lemma Reply_eta {E A} (r : Reply E CB A) : mkReply (reply_engine r) (reply_requests r) (reply_value r) = r.
Proof. by destruct r. Qed.

Lemma bind_skip {A} (k : engineM D CB A) v e : (skip;; k) v e = k v e.
Proof. unfold mbind, engineM_bind. simpl. apply Reply_eta. Qed.

Lemma bind_skip_r (m : engineM D CB unit) v e : (m;; skip) v e = m v e.
Proof. unfold mbind, engineM_bind, skip. destruct (m v e) as [e' rs [[]|]]; simpl; [|done]. by rewrite app_nil_r. Qed.

Lemma bind_assoc {A B C} (m : engineM D CB A) (k : A -> engineM D CB B) (l : B -> engineM D CB C) v e :
  ((m ≫= k) ≫= l) v e = (m ≫= (fun a => k a ≫= l)) v e.
Proof.
  unfold mbind, engineM_bind. destruct (m v e) as [e1 rs1 [a|]]; simpl; [|done].
  destruct (k a _ e1) as [e2 rs2 [b|]] eqn:Hk; simpl; [|done]. by rewrite fold_left_app, app_assoc.
Qed.

Lemma bind_ext {A B} (m : engineM D CB A) (k1 k2 : A -> engineM D CB B) v e :
  (forall a v' e', k1 a v' e' = k2 a v' e') -> (m ≫= k1) v e = (m ≫= k2) v e.
Proof. intros Hk. unfold mbind, engineM_bind. destruct (m v e) as [e1 rs1 [a|]]; simpl; [|done]. by rewrite Hk. Qed.

Lemma for_each_app {A} (f : A -> engineM D CB unit) l1 l2 v e :
  for_each f (l1 ++ l2) v e = (for_each f l1;; for_each f l2) v e.
Proof.
  revert v e. induction l1 as [|a l1 IH]; intros v e; [by rewrite bind_skip|].
  cbn [app]. change (for_each f (a :: l1 ++ l2)) with (f a;; for_each f (l1 ++ l2)).
  change (for_each f (a :: l1)) with (f a;; for_each f l1). rewrite bind_assoc. apply bind_ext. auto.
Qed.
End Effects.

(** ** REP *)
Section Repeat.
Context {D H CB : Type} `{!TermDispatch D H CB} `{!U8U16}.
Abbreviation Engine := (OutputStateMachineEngine D).
Implicit Types e : Engine.

(** The actions that are not about text, [CSI] sequences as far as they are not
    turned down for their sub-parameters. *)
Inductive non_printing : engineM D CB bool -> Prop :=
| np_Execute wch : non_printing (engine_ActionExecute wch)
| np_Esc id : non_printing (engine_ActionEscDispatch id)
| np_Vt52 id ps : non_printing (engine_ActionVt52EscDispatch id ps)
| np_Csi id ps : VTParameters.hasSubParams ps && negb (_CanSeqAcceptSubParam id ps) = false ->
    non_printing (engine_ActionCsiDispatch id ps)
| np_Dcs id ps : non_printing (engine_ActionDcsDispatch id ps;; mret true)
| np_Osc parameter s : non_printing (engine_ActionOscDispatch parameter s)
| np_Ss3 wch ps : non_printing (engine_ActionSs3Dispatch wch ps).

Definition clears {A} (m : engineM D CB A) : Prop :=
  forall v e, is_Some (reply_value (m v e)) -> _lastPrintedChar (reply_engine (m v e)) = AsciiChars.NUL.

Lemma clears_ClearLastChar {A} (a : A) : clears (_ClearLastChar;; mret a).
Proof. done. Qed.

Lemma clears_bind {A B} (m : engineM D CB A) (k : A -> engineM D CB B) : (forall a, clears (k a)) -> clears (m ≫= k).
Proof.
  intros Hk v e. unfold mbind, engineM_bind. destruct (m v e) as [e1 rs1 [a|]]; simpl; [apply Hk|by intros [? ?]].
Qed.

(** Nothing that follows prints. *)
Lemma clears_bind_ret {A} (m : engineM D CB A) : clears m -> clears (m;; mret true).
Proof.
  intros Hm v e. specialize (Hm v e). unfold mbind, engineM_bind. destruct (m v e) as [e1 rs1 [a|]]; simpl in *; [|done]. intros _. by apply Hm.
Qed.

Lemma non_printing_clears m : non_printing m -> clears m.
Proof.
  intros [wch|id|id ps|id ps Hsub|id ps|parameter s|wch ps]; try apply clears_bind_ret;
    unfold engine_ActionExecute, engine_ActionEscDispatch, engine_ActionVt52EscDispatch, engine_ActionCsiDispatch,
      engine_ActionDcsDispatch, engine_ActionOscDispatch, engine_ActionSs3Dispatch; rewrite ?Hsub;
    repeat (first [apply clears_ClearLastChar | apply clears_bind; intros]).
Qed.

Lemma REP_unfold ps v e : VTParameters.hasSubParams ps = false ->
  engine_ActionCsiDispatch CsiActionCodes.REP_RepeatCharacter ps v e = (repeat_last ps;; _ClearLastChar;; mret true) v e.
Proof. intros Hs. unfold engine_ActionCsiDispatch. by rewrite Hs. Qed.

Lemma REP_without_character ps v (d : D) : VTParameters.hasSubParams ps = false ->
  engine_ActionCsiDispatch CsiActionCodes.REP_RepeatCharacter ps v (mkOutputEngine d AsciiChars.NUL) =
  mkReply (mkOutputEngine d AsciiChars.NUL) [] (Some true).
Proof. intros Hs. by rewrite REP_unfold. Qed.

(** REP right after anything that is not text does nothing: whatever
    control, escape or control sequence, device control string or command came
    before has the same effect with and without the REP behind it. *)
Lemma REP_only_repeats_text m ps v e : non_printing m -> VTParameters.hasSubParams ps = false ->
  (m;; engine_ActionCsiDispatch CsiActionCodes.REP_RepeatCharacter ps) v e = (m;; mret true) v e.
Proof.
  intros Hm Hs. pose proof (non_printing_clears m Hm v e) as Hc. unfold mbind, engineM_bind.
  destruct (m v e) as [[d wch] rs [b|]]; [|done]. cbn in *. rewrite Hc by done.
  by rewrite (REP_without_character ps _ d Hs).
Qed.

Context `{!TextDispatch D H CB}.

Lemma repeat_last_prints ps wch v (d : D) : plain wch ->
  repeat_last ps v (mkOutputEngine d wch) =
  mkReply (mkOutputEngine (print_chars v (repeat wch (Z.to_nat (int_at ps 0))) d) wch) [] (Some tt).
Proof.
  intros Hw. assert (Z.to_nat (int_at ps 0) <> 0%nat) as Hn.
  { unfold int_at, VTParameter.to_VTInt. destruct (Z.leb_spec (VTParameters.at_ ps 0) 0); lia. }
  assert (wch <> AsciiChars.NUL) as Hnul by (apply plain_graphical in Hw; unfold AsciiChars.SPC, AsciiChars.NUL in *; lia).
  apply Z.eqb_neq in Hnul. set (n := Z.to_nat (int_at ps 0)) in *.
  unfold repeat_last, mbind, engineM_bind, get_lastPrintedChar. cbn [reply_value reply_engine reply_requests _lastPrintedChar].
  rewrite Hnul. fold n. unfold call, dispatched. cbn [fold_left _dispatch _lastPrintedChar]. rewrite td_printString; [done|by destruct n|].
  apply Forall_forall. intros x Hx%list_elem_of_In%repeat_spec. by subst.
Qed.

Lemma print_string_dispatch text wch v e : Forall plain (text ++ [wch]) -> engine_ActionPrintString (text ++ [wch]) v e =
  mkReply (mkOutputEngine (print_chars v (text ++ [wch]) (_dispatch e)) wch) [] (Some true).
Proof.
  intros Hp. pose proof (se_printString (E:=Engine) (text ++ [wch]) v e) as Hse. simpl in Hse.
  rewrite Hse, print_all_dispatch by (done || by destruct text). by rewrite last_snoc.
Qed.

(** REP after text repeats its last character: [text] and [CSI n b] print
    [text] and [n] copies of the last character, once only. *)
Lemma REP_repeats_last text wch ps v e : Forall plain (text ++ [wch]) -> VTParameters.hasSubParams ps = false ->
  (engine_ActionPrintString (text ++ [wch]);; engine_ActionCsiDispatch CsiActionCodes.REP_RepeatCharacter ps) v e =
  mkReply (mkOutputEngine
      (print_chars v (text ++ [wch] ++ repeat wch (Z.to_nat (VTParameter.to_VTInt (VTParameters.at_ ps 0)))) (_dispatch e))
      AsciiChars.NUL) [] (Some true).
Proof.
  intros Hp Hs. assert (plain wch) as Hw by by apply Forall_snoc in Hp as [_ Hw].
  unfold mbind at 1, engineM_bind at 1. rewrite print_string_dispatch by done. cbn [reply_value reply_requests reply_engine fold_left app].
  rewrite REP_unfold by done. unfold mbind, engineM_bind. rewrite repeat_last_prints by done. cbn.
  unfold print_chars. by rewrite <- fold_left_app, <- app_assoc.
Qed.
End Repeat.

Definition some_view : View := mkView false true false.
Definition some_engine : OutputStateMachineEngine Terminal := mkOutputEngine (mkTerminal [] 0) 0x61.
Definition three : VTParameters.t := VTParameters.of_params [3].

(** ** Sub-parameters *)
Section Commands.
Context {D H CB : Type} `{!TermDispatch D H CB} `{!U8U16}.
Implicit Types e : OutputStateMachineEngine D.

(** C38: A control sequence with sub-parameters is ignored altogether (nothing is
    called, not even the last character is forgotten), except for SGR, and for
    DECCARA and DECRARA when the four coordinates have none. *)
Theorem subparameters_rejected id ps v e : VTParameters.hasSubParams ps = true ->
  id <> CsiActionCodes.SGR_SetGraphicsRendition ->
  (id = CsiActionCodes.DECCARA_ChangeAttributesRectangularArea \/ id = CsiActionCodes.DECRARA_ReverseAttributesRectangularArea ->
   exists index, (index < 4)%nat /\ VTParameters.hasSubParamsFor ps index = true) ->
  engine_ActionCsiDispatch id ps v e = mkReply e [] (Some true).
Proof.
  intros Hs Hsgr Harea. unfold engine_ActionCsiDispatch. rewrite Hs.
  assert (_CanSeqAcceptSubParam id ps = false) as ->; [|done].
  unfold _CanSeqAcceptSubParam. cbn [switch]. apply Z.eqb_neq in Hsgr as ->.
  destruct (Z.eqb_spec id CsiActionCodes.DECCARA_ChangeAttributesRectangularArea) as [Heq|_];
    [|destruct (Z.eqb_spec id CsiActionCodes.DECRARA_ReverseAttributesRectangularArea) as [Heq|_]; [|done]].
  all: destruct Harea as (index & Hi & Hsub); [auto|].
  all: assert (index = 0 \/ index = 1 \/ index = 2 \/ index = 3)%nat as Hc by lia.
  all: destruct Hc as [Hc|[Hc|[Hc|Hc]]]; subst index; rewrite Hsub; cbn [negb andb]; rewrite ?andb_false_r; done.
Qed.

(** ** Hyperlinks *)
Lemma substr_all count s : Z.of_nat (length s) <= count -> substr count s = s.
Proof.
  revert count. induction s as [|c s IH]; intros count Hl; [done|]. simpl in *.
  destruct (Z.leb_spec count 0); [lia|]. by rewrite IH by lia.
Qed.

Lemma find_after_prefix pattern s : find_after pattern (pattern ++ s) = Some s.
Proof.
  assert (bool_decide (take (length pattern) (pattern ++ s) = pattern) = true) as Hb
    by (apply bool_decide_eq_true; by rewrite take_app_length).
  destruct (pattern ++ s) as [|c t] eqn:Ht; cbn [find_after]; rewrite Hb, <- Ht; by rewrite drop_app_length.
Qed.

Lemma fold_no_id parts params : Forall (fun part => find_after hyperlinkIDParameter part = None) parts ->
  fold_left (fun params part => default params (find_after hyperlinkIDParameter part)) parts params = params.
Proof. induction 1 as [|part parts Hp Hps IH]; simpl; [done|]. by rewrite Hp. Qed.

(** OSC 8 is read as documented: for parameters separated by colons, one of
    which is [id=...], the link is added with that id and the URI behind the
    semicolon, and without a URI the current link ends. *)
Lemma hyperlink_roundtrip before id after uri v e :
  let parts := before ++ [hyperlinkIDParameter ++ id] ++ after in
  Forall (Forall (fun c => c <> colon /\ c <> semicolon)) parts ->
  Forall (fun part => find_after hyperlinkIDParameter part = None) after ->
  Z.of_nat (length uri) <= MAX_URL_LENGTH ->
  osc_Hyperlink (join colon parts ++ semicolon :: uri) v e =
  call (match uri with [] => ITermDispatch.EndHyperlink | _ => ITermDispatch.AddHyperlink uri id end) v e.
Proof.
  intros parts Hfree Hafter Hlen.
  assert (Forall (fun c => c <> semicolon) (join colon parts)) as Hj.
  { assert (parts <> []) by (unfold parts; by destruct before). destruct parts as [|p ps]; [done|]. simpl.
    apply Forall_cons in Hfree as [Hp Hps]. apply Forall_app. split; [eapply Forall_impl; [apply Hp|by intros ? [? ?]]|].
    apply Forall_concat, Forall_map. eapply Forall_impl; [apply Hps|]. intros q Hq. apply Forall_cons. split; [done|].
    eapply Forall_impl; [apply Hq|by intros ? [? ?]]. }
  assert (SplitString (join colon parts) colon = parts) as Hsplit.
  { apply SplitString_of_join.
    - eapply Forall_impl; [apply Hfree|]. intros q Hq. eapply Forall_impl; [apply Hq|by intros ? [? ?]].
    - unfold parts. destruct before as [|? [|]]; [|destruct after|]; done. }
  unfold osc_Hyperlink, _ParseHyperlink. rewrite bool_decide_false.
  2: { intros Heq. apply (f_equal length) in Heq. rewrite length_app in Heq. simpl in Heq.
       assert (length (join colon parts) = 0)%nat as Hz by lia. apply nil_length_inv, join_nil in Hz.
       unfold parts in Hz. destruct Hz as [Hz|Hz]; destruct before as [|? [|]], after; done. }
  rewrite split_at_app, Hsplit, substr_all by done. unfold parts.
  rewrite !fold_left_app. cbn [fold_left]. rewrite find_after_prefix, fold_no_id by done. cbn. by destruct uri.
Qed.
End Commands.

Lemma subparameters_rejected_witness :
  engine_ActionCsiDispatch CsiActionCodes.DECCARA_ChangeAttributesRectangularArea (VTParameters.mk [1; 2] [3] [(0, 0); (0, 1)])
    some_view some_engine = mkReply some_engine [] (Some true).
Proof.
  apply (subparameters_rejected CsiActionCodes.DECCARA_ChangeAttributesRectangularArea (VTParameters.mk [1; 2] [3] [(0, 0); (0, 1)]));
    [reflexivity|discriminate|]. intros _. exists 1%nat. split; [lia|reflexivity].
Defined.

(** The comment describes [id] as one of several assignments; the code looks for
    [id=] anywhere, so the parameter [grid=5] sets the id as well. *)
Lemma hyperlink_id_anywhere : _ParseHyperlink (wide "grid=5;http://y") = Some (wide "5", wide "http://y").
Proof. vm_compute. reflexivity. Qed.

(** The mode parameters of [CSI ? h] and [CSI ? 0 h] are read as 1, DECCKM. *)
Lemma omitted_mode_sets_DECCKM :
  calls [[AsciiChars.ESC; 0x5B; 0x3F; 0x68]] = [Called (ITermDispatch.SetMode DispatchTypes.DECCKM_CursorKeysMode)] /\
  calls [[AsciiChars.ESC; 0x5B; 0x3F; 0x30; 0x68]] = [Called (ITermDispatch.SetMode DispatchTypes.DECCKM_CursorKeysMode)].
Proof. split; vm_compute; reflexivity. Qed.

(** ** Colours, the clipboard and forwarding *)
Section Colours.
Context {D H CB : Type} `{!TermDispatch D H CB} `{!U8U16}.
Implicit Types e : OutputStateMachineEngine D.

(** A table entry as an application writes it: [index;rgb:rr/gg/bb]. *)
Record ColorEntry := mkColorEntry { ce_index : Z; ce_r : Z; ce_g : Z; ce_b : Z }.

Definition entry_ok (c : ColorEntry) : Prop :=
  0 <= ce_index c < 2 ^ 32 /\ 0 <= ce_r c < 256 /\ 0 <= ce_g c < 256 /\ 0 <= ce_b c < 256.

Definition render_rgb (c : ColorEntry) : wstring :=
  wide "rgb:" ++ hex false 2 (ce_r c) ++ [0x2F] ++ hex false 2 (ce_g c) ++ [0x2F] ++ hex false 2 (ce_b c).

Definition render_entry (c : ColorEntry) : list wstring := [decimal 10 (ce_index c); render_rgb c].

(** The [COLORREF] of an entry, 0x00BBGGRR. *)
Definition entry_COLORREF (c : ColorEntry) : Z := ce_r c + 2 ^ 8 * ce_g c + 2 ^ 16 * ce_b c.

Lemma lor_shiftl x y n : 0 <= n -> 0 <= x < 2 ^ n -> Z.lor x (Z.shiftl y n) = x + 2 ^ n * y.
Proof.
  intros Hn Hx. rewrite Z.shiftl_mul_pow2 by done.
  assert (Z.land x (y * 2 ^ n) = 0) as Hl.
  { apply Z.bits_inj'. intros i Hi. rewrite Z.land_spec, Z.bits_0.
    destruct (Z.ltb_spec i n); [rewrite Z.mul_pow2_bits_low by done; apply andb_false_r|].
    rewrite <- (Z.mod_small x (2 ^ n)) by done. by rewrite Z.mod_pow2_bits_high by lia. }
  rewrite <- Z.lxor_lor, <- Z.add_nocarry_lxor by done. lia.
Qed.

Lemma COLORREF_rgb r g b : 0 <= r < 256 -> 0 <= g < 256 -> 0 <= b < 256 ->
  color_COLORREF (color_rgb r g b) = r + 2 ^ 8 * g + 2 ^ 16 * b.
Proof.
  intros Hr Hg Hb. unfold color_COLORREF, color_abgr. cbn [color_r color_g color_b color_a color_rgb].
  change 0x00FFFFFF with (Z.ones 24). rewrite Z.land_ones by lia.
  replace (Z.shiftl 255 24) with (Z.shiftl (Z.shiftl 255 8) 16) by reflexivity.
  rewrite <- Z.shiftl_lor, (lor_shiftl b) by lia.
  replace (Z.shiftl (b + 2 ^ 8 * 255) 16) with (Z.shiftl (Z.shiftl (b + 2 ^ 8 * 255) 8) 8) by (by rewrite Z.shiftl_shiftl).
  rewrite <- Z.shiftl_lor, (lor_shiftl g), (lor_shiftl r) by lia. div_lia.
Qed.

Lemma ColorFromXTermColor_render c : entry_ok c ->
  exists col, ColorFromXTermColor (render_rgb c) = Some col /\ color_COLORREF col = entry_COLORREF c.
Proof.
  intros (_ & Hr & Hg & Hb). eexists. split; [apply rgb_spec_parsed; simpl; lia|]. by apply COLORREF_rgb.
Qed.

Lemma color_table_pairs_render entries : Forall entry_ok entries ->
  color_table_pairs (concat (map render_entry entries)) = map (fun c => (ce_index c, entry_COLORREF c)) entries.
Proof.
  induction 1 as [|c entries Hc Hcs IH]; [done|]. cbn [map concat render_entry app color_table_pairs].
  rewrite StringToUint_decimal by (destruct Hc; simpl; lia).
  destruct (ColorFromXTermColor_render c Hc) as (col & -> & Hcol). rewrite bool_decide_false by done.
  by rewrite Hcol, IH.
Qed.

Lemma COLORREF_not_inquiry c : entry_ok c -> (entry_COLORREF c =? COLOR_INQUIRY_COLOR) = false.
Proof. intros (_ & Hr & Hg & Hb). unfold entry_COLORREF, COLOR_INQUIRY_COLOR. lia. Qed.
Lemma for_each_ext {A B} (f : A -> engineM D CB unit) (g : B -> engineM D CB unit) (h : B -> A) l v e :
  Forall (fun b => forall v e, f (h b) v e = g b v e) l -> for_each f (map h l) v e = for_each g l v e.
Proof.
  intros Hl. revert v e. induction Hl as [|b l Hb Hl IH]; intros v e; [done|].
  change (for_each f (map h (b :: l))) with (f (h b);; for_each f (map h l)). change (for_each g (b :: l)) with (g b;; for_each g l).
  unfold mbind, engineM_bind. rewrite Hb. destruct (g b v e) as [e1 rs1 [u|]]; simpl; [|done]. by rewrite IH.
Qed.

Lemma hex_free n v : Forall (fun c => c <> semicolon) (hex false n v).
Proof.
  rewrite hex_digits. apply Forall_map. eapply Forall_impl; [apply digits_of_range|]. intros d Hd. simpl in Hd.
  unfold hex_char, semicolon. destruct (Z.ltb_spec d 10); lia.
Qed.

Lemma render_entry_free c : entry_ok c -> Forall (Forall (fun c => c <> semicolon)) (render_entry c).
Proof.
  intros Hc. unfold render_entry, render_rgb.
  apply Forall_cons; split; [|apply Forall_singleton].
  - eapply Forall_impl; [apply decimal_numeric; apply Hc|]. unfold semicolon. simpl. intros. lia.
  - assert (Forall (fun c => c <> semicolon) (wide "rgb:") /\ Forall (fun c => c <> semicolon) [0x2F]) as [H1 H2].
    { split; unfold wide; simpl; repeat (apply Forall_cons; split); try by apply Forall_nil. all: unfold semicolon; lia. }
    rewrite !Forall_app. repeat split; auto using hex_free.
Qed.

(** OSC 4 sets the colour table: for any list of entries [index;rgb:rr/gg/bb]
    the terminal is told every index with its colour, in order and nothing else. *)
Lemma color_table_roundtrip entries v e : entries <> [] -> Forall entry_ok entries ->
  osc_SetColor (join semicolon (concat (map render_entry entries))) v e =
  for_each (fun c => call (ITermDispatch.SetColorTableEntry (ce_index c) (entry_COLORREF c))) entries v e.
Proof.
  intros Hne Hok. destruct entries as [|c0 entries]; [done|]. unfold osc_SetColor, _GetOscSetColorTable.
  rewrite SplitString_of_join; [| |done].
  2: { apply Forall_concat, Forall_map. eapply Forall_impl; [apply Hok|]. intros c. apply render_entry_free. }
  rewrite color_table_pairs_render by done. cbn [map concat render_entry app length Nat.ltb Nat.leb].
  change ((ce_index c0, entry_COLORREF c0) :: map (fun c => (ce_index c, entry_COLORREF c)) entries) with
    (map (fun c => (ce_index c, entry_COLORREF c)) (c0 :: entries)).
  apply for_each_ext. eapply Forall_impl; [apply Hok|]. intros c Hc v' e'. cbv beta iota. by rewrite COLORREF_not_inquiry.
Qed.

(** Colours of dynamic resources accumulate as the comment says: setting
    [first;rest] for a resource is setting [first] for it and then [rest] from the
    next resource on. *)
Lemma xterm_colors_accumulate parameter first rest v e : first <> [] -> rest <> [] -> Forall (fun c => c <> semicolon) first ->
  osc_SetXtermColors parameter (first ++ semicolon :: rest) v e =
  (osc_SetXtermColors parameter first;; osc_SetXtermColors (parameter + 1) rest) v e.
Proof.
  intros Hf Hr Hfree. unfold osc_SetXtermColors, _GetOscSetColor. rewrite SplitString_cons, (SplitString_free semicolon first) by done.
  destruct (SplitString_loop_join (length rest) rest semicolon Hr ltac:(lia)) as (_ & Hn & _).
  change (SplitString_loop (length rest) rest semicolon) with (SplitString rest semicolon) in Hn.
  destruct (SplitString rest semicolon) as [|part parts]; [done|].
  cbn [length Nat.ltb Nat.leb map set_resources]. rewrite bind_assoc. apply bind_ext. intros [] v' e'. by rewrite bind_skip.
Qed.

(** OSC 52 puts the decoded bytes on the clipboard: whatever the selection
    is and whichever base64 alphabet is used, padded or not, the text is what the
    UTF-8 conversion makes of the bytes; a query is not answered. *)
Lemma clipboard_roundtrip selection url padded bytes v e : Forall (fun c => c <> semicolon) selection -> Forall is_byte bytes ->
  osc_SetClipboard (selection ++ semicolon :: encode url bytes ++ (if padded : bool then padding bytes else [])) v e =
  (match u8u16 bytes with Some content => call (ITermDispatch.SetClipboard content) | None => skip end) v e /\
  osc_SetClipboard (selection ++ semicolon :: question_mark) v e = mkReply e [] (Some tt).
Proof.
  intros Hs Hb. unfold osc_SetClipboard, _GetOscSetClipboard. rewrite !split_at_app by done. split; [|done].
  rewrite bool_decide_false.
  2: { destruct bytes as [|x [|y [|z bytes]]]; simpl encode; destruct padded; done. }
  rewrite Decode_encode by done. by destruct (u8u16 bytes).
Qed.

(** What protocol clients are told of a command can be taken apart again: up
    to the first semicolon behind [osc:] is its number in decimal, the rest is
    its text, even if that has semicolons itself. *)
Lemma osc_forwarding_roundtrip parameter string : 0 <= parameter < 2 ^ 64 ->
  exists digits, forwarded parameter string = wide "osc:" ++ digits ++ semicolon :: string /\
    split_at semicolon (drop 4 (forwarded parameter string)) = Some (digits, string) /\ parse_u64 10 digits = Some parameter.
Proof.
  intros Hp. exists (decimal 20 parameter). split; [done|]. split; [|apply parse_u64_decimal; simpl; lia].
  change (drop 4 (forwarded parameter string)) with (decimal 20 parameter ++ semicolon :: string).
  apply split_at_app. eapply Forall_impl; [apply decimal_numeric; lia|]. unfold semicolon. simpl. intros. lia.
Qed.

Lemma split_tokens_SplitString fuel needle str : (length str < fuel)%nat -> split_tokens fuel needle str str = SplitString str needle.
Proof.
  assert (forall fuel it tok, (length it < fuel)%nat -> tok <> [] -> it <> [] -> split_tokens fuel needle it tok = SplitString it needle) as Hmain.
  { clear. induction fuel as [|fuel IH]; intros it tok Hl Htok Hit; [lia|]. destruct tok as [|t tok]; [done|]. cbn [split_tokens].
    destruct (split_at needle it) as [[value after]|] eqn:Hsp.
    - apply split_at_length in Hsp as Hal. apply split_at_Some in Hsp as [-> Hv]. destruct after as [|a after].
      + rewrite SplitString_trailing by done. destruct fuel as [|fuel]; [rewrite length_app in Hl; simpl in Hl; lia|]. done.
      + rewrite SplitString_cons by done. f_equal. apply IH; simpl in *; [lia|done..].
    - apply split_at_None in Hsp. by rewrite SplitString_free. }
  intros Hl. destruct str as [|c str]; [by destruct fuel|]. by apply Hmain.
Qed.

(** The two ways the code has of splitting a string agree: the lazy
    [split_iterator] visits exactly the parts that [SplitString] collects. *)
Lemma split_iterator_SplitString str needle : split_iterator str needle = SplitString str needle.
Proof. apply split_tokens_SplitString. lia. Qed.
End Colours.

