(* ===== verification/TextAttributes.v ===== *)
(** * Text attributes

    Models src/buffer/out/TextColor.{h,cpp} and src/buffer/out/TextAttribute.{hpp,cpp}
    with the flags of src/inc/conattrs.hpp: what colours and renditions a
    character cell has. *)

From S2P Require Import Prelude Chars.

(** The macros of the Windows headers. *)
Definition RGB (r g b : Z) : Z := Z.lor (u8 r) (Z.lor (Z.shiftl (u8 g) 8) (Z.shiftl (u8 b) 16)).
Definition GetRValue (rgb : Z) : Z := u8 rgb.
Definition GetGValue (rgb : Z) : Z := u8 (Z.shiftr rgb 8).
Definition GetBValue (rgb : Z) : Z := u8 (Z.shiftr rgb 16).

Inductive ColorType := IsDefaultColor | IsIndex16Color | IsIndex256Color | IsRgbColor.
#[global] Instance ColorType_eq_dec : EqDecision ColorType.
Proof. solve_decision. Defined.

(** ** TextColor *)
Module TextColor.

(** [_index] is the same byte as [_red]. *)
Record t := mk { _meta : ColorType; _red : Z; _green : Z; _blue : Z }.
#[global] Instance t_eq_dec : EqDecision t.
Proof. solve_decision. Defined.

Definition default : t := mk IsDefaultColor 0 0 0.
Definition of_index (index : Z) (isIndex256 : bool) : t :=
  mk (if isIndex256 then IsIndex256Color else IsIndex16Color) index 0 0.
Definition of_rgb (rgb : Z) : t := mk IsRgbColor (GetRValue rgb) (GetGValue rgb) (GetBValue rgb).

Definition DARK_BLACK : Z := 0.
Definition DARK_RED : Z := 1.
Definition DARK_GREEN : Z := 2.
Definition DARK_YELLOW : Z := 3.
Definition DARK_BLUE : Z := 4.
Definition DARK_MAGENTA : Z := 5.
Definition DARK_CYAN : Z := 6.
Definition DARK_WHITE : Z := 7.
Definition BRIGHT_BLACK : Z := 8.
Definition BRIGHT_RED : Z := 9.
Definition BRIGHT_GREEN : Z := 10.
Definition BRIGHT_YELLOW : Z := 11.
Definition BRIGHT_BLUE : Z := 12.
Definition BRIGHT_MAGENTA : Z := 13.
Definition BRIGHT_CYAN : Z := 14.
Definition BRIGHT_WHITE : Z := 15.

Definition IsIndex16 (c : t) : bool := bool_decide (_meta c = IsIndex16Color).
Definition IsIndex256 (c : t) : bool := bool_decide (_meta c = IsIndex256Color).
Definition IsDefault (c : t) : bool := bool_decide (_meta c = IsDefaultColor).
Definition IsRgb (c : t) : bool := bool_decide (_meta c = IsRgbColor).
Definition CanBeBrightened (c : t) : bool := IsIndex16 c || IsDefault c.
Definition IsLegacy (c : t) : bool := (IsIndex16 c || IsIndex256 c) && (_red c <? 16).
Definition IsDefaultOrLegacy (c : t) : bool := negb (IsRgb c) && (_red c <? 16).

Definition SetColor (rgbColor : Z) (c : t) : t := of_rgb rgbColor.
Definition SetIndex (index : Z) (isIndex256 : bool) (c : t) : t := of_index index isIndex256.
Definition SetDefault (c : t) : t := default.
Definition GetIndex (c : t) : Z := _red c.
Definition GetRGB (c : t) : Z := RGB (_red c) (_green c) (_blue c).

(** *** The colour behind an index

    Subscripts of the table are unchecked in the source; [nth] stands for them. *)
Definition at_ (colorTable : list Z) (index : Z) : Z := nth (Z.to_nat index) colorTable 0.

(** The loop that looks for the default colour among the first eight. *)
Fixpoint find_dark (colorTable : list Z) (defaultColor : Z) (n : nat) (i : Z) : option Z :=
  match n with
  | O => None
  | S n => if at_ colorTable i =? defaultColor then Some (at_ colorTable (i + 8)) else find_dark colorTable defaultColor n (i + 1)
  end.
Definition brighten_scalar (colorTable : list Z) (defaultColor : Z) : Z :=
  match find_dark colorTable defaultColor 8 0 with
  | Some color => color
  | None => defaultColor
  end.

(** The SSE2 build: [_mm_cmpeq_epi32] on two blocks of four, [_mm_packs_epi32]
    keeps all-ones and all-zeros words, then the byte mask and the bit scan. *)
Definition cmpeq_epi32 (haystack : list Z) (needle : Z) : list bool := map (fun value => value =? needle) haystack.
Definition brighten_sse (colorTable : list Z) (defaultColor : Z) : Z :=
  let haystack1 := map (fun i => at_ colorTable i) [0; 1; 2; 3] in
  let haystack2 := map (fun i => at_ colorTable i) [4; 5; 6; 7] in
  let result := cmpeq_epi32 haystack1 defaultColor ++ cmpeq_epi32 haystack2 defaultColor in
  let mask := movemask_epi8 result in
  if mask =? 0 then defaultColor else at_ colorTable (BitScanForward 16 mask / 2 + 8).

Definition GetColor (colorTable : list Z) (defaultIndex : Z) (brighten : bool) (c : t) : Z :=
  if IsDefault c then
    let defaultColor := at_ colorTable defaultIndex in
    if brighten then brighten_sse colorTable defaultColor else defaultColor
  else if IsRgb c then GetRGB c
  else if IsIndex16 c && brighten then at_ colorTable (Z.lor (_red c) 8)
  else at_ colorTable (_red c).

(** *** Legacy indices *)
Definition CompressedRgbToIndex16 : list Z :=
  [0; 1; 1; 9; 0; 0; 1; 1; 2; 1; 1; 1; 2; 8; 1; 9;
   2; 2; 3; 3; 2; 2; 11; 3; 10; 10; 11; 11; 10; 10; 10; 11;
   0; 5; 1; 1; 0; 0; 1; 1; 8; 1; 1; 1; 2; 8; 1; 9;
   2; 2; 3; 3; 2; 2; 11; 3; 10; 10; 10; 11; 10; 10; 10; 11;
   5; 5; 5; 1; 4; 5; 1; 1; 8; 8; 1; 9; 2; 8; 9; 9;
   2; 2; 3; 3; 2; 2; 11; 3; 10; 10; 11; 11; 10; 10; 10; 11;
   4; 5; 5; 1; 4; 5; 5; 1; 8; 5; 5; 1; 8; 8; 9; 9;
   2; 2; 8; 9; 10; 2; 11; 3; 10; 10; 11; 11; 10; 10; 10; 11;
   4; 13; 5; 5; 4; 13; 5; 5; 4; 13; 13; 13; 6; 8; 13; 9;
   6; 8; 8; 9; 10; 10; 11; 3; 10; 10; 11; 11; 10; 10; 10; 11;
   4; 13; 13; 13; 4; 13; 13; 13; 4; 12; 13; 13; 6; 12; 13; 13;
   6; 6; 8; 9; 6; 6; 7; 7; 10; 14; 14; 7; 10; 10; 14; 11;
   4; 12; 13; 13; 4; 12; 13; 13; 4; 12; 13; 13; 6; 12; 12; 13;
   6; 6; 12; 7; 6; 6; 7; 7; 6; 14; 14; 7; 14; 14; 14; 15;
   12; 12; 13; 13; 12; 12; 13; 13; 12; 12; 12; 13; 12; 12; 12; 13;
   6; 12; 12; 7; 6; 6; 7; 7; 6; 14; 14; 7; 14; 14; 14; 15].

Definition Index256ToIndex16 : list Z :=
  [0; 4; 2; 6; 1; 5; 3; 7; 8; 12; 10; 14; 9; 13; 11; 15;
   0; 1; 1; 1; 9; 9; 2; 1; 1; 1; 1; 1; 2; 2; 3; 3;
   3; 3; 2; 2; 11; 11; 3; 3; 10; 10; 11; 11; 11; 11; 10; 10;
   10; 10; 11; 11; 5; 5; 5; 5; 1; 1; 8; 8; 1; 1; 9; 9;
   2; 2; 3; 3; 3; 3; 2; 2; 11; 11; 3; 3; 10; 10; 11; 11;
   11; 11; 10; 10; 10; 10; 11; 11; 4; 13; 5; 5; 5; 5; 4; 13;
   13; 13; 13; 13; 6; 8; 8; 8; 9; 9; 10; 10; 11; 11; 3; 3;
   10; 10; 11; 11; 11; 11; 10; 10; 10; 10; 11; 11; 4; 13; 13; 13;
   13; 13; 4; 12; 13; 13; 13; 13; 6; 6; 8; 8; 9; 9; 6; 6;
   7; 7; 7; 7; 10; 14; 14; 14; 7; 7; 10; 10; 14; 14; 11; 11;
   4; 12; 13; 13; 13; 13; 4; 12; 13; 13; 13; 13; 6; 6; 12; 12;
   7; 7; 6; 6; 7; 7; 7; 7; 6; 14; 14; 14; 7; 7; 14; 14;
   14; 14; 15; 15; 12; 12; 13; 13; 13; 13; 12; 12; 12; 12; 13; 13;
   6; 12; 12; 12; 7; 7; 6; 6; 7; 7; 7; 7; 6; 14; 14; 14;
   7; 7; 14; 14; 14; 14; 15; 15; 0; 0; 0; 0; 0; 0; 8; 8;
   8; 8; 8; 8; 8; 8; 8; 8; 7; 7; 7; 7; 7; 7; 15; 15].

Definition GetLegacyIndex (defaultIndex : Z) (c : t) : Z :=
  if IsDefault c then defaultIndex
  else if IsIndex16 c || IsIndex256 c then at_ Index256ToIndex16 (GetIndex c)
  else
    let compressedRgb := u8 (Z.land (_red c) 0xE0 + Z.land (Z.shiftr (_green c) 3) 0x1C + Z.land (Z.shiftr (_blue c) 6) 0x03) in
    at_ CompressedRgbToIndex16 compressedRgb.

Definition TransposeLegacyIndex (index : Z) : Z :=
  let oneBitSet := Z.land (Z.lxor index (Z.shiftr index 2)) 1 in
  u8 (Z.lxor (Z.lxor index oneBitSet) (Z.shiftl oneBitSet 2)).

End TextColor.

(** ** CharacterAttributes *)
Module CharacterAttributes.
Definition Normal : Z := 0x00.
Definition Intense : Z := 0x01.
Definition Italics : Z := 0x02.
Definition Blinking : Z := 0x04.
Definition Invisible : Z := 0x08.
Definition CrossedOut : Z := 0x10.
Definition Faint : Z := 0x20.
Definition UnderlineStyle : Z := 0x1C0.
Definition TopGridline : Z := 0x400.
Definition LeftGridline : Z := 0x800.
Definition RightGridline : Z := 0x1000.
Definition Protected : Z := 0x2000.
Definition ReverseVideo : Z := 0x4000.
Definition BottomGridline : Z := 0x8000.
Definition All : Z := 0xFFFF.
Definition Rendition : Z := Z.ldiff All Protected.
End CharacterAttributes.

Definition FG_ATTRS : Z := 0x0F.
Definition BG_ATTRS : Z := 0xF0.
Definition FOREGROUND_INTENSITY : Z := 0x08.
(** The grid lines, reverse video and underscore; lead and trail byte flags are dropped. *)
Definition USED_META_ATTRS : Z := 0xDC00.
Definition UNDERLINE_STYLE_SHIFT : Z := 6.

Module UnderlineStyle.
Definition NoUnderline : Z := 0.
Definition SinglyUnderlined : Z := 1.
Definition DoublyUnderlined : Z := 2.
Definition CurlyUnderlined : Z := 3.
Definition DottedUnderlined : Z := 4.
Definition DashedUnderlined : Z := 5.
Definition Max : Z := DashedUnderlined.
End UnderlineStyle.

Inductive MarkKind := MarkNone | MarkPrompt | MarkCommand | MarkOutput.
#[global] Instance MarkKind_eq_dec : EqDecision MarkKind.
Proof. solve_decision. Defined.

(** Flags of a 16-bit word. *)

(** ** TextAttribute *)
Module TextAttribute.

Record t := mk {
  _attrs : Z;
  _hyperlinkId : Z;
  _foreground : TextColor.t;
  _background : TextColor.t;
  _underlineColor : TextColor.t;
  _markKind : MarkKind;
}.
#[global] Instance t_eq_dec : EqDecision t.
Proof. solve_decision. Defined.

Definition set_attrs (v : Z) (a : t) : t := mk v (_hyperlinkId a) (_foreground a) (_background a) (_underlineColor a) (_markKind a).
Definition update (flag : Z) (isSet : bool) (a : t) : t := set_attrs (WI_UpdateFlag (_attrs a) flag isSet) a.

Definition default : t := mk CharacterAttributes.Normal 0 TextColor.default TextColor.default TextColor.default MarkNone.
Definition of_rgb (rgbForeground rgbBackground rgbUnderline : Z) : t :=
  mk CharacterAttributes.Normal 0 (TextColor.of_rgb rgbForeground) (TextColor.of_rgb rgbBackground) (TextColor.of_rgb rgbUnderline) MarkNone.

(** *** Attributes of the legacy console

    The static tables and default indices. *)
Record Legacy := mkLegacy {
  s_legacyDefaultForeground : Z;
  s_legacyDefaultBackground : Z;
  s_ansiDefaultForeground : Z;
  s_ansiDefaultBackground : Z;
  s_legacyForegroundColorMap : list TextColor.t;
  s_legacyBackgroundColorMap : list TextColor.t;
}.

Definition s_initLegacyColorMap (defaultIndex : Z) : list TextColor.t :=
  map (fun i => if i =? defaultIndex then TextColor.default else TextColor.of_index (TextColor.TransposeLegacyIndex i) true)
    (map Z.of_nat (seq 0 16)).

Definition init_Legacy : Legacy := mkLegacy 7 0 7 0 (s_initLegacyColorMap 7) (s_initLegacyColorMap 0).

Definition SetLegacyDefaultAttributes (defaultAttributes : Z) (s : Legacy) : Legacy :=
  let foregroundMap := <[Z.to_nat (s_legacyDefaultForeground s) := TextColor.of_index (s_ansiDefaultForeground s) true]> (s_legacyForegroundColorMap s) in
  let backgroundMap := <[Z.to_nat (s_legacyDefaultBackground s) := TextColor.of_index (s_ansiDefaultBackground s) true]> (s_legacyBackgroundColorMap s) in
  let foreground := Z.land defaultAttributes FG_ATTRS in
  let background := Z.shiftr (Z.land defaultAttributes BG_ATTRS) 4 in
  mkLegacy foreground background (TextColor.TransposeLegacyIndex foreground) (TextColor.TransposeLegacyIndex background)
    (<[Z.to_nat foreground := TextColor.default]> foregroundMap) (<[Z.to_nat background := TextColor.default]> backgroundMap).

Definition color_at (map : list TextColor.t) (index : Z) : TextColor.t := nth (Z.to_nat index) map TextColor.default.

(** [TextAttribute(WORD)] *)
Definition of_legacy (s : Legacy) (wLegacyAttr : Z) : t :=
  mk (Z.land wLegacyAttr USED_META_ATTRS) 0
    (color_at (s_legacyForegroundColorMap s) (Z.land wLegacyAttr FG_ATTRS))
    (color_at (s_legacyBackgroundColorMap s) (Z.shiftr (Z.land wLegacyAttr BG_ATTRS) 4))
    TextColor.default MarkNone.

(** *** Queries *)
Definition IsIntense (a : t) : bool := WI_IsFlagSet (_attrs a) CharacterAttributes.Intense.
Definition IsFaint (a : t) : bool := WI_IsFlagSet (_attrs a) CharacterAttributes.Faint.
Definition IsItalic (a : t) : bool := WI_IsFlagSet (_attrs a) CharacterAttributes.Italics.
Definition IsBlinking (a : t) : bool := WI_IsFlagSet (_attrs a) CharacterAttributes.Blinking.
Definition IsInvisible (a : t) : bool := WI_IsFlagSet (_attrs a) CharacterAttributes.Invisible.
Definition IsCrossedOut (a : t) : bool := WI_IsFlagSet (_attrs a) CharacterAttributes.CrossedOut.
Definition IsOverlined (a : t) : bool := WI_IsFlagSet (_attrs a) CharacterAttributes.TopGridline.
Definition IsReverseVideo (a : t) : bool := WI_IsFlagSet (_attrs a) CharacterAttributes.ReverseVideo.
Definition IsProtected (a : t) : bool := WI_IsFlagSet (_attrs a) CharacterAttributes.Protected.
Definition IsTopHorizontalDisplayed (a : t) : bool := WI_IsFlagSet (_attrs a) CharacterAttributes.TopGridline.
Definition IsBottomHorizontalDisplayed (a : t) : bool := WI_IsFlagSet (_attrs a) CharacterAttributes.BottomGridline.
Definition IsLeftVerticalDisplayed (a : t) : bool := WI_IsFlagSet (_attrs a) CharacterAttributes.LeftGridline.
Definition IsRightVerticalDisplayed (a : t) : bool := WI_IsFlagSet (_attrs a) CharacterAttributes.RightGridline.
Definition IsLegacy (a : t) : bool := TextColor.IsLegacy (_foreground a) && TextColor.IsLegacy (_background a).
Definition IsHyperlink (a : t) : bool := negb (_hyperlinkId a =? 0).
Definition IsBold (intenseIsBold : bool) (a : t) : bool :=
  IsIntense a && (intenseIsBold || negb (TextColor.CanBeBrightened (_foreground a))).
Definition GetUnderlineStyle (a : t) : Z :=
  Z.shiftr (Z.land (_attrs a) CharacterAttributes.UnderlineStyle) UNDERLINE_STYLE_SHIFT.
Definition IsUnderlined (a : t) : bool := negb (GetUnderlineStyle a =? UnderlineStyle.NoUnderline).
Definition BackgroundIsDefault (a : t) : bool := TextColor.IsDefault (_background a).

Definition GetLegacyAttributes (s : Legacy) (a : t) : Z :=
  let fgIndex := TextColor.GetLegacyIndex (s_legacyDefaultForeground s) (_foreground a) in
  let bgIndex := TextColor.GetLegacyIndex (s_legacyDefaultBackground s) (_background a) in
  let metaAttrs := Z.land (_attrs a) USED_META_ATTRS in
  let brighten := IsIntense a && TextColor.CanBeBrightened (_foreground a) in
  u16 (Z.lor (Z.lor (Z.lor fgIndex (Z.shiftl bgIndex 4)) metaAttrs) (if brighten then FOREGROUND_INTENSITY else 0)).

(** *** Updates *)
Definition SetIntense (isIntense : bool) : t -> t := update CharacterAttributes.Intense isIntense.
Definition SetFaint (isFaint : bool) : t -> t := update CharacterAttributes.Faint isFaint.
Definition SetItalic (isItalic : bool) : t -> t := update CharacterAttributes.Italics isItalic.
Definition SetBlinking (isBlinking : bool) : t -> t := update CharacterAttributes.Blinking isBlinking.
Definition SetInvisible (isInvisible : bool) : t -> t := update CharacterAttributes.Invisible isInvisible.
Definition SetCrossedOut (isCrossedOut : bool) : t -> t := update CharacterAttributes.CrossedOut isCrossedOut.
Definition SetOverlined (isOverlined : bool) : t -> t := update CharacterAttributes.TopGridline isOverlined.
Definition SetReverseVideo (isReversed : bool) : t -> t := update CharacterAttributes.ReverseVideo isReversed.
Definition SetProtected (isProtected : bool) : t -> t := update CharacterAttributes.Protected isProtected.
Definition SetLeftVerticalDisplayed (isDisplayed : bool) : t -> t := update CharacterAttributes.LeftGridline isDisplayed.
Definition SetRightVerticalDisplayed (isDisplayed : bool) : t -> t := update CharacterAttributes.RightGridline isDisplayed.
Definition SetUnderlineStyle (style : Z) (a : t) : t :=
  let shiftedStyle := Z.shiftl style UNDERLINE_STYLE_SHIFT in
  set_attrs (Z.lor (Z.ldiff (_attrs a) CharacterAttributes.UnderlineStyle) (u16 shiftedStyle)) a.
Definition Invert (a : t) : t := set_attrs (WI_ToggleFlag (_attrs a) CharacterAttributes.ReverseVideo) a.
Definition SetForeground (c : TextColor.t) (a : t) : t :=
  mk (_attrs a) (_hyperlinkId a) c (_background a) (_underlineColor a) (_markKind a).
Definition SetBackground (c : TextColor.t) (a : t) : t :=
  mk (_attrs a) (_hyperlinkId a) (_foreground a) c (_underlineColor a) (_markKind a).
Definition SetUnderlineColor (c : TextColor.t) (a : t) : t :=
  mk (_attrs a) (_hyperlinkId a) (_foreground a) (_background a) c (_markKind a).
Definition SetIndexedForeground (fgIndex : Z) : t -> t := SetForeground (TextColor.of_index fgIndex false).
Definition SetIndexedBackground (bgIndex : Z) : t -> t := SetBackground (TextColor.of_index bgIndex false).
Definition SetIndexedForeground256 (fgIndex : Z) : t -> t := SetForeground (TextColor.of_index fgIndex true).
Definition SetIndexedBackground256 (bgIndex : Z) : t -> t := SetBackground (TextColor.of_index bgIndex true).
Definition SetColor (rgbColor : Z) (fIsForeground : bool) (a : t) : t :=
  if fIsForeground then SetForeground (TextColor.of_rgb rgbColor) a else SetBackground (TextColor.of_rgb rgbColor) a.
Definition SetHyperlinkId (id : Z) (a : t) : t :=
  mk (_attrs a) id (_foreground a) (_background a) (_underlineColor a) (_markKind a).
Definition SetMarkAttributes (attrs : MarkKind) (a : t) : t :=
  mk (_attrs a) (_hyperlinkId a) (_foreground a) (_background a) (_underlineColor a) attrs.
Definition SetDefaultForeground : t -> t := SetForeground TextColor.default.
Definition SetDefaultBackground : t -> t := SetBackground TextColor.default.
Definition SetDefaultUnderlineColor : t -> t := SetUnderlineColor TextColor.default.
Definition SetDefaultRenditionAttributes (a : t) : t := set_attrs (Z.ldiff (_attrs a) CharacterAttributes.Rendition) a.
Definition SetStandardErase (a : t) : t :=
  mk CharacterAttributes.Normal 0 (_foreground a) (_background a) (_underlineColor a) MarkNone.

(** *** Blank cells *)
Definition IsAnyGridLineEnabled (a : t) : bool :=
  WI_IsFlagSet (_attrs a) (Z.lor CharacterAttributes.TopGridline (Z.lor CharacterAttributes.LeftGridline
    (Z.lor CharacterAttributes.RightGridline CharacterAttributes.BottomGridline))).
Definition HasAnyVisualAttributes (a : t) : bool := negb (_attrs a =? CharacterAttributes.Normal) || negb (_hyperlinkId a =? 0).
Definition HasIdenticalVisualRepresentationForBlankSpace (a other : t) (inverted : bool) : bool :=
  let checkForeground := xorb inverted (IsReverseVideo a) in
  negb (IsAnyGridLineEnabled a) && negb (IsUnderlined a) && negb (WI_IsFlagSet (_attrs a) CharacterAttributes.CrossedOut) &&
  negb (IsHyperlink a) && (_attrs a =? _attrs other) &&
  ((checkForeground && bool_decide (_foreground a = _foreground other)) ||
   (negb checkForeground && bool_decide (_background a = _background other))) &&
  Bool.eqb (IsHyperlink a) (IsHyperlink other).

End TextAttribute.

(** ** Properties of text attributes

    Attributes of the legacy console survive the conversion, and the vectorised
    search for a bright colour is the plain loop. *)

(** ** Legacy attributes *)

(** Everything [SetLegacyDefaultAttributes] can make of the static tables. *)
Inductive legacy_reachable : TextAttribute.Legacy -> Prop :=
| legacy_init : legacy_reachable TextAttribute.init_Legacy
| legacy_set s defaultAttributes : legacy_reachable s -> legacy_reachable (TextAttribute.SetLegacyDefaultAttributes defaultAttributes s).

(** The tables that belong to two default indices. *)
Definition legacy_of (foreground background : Z) : TextAttribute.Legacy :=
  TextAttribute.mkLegacy foreground background (TextColor.TransposeLegacyIndex foreground) (TextColor.TransposeLegacyIndex background)
    (TextAttribute.s_initLegacyColorMap foreground) (TextAttribute.s_initLegacyColorMap background).

Definition nibbles : list Z := map Z.of_nat (seq 0 16).

Lemma nibble_in x : 0 <= x < 16 -> In x nibbles.
Proof. intros Hx. unfold nibbles. apply in_map_iff. exists (Z.to_nat x). split; [lia|]. apply in_seq. lia. Qed.

Lemma land_nibble w : 0 <= Z.land w FG_ATTRS < 16.
Proof. unfold FG_ATTRS. change 0x0F with (Z.ones 4). rewrite Z.land_ones by lia. apply Z.mod_pos_bound. lia. Qed.

Lemma shifted_nibble w : Z.shiftr (Z.land w BG_ATTRS) 4 = Z.land (Z.shiftr w 4) FG_ATTRS.
Proof. by rewrite Z.shiftr_land. Qed.

(** Moving the default from one index to another, for all pairs. *)
Lemma move_default old new : 0 <= old < 16 -> 0 <= new < 16 ->
  <[Z.to_nat new := TextColor.default]>
    (<[Z.to_nat old := TextColor.of_index (TextColor.TransposeLegacyIndex old) true]> (TextAttribute.s_initLegacyColorMap old)) =
  TextAttribute.s_initLegacyColorMap new.
Proof.
  intros Ho Hn.
  assert (forallb (fun old => forallb (fun new => bool_decide (
    <[Z.to_nat new := TextColor.default]>
      (<[Z.to_nat old := TextColor.of_index (TextColor.TransposeLegacyIndex old) true]> (TextAttribute.s_initLegacyColorMap old)) =
    TextAttribute.s_initLegacyColorMap new)) nibbles) nibbles = true) as Hall by (vm_compute; reflexivity).
  rewrite forallb_forall in Hall. specialize (Hall old (nibble_in old Ho)).
  rewrite forallb_forall in Hall. specialize (Hall new (nibble_in new Hn)). by apply bool_decide_eq_true in Hall.
Qed.

Lemma legacy_reachable_of s : legacy_reachable s -> exists foreground background, 0 <= foreground < 16 /\ 0 <= background < 16 /\
  s = legacy_of foreground background.
Proof.
  induction 1 as [|s w Hs (f & b & Hf & Hb & ->)].
  - exists 7, 0. split; [lia|]. split; [lia|]. reflexivity.
  - exists (Z.land w FG_ATTRS), (Z.shiftr (Z.land w BG_ATTRS) 4). rewrite shifted_nibble. split; [apply land_nibble|]. split; [apply land_nibble|].
    unfold TextAttribute.SetLegacyDefaultAttributes, legacy_of. cbn -[TextAttribute.s_initLegacyColorMap TextColor.TransposeLegacyIndex Z.land].
    rewrite shifted_nibble. f_equal; apply move_default; try done; apply land_nibble.
Qed.

(** The index that comes back for each index, whatever the default is. *)
Lemma legacy_index default i : 0 <= default < 16 -> 0 <= i < 16 ->
  TextColor.GetLegacyIndex default (TextAttribute.color_at (TextAttribute.s_initLegacyColorMap default) i) = i.
Proof.
  intros Hd Hi.
  assert (forallb (fun d => forallb (fun i =>
    TextColor.GetLegacyIndex d (TextAttribute.color_at (TextAttribute.s_initLegacyColorMap d) i) =? i) nibbles) nibbles = true)
    as Hall by (vm_compute; reflexivity).
  rewrite forallb_forall in Hall. specialize (Hall default (nibble_in default Hd)).
  rewrite forallb_forall in Hall. specialize (Hall i (nibble_in i Hi)). by apply Z.eqb_eq.
Qed.

(** A legacy attribute survives: whatever the defaults of the console are set
    to, converting a sixteen-bit legacy attribute to a [TextAttribute] and back
    gives its colours, grid lines, reverse video and underscore again; only the
    lead and trail byte flags and the unused bit are dropped. *)
Lemma legacy_roundtrip s w : legacy_reachable s -> 0 <= w < 2 ^ 16 ->
  TextAttribute.GetLegacyAttributes s (TextAttribute.of_legacy s w) = Z.land w (Z.lor (Z.lor FG_ATTRS BG_ATTRS) USED_META_ATTRS).
Proof.
  intros Hs Hw. destruct (legacy_reachable_of s Hs) as (f & b & Hf & Hb & ->).
  unfold TextAttribute.GetLegacyAttributes, TextAttribute.of_legacy, legacy_of.
  cbn -[TextColor.GetLegacyIndex TextAttribute.color_at TextAttribute.s_initLegacyColorMap Z.land Z.shiftr Z.shiftl Z.lor USED_META_ATTRS FG_ATTRS BG_ATTRS FOREGROUND_INTENSITY TextColor.CanBeBrightened].
  rewrite shifted_nibble, !legacy_index by (done || apply land_nibble).
  unfold TextAttribute.IsIntense, WI_IsFlagSet. cbn [TextAttribute._attrs].
  assert (Z.land (Z.land w USED_META_ATTRS) CharacterAttributes.Intense = 0) as -> by (by rewrite <- Z.land_assoc, Z.land_0_r).
  cbn [Z.eqb negb andb]. rewrite Z.lor_0_r, <- shifted_nibble, <- Z.land_assoc, Z.land_diag.
  assert (Z.shiftl (Z.shiftr (Z.land w BG_ATTRS) 4) 4 = Z.land w BG_ATTRS) as ->.
  { rewrite <- Z.ldiff_ones_r by lia. rewrite Z.ldiff_land, <- Z.land_assoc. reflexivity. }
  rewrite <- !Z.land_lor_distr_r. unfold u16. rewrite <- (Z.land_ones _ 16), <- Z.land_assoc by lia. reflexivity.
Qed.

(** ** Brightening *)

(** The vectorised search for the default colour among the dark ones (compare,
    pack, byte mask, bit scan) picks the same bright colour as the plain loop. *)
Lemma brighten_sse_scalar colorTable defaultColor :
  TextColor.brighten_sse colorTable defaultColor = TextColor.brighten_scalar colorTable defaultColor.
Proof.
  unfold TextColor.brighten_sse, TextColor.brighten_scalar, TextColor.cmpeq_epi32. cbn [map app TextColor.find_dark].
  change (0 + 1) with 1. change (1 + 1) with 2. change (2 + 1) with 3. change (3 + 1) with 4. change (4 + 1) with 5.
  change (5 + 1) with 6. change (6 + 1) with 7. set (is_default := fun i => TextColor.at_ colorTable i =? defaultColor).
  fold (is_default 0) (is_default 1) (is_default 2) (is_default 3) (is_default 4) (is_default 5) (is_default 6) (is_default 7).
  destruct (is_default 0), (is_default 1), (is_default 2), (is_default 3), (is_default 4), (is_default 5), (is_default 6), (is_default 7);
    reflexivity.
Qed.
