(* ===== verification/Graphics.v ===== *)
(** * Graphic renditions

    Models src/terminal/adapter/adaptDispatchGraphics.cpp (SGR, DECSCA, XTPUSHSGR
    and XTPOPSGR) and the stack of src/types/sgrStack.cpp. *)

From S2P Require Import Prelude Til VtTypes TextAttributes.

(** ** The enumerations of DispatchTypes.hpp *)
Module GraphicsOptions.
Definition Off : Z := 0.
Definition Intense : Z := 1.
Definition RGBColorOrFaint : Z := 2.
Definition Italics : Z := 3.
Definition Underline : Z := 4.
Definition BlinkOrXterm256Index : Z := 5.
Definition RapidBlink : Z := 6.
Definition Negative : Z := 7.
Definition Invisible : Z := 8.
Definition CrossedOut : Z := 9.
Definition DoublyUnderlined : Z := 21.
Definition NotIntenseOrFaint : Z := 22.
Definition NotItalics : Z := 23.
Definition NoUnderline : Z := 24.
Definition Steady : Z := 25.
Definition Positive : Z := 27.
Definition Visible : Z := 28.
Definition NotCrossedOut : Z := 29.
Definition ForegroundBlack : Z := 30.
Definition ForegroundRed : Z := 31.
Definition ForegroundGreen : Z := 32.
Definition ForegroundYellow : Z := 33.
Definition ForegroundBlue : Z := 34.
Definition ForegroundMagenta : Z := 35.
Definition ForegroundCyan : Z := 36.
Definition ForegroundWhite : Z := 37.
Definition ForegroundExtended : Z := 38.
Definition ForegroundDefault : Z := 39.
Definition BackgroundBlack : Z := 40.
Definition BackgroundRed : Z := 41.
Definition BackgroundGreen : Z := 42.
Definition BackgroundYellow : Z := 43.
Definition BackgroundBlue : Z := 44.
Definition BackgroundMagenta : Z := 45.
Definition BackgroundCyan : Z := 46.
Definition BackgroundWhite : Z := 47.
Definition BackgroundExtended : Z := 48.
Definition BackgroundDefault : Z := 49.
Definition Overline : Z := 53.
Definition NoOverline : Z := 55.
Definition UnderlineColor : Z := 58.
Definition UnderlineColorDefault : Z := 59.
Definition BrightForegroundBlack : Z := 90.
Definition BrightForegroundRed : Z := 91.
Definition BrightForegroundGreen : Z := 92.
Definition BrightForegroundYellow : Z := 93.
Definition BrightForegroundBlue : Z := 94.
Definition BrightForegroundMagenta : Z := 95.
Definition BrightForegroundCyan : Z := 96.
Definition BrightForegroundWhite : Z := 97.
Definition BrightBackgroundBlack : Z := 100.
Definition BrightBackgroundRed : Z := 101.
Definition BrightBackgroundGreen : Z := 102.
Definition BrightBackgroundYellow : Z := 103.
Definition BrightBackgroundBlue : Z := 104.
Definition BrightBackgroundMagenta : Z := 105.
Definition BrightBackgroundCyan : Z := 106.
Definition BrightBackgroundWhite : Z := 107.
End GraphicsOptions.

Module LogicalAttributeOptions.
Definition Default : Z := 0.
Definition Protected : Z := 1.
Definition Unprotected : Z := 2.
End LogicalAttributeOptions.

Module SgrSaveRestoreStackOptions.
Definition All : Z := 0.
Definition Intense : Z := 1.
Definition Faintness : Z := 2.
Definition Italics : Z := 3.
Definition Underline : Z := 4.
Definition Blink : Z := 5.
Definition Negative : Z := 7.
Definition Invisible : Z := 8.
Definition CrossedOut : Z := 9.
Definition DoublyUnderlined : Z := 21.
Definition SaveForegroundColor : Z := 30.
Definition SaveBackgroundColor : Z := 31.
Definition Max : Z := SaveBackgroundColor.
End SgrSaveRestoreStackOptions.

(** ** SGR *)
Definition _SetUnderlineStyleHelper (option : Z) (attr : TextAttribute.t) : TextAttribute.t :=
  let style := VTParameter.value_or option 0 in
  if (0 <=? style) && (style <=? UnderlineStyle.Max) then TextAttribute.SetUnderlineStyle style attr else attr.

Definition is_byte_rgb (red green blue : Z) : bool := (red <=? 255) && (green <=? 255) && (blue <=? 255).

(** The number of options consumed, and the attribute. *)
Definition _SetRgbColorsHelper (options : VTParameters.t) (isForeground : bool) (attr : TextAttribute.t) : nat * TextAttribute.t :=
  let typeOpt := VTParameter.to_enum (VTParameters.at_ options 0) in
  if typeOpt =? GraphicsOptions.RGBColorOrFaint then
    let red := VTParameter.value_or (VTParameters.at_ options 1) 0 in
    let green := VTParameter.value_or (VTParameters.at_ options 2) 0 in
    let blue := VTParameter.value_or (VTParameters.at_ options 3) 0 in
    (4%nat, if is_byte_rgb red green blue then TextAttribute.SetColor (RGB red green blue) isForeground attr else attr)
  else if typeOpt =? GraphicsOptions.BlinkOrXterm256Index then
    let tableIndex := VTParameter.value_or (VTParameters.at_ options 1) 0 in
    (2%nat, if tableIndex <=? 255 then
              if isForeground then TextAttribute.SetIndexedForeground256 tableIndex attr
              else TextAttribute.SetIndexedBackground256 tableIndex attr
            else attr)
  else (1%nat, attr).

Definition applyColor (colorItem : Z) (color : TextColor.t) (attr : TextAttribute.t) : TextAttribute.t :=
  switch (VTParameter.to_VTInt colorItem)
    [(GraphicsOptions.ForegroundExtended, TextAttribute.SetForeground color attr);
     (GraphicsOptions.BackgroundExtended, TextAttribute.SetBackground color attr);
     (GraphicsOptions.UnderlineColor, TextAttribute.SetUnderlineColor color attr)]
    attr.

Definition _SetRgbColorsHelperFromSubParams (colorItem : Z) (options : list Z) (attr : TextAttribute.t) : TextAttribute.t :=
  let typeOpt := VTParameter.to_enum (VTParameters.sub_at options 0) in
  if typeOpt =? GraphicsOptions.RGBColorOrFaint then
    let validColorSpace := VTParameter.value_or (VTParameters.sub_at options 1) 0 =? 0 in
    let red := VTParameter.value_or (VTParameters.sub_at options 2) 0 in
    let green := VTParameter.value_or (VTParameters.sub_at options 3) 0 in
    let blue := VTParameter.value_or (VTParameters.sub_at options 4) 0 in
    if validColorSpace && is_byte_rgb red green blue then applyColor colorItem (TextColor.of_rgb (RGB red green blue)) attr else attr
  else if typeOpt =? GraphicsOptions.BlinkOrXterm256Index then
    let tableIndex := VTParameter.value_or (VTParameters.sub_at options 1) 0 in
    if tableIndex <=? 255 then applyColor colorItem (TextColor.of_index tableIndex true) attr else attr
  else attr.

Definition _ApplyGraphicsOptionWithSubParams (option : Z) (subParams : list Z) (attr : TextAttribute.t) : TextAttribute.t :=
  switch (VTParameter.to_VTInt option)
    [(GraphicsOptions.Underline, _SetUnderlineStyleHelper (VTParameters.sub_at subParams 0) attr);
     (GraphicsOptions.ForegroundExtended, _SetRgbColorsHelperFromSubParams option subParams attr);
     (GraphicsOptions.BackgroundExtended, _SetRgbColorsHelperFromSubParams option subParams attr);
     (GraphicsOptions.UnderlineColor, _SetRgbColorsHelperFromSubParams option subParams attr)]
    attr.

(** The options that stand for themselves; each consumes one parameter. *)
Definition simple_options : list (Z * (TextAttribute.t -> TextAttribute.t)) :=
  [(GraphicsOptions.Off, TextAttribute.SetDefaultRenditionAttributes ∘ TextAttribute.SetDefaultUnderlineColor ∘ TextAttribute.SetDefaultBackground ∘ TextAttribute.SetDefaultForeground);
   (GraphicsOptions.ForegroundDefault, TextAttribute.SetDefaultForeground);
   (GraphicsOptions.BackgroundDefault, TextAttribute.SetDefaultBackground);
   (GraphicsOptions.UnderlineColorDefault, TextAttribute.SetDefaultUnderlineColor);
   (GraphicsOptions.Intense, TextAttribute.SetIntense true);
   (GraphicsOptions.RGBColorOrFaint, TextAttribute.SetFaint true);
   (GraphicsOptions.NotIntenseOrFaint, (TextAttribute.SetFaint false) ∘ (TextAttribute.SetIntense false));
   (GraphicsOptions.Italics, TextAttribute.SetItalic true);
   (GraphicsOptions.NotItalics, TextAttribute.SetItalic false);
   (GraphicsOptions.BlinkOrXterm256Index, TextAttribute.SetBlinking true);
   (GraphicsOptions.RapidBlink, TextAttribute.SetBlinking true);
   (GraphicsOptions.Steady, TextAttribute.SetBlinking false);
   (GraphicsOptions.Invisible, TextAttribute.SetInvisible true);
   (GraphicsOptions.Visible, TextAttribute.SetInvisible false);
   (GraphicsOptions.CrossedOut, TextAttribute.SetCrossedOut true);
   (GraphicsOptions.NotCrossedOut, TextAttribute.SetCrossedOut false);
   (GraphicsOptions.Negative, TextAttribute.SetReverseVideo true);
   (GraphicsOptions.Positive, TextAttribute.SetReverseVideo false);
   (GraphicsOptions.Underline, TextAttribute.SetUnderlineStyle UnderlineStyle.SinglyUnderlined);
   (GraphicsOptions.DoublyUnderlined, TextAttribute.SetUnderlineStyle UnderlineStyle.DoublyUnderlined);
   (GraphicsOptions.NoUnderline, TextAttribute.SetUnderlineStyle UnderlineStyle.NoUnderline);
   (GraphicsOptions.Overline, TextAttribute.SetOverlined true);
   (GraphicsOptions.NoOverline, TextAttribute.SetOverlined false);
   (GraphicsOptions.ForegroundBlack, TextAttribute.SetIndexedForeground TextColor.DARK_BLACK);
   (GraphicsOptions.ForegroundBlue, TextAttribute.SetIndexedForeground TextColor.DARK_BLUE);
   (GraphicsOptions.ForegroundGreen, TextAttribute.SetIndexedForeground TextColor.DARK_GREEN);
   (GraphicsOptions.ForegroundCyan, TextAttribute.SetIndexedForeground TextColor.DARK_CYAN);
   (GraphicsOptions.ForegroundRed, TextAttribute.SetIndexedForeground TextColor.DARK_RED);
   (GraphicsOptions.ForegroundMagenta, TextAttribute.SetIndexedForeground TextColor.DARK_MAGENTA);
   (GraphicsOptions.ForegroundYellow, TextAttribute.SetIndexedForeground TextColor.DARK_YELLOW);
   (GraphicsOptions.ForegroundWhite, TextAttribute.SetIndexedForeground TextColor.DARK_WHITE);
   (GraphicsOptions.BackgroundBlack, TextAttribute.SetIndexedBackground TextColor.DARK_BLACK);
   (GraphicsOptions.BackgroundBlue, TextAttribute.SetIndexedBackground TextColor.DARK_BLUE);
   (GraphicsOptions.BackgroundGreen, TextAttribute.SetIndexedBackground TextColor.DARK_GREEN);
   (GraphicsOptions.BackgroundCyan, TextAttribute.SetIndexedBackground TextColor.DARK_CYAN);
   (GraphicsOptions.BackgroundRed, TextAttribute.SetIndexedBackground TextColor.DARK_RED);
   (GraphicsOptions.BackgroundMagenta, TextAttribute.SetIndexedBackground TextColor.DARK_MAGENTA);
   (GraphicsOptions.BackgroundYellow, TextAttribute.SetIndexedBackground TextColor.DARK_YELLOW);
   (GraphicsOptions.BackgroundWhite, TextAttribute.SetIndexedBackground TextColor.DARK_WHITE);
   (GraphicsOptions.BrightForegroundBlack, TextAttribute.SetIndexedForeground TextColor.BRIGHT_BLACK);
   (GraphicsOptions.BrightForegroundBlue, TextAttribute.SetIndexedForeground TextColor.BRIGHT_BLUE);
   (GraphicsOptions.BrightForegroundGreen, TextAttribute.SetIndexedForeground TextColor.BRIGHT_GREEN);
   (GraphicsOptions.BrightForegroundCyan, TextAttribute.SetIndexedForeground TextColor.BRIGHT_CYAN);
   (GraphicsOptions.BrightForegroundRed, TextAttribute.SetIndexedForeground TextColor.BRIGHT_RED);
   (GraphicsOptions.BrightForegroundMagenta, TextAttribute.SetIndexedForeground TextColor.BRIGHT_MAGENTA);
   (GraphicsOptions.BrightForegroundYellow, TextAttribute.SetIndexedForeground TextColor.BRIGHT_YELLOW);
   (GraphicsOptions.BrightForegroundWhite, TextAttribute.SetIndexedForeground TextColor.BRIGHT_WHITE);
   (GraphicsOptions.BrightBackgroundBlack, TextAttribute.SetIndexedBackground TextColor.BRIGHT_BLACK);
   (GraphicsOptions.BrightBackgroundBlue, TextAttribute.SetIndexedBackground TextColor.BRIGHT_BLUE);
   (GraphicsOptions.BrightBackgroundGreen, TextAttribute.SetIndexedBackground TextColor.BRIGHT_GREEN);
   (GraphicsOptions.BrightBackgroundCyan, TextAttribute.SetIndexedBackground TextColor.BRIGHT_CYAN);
   (GraphicsOptions.BrightBackgroundRed, TextAttribute.SetIndexedBackground TextColor.BRIGHT_RED);
   (GraphicsOptions.BrightBackgroundMagenta, TextAttribute.SetIndexedBackground TextColor.BRIGHT_MAGENTA);
   (GraphicsOptions.BrightBackgroundYellow, TextAttribute.SetIndexedBackground TextColor.BRIGHT_YELLOW);
   (GraphicsOptions.BrightBackgroundWhite, TextAttribute.SetIndexedBackground TextColor.BRIGHT_WHITE)].

Definition _ApplyGraphicsOption (options : VTParameters.t) (optionIndex : nat) (attr : TextAttribute.t) : nat * TextAttribute.t :=
  let opt := VTParameter.to_enum (VTParameters.at_ options optionIndex) in
  if VTParameters.hasSubParamsFor options optionIndex then
    (1%nat, _ApplyGraphicsOptionWithSubParams opt (VTParameters.subParamsFor options optionIndex) attr)
  else
    let extended isForeground :=
      let '(consumed, attr) := _SetRgbColorsHelper (VTParameters.subspan options (optionIndex + 1)) isForeground attr in
      ((1 + consumed)%nat, attr) in
    if opt =? GraphicsOptions.ForegroundExtended then extended true
    else if opt =? GraphicsOptions.BackgroundExtended then extended false
    else (1%nat, switch opt simple_options (fun attr => attr) attr).

(** The loop advances by at least one, so the number of options is fuel enough. *)
Fixpoint apply_options (fuel : nat) (options : VTParameters.t) (i : nat) (attr : TextAttribute.t) : TextAttribute.t :=
  match fuel with
  | O => attr
  | S fuel =>
    if (i <? VTParameters.size options)%nat then
      let '(consumed, attr) := _ApplyGraphicsOption options i attr in
      apply_options fuel options (i + consumed) attr
    else attr
  end.

Definition _ApplyGraphicsOptions (options : VTParameters.t) (attr : TextAttribute.t) : TextAttribute.t :=
  apply_options (VTParameters.size options) options 0 attr.

(** ** DECSCA *)
Definition protection_option (opt : Z) (attr : TextAttribute.t) : TextAttribute.t :=
  switch opt
    [(LogicalAttributeOptions.Default, TextAttribute.SetProtected false attr);
     (LogicalAttributeOptions.Protected, TextAttribute.SetProtected true attr);
     (LogicalAttributeOptions.Unprotected, TextAttribute.SetProtected false attr)]
    attr.

Definition apply_protection (options : VTParameters.t) (attr : TextAttribute.t) : TextAttribute.t :=
  fold_left (fun attr i => protection_option (VTParameter.to_enum (VTParameters.at_ options i)) attr)
    (seq 0 (VTParameters.size options)) attr.

(** ** The stack of renditions

    [None] is the end of the process: [std::array::at] throws in a [noexcept]
    function, or [FAIL_FAST_IF] fires. *)
Module SgrStack.

Record SavedSgrAttributes := mkSaved { TextAttributes : TextAttribute.t; ValidParts : Z }.

Definition c_MaxStoredSgrPushes : nat := 10.

Record t := mk { _nextPushIndex : nat; _numSavedAttrs : nat; _storedSgrAttributes : list SavedSgrAttributes }.

Definition init : t := mk 0 0 (repeat (mkSaved TextAttribute.default 0) c_MaxStoredSgrPushes).

Definition validParts_of (options : VTParameters.t) : Z :=
  if VTParameters.empty options then enumset.set_all 0 [SgrSaveRestoreStackOptions.All]
  else
    fold_left (fun validParts i =>
      let option := VTParameter.value_or (VTParameters.at_ options i) 0 in
      if (SgrSaveRestoreStackOptions.All <? option) && (option <=? SgrSaveRestoreStackOptions.Max)
      then enumset.set_all validParts [option] else validParts)
      (seq 0 (VTParameters.size options)) 0.

Definition Push (currentAttributes : TextAttribute.t) (options : VTParameters.t) (s : t) : option t :=
  let saved := mkSaved currentAttributes (validParts_of options) in
  let size := length (_storedSgrAttributes s) in
  let numSavedAttrs := if (_numSavedAttrs s <? size)%nat then S (_numSavedAttrs s) else _numSavedAttrs s in
  if (_nextPushIndex s <? size)%nat then
    Some (mk ((_nextPushIndex s + 1) mod size) numSavedAttrs (<[_nextPushIndex s := saved]> (_storedSgrAttributes s)))
  else None.

(** Flags that are copied when their option was saved. *)
Definition restore (validParts option : Z) (change : TextAttribute.t -> TextAttribute.t) (result : TextAttribute.t) : TextAttribute.t :=
  if enumset.test validParts option then change result else result.

Definition restore_underline (savedAttribute : TextAttribute.t) (validParts : Z) (result : TextAttribute.t) : TextAttribute.t :=
  let isUnderlinedValid := enumset.test validParts SgrSaveRestoreStackOptions.Underline in
  let isDoublyUnderlinedValid := enumset.test validParts SgrSaveRestoreStackOptions.DoublyUnderlined in
  let savedUl := TextAttribute.GetUnderlineStyle savedAttribute in
  if isUnderlinedValid && isDoublyUnderlinedValid then TextAttribute.SetUnderlineStyle savedUl result
  else if isUnderlinedValid then
    if negb (savedUl =? UnderlineStyle.NoUnderline) && negb (savedUl =? UnderlineStyle.DoublyUnderlined)
    then TextAttribute.SetUnderlineStyle savedUl result
    else if negb (TextAttribute.GetUnderlineStyle result =? UnderlineStyle.DoublyUnderlined)
    then TextAttribute.SetUnderlineStyle UnderlineStyle.NoUnderline result
    else result
  else if isDoublyUnderlinedValid then
    if savedUl =? UnderlineStyle.DoublyUnderlined then TextAttribute.SetUnderlineStyle UnderlineStyle.DoublyUnderlined result
    else if TextAttribute.GetUnderlineStyle result =? UnderlineStyle.DoublyUnderlined
    then TextAttribute.SetUnderlineStyle UnderlineStyle.NoUnderline result
    else result
  else result.

Definition combine (currentAttributes savedAttribute : TextAttribute.t) (validParts : Z) : TextAttribute.t :=
  let result := currentAttributes in
  let result := restore validParts SgrSaveRestoreStackOptions.Intense (TextAttribute.SetIntense (TextAttribute.IsIntense savedAttribute)) result in
  let result := restore validParts SgrSaveRestoreStackOptions.Faintness (TextAttribute.SetFaint (TextAttribute.IsFaint savedAttribute)) result in
  let result := restore validParts SgrSaveRestoreStackOptions.Italics (TextAttribute.SetItalic (TextAttribute.IsItalic savedAttribute)) result in
  let result := restore_underline savedAttribute validParts result in
  let result := restore validParts SgrSaveRestoreStackOptions.Blink (TextAttribute.SetBlinking (TextAttribute.IsBlinking savedAttribute)) result in
  let result := restore validParts SgrSaveRestoreStackOptions.Negative (TextAttribute.SetReverseVideo (TextAttribute.IsReverseVideo savedAttribute)) result in
  let result := restore validParts SgrSaveRestoreStackOptions.Invisible (TextAttribute.SetInvisible (TextAttribute.IsInvisible savedAttribute)) result in
  let result := restore validParts SgrSaveRestoreStackOptions.CrossedOut (TextAttribute.SetCrossedOut (TextAttribute.IsCrossedOut savedAttribute)) result in
  let result := restore validParts SgrSaveRestoreStackOptions.SaveForegroundColor (TextAttribute.SetForeground (TextAttribute._foreground savedAttribute)) result in
  restore validParts SgrSaveRestoreStackOptions.SaveBackgroundColor (TextAttribute.SetBackground (TextAttribute._background savedAttribute)) result.

Definition _CombineWithCurrentAttributes (currentAttributes savedAttribute : TextAttribute.t) (validParts : Z) : option TextAttribute.t :=
  if enumset.test validParts SgrSaveRestoreStackOptions.All then None
  else Some (combine currentAttributes savedAttribute validParts).

Definition Pop (currentAttributes : TextAttribute.t) (s : t) : option (t * TextAttribute.t) :=
  match _numSavedAttrs s with
  | O => Some (s, currentAttributes)
  | S numSavedAttrs =>
    let nextPushIndex := match _nextPushIndex s with O => length (_storedSgrAttributes s) - 1 | S n => n end%nat in
    restoreMe ← _storedSgrAttributes s !! nextPushIndex;
    result ← (if enumset.test (ValidParts restoreMe) SgrSaveRestoreStackOptions.All
              then Some (TextAttributes restoreMe)
              else _CombineWithCurrentAttributes currentAttributes (TextAttributes restoreMe) (ValidParts restoreMe));
    Some (mk nextPushIndex numSavedAttrs (_storedSgrAttributes s), result)
  end.

End SgrStack.

(** ** The methods of the adapter

    The attributes of the active page and the stack. *)
Record Graphics := mkGraphics { page_attributes : TextAttribute.t; _sgrStack : SgrStack.t }.

Definition SetGraphicsRendition (options : VTParameters.t) (g : Graphics) : Graphics :=
  mkGraphics (_ApplyGraphicsOptions options (page_attributes g)) (_sgrStack g).
Definition SetCharacterProtectionAttribute (options : VTParameters.t) (g : Graphics) : Graphics :=
  mkGraphics (apply_protection options (page_attributes g)) (_sgrStack g).
Definition PushGraphicsRendition (options : VTParameters.t) (g : Graphics) : option Graphics :=
  stack ← SgrStack.Push (page_attributes g) options (_sgrStack g);
  Some (mkGraphics (page_attributes g) stack).
Definition PopGraphicsRendition (g : Graphics) : option Graphics :=
  '(stack, attributes) ← SgrStack.Pop (page_attributes g) (_sgrStack g);
  Some (mkGraphics attributes stack).
