(* ===== verification/GraphicsProps.v ===== *)
(** * Properties of graphic renditions

    What SGR means for a list of options, what it leaves alone, and that the ring
    behind XTPUSHSGR is a stack of the last ten entries. *)

From S2P Require Import Prelude Til VtTypes Chars StateMachine ParserSyntax TextAttributes Graphics.

(** ** Parameters, by the arguments they were written with *)
Definition parameters_of (args : list CsiArgument) : VTParameters.t :=
  VTParameters.mk (map (fun a => value_of (ca_value a)) args) (subs_of args) (ranges_of 0 args).

Section Parameters.
Context (pre : list CsiArgument) (a : CsiArgument) (post : list CsiArgument).
Abbreviation ps := (parameters_of (pre ++ a :: post)).

Lemma at_parameters : VTParameters.at_ ps (length pre) = value_of (ca_value a).
Proof. unfold VTParameters.at_. simpl. rewrite map_app, lookup_app_r; rewrite length_map; [|done]. by rewrite Nat.sub_diag. Qed.

Lemma ranges_of_length start args : length (ranges_of start args) = length args.
Proof. revert start. induction args as [|b args IH]; intros start; simpl; [done|]. by rewrite IH. Qed.

Lemma range_at : VTParameters._subParamRanges ps !! length pre =
  Some (Z.of_nat (length (subs_of pre)), Z.of_nat (length (subs_of pre)) + Z.of_nat (length (ca_subs a))).
Proof. simpl. rewrite ranges_of_app, lookup_app_r; rewrite ranges_of_length; [|done]. by rewrite Nat.sub_diag. Qed.

Lemma hasSubParamsFor_parameters :
  VTParameters.hasSubParamsFor ps (length pre) = match ca_subs a with [] => false | _ => true end.
Proof. unfold VTParameters.hasSubParamsFor. rewrite range_at. destruct (ca_subs a); simpl length; apply Z.ltb_lt || apply Z.ltb_ge; lia. Qed.

Lemma subParamsFor_parameters : VTParameters.subParamsFor ps (length pre) = map value_of (ca_subs a).
Proof.
  unfold VTParameters.subParamsFor. rewrite range_at.
  replace (_ + _ - _) with (Z.of_nat (length (ca_subs a))) by lia. rewrite !Nat2Z.id. simpl.
  rewrite subs_of_app, drop_app_length. unfold subs_of. simpl. rewrite <- (length_map value_of). apply take_app_length.
Qed.

Lemma subspan_parameters k : VTParameters.at_ (VTParameters.subspan ps (length pre + 1)) k = VTParameters.at_ (parameters_of post) k.
Proof.
  unfold VTParameters.at_, VTParameters.subspan. simpl. f_equal.
  rewrite length_map, length_app. simpl. rewrite Nat.min_l by lia.
  rewrite map_app, <- drop_drop. replace (length pre) with (length (map (fun a => value_of (ca_value a)) pre)) by apply length_map.
  rewrite drop_app_length. done.
Qed.
End Parameters.

(** ** What a list of options means *)
Inductive SgrOption :=
| SgrOne (value : option Z)
| SgrIndexed (isForeground : bool) (index : option Z)
| SgrRgb (isForeground : bool) (red green blue : option Z)
| SgrSubs (value : option Z) (sub : option Z) (subs : list (option Z)).

Definition extended_code (isForeground : bool) : Z :=
  if isForeground then GraphicsOptions.ForegroundExtended else GraphicsOptions.BackgroundExtended.

Definition argument (value : option Z) : CsiArgument := mkCsiArgument value [].

Definition sgr_arguments (o : SgrOption) : list CsiArgument :=
  match o with
  | SgrOne value => [argument value]
  | SgrIndexed fg index => [argument (Some (extended_code fg)); argument (Some 5); argument index]
  | SgrRgb fg red green blue =>
    [argument (Some (extended_code fg)); argument (Some 2); argument red; argument green; argument blue]
  | SgrSubs value sub subs => [mkCsiArgument value (sub :: subs)]
  end.

Definition sgr_value_ok (o : option Z) : Prop := match o with Some v => 0 <= v | None => True end.

(** The two codes that take further parameters have a case of their own. *)
Definition sgr_wf (o : SgrOption) : Prop :=
  match o with
  | SgrOne value =>
    sgr_value_ok value /\ value <> Some GraphicsOptions.ForegroundExtended /\ value <> Some GraphicsOptions.BackgroundExtended
  | SgrIndexed _ index => sgr_value_ok index
  | SgrRgb _ red green blue => sgr_value_ok red /\ sgr_value_ok green /\ sgr_value_ok blue
  | SgrSubs value _ _ => sgr_value_ok value
  end.

Definition set_color (isForeground : bool) (c : TextColor.t) : TextAttribute.t -> TextAttribute.t :=
  if isForeground then TextAttribute.SetForeground c else TextAttribute.SetBackground c.

Definition sgr_meaning (o : SgrOption) (attr : TextAttribute.t) : TextAttribute.t :=
  match o with
  | SgrOne value => switch (default 0 value) simple_options (fun attr => attr) attr
  | SgrIndexed fg index =>
    if default 0 index <=? 255 then set_color fg (TextColor.of_index (default 0 index) true) attr else attr
  | SgrRgb fg red green blue =>
    if (default 0 red <=? 255) && (default 0 green <=? 255) && (default 0 blue <=? 255)
    then set_color fg (TextColor.mk IsRgbColor (default 0 red) (default 0 green) (default 0 blue)) attr else attr
  | SgrSubs value sub subs => _ApplyGraphicsOptionWithSubParams (default 0 value) (map value_of (sub :: subs)) attr
  end.

Lemma value_or_value v : sgr_value_ok v -> VTParameter.value_or (value_of v) 0 = default 0 v.
Proof. destruct v as [v|]; simpl; [|done]. intros Hv. unfold VTParameter.value_or. destruct (Z.ltb_spec v 0); [lia|done]. Qed.

Lemma to_enum_value v : sgr_value_ok v -> VTParameter.to_enum (value_of v) = default 0 v.
Proof. apply value_or_value. Qed.

(** The macros take a colour apart into the bytes it was made of. *)
Lemma of_rgb_RGB r g b : 0 <= r < 256 -> 0 <= g < 256 -> 0 <= b < 256 -> TextColor.of_rgb (RGB r g b) = TextColor.mk IsRgbColor r g b.
Proof.
  intros Hr Hg Hb. unfold TextColor.of_rgb, RGB, GetRValue, GetGValue, GetBValue, u8. rewrite (Z.mod_small r), (Z.mod_small g), (Z.mod_small b) by lia.
  set (x := Z.lor r _).
  assert (forall i, 0 <= i -> Z.testbit x i = Z.testbit r i || (if 8 <=? i then Z.testbit g (i - 8) else false) || (if 16 <=? i then Z.testbit b (i - 16) else false)) as Hx.
  { intros i Hi. unfold x. rewrite !Z.lor_spec, !Z.shiftl_spec by done. rewrite orb_assoc. f_equal; [f_equal|].
    - destruct (Z.leb_spec 8 i); [done|]. by rewrite Z.testbit_neg_r by lia.
    - destruct (Z.leb_spec 16 i); [done|]. by rewrite Z.testbit_neg_r by lia. }
  assert (forall y i, 0 <= y < 256 -> 8 <= i -> Z.testbit y i = false) as Hhigh.
  { intros y i Hy Hi. rewrite <- (Z.mod_small y (2 ^ 8)) by lia. by rewrite Z.mod_pow2_bits_high by lia. }
  f_equal; apply Z.bits_inj'; intros i Hi; (destruct (Z.ltb_spec i 8) as [Hl|Hl];
    [rewrite Z.mod_pow2_bits_low by lia|rewrite Z.mod_pow2_bits_high by lia; symmetry; apply Hhigh; lia]);
    rewrite ?Z.shiftr_spec, Hx by lia.
  - destruct (Z.leb_spec 8 i), (Z.leb_spec 16 i); try lia. by rewrite !orb_false_r.
  - destruct (Z.leb_spec 8 (i + 8)), (Z.leb_spec 16 (i + 8)); try lia. rewrite (Hhigh r) by lia. rewrite orb_false_r. simpl. f_equal. lia.
  - destruct (Z.leb_spec 8 (i + 16)), (Z.leb_spec 16 (i + 16)); try lia. rewrite (Hhigh r), (Hhigh g) by lia. simpl. f_equal. lia.
Qed.

Lemma SetRgbColorsHelper_indexed index post fg attr : sgr_value_ok index ->
  _SetRgbColorsHelper (parameters_of (argument (Some 5) :: argument index :: post)) fg attr =
  (2%nat, sgr_meaning (SgrIndexed fg index) attr).
Proof.
  intros Hi. unfold _SetRgbColorsHelper. cbn -[VTParameter.value_or]. change (VTParameter.value_or 5 0) with 5. cbn [Z.eqb Pos.eqb].
  rewrite value_or_value by done. destruct (default 0 index <=? 255); [|done]. by destruct fg.
Qed.

Lemma SetRgbColorsHelper_rgb red green blue post fg attr : sgr_value_ok red -> sgr_value_ok green -> sgr_value_ok blue ->
  _SetRgbColorsHelper (parameters_of (argument (Some 2) :: argument red :: argument green :: argument blue :: post)) fg attr =
  (4%nat, sgr_meaning (SgrRgb fg red green blue) attr).
Proof.
  intros Hr Hg Hb. unfold _SetRgbColorsHelper, is_byte_rgb. cbn -[VTParameter.value_or RGB]. change (VTParameter.value_or 2 0) with 2. cbn [Z.eqb Pos.eqb].
  rewrite !value_or_value by done.
  assert (forall v, sgr_value_ok v -> 0 <= default 0 v) as Hpos by (intros [v|]; simpl; [done|lia]).
  apply Hpos in Hr, Hg, Hb. destruct (Z.leb_spec (default 0 red) 255), (Z.leb_spec (default 0 green) 255), (Z.leb_spec (default 0 blue) 255);
    try done. cbn [andb]. unfold TextAttribute.SetColor. rewrite of_rgb_RGB by lia. by destruct fg.
Qed.

(** The helper sees its options through [at] only. *)
Lemma SetRgbColorsHelper_ext ps1 ps2 fg attr : (forall k, VTParameters.at_ ps1 k = VTParameters.at_ ps2 k) ->
  _SetRgbColorsHelper ps1 fg attr = _SetRgbColorsHelper ps2 fg attr.
Proof. intros H. unfold _SetRgbColorsHelper. by rewrite !H. Qed.

Lemma apply_one pre o post attr : sgr_wf o ->
  _ApplyGraphicsOption (parameters_of (pre ++ sgr_arguments o ++ post)) (length pre) attr =
  (length (sgr_arguments o), sgr_meaning o attr).
Proof.
  intros Hwf. destruct o as [value|fg index|fg red green blue|value sub subs]; cbn [sgr_arguments app length];
    unfold _ApplyGraphicsOption; rewrite at_parameters, hasSubParamsFor_parameters; cbn [argument ca_value ca_subs].
  - destruct Hwf as (Hv & Hf & Hb). rewrite to_enum_value by done.
    assert ((default 0 value =? GraphicsOptions.ForegroundExtended) = false) as -> by (destruct value; simpl; [apply Z.eqb_neq; congruence|done]).
    assert ((default 0 value =? GraphicsOptions.BackgroundExtended) = false) as -> by (destruct value; simpl; [apply Z.eqb_neq; congruence|done]).
    done.
  - rewrite to_enum_value by (destruct fg; done). rewrite !(SetRgbColorsHelper_ext (VTParameters.subspan _ _) _ _ _ (subspan_parameters pre _ _)).
    rewrite !SetRgbColorsHelper_indexed by done. by destruct fg.
  - destruct Hwf as (Hr & Hg & Hb). rewrite to_enum_value by (destruct fg; done).
    rewrite !(SetRgbColorsHelper_ext (VTParameters.subspan _ _) _ _ _ (subspan_parameters pre _ _)).
    rewrite !SetRgbColorsHelper_rgb by done. by destruct fg.
  - by rewrite to_enum_value, subParamsFor_parameters.
Qed.

Lemma sgr_arguments_length o : (1 <= length (sgr_arguments o))%nat.
Proof. destruct o; simpl; lia. Qed.

Lemma apply_options_meaning fuel pre opts attr : Forall sgr_wf opts -> (length opts <= fuel)%nat -> pre ++ concat (map sgr_arguments opts) <> [] ->
  apply_options fuel (parameters_of (pre ++ concat (map sgr_arguments opts))) (length pre) attr =
  fold_left (fun attr o => sgr_meaning o attr) opts attr.
Proof.
  intros Hwf. revert fuel pre attr. induction Hwf as [|o opts Ho Hwf IH]; intros fuel pre attr Hf Hne.
  - simpl in *. rewrite app_nil_r in *. destruct fuel as [|fuel]; [done|]. cbn [apply_options].
    unfold VTParameters.size. cbn [parameters_of VTParameters._params]. rewrite length_map.
    destruct (Nat.ltb_spec (length pre) (Nat.max (length pre) 1)); [|done]. destruct pre; [done|simpl in *; lia].
  - destruct fuel as [|fuel]; [simpl in Hf; lia|]. cbn [map concat apply_options fold_left]. pose proof (sgr_arguments_length o).
    assert ((length pre <? VTParameters.size (parameters_of (pre ++ sgr_arguments o ++ concat (map sgr_arguments opts))))%nat = true) as ->.
    { apply Nat.ltb_lt. unfold VTParameters.size. cbn [parameters_of VTParameters._params]. rewrite length_map, !length_app. lia. }
    rewrite apply_one by done.
    replace (length pre + length (sgr_arguments o))%nat with (length (pre ++ sgr_arguments o)) by apply length_app.
    rewrite app_assoc. apply IH; [simpl in Hf; lia|]. cbn [map concat] in Hne. by rewrite <- app_assoc.
Qed.

Lemma opts_length opts : (length opts <= length (concat (map sgr_arguments opts)))%nat.
Proof. induction opts as [|o opts IH]; simpl; [lia|]. rewrite length_app. pose proof (sgr_arguments_length o). lia. Qed.

(** C39: SGR applies its options in order: for every list of options (codes,
    indexed and direct colours with their extra parameters, codes with
    sub-parameters), written with or without values, the parameters are divided
    as intended, and the attribute changes as each option says in turn. *)
Theorem sgr_applies_options opts attr : Forall sgr_wf opts -> opts <> [] ->
  _ApplyGraphicsOptions (parameters_of (concat (map sgr_arguments opts))) attr =
  fold_left (fun attr o => sgr_meaning o attr) opts attr.
Proof.
  intros Hwf Hne. pose proof (opts_length opts) as Hl. apply (apply_options_meaning _ []); [done| |].
  - unfold VTParameters.size. cbn [parameters_of VTParameters._params]. rewrite length_map. lia.
  - intros H. simpl in H. rewrite H in Hl. destruct opts; [done|simpl in Hl; lia].
Qed.

(** [SGR 1;38;2;1;2;3;4:3;48;5;300] *)
Lemma sgr_applies_options_witness :
  _ApplyGraphicsOptions (parameters_of (concat (map sgr_arguments
    [SgrOne (Some 1); SgrRgb true (Some 1) (Some 2) (Some 3); SgrSubs (Some 4) (Some 3) []; SgrIndexed false (Some 300)])))
    TextAttribute.default =
  TextAttribute.mk 0xC1 0 (TextColor.mk IsRgbColor 1 2 3) TextColor.default TextColor.default MarkNone.
Proof.
  rewrite (sgr_applies_options [SgrOne (Some 1); SgrRgb true (Some 1) (Some 2) (Some 3); SgrSubs (Some 4) (Some 3) []; SgrIndexed false (Some 300)]);
    [reflexivity| |discriminate].
  repeat (apply Forall_cons; split); try by apply Forall_nil. all: simpl; repeat split; try lia; discriminate.
Defined.

(** ** What SGR leaves alone *)

(** Sixteen bits, and an underline style that exists. *)
Definition attribute_ok (a : TextAttribute.t) : Prop :=
  0 <= TextAttribute._attrs a < 2 ^ 16 /\ TextAttribute.GetUnderlineStyle a <= UnderlineStyle.Max.

(** The change keeps links, marks and protection, and well-formed attributes. *)
Definition gentle (f : TextAttribute.t -> TextAttribute.t) : Prop := forall a,
  TextAttribute._hyperlinkId (f a) = TextAttribute._hyperlinkId a /\
  TextAttribute._markKind (f a) = TextAttribute._markKind a /\
  TextAttribute.IsProtected (f a) = TextAttribute.IsProtected a /\
  (attribute_ok a -> attribute_ok (f a)).

Lemma gentle_id : gentle (fun a => a).
Proof. intros a. auto. Qed.

Lemma gentle_compose f g : gentle f -> gentle g -> gentle (f ∘ g).
Proof.
  intros Hf Hg a. destruct (Hg a) as (H1 & H2 & H3 & H4), (Hf (g a)) as (G1 & G2 & G3 & G4). simpl.
  repeat split; try congruence; intros; by apply G4, H4.
Qed.

Lemma below_16 x : (forall i, 16 <= i -> Z.testbit x i = false) -> 0 <= x mod 2 ^ 16 < 2 ^ 16 /\ x = x mod 2 ^ 16.
Proof.
  intros H. split; [apply Z.mod_pos_bound; lia|]. apply Z.bits_inj'. intros i Hi.
  destruct (Z.ltb_spec i 16); [by rewrite Z.mod_pow2_bits_low|]. rewrite Z.mod_pow2_bits_high by lia. apply H. lia.
Qed.

Lemma bits_above x i : 0 <= x < 2 ^ 16 -> 16 <= i -> Z.testbit x i = false.
Proof. intros Hx Hi. rewrite <- (Z.mod_small x (2 ^ 16)) by lia. by rewrite Z.mod_pow2_bits_high by lia. Qed.

Lemma land_UpdateFlag x flag mask isSet : Z.land flag mask = 0 -> Z.land (WI_UpdateFlag x flag isSet) mask = Z.land x mask.
Proof.
  intros H. apply Z.bits_inj'. intros i Hi. apply (f_equal (fun z => Z.testbit z i)) in H. rewrite Z.land_spec, Z.bits_0 in H.
  unfold WI_UpdateFlag. rewrite !Z.land_spec. destruct isSet; rewrite ?Z.lor_spec, ?Z.ldiff_spec;
    destruct (Z.testbit x i), (Z.testbit flag i), (Z.testbit mask i); done.
Qed.

Lemma UpdateFlag_16 x flag isSet : 0 <= flag < 2 ^ 16 -> 0 <= x < 2 ^ 16 -> 0 <= WI_UpdateFlag x flag isSet < 2 ^ 16.
Proof.
  intros Hf Hx. destruct (below_16 (WI_UpdateFlag x flag isSet)) as [H1 H2]; [|by rewrite H2].
  intros i Hi. unfold WI_UpdateFlag. destruct isSet; rewrite ?Z.lor_spec, ?Z.ldiff_spec, !bits_above by done; done.
Qed.

Lemma gentle_update flag isSet : 0 <= flag < 2 ^ 16 -> Z.land flag CharacterAttributes.Protected = 0 ->
  Z.land flag CharacterAttributes.UnderlineStyle = 0 -> gentle (TextAttribute.update flag isSet).
Proof.
  intros Hf Hp Hu a. unfold TextAttribute.IsProtected, attribute_ok, TextAttribute.GetUnderlineStyle, WI_IsFlagSet. simpl.
  rewrite !land_UpdateFlag by done. split_and!; [done..|]. intros [H1 H2]. split; [by apply UpdateFlag_16|done].
Qed.

Lemma gentle_color f : (exists c, f = TextAttribute.SetForeground c \/ f = TextAttribute.SetBackground c \/ f = TextAttribute.SetUnderlineColor c) -> gentle f.
Proof. intros [c [->|[->| ->]]] a; unfold attribute_ok; simpl; auto. Qed.

Lemma gentle_underline style : 0 <= style <= UnderlineStyle.Max -> gentle (TextAttribute.SetUnderlineStyle style).
Proof.
  unfold UnderlineStyle.Max, UnderlineStyle.DashedUnderlined. intros Hs a.
  assert (exists k, u16 (Z.shiftl style UNDERLINE_STYLE_SHIFT) = k /\ 0 <= k < 2 ^ 16 /\ Z.land k CharacterAttributes.Protected = 0 /\
    Z.land k CharacterAttributes.UnderlineStyle = k /\ Z.shiftr k UNDERLINE_STYLE_SHIFT = style) as (k & Hk & Hk16 & Hkp & Hku & Hks).
  { eexists. split; [reflexivity|]. assert (style = 0 \/ style = 1 \/ style = 2 \/ style = 3 \/ style = 4 \/ style = 5) as Hc by lia.
    repeat (destruct Hc as [-> | Hc]; [vm_compute; intuition congruence|]). subst. vm_compute. intuition congruence. }
  unfold attribute_ok, TextAttribute.SetUnderlineStyle, TextAttribute.IsProtected, TextAttribute.GetUnderlineStyle, WI_IsFlagSet. simpl. rewrite Hk.
  set (x := TextAttribute._attrs a).
  assert (Z.land (Z.lor (Z.ldiff x CharacterAttributes.UnderlineStyle) k) CharacterAttributes.Protected = Z.land x CharacterAttributes.Protected) as ->.
  { rewrite Z.land_lor_distr_l, Hkp, Z.lor_0_r, !Z.ldiff_land, <- Z.land_assoc. by rewrite (Z.land_comm (Z.lnot _)). }
  assert (Z.land (Z.lor (Z.ldiff x CharacterAttributes.UnderlineStyle) k) CharacterAttributes.UnderlineStyle = k) as ->.
  { rewrite Z.land_lor_distr_l, Hku, Z.ldiff_land, <- Z.land_assoc, (Z.land_comm (Z.lnot _)), Z.land_lnot_diag, Z.land_0_r. done. }
  rewrite Hks. split_and!; [done..|]. intros [H1 _]. split; [|apply Hs].
  destruct (below_16 (Z.lor (Z.ldiff x CharacterAttributes.UnderlineStyle) k)) as [H3 H4]; [|rewrite H4; lia].
  intros i Hi. by rewrite Z.lor_spec, Z.ldiff_spec, (bits_above x), (bits_above k) by done.
Qed.

(** Resetting clears all sixteen bits but one. *)
Lemma ldiff_Rendition x : 0 <= x < 2 ^ 16 -> Z.ldiff x CharacterAttributes.Rendition = Z.land x CharacterAttributes.Protected.
Proof.
  intros Hx. apply Z.bits_inj'. intros i Hi. rewrite Z.ldiff_spec, Z.land_spec.
  destruct (Z.ltb_spec i 16); [|by rewrite bits_above by lia]. f_equal.
  assert (forallb (fun n => Bool.eqb (negb (Z.testbit CharacterAttributes.Rendition (Z.of_nat n))) (Z.testbit CharacterAttributes.Protected (Z.of_nat n))) (seq 0 16) = true)
    as Hall by reflexivity.
  rewrite forallb_forall in Hall. specialize (Hall (Z.to_nat i)). rewrite Z2Nat.id in Hall by lia.
  apply Bool.eqb_prop, Hall, in_seq. lia.
Qed.

Lemma gentle_reset : gentle TextAttribute.SetDefaultRenditionAttributes.
Proof.
  intros a. unfold attribute_ok, TextAttribute.IsProtected, TextAttribute.GetUnderlineStyle, WI_IsFlagSet. simpl.
  set (x := TextAttribute._attrs a). split; [done|]. split; [done|]. split.
  - do 2 f_equal. by rewrite Z.ldiff_land, <- Z.land_assoc.
  - intros [H1 _]. rewrite ldiff_Rendition by done. rewrite <- Z.land_assoc.
    change (Z.land CharacterAttributes.Protected CharacterAttributes.UnderlineStyle) with 0. rewrite Z.land_0_r. split; [|done].
    destruct (below_16 (Z.land x CharacterAttributes.Protected)) as [H3 H4]; [|rewrite H4; lia].
    intros i Hi. by rewrite Z.land_spec, (bits_above x).
Qed.

Create HintDb gentle.
#[export] Hint Resolve gentle_id gentle_compose gentle_reset : gentle.

Local Ltac gentle_option :=
  cbn [snd]; repeat apply gentle_compose;
  first [ apply gentle_reset
        | apply gentle_color; eexists; by auto
        | apply gentle_underline; split; vm_compute; discriminate
        | apply gentle_update; [split; [vm_compute; discriminate|vm_compute; reflexivity]|reflexivity|reflexivity] ].

Lemma gentle_simple : Forall (fun c => gentle c.2) simple_options.
Proof. repeat first [apply Forall_nil_2 | apply Forall_cons_2; [gentle_option|]]. Qed.

Lemma gentle_if (b : bool) f : gentle f -> gentle (fun a => if b then f a else a).
Proof. intros Hf a. destruct b; [apply Hf|apply gentle_id]. Qed.

Lemma gentle_applyColor item c : gentle (applyColor item c).
Proof.
  intros a. unfold applyColor. cbn [switch]. repeat (match goal with |- context [if ?b then _ else _] => destruct b end;
    [apply (gentle_color _ ltac:(exists c; by auto) a)|]). apply gentle_id.
Qed.

Lemma gentle_from_subs item options : gentle (_SetRgbColorsHelperFromSubParams item options).
Proof.
  intros a. unfold _SetRgbColorsHelperFromSubParams. repeat case_match; first [apply gentle_applyColor | apply gentle_id].
Qed.

Lemma gentle_style option : gentle (_SetUnderlineStyleHelper option).
Proof.
  intros a. unfold _SetUnderlineStyleHelper. set (style := VTParameter.value_or option 0).
  destruct (Z.leb_spec 0 style), (Z.leb_spec style UnderlineStyle.Max); cbn [andb]; try apply gentle_id. by apply gentle_underline.
Qed.

Lemma gentle_subs option subs : gentle (_ApplyGraphicsOptionWithSubParams option subs).
Proof.
  intros a. unfold _ApplyGraphicsOptionWithSubParams. cbn [switch]. repeat case_match;
    first [apply gentle_style | apply gentle_from_subs | apply gentle_id].
Qed.

Lemma gentle_extended options fg : gentle (fun a => (_SetRgbColorsHelper options fg a).2).
Proof.
  intros a. unfold _SetRgbColorsHelper, TextAttribute.SetColor, TextAttribute.SetIndexedForeground256, TextAttribute.SetIndexedBackground256.
  repeat case_match; cbn [snd]; first [apply gentle_id | apply gentle_color; eexists; by auto].
Qed.

Lemma gentle_option options i : gentle (fun a => (_ApplyGraphicsOption options i a).2).
Proof.
  intros a. unfold _ApplyGraphicsOption.
  destruct (VTParameters.hasSubParamsFor options i); [apply gentle_subs|].
  pose proof (gentle_extended (VTParameters.subspan options (i + 1)) true a) as H1. cbv beta in H1.
  pose proof (gentle_extended (VTParameters.subspan options (i + 1)) false a) as H2. cbv beta in H2.
  destruct (_ =? GraphicsOptions.ForegroundExtended).
  { destruct (_SetRgbColorsHelper _ true a). apply H1. }
  destruct (_ =? GraphicsOptions.BackgroundExtended).
  { destruct (_SetRgbColorsHelper _ false a). apply H2. }
  exact (Forall_switch gentle _ _ _ gentle_simple gentle_id a).
Qed.

Lemma gentle_options fuel options i : gentle (apply_options fuel options i).
Proof.
  revert i. induction fuel as [|fuel IH]; intros i a; [apply gentle_id|]. cbn [apply_options].
  destruct (i <? VTParameters.size options)%nat; [|apply gentle_id].
  pose proof (gentle_option options i a) as Ho. cbv beta in Ho. destruct (_ApplyGraphicsOption options i a) as [n a']. cbn beta iota. simpl in Ho.
  destruct (IH (i + n)%nat a') as (G1 & G2 & G3 & G4), Ho as (H1 & H2 & H3 & H4).
  split_and!; [congruence..|]. intros Hok. by apply G4, H4.
Qed.

(** Whatever parameters SGR has, it changes neither the hyperlink nor the mark
    nor the protection of the attribute, and it keeps the attribute well formed:
    sixteen bits of flags and one of the six underline styles. *)
Lemma sgr_keeps_the_rest options a : attribute_ok a ->
  let a' := _ApplyGraphicsOptions options a in
  TextAttribute._hyperlinkId a' = TextAttribute._hyperlinkId a /\ TextAttribute._markKind a' = TextAttribute._markKind a /\
  TextAttribute.IsProtected a' = TextAttribute.IsProtected a /\ attribute_ok a'.
Proof. intros Hok. destruct (gentle_options (VTParameters.size options) options 0 a) as (H1 & H2 & H3 & H4). simpl. auto. Qed.

(** A protected, curly underlined link. *)
Definition busy : TextAttribute.t :=
  TextAttribute.mk 0x20C1 7 (TextColor.of_index 3 false) (TextColor.of_rgb 0x112233) (TextColor.of_index 9 true) MarkOutput.

Lemma busy_ok : attribute_ok busy.
Proof. split; vm_compute; [split; congruence|congruence]. Qed.

(** SGR without parameters and SGR 0 reset: all colours are the defaults
    and of the flags only the protection is left; link and mark stay. *)
Lemma sgr_reset a : attribute_ok a ->
  let plain := TextAttribute.mk (if TextAttribute.IsProtected a then CharacterAttributes.Protected else 0) (TextAttribute._hyperlinkId a)
                 TextColor.default TextColor.default TextColor.default (TextAttribute._markKind a) in
  _ApplyGraphicsOptions (parameters_of []) a = plain /\ _ApplyGraphicsOptions (parameters_of [argument (Some 0)]) a = plain.
Proof.
  intros [Hok _] plain.
  assert (sgr_meaning (SgrOne (Some 0)) a = plain) as Hm.
  { unfold plain, TextAttribute.IsProtected, WI_IsFlagSet. simpl. unfold TextAttribute.SetDefaultRenditionAttributes, TextAttribute.set_attrs. simpl.
    f_equal. rewrite ldiff_Rendition by done. change CharacterAttributes.Protected with (2 ^ 13).
    destruct (Z.testbit (TextAttribute._attrs a) 13) eqn:Hb.
    - assert (Z.land (TextAttribute._attrs a) (2 ^ 13) = 2 ^ 13) as ->; [|done]. apply Z.bits_inj'. intros i Hi. rewrite Z.land_spec.
      destruct (decide (i = 13)) as [->|]; [by rewrite Hb|]. by rewrite Z.pow2_bits_false, andb_false_r by lia.
    - assert (Z.land (TextAttribute._attrs a) (2 ^ 13) = 0) as ->; [|done]. apply Z.bits_inj'. intros i Hi. rewrite Z.land_spec, Z.bits_0.
      destruct (decide (i = 13)) as [->|]; [by rewrite Hb|]. by rewrite Z.pow2_bits_false, andb_false_r by lia. }
  rewrite <- Hm. split; [done|]. done.
Qed.

(** ** The stack of renditions

    The ring of src/types/sgrStack.cpp implements a stack that holds the last ten
    entries; nested pushes and pops restore the attributes. *)

(** ** The specification: a stack of at most ten entries, newest first *)
Definition push_spec (saved : SgrStack.SavedSgrAttributes) (l : list SgrStack.SavedSgrAttributes) : list SgrStack.SavedSgrAttributes :=
  take SgrStack.c_MaxStoredSgrPushes (saved :: l).

(** What popping an entry makes of the current attributes. *)
Definition restored (saved : SgrStack.SavedSgrAttributes) (current : TextAttribute.t) : TextAttribute.t :=
  if enumset.test (SgrStack.ValidParts saved) SgrSaveRestoreStackOptions.All then SgrStack.TextAttributes saved
  else SgrStack.combine current (SgrStack.TextAttributes saved) (SgrStack.ValidParts saved).

Definition pop_spec (current : TextAttribute.t) (l : list SgrStack.SavedSgrAttributes) : list SgrStack.SavedSgrAttributes * TextAttribute.t :=
  match l with
  | [] => ([], current)
  | saved :: l => (l, restored saved current)
  end.

(** ** The ring *)
Record ring_ok (s : SgrStack.t) : Prop := {
  ring_length : length (SgrStack._storedSgrAttributes s) = 10%nat;
  ring_next : (SgrStack._nextPushIndex s < 10)%nat;
  ring_count : (SgrStack._numSavedAttrs s <= 10)%nat;
}.

(** The slot of the [k]th newest entry. *)
Definition slot (next k : nat) : nat := ((next + 9 - k) mod 10)%nat.

(** [l] is what the ring holds. *)
Definition represents (s : SgrStack.t) (l : list SgrStack.SavedSgrAttributes) : Prop :=
  ring_ok s /\ length l = SgrStack._numSavedAttrs s /\
  (forall k, (k < length l)%nat -> l !! k = SgrStack._storedSgrAttributes s !! slot (SgrStack._nextPushIndex s) k).

Lemma represents_init : represents SgrStack.init [].
Proof. split; [constructor; simpl; lia|]. split; [done|]. simpl. lia. Qed.

Lemma slot_next next : (next < 10)%nat -> slot ((next + 1) mod 10) 0 = next.
Proof. intros H. unfold slot. do 10 (destruct next as [|next]; [reflexivity|]). lia. Qed.

Lemma slot_shift next k : (next < 10)%nat -> (k < 9)%nat -> slot ((next + 1) mod 10) (S k) = slot next k /\ slot next k <> next.
Proof.
  intros Hn Hk. unfold slot. do 10 (destruct next as [|next]; [do 9 (destruct k as [|k]; [vm_compute; split; [reflexivity|discriminate]|]); lia|]). lia.
Qed.

Lemma slot_top next : (next < 10)%nat -> slot next 0 = match next with O => 9%nat | S n => n end.
Proof. intros Hn. unfold slot. do 10 (destruct next as [|next]; [reflexivity|]). lia. Qed.

Lemma slot_pop next k : (next < 10)%nat -> (k < 9)%nat -> slot next (S k) = slot (match next with O => 9 | S n => n end) k.
Proof.
  intros Hn Hk. unfold slot. do 10 (destruct next as [|next]; [do 9 (destruct k as [|k]; [reflexivity|]); lia|]). lia.
Qed.

Lemma Push_refines attributes options s l : represents s l ->
  exists s', SgrStack.Push attributes options s = Some s' /\
    represents s' (push_spec (SgrStack.mkSaved attributes (SgrStack.validParts_of options)) l).
Proof.
  intros ([Hlen Hnext Hcount] & Hl & Hsame). unfold SgrStack.Push. rewrite Hlen.
  destruct (Nat.ltb_spec (SgrStack._nextPushIndex s) 10); [|lia]. eexists. split; [reflexivity|].
  set (saved := SgrStack.mkSaved _ _). set (next := SgrStack._nextPushIndex s) in *.
  assert (length (push_spec saved l) = Nat.min 10 (S (length l))) as Hpl by (unfold push_spec; by rewrite length_take).
  split; [constructor; cbn [SgrStack._storedSgrAttributes SgrStack._nextPushIndex SgrStack._numSavedAttrs]|
    split; cbn [SgrStack._storedSgrAttributes SgrStack._nextPushIndex SgrStack._numSavedAttrs]].
  - by rewrite length_insert.
  - by apply Nat.mod_upper_bound.
  - destruct (Nat.ltb_spec (SgrStack._numSavedAttrs s) 10); lia.
  - rewrite Hpl, Hl. destruct (Nat.ltb_spec (SgrStack._numSavedAttrs s) 10); lia.
  - intros k Hk. rewrite Hpl in Hk. unfold push_spec, SgrStack.c_MaxStoredSgrPushes. rewrite lookup_take_lt by lia.
    destruct k as [|k].
    + rewrite slot_next by done. by rewrite list_lookup_insert_eq by lia.
    + destruct (slot_shift next k) as [-> Hne]; [done|lia|]. rewrite list_lookup_insert_ne by done. simpl. apply Hsame. lia.
Qed.

Lemma Pop_refines current s l : represents s l ->
  exists s', SgrStack.Pop current s = Some (s', (pop_spec current l).2) /\ represents s' (pop_spec current l).1.
Proof.
  intros ([Hlen Hnext Hcount] & Hl & Hsame). unfold SgrStack.Pop. destruct l as [|saved l]; simpl in Hl.
  - rewrite <- Hl. exists s. split; [done|]. split; [done|]. by split.
  - rewrite <- Hl, Hlen. set (next := SgrStack._nextPushIndex s) in *.
    change (match next with O => (10 - 1)%nat | S n => n end) with (match next with O => 9%nat | S n => n end).
    assert (slot next 0 = match next with O => 9%nat | S n => n end) as Hs.
    { by apply slot_top. }
    pose proof (Hsame 0%nat ltac:(simpl; lia)) as H0. rewrite Hs in H0. simpl in H0. rewrite <- H0. cbn [mbind option_bind].
    exists (SgrStack.mk (match next with O => 9%nat | S n => n end) (length l) (SgrStack._storedSgrAttributes s)).
    split; [|split; [constructor; simpl; [done|destruct next; lia|lia]|split; [done|]]].
    + cbn [pop_spec snd]. unfold restored, SgrStack._CombineWithCurrentAttributes.
      by destruct (enumset.test (SgrStack.ValidParts saved) SgrSaveRestoreStackOptions.All).
    + simpl. intros k Hk. rewrite <- slot_pop by lia. apply (Hsame (S k)). simpl. lia.
Qed.

(** ** Histories *)
Inductive StackOp := OpPush (attributes : TextAttribute.t) (options : VTParameters.t) | OpPop (current : TextAttribute.t).

(** The ring and what its pops return. *)
Fixpoint run_ring (ops : list StackOp) (s : SgrStack.t) : option (SgrStack.t * list TextAttribute.t) :=
  match ops with
  | [] => Some (s, [])
  | OpPush attributes options :: ops => s ← SgrStack.Push attributes options s; run_ring ops s
  | OpPop current :: ops =>
    '(s, result) ← SgrStack.Pop current s; '(s, results) ← run_ring ops s; Some (s, result :: results)
  end.

Fixpoint run_spec (ops : list StackOp) (l : list SgrStack.SavedSgrAttributes) : list TextAttribute.t :=
  match ops with
  | [] => []
  | OpPush attributes options :: ops => run_spec ops (push_spec (SgrStack.mkSaved attributes (SgrStack.validParts_of options)) l)
  | OpPop current :: ops => let '(l, result) := pop_spec current l in result :: run_spec ops l
  end.

Lemma run_ring_spec ops s l : represents s l -> exists s', run_ring ops s = Some (s', run_spec ops l).
Proof.
  revert s l. induction ops as [|[attributes options|current] ops IH]; intros s l Hr; [by exists s|..]; cbn [run_ring run_spec].
  - destruct (Push_refines attributes options s l Hr) as (s' & -> & Hr'). apply IH. done.
  - destruct (Pop_refines current s l Hr) as (s' & -> & Hr'). destruct (pop_spec current l) as [l' result].
    cbn [mbind option_bind]. destruct (IH s' l' Hr') as (s'' & ->). by exists s''.
Qed.

(** C40: The ring refines a stack of the last ten entries: after any history of
    pushes and pops, beginning with the initial ring, every pop has returned what
    the stack returns, no subscript was out of range, and the test against
    combining a complete entry never fired. *)
Theorem sgr_stack_refines ops : exists s, run_ring ops SgrStack.init = Some (s, run_spec ops []).
Proof. apply run_ring_spec, represents_init. Qed.

(** ** Nested renditions *)
Inductive GraphicsOp := GSgr (options : VTParameters.t) | GPush (options : VTParameters.t) | GPop.

Definition graphics_op (op : GraphicsOp) (g : Graphics) : option Graphics :=
  match op with
  | GSgr options => Some (SetGraphicsRendition options g)
  | GPush options => PushGraphicsRendition options g
  | GPop => PopGraphicsRendition g
  end.

Fixpoint run_graphics (ops : list GraphicsOp) (g : Graphics) : option Graphics :=
  match ops with
  | [] => Some g
  | op :: ops => g ← graphics_op op g; run_graphics ops g
  end.

Lemma run_graphics_app ops1 ops2 g : run_graphics (ops1 ++ ops2) g = g ← run_graphics ops1 g; run_graphics ops2 g.
Proof. revert g. induction ops1 as [|op ops1 IH]; intros g; simpl; [done|]. destruct (graphics_op op g); simpl; [apply IH|done]. Qed.

(** Pushes and pops match, at most [n] deep. *)
Inductive balanced : nat -> list GraphicsOp -> Prop :=
| balanced_nil n : balanced n []
| balanced_sgr n options ops : balanced n ops -> balanced n (GSgr options :: ops)
| balanced_nest n options inner ops : balanced n inner -> balanced (S n) ops ->
    balanced (S n) (GPush options :: inner ++ GPop :: ops).

Definition holds_entries (g : Graphics) (l : list SgrStack.SavedSgrAttributes) : Prop := represents (_sgrStack g) l.

Lemma push_graphics options g l : holds_entries g l -> exists g', PushGraphicsRendition options g = Some g' /\
  page_attributes g' = page_attributes g /\
  holds_entries g' (push_spec (SgrStack.mkSaved (page_attributes g) (SgrStack.validParts_of options)) l).
Proof.
  intros Hl. destruct (Push_refines (page_attributes g) options (_sgrStack g) l Hl) as (s' & Hs & Hr).
  unfold PushGraphicsRendition. rewrite Hs. by eexists.
Qed.

Lemma pop_graphics g saved l : holds_entries g (saved :: l) -> exists g', PopGraphicsRendition g = Some g' /\
  page_attributes g' = restored saved (page_attributes g) /\ holds_entries g' l.
Proof.
  intros Hl. destruct (Pop_refines (page_attributes g) (_sgrStack g) _ Hl) as (s' & Hs & Hr).
  unfold PopGraphicsRendition. rewrite Hs. by eexists.
Qed.

(** A balanced run gives the newest entries back, as many as were not needed. *)
Lemma balanced_keeps n ops g l : balanced n ops -> (n <= 10)%nat -> holds_entries g l ->
  exists g' l', run_graphics ops g = Some g' /\ holds_entries g' l' /\ take (10 - n) l' = take (10 - n) l.
Proof.
  intros Hb. revert g l. induction Hb as [n|n options ops Hb IH|n options inner ops Hin IHin Hb IH]; intros g l Hn Hl.
  - by exists g, l.
  - cbn [run_graphics graphics_op mbind option_bind]. by apply IH.
  - cbn [run_graphics graphics_op]. destruct (push_graphics options g l Hl) as (g1 & -> & _ & Hl1). cbn [mbind option_bind].
    rewrite run_graphics_app. destruct (IHin g1 _ ltac:(lia) Hl1) as (g2 & l2 & -> & Hl2 & Ht). cbn [mbind option_bind run_graphics graphics_op].
    unfold push_spec, SgrStack.c_MaxStoredSgrPushes in Ht. rewrite take_take, Nat.min_l in Ht by lia.
    replace (10 - n)%nat with (S (10 - S n)) in Ht by lia. destruct l2 as [|saved l2]; [done|]. cbn [take] in Ht. injection Ht as _ Ht.
    destruct (pop_graphics g2 saved l2 Hl2) as (g3 & -> & _ & Hl3). cbn [mbind option_bind].
    destruct (IH g3 l2 Hn Hl3) as (g4 & l4 & -> & Hl4 & Ht4). exists g4, l4. split; [done|]. split; [done|]. etransitivity; [apply Ht4|exact Ht].
Qed.

(** Saving everything, doing anything, restoring: between a push without
    parameters and its pop there may be any changes of the rendition and up to
    nine levels of further pushes and pops, on top of whatever the ring held
    before; the pop restores the attributes exactly. *)
Lemma nested_renditions_restore inner g l : balanced 9 inner -> holds_entries g l ->
  exists g', run_graphics (GPush (VTParameters.of_params []) :: inner ++ [GPop]) g = Some g' /\ page_attributes g' = page_attributes g.
Proof.
  intros Hb Hl. cbn [run_graphics graphics_op]. destruct (push_graphics (VTParameters.of_params []) g l Hl) as (g1 & -> & _ & Hl1).
  cbn [mbind option_bind]. rewrite run_graphics_app.
  destruct (balanced_keeps 9 inner g1 _ Hb ltac:(lia) Hl1) as (g2 & l2 & -> & Hl2 & Ht). cbn [mbind option_bind run_graphics graphics_op].
  destruct l2 as [|saved l2]; [done|]. cbn in Ht. injection Ht as ->.
  destruct (pop_graphics g2 _ l2 Hl2) as (g3 & -> & Hp & _). exists g3. split; [done|]. rewrite Hp. reflexivity.
Qed.

(** Intense, then a saved and restored foreground inside, then a reset. *)
Definition sample_ops : list GraphicsOp :=
  [GSgr (VTParameters.of_params [1]); GPush (VTParameters.of_params [30]); GSgr (VTParameters.of_params [31; 7]); GPop; GSgr (VTParameters.of_params [0])].
