(* ===== verification/Rle.v ===== *)
(** * Run-length encoded vectors

    [til::basic_rle] of src/inc/til/rle.h: a vector of runs, the scanner that finds
    the run of an index, slicing, replacing, resizing, and the random-access
    iterator. Positions in the vector of runs are natural numbers; lengths are of
    the unsigned type [size_type], whose arithmetic wraps around. Reading past the
    last run is undefined. *)

From S2P Require Import Prelude.

Record rle_pair (T : Type) := mkRun { value : T; length_ : Z }.
Arguments mkRun {T} _ _.
Arguments value {T} _.
Arguments length_ {T} _.

#[global] Instance rle_pair_eq_dec {T} `{!EqDecision T} : EqDecision (rle_pair T).
Proof. solve_decision. Defined.

Record basic_rle (T : Type) := mkRle { _runs : list (rle_pair T); _total_length : Z }.
Arguments mkRle {T} _ _.
Arguments _runs {T} _.
Arguments _total_length {T} _.

Section Rle.
Context {T : Type} `{!EqDecision T} `{!Inhabited T} (size_bits : Z).
Abbreviation run := (rle_pair T).
Abbreviation rle := (basic_rle T).
Abbreviation M := (comp rle).
Implicit Types (r : run) (rs : list run) (v : rle).

(** ** Arithmetic on [size_type] *)
Definition size_add (a b : Z) : Z := (a + b) mod 2 ^ size_bits.
Definition size_sub (a b : Z) : Z := (a - b) mod 2 ^ size_bits.

Definition set_length (l : Z) r : run := mkRun (value r) l.
Definition grow (l : Z) r : run := set_length (size_add (length_ r) l) r.

(** ** Construction *)
Definition total_of rs : Z := fold_left (fun total r => size_add total (length_ r)) rs 0.
Definition rle_of_runs (runs : list run) : rle := mkRle runs (total_of runs).
Definition rle_fill (length : Z) (x : T) : rle := mkRle (if length =? 0 then [] else [mkRun x length]) length.
Definition rle_empty v : bool := _total_length v =? 0.
Definition size v : Z := _total_length v.

(** ** The scanner *)
Record rle_scanner := mkScanner { scan_it : nat; scan_total : Z }.
Definition new_scanner : rle_scanner := mkScanner 0 0.

Fixpoint scan_runs (rest : list run) (it : nat) (total index : Z) : rle_scanner * Z :=
  match rest with
  | [] => (mkScanner it total, 0)
  | r :: rest =>
    let new_total := size_add total (length_ r) in
    if index <? new_total then (mkScanner it total, size_sub index total)
    else scan_runs rest (S it) new_total index
  end.

(** A scan goes on where the previous one ended. *)
Definition scan rs (index : Z) (s : rle_scanner) : rle_scanner * Z := scan_runs (drop (scan_it s) rs) (scan_it s) (scan_total s) index.

(** ** Reading *)
Definition at_ (position : Z) v : option T :=
  let '(s, _) := scan (_runs v) position new_scanner in value <$> _runs v !! scan_it s.

(** The run at a position of the vector. *)
Definition run_at (i : nat) : M run := fun v => match _runs v !! i with Some r => (v, Returned r) | None => (v, Undefined) end.
Definition set_runs (rs : list run) v : rle := mkRle rs (_total_length v).
Definition set_total (total : Z) v : rle := mkRle (_runs v) total.
Definition update_run (i : nat) (f : run -> run) : M unit :=
  r ← run_at i; modify (fun v => set_runs (<[i := f r]> (_runs v)) v).

(** [slice.back().length = l] and [slice.front().length -= p]. *)
Definition alter_last (f : run -> run) rs : list run :=
  match rs with [] => [] | _ => alter f (pred (length rs)) rs end.

Definition slice (start_index end_index : Z) v : rle :=
  let end_index := if _total_length v <? end_index then _total_length v else end_index in
  if end_index <=? start_index then mkRle [] 0
  else
    let '(s1, start_run_pos) := scan (_runs v) start_index new_scanner in
    let '(s2, end_run_pos) := scan (_runs v) (size_sub end_index 1) s1 in
    let slice := drop (scan_it s1) (take (S (scan_it s2)) (_runs v)) in
    let slice := alter_last (set_length (size_add end_run_pos 1)) slice in
    let slice := alter (fun r => set_length (size_sub (length_ r) start_run_pos) r) 0%nat slice in
    mkRle slice (size_sub end_index start_index).

(** ** Vector operations on runs *)
Definition erase (first last : nat) : M unit := modify (fun v => set_runs (take first (_runs v) ++ drop last (_runs v)) v).
Definition insert_at (i : nat) rs : M unit := modify (fun v => set_runs (take i (_runs v) ++ rs ++ drop i (_runs v)) v).

(** [std::copy] into the vector. *)
Fixpoint copy_to (i : nat) rs : M nat :=
  match rs with
  | [] => mret i
  | r :: rs => update_run i (fun _ => r);; copy_to (S i) rs
  end.

(** ** Replacing *)
Definition _check_indices (start_index end_index : Z) : M Z :=
  total ← gets _total_length;
  let end_index := if total <? end_index then total else end_index in
  if end_index <? start_index then throw else mret end_index.

(** The run in front of a position inside of, or between, runs. *)
Definition previous (i : nat) (pos : Z) : nat := if pos =? 0 then pred i else i.

(** Whether the runs on both sides of a removed range become one. *)
Definition join_removed (start_index end_index : Z) (begin_run : nat) (begin_pos : Z) (end_run : nat) (end_pos : Z) : M (nat * Z * Z) :=
  total ← gets _total_length;
  if negb (start_index =? 0) && negb (end_index =? total) then
    let prev := previous begin_run begin_pos in
    p ← run_at prev; e ← run_at end_run;
    if decide (value p = value e) then
      update_run end_run (fun e => set_length (size_sub (length_ e) (size_sub end_pos (if begin_pos =? 0 then length_ p else begin_pos))) e);;
      mret (prev, 0, 0)
    else mret (begin_run, begin_pos, end_pos)
  else mret (begin_run, begin_pos, end_pos).

(** The runs at both ends of a removed range are shortened, those between them
    are erased. *)
Definition remove_runs (begin_run : nat) (begin_pos : Z) (end_run : nat) (end_pos : Z) : M unit :=
  begin_run ← (if begin_pos =? 0 then mret begin_run else update_run begin_run (set_length begin_pos);; mret (S begin_run));
  (if end_pos =? 0 then mret tt else update_run end_run (fun e => set_length (size_sub (length_ e) end_pos) e));;
  erase begin_run end_run.

(** Pure removals. *)
Definition remove_range (start_index end_index : Z) (begin_run : nat) (begin_pos : Z) (end_run : nat) (end_pos : Z) : M unit :=
  joined ← join_removed start_index end_index begin_run begin_pos end_run end_pos;
  (let '(begin_run, begin_pos, end_pos) := joined in remove_runs begin_run begin_pos end_run end_pos);;
  modify (fun v => set_total (size_sub (_total_length v) (size_sub end_index start_index)) v).

(** The runs that are written: how many are overwritten in place, and what is
    erased or inserted after them. *)
Definition splice (begin_run end_run : nat) (replacements : list run) (trailer : option run) : M unit :=
  let available_space := if (begin_run <? end_run)%nat then (end_run - begin_run)%nat else 0%nat in
  let required_space := (length replacements + (match trailer with Some _ => 1 | None => 0 end))%nat in
  let direct := Nat.min available_space (length replacements) in
  copied ← copy_to begin_run (take direct replacements);
  if (required_space <=? available_space)%nat then erase copied end_run
  else
    match trailer with
    | Some r =>
      insert_at copied (replicate (required_space - available_space) (mkRun inhabitant 0));;
      rest ← copy_to begin_run (drop direct replacements);
      update_run rest (fun _ => r)
    | None => insert_at copied (drop direct replacements)
    end.

(** [Step1]: whether the replacement continues the run in front of the range, or
    is continued by the run behind it; the length that joins it, and what is left
    of the position. *)
Definition join_left (start_index begin_pos : Z) (begin_run : nat) (front : run) : M (Z * Z * nat) :=
  if start_index =? 0 then mret (0, begin_pos, begin_run)
  else
    let prev := previous begin_run begin_pos in
    p ← run_at prev;
    if decide (value p = value front) then mret (if begin_pos =? 0 then length_ p else begin_pos, 0, prev)
    else mret (0, begin_pos, begin_run).

Definition join_right (end_index end_pos : Z) (end_run : nat) (back : run) : M (Z * Z * nat) :=
  total ← gets _total_length;
  if end_index =? total then mret (0, end_pos, end_run)
  else
    e ← run_at end_run;
    if decide (value e = value back) then mret (size_sub (length_ e) end_pos, 0, S end_run)
    else mret (0, end_pos, end_run).

(** [Step2] to [Step7]. *)
Definition write_runs (replacements : list run) (left right : Z * Z * nat) : M unit :=
  let '(begin_additional_length, begin_pos, begin_run) := left in
  let '(end_additional_length, end_pos, end_run) := right in
  middle ←
    (if (begin_run =? end_run)%nat && negb (begin_pos =? 0) then
       r ← run_at begin_run; mret (Some (mkRun (value r) (size_sub (length_ r) end_pos)), 0)
     else mret (None, end_pos));
  let '(mid_insertion_trailer, end_pos) := middle in
  begin_run ← (if begin_pos =? 0 then mret begin_run else update_run begin_run (set_length begin_pos);; mret (S begin_run));
  (if end_pos =? 0 then mret tt else update_run end_run (fun e => set_length (size_sub (length_ e) end_pos) e));;
  splice begin_run end_run replacements mid_insertion_trailer;;
  let required_space := (length replacements + (match mid_insertion_trailer with Some _ => 1 | None => 0 end))%nat in
  (if begin_additional_length =? 0 then mret tt else update_run begin_run (grow begin_additional_length));;
  (if end_additional_length =? 0 then mret tt else update_run (begin_run + required_space - 1)%nat (grow end_additional_length)).

Definition _replace_unchecked (start_index end_index : Z) (replacements : list run) : M unit :=
  rs ← gets _runs;
  let '(s1, begin_pos) := scan rs start_index new_scanner in
  let '(s2, end_pos) := scan rs end_index s1 in
  match head replacements, last replacements with
  | Some front, Some back =>
    left ← join_left start_index begin_pos (scan_it s1) front;
    right ← join_right end_index end_pos (scan_it s2) back;
    write_runs replacements left right;;
    modify (fun v => set_total (fold_left (fun t r => size_add t (length_ r)) replacements
                                  (size_sub (_total_length v) (size_sub end_index start_index))) v)
  | _, _ => remove_range start_index end_index (scan_it s1) begin_pos (scan_it s2) end_pos
  end.

Definition replace_runs (start_index end_index : Z) (replacements : list run) : M unit :=
  end_index ← _check_indices start_index end_index;
  _replace_unchecked start_index end_index replacements.
Definition replace_value (start_index end_index : Z) (x : T) : M unit :=
  end_index ← _check_indices start_index end_index;
  _replace_unchecked start_index end_index [mkRun x (size_sub end_index start_index)].
Definition replace_run (start_index end_index : Z) (replacement : run) : M unit := replace_runs start_index end_index [replacement].
Definition replace_rle (start_index end_index : Z) (replacements : rle) : M unit := replace_runs start_index end_index (_runs replacements).

(** ** Joining equal neighbours *)

(** After the first pair was found: [ref] is the run that is written last. *)
Fixpoint compact_rest (ref : run) rs : list run :=
  match rs with
  | [] => [ref]
  | it :: rs => if decide (value ref = value it) then compact_rest (grow (length_ it) ref) rs else ref :: compact_rest it rs
  end.

Fixpoint compact_runs rs : list run :=
  match rs with
  | ref :: (it :: rs') as rest => if decide (value ref = value it) then compact_rest (grow (length_ it) ref) rs' else ref :: compact_runs rest
  | _ => rs
  end.
Definition _compact v : rle := set_runs (compact_runs (_runs v)) v.

Definition replace_values (old_value new_value : T) v : rle :=
  _compact (set_runs (map (fun r => if decide (value r = old_value) then mkRun new_value (length_ r) else r) (_runs v)) v).

(** ** Resizing *)
Definition resize_trailing_extent (new_size : Z) : M unit :=
  total ← gets _total_length;
  rs ← gets _runs;
  (if new_size =? 0 then modify (set_runs [])
   else if new_size <? total then
     let '(s, pos) := scan rs (size_sub new_size 1) new_scanner in
     update_run (scan_it s) (set_length (size_add pos 1));;
     erase (S (scan_it s)) (length rs)
   else if total <? new_size then
     update_run (pred (length rs)) (grow (size_sub new_size total))
   else mret tt);;
  modify (set_total new_size).

(** ** The iterator *)
Record rle_iterator := mkIterator { _it : nat; _pos : Z }.
Definition begin_ v : rle_iterator := mkIterator 0 0.
Definition end_ v : rle_iterator := mkIterator (length (_runs v)) 0.

Definition deref (i : rle_iterator) v : option T := value <$> _runs v !! _it i.

(** [None] is undefined: a run outside of the vector is read. *)
Definition pre_increment (i : rle_iterator) v : option rle_iterator :=
  r ← _runs v !! _it i;
  let pos := size_add (_pos i) 1 in
  Some (if pos =? length_ r then mkIterator (S (_it i)) 0 else mkIterator (_it i) pos).

Definition pre_decrement (i : rle_iterator) v : option rle_iterator :=
  if _pos i =? 0 then
    match _it i with
    | O => None
    | S it => r ← _runs v !! it; Some (mkIterator it (size_sub (length_ r) 1))
    end
  else Some (mkIterator (_it i) (size_sub (_pos i) 1)).

(** The iterator that stays behind, and the result. *)
Definition post_increment (i : rle_iterator) v : option (rle_iterator * rle_iterator) :=
  tmp ← pre_increment i v; Some (i, tmp).

Fixpoint move_forward (rest : list run) (it : nat) (pos move : Z) : option rle_iterator :=
  if move <=? 0 then Some (mkIterator it pos)
  else
    match rest with
    | [] => None
    | r :: rest =>
      let space := size_sub (length_ r) pos in
      if move <? space then Some (mkIterator it (size_add pos move))
      else move_forward rest (S it) 0 (move - space)
    end.

Fixpoint move_backward (rs : list run) (it : nat) (pos move : Z) : option rle_iterator :=
  if move <=? 0 then Some (mkIterator it pos)
  else if move <=? pos then Some (mkIterator it (size_sub pos move))
  else
    match it with
    | O => None
    | S it => r ← rs !! it; move_backward rs it (size_sub (length_ r) 1) (move - (pos + 1))
    end.

Definition advance (i : rle_iterator) (move : Z) v : option rle_iterator :=
  if 0 <=? move then move_forward (drop (_it i) (_runs v)) (_it i) (_pos i) move
  else move_backward (_runs v) (_it i) (_pos i) (- move).

Definition iterator_lt (i j : rle_iterator) : bool := (_it i <? _it j)%nat || ((_it i =? _it j)%nat && (_pos i <? _pos j)).

Definition distance (i right : rle_iterator) v : Z :=
  let negative := iterator_lt i right in
  let lower := if negative then i else right in
  let upper := if negative then right else i in
  let lengths := map length_ (drop (_it lower) (take (_it upper) (_runs v))) in
  let d := fold_left Z.add lengths 0 - _pos lower + _pos upper in
  if negative then - d else d.

(** ** Equality *)
Definition rle_eqb v (other : rle) : bool :=
  (_total_length v =? _total_length other) && bool_decide (_runs v = _runs other).
End Rle.
