(* ===== verification/RleProps.v ===== *)
(** * Run-length encoded vectors refine vectors

    The contents of a [basic_rle] is a plain list. Every operation of
    src/inc/til/rle.h has the effect on the contents that the same operation of a
    vector has, never reads outside of the runs, and keeps the encoding canonical:
    no run is empty and neighbouring runs differ. *)

From S2P Require Import Prelude Rle.

Section Props.
Context {T : Type} `{!EqDecision T} `{!Inhabited T} (size_bits : Z).
Abbreviation run := (rle_pair T).
Abbreviation rle := (basic_rle T).
Implicit Types (r : run) (rs A B C X Y : list run) (v : rle) (x : T).

(** ** Contents *)
Definition decode_run r : list T := replicate (Z.to_nat (length_ r)) (value r).
Definition decode rs : list T := concat (map decode_run rs).
Definition contents v : list T := decode (_runs v).

(** Total length, without wrapping. *)
Definition sum rs : Z := fold_right (fun r t => length_ r + t) 0 rs.

Definition positive rs : Prop := Forall (fun r => 0 < length_ r) rs.

(** Neighbours differ. *)
Fixpoint differ (xs : list T) : Prop :=
  match xs with
  | x :: (y :: _) as rest => x <> y /\ differ rest
  | _ => True
  end.

Record rle_ok v : Prop := {
  ok_positive : positive (_runs v);
  ok_differ : differ (map value (_runs v));
  ok_total : _total_length v = sum (_runs v);
  ok_bound : sum (_runs v) < 2 ^ size_bits;
}.

Lemma decode_app rs1 rs2 : decode (rs1 ++ rs2) = decode rs1 ++ decode rs2.
Proof. unfold decode. by rewrite map_app, concat_app. Qed.
Lemma decode_cons r rs : decode (r :: rs) = decode_run r ++ decode rs.
Proof. done. Qed.
Lemma sum_app rs1 rs2 : sum (rs1 ++ rs2) = sum rs1 + sum rs2.
Proof. induction rs1 as [|r rs1 IH]; simpl; lia. Qed.
Lemma positive_sum rs : positive rs -> 0 <= sum rs.
Proof. induction 1; simpl; lia. Qed.
Lemma positive_app rs1 rs2 : positive (rs1 ++ rs2) <-> positive rs1 /\ positive rs2.
Proof. unfold positive. by rewrite Forall_app. Qed.
Lemma positive_cons r rs : positive (r :: rs) <-> 0 < length_ r /\ positive rs.
Proof. unfold positive. by rewrite Forall_cons. Qed.

Lemma length_decode rs : positive rs -> Z.of_nat (length (decode rs)) = sum rs.
Proof.
  induction 1 as [|r rs Hr _ IH]; [done|]. rewrite decode_cons, length_app. unfold decode_run. rewrite length_replicate. simpl. lia.
Qed.

Lemma differ_cons x xs : differ (x :: xs) <-> head xs <> Some x /\ differ xs.
Proof. destruct xs as [|y xs]; simpl; [by split; [split|]|]. split; intros [Hn Hd]; (split; [congruence|done]). Qed.

(** The end of one list and the start of another. *)
Definition boundary (xs ys : list T) : Prop := xs = [] \/ ys = [] \/ last xs <> head ys.

Lemma differ_app xs ys : differ (xs ++ ys) <-> differ xs /\ differ ys /\ boundary xs ys.
Proof.
  unfold boundary. induction xs as [|x xs IH]; [simpl; tauto|]. rewrite <- app_comm_cons, !differ_cons, IH.
  destruct xs as [|x' xs]; simpl app; simpl head.
  - destruct ys as [|y ys]; simpl head.
    + split; [intros _; split; [by split|]; split; [done|]; by right; left|intros _; split; [done|]; split; [done|]; split; [done|]; by left].
    + change (last [x]) with (Some x). split.
      * intros (Hn & _ & Hd & _). split; [by split|]. split; [done|]. right; right. congruence.
      * intros (_ & Hd & [Hn|[Hn|Hn]]); try done. split; [congruence|]. split; [done|]. split; [done|]. by left.
  - rewrite last_cons_cons. split.
    + intros (Hn & Hd & Hy & [Hb|[Hb|Hb]]); try done; (split; [by split|]); (split; [done|]); right; [by left|by right].
    + intros ((Hn & Hd) & Hy & [Hb|[Hb|Hb]]); try done; (split; [done|]); (split; [done|]); (split; [done|]); right; [by left|by right].
Qed.

(** ** Arithmetic *)
Lemma size_add_small a b : 0 <= a + b < 2 ^ size_bits -> size_add size_bits a b = a + b.
Proof. apply Z.mod_small. Qed.
Lemma size_sub_small a b : 0 <= a - b < 2 ^ size_bits -> size_sub size_bits a b = a - b.
Proof. apply Z.mod_small. Qed.

Lemma fold_total rs total : positive rs -> 0 <= total -> total + sum rs < 2 ^ size_bits ->
  fold_left (fun t r => size_add size_bits t (length_ r)) rs total = total + sum rs.
Proof.
  intros Hp. revert total. induction Hp as [|r rs Hr Hp IH]; intros total H0 Hb; simpl in *; [lia|].
  pose proof (positive_sum rs Hp). rewrite size_add_small by lia. rewrite IH by lia. lia.
Qed.

(** ** The scanner *)

(** An index inside of a run, or between two. *)
Definition inside (pos : Z) rs : Prop := 0 <= pos /\ match rs with [] => pos = 0 | r :: _ => pos < length_ r end.

Lemma scan_runs_spec rest it total index : positive rest -> 0 <= total <= index ->
  index <= total + sum rest -> total + sum rest < 2 ^ size_bits ->
  exists A C pos, rest = A ++ C /\ scan_runs size_bits rest it total index = (mkScanner (it + length A) (total + sum A), pos) /\
    total + sum A + pos = index /\ inside pos C.
Proof.
  intros Hp. revert it total. induction Hp as [|r rest Hr Hp IH]; intros it total Ht Hi Hb.
  - exists [], [], 0. simpl in *. split; [done|]. split; [f_equal; f_equal; lia|]. split; [lia|]. by split.
  - simpl in *. pose proof (positive_sum rest Hp). rewrite size_add_small by lia.
    destruct (Z.ltb_spec index (total + length_ r)).
    + exists [], (r :: rest), (index - total). rewrite size_sub_small by lia. split; [done|]. split; [simpl; f_equal; f_equal; lia|].
      simpl. split; [lia|]. split; lia.
    + destruct (IH (S it) (total + length_ r)) as (A & C & pos & -> & -> & Hpos & Hin); [lia..|].
      exists (r :: A), C, pos. split; [done|]. split; [simpl; f_equal; f_equal; lia|]. simpl. split; [lia|done].
Qed.

(** The runs on both sides of a range. *)
Lemma scan_range rs s e : positive rs -> 0 <= s <= e -> e <= sum rs -> sum rs < 2 ^ size_bits ->
  exists A B C p q, rs = A ++ B ++ C /\
    scan size_bits rs s new_scanner = (mkScanner (length A) (sum A), p) /\
    scan size_bits rs e (mkScanner (length A) (sum A)) = (mkScanner (length (A ++ B)) (sum (A ++ B)), q) /\
    sum A + p = s /\ sum (A ++ B) + q = e /\ inside p (B ++ C) /\ inside q C.
Proof.
  intros Hp Hs He Hb. destruct (scan_runs_spec rs 0 0 s) as (A & D & p & -> & Hscan & Hpos & Hin); [done|lia..|].
  apply positive_app in Hp as [HA HD]. rewrite sum_app in *. pose proof (positive_sum A HA).
  destruct Hin as [Hp0 Hin].
  destruct (scan_runs_spec D (length A) (sum A) e) as (B & C & q & -> & Hscan2 & Hq & Hin2); [done|lia..|].
  exists A, B, C, p, q. unfold scan. simpl. rewrite drop_0. split; [done|]. split; [rewrite Hscan; f_equal|].
  split; [|split; [lia|]; split; [rewrite sum_app; lia|]; done].
  rewrite drop_app_length, Hscan2, length_app, sum_app. done.
Qed.

(** What lies before and behind an index. *)
Definition piece (pos : Z) rs : list T := match rs with [] => [] | r :: _ => replicate (Z.to_nat pos) (value r) end.
(** The runs without their first [pos] elements. *)
Definition shorten (pos : Z) rs : list run :=
  if pos =? 0 then rs else match rs with [] => [] | r :: rs => mkRun (value r) (length_ r - pos) :: rs end.

Lemma take_decode A C pos : positive A -> inside pos C ->
  take (Z.to_nat (sum A + pos)) (decode (A ++ C)) = decode A ++ piece pos C.
Proof.
  intros HA [Hp Hin]. pose proof (length_decode A HA). pose proof (positive_sum A HA).
  rewrite decode_app, take_app_ge by lia. replace (_ - _)%nat with (Z.to_nat pos) by lia. f_equal.
  destruct C as [|r C]; [by destruct (Z.to_nat pos)|]. simpl in Hin. rewrite decode_cons. unfold decode_run.
  rewrite take_app_le by (rewrite length_replicate; lia). rewrite take_replicate. simpl. f_equal. lia.
Qed.

Lemma drop_decode A C pos : positive A -> inside pos C ->
  drop (Z.to_nat (sum A + pos)) (decode (A ++ C)) = decode (shorten pos C).
Proof.
  intros HA [Hp Hin]. pose proof (length_decode A HA). pose proof (positive_sum A HA).
  rewrite decode_app, drop_app_ge by lia. replace (_ - _)%nat with (Z.to_nat pos) by lia. unfold shorten.
  destruct (Z.eqb_spec pos 0) as [->|]; [done|]. destruct C as [|r C]; [lia|]. simpl in Hin. rewrite !decode_cons. unfold decode_run.
  rewrite drop_app_le by (rewrite length_replicate; lia). f_equal. simpl.
  rewrite drop_replicate. f_equal. lia.
Qed.

(** ** Steps on the runs *)
Lemma run_at_eq A r C total : run_at (length A) (mkRle (A ++ r :: C) total) = (mkRle (A ++ r :: C) total, Returned r).
Proof. unfold run_at. simpl. by rewrite list_lookup_middle. Qed.

Lemma update_run_eq A r C total f :
  update_run (length A) f (mkRle (A ++ r :: C) total) = (mkRle (A ++ f r :: C) total, Returned tt).
Proof.
  unfold update_run, mbind, comp_bind. rewrite run_at_eq. unfold modify, set_runs. simpl. do 2 f_equal.
  rewrite <- (Nat.add_0_r (length A)). by rewrite insert_app_r.
Qed.

Lemma copy_to_eq A B C rs total : length B = length rs ->
  copy_to (length A) rs (mkRle (A ++ B ++ C) total) = (mkRle (A ++ rs ++ C) total, Returned (length A + length rs)%nat).
Proof.
  revert A B. induction rs as [|r rs IH]; intros A B Hl; (destruct B as [|b B]; [|]; try done).
  - simpl. by rewrite Nat.add_0_r.
  - cbn [copy_to app]. unfold mbind, comp_bind. rewrite update_run_eq.
    replace (S (length A)) with (length (A ++ [r])) by (rewrite length_app; simpl; lia).
    replace (A ++ r :: B ++ C) with ((A ++ [r]) ++ B ++ C) by (by rewrite <- app_assoc).
    rewrite IH by (simpl in Hl; lia). rewrite length_app, <- app_assoc. simpl. f_equal. f_equal. lia.
Qed.

(** The runs of a range are replaced, whether in place or not. *)
Lemma splice_eq X Y D rs total :
  splice (length X) (length (X ++ Y)) rs None (mkRle (X ++ Y ++ D) total) = (mkRle (X ++ rs ++ D) total, Returned tt).
Proof.
  unfold splice. cbv zeta. rewrite length_app, Nat.add_0_r.
  assert ((if (length X <? length X + length Y)%nat then (length X + length Y - length X)%nat else 0%nat) = length Y) as ->
    by (destruct (Nat.ltb_spec (length X) (length X + length Y)); lia).
  remember (Nat.min (length Y) (length rs)) as n eqn:En.
  assert (X ++ Y ++ D = X ++ take n Y ++ (drop n Y ++ D)) as -> by (by rewrite app_assoc, (app_assoc (take n Y)), take_drop, <- app_assoc).
  unfold mbind, comp_bind. rewrite copy_to_eq by (rewrite !length_take; lia). rewrite length_take.
  destruct (Nat.leb_spec (length rs) (length Y)); unfold erase, insert_at, modify, set_runs; simpl; do 2 f_equal.
  - rewrite (take_ge rs) by lia. replace (Nat.min n (length rs)) with (length rs) by lia.
    rewrite app_assoc, take_app_ge, drop_app_ge by (rewrite length_app; lia). rewrite length_app.
    replace (length X + length rs - (length X + length rs))%nat with 0%nat by lia. rewrite app_nil_r, <- app_assoc. do 2 f_equal.
    rewrite drop_app_ge by (rewrite length_drop; lia). rewrite length_drop. 
    replace (length X + length Y - (length X + length rs) - (length Y - n))%nat with 0%nat by lia. done.
  - replace (Nat.min n (length rs)) with n by lia. rewrite (drop_ge Y) by lia. simpl.
    assert (length (take n rs) = n) as Hn by (rewrite length_take; lia).
    replace (length X + n)%nat with (length (X ++ take n rs)) by (rewrite length_app; lia).
    rewrite (app_assoc X (take n rs) D), take_app_length, drop_app_length. rewrite <- app_assoc. f_equal.
    by rewrite app_assoc, take_drop.
Qed.

(** The same in the middle of a run, where the rest of the run is to follow. *)
Lemma splice_trailer_eq X D rs total r (n : nat) : (n <= length X)%nat ->
  splice (length X) n rs (Some r) (mkRle (X ++ D) total) = (mkRle (X ++ rs ++ [r] ++ D) total, Returned tt).
Proof.
  intros Hn. unfold splice. cbv zeta. destruct (Nat.ltb_spec (length X) n); [lia|]. simpl.
  rewrite Nat.add_1_r. cbn [Nat.leb]. unfold mbind, comp_bind. simpl. rewrite ?drop_0.
  rewrite take_app_length, drop_app_length.
  set (b := mkRun inhabitant 0). set (B := replicate (length rs) b).
  assert (b :: B ++ D = B ++ b :: D) as -> by (unfold B; by rewrite (app_assoc _ [b] D : _ ++ b :: D = _), <- replicate_cons_app).
  unfold set_runs. simpl. rewrite copy_to_eq by (unfold B; by rewrite length_replicate).
  rewrite <- length_app, (app_assoc X rs). simpl. rewrite update_run_eq. by rewrite <- app_assoc.
Qed.

(** ** Writing the runs

    What is left of the runs in front of a position. *)
Definition trim (pos : Z) rs : list run :=
  if pos =? 0 then [] else match rs with [] => [] | r :: _ => [mkRun (value r) pos] end.

Definition grow_first (n : Z) rs : list run := if n =? 0 then rs else alter (grow size_bits n) 0%nat rs.
Definition grow_last (n : Z) rs : list run := if n =? 0 then rs else alter (grow size_bits n) (length rs - 1)%nat rs.

Lemma shorten_cons pos r rs : pos <> 0 -> shorten pos (r :: rs) = mkRun (value r) (length_ r - pos) :: rs.
Proof. intros Hp. unfold shorten. by destruct (Z.eqb_spec pos 0). Qed.
Lemma trim_cons pos r rs : pos <> 0 -> trim pos (r :: rs) = [mkRun (value r) pos].
Proof. intros Hp. unfold trim. by destruct (Z.eqb_spec pos 0). Qed.

Lemma update_grow_first X rs D total n : rs <> [] ->
  (if n =? 0 then mret tt else update_run (length X) (grow size_bits n)) (mkRle (X ++ rs ++ D) total) =
  (mkRle (X ++ grow_first n rs ++ D) total, Returned tt).
Proof.
  intros Hne. unfold grow_first. destruct (n =? 0); [done|]. destruct rs as [|r rs]; [done|]. simpl. by rewrite update_run_eq.
Qed.

Lemma update_grow_last X rs D total n i : rs <> [] -> i = (length X + length rs - 1)%nat ->
  (if n =? 0 then mret tt else update_run i (grow size_bits n)) (mkRle (X ++ rs ++ D) total) =
  (mkRle (X ++ grow_last n rs ++ D) total, Returned tt).
Proof.
  intros Hne ->. unfold grow_last. destruct (n =? 0); [done|].
  destruct rs as [|r rs _] using rev_ind; [done|]. rewrite length_app. simpl.
  replace (length X + (length rs + 1) - 1)%nat with (length (X ++ rs)) by (rewrite length_app; lia).
  replace (length rs + 1 - 1)%nat with (length rs + 0)%nat by lia. rewrite alter_app_r. simpl.
  replace (X ++ (rs ++ [r]) ++ D) with ((X ++ rs) ++ r :: D) by (by rewrite <- !app_assoc).
  rewrite update_run_eq. by rewrite <- !app_assoc.
Qed.

Lemma shorten_eq A D total ep : inside ep D -> positive D -> sum D < 2 ^ size_bits ->
  (if ep =? 0 then mret tt else update_run (length A) (fun e => set_length (size_sub size_bits (length_ e) ep) e)) (mkRle (A ++ D) total) =
  (mkRle (A ++ shorten ep D) total, Returned tt).
Proof.
  intros [He0 He] HD Hs. destruct (Z.eqb_spec ep 0) as [->|Hep]; [done|]. destruct D as [|r D]; [lia|]. simpl in *.
  apply positive_cons in HD as [Hr HD]. pose proof (positive_sum D HD).
  rewrite shorten_cons, update_run_eq by done. unfold set_length. by rewrite size_sub_small by lia.
Qed.

(** The runs [rs] go between [P] and [D], with the lengths that join them. *)
Lemma splice_grow P Y D rs total badd eadd : rs <> [] ->
  (splice (length P) (length (P ++ Y)) rs None;;
   (if badd =? 0 then mret tt else update_run (length P) (grow size_bits badd));;
   (if eadd =? 0 then mret tt else update_run (length P + (length rs + 0) - 1)%nat (grow size_bits eadd))) (mkRle (P ++ Y ++ D) total) =
  (mkRle (P ++ grow_last eadd (grow_first badd rs) ++ D) total, Returned tt).
Proof.
  intros Hne. unfold mbind, comp_bind. rewrite splice_eq, update_grow_first by done.
  assert (length (grow_first badd rs) = length rs) as Hl by (unfold grow_first; destruct (badd =? 0); [done|apply length_alter]).
  apply update_grow_last; [|lia]. intros H0. rewrite H0 in Hl. by destruct rs.
Qed.

(** The range between [X] and [D] is replaced; the first run behind [X] keeps [bp]
    elements, the first run of [D] loses [ep]. *)
Lemma write_runs_eq X Y D rs total badd bp eadd ep : rs <> [] ->
  inside bp (Y ++ D) -> inside ep D -> (eadd <> 0 -> Y <> []) -> positive D -> sum D < 2 ^ size_bits ->
  write_runs size_bits rs (badd, bp, length X) (eadd, ep, length (X ++ Y)) (mkRle (X ++ Y ++ D) total) =
  (mkRle ((X ++ trim bp (Y ++ D)) ++ grow_last eadd (grow_first badd rs) ++ shorten ep D) total, Returned tt).
Proof.
  intros Hne [Hb0 Hb] He Hy HD Hs. unfold write_runs, trim. destruct (Z.eqb_spec bp 0) as [->|Hbp].
  - rewrite andb_false_r, app_nil_r. unfold mbind at 1 2, comp_bind at 1 2. cbn [mret comp_ret].
    unfold mbind at 1, comp_bind at 1. rewrite (app_assoc X), shorten_eq by done. rewrite <- app_assoc. by apply splice_grow.
  - destruct Y as [|r Y].
    + destruct D as [|r D]; [simpl in Hb; lia|]. assert (eadd = 0) as -> by (destruct (Z.eq_dec eadd 0); [done|by destruct Hy]).
      destruct He as [He0 He]. simpl in Hb, He. apply positive_cons in HD as [Hr HD]. pose proof (positive_sum D HD). simpl in Hs.
      rewrite app_nil_r, Nat.eqb_refl. cbn [negb andb app]. unfold mbind, comp_bind.
      rewrite run_at_eq. cbn [mret comp_ret]. rewrite update_run_eq. cbn [mret comp_ret Z.eqb].
      replace (S (length X)) with (length (X ++ [set_length bp r])) by (rewrite length_app; simpl; lia).
      replace (X ++ set_length bp r :: D) with ((X ++ [set_length bp r]) ++ D) by (by rewrite <- app_assoc).
      rewrite splice_trailer_eq by (rewrite length_app; lia). rewrite update_grow_first by done. do 2 f_equal.
      rewrite size_sub_small by lia. unfold grow_last. cbn [Z.eqb]. do 2 f_equal. unfold shorten.
      destruct (Z.eqb_spec ep 0) as [->|]; [|done]. rewrite Z.sub_0_r. by destruct r.
    + assert ((length X =? length (X ++ r :: Y))%nat = false) as -> by (rewrite length_app; simpl; apply Nat.eqb_neq; lia).
      cbn [negb andb app]. unfold mbind at 1 2, comp_bind at 1 2. cbn [mret comp_ret].
      unfold mbind at 1, comp_bind at 1. rewrite update_run_eq. cbn [mret comp_ret].
      set (r' := set_length bp r). unfold mbind at 1, comp_bind at 1.
      replace (length (X ++ r :: Y)) with (length ((X ++ [r']) ++ Y)) by (rewrite !length_app; simpl; lia).
      replace (X ++ r' :: Y ++ D) with (((X ++ [r']) ++ Y) ++ D) by (by rewrite <- !app_assoc).
      rewrite shorten_eq by done. rewrite <- (app_assoc (X ++ [r'])).
      replace (S (length X)) with (length (X ++ [r'])) by (rewrite length_app; simpl; lia). by apply splice_grow.
Qed.

(** ** Joining *)
Lemma grow_small n r : 0 <= n -> 0 < length_ r -> length_ r + n < 2 ^ size_bits -> grow size_bits n r = mkRun (value r) (length_ r + n).
Proof. intros. unfold grow, set_length. by rewrite size_add_small by lia. Qed.

Record joins rs rs' (left right : list T) (n : Z) : Prop := {
  joins_decode : decode rs' = left ++ decode rs ++ right;
  joins_values : map value rs' = map value rs;
  joins_positive : positive rs';
  joins_sum : sum rs' = sum rs + n;
}.

Lemma grow_first_joins n f rs : 0 <= n -> positive (f :: rs) -> sum (f :: rs) + n < 2 ^ size_bits ->
  joins (f :: rs) (grow_first n (f :: rs)) (replicate (Z.to_nat n) (value f)) [] n.
Proof.
  intros Hn Hp Hb. unfold grow_first. pose proof Hp as [Hf Hrs]%positive_cons. pose proof (positive_sum rs Hrs). simpl in Hb.
  destruct (Z.eqb_spec n 0) as [->|]; [by constructor; rewrite ?app_nil_r, ?Z.add_0_r|]. simpl. rewrite grow_small by lia.
  constructor; simpl; [|done|apply positive_cons; simpl; split; [lia|done]|lia].
  rewrite !decode_cons, app_nil_r. unfold decode_run. simpl. rewrite app_assoc, <- replicate_add. do 2 f_equal. lia.
Qed.

Lemma grow_last_joins n rs b : 0 <= n -> positive (rs ++ [b]) -> sum (rs ++ [b]) + n < 2 ^ size_bits ->
  joins (rs ++ [b]) (grow_last n (rs ++ [b])) [] (replicate (Z.to_nat n) (value b)) n.
Proof.
  intros Hn Hp Hb. unfold grow_last. pose proof Hp as [Hrs [Hlb _]%positive_cons]%positive_app. pose proof (positive_sum rs Hrs).
  rewrite sum_app in Hb. simpl in Hb.
  destruct (Z.eqb_spec n 0) as [->|]; [by constructor; rewrite ?app_nil_r, ?Z.add_0_r|].
  rewrite length_app. simpl. replace (length rs + 1 - 1)%nat with (length rs + 0)%nat by lia. rewrite alter_app_r. simpl.
  rewrite grow_small by lia. constructor.
  - rewrite !decode_app. cbn [app]. rewrite <- app_assoc, !decode_cons. unfold decode_run. simpl. rewrite !app_nil_r, <- replicate_add.
    do 2 f_equal. lia.
  - by rewrite !map_app.
  - apply positive_app. split; [done|]. apply positive_cons. simpl. split; [lia|constructor].
  - rewrite !sum_app. simpl. lia.
Qed.

Lemma last_snoc_values A r : last (map value (A ++ [r])) = Some (value r).
Proof. rewrite map_app. apply last_snoc. Qed.

(** The runs in front of the replacement. *)
Record left_of (front : T) A B C (p s : Z) (badd bp : Z) X Y : Prop := {
  left_split : A = X ++ Y;
  left_inside : inside bp ((Y ++ B) ++ C);
  left_positive : positive (X ++ trim bp ((Y ++ B) ++ C));
  left_differ : differ (map value (X ++ trim bp ((Y ++ B) ++ C)));
  left_boundary : boundary (map value (X ++ trim bp ((Y ++ B) ++ C))) [front];
  left_nonneg : 0 <= badd;
  left_sum : sum (X ++ trim bp ((Y ++ B) ++ C)) + badd = s;
  left_decode : decode (X ++ trim bp ((Y ++ B) ++ C)) ++ replicate (Z.to_nat badd) front = decode A ++ piece p (B ++ C);
}.

Lemma differ_split A B : differ (map value (A ++ B)) ->
  differ (map value A) /\ differ (map value B) /\ boundary (map value A) (map value B).
Proof. rewrite map_app. by intros ?%differ_app. Qed.

Lemma boundary_first xs x ys : boundary xs (x :: ys) -> boundary xs [x].
Proof. unfold boundary. simpl. intros [H|[H|H]]; [by left|done|by right; right]. Qed.

(** Which side keeps nothing of the run that the replacement joins. *)
Lemma left_of_whole front A B C p s badd X Y : A = X ++ Y -> inside 0 ((Y ++ B) ++ C) -> positive X -> differ (map value X) ->
  boundary (map value X) [front] -> 0 <= badd -> sum X + badd = s ->
  decode X ++ replicate (Z.to_nat badd) front = decode A ++ piece p (B ++ C) ->
  left_of front A B C p s badd 0 X Y.
Proof. intros. by constructor; unfold trim; simpl; rewrite ?app_nil_r. Qed.

Lemma inside_zero rs : positive rs -> inside 0 rs.
Proof. intros Hp. split; [lia|]. destruct rs; [done|]. by apply positive_cons in Hp as [? _]. Qed.

Lemma join_left_eq A B C p s front total : positive (A ++ B ++ C) -> differ (map value (A ++ B ++ C)) ->
  sum A + p = s -> inside p (B ++ C) -> exists badd bp X Y,
  join_left s p (length A) front (mkRle (A ++ B ++ C) total) = (mkRle (A ++ B ++ C) total, Returned (badd, bp, length X)) /\
  left_of (value front) A B C p s badd bp X Y.
Proof.
  intros Hpos Hd Hs [Hp0 Hin]. pose proof Hpos as [HA HBC]%positive_app. pose proof (differ_split A (B ++ C) Hd) as (HdA & HdBC & Hbd).
  pose proof (positive_sum A HA). unfold join_left. destruct (Z.eqb_spec s 0) as [Hs0|Hs0].
  - assert (p = 0) as -> by lia. assert (A = []) as -> by (destruct A as [|r A]; [done|apply positive_cons in HA as [? HA]; pose proof (positive_sum A HA); simpl in *; lia]).
    exists 0, 0, [], []. split; [done|]. apply left_of_whole; first [done|by left|simpl; by destruct (B ++ C)].
  - unfold previous. destruct (Z.eqb_spec p 0) as [->|Hp].
    + destruct A as [|r A _] using rev_ind; [simpl in Hs; lia|]. rewrite length_app. simpl. rewrite Nat.add_1_r. simpl.
      rewrite <- app_assoc. simpl. unfold mbind, comp_bind. rewrite run_at_eq.
      apply positive_app in HA as [HA [Hr _]%positive_cons]. rewrite sum_app in Hs. simpl in Hs.
      assert (piece 0 (B ++ C) = []) as Hpiece by (by destruct (B ++ C)).
      destruct (decide (value r = value front)) as [Heq|Hneq].
      * exists (length_ r), 0, A, [r]. split; [done|]. rewrite map_app in HdA. apply differ_app in HdA as (HdA & _ & Hb).
        apply left_of_whole; try done; try lia; [by rewrite <- Heq|].
        rewrite Hpiece, app_nil_r, decode_app, <- Heq. unfold decode at 3, decode_run. simpl. by rewrite app_nil_r.
      * exists 0, 0, (A ++ [r]), []. split; [by rewrite length_app, Nat.add_1_r|].
        apply left_of_whole; try done; rewrite ?app_nil_r; try done; [apply positive_app; by repeat constructor| |rewrite sum_app; simpl; lia|by rewrite Hpiece, app_nil_r].
        right; right. rewrite last_snoc_values. simpl. congruence.
    + destruct (B ++ C) as [|r E] eqn:HE; [lia|]. simpl in Hin. unfold mbind, comp_bind. rewrite run_at_eq.
      simpl in Hbd. apply boundary_first in Hbd. destruct (decide (value r = value front)) as [Heq|Hneq].
      * exists p, 0, A, []. split; [done|]. rewrite <- Heq. apply left_of_whole; rewrite ?app_nil_r; try done; [|by rewrite HE].
        simpl. rewrite HE. by apply inside_zero.
      * exists 0, p, A, []. split; [done|]. constructor; simpl; rewrite ?app_nil_r, ?HE, ?trim_cons by done; try done.
        -- apply positive_app. split; [done|]. apply positive_cons. simpl. split; [lia|constructor].
        -- rewrite map_app. apply differ_app. split; [done|]. by split.
        -- right; right. rewrite last_snoc_values. simpl. congruence.
        -- rewrite sum_app. simpl. lia.
        -- rewrite decode_app. f_equal. unfold decode, decode_run. simpl. by rewrite app_nil_r.
Qed.

(** The runs behind the replacement. *)
Record right_of (back : T) C (q : Z) (eadd ep : Z) Y D : Prop := {
  right_split : C = Y ++ D;
  right_inside : inside ep D;
  right_used : eadd <> 0 -> Y <> [];
  right_positive : positive (shorten ep D);
  right_differ : differ (map value (shorten ep D));
  right_boundary : boundary [back] (map value (shorten ep D));
  right_nonneg : 0 <= eadd;
  right_sum : eadd + sum (shorten ep D) = sum C - q;
  right_decode : replicate (Z.to_nat eadd) back ++ decode (shorten ep D) = decode (shorten q C);
}.

Lemma shorten_values pos rs : map value (shorten pos rs) = map value rs.
Proof. unfold shorten. destruct (pos =? 0); [done|]. by destruct rs. Qed.

Lemma shorten_ok pos rs : positive rs -> inside pos rs -> positive (shorten pos rs) /\ sum (shorten pos rs) = sum rs - pos.
Proof.
  intros Hp [H0 Hin]. unfold shorten. destruct (Z.eqb_spec pos 0) as [->|]; [split; [done|lia]|].
  destruct rs as [|r rs]; [lia|]. apply positive_cons in Hp as [? Hp]. split; [apply positive_cons; simpl; split; [lia|done]|simpl; lia].
Qed.

Lemma join_right_eq A C q e back total : positive (A ++ C) -> differ (map value C) -> sum (A ++ C) < 2 ^ size_bits ->
  total = sum (A ++ C) -> sum A + q = e -> inside q C -> exists eadd ep Y D,
  join_right size_bits e q (length A) back (mkRle (A ++ C) total) = (mkRle (A ++ C) total, Returned (eadd, ep, length (A ++ Y))) /\
  right_of (value back) C q eadd ep Y D.
Proof.
  intros [HA HC]%positive_app Hd Hb -> He Hin. rewrite sum_app in *. pose proof (positive_sum A HA). pose proof Hin as [Hq0 Hq].
  destruct (shorten_ok q C HC Hin) as [HS1 HS2]. unfold join_right, mbind, comp_bind, gets. cbn [_total_length].
  destruct (Z.eqb_spec e (sum A + sum C)) as [Heq|Hneq].
  - assert (C = [] /\ q = 0) as [-> ->].
    { destruct C as [|r C]; [done|]. apply positive_cons in HC as [? HC]. pose proof (positive_sum C HC). simpl in *. lia. }
    exists 0, 0, [], []. rewrite !app_nil_r. split; [done|]. constructor; try done. by right; left.
  - destruct C as [|r C]; [simpl in *; lia|]. rewrite run_at_eq. simpl in Hq. cbn [map] in Hd.
    destruct (decide (value r = value back)) as [Heq'|Hneq'].
    + apply positive_cons in HC as [Hr HC]. pose proof (positive_sum C HC). simpl in Hb, HS2.
      rewrite size_sub_small by lia. exists (length_ r - q), 0, [r], C. split; [by rewrite length_app, Nat.add_1_r|].
      rewrite differ_cons in Hd. destruct Hd as [Hn Hd].
      constructor; try done; [by apply inside_zero| |lia|unfold shorten; simpl; lia|].
      * unfold shorten. cbn [Z.eqb]. right; right. rewrite <- Heq'. by apply not_eq_sym.
      * unfold shorten at 1. cbn [Z.eqb]. rewrite <- Heq'. unfold shorten. destruct (Z.eqb_spec q 0) as [->|]; [by rewrite Z.sub_0_r|done].
    + exists 0, q, [], (r :: C). rewrite app_nil_r. split; [done|].
      constructor; try done; try lia; rewrite ?shorten_values; try done. right; right. simpl. congruence.
Qed.

(** ** Replacing a range *)

(** Three parts whose neighbours differ. *)
Lemma differ_three (xs ys zs : list T) x y : head ys = Some x -> last ys = Some y -> differ xs -> differ ys -> differ zs ->
  boundary xs [x] -> boundary [y] zs -> differ (xs ++ ys ++ zs).
Proof.
  intros Hh Hl H1 H2 H3 Hb1 Hb2. apply differ_app. split; [done|]. split.
  - apply differ_app. split; [done|]. split; [done|]. unfold boundary in *. rewrite Hl.
    destruct Hb2 as [?|[->|Hb2]]; [done|by right; left|by right; right].
  - unfold boundary in *. destruct ys as [|y0 ys]; [done|]. injection Hh as ->.
    destruct Hb1 as [->|[?|Hb1]]; [by left|done|by right; right].
Qed.

(** The replacement with the lengths that join it on both sides. *)
Lemma grown front rs0 back rs badd eadd : rs = front :: rs0 -> last rs = Some back -> positive rs -> 0 <= badd -> 0 <= eadd ->
  sum rs + badd + eadd < 2 ^ size_bits ->
  joins rs (grow_last eadd (grow_first badd rs)) (replicate (Z.to_nat badd) (value front)) (replicate (Z.to_nat eadd) (value back)) (badd + eadd).
Proof.
  intros -> Hl Hp Hb He Hs. destruct (grow_first_joins badd front rs0 Hb Hp) as [D1 V1 P1 S1]; [lia|].
  set (g := grow_first badd (front :: rs0)) in *.
  destruct g as [|b' g' _] using rev_ind; [by apply (f_equal length) in V1|].
  assert (value b' = value back) as Hv.
  { apply (f_equal last) in V1. rewrite last_snoc_values, fmap_last, Hl in V1. by injection V1. }
  destruct (grow_last_joins eadd g' b' He P1) as [D2 V2 P2 S2]; [lia|].
  constructor; [|by rewrite V2|done|lia]. rewrite D2, D1, Hv, app_nil_r. simpl. by rewrite <- app_assoc.
Qed.

Lemma replace_unchecked_ok s e rs v : rle_ok v -> 0 <= s <= e -> e <= _total_length v -> rs <> [] -> positive rs ->
  differ (map value rs) -> _total_length v - (e - s) + sum rs < 2 ^ size_bits ->
  exists v', _replace_unchecked size_bits s e rs v = (v', Returned tt) /\ rle_ok v' /\
    contents v' = take (Z.to_nat s) (contents v) ++ decode rs ++ drop (Z.to_nat e) (contents v).
Proof.
  destruct v as [runs total]. intros [Hp Hd Ht Hb] Hs He Hne Hrp Hrd Hbound. simpl in *. subst total.
  destruct (scan_range runs s e Hp Hs He Hb) as (A & B & C & p & q & -> & Hsc1 & Hsc2 & HAp & HABq & Hinp & Hinq).
  destruct rs as [|front rs0] eqn:Hrs; [done|]. rewrite <- Hrs in *. destruct (last rs) as [back|] eqn:Hlast; [|by apply last_None in Hlast; subst].
  destruct (join_left_eq A B C p s front (sum (A ++ B ++ C)) Hp Hd HAp Hinp) as (badd & bp & X & Y1 & Hjl & HL).
  rewrite (app_assoc A) in Hp, Hd. destruct (differ_split _ _ Hd) as (_ & HdC & _).
  destruct (join_right_eq (A ++ B) C q e back (sum (A ++ B ++ C)) Hp HdC) as (eadd & ep & Y2 & D & Hjr & HR);
    [by rewrite <- app_assoc|by rewrite <- app_assoc|done|done|].
  destruct HL as [EA HL2 HL3 HL4 HL5 HL6 HL7 HL8], HR as [EC HR2 HR3 HR4 HR5 HR6 HR7 HR8 HR9].
  assert (A ++ B ++ C = X ++ (Y1 ++ B ++ Y2) ++ D) as Eruns by (subst A C; by rewrite <- !app_assoc).
  assert ((Y1 ++ B) ++ C = (Y1 ++ B ++ Y2) ++ D) as EYC by (subst C; by rewrite <- !app_assoc).
  rewrite EYC in *. set (P := X ++ trim bp ((Y1 ++ B ++ Y2) ++ D)) in *. set (Q := shorten ep D) in *.
  assert (positive D /\ sum D < 2 ^ size_bits) as [HD HsD].
  { apply positive_app in Hp as [HAB HC]. subst C. apply positive_app in HC as [HY2 HD]. split; [done|].
    rewrite Eruns, !sum_app in Hb. pose proof (positive_sum _ HAB). rewrite EA, !sum_app in *. pose proof (positive_sum _ HY2). lia. }
  assert (sum (A ++ B ++ C) = sum (A ++ B) + sum C) as Hsum by (by rewrite app_assoc, sum_app).
  pose proof (positive_sum _ HL3) as HP0. pose proof (positive_sum _ HR4) as HQ0.
  destruct (grown front rs0 back rs badd eadd Hrs Hlast Hrp) as [G1 G2 G3 G4]; [lia..|].
  set (G := grow_last eadd (grow_first badd rs)) in *.
  exists (mkRle (P ++ G ++ Q) (sum (A ++ B ++ C) - (e - s) + sum rs)). split; [|split].
  - unfold _replace_unchecked, mbind at 1, comp_bind at 1, gets. cbn [_runs]. rewrite Hsc1. cbn [scan_it]. rewrite Hsc2. cbn [scan_it].
    rewrite Hlast. replace (head rs) with (Some front) by (by rewrite Hrs). unfold mbind at 1, comp_bind at 1. rewrite Hjl.
    unfold mbind at 1, comp_bind at 1. rewrite <- (app_assoc A B C) in Hjr. rewrite Hjr. unfold mbind, comp_bind.
    replace (length ((A ++ B) ++ Y2)) with (length (X ++ (Y1 ++ B ++ Y2))) by (by rewrite EA, !length_app; lia).
    rewrite Eruns at 1. rewrite write_runs_eq; [|done..| |done|done].
    + fold P Q G. unfold modify, set_total. cbn [_runs _total_length]. do 2 f_equal.
      rewrite (size_sub_small e s), size_sub_small by lia. apply fold_total; [done|lia..].
    + intros Hea. specialize (HR3 Hea). destruct Y2; [done|]. by destruct Y1, B.
  - constructor; cbn [_runs _total_length].
    + rewrite !positive_app. done.
    + rewrite !map_app, G2. eapply differ_three; [by rewrite Hrs|by rewrite fmap_last, Hlast|done..].
    + rewrite (sum_app P), (sum_app G), G4. lia.
    + rewrite (sum_app P), (sum_app G), G4. lia.
  - unfold contents. cbn [_runs]. rewrite (decode_app P), (decode_app G), G1, <- HAp, take_decode by (done || by apply positive_app in Hp as [[? _]%positive_app _]).
    rewrite <- HABq. rewrite (app_assoc A) at 1. rewrite drop_decode by (done || by apply positive_app in Hp as [? _]).
    rewrite <- HL8, <- HR9. fold Q. by rewrite <- !app_assoc.
Qed.

(** ** Removing a range *)
Lemma size_sub_sub a b c : 0 <= a - b + c < 2 ^ size_bits -> size_sub size_bits a (size_sub size_bits b c) = a - b + c.
Proof. intros H. unfold size_sub. rewrite Zminus_mod_idemp_r, Z.mod_small by lia. lia. Qed.

Lemma run_at_state i v : (run_at i v).1 = v.
Proof. unfold run_at. by destruct (_runs v !! i). Qed.

Lemma erase_eq X Y D total : erase (length X) (length (X ++ Y)) (mkRle (X ++ Y ++ D) total) = (mkRle (X ++ D) total, Returned tt).
Proof. unfold erase, modify, set_runs. simpl. rewrite take_app_length. by rewrite (app_assoc X), drop_app_length. Qed.

(** The runs in front of a position. *)
Lemma trim_ok A E p : positive (A ++ E) -> differ (map value (A ++ E)) -> inside p E ->
  positive (A ++ trim p E) /\ differ (map value (A ++ trim p E)) /\ sum (A ++ trim p E) = sum A + p /\
  decode (A ++ trim p E) = decode A ++ piece p E.
Proof.
  intros [HA HE]%positive_app Hd [Hp0 Hin]. destruct (differ_split _ _ Hd) as (HdA & HdE & Hb). unfold trim, piece.
  destruct (Z.eqb_spec p 0) as [->|]; [rewrite app_nil_r; repeat split; try done; [lia|]; destruct E; by rewrite app_nil_r|].
  destruct E as [|r E]; [lia|]. split; [apply positive_app; split; [done|]; apply positive_cons; simpl; split; [lia|constructor]|].
  split; [|rewrite sum_app, decode_app; simpl; split; [lia|]; f_equal; unfold decode, decode_run; simpl; by rewrite app_nil_r].
  rewrite map_app. apply differ_app. split; [done|]. split; [done|]. by eapply boundary_first.
Qed.

(** Both sides of the range become one run, or neither changes. *)
Lemma join_removed_eq A B r C p q s e badd bp X : let st := mkRle (A ++ B ++ r :: C) (sum (A ++ B ++ r :: C)) in
  join_left s p (length A) r st = (st, Returned (badd, bp, length X)) -> s <> 0 -> 0 <= p -> e <> sum (A ++ B ++ r :: C) ->
  0 <= badd -> 0 <= length_ r - q + badd < 2 ^ size_bits ->
  (bp = 0 /\ join_removed size_bits s e (length A) p (length (A ++ B)) q st =
     (mkRle (A ++ B ++ mkRun (value r) (length_ r - q + badd) :: C) (sum (A ++ B ++ r :: C)), Returned (length X, 0, 0))) \/
  (badd = 0 /\ bp = p /\ length X = length A /\ (run_at (previous (length A) p) st).2 <> Returned r /\
   join_removed size_bits s e (length A) p (length (A ++ B)) q st = (st, Returned (length A, p, q))).
Proof.
  cbv zeta. set (st := mkRle (A ++ B ++ r :: C) (sum (A ++ B ++ r :: C))). intros Hjl Hs Hp0 He Hb Hl. unfold join_left in Hjl.
  destruct (Z.eqb_spec s 0); [done|]. unfold mbind, comp_bind in Hjl. unfold join_removed, mbind, comp_bind, gets.
  replace (negb (s =? 0)) with true by lia. change (_total_length st) with (sum (A ++ B ++ r :: C)).
  replace (negb (e =? sum (A ++ B ++ r :: C))) with true by lia. cbn [andb].
  pose proof (run_at_state (previous (length A) p) st) as Hst.
  destruct (run_at (previous (length A) p) st) as [st' [pr| | |]]; simpl in Hst; subst st'; try done.
  assert (run_at (length (A ++ B)) st = (st, Returned r)) as Hr by (unfold st; rewrite app_assoc; apply run_at_eq). rewrite Hr.
  destruct (decide (value pr = value r)) as [Hv|Hv].
  - left. injection Hjl as Hbadd <- HX. split; [done|]. rewrite HX. unfold st at 1. rewrite (app_assoc A B (r :: C)) at 1.
    rewrite update_run_eq, <- app_assoc. unfold set_length. rewrite Hbadd, size_sub_sub by done. done.
  - right. injection Hjl as <- <- HX. repeat split; try done. simpl. intros [= ->]. done.
Qed.

Lemma remove_runs_eq A B C p q total : (p <> 0 -> B <> []) -> inside p (B ++ C) -> inside q C -> positive C -> sum C < 2 ^ size_bits ->
  remove_runs size_bits (length A) p (length (A ++ B)) q (mkRle (A ++ B ++ C) total) =
  (mkRle ((A ++ trim p (B ++ C)) ++ shorten q C) total, Returned tt).
Proof.
  intros HB [Hp0 Hin] Hq HC Hs. unfold remove_runs, trim. destruct (Z.eqb_spec p 0) as [->|Hp].
  - unfold mbind, comp_bind. cbn [mret comp_ret]. rewrite (app_assoc A), shorten_eq by done. rewrite <- app_assoc, app_nil_r. apply erase_eq.
  - destruct B as [|r B]; [by destruct HB|]. unfold mbind, comp_bind. cbn [app]. rewrite update_run_eq. cbn [mret comp_ret].
    set (r' := set_length p r).
    replace (length (A ++ r :: B)) with (length ((A ++ [r']) ++ B)) by (rewrite !length_app; simpl; lia).
    replace (A ++ r' :: B ++ C) with (((A ++ [r']) ++ B) ++ C) by (by rewrite <- !app_assoc).
    rewrite shorten_eq by done. replace (S (length A)) with (length (A ++ [r'])) by (rewrite length_app; simpl; lia).
    rewrite <- (app_assoc (A ++ [r'])). apply erase_eq.
Qed.

(** The runs that are left. *)
Record removed A B C (p q : Z) rs : Prop := {
  removed_positive : positive rs;
  removed_differ : differ (map value rs);
  removed_sum : sum rs = sum A + p + (sum C - q);
  removed_decode : decode rs = decode A ++ piece p (B ++ C) ++ decode (shorten q C);
}.

Lemma removed_apart A B C p q : positive (A ++ B ++ C) -> differ (map value (A ++ B ++ C)) -> inside p (B ++ C) -> inside q C ->
  boundary (map value (A ++ trim p (B ++ C))) (map value C) -> removed A B C p q ((A ++ trim p (B ++ C)) ++ shorten q C).
Proof.
  intros Hp Hd Hinp Hinq Hb. destruct (trim_ok A (B ++ C) p Hp Hd Hinp) as (T1 & T2 & T3 & T4).
  rewrite !(app_assoc A B C) in Hp, Hd. apply positive_app in Hp as [_ HC]. destruct (differ_split _ _ Hd) as (_ & HdC & _).
  destruct (shorten_ok q C HC Hinq) as [S1 S2]. constructor.
  - by apply positive_app.
  - rewrite map_app, shorten_values. apply differ_app. done.
  - rewrite sum_app, T3, S2. lia.
  - by rewrite decode_app, T4, app_assoc.
Qed.

Lemma remove_total rs total s e : total < 2 ^ size_bits -> 0 <= s <= e -> e <= total ->
  modify (fun v => set_total (size_sub size_bits (_total_length v) (size_sub size_bits e s)) v) (mkRle rs total) =
  (mkRle rs (total - (e - s)), Returned tt).
Proof. intros. unfold modify, set_total. simpl. by rewrite (size_sub_small e s), size_sub_small by lia. Qed.

Section Removal.
Context A B C (p q s e : Z) (Hp : positive (A ++ B ++ C)) (Hd : differ (map value (A ++ B ++ C))).
Context (Hb : sum (A ++ B ++ C) < 2 ^ size_bits) (Hs : sum A + p = s) (He : sum (A ++ B) + q = e) (Hse : 0 <= s /\ s <= e <= sum (A ++ B ++ C)).
Context (Hinp : inside p (B ++ C)) (Hinq : inside q C).
Let st := mkRle (A ++ B ++ C) (sum (A ++ B ++ C)).

Lemma last_positive : positive C /\ sum C < 2 ^ size_bits.
Proof.
  pose proof Hp as [HA [HB HC]%positive_app]%positive_app. split; [done|]. rewrite !sum_app in Hb.
  pose proof (positive_sum A HA). pose proof (positive_sum B HB). lia.
Qed.

Definition removes_range : Prop := exists rs,
  remove_range size_bits s e (length A) p (length (A ++ B)) q st = (mkRle rs (sum (A ++ B ++ C) - (e - s)), Returned tt) /\ removed A B C p q rs.

(** The runs on both sides stay apart. *)
Lemma remove_range_apart : (p <> 0 -> B <> []) -> boundary (map value (A ++ trim p (B ++ C))) (map value C) ->
  join_removed size_bits s e (length A) p (length (A ++ B)) q st = (st, Returned (length A, p, q)) -> removes_range.
Proof.
  intros Happ Hbd Hj. destruct last_positive. exists ((A ++ trim p (B ++ C)) ++ shorten q C). split; [|by apply removed_apart].
  unfold remove_range, mbind, comp_bind. rewrite Hj. unfold st. rewrite remove_runs_eq by done. by apply remove_total; lia.
Qed.
End Removal.

(** They become one. *)
Lemma remove_range_joined A B r C p q s e badd X Y :
  positive (A ++ B ++ r :: C) -> differ (map value (A ++ B ++ r :: C)) -> sum (A ++ B ++ r :: C) < 2 ^ size_bits ->
  0 <= s /\ s <= e <= sum (A ++ B ++ r :: C) -> sum A + p = s -> inside q (r :: C) ->
  left_of (value r) A B (r :: C) p s badd 0 X Y -> 0 <= length_ r - q + badd < 2 ^ size_bits ->
  sum C + (length_ r - q + badd) < 2 ^ size_bits ->
  join_removed size_bits s e (length A) p (length (A ++ B)) q (mkRle (A ++ B ++ r :: C) (sum (A ++ B ++ r :: C))) =
    (mkRle (A ++ B ++ mkRun (value r) (length_ r - q + badd) :: C) (sum (A ++ B ++ r :: C)), Returned (length X, 0, 0)) ->
  removes_range A B (r :: C) p q s e.
Proof.
  intros Hp Hd Hb Hse Hs [Hq0 Hq] [EA _ L1 L2 L3 L4 L5 L6] Hl Hl2 Hj. unfold trim in *. simpl in L1, L2, L3, L5, L6, Hq.
  rewrite app_nil_r in *. set (r' := mkRun (value r) (length_ r - q + badd)) in *.
  rewrite (app_assoc A) in Hp, Hd. apply positive_app in Hp as [HAB [Hr HC]%positive_cons]. destruct (differ_split _ _ Hd) as (_ & HdC & _).
  assert (positive (r' :: C)) as HrC by (apply positive_cons; simpl; split; [lia|done]).
  exists (X ++ r' :: C). split; [|constructor].
  - unfold remove_range, mbind, comp_bind. rewrite Hj.
    replace (A ++ B ++ r' :: C) with (X ++ (Y ++ B) ++ r' :: C) by (subst A; by rewrite <- !app_assoc).
    replace (length (A ++ B)) with (length (X ++ (Y ++ B))) by (subst A; by rewrite <- app_assoc).
    rewrite remove_runs_eq; [|done|apply inside_zero; rewrite positive_app; split; [|done]; subst A; apply positive_app in HAB as [[_ ?]%positive_app ?]; by apply positive_app|by apply inside_zero|done|simpl; lia].
    unfold trim, shorten. cbn [Z.eqb]. rewrite app_nil_r. by apply remove_total; lia.
  - apply positive_app. done.
  - rewrite map_app. apply differ_app. split; [done|]. split; [done|]. unfold boundary in *. simpl in *. intuition congruence.
  - rewrite sum_app. simpl. lia.
  - rewrite decode_app, decode_cons, (app_assoc (decode A)). rewrite <- L6, <- app_assoc. f_equal. unfold decode_run at 1. simpl.
    unfold shorten. replace (Z.to_nat (length_ r - q + badd)) with (Z.to_nat badd + Z.to_nat (length_ r - q))%nat by lia.
    rewrite replicate_add, <- app_assoc. f_equal. destruct (Z.eqb_spec q 0) as [->|]; [by rewrite Z.sub_0_r|done].
Qed.

Lemma remove_range_eq A B C p q s e : positive (A ++ B ++ C) -> differ (map value (A ++ B ++ C)) -> sum (A ++ B ++ C) < 2 ^ size_bits ->
  sum A + p = s -> sum (A ++ B) + q = e -> 0 <= s /\ s <= e <= sum (A ++ B ++ C) -> inside p (B ++ C) -> inside q C -> removes_range A B C p q s e.
Proof.
  intros Hp Hd Hb Hs He Hse Hinp Hinq. pose proof Hinp as [Hp0 _]. pose proof Hinq as [Hq0 Hq].
  pose proof Hp as [HA HBC]%positive_app. pose proof (positive_sum A HA).
  destruct (Z.eq_dec s 0) as [Hs0|Hs0]; [|destruct C as [|r C]].
  - assert (p = 0) as -> by lia. apply remove_range_apart; try done.
    + assert (A = []) as -> by (destruct A as [|r A]; [done|apply positive_cons in HA as [? HA]; pose proof (positive_sum A HA); simpl in *; lia]). by left.
    + unfold join_removed, mbind, comp_bind, gets. replace (negb (s =? 0)) with false by lia. done.
  - apply remove_range_apart; try done; [intros Hpp HB0; subst B; destruct Hinp; simpl in *; lia|by right; left|].
    unfold join_removed, mbind, comp_bind, gets. cbn [_total_length]. simpl in Hq. rewrite app_nil_r in *.
    replace (e =? sum (A ++ B)) with true by lia. by rewrite andb_false_r.
  - destruct (join_left_eq A B (r :: C) p s r (sum (A ++ B ++ r :: C)) Hp Hd Hs Hinp) as (badd & bp & X & Y & Hjl & HL).
    pose proof (left_nonneg _ _ _ _ _ _ _ _ _ _ HL) as Hbadd. pose proof (left_sum _ _ _ _ _ _ _ _ _ _ HL) as Hls.
    pose proof (positive_sum _ (left_positive _ _ _ _ _ _ _ _ _ _ HL)).
    simpl in Hq. rewrite app_assoc, sum_app in Hb, Hse. simpl in Hb, Hse. apply positive_app in HBC as [HB [Hr HC]%positive_cons].
    pose proof (positive_sum C HC).
    destruct (join_removed_eq A B r C p q s e badd bp X Hjl) as [[-> Hj]|(-> & -> & HX & Hne & Hj)]; try lia.
    + rewrite app_assoc, sum_app. simpl. lia.
    + eapply remove_range_joined; try done; rewrite ?(app_assoc A), ?(sum_app (A ++ B)); simpl; lia.
    + assert (X = A /\ Y = []) as [-> ->].
      { pose proof (left_split _ _ _ _ _ _ _ _ _ _ HL) as EA. assert (Y = []) as -> by (destruct Y; [done|rewrite EA, length_app in HX; simpl in HX; lia]).
        by rewrite app_nil_r in EA. }
      apply remove_range_apart; try done.
      * rewrite app_assoc, sum_app. simpl. lia.
      * rewrite app_assoc, sum_app. simpl. lia.
      * intros Hpp ->. apply Hne. unfold previous. replace (p =? 0) with false by lia. simpl. by rewrite run_at_eq.
      * pose proof (left_boundary _ _ _ _ _ _ _ _ _ _ HL) as Hbd. simpl in Hbd. unfold boundary in *. simpl in *. intuition congruence.
Qed.

Lemma remove_ok s e v : rle_ok v -> 0 <= s <= e -> e <= _total_length v ->
  exists v', _replace_unchecked size_bits s e [] v = (v', Returned tt) /\ rle_ok v' /\
    contents v' = take (Z.to_nat s) (contents v) ++ drop (Z.to_nat e) (contents v).
Proof.
  destruct v as [runs total]. intros [Hp Hd Ht Hb] Hs He. simpl in *. subst total.
  destruct (scan_range runs s e Hp Hs He Hb) as (A & B & C & p & q & -> & Hsc1 & Hsc2 & HAp & HABq & Hinp & Hinq).
  destruct (remove_range_eq A B C p q s e Hp Hd Hb HAp HABq) as (runs' & Hrem & [H1 H2 H3 H4]); [lia|done|done|].
  exists (mkRle runs' (sum (A ++ B ++ C) - (e - s))). split; [|split].
  - unfold _replace_unchecked, mbind at 1, comp_bind at 1, gets. cbn [_runs]. rewrite Hsc1. cbn [scan_it]. by rewrite Hsc2.
  - assert (sum runs' = sum (A ++ B ++ C) - (e - s)) by (rewrite H3, !sum_app in *; lia).
    constructor; cbn [_runs _total_length]; try done. lia.
  - unfold contents. cbn [_runs]. rewrite H4, <- HAp, take_decode by (done || by apply positive_app in Hp as [? _]).
    rewrite <- HABq, (app_assoc A B C), drop_decode by (done || (rewrite app_assoc in Hp; by apply positive_app in Hp as [? _])).
    by rewrite <- app_assoc.
Qed.

(** ** Slices *)
Lemma decode_split r n : 0 <= n <= length_ r -> decode_run r = decode_run (mkRun (value r) n) ++ replicate (Z.to_nat (length_ r - n)) (value r).
Proof. intros Hn. unfold decode_run. simpl. rewrite <- replicate_add. f_equal. lia. Qed.

(** The runs up to an index, the last one cut. *)
Lemma take_cut A r C n : positive (A ++ r :: C) -> 0 < n <= length_ r ->
  take (Z.to_nat (sum A + n)) (decode (A ++ r :: C)) = decode (A ++ [mkRun (value r) n]).
Proof.
  intros [HA _]%positive_app Hn. rewrite !decode_app, !decode_cons, (decode_split r n) by lia.
  pose proof (length_decode A HA). pose proof (positive_sum A HA). rewrite <- (app_assoc (decode_run _)), (app_assoc (decode A)). 
  assert (length (decode A ++ decode_run (mkRun (value r) n)) = Z.to_nat (sum A + n)) as <-
    by (unfold decode_run; simpl; rewrite length_app, length_replicate; lia).
  rewrite take_app_length. simpl. by rewrite app_nil_r.
Qed.

Lemma alter_last_snoc f rs r : alter_last f (rs ++ [r]) = rs ++ [f r].
Proof.
  unfold alter_last. destruct (rs ++ [r]) as [|r0 rs0] eqn:E; [by destruct rs|]. rewrite <- E, length_app. simpl.
  rewrite Nat.add_1_r. simpl. replace (length rs) with (length rs + 0)%nat at 1 by lia. by rewrite alter_app_r.
Qed.

(** The runs of a slice that begins [p] elements into the runs [B] and ends with
    element [q] of [r]. *)
Lemma slice_runs_eq A B r C p q : positive (B ++ [mkRun (value r) (q + 1)]) -> inside p (B ++ [mkRun (value r) (q + 1)]) ->
  sum (B ++ [mkRun (value r) (q + 1)]) < 2 ^ size_bits -> 0 <= q ->
  alter (fun r => set_length (size_sub size_bits (length_ r) p) r) 0%nat
    (alter_last (set_length (size_add size_bits q 1)) (drop (length A) (take (S (length (A ++ B))) (A ++ B ++ r :: C)))) =
  shorten p (B ++ [mkRun (value r) (q + 1)]).
Proof.
  intros HBr [Hp0 Hin] Hsm Hq. set (r' := mkRun (value r) (q + 1)) in *.
  assert (drop (length A) (take (S (length (A ++ B))) (A ++ B ++ r :: C)) = B ++ [r]) as ->.
  { rewrite (app_assoc A B), (cons_middle r), (app_assoc (A ++ B)).
    replace (S (length (A ++ B))) with (length ((A ++ B) ++ [r])) by (rewrite length_app; simpl; lia).
    by rewrite take_app_length, <- app_assoc, drop_app_length. }
  assert (q + 1 < 2 ^ size_bits).
  { apply positive_app in HBr as [HB _]. rewrite sum_app in Hsm. pose proof (positive_sum B HB). simpl in Hsm. lia. }
  rewrite alter_last_snoc, size_add_small by lia. change (set_length (q + 1) r) with r'.
  unfold shorten. destruct (B ++ [r']) as [|b bs]; [by destruct (p =? 0)|]. apply positive_cons in HBr as [? Hbs]. pose proof (positive_sum _ Hbs).
  simpl in Hsm, Hin |- *. unfold set_length. rewrite size_sub_small by lia.
  destruct (Z.eqb_spec p 0) as [->|]; [|done]. rewrite Z.sub_0_r. by destruct b.
Qed.

Lemma slice_ok s e v : rle_ok v -> 0 <= s -> 0 <= e ->
  rle_ok (slice size_bits s e v) /\ contents (slice size_bits s e v) = drop (Z.to_nat s) (take (Z.to_nat e) (contents v)).
Proof.
  destruct v as [runs total]. intros [Hp Hd Ht Hb] Hs He. simpl in *. subst total. pose proof (length_decode runs Hp) as Hlen. unfold contents in *.
  unfold slice. cbn [_total_length _runs]. set (e' := if sum runs <? e then sum runs else e).
  assert (take (Z.to_nat e) (decode runs) = take (Z.to_nat e') (decode runs)) as ->.
  { unfold e'. destruct (Z.ltb_spec (sum runs) e); [|done]. rewrite !take_ge by lia. done. }
  assert (e' <= sum runs /\ 0 <= e') as [He1 He2] by (unfold e'; destruct (Z.ltb_spec (sum runs) e); lia).
  destruct (Z.leb_spec e' s) as [Hle|Hlt].
  - split; [by constructor; simpl; try lia; constructor|]. simpl. symmetry. apply drop_ge. rewrite length_take. lia.
  - rewrite (size_sub_small e' 1) by lia.
    destruct (scan_range runs s (e' - 1) Hp) as (A & B & C & p & q & -> & Hsc1 & Hsc2 & HAp & HABq & Hinp & Hinq); [lia..|].
    rewrite Hsc1, Hsc2. cbn [scan_it]. destruct Hinq as [Hq0 Hq]. destruct Hinp as [Hp0 Hinp].
    rewrite app_assoc in Hp, Hd. rewrite app_assoc, sum_app in Hb. pose proof Hp as [HAB HC]%positive_app.
    pose proof (positive_sum _ HAB). pose proof (positive_sum _ HC).
    destruct C as [|r C]; [rewrite app_nil_r in *; lia|]. simpl in Hq, Hb. apply positive_cons in HC as [Hr HC]. pose proof (positive_sum _ HC).
    set (r' := mkRun (value r) (q + 1)).
    assert (positive A /\ positive (B ++ [r'])) as [HA HBr].
    { apply positive_app in HAB as [HA HB]. split; [done|]. apply positive_app. split; [done|]. apply positive_cons. simpl. split; [lia|constructor]. }
    assert (inside p (B ++ [r'])) as Hin'.
    { split; [done|]. destruct B as [|b B]; simpl in *; [|done]. rewrite sum_app in HABq. simpl in HABq. lia. }
    assert (sum (B ++ [r']) < 2 ^ size_bits) as Hsm by (rewrite sum_app in *; pose proof (positive_sum A HA); simpl; lia).
    rewrite slice_runs_eq by done. fold r'.
    destruct (shorten_ok p (B ++ [r']) HBr Hin') as [S1 S2]. rewrite (size_sub_small e' s) by lia. split.
    + constructor; cbn [_runs _total_length]; [done|..|rewrite S2; rewrite !sum_app in *; simpl; lia|lia].
      rewrite shorten_values, map_app. cbn [map]. change (value r') with (value r).
      rewrite <- app_assoc in Hd. apply differ_split in Hd as (_ & Hd & _). rewrite (cons_middle r), app_assoc in Hd.
      apply differ_split in Hd as (Hd & _). by rewrite map_app in Hd.
    + cbn [_runs]. replace e' with (sum (A ++ B) + (q + 1)) by lia. rewrite (app_assoc A B), take_cut by (done || lia).
      rewrite <- app_assoc, <- HAp. symmetry. by apply drop_decode.
Qed.

(** ** Resizing *)
Definition resized (n : Z) (xs : list T) : list T :=
  take (Z.to_nat n) xs ++ match last xs with Some x => replicate (Z.to_nat n - length xs) x | None => [] end.

Lemma last_decode A r : 0 < length_ r -> last (decode (A ++ [r])) = Some (value r).
Proof.
  intros Hr. rewrite decode_app, decode_cons. simpl. rewrite app_nil_r. unfold decode_run.
  replace (Z.to_nat (length_ r)) with (S (Z.to_nat (length_ r - 1))) by lia. rewrite replicate_S_end, app_assoc. apply last_snoc.
Qed.

Lemma shrink_ok n runs : rle_ok (mkRle runs (sum runs)) -> 0 < n < sum runs ->
  let '(s, pos) := scan size_bits runs (n - 1) new_scanner in
  exists A r, (update_run (scan_it s) (set_length (size_add size_bits pos 1));; erase (S (scan_it s)) (length runs)) (mkRle runs (sum runs)) =
    (mkRle (A ++ [r]) (sum runs), Returned tt) /\ rle_ok (mkRle (A ++ [r]) n) /\ decode (A ++ [r]) = take (Z.to_nat n) (decode runs).
Proof.
  intros [Hp Hd _ Hb] Hn. simpl in Hp, Hd, Hb.
  destruct (scan_runs_spec runs 0 0 (n - 1) Hp) as (A & C & p & -> & Hsc & Hpos & [Hp0 Hin]); [lia..|].
  unfold scan. cbn [new_scanner scan_it scan_total]. rewrite drop_0, Hsc. cbn [scan_it Nat.add].
  pose proof Hp as [HA HC]%positive_app. destruct C as [|r C]; [rewrite app_nil_r in *; lia|]. simpl in Hin.
  rewrite (sum_app A (r :: C)) in Hb, Hn. simpl in Hb, Hn, Hpos. apply positive_cons in HC as [Hr HC].
  pose proof (positive_sum A HA). pose proof (positive_sum C HC).
  exists A, (mkRun (value r) (p + 1)). set (r' := mkRun (value r) (p + 1)). split; [|split].
  - unfold mbind, comp_bind. rewrite update_run_eq, size_add_small by lia. change (set_length (p + 1) r) with r'.
    unfold erase, modify, set_runs. cbn [_runs _total_length]. do 2 f_equal. rewrite (cons_middle r' A C), app_assoc.
    replace (S (length A)) with (length (A ++ [r'])) by (rewrite length_app; simpl; lia).
    rewrite take_app_length, drop_ge by (rewrite !length_app; simpl; lia). by rewrite app_nil_r.
  - constructor; cbn [_runs _total_length]; rewrite ?sum_app; simpl; try lia.
    + apply positive_app. split; [done|]. apply positive_cons. simpl. split; [lia|constructor].
    + rewrite (cons_middle r), app_assoc in Hd. apply differ_split in Hd as (Hd & _). rewrite map_app in Hd |- *. done.
  - replace n with (sum A + (p + 1)) by lia. by rewrite take_cut by (done || lia).
Qed.

Lemma extend_ok n runs : rle_ok (mkRle runs (sum runs)) -> runs <> [] -> sum runs < n < 2 ^ size_bits ->
  exists rs x, update_run (pred (length runs)) (grow size_bits (size_sub size_bits n (sum runs))) (mkRle runs (sum runs)) =
    (mkRle rs (sum runs), Returned tt) /\ rle_ok (mkRle rs n) /\ last (decode runs) = Some x /\
    decode rs = decode runs ++ replicate (Z.to_nat (n - sum runs)) x.
Proof.
  intros [Hp Hd _ Hb] Hne Hn. simpl in Hp, Hd, Hb. destruct runs as [|r A _] using rev_ind; [done|].
  pose proof Hp as [HA [Hr _]%positive_cons]%positive_app. pose proof (positive_sum A HA). pose proof (sum_app A [r]) as Hsum. simpl in Hsum.
  rewrite length_app, Nat.add_1_r. cbn [Nat.pred]. rewrite update_run_eq, size_sub_small, grow_small by lia.
  exists (A ++ [mkRun (value r) (length_ r + (n - sum (A ++ [r])))]), (value r). split; [done|]. split; [|split; [by apply last_decode|]].
  - constructor; cbn [_runs _total_length]; rewrite ?sum_app; simpl; try lia.
    + apply positive_app. split; [done|]. apply positive_cons. simpl. split; [lia|constructor].
    + rewrite map_app in Hd |- *. done.
  - rewrite !decode_app, <- app_assoc, !decode_cons. simpl. rewrite !app_nil_r. f_equal. unfold decode_run. simpl. rewrite <- replicate_add. f_equal. lia.
Qed.

Lemma resize_ok n v : rle_ok v -> 0 <= n < 2 ^ size_bits -> (_runs v <> [] \/ n = 0) ->
  exists v', resize_trailing_extent size_bits n v = (v', Returned tt) /\ rle_ok v' /\ contents v' = resized n (contents v).
Proof.
  destruct v as [runs total]. intros Hok Hn Hne. pose proof (ok_total _ Hok) as Ht. simpl in Ht, Hne. subst total.
  pose proof (length_decode runs (ok_positive _ Hok)) as Hlen. pose proof (ok_bound _ Hok) as Hb. cbn [_runs] in Hb.
  unfold resize_trailing_extent, resized, contents. unfold mbind at 1 2, comp_bind at 1 2, gets. cbn [_total_length _runs].
  assert (n <= sum runs -> (match last (decode runs) with Some x => replicate (Z.to_nat n - length (decode runs)) x | None => [] end) = []) as Hnone.
  { intros Hle. replace (Z.to_nat n - length (decode runs))%nat with 0%nat by lia. by destruct (last _). }
  destruct (Z.eqb_spec n 0) as [->|Hn0].
  { exists (mkRle [] 0). split; [done|]. split; [by constructor; simpl; try lia; constructor|]. rewrite Hnone by lia. by rewrite app_nil_r. }
  destruct (Z.ltb_spec n (sum runs)).
  - rewrite (size_sub_small n 1) by lia. pose proof (shrink_ok n runs Hok) as Hs. destruct (scan size_bits runs (n - 1) new_scanner) as [s pos].
    destruct Hs as (A & r & Heq & Hok' & Hdec); [lia|]. unfold mbind at 1, comp_bind at 1. rewrite Heq. eexists. split; [reflexivity|].
    split; [done|]. rewrite Hnone, app_nil_r by lia. done.
  - unfold mbind, comp_bind. destruct (Z.ltb_spec (sum runs) n).
    + destruct (extend_ok n runs Hok) as (rs & x & -> & Hok' & Hl & Hdec); [by destruct Hne|lia|]. eexists. split; [reflexivity|]. split; [done|].
      rewrite Hl, take_ge by lia. unfold set_total. cbn [_runs]. rewrite Hdec. do 2 f_equal. lia.
    + assert (n = sum runs) as -> by lia. eexists. split; [reflexivity|]. split; [done|]. rewrite Hnone, take_ge, app_nil_r by lia. done.
Qed.
End Props.

Lemma resized_length {T} n (xs : list T) : 0 <= n -> xs <> [] -> length (resized n xs) = Z.to_nat n.
Proof.
  intros Hn Hx. unfold resized. destruct (last xs) as [x|] eqn:E; [|by apply last_None in E]. rewrite length_app, length_take, length_replicate. lia.
Qed.

(** ** Run-length encoded vectors as vectors

    Joining equal runs, comparison, iterators, and the theorem about whole
    histories of operations on a [basic_rle]. *)

Section Vector.
Context {T : Type} `{!EqDecision T} `{!Inhabited T} (size_bits : Z).
Abbreviation run := (rle_pair T).
Abbreviation rle := (basic_rle T).
Implicit Types (r : run) (rs A B C : list run) (v w : rle) (x : T).

(** ** Joining equal neighbours *)
Lemma joined_run r r' rs : value r = value r' -> positive (r :: r' :: rs) -> sum (r :: r' :: rs) < 2 ^ size_bits ->
  let j := grow size_bits (length_ r') r in
  positive (j :: rs) /\ sum (j :: rs) = sum (r :: r' :: rs) /\ decode (j :: rs) = decode (r :: r' :: rs) /\ value j = value r'.
Proof.
  intros Hv [Hr [Hr' Hrs]%positive_cons]%positive_cons Hb. pose proof (positive_sum rs Hrs). simpl in Hb. cbv zeta.
  rewrite grow_small by lia. split; [apply positive_cons; simpl; split; [lia|done]|]. split; [simpl; lia|]. split; [|done].
  rewrite !decode_cons, app_assoc. f_equal. unfold decode_run. simpl. rewrite <- Hv, <- replicate_add. f_equal. lia.
Qed.

(** What joining does to the runs. *)
Record compacted rs rs' : Prop := {
  compacted_positive : positive rs';
  compacted_differ : differ (map value rs');
  compacted_sum : sum rs' = sum rs;
  compacted_decode : decode rs' = decode rs;
  compacted_head : head (map value rs') = head (map value rs);
}.

Lemma compacted_cons r rs rs' : 0 < length_ r -> head (map value rs) <> Some (value r) -> compacted rs rs' -> compacted (r :: rs) (r :: rs').
Proof.
  intros Hr Hne []. constructor; [by apply positive_cons| |simpl; lia|by rewrite !decode_cons, compacted_decode0|done].
  cbn [map]. apply differ_cons. by rewrite compacted_head0.
Qed.

Lemma compact_rest_ok rs : forall r, positive (r :: rs) -> sum (r :: rs) < 2 ^ size_bits -> compacted (r :: rs) (compact_rest size_bits r rs).
Proof.
  induction rs as [|r' rs IH]; intros r Hp Hb; [by constructor|]. cbn [compact_rest]. destruct (decide (value r = value r')) as [Hv|Hv].
  - destruct (joined_run r r' rs Hv Hp Hb) as (H1 & H2 & H3 & H4). destruct (IH (grow size_bits (length_ r') r) H1) as [J1 J2 J3 J4 J5]; [lia|].
    constructor; [done|done|lia|by rewrite J4|]. rewrite J5. by simpl.
  - apply positive_cons in Hp as [Hr Hp]. simpl in Hb. apply compacted_cons; [done|simpl; congruence|]. apply IH; [done|simpl; lia].
Qed.

Lemma compact_runs_ok rs : positive rs -> sum rs < 2 ^ size_bits -> compacted rs (compact_runs size_bits rs).
Proof.
  induction rs as [|r rs IH]; intros Hp Hb; [by constructor|]. destruct rs as [|r' rs]; [by constructor|]. cbn [compact_runs].
  destruct (decide (value r = value r')) as [Hv|Hv].
  - destruct (joined_run r r' rs Hv Hp Hb) as (H1 & H2 & H3 & H4).
    destruct (compact_rest_ok rs (grow size_bits (length_ r') r) H1) as [J1 J2 J3 J4 J5]; [lia|].
    constructor; [done|done|lia|by rewrite J4|]. rewrite J5. by simpl.
  - apply positive_cons in Hp as [Hr Hp]. simpl in Hb. apply compacted_cons; [done|simpl; congruence|]. apply IH; [done|simpl; lia].
Qed.

Lemma replace_values_ok x y v : rle_ok size_bits v -> rle_ok size_bits (replace_values size_bits x y v) /\
  contents (replace_values size_bits x y v) = map (fun z => if decide (z = x) then y else z) (contents v).
Proof.
  destruct v as [runs total]. intros [Hp Hd Ht Hb]. simpl in Hp, Hd, Ht, Hb. unfold replace_values, _compact, set_runs, contents. cbn [_runs _total_length].
  set (f := fun r : run => if decide (value r = x) then mkRun y (length_ r) else r).
  assert (positive (map f runs) /\ sum (map f runs) = sum runs /\
    decode (map f runs) = map (fun z => if decide (z = x) then y else z) (decode runs)) as (H1 & H2 & H3).
  { clear Hd Ht Hb. induction Hp as [|r rs Hr Hp (IH1 & IH2 & IH3)]; [split; [constructor|done]|]. cbn [map].
    assert (length_ (f r) = length_ r) as Hl by (unfold f; by destruct (decide _)).
    split; [apply positive_cons; by rewrite Hl|]. split; [simpl; lia|]. rewrite !decode_cons, map_app, IH3. f_equal.
    unfold decode_run. rewrite Hl. symmetry. etransitivity; [apply fmap_replicate|]. unfold f. by destruct (decide (value r = x)). }
  destruct (compact_runs_ok (map f runs)) as [J1 J2 J3 J4 _]; [done|lia|].
  split; [|by rewrite J4]. constructor; cbn [_runs _total_length]; [done|done|lia|lia].
Qed.

(** ** Comparison *)
Lemma decode_unique rs : forall rs', positive rs -> positive rs' -> differ (map value rs) -> differ (map value rs') ->
  decode rs = decode rs' -> rs = rs'.
Proof.
  assert (forall r rs, 0 < length_ r -> decode (r :: rs) = value r :: drop 1 (decode_run r) ++ decode rs) as Hhd.
  { intros r rs0 Hr. rewrite decode_cons. unfold decode_run. by replace (Z.to_nat (length_ r)) with (S (Z.to_nat (length_ r - 1))) by lia. }
  assert (forall n m x xs ys, (n < m)%nat -> head xs <> Some x -> replicate n x ++ xs = replicate m x ++ ys -> False) as Hlen.
  { intros n m x xs ys Hnm Hh Heq. replace m with (n + S (m - n - 1))%nat in Heq by lia. rewrite replicate_add, <- app_assoc in Heq.
    apply app_inv_head in Heq. subst xs. by apply Hh. }
  assert (forall r rs, positive rs -> differ (map value (r :: rs)) -> head (decode rs) <> Some (value r)) as Hnext.
  { intros r [|r' rs'] Hp Hd; [done|]. apply positive_cons in Hp as [Hr' _]. rewrite Hhd by done. cbn [map] in Hd. apply differ_cons in Hd as [Hne _].
    simpl in *. congruence. }
  induction rs as [|r rs IH]; intros [|r' rs'] Hp Hp' Hd Hd' Heq; [done|..].
  - apply positive_cons in Hp' as [Hr' _]. by rewrite Hhd in Heq.
  - apply positive_cons in Hp as [Hr _]. by rewrite Hhd in Heq.
  - apply positive_cons in Hp as [Hr Hp], Hp' as [Hr' Hp']. assert (value r = value r') as Hv by (rewrite !Hhd in Heq by done; by injection Heq).
    pose proof (Hnext r rs Hp Hd) as N1. pose proof (Hnext r' rs' Hp' Hd') as N2. rewrite !decode_cons in Heq. unfold decode_run in Heq. rewrite <- Hv in Heq, N2.
    assert (length_ r = length_ r') as Hl.
    { destruct (Z.lt_trichotomy (length_ r) (length_ r')) as [Hlt|[|Hlt]]; [exfalso|done|exfalso].
      - eapply (Hlen (Z.to_nat (length_ r)) (Z.to_nat (length_ r'))); [lia|exact N1|exact Heq].
      - eapply (Hlen (Z.to_nat (length_ r')) (Z.to_nat (length_ r))); [lia|exact N2|by symmetry]. }
    rewrite Hl in Heq. apply app_inv_head in Heq. cbn [map] in Hd, Hd'. apply differ_cons in Hd as [_ Hd], Hd' as [_ Hd'].
    rewrite (IH rs') by done. destruct r, r'. simpl in *. by subst.
Qed.

Lemma rle_eqb_contents v w : rle_ok size_bits v -> rle_ok size_bits w -> rle_eqb v w = true <-> contents v = contents w.
Proof.
  intros [Hp Hd Ht _] [Hp' Hd' Ht' _]. unfold rle_eqb, contents. split.
  - intros [_ H]%andb_true_iff. apply bool_decide_eq_true in H. by rewrite H.
  - intros H. apply decode_unique in H; [|done..]. apply andb_true_iff. split; [|by apply bool_decide_eq_true].
    apply Z.eqb_eq. by rewrite Ht, Ht', H.
Qed.

(** ** Iterators *)
Definition valid_iterator (i : rle_iterator) v : Prop :=
  exists A C, _runs v = A ++ C /\ _it i = length A /\ inside (_pos i) C.
Definition offset (i : rle_iterator) v : Z := sum (take (_it i) (_runs v)) + _pos i.

Lemma offset_split i v A C : _runs v = A ++ C -> _it i = length A -> offset i v = sum A + _pos i.
Proof. intros Hr Hi. unfold offset. by rewrite Hr, Hi, take_app_length. Qed.

Lemma begin_valid v : rle_ok size_bits v -> valid_iterator (begin_ v) v /\ offset (begin_ v) v = 0.
Proof. intros [Hp _ _ _]. split; [|done]. exists [], (_runs v). split; [done|]. split; [done|]. by apply inside_zero. Qed.

Lemma end_valid v : rle_ok size_bits v -> valid_iterator (end_ v) v /\ offset (end_ v) v = size v.
Proof.
  intros [_ _ Ht _]. split; [exists (_runs v), []; by rewrite app_nil_r|]. rewrite (offset_split _ _ (_runs v) []); [|by rewrite app_nil_r|done].
  unfold size. rewrite Ht. apply Z.add_0_r.
Qed.

Lemma deref_ok i v : rle_ok size_bits v -> valid_iterator i v -> deref i v = contents v !! Z.to_nat (offset i v).
Proof.
  intros [Hp _ _ _] (A & C & Hr & Hi & Hin0 & Hin). unfold deref, contents. rewrite (offset_split _ _ _ _ Hr Hi), Hr, Hi in *.
  apply positive_app in Hp as [HA HC]. pose proof (length_decode A HA). pose proof (positive_sum A HA).
  rewrite decode_app, (lookup_app_r (decode A)), (lookup_app_r A), Nat.sub_diag by lia. destruct C as [|r C]; [done|].
  simpl. rewrite decode_cons. unfold decode_run.
  rewrite lookup_app_l by (rewrite length_replicate; lia). symmetry. apply lookup_replicate. split; [done|lia].
Qed.

Lemma move_forward_ok rest : forall it pos move, positive rest -> inside pos rest -> 0 <= move -> pos + move <= sum rest ->
  sum rest < 2 ^ size_bits -> exists A C pos', rest = A ++ C /\
  move_forward size_bits rest it pos move = Some (mkIterator (it + length A) pos') /\ sum A + pos' = pos + move /\ inside pos' C.
Proof.
  induction rest as [|r rest IH]; intros it pos move Hp [H0 Hin] Hm Hle Hb; cbn [move_forward].
  - simpl in *. exists [], [], 0. replace (move <=? 0) with true by lia. rewrite Nat.add_0_r. subst pos. simpl. repeat split; lia || done.
  - destruct (Z.leb_spec move 0).
    + exists [], (r :: rest), pos. rewrite Nat.add_0_r. repeat split; try done. simpl. lia.
    + apply positive_cons in Hp as [Hr Hp]. simpl in Hin, Hle, Hb. pose proof (positive_sum rest Hp). rewrite size_sub_small by lia.
      destruct (Z.ltb_spec move (length_ r - pos)).
      * exists [], (r :: rest), (pos + move). rewrite size_add_small, Nat.add_0_r by lia. repeat split; try done; simpl; lia.
      * destruct (IH (S it) 0 (move - (length_ r - pos)) Hp) as (A & C & pos' & -> & -> & Hsum & Hin'); [by apply inside_zero|lia..|].
        exists (r :: A), C, pos'. simpl. rewrite Nat.add_succ_r. repeat split; try done; try lia; apply Hin'.
Qed.

Lemma move_backward_ok rs A : forall C pos move, rs = A ++ C -> positive rs -> inside pos C -> 0 <= move -> move <= sum A + pos ->
  sum rs < 2 ^ size_bits -> exists A' C' pos', rs = A' ++ C' /\
  move_backward size_bits rs (length A) pos move = Some (mkIterator (length A') pos') /\ sum A' + pos' = sum A + pos - move /\ inside pos' C'.
Proof.
  induction A as [|r A IH] using rev_ind; intros C pos move Hrs Hp [H0 Hin] Hm Hle Hb.
  - simpl in *. replace (move <=? pos) with true by lia. exists [], C.
    assert (pos < 2 ^ size_bits) by (subst; destruct C as [|r C]; simpl in *; [lia|]; apply positive_cons in Hp as [_ Hp]; pose proof (positive_sum C Hp); lia).
    destruct (Z.leb_spec move 0); [exists pos|exists (pos - move); rewrite size_sub_small by lia]; repeat split; try done; try lia; destruct C; simpl in *; lia.
  - rewrite length_app, Nat.add_1_r. cbn [move_backward]. rewrite sum_app in *. simpl in *.
    assert (pos < 2 ^ size_bits /\ 0 < length_ r < 2 ^ size_bits /\ positive (r :: C)) as (Hpb & Hrb & HrC).
    { subst rs. rewrite <- app_assoc in *. simpl in *. apply positive_app in Hp as [HA HC]. pose proof (positive_sum A HA). rewrite sum_app in Hb. simpl in Hb.
      pose proof HC as [Hr HC']%positive_cons. pose proof (positive_sum C HC'). split; [|split; [lia|done]]. destruct C as [|r' C]; [lia|].
      apply positive_cons in HC' as [_ HC']. pose proof (positive_sum C HC'). simpl in *. lia. }
    destruct (Z.leb_spec move 0); [|destruct (Z.leb_spec move pos)].
    + exists (A ++ [r]), C, pos. rewrite length_app, Nat.add_1_r, sum_app. simpl. repeat split; try done. lia.
    + exists (A ++ [r]), C, (pos - move). rewrite size_sub_small, length_app, Nat.add_1_r, sum_app by lia. simpl. repeat split; try done; try lia; destruct C; simpl in *; lia.
    + assert (rs = A ++ r :: C) as Hrs' by (subst rs; by rewrite <- app_assoc).
      assert (rs !! length A = Some r) as -> by (rewrite Hrs'; by apply list_lookup_middle). simpl.
      rewrite size_sub_small by lia.
      destruct (IH (r :: C) (length_ r - 1) (move - (pos + 1)) Hrs' Hp) as (A' & C' & pos' & E1 & E2 & E3 & E4); [split; simpl; lia|lia..|].
      exists A', C', pos'. repeat split; try done; try lia; apply E4.
Qed.

Lemma advance_ok i n v : rle_ok size_bits v -> valid_iterator i v -> 0 <= offset i v + n <= size v ->
  exists j, advance size_bits i n v = Some j /\ valid_iterator j v /\ offset j v = offset i v + n.
Proof.
  intros [Hp _ Ht Hb] (A & C & Hr & Hi & Hin) Hn. unfold size in Hn. rewrite Ht in Hn.
  pose proof (offset_split _ _ _ _ Hr Hi) as Ho. unfold advance. destruct (Z.leb_spec 0 n).
  - assert (sum (_runs v) = sum A + sum C) as Hsum by (rewrite Hr; apply sum_app). rewrite Hr in Hp. apply positive_app in Hp as [HA HC].
    pose proof (positive_sum A HA). rewrite Hi, Hr, drop_app_length.
    destruct (move_forward_ok C (length A) (_pos i) n HC Hin) as (A' & C' & pos' & -> & -> & Hs & Hin'); [lia..|].
    eexists. split; [reflexivity|]. rewrite app_assoc in Hr. split.
    + exists (A ++ A'), C'. split; [done|]. simpl. by rewrite length_app.
    + rewrite (offset_split _ _ (A ++ A') C'); [|done|simpl; by rewrite length_app]. rewrite sum_app. simpl. lia.
  - destruct (move_backward_ok (_runs v) A C (_pos i) (- n) Hr Hp Hin) as (A' & C' & pos' & Hr' & Hm & Hs & Hin'); [lia..|].
    rewrite Hi, Hm. eexists. split; [reflexivity|]. split; [by exists A', C'|]. rewrite (offset_split _ _ A' C'); [simpl; lia|done..].
Qed.

Lemma fold_lengths rs : forall n, fold_left Z.add (map length_ rs) n = n + sum rs.
Proof. induction rs as [|r rs IH]; intros n; simpl; [lia|]. rewrite IH. lia. Qed.

Lemma distance_ok i j v : valid_iterator i v -> valid_iterator j v -> distance i j v = offset i v - offset j v.
Proof.
  intros (A & C & Hr & Hi & _) (A' & C' & Hr' & Hj & _). unfold distance, iterator_lt. cbv zeta.
  assert (forall a b : nat, (a <= b)%nat -> sum (drop a (take b (_runs v))) = sum (take b (_runs v)) - sum (take a (_runs v))) as Hsum.
  { intros a b Hab. rewrite <- (take_drop a (take b (_runs v))) at 2. rewrite sum_app, take_take, Nat.min_l by lia. lia. }
  unfold offset. destruct (Nat.ltb_spec (_it i) (_it j)); simpl; [rewrite fold_lengths, Hsum by lia; lia|].
  destruct (Nat.eqb_spec (_it i) (_it j)) as [He|He]; simpl; [destruct (Z.ltb_spec (_pos i) (_pos j))|];
    rewrite fold_lengths, Hsum by lia; lia.
Qed.

(** ** Histories *)
Inductive rle_op :=
| op_replace_value (start_index end_index : Z) (x : T)
| op_replace_runs (start_index end_index : Z) (replacements : list run)
| op_replace_values (old_value new_value : T)
| op_resize (new_size : Z)
| op_slice (start_index end_index : Z).

Definition apply_rle (op : rle_op) : comp rle unit :=
  match op with
  | op_replace_value s e x => replace_value size_bits s e x
  | op_replace_runs s e rs => replace_runs size_bits s e rs
  | op_replace_values x y => modify (replace_values size_bits x y)
  | op_resize n => resize_trailing_extent size_bits n
  | op_slice s e => modify (slice size_bits s e)
  end.

(** The same operations on a plain vector. Replacing throws when the range begins
    behind the end of the vector. *)
Definition vector_replace (s e : Z) (ys xs : list T) : list T * outcome unit :=
  if Z.min e (Z.of_nat (length xs)) <? s then (xs, Threw)
  else (take (Z.to_nat s) xs ++ ys ++ drop (Z.to_nat e) xs, Returned tt).
Definition apply_vector (op : rle_op) (xs : list T) : list T * outcome unit :=
  match op with
  | op_replace_value s e x => vector_replace s e (replicate (Z.to_nat (Z.min e (Z.of_nat (length xs)) - s)) x) xs
  | op_replace_runs s e rs => vector_replace s e (decode rs) xs
  | op_replace_values x y => (map (fun z => if decide (z = x) then y else z) xs, Returned tt)
  | op_resize n => (resized n xs, Returned tt)
  | op_slice s e => (drop (Z.to_nat s) (take (Z.to_nat e) xs), Returned tt)
  end.

(** Arguments of the unsigned type; no empty range is filled with a value, the
    replacements are canonical, the result fits, and only a vector with a last
    element grows. *)
Definition op_ok (op : rle_op) (xs : list T) : Prop :=
  let n := Z.of_nat (length xs) in
  match op with
  | op_replace_value s e x => 0 <= s /\ 0 <= e /\ s <> Z.min e n
  | op_replace_runs s e rs => 0 <= s /\ 0 <= e /\ positive rs /\ differ (map value rs) /\ (s <= Z.min e n -> n - (Z.min e n - s) + sum rs < 2 ^ size_bits)
  | op_replace_values _ _ => True
  | op_resize m => 0 <= m < 2 ^ size_bits /\ (xs <> [] \/ m = 0)
  | op_slice s e => 0 <= s /\ 0 <= e
  end.

Lemma size_contents v : rle_ok size_bits v -> Z.of_nat (length (contents v)) = _total_length v.
Proof. intros [Hp _ -> _]. by apply length_decode. Qed.

(** Replacing, with the indices checked. *)
Lemma replace_runs_ok s e rs v : rle_ok size_bits v -> 0 <= s -> 0 <= e -> positive rs -> differ (map value rs) ->
  (s <= Z.min e (_total_length v) -> _total_length v - (Z.min e (_total_length v) - s) + sum rs < 2 ^ size_bits) ->
  exists v', replace_runs size_bits s e rs v = (v', (vector_replace s e (decode rs) (contents v)).2) /\ rle_ok size_bits v' /\
    contents v' = (vector_replace s e (decode rs) (contents v)).1.
Proof.
  intros Hok Hs He Hp Hd Hb. unfold replace_runs, _check_indices, vector_replace, mbind, comp_bind, gets. rewrite size_contents by done.
  replace (if _total_length v <? e then _total_length v else e) with (Z.min e (_total_length v)) by (destruct (Z.ltb_spec (_total_length v) e); lia).
  destruct (Z.ltb_spec (Z.min e (_total_length v)) s) as [Hlt|Hle]; [by exists v|]. cbn [mret comp_ret fst snd].
  pose proof (size_contents v Hok) as Hsize.
  assert (drop (Z.to_nat e) (contents v) = drop (Z.to_nat (Z.min e (_total_length v))) (contents v)) as ->.
  { destruct (Z.min_spec e (_total_length v)) as [[? ->]|[? ->]]; [done|]. rewrite !drop_ge by lia. done. }
  destruct rs as [|r rs].
  - destruct (remove_ok size_bits s (Z.min e (_total_length v)) v Hok) as (v' & Heq & Hok' & Hc); [lia..|]. by exists v'.
  - destruct (replace_unchecked_ok size_bits s (Z.min e (_total_length v)) (r :: rs) v Hok) as (v' & Heq & Hok' & Hc); try done; [lia..|auto|]. by exists v'.
Qed.

Lemma replace_value_runs s e x v : replace_value size_bits s e x v =
  replace_runs size_bits s e [mkRun x (size_sub size_bits (Z.min e (_total_length v)) s)] v.
Proof.
  unfold replace_value, replace_runs, _check_indices, mbind, comp_bind, gets.
  replace (if _total_length v <? e then _total_length v else e) with (Z.min e (_total_length v)) by (destruct (Z.ltb_spec (_total_length v) e); lia).
  by destruct (_ <? s).
Qed.

Lemma apply_rle_ok op v : rle_ok size_bits v -> op_ok op (contents v) ->
  exists v', apply_rle op v = (v', (apply_vector op (contents v)).2) /\ rle_ok size_bits v' /\ contents v' = (apply_vector op (contents v)).1.
Proof.
  intros Hok Hop. unfold op_ok in Hop. destruct op as [s e x|s e rs|x y|n|s e]; cbn [apply_rle apply_vector]; rewrite ?size_contents in * by done.
  - destruct Hop as (Hs & He & Hne). rewrite replace_value_runs. unfold vector_replace. rewrite size_contents by done.
    destruct (Z.ltb_spec (Z.min e (_total_length v)) s) as [Hlt|Hle].
    + exists v. split; [|done]. unfold replace_runs, _check_indices, mbind, comp_bind, gets.
      replace (if _total_length v <? e then _total_length v else e) with (Z.min e (_total_length v)) by (destruct (Z.ltb_spec (_total_length v) e); lia).
      by replace (Z.min e (_total_length v) <? s) with true by lia.
    + pose proof (ok_total _ _ Hok). pose proof (ok_bound _ _ Hok). rewrite size_sub_small by lia.
      destruct (replace_runs_ok s e [mkRun x (Z.min e (_total_length v) - s)] v Hok Hs He) as (v' & Heq & Hok' & Hc);
        [apply positive_cons; simpl; split; [lia|constructor]|done|simpl; lia|].
      unfold vector_replace in Heq, Hc. rewrite size_contents in Heq, Hc by done.
      replace (Z.min e (_total_length v) <? s) with false in Heq, Hc by lia. exists v'. unfold decode, decode_run in Hc. simpl in Hc. by rewrite app_nil_r in Hc.
  - destruct Hop as (Hs & He & Hp & Hd & Hb). by apply replace_runs_ok.
  - destruct (replace_values_ok x y v Hok). by eexists.
  - destruct Hop as [Hn Hne]. apply resize_ok; [done..|]. destruct Hne as [Hne|]; [left|by right]. intros H0. apply Hne. unfold contents. by rewrite H0.
  - destruct Hop as [Hs He]. destruct (slice_ok size_bits s e v Hok Hs He). by eexists.
Qed.

(** A history on either side: the results of all operations, and what is left. *)
Fixpoint run_ops {S} (apply : rle_op -> S -> S * outcome unit) (ops : list rle_op) (s : S) : S * list (outcome unit) :=
  match ops with
  | [] => (s, [])
  | op :: ops => let '(s, o) := apply op s in let '(s, os) := run_ops apply ops s in (s, o :: os)
  end.

Fixpoint history_ok (ops : list rle_op) (xs : list T) : Prop :=
  match ops with
  | [] => True
  | op :: ops => op_ok op xs /\ history_ok ops (apply_vector op xs).1
  end.

(** Reading an element. *)
Lemma at_ok position v : rle_ok size_bits v -> 0 <= position < _total_length v -> at_ size_bits position v = contents v !! Z.to_nat position.
Proof.
  intros [Hp _ Ht Hb] Hpos. rewrite Ht in *. destruct (scan_range size_bits (_runs v) position position Hp ltac:(lia) ltac:(lia) ltac:(lia)) as (A & B & C & p & q & E & Es & _ & Hs & _ & [Hin0 Hin] & _).
  unfold at_. rewrite Es. cbn [scan_it]. unfold contents. rewrite E in *. apply positive_app in Hp as [HA _]. pose proof (length_decode A HA). pose proof (positive_sum A HA).
  rewrite (lookup_app_r A), Nat.sub_diag by lia. rewrite decode_app, (lookup_app_r (decode A)) by lia. destruct (B ++ C) as [|r rest]; [exfalso; rewrite app_nil_r in Hpos; lia|].
  cbn [lookup list_lookup fmap option_fmap option_map]. rewrite decode_cons. unfold decode_run. rewrite lookup_app_l by (rewrite length_replicate; lia). symmetry. apply lookup_replicate. split; [done|lia].
Qed.

(** C27: Run-length encoding does not show: for every history of operations that respects
    their preconditions ([history_ok]: no fill of an empty range, which would leave an empty
    run behind, replacements that are canonical and fit the size type, and growth only
    of a vector with a last element), the encoded vector has the contents, and its operations the results,
    exceptions included, that a plain vector has; no operation reads outside of the runs; every
    element can be read at its index; and the encoding stays canonical, so that comparing the
    runs compares contents. *)
Theorem rle_refines_vector ops v : rle_ok size_bits v -> history_ok ops (contents v) ->
  let '(v', results) := run_ops apply_rle ops v in
  run_ops apply_vector ops (contents v) = (contents v', results) /\ rle_ok size_bits v' /\
  (forall position, 0 <= position < Z.of_nat (length (contents v')) -> at_ size_bits position v' = contents v' !! Z.to_nat position) /\
  forall w, rle_ok size_bits w -> rle_eqb v' w = true <-> contents v' = contents w.
Proof.
  revert v. induction ops as [|op ops IH]; intros v Hok Hh.
  - simpl. split; [done|]. split; [done|]. split; [intros p Hp; rewrite size_contents in Hp by done; by apply at_ok|]. intros w Hw. by apply (rle_eqb_contents v w).
  - destruct Hh as [Hop Hh]. destruct (apply_rle_ok op v Hok Hop) as (v1 & Heq & Hok1 & Hc1). cbn [run_ops]. rewrite Heq.
    specialize (IH v1 Hok1). rewrite Hc1 in IH. specialize (IH Hh). destruct (apply_vector op (contents v)) as [xs o]. cbn [fst snd] in *.
    destruct (run_ops apply_rle ops v1) as [v2 os]. destruct IH as (IH1 & IH2). by rewrite IH1.
Qed.

(** The iterators of an encoded vector are those of a random-access container:
    from any valid position, adding a distance within the vector gives a valid
    position at that distance, and reading there gives the element at that index. *)
Lemma rle_random_access i n v : rle_ok size_bits v -> valid_iterator i v -> 0 <= offset i v + n <= size v ->
  exists j, advance size_bits i n v = Some j /\ valid_iterator j v /\ distance j i v = n /\
    deref j v = contents v !! Z.to_nat (offset i v + n).
Proof.
  intros Hok Hi Hn. destruct (advance_ok i n v Hok Hi Hn) as (j & Heq & Hj & Ho). exists j. split; [done|]. split; [done|].
  split; [rewrite distance_ok by done; lia|]. by rewrite deref_ok, Ho.
Qed.
End Vector.

(** ** Departures *)

(** Filling an empty range leaves a run without elements, so that vectors with the
    same contents compare different. *)
Lemma empty_fill_leaves_empty_run :
  let v := rle_fill 2 7 in
  let '(v', o) := replace_value 16 1 1 9 v in
  o = Returned tt /\ _runs v' = [mkRun 7 1; mkRun 9 0; mkRun 7 1] /\ contents v' = contents v /\ rle_eqb v' v = false.
Proof. by vm_compute. Qed.

(** Postfix increment returns the next position and leaves the iterator where it
    was. *)
Lemma postfix_increment_stays :
  let v := rle_fill 2 7 in
  post_increment 16 (begin_ v) v = Some (begin_ v, mkIterator 0 1).
Proof. by vm_compute. Qed.

(** ** Examples *)

(** The example of the comments of [_replace_unchecked], and some more. *)
Definition sample_rle : basic_rle Z := rle_of_runs 16 [mkRun 1 3; mkRun 2 3; mkRun 3 3].
Definition sample_ops : list (rle_op (T:=Z)) :=
  [op_replace_runs 2 5 [mkRun 1 2; mkRun 4 1; mkRun 2 1]; op_replace_value 4 7 3; op_replace_runs 100 4 []; op_replace_values 3 1;
   op_slice 1 8; op_resize 12; op_replace_runs 2 3 []].

Lemma sample_rle_ok : rle_ok 16 sample_rle.
Proof. by constructor; repeat constructor. Qed.

Lemma rle_refines_vector_witness :
  let '(v', results) := run_ops (apply_rle 16) sample_ops sample_rle in
  run_ops apply_vector sample_ops (contents sample_rle) = (contents v', results) /\ rle_ok 16 v' /\
  (forall position, 0 <= position < Z.of_nat (length (contents v')) -> at_ 16 position v' = contents v' !! Z.to_nat position) /\
  forall w, rle_ok 16 w -> rle_eqb v' w = true <-> contents v' = contents w.
Proof.
  apply (rle_refines_vector 16 sample_ops sample_rle); [exact sample_rle_ok|].
  vm_compute. repeat split; try discriminate; try (by left); try (repeat constructor; discriminate).
Defined.
