(* ===== verification/CodepointWidth.v ===== *)
(** * How text divides into glyphs: [CodepointWidthDetector]

    src/types/CodepointWidthDetector.cpp: the three ways of measuring text
    (grapheme clusters, [wcswidth], and the old console), forwards and backwards.
    A string view is its address with its contents, so that the comparisons of
    pointers by which the functions recognise a new string are those of the code.
    The renderer that is asked about ambiguous characters is a parameter. *)

From stdpp Require Import gmap.
From S2P Require Import Prelude UnicodeTables.

(** ** The trie *)

Definition table_at (t : list Z) (i : Z) : Z := default 0 (t !! Z.to_nat i).

Definition ucdLookup (cp : Z) : Z :=
  let s0 := table_at s_stage0 (Z.shiftr cp 11) in
  let s1 := table_at s_stage1 (s0 + Z.land (Z.shiftr cp 6) 31) in
  let s2 := table_at s_stage2 (s1 + Z.land (Z.shiftr cp 3) 7) in
  table_at s_stage3 (s2 + Z.land (Z.shiftr cp 0) 7).

Definition ucdGraphemeJoins (state lead trail : Z) : Z :=
  let l := Z.land lead 15 in
  let t := Z.land trail 15 in
  Z.land (Z.shiftr (table_at (default [] (s_joinRules !! Z.to_nat state)) l) (t * 2)) 3.

Definition ucdGraphemeDone (state : Z) : bool := state =? 3.
Definition ucdToCharacterWidth (val : Z) : Z := Z.shiftr val 6.

#[global] Arguments table_at : simpl never.
#[global] Arguments ucdLookup : simpl never.
#[global] Arguments ucdGraphemeJoins : simpl never.
#[global] Arguments ucdGraphemeDone : simpl never.

(** ** UTF-16 *)

Definition is_surrogate (c : Z) : bool := Z.land c 0xF800 =? 0xD800.
Definition combine (c1 c2 : Z) : Z := u32 (u32 (Z.shiftl c1 10) - 0x35FDC00 + c2).

#[global] Arguments is_surrogate : simpl never.
#[global] Arguments combine : simpl never.

(** The next code point of a string that is not empty, and what follows it. *)
Definition utf16NextOrFFFD (it : wstring) : Z * wstring :=
  match it with
  | [] => (0xfffd, [])
  | c :: it =>
    if is_surrogate c then
      match it with
      | c2 :: rest => if (Z.land c 0x400 =? 0) && (Z.land c2 0xFC00 =? 0xDC00) then (combine c c2, rest) else (0xfffd, it)
      | [] => (0xfffd, it)
      end
    else (c, it)
  end.

(** The same backwards; the argument is what precedes the position, last character
    first. *)
Definition utf16PrevOrFFFD (it : wstring) : Z * wstring :=
  match it with
  | [] => (0xfffd, [])
  | c :: it =>
    if is_surrogate c then
      match it with
      | c1 :: rest => if negb (Z.land c 0x400 =? 0) && (Z.land c1 0xFC00 =? 0xD800) then (combine c1 c, rest) else (0xfffd, it)
      | [] => (0xfffd, it)
      end
    else (c, it)
  end.

(** ** The state of an iteration *)

Record wstring_view := mkView { data : Z; text : wstring }.
Definition view_size (v : wstring_view) : Z := Z.of_nat (length (text v)).
Definition view_end (v : wstring_view) : Z := data v + view_size v.

Record GraphemeState := mkGraphemeState { beg : Z; len : Z; width : Z; _state : Z; _last : Z }.
Definition new_GraphemeState : GraphemeState := mkGraphemeState 0 0 0 0 0.

Definition resetIfOutOfRange (first last reset ptr : Z) : Z :=
  if (ptr <? first) || (last <? ptr) then reset else ptr.

(** Where an iteration goes on in a view: if it's a new string argument, at its
    beginning. *)
Definition position (s : GraphemeState) (v : wstring_view) : Z :=
  resetIfOutOfRange (data v) (view_end v) (data v) (beg s + len s).

Inductive TextMeasurementMode := Graphemes | Wcswidth | Console.
#[global] Instance TextMeasurementMode_eq_dec : EqDecision TextMeasurementMode.
Proof. solve_decision. Defined.

(** The answer of the renderer is [None] when the callback throws. *)
Record CodepointWidthDetector := mkDetector {
  _fallbackCache : gmap Z Z;
  _pfnFallbackMethod : option (wstring -> option bool);
  _mode : TextMeasurementMode;
  _ambiguousWidth : Z
}.
Definition new_Detector : CodepointWidthDetector := mkDetector ∅ None Graphemes 1.

Definition SetAmbiguousWidth (w : Z) (d : CodepointWidthDetector) : CodepointWidthDetector :=
  mkDetector (_fallbackCache d) (_pfnFallbackMethod d) (_mode d) w.
Definition SetFallbackMethod f (d : CodepointWidthDetector) : CodepointWidthDetector :=
  mkDetector (_fallbackCache d) f (_mode d) (_ambiguousWidth d).
Definition Reset (mode : TextMeasurementMode) (d : CodepointWidthDetector) : CodepointWidthDetector :=
  mkDetector ∅ (_pfnFallbackMethod d) mode (_ambiguousWidth d).
Definition set_fallbackCache c (d : CodepointWidthDetector) : CodepointWidthDetector :=
  mkDetector c (_pfnFallbackMethod d) (_mode d) (_ambiguousWidth d).

(** A code point as the renderer is asked about it. *)
Definition codepoint_string (codepoint : Z) : wstring :=
  if codepoint <=? 0xffff then [u16 codepoint]
  else [u16 (Z.shiftr codepoint 10 + 0xD7C0); u16 (Z.lor (Z.land codepoint 0x3ff) 0xDC00)].

Definition _checkFallbackViaCache (codepoint : Z) (d : CodepointWidthDetector) : CodepointWidthDetector * Z :=
  match _pfnFallbackMethod d with
  | None => (d, 1)
  | Some fallback =>
    match _fallbackCache d !! codepoint with
    | Some w => (d, w)
    | None =>
      match fallback (codepoint_string codepoint) with
      | None => (d, 1)
      | Some is_wide => let w := if is_wide then 2 else 1 in (set_fallbackCache (<[codepoint := w]> (_fallbackCache d)) d, w)
      end
    end
  end.

(** ** Grapheme clusters *)

(** What one code point adds to the width of its cluster. *)
Definition codepoint_width (ambiguous cp val : Z) : Z :=
  let w := ucdToCharacterWidth val in
  let w := if w =? 3 then ambiguous else w in
  if cp =? 0xFE0F then 2 else w.

#[global] Arguments codepoint_width : simpl never.

(** The loop of [_graphemeNext] from the label [fetchNext]: [state], [lead] and
    [width] so far and the rest of the string behind [clusterEnd]. *)
Fixpoint next_cluster (fuel : nat) (ambiguous state lead w : Z) (clusterEnd : wstring) : Z * Z * Z * wstring :=
  match fuel, clusterEnd with
  | O, _ | _, [] => (state, lead, w, clusterEnd)
  | S fuel, _ =>
    let '(cp, clusterEndNext) := utf16NextOrFFFD clusterEnd in
    let trail := ucdLookup cp in
    let state := ucdGraphemeJoins state lead trail in
    if ucdGraphemeDone state then (Z.lnot 0, 0, w, clusterEnd)
    else next_cluster fuel ambiguous state trail (w + codepoint_width ambiguous cp trail) clusterEndNext
  end.

Definition _graphemeNext (s : GraphemeState) (str : wstring_view) (d : CodepointWidthDetector) : GraphemeState * bool :=
  let clusterBeg := position s str in
  let rest := drop (Z.to_nat (clusterBeg - data str)) (text str) in
  match rest with
  | [] => (s, false)
  | _ =>
    let '(state, lead, w, rest') :=
      if negb (_state s =? 0) then next_cluster (length rest) (_ambiguousWidth d) (Z.lnot (_state s)) (_last s) (width s) rest
      else
        let '(cp, clusterEnd) := utf16NextOrFFFD rest in
        let lead := ucdLookup cp in
        next_cluster (length rest) (_ambiguousWidth d) 0 lead (codepoint_width (_ambiguousWidth d) cp lead) clusterEnd in
    (mkGraphemeState clusterBeg (Z.of_nat (length rest - length rest')) (if 2 <? w then 2 else w) (Z.lnot state) lead,
     negb (match rest' with [] => true | _ => false end))
  end.

(** The same backwards, on what precedes [clusterBeg]. *)
Fixpoint prev_cluster (fuel : nat) (ambiguous state trail w : Z) (clusterBeg : wstring) : Z * Z * Z * wstring :=
  match fuel, clusterBeg with
  | O, _ | _, [] => (state, trail, w, clusterBeg)
  | S fuel, _ =>
    let '(cp, clusterBegNext) := utf16PrevOrFFFD clusterBeg in
    let lead := ucdLookup cp in
    let state := ucdGraphemeJoins state lead trail in
    if ucdGraphemeDone state then (Z.lnot 0, 0, w, clusterBeg)
    else prev_cluster fuel ambiguous state lead (w + codepoint_width ambiguous cp lead) clusterBegNext
  end.

(** What precedes a position in a view, last character first. *)
Definition before (position : Z) (str : wstring_view) : wstring := rev (take (Z.to_nat (position - data str)) (text str)).

Definition _graphemePrev (s : GraphemeState) (str : wstring_view) (d : CodepointWidthDetector) : GraphemeState * bool :=
  let clusterEnd := resetIfOutOfRange (data str) (view_end str) (view_end str) (beg s) in
  let rest := before clusterEnd str in
  match rest with
  | [] => (s, false)
  | _ =>
    let '(state, trail, w, rest') :=
      if negb (_state s =? 0) then prev_cluster (length rest) (_ambiguousWidth d) (Z.lnot (_state s)) (_last s) (width s) rest
      else
        let '(cp, clusterBeg) := utf16PrevOrFFFD rest in
        let trail := ucdLookup cp in
        prev_cluster (length rest) (_ambiguousWidth d) 0 trail (codepoint_width (_ambiguousWidth d) cp trail) clusterBeg in
    (mkGraphemeState (data str + Z.of_nat (length rest')) (Z.of_nat (length rest - length rest')) (if 2 <? w then 2 else w) (Z.lnot state) trail,
     negb (match rest' with [] => true | _ => false end))
  end.

(** ** [wcswidth] *)

Definition wcs_width (ambiguous val : Z) : Z :=
  let w := ucdToCharacterWidth val in if w =? 3 then ambiguous else w.

Fixpoint next_wcs (fuel : nat) (ambiguous state w : Z) (clusterEnd : wstring) : Z * Z * wstring :=
  match fuel, clusterEnd with
  | O, _ | _, [] => (state, w, clusterEnd)
  | S fuel, _ =>
    let '(cp, clusterEndNext) := utf16NextOrFFFD clusterEnd in
    let cw := wcs_width ambiguous (ucdLookup cp) in
    if negb (state =? 0) && negb (cw =? 0) then (0, w, clusterEnd)
    else next_wcs fuel ambiguous 1 (w + cw) clusterEndNext
  end.

Definition _graphemeNextWcswidth (s : GraphemeState) (str : wstring_view) (d : CodepointWidthDetector) : GraphemeState * bool :=
  let clusterBeg := position s str in
  let rest := drop (Z.to_nat (clusterBeg - data str)) (text str) in
  match rest with
  | [] => (s, false)
  | _ =>
    let '(state, w, rest') := next_wcs (length rest) (_ambiguousWidth d) (_state s) (if _state s =? 0 then 0 else width s) rest in
    (mkGraphemeState clusterBeg (Z.of_nat (length rest - length rest')) w state (_last s),
     negb (match rest' with [] => true | _ => false end))
  end.

Fixpoint prev_wcs (fuel : nat) (ambiguous w : Z) (clusterBeg : wstring) : Z * bool * wstring :=
  match fuel with
  | O => (w, false, clusterBeg)
  | S fuel =>
    let '(cp, clusterBeg) := utf16PrevOrFFFD clusterBeg in
    let w := w + wcs_width ambiguous (ucdLookup cp) in
    let hasWidth := negb (w =? 0) in
    let atEnd := match clusterBeg with [] => true | _ => false end in
    if hasWidth || atEnd then (w, hasWidth && atEnd, clusterBeg) else prev_wcs fuel ambiguous w clusterBeg
  end.

Definition _graphemePrevWcswidth (s : GraphemeState) (str : wstring_view) (d : CodepointWidthDetector) : GraphemeState * bool :=
  let clusterEnd := resetIfOutOfRange (data str) (view_end str) (view_end str) (beg s) in
  let rest := before clusterEnd str in
  match rest with
  | [] => (s, false)
  | _ =>
    let '(w, delayedCompletion, rest') :=
      if _state s =? 0 then prev_wcs (length rest) (_ambiguousWidth d) 0 rest else (width s, false, rest) in
    (mkGraphemeState (data str + Z.of_nat (length rest')) (Z.of_nat (length rest - length rest')) w (Z.b2z delayedCompletion) (_last s),
     negb (match rest' with [] => true | _ => false end))
  end.

(** ** The old console *)

Definition console_width (cp : Z) (d : CodepointWidthDetector) : CodepointWidthDetector * Z :=
  let w := ucdToCharacterWidth (ucdLookup cp) in
  if w =? 3 then _checkFallbackViaCache cp d else (d, w).

Definition _graphemeNextConsole (s : GraphemeState) (str : wstring_view) (d : CodepointWidthDetector) : CodepointWidthDetector * (GraphemeState * bool) :=
  let clusterBeg := position s str in
  let rest := drop (Z.to_nat (clusterBeg - data str)) (text str) in
  match rest with
  | [] => (d, (s, false))
  | _ =>
    if _state s =? 0 then
      let '(cp, rest') := utf16NextOrFFFD rest in
      let '(d, w) := console_width cp d in
      let delayedCompletion := match rest' with [] => true | _ => false end in
      (d, (mkGraphemeState clusterBeg (Z.of_nat (length rest - length rest')) w (Z.b2z delayedCompletion) (_last s), negb delayedCompletion))
    else (d, (mkGraphemeState clusterBeg 0 (width s) 0 (_last s), true))
  end.

Definition _graphemePrevConsole (s : GraphemeState) (str : wstring_view) (d : CodepointWidthDetector) : CodepointWidthDetector * (GraphemeState * bool) :=
  let clusterEnd := resetIfOutOfRange (data str) (view_end str) (view_end str) (beg s) in
  let rest := before clusterEnd str in
  match rest with
  | [] => (d, (s, false))
  | _ =>
    if _state s =? 0 then
      let '(cp, rest') := utf16PrevOrFFFD rest in
      let '(d, w) := console_width cp d in
      let delayedCompletion := match rest' with [] => true | _ => false end in
      (d, (mkGraphemeState (data str + Z.of_nat (length rest')) (Z.of_nat (length rest - length rest')) w (Z.b2z delayedCompletion) (_last s), negb delayedCompletion))
    else (d, (mkGraphemeState clusterEnd 0 (width s) 0 (_last s), true))
  end.

(** ** The operations *)

Definition GraphemeNext (s : GraphemeState) (str : wstring_view) (d : CodepointWidthDetector) : CodepointWidthDetector * (GraphemeState * bool) :=
  match _mode d with
  | Graphemes => (d, _graphemeNext s str d)
  | Wcswidth => (d, _graphemeNextWcswidth s str d)
  | Console => _graphemeNextConsole s str d
  end.

Definition GraphemePrev (s : GraphemeState) (str : wstring_view) (d : CodepointWidthDetector) : CodepointWidthDetector * (GraphemeState * bool) :=
  match _mode d with
  | Graphemes => (d, _graphemePrev s str d)
  | Wcswidth => (d, _graphemePrevWcswidth s str d)
  | Console => _graphemePrevConsole s str d
  end.
