(* ===== verification/CodepointWidthProps.v ===== *)
(** * Laws of the width detector

    The tables are never read out of bounds, an iteration always advances and its
    clusters have a width of at most 2, and a string that arrives in pieces has the
    clusters it has in one piece. The class [Measurement] is what the text buffer
    relies on; [CodepointWidthDetector] is an instance of it. *)

From stdpp Require Import gmap.
From S2P Require Import Prelude UnicodeTables CodepointWidth.

(** ** The tables *)

Definition within (lo hi : Z) (t : list Z) : bool := forallb (fun x => (lo <=? x) && (x <=? hi)) t.

Lemma table_at_within lo hi t i : within lo hi t = true -> lo <= 0 <= hi -> lo <= table_at t i <= hi.
Proof.
  unfold within, table_at. rewrite forallb_forall. intros H H0. destruct (t !! Z.to_nat i) as [x|] eqn:Hx; simpl; [|lia].
  apply list_elem_of_lookup_2, list_elem_of_In, H in Hx. lia.
Qed.

Lemma ucdLookup_byte cp : 0 <= ucdLookup cp <= 255.
Proof. unfold ucdLookup. apply table_at_within; [by vm_compute|lia]. Qed.

Lemma land_ones_bound z k n : 0 <= n -> k = Z.ones n -> 0 <= Z.land z k < 2 ^ n.
Proof. intros H ->. rewrite Z.land_ones by done. apply Z.mod_pos_bound. lia. Qed.

(** The trie is only read within its arrays. *)
Lemma ucdLookup_in_bounds cp : 0 <= cp < 0x110000 ->
  let s0 := Z.shiftr cp 11 in
  let s1 := table_at s_stage0 s0 + Z.land (Z.shiftr cp 6) 31 in
  let s2 := table_at s_stage1 s1 + Z.land (Z.shiftr cp 3) 7 in
  let s3 := table_at s_stage2 s2 + Z.land (Z.shiftr cp 0) 7 in
  0 <= s0 < Z.of_nat (length s_stage0) /\ 0 <= s1 < Z.of_nat (length s_stage1) /\
  0 <= s2 < Z.of_nat (length s_stage2) /\ 0 <= s3 < Z.of_nat (length s_stage3).
Proof.
  intros Hcp s0 s1 s2 s3.
  assert (0 <= s0 < 544) by (unfold s0; rewrite Z.shiftr_div_pow2 by lia; split; [apply Z.div_pos; lia|apply Z.div_lt_upper_bound; lia]).
  pose proof (table_at_within 0 999 s_stage0 s0 eq_refl ltac:(lia)).
  pose proof (table_at_within 0 1908 s_stage1 s1 eq_refl ltac:(lia)).
  pose proof (table_at_within 0 2106 s_stage2 s2 eq_refl ltac:(lia)).
  pose proof (land_ones_bound (Z.shiftr cp 6) 31 5 ltac:(lia) eq_refl).
  pose proof (land_ones_bound (Z.shiftr cp 3) 7 3 ltac:(lia) eq_refl).
  pose proof (land_ones_bound (Z.shiftr cp 0) 7 3 ltac:(lia) eq_refl).
  change (Z.of_nat (length s_stage0)) with 544. change (Z.of_nat (length s_stage1)) with 1031.
  change (Z.of_nat (length s_stage2)) with 1916. change (Z.of_nat (length s_stage3)) with 2114.
  change 7 with (Z.ones 3) in *. change 31 with (Z.ones 5) in *.
  assert (0 <= s1 < 1031) by (unfold s1; lia). assert (0 <= s2 < 1916) by (unfold s2; lia). assert (0 <= s3 < 2114) by (unfold s3; lia). done.
Qed.

(** The states of a cluster are 0 and 1, the rows of the join rules. *)
Lemma ucdGraphemeJoins_states state lead trail : state = 0 \/ state = 1 ->
  ucdGraphemeJoins state lead trail = 0 \/ ucdGraphemeJoins state lead trail = 1 \/ ucdGraphemeJoins state lead trail = 3.
Proof.
  intros Hs. unfold ucdGraphemeJoins.
  pose proof (land_ones_bound lead 15 4 ltac:(lia) eq_refl). pose proof (land_ones_bound trail 15 4 ltac:(lia) eq_refl).
  set (l := Z.land lead 15) in *. set (t := Z.land trail 15) in *.
  assert (forallb (fun state => forallb (fun l => forallb (fun t =>
    let j := Z.land (Z.shiftr (table_at (default [] (s_joinRules !! state)) (Z.of_nat l)) (Z.of_nat t * 2)) 3 in
    (j =? 0) || (j =? 1) || (j =? 3)) (seq 0 16)) (seq 0 16)) (seq 0 2) = true) as Hall by by vm_compute.
  rewrite forallb_forall in Hall. specialize (Hall (Z.to_nat state)). rewrite in_seq in Hall.
  specialize (Hall ltac:(lia)). rewrite forallb_forall in Hall. specialize (Hall (Z.to_nat l)). rewrite in_seq in Hall.
  specialize (Hall ltac:(lia)). rewrite forallb_forall in Hall. specialize (Hall (Z.to_nat t)). rewrite in_seq in Hall.
  specialize (Hall ltac:(lia)). simpl in Hall. rewrite !Z2Nat.id in Hall by lia. lia.
Qed.

Lemma ucdToCharacterWidth_bound cp : 0 <= ucdToCharacterWidth (ucdLookup cp) <= 3.
Proof.
  pose proof (ucdLookup_byte cp). unfold ucdToCharacterWidth. rewrite Z.shiftr_div_pow2 by lia.
  split; [apply Z.div_pos; lia|]. apply Z.lt_succ_r, Z.div_lt_upper_bound; lia.
Qed.

(** ** Decoding *)

Definition no_straddle (t1 t2 : wstring) : Prop :=
  match last t1, t2 with
  | Some c, c2 :: _ => ~ (is_surrogate c = true /\ Z.land c 0x400 = 0 /\ Z.land c2 0xFC00 = 0xDC00)
  | _, _ => True
  end.

Lemma utf16Next_suffix t : t <> [] -> exists c p, t = (c :: p) ++ (utf16NextOrFFFD t).2.
Proof.
  destruct t as [|c t]; [done|]. intros _. unfold utf16NextOrFFFD. destruct (is_surrogate c); [|by exists c, []].
  destruct t as [|c2 rest]; [by exists c, []|]. destruct (_ && _); [by exists c, [c2]|by exists c, []].
Qed.

Lemma utf16Next_length t : t <> [] -> (length (utf16NextOrFFFD t).2 < length t)%nat.
Proof. intros H. destruct (utf16Next_suffix t H) as (c & p & Heq). rewrite Heq at 2. rewrite length_app. simpl. lia. Qed.

Lemma utf16Next_app t1 t2 : t1 <> [] -> no_straddle t1 t2 ->
  utf16NextOrFFFD (t1 ++ t2) = ((utf16NextOrFFFD t1).1, (utf16NextOrFFFD t1).2 ++ t2).
Proof.
  destruct t1 as [|c t1]; [done|]. intros _ Hn. simpl. destruct (is_surrogate c) eqn:Hs; [|done].
  destruct t1 as [|c2 rest]; simpl; [|by destruct (_ && _)].
  destruct t2 as [|c2 t2]; [done|]. unfold no_straddle in Hn. simpl in Hn.
  destruct (Z.eqb_spec (Z.land c 0x400) 0); [|done]. by destruct (Z.eqb_spec (Z.land c2 0xFC00) 0xDC00); [destruct Hn|].
Qed.

Lemma no_straddle_suffix p t1 t2 : no_straddle (p ++ t1) t2 -> no_straddle t1 t2.
Proof. unfold no_straddle. rewrite last_app. by destruct (last t1). Qed.

Lemma utf16Next_no_straddle t1 t2 : t1 <> [] -> no_straddle t1 t2 -> no_straddle (utf16NextOrFFFD t1).2 t2.
Proof. intros H. destruct (utf16Next_suffix t1 H) as (c & p & Heq). rewrite Heq at 1. apply no_straddle_suffix. Qed.

(** ** One cluster *)

Section Loops.
Variable ambiguous : Z.

Lemma next_cluster_fuel n m state lead w t : (length t <= n)%nat -> (length t <= m)%nat ->
  next_cluster n ambiguous state lead w t = next_cluster m ambiguous state lead w t.
Proof.
  revert m state lead w t. induction n as [|n IH]; intros m state lead w t Hn Hm.
  { destruct t; [|simpl in Hn; lia]. by destruct m. }
  destruct t as [|c t]; [by destruct m|]. destruct m as [|m]; [simpl in Hm; lia|]. cbn [next_cluster].
  pose proof (utf16Next_length (c :: t) ltac:(done)). destruct (utf16NextOrFFFD (c :: t)) as [cp rest]. cbn [snd fst length] in *.
  destruct (ucdGraphemeDone _); [done|]. apply IH; lia.
Qed.

(** The result is what is left; if anything is, the cluster is complete. *)
Lemma next_cluster_spec n state lead w t : (length t <= n)%nat ->
  let '(state', lead', w', t') := next_cluster n ambiguous state lead w t in
  (exists p, t = p ++ t') /\ (t' <> [] -> state' = -1) /\
  forall k, next_cluster n ambiguous state lead (w + k) t = (state', lead', w' + k, t').
Proof.
  revert state lead w t. induction n as [|n IH]; intros state lead w t Hn.
  { destruct t; [|simpl in Hn; lia]. simpl. split; [by exists []|]. done. }
  destruct t as [|c t]; [simpl; split; [by exists []|done]|]. cbn [next_cluster].
  destruct (utf16Next_suffix (c :: t) ltac:(done)) as (c' & p & Hp).
  pose proof (utf16Next_length (c :: t) ltac:(done)). destruct (utf16NextOrFFFD (c :: t)) as [cp rest]. cbn [snd] in *.
  destruct (ucdGraphemeDone _); [split; [by exists []|]; split; done|].
  specialize (IH (ucdGraphemeJoins state lead (ucdLookup cp)) (ucdLookup cp) (w + codepoint_width ambiguous cp (ucdLookup cp)) rest ltac:(cbn [length] in *; lia)).
  destruct (next_cluster n _ _ _ _ _) as [[[state' lead'] w'] t']. destruct IH as ((q & Hq) & Hdone & Hk).
  split; [exists (c' :: p ++ q); rewrite Hp, Hq; by simpl; rewrite <- app_assoc|]. split; [done|].
  intros k. rewrite <- Hk. f_equal. lia.
Qed.

(** Continuing with a second string is going on in one string. *)
Lemma next_cluster_app n m k state lead w t1 t2 : (length t1 <= n)%nat -> (length t2 <= m)%nat -> (length (t1 ++ t2) <= k)%nat ->
  no_straddle t1 t2 ->
  next_cluster k ambiguous state lead w (t1 ++ t2) =
  let '(state', lead', w', t') := next_cluster n ambiguous state lead w t1 in
  match t' with [] => next_cluster m ambiguous state' lead' w' t2 | _ => (state', lead', w', t' ++ t2) end.
Proof.
  revert k state lead w t1. induction n as [|n IH]; intros k state lead w t1 Hn Hm Hk Hs.
  { destruct t1; [|simpl in Hn; lia]. simpl. by apply next_cluster_fuel. }
  destruct t1 as [|c t1]; [simpl; by apply next_cluster_fuel|]. destruct k as [|k]; [simpl in Hk; lia|].
  assert (next_cluster (S k) ambiguous state lead w ((c :: t1) ++ t2) =
    let '(cp, rest) := utf16NextOrFFFD ((c :: t1) ++ t2) in
    if ucdGraphemeDone (ucdGraphemeJoins state lead (ucdLookup cp)) then (Z.lnot 0, 0, w, (c :: t1) ++ t2)
    else next_cluster k ambiguous (ucdGraphemeJoins state lead (ucdLookup cp)) (ucdLookup cp) (w + codepoint_width ambiguous cp (ucdLookup cp)) rest) as -> by done.
  rewrite utf16Next_app by done. cbn [next_cluster].
  pose proof (utf16Next_length (c :: t1) ltac:(done)). pose proof (utf16Next_no_straddle (c :: t1) t2 ltac:(done) Hs).
  destruct (utf16NextOrFFFD (c :: t1)) as [cp rest]. cbn [snd fst length] in *. destruct (ucdGraphemeDone _); [done|].
  apply IH; [lia|done| |done]. rewrite length_app in Hk |- *. cbn [length] in Hk. lia.
Qed.

Lemma next_wcs_fuel n m state w t : (length t <= n)%nat -> (length t <= m)%nat ->
  next_wcs n ambiguous state w t = next_wcs m ambiguous state w t.
Proof.
  revert m state w t. induction n as [|n IH]; intros m state w t Hn Hm.
  { destruct t; [|simpl in Hn; lia]. by destruct m. }
  destruct t as [|c t]; [by destruct m|]. destruct m as [|m]; [simpl in Hm; lia|]. cbn [next_wcs].
  pose proof (utf16Next_length (c :: t) ltac:(done)). destruct (utf16NextOrFFFD (c :: t)) as [cp rest]. cbn [snd fst length] in *.
  destruct (_ && _); [done|]. apply IH; lia.
Qed.

Lemma next_wcs_spec n state w t : (length t <= n)%nat ->
  let '(state', w', t') := next_wcs n ambiguous state w t in
  (exists p, t = p ++ t') /\ (t' <> [] -> state' = 0).
Proof.
  revert state w t. induction n as [|n IH]; intros state w t Hn.
  { destruct t; [|simpl in Hn; lia]. simpl. by split; [exists []|]. }
  destruct t as [|c t]; [simpl; by split; [exists []|]|]. cbn [next_wcs].
  destruct (utf16Next_suffix (c :: t) ltac:(done)) as (c' & p & Hp).
  pose proof (utf16Next_length (c :: t) ltac:(done)). destruct (utf16NextOrFFFD (c :: t)) as [cp rest]. cbn [snd] in *.
  destruct (_ && _); [by split; [exists []|]|].
  specialize (IH 1 (w + wcs_width ambiguous (ucdLookup cp)) rest ltac:(cbn [length] in *; lia)).
  destruct (next_wcs n _ _ _ _) as [[state' w'] t']. destruct IH as ((q & Hq) & Hdone).
  split; [exists (c' :: p ++ q); rewrite Hp, Hq; by simpl; rewrite <- app_assoc|done].
Qed.

Lemma next_wcs_app n m k state w t1 t2 : (length t1 <= n)%nat -> (length t2 <= m)%nat -> (length (t1 ++ t2) <= k)%nat ->
  no_straddle t1 t2 ->
  next_wcs k ambiguous state w (t1 ++ t2) =
  let '(state', w', t') := next_wcs n ambiguous state w t1 in
  match t' with [] => next_wcs m ambiguous state' w' t2 | _ => (state', w', t' ++ t2) end.
Proof.
  revert k state w t1. induction n as [|n IH]; intros k state w t1 Hn Hm Hk Hs.
  { destruct t1; [|simpl in Hn; lia]. simpl. by apply next_wcs_fuel. }
  destruct t1 as [|c t1]; [simpl; by apply next_wcs_fuel|]. destruct k as [|k]; [simpl in Hk; lia|].
  assert (next_wcs (S k) ambiguous state w ((c :: t1) ++ t2) =
    let '(cp, rest) := utf16NextOrFFFD ((c :: t1) ++ t2) in
    let cw := wcs_width ambiguous (ucdLookup cp) in
    if negb (state =? 0) && negb (cw =? 0) then (0, w, (c :: t1) ++ t2) else next_wcs k ambiguous 1 (w + cw) rest) as -> by done.
  rewrite utf16Next_app by done. cbn [next_wcs].
  pose proof (utf16Next_length (c :: t1) ltac:(done)). pose proof (utf16Next_no_straddle (c :: t1) t2 ltac:(done) Hs).
  destruct (utf16NextOrFFFD (c :: t1)) as [cp rest]. cbn [snd fst length] in *. destruct (_ && _); [done|].
  apply IH; [lia|done| |done]. rewrite length_app in Hk |- *. cbn [length] in Hk. lia.
Qed.

(** Widths: clusters only grow, and one that starts with a width gets no other. *)
Hypothesis Hambiguous : ambiguous = 1 \/ ambiguous = 2.

Lemma codepoint_width_bound cp : 0 <= codepoint_width ambiguous cp (ucdLookup cp) <= 2.
Proof.
  unfold codepoint_width. pose proof (ucdToCharacterWidth_bound cp). destruct (cp =? 0xFE0F); [lia|].
  destruct (Z.eqb_spec (ucdToCharacterWidth (ucdLookup cp)) 3); lia.
Qed.

Lemma wcs_width_bound cp : 0 <= wcs_width ambiguous (ucdLookup cp) <= 2.
Proof.
  unfold wcs_width. pose proof (ucdToCharacterWidth_bound cp). destruct (Z.eqb_spec (ucdToCharacterWidth (ucdLookup cp)) 3); lia.
Qed.

Lemma next_cluster_width n state lead w t : w <= (next_cluster n ambiguous state lead w t).1.2.
Proof.
  revert state lead w t. induction n as [|n IH]; intros state lead w t; [destruct t; simpl; lia|]. destruct t as [|c t]; [simpl; lia|].
  cbn [next_cluster]. destruct (utf16NextOrFFFD (c :: t)) as [cp rest]. destruct (ucdGraphemeDone _); [simpl; lia|].
  pose proof (codepoint_width_bound cp).
  pose proof (IH (ucdGraphemeJoins state lead (ucdLookup cp)) (ucdLookup cp) (w + codepoint_width ambiguous cp (ucdLookup cp)) rest). lia.
Qed.

Lemma next_wcs_width n state w t : 0 <= w <= 2 -> (state = 0 -> w = 0) -> 0 <= (next_wcs n ambiguous state w t).1.2 <= 2.
Proof.
  revert state w t. induction n as [|n IH]; intros state w t Hw H0; [destruct t; simpl; lia|]. destruct t as [|c t]; [simpl; lia|].
  cbn [next_wcs]. destruct (utf16NextOrFFFD (c :: t)) as [cp rest]. pose proof (wcs_width_bound cp).
  destruct (Z.eqb_spec state 0); destruct (Z.eqb_spec (wcs_width ambiguous (ucdLookup cp)) 0); simpl; try lia; apply IH; lia.
Qed.
End Loops.

(** ** What measuring promises *)

(** The first cluster of a string: its length and its width. *)
Class Measurement (D : Type) := {
  measure_next : GraphemeState -> wstring_view -> D -> D * (GraphemeState * bool);
  measured : D -> wstring -> nat * Z;
  measure_ok : D -> Prop
}.

(** The detector may learn, but its answers stay the same. *)
Definition same_measure {D} `{Measurement D} (d d' : D) : Prop := measure_ok d' /\ forall t, measured d' t = measured d t.

Class MeasurementLaws (D : Type) `{Measurement D} : Prop := {
  measured_bounds d t : measure_ok d -> t <> [] ->
    (1 <= (measured d t).1 <= length t)%nat /\ 0 <= (measured d t).2 <= 2;
  measured_ascii d a t : measure_ok d -> 0 <= a < 0x80 -> (forall b t', t = b :: t' -> 0 <= b < 0x80) -> measured d (a :: t) = (1%nat, 1);
  measure_next_empty d s v : text v = [] -> measure_next s v d = (d, (s, false));
  measure_next_bounds d s v : measure_ok d -> 0 <= width s <= 2 -> text v <> [] ->
    let '(d', (s', _)) := measure_next s v d in same_measure d d' /\ 0 <= width s' <= 2 /\ (position s v = data v -> 0 <= len s' <= view_size v);
  measure_next_starts d s v n : measure_ok d -> _state s = 0 -> position s v = data v + Z.of_nat n -> (n < length (text v))%nat ->
    let '(k, w) := measured d (drop n (text v)) in
    exists d' st lst, measure_next s v d = (d', (mkGraphemeState (data v + Z.of_nat n) (Z.of_nat k) w st lst, (n + k <? length (text v))%nat)) /\
      same_measure d d' /\ ((n + k < length (text v))%nat -> st = 0);
  measure_next_continues d p v : measure_ok d -> 0 < data p -> text p <> [] -> text v <> [] ->
    view_end p <= data v \/ view_end v <= data p -> no_straddle (text p) (text v) ->
    (measured d (text p)).1 = length (text p) ->
    let '(d1, (s1, _)) := measure_next new_GraphemeState p d in
    let '(d2, (s2, _)) := measure_next s1 v d1 in
    same_measure d d2 /\ 0 <= len s2 /\ measured d (text p ++ text v) = ((length (text p) + Z.to_nat (len s2))%nat, width s2)
}.

(** ** The detector keeps the promise *)

(** The width of an ambiguous character, without the cache. *)
Definition fallback_width (d : CodepointWidthDetector) (cp : Z) : Z :=
  match _pfnFallbackMethod d with
  | None => 1
  | Some fallback => match fallback (codepoint_string cp) with Some true => 2 | _ => 1 end
  end.

Record detector_ok (d : CodepointWidthDetector) : Prop := {
  ok_ambiguous : _ambiguousWidth d = 1 \/ _ambiguousWidth d = 2;
  ok_cache cp w : _pfnFallbackMethod d <> None -> _fallbackCache d !! cp = Some w -> w = fallback_width d cp
}.

Definition clamp2 (w : Z) : Z := if 2 <? w then 2 else w.

Definition grapheme_cluster (ambiguous : Z) (t : wstring) : nat * Z :=
  let '(cp, rest) := utf16NextOrFFFD t in
  let lead := ucdLookup cp in
  let '(_, _, w, rest') := next_cluster (length t) ambiguous 0 lead (codepoint_width ambiguous cp lead) rest in
  ((length t - length rest')%nat, clamp2 w).

Definition wcs_cluster (ambiguous : Z) (t : wstring) : nat * Z :=
  let '(_, w, rest) := next_wcs (length t) ambiguous 0 0 t in ((length t - length rest)%nat, w).

Definition console_cluster (d : CodepointWidthDetector) (t : wstring) : nat * Z :=
  let '(cp, rest) := utf16NextOrFFFD t in
  let w := ucdToCharacterWidth (ucdLookup cp) in
  ((length t - length rest)%nat, if w =? 3 then fallback_width d cp else w).

Definition cluster (d : CodepointWidthDetector) (t : wstring) : nat * Z :=
  match _mode d with
  | Graphemes => grapheme_cluster (_ambiguousWidth d) t
  | Wcswidth => wcs_cluster (_ambiguousWidth d) t
  | Console => console_cluster d t
  end.

#[export] Instance detector_measurement : Measurement CodepointWidthDetector := {
  measure_next := GraphemeNext;
  measured := cluster;
  measure_ok := detector_ok
}.

Lemma fallback_width_bound d cp : 1 <= fallback_width d cp <= 2.
Proof. unfold fallback_width. destruct (_pfnFallbackMethod d) as [f|]; [|lia]. destruct (f _) as [[|]|]; lia. Qed.

Lemma checkFallback_ok d cp : detector_ok d ->
  let '(d', w) := _checkFallbackViaCache cp d in
  w = fallback_width d cp /\ detector_ok d' /\ _mode d' = _mode d /\ _ambiguousWidth d' = _ambiguousWidth d /\ _pfnFallbackMethod d' = _pfnFallbackMethod d.
Proof.
  intros Hok. pose proof Hok as [Ha Hc]. unfold _checkFallbackViaCache, fallback_width. destruct (_pfnFallbackMethod d) as [f|] eqn:Hf; [|done].
  destruct (_fallbackCache d !! cp) as [w|] eqn:Hl.
  { apply Hc in Hl; [|done]. unfold fallback_width in Hl. rewrite Hf in Hl. by rewrite Hl. }
  destruct (f (codepoint_string cp)) as [b|] eqn:Hb; [|done]. split; [by destruct b|]. split; [|by rewrite <- Hf].
  split; [done|]. simpl. intros cp' w Hne Hl'. unfold fallback_width. simpl. rewrite Hf.
  destruct (decide (cp = cp')) as [<-|Hcp].
  - rewrite lookup_insert_eq in Hl'. injection Hl' as <-. rewrite Hb. by destruct b.
  - rewrite lookup_insert_ne in Hl' by done. apply Hc in Hl'; [|done]. unfold fallback_width in Hl'. by rewrite Hf in Hl'.
Qed.

Lemma console_width_ok d cp : detector_ok d ->
  let '(d', w) := console_width cp d in
  w = (if ucdToCharacterWidth (ucdLookup cp) =? 3 then fallback_width d cp else ucdToCharacterWidth (ucdLookup cp)) /\ same_measure d d'.
Proof.
  intros Hok. unfold console_width. destruct (ucdToCharacterWidth (ucdLookup cp) =? 3); [|by split; [|split]].
  pose proof (checkFallback_ok d cp Hok) as H. destruct (_checkFallbackViaCache cp d) as [d' w]. destruct H as (-> & Hok' & Hm & Ha & Hf).
  split; [done|]. split; [done|]. intros t. simpl. unfold cluster, console_cluster, fallback_width. by rewrite Hm, Ha, Hf.
Qed.

Lemma same_measure_refl d : detector_ok d -> same_measure d d.
Proof. by split. Qed.

Lemma grapheme_cluster_bounds ambiguous t : ambiguous = 1 \/ ambiguous = 2 -> t <> [] ->
  (1 <= (grapheme_cluster ambiguous t).1 <= length t)%nat /\ 0 <= (grapheme_cluster ambiguous t).2 <= 2.
Proof.
  intros Ha Ht. unfold grapheme_cluster. pose proof (utf16Next_length t Ht). destruct (utf16NextOrFFFD t) as [cp rest]. cbn [snd] in *.
  pose proof (next_cluster_spec ambiguous (length t) 0 (ucdLookup cp) (codepoint_width ambiguous cp (ucdLookup cp)) rest ltac:(lia)) as H1.
  pose proof (next_cluster_width ambiguous Ha (length t) 0 (ucdLookup cp) (codepoint_width ambiguous cp (ucdLookup cp)) rest) as H2.
  pose proof (codepoint_width_bound ambiguous Ha cp).
  destruct (next_cluster _ _ _ _ _ _) as [[[st l] w] rest']. destruct H1 as ((p & Hp) & _ & _). subst rest. rewrite length_app in *. simpl in *.
  unfold clamp2. split; [lia|]. destruct (Z.ltb_spec 2 w); lia.
Qed.

Lemma wcs_cluster_bounds ambiguous t : ambiguous = 1 \/ ambiguous = 2 -> t <> [] ->
  (1 <= (wcs_cluster ambiguous t).1 <= length t)%nat /\ 0 <= (wcs_cluster ambiguous t).2 <= 2.
Proof.
  intros Ha Ht. unfold wcs_cluster. pose proof (next_wcs_width ambiguous Ha (length t) 0 0 t ltac:(lia) ltac:(done)) as H2.
  destruct t as [|c t]; [done|]. cbn [length next_wcs] in *. pose proof (utf16Next_length (c :: t) Ht) as Hl.
  destruct (utf16NextOrFFFD (c :: t)) as [cp rest]. cbn [snd negb Z.eqb andb length] in *.
  pose proof (next_wcs_spec ambiguous (length t) 1 (0 + wcs_width ambiguous (ucdLookup cp)) rest ltac:(lia)) as H1.
  destruct (next_wcs _ _ _ _ _) as [[st w] rest']. destruct H1 as ((p & Hp) & _). subst rest. rewrite length_app in *. simpl in *. lia.
Qed.

Lemma console_cluster_bounds d t : t <> [] ->
  (1 <= (console_cluster d t).1 <= length t)%nat /\ 0 <= (console_cluster d t).2 <= 2.
Proof.
  intros Ht. unfold console_cluster. pose proof (utf16Next_length t Ht). destruct (utf16NextOrFFFD t) as [cp rest]. cbn [snd fst] in *.
  pose proof (ucdToCharacterWidth_bound cp). pose proof (fallback_width_bound d cp).
  split; [lia|]. destruct (Z.eqb_spec (ucdToCharacterWidth (ucdLookup cp)) 3); lia.
Qed.

Lemma cluster_bounds d t : detector_ok d -> t <> [] -> (1 <= (cluster d t).1 <= length t)%nat /\ 0 <= (cluster d t).2 <= 2.
Proof.
  intros [Ha _] Ht. unfold cluster. destruct (_mode d); [by apply grapheme_cluster_bounds|by apply wcs_cluster_bounds|by apply console_cluster_bounds].
Qed.

(** *** ASCII *)

Lemma ucdLookup_ascii a : 0 <= a < 0x80 -> ucdLookup a = 0x40 \/ ucdLookup a = 0x41.
Proof.
  intros Ha. assert (forallb (fun n => (ucdLookup (Z.of_nat n) =? 0x40) || (ucdLookup (Z.of_nat n) =? 0x41)) (seq 0 128) = true) as H by by vm_compute.
  rewrite forallb_forall in H. specialize (H (Z.to_nat a)). rewrite in_seq, Z2Nat.id in H by lia. specialize (H ltac:(lia)). lia.
Qed.

Lemma utf16Next_ascii a t : 0 <= a < 0x80 -> utf16NextOrFFFD (a :: t) = (a, t).
Proof.
  intros Ha. unfold utf16NextOrFFFD. replace (is_surrogate a) with false; [done|]. symmetry. unfold is_surrogate.
  apply Z.eqb_neq. intros H. assert (Z.land a 0xF800 = 0) as H0; [|lia]. 
  rewrite <- (Z.mod_small a (2 ^ 7)) by lia. rewrite <- Z.land_ones, <- Z.land_assoc by lia. apply Z.land_0_r.
Qed.

Lemma ascii_joins_nothing a b : 0 <= a < 0x80 -> 0 <= b < 0x80 -> ucdGraphemeDone (ucdGraphemeJoins 0 (ucdLookup a) (ucdLookup b)) = true.
Proof. intros Ha Hb. by destruct (ucdLookup_ascii a Ha) as [-> | ->], (ucdLookup_ascii b Hb) as [-> | ->]. Qed.

Lemma ascii_width ambiguous a : 0 <= a < 0x80 -> codepoint_width ambiguous a (ucdLookup a) = 1 /\ wcs_width ambiguous (ucdLookup a) = 1 /\ ucdToCharacterWidth (ucdLookup a) = 1.
Proof.
  intros Ha. unfold codepoint_width, wcs_width. destruct (Z.eqb_spec a 0xFE0F); [lia|]. by destruct (ucdLookup_ascii a Ha) as [-> | ->].
Qed.

Lemma cluster_ascii d a t : 0 <= a < 0x80 -> (forall b t', t = b :: t' -> 0 <= b < 0x80) -> cluster d (a :: t) = (1%nat, 1).
Proof.
  intros Ha Ht. destruct (ascii_width (_ambiguousWidth d) a Ha) as (H1 & H2 & H3). unfold cluster. destruct (_mode d).
  - unfold grapheme_cluster. rewrite utf16Next_ascii, H1 by done. cbn [length next_cluster]. destruct t as [|b t]; [done|].
    rewrite utf16Next_ascii by (by eapply Ht). rewrite ascii_joins_nothing by (done || by eapply Ht). unfold clamp2. simpl. f_equal. lia.
  - unfold wcs_cluster. cbn [length next_wcs]. rewrite utf16Next_ascii, H2 by done. cbn [negb andb Z.eqb].
    destruct t as [|b t]; [done|]. cbn [length next_wcs]. rewrite utf16Next_ascii by (by eapply Ht).
    destruct (ascii_width (_ambiguousWidth d) b) as (_ & -> & _); [by eapply Ht|]. simpl. f_equal. lia.
  - unfold console_cluster. rewrite utf16Next_ascii, H3 by done. simpl. f_equal. lia.
Qed.

(** *** One call *)

Lemma rest_at s v n : position s v = data v + Z.of_nat n ->
  drop (Z.to_nat (position s v - data v)) (text v) = drop n (text v).
Proof. intros ->. f_equal. lia. Qed.

Lemma drop_not_nil {A} n (l : list A) : (n < length l)%nat -> exists x t, drop n l = x :: t.
Proof. intros H. destruct (drop n l) as [|x t] eqn:E; [|by eauto]. apply (f_equal length) in E. rewrite length_drop in E. simpl in E. lia. Qed.

Lemma more_left {A} n m k (l : list A) : (length l <= k)%nat -> (m = n + k)%nat ->
  (n + (k - length l) <? m)%nat = negb (match l with [] => true | _ => false end).
Proof. intros Hk Hm. destruct l as [|x l]; simpl in *; [apply Nat.ltb_ge|apply Nat.ltb_lt]; lia. Qed.

Lemma cluster_next_starts d s v n : detector_ok d -> _state s = 0 -> position s v = data v + Z.of_nat n -> (n < length (text v))%nat ->
  let '(k, w) := cluster d (drop n (text v)) in
  exists d' st lst, GraphemeNext s v d = (d', (mkGraphemeState (data v + Z.of_nat n) (Z.of_nat k) w st lst, (n + k <? length (text v))%nat)) /\
    same_measure d d' /\ ((n + k < length (text v))%nat -> st = 0).
Proof.
  intros Hok Hs Hp Hn. pose proof (rest_at s v n Hp) as Hr.
  assert (Hlen : length (drop n (text v)) = (length (text v) - n)%nat) by apply length_drop.
  destruct (drop_not_nil n (text v) Hn) as (x & t & Hd). rewrite Hd in *.
  unfold GraphemeNext, cluster. destruct (_mode d).
  - unfold _graphemeNext, grapheme_cluster. rewrite Hp in *. rewrite Hr, Hs. cbn [Z.eqb negb].
    pose proof (utf16Next_length (x :: t) ltac:(done)) as Hl. destruct (utf16NextOrFFFD (x :: t)) as [cp rest]. cbn [snd] in *.
    pose proof (next_cluster_spec (_ambiguousWidth d) (length (x :: t)) 0 (ucdLookup cp) (codepoint_width (_ambiguousWidth d) cp (ucdLookup cp)) rest ltac:(lia)) as H1.
    destruct (next_cluster _ _ _ _ _ _) as [[[st l] w] rest']. destruct H1 as ((p & Hq) & Hdone & _).
    do 3 eexists. split; [|split; [by split|]].
    { by rewrite more_left by (subst rest; rewrite length_app in Hl; simpl in *; lia). }
    intros Hlt. subst rest. rewrite length_app in Hl. destruct rest'; [simpl in *; lia|]. by rewrite Hdone.
  - unfold _graphemeNextWcswidth, wcs_cluster. rewrite Hp in *. rewrite Hr, Hs. cbn [Z.eqb].
    pose proof (next_wcs_spec (_ambiguousWidth d) (length (x :: t)) 0 0 (x :: t) ltac:(lia)) as H1.
    destruct (next_wcs _ _ _ _ _) as [[st w] rest']. destruct H1 as ((p & Hq) & Hdone).
    do 3 eexists. split; [|split; [by split|]].
    { by rewrite more_left by (apply (f_equal length) in Hq; rewrite length_app in Hq; simpl in *; lia). }
    intros Hlt. destruct rest'; [simpl in *; lia|]. by rewrite Hdone.
  - unfold _graphemeNextConsole, console_cluster. rewrite Hp in *. rewrite Hr, Hs. cbn [Z.eqb].
    pose proof (utf16Next_length (x :: t) ltac:(done)) as Hl.
    destruct (utf16NextOrFFFD (x :: t)) as [cp rest]. pose proof (console_width_ok d cp Hok) as H1.
    destruct (console_width cp d) as [d' w]. destruct H1 as (-> & Hsame). do 3 eexists. split; [|split; [done|]].
    { by rewrite more_left by (simpl in *; lia). }
    intros Hlt. destruct rest; [simpl in *; lia|done].
Qed.

Lemma rest_nil s v : text v <> [] -> drop (Z.to_nat (position s v - data v)) (text v) = [] -> position s v = data v -> False.
Proof. intros Hv H He. by rewrite He, Z.sub_diag in H. Qed.

(** In any state, the answer stays within the string. *)
Lemma cluster_next_bounds d s v : detector_ok d -> 0 <= width s <= 2 -> text v <> [] ->
  let '(d', (s', _)) := GraphemeNext s v d in same_measure d d' /\ 0 <= width s' <= 2 /\ (position s v = data v -> 0 <= len s' <= view_size v).
Proof.
  intros Hok Hw Hv. destruct (Z.eq_dec (_state s) 0) as [Hs|Hs].
  { set (n := Z.to_nat (position s v - data v)).
    assert (position s v = data v + Z.of_nat n) as Hp.
    { unfold n, position, resetIfOutOfRange, view_end. destruct (Z.ltb_spec (beg s + len s) (data v)); simpl; [lia|]. destruct (Z.ltb_spec (data v + view_size v) (beg s + len s)); lia. }
    destruct (decide (n < length (text v))%nat) as [Hn|Hn].
    - pose proof (cluster_next_starts d s v n Hok Hs Hp Hn) as H. pose proof (cluster_bounds d (drop n (text v)) Hok) as Hb.
      destruct (cluster d (drop n (text v))) as [k w]. destruct H as (d' & st & lst & -> & Hsame & _).
      rewrite length_drop in Hb. specialize (Hb ltac:(intros E; apply (f_equal length) in E; rewrite length_drop in E; simpl in E; lia)).
      cbn [fst snd width len] in *. destruct Hb as [Hb1 Hb2]. unfold view_size. split; [exact Hsame|]. split; [exact Hb2|]. lia.
    - assert (drop (Z.to_nat (position s v - data v)) (text v) = []) as Hnil.
      { rewrite (rest_at s v n Hp). apply drop_ge. lia. }
      assert (GraphemeNext s v d = (d, (s, false))) as ->.
      { unfold GraphemeNext, _graphemeNext, _graphemeNextWcswidth, _graphemeNextConsole. rewrite Hnil. by destruct (_mode d). }
      split; [by split|]. split; [done|]. intros He. assert (n = 0)%nat by lia. destruct (text v); [done|]. simpl in *. lia. }
  pose proof Hok as [Ha _]. unfold GraphemeNext. destruct (_mode d).
  - unfold _graphemeNext. set (rest := drop _ _). destruct rest as [|x t] eqn:Hr; [split; [done|]; split; [done|]|].
    { by intros He%(rest_nil s v Hv Hr). }
    apply Z.eqb_neq in Hs as ->. cbn [negb].
    pose proof (next_cluster_spec (_ambiguousWidth d) (length (x :: t)) (Z.lnot (_state s)) (_last s) (width s) (x :: t) ltac:(lia)) as H1.
    pose proof (next_cluster_width (_ambiguousWidth d) Ha (length (x :: t)) (Z.lnot (_state s)) (_last s) (width s) (x :: t)) as H2.
    destruct (next_cluster _ _ _ _ _ _) as [[[st l] w] rest']. cbn [fst snd width len] in *. split; [by split|].
    split; [destruct (Z.ltb_spec 2 w); lia|]. intros He. rewrite <- Hr. unfold rest, view_size. rewrite length_drop. lia.
  - unfold _graphemeNextWcswidth. set (rest := drop _ _). destruct rest as [|x t] eqn:Hr; [split; [done|]; split; [done|]|].
    { by intros He%(rest_nil s v Hv Hr). }
    pose proof Hs as Hs'. apply Z.eqb_neq in Hs' as ->.
    pose proof (next_wcs_width (_ambiguousWidth d) Ha (length (x :: t)) (_state s) (width s) (x :: t) Hw ltac:(done)) as H2.
    destruct (next_wcs _ _ _ _ _) as [[st w] rest']. cbn [fst snd width len] in *. split; [by split|].
    split; [done|]. intros He. rewrite <- Hr. unfold rest, view_size. rewrite length_drop. lia.
  - unfold _graphemeNextConsole. set (rest := drop _ _). destruct rest as [|x t] eqn:Hr; [split; [done|]; split; [done|]|].
    { by intros He%(rest_nil s v Hv Hr). }
    apply Z.eqb_neq in Hs as ->. split; [by split|]. split; [done|]. unfold view_size. simpl. lia.
Qed.

(** *** A string in two pieces *)

Lemma next_cluster_states ambiguous n state lead w t : state = 0 \/ state = 1 -> (length t <= n)%nat ->
  let '(state', _, _, t') := next_cluster n ambiguous state lead w t in t' = [] -> state' = 0 \/ state' = 1.
Proof.
  revert state lead w t. induction n as [|n IH]; intros state lead w t Hs Hn; [destruct t; [by intros _|by intros ?]|]. destruct t as [|c t]; [by intros _|].
  cbn [next_cluster]. pose proof (utf16Next_length (c :: t) ltac:(done)). destruct (utf16NextOrFFFD (c :: t)) as [cp rest]. cbn [snd length] in *.
  pose proof (ucdGraphemeJoins_states state lead (ucdLookup cp) Hs) as Hj.
  unfold ucdGraphemeDone. destruct (Z.eqb_spec (ucdGraphemeJoins state lead (ucdLookup cp)) 3); [done|]. apply IH; [tauto|lia].
Qed.

Lemma next_wcs_state ambiguous n state w t : state = 1 -> (length t <= n)%nat ->
  let '(state', _, t') := next_wcs n ambiguous state w t in t' = [] -> state' = 1.
Proof.
  revert state w t. induction n as [|n IH]; intros state w t Hs Hn; [destruct t; [by intros _|by intros ?]|]. destruct t as [|c t]; [by intros _|].
  cbn [next_wcs]. pose proof (utf16Next_length (c :: t) ltac:(done)). destruct (utf16NextOrFFFD (c :: t)) as [cp rest]. cbn [snd length] in *.
  destruct (_ && _); [done|]. apply IH; [done|lia].
Qed.

Lemma position_new p : 0 < data p -> position new_GraphemeState p = data p.
Proof. intros H. unfold position, resetIfOutOfRange. change (beg new_GraphemeState + len new_GraphemeState) with 0. by apply Z.ltb_lt in H as ->. Qed.

Lemma position_end p v l w st lst : l = view_size p -> text p <> [] -> view_end p <= data v \/ view_end v <= data p ->
  position (mkGraphemeState (data p) l w st lst) v = data v.
Proof.
  intros -> Hp H. unfold position, resetIfOutOfRange. cbn [beg len]. change (data p + view_size p) with (view_end p).
  assert (data p < view_end p) by (unfold view_end, view_size; destruct (text p); [done|simpl; lia]).
  assert (data v <= view_end v) by (unfold view_end, view_size; lia).
  destruct (Z.ltb_spec (view_end p) (data v)), (Z.ltb_spec (view_end v) (view_end p)); cbn [orb]; lia.
Qed.

Lemma graphemeNext_continues d p v : detector_ok d -> 0 < data p -> text p <> [] -> text v <> [] ->
  view_end p <= data v \/ view_end v <= data p -> no_straddle (text p) (text v) ->
  (grapheme_cluster (_ambiguousWidth d) (text p)).1 = length (text p) ->
  let '(s1, _) := _graphemeNext new_GraphemeState p d in
  let '(s2, _) := _graphemeNext s1 v d in
  0 <= len s2 /\ grapheme_cluster (_ambiguousWidth d) (text p ++ text v) = ((length (text p) + Z.to_nat (len s2))%nat, width s2).
Proof.
  intros [Ha _] Hd Hp Hv Hdis Hns. unfold grapheme_cluster, _graphemeNext. rewrite position_new, Z.sub_diag by done.
  change (Z.to_nat 0) with O. rewrite !drop_0. cbn [_state new_GraphemeState Z.eqb negb]. rewrite utf16Next_app by done.
  pose proof (utf16Next_length (text p) Hp) as Hl. pose proof (utf16Next_no_straddle (text p) (text v) Hp Hns) as Hns'.
  destruct (text p) as [|x t] eqn:Ht; [done|]. destruct (utf16NextOrFFFD (x :: t)) as [cp rest]. cbn [fst snd] in *.
  set (w0 := codepoint_width _ cp _). set (n := length (x :: t)) in *.
  pose proof (next_cluster_states (_ambiguousWidth d) n 0 (ucdLookup cp) w0 rest ltac:(by left) ltac:(lia)) as Hst.
  pose proof (next_cluster_app (_ambiguousWidth d) n (length (text v)) (length ((x :: t) ++ text v)) 0 (ucdLookup cp) w0 rest (text v)
    ltac:(lia) ltac:(lia) ltac:(rewrite !length_app; fold n; lia) Hns') as Happ.
  pose proof (next_cluster_spec (_ambiguousWidth d) n 0 (ucdLookup cp) w0 rest ltac:(lia)) as Hsp.
  destruct (next_cluster n _ 0 _ w0 rest) as [[[st l] w] rest']. destruct Hsp as ((q & Hq) & _ & _). cbn [fst]. intros Hall.
  assert (rest' = []) as ->; [destruct rest'; [done|]; subst rest; rewrite length_app in Hl; unfold n in *; simpl in Hall, Hl; lia|].
  specialize (Hst eq_refl). rewrite Happ.
  rewrite position_end by (first [done | by rewrite Ht | unfold view_size; rewrite Ht; simpl; lia]). rewrite Z.sub_diag. change (Z.to_nat 0) with O. rewrite !drop_0.
  destruct (text v) as [|y u] eqn:Hu; [done|]. cbn [_state _last width]. rewrite Z.lnot_involutive.
  destruct (Z.eqb_spec (Z.lnot st) 0) as [E|_]; [apply (f_equal Z.lnot) in E; rewrite Z.lnot_involutive in E; change (Z.lnot 0) with (-1) in E; lia|].
  cbn [negb]. fold (clamp2 w). pose proof (next_cluster_spec (_ambiguousWidth d) (length (y :: u)) st l (clamp2 w) (y :: u) ltac:(lia)) as Hs2.
  pose proof (next_cluster_width (_ambiguousWidth d) Ha (length (y :: u)) st l (clamp2 w) (y :: u)) as Hw2.
  destruct (next_cluster _ _ st l (clamp2 w) _) as [[[st2 l2] w2] rest2]. destruct Hs2 as ((q2 & Hq2) & _ & Hk). specialize (Hk (w - clamp2 w)).
  replace (clamp2 w + (w - clamp2 w)) with w in Hk by lia. rewrite Hk. cbn [len width fst snd] in *.
  split; [lia|]. f_equal.
  - assert (length rest2 <= length (y :: u))%nat by (rewrite Hq2, length_app; lia). rewrite length_app. fold n. lia.
  - unfold clamp2 in *. destruct (Z.ltb_spec 2 w); [destruct (Z.ltb_spec 2 (w2 + (w - 2)))|destruct (Z.ltb_spec 2 (w2 + (w - w)))]; destruct (Z.ltb_spec 2 w2); lia.
Qed.

Lemma wcsNext_continues d p v : detector_ok d -> 0 < data p -> text p <> [] -> text v <> [] ->
  view_end p <= data v \/ view_end v <= data p -> no_straddle (text p) (text v) ->
  (wcs_cluster (_ambiguousWidth d) (text p)).1 = length (text p) ->
  let '(s1, _) := _graphemeNextWcswidth new_GraphemeState p d in
  let '(s2, _) := _graphemeNextWcswidth s1 v d in
  0 <= len s2 /\ wcs_cluster (_ambiguousWidth d) (text p ++ text v) = ((length (text p) + Z.to_nat (len s2))%nat, width s2).
Proof.
  intros [Ha _] Hd Hp Hv Hdis Hns. unfold wcs_cluster, _graphemeNextWcswidth. rewrite position_new, Z.sub_diag by done.
  change (Z.to_nat 0) with O. rewrite !drop_0. cbn [_state new_GraphemeState Z.eqb negb].
  pose proof (next_wcs_app (_ambiguousWidth d) (length (text p)) (length (text v)) (length (text p ++ text v)) 0 0 (text p) (text v)
    ltac:(lia) ltac:(lia) ltac:(lia) Hns) as Happ.
  assert (let '(st, _, t') := next_wcs (length (text p)) (_ambiguousWidth d) 0 0 (text p) in t' = [] -> st = 1) as Hst.
  { destruct (text p) as [|x t] eqn:Ht; [done|]. cbn [length next_wcs]. pose proof (utf16Next_length (x :: t) ltac:(done)).
    destruct (utf16NextOrFFFD (x :: t)) as [cp rest]. cbn [snd negb Z.eqb andb length] in *. apply next_wcs_state; [done|lia]. }
  destruct (text p) as [|x t] eqn:Ht; [done|]. destruct (next_wcs (length (x :: t)) _ 0 0 _) as [[st w] rest']. cbn [fst]. intros Hall.
  assert (rest' = []) as ->; [destruct rest'; [done|]; simpl in Hall; lia|]. rewrite (Hst eq_refl) in *. rewrite Happ.
  rewrite position_end by (first [done | by rewrite Ht | unfold view_size; rewrite Ht; simpl; lia]). rewrite Z.sub_diag. change (Z.to_nat 0) with O. rewrite !drop_0.
  destruct (text v) as [|y u] eqn:Hu; [done|]. cbn [_state width Z.eqb].
  pose proof (next_wcs_spec (_ambiguousWidth d) (length (y :: u)) 1 w (y :: u) ltac:(lia)) as Hs2.
  destruct (next_wcs _ _ 1 w _) as [[st2 w2] rest2]. destruct Hs2 as ((q2 & Hq2) & _). cbn [len width fst snd] in *. split; [lia|]. f_equal.
  assert (length rest2 <= length (y :: u))%nat by (rewrite Hq2, length_app; lia). rewrite length_app. lia.
Qed.

Lemma consoleNext_continues d p v : detector_ok d -> 0 < data p -> text p <> [] -> text v <> [] ->
  view_end p <= data v \/ view_end v <= data p -> no_straddle (text p) (text v) ->
  (console_cluster d (text p)).1 = length (text p) ->
  let '(d1, (s1, _)) := _graphemeNextConsole new_GraphemeState p d in
  let '(d2, (s2, _)) := _graphemeNextConsole s1 v d1 in
  same_measure d d2 /\ 0 <= len s2 /\ console_cluster d (text p ++ text v) = ((length (text p) + Z.to_nat (len s2))%nat, width s2).
Proof.
  intros Hok Hd Hp Hv Hdis Hns. unfold console_cluster, _graphemeNextConsole. rewrite position_new, Z.sub_diag by done.
  change (Z.to_nat 0) with O. rewrite !drop_0. cbn [_state new_GraphemeState Z.eqb negb]. rewrite utf16Next_app by done.
  pose proof (utf16Next_length (text p) Hp) as Hl. destruct (text p) as [|x t] eqn:Ht; [done|].
  destruct (utf16NextOrFFFD (x :: t)) as [cp rest]. cbn [fst snd] in *. intros Hall.
  assert (rest = []) as ->; [destruct rest; [done|]; simpl in Hall, Hl; lia|]. cbn [app].
  pose proof (console_width_ok d cp Hok) as H1. destruct (console_width cp d) as [d' w]. destruct H1 as (-> & Hsame).
  rewrite position_end by (first [done | by rewrite Ht | unfold view_size; rewrite Ht; simpl; lia]). rewrite Z.sub_diag. change (Z.to_nat 0) with O. rewrite !drop_0.
  destruct (text v) as [|y u] eqn:Hu; [done|]. cbn [_state width Z.eqb Z.b2z len]. split; [done|]. split; [lia|]. f_equal. cbn [length]. rewrite length_app. simpl. lia.
Qed.

#[export] Instance detector_laws : MeasurementLaws CodepointWidthDetector.
Proof.
  constructor.
  - apply cluster_bounds.
  - intros d a t _. apply cluster_ascii.
  - intros d s v Hv. simpl. unfold GraphemeNext, _graphemeNext, _graphemeNextWcswidth, _graphemeNextConsole. rewrite Hv, drop_nil. by destruct (_mode d).
  - apply cluster_next_bounds.
  - apply cluster_next_starts.
  - intros d p v Hok Hd Hp Hv Hdis Hns. simpl. unfold cluster, GraphemeNext. destruct (_mode d) eqn:Hm; intros Hall.
    + pose proof (graphemeNext_continues d p v Hok Hd Hp Hv Hdis Hns Hall) as H. destruct (_graphemeNext _ p d) as [s1 m1]. rewrite Hm.
      destruct (_graphemeNext s1 v d) as [s2 m2]. split; [by split|done].
    + pose proof (wcsNext_continues d p v Hok Hd Hp Hv Hdis Hns Hall) as H. destruct (_graphemeNextWcswidth _ p d) as [s1 m1]. rewrite Hm.
      destruct (_graphemeNextWcswidth s1 v d) as [s2 m2]. split; [by split|done].
    + pose proof (consoleNext_continues d p v Hok Hd Hp Hv Hdis Hns Hall) as H.
      assert (_mode (_graphemeNextConsole new_GraphemeState p d).1 = Console) as Hm1.
      { unfold _graphemeNextConsole, console_width. destruct (drop _ _); [done|]. destruct (_ =? 0); [|done]. destruct (utf16NextOrFFFD _).
        destruct (_ =? 3); [|done]. pose proof (checkFallback_ok d z0 Hok) as Hc. destruct (_checkFallbackViaCache _ _). destruct Hc as (_ & _ & Hc & _). simpl. by rewrite Hc. }
      destruct (_graphemeNextConsole _ p d) as [d1 [s1 m1]]. simpl in Hm1. rewrite Hm1. by destruct (_graphemeNextConsole s1 v d1) as [d2 [s2 m2]].
Qed.

(** ** Text that arrives in pieces *)

(** C37: Clusters do not depend on how text is cut into strings: when a string ends
    within a cluster, measuring the next string, wherever it is in memory, goes on
    with that cluster and gives the length and width it has when both strings are
    one, as long as the cut does not separate a surrogate pair. Holds for each of
    the three ways of measuring. *)
Theorem clusters_across_strings d p v a : detector_ok d -> 0 < data p -> 0 < a -> text p <> [] -> text v <> [] ->
  view_end p <= data v \/ view_end v <= data p -> no_straddle (text p) (text v) ->
  (GraphemeNext new_GraphemeState p d).2.2 = false ->
  let '(d1, (s1, _)) := GraphemeNext new_GraphemeState p d in
  let '(_, (s2, _)) := GraphemeNext s1 v d1 in
  let '(_, (whole, _)) := GraphemeNext new_GraphemeState (mkView a (text p ++ text v)) d in
  len whole = len s1 + len s2 /\ width whole = width s2.
Proof.
  intros Hok Hd Ha Hp Hv Hdis Hns.
  assert (Hlen : forall t : wstring, t <> [] -> (0 < length t)%nat) by (intros [|]; simpl; [done|lia]).
  pose proof (measure_next_starts d new_GraphemeState p 0 Hok eq_refl ltac:(rewrite position_new by done; lia) (Hlen _ Hp)) as H1.
  pose proof (measure_next_continues d p v Hok Hd Hp Hv Hdis Hns) as H2. simpl in H1, H2. rewrite drop_0 in H1.
  pose proof (cluster_bounds d (text p) Hok Hp) as Hb. destruct (cluster d (text p)) as [k w].
  destruct H1 as (d1 & st & lst & Heq & _ & _). rewrite Heq in *. simpl. intros Hmore. apply Nat.ltb_ge in Hmore.
  simpl in *. specialize (H2 ltac:(lia)). destruct (GraphemeNext _ v d1) as [d2 [s2 m2]]. destruct H2 as (_ & Hl & Hc).
  set (u := mkView a (text p ++ text v)).
  pose proof (measure_next_starts d new_GraphemeState u 0 Hok eq_refl ltac:(rewrite position_new by done; lia)
    ltac:(simpl; rewrite length_app; pose proof (Hlen _ Hp); lia)) as H3.
  simpl in H3. rewrite drop_0, Hc in H3. destruct H3 as (d3 & st3 & lst3 & -> & _ & _). simpl. lia.
Qed.

(** A base letter, and a combining mark with text that follows. *)
Lemma clusters_across_strings_witness :
  let p := mkView 16 [0x65] in
  let v := mkView 64 [0x301; 0x61] in
  let '(d1, (s1, _)) := GraphemeNext new_GraphemeState p new_Detector in
  let '(_, (s2, _)) := GraphemeNext s1 v d1 in
  let '(_, (whole, _)) := GraphemeNext new_GraphemeState (mkView 128 (text p ++ text v)) new_Detector in
  len whole = len s1 + len s2 /\ width whole = width s2 /\ len whole = 2.
Proof.
  pose proof (clusters_across_strings new_Detector (mkView 16 [0x65]) (mkView 64 [0x301; 0x61]) 128) as H.
  assert (detector_ok new_Detector) as Hok by (split; [by left|by intros ? ? []]).
  specialize (H Hok eq_refl eq_refl ltac:(discriminate) ltac:(discriminate)).
  specialize (H ltac:(left; vm_compute; discriminate) ltac:(intros (E & _); vm_compute in E; discriminate) ltac:(vm_compute; reflexivity)).
  revert H. vm_compute. intros [H1 H2]. split; [exact H1|]. split; [exact H2|reflexivity].
Defined.
