(* ===== verification/Geometry.v ===== *)
(** * Points, rectangles and viewports

    src/inc/til/point.h, size.h and rect.h, and src/types/viewport.cpp. The
    arithmetic of til is checked: [None] is the exception for a result that is not
    a [CoordType]. The arithmetic of [Viewport] is that of [int], whose overflow is
    undefined; it is written out where sizes are multiplied, where [None] stands for
    undefined behaviour. *)

From stdpp Require Import list.
From S2P Require Import Prelude.

Definition is_CoordType (z : Z) : bool := (CoordTypeMin <=? z) && (z <=? CoordTypeMax).

(** [til::details::extract] of checked arithmetic. *)
Definition extract (z : Z) : option Z := if is_CoordType z then Some z else None.
Definition CheckDiv (a b : Z) : option Z := if b =? 0 then None else extract (Z.quot a b).

Module point.
Record t := mk { x : Z; y : Z }.

#[global] Instance point_eq_dec : EqDecision t.
Proof. solve_decision. Defined.

Definition eqb (a b : t) : bool := (x a =? x b) && (y a =? y b).
Definition is_valid (p : t) : bool := (0 <=? x p) && (0 <=? y p).
Definition lt (a b : t) : bool := (y a <? y b) || ((y a =? y b) && (x a <? x b)).
Definition le (a b : t) : bool := (y a <? y b) || ((y a =? y b) && (x a <=? x b)).
Definition gt (a b : t) : bool := (y b <? y a) || ((y a =? y b) && (x b <? x a)).
Definition ge (a b : t) : bool := (y b <? y a) || ((y a =? y b) && (x b <=? x a)).

Definition add (a b : t) : option t := px ← extract (x a + x b); py ← extract (y a + y b); Some (mk px py).
Definition sub (a b : t) : option t := px ← extract (x a - x b); py ← extract (y a - y b); Some (mk px py).
Definition mul (a b : t) : option t := px ← extract (x a * x b); py ← extract (y a * y b); Some (mk px py).
Definition div (a b : t) : option t := px ← CheckDiv (x a) (x b); py ← CheckDiv (y a) (y b); Some (mk px py).
Definition scale (a : t) (factor : Z) : option t := px ← extract (x a * factor); py ← extract (y a * factor); Some (mk px py).
Definition unscale (a : t) (factor : Z) : option t := px ← CheckDiv (x a) factor; py ← CheckDiv (y a) factor; Some (mk px py).

(** [unwrap_coord] throws for coordinates of more than 16 bits,
    [unwrap_coord_clamped] does not. *)
Definition is_short (z : Z) : bool := (-32768 <=? z) && (z <=? 32767).
Definition unwrap_coord (p : t) : option (Z * Z) := if is_short (x p) && is_short (y p) then Some (x p, y p) else None.
Definition clamp_short (z : Z) : Z := if z <? -32768 then -32768 else if 32767 <? z then 32767 else z.
Definition unwrap_coord_clamped (p : t) : Z * Z := (clamp_short (x p), clamp_short (y p)).
End point.

Module size.
Record t := mk { width : Z; height : Z }.
Definition is_valid (s : t) : bool := (0 <? width s) && (0 <? height s).
Definition add (a b : t) : option t := w ← extract (width a + width b); h ← extract (height a + height b); Some (mk w h).
Definition sub (a b : t) : option t := w ← extract (width a - width b); h ← extract (height a - height b); Some (mk w h).
Definition mul (a b : t) : option t := w ← extract (width a * width b); h ← extract (height a * height b); Some (mk w h).
Definition div (a b : t) : option t := w ← CheckDiv (width a) (width b); h ← CheckDiv (height a) (height b); Some (mk w h).
Definition ceil (a b : Z) : Z := if a =? 0 then 0 else Z.quot (a - 1) b + 1.
Definition divide_ceil (a b : t) : option t :=
  if (width a <? 0) || (height a <? 0) || (width b <=? 0) || (height b <=? 0) then None
  else Some (mk (ceil (width a) (width b)) (ceil (height a) (height b))).
Definition area (s : t) : option Z := extract (width s * height s).
End size.

(** Both corners belong to an [inclusive_rect]. *)
Module inclusive_rect.
Record t := mk { left : Z; top : Z; right : Z; bottom : Z }.
Definition eqb (a b : t) : bool := (left a =? left b) && (top a =? top b) && (right a =? right b) && (bottom a =? bottom b).
Definition is_valid (r : t) : bool := (0 <=? left r) && (0 <=? top r) && (left r <=? right r) && (top r <=? bottom r).
End inclusive_rect.

(** The right and the bottom edge do not belong to a [rect]. *)
Module rect.
Record t := mk { left : Z; top : Z; right : Z; bottom : Z }.
Definition zero : t := mk 0 0 0 0.
Definition of_size (s : size.t) : t := mk 0 0 (size.width s) (size.height s).
Definition of_points (topLeft bottomRight : point.t) : t := mk (point.x topLeft) (point.y topLeft) (point.x bottomRight) (point.y bottomRight).
Definition at_size (topLeft : point.t) (s : size.t) : option t :=
  bottomRight ← point.add topLeft (point.mk (size.width s) (size.height s)); Some (of_points topLeft bottomRight).
Definition eqb (a b : t) : bool := (left a =? left b) && (top a =? top b) && (right a =? right b) && (bottom a =? bottom b).
Definition is_valid (r : t) : bool := (0 <=? left r) && (0 <=? top r) && (left r <? right r) && (top r <? bottom r).
Definition empty (r : t) : bool := negb (is_valid r).
Definition origin (r : t) : point.t := point.mk (left r) (top r).
Definition width (r : t) : option Z := extract (right r - left r).
Definition height (r : t) : option Z := extract (bottom r - top r).
Definition contains (r : t) (p : point.t) : bool :=
  (left r <=? point.x p) && (point.x p <? right r) && (top r <=? point.y p) && (point.y p <? bottom r).
Definition contains_rect (r rc : t) : bool := (left r <=? left rc) && (top r <=? top rc) && (right rc <=? right r) && (bottom rc <=? bottom r).

Definition union (a b : t) : t :=
  if empty a && empty b then zero
  else if empty a then b
  else if empty b then a
  else mk (Z.min (left a) (left b)) (Z.min (top a) (top b)) (Z.max (right a) (right b)) (Z.max (bottom a) (bottom b)).

Definition intersect (a b : t) : t :=
  let l := Z.max (left a) (left b) in
  let r := Z.min (right a) (right b) in
  if r <=? l then zero
  else
    let tp := Z.max (top a) (top b) in
    let bt := Z.min (bottom a) (bottom b) in
    if bt <=? tp then zero else mk l tp r bt.

Definition subtract (a b : t) : list t :=
  let i := intersect a b in
  if empty i then [a]
  else if eqb a i then []
  else filter (fun r => is_valid r = true)
    [mk (left a) (top a) (right a) (top i); mk (left a) (bottom i) (right a) (bottom a);
     mk (left a) (top i) (left i) (bottom i); mk (right i) (top i) (right a) (bottom i)].

(** Moves by a point; [to_origin] is [sub]. *)
Definition move (f : Z -> Z -> Z) (r : t) (p : point.t) : option t :=
  l ← extract (f (left r) (point.x p));
  tp ← extract (f (top r) (point.y p));
  rt ← extract (f (right r) (point.x p));
  bt ← extract (f (bottom r) (point.y p));
  Some (mk l tp rt bt).
Definition add (r : t) (p : point.t) : option t := move Z.add r p.
Definition sub (r : t) (p : point.t) : option t := move Z.sub r p.
Definition to_origin (r : t) (o : point.t) : option t := move Z.sub r o.

Definition scale_up (r : t) (s : size.t) : option t :=
  l ← extract (left r * size.width s);
  tp ← extract (top r * size.height s);
  rt ← extract (right r * size.width s);
  bt ← extract (bottom r * size.height s);
  Some (mk l tp rt bt).
Definition scale_down (r : t) (s : size.t) : option t :=
  if (left r <? 0) || (top r <? 0) || (right r <? 0) || (bottom r <? 0) || (size.width s <=? 0) || (size.height s <=? 0) then None
  else Some (mk (Z.quot (left r) (size.width s)) (Z.quot (top r) (size.height s)) (size.ceil (right r) (size.width s)) (size.ceil (bottom r) (size.height s))).

Definition index_of (r : t) (p : point.t) : option Z :=
  if contains r p then
    rows ← extract (point.y p - top r);
    w ← width r;
    before ← extract (rows * w);
    c ← extract (before + point.x p);
    extract (c - left r)
  else None.
(** [width] and [area] are converted to [size_t]. *)
Definition point_at (r : t) (index : Z) : option point.t :=
  w ← width r;
  if w <? 0 then None
  else
    h ← height r;
    area ← extract (h * w);
    if (area <? 0) || (area <=? index) then None
    else Some (point.mk (left r + index mod w) (top r + index / w)).

Definition of_inclusive (r : inclusive_rect.t) : t :=
  mk (inclusive_rect.left r) (inclusive_rect.top r) (inclusive_rect.right r + 1) (inclusive_rect.bottom r + 1).
Definition to_inclusive_rect (r : t) : inclusive_rect.t := inclusive_rect.mk (left r) (top r) (right r - 1) (bottom r - 1).

(** The walk over the cells, from the left to the right and down. *)
Definition next (r : t) (current : point.t) : option point.t :=
  nextX ← extract (point.x current + 1);
  if right r <=? nextX then nextY ← extract (point.y current + 1); Some (point.mk (left r) nextY)
  else Some (point.mk nextX (point.y current)).
Definition begin_ (r : t) : point.t := point.mk (left r) (top r).
Definition end_ (r : t) : point.t := point.mk (left r) (bottom r).
End rect.

Module Viewport.
Import inclusive_rect.
(** The viewport is stored as the inclusive rectangle [_sr]. *)
Abbreviation t := inclusive_rect.t.
Definition Empty : t := mk 0 0 (-1) (-1).
Definition FromInclusive (sr : inclusive_rect.t) : t := sr.
Definition FromExclusive (sr : rect.t) : t := FromInclusive (rect.to_inclusive_rect sr).
Definition FromDimensions (origin : point.t) (dimensions : size.t) : t :=
  mk (point.x origin) (point.y origin) (point.x origin + size.width dimensions - 1) (point.y origin + size.height dimensions - 1).
Definition Left (v : t) : Z := left v.
Definition RightInclusive (v : t) : Z := right v.
Definition RightExclusive (v : t) : Z := right v + 1.
Definition Top (v : t) : Z := top v.
Definition BottomInclusive (v : t) : Z := bottom v.
Definition BottomExclusive (v : t) : Z := bottom v + 1.
Definition Height (v : t) : Z := BottomExclusive v - Top v.
Definition Width (v : t) : Z := RightExclusive v - Left v.
Definition Origin (v : t) : point.t := point.mk (Left v) (Top v).
Definition BottomRightInclusive (v : t) : point.t := point.mk (RightInclusive v) (BottomInclusive v).
Definition BottomRightExclusive (v : t) : point.t := point.mk (RightExclusive v) (BottomExclusive v).
Definition BottomInclusiveRightExclusive (v : t) : point.t := point.mk (RightExclusive v) (BottomInclusive v).
Definition EndExclusive (v : t) : point.t := point.mk (Left v) (BottomExclusive v).
Definition Dimensions (v : t) : size.t := size.mk (Width v) (Height v).
Definition ToExclusive (v : t) : rect.t := rect.mk (Left v) (Top v) (RightExclusive v) (BottomExclusive v).
Definition ToInclusive (v : t) : inclusive_rect.t := mk (Left v) (Top v) (RightInclusive v) (BottomInclusive v).
Definition IsValid (v : t) : bool := is_valid v.

Definition IsInBounds_viewport (v other : t) : bool :=
  (Left v <=? Left other) && (Left other <=? RightInclusive v) &&
  (Left v <=? RightInclusive other) && (RightInclusive other <=? RightInclusive v) &&
  (Top v <=? Top other) && (Top other <=? BottomInclusive other) &&
  (Top v <=? BottomInclusive other) && (BottomInclusive other <=? BottomInclusive v).
Definition IsInBounds (v : t) (pos : point.t) (allowEndExclusive : bool) : bool :=
  if allowEndExclusive && point.eqb pos (EndExclusive v) then true
  else (Left v <=? point.x pos) && (point.x pos <? RightExclusive v) && (Top v <=? point.y pos) && (point.y pos <? BottomExclusive v).
Definition IsInExclusiveBounds (v : t) (pos : point.t) : bool :=
  (Left v <=? point.x pos) && (point.x pos <=? RightExclusive v) && (Top v <=? point.y pos) && (point.y pos <=? BottomInclusive v).

(** An invalid viewport makes it throw. *)
Definition Clamp (v : t) (pos : point.t) : option point.t :=
  if IsValid v then Some (point.mk (clamp (point.x pos) (Left v) (RightInclusive v)) (clamp (point.y pos) (Top v) (BottomInclusive v))) else None.
Definition Clamp_viewport (v other : t) : t := FromExclusive (rect.intersect (ToExclusive v) (ToExclusive other)).

(** Both comparisons have the same body. *)
Definition compare (v : t) (first second : point.t) : option Z :=
  rows ← extract (point.y first - point.y second);
  vertical ← extract (rows * Width v);
  horizontal ← extract (point.x first - point.x second);
  extract (vertical + horizontal).
Definition CompareInBounds (v : t) (first second : point.t) : option Z := compare v first second.
Definition CompareInExclusiveBounds (v : t) (first second : point.t) : option Z := compare v first second.

(** [gsl::narrow_cast] to [CoordType] *)
Definition narrow_CoordType (z : Z) : Z := (z + 2 ^ 31) mod 2 ^ 32 - 2 ^ 31.

(** The position after walking, and whether it was not clamped; a viewport with no
    columns divides by zero, and the bounds of [std::clamp] must be in order. *)
Definition walk (v : t) (w h max : Z) (pos : point.t) (delta : Z) : option (point.t * bool) :=
  let off := w * (point.y pos - top v) + (point.x pos - left v) + delta in
  let offClamped := clamp off 0 max in
  if (w =? 0) || (max <? 0) then None
  else Some (point.mk (narrow_CoordType (Z.rem offClamped w + left v)) (narrow_CoordType (Z.quot offClamped w + top v)), off =? offClamped).
Definition WalkInBounds (v : t) (pos : point.t) (delta : Z) (allowEndExclusive : bool) : option (point.t * bool) :=
  let w := Z.max 0 (right v - left v + 1) in
  let h := Z.max 0 (bottom v - top v + 1) in
  walk v w h (w * h - Z.b2z (negb allowEndExclusive)) pos delta.
Definition WalkInExclusiveBounds (v : t) (pos : point.t) (delta : Z) : option (point.t * bool) :=
  let w := Z.max 0 (right v - left v + 2) in
  let h := Z.max 0 (bottom v - top v + 1) in
  walk v w h (w * h) pos delta.
Definition IncrementInBounds (v : t) (pos : point.t) (allowEndExclusive : bool) : option (point.t * bool) := WalkInBounds v pos 1 allowEndExclusive.
Definition DecrementInBounds (v : t) (pos : point.t) (allowEndExclusive : bool) : option (point.t * bool) := WalkInBounds v pos (-1) allowEndExclusive.
Definition IncrementInExclusiveBounds (v : t) (pos : point.t) : option (point.t * bool) := WalkInExclusiveBounds v pos 1.
Definition DecrementInExclusiveBounds (v : t) (pos : point.t) : option (point.t * bool) := WalkInExclusiveBounds v pos (-1).
Definition GetWalkOrigin (v : t) (delta : Z) : point.t :=
  point.mk (if 0 <=? delta then Left v else RightInclusive v) (if 0 <=? delta then Top v else BottomInclusive v).
Definition DetermineWalkDirection (source target : t) : Z := if point.lt (Origin target) (Origin source) then 1 else -1.

Definition TrimToViewport (v : t) (r : rect.t) : rect.t * bool :=
  let r := rect.mk (Z.max (rect.left r) (Left v)) (Z.max (rect.top r) (Top v)) (Z.min (rect.right r) (RightExclusive v)) (Z.min (rect.bottom r) (BottomExclusive v)) in
  (r, (rect.left r <? rect.right r) && (rect.top r <? rect.bottom r)).
Definition ConvertToOrigin_rect (v : t) (r : rect.t) : rect.t :=
  rect.mk (rect.left r - Left v) (rect.top r - Top v) (rect.right r - Left v) (rect.bottom r - Top v).
Definition ConvertToOrigin (v other : t) : t := mk (left other - Left v) (top other - Top v) (right other - Left v) (bottom other - Top v).
Definition ConvertToOrigin_point (v : t) (p : point.t) : point.t := point.mk (point.x p - Left v) (point.y p - Top v).
Definition ConvertFromOrigin (v other : t) : t := mk (left other + Left v) (top other + Top v) (right other + Left v) (bottom other + Top v).
Definition ConvertFromOrigin_point (v : t) (p : point.t) : point.t := point.mk (point.x p + Left v) (point.y p + Top v).
Definition ToOrigin (v : t) : t := ConvertToOrigin v v.
Definition Offset (original : t) (delta : point.t) : t :=
  mk (left original + point.x delta) (top original + point.y delta) (right original + point.x delta) (bottom original + point.y delta).

Definition Union (lhs rhs : t) : t :=
  if negb (IsValid lhs) && negb (IsValid rhs) then Empty
  else if negb (IsValid lhs) then rhs
  else if negb (IsValid rhs) then lhs
  else mk (Z.min (Left lhs) (Left rhs)) (Z.min (Top lhs) (Top rhs)) (Z.max (RightInclusive lhs) (RightInclusive rhs)) (Z.max (BottomInclusive lhs) (BottomInclusive rhs)).

Definition Intersect (lhs rhs : t) : t :=
  let intersection := mk (Z.max (Left lhs) (Left rhs)) (Z.max (Top lhs) (Top rhs)) (Z.min (RightInclusive lhs) (RightInclusive rhs)) (Z.min (BottomInclusive lhs) (BottomInclusive rhs)) in
  if negb (IsValid intersection) then Empty else intersection.

Definition Subtract (original removeMe : t) : list t :=
  let i := Intersect original removeMe in
  if negb (IsValid original) then []
  else if negb (IsValid i) then [original]
  else if eqb original i then []
  else filter (fun v => IsValid v = true)
    [mk (Left original) (Top original) (RightInclusive original) (Top i - 1);
     mk (Left original) (BottomExclusive i) (RightInclusive original) (BottomInclusive original);
     mk (Left original) (Top i) (Left i - 1) (BottomInclusive i);
     mk (RightExclusive i) (Top i) (RightInclusive original) (BottomInclusive i)].
End Viewport.
