(* ===== verification/GeometryProps.v ===== *)
(** * Theorems about points, rectangles and viewports *)

From stdpp Require Import list.
From S2P Require Import Prelude Geometry.

(** Case analysis of the comparisons in boolean geometry. *)
Lemma andb_iff (a b : bool) : a && b = true <-> a = true /\ b = true.
Proof. apply andb_true_iff. Qed.

Ltac geometry :=
  repeat match goal with
  | H : _ && _ = true |- _ => apply andb_iff in H as []
  | H : _ || _ = false |- _ => apply orb_false_iff in H as []
  | H : negb _ = true |- _ => apply negb_true_iff in H
  | H : negb _ = false |- _ => apply negb_false_iff in H
  | H : (_ <=? _) = true |- _ => apply Z.leb_le in H
  | H : (_ <? _) = true |- _ => apply Z.ltb_lt in H
  | H : (_ =? _) = true |- _ => apply Z.eqb_eq in H
  | H : (_ <=? _) = false |- _ => apply Z.leb_gt in H
  | H : (_ <? _) = false |- _ => apply Z.ltb_ge in H
  | H : (_ =? _) = false |- _ => apply Z.eqb_neq in H
  end.

Lemma extract_ok z : CoordTypeMin <= z <= CoordTypeMax -> extract z = Some z.
Proof. intros. unfold extract, is_CoordType. destruct (Z.leb_spec CoordTypeMin z), (Z.leb_spec z CoordTypeMax); simpl; (done || lia). Qed.

Lemma extract_Some z z' : extract z = Some z' -> z' = z /\ CoordTypeMin <= z <= CoordTypeMax.
Proof. unfold extract, is_CoordType. intros E. destruct (Z.leb_spec CoordTypeMin z), (Z.leb_spec z CoordTypeMax); simpl in E; [|done..]. by injection E as <-. Qed.

Lemma narrow_id z : CoordTypeMin <= z <= CoordTypeMax -> Viewport.narrow_CoordType z = z.
Proof. unfold Viewport.narrow_CoordType, CoordTypeMin, CoordTypeMax. intros. rewrite Z.mod_small; lia. Qed.

(** ** Cells *)

(** The cells of a viewport, as a proposition. *)
Definition in_viewport (v : Viewport.t) (p : point.t) : Prop :=
  inclusive_rect.left v <= point.x p <= inclusive_rect.right v /\ inclusive_rect.top v <= point.y p <= inclusive_rect.bottom v.

Ltac viewport :=
  unfold in_viewport, Viewport.FromExclusive, Viewport.FromInclusive, rect.to_inclusive_rect, Viewport.Origin, Viewport.BottomRightInclusive, Viewport.Left, Viewport.Top, Viewport.RightInclusive, Viewport.BottomInclusive, Viewport.RightExclusive, Viewport.BottomExclusive in *;
  cbn [inclusive_rect.left inclusive_rect.top inclusive_rect.right inclusive_rect.bottom rect.left rect.top rect.right rect.bottom point.x point.y] in *.

Lemma IsInBounds_iff v p : Viewport.IsInBounds v p false = true <-> in_viewport v p.
Proof.
  unfold Viewport.IsInBounds, in_viewport, Viewport.Left, Viewport.RightExclusive, Viewport.Top, Viewport.BottomExclusive. cbn [andb].
  rewrite !andb_true_iff, !Z.leb_le, !Z.ltb_lt. lia.
Qed.

Lemma IsValid_iff v : Viewport.IsValid v = true <->
  0 <= inclusive_rect.left v <= inclusive_rect.right v /\ 0 <= inclusive_rect.top v <= inclusive_rect.bottom v.
Proof. unfold Viewport.IsValid, inclusive_rect.is_valid. rewrite !andb_true_iff, !Z.leb_le. lia. Qed.

#[global] Instance in_viewport_dec v p : Decision (in_viewport v p).
Proof. unfold in_viewport. apply _. Defined.

(** How many viewports of a list a cell is in. *)
Definition covers (vs : list Viewport.t) (p : point.t) : nat := length (filter (fun v => in_viewport v p) vs).

Lemma covers_cons v vs p : covers (v :: vs) p = ((if decide (in_viewport v p) then 1 else 0) + covers vs p)%nat.
Proof. unfold covers. rewrite filter_cons. by destruct (decide (in_viewport v p)). Qed.

(** Filtering out the invalid ones does not change the cover of a cell with
    nonnegative coordinates. *)
Lemma covers_valid vs p : 0 <= point.x p -> 0 <= point.y p -> Forall (fun v => 0 <= inclusive_rect.left v /\ 0 <= inclusive_rect.top v) vs ->
  covers (filter (fun v => Viewport.IsValid v = true) vs) p = covers vs p.
Proof.
  intros Hx Hy. induction 1 as [|v vs [Hl Ht] _ IH]; [done|]. rewrite filter_cons. destruct (decide (Viewport.IsValid v = true)) as [Hv|Hv].
  - by rewrite !covers_cons, IH.
  - rewrite covers_cons, IH. destruct (decide (in_viewport v p)) as [[? ?]|]; [|done]. exfalso. apply Hv, IsValid_iff. lia.
Qed.

Lemma in_Intersect a b p : Viewport.IsValid a = true -> in_viewport (Viewport.Intersect a b) p <-> in_viewport a p /\ in_viewport b p.
Proof.
  intros Ha. apply IsValid_iff in Ha. unfold Viewport.Intersect. set (i := inclusive_rect.mk _ _ _ _).
  assert (Hi : in_viewport i p <-> in_viewport a p /\ in_viewport b p) by (unfold i; viewport; lia).
  destruct (Viewport.IsValid i) eqn:E; cbn [negb]; [done|].
  assert (~ in_viewport i p).
  { intros [H1 H2]. apply not_true_iff_false in E. apply E, IsValid_iff. unfold i in *. viewport. lia. }
  split; [|tauto]. unfold Viewport.Empty. viewport. lia.
Qed.

Lemma eqb_in_viewport a b p : inclusive_rect.eqb a b = true -> in_viewport a p <-> in_viewport b p.
Proof. unfold inclusive_rect.eqb. intros. geometry. unfold in_viewport. lia. Qed.

(** The four pieces around a viewport that lies inside of another. *)
Lemma pieces_cover o i p : in_viewport o (Viewport.Origin i) -> in_viewport o (Viewport.BottomRightInclusive i) -> Viewport.IsValid i = true ->
  covers [inclusive_rect.mk (inclusive_rect.left o) (inclusive_rect.top o) (inclusive_rect.right o) (inclusive_rect.top i - 1);
          inclusive_rect.mk (inclusive_rect.left o) (inclusive_rect.bottom i + 1) (inclusive_rect.right o) (inclusive_rect.bottom o);
          inclusive_rect.mk (inclusive_rect.left o) (inclusive_rect.top i) (inclusive_rect.left i - 1) (inclusive_rect.bottom i);
          inclusive_rect.mk (inclusive_rect.right i + 1) (inclusive_rect.top i) (inclusive_rect.right o) (inclusive_rect.bottom i)] p =
  (if decide (in_viewport o p /\ ~ in_viewport i p) then 1 else 0)%nat.
Proof.
  intros Ho1 Ho2 Hi. apply IsValid_iff in Hi. rewrite !covers_cons. change (covers [] p) with 0%nat. viewport.
  repeat match goal with |- context [decide ?P] => destruct (decide P) end; lia.
Qed.

(** Subtracting a viewport from a valid one leaves at most four pieces, all
    valid; a cell lies in exactly one of them if it is in the original but not in the
    removed viewport, and in none otherwise. *)
Lemma Subtract_partitions (original removeMe : Viewport.t) : Viewport.IsValid original = true ->
  let pieces := Viewport.Subtract original removeMe in
  Forall (fun v => Viewport.IsValid v = true) pieces /\ (length pieces <= 4)%nat /\
  forall p, covers pieces p = (if decide (in_viewport original p /\ ~ in_viewport removeMe p) then 1 else 0)%nat.
Proof.
  intros Ho pieces. unfold pieces, Viewport.Subtract. rewrite Ho. cbn [negb]. set (i := Viewport.Intersect original removeMe).
  assert (Hin : forall p, in_viewport i p <-> in_viewport original p /\ in_viewport removeMe p) by (intros; by apply in_Intersect).
  destruct (Viewport.IsValid i) eqn:Hi; cbn [negb].
  - destruct (inclusive_rect.eqb original i) eqn:He.
    + split; [done|]. split; [simpl; lia|]. intros p. apply (eqb_in_viewport _ _ p) in He. specialize (Hin p). rewrite decide_False; [done|]. tauto.
    + split; [apply Forall_forall; intros v Hv; by apply list_elem_of_filter in Hv as []|].
      split; [etransitivity; [apply length_filter|done]|]. intros p.
      assert (Hd : in_viewport original p /\ ~ in_viewport removeMe p <-> in_viewport original p /\ ~ in_viewport i p) by (specialize (Hin p); tauto).
      rewrite (decide_ext _ _ _ _ Hd). destruct (decide (0 <= point.x p /\ 0 <= point.y p)) as [[Hx Hy]|Hneg].
      * pose proof Hi as Hi'. apply IsValid_iff in Hi', Ho. rewrite covers_valid; [|done|done|].
        { apply pieces_cover; [..|done]; (apply Hin; viewport; lia). }
        repeat constructor; viewport; lia.
      * apply IsValid_iff in Ho. rewrite decide_False by (unfold in_viewport; lia). unfold covers. apply length_zero_iff_nil.
        assert (Hnone : forall vs, Forall (fun v => Viewport.IsValid v = true) vs -> filter (fun v => in_viewport v p) vs = []).
        { induction 1 as [|v vs Hv _ IH]; [done|]. rewrite filter_cons, decide_False; [done|]. apply IsValid_iff in Hv. unfold in_viewport. lia. }
        apply Hnone, Forall_forall. intros v Hv. by apply list_elem_of_filter in Hv as [].
  - split; [by constructor|]. split; [simpl; lia|]. intros p. rewrite covers_cons. change (covers [] p) with 0%nat.
    assert (~ in_viewport i p).
    { intros Hp. assert (in_viewport original p) by (apply Hin, Hp). apply not_true_iff_false in Hi. apply Hi. unfold i, Viewport.Intersect in Hp |- *.
      destruct (Viewport.IsValid (inclusive_rect.mk _ _ _ _)) eqn:E; cbn [negb] in *; [done|]. unfold Viewport.Empty, in_viewport in Hp. cbn in Hp. lia. }
    specialize (Hin p). rewrite Nat.add_0_r. apply decide_ext. tauto.
Qed.

(** *** The subtraction of rectangles is the same one *)

Lemma rect_valid_iff r : rect.is_valid r = true <-> 0 <= rect.left r < rect.right r /\ 0 <= rect.top r < rect.bottom r.
Proof. unfold rect.is_valid. rewrite !andb_true_iff, !Z.leb_le, !Z.ltb_lt. lia. Qed.

Lemma rect_valid_viewport r : rect.is_valid r = Viewport.IsValid (Viewport.FromExclusive r).
Proof. apply eq_true_iff_eq. rewrite rect_valid_iff, IsValid_iff. viewport. lia. Qed.

Lemma rect_empty_viewport r : rect.empty r = negb (Viewport.IsValid (Viewport.FromExclusive r)).
Proof. unfold rect.empty. by rewrite rect_valid_viewport. Qed.

Lemma rect_intersect_viewport a b : rect.is_valid a = true ->
  let i := rect.intersect a b in let j := Viewport.Intersect (Viewport.FromExclusive a) (Viewport.FromExclusive b) in
  rect.empty i = negb (Viewport.IsValid j) /\ (rect.empty i = false -> Viewport.FromExclusive i = j).
Proof.
  intros Ha i j. apply rect_valid_iff in Ha. rewrite rect_empty_viewport. unfold j, Viewport.Intersect. set (k := inclusive_rect.mk _ _ _ _).
  assert (Hk : Viewport.IsValid k = true <-> Z.max (rect.left a) (rect.left b) < Z.min (rect.right a) (rect.right b) /\ Z.max (rect.top a) (rect.top b) < Z.min (rect.bottom a) (rect.bottom b)).
  { rewrite IsValid_iff. unfold k. viewport. lia. }
  unfold i, rect.intersect. destruct (Z.leb_spec (Z.min (rect.right a) (rect.right b)) (Z.max (rect.left a) (rect.left b))).
  { assert (Viewport.IsValid k = false) as -> by (apply not_true_iff_false; rewrite Hk; lia). done. }
  destruct (Z.leb_spec (Z.min (rect.bottom a) (rect.bottom b)) (Z.max (rect.top a) (rect.top b))).
  { assert (Viewport.IsValid k = false) as -> by (apply not_true_iff_false; rewrite Hk; lia). done. }
  assert (Viewport.IsValid k = true) as -> by (apply Hk; lia). cbn [negb].
  assert (Hke : Viewport.FromExclusive (rect.mk (Z.max (rect.left a) (rect.left b)) (Z.max (rect.top a) (rect.top b)) (Z.min (rect.right a) (rect.right b)) (Z.min (rect.bottom a) (rect.bottom b))) = k).
  { unfold k. viewport. f_equal; lia. }
  rewrite Hke. split; [|done]. f_equal.
Qed.

(** The overloaded subtraction of [til::rect] computes the pieces of
    [Viewport::Subtract]. *)
Lemma rect_subtract_viewport a b : rect.is_valid a = true ->
  map Viewport.FromExclusive (rect.subtract a b) = Viewport.Subtract (Viewport.FromExclusive a) (Viewport.FromExclusive b).
Proof.
  intros Ha. destruct (rect_intersect_viewport a b Ha) as [He Hi]. unfold rect.subtract, Viewport.Subtract. rewrite <- rect_valid_viewport, Ha. cbn [negb]. rewrite <- He.
  destruct (rect.empty (rect.intersect a b)) eqn:E; [done|]. specialize (Hi eq_refl). rewrite <- Hi. set (i := rect.intersect a b).
  assert (Heq : rect.eqb a i = inclusive_rect.eqb (Viewport.FromExclusive a) (Viewport.FromExclusive i)).
  { apply eq_true_iff_eq. unfold rect.eqb, inclusive_rect.eqb. rewrite !andb_true_iff, !Z.eqb_eq. viewport. lia. }
  rewrite Heq. destruct (inclusive_rect.eqb _ _); [done|].
  assert (Hf : forall l, map Viewport.FromExclusive (filter (fun r => rect.is_valid r = true) l) = filter (fun v => Viewport.IsValid v = true) (map Viewport.FromExclusive l)).
  { induction l as [|r l IH]; [done|]. cbn [map]. rewrite !filter_cons. rewrite (rect_valid_viewport r). destruct (decide _); cbn [map]; by rewrite IH. }
  rewrite Hf. f_equal. cbn [map]. viewport. repeat f_equal; lia.
Qed.

(** ** Walking *)

(** The number of a position in reading order. *)
Definition reading_index (v : Viewport.t) (w : Z) (p : point.t) : Z := w * (point.y p - inclusive_rect.top v) + (point.x p - inclusive_rect.left v).

(** Coordinates and their products that fit into an [int]. *)
Definition small_viewport (v : Viewport.t) : Prop :=
  Viewport.IsValid v = true /\ (Viewport.Width v + 1) * (Viewport.Height v + 1) <= 2 ^ 30 /\ inclusive_rect.right v <= 2 ^ 30 /\ inclusive_rect.bottom v <= 2 ^ 30.

Lemma walk_ok v w h max pos delta : 0 < w -> 0 <= max -> 0 <= inclusive_rect.left v -> 0 <= inclusive_rect.top v ->
  inclusive_rect.left v + w <= CoordTypeMax -> inclusive_rect.top v + max / w <= CoordTypeMax ->
  let off := reading_index v w pos + delta in
  exists pos', Viewport.walk v w h max pos delta = Some (pos', off =? clamp off 0 max) /\
    reading_index v w pos' = clamp off 0 max /\
    inclusive_rect.left v <= point.x pos' < inclusive_rect.left v + w /\ inclusive_rect.top v <= point.y pos' <= inclusive_rect.top v + max / w.
Proof.
  intros Hw Hm Hl Ht Hlw Htm off. unfold Viewport.walk. fold (reading_index v w pos). fold off.
  destruct (Z.eqb_spec w 0); [lia|]. destruct (Z.ltb_spec max 0); [lia|]. cbn [orb].
  assert (Hc : 0 <= clamp off 0 max <= max) by (rewrite clamp_spec by lia; lia). set (c := clamp off 0 max) in *.
  rewrite Z.rem_mod_nonneg, Z.quot_div_nonneg by lia. assert (Hq : 0 <= c / w <= max / w) by (split; [apply Z.div_pos; lia|apply Z.div_le_mono; lia]).
  assert (Hr : 0 <= c mod w < w) by (apply Z.mod_pos_bound; lia). unfold CoordTypeMax in *.
  eexists. split; [done|]. unfold reading_index. cbn [point.x point.y]. rewrite !narrow_id by (unfold CoordTypeMin, CoordTypeMax; lia).
  split; [|lia]. pose proof (Z.div_mod c w). lia.
Qed.

Lemma walk_in_bounds v pos delta : small_viewport v ->
  let w := Viewport.Width v in let off := reading_index v w pos + delta in let max := w * Viewport.Height v - 1 in
  exists pos', Viewport.WalkInBounds v pos delta false = Some (pos', off =? clamp off 0 max) /\ reading_index v w pos' = clamp off 0 max /\ in_viewport v pos'.
Proof.
  intros (Hv & Ha & Hr & Hb) w off max. apply IsValid_iff in Hv. unfold Viewport.WalkInBounds. cbn [negb Z.b2z].
  unfold w, max, off, Viewport.Width, Viewport.Height in *. viewport.
  replace (Z.max 0 (inclusive_rect.right v - inclusive_rect.left v + 1)) with (inclusive_rect.right v + 1 - inclusive_rect.left v) by lia.
  replace (Z.max 0 (inclusive_rect.bottom v - inclusive_rect.top v + 1)) with (inclusive_rect.bottom v + 1 - inclusive_rect.top v) by lia.
  set (W := inclusive_rect.right v + 1 - inclusive_rect.left v) in *. set (H := inclusive_rect.bottom v + 1 - inclusive_rect.top v) in *.
  assert (HW : 0 < W) by (unfold W; lia). assert (HH : 0 < H) by (unfold H; lia).
  assert (Hdiv : (W * H - 1) / W = H - 1) by (symmetry; apply (Z.div_unique _ _ _ (W - 1)); lia).
  unfold CoordTypeMax. destruct (walk_ok v W H (W * H - 1) pos delta) as (pos' & E & Hi & Hx & Hy); unfold CoordTypeMax; try (unfold W, H in *; lia).
  rewrite Hdiv in Hy. exists pos'. split; [done|]. split; [done|]. unfold W, H in *. lia.
Qed.

Lemma compare_index v p q : small_viewport v -> in_viewport v p -> in_viewport v q ->
  Viewport.CompareInBounds v p q = Some (reading_index v (Viewport.Width v) p - reading_index v (Viewport.Width v) q).
Proof.
  intros (Hv & Ha & Hr & Hb) Hp Hq. apply IsValid_iff in Hv. unfold Viewport.CompareInBounds, Viewport.compare, reading_index. unfold Viewport.Width, Viewport.Height in *. viewport.
  set (W := inclusive_rect.right v + 1 - inclusive_rect.left v) in *. set (H := inclusive_rect.bottom v + 1 - inclusive_rect.top v) in *.
  assert (- (W * H) <= (point.y p - point.y q) * W <= W * H) by (unfold H; nia).
  unfold H in *. rewrite !extract_ok by (unfold CoordTypeMin, CoordTypeMax; lia). cbn [mbind option_bind]. rewrite !extract_ok by (unfold CoordTypeMin, CoordTypeMax; lia). cbn [mbind option_bind].
  rewrite !extract_ok by (unfold CoordTypeMin, CoordTypeMax; nia). f_equal. lia.
Qed.

(** Reading order determines the position. *)
Lemma reading_index_inj v p q : Viewport.IsValid v = true -> in_viewport v p -> in_viewport v q ->
  reading_index v (Viewport.Width v) p = reading_index v (Viewport.Width v) q -> p = q.
Proof.
  intros Hv Hp Hq E. apply IsValid_iff in Hv. destruct p as [px py], q as [qx qy]. unfold reading_index, Viewport.Width in E. viewport.
  assert (py = qy) by nia. subst. f_equal. lia.
Qed.

(** Walking in a viewport visits its cells in reading order: a walk by [delta]
    ends inside; if it reports success, [CompareInBounds] finds exactly [delta] cells
    between the positions, and walking back comes home; it reports failure exactly
    if there are not that many cells, and then stops at the first or the last. *)
Lemma WalkInBounds_counts_cells (v : Viewport.t) (pos : point.t) (delta : Z) : small_viewport v -> in_viewport v pos ->
  exists pos' moved, Viewport.WalkInBounds v pos delta false = Some (pos', moved) /\ in_viewport v pos' /\
    (moved = true -> Viewport.CompareInBounds v pos' pos = Some delta /\ Viewport.WalkInBounds v pos' (- delta) false = Some (pos, true)) /\
    (moved = false -> pos' = Viewport.Origin v /\ delta < 0 \/ pos' = Viewport.BottomRightInclusive v /\ 0 < delta) /\
    (moved = true <-> 0 <= reading_index v (Viewport.Width v) pos + delta < Viewport.Width v * Viewport.Height v).
Proof.
  intros Hv Hp. destruct (walk_in_bounds v pos delta Hv) as (pos' & E & Hi & Hin). eexists pos', _. split; [done|]. split; [done|].
  pose proof (proj1 Hv) as Hvalid. pose proof (proj1 (IsValid_iff v) Hvalid) as Hb. set (W := Viewport.Width v) in *. set (H := Viewport.Height v) in *.
  assert (HW : 0 < W) by (unfold W, Viewport.Width; viewport; lia). assert (HH : 0 < H) by (unfold H, Viewport.Height; viewport; lia).
  assert (Hbound : forall q, in_viewport v q -> 0 <= reading_index v W q < W * H).
  { intros q Hq. unfold reading_index, W, H, Viewport.Width, Viewport.Height. viewport. nia. }
  rewrite clamp_spec in * by nia. set (off := reading_index v W pos + delta) in *. split; [|split].
  - intros Hm. apply Z.eqb_eq in Hm. split; [rewrite compare_index by done; f_equal; fold W; unfold off in *; lia|].
    destruct (walk_in_bounds v pos' (- delta) Hv) as (pos2 & -> & Hi2 & Hin2). fold W H in Hi2. pose proof (Hbound pos Hp).
    fold W H. assert (Eb : reading_index v W pos' + - delta = reading_index v W pos) by (unfold off in *; lia). rewrite Eb in *. rewrite clamp_spec in * by nia.
    replace (Z.max 0 (Z.min (reading_index v W pos) (W * H - 1))) with (reading_index v W pos) in * by lia. rewrite Z.eqb_refl. do 2 f_equal. by apply (reading_index_inj v).
  - intros Hm. apply Z.eqb_neq in Hm. pose proof (Hbound pos Hp). destruct (decide (off < 0)).
    + left. split; [|unfold off in *; lia]. apply (reading_index_inj v); [done..|viewport; lia|]. fold W. rewrite Hi. replace (Z.max 0 (Z.min off (W * H - 1))) with 0 by nia.
      unfold reading_index. viewport. lia.
    + right. split; [|unfold off in *; lia]. apply (reading_index_inj v); [done..|viewport; lia|]. fold W. rewrite Hi. replace (Z.max 0 (Z.min off (W * H - 1))) with (W * H - 1) by lia.
      unfold reading_index, W, H, Viewport.Width, Viewport.Height. viewport. nia.
  - rewrite Z.eqb_eq. unfold off. lia.
Qed.

(** ** Where the code departs from its comments *)

(** From the last position that [IsInExclusiveBounds] admits,
    [IncrementInExclusiveBounds] walks out of the bounds and reports success. *)
Lemma exclusive_walk_leaves_bounds :
  let v := Viewport.FromDimensions (point.mk 0 0) (size.mk 3 2) in
  Viewport.IsInExclusiveBounds v (point.mk 3 1) = true /\
  Viewport.IncrementInExclusiveBounds v (point.mk 3 1) = Some (point.mk 0 2, true) /\ Viewport.IsInExclusiveBounds v (point.mk 0 2) = false.
Proof. vm_compute. repeat split. Qed.

(** Rectangles with a negative corner count as empty: a rectangle minus itself is
    still there, and a piece on the left of the origin gets lost. *)
Lemma negative_rect_subtraction :
  rect.subtract (rect.mk (-4) (-4) (-1) (-1)) (rect.mk (-4) (-4) (-1) (-1)) = [rect.mk (-4) (-4) (-1) (-1)] /\
  rect.subtract (rect.mk (-2) 0 2 2) (rect.mk 0 0 1 2) = [rect.mk 1 0 2 2].
Proof. vm_compute. repeat split. Qed.

(** ** Indices of cells *)

Lemma index_point_roundtrip r i p : rect.point_at r i = Some p -> 0 <= i -> CoordTypeMin <= rect.left r -> CoordTypeMin <= rect.top r -> rect.right r <= CoordTypeMax / 2 ->
  rect.bottom r <= CoordTypeMax -> CoordTypeMin / 2 <= rect.left r -> (rect.bottom r - rect.top r) * (rect.right r - rect.left r) <= CoordTypeMax / 2 -> rect.index_of r p = Some i.
Proof.
  unfold rect.point_at, rect.width, rect.height. intros E Hi Hl Ht Hr Hb Hl2 Ha. destruct (extract (rect.right r - rect.left r)) as [w|] eqn:Ew; [|done]. apply extract_Some in Ew as [-> Hw]. cbn [mbind option_bind] in E.
  destruct (Z.ltb_spec (rect.right r - rect.left r) 0); [done|]. destruct (extract (rect.bottom r - rect.top r)) as [h|] eqn:Eh; [|done]. apply extract_Some in Eh as [-> Hh]. cbn [mbind option_bind] in E.
  destruct (extract ((rect.bottom r - rect.top r) * (rect.right r - rect.left r))) as [a|] eqn:Ea; [|done]. apply extract_Some in Ea as [-> _]. cbn [mbind option_bind] in E.
  set (w := rect.right r - rect.left r) in *. set (h := rect.bottom r - rect.top r) in *.
  destruct (Z.ltb_spec (h * w) 0); [done|]. destruct (Z.leb_spec (h * w) i); [done|]. injection E as <-.
  assert (0 < w) by nia. pose proof (Z.mod_pos_bound i w ltac:(lia)). pose proof (Z.div_mod i w ltac:(lia)). assert (0 <= i / w < h) by (split; [apply Z.div_pos; lia|apply Z.div_lt_upper_bound; lia]).
  change (CoordTypeMax / 2) with 1073741823 in *. change (CoordTypeMin / 2) with (-1073741824) in *. change CoordTypeMin with (-2147483648) in *. change CoordTypeMax with 2147483647 in *.
  unfold rect.index_of, rect.contains, rect.width. cbn [point.x point.y]. fold w.
  destruct (Z.leb_spec (rect.left r) (rect.left r + i mod w)), (Z.ltb_spec (rect.left r + i mod w) (rect.right r)), (Z.leb_spec (rect.top r) (rect.top r + i / w)), (Z.ltb_spec (rect.top r + i / w) (rect.bottom r)); try (unfold w, h in *; lia). cbn [andb].
  replace (rect.top r + i / w - rect.top r) with (i / w) by lia. rewrite !extract_ok by (change CoordTypeMin with (-2147483648); change CoordTypeMax with 2147483647; lia). cbn [mbind option_bind].
  rewrite !extract_ok by (change CoordTypeMin with (-2147483648); change CoordTypeMax with 2147483647; nia). cbn [mbind option_bind].
  rewrite !extract_ok by (change CoordTypeMin with (-2147483648); change CoordTypeMax with 2147483647; lia). cbn [mbind option_bind].
  rewrite !extract_ok by (change CoordTypeMin with (-2147483648); change CoordTypeMax with 2147483647; lia). f_equal. lia.
Qed.

(** Scaling pixels down to cells covers all of the pixels. *)
Lemma scale_down_covers r s r' r'' : rect.scale_down r s = Some r' -> rect.scale_up r' s = Some r'' -> rect.contains_rect r'' r = true.
Proof.
  unfold rect.scale_down. destruct (_ || _) eqn:G; [done|]. geometry. intros E1 E2. injection E1 as <-. unfold rect.scale_up in E2. cbn [rect.left rect.top rect.right rect.bottom] in E2.
  repeat match type of E2 with mbind _ (extract ?z) = _ => let E := fresh in destruct (extract z) eqn:E; [apply extract_Some in E as [-> _]; cbn [mbind option_bind] in E2|done] end.
  injection E2 as <-. unfold rect.contains_rect. cbn [rect.left rect.top rect.right rect.bottom]. rewrite !andb_true_iff, !Z.leb_le.
  assert (Hf : forall a b, 0 <= a -> 0 < b -> Z.quot a b * b <= a) by (intros; rewrite Z.quot_div_nonneg by lia; div_lia).
  assert (Hc : forall a b, 0 <= a -> 0 < b -> a <= size.ceil a b * b) by (intros a b ? ?; unfold size.ceil; destruct (Z.eqb_spec a 0); [lia|]; rewrite Z.quot_div_nonneg by lia; div_lia).
  repeat split; auto with lia.
Qed.
