(* ===== verification/ImageSlice.v ===== *)
(** * Images on a line: [ImageSlice]

    src/buffer/out/ImageSlice.cpp: the part of an image that covers one row, as an
    array of pixels for the columns in use. An access outside of the array gives
    [None]. The operations on rows are in RowWrite. The revision, which tells the
    renderer about changes, is not kept. *)

From stdpp Require Import list.
From S2P Require Import Prelude Geometry.

(** A pixel is an [RGBQUAD] of 32 bits. *)
Module ImageSlice.
Record t := mk {
  _cellSize : size.t;
  _pixelBuffer : list Z;
  _columnBegin : Z;
  _columnEnd : Z;
  _pixelWidth : Z
}.

Definition new (cellSize : size.t) : t := mk cellSize [] 0 0 0.
Definition CellSize (s : t) : size.t := _cellSize s.
Definition ColumnOffset (s : t) : Z := _columnBegin s.
Definition PixelWidth (s : t) : Z := _pixelWidth s.
Definition set_pixels (pixels : list Z) (s : t) : t := mk (_cellSize s) pixels (_columnBegin s) (_columnEnd s) (_pixelWidth s).

(** ** Memory *)

(** What [memcpy], [memmove] and [memset] read and write. *)
Definition cut (pos count : Z) (buffer : list Z) : option (list Z) :=
  if (0 <=? pos) && (0 <=? count) && (pos + count <=? Z.of_nat (length buffer)) then Some (take (Z.to_nat count) (drop (Z.to_nat pos) buffer)) else None.
Definition paste (pos : Z) (pixels buffer : list Z) : option (list Z) :=
  if (0 <=? pos) && (pos + Z.of_nat (length pixels) <=? Z.of_nat (length buffer))
  then Some (take (Z.to_nat pos) buffer ++ pixels ++ drop (Z.to_nat pos + length pixels) buffer) else None.

(** The loops over the rows of pixels; no source buffer means that the pixels are
    moved within the destination. *)
Fixpoint copy_rows (rows : nat) (source : option (list Z)) (sourcePos sourceStride pos stride count : Z) (buffer : list Z) : option (list Z) :=
  match rows with
  | O => Some buffer
  | S rows =>
    pixels ← cut sourcePos count (default buffer source);
    buffer ← paste pos pixels buffer;
    copy_rows rows source (sourcePos + sourceStride) sourceStride (pos + stride) stride count buffer
  end.
Fixpoint erase_rows (rows : nat) (pos stride count : Z) (buffer : list Z) : option (list Z) :=
  match rows with
  | O => Some buffer
  | S rows => buffer ← paste pos (replicate (Z.to_nat count) 0) buffer; erase_rows rows (pos + stride) stride count buffer
  end.

(** ** Pixels *)

(** A pointer into the pixels, as an index that must be within them. *)
Definition Pixels (columnBegin : Z) (s : t) : option Z :=
  let pixelOffset := (columnBegin - _columnBegin s) * size.width (_cellSize s) in
  if (0 <=? pixelOffset) && (pixelOffset <? Z.of_nat (length (_pixelBuffer s))) then Some pixelOffset else None.

Definition MutablePixels (columnBegin columnEnd : Z) (s : t) : option (t * Z) :=
  s ← (if (match _pixelBuffer s with [] => true | _ => false end) || (columnBegin <? _columnBegin s) || (_columnEnd s <? columnEnd) then
    let existingData := match _pixelBuffer s with [] => false | _ => true end in
    let newBegin := if existingData then Z.min (_columnBegin s) columnBegin else columnBegin in
    let newEnd := if existingData then Z.max (_columnEnd s) columnEnd else columnEnd in
    let pixelWidth := (newEnd - newBegin) * size.width (_cellSize s) in
    let bufferSize := pixelWidth * size.height (_cellSize s) in
    let blank := replicate (Z.to_nat bufferSize) 0 in
    pixels ← (if existingData then
      let newPixelOffset := (_columnBegin s - newBegin) * size.width (_cellSize s) in
      let newPixelRange := Z.min (_pixelWidth s) (pixelWidth - newPixelOffset) in
      copy_rows (Z.to_nat (size.height (_cellSize s))) (Some (_pixelBuffer s)) 0 (_pixelWidth s) newPixelOffset pixelWidth newPixelRange blank
    else Some blank);
    Some (mk (_cellSize s) pixels newBegin newEnd pixelWidth)
  else Some s);
  offset ← Pixels columnBegin s;
  Some (s, offset).

(** ** Erasing and copying columns *)

(** [true]: nothing is left, and the caller deletes the slice. *)
Definition _eraseCells (columnBegin columnEnd : Z) (s : t) : option (t * bool) :=
  if (columnBegin <=? _columnBegin s) && (_columnEnd s <=? columnEnd) then Some (s, true)
  else
    let eraseBegin := Z.max columnBegin (_columnBegin s) in
    let eraseEnd := Z.min columnEnd (_columnEnd s) in
    if eraseBegin <? eraseEnd then
      let eraseOffset := (eraseBegin - _columnBegin s) * size.width (_cellSize s) in
      let eraseLength := (eraseEnd - eraseBegin) * size.width (_cellSize s) in
      pixels ← erase_rows (Z.to_nat (size.height (_cellSize s))) eraseOffset (_pixelWidth s) eraseLength (_pixelBuffer s);
      Some (set_pixels pixels s, false)
    else Some (s, false).

(** The part of [_copyCells] that writes. [aliased]: the source is the slice itself, so
    that [MutablePixels] reallocates both. *)
Definition write_pixels (srcSlice : t) (aliased : bool) (srcUsedBegin dstWriteBegin dstWriteEnd : Z) (s : t) : option t :=
  '(s, dstIterator) ← MutablePixels dstWriteBegin dstWriteEnd s;
  let srcSlice := if aliased then s else srcSlice in
  srcIterator ← Pixels srcUsedBegin srcSlice;
  pixels ← copy_rows (Z.to_nat (size.height (_cellSize s))) (if aliased then None else Some (_pixelBuffer srcSlice))
    srcIterator (_pixelWidth srcSlice) dstIterator (_pixelWidth s) ((dstWriteEnd - dstWriteBegin) * size.width (_cellSize s)) (_pixelBuffer s);
  Some (set_pixels pixels s).

Definition _copyCells (srcSlice : t) (aliased : bool) (srcColumn dstColumnBegin dstColumnEnd : Z) (s : t) : option (t * bool) :=
  let srcColumnEnd := srcColumn + dstColumnEnd - dstColumnBegin in
  let srcUsedBegin := Z.max srcColumn (_columnBegin srcSlice) in
  let srcUsedEnd := Z.max (Z.min srcColumnEnd (_columnEnd srcSlice)) srcUsedBegin in
  let dstUsedBegin := Z.max dstColumnBegin (_columnBegin s) in
  let dstUsedEnd := Z.max (Z.min dstColumnEnd (_columnEnd s)) dstUsedBegin in
  let projectedOffset := dstColumnBegin - srcColumn in
  let dstWriteBegin := srcUsedBegin + projectedOffset in
  let dstWriteEnd := srcUsedEnd + projectedOffset in
  s ← (if dstWriteBegin <? dstWriteEnd then write_pixels srcSlice aliased srcUsedBegin dstWriteBegin dstWriteEnd s else Some s);
  '(s, gone) ← (if dstUsedBegin <? dstWriteBegin then _eraseCells dstUsedBegin dstWriteBegin s else Some (s, false));
  if gone : bool then Some (s, true)
  else
    '(s, gone) ← (if dstWriteEnd <? dstUsedEnd then _eraseCells dstWriteEnd dstUsedEnd s else Some (s, false));
    if gone : bool then Some (s, true) else Some (s, _columnEnd s <=? _columnBegin s).
End ImageSlice.

(** ** Theorems about images on a line

    A slice is a picture: a colour for each pixel, transparent outside of the columns
    in use. Erasing and copying columns do to the picture what they say, with one
    exception. *)

Import ImageSlice.

Definition pixel (buffer : list Z) (pos : Z) : Z := default 0 (buffer !! Z.to_nat pos).

(** ** Memory *)

Lemma paste_ok pos pixels buffer : 0 <= pos -> pos + Z.of_nat (length pixels) <= Z.of_nat (length buffer) ->
  exists buffer', paste pos pixels buffer = Some buffer' /\ length buffer' = length buffer /\
    forall p, 0 <= p -> pixel buffer' p = if decide (pos <= p < pos + Z.of_nat (length pixels)) then pixel pixels (p - pos) else pixel buffer p.
Proof.
  intros Hp Hl. unfold paste. destruct (Z.leb_spec 0 pos); [|lia]. destruct (Z.leb_spec (pos + Z.of_nat (length pixels)) (Z.of_nat (length buffer))); [|lia]. cbn [andb].
  eexists. split; [done|]. split; [rewrite !length_app, length_take, length_drop; lia|]. intros p Hp0. unfold pixel.
  destruct (decide (p < pos)).
  - rewrite decide_False by lia. rewrite lookup_app_l by (rewrite length_take; lia). f_equal. apply lookup_take_lt. lia.
  - rewrite lookup_app_r by (rewrite length_take; lia). rewrite length_take. replace (Z.to_nat p - Z.to_nat pos `min` length buffer)%nat with (Z.to_nat (p - pos)) by lia.
    destruct (decide (pos <= p < pos + Z.of_nat (length pixels))).
    + f_equal. apply lookup_app_l. lia.
    + rewrite lookup_app_r by lia. rewrite lookup_drop. do 2 f_equal. lia.
Qed.

Lemma cut_ok pos count buffer : 0 <= pos -> 0 <= count -> pos + count <= Z.of_nat (length buffer) ->
  exists pixels, cut pos count buffer = Some pixels /\ Z.of_nat (length pixels) = count /\ forall p, 0 <= p < count -> pixel pixels p = pixel buffer (pos + p).
Proof.
  intros Hp Hc Hl. unfold cut. destruct (Z.leb_spec 0 pos); [|lia]. destruct (Z.leb_spec 0 count); [|lia]. destruct (Z.leb_spec (pos + count) (Z.of_nat (length buffer))); [|lia]. cbn [andb].
  eexists. split; [done|]. split; [rewrite length_take, length_drop; lia|]. intros p Hp0. unfold pixel. rewrite lookup_take_lt by lia. rewrite lookup_drop. do 2 f_equal. lia.
Qed.

(** ** Rows of pixels *)

(** The position of a pixel in an array of rows determines its coordinates. *)
Lemma row_major w y1 x1 y2 x2 : 0 <= x1 < w -> 0 <= x2 < w -> y1 * w + x1 = y2 * w + x2 -> y1 = y2 /\ x1 = x2.
Proof. intros. assert (y1 = y2) by nia. subst. lia. Qed.

Lemma row_range w y x y0 off count : 0 <= x < w -> 0 <= off -> off + count <= w -> y0 * w + off <= y * w + x < y0 * w + off + count <-> y = y0 /\ off <= x < off + count.
Proof. intros. split; [|intros [-> ?]; lia]. intros [? ?]. assert (y = y0) by nia. subst. lia. Qed.

Section Rows.
Context (source : option (list Z)) (soff sw off w count : Z).
Context (Hoff : 0 <= off) (Hw : off + count <= w) (Hsoff : 0 <= soff) (Hsw : soff + count <= sw) (Hc : 0 <= count) (Halias : source = None -> sw = w).

Lemma copy_rows_ok rows : forall y0 buffer, 0 <= y0 -> (y0 + Z.of_nat rows) * w <= Z.of_nat (length buffer) ->
  (y0 + Z.of_nat rows) * sw <= Z.of_nat (length (default buffer source)) ->
  exists buffer', copy_rows rows source (y0 * sw + soff) sw (y0 * w + off) w count buffer = Some buffer' /\ length buffer' = length buffer /\
    forall y x, 0 <= y -> 0 <= x < w -> pixel buffer' (y * w + x) =
      if decide (y0 <= y < y0 + Z.of_nat rows /\ off <= x < off + count) then pixel (default buffer source) (y * sw + (x - off + soff)) else pixel buffer (y * w + x).
Proof.
  induction rows as [|rows IH]; intros y0 buffer Hy Hl Hsl.
  { exists buffer. split; [done|]. split; [done|]. intros. rewrite decide_False by lia. done. }
  cbn [copy_rows]. destruct (cut_ok (y0 * sw + soff) count (default buffer source)) as (pixels & -> & Hpl & Hp); [nia|lia|nia|]. cbn [mbind option_bind].
  destruct (paste_ok (y0 * w + off) pixels buffer) as (b1 & -> & Hl1 & Hb1); [nia|nia|]. cbn [mbind option_bind]. rewrite Hpl in Hb1.
  destruct (IH (y0 + 1) b1) as (b2 & E & Hl2 & Hb2); [lia|rewrite Hl1; lia|destruct source; [cbn in *; lia|cbn in *; rewrite Hl1; lia]|].
  replace (y0 * sw + soff + sw) with ((y0 + 1) * sw + soff) by lia. replace (y0 * w + off + w) with ((y0 + 1) * w + off) by lia.
  exists b2. split; [done|]. split; [lia|]. intros y x Hy' Hx. rewrite Hb2 by done.
  assert (Hrow : forall z, 0 <= z < w -> pixel b1 (y * w + z) = if decide (y = y0 /\ off <= z < off + count) then pixel pixels (z - off) else pixel buffer (y * w + z)).
  { intros z Hz. rewrite Hb1 by nia. rewrite (decide_ext _ _ _ _ (row_range w y z y0 off count ltac:(lia) ltac:(lia) ltac:(lia))).
    destruct (decide (y = y0 /\ off <= z < off + count)) as [[-> ?]|]; [f_equal; lia|done]. }
  destruct (decide (y0 + 1 <= y < y0 + 1 + Z.of_nat rows /\ off <= x < off + count)) as [[Hyr Hxr]|Hn].
  - rewrite decide_True by lia. destruct source as [src|]; [done|]. cbn [default from_option]. rewrite (Halias eq_refl) in *.
    rewrite Hrow by lia. rewrite decide_False by lia. done.
  - rewrite Hrow by done. destruct (decide (y = y0 /\ off <= x < off + count)) as [[-> Hxr]|].
    + rewrite decide_True by lia. rewrite Hp by lia. f_equal. lia.
    + rewrite decide_False by lia. done.
Qed.

Lemma erase_rows_ok rows : forall y0 buffer, 0 <= y0 -> (y0 + Z.of_nat rows) * w <= Z.of_nat (length buffer) ->
  exists buffer', erase_rows rows (y0 * w + off) w count buffer = Some buffer' /\ length buffer' = length buffer /\
    forall y x, 0 <= y -> 0 <= x < w -> pixel buffer' (y * w + x) = if decide (y0 <= y < y0 + Z.of_nat rows /\ off <= x < off + count) then 0 else pixel buffer (y * w + x).
Proof.
  induction rows as [|rows IH]; intros y0 buffer Hy Hl.
  { exists buffer. split; [done|]. split; [done|]. intros. rewrite decide_False by lia. done. }
  cbn [erase_rows]. destruct (paste_ok (y0 * w + off) (replicate (Z.to_nat count) 0) buffer) as (b1 & -> & Hl1 & Hb1); [nia|rewrite length_replicate; nia|]. cbn [mbind option_bind].
  rewrite length_replicate, Z2Nat.id in Hb1 by lia. destruct (IH (y0 + 1) b1) as (b2 & E & Hl2 & Hb2); [lia|rewrite Hl1; lia|].
  replace (y0 * w + off + w) with ((y0 + 1) * w + off) by lia. exists b2. split; [done|]. split; [lia|]. intros y x Hy' Hx. rewrite Hb2 by done.
  rewrite Hb1 by nia. rewrite (decide_ext _ _ _ _ (row_range w y x y0 off count ltac:(lia) ltac:(lia) ltac:(lia))).
  assert (Hz : pixel (replicate (Z.to_nat count) 0) (y * w + x - (y0 * w + off)) = 0).
  { unfold pixel. destruct (_ !! _) eqn:E'; [|done]. by apply lookup_replicate in E' as [-> _]. }
  rewrite Hz. repeat case_decide; (done || lia).
Qed.
End Rows.

(** ** Pictures *)

Record slice_ok (s : t) : Prop := {
  ok_cell : 0 < size.width (_cellSize s) /\ 0 < size.height (_cellSize s);
  ok_columns : _columnBegin s <= _columnEnd s;
  ok_width : _pixelWidth s = (_columnEnd s - _columnBegin s) * size.width (_cellSize s);
  ok_length : Z.of_nat (length (_pixelBuffer s)) = _pixelWidth s * size.height (_cellSize s)
}.

Local Abbreviation cw s := (size.width (_cellSize s)).
Local Abbreviation ch s := (size.height (_cellSize s)).

(** The colour of a pixel; 0 is transparent. *)
Definition picture (s : t) (x y : Z) : Z :=
  if decide (_columnBegin s * cw s <= x < _columnEnd s * cw s /\ 0 <= y < ch s) then pixel (_pixelBuffer s) (y * _pixelWidth s + (x - _columnBegin s * cw s)) else 0.

Definition same_cells (s s' : t) : Prop := _cellSize s' = _cellSize s.

Lemma empty_picture s x y : slice_ok s -> _pixelBuffer s = [] -> picture s x y = 0.
Proof. intros _ E. unfold picture. rewrite E. by destruct (decide _). Qed.

Lemma empty_columns s : slice_ok s -> _pixelBuffer s = [] <-> _columnBegin s = _columnEnd s.
Proof.
  intros [[H1 H2] H3 H4 H5]. split.
  - intros E. rewrite E in H5. simpl in H5. symmetry in H5. apply Z.eq_mul_0_l in H5; [|lia]. rewrite H5 in H4. symmetry in H4. apply Z.eq_mul_0_l in H4; lia.
  - intros E. apply nil_length_inv. rewrite E, Z.sub_diag in H4. rewrite H4 in H5. lia.
Qed.

(** Ranges of pixels are ranges of columns. *)
Lemma column_range b e w x : 0 < w -> b * w <= x < e * w <-> b <= x / w < e.
Proof. intros Hw. pose proof (Z.div_mod x w ltac:(lia)). pose proof (Z.mod_pos_bound x w Hw). nia. Qed.

Lemma picture_column s x y : slice_ok s -> picture s x y =
  if decide (_columnBegin s <= x / cw s < _columnEnd s /\ 0 <= y < ch s) then pixel (_pixelBuffer s) (y * _pixelWidth s + (x - _columnBegin s * cw s)) else 0.
Proof. intros [[H1 H2] H3 H4 H5]. unfold picture. apply decide_ext. by rewrite column_range. Qed.

(** Replacing the pixels of some columns in all the rows. *)
Lemma picture_set_pixels s buffer B E (f : Z -> Z -> Z) : slice_ok s -> length buffer = length (_pixelBuffer s) -> _columnBegin s <= B <= E -> E <= _columnEnd s ->
  (forall y x, 0 <= y < ch s -> 0 <= x < _pixelWidth s -> pixel buffer (y * _pixelWidth s + x) =
    if decide ((B - _columnBegin s) * cw s <= x < (B - _columnBegin s) * cw s + (E - B) * cw s) then f (x + _columnBegin s * cw s) y else pixel (_pixelBuffer s) (y * _pixelWidth s + x)) ->
  slice_ok (set_pixels buffer s) /\
  forall x y, picture (set_pixels buffer s) x y = if decide (B <= x / cw s < E /\ 0 <= y < ch s) then f x y else picture s x y.
Proof.
  intros Hs Hl HB HE Hf. pose proof Hs as [[H1 H2] H3 H4 H5]. assert (Hs' : slice_ok (set_pixels buffer s)) by (split; cbn; (done || lia)). split; [done|].
  intros x y. rewrite !picture_column by done. cbn [set_pixels _cellSize _columnBegin _columnEnd _pixelWidth _pixelBuffer].
  destruct (decide (_columnBegin s <= x / cw s < _columnEnd s /\ 0 <= y < ch s)) as [[Hx Hy]|]; [|by rewrite decide_False by lia].
  apply column_range in Hx as Hx'; [|done]. rewrite Hf by lia. replace (x - _columnBegin s * cw s + _columnBegin s * cw s) with x by lia.
  apply decide_ext. rewrite <- column_range by done. nia.
Qed.

(** Erasing columns makes their pixels transparent. *)
Lemma eraseCells_ok b e s : slice_ok s ->
  exists s' gone, _eraseCells b e s = Some (s', gone) /\ slice_ok s' /\ same_cells s s' /\ _columnBegin s' = _columnBegin s /\ _columnEnd s' = _columnEnd s /\
    (gone = true <-> b <= _columnBegin s /\ _columnEnd s <= e) /\
    (gone = false -> forall x y, picture s' x y = if decide (b <= x / cw s < e) then 0 else picture s x y).
Proof.
  intros Hs. pose proof Hs as [[H1 H2] H3 H4 H5]. unfold _eraseCells. destruct ((b <=? _columnBegin s) && (_columnEnd s <=? e)) eqn:G.
  { apply andb_true_iff in G as [G1%Z.leb_le G2%Z.leb_le]. exists s, true. by repeat split. }
  assert (~ (b <= _columnBegin s /\ _columnEnd s <= e)) by (apply andb_false_iff in G as [G%Z.leb_gt|G%Z.leb_gt]; lia).
  set (B := Z.max b (_columnBegin s)). set (E := Z.min e (_columnEnd s)). destruct (Z.ltb_spec B E) as [Hlt|Hge].
  - assert (HB : _columnBegin s <= B) by lia. assert (HE : E <= _columnEnd s) by lia.
    destruct (erase_rows_ok ((B - _columnBegin s) * cw s) (_pixelWidth s) ((E - B) * cw s) ltac:(nia) ltac:(nia) ltac:(nia) (Z.to_nat (ch s)) 0 (_pixelBuffer s) ltac:(lia) ltac:(lia)) as (b' & Eb & Hl & Hb).
    rewrite Z.mul_0_l, Z.add_0_l in Eb. rewrite Eb. cbn [mbind option_bind]. destruct (picture_set_pixels s b' B E (fun _ _ => 0) Hs Hl ltac:(lia) ltac:(lia)) as [Hs' Hp].
    { intros y x Hy Hx. rewrite Hb by lia. apply decide_ext. lia. }
    exists (set_pixels b' s), false. do 5 (split; [done|]). split; [split; [done|tauto]|]. intros _ x y. rewrite Hp.
    destruct (decide (b <= x / cw s < e)); [|by rewrite decide_False by lia]. case_decide; [done|]. rewrite picture_column by done. case_decide; [lia|done].
  - exists s, false. do 5 (split; [done|]). split; [split; [done|tauto]|]. intros _ x y. case_decide; [|done]. rewrite picture_column by done. case_decide; [lia|done].
Qed.

(** ** Making room *)

Lemma Pixels_ok c s : slice_ok s -> _columnBegin s <= c < _columnEnd s -> Pixels c s = Some ((c - _columnBegin s) * cw s).
Proof.
  intros [[H1 H2] H3 H4 H5] Hc. unfold Pixels. destruct (Z.leb_spec 0 ((c - _columnBegin s) * cw s)); [|nia].
  destruct (Z.ltb_spec ((c - _columnBegin s) * cw s) (Z.of_nat (length (_pixelBuffer s)))); [done|]. assert ((c - _columnBegin s) * cw s < _pixelWidth s) by nia. nia.
Qed.

Lemma pixel_blank n p : pixel (replicate n 0) p = 0.
Proof. unfold pixel. destruct (_ !! _) eqn:E; [|done]. by apply lookup_replicate in E as [-> _]. Qed.

(** The slice with its columns extended. *)
Lemma MutablePixels_ok b e s : slice_ok s -> b < e ->
  exists s', MutablePixels b e s = Some (s', (b - _columnBegin s') * cw s) /\ slice_ok s' /\ same_cells s s' /\ (forall x y, picture s' x y = picture s x y) /\
    _columnBegin s' <= b /\ e <= _columnEnd s' /\ (_columnBegin s < _columnEnd s -> _columnBegin s' = Z.min (_columnBegin s) b /\ _columnEnd s' = Z.max (_columnEnd s) e).
Proof.
  intros Hs Hbe. pose proof Hs as [[H1 H2] H3 H4 H5]. unfold MutablePixels. destruct (_pixelBuffer s) as [|p0 ps] eqn:Hpb.
  - cbn [orb mbind option_bind]. set (s' := mk _ _ b e _). assert (Hs' : slice_ok s'). { split; cbn; [done|lia|done|]. rewrite length_replicate. rewrite Z2Nat.id; [done|]. repeat apply Z.mul_nonneg_nonneg; lia. }
    assert (Hempty : _columnBegin s = _columnEnd s) by (by apply empty_columns). rewrite (Pixels_ok b s') by (done || (cbn; lia)). exists s'. split; [done|]. split; [done|]. split; [done|].
    split; [|cbn; lia]. intros x y. rewrite (empty_picture s) by done. rewrite picture_column by done. case_decide; [apply pixel_blank|done].
  - assert (Hlt : _columnBegin s < _columnEnd s). { destruct (decide (_columnBegin s = _columnEnd s)) as [E|]; [|lia]. apply empty_columns in E; [congruence|done]. }
    rewrite <- Hpb in H5 |- *. cbn [orb]. cbv zeta. destruct ((b <? _columnBegin s) || (_columnEnd s <? e)) eqn:G.
    + set (nb := Z.min (_columnBegin s) b). set (ne := Z.max (_columnEnd s) e). set (W := (ne - nb) * cw s). set (off := (_columnBegin s - nb) * cw s).
      assert (Hnb : nb <= _columnBegin s < _columnEnd s) by lia. assert (Hne : _columnEnd s <= ne) by lia.
      assert (HW : off + _pixelWidth s <= W) by (unfold off, W; nia). replace (Z.min (_pixelWidth s) (W - off)) with (_pixelWidth s) by lia. assert (0 <= _pixelWidth s) by nia. assert (0 <= off) by (unfold off; nia).
      destruct (copy_rows_ok (Some (_pixelBuffer s)) 0 (_pixelWidth s) off W (_pixelWidth s) ltac:(lia) ltac:(lia) ltac:(lia) ltac:(lia) ltac:(lia) ltac:(done) (Z.to_nat (ch s)) 0 (replicate (Z.to_nat (W * ch s)) 0)) as (b' & E & Hl & Hb).
      1-3: assert (0 <= W * ch s) by (unfold W; repeat apply Z.mul_nonneg_nonneg; lia); try rewrite length_replicate; cbn [default from_option id]; lia.
      rewrite !Z.mul_0_l, !Z.add_0_l in E. rewrite E. cbn [mbind option_bind]. set (s' := mk _ _ nb ne _). rewrite length_replicate in Hl.
      assert (Hs' : slice_ok s') by (split; cbn; [done|lia|done|rewrite Hl, Z2Nat.id; [done|unfold W; repeat apply Z.mul_nonneg_nonneg; lia]]). rewrite (Pixels_ok b s') by (done || (cbn; lia)). exists s'. split; [done|]. split; [done|]. split; [done|].
      split; [|cbn; unfold nb, ne; lia]. intros x y. rewrite !picture_column by done. cbn [s' _cellSize _columnBegin _columnEnd _pixelWidth _pixelBuffer].
      destruct (decide (nb <= x / cw s < ne /\ 0 <= y < ch s)) as [[Hx Hy]|]; [|by rewrite decide_False by lia].
      apply column_range in Hx as Hx'; [|done]. rewrite Hb by (unfold W; lia). rewrite pixel_blank.
      assert (Hr : off <= x - nb * cw s < off + _pixelWidth s <-> _columnBegin s <= x / cw s < _columnEnd s) by (rewrite <- column_range by done; unfold off; nia).
      cbn [default from_option id]. replace (x - nb * cw s - off + 0) with (x - _columnBegin s * cw s) by (unfold off; lia). apply decide_ext. rewrite Hr. lia.
    + apply orb_false_iff in G as [G1%Z.ltb_ge G2%Z.ltb_ge]. cbn [mbind option_bind]. rewrite Pixels_ok by (done || lia). exists s. repeat split; try done; try lia.
Qed.

(** ** Copying *)

Lemma picture_outside s x y : slice_ok s -> ~ _columnBegin s <= x / cw s < _columnEnd s -> picture s x y = 0.
Proof. intros Hs Hx. rewrite picture_column by done. case_decide; [lia|done]. Qed.

Lemma div_shift x k w : 0 < w -> (x - k * w) / w = x / w - k.
Proof. intros. replace (x - k * w) with (x + - k * w) by lia. rewrite Z.div_add by lia. lia. Qed.

(** The loop that writes the pixels of the columns [WB] up to [WE]. *)
Lemma write_cells src aliased s su WB WE : slice_ok s -> slice_ok src -> same_cells s src -> (aliased = true -> src = s) -> WB < WE ->
  _columnBegin src <= su -> su + (WE - WB) <= _columnEnd src ->
  exists s1, write_pixels src aliased su WB WE s = Some s1 /\
  slice_ok s1 /\ same_cells s s1 /\ _columnBegin s1 <= WB /\ WE <= _columnEnd s1 /\
  forall x y, picture s1 x y = if decide (WB <= x / cw s < WE) then picture src (x - (WB - su) * cw s) y else picture s x y.
Proof.
  intros Hs Hsrc Hcell Hal Hlt Hsu He. unfold write_pixels. destruct (MutablePixels_ok WB WE s Hs Hlt) as (s' & -> & Hs' & Hc' & Hpic & Hb' & He' & Hcols). cbn [mbind option_bind]. cbv zeta.
  set (src' := if aliased then s' else src).
  assert (Hsrc' : slice_ok src' /\ same_cells s src' /\ (forall x y, picture src' x y = picture src x y) /\ _columnBegin src' <= su /\ su + (WE - WB) <= _columnEnd src').
  { unfold src'. destruct aliased; [|done]. rewrite (Hal eq_refl) in *. split; [done|]. split; [done|]. split; [done|]. destruct Hcols; lia. }
  destruct Hsrc' as (Gs & Gc & Gp & Gb & Ge). unfold same_cells in *. rewrite (Pixels_ok su src') by (done || lia). cbn [mbind option_bind].
  pose proof Hs' as [[H1 H2] H3 H4 H5]. pose proof Gs as [_ G3 G4 G5]. rewrite Gc in *. rewrite Hc' in *.
  destruct (copy_rows_ok (if aliased then None else Some (_pixelBuffer src')) ((su - _columnBegin src') * cw s) (_pixelWidth src') ((WB - _columnBegin s') * cw s) (_pixelWidth s') ((WE - WB) * cw s)
    ltac:(nia) ltac:(nia) ltac:(nia) ltac:(nia) ltac:(nia) ltac:(unfold src'; by destruct aliased) (Z.to_nat (ch s)) 0 (_pixelBuffer s') ltac:(lia) ltac:(lia)) as (b' & E & Hl & Hb).
  { assert (length (default (_pixelBuffer s') (if aliased then None else Some (_pixelBuffer src'))) = length (_pixelBuffer src')) as -> by (unfold src'; by destruct aliased). lia. }
  rewrite !Z.mul_0_l, !Z.add_0_l in E. rewrite E. cbn [mbind option_bind]. eexists. split; [done|].
  destruct (picture_set_pixels s' b' WB WE (fun x y => picture src (x - (WB - su) * cw s) y) Hs' Hl ltac:(lia) ltac:(lia)) as [Hs1 Hp1].
  { rewrite Hc'. intros y x Hy Hx. rewrite Hb by lia. destruct (decide ((WB - _columnBegin s') * cw s <= x < (WB - _columnBegin s') * cw s + (WE - WB) * cw s)) as [Hr|]; [|by rewrite decide_False by lia].
    rewrite decide_True by lia. rewrite <- Gp. unfold picture. rewrite Gc. rewrite decide_True by nia.
    assert (default (_pixelBuffer s') (if aliased then None else Some (_pixelBuffer src')) = _pixelBuffer src') as -> by (unfold src'; by destruct aliased). f_equal. lia. }
  split; [done|]. split; [done|]. split; [done|]. split; [done|]. intros x y. rewrite Hp1, Hc', Hpic. destruct (decide (WB <= x / cw s < WE)) as [Hx|]; [|by rewrite decide_False by lia].
  case_decide as Hd; [done|]. rewrite <- Hpic. unfold picture. rewrite Hc', Hcell. rewrite !decide_False by lia. done.
Qed.

(** What copying columns should do to the picture. *)
Definition painted (src dst : t) (srcColumn dstBegin dstEnd x y : Z) : Z :=
  if decide (dstBegin <= x / cw dst < dstEnd) then picture src (x - (dstBegin - srcColumn) * cw dst) y else picture dst x y.

(** An erasure that is made if its range is not empty. *)
Lemma erase_if b e s : slice_ok s ->
  exists s' gone, (if b <? e then _eraseCells b e s else Some (s, false)) = Some (s', gone) /\ slice_ok s' /\ same_cells s s' /\ _columnBegin s' = _columnBegin s /\ _columnEnd s' = _columnEnd s /\
    (gone = true <-> b < e /\ b <= _columnBegin s /\ _columnEnd s <= e) /\
    (gone = false -> forall x y, picture s' x y = if decide (b <= x / cw s < e) then 0 else picture s x y).
Proof.
  intros Hs. destruct (Z.ltb_spec b e).
  - destruct (eraseCells_ok b e s Hs) as (s' & gone & E & H1 & H2 & H3 & H4 & H5 & H6). exists s', gone. repeat (split; [done|]). split; [|done]. rewrite H5. lia.
  - exists s, false. repeat (split; [done|]). split; [split; [done|lia]|]. intros _ x y. by rewrite decide_False by lia.
Qed.

(** The ranges of columns that are written and erased, put together. *)
Lemma paint_ranges c srcB srcE sB sE srcColumn dstBegin dstEnd (P Q : Z) :
  let su := Z.max srcColumn srcB in let sue := Z.max (Z.min (srcColumn + dstEnd - dstBegin) srcE) su in
  let dub := Z.max dstBegin sB in let due := Z.max (Z.min dstEnd sE) dub in let WB := su + (dstBegin - srcColumn) in let WE := sue + (dstBegin - srcColumn) in
  dstBegin <= dstEnd -> srcB <= srcColumn + (dstEnd - dstBegin) -> sB <= sE -> (~ srcB <= c - (dstBegin - srcColumn) < srcE -> P = 0) -> (~ sB <= c < sE -> Q = 0) ->
  (if decide (WE <= c < due) then 0 else if decide (dub <= c < WB) then 0 else if decide (WB <= c < WE) then P else Q) = if decide (dstBegin <= c < dstEnd) then P else Q.
Proof.
  intros su sue dub due WB WE Hd Hr Hs HP HQ. destruct (decide (dstBegin <= c < dstEnd)) as [Hin|Hout].
  - destruct (decide (srcB <= c - (dstBegin - srcColumn) < srcE)); [clear HP|rewrite HP by done; clear HP]; (destruct (decide (sB <= c < sE)); [clear HQ|rewrite HQ by done; clear HQ]); repeat case_decide; (done || lia).
  - destruct (decide (sB <= c < sE)); [clear HP HQ|rewrite HQ by done; clear HP HQ]; repeat case_decide; (done || lia).
Qed.

(** Copying columns of an image over those of another, or of itself, paints the
    destination as it says: inside of the destination columns there is what the source
    shows, transparent pixels included, and elsewhere nothing changes; if the slice is
    reported as empty then nothing is left to see. The image of the source must not
    lie entirely to the right of the columns that are copied. *)
Lemma copyCells_paints (src : t) (aliased : bool) (s : t) (srcColumn dstBegin dstEnd : Z) : slice_ok s -> slice_ok src -> same_cells s src -> (aliased = true -> src = s) ->
  dstBegin <= dstEnd -> _columnBegin src <= srcColumn + (dstEnd - dstBegin) ->
  exists s' gone, _copyCells src aliased srcColumn dstBegin dstEnd s = Some (s', gone) /\ slice_ok s' /\ same_cells s s' /\
    forall x y, painted src s srcColumn dstBegin dstEnd x y = if gone : bool then 0 else picture s' x y.
Proof.
  intros Hs Hsrc Hcell Hal Hd Hright. unfold _copyCells. set (su := Z.max srcColumn (_columnBegin src)). set (sue := Z.max (Z.min (srcColumn + dstEnd - dstBegin) (_columnEnd src)) su).
  set (dub := Z.max dstBegin (_columnBegin s)). set (due := Z.max (Z.min dstEnd (_columnEnd s)) dub). set (WB := su + (dstBegin - srcColumn)). set (WE := sue + (dstBegin - srcColumn)).
  assert (Hphase1 : exists s1, (if WB <? WE then write_pixels src aliased su WB WE s else Some s) = Some s1 /\ slice_ok s1 /\ same_cells s s1 /\ (WB < WE -> _columnBegin s1 <= WB /\ WE <= _columnEnd s1) /\ (WE <= WB -> s1 = s) /\
    forall x y, picture s1 x y = if decide (WB <= x / cw s < WE) then picture src (x - (dstBegin - srcColumn) * cw s) y else picture s x y).
  { destruct (Z.ltb_spec WB WE) as [Hlt|Hge].
    - destruct (write_cells src aliased s su WB WE Hs Hsrc Hcell Hal Hlt) as (s1 & E & H1 & H2 & H3 & H4 & H5); [lia|unfold WB, WE, sue in *; lia|].
      exists s1. split; [exact E|]. split; [done|]. split; [done|]. split; [done|]. split; [lia|]. intros x y. rewrite H5. replace (WB - su) with (dstBegin - srcColumn) by lia. done.
    - exists s. repeat (split; [done || lia|]). intros x y. by rewrite decide_False by lia. }
  destruct Hphase1 as (s1 & -> & Hs1 & Hc1 & Hw1 & Hw2 & Hp1). cbn [mbind option_bind].
  destruct (erase_if dub WB s1 Hs1) as (s2 & gone & -> & Hs2 & Hc2 & Hb2 & He2 & Hg2 & Hp2). cbn [mbind option_bind]. unfold same_cells in *. rewrite Hc1 in *. pose proof Hs as [[Hcw _] Hcols _ _].
  assert (Hsrc0 : forall x y, ~ _columnBegin src <= x / cw s - (dstBegin - srcColumn) < _columnEnd src -> picture src (x - (dstBegin - srcColumn) * cw s) y = 0).
  { intros x y Hx. apply picture_outside; [done|]. by rewrite Hcell, div_shift. }
  assert (Hs0 : forall x y, ~ _columnBegin s <= x / cw s < _columnEnd s -> picture s x y = 0) by (intros; by apply picture_outside).
  unfold painted. destruct gone.
  - exists s2, true. split; [done|]. split; [done|]. split; [congruence|]. destruct (proj1 Hg2 eq_refl) as (G1 & G2 & G3).
    assert (WE <= WB) by (destruct (Z.le_gt_cases WE WB); [done|destruct Hw1; lia]). rewrite Hw2 in * by done. intros x y.
    case_decide; [apply Hsrc0; lia|apply Hs0; lia].
  - destruct (erase_if WE due s2 Hs2) as (s3 & gone & -> & Hs3 & Hc3 & Hb3 & He3 & Hg3 & Hp3). cbn [mbind option_bind]. rewrite Hc2 in *. destruct gone.
    + exists s3, true. split; [done|]. split; [done|]. split; [congruence|]. destruct (proj1 Hg3 eq_refl) as (G1 & G2 & G3).
      assert (WE <= WB) by (destruct (Z.le_gt_cases WE WB); [done|destruct Hw1; lia]). rewrite Hw2 in * by done. intros x y.
      case_decide; [apply Hsrc0; lia|apply Hs0; lia].
    + exists s3, (_columnEnd s3 <=? _columnBegin s3). split; [done|]. split; [done|]. split; [congruence|]. intros x y.
      assert (Hfinal : picture s3 x y = if decide (dstBegin <= x / cw s < dstEnd) then picture src (x - (dstBegin - srcColumn) * cw s) y else picture s x y).
      { rewrite Hp3, Hp2, Hp1 by done. apply (paint_ranges (x / cw s) (_columnBegin src) (_columnEnd src) (_columnBegin s) (_columnEnd s) srcColumn dstBegin dstEnd); auto. }
      rewrite <- Hfinal. destruct (Z.leb_spec (_columnEnd s3) (_columnBegin s3)); [|done]. apply picture_outside; [done|lia].
Qed.

(** The copied columns 0 and 1 of the source show nothing, since its image is further
    to the right: the columns 2 and 3 of the destination are erased too. *)
Lemma copy_erases_beyond_range :
  let src := mk (size.mk 1 1) [7; 8] 4 6 2 in
  let dst := mk (size.mk 1 1) [1; 2; 3; 4; 5; 6] 0 6 6 in
  _copyCells src false 0 0 2 dst = Some (mk (size.mk 1 1) [0; 0; 0; 0; 5; 6] 0 6 6, false).
Proof. reflexivity. Qed.
