(* ===== verification/Row.v ===== *)
(** * One line of the text buffer: [ROW]

    src/buffer/out/Row.cpp and Row.hpp: the characters of a line, the offset of
    each column among them, and the attributes. This file has the data, the
    queries and the initialisation; writing is in RowWrite. An access outside of
    an array gives [None] or [Undefined]. *)

From stdpp Require Import list.
From S2P Require Import Prelude Til Utils TermDispatch TextAttributes Rle CodepointWidth ImageSlice.

(** A default-constructed attribute fills new runs. *)
#[global] Instance TextAttribute_inhabited : Inhabited TextAttribute.t := populate TextAttribute.default.

(** src/buffer/out/Marks.hpp *)
Inductive MarkCategory := MarkDefault | MarkError | MarkWarning | MarkSuccess | MarkPrompt.
Record ScrollbarData := mkScrollbarData { category : MarkCategory; mark_color : option Z; exitCode : option Z }.

Inductive DbcsAttribute := DbcsSingle | DbcsLeading | DbcsTrailing.
Inductive DelimiterClass := ControlChar | DelimiterChar | RegularChar.

Definition CharOffsetsTrailer : Z := 0x8000.
Definition CharOffsetsMask : Z := 0x7fff.
Definition is_trailer (offset : Z) : bool := WI_IsFlagSet offset CharOffsetsTrailer.
Definition masked (offset : Z) : Z := Z.land offset CharOffsetsMask.
Definition UNICODE_SPACE : Z := 0x20.

(** [_charsBuffer] is the address of the memory that the text buffer gave to the
    row, [_data] that of [_chars], and the length of [_chars] is its capacity.
    The row only holds its image. *)
Record ROW := mkRow {
  _charsBuffer : Z;
  _data : Z;
  _chars : wstring;
  _charOffsets : list Z;
  _attr : basic_rle TextAttribute.t;
  _columnCount : Z;
  _lineRendition : Z;
  _wrapForced : bool;
  _doubleBytePadded : bool;
  _promptData : option ScrollbarData;
  _imageSlice : option ImageSlice.t
}.
Definition set_text (data : Z) (chars : wstring) (offsets : list Z) (r : ROW) : ROW :=
  mkRow (_charsBuffer r) data chars offsets (_attr r) (_columnCount r) (_lineRendition r) (_wrapForced r) (_doubleBytePadded r) (_promptData r) (_imageSlice r).
Definition set_offsets (offsets : list Z) (r : ROW) : ROW := set_text (_data r) (_chars r) offsets r.
Definition set_chars (chars : wstring) (r : ROW) : ROW := set_text (_data r) chars (_charOffsets r) r.
Definition set_attr a (r : ROW) : ROW :=
  mkRow (_charsBuffer r) (_data r) (_chars r) (_charOffsets r) a (_columnCount r) (_lineRendition r) (_wrapForced r) (_doubleBytePadded r) (_promptData r) (_imageSlice r).
Definition set_flags (rendition : Z) (wrap padded : bool) prompt image (r : ROW) : ROW :=
  mkRow (_charsBuffer r) (_data r) (_chars r) (_charOffsets r) (_attr r) (_columnCount r) rendition wrap padded prompt image.

Definition SetWrapForced (wrap : bool) (r : ROW) : ROW := set_flags (_lineRendition r) wrap (_doubleBytePadded r) (_promptData r) (_imageSlice r) r.
Definition SetDoubleBytePadded (padded : bool) (r : ROW) : ROW := set_flags (_lineRendition r) (_wrapForced r) padded (_promptData r) (_imageSlice r) r.
Definition SetLineRendition (rendition : Z) (r : ROW) : ROW := set_flags rendition (_wrapForced r) (_doubleBytePadded r) (_promptData r) (_imageSlice r) r.
Definition SetScrollbarData data (r : ROW) : ROW := set_flags (_lineRendition r) (_wrapForced r) (_doubleBytePadded r) data (_imageSlice r) r.
Definition SetImageSlice image (r : ROW) : ROW := set_flags (_lineRendition r) (_wrapForced r) (_doubleBytePadded r) (_promptData r) image r.

Definition StartPrompt (r : ROW) : ROW :=
  match _promptData r with
  | Some _ => r
  | None => SetScrollbarData (Some (mkScrollbarData MarkPrompt None None)) r
  end.
Definition EndOutput (error : option Z) (r : ROW) : ROW :=
  match _promptData r with
  | None => r
  | Some p =>
    let c := match error with Some e => if e =? 0 then MarkSuccess else MarkError | None => category p end in
    SetScrollbarData (Some (mkScrollbarData c (mark_color p) error)) r
  end.

(** ** Columns and characters *)

Definition _clampedColumn (v : Z) (r : ROW) : Z := u16 (clamp v 0 (_columnCount r - 1)).
Definition _clampedColumnInclusive (v : Z) (r : ROW) : Z := u16 (clamp v 0 (_columnCount r)).

Definition offset_at (offsets : list Z) (col : Z) : option Z := if col <? 0 then None else offsets !! Z.to_nat col.
Definition _charSize (r : ROW) : option Z := offset_at (_charOffsets r) (_columnCount r).
Definition _uncheckedChar (off : Z) (r : ROW) : option wchar := if off <? 0 then None else _chars r !! Z.to_nat off.
Definition _uncheckedCharOffset (col : Z) (r : ROW) : option Z := masked <$> offset_at (_charOffsets r) col.
Definition _uncheckedIsTrailer (col : Z) (r : ROW) : option bool := is_trailer <$> offset_at (_charOffsets r) col.

(** Both loops move off trailers; they are undefined if they leave the offsets. *)
Fixpoint backward (offsets : list Z) (col : nat) : option nat :=
  match offsets !! col with
  | Some o => if is_trailer o then match col with O => None | S col => backward offsets col end else Some col
  | None => None
  end.
Fixpoint forward (rest : list Z) (col : nat) : option nat :=
  match rest with
  | o :: rest => if is_trailer o then forward rest (S col) else Some col
  | [] => None
  end.
Definition _adjustBackward (col : Z) (r : ROW) : option Z :=
  if col <? 0 then None else Z.of_nat <$> backward (_charOffsets r) (Z.to_nat col).
Definition _adjustForward (col : Z) (r : ROW) : option Z :=
  if col <? 0 then None else Z.of_nat <$> forward (drop (Z.to_nat col) (_charOffsets r)) (Z.to_nat col).

Definition NavigateToPrevious (column : Z) (r : ROW) : option Z := _adjustBackward (_clampedColumn (column - 1) r) r.
Definition NavigateToNext (column : Z) (r : ROW) : option Z := _adjustForward (_clampedColumnInclusive (column + 1) r) r.
Definition AdjustToGlyphStart (column : Z) (r : ROW) : option Z := _adjustBackward (_clampedColumn column r) r.
Definition AdjustToGlyphEnd (column : Z) (r : ROW) : option Z := _adjustForward (_clampedColumnInclusive column r) r.

Definition GetReadableColumnCount (r : ROW) : Z :=
  if _lineRendition r =? LineRendition.SingleWidth then _columnCount r - Z.b2z (_doubleBytePadded r)
  else Z.shiftr (_columnCount r - Z.shiftl (Z.b2z (_doubleBytePadded r)) 1) 1.

(** A view of the characters between two offsets. *)
Definition substring (first last : Z) (r : ROW) : wstring := take (Z.to_nat (last - first)) (drop (Z.to_nat first) (_chars r)).

Definition GlyphAt (column : Z) (r : ROW) : option wstring :=
  let col := _clampedColumn column r in
  first ← _uncheckedCharOffset col r;
  next ← _adjustForward (col + 1) r;
  last ← _uncheckedCharOffset next r;
  Some (substring first last r).

Definition DbcsAttrAt (column : Z) (r : ROW) : option DbcsAttribute :=
  let col := _clampedColumn column r in
  t ← _uncheckedIsTrailer col r;
  if t : bool then Some DbcsTrailing
  else t' ← _uncheckedIsTrailer (col + 1) r; Some (if t' : bool then DbcsLeading else DbcsSingle).

Definition GetText (r : ROW) : option wstring :=
  o ← offset_at (_charOffsets r) (GetReadableColumnCount r); Some (substring 0 (masked o) r).

Definition GetTextBetween (columnBegin columnEnd : Z) (r : ROW) : option wstring :=
  let columns := GetReadableColumnCount r in
  let colBeg := clamp columnBegin 0 columns in
  let colEnd := clamp columnEnd colBeg columns in
  chBeg ← _uncheckedCharOffset colBeg r;
  chEnd ← _uncheckedCharOffset colEnd r;
  Some (substring chBeg chEnd r).

Definition GetCharOffset (col : Z) (r : ROW) : option Z := _uncheckedCharOffset (clamp col 0 (GetReadableColumnCount r)) r.

(** The spaces in front of a string. *)
Fixpoint leading_spaces (t : wstring) : nat :=
  match t with c :: t => if c =? UNICODE_SPACE then S (leading_spaces t) else O | [] => O end.

Definition GetLastNonSpaceColumn (r : ROW) : option Z :=
  t ← GetText r; Some (GetReadableColumnCount r - Z.of_nat (leading_spaces (rev t))).
Definition MeasureLeft (r : ROW) : option Z := t ← GetText r; Some (Z.of_nat (leading_spaces t)).
Definition MeasureRight (r : ROW) : option Z :=
  if _wrapForced r then Some (u16 (_columnCount r - Z.b2z (_doubleBytePadded r))) else GetLastNonSpaceColumn r.
Definition ContainsText (r : ROW) : option bool := t ← GetText r; Some (existsb (fun c => negb (c =? UNICODE_SPACE)) t).

Definition DelimiterClassAt (column : Z) (wordDelimiters : wstring) (r : ROW) : option DelimiterClass :=
  off ← _uncheckedCharOffset (_clampedColumn column r) r;
  glyph ← _uncheckedChar off r;
  Some (if glyph <=? UNICODE_SPACE then ControlChar
        else if existsb (Z.eqb glyph) wordDelimiters then DelimiterChar else RegularChar).

Definition GetAttrByColumn (column : Z) (r : ROW) : option TextAttribute.t := at_ 16 (_clampedColumn column r) (_attr r).
Definition GetHyperlinks (r : ROW) : list Z :=
  map (fun run => TextAttribute._hyperlinkId (value run)) (filter (fun run => TextAttribute.IsHyperlink (value run) = true) (_runs (_attr r))).

(** ** From characters to columns *)

Record CharToColumnMapper := mkMapper { map_charOffsets : list Z; map_charsLength : Z; map_currentColumn : Z; map_columnCount : Z }.

Definition _createCharToColumnMapper (offset : Z) (r : ROW) : option CharToColumnMapper :=
  charsSize ← _charSize r;
  Some (mkMapper (_charOffsets r) charsSize (clamp offset 0 (_columnCount r)) (_columnCount r)).

(** Forwards until the offset is reached, then back over trailers and past a
    glyph that starts behind it. *)
Fixpoint search_forward (rest : list Z) (col : nat) (target : Z) : option nat :=
  match rest with
  | o :: rest => if masked o <? target then search_forward rest (S col) target else Some col
  | [] => None
  end.
Fixpoint search_backward (offsets : list Z) (col : nat) (target : Z) : option nat :=
  match offsets !! col with
  | Some o => if target <? o then match col with O => None | S col => search_backward offsets col target end else Some col
  | None => None
  end.

Definition GetLeadingColumnAt (targetOffset : Z) (m : CharToColumnMapper) : option (CharToColumnMapper * Z) :=
  let targetOffset := clamp targetOffset 0 (map_charsLength m) in
  let col := Z.to_nat (map_currentColumn m) in
  col ← search_forward (drop col (map_charOffsets m)) col targetOffset;
  col ← search_backward (map_charOffsets m) col targetOffset;
  Some (mkMapper (map_charOffsets m) (map_charsLength m) (Z.of_nat col) (map_columnCount m), Z.of_nat col).

(** Over the trailers that follow a column. *)
Fixpoint last_trailer (rest : list Z) (col : Z) : option Z :=
  match rest with
  | o :: rest => if is_trailer o then last_trailer rest (col + 1) else Some col
  | [] => None
  end.

Definition GetTrailingColumnAt (offset : Z) (m : CharToColumnMapper) : option (CharToColumnMapper * Z) :=
  p ← GetLeadingColumnAt offset m;
  let '(m, col) := p in
  if col <? map_columnCount m then col ← last_trailer (drop (Z.to_nat (col + 1)) (map_charOffsets m)) col; Some (m, col)
  else Some (m, col).

Definition GetLeadingColumnAtCharOffset (offset : Z) (r : ROW) : option Z :=
  m ← _createCharToColumnMapper offset r; snd <$> GetLeadingColumnAt offset m.
Definition GetTrailingColumnAtCharOffset (offset : Z) (r : ROW) : option Z :=
  m ← _createCharToColumnMapper offset r; snd <$> GetTrailingColumnAt offset m.

(** ** Initialisation *)

Definition CalculateCharsBufferSize (columns : Z) : Z := Z.land (columns * 2 + 16) (Z.lnot 15).
Definition CalculateCharOffsetsBufferSize (columns : Z) : Z := Z.land (columns * 2 + 16) (Z.lnot 15).

(** A vector store of 16-bit lanes. *)
Definition store (pos : nat) (lanes buffer : list Z) : option (list Z) :=
  if (pos + length lanes <=? length buffer)%nat then Some (take pos buffer ++ lanes ++ drop (pos + length lanes) buffer) else None.

Definition offsetsData (lanes : nat) : list Z := map Z.of_nat (seq 0 lanes).
Definition add_epi16 (increment : Z) (lanes : list Z) : list Z := map (fun lane => u16 (lane + increment)) lanes.

(** Both stores of one round, and the loops: AVX with 16 lanes before the aligned
    tail, and SSE with 8 lanes. *)
Definition store_both (pos : nat) (offsets : list Z) (buffers : list Z * list Z) : option (list Z * list Z) :=
  chars ← store pos (replicate (length offsets) UNICODE_SPACE) buffers.1;
  charOffsets ← store pos offsets buffers.2;
  Some (chars, charOffsets).

Fixpoint avx_loop (fuel pos tail : nat) (offsets : list Z) (buffers : list Z * list Z) : option (list Z * list Z) :=
  if (pos <? tail)%nat then
    match fuel with
    | O => None
    | S fuel => buffers ← store_both pos offsets buffers; avx_loop fuel (pos + 16) tail (add_epi16 16 offsets) buffers
    end
  else Some buffers.

Fixpoint sse_loop (fuel pos columns : nat) (offsets : list Z) (buffers : list Z * list Z) : option (list Z * list Z) :=
  match fuel with
  | O => None
  | S fuel =>
    buffers ← store_both pos offsets buffers;
    if (pos + 8 <=? columns)%nat then sse_loop fuel (pos + 8) columns (add_epi16 8 offsets) buffers else Some buffers
  end.

Definition init_buffers (avx2 : bool) (columnCount : Z) (buffers : list Z * list Z) : option (list Z * list Z) :=
  if avx2 && (15 <=? columnCount) then
    let tailColumnOffset := u16 (Z.land (u32 (columnCount - 8)) (Z.lnot 7)) in
    buffers ← avx_loop (Z.to_nat columnCount) 0 (Z.to_nat tailColumnOffset) (offsetsData 16) buffers;
    store_both (Z.to_nat tailColumnOffset) (add_epi16 tailColumnOffset (offsetsData 16)) buffers
  else sse_loop (S (Z.to_nat columnCount)) 0 (Z.to_nat columnCount) (offsetsData 8) buffers.

Section Init.
(** Whether the processor has AVX2, and what memory holds before it is written. *)
Variable avx2 : bool.
Variable uninitialised : nat -> Z.

Definition fresh (n : nat) : list Z := map uninitialised (seq 0 n).

(** The initialisation writes whatever the buffers held; the row sees the columns
    of them. *)
Definition _init (r : ROW) : option ROW :=
  let n := Z.to_nat (_columnCount r) in
  buffers ← init_buffers avx2 (_columnCount r)
    (fresh (Z.to_nat (CalculateCharsBufferSize (_columnCount r) / 2)), fresh (Z.to_nat (CalculateCharOffsetsBufferSize (_columnCount r) / 2)));
  Some (set_text (_charsBuffer r) (take n buffers.1) (take (S n) buffers.2) r).

Definition new_ROW (charsBuffer rowWidth : Z) (fillAttribute : TextAttribute.t) : option ROW :=
  _init (mkRow charsBuffer charsBuffer [] [] (rle_fill rowWidth fillAttribute) rowWidth LineRendition.SingleWidth false false None None).

Definition Reset (attr : TextAttribute.t) (r : ROW) : option ROW :=
  let r := set_attr (set_runs [mkRun attr (_columnCount r)] (_attr r)) r in
  _init (set_flags LineRendition.SingleWidth false false None None r).
End Init.
