(* ===== verification/RowWrite.v ===== *)
(** * Writing into a line: [ROW::WriteHelper]

    The mutating half of src/buffer/out/Row.cpp: replacing characters, text and
    copied text, with the reallocation of the character buffer. The detector of
    glyphs is any [Measurement]. *)

From stdpp Require Import list.
From S2P Require Import Prelude Til Utils TermDispatch TextAttributes Rle CodepointWidth CodepointWidthProps Row Geometry ImageSlice.

(** ** Images on rows

    The operations of src/buffer/out/ImageSlice.cpp that work on the slice of a row:
    copying and erasing cells. A double width row shows each of its columns in two
    columns of the image. *)

Definition image_scale (r : ROW) : Z := if _lineRendition r =? LineRendition.SingleWidth then 0 else 1.

(** The image is copied. *)
Definition ImageSlice_CopyRow (srcRow dstRow : ROW) : ROW := SetImageSlice (_imageSlice srcRow) dstRow.

Definition ImageSlice_EraseCells (columnBegin columnEnd : Z) (r : ROW) : option ROW :=
  match _imageSlice r with
  | None => Some r
  | Some imageSlice =>
    let scale := image_scale r in
    '(imageSlice, gone) ← ImageSlice._eraseCells (Z.shiftl columnBegin scale) (Z.shiftl columnEnd scale) imageSlice;
    Some (SetImageSlice (if gone : bool then None else Some imageSlice) r)
  end.

(** [aliased]: the source is the row itself. *)
Definition ImageSlice_CopyCells (srcRow : ROW) (aliased : bool) (srcColumn dstColumnBegin dstColumnEnd : Z) (dstRow : ROW) : option ROW :=
  match _imageSlice srcRow with
  | None => ImageSlice_EraseCells dstColumnBegin dstColumnEnd dstRow
  | Some srcSlice =>
    if negb (_lineRendition srcRow =? _lineRendition dstRow) then ImageSlice_EraseCells dstColumnBegin dstColumnEnd dstRow
    else
      let dstSlice := match _imageSlice dstRow with Some dstSlice => dstSlice | None => ImageSlice.new (ImageSlice.CellSize srcSlice) end in
      let scale := image_scale srcRow in
      '(dstSlice, gone) ← ImageSlice._copyCells srcSlice aliased (Z.shiftl srcColumn scale) (Z.shiftl dstColumnBegin scale) (Z.shiftl dstColumnEnd scale) dstSlice;
      Some (SetImageSlice (if gone : bool then None else Some dstSlice) dstRow)
  end.

Record WriteHelper (D : Type) := mkHelper {
  row : ROW;
  cwd : D;
  chars : wstring_view;
  colBeg : Z;
  colLimit : Z;
  colEnd : Z;
  colBegDirty : Z;
  colEndDirty : Z;
  chBeg : Z;
  chBegDirty : Z;
  leadingSpaces : Z;
  charsConsumed : Z
}.
Arguments mkHelper {D}.
Arguments row {D}. Arguments cwd {D}. Arguments chars {D}. Arguments colBeg {D}. Arguments colLimit {D}. Arguments colEnd {D}.
Arguments colBegDirty {D}. Arguments colEndDirty {D}. Arguments chBeg {D}. Arguments chBegDirty {D}. Arguments leadingSpaces {D}. Arguments charsConsumed {D}.

(** What a caller of [ReplaceText] gives and gets back. *)
Record RowWriteState := mkWriteState {
  ws_text : wstring_view;
  ws_columnBegin : Z;
  ws_columnLimit : Z;
  ws_columnEnd : Z;
  ws_columnBeginDirty : Z;
  ws_columnEndDirty : Z
}.

(** What a caller of [CopyTextFrom] gives, apart from the source, and gets back. *)
Record RowCopyTextFromState := mkCopyState {
  cs_columnBegin : Z;
  cs_columnLimit : Z;
  cs_sourceColumnBegin : Z;
  cs_sourceColumnLimit : Z;
  cs_columnEnd : Z;
  cs_columnBeginDirty : Z;
  cs_columnEndDirty : Z;
  cs_sourceColumnEnd : Z
}.

Section Write.
Context {D : Type} `{Measurement D}.
(** As in [_init], and the address of newly allocated memory. *)
Variable avx2 : bool.
Variable uninitialised : nat -> Z.
Variable allocated : Z.

Local Abbreviation M := (comp (WriteHelper D)).

Definition set_row (r : ROW) (h : WriteHelper D) : WriteHelper D :=
  mkHelper r (cwd h) (chars h) (colBeg h) (colLimit h) (colEnd h) (colBegDirty h) (colEndDirty h) (chBeg h) (chBegDirty h) (leadingSpaces h) (charsConsumed h).
Definition set_cwd (d : D) (h : WriteHelper D) : WriteHelper D :=
  mkHelper (row h) d (chars h) (colBeg h) (colLimit h) (colEnd h) (colBegDirty h) (colEndDirty h) (chBeg h) (chBegDirty h) (leadingSpaces h) (charsConsumed h).
Definition set_colEnd (c : Z) (h : WriteHelper D) : WriteHelper D :=
  mkHelper (row h) (cwd h) (chars h) (colBeg h) (colLimit h) c (colBegDirty h) (colEndDirty h) (chBeg h) (chBegDirty h) (leadingSpaces h) (charsConsumed h).
Definition set_colBegDirty (c : Z) (h : WriteHelper D) : WriteHelper D :=
  mkHelper (row h) (cwd h) (chars h) (colBeg h) (colLimit h) (colEnd h) c (colEndDirty h) (chBeg h) (chBegDirty h) (leadingSpaces h) (charsConsumed h).
Definition set_dirty (c consumed : Z) (h : WriteHelper D) : WriteHelper D :=
  mkHelper (row h) (cwd h) (chars h) (colBeg h) (colLimit h) (colEnd h) (colBegDirty h) c (chBeg h) (chBegDirty h) (leadingSpaces h) consumed.

(** A read that must stay within an array. *)
Definition checked {A} (f : ROW -> option A) : M A := fun h => match f (row h) with Some a => (h, Returned a) | None => (h, Undefined) end.

Definition write_offset (col v : Z) : M unit := fun h =>
  let offsets := _charOffsets (row h) in
  if (0 <=? col) && (col <? Z.of_nat (length offsets)) then (set_row (set_offsets (<[Z.to_nat col := v]> offsets) (row h)) h, Returned tt)
  else (h, Undefined).

Definition write_chars (pos : Z) (t : wstring) : M unit := fun h =>
  let cs := _chars (row h) in
  if (0 <=? pos) && (pos + Z.of_nat (length t) <=? Z.of_nat (length cs)) then
    (set_row (set_chars (take (Z.to_nat pos) cs ++ t ++ drop (Z.to_nat pos + length t) cs) (row h)) h, Returned tt)
  else (h, Undefined).

(** ** Construction *)

Definition new_WriteHelper (r : ROW) (d : D) (columnBegin columnLimit : Z) (t : wstring_view) : option (WriteHelper D) :=
  let colBeg := _clampedColumnInclusive columnBegin r in
  let colLimit := _clampedColumnInclusive columnLimit r in
  chBegDirty ← _uncheckedCharOffset colBeg r;
  colBegDirty ← _adjustBackward colBeg r;
  let leadingSpaces := u16 (colBeg - colBegDirty) in
  Some (mkHelper r d t colBeg colLimit colBeg colBegDirty 0 (u16 (chBegDirty + leadingSpaces)) chBegDirty leadingSpaces 0).

Definition IsValid (h : WriteHelper D) : bool :=
  (colBeg h <? colLimit h) && negb (match text (chars h) with [] => true | _ => false end).

(** ** Replacing *)

(** The trailers of a glyph: [while (colEnd < colEndNew) charOffsets[colEnd++] = ...] *)
Fixpoint write_trailers (fuel : nat) (colEndNew v : Z) : M unit :=
  col ← gets colEnd;
  if col <? colEndNew then
    match fuel with
    | O => out_of_fuel
    | S fuel => write_offset col v;; modify (set_colEnd (u16 (col + 1)));; write_trailers fuel colEndNew v
    end
  else mret tt.

(** One glyph: the offset of its characters for its first column, then trailers. *)
Definition write_glyph (colEndNew ch : Z) : M unit :=
  col ← gets colEnd;
  write_offset col (u16 ch);;
  modify (set_colEnd (u16 (col + 1)));;
  write_trailers (Z.to_nat colEndNew) colEndNew (u16 (Z.lor ch CharOffsetsTrailer)).

Definition helper_ReplaceCharacters (width : Z) : M unit :=
  h ← gets id;
  let colEndNew := u16 (colEnd h + width) in
  if colLimit h <? colEndNew then modify (set_dirty (colLimit h) (charsConsumed h))
  else
    write_glyph colEndNew (chBeg h);;
    modify (fun h => set_dirty (colEnd h) (view_size (chars h)) h).

(** The loop over glyphs; [it] counts the characters of the text that are done and
    [state] is that of the iteration. *)
Fixpoint write_clusters (fuel : nat) (ch : Z) (it : Z) (state : GraphemeState) : M unit :=
  match fuel with
  | O => out_of_fuel
  | S fuel =>
    h ← gets id;
    let '(d, (state, _)) := measure_next state (chars h) (cwd h) in
    modify (set_cwd d);;
    let colEndNew := u16 (colEnd h + Z.max 1 (width state)) in
    if colLimit h <? colEndNew then modify (set_dirty (colLimit h) (ch - chBeg h))
    else
      write_glyph colEndNew ch;;
      let ch := ch + len state in
      let it := it + len state in
      if it =? view_size (chars h) then modify (fun h => set_dirty (colEnd h) (ch - chBeg h) h)
      else write_clusters fuel ch it state
  end.

Definition finish_clusters (ch it : Z) : M unit :=
  h ← gets id;
  if it =? view_size (chars h) then modify (fun h => set_dirty (colEnd h) (ch - chBeg h) h)
  else write_clusters (length (text (chars h))) ch it (mkGraphemeState (data (chars h) + it) 0 0 0 0).

(** The column of the glyph in front of [colBeg]. *)
Fixpoint previous_glyph (offsets : list Z) (col : nat) : option nat :=
  match col with
  | O => Some O
  | S col => match offsets !! col with
             | Some o => if is_trailer o then previous_glyph offsets col else Some col
             | None => None
             end
  end.

(** Whether the text joins what is in front of it in the row. *)
Definition join_previous (ch : Z) : M unit :=
  h ← gets id;
  colPrev ← checked (fun r => Z.of_nat <$> previous_glyph (_charOffsets r) (Z.to_nat (colBeg h)));
  chPrev ← checked (_uncheckedCharOffset colPrev);
  let charsPrev := mkView (_data (row h) + chPrev) (substring chPrev ch (row h)) in
  let '(d, (state, _)) := measure_next new_GraphemeState charsPrev (cwd h) in
  let '(d, (state, _)) := measure_next state (chars h) d in
  modify (set_cwd d);;
  if 0 <? len state then
    modify (fun h => set_colEnd colPrev (set_colBegDirty colPrev h));;
    let colEndNew := u16 (colPrev + Z.max 1 (width state)) in
    if colLimit h <? colEndNew then modify (set_dirty (colLimit h) (ch - chBeg h))
    else write_glyph colEndNew chPrev;; finish_clusters (ch + len state) (len state)
  else finish_clusters ch 0.

Definition _replaceTextUnicode (ch it : Z) : M unit :=
  if it =? 0 then join_previous ch
  else
    modify (fun h => set_colEnd (u16 (colEnd h - 1)) h);;
    finish_clusters (ch - 1) (it - 1).

(** The loop over ASCII; [rest] is the text up to the column limit. *)
Fixpoint write_ascii (rest : wstring) (ch it : Z) : M unit :=
  match rest with
  | c :: rest =>
    if 0x80 <=? c then _replaceTextUnicode ch it
    else
      col ← gets colEnd;
      write_offset col (u16 ch);;
      modify (set_colEnd (u16 (col + 1)));;
      write_ascii rest (ch + 1) (it + 1)
  | [] => modify (fun h => set_dirty (colEnd h) (ch - chBeg h) h)
  end.

Definition helper_ReplaceText : M unit :=
  h ← gets id;
  write_ascii (take (Z.to_nat (Z.min (view_size (chars h)) (colLimit h - colBeg h))) (text (chars h))) (chBeg h) 0.

(** ** Finishing *)

(** [std::copy_n] within the characters. *)
Definition copy_within (src count dst : Z) : M unit :=
  h ← gets id;
  let cs := _chars (row h) in
  if Z.of_nat (length cs) <? src + count then undefined
  else write_chars dst (take (Z.to_nat count) (drop (Z.to_nat src) cs)).

Definition _resizeChars (colEndDirty chBegDirty chEndDirty chEndDirtyOld : Z) : M unit :=
  let diff := u64 (chEndDirty - chEndDirtyOld) in
  currentLength ← checked _charSize;
  let newLength := u64 (currentLength + diff) in
  h ← gets id;
  let cs := _chars (row h) in
  let size := Z.of_nat (length cs) in
  (if newLength <=? size then copy_within chEndDirtyOld (currentLength - chEndDirtyOld) chEndDirty
   else
     let minCapacity := Z.min 0xFFFF (size + Z.shiftr size 1) in
     let newCapacity := Z.max newLength minCapacity in
     if 0xFFFF <? newCapacity then throw
     else if (size <? chBegDirty) || (size <? currentLength) then undefined
     else
       modify (fun h => set_row (set_text allocated (fresh uninitialised (Z.to_nat newCapacity)) (_charOffsets (row h)) (row h)) h);;
       write_chars 0 (take (Z.to_nat chBegDirty) cs);;
       write_chars chEndDirty (take (Z.to_nat (currentLength - chEndDirtyOld)) (drop (Z.to_nat chEndDirtyOld) cs)));;
  modify (fun h =>
    let offsets := _charOffsets (row h) in
    let n := Z.to_nat colEndDirty in
    set_row (set_offsets (take n offsets ++ map (fun o => u16 (o + diff)) (drop n offsets)) (row h)) h).

(** [iota_n]: consecutive offsets for [count] columns. *)
Fixpoint write_iota (col : Z) (count : nat) (v : Z) : M unit :=
  match count with
  | O => mret tt
  | S count => write_offset col v;; write_iota (col + 1) count (u16 (v + 1))
  end.

Definition write_spaces (col count ch : Z) : M unit :=
  if count =? 0 then mret tt
  else write_chars ch (replicate (Z.to_nat count) UNICODE_SPACE);; write_iota col (Z.to_nat count) (u16 ch).

Definition Finish : M unit :=
  h ← gets id;
  endDirty ← checked (_adjustForward (colEndDirty h));
  modify (fun h => set_dirty endDirty (charsConsumed h) h);;
  let trailingSpaces := u16 (endDirty - colEnd h) in
  chEndDirtyOld ← checked (_uncheckedCharOffset endDirty);
  let chEndDirty := chBegDirty h + charsConsumed h + leadingSpaces h + trailingSpaces in
  (if chEndDirty =? chEndDirtyOld then mret tt else _resizeChars endDirty (chBegDirty h) chEndDirty chEndDirtyOld);;
  write_chars (chBeg h) (take (Z.to_nat (charsConsumed h)) (text (chars h)));;
  write_spaces (colBegDirty h) (leadingSpaces h) (chBegDirty h);;
  write_spaces (colEnd h) trailingSpaces (chBeg h + charsConsumed h);;
  modify (fun h => if endDirty =? _columnCount (row h) then set_row (SetDoubleBytePadded (colEnd h <? _columnCount (row h)) (row h)) h else h).

(** ** The operations of a row *)

(** Runs a helper on a row; an exception leaves the row reset. *)
Definition with_helper {A} (h : WriteHelper D) (m : M A) : ROW * D * outcome A :=
  match m h with
  | (h', Threw) => match Reset avx2 uninitialised TextAttribute.default (row h') with Some r => (r, cwd h', Threw) | None => (row h', cwd h', Undefined) end
  | (h', o) => (row h', cwd h', o)
  end.

Definition ReplaceCharacters (columnBegin width : Z) (t : wstring_view) (r : ROW) (d : D) : ROW * D * outcome unit :=
  match new_WriteHelper r d columnBegin (_columnCount r) t with
  | None => (r, d, Undefined)
  | Some h => if negb (IsValid h) then (r, d, Returned tt) else with_helper h (helper_ReplaceCharacters width;; Finish)
  end.

Definition ClearCell (column : Z) (r : ROW) (d : D) : ROW * D * outcome unit := ReplaceCharacters column 1 (mkView 1 [UNICODE_SPACE]) r d.

Definition written (s : RowWriteState) (h : WriteHelper D) : RowWriteState :=
  let rest := mkView (data (ws_text s) + charsConsumed h) (drop (Z.to_nat (charsConsumed h)) (text (ws_text s))) in
  mkWriteState rest (ws_columnBegin s) (ws_columnLimit s)
    (match text rest with [] => colEnd h | _ => colLimit h end) (colBegDirty h) (colEndDirty h).

Definition ReplaceText (s : RowWriteState) (r : ROW) (d : D) : ROW * D * outcome RowWriteState :=
  match new_WriteHelper r d (ws_columnBegin s) (ws_columnLimit s) (ws_text s) with
  | None => (r, d, Undefined)
  | Some h =>
    if negb (IsValid h) then
      (r, d, Returned (mkWriteState (ws_text s) (ws_columnBegin s) (ws_columnLimit s) (colBeg h) (colBeg h) (colBeg h)))
    else with_helper h (helper_ReplaceText;; Finish;; gets (written s))
  end.

(** *** Copying *)

Definition _copyOffsets (src : list Z) (offset : Z) : list Z :=
  map (fun o => Z.lor (u16 (Z.land o CharOffsetsMask + offset)) (Z.land o CharOffsetsTrailer)) src.

Fixpoint write_offsets (col : Z) (offsets : list Z) : M unit :=
  match offsets with
  | [] => mret tt
  | o :: offsets => write_offset col o;; write_offsets (col + 1) offsets
  end.

(** The narrowing of the size would terminate, the function is [noexcept]. *)
Definition helper_CopyTextFrom (charOffsets : list Z) : M unit :=
  h ← gets id;
  if 0xFFFF <? Z.of_nat (length charOffsets) - 1 then undefined
  else
  let colEndDirtyInput := Z.min (u16 (colLimit h - colBeg h)) (Z.of_nat (length charOffsets) - 1) in
  match backward charOffsets (Z.to_nat colEndDirtyInput), charOffsets !! O with
  | Some colEndInput, Some baseOffset =>
    match charOffsets !! colEndInput with
    | Some endOffset =>
      let inToOutOffset := u16 (chBeg h - baseOffset) in
      write_offsets (colEnd h) (_copyOffsets (take colEndInput charOffsets) inToOutOffset);;
      modify (fun h => set_dirty (u16 (colBeg h + colEndDirtyInput)) (endOffset - baseOffset) (set_colEnd (u16 (colEnd h + Z.of_nat colEndInput)) h))
    | None => undefined
    end
  | _, _ => undefined
  end.

(** The offsets and characters of the source that are to be copied. *)
Definition copied_input (source : ROW) (s : RowCopyTextFromState) : option (list Z * wstring_view) :=
  let sourceColBeg := _clampedColumnInclusive (cs_sourceColumnBegin s) source in
  let sourceColLimit := _clampedColumnInclusive (cs_sourceColumnLimit s) source in
  if sourceColBeg <? sourceColLimit then
    let charOffsets := take (Z.to_nat (sourceColLimit - sourceColBeg + 1)) (drop (Z.to_nat sourceColBeg) (_charOffsets source)) in
    front ← head charOffsets;
    back ← last charOffsets;
    Some (charOffsets, mkView (_data source + masked front) (substring (masked front) (masked back) source))
  else Some ([], mkView 0 []).

(** [aliased]: whether the source is the row itself. *)
Definition CopyTextFrom (source : ROW) (aliased : bool) (s : RowCopyTextFromState) (r : ROW) (d : D) : ROW * D * outcome RowCopyTextFromState :=
  match copied_input source s with
  | None => (r, d, Undefined)
  | Some (charOffsets, t) =>
    match new_WriteHelper r d (cs_columnBegin s) (cs_columnLimit s) t with
    | None => (r, d, Undefined)
    | Some h =>
      let result := mkCopyState (cs_columnBegin s) (cs_columnLimit s) (cs_sourceColumnBegin s) (cs_sourceColumnLimit s) in
      if negb (IsValid h) || aliased || (length charOffsets <? 2)%nat || (match charOffsets with o :: _ => is_trailer o | [] => false end) then
        (r, d, Returned (result (colBeg h) (colBeg h) (colBeg h) (_columnCount source)))
      else
        with_helper h (helper_CopyTextFrom charOffsets;; Finish;;
          gets (fun h => result (if charsConsumed h =? view_size t then colEnd h else colLimit h) (colBegDirty h) (colEndDirty h)
                           (_clampedColumnInclusive (cs_sourceColumnBegin s) source + colEnd h - colBeg h)))
    end
  end.

(** Copies the readable text; the last attribute fills up a wider row. *)
Definition CopyFrom (source : ROW) (aliased : bool) (r : ROW) (d : D) : ROW * D * outcome unit :=
  let r := SetLineRendition (_lineRendition source) (SetWrapForced (_wrapForced source) r) in
  match CopyTextFrom source aliased (mkCopyState 0 CoordTypeMax 0 (GetReadableColumnCount source) 0 0 0 0) r d with
  | (r, d, Returned _) =>
    match resize_trailing_extent 16 (_columnCount r) (_attr source) with
    | (a, Returned _) => (set_attr a r, d, Returned tt)
    | (a, Threw) => (set_attr a r, d, Threw)
    | (a, Undefined) => (set_attr a r, d, Undefined)
    | (a, OutOfFuel) => (set_attr a r, d, OutOfFuel)
    end
  | (r, d, Threw) => (r, d, Threw)
  | (r, d, Undefined) => (r, d, Undefined)
  | (r, d, OutOfFuel) => (r, d, OutOfFuel)
  end.

(** *** Attributes *)

Definition replace_attributes (first last : Z) (attr : TextAttribute.t) (r : ROW) : ROW * outcome unit :=
  let '(a, o) := replace_value 16 first last attr (_attr r) in (set_attr a r, o).
Definition SetAttrToEnd (columnBegin : Z) (attr : TextAttribute.t) (r : ROW) : ROW * outcome unit :=
  replace_attributes (_clampedColumnInclusive columnBegin r) (size (_attr r)) attr r.
Definition ReplaceAttributes (beginIndex endIndex : Z) (newAttr : TextAttribute.t) (r : ROW) : ROW * outcome unit :=
  replace_attributes (_clampedColumnInclusive beginIndex r) (_clampedColumnInclusive endIndex r) newAttr r.
End Write.
