(* ===== verification/RowProps.v ===== *)
(** * What a row holds

    A row represents a list of glyphs, each with its characters and its columns.
    This file has the representation, and the lemmas by which the queries and the
    writes of a row are those of the glyphs. *)

From stdpp Require Import list.
From S2P Require Import Prelude Til Utils TermDispatch TextAttributes Rle CodepointWidth CodepointWidthProps Row RowWrite.

Record glyph := mkGlyph { g_chars : wstring; g_width : nat }.

Definition columns (gs : list glyph) : nat := sum_list_with g_width gs.
Definition text_of (gs : list glyph) : wstring := concat (map g_chars gs).
Definition chars_len (gs : list glyph) : Z := Z.of_nat (length (text_of gs)).
Definition spaces (n : nat) : list glyph := replicate n (mkGlyph [UNICODE_SPACE] 1).

(** The offsets of the columns of glyphs whose characters start at [off]. *)
Definition glyph_cells (off : Z) (w : nat) : list Z := off :: replicate (w - 1) (off + CharOffsetsTrailer).
Fixpoint cells (off : Z) (gs : list glyph) : list Z :=
  match gs with
  | [] => []
  | g :: gs => glyph_cells off (g_width g) ++ cells (off + Z.of_nat (length (g_chars g))) gs
  end.

Lemma length_glyph_cells off w : (1 <= w)%nat -> length (glyph_cells off w) = w.
Proof. intros H. unfold glyph_cells. simpl. rewrite length_replicate. lia. Qed.

Definition glyph_ok (g : glyph) : Prop := (1 <= g_width g <= 2)%nat /\ g_chars g <> [].

Record row_ok (r : ROW) (gs : list glyph) : Prop := {
  rep_columns : Z.of_nat (columns gs) = _columnCount r;
  rep_count : 1 <= _columnCount r;
  rep_glyphs : Forall glyph_ok gs;
  rep_offsets : _charOffsets r = cells 0 gs ++ [chars_len gs];
  rep_length : chars_len gs < 0x8000;
  rep_chars : text_of gs `prefix_of` _chars r;
  rep_narrow : _columnCount r < 0x8000
}.

(** ** Sums *)

Lemma columns_app a b : columns (a ++ b) = (columns a + columns b)%nat.
Proof. apply sum_list_with_app. Qed.
Lemma columns_cons g gs : columns (g :: gs) = (g_width g + columns gs)%nat.
Proof. done. Qed.
Lemma text_of_app a b : text_of (a ++ b) = text_of a ++ text_of b.
Proof. unfold text_of. by rewrite map_app, concat_app. Qed.
Lemma text_of_cons g gs : text_of (g :: gs) = g_chars g ++ text_of gs.
Proof. done. Qed.
Lemma chars_len_app a b : chars_len (a ++ b) = chars_len a + chars_len b.
Proof. unfold chars_len. rewrite text_of_app, length_app. lia. Qed.
Lemma chars_len_cons g gs : chars_len (g :: gs) = Z.of_nat (length (g_chars g)) + chars_len gs.
Proof. unfold chars_len. rewrite text_of_cons, length_app. lia. Qed.
Lemma chars_len_nonneg gs : 0 <= chars_len gs.
Proof. unfold chars_len. lia. Qed.
Lemma spaces_S n : spaces (S n) = mkGlyph [UNICODE_SPACE] 1 :: spaces n.
Proof. done. Qed.
#[global] Arguments columns : simpl never.
#[global] Arguments text_of : simpl never.
#[global] Arguments chars_len : simpl never.
#[global] Arguments spaces : simpl never.
#[global] Arguments glyph_cells : simpl never.
Lemma columns_spaces n : columns (spaces n) = n.
Proof. induction n as [|n IH]; [done|]. by rewrite spaces_S, columns_cons, IH. Qed.
Lemma text_of_spaces n : text_of (spaces n) = replicate n UNICODE_SPACE.
Proof. induction n as [|n IH]; [done|]. by rewrite spaces_S, text_of_cons, IH. Qed.
Lemma chars_len_spaces n : chars_len (spaces n) = Z.of_nat n.
Proof. unfold chars_len. by rewrite text_of_spaces, length_replicate. Qed.
Lemma glyph_ok_spaces n : Forall glyph_ok (spaces n).
Proof. apply Forall_replicate. split; [simpl; lia|done]. Qed.
Lemma length_text gs : length (text_of gs) = Z.to_nat (chars_len gs).
Proof. unfold chars_len. lia. Qed.

(** ** Offsets *)

Lemma is_trailer_small o : 0 <= o < 0x8000 -> is_trailer o = false /\ masked o = o /\ is_trailer (o + CharOffsetsTrailer) = true /\ masked (o + CharOffsetsTrailer) = o.
Proof.
  intros Ho. unfold is_trailer, masked, WI_IsFlagSet, CharOffsetsTrailer, CharOffsetsMask.
  change 0x7fff with (Z.ones 15). rewrite !Z.land_ones by lia. change 0x8000 with (2 ^ 15) in *.
  assert (forall z, Z.land z (2 ^ 15) = if Z.testbit z 15 then 2 ^ 15 else 0) as Hl.
  { intros z. apply Z.bits_inj'. intros i Hi. rewrite Z.land_spec, Z.pow2_bits_eqb by lia.
    destruct (Z.eqb_spec 15 i) as [<-|Hne]; [by destruct (Z.testbit z 15)|]. rewrite andb_false_r.
    destruct (Z.testbit z 15); [by rewrite Z.pow2_bits_false by lia|by rewrite Z.bits_0]. }
  assert (Z.testbit o 15 = false) as H1 by (apply Z.testbit_false; [lia|]; by rewrite Z.div_small by lia).
  assert (Z.testbit (o + 2 ^ 15) 15 = true) as H2 by (apply Z.testbit_true; [lia|]; rewrite <- (Z.mul_1_l (2 ^ 15)), Z.div_add, Z.div_small by lia; done).
  rewrite !Hl, H1, H2. split; [done|]. split; [apply Z.mod_small; lia|]. split; [done|].
  rewrite <- (Z.mul_1_l (2 ^ 15)), Z.mod_add by lia. apply Z.mod_small. lia.
Qed.

Lemma lor_trailer o : 0 <= o < 0x8000 -> Z.lor o CharOffsetsTrailer = o + CharOffsetsTrailer.
Proof.
  intros Ho. unfold CharOffsetsTrailer. rewrite Z.add_nocarry_lxor.
  - symmetry. apply Z.lxor_lor. 
    destruct (is_trailer_small o Ho) as [H _]. unfold is_trailer, WI_IsFlagSet in H. apply negb_false_iff, Z.eqb_eq in H. done.
  - destruct (is_trailer_small o Ho) as [H _]. unfold is_trailer, WI_IsFlagSet in H. apply negb_false_iff, Z.eqb_eq in H. done.
Qed.

Lemma length_cells off gs : Forall glyph_ok gs -> length (cells off gs) = columns gs.
Proof.
  revert off. induction gs as [|g gs IH]; intros off Hok; [done|]. apply Forall_cons in Hok as [[Hw _] Hok].
  cbn [cells]. rewrite length_app, length_glyph_cells, IH, columns_cons by (done || lia). lia.
Qed.

Lemma cells_app off a b : cells off (a ++ b) = cells off a ++ cells (off + chars_len a) b.
Proof.
  revert off. induction a as [|g a IH]; intros off; cbn [cells app]; [f_equal; unfold chars_len; simpl; lia|].
  rewrite IH, <- !app_assoc, chars_len_cons. do 3 f_equal. lia.
Qed.

Lemma cells_shift off d gs : 0 <= off -> 0 <= off + d -> off + chars_len gs < 0x8000 -> off + d + chars_len gs < 0x8000 ->
  map (fun o => u16 (o + u64 d)) (cells off gs ++ [off + chars_len gs]) = cells (off + d) gs ++ [off + d + chars_len gs].
Proof.
  assert (forall o, 0 <= o -> 0 <= o + d < 0x10000 -> u16 (o + u64 d) = o + d) as Hu.
  { intros o Ho Hd. unfold u16, u64. div_lia. }
  revert off. induction gs as [|g gs IH]; intros off Ho Hd Hl Hl'; cbn [cells].
  { unfold chars_len in *. simpl in *. rewrite Hu by lia. f_equal. lia. }
  rewrite chars_len_cons in *. pose proof (chars_len_nonneg gs). rewrite <- !app_assoc, map_app. f_equal.
  { unfold glyph_cells, CharOffsetsTrailer. cbn [map]. rewrite fmap_replicate, !Hu by lia. do 2 f_equal. lia. }
  replace (off + (Z.of_nat (length (g_chars g)) + chars_len gs)) with (off + Z.of_nat (length (g_chars g)) + chars_len gs) by lia.
  rewrite IH by lia. f_equal; f_equal; lia.
Qed.

(** ** Finding glyphs *)

(** Every column belongs to a glyph. *)
Lemma locate gs col : Forall glyph_ok gs -> (col < columns gs)%nat ->
  exists pre g post i, gs = pre ++ g :: post /\ (col = columns pre + i)%nat /\ (i < g_width g)%nat.
Proof.
  revert col. induction gs as [|g gs IH]; intros col Hok Hc; [simpl in Hc; unfold columns in Hc; simpl in Hc; lia|].
  rewrite columns_cons in Hc. destruct (decide (col < g_width g)%nat) as [Hlt|Hge].
  - by exists [], g, gs, col.
  - apply Forall_cons in Hok as [_ Hok]. destruct (IH (col - g_width g)%nat Hok ltac:(lia)) as (pre & g' & post & i & -> & Hi & Hw).
    exists (g :: pre), g', post, i. rewrite columns_cons. split; [done|]. split; [lia|done].
Qed.

Section Offsets.
Context (gs : list glyph) (Hok : Forall glyph_ok gs) (Hlen : chars_len gs < 0x8000).
Local Abbreviation offsets := (cells 0 gs ++ [chars_len gs]).

Lemma offsets_end : offsets !! columns gs = Some (chars_len gs).
Proof. rewrite lookup_app_r; rewrite length_cells by done; [|lia]. by rewrite Nat.sub_diag. Qed.

Lemma offsets_split pre post : gs = pre ++ post ->
  offsets = cells 0 pre ++ cells (chars_len pre) post ++ [chars_len gs] /\ length (cells 0 pre) = columns pre.
Proof.
  intros ->. apply Forall_app in Hok as [H1 H2]. rewrite length_cells by done. split; [|done]. by rewrite cells_app, <- app_assoc, Z.add_0_l.
Qed.

Lemma offsets_glyph pre g post i : gs = pre ++ g :: post -> (i < g_width g)%nat ->
  offsets !! (columns pre + i)%nat = Some (if (i =? 0)%nat then chars_len pre else chars_len pre + CharOffsetsTrailer).
Proof.
  intros He Hi. destruct (offsets_split pre (g :: post) He) as [-> Hl]. rewrite <- Hl, lookup_app_r by lia.
  replace (length (cells 0 pre) + i - length (cells 0 pre))%nat with i by lia. cbn [cells]. rewrite <- app_assoc, lookup_app_l.
  - unfold glyph_cells. destruct i as [|i]; [done|]. cbn [lookup list_lookup Nat.eqb]. apply lookup_replicate_2. lia.
  - rewrite length_glyph_cells by lia. lia.
Qed.

Lemma chars_len_split pre post : gs = pre ++ post -> 0 <= chars_len pre < 0x8000 /\ 0 <= chars_len post < 0x8000 /\ chars_len gs = chars_len pre + chars_len post.
Proof. intros He. pose proof (chars_len_nonneg pre). pose proof (chars_len_nonneg post). rewrite He in *. rewrite chars_len_app in *. lia. Qed.

(** The offset of a column is that of its glyph, and the end of the text for the
    column behind the last. *)
Lemma offsets_boundary pre post : gs = pre ++ post -> offsets !! columns pre = Some (chars_len pre).
Proof.
  intros He. destruct post as [|g post].
  - rewrite app_nil_r in He. rewrite <- He. apply offsets_end.
  - rewrite <- (Nat.add_0_r (columns pre)), (offsets_glyph pre g post 0 He); [done|].
    rewrite He in Hok. apply Forall_app in Hok as [_ H]. apply Forall_cons in H as [[? _] _]. lia.
Qed.

Lemma backward_boundary pre post : gs = pre ++ post -> backward offsets (columns pre) = Some (columns pre).
Proof.
  intros He. pose proof (offsets_boundary pre post He) as Hl. destruct (chars_len_split pre post He) as (H1 & _ & _).
  destruct (is_trailer_small _ H1) as (Ht & _). destruct (columns pre) eqn:Hc; simpl; rewrite Hl, Ht; done.
Qed.

Lemma backward_glyph pre g post i : gs = pre ++ g :: post -> (i < g_width g)%nat -> backward offsets (columns pre + i) = Some (columns pre).
Proof.
  intros He. induction i as [|i IH]; intros Hi; [rewrite Nat.add_0_r; by eapply backward_boundary|].
  pose proof (offsets_glyph pre g post (S i) He Hi) as Hl. destruct (chars_len_split pre _ He) as (H1 & _ & _).
  destruct (is_trailer_small _ H1) as (_ & _ & Ht & _). rewrite <- plus_n_Sm in *. cbn [backward]. rewrite Hl. cbn [Nat.eqb]. rewrite Ht. apply IH. lia.
Qed.

Lemma forward_cells o n rest col : 0 <= o < 0x8000 -> (forall x, head rest = Some x -> 0 <= x < 0x8000) -> rest <> [] ->
  forward (replicate n (o + CharOffsetsTrailer) ++ rest) col = Some (col + n)%nat.
Proof.
  intros Ho Hr Hne. destruct (is_trailer_small o Ho) as (_ & _ & Ht & _). revert col. induction n as [|n IH]; intros col; simpl.
  - destruct rest as [|x rest]; [done|]. destruct (is_trailer_small x (Hr x eq_refl)) as (Hx & _). simpl. rewrite Hx. f_equal. lia.
  - rewrite Ht, IH. f_equal. lia.
Qed.

Lemma head_offsets off post : 0 <= off -> off + chars_len post < 0x8000 ->
  forall x, head (cells off post ++ [off + chars_len post]) = Some x -> 0 <= x < 0x8000.
Proof.
  intros Ho Hl x. pose proof (chars_len_nonneg post). destruct post as [|g post]; cbn [cells app head glyph_cells].
  - intros [= <-]. unfold chars_len in *. simpl in *. lia.
  - unfold glyph_cells. cbn [app head]. intros [= <-]. lia.
Qed.

Lemma drop_offsets pre post : gs = pre ++ post -> drop (columns pre) offsets = cells (chars_len pre) post ++ [chars_len gs].
Proof. intros He. destruct (offsets_split pre post He) as [-> Hl]. by rewrite <- Hl, drop_app_length. Qed.

Lemma forward_boundary pre post : gs = pre ++ post -> forward (drop (columns pre) offsets) (columns pre) = Some (columns pre).
Proof.
  intros He. destruct (chars_len_split pre post He) as (H1 & H2 & H3). rewrite (drop_offsets pre post He), H3.
  pose proof (forward_cells 0 0 (cells (chars_len pre) post ++ [chars_len pre + chars_len post]) (columns pre) ltac:(lia)) as Hf.
  rewrite Nat.add_0_r in Hf. simpl in Hf. apply Hf; [|by destruct (cells _ _)]. apply head_offsets; lia.
Qed.

Lemma forward_glyph pre g post i : gs = pre ++ g :: post -> (1 <= i <= g_width g)%nat ->
  forward (drop (columns pre + i) offsets) (columns pre + i) = Some (columns pre + g_width g)%nat.
Proof.
  intros He Hi. destruct (chars_len_split pre _ He) as (H1 & H2 & H3). rewrite <- drop_drop, (drop_offsets pre _ He), H3.
  cbn [cells]. rewrite <- app_assoc, drop_app_le by (rewrite length_glyph_cells; lia). unfold glyph_cells.
  destruct i as [|i]; [lia|]. cbn [drop]. rewrite drop_replicate, chars_len_cons, Z.add_assoc. rewrite chars_len_cons in *.
  rewrite forward_cells; [f_equal; lia|lia| |by destruct (cells _ _)].
  apply head_offsets; lia.
Qed.
End Offsets.

(** ** Overwriting glyphs *)

(** The glyphs that end at or before a column, and those that start at or behind
    it. *)
Fixpoint before_col (gs : list glyph) (col : nat) : list glyph :=
  match gs with
  | g :: gs => if (g_width g <=? col)%nat then g :: before_col gs (col - g_width g) else []
  | [] => []
  end.
Fixpoint after_col (gs : list glyph) (col : nat) : list glyph :=
  match gs with
  | [] => []
  | g :: gs' => if (col =? 0)%nat then gs else after_col gs' (col - g_width g)
  end.

(** New glyphs at a column, in place of everything up to the column [e]: what is
    left of a glyph that is cut through turns into spaces. *)
Definition overwrite (gs : list glyph) (col : nat) (new : list glyph) (e : nat) : list glyph :=
  let a := before_col gs col in
  let z := after_col gs e in
  a ++ spaces (col - columns a) ++ new ++ spaces (columns gs - columns z - (col + columns new)) ++ z.

Definition cut_at (post : list glyph) (i : nat) : Prop := i = O \/ exists g post', post = g :: post' /\ (i < g_width g)%nat.

Lemma before_col_app pre post i : Forall glyph_ok (pre ++ post) -> cut_at post i -> before_col (pre ++ post) (columns pre + i) = pre.
Proof.
  intros Hok Hi. induction pre as [|g pre IH].
  - simpl in *. destruct post as [|g post]; [done|]. apply Forall_cons in Hok as [[Hw _] _]. simpl.
    destruct (Nat.leb_spec (g_width g) i) as [Hle|]; [|done]. exfalso.
    destruct Hi as [->|(g' & post' & [= <- <-] & Hi)]; lia.
  - apply Forall_cons in Hok as [_ Hok]. simpl. rewrite columns_cons. destruct (Nat.leb_spec (g_width g) (g_width g + columns pre + i)); [|lia].
    f_equal. transitivity (before_col (pre ++ post) (columns pre + i)); [f_equal; lia|by apply IH].
Qed.

Lemma after_col_app pre post : Forall glyph_ok (pre ++ post) -> after_col (pre ++ post) (columns pre) = post.
Proof.
  intros Hok. induction pre as [|g pre IH]; [by destruct post|]. apply Forall_cons in Hok as [[Hw _] Hok]. simpl. rewrite columns_cons.
  destruct (Nat.eqb_spec (g_width g + columns pre) 0); [lia|]. replace (g_width g + columns pre - g_width g)%nat with (columns pre) by lia. by apply IH.
Qed.

Lemma after_col_cut pre g post i : Forall glyph_ok (pre ++ g :: post) -> (1 <= i <= g_width g)%nat -> after_col (pre ++ g :: post) (columns pre + i) = post.
Proof.
  intros Hok Hi. induction pre as [|g' pre IH].
  - simpl. unfold columns. simpl. destruct (Nat.eqb_spec i 0); [lia|]. replace (i - g_width g)%nat with O by lia. by destruct post.
  - apply Forall_cons in Hok as [[Hw _] Hok]. simpl. rewrite columns_cons. destruct (Nat.eqb_spec (g_width g' + columns pre + i) 0); [lia|].
    transitivity (after_col (pre ++ g :: post) (columns pre + i)); [f_equal; lia|by apply IH].
Qed.

(** Every column cuts the glyphs in two. *)
Lemma cut gs col : Forall glyph_ok gs -> (col <= columns gs)%nat ->
  exists pre post i, gs = pre ++ post /\ col = (columns pre + i)%nat /\ cut_at post i.
Proof.
  intros Hok Hc. destruct (decide (col = columns gs)) as [->|Hne].
  - exists gs, [], O. rewrite app_nil_r. split; [done|]. split; [lia|by left].
  - destruct (locate gs col Hok ltac:(lia)) as (pre & g & post & i & -> & -> & Hi). exists pre, (g :: post), i. split; [done|]. split; [done|]. right. by exists g, post.
Qed.

(** Where a write that reaches a column ends. *)
Lemma forward_after gs e : Forall glyph_ok gs -> chars_len gs < 0x8000 -> (e <= columns gs)%nat ->
  exists gs1, gs = gs1 ++ after_col gs e /\ (e <= columns gs1 <= e + 1)%nat /\
    forward (drop e (cells 0 gs ++ [chars_len gs])) e = Some (columns gs1).
Proof.
  intros Hok Hlen He. destruct (cut gs e Hok He) as (pre & post & i & Heq & -> & [->|(g & post' & -> & Hi)]).
  - exists pre. rewrite Nat.add_0_r. split; [rewrite Heq at 2; rewrite after_col_app; [done|by rewrite <- Heq]|]. split; [lia|]. by apply (forward_boundary gs Hok Hlen pre post).
  - destruct i as [|i].
    + exists pre. rewrite Nat.add_0_r. split; [rewrite Heq at 2; rewrite after_col_app; [done|by rewrite <- Heq]|]. split; [lia|]. by eapply (forward_boundary gs Hok Hlen pre).
    + exists (pre ++ [g]). assert (g_width g <= 2)%nat by (rewrite Heq in Hok; apply Forall_app in Hok as [_ Hok]; apply Forall_cons in Hok as [[? _] _]; lia).
      rewrite columns_app, columns_cons. split; [rewrite Heq at 2; rewrite after_col_cut; [by rewrite <- app_assoc|by rewrite <- Heq|lia]|].
      change (columns []) with O. split; [lia|]. rewrite (forward_glyph gs Hok Hlen pre g post' (S i) Heq) by lia. f_equal. lia.
Qed.

Lemma after_col_columns gs e : Forall glyph_ok gs -> chars_len gs < 0x8000 -> (e <= columns gs)%nat ->
  (columns (after_col gs e) <= columns gs - e)%nat /\ Forall glyph_ok (after_col gs e).
Proof.
  intros Hok Hlen He. destruct (forward_after gs e Hok Hlen He) as (gs1 & Heq & Hc & _). rewrite Heq in Hok at 1. apply Forall_app in Hok as [_ Hok]. split; [|done].
  rewrite Heq at 2. rewrite columns_app. lia.
Qed.

(** The new row has the same width and is made of proper glyphs. *)
Lemma overwrite_ok gs col new e : Forall glyph_ok gs -> chars_len gs < 0x8000 -> Forall glyph_ok new -> (col + columns new <= e <= columns gs)%nat ->
  columns (overwrite gs col new e) = columns gs /\ Forall glyph_ok (overwrite gs col new e).
Proof.
  intros Hok Hlen Hnew He. destruct (after_col_columns gs e Hok Hlen ltac:(lia)) as [Ha Hoka].
  destruct (cut gs col Hok ltac:(lia)) as (pre & post & i & Heq & Hc & Hi).
  assert (before_col gs col = pre) as Hb by (rewrite Heq, Hc; apply before_col_app; [by rewrite <- Heq|done]).
  unfold overwrite. rewrite Hb. split.
  - rewrite !columns_app, !columns_spaces. lia.
  - rewrite Heq in Hok. apply Forall_app in Hok as [Hpre _]. repeat (apply Forall_app; split; try done; try apply glyph_ok_spaces).
Qed.
