(* ===== verification/RowWriteProps.v ===== *)
(** * Writing a row replaces glyphs

    The steps of a write on the arrays of a row, the reallocation, and
    [WriteHelper::Finish]: whatever was written in between, the row represents
    glyphs again. *)

From stdpp Require Import list.
From S2P Require Import Prelude Til Utils TermDispatch TextAttributes Rle CodepointWidth CodepointWidthProps Row RowWrite RowProps RleProps.

Section Steps.
Context {D : Type} `{Measurement D}.
Variable uninitialised : nat -> Z.
Variable allocated : Z.

(** A helper whose row has the given arrays. *)
Definition put (d : Z) (cs : wstring) (offsets : list Z) (h : WriteHelper D) : WriteHelper D := set_row (set_text d cs offsets (row h)) h.

Lemma put_row h : put (_data (row h)) (_chars (row h)) (_charOffsets (row h)) h = h.
Proof. by destruct h as [[]]. Qed.

Lemma write_offset_seg d cs (h : WriteHelper D) A o C col v : col = Z.of_nat (length A) ->
  write_offset col v (put d cs (A ++ o :: C) h) = (put d cs (A ++ v :: C) h, Returned tt).
Proof.
  intros ->. unfold write_offset. simpl. rewrite length_app. cbn [length].
  destruct (Z.leb_spec 0 (Z.of_nat (length A))); [|lia]. destruct (Z.ltb_spec (Z.of_nat (length A)) (Z.of_nat (length A + S (length C)))); [|lia].
  simpl. unfold put, set_offsets, set_row. simpl. rewrite Nat2Z.id, <- (Nat.add_0_r (length A)), insert_app_r. done.
Qed.

Lemma write_chars_seg d (h : WriteHelper D) offsets A B C t pos : pos = Z.of_nat (length A) -> length B = length t ->
  write_chars pos t (put d (A ++ B ++ C) offsets h) = (put d (A ++ t ++ C) offsets h, Returned tt).
Proof.
  intros -> Hl. unfold write_chars. simpl. rewrite !length_app.
  destruct (Z.leb_spec 0 (Z.of_nat (length A))); [|lia].
  destruct (Z.leb_spec (Z.of_nat (length A) + Z.of_nat (length t)) (Z.of_nat (length A + (length B + length C)))); [|lia].
  simpl. unfold put, set_chars, set_row. simpl. rewrite Nat2Z.id, take_app_length, <- Hl, drop_app_add, drop_app_length. done.
Qed.

Lemma cells_spaces_S v n : cells v (spaces (S n)) = v :: cells (v + 1) (spaces n).
Proof. done. Qed.

Lemma write_iota_seg d cs (h : WriteHelper D) A B C col n v : col = Z.of_nat (length A) -> length B = n -> 0 <= v -> v + Z.of_nat n < 2 ^ 16 ->
  write_iota col n v (put d cs (A ++ B ++ C) h) = (put d cs (A ++ cells v (spaces n) ++ C) h, Returned tt).
Proof.
  revert A B col v. induction n as [|n IH]; intros A B col v Hc HB Hv Hn; [by destruct B|]. destruct B as [|b B]; [done|].
  cbn [write_iota]. unfold mbind, comp_bind. change ((b :: B) ++ C) with (b :: (B ++ C)). rewrite write_offset_seg by done.
  rewrite u16_small by lia. replace (A ++ v :: B ++ C) with ((A ++ [v]) ++ B ++ C) by (by rewrite <- app_assoc).
  rewrite IH; [|rewrite length_app; simpl; lia|by simpl in HB; lia|lia|lia]. by rewrite cells_spaces_S, <- app_assoc.
Qed.

Lemma write_spaces_seg d (h : WriteHelper D) A B C X Y Z' col count ch :
  col = Z.of_nat (length A) -> Z.of_nat (length B) = count -> ch = Z.of_nat (length X) -> Z.of_nat (length Y) = count -> ch + count < 2 ^ 16 ->
  write_spaces col count ch (put d (X ++ Y ++ Z') (A ++ B ++ C) h) =
  (put d (X ++ replicate (Z.to_nat count) UNICODE_SPACE ++ Z') (A ++ cells ch (spaces (Z.to_nat count)) ++ C) h, Returned tt).
Proof.
  intros Hc HB Hx HY Hb. unfold write_spaces. destruct (Z.eqb_spec count 0) as [->|Hne].
  { destruct B; [|simpl in HB; lia]. destruct Y; [|simpl in HY; lia]. done. }
  unfold mbind, comp_bind. rewrite write_chars_seg by (rewrite ?length_replicate; lia). rewrite u16_small by lia. by rewrite write_iota_seg by lia.
Qed.

(** Reading the end of the text. *)
Lemma charSize_at (r : ROW) X post o : Forall glyph_ok post -> _charOffsets r = X ++ cells o post ++ [o + chars_len post] ->
  _columnCount r = Z.of_nat (length X + columns post) -> _charSize r = Some (o + chars_len post).
Proof.
  intros Hok Ho Hc. unfold _charSize, offset_at. rewrite Hc. destruct (Z.ltb_spec (Z.of_nat (length X + columns post)) 0); [lia|].
  rewrite Nat2Z.id, Ho, app_assoc, lookup_app_r; rewrite length_app, length_cells by done; [|lia]. by rewrite Nat.sub_diag.
Qed.

(** Making room moves the text behind the written range, in place or to newly
    allocated memory. *)
Lemma resizeChars_ok d (h : WriteHelper D) X P0 tl post E cb ce ceo :
  Forall glyph_ok post -> E = Z.of_nat (length X) -> _columnCount (row h) = Z.of_nat (length X + columns post) ->
  Z.of_nat (length P0) = ceo -> 0 <= cb <= ceo -> cb <= ce -> ceo + chars_len post < 0x8000 -> ce + chars_len post < 0x8000 ->
  exists d' P1 tl', _resizeChars uninitialised allocated E cb ce ceo (put d (P0 ++ text_of post ++ tl) (X ++ cells ceo post ++ [ceo + chars_len post]) h) =
    (put d' (P1 ++ text_of post ++ tl') (X ++ cells ce post ++ [ce + chars_len post]) h, Returned tt) /\
    Z.of_nat (length P1) = ce /\ take (Z.to_nat cb) P1 = take (Z.to_nat cb) P0.
Proof.
  intros Hok HE Hc HP Hcb Hce Hb1 Hb2. pose proof (chars_len_nonneg post) as Hp. pose proof (length_text post) as Ht.
  assert (Hfinish : forall d' cs', (modify (fun h : WriteHelper D =>
      let offsets := _charOffsets (row h) in let n := Z.to_nat E in
      set_row (set_offsets (take n offsets ++ map (fun o => u16 (o + u64 (ce - ceo))) (drop n offsets)) (row h)) h))
      (put d' cs' (X ++ cells ceo post ++ [ceo + chars_len post]) h) = (put d' cs' (X ++ cells ce post ++ [ce + chars_len post]) h, Returned tt)).
  { intros d' cs'. unfold modify, put, set_row, set_offsets. simpl. rewrite HE, Nat2Z.id, take_app_length, drop_app_length.
    pose proof (cells_shift ceo (ce - ceo) post ltac:(lia) ltac:(lia) ltac:(lia) ltac:(lia)) as Hs.
    replace (ceo + (ce - ceo)) with ce in Hs by lia. by rewrite Hs. }
  unfold _resizeChars, checked. unfold mbind at 1, comp_bind at 1.
  rewrite (charSize_at _ X post ceo Hok); [|done|done].
  replace (u64 (ceo + chars_len post + u64 (ce - ceo))) with (ce + chars_len post) by (unfold u64; div_lia).
  unfold mbind at 1, comp_bind at 1, gets at 1. cbn [id]. set (cs := _chars (row (put _ _ _ h))). change (_chars (row (put d (P0 ++ text_of post ++ tl) (X ++ cells ceo post ++ [ceo + chars_len post]) h))) with (P0 ++ text_of post ++ tl) in cs.
  assert (Hcs : length cs = (length P0 + (length (text_of post) + length tl))%nat) by (unfold cs; by rewrite !length_app).
  assert (Hsrc : take (Z.to_nat (ceo + chars_len post - ceo)) (drop (Z.to_nat ceo) cs) = text_of post).
  { unfold cs. rewrite drop_app_length' by lia. by rewrite take_app_length' by lia. }
  destruct (Z.leb_spec (ce + chars_len post) (Z.of_nat (length cs))) as [Hfit|Hgrow].
  - unfold mbind at 1, comp_bind at 1, copy_within. unfold mbind at 1, comp_bind at 1, gets at 1. cbn [id].
    change (_chars (row (put d (P0 ++ text_of post ++ tl) (X ++ cells ceo post ++ [ceo + chars_len post]) h))) with cs.
    destruct (Z.ltb_spec (Z.of_nat (length cs)) (ceo + (ceo + chars_len post - ceo))); [lia|]. rewrite Hsrc.
    exists d, (take (Z.to_nat ce) cs), (drop (Z.to_nat (ce + chars_len post)) cs).
    change (P0 ++ text_of post ++ tl) with cs.
    assert (cs = take (Z.to_nat ce) cs ++ take (Z.to_nat (chars_len post)) (drop (Z.to_nat ce) cs) ++ drop (Z.to_nat (ce + chars_len post)) cs) as Hsplit.
    { rewrite <- (take_drop (Z.to_nat ce) cs) at 1. f_equal. rewrite <- (take_drop (Z.to_nat (chars_len post)) (drop (Z.to_nat ce) cs)) at 1. f_equal.
      rewrite drop_drop. f_equal. lia. }
    rewrite Hsplit at 1. rewrite write_chars_seg; [|rewrite length_take; lia|rewrite length_take, length_drop; lia].
    rewrite Hfinish. split; [done|]. split; [rewrite length_take; lia|]. rewrite take_take, Nat.min_l by lia. unfold cs. by rewrite take_app_le by lia.
  - unfold mbind at 1, comp_bind at 1. set (newCapacity := Z.max _ _).
    assert (ce + chars_len post <= newCapacity <= 0xFFFF) by (unfold newCapacity; lia).
    destruct (Z.ltb_spec 0xFFFF newCapacity); [lia|].
    destruct (Z.ltb_spec (Z.of_nat (length cs)) cb); [lia|]. destruct (Z.ltb_spec (Z.of_nat (length cs)) (ceo + chars_len post)); [lia|]. cbn [orb].
    set (m := fresh uninitialised (Z.to_nat newCapacity)).
    assert (length m = Z.to_nat newCapacity) as Hm by (unfold m, fresh; by rewrite length_map, length_seq).
    rewrite Hsrc. unfold mbind, comp_bind, modify at 1.
    change (set_row _ _) with (put allocated m (X ++ cells ceo post ++ [ceo + chars_len post]) h) at 1.
    set (m1 := take (Z.to_nat cb) cs ++ drop (Z.to_nat cb) m).
    assert (forall offs, write_chars 0 (take (Z.to_nat cb) cs) (put allocated m offs h) = (put allocated m1 offs h, Returned tt)) as ->.
    { intros offs. replace m with ([] ++ take (Z.to_nat cb) m ++ drop (Z.to_nat cb) m) at 1 by apply take_drop.
      by rewrite write_chars_seg by (rewrite ?length_take; simpl; lia). }
    assert (Hm1 : length m1 = length m) by (unfold m1; rewrite length_app, length_take, length_drop; lia).
    assert (m1 = take (Z.to_nat ce) m1 ++ take (Z.to_nat (chars_len post)) (drop (Z.to_nat ce) m1) ++ drop (Z.to_nat (ce + chars_len post)) m1) as Hsplit.
    { rewrite <- (take_drop (Z.to_nat ce) m1) at 1. f_equal. rewrite <- (take_drop (Z.to_nat (chars_len post)) (drop (Z.to_nat ce) m1)) at 1. f_equal.
      rewrite drop_drop. f_equal. lia. }
    exists allocated, (take (Z.to_nat ce) m1), (drop (Z.to_nat (ce + chars_len post)) m1).
    rewrite Hsplit at 1. rewrite write_chars_seg; [|rewrite length_take; lia|rewrite length_take, length_drop; lia]. unfold mbind, comp_bind in Hfinish. rewrite Hfinish.
    split; [done|]. split; [rewrite length_take; lia|]. rewrite take_take, Nat.min_l by lia. unfold m1.
    rewrite take_app_length' by (rewrite length_take; lia). unfold cs. by rewrite take_app_le by lia.
Qed.

(** *** The end of a write *)

(** Everything from a column on is as in the offsets before the write. *)
Lemma lookup_kept {A} (Q O : list A) n i : length Q = n -> (n <= i)%nat -> (Q ++ drop n O) !! i = O !! i.
Proof. intros Hl Hi. rewrite lookup_app_r, lookup_drop by lia. f_equal. lia. Qed.

Lemma drop_kept {A} (Q O : list A) n i : length Q = n -> (n <= i)%nat -> drop i (Q ++ drop n O) = drop i O.
Proof. intros Hl Hi. rewrite drop_app_ge, drop_drop by lia. f_equal. lia. Qed.

(** Cutting a list into pieces of given lengths. *)
Lemma pieces {A} (l : list A) a b c e : (length l = a + b + c + e)%nat ->
  exists x y z, l = take a l ++ x ++ y ++ z /\ length (take a l) = a /\ length x = b /\ length y = c /\ length z = e.
Proof.
  intros Hl. exists (take b (drop a l)), (take c (drop (a + b) l)), (drop (a + b + c) l).
  rewrite !length_take, !length_drop. split; [|lia].
  rewrite <- (take_drop a l) at 1. f_equal. rewrite <- (take_drop b (drop a l)) at 1. f_equal. rewrite drop_drop.
  rewrite <- (take_drop c (drop (a + b) l)) at 1. f_equal. by rewrite drop_drop.
Qed.

(** The row after a write that replaced everything up to [E]. *)
Definition finished (d : Z) (cs : wstring) (G : list glyph) (E k : Z) (h : WriteHelper D) : WriteHelper D :=
  let h' := put d cs (cells 0 G ++ [chars_len G]) (set_dirty E k h) in
  if E =? _columnCount (row h) then set_row (SetDoubleBytePadded (colEnd h <? _columnCount (row h)) (row h')) h' else h'.

Lemma Finish_ok (h : WriteHelper D) gs gs1 post F A B C R1 :
  gs = gs1 ++ post -> Forall glyph_ok gs -> Forall glyph_ok F -> chars_len gs < 0x8000 ->
  Z.of_nat (columns gs) = _columnCount (row h) -> _columnCount (row h) < 0x8000 ->
  _charOffsets (row h) = (A ++ B ++ C) ++ R1 ++ drop (columns gs1) (cells 0 gs ++ [chars_len gs]) ->
  let T := length R1 in
  colBegDirty h = Z.of_nat (length A) -> leadingSpaces h = Z.of_nat (length B) ->
  A ++ cells (chBegDirty h) (spaces (length B)) ++ C = cells 0 F -> (length A + length B + length C)%nat = columns F ->
  colEnd h = Z.of_nat (columns F) -> columns gs1 = (columns F + T)%nat ->
  0 <= colEndDirty h -> forward (drop (Z.to_nat (colEndDirty h)) (_charOffsets (row h))) (Z.to_nat (colEndDirty h)) = Some (columns gs1) ->
  text_of gs `prefix_of` _chars (row h) ->
  chBeg h = chBegDirty h + leadingSpaces h -> 0 <= chBegDirty h <= chars_len gs1 ->
  0 <= charsConsumed h <= view_size (chars h) ->
  take (Z.to_nat (chBegDirty h)) (text_of gs1) ++ replicate (length B) UNICODE_SPACE ++ take (Z.to_nat (charsConsumed h)) (text (chars h)) = text_of F ->
  chars_len F + Z.of_nat T + chars_len post < 0x8000 ->
  let G := F ++ spaces T ++ post in
  exists d' cs', Finish uninitialised allocated h = (finished d' cs' G (Z.of_nat (columns gs1)) (charsConsumed h) h, Returned tt) /\ text_of G `prefix_of` cs'.
Proof.
  intros -> Hok HokF Hlen Hcols Hnarrow Hoffs T HA HB HF HFc HcE HT HdE Hfw [tl Hchars] Hch Hcb Hk Htext Hnew G.
  pose proof Hok as [Hok1 Hok2]%Forall_app. pose proof Hlen as Hlen0. pose proof (chars_len_nonneg post) as Hpost. rewrite chars_len_app in Hlen. rewrite columns_app in Hcols.
  set (O := cells 0 (gs1 ++ post) ++ [chars_len (gs1 ++ post)]) in *.
  assert (HQ : length (A ++ B ++ C) = columns F) by (rewrite !length_app; lia).
  assert (HlenF : chars_len F = chBegDirty h + Z.of_nat (length B) + charsConsumed h).
  { unfold chars_len at 1. rewrite <- Htext, !length_app, length_replicate, !length_take, length_text. unfold view_size in Hk. lia. }
  pose proof (offsets_boundary (gs1 ++ post) Hok Hlen0 gs1 post eq_refl) as Hlk.
  pose proof (drop_offsets (gs1 ++ post) Hok Hlen0 gs1 post eq_refl) as Hdr. fold O in Hlk, Hdr.
  assert (HR : drop (columns gs1) O = cells (chars_len gs1) post ++ [chars_len gs1 + chars_len post]) by (by rewrite Hdr, chars_len_app).
  set (h1 := set_dirty (Z.of_nat (columns gs1)) (charsConsumed h) h).
  assert (h1 = put (_data (row h)) (text_of gs1 ++ text_of post ++ tl) ((A ++ B ++ C ++ R1) ++ cells (chars_len gs1) post ++ [chars_len gs1 + chars_len post]) h1) as Hput.
  { rewrite <- (put_row h1) at 1. f_equal; [change (_chars (row h1)) with (_chars (row h)); by rewrite Hchars, text_of_app, <- app_assoc|].
    change (_charOffsets (row h1)) with (_charOffsets (row h)). rewrite Hoffs, HR. by rewrite <- !app_assoc. }
  unfold Finish. unfold mbind at 1, comp_bind at 1, gets at 1. cbn [id]. unfold mbind at 1, comp_bind at 1, checked at 1.
  unfold _adjustForward. destruct (Z.ltb_spec (colEndDirty h) 0); [lia|]. rewrite Hfw. cbn [fmap option_fmap option_map].
  unfold mbind at 1, comp_bind at 1, modify at 1. change (set_dirty _ _ h) with h1.
  unfold mbind at 1, comp_bind at 1, checked at 1. change (row h1) with (row h) at 1. unfold _uncheckedCharOffset, offset_at.
  destruct (Z.ltb_spec (Z.of_nat (columns gs1)) 0); [lia|]. rewrite Nat2Z.id, Hoffs, app_assoc, (lookup_kept _ O (columns gs1)), Hlk by (rewrite ?length_app; lia).
  cbn [fmap option_fmap option_map]. pose proof (chars_len_nonneg gs1).
  destruct (is_trailer_small (chars_len gs1) ltac:(lia)) as (_ & -> & _).
  replace (u16 (Z.of_nat (columns gs1) - colEnd h)) with (Z.of_nat T) by (rewrite u16_small; lia).
  set (ce := chBegDirty h + charsConsumed h + leadingSpaces h + Z.of_nat T). assert (Hce : ce = chars_len F + Z.of_nat T) by (unfold ce; lia).
  unfold mbind at 1, comp_bind at 1.
  assert (exists d1 P1 tl1, (if ce =? chars_len gs1 then mret tt else _resizeChars uninitialised allocated (Z.of_nat (columns gs1)) (chBegDirty h) ce (chars_len gs1)) h1 =
    (put d1 (P1 ++ text_of post ++ tl1) ((A ++ B ++ C ++ R1) ++ cells ce post ++ [ce + chars_len post]) h1, Returned tt) /\
    Z.of_nat (length P1) = ce /\ take (Z.to_nat (chBegDirty h)) P1 = take (Z.to_nat (chBegDirty h)) (text_of gs1)) as (d1 & P1 & tl1 & -> & HP1 & HP1').
  { destruct (Z.eqb_spec ce (chars_len gs1)) as [->|Hne].
    - do 3 eexists. split; [unfold mret, comp_ret; by rewrite <- Hput|]. done.
    - pose proof (resizeChars_ok (_data (row h)) h1 (A ++ B ++ C ++ R1) (text_of gs1) tl post (Z.of_nat (columns gs1)) (chBegDirty h) ce (chars_len gs1)) as Hr.
      rewrite <- Hput in Hr. change (_columnCount (row h1)) with (_columnCount (row h)) in Hr. rewrite !length_app in *. apply Hr; try done; lia. }
  destruct (pieces P1 (Z.to_nat (chBegDirty h)) (length B) (Z.to_nat (charsConsumed h)) T ltac:(lia)) as (Y1 & Y2 & Y3 & HY & HY0 & HY1 & HY2 & HY3).
  rewrite HP1' in HY, HY0. set (P := take (Z.to_nat (chBegDirty h)) (text_of gs1)) in *. set (t := take (Z.to_nat (charsConsumed h)) (text (chars h))) in *.
  assert (Ht : length t = Z.to_nat (charsConsumed h)) by (unfold t; rewrite length_take; unfold view_size in Hk; lia).
  rewrite HY, <- !app_assoc. unfold mbind at 1, comp_bind at 1.
  rewrite (app_assoc P Y1), write_chars_seg by (rewrite ?length_app; lia). rewrite <- (app_assoc P Y1).
  unfold mbind at 1, comp_bind at 1. rewrite write_spaces_seg by (rewrite ?length_app, ?length_replicate; lia).
  unfold mbind at 1, comp_bind at 1. rewrite HB, Nat2Z.id.
  replace (P ++ replicate (length B) UNICODE_SPACE ++ t ++ Y3 ++ text_of post ++ tl1) with (text_of F ++ Y3 ++ text_of post ++ tl1) by (by rewrite <- Htext, <- !app_assoc).
  replace (A ++ cells (chBegDirty h) (spaces (length B)) ++ C ++ R1 ++ cells ce post ++ [ce + chars_len post]) with (cells 0 F ++ R1 ++ cells ce post ++ [ce + chars_len post])
    by (by rewrite <- HF, <- !app_assoc).
  pose proof (length_cells 0 F HokF) as HlF. pose proof (length_text F) as HtF.
  rewrite write_spaces_seg by (rewrite ?HlF; lia). rewrite Nat2Z.id. unfold modify, finished.
  exists d1, (text_of F ++ replicate T UNICODE_SPACE ++ text_of post ++ tl1). split.
  - change (_columnCount (row (put _ _ _ h1))) with (_columnCount (row h)). change (colEnd (put _ _ _ h1)) with (colEnd h).
    replace (chBeg h + charsConsumed h) with (chars_len F) by lia.
    replace (cells 0 F ++ cells (chars_len F) (spaces T) ++ cells ce post ++ [ce + chars_len post]) with (cells 0 G ++ [chars_len G]); [done|].
    unfold G. rewrite !cells_app, !chars_len_app, chars_len_spaces, <- !app_assoc, Z.add_0_l, Hce. do 4 f_equal. lia.
  - exists tl1. unfold G. by rewrite !text_of_app, text_of_spaces, <- !app_assoc.
Qed.

(** *** The beginning of a write *)

Lemma new_WriteHelper_ok (r : ROW) (d : D) gs columnBegin columnLimit t : row_ok r gs ->
  let col := _clampedColumnInclusive columnBegin r in
  exists pre post i, gs = pre ++ post /\ col = Z.of_nat (columns pre + i) /\ cut_at post i /\
    new_WriteHelper r d columnBegin columnLimit t =
    Some (mkHelper r d t col (_clampedColumnInclusive columnLimit r) col (Z.of_nat (columns pre)) 0
            (chars_len pre + Z.of_nat i) (chars_len pre) (Z.of_nat i) 0).
Proof.
  intros [Hc H1 Hok Ho Hlen _ Hn] col.
  assert (0 <= col <= _columnCount r) as Hcol.
  { unfold col, _clampedColumnInclusive, clamp. destruct (Z.ltb_spec columnBegin 0); [rewrite u16_small; lia|].
    destruct (Z.ltb_spec (_columnCount r) columnBegin); rewrite u16_small; lia. }
  destruct (cut gs (Z.to_nat col) Hok ltac:(lia)) as (pre & post & i & Heq & Hi & Hcut).
  exists pre, post, i. split; [done|]. split; [lia|]. split; [done|]. unfold new_WriteHelper. fold col.
  destruct (chars_len_split gs Hok Hlen pre post Heq) as (Hp & _ & _).
  destruct (is_trailer_small (chars_len pre) Hp) as (Ht & Hm & Ht' & Hm').
  assert (i < 2)%nat as Hi2.
  { destruct Hcut as [->|(g & post' & -> & Hg)]; [lia|]. rewrite Heq in Hok. apply Forall_app in Hok as [_ Hok]. apply Forall_cons in Hok as [[? _] _]. lia. }
  assert (_uncheckedCharOffset col r = Some (chars_len pre)) as ->.
  { unfold _uncheckedCharOffset, offset_at. destruct (Z.ltb_spec col 0); [lia|]. rewrite Ho, Hi.
    destruct Hcut as [->|(g & post' & -> & Hg)].
    - rewrite Nat.add_0_r, (offsets_boundary gs Hok Hlen pre post Heq). simpl. by rewrite Hm.
    - rewrite (offsets_glyph gs Hok Hlen pre g post' i Heq Hg). simpl. destruct (i =? 0)%nat; by rewrite ?Hm, ?Hm'. }
  assert (_adjustBackward col r = Some (Z.of_nat (columns pre))) as ->.
  { unfold _adjustBackward. destruct (Z.ltb_spec col 0); [lia|]. rewrite Ho, Hi.
    destruct Hcut as [->|(g & post' & -> & Hg)].
    - by rewrite Nat.add_0_r, (backward_boundary gs Hok Hlen pre post Heq).
    - by rewrite (backward_glyph gs Hok Hlen pre g post' i Heq Hg). }
  cbn [mbind option_bind]. replace (u16 (col - Z.of_nat (columns pre))) with (Z.of_nat i) by (rewrite u16_small; lia). by rewrite u16_small by lia.
Qed.

(** *** Writing offsets *)

(** A helper that has written up to a column. *)
Definition at_col (c : Z) (offsets : list Z) (h : WriteHelper D) : WriteHelper D := set_colEnd c (set_row (set_offsets offsets (row h)) h).

Lemma write_offset_at (h : WriteHelper D) A o C c v : c = Z.of_nat (length A) ->
  write_offset c v (at_col c (A ++ o :: C) h) = (at_col c (A ++ v :: C) h, Returned tt).
Proof.
  intros Hc. pose proof (write_offset_seg (_data (row h)) (_chars (row h)) (set_colEnd c h) A o C c v Hc) as Hs. exact Hs.
Qed.

Lemma write_trailers_at fuel (h : WriteHelper D) A B C v : (length B <= fuel)%nat -> Z.of_nat (length A + length B) < 2 ^ 16 ->
  write_trailers fuel (Z.of_nat (length A + length B)) v (at_col (Z.of_nat (length A)) (A ++ B ++ C) h) =
  (at_col (Z.of_nat (length A + length B)) (A ++ replicate (length B) v ++ C) h, Returned tt).
Proof.
  revert A B. induction fuel as [|fuel IH]; intros A B Hf Hb.
  { destruct B; [|simpl in Hf; lia]. unfold write_trailers, mbind, comp_bind, gets. simpl. rewrite Nat.add_0_r.
    destruct (Z.ltb_spec (Z.of_nat (length A)) (Z.of_nat (length A))); [lia|done]. }
  cbn [write_trailers]. unfold mbind at 1, comp_bind at 1, gets. change (colEnd (at_col (Z.of_nat (length A)) (A ++ B ++ C) h)) with (Z.of_nat (length A)).
  destruct B as [|b B].
  { simpl. rewrite Nat.add_0_r. destruct (Z.ltb_spec (Z.of_nat (length A)) (Z.of_nat (length A))); [lia|done]. }
  destruct (Z.ltb_spec (Z.of_nat (length A)) (Z.of_nat (length A + length (b :: B)))); [|simpl in *; lia].
  unfold mbind at 1, comp_bind at 1. cbn [app]. rewrite write_offset_at by done. unfold mbind at 1, comp_bind at 1, modify.
  change (set_colEnd _ (at_col _ ?o h)) with (at_col (u16 (Z.of_nat (length A) + 1)) o h). rewrite u16_small by (simpl in *; lia).
  replace (A ++ v :: B ++ C) with ((A ++ [v]) ++ B ++ C) by (by rewrite <- app_assoc).
  replace (Z.of_nat (length A) + 1) with (Z.of_nat (length (A ++ [v]))) by (rewrite length_app; simpl; lia).
  replace (length A + length (b :: B))%nat with (length (A ++ [v]) + length B)%nat in * by (rewrite length_app; simpl; lia).
  rewrite IH by (simpl in *; lia). by rewrite <- app_assoc.
Qed.

Lemma write_glyph_at (h : WriteHelper D) A B C ch : (1 <= length B)%nat -> Z.of_nat (length A + length B) < 0x8000 -> 0 <= ch < 0x8000 ->
  write_glyph (Z.of_nat (length A + length B)) ch (at_col (Z.of_nat (length A)) (A ++ B ++ C) h) =
  (at_col (Z.of_nat (length A + length B)) (A ++ glyph_cells ch (length B) ++ C) h, Returned tt).
Proof.
  intros HB Hn Hch. destruct B as [|b B]; [simpl in HB; lia|]. unfold write_glyph. unfold mbind at 1, comp_bind at 1, gets.
  change (colEnd (at_col (Z.of_nat (length A)) (A ++ (b :: B) ++ C) h)) with (Z.of_nat (length A)). unfold mbind at 1, comp_bind at 1. cbn [app].
  rewrite write_offset_at by done. unfold mbind at 1, comp_bind at 1, modify.
  change (set_colEnd _ (at_col _ ?o h)) with (at_col (u16 (Z.of_nat (length A) + 1)) o h). 
  rewrite lor_trailer, (u16_small ch), (u16_small (Z.of_nat (length A) + 1)), (u16_small (ch + CharOffsetsTrailer)) by (unfold CharOffsetsTrailer; simpl in *; lia).
  replace (A ++ ch :: B ++ C) with ((A ++ [ch]) ++ B ++ C) by (by rewrite <- app_assoc).
  replace (Z.of_nat (length A) + 1) with (Z.of_nat (length (A ++ [ch]))) by (rewrite length_app; simpl; lia).
  replace (length A + length (b :: B))%nat with (length (A ++ [ch]) + length B)%nat in * by (rewrite length_app; simpl; lia).
  rewrite write_trailers_at by (rewrite ?Nat2Z.id; lia). rewrite <- app_assoc.
  unfold glyph_cells. cbn [length]. by replace (S (length B) - 1)%nat with (length B) by lia.
Qed.

(** ** A write as a whole *)

(** A write only changes the text, and whether the last column is padding. *)
Definition kept (r r' : ROW) : Prop := r' = set_text (_data r') (_chars r') (_charOffsets r') (SetDoubleBytePadded (_doubleBytePadded r') r).

Definition padded_after (r : ROW) (E colEnd : nat) : bool :=
  if Z.of_nat E =? _columnCount r then Z.of_nat colEnd <? _columnCount r else _doubleBytePadded r.

(** What a finished write tells about itself. *)
Record finished_as (h h' : WriteHelper D) (r : ROW) (G : list glyph) (E : nat) : Prop := {
  fin_row : row_ok (row h') G;
  fin_kept : kept r (row h');
  fin_padded : _doubleBytePadded (row h') = padded_after r E (Z.to_nat (colEnd h));
  fin_fields : cwd h' = cwd h /\ chars h' = chars h /\ colBeg h' = colBeg h /\ colLimit h' = colLimit h /\ colEnd h' = colEnd h /\
    colBegDirty h' = colBegDirty h /\ charsConsumed h' = charsConsumed h /\ colEndDirty h' = Z.of_nat E
}.

Lemma finished_is (r : ROW) gs (h : WriteHelper D) d' cs' G E offsets : row_ok r gs -> row h = set_offsets offsets r -> columns G = columns gs ->
  Forall glyph_ok G -> chars_len G < 0x8000 -> text_of G `prefix_of` cs' -> 0 <= colEnd h ->
  finished_as h (finished d' cs' G (Z.of_nat E) (charsConsumed h) h) r G E.
Proof.
  intros [Hc H1 _ _ _ _ Hn] Hr HG Hok Hlen Hpre He. unfold finished. rewrite Hr. change (_columnCount (set_offsets offsets r)) with (_columnCount r).
  constructor.
  - destruct (Z.of_nat E =? _columnCount r); constructor; simpl; rewrite ?Hr; simpl; try done; by rewrite HG.
  - unfold kept. by destruct (Z.of_nat E =? _columnCount r); simpl; rewrite Hr.
  - unfold padded_after. rewrite Z2Nat.id by done. destruct (Z.of_nat E =? _columnCount r); simpl; rewrite ?Hr; done.
  - by destruct (Z.of_nat E =? _columnCount r).
Qed.

Lemma length_offsets gs : Forall glyph_ok gs -> length (cells 0 gs ++ [chars_len gs]) = S (columns gs).
Proof. intros Hok. rewrite length_app, length_cells by done. simpl. lia. Qed.

Lemma before_col_boundary gs pre post : Forall glyph_ok gs -> gs = pre ++ post -> before_col gs (columns pre) = pre.
Proof. intros Hok Heq. rewrite <- (Nat.add_0_r (columns pre)), Heq. apply before_col_app; [by rewrite <- Heq|by left]. Qed.

(** Glyphs up to a column include those up to an earlier one. *)
Lemma prefix_columns gs a x b y : Forall glyph_ok gs -> gs = a ++ x -> gs = b ++ y -> (columns a <= columns b)%nat -> a `prefix_of` b.
Proof.
  intros Hok Ha Hb Hle. rewrite Ha in Hb. destruct (app_eq_inv _ _ _ _ Hb) as [(k & -> & _)|(k & -> & _)]; [|by exists k].
  destruct k as [|g k]; [by exists []; rewrite !app_nil_r|]. rewrite Ha in Hok. apply Forall_app in Hok as [Hok _]. apply Forall_app in Hok as [_ Hok].
  apply Forall_cons in Hok as [[? _] _]. rewrite columns_app, columns_cons in Hle. lia.
Qed.

(** New glyphs behind [pre'], when the characters of [pre] stay and those of the
    text follow them, with [i] spaces in between. *)
Lemma finish_general (r : ROW) gs (h : WriteHelper D) pre' post' pre post i new e B C R : row_ok r gs -> gs = pre' ++ post' -> gs = pre ++ post ->
  let col := columns pre' in
  let O := cells 0 gs ++ [chars_len gs] in
  row h = set_offsets (take col O ++ B ++ C ++ R) r -> length B = i -> cells (chars_len pre) (spaces i) ++ C = cells (chars_len pre') new ->
  (length R + (col + columns new))%nat = length O -> drop (e - (col + columns new)) R = drop e O ->
  colBegDirty h = Z.of_nat col -> leadingSpaces h = Z.of_nat i -> chBegDirty h = chars_len pre -> chBeg h = chars_len pre + Z.of_nat i ->
  colEnd h = Z.of_nat (col + columns new) -> colEndDirty h = Z.of_nat e -> (col + columns new <= e <= columns gs)%nat ->
  (columns pre <= columns gs - columns (after_col gs e))%nat ->
  0 <= charsConsumed h <= view_size (chars h) -> Forall glyph_ok new ->
  text_of pre ++ replicate i UNICODE_SPACE ++ take (Z.to_nat (charsConsumed h)) (text (chars h)) = text_of (pre' ++ new) ->
  chars_len gs + charsConsumed h + _columnCount r < 0x8000 -> (i <= columns new)%nat ->
  exists h', Finish uninitialised allocated h = (h', Returned tt) /\
    finished_as h h' r (overwrite gs col new e) (columns gs - columns (after_col gs e)).
Proof.
  intros Hrow Heq' Heq col O Hh HlB HBC HlR HR HA HB Hcb Hch HcE HdE He Hpre' Hk Hnew Htext Hb Hi. pose proof Hrow as [Hc H1 Hok Ho Hlen Hpre Hn].
  pose proof (chars_len_nonneg gs). pose proof (chars_len_nonneg pre).
  destruct (forward_after gs e Hok Hlen ltac:(lia)) as (gs1 & Hgs1 & Hc1 & Hfw). destruct (after_col_columns gs e Hok Hlen ltac:(lia)) as [Ha Hoka].
  destruct (offsets_split gs Hok Hlen pre' post' Heq') as [HO HlA]. pose proof (length_offsets gs Hok) as HlO.
  assert (Hcols1 : (columns gs1 + columns (after_col gs e))%nat = columns gs) by (pose proof (f_equal columns Hgs1) as Hx; rewrite columns_app in Hx; lia).
  assert (Hpost : chars_len gs = chars_len gs1 + chars_len (after_col gs e)) by (pose proof (f_equal chars_len Hgs1) as Hx; rewrite chars_len_app in Hx; lia).
  pose proof (prefix_columns gs pre post gs1 (after_col gs e) Hok Heq Hgs1 ltac:(lia)) as [mid Hmid].
  assert (HtO : take col O = cells 0 pre') by (unfold col; fold O in HO; rewrite HO; by rewrite take_app_length' by done).
  assert (HlC : (i + length C)%nat = columns new).
  { pose proof (f_equal length HBC) as Hx. rewrite length_app, !length_cells, columns_spaces in Hx by (done || apply glyph_ok_spaces). done. }
  assert (HcF : columns (pre' ++ new) = (col + columns new)%nat) by (by rewrite columns_app).
  assert (HlF : chars_len (pre' ++ new) = chars_len pre + Z.of_nat i + charsConsumed h).
  { unfold chars_len at 1. rewrite <- Htext, !length_app, length_replicate, length_take, length_text. unfold view_size in Hk. lia. }
  assert (HR' : forall n, (e <= n)%nat -> drop (n - (col + columns new)) R = drop n O).
  { intros n Hn'. replace (n - (col + columns new))%nat with ((e - (col + columns new)) + (n - e))%nat by lia. rewrite <- drop_drop, HR, drop_drop. f_equal. lia. }
  assert (Hoffs : _charOffsets (row h) = (cells 0 pre' ++ B ++ C) ++ R) by (rewrite Hh; simpl; by rewrite HtO, <- !app_assoc).
  assert (HlABC : length (cells 0 pre' ++ B ++ C) = (col + columns new)%nat) by (rewrite !length_app, HlA; unfold col; lia).
  pose proof (Finish_ok h gs gs1 (after_col gs e) (pre' ++ new) (cells 0 pre') B C (take (columns gs1 - (col + columns new)) R)) as Hfin.
  assert (HlR1 : length (take (columns gs1 - (col + columns new)) R) = (columns gs - columns (after_col gs e) - (col + columns new))%nat) by (rewrite length_take; unfold O in HlR; lia).
  rewrite HcF, HlF, HlB, HlR1 in Hfin.
  destruct Hfin as (d' & cs' & Hfin & Hp'); try done; try lia.
  - apply Forall_app. split; [|done]. rewrite Heq' in Hok. by apply Forall_app in Hok as [? _].
  - by rewrite Hh.
  - rewrite Hh. simpl. lia.
  - rewrite Hoffs. f_equal. fold O. rewrite <- (HR' (columns gs1)) by lia. by rewrite take_drop.
  - by rewrite cells_app, Z.add_0_l, Hcb, HBC.
  - rewrite HdE, Nat2Z.id, Hoffs, drop_app_ge by lia. rewrite HlABC. by rewrite HR'.
  - by rewrite Hh.
  - rewrite Hcb, Hmid, chars_len_app. pose proof (chars_len_nonneg mid). lia.
  - rewrite Hcb, Hmid, text_of_app. unfold chars_len. rewrite Nat2Z.id, take_app_length. exact Htext.
  - pose proof (f_equal chars_len Hmid) as Hx. rewrite chars_len_app in Hx. pose proof (chars_len_nonneg mid). lia.
  - assert (columns gs1 = columns gs - columns (after_col gs e))%nat as HE by lia. rewrite HE in Hfin. eexists. split; [exact Hfin|].
    destruct (overwrite_ok gs col new e Hok Hlen Hnew ltac:(lia)) as [Hoc Hog].
    assert (overwrite gs col new e = (pre' ++ new) ++ spaces (columns gs - columns (after_col gs e) - (col + columns new)) ++ after_col gs e) as HG.
    { unfold overwrite, col. rewrite (before_col_boundary gs pre' post') by done. by rewrite Nat.sub_diag, <- !app_assoc. }
    rewrite HG. rewrite HG in Hoc, Hog. eapply finished_is; try done; try lia.
    rewrite !chars_len_app, !chars_len_spaces. rewrite chars_len_app in HlF. pose proof (f_equal chars_len Hmid) as Hx. rewrite chars_len_app in Hx. pose proof (chars_len_nonneg mid). lia.
Qed.

(** Glyphs behind leading spaces. *)
Lemma overwrite_leading gs pre post i new e : Forall glyph_ok gs -> gs = pre ++ post -> cut_at post i ->
  overwrite gs (columns pre) (spaces i ++ new) e = overwrite gs (columns pre + i) new e.
Proof.
  intros Hok Heq Hcut. unfold overwrite. rewrite (before_col_boundary gs pre post) by done.
  assert (before_col gs (columns pre + i) = pre) as -> by (rewrite Heq; apply before_col_app; [by rewrite <- Heq|done]).
  rewrite Nat.sub_diag, columns_app, columns_spaces. replace (columns pre + i - columns pre)%nat with i by lia. rewrite <- !app_assoc.
  replace (columns pre + (i + columns new))%nat with (columns pre + i + columns new)%nat by lia. done.
Qed.

(** New glyphs at the column where the write began. *)
Lemma finish_write (r : ROW) gs (h : WriteHelper D) pre post i new e R : row_ok r gs -> gs = pre ++ post -> cut_at post i ->
  let col := (columns pre + i)%nat in
  let O := cells 0 gs ++ [chars_len gs] in
  row h = set_offsets (take col O ++ cells (chars_len pre + Z.of_nat i) new ++ R) r ->
  (length R + (col + columns new))%nat = length O -> drop (e - (col + columns new)) R = drop e O ->
  colBegDirty h = Z.of_nat (columns pre) -> leadingSpaces h = Z.of_nat i -> chBegDirty h = chars_len pre -> chBeg h = chars_len pre + Z.of_nat i ->
  colEnd h = Z.of_nat (col + columns new) -> colEndDirty h = Z.of_nat e -> (col + columns new <= e <= columns gs)%nat ->
  charsConsumed h = chars_len new -> text_of new `prefix_of` text (chars h) -> Forall glyph_ok new ->
  chars_len gs + chars_len new + _columnCount r < 0x8000 ->
  exists h', Finish uninitialised allocated h = (h', Returned tt) /\
    finished_as h h' r (overwrite gs col new e) (columns gs - columns (after_col gs e)).
Proof.
  intros Hrow Heq Hcut col O Hh HlR HR HA HB Hcb Hch HcE HdE He Hk [rest Htext] Hnew Hb. pose proof Hrow as [Hc H1 Hok Ho Hlen Hpre Hn].
  destruct (after_col_columns gs e Hok Hlen ltac:(lia)) as [Ha Hoka]. destruct (offsets_split gs Hok Hlen pre post Heq) as [HO HlA].
  pose proof (length_offsets gs Hok) as HlO. assert (Hcn : columns (spaces i ++ new) = (i + columns new)%nat) by (by rewrite columns_app, columns_spaces).
  assert (HtO : take col O = take (columns pre) O ++ take i (drop (columns pre) O)) by (unfold col; by rewrite take_take_drop).
  destruct (finish_general r gs h pre post pre post i (spaces i ++ new) e (take i (drop (columns pre) O)) (cells (chars_len pre + Z.of_nat i) new) R) as (h' & Hf & Hfin);
    try done; rewrite ?Hcn; try (unfold col in *; lia).
  - rewrite Hh. f_equal. by rewrite HtO, <- !app_assoc.
  - rewrite length_take, length_drop. unfold O. lia.
  - by rewrite cells_app, chars_len_spaces.
  - fold O. rewrite <- HlR. unfold col. lia.
  - fold O. rewrite <- HR. f_equal. unfold col. lia.
  - rewrite Hk. unfold view_size. rewrite Htext, length_app. unfold chars_len. lia.
  - apply Forall_app. split; [apply glyph_ok_spaces|done].
  - rewrite Hk, Htext, !text_of_app, text_of_spaces. unfold chars_len. by rewrite Nat2Z.id, take_app_length.
  - rewrite (overwrite_leading gs pre post i new e Hok Heq Hcut) in Hfin. by exists h'.
Qed.

Lemma at_col_id (h : WriteHelper D) c offsets : colEnd h = c -> _charOffsets (row h) = offsets -> at_col c offsets h = h.
Proof. intros <- <-. by destruct h as [[]]. Qed.

(** The part of a list between two positions. *)
Lemma split3 {A} (l : list A) n k : (n + k <= length l)%nat ->
  l = take n l ++ take k (drop n l) ++ drop (n + k) l /\ length (take n l) = n /\ length (take k (drop n l)) = k.
Proof.
  intros Hl. rewrite !length_take, length_drop. split; [|lia]. rewrite <- (take_drop n l) at 1. f_equal.
  rewrite <- (take_drop k (drop n l)) at 1. f_equal. by rewrite drop_drop.
Qed.

Lemma clampedInclusive_ok (r : ROW) gs v : row_ok r gs -> 0 <= _clampedColumnInclusive v r <= _columnCount r /\
  (0 <= v <= _columnCount r -> _clampedColumnInclusive v r = v).
Proof.
  intros [Hc H1 _ _ _ _ Hn]. unfold _clampedColumnInclusive, clamp. destruct (Z.ltb_spec v 0); [rewrite u16_small; lia|].
  destruct (Z.ltb_spec (_columnCount r) v); rewrite u16_small; lia.
Qed.

Lemma IsValid_ok (h : WriteHelper D) : IsValid h = true <-> colBeg h < colLimit h /\ text (chars h) <> [].
Proof. unfold IsValid. destruct (Z.ltb_spec (colBeg h) (colLimit h)), (text (chars h)); simpl; split; intros; try done; try tauto; lia. Qed.
End Steps.

Section Characters.
Context {D : Type} `{Measurement D}.
Variable avx2 : bool.
Variable uninitialised : nat -> Z.
Variable allocated : Z.

(** [ReplaceCharacters] on glyphs: the glyph, if it fits, and spaces otherwise. *)
Definition replaced_characters (gs : list glyph) (col w : nat) (t : wstring) : list glyph :=
  if (col + w <=? columns gs)%nat then overwrite gs col [mkGlyph t w] (col + w) else overwrite gs col [] (columns gs).

Lemma helper_ReplaceCharacters_ok (r : ROW) (d : D) gs pre post i t w lim : row_ok r gs -> gs = pre ++ post -> cut_at post i -> (1 <= w <= 2)%nat ->
  let col := (columns pre + i)%nat in (col <= columns gs)%nat -> text t <> [] -> chars_len gs + view_size t + _columnCount r < 0x8000 ->
  lim = Z.of_nat (columns gs) ->
  let h := mkHelper r d t (Z.of_nat col) lim (Z.of_nat col) (Z.of_nat (columns pre)) 0 (chars_len pre + Z.of_nat i) (chars_len pre) (Z.of_nat i) 0 in
  exists h', (helper_ReplaceCharacters (Z.of_nat w);; Finish uninitialised allocated) h = (h', Returned tt) /\ kept r (row h') /\ cwd h' = d /\
    row_ok (row h') (replaced_characters gs col w (text t)).
Proof.
  intros Hrow Heq Hcut Hw col Hcol Ht Hb Hlim h. pose proof Hrow as [Hc H1 Hok Ho Hlen Hpre Hn].
  pose proof (length_offsets gs Hok) as HlO. destruct (chars_len_split gs Hok Hlen pre post Heq) as (Hp & Hpost & Hp').
  unfold helper_ReplaceCharacters, replaced_characters. unfold mbind at 1 2, comp_bind at 1 2, gets at 1. cbn [id].
  change (colEnd h) with (Z.of_nat col). change (colLimit h) with lim. rewrite u16_small by lia.
  destruct (Z.ltb_spec lim (Z.of_nat col + Z.of_nat w)) as [Hover|Hfit].
  - destruct (Nat.leb_spec (col + w) (columns gs)); [lia|]. unfold modify.
    destruct (finish_write uninitialised allocated r gs (set_dirty lim 0 h) pre post i [] (columns gs) (drop col (cells 0 gs ++ [chars_len gs]))) as (h' & Hf & Hfin); try done; try lia.
    + fold col. cbn [cells app]. rewrite take_drop, <- Ho. by destruct r.
    + fold col. change (columns []) with 0%nat. rewrite length_drop. lia.
    + fold col. change (columns []) with 0%nat. rewrite drop_drop. f_equal. lia.
    + cbn. fold col. change (columns []) with 0%nat. f_equal. lia.
    + fold col. change (columns []) with 0%nat. lia.
    + apply prefix_nil.
    + change (chars_len []) with 0. unfold view_size in Hb. lia.
    + change (charsConsumed h) with 0. rewrite Hf. exists h'. destruct Hfin as [Hr Hk _ (Hd & _)]. done.
  - destruct (Nat.leb_spec (col + w) (columns gs)) as [Hle|]; [|lia]. set (O := cells 0 gs ++ [chars_len gs]) in *.
    destruct (split3 O col w ltac:(lia)) as (HO & HlA & HlB). set (A := take col O) in *. set (B := take w (drop col O)) in *.
    assert (at_col (Z.of_nat (length A)) (A ++ B ++ drop (col + w) O) h = h) as Hid by (apply at_col_id; [simpl; by rewrite HlA|simpl; by rewrite Ho, <- HO]).
    pose proof (write_glyph_at h A B (drop (col + w) O) (chBeg h)) as Hg. rewrite Hid, HlA, HlB in Hg.
    change (chBeg h) with (chars_len pre + Z.of_nat i) in *.
    assert (i < 2)%nat. { destruct Hcut as [->|(g & post' & -> & Hg')]; [lia|]. rewrite Heq in Hok. apply Forall_app in Hok as [_ Hok]. apply Forall_cons in Hok as [[? _] _]. lia. }
    unfold mbind at 1, comp_bind at 1. rewrite <- Nat2Z.inj_add. unfold view_size in Hb. rewrite Hg by lia. unfold modify.
    set (new := [mkGlyph (text t) w]).
    assert (Hcn : columns new = w) by (unfold new; rewrite columns_cons; change (columns []) with 0%nat; simpl; lia).
    assert (Hln : chars_len new = view_size t) by (unfold new; rewrite chars_len_cons; change (chars_len []) with 0; unfold view_size; simpl; lia).
    set (h1 := at_col _ _ h).
    destruct (finish_write uninitialised allocated r gs (set_dirty (colEnd h1) (view_size (chars h1)) h1) pre post i new (col + w)%nat (drop (col + w) O)) as (h' & Hf & Hfin); try done; try lia.
    + fold col. simpl. rewrite app_nil_r. done.
    + fold col. fold O. rewrite Hcn, length_drop. lia.
    + fold col. rewrite Hcn, Nat.sub_diag. done.
    + cbn. by rewrite Hcn.
    + unfold new, text_of. simpl. rewrite app_nil_r. done.
    + apply Forall_singleton. split; [simpl; lia|done].
    + unfold view_size in Hln. lia.
    + rewrite Hf. exists h'. destruct Hfin as [Hr Hk _ (Hd & _)]. done.
Qed.

Lemma ReplaceCharacters_ok (r : ROW) (d : D) gs columnBegin w t : row_ok r gs -> (1 <= w <= 2)%nat ->
  chars_len gs + view_size t + _columnCount r < 0x8000 ->
  let col := Z.to_nat (_clampedColumnInclusive columnBegin r) in
  exists r', ReplaceCharacters avx2 uninitialised allocated columnBegin (Z.of_nat w) t r d = (r', d, Returned tt) /\ kept r r' /\
    row_ok r' (if (col <? columns gs)%nat && negb (match text t with [] => true | _ => false end) then replaced_characters gs col w (text t) else gs).
Proof.
  intros Hrow Hw Hb col. pose proof Hrow as [Hc H1 Hok Ho Hlen Hpre Hn]. destruct (clampedInclusive_ok r gs columnBegin Hrow) as [Hcol _].
  destruct (clampedInclusive_ok r gs (_columnCount r) Hrow) as [_ Hlim]. specialize (Hlim ltac:(lia)).
  destruct (new_WriteHelper_ok r d gs columnBegin (_columnCount r) t Hrow) as (pre & post & i & Heq & Hci & Hcut & Hnew).
  assert (Hcn : col = (columns pre + i)%nat) by (unfold col; lia).
  unfold ReplaceCharacters. rewrite Hnew, Hci, Hlim. set (h := mkHelper _ _ _ _ _ _ _ _ _ _ _ _).
  assert (Hk0 : kept r r) by (unfold kept; by destruct r).
  destruct (IsValid h) eqn:Hv.
  - apply IsValid_ok in Hv as [Hv1 Hv2]. simpl in Hv1, Hv2. cbn [negb]. destruct (Nat.ltb_spec col (columns gs)); [|lia].
    assert (negb (match text t with [] => true | _ => false end) = true) as -> by (by destruct (text t)). cbn [andb].
    destruct (helper_ReplaceCharacters_ok r d gs pre post i t w (_columnCount r) Hrow Heq Hcut Hw ltac:(lia) Hv2 Hb ltac:(lia)) as (h' & Hf & Hk & Hd & Hr).
    unfold with_helper. fold h in Hf. rewrite Hf, Hd. rewrite <- Hcn in Hr. by exists (row h').
  - cbn [negb]. exists r. split; [done|]. split; [done|]. destruct (Nat.ltb_spec col (columns gs)) as [Hlt|]; [|done].
    destruct (text t) eqn:Ht; [done|]. exfalso. assert (IsValid h = true); [|congruence]. apply IsValid_ok. simpl. rewrite Ht. split; [lia|done].
Qed.
End Characters.

(** ** A new row is blank

    The vector stores of [ROW::_init] stay within the memory of the row, and what
    they leave behind does not depend on what was there, nor on AVX2. *)

Definition iota (first n : nat) : list Z := map Z.of_nat (seq first n).

(** The first [k] columns of both buffers are initialised. *)
Record filled (size k : nat) (buffers : list Z * list Z) : Prop := {
  fill_chars : take k buffers.1 = replicate k UNICODE_SPACE;
  fill_offsets : take k buffers.2 = iota 0 k;
  fill_size : length buffers.1 = size /\ length buffers.2 = size
}.

Lemma length_iota first n : length (iota first n) = n.
Proof. unfold iota. by rewrite length_map, length_seq. Qed.

Lemma take_iota first n k : (k <= n)%nat -> take k (iota first n) = iota first k.
Proof.
  intros Hk. unfold iota. rewrite firstn_map. f_equal. replace n with (k + (n - k))%nat by lia. rewrite seq_app. apply take_app_length'; by rewrite length_seq.
Qed.

Lemma filled_less size k j buffers : (j <= k)%nat -> filled size k buffers -> filled size j buffers.
Proof.
  intros Hj [Hc Ho Hs]. split; [| |done].
  - apply (f_equal (take j)) in Hc. rewrite take_take, take_replicate in Hc. by replace (j `min` k)%nat with j in Hc by lia.
  - apply (f_equal (take j)) in Ho. rewrite take_take, take_iota in Ho by done. by replace (j `min` k)%nat with j in Ho by lia.
Qed.

Lemma add_epi16_iota pos n k : Z.of_nat (pos + k + n) <= 0x10000 -> add_epi16 (Z.of_nat k) (iota pos n) = iota (pos + k) n.
Proof.
  unfold add_epi16, iota. rewrite map_map. revert pos. induction n as [|n IH]; intros pos Hb; [done|].
  cbn [seq map]. f_equal; [rewrite u16_small; lia|]. apply IH. lia.
Qed.

Lemma store_prefix pos (lanes buffer : list Z) k : take pos buffer = k -> (pos + length lanes <= length buffer)%nat ->
  exists b, store pos lanes buffer = Some b /\ take (pos + length lanes) b = k ++ lanes /\ length b = length buffer.
Proof.
  intros Hk Hl. unfold store. destruct (Nat.leb_spec (pos + length lanes) (length buffer)); [|lia]. eexists. split; [done|]. rewrite <- Hk. split.
  - rewrite app_assoc. apply take_app_length'. rewrite length_app, length_take. lia.
  - rewrite !length_app, length_take, length_drop. lia.
Qed.

Lemma store_both_ok size pos n buffers : filled size pos buffers -> (pos + n <= size)%nat ->
  exists b, store_both pos (iota pos n) buffers = Some b /\ filled size (pos + n) b.
Proof.
  intros [Hc Ho [Hs1 Hs2]] Hn. unfold store_both. rewrite length_iota.
  destruct (store_prefix pos (replicate n UNICODE_SPACE) buffers.1 _ Hc ltac:(rewrite length_replicate; lia)) as (b1 & -> & Ht1 & Hl1).
  destruct (store_prefix pos (iota pos n) buffers.2 _ Ho ltac:(rewrite length_iota; lia)) as (b2 & E2 & Ht2 & Hl2).
  cbn [mbind option_bind]. rewrite E2. cbn [mbind option_bind]. eexists. split; [done|]. rewrite length_replicate in Ht1. rewrite length_iota in Ht2. split; cbn [fst snd].
  - by rewrite Ht1, <- replicate_add.
  - rewrite Ht2. unfold iota. by rewrite <- map_app, <- seq_app.
  - lia.
Qed.

Lemma avx_loop_ok size fuel pos tail buffers : filled size pos buffers -> (tail <= pos + 16 * fuel)%nat -> (tail + 16 <= size)%nat -> Z.of_nat size <= 0xF000 ->
  exists b, avx_loop fuel pos tail (iota pos 16) buffers = Some b /\ filled size tail b.
Proof.
  revert pos buffers. induction fuel as [|fuel IH]; intros pos buffers Hf Hfuel Hsize Hb.
  - exists buffers. cbn [avx_loop]. destruct (Nat.ltb_spec pos tail); [lia|]. split; [done|]. by apply (filled_less size pos); [lia|].
  - cbn [avx_loop]. destruct (Nat.ltb_spec pos tail).
    + destruct (store_both_ok size pos 16 buffers Hf ltac:(lia)) as (b & -> & Hf'). cbn [mbind option_bind]. change 16 with (Z.of_nat 16).
      rewrite add_epi16_iota by lia. by apply IH; [|lia..].
    + exists buffers. split; [done|]. by apply (filled_less size pos); [lia|].
Qed.

Lemma sse_loop_ok size fuel pos columns buffers : filled size pos buffers -> (columns < pos + 8 * fuel)%nat -> (pos <= columns)%nat ->
  size = (8 * (columns / 8) + 8)%nat -> (pos mod 8 = 0)%nat -> Z.of_nat size <= 0xF000 ->
  exists b, sse_loop fuel pos columns (iota pos 8) buffers = Some b /\ filled size (columns + 1) b.
Proof.
  revert pos buffers. induction fuel as [|fuel IH]; intros pos buffers Hf Hfuel Hpos Hsize Hm Hb; [lia|].
  pose proof (Nat.div_mod_eq columns 8). pose proof (Nat.mod_upper_bound columns 8 ltac:(lia)). pose proof (Nat.div_mod_eq pos 8).
  cbn [sse_loop]. destruct (store_both_ok size pos 8 buffers Hf ltac:(lia)) as (b & -> & Hf'). cbn [mbind option_bind].
  destruct (Nat.leb_spec (pos + 8) columns).
  - change 8 with (Z.of_nat 8). rewrite add_epi16_iota by lia. apply IH; try done; try lia.
    rewrite <- (Nat.mul_1_l 8) at 1. by rewrite Nat.Div0.mod_add.
  - exists b. split; [done|]. by apply (filled_less size (pos + 8)); [lia|].
Qed.

(** The memory of a row, in characters. *)
Definition buffer_size (n : nat) : nat := (8 * (n / 8) + 8)%nat.

Lemma CalculateCharsBufferSize_ok n : Z.to_nat (CalculateCharsBufferSize (Z.of_nat n) / 2) = buffer_size n.
Proof.
  unfold CalculateCharsBufferSize, buffer_size.
  replace (Z.land (Z.of_nat n * 2 + 16) (Z.lnot 15)) with (16 * ((Z.of_nat n * 2 + 16) / 16)).
  2: { change (Z.lnot 15) with (Z.lnot (Z.ones 4)). rewrite <- Z.ldiff_land, Z.ldiff_ones_r, Z.shiftr_div_pow2, Z.shiftl_mul_pow2 by lia. change (2 ^ 4) with 16. lia. }
  replace (16 * ((Z.of_nat n * 2 + 16) / 16) / 2) with (8 * ((Z.of_nat n * 2 + 16) / 16)) by div_lia.
  assert ((Z.of_nat n * 2 + 16) / 16 = Z.of_nat (n / 8) + 1) as -> by (rewrite Nat2Z.inj_div; change (Z.of_nat 8) with 8; div_lia).
  lia.
Qed.

Lemma init_buffers_ok avx2 n buffers : (1 <= n)%nat -> Z.of_nat n < 0x8000 -> length buffers.1 = buffer_size n -> length buffers.2 = buffer_size n ->
  exists b, init_buffers avx2 (Z.of_nat n) buffers = Some b /\ filled (buffer_size n) (n + 1) b.
Proof.
  intros H1 Hn Hb1 Hb2. pose proof (Nat.div_mod_eq n 8). pose proof (Nat.mod_upper_bound n 8 ltac:(lia)).
  assert (Hsize : Z.of_nat (buffer_size n) <= 0xF000) by (unfold buffer_size; lia).
  assert (Hf0 : filled (buffer_size n) 0 buffers) by (split; rewrite ?take_0; done).
  unfold init_buffers. destruct (avx2 && (15 <=? Z.of_nat n)) eqn:Hv.
  - apply andb_true_iff in Hv as [_ Hv]. apply Z.leb_le in Hv.
    assert (Htail : u16 (Z.land (u32 (Z.of_nat n - 8)) (Z.lnot 7)) = Z.of_nat (8 * (n / 8) - 8)).
    { assert (u32 (Z.of_nat n - 8) = Z.of_nat n - 8) as -> by (unfold u32; apply Z.mod_small; lia).
      change (Z.lnot 7) with (Z.lnot (Z.ones 3)). rewrite <- Z.ldiff_land, Z.ldiff_ones_r, Z.shiftr_div_pow2, Z.shiftl_mul_pow2 by lia. change (2 ^ 3) with 8.
      assert ((Z.of_nat n - 8) / 8 = Z.of_nat (n / 8) - 1) as -> by (rewrite Nat2Z.inj_div; change (Z.of_nat 8) with 8; div_lia).
      rewrite u16_small; lia. }
    rewrite Htail, !Nat2Z.id. set (tail := (8 * (n / 8) - 8)%nat).
    destruct (avx_loop_ok (buffer_size n) n 0 tail buffers Hf0 ltac:(lia) ltac:(unfold buffer_size, tail; lia) Hsize) as (b & E & Hf).
    change (offsetsData 16) with (iota 0 16). rewrite E. cbn [mbind option_bind]. rewrite add_epi16_iota by (unfold tail; lia). rewrite Nat.add_0_l.
    destruct (store_both_ok (buffer_size n) tail 16 b Hf ltac:(unfold buffer_size, tail; lia)) as (b' & -> & Hf').
    exists b'. split; [done|]. by apply (filled_less _ (tail + 16)); [unfold tail; lia|].
  - rewrite !Nat2Z.id. change (offsetsData 8) with (iota 0 8). apply sse_loop_ok; try done; try lia.
Qed.

Lemma length_fresh u n : length (fresh u n) = n.
Proof. unfold fresh. by rewrite length_map, length_seq. Qed.

Lemma cells_spaces off n : cells off (spaces n) = map (fun i => off + Z.of_nat i) (seq 0 n).
Proof.
  revert off. induction n as [|n IH]; intros off; [done|]. rewrite spaces_S. cbn [cells seq map g_width g_chars length]. change (glyph_cells off 1) with [off].
  cbn [app]. f_equal; [lia|]. rewrite IH, <- (seq_shift n 0), map_map. apply map_ext. lia.
Qed.

(** A row is blank after its initialisation. *)
Lemma _init_blank avx2 uninitialised r : 1 <= _columnCount r < 0x8000 ->
  exists r', _init avx2 uninitialised r = Some r' /\ row_ok r' (spaces (Z.to_nat (_columnCount r))) /\
    r' = set_text (_charsBuffer r) (replicate (Z.to_nat (_columnCount r)) UNICODE_SPACE) (iota 0 (S (Z.to_nat (_columnCount r)))) r.
Proof.
  intros Hn. set (n := Z.to_nat (_columnCount r)). assert (Hc : _columnCount r = Z.of_nat n) by lia. unfold _init.
  destruct (init_buffers_ok avx2 n (fresh uninitialised (buffer_size n), fresh uninitialised (buffer_size n)) ltac:(lia) ltac:(lia)
    (length_fresh _ _) (length_fresh _ _)) as (b & E & Hf).
  change CalculateCharOffsetsBufferSize with CalculateCharsBufferSize. rewrite Hc, CalculateCharsBufferSize_ok, Nat2Z.id, E. cbn [mbind option_bind].
  pose proof (fill_chars _ _ _ (filled_less _ (n + 1) n _ ltac:(lia) Hf)) as Hfc. pose proof (fill_offsets _ _ _ Hf) as Hfo. rewrite Nat.add_1_r in Hfo. rewrite Hfc, Hfo.
  eexists. split; [done|]. split; [|done]. constructor; cbn [_columnCount set_text _charOffsets _chars].
  - rewrite columns_spaces. lia.
  - lia.
  - apply glyph_ok_spaces.
  - rewrite cells_spaces, chars_len_spaces. unfold iota. rewrite seq_S, map_app. done.
  - rewrite chars_len_spaces. lia.
  - by rewrite text_of_spaces.
  - lia.
Qed.
