(* ===== verification/RowText.v ===== *)
(** * Writing text into a row

    [ROW::ReplaceText] lays text out as the detector divides it into glyphs: the
    loop over glyphs, the fast path for ASCII, and text that joins the glyph in
    front of it. *)

From stdpp Require Import list.
From S2P Require Import Prelude Til Utils TermDispatch TextAttributes Rle CodepointWidth CodepointWidthProps Row RowWrite RowProps RowWriteProps.

Section Layout.
Context {D : Type} `{MeasurementLaws D}.

(** The glyphs of a text that fit into a number of columns; a glyph without a
    width gets one column. *)
Fixpoint lay_out (fuel : nat) (d : D) (room : nat) (t : wstring) : list glyph :=
  match fuel, t with
  | S fuel, _ :: _ =>
    let '(k, w) := measured d t in
    let w := Nat.max 1 (Z.to_nat w) in
    if (w <=? room)%nat then mkGlyph (take k t) w :: lay_out fuel d (room - w) (drop k t) else []
  | _, _ => []
  end.

Lemma lay_out_same fuel d d' room t : same_measure d d' -> lay_out fuel d' room t = lay_out fuel d room t.
Proof.
  intros [_ Hs]. revert room t. induction fuel as [|fuel IH]; intros room t; [done|]. destruct t as [|c t]; [done|]. cbn [lay_out].
  rewrite Hs. destruct (measured d (c :: t)) as [k w]. destruct (_ <=? _)%nat; [|done]. by rewrite IH.
Qed.

Lemma lay_out_fuel n m d room t : measure_ok d -> (length t <= n)%nat -> (length t <= m)%nat -> lay_out n d room t = lay_out m d room t.
Proof.
  intros Hd. revert m room t. induction n as [|n IH]; intros m room t Hn Hm.
  { destruct t; [|simpl in Hn; lia]. by destruct m. }
  destruct t as [|c t]; [by destruct m|]. destruct m as [|m]; [simpl in Hm; lia|]. cbn [lay_out].
  pose proof (measured_bounds d (c :: t) Hd ltac:(done)) as Hb. destruct (measured d (c :: t)) as [k w]. cbn [fst snd] in Hb.
  destruct (_ <=? _)%nat; [|done]. f_equal. apply IH; rewrite length_drop; simpl in *; lia.
Qed.

Lemma no_glyphs_ok room (t : wstring) : text_of [] `prefix_of` t /\ (columns [] <= room)%nat /\ Forall glyph_ok [].
Proof. split; [apply prefix_nil|]. split; [change (columns []) with 0%nat; lia|done]. Qed.

Lemma lay_out_ok fuel d room t : measure_ok d ->
  text_of (lay_out fuel d room t) `prefix_of` t /\ (columns (lay_out fuel d room t) <= room)%nat /\ Forall glyph_ok (lay_out fuel d room t).
Proof.
  intros Hd. revert room t. induction fuel as [|fuel IH]; intros room t; [apply no_glyphs_ok|].
  destruct t as [|c t]; [apply no_glyphs_ok|]. cbn [lay_out].
  pose proof (measured_bounds d (c :: t) Hd ltac:(done)) as Hb. destruct (measured d (c :: t)) as [k w]. cbn [fst snd] in Hb.
  destruct (Nat.leb_spec (Nat.max 1 (Z.to_nat w)) room); [|apply no_glyphs_ok].
  destruct (IH (room - Nat.max 1 (Z.to_nat w))%nat (drop k (c :: t))) as ((u & Hu) & Hc & Hok). split; [|split].
  - exists u. rewrite text_of_cons, <- app_assoc, <- Hu. symmetry. apply take_drop.
  - rewrite columns_cons. simpl. lia.
  - apply Forall_cons. split; [|done]. split; [simpl; lia|]. simpl. destruct k; [lia|done].
Qed.

(** Characters of ASCII are glyphs of their own unless something else follows. *)
Definition ascii (c : Z) : bool := c <? 0x80.
Definition singles (t : wstring) : list glyph := map (fun c => mkGlyph [c] 1) t.

Lemma singles_ok t : text_of (singles t) = t /\ columns (singles t) = length t /\ Forall glyph_ok (singles t).
Proof.
  induction t as [|c t (IH1 & IH2 & IH3)]; [done|]. unfold singles in *. cbn [map]. rewrite text_of_cons, columns_cons, IH1, IH2. split; [done|]. split; [done|].
  apply Forall_cons. split; [|done]. split; [simpl; lia|done].
Qed.

Lemma singles_snoc t c : singles (t ++ [c]) = singles t ++ [mkGlyph [c] 1].
Proof. unfold singles. by rewrite map_app. Qed.

Lemma lay_out_ascii d room a t rest : measure_ok d -> Forall is_wchar (a ++ t :: rest) -> Forall (fun c => ascii c = true) (a ++ [t]) -> (length a <= room)%nat ->
  lay_out (length (a ++ t :: rest)) d room (a ++ t :: rest) = singles a ++ lay_out (length (t :: rest)) d (room - length a) (t :: rest).
Proof.
  intros Hd. revert room. induction a as [|c a IH]; intros room Hw Ha Hr; [simpl; by rewrite Nat.sub_0_r|].
  cbn [app] in Ha, Hw. apply Forall_cons in Ha as [Hc Ha]. apply Forall_cons in Hw as [Hwc Hw].
  unfold ascii in Hc. apply Z.ltb_lt in Hc. unfold is_wchar in Hwc. cbn [app length lay_out]. rewrite measured_ascii; [|done|lia|].
  - change (Nat.max 1 (Z.to_nat 1)) with 1%nat. simpl in Hr. destruct (Nat.leb_spec 1 room); [|lia]. cbn [take drop]. unfold singles. cbn [map app]. f_equal.
    rewrite IH by (done || lia). by replace (room - 1 - length a)%nat with (room - length (c :: a))%nat by (simpl; lia).
  - intros b t' Hb. assert (In b (a ++ [t])) as Hin by (destruct a; injection Hb as <- _; by left).
    assert (In b (a ++ t :: rest)) as Hin' by (rewrite Hb; by left).
    rewrite Forall_forall in Ha, Hw. apply list_elem_of_In, Ha, Z.ltb_lt in Hin. apply list_elem_of_In, Hw in Hin'. unfold is_wchar in Hin'. lia.
Qed.

(** A text of ASCII alone. *)
Lemma lay_out_all_ascii d room t : measure_ok d -> Forall is_wchar t -> Forall (fun c => ascii c = true) t -> (length t <= room)%nat ->
  lay_out (length t) d room t = singles t.
Proof.
  intros Hd Hw Ha Hr. destruct t as [|c t] using rev_ind; [done|]. clear IHt. rewrite length_app in Hr. simpl in Hr.
  rewrite (lay_out_ascii d room t c []) by (done || lia). rewrite singles_snoc. f_equal. cbn [length lay_out].
  apply Forall_app in Ha as [_ Ha]. apply Forall_cons in Ha as [Ha _]. apply Z.ltb_lt in Ha.
  apply Forall_app in Hw as [_ Hw]. apply Forall_cons in Hw as [Hw _]. unfold is_wchar in Hw. rewrite measured_ascii; [|done|lia|done].
  change (Nat.max 1 (Z.to_nat 1)) with 1%nat. by destruct (Nat.leb_spec 1 (room - length t)); [|lia].
Qed.
End Layout.

Section Text.
Context {D : Type} `{MeasurementLaws D}.
Variable avx2 : bool.
Variable uninitialised : nat -> Z.
Variable allocated : Z.

(** The end of a loop over glyphs: what was written, and whether text is left. *)
Definition laid_out (h : WriteHelper D) (d' : D) (A R : list Z) (ch : Z) (new : list glyph) (rest : wstring) : WriteHelper D :=
  set_dirty (if decide (text_of new = rest) then Z.of_nat (length A + columns new) else colLimit h) (ch + chars_len new - chBeg h)
    (at_col (Z.of_nat (length A + columns new)) (A ++ cells ch new ++ drop (columns new) R) (set_cwd d' h)).

Lemma position_inside (s : GraphemeState) v n : beg s + len s = data v + Z.of_nat n -> (n <= length (text v))%nat -> position s v = data v + Z.of_nat n.
Proof.
  intros Hs Hn. unfold position, resetIfOutOfRange, view_end, view_size. rewrite Hs.
  destruct (Z.ltb_spec (data v + Z.of_nat n) (data v)); [lia|]. cbn [orb]. destruct (Z.ltb_spec (data v + Z.of_nat (length (text v))) (data v + Z.of_nat n)); lia.
Qed.

Lemma write_clusters_ok fuel (h : WriteHelper D) d A R ch state done_ rest : measure_ok d -> text (chars h) = done_ ++ rest -> rest <> [] -> (length rest <= fuel)%nat ->
  _state state = 0 -> position state (chars h) = data (chars h) + Z.of_nat (length done_) ->
  Z.of_nat (length A) <= colLimit h < Z.of_nat (length A + length R) -> colLimit h < 0x8000 -> 0 <= ch -> ch + Z.of_nat (length rest) < 0x8000 ->
  exists d', same_measure d d' /\
    write_clusters fuel ch (Z.of_nat (length done_)) state (at_col (Z.of_nat (length A)) (A ++ R) (set_cwd d h)) =
    (laid_out h d' A R ch (lay_out (length rest) d (Z.to_nat (colLimit h) - length A) rest) rest, Returned tt).
Proof.
  revert d A R ch state done_ rest. induction fuel as [|fuel IH]; intros d A R ch state done_ rest Hd Ht Hne Hf Hst Hpos Hlim Hlim2 Hch Hb.
  { destruct rest; [done|simpl in Hf; lia]. }
  assert (Hlt : (length done_ < length (text (chars h)))%nat) by (rewrite Ht, length_app; destruct rest; [done|simpl; lia]).
  pose proof (measure_next_starts d state (chars h) (length done_) Hd Hst Hpos Hlt) as Hm.
  assert (Hdrop : drop (length done_) (text (chars h)) = rest) by (by rewrite Ht, drop_app_length). rewrite Hdrop in Hm.
  pose proof (measured_bounds d rest Hd Hne) as Hmb. destruct (measured d rest) as [k w] eqn:Hkw. cbn [fst snd] in Hmb.
  destruct Hm as (d1 & st & lst & Hm & Hs1 & Hst1).
  cbn [write_clusters]. unfold mbind at 1, comp_bind at 1, gets. cbn [id].
  change (chars (at_col (Z.of_nat (length A)) (A ++ R) (set_cwd d h))) with (chars h). change (cwd (at_col (Z.of_nat (length A)) (A ++ R) (set_cwd d h))) with d.
  rewrite Hm. unfold mbind at 1, comp_bind at 1, modify at 1.
  change (set_cwd d1 (at_col (Z.of_nat (length A)) (A ++ R) (set_cwd d h))) with (at_col (Z.of_nat (length A)) (A ++ R) (set_cwd d1 h)).
  change (colEnd (at_col (Z.of_nat (length A)) (A ++ R) (set_cwd d h))) with (Z.of_nat (length A)).
  change (colLimit (at_col (Z.of_nat (length A)) (A ++ R) (set_cwd d h))) with (colLimit h). cbn [width len].
  set (w' := Nat.max 1 (Z.to_nat w)). replace (u16 (Z.of_nat (length A) + Z.max 1 w)) with (Z.of_nat (length A + w')) by (rewrite u16_small; lia).
  assert (Hlay : lay_out (length rest) d (Z.to_nat (colLimit h) - length A) rest =
    if (w' <=? Z.to_nat (colLimit h) - length A)%nat then mkGlyph (take k rest) w' :: lay_out (length (drop k rest)) d (Z.to_nat (colLimit h) - length A - w') (drop k rest) else []).
  { destruct rest as [|c rest]; [done|]. cbn [length lay_out]. rewrite Hkw. fold w'. destruct (_ <=? _)%nat; [|done]. f_equal.
    apply lay_out_fuel; [done| |lia]. rewrite length_drop. simpl in *. lia. }
  rewrite Hlay. destruct (Z.ltb_spec (colLimit h) (Z.of_nat (length A + w'))) as [Hover|Hfit].
  - destruct (Nat.leb_spec w' (Z.to_nat (colLimit h) - length A)); [lia|]. exists d1. split; [done|]. unfold modify, laid_out.
    rewrite decide_False by (intros E; by apply Hne). change (columns []) with 0%nat. change (chars_len []) with 0. rewrite Nat.add_0_r, Z.add_0_r. done.
  - destruct (Nat.leb_spec w' (Z.to_nat (colLimit h) - length A)) as [Hle|]; [|lia].
    set (new := lay_out (length (drop k rest)) d (Z.to_nat (colLimit h) - length A - w') (drop k rest)).
    assert (HlB : length (take w' R) = w') by (rewrite length_take; lia).
    pose proof (write_glyph_at (set_cwd d1 h) A (take w' R) (drop w' R) ch) as Hg. rewrite take_drop, HlB in Hg.
    unfold mbind at 1, comp_bind at 1. rewrite Hg by lia.
    assert (Hlg : length (glyph_cells ch w') = w') by (apply length_glyph_cells; lia).
    unfold view_size. rewrite Ht, length_app.
    assert (Hlk : length (take k rest) = k) by (rewrite length_take; lia).
    destruct (Z.eqb_spec (Z.of_nat (length done_) + Z.of_nat k) (Z.of_nat (length done_ + length rest))) as [Hend|Hmore].
    + exists d1. split; [done|]. assert (drop k rest = []) as Hdk by (apply drop_ge; lia).
      assert (new = []) as -> by (unfold new; rewrite Hdk; done). unfold modify, laid_out.
      assert (Hcn : columns [mkGlyph (take k rest) w'] = w') by (rewrite columns_cons; change (columns []) with 0%nat; simpl; lia).
      assert (Hln : chars_len [mkGlyph (take k rest) w'] = Z.of_nat k) by (rewrite chars_len_cons; change (chars_len []) with 0; simpl; lia).
      rewrite Hcn, Hln, decide_True by (unfold text_of; simpl; rewrite app_nil_r; apply take_ge; lia).
      cbn [cells g_width]. rewrite app_nil_r. done.
    + destruct (IH d1 (A ++ glyph_cells ch w') (drop w' R) (ch + Z.of_nat k) (mkGraphemeState (data (chars h) + Z.of_nat (length done_)) (Z.of_nat k) w st lst)
        (done_ ++ take k rest) (drop k rest)) as (d2 & Hs2 & Heq2).
      * by destruct Hs1.
      * rewrite <- app_assoc, take_drop. done.
      * intros E. apply (f_equal length) in E. rewrite length_drop in E. simpl in E. lia.
      * rewrite length_drop. lia.
      * simpl. apply Hst1. rewrite Ht, length_app. lia.
      * apply position_inside; simpl; rewrite ?Ht, !length_app, ?length_take; lia.
      * rewrite length_app, Hlg, length_drop. lia.
      * done.
      * lia.
      * rewrite length_drop. lia.
      * assert (Hsame2 : same_measure d d2) by (destruct Hs1 as [_ E1], Hs2 as [E2 E3]; split; [done|intros u; by rewrite E3, E1]).
        exists d2. split; [done|]. rewrite length_app, Hlk, Nat2Z.inj_add, length_app, Hlg, <- app_assoc in Heq2. rewrite Heq2. unfold laid_out.
        rewrite (lay_out_same _ d d1 _ _ Hs1). rewrite length_app, Hlg.
        replace (Z.to_nat (colLimit h) - (length A + w'))%nat with (Z.to_nat (colLimit h) - length A - w')%nat by lia. fold new.
        rewrite columns_cons, chars_len_cons. cbn [g_width g_chars cells]. rewrite Hlk, <- !app_assoc, drop_drop.
        replace (length A + (w' + columns new))%nat with (length A + w' + columns new)%nat by lia.
        replace (ch + (Z.of_nat k + chars_len new)) with (ch + Z.of_nat k + chars_len new) by lia.
        f_equal. f_equal. rewrite text_of_cons. cbn [g_chars].
        destruct (decide (text_of new = drop k rest)) as [E|E]; [rewrite decide_True; [done|]; by rewrite E, take_drop|].
        rewrite decide_False; [done|]. intros E'. apply E. rewrite <- (take_drop k rest) in E' at 2. by apply app_inv_head in E'.
Qed.

Lemma finish_clusters_ok (h : WriteHelper D) d A R ch done_ rest : measure_ok d -> text (chars h) = done_ ++ rest ->
  Z.of_nat (length A) <= colLimit h < Z.of_nat (length A + length R) -> colLimit h < 0x8000 -> 0 <= ch -> ch + Z.of_nat (length rest) < 0x8000 ->
  exists d', same_measure d d' /\
    finish_clusters ch (Z.of_nat (length done_)) (at_col (Z.of_nat (length A)) (A ++ R) (set_cwd d h)) =
    (laid_out h d' A R ch (lay_out (length rest) d (Z.to_nat (colLimit h) - length A) rest) rest, Returned tt).
Proof.
  intros Hd Ht Hlim Hlim2 Hch Hb. unfold finish_clusters. unfold mbind at 1, comp_bind at 1, gets. cbn [id].
  change (chars (at_col (Z.of_nat (length A)) (A ++ R) (set_cwd d h))) with (chars h). unfold view_size.
  destruct (Z.eqb_spec (Z.of_nat (length done_)) (Z.of_nat (length (text (chars h))))) as [E|E].
  - assert (rest = []) as ->. { rewrite Ht, length_app in E. destruct rest; [done|simpl in E; lia]. }
    exists d. split; [by split|]. unfold modify, laid_out. cbn [length lay_out]. rewrite decide_True by done. change (columns []) with 0%nat. change (chars_len []) with 0.
    rewrite Nat.add_0_r, Z.add_0_r. done.
  - apply write_clusters_ok; try done.
    + intros ->. by rewrite app_nil_r in Ht; rewrite Ht in E.
    + rewrite Ht, length_app. lia.
    + apply position_inside; [simpl; lia|]. rewrite Ht, length_app. lia.
Qed.

(** *** The fast path *)

(** What the helper has when the glyphs [new] are written at [A], up to the
    column [e]; what follows them is as before from there on. *)
Record wrote (h h' : WriteHelper D) (A R : list Z) (ch : Z) (new : list glyph) (e : Z) : Prop := {
  wrote_offsets : exists R', h' = set_dirty e (ch + chars_len new - chBeg h) (at_col (Z.of_nat (length A + columns new)) (A ++ cells ch new ++ R') (set_cwd (cwd h') h)) /\
    (length R' + columns new)%nat = length R /\
    (Z.of_nat (length A + columns new) <= e -> drop (Z.to_nat e - (length A + columns new)) R' = drop (Z.to_nat e - length A) R);
  wrote_measure : same_measure (cwd h) (cwd h')
}.

Lemma laid_out_wrote (h : WriteHelper D) d' A R ch new rest : same_measure (cwd h) d' -> (columns new <= length R)%nat ->
  wrote h (laid_out h d' A R ch new rest) A R ch new (if decide (text_of new = rest) then Z.of_nat (length A + columns new) else colLimit h).
Proof.
  intros Hs Hl. constructor; [|done]. exists (drop (columns new) R). split; [done|]. rewrite length_drop. split; [lia|].
  intros He. rewrite drop_drop. f_equal. lia.
Qed.

(** The glyphs that the fast path writes: it does not look at what follows the
    last column. *)
Definition text_glyphs (d : D) (room : nat) (t : wstring) : list glyph :=
  if forallb ascii (take room t) then singles (take room t) else lay_out (length t) d room t.

Lemma at_col_snoc (h : WriteHelper D) A o R c v : c = Z.of_nat (length A) -> c + 1 < 2 ^ 16 ->
  (write_offset c (u16 v);; modify (set_colEnd (u16 (c + 1)))) (at_col c (A ++ o :: R) h) = (at_col (Z.of_nat (length (A ++ [u16 v]))) ((A ++ [u16 v]) ++ R) h, Returned tt).
Proof.
  intros Hc Hb. unfold mbind, comp_bind. rewrite write_offset_at by done. unfold modify. rewrite u16_small by lia.
  rewrite length_app, <- app_assoc. replace (c + 1) with (Z.of_nat (length A + length [u16 v])) by (simpl; lia). done.
Qed.

Lemma cells_singles_snoc ch q b : cells ch (singles (q ++ [b])) = cells ch (singles q) ++ [ch + Z.of_nat (length q)].
Proof. rewrite singles_snoc, cells_app. unfold chars_len. destruct (singles_ok q) as (-> & _ & _). done. Qed.

Lemma if_bool_decide {A} P `{!Decision P} (x y : A) : (if bool_decide P then x else y) = if decide P then x else y.
Proof. case_bool_decide; case_decide; done. Qed.

(** A helper in the middle of a run of ASCII. *)
Definition in_ascii (h : WriteHelper D) (A R : list Z) (ch : Z) (q : wstring) : WriteHelper D :=
  at_col (Z.of_nat (length A + length q)) (A ++ cells ch (singles q) ++ drop (length q) R) h.

(** The run ends at the column limit or with the text. *)
Lemma ascii_ends (h : WriteHelper D) A R ch q : measure_ok (cwd h) -> chBeg h = ch -> (length q <= length R)%nat ->
  exists h', (modify (fun h => set_dirty (colEnd h) (ch + Z.of_nat (length q) - chBeg h) h)) (in_ascii h A R ch q) = (h', Returned tt) /\
    wrote h h' A R ch (singles q) (Z.of_nat (length A + columns (singles q))).
Proof.
  intros Hd Hcb Hl. destruct (singles_ok q) as (Htx & Hc & _). eexists. split; [done|]. constructor; [|by split].
  exists (drop (length q) R). unfold chars_len. rewrite Htx, Hc, length_drop. split; [by destruct h as [[]]|]. split; [lia|].
  intros _. rewrite drop_drop. f_equal. lia.
Qed.

(** Something else follows: the last character of the run is looked at again. *)
Lemma ascii_continues (h : WriteHelper D) A R ch q b tail : measure_ok (cwd h) -> Forall is_wchar (q ++ b :: tail) ->
  text (chars h) = q ++ b :: tail -> Forall (fun c => ascii c = true) (q ++ [b]) -> tail <> [] ->
  Z.of_nat (length A + length (q ++ [b])) <= colLimit h < Z.of_nat (length A + length R) -> colLimit h < 0x8000 -> 0 <= ch ->
  ch + Z.of_nat (length (q ++ b :: tail)) < 0x8000 -> chBeg h = ch ->
  let new := lay_out (length (text (chars h))) (cwd h) (Z.to_nat (colLimit h) - length A) (text (chars h)) in
  exists h', _replaceTextUnicode (ch + Z.of_nat (length (q ++ [b]))) (Z.of_nat (length (q ++ [b]))) (in_ascii h A R ch (q ++ [b])) = (h', Returned tt) /\
    wrote h h' A R ch new (if decide (text_of new = text (chars h)) then Z.of_nat (length A + columns new) else colLimit h).
Proof.
  intros Hd Hw Ht Ha Htail Hlim Hlim2 Hch Hb Hcb new.
  assert (Hqb : length (q ++ [b]) = S (length q)) by (rewrite length_app; simpl; lia). rewrite length_app in Hb. rewrite Hqb in *. cbn [length] in Hb.
  unfold _replaceTextUnicode. destruct (Z.eqb_spec (Z.of_nat (S (length q))) 0) as [E|_]; [lia|]. unfold mbind at 1, comp_bind at 1, modify at 1.
  set (A' := A ++ cells ch (singles q)). set (R' := (ch + Z.of_nat (length q)) :: drop (S (length q)) R).
  destruct (singles_ok q) as (Htx & Hcq & Hokq).
  assert (HlA' : length A' = (length A + length q)%nat) by (unfold A'; rewrite length_app, length_cells by done; lia).
  assert (HlR' : (length R' + length q)%nat = length R) by (unfold R'; simpl; rewrite length_drop; lia).
  destruct (finish_clusters_ok h (cwd h) A' R' (ch + Z.of_nat (length q)) q (b :: tail)) as (d' & Hs & Heq); try done; try lia; [simpl; lia|].
  assert (Hcw : set_cwd (cwd h) h = h) by (by destruct h). rewrite Hcw in Heq.
  assert (set_colEnd (u16 (colEnd (in_ascii h A R ch (q ++ [b])) - 1)) (in_ascii h A R ch (q ++ [b])) = at_col (Z.of_nat (length A')) (A' ++ R') h) as ->.
  { unfold in_ascii. change (colEnd (at_col ?c ?o h)) with c. rewrite Hqb, u16_small by lia.
    replace (Z.of_nat (length A + S (length q)) - 1) with (Z.of_nat (length A')) by lia.
    unfold A', R'. by rewrite cells_singles_snoc, <- !app_assoc. }
  replace (ch + Z.of_nat (S (length q)) - 1) with (ch + Z.of_nat (length q)) by lia. replace (Z.of_nat (S (length q)) - 1) with (Z.of_nat (length q)) by lia. rewrite Heq.
  eexists. split; [done|]. set (room := (Z.to_nat (colLimit h) - length A)%nat) in *.
  replace (Z.to_nat (colLimit h) - length A')%nat with (room - length q)%nat in * by (unfold room; lia).
  pose proof (lay_out_ok (length (b :: tail)) (cwd h) (room - length q) (b :: tail) Hd) as (_ & Hcl & Hokl).
  set (l := lay_out (length (b :: tail)) (cwd h) (room - length q) (b :: tail)) in *.
  assert (Hnew : new = singles q ++ l) by (unfold new; rewrite Ht; apply lay_out_ascii; try done; unfold room; lia).
  assert (Hdec : forall X Y : Z, (if decide (text_of new = text (chars h)) then X else Y) = if decide (text_of l = b :: tail) then X else Y).
  { intros X Y. rewrite Hnew, text_of_app, Htx, Ht. destruct (decide (text_of l = b :: tail)) as [->|E]; [by rewrite decide_True|].
    rewrite decide_False; [done|]. intros E'. by apply app_inv_head in E'. }
  rewrite Hdec. constructor; [|done]. exists (drop (columns l) R'). rewrite Hnew, columns_app, chars_len_app, Hcq, length_drop.
  replace (chars_len (singles q)) with (Z.of_nat (length q)) by (unfold chars_len; by rewrite Htx). split; [|split; [lia|]].
  - unfold laid_out. rewrite HlA'. replace (length A + (length q + columns l))%nat with (length A + length q + columns l)%nat by lia.
    unfold A'. rewrite cells_app, <- !app_assoc. replace (chars_len (singles q)) with (Z.of_nat (length q)) by (unfold chars_len; by rewrite Htx).
    by rewrite Z.add_assoc.
  - intros _. rewrite drop_drop. unfold R'. set (m := (columns l + _)%nat).
    assert (exists n, m = S n /\ (S (length q) + n = (Z.to_nat (if decide (text_of l = b :: tail) then Z.of_nat (length A + (length q + columns l)) else colLimit h) - length A))%nat) as (n & -> & Hn).
    { exists (pred m). unfold m. destruct (decide (text_of l = b :: tail)) as [E|E]; [|unfold room in Hcl; lia].
      assert (columns l <> 0)%nat; [|lia]. destruct l as [|g l']; [done|]. apply Forall_cons in Hokl as [[? _] _]. rewrite columns_cons. lia. }
    cbn [drop]. rewrite drop_drop. f_equal. exact Hn.
Qed.

(** One more character. *)
Lemma ascii_step (h : WriteHelper D) A R ch q c : (length q < length R)%nat -> Z.of_nat (length A + length q) + 1 < 2 ^ 16 -> 0 <= ch -> ch + Z.of_nat (length q) < 2 ^ 16 ->
  (col ← gets colEnd; write_offset col (u16 (ch + Z.of_nat (length q)));; modify (set_colEnd (u16 (col + 1)))) (in_ascii h A R ch q) = (in_ascii h A R ch (q ++ [c]), Returned tt).
Proof.
  intros Hl Hb Hch Hb2. destruct (singles_ok q) as (Htx & Hcq & Hokq). unfold in_ascii. destruct (drop_not_nil (length q) R Hl) as (o & R2 & HR2).
  set (S1 := A ++ cells ch (singles q)). assert (HlS : length S1 = (length A + length q)%nat) by (unfold S1; rewrite length_app, length_cells by done; lia).
  rewrite (app_assoc A), HR2. fold S1. rewrite <- HlS. unfold mbind at 1, comp_bind at 1, gets. change (colEnd (at_col ?c0 ?o0 h)) with c0.
  rewrite at_col_snoc by lia. rewrite u16_small by lia. rewrite !length_app, HlS. cbn [length]. rewrite <- Nat.add_assoc.
  f_equal. f_equal. rewrite cells_singles_snoc. unfold S1. rewrite <- !app_assoc. do 3 f_equal. by rewrite <- drop_drop, HR2.
Qed.

(** The loop over ASCII once a character of it is written. *)
Lemma write_ascii_ok seg (h : WriteHelper D) A R ch q b after : measure_ok (cwd h) -> Forall is_wchar (q ++ b :: seg ++ after) ->
  text (chars h) = q ++ b :: seg ++ after -> Forall (fun c => ascii c = true) (q ++ [b]) ->
  Z.of_nat (length A + length (q ++ b :: seg)) <= colLimit h < Z.of_nat (length A + length R) -> colLimit h < 0x8000 -> 0 <= ch ->
  ch + Z.of_nat (length (q ++ b :: seg ++ after)) < 0x8000 -> chBeg h = ch ->
  let new := if forallb ascii seg then singles (q ++ b :: seg) else lay_out (length (text (chars h))) (cwd h) (Z.to_nat (colLimit h) - length A) (text (chars h)) in
  exists h', write_ascii seg (ch + Z.of_nat (length (q ++ [b]))) (Z.of_nat (length (q ++ [b]))) (in_ascii h A R ch (q ++ [b])) = (h', Returned tt) /\
    wrote h h' A R ch new (if forallb ascii seg || bool_decide (text_of new = text (chars h)) then Z.of_nat (length A + columns new) else colLimit h).
Proof.
  revert q b. induction seg as [|c seg IH]; intros q b Hd Hw Ht Ha Hlim Hlim2 Hch Hb Hcb new.
  - apply ascii_ends; try done. rewrite !length_app in *. simpl in *. lia.
  - cbn [write_ascii]. destruct (Z.leb_spec 0x80 c) as [Hbig|Hsmall].
    + assert (forallb ascii (c :: seg) = false) as Hfa by (cbn [forallb]; unfold ascii at 1; destruct (Z.ltb_spec c 0x80); [lia|done]).
      unfold new. rewrite Hfa. cbn [orb]. rewrite if_bool_decide.
      destruct (ascii_continues h A R ch q b ((c :: seg) ++ after)) as (h' & Heq & Hwr); try done.
      { rewrite !length_app in *. simpl in *. lia. }
      by exists h'.
    + assert (ascii c = true) as Hca by (by apply Z.ltb_lt).
      assert (Hfa : forallb ascii (c :: seg) = forallb ascii seg) by (cbn [forallb]; by rewrite Hca). unfold new. rewrite Hfa.
      pose proof (ascii_step h A R ch (q ++ [b]) c) as Hstep. rewrite !length_app in Hb, Hlim. cbn [length] in Hb, Hlim. rewrite length_app in Hb. cbn [length] in Hb.
      assert (HlN : length ((q ++ [b]) ++ [c]) = S (length (q ++ [b]))) by (rewrite length_app; simpl; lia).
      specialize (Hstep ltac:(rewrite length_app; simpl; lia) ltac:(rewrite length_app; simpl; lia) Hch ltac:(rewrite length_app; simpl; lia)).
      unfold mbind, comp_bind in Hstep |- *. unfold gets in *. destruct (write_offset _ _ _) as [h1 [[]| | |]]; try done. rewrite Hstep.
      destruct (IH (q ++ [b]) c) as (h' & Heq & Hwr); try done; rewrite <- ?app_assoc; try done.
      * apply Forall_app in Ha as [Ha1 Ha2]. apply Forall_app. split; [done|]. cbn. apply Forall_cons in Ha2 as [Ha2 _]. by repeat (apply Forall_cons; split).
      * rewrite length_app. simpl. lia.
      * rewrite !length_app. simpl. rewrite length_app. lia.
      * rewrite HlN, <- app_assoc in Heq. exists h'. rewrite <- app_assoc in Hwr. split; [|exact Hwr].
        replace (ch + Z.of_nat (length (q ++ [b])) + 1) with (ch + Z.of_nat (S (length (q ++ [b])))) by lia.
        replace (Z.of_nat (length (q ++ [b])) + 1) with (Z.of_nat (S (length (q ++ [b])))) by lia. exact Heq.
Qed.
End Text.

(** ** Text that joins the glyph in front of it

    [ROW::WriteHelper::_replaceTextUnicode] at the beginning of a text: a mark
    that combines with what is already in the row extends the glyph there. *)

(** ** The glyph in front *)

Lemma previous_glyph_ok gs pre' p post j : Forall glyph_ok gs -> chars_len gs < 0x8000 -> gs = pre' ++ p :: post -> (1 <= j <= g_width p)%nat ->
  previous_glyph (cells 0 gs ++ [chars_len gs]) (columns pre' + j) = Some (columns pre').
Proof.
  intros Hok Hlen Heq. destruct (chars_len_split gs Hok Hlen pre' (p :: post) Heq) as (Hp & _ & _). destruct (is_trailer_small _ Hp) as (Ht & _ & Ht' & _).
  induction j as [|j IH]; intros Hj; [lia|]. rewrite Nat.add_succ_r. cbn [previous_glyph].
  rewrite (offsets_glyph gs Hok Hlen pre' p post j Heq) by lia. destruct j as [|j]; cbn [Nat.eqb].
  - by rewrite Ht, Nat.add_0_r.
  - rewrite Ht'. apply IH. lia.
Qed.

(** What a joined glyph consists of: [pre'] are the glyphs in front of it and
    [kept] the characters it has already; [seen] is what the detector is shown. *)
Record joins_at (gs pre : list glyph) (i : nat) (cs : wstring) (pre' : list glyph) (kept seen : wstring) : Prop := {
  ja_previous : previous_glyph (cells 0 gs ++ [chars_len gs]) (columns pre + i) = Some (columns pre');
  ja_prefix : exists post', gs = pre' ++ post';
  ja_text : text_of pre ++ replicate i UNICODE_SPACE = text_of pre' ++ kept;
  ja_seen : take (Z.to_nat (chars_len pre + Z.of_nat i - chars_len pre')) (drop (Z.to_nat (chars_len pre')) cs) = seen;
  ja_columns : (columns pre' <= columns pre + i <= columns pre' + 2)%nat /\ (columns pre' = columns pre + i -> pre' = [] /\ pre = [] /\ i = O)%nat;
  ja_end e : (columns pre' < e <= columns gs)%nat -> (columns pre <= columns gs - columns (after_col gs e))%nat;
  ja_lead : (0 < i)%nat -> pre' = pre
}.

Lemma after_whole_glyph gs pre' p post e : Forall glyph_ok gs -> chars_len gs < 0x8000 -> gs = pre' ++ p :: post -> (columns pre' < e <= columns gs)%nat ->
  (columns (pre' ++ [p]) <= columns gs - columns (after_col gs e))%nat.
Proof.
  intros Hok Hlen Heq He. destruct (forward_after gs e Hok Hlen ltac:(lia)) as (gs1 & Hgs1 & Hc & _).
  pose proof (f_equal columns Hgs1) as Hx. rewrite columns_app in Hx.
  destruct (prefix_columns gs pre' (p :: post) gs1 (after_col gs e) Hok Heq Hgs1 ltac:(lia)) as [k Hk].
  rewrite Hk in Hgs1. rewrite Heq, <- app_assoc in Hgs1 at 1. apply app_inv_head in Hgs1.
  destruct k as [|g k]; [rewrite app_nil_r in Hk; rewrite Hk in Hc; lia|]. cbn [app] in Hgs1. injection Hgs1 as <- _.
  rewrite Hk, columns_app, columns_cons in Hx. rewrite columns_app, columns_cons. change (columns []) with 0%nat. lia.
Qed.

Lemma joins_exist gs pre post i cs : Forall glyph_ok gs -> chars_len gs < 0x8000 -> gs = pre ++ post -> cut_at post i -> text_of gs `prefix_of` cs ->
  exists pre' kept seen, joins_at gs pre i cs pre' kept seen /\ (i = O -> seen = kept /\ pre = pre' ++ match last pre with Some p => [p] | None => [] end /\
    kept = match last pre with Some p => g_chars p | None => [] end).
Proof.
  intros Hok Hlen Heq Hcut [tl Hcs]. destruct (decide (i = O)) as [->|Hi].
  - destruct pre as [|p pre' _] using rev_ind.
    + exists [], [], []. split; [|done]. constructor; try done.
      * by exists gs.
      * change (columns []) with 0%nat. split; [lia|done].
      * intros e He. change (columns []) with 0%nat. lia.
    + assert (Hg : (1 <= g_width p <= 2)%nat /\ Forall glyph_ok (p :: post)).
      { rewrite Heq, <- app_assoc in Hok. apply Forall_app in Hok as [_ Hok]. split; [by apply Forall_cons in Hok as [[? _] _]|done]. }
      assert (Heq' : gs = pre' ++ p :: post) by (by rewrite Heq, <- app_assoc).
      exists pre', (g_chars p), (g_chars p). rewrite last_snoc. split; [|done].
      assert (Hcp : columns (pre' ++ [p]) = (columns pre' + g_width p)%nat) by (rewrite columns_app, columns_cons; change (columns []) with 0%nat; lia).
      constructor; rewrite ?Hcp, ?Nat.add_0_r.
      * eapply previous_glyph_ok; try done. lia.
      * by eexists.
      * rewrite text_of_app. unfold text_of at 2. simpl. by rewrite !app_nil_r.
      * rewrite chars_len_app, chars_len_cons. change (chars_len []) with 0. rewrite Hcs, Heq', text_of_app, text_of_cons, <- !app_assoc.
        unfold chars_len. rewrite Nat2Z.id, drop_app_length. rewrite take_app_length'; [done|]. lia.
      * lia.
      * intros e He. rewrite <- Hcp. by apply (after_whole_glyph gs pre' p post e).
      * lia.
  - destruct Hcut as [->|(g & post' & -> & Hg)]; [done|].
    assert (Hw : (g_width g <= 2)%nat) by (rewrite Heq in Hok; apply Forall_app in Hok as [_ Hok]; apply Forall_cons in Hok as [[? _] _]; lia).
    assert (i = 1)%nat as -> by lia. exists pre, [UNICODE_SPACE], (take 1 (drop (Z.to_nat (chars_len pre)) cs)). split; [|done]. constructor.
    + eapply previous_glyph_ok; try done. lia.
    + by eexists.
    + done.
    + by replace (chars_len pre + Z.of_nat 1 - chars_len pre) with 1 by lia.
    + split; lia.
    + intros e He. destruct (after_col_columns gs e Hok Hlen ltac:(lia)) as [Ha _]. lia.
    + done.
Qed.

Section Join.
Context {D : Type} `{MeasurementLaws D}.
Variable avx2 : bool.
Variable uninitialised : nat -> Z.
Variable allocated : Z.

(** The text is not part of the row's memory. *)
Definition apart (r : ROW) (t : wstring_view) : Prop :=
  0 < _data r /\ 0 < data t /\ (_data r + Z.of_nat (length (_chars r)) <= data t \/ view_end t <= _data r).

(** What the detector says about a text behind [seen]. *)
Definition seen_then (d : D) (seen : wstring) (t : wstring) (k : nat) (w : Z) : Prop :=
  (seen = [] -> measured d t = (k, w)) /\
  (seen <> [] -> (measured d seen).1 = length seen -> no_straddle seen t -> measured d (seen ++ t) = ((length seen + k)%nat, w)).

Lemma measure_seen (d : D) (p t : wstring_view) : measure_ok d -> 0 < data p -> 0 < data t -> (view_end p <= data t \/ view_end t <= data p) -> text t <> [] ->
  let '(d1, (s1, _)) := measure_next new_GraphemeState p d in
  let '(d2, (s2, _)) := measure_next s1 t d1 in
  same_measure d d2 /\ 0 <= width s2 <= 2 /\ 0 <= len s2 <= view_size t /\ seen_then d (text p) (text t) (Z.to_nat (len s2)) (width s2).
Proof.
  intros Hd Hp Ht Hdis Hne. destruct (decide (text p = [])) as [He|He].
  - rewrite (measure_next_empty d new_GraphemeState p He). pose proof (position_new t Ht) as Hpos.
    pose proof (measure_next_bounds d new_GraphemeState t Hd ltac:(simpl; lia) Hne) as Hb.
    pose proof (measure_next_starts d new_GraphemeState t 0 Hd eq_refl ltac:(rewrite Hpos; lia) ltac:(destruct (text t); [done|simpl; lia])) as Hs. rewrite drop_0 in Hs.
    destruct (measured d (text t)) as [k w] eqn:Hm. destruct Hs as (d2 & st & lst & Heq & Hsame & _). rewrite Heq in Hb |- *. destruct Hb as (_ & Hw & Hl).
    split; [done|]. split; [done|]. split; [by apply Hl|]. split; [|by rewrite He]. intros _. cbn [len width]. by rewrite Nat2Z.id.
  - pose proof (measure_next_starts d new_GraphemeState p 0 Hd eq_refl ltac:(rewrite position_new by done; lia) ltac:(destruct (text p); [done|simpl; lia])) as Hs1. rewrite drop_0 in Hs1.
    pose proof (measured_bounds d (text p) Hd He) as Hmb. pose proof (measure_next_continues d p t Hd Hp He Hne Hdis) as Hc.
    destruct (measured d (text p)) as [k1 w1] eqn:Hm1. destruct Hs1 as (d1 & st & lst & Heq & Hsame & _). rewrite Heq in Hc |- *. cbn [fst snd] in *.
    set (s1 := mkGraphemeState _ _ _ _ _) in *.
    assert (Hpos : position s1 t = data t).
    { unfold position, resetIfOutOfRange, s1. cbn [beg len]. unfold view_end, view_size in *.
      destruct (Z.ltb_spec (data p + Z.of_nat 0 + Z.of_nat k1) (data t)); [done|]. cbn [orb].
      destruct (Z.ltb_spec (data t + Z.of_nat (length (text t))) (data p + Z.of_nat 0 + Z.of_nat k1)); lia. }
    pose proof Hsame as [Hd1 _]. pose proof (measure_next_bounds d1 s1 t Hd1 ltac:(simpl; lia) Hne) as Hb.
    destruct (measure_next s1 t d1) as [d2 [s2 m2]]. destruct Hb as (Hsame2 & Hw & Hl).
    split; [destruct Hsame as [_ E1], Hsame2 as [E2 E3]; split; [done|intros u; by rewrite E3, E1]|]. split; [done|]. split; [by apply Hl|].
    split; [done|]. intros _ Hk Hns. rewrite Hm1 in Hk. cbn [fst] in Hk. by destruct (Hc Hns Hk) as (_ & _ & ->).
Qed.

(** ** The write *)

(** The glyphs behind [pre'] when [k] characters of the text belong to the glyph
    there, and it has the width [w]. *)
Definition joined_glyphs (d : D) (room : nat) (kept t : wstring) (k : nat) (w : Z) : list glyph :=
  let w' := Nat.max 1 (Z.to_nat w) in
  if (w' <=? room)%nat then mkGlyph (kept ++ take k t) w' :: lay_out (length (drop k t)) d (room - w') (drop k t) else [].

Definition start_helper (r : ROW) (d : D) (t : wstring_view) (pre : list glyph) (i : nat) (lim : Z) : WriteHelper D :=
  let col := Z.of_nat (columns pre + i) in
  mkHelper r d t col lim col (Z.of_nat (columns pre)) 0 (chars_len pre + Z.of_nat i) (chars_len pre) (Z.of_nat i) 0.

(** Where a write of glyphs ends: at the limit if text is left. *)
Definition write_end (col : nat) (new : list glyph) (done_ : Prop) `{!Decision done_} (lim : nat) : nat := if decide done_ then (col + columns new)%nat else lim.

(** A write by a helper, from its start to [Finish]. *)
Definition writes (h : WriteHelper D) (m : comp (WriteHelper D) unit) (r : ROW) (gs : list glyph) (col : nat) (new : list glyph) (e : nat) (k : Z) : Prop :=
  exists h' h'', m h = (h', Returned tt) /\ Finish uninitialised allocated h' = (h'', Returned tt) /\ same_measure (cwd h) (cwd h') /\
    colEnd h' = Z.of_nat (col + columns new) /\ charsConsumed h' = k /\ colLimit h' = colLimit h /\ chars h' = chars h /\
    colBegDirty h' = Z.of_nat (columns (before_col gs col)) /\
    finished_as h' h'' r (overwrite gs col new e) (columns gs - columns (after_col gs e)).

(** From a plain write. *)
Lemma wrote_writes (r : ROW) gs pre post i (d : D) t lim m h' new e : row_ok r gs -> gs = pre ++ post -> cut_at post i ->
  let col := (columns pre + i)%nat in
  let O := cells 0 gs ++ [chars_len gs] in
  let h := start_helper r d t pre i lim in
  m h = (h', Returned tt) -> wrote h h' (take col O) (drop col O) (chars_len pre + Z.of_nat i) new (Z.of_nat e) ->
  (col + columns new <= e <= columns gs)%nat -> text_of new `prefix_of` text t -> Forall glyph_ok new ->
  chars_len gs + view_size t + _columnCount r < 0x8000 ->
  writes h m r gs col new e (chars_len new).
Proof.
  intros Hrow Heq Hcut col O h Hm [(R' & Hh' & HlR & HR) Hsame] He Htx Hnew Hb. pose proof Hrow as [Hc H1 Hok Ho Hlen Hpre Hn].
  pose proof (length_offsets gs Hok) as HlO. fold O in HlO.
  assert (HlA : length (take col O) = col) by (rewrite length_take; lia). rewrite HlA in *.
  assert (Hbn : chars_len new <= view_size t) by (destruct Htx as [u Hu]; unfold chars_len, view_size; rewrite Hu, length_app; lia).
  assert (Hfields : row h' = set_offsets (take col O ++ cells (chars_len pre + Z.of_nat i) new ++ R') r /\ colBegDirty h' = Z.of_nat (columns pre) /\
    leadingSpaces h' = Z.of_nat i /\ chBegDirty h' = chars_len pre /\ chBeg h' = chars_len pre + Z.of_nat i /\ colEnd h' = Z.of_nat (col + columns new) /\
    colEndDirty h' = Z.of_nat e /\ charsConsumed h' = chars_len pre + Z.of_nat i + chars_len new - (chars_len pre + Z.of_nat i) /\ colLimit h' = lim /\ chars h' = t)
    by (repeat split; by rewrite Hh' at 1).
  destruct Hfields as (F1 & F2 & F3 & F4 & F5 & F6 & F7 & F8 & F9 & F10).
  destruct (finish_write uninitialised allocated r gs h' pre post i new e R') as (h'' & Hf & Hfin); try done; try lia.
  - fold O col. rewrite length_drop in HlR. lia.
  - fold O col. specialize (HR ltac:(lia)). rewrite Nat2Z.id in HR. rewrite HR, drop_drop. f_equal. lia.
  - by rewrite F10.
  - assert (before_col gs col = pre) as Hbc by (rewrite Heq; apply before_col_app; [by rewrite <- Heq|done]).
    exists h', h''. rewrite Hbc. repeat (split; [done || lia|]). done.
Qed.

Section OneWrite.
Context (r : ROW) (gs pre post : list glyph) (i : nat) (d : D) (t : wstring_view) (lim : nat) (pre' : list glyph) (kept seen : wstring).
Context (Hrow : row_ok r gs) (Heq : gs = pre ++ post) (Hcut : cut_at post i) (Hj : joins_at gs pre i (_chars r) pre' kept seen) (Hd : measure_ok d).
Context (Hlim : (columns pre + i < lim <= columns gs)%nat) (Hne : text t <> []) (Hb : chars_len gs + view_size t + _columnCount r < 0x8000).
Local Abbreviation O := (cells 0 gs ++ [chars_len gs]).
Local Abbreviation c := (columns pre').
Local Abbreviation h := (start_helper r d t pre i (Z.of_nat lim)).
Local Abbreviation ch := (chars_len pre + Z.of_nat i).

Lemma kept_length : chars_len pre' + Z.of_nat (length kept) = ch.
Proof.
  pose proof (f_equal length (ja_text _ _ _ _ _ _ _ Hj)) as Hx. rewrite !length_app, length_replicate in Hx. unfold chars_len. lia.
Qed.

Lemma joined_glyphs_ok k w : (0 < k <= length (text t))%nat -> 0 <= w <= 2 -> let new := joined_glyphs d (lim - c) kept (text t) k w in
  Forall glyph_ok new /\ (c + columns new <= lim)%nat.
Proof.
  intros Hk Hw new. destruct (ja_columns _ _ _ _ _ _ _ Hj) as [Hc _]. unfold new, joined_glyphs. destruct (Nat.leb_spec (Nat.max 1 (Z.to_nat w)) (lim - c)).
  - destruct (lay_out_ok (length (drop k (text t))) d (lim - c - Nat.max 1 (Z.to_nat w)) (drop k (text t)) Hd) as (_ & Hcl & Hokl).
    rewrite columns_cons. cbn [g_width]. split; [|lia]. apply Forall_cons. split; [|done]. split; [simpl; lia|]. simpl.
    intros E. apply app_eq_nil in E as [_ E]. apply (f_equal length) in E. rewrite length_take in E. simpl in E. lia.
  - split; [done|]. change (columns []) with 0%nat. lia.
Qed.

(** The joined glyph and what follows it. *)
Lemma finish_joined k w d2 : (0 < k <= length (text t))%nat -> 0 <= w <= 2 -> same_measure d d2 -> (Nat.max 1 (Z.to_nat w) <= lim - c)%nat ->
  let new := joined_glyphs d (lim - c) kept (text t) k w in
  let w' := Nat.max 1 (Z.to_nat w) in
  writes h (fun h => (write_glyph (Z.of_nat (c + w')) (chars_len pre');; finish_clusters (ch + Z.of_nat k) (Z.of_nat k))
                       (at_col (Z.of_nat c) O (set_colBegDirty (Z.of_nat c) (set_cwd d2 h)))) r gs c new
    (write_end c new (text_of new = kept ++ text t) lim) (chars_len new - Z.of_nat (length kept)).
Proof.
  intros Hk Hw Hs2 Hfit new w'. pose proof Hrow as [Hcc H1 Hok Ho Hlen Hpre Hn]. pose proof (length_offsets gs Hok) as HlO.
  destruct (joined_glyphs_ok k w Hk Hw) as [Hoknew Hcnew]. fold new in Hoknew, Hcnew. pose proof kept_length as Hkl. destruct (ja_prefix _ _ _ _ _ _ _ Hj) as [post' Heq'].
  destruct (chars_len_split gs Hok Hlen pre' post' Heq') as (Hp' & _ & _). destruct (chars_len_split gs Hok Hlen pre post Heq) as (Hp & _ & Hpp).
  assert (Hi : (i < 2)%nat). { destruct Hcut as [->|(g & q & -> & Hg)]; [lia|]. rewrite Heq in Hok. apply Forall_app in Hok as [_ Hok']. apply Forall_cons in Hok' as [[? _] _]. lia. }
  assert ((w' <=? lim - c)%nat = true) as Hle by (apply Nat.leb_le; lia). unfold new, joined_glyphs in *. fold w' in Hfit, Hcnew, Hoknew |- *. rewrite Hle in *.
  set (l := lay_out (length (drop k (text t))) d (lim - c - w') (drop k (text t))) in *. set (g := mkGlyph (kept ++ take k (text t)) w') in *.
  set (hB := set_colBegDirty (Z.of_nat c) (set_cwd d2 h)).
  destruct (split3 O c w' ltac:(lia)) as (HO & HlA & HlB). unfold view_size in Hb.
  pose proof (write_glyph_at hB (take c O) (take w' (drop c O)) (drop (c + w') O) (chars_len pre')) as Hg. rewrite HlA, HlB, <- HO in Hg. specialize (Hg ltac:(lia) ltac:(lia) ltac:(lia)).
  rewrite app_assoc in Hg. set (A' := take c O ++ glyph_cells (chars_len pre') w') in *.
  assert (HlA' : length A' = (c + w')%nat) by (unfold A'; rewrite length_app, HlA, length_glyph_cells; lia).
  destruct (finish_clusters_ok hB d2 A' (drop (c + w') O) (ch + Z.of_nat k) (take k (text t)) (drop k (text t))) as (d3 & Hs3 & Hfc).
  - by destruct Hs2. 
  - cbn. by rewrite take_drop.
  - rewrite HlA', length_drop. cbn. lia.
  - cbn. lia.
  - pose proof (chars_len_nonneg pre). lia.
  - rewrite length_drop. pose proof (chars_len_nonneg post). lia.
  - change (set_cwd d2 hB) with hB in Hfc. rewrite length_take, Nat.min_l, HlA' in Hfc by lia. change (colLimit hB) with (Z.of_nat lim) in Hfc. rewrite Nat2Z.id in Hfc.
    replace (lim - (c + w'))%nat with (lim - c - w')%nat in Hfc by lia. rewrite (lay_out_same _ d d2 _ _ Hs2) in Hfc. fold l in Hfc.
    set (h' := laid_out _ _ _ _ _ _ _) in Hfc. assert (Hokgl : Forall glyph_ok (g :: l)) by exact Hoknew.
    destruct (lay_out_ok (length (drop k (text t))) d (lim - c - w') (drop k (text t)) Hd) as ((u & Hu) & Hcl & Hokl). fold l in Hu, Hcl, Hokl.
    assert (Hcn : columns (g :: l) = (w' + columns l)%nat) by (by rewrite columns_cons).
    assert (Hln : chars_len (g :: l) = Z.of_nat (length kept) + Z.of_nat k + chars_len l) by (rewrite chars_len_cons; unfold g; cbn [g_chars]; rewrite length_app, length_take; lia).
    assert (Hlt : chars_len l <= Z.of_nat (length (text t)) - Z.of_nat k) by (apply (f_equal length) in Hu; rewrite length_drop, length_app in Hu; unfold chars_len; lia).
    assert (Hdec : (if decide (text_of l = drop k (text t)) then Z.of_nat (c + columns (g :: l)) else Z.of_nat lim) = Z.of_nat (write_end c (g :: l) (text_of (g :: l) = kept ++ text t) lim)).
    { assert (text_of (g :: l) = kept ++ text t <-> text_of l = drop k (text t)) as Hiff.
      { rewrite text_of_cons. change (g_chars g) with (kept ++ take k (text t)). rewrite <- app_assoc. rewrite <- (take_drop k (text t)) at 2.
        split; [by intros E%app_inv_head%app_inv_head|by intros ->]. }
      unfold write_end. destruct (decide (text_of l = drop k (text t))), (decide (text_of (g :: l) = kept ++ text t)); tauto. }
    set (e := write_end c (g :: l) (text_of (g :: l) = kept ++ text t) lim) in *.
    assert (He : (c + columns (g :: l) <= e <= lim)%nat) by (unfold e, write_end; destruct (decide (text_of (g :: l) = kept ++ text t)); lia).
    set (X := cells (chars_len pre') (g :: l)).
    assert (HX : X = glyph_cells (chars_len pre') w' ++ cells (ch + Z.of_nat k) l) by (unfold X; cbn [cells g_width g_chars g]; f_equal; f_equal; rewrite length_app, length_take; lia).
    assert (F : row h' = set_offsets (take c O ++ X ++ drop (columns l) (drop (c + w') O)) r /\ colBegDirty h' = Z.of_nat c /\
      colEnd h' = Z.of_nat (c + columns (g :: l)) /\ colEndDirty h' = Z.of_nat e /\ charsConsumed h' = Z.of_nat k + chars_len l).
    { unfold h', laid_out. rewrite HlA', Hcn. split; [unfold A'; rewrite HX, <- !app_assoc; done|]. split; [done|].
      split; [cbn; f_equal; lia|]. split; [|cbn; lia]. rewrite <- Hdec. cbn. rewrite Hcn. destruct (decide _); [f_equal; lia|done]. }
    destruct F as (F1 & F2 & F3 & F4 & F5).
    destruct (finish_general uninitialised allocated r gs h' pre' post' pre post i (g :: l) e (take i X) (drop i X) (drop (columns l) (drop (c + w') O))) as (h'' & Hf & Hfin); try done.
    + rewrite F1. f_equal. f_equal. by rewrite (app_assoc (take i X)), take_drop.
    + rewrite length_take. unfold X. rewrite length_cells by done. lia.
    + fold X. destruct i as [|[|]]; [by rewrite drop_0| |lia]. rewrite <- (ja_lead _ _ _ _ _ _ _ Hj) by lia. unfold X. done.
    + rewrite !length_drop. lia.
    + rewrite !drop_drop. f_equal. lia.
    + lia.
    + apply (ja_end _ _ _ _ _ _ _ Hj). lia.
    + rewrite F5. change (chars h') with t. unfold view_size. pose proof (chars_len_nonneg l). lia.
    + rewrite F5. change (chars h') with t. rewrite app_assoc, (ja_text _ _ _ _ _ _ _ Hj), <- app_assoc, text_of_app, text_of_cons. f_equal. unfold g. cbn [g_chars].
      rewrite <- app_assoc. f_equal. rewrite <- (take_drop k (text t)) at 1. rewrite Z2Nat.inj_add by (pose proof (chars_len_nonneg l); lia). rewrite Nat2Z.id.
      rewrite take_app_add' by (rewrite length_take; lia). f_equal. rewrite Hu. unfold chars_len. by rewrite Nat2Z.id, take_app_length.
    + rewrite F5. lia.
    + lia.
    + exists h', h''. split; [unfold mbind, comp_bind; fold hB; by rewrite Hg|]. split; [done|].
      split; [destruct Hs2 as [_ E1], Hs3 as [E2 E3]; split; [done|intros v; cbn; by rewrite E3, E1]|]. split; [done|]. split; [lia|].
      rewrite (before_col_boundary gs pre' post' Hok Heq'). done.
Qed.

Lemma same_measure_trans (d1 d2 d3 : D) : same_measure d1 d2 -> same_measure d2 d3 -> same_measure d1 d3.
Proof. intros [_ E1] [E2 E3]. split; [done|]. intros u. by rewrite E3, E1. Qed.

(** Text that joins nothing is laid out from its column. *)
Lemma finish_unjoined d2 : same_measure d d2 ->
  let col := (columns pre + i)%nat in
  let new := lay_out (length (text t)) d (lim - col) (text t) in
  writes h (fun h => finish_clusters ch 0 (set_cwd d2 h)) r gs col new (write_end col new (text_of new = text t) lim) (chars_len new).
Proof.
  intros Hs2 col new. pose proof Hrow as [Hcc H1 Hok Ho Hlen Hpre Hn]. pose proof (length_offsets gs Hok) as HlO. unfold view_size in Hb.
  assert (HlA : length (take col O) = col) by (rewrite length_take; unfold col; lia).
  destruct (chars_len_split gs Hok Hlen pre post Heq) as (Hp & Hpost & Hpp).
  assert (Hi : (i < 2)%nat). { destruct Hcut as [->|(g & q & -> & Hg)]; [lia|]. rewrite Heq in Hok. apply Forall_app in Hok as [_ Hok']. apply Forall_cons in Hok' as [[? _] _]. lia. }
  destruct (finish_clusters_ok h d2 (take col O) (drop col O) ch [] (text t)) as (d3 & Hs3 & Hfc); try done.
  - by destruct Hs2.
  - rewrite HlA, length_drop. cbn. unfold col. lia.
  - cbn. lia.
  - lia.
  - lia.
  - rewrite take_drop, HlA in Hfc. change (colLimit h) with (Z.of_nat lim) in Hfc. rewrite Nat2Z.id, (lay_out_same _ d d2 _ _ Hs2) in Hfc. fold new in Hfc.
    destruct (lay_out_ok (length (text t)) d (lim - col) (text t) Hd) as (Hpt & Hcl & Hokl). fold new in Hpt, Hcl, Hokl.
    assert (Hid : at_col (Z.of_nat col) O (set_cwd d2 h) = set_cwd d2 h) by (apply at_col_id; [done|exact Ho]). rewrite Hid in Hfc.
    eapply wrote_writes; try done.
    + pose proof (laid_out_wrote h d3 (take col O) (drop col O) ch new (text t) (same_measure_trans d d2 d3 Hs2 Hs3)) as Hwr.
      rewrite HlA in Hwr. specialize (Hwr ltac:(rewrite length_drop; unfold col in *; lia)). unfold write_end.
      destruct (decide (text_of new = text t)); exact Hwr.
    + unfold write_end. destruct (decide (text_of new = text t)); unfold col in *; lia.
Qed.

(** A wide glyph that does not fit into the only column. *)
Lemma finish_unfit d2 : same_measure d d2 -> (columns pre + i)%nat = c ->
  writes h (fun h => (set_dirty (Z.of_nat lim) 0 (set_colEnd (Z.of_nat c) (set_colBegDirty (Z.of_nat c) (set_cwd d2 h))), Returned tt)) r gs c [] lim 0.
Proof.
  intros Hs2 Hcol. pose proof Hrow as [Hcc H1 Hok Ho Hlen Hpre Hn]. pose proof (length_offsets gs Hok) as HlO. unfold view_size in Hb.
  destruct (ja_columns _ _ _ _ _ _ _ Hj) as [_ Hz]. destruct (ja_prefix _ _ _ _ _ _ _ Hj) as [post' Heq']. destruct (Hz (eq_sym Hcol)) as (E1 & E2 & E3). set (h' := set_dirty (Z.of_nat lim) 0 (set_colEnd (Z.of_nat c) (set_colBegDirty (Z.of_nat c) (set_cwd d2 h)))).
  destruct (finish_write uninitialised allocated r gs h' pre post i [] lim (drop c O)) as (h'' & Hf & Hfin); try done.
  - cbn [cells app]. rewrite Hcol, take_drop, <- Ho. by destruct r.
  - rewrite length_drop. change (columns []) with 0%nat. lia.
  - rewrite drop_drop. change (columns []) with 0%nat. f_equal. lia.
  - cbn. by rewrite E1, E2.
  - cbn. change (columns []) with 0%nat. f_equal. lia.
  - change (columns []) with 0%nat. lia.
  - apply prefix_nil.
  - change (chars_len []) with 0. lia.
  - exists h', h''. split; [done|]. split; [done|]. split; [done|]. split; [cbn; change (columns []) with 0%nat; f_equal; lia|]. rewrite (before_col_boundary gs pre' _ Hok Heq').
    repeat (split; [done|]). by rewrite <- Hcol.
Qed.

(** The first glyph of the text, looked at together with what precedes it. *)
Lemma join_previous_writes : apart r t -> let col := (columns pre + i)%nat in
  exists k w, 0 <= w <= 2 /\ (k <= length (text t))%nat /\ seen_then d seen (text t) k w /\
  (k = 0%nat -> let new := lay_out (length (text t)) d (lim - col) (text t) in
     writes h (join_previous ch) r gs col new (write_end col new (text_of new = text t) lim) (chars_len new)) /\
  ((0 < k)%nat -> let new := joined_glyphs d (lim - c) kept (text t) k w in
     writes h (join_previous ch) r gs c new (write_end c new (text_of new = kept ++ text t) lim) (match new with [] => 0 | _ => chars_len new - Z.of_nat (length kept) end)).
Proof.
  intros (Ha1 & Ha2 & Ha3) col. pose proof Hrow as [Hcc H1 Hok Ho Hlen [tl Hpre] Hn]. pose proof kept_length as Hkl.
  destruct (ja_prefix _ _ _ _ _ _ _ Hj) as [post' Heq']. destruct (chars_len_split gs Hok Hlen pre' post' Heq') as (Hp' & _ & _).
  destruct (chars_len_split gs Hok Hlen pre post Heq) as (Hp & Hpost & Hpp). destruct (ja_columns _ _ _ _ _ _ _ Hj) as [Hc Hz].
  set (p := mkView (_data r + chars_len pre') seen).
  assert (Hseen : chars_len pre' + Z.of_nat (length seen) <= Z.of_nat (length (_chars r))).
  { rewrite <- (ja_seen _ _ _ _ _ _ _ Hj), length_take, length_drop. assert (chars_len pre' <= Z.of_nat (length (_chars r))); [|lia].
    rewrite Hpre, length_app. pose proof (f_equal chars_len Heq') as Hx. rewrite chars_len_app in Hx. unfold chars_len in *. lia. }
  pose proof (measure_seen d p t Hd ltac:(simpl; lia) Ha2 ltac:(unfold view_end, view_size in *; simpl; lia) Hne) as Hm.
  destruct (measure_next new_GraphemeState p d) as [d1 [s1 m1]] eqn:E1. destruct (measure_next s1 t d1) as [d2 [s2 m2]] eqn:E2. destruct Hm as (Hs2 & Hw & Hl & Hst).
  assert (Hjoin : join_previous ch h = (if 0 <? len s2 then
      (modify (fun h => set_colEnd (Z.of_nat c) (set_colBegDirty (Z.of_nat c) h));;
       (if Z.of_nat lim <? u16 (Z.of_nat c + Z.max 1 (width s2)) then modify (set_dirty (Z.of_nat lim) (ch - ch))
        else write_glyph (u16 (Z.of_nat c + Z.max 1 (width s2))) (chars_len pre');; finish_clusters (ch + len s2) (len s2))) (set_cwd d2 h)
      else finish_clusters ch 0 (set_cwd d2 h))).
  { unfold join_previous. unfold mbind at 1, comp_bind at 1, gets. cbn [id]. unfold mbind at 1, comp_bind at 1, checked.
    change (row h) with r. change (colBeg h) with (Z.of_nat col). rewrite Ho, Nat2Z.id. unfold col. rewrite (ja_previous _ _ _ _ _ _ _ Hj). cbn [fmap option_fmap option_map].
    unfold mbind at 1, comp_bind at 1, _uncheckedCharOffset, offset_at. change (row h) with r. destruct (Z.ltb_spec (Z.of_nat c) 0); [lia|].
    rewrite Ho, Nat2Z.id, (offsets_boundary gs Hok Hlen pre' post' Heq'). cbn [fmap option_fmap option_map].
    destruct (is_trailer_small (chars_len pre') Hp') as (_ & -> & _). change (cwd h) with d. change (chars h) with t. unfold substring. rewrite (ja_seen _ _ _ _ _ _ _ Hj).
    fold p. rewrite E1, E2. unfold mbind at 1, comp_bind at 1, modify at 1. by destruct (0 <? len s2). }
  exists (Z.to_nat (len s2)), (width s2). unfold view_size in Hl. split; [done|]. split; [lia|]. split; [done|]. split.
  - intros Hk new. destruct (finish_unjoined d2 Hs2) as (h' & h'' & Hm & Hrest). exists h', h''. split; [|exact Hrest].
    rewrite Hjoin. destruct (Z.ltb_spec 0 (len s2)); [lia|]. exact Hm.
  - intros Hk new. assert (Hwz : u16 (Z.of_nat c + Z.max 1 (width s2)) = Z.of_nat (c + Nat.max 1 (Z.to_nat (width s2)))) by (rewrite u16_small; lia).
    rewrite Hwz in Hjoin. destruct (Z.ltb_spec 0 (len s2)); [|lia]. unfold mbind at 1, comp_bind at 1, modify at 1 in Hjoin.
    destruct (Z.ltb_spec (Z.of_nat lim) (Z.of_nat (c + Nat.max 1 (Z.to_nat (width s2))))) as [Hover|Hfit].
    + assert (new = []) as Hnil by (unfold new, joined_glyphs; destruct (Nat.leb_spec (Nat.max 1 (Z.to_nat (width s2))) (lim - c)); [lia|done]). rewrite Hnil.
      destruct (finish_unfit d2 Hs2 ltac:(lia)) as (h' & h'' & Hm & Hrest). exists h', h''. split; [rewrite Hjoin; rewrite Z.sub_diag; exact Hm|].
      unfold write_end. rewrite decide_False; [exact Hrest|]. intros E. destruct kept; [by apply Hne|done].
    + destruct (finish_joined (Z.to_nat (len s2)) (width s2) d2 ltac:(lia) Hw Hs2 ltac:(lia)) as (h' & h'' & Hm & Hrest). rewrite Z2Nat.id in Hm by lia.
      exists h', h''. split.
      * rewrite Hjoin. rewrite <- Hm. f_equal. unfold at_col. rewrite <- Ho. unfold set_offsets, set_text, set_row. cbn. by destruct r.
      * fold new in Hrest. destruct new eqn:En; [|exact Hrest].
        exfalso. unfold new, joined_glyphs in En. destruct (Nat.leb_spec (Nat.max 1 (Z.to_nat (width s2))) (lim - c)); [done|lia].
Qed.
End OneWrite.
End Join.
