(* ===== verification/RowTextProps.v ===== *)
(** * [ROW::ReplaceText] lays text out

    The operation as a whole: which glyphs a row has after text is written into
    it, and what the caller is told. *)

From stdpp Require Import list.
From S2P Require Import Prelude Til Utils TermDispatch TextAttributes Rle CodepointWidth CodepointWidthProps Row RowWrite RowProps RowWriteProps RowText.

Section ReplaceText.
Context {D : Type} `{MeasurementLaws D}.
Variable avx2 : bool.
Variable uninitialised : nat -> Z.
Variable allocated : Z.

(** Text that starts with ASCII. *)
Lemma plain_writes (r : ROW) gs pre post i (d : D) t lim : row_ok r gs -> gs = pre ++ post -> cut_at post i -> measure_ok d ->
  let col := (columns pre + i)%nat in (col < lim <= columns gs)%nat -> Forall is_wchar (text t) -> (exists b tail, text t = b :: tail /\ ascii b = true) ->
  chars_len gs + view_size t + _columnCount r < 0x8000 ->
  let new := text_glyphs d (lim - col) (text t) in
  writes uninitialised allocated (start_helper r d t pre i (Z.of_nat lim)) helper_ReplaceText r gs col new (write_end col new (text_of new = text t) lim) (chars_len new).
Proof.
  intros Hrow Heq Hcut Hd col Hlim Hw (b & tail & Ht & Hb) Hbound new. pose proof Hrow as [Hcc H1 Hok Ho Hlen Hpre Hn]. pose proof (length_offsets gs Hok) as HlO.
  set (O := cells 0 gs ++ [chars_len gs]) in *. set (h := start_helper r d t pre i (Z.of_nat lim)). unfold view_size in Hbound.
  destruct (chars_len_split gs Hok Hlen pre post Heq) as (Hp & Hpost & Hpp).
  assert (Hi : (i < 2)%nat). { destruct Hcut as [->|(g & q & -> & Hg)]; [lia|]. rewrite Heq in Hok. apply Forall_app in Hok as [_ Hok']. apply Forall_cons in Hok' as [[? _] _]. lia. }
  assert (HlA : length (take col O) = col) by (rewrite length_take; lia).
  set (room := (lim - col)%nat) in *. set (seg := take (room - 1) tail). set (after := drop (room - 1) tail).
  assert (Htake : take room (text t) = b :: seg) by (rewrite Ht; replace room with (S (room - 1)) at 1 by (unfold room; lia); done).
  assert (Htxt : text t = [] ++ b :: seg ++ after) by (unfold seg, after; cbn; by rewrite take_drop).
  assert (Hnew : new = if forallb ascii seg then singles ([] ++ b :: seg) else lay_out (length (text t)) d room (text t)).
  { unfold new, text_glyphs. rewrite Htake. cbn [forallb app]. by rewrite Hb. }
  set (ch := chars_len pre + Z.of_nat i).
  assert (Hstart : h = in_ascii h (take col O) (drop col O) ch []).
  { symmetry. unfold in_ascii. rewrite HlA. cbn [length]. rewrite Nat.add_0_r, drop_0. cbn [singles map cells app]. rewrite take_drop. apply at_col_id; [done|exact Ho]. }
  assert (Hseg : (length seg <= room - 1)%nat) by (unfold seg; rewrite length_take; lia).
  destruct (write_ascii_ok seg h (take col O) (drop col O) ch [] b after) as (h' & Heqw & Hwr); try done.
  - by rewrite <- Htxt.
  - by apply Forall_cons.
  - rewrite HlA, length_drop. cbn. unfold room in Hseg. lia.
  - cbn. lia.
  - unfold ch. lia.
  - rewrite <- Htxt. unfold ch. lia.
  - rewrite HlA in Hwr. change (colLimit h) with (Z.of_nat lim) in Hwr. change (chars h) with t in Hwr. change (cwd h) with d in Hwr. rewrite Nat2Z.id in Hwr. fold room in Hwr. rewrite <- Hnew in Hwr.
    assert (Hgl : text_of new `prefix_of` text t /\ (columns new <= room)%nat /\ Forall glyph_ok new /\ (forallb ascii seg = true -> text_of new = text t \/ columns new = room)).
    { rewrite Hnew. destruct (forallb ascii seg) eqn:Hfa; [|destruct (lay_out_ok (length (text t)) d room (text t) Hd) as (? & ? & ?); done].
      destruct (singles_ok ([] ++ b :: seg)) as (-> & -> & Hoks). split; [|split; [simpl; unfold room in *; lia|split; [done|intros _]]].
      - exists after. rewrite Htxt. simpl. done.
      - cbn [app length]. destruct (decide (room - 1 <= length tail)%nat) as [Hle|Hle]; [right; unfold seg; rewrite length_take; unfold room in *; lia|].
        left. rewrite Ht. f_equal. unfold seg. apply take_ge. lia. }
    destruct Hgl as (Hpt & Hcl & Hokl & Hall).
    assert (He : (if forallb ascii seg || bool_decide (text_of new = text t) then Z.of_nat (col + columns new) else Z.of_nat lim) = Z.of_nat (write_end col new (text_of new = text t) lim)).
    { unfold write_end. destruct (decide (text_of new = text t)) as [E|E].
      - rewrite bool_decide_true by done. by rewrite orb_true_r.
      - rewrite bool_decide_false by done. rewrite orb_false_r. destruct (forallb ascii seg); [|done]. destruct (Hall eq_refl) as [E'|E']; [done|]. f_equal. unfold room in E'. lia. }
    rewrite He in Hwr. eapply wrote_writes; try done.
    + unfold helper_ReplaceText. unfold mbind at 1, comp_bind at 1, gets. cbn [id]. fold h. change (chars h) with t. change (colLimit h) with (Z.of_nat lim). change (colBeg h) with (Z.of_nat col).
      assert (take (Z.to_nat (Z.min (view_size t) (Z.of_nat lim - Z.of_nat col))) (text t) = b :: seg) as ->.
      { rewrite <- Htake. unfold view_size. destruct (decide (room <= length (text t))%nat); [f_equal; unfold room in *; lia|]. rewrite !take_ge by (unfold room in *; lia). done. }
      cbn [write_ascii]. assert ((0x80 <=? b) = false) as -> by (unfold ascii in Hb; lia).
      pose proof (ascii_step h (take col O) (drop col O) ch [] b) as Hstep. cbn [length] in Hstep. rewrite <- Hstart, Z.add_0_r in Hstep.
      specialize (Hstep ltac:(rewrite length_drop; lia) ltac:(rewrite HlA; lia) ltac:(unfold ch; lia) ltac:(unfold ch; lia)).
      change (chBeg h) with ch. unfold mbind, comp_bind in Hstep |- *. unfold gets in *. destruct (write_offset _ _ _) as [h1 [[]| | |]]; try done. rewrite Hstep.
      exact Heqw.
    + unfold write_end. destruct (decide (text_of new = text t)); unfold room in *; lia.
Qed.

(** ** What a text turns into *)

(** The column where the new glyphs start, the glyphs, and the characters of the
    first one that were in the row before: text that does not start with ASCII is
    measured together with the glyph in front of it. *)
Definition text_layout (d : D) (gs : list glyph) (col lim : nat) (t : wstring) : nat * list glyph * wstring :=
  let plain := (col, text_glyphs d (lim - col) t, []) in
  match last (before_col gs col), t with
  | Some p, c :: _ =>
    if ascii c then plain
    else
      let '(k, w) := measured d (g_chars p ++ t) in
      if (length (g_chars p) <? k)%nat then
        let start := (col - g_width p)%nat in
        (start, joined_glyphs d (lim - start) (g_chars p) t (k - length (g_chars p)) w, g_chars p)
      else plain
  | _, _ => plain
  end.

(** The row afterwards. *)
Definition text_written (d : D) (gs : list glyph) (col lim : nat) (t : wstring) : list glyph :=
  let '(start, new, old) := text_layout d gs col lim t in overwrite gs start new (write_end start new (text_of new = old ++ t) lim).

(** A text that is not empty and does not start with ASCII. *)
Lemma unicode_joins (r : ROW) (d : D) t pre i lim c tail : text t = c :: tail -> ascii c = false -> (columns pre + i < lim)%nat ->
  helper_ReplaceText (start_helper r d t pre i (Z.of_nat lim)) = join_previous (chars_len pre + Z.of_nat i) (start_helper r d t pre i (Z.of_nat lim)).
Proof.
  intros Ht Hc Hlim. unfold helper_ReplaceText. unfold mbind at 1, comp_bind at 1, gets. cbn [id]. set (h := start_helper r d t pre i (Z.of_nat lim)).
  change (chars h) with t. change (colLimit h) with (Z.of_nat lim). change (colBeg h) with (Z.of_nat (columns pre + i)). unfold view_size. rewrite Ht.
  replace (Z.to_nat (Z.min (Z.of_nat (length (c :: tail))) (Z.of_nat lim - Z.of_nat (columns pre + i)))) with (S (Z.to_nat (Z.min (Z.of_nat (length tail)) (Z.of_nat lim - Z.of_nat (columns pre + i) - 1)))) by (simpl; lia).
  cbn [take write_ascii]. unfold ascii in Hc. assert ((0x80 <=? c) = true) as -> by lia. done.
Qed.

(** The layout when the row is written from the beginning, or behind a whole
    cluster. *)
Definition clean_start (d : D) (gs : list glyph) (col : nat) (t : wstring) : Prop :=
  columns (before_col gs col) = col /\
  forall p, last (before_col gs col) = Some p -> (measured d (g_chars p)).1 = length (g_chars p) /\ no_straddle (g_chars p) t.

Lemma text_glyphs_unicode (d : D) room c tail : ascii c = false -> (0 < room)%nat -> text_glyphs d room (c :: tail) = lay_out (length (c :: tail)) d room (c :: tail).
Proof. intros Hc Hr. unfold text_glyphs. destruct room; [lia|]. cbn [take forallb]. by rewrite Hc. Qed.

Lemma joined_from_start (d : D) room t : t <> [] -> measure_ok d -> let '(k, w) := measured d t in joined_glyphs d room [] t k w = lay_out (length t) d room t.
Proof.
  intros Hne Hd. pose proof (measured_bounds d t Hd Hne) as Hb. destruct (measured d t) as [k w] eqn:Hm. unfold joined_glyphs. destruct t as [|c t]; [done|]. cbn [length lay_out].
  rewrite Hm. destruct (_ <=? _)%nat; [|done]. f_equal. apply lay_out_fuel; [done|lia|]. rewrite length_drop. simpl in *. lia.
Qed.

Lemma writes_ext h (m m' : comp (WriteHelper D) unit) r gs col new e k : m h = m' h ->
  writes uninitialised allocated h m r gs col new e k -> writes uninitialised allocated h m' r gs col new e k.
Proof. intros Hm (h' & h'' & Hr & Hrest). exists h', h''. by rewrite <- Hm. Qed.

Lemma replace_writes (r : ROW) gs pre post (d : D) t lim : row_ok r gs -> gs = pre ++ post -> measure_ok d ->
  let col := columns pre in (col < lim <= columns gs)%nat -> Forall is_wchar (text t) -> text t <> [] -> apart r t ->
  chars_len gs + view_size t + _columnCount r < 0x8000 -> clean_start d gs col (text t) ->
  let '(start, new, old) := text_layout d gs col lim (text t) in
  writes uninitialised allocated (start_helper r d t pre 0 (Z.of_nat lim)) helper_ReplaceText r gs start new (write_end start new (text_of new = old ++ text t) lim)
    (match new with [] => 0 | _ => chars_len new - Z.of_nat (length old) end).
Proof.
  intros Hrow Heq Hd col Hlim Hw Hne Hap Hb [Hcb Hclean]. pose proof Hrow as [Hcc H1 Hok Ho Hlen Hpre Hn].
  assert (Hbc : before_col gs col = pre) by (by apply (before_col_boundary gs pre post)). unfold text_layout. rewrite Hbc in *.
  assert (Hplain : forall new, writes uninitialised allocated (start_helper r d t pre 0 (Z.of_nat lim)) helper_ReplaceText r gs col new (write_end col new (text_of new = text t) lim) (chars_len new) ->
    writes uninitialised allocated (start_helper r d t pre 0 (Z.of_nat lim)) helper_ReplaceText r gs col new (write_end col new (text_of new = [] ++ text t) lim)
      (match new with [] => 0 | _ => chars_len new - Z.of_nat (length (@nil Z)) end)).
  { intros new Hwr. cbn [app length]. destruct new; [exact Hwr|]. by rewrite Z.sub_0_r. }
  destruct (text t) as [|c tail] eqn:Ht; [done|]. rewrite <- Ht in *. destruct (ascii c) eqn:Hc.
  { assert (Hpl : writes uninitialised allocated (start_helper r d t pre 0 (Z.of_nat lim)) helper_ReplaceText r gs col (text_glyphs d (lim - col) (text t))
       (write_end col (text_glyphs d (lim - col) (text t)) (text_of (text_glyphs d (lim - col) (text t)) = text t) lim) (chars_len (text_glyphs d (lim - col) (text t)))).
    { pose proof (plain_writes r gs pre post 0 d t lim Hrow Heq ltac:(by left) Hd ltac:(rewrite Nat.add_0_r; done) Hw ltac:(eauto) Hb) as Hp. rewrite Nat.add_0_r in Hp. exact Hp. }
    destruct (last pre); apply Hplain, Hpl. }
  destruct (joins_exist gs pre post 0 (_chars r) Hok Hlen Heq ltac:(by left) Hpre) as (pre' & old & seen & Hj & Hj0). destruct (Hj0 eq_refl) as (-> & Hpp & Hold).
  destruct (join_previous_writes uninitialised allocated r gs pre post 0 d t lim pre' old old Hrow Heq ltac:(by left) Hj Hd ltac:(rewrite Nat.add_0_r; done) Hne Hb Hap)
    as (k & w & Hw2 & Hk & [Hs1 Hs2] & Hz & Hnz). pose proof (unicode_joins r d t pre 0 lim c tail Ht Hc ltac:(rewrite Nat.add_0_r; lia)) as Hu0. rewrite Nat.add_0_r in *.
  assert (Hu : text_glyphs d (lim - col) (text t) = lay_out (length (text t)) d (lim - col) (text t)) by (rewrite Ht; apply text_glyphs_unicode; [done|lia]).
  destruct (last pre) as [p|] eqn:Hp.
  - destruct (Hclean p eq_refl) as [Hm Hns]. rewrite <- Hold in Hm, Hns |- *.
    assert (Hgp : old <> []).
    { rewrite Hold. rewrite Heq in Hok. apply Forall_app in Hok as [Hok' _]. rewrite Hpp in Hok'. apply Forall_app in Hok' as [_ Hok']. by apply Forall_cons in Hok' as [[_ ?] _]. }
    rewrite (Hs2 Hgp Hm Hns). destruct (Nat.ltb_spec (length old) (length old + k)).
    + replace (length old + k - length old)%nat with k by lia.
      assert (Hst : (col - g_width p)%nat = columns pre') by (unfold col; rewrite Hpp, columns_app, columns_cons; change (columns []) with 0%nat; lia).
      rewrite Hst. eapply writes_ext; [symmetry; exact Hu0|]. apply Hnz. lia.
    + assert (k = 0)%nat as Hk0 by lia. rewrite Hu. apply Hplain. eapply writes_ext; [symmetry; exact Hu0|]. by apply Hz.
  - rewrite app_nil_r in Hpp. subst pre'. specialize (Hs1 Hold). pose proof (measured_bounds d (text t) Hd Hne) as Hmb. rewrite Hs1 in Hmb. cbn [fst] in Hmb.
    specialize (Hnz ltac:(lia)). pose proof (joined_from_start d (lim - col) (text t) Hne Hd) as Hjs. rewrite Hs1 in Hjs. unfold col in *. rewrite Hold, Hjs, <- Hu in Hnz. eapply writes_ext; [symmetry; exact Hu0|]. exact Hnz.
Qed.

(** Wherever the text is written, also on the trailing half of a wide glyph. *)
Lemma replace_writes_anywhere (r : ROW) gs pre post i (d : D) t lim : row_ok r gs -> gs = pre ++ post -> cut_at post i -> measure_ok d ->
  (columns pre + i < lim <= columns gs)%nat -> Forall is_wchar (text t) -> text t <> [] -> apart r t -> chars_len gs + view_size t + _columnCount r < 0x8000 ->
  exists start new e k, writes uninitialised allocated (start_helper r d t pre i (Z.of_nat lim)) helper_ReplaceText r gs start new e k.
Proof.
  intros Hrow Heq Hcut Hd Hlim Hw Hne Hap Hb. pose proof Hrow as [_ _ Hok _ Hlen Hpre _]. destruct (text t) as [|c tail] eqn:Ht; [done|]. rewrite <- Ht in *. destruct (ascii c) eqn:Hc.
  - do 4 eexists. apply (plain_writes r gs pre post i d t lim Hrow Heq Hcut Hd Hlim Hw ltac:(eauto) Hb).
  - destruct (joins_exist gs pre post i (_chars r) Hok Hlen Heq Hcut Hpre) as (pre' & old & seen & Hj & _).
    destruct (join_previous_writes uninitialised allocated r gs pre post i d t lim pre' old seen Hrow Heq Hcut Hj Hd Hlim Hne Hb Hap) as (k & w & _ & _ & _ & Hz & Hnz).
    pose proof (unicode_joins r d t pre i lim c tail Ht Hc ltac:(lia)) as Hu. destruct (decide (k = 0)%nat) as [Hk|Hk].
    + do 4 eexists. eapply writes_ext; [symmetry; exact Hu|]. by apply Hz.
    + do 4 eexists. eapply writes_ext; [symmetry; exact Hu|]. apply Hnz. lia.
Qed.

(** ** The operation *)

Lemma text_glyphs_ok (d : D) room t : measure_ok d -> text_of (text_glyphs d room t) `prefix_of` t.
Proof.
  intros Hd. unfold text_glyphs. destruct (forallb _ _); [|by apply lay_out_ok]. destruct (singles_ok (take room t)) as (-> & _ & _). apply prefix_take.
Qed.

(** The new glyphs hold what they joined and the beginning of the text. *)
Lemma text_layout_ok (d : D) gs col lim t : measure_ok d -> let '(start, new, old) := text_layout d gs col lim t in
  text_of new `prefix_of` old ++ t /\ (new = [] \/ old `prefix_of` text_of new).
Proof.
  intros Hd. pose proof (text_glyphs_ok d (lim - col) t Hd) as Hp. unfold text_layout.
  destruct (last _) as [p|]; [|split; [done|right; apply prefix_nil]]. destruct t as [|c t]; [split; [done|right; apply prefix_nil]|].
  destruct (ascii c); [split; [done|right; apply prefix_nil]|]. destruct (measured _ _) as [k w].
  destruct (_ <? _)%nat; [|split; [done|right; apply prefix_nil]]. unfold joined_glyphs. destruct (_ <=? _)%nat; [|split; [apply prefix_nil|by left]].
  set (m := (k - length (g_chars p))%nat). rewrite text_of_cons. cbn [g_chars]. rewrite <- app_assoc. split; [|right; by eexists].
  apply prefix_app. transitivity (take m (c :: t) ++ drop m (c :: t)); [|by rewrite take_drop]. apply prefix_app. by apply lay_out_ok.
Qed.

(** The whole of [ReplaceText] is its write. *)
Lemma ReplaceText_runs (s : RowWriteState) (r : ROW) gs (d : D) pre post i col new e k : row_ok r gs -> gs = pre ++ post -> cut_at post i ->
  let lim := _clampedColumnInclusive (ws_columnLimit s) r in
  _clampedColumnInclusive (ws_columnBegin s) r = Z.of_nat (columns pre + i) -> Z.of_nat (columns pre + i) < lim -> text (ws_text s) <> [] ->
  writes uninitialised allocated (start_helper r d (ws_text s) pre i lim) helper_ReplaceText r gs col new e k ->
  exists r' d' s', ReplaceText avx2 uninitialised allocated s r d = (r', d', Returned s') /\
    row_ok r' (overwrite gs col new e) /\ kept r r' /\ same_measure d d' /\
    text (ws_text s') = drop (Z.to_nat k) (text (ws_text s)) /\
    ws_columnEnd s' = (match text (ws_text s') with [] => Z.of_nat (col + columns new) | _ => lim end) /\
    ws_columnBeginDirty s' = Z.of_nat (columns (before_col gs col)) /\ ws_columnEndDirty s' = Z.of_nat (columns gs - columns (after_col gs e)).
Proof.
  intros Hrow Heq Hcut lim Hcol Hlt Hne (h' & h'' & Hm & Hf & Hs & Fe & Fk & Fl & Fc & Fb & [Gr Gk _ Gf]).
  destruct (new_WriteHelper_ok r d gs (ws_columnBegin s) (ws_columnLimit s) (ws_text s) Hrow) as (pre2 & post2 & i2 & Heq2 & Hci & Hcut2 & Hnew).
  pose proof Hrow as [_ _ Hok _ _ _ _].
  assert (pre2 = pre) as ->.
  { transitivity (before_col gs (columns pre2 + i2)); [symmetry; rewrite Heq2; apply before_col_app; [by rewrite <- Heq2|done]|].
    replace (columns pre2 + i2)%nat with (columns pre + i)%nat by lia. rewrite Heq. apply before_col_app; [by rewrite <- Heq|done]. }
  assert (i2 = i) as -> by lia. fold lim in Hnew. rewrite Hcol in Hnew.
  unfold ReplaceText. rewrite Hnew. change (mkHelper _ _ _ _ _ _ _ _ _ _ _ _) with (start_helper r d (ws_text s) pre i lim). set (h := start_helper _ _ _ _ _ _) in *.
  assert (IsValid h = true) as -> by (apply IsValid_ok; split; [exact Hlt|exact Hne]). cbn [negb]. unfold with_helper, mbind, comp_bind. rewrite Hm, Hf. unfold gets.
  destruct Gf as (G1 & G2 & G3 & G4 & G5 & G6 & G7 & G8). exists (row h''), (cwd h''), (written s h''). split; [done|]. split; [done|]. split; [done|].
  split; [by rewrite G1|]. unfold written. cbn [text ws_text ws_columnEnd ws_columnBeginDirty ws_columnEndDirty]. rewrite G4, G5, G6, G7, G8, Fk, Fb, Fe, Fl. done.
Qed.
End ReplaceText.

Section Theorems.
Context {D : Type} `{MeasurementLaws D}.

(** What a write does, with the layout of the code. *)
Lemma ReplaceText_text_layout (avx2 : bool) (uninitialised : nat -> Z) (allocated : Z) (r : ROW) (gs : list glyph) (d : D) (s : RowWriteState) :
  row_ok r gs -> measure_ok d -> Forall is_wchar (text (ws_text s)) -> text (ws_text s) <> [] -> apart r (ws_text s) ->
  chars_len gs + view_size (ws_text s) + _columnCount r < 0x8000 ->
  let col := Z.to_nat (_clampedColumnInclusive (ws_columnBegin s) r) in
  let lim := Z.to_nat (_clampedColumnInclusive (ws_columnLimit s) r) in
  (col < lim)%nat -> clean_start d gs col (text (ws_text s)) ->
  let '(start, new, old) := text_layout d gs col lim (text (ws_text s)) in
  let e := write_end start new (text_of new = old ++ text (ws_text s)) lim in
  exists r' d' s', ReplaceText avx2 uninitialised allocated s r d = (r', d', Returned s') /\
    row_ok r' (overwrite gs start new e) /\ kept r r' /\ same_measure d d' /\
    text (ws_text s') = drop (length (text_of new) - length old) (text (ws_text s)) /\
    ws_columnEnd s' = Z.of_nat e /\
    ws_columnBeginDirty s' = Z.of_nat (columns (before_col gs start)) /\ ws_columnEndDirty s' = Z.of_nat (columns gs - columns (after_col gs e)).
Proof.
  intros Hrow Hd Hw Hne Hap Hb col lim Hlt Hcl. pose proof Hrow as [Hc _ Hok _ _ _ _].
  destruct (clampedInclusive_ok r gs (ws_columnBegin s) Hrow) as [H1 _]. destruct (clampedInclusive_ok r gs (ws_columnLimit s) Hrow) as [H2 _].
  destruct (cut gs col Hok ltac:(lia)) as (pre & post & i & Heq & Hci & Hcut).
  assert (Hbc : before_col gs col = pre) by (rewrite Heq, Hci; apply before_col_app; [by rewrite <- Heq|done]).
  assert (i = 0%nat) as -> by (destruct Hcl as [Hx _]; rewrite Hbc in Hx; lia). rewrite Nat.add_0_r in Hci.
  pose proof (replace_writes uninitialised allocated r gs pre post d (ws_text s) lim Hrow Heq Hd ltac:(lia) Hw Hne Hap Hb ltac:(by rewrite <- Hci)) as Hwr.
  rewrite <- Hci in Hwr. pose proof (text_layout_ok d gs col lim (text (ws_text s)) Hd) as Hlo. destruct (text_layout d gs col lim (text (ws_text s))) as [[start new] old].
  unfold lim in Hwr at 1. rewrite Z2Nat.id in Hwr by lia. intros e. fold e in Hwr.
  destruct (ReplaceText_runs avx2 _ _ s r gs d pre post 0 start new e _ Hrow Heq Hcut ltac:(lia) ltac:(lia) Hne Hwr) as (r' & d' & s' & E1 & E2 & E3 & E4 & E5 & E6 & E7 & E8).
  exists r', d', s'. repeat (split; [done|]). destruct Hlo as [[u Hu] Hnew].
  assert (Hk : text (ws_text s') = drop (length (text_of new) - length old) (text (ws_text s))).
  { rewrite E5. f_equal. destruct new; [by rewrite Nat.sub_0_l|]. unfold chars_len. lia. }
  split; [done|]. split; [|done]. rewrite E6, Hk. unfold e, write_end.
  assert (Hlen : (length old + length (text (ws_text s)) = length (text_of new) + length u)%nat) by (rewrite <- !length_app; by rewrite Hu).
  destruct (decide (text_of new = old ++ text (ws_text s))) as [Ed|Ed].
  - rewrite drop_ge; [done|]. rewrite Ed, length_app. lia.
  - destruct (drop (length (text_of new) - length old) (text (ws_text s))) eqn:Edr; [|unfold lim; lia]. exfalso. apply Ed. rewrite Hu. apply (f_equal length) in Edr. rewrite length_drop in Edr. simpl in Edr.
    assert (length u = 0%nat) as Hu0.
    { destruct Hnew as [->|[v Hv]]; [change (text_of []) with (@nil Z) in *; simpl in *; destruct (text (ws_text s)); [done|simpl in *; lia]|].
      apply (f_equal length) in Hv. rewrite length_app in Hv. lia. }
    destruct u; [by rewrite app_nil_r|done].
Qed.
(** The glyphs that the detector finds in the text, from the column on. *)
Definition detector_layout (d : D) (gs : list glyph) (col lim : nat) (t : wstring) : nat * list glyph * wstring :=
  let plain := (col, lay_out (length t) d (lim - col) t, []) in
  match last (before_col gs col), t with
  | Some p, c :: _ =>
    if ascii c then plain
    else
      let '(k, w) := measured d (g_chars p ++ t) in
      if (length (g_chars p) <? k)%nat then
        let start := (col - g_width p)%nat in
        (start, joined_glyphs d (lim - start) (g_chars p) t (k - length (g_chars p)) w, g_chars p)
      else plain
  | _, _ => plain
  end.

(** The limit does not separate ASCII from what may belong to it: if there is only
    ASCII up to the limit, then ASCII follows, or nothing. *)
Definition limit_breaks (room : nat) (t : wstring) : Prop :=
  forallb ascii (take room t) = true -> forall c, t !! room = Some c -> ascii c = true.

Lemma no_room fuel (d : D) t : lay_out fuel d 0 t = [].
Proof. destruct fuel, t; try done. cbn [lay_out]. destruct (measured d _) as [k w]. by destruct (Nat.leb_spec (Nat.max 1 (Z.to_nat w)) 0); [lia|]. Qed.

Lemma text_glyphs_detector (d : D) room t : measure_ok d -> Forall is_wchar t -> limit_breaks room t -> text_glyphs d room t = lay_out (length t) d room t.
Proof.
  intros Hd Hw Hl. unfold text_glyphs. destruct (forallb ascii (take room t)) eqn:Ha; [|done]. specialize (Hl Ha).
  assert (Hasc : Forall (fun c => ascii c = true) (take room t)) by (apply Forall_forall; intros c Hc; rewrite forallb_forall in Ha; by apply Ha, list_elem_of_In).
  destruct (t !! room) as [c|] eqn:Et.
  - pose proof (take_drop_middle t room c Et) as Ht. pose proof (lookup_lt_Some _ _ _ Et) as Hlen. rewrite <- Ht at 2 3. symmetry.
    rewrite (lay_out_ascii d room (take room t) c (drop (S room) t)); [|done|by rewrite Ht| |rewrite length_take; lia].
    + rewrite length_take, Nat.min_l, Nat.sub_diag, no_room by lia. apply app_nil_r.
    + apply Forall_app. split; [done|]. apply Forall_singleton. by apply Hl.
  - apply lookup_ge_None in Et. rewrite take_ge in * by done. symmetry. by apply lay_out_all_ascii.
Qed.

Lemma layout_detector (d : D) gs col lim t : measure_ok d -> Forall is_wchar t -> limit_breaks (lim - col) t -> text_layout d gs col lim t = detector_layout d gs col lim t.
Proof. intros Hd Hw Hl. unfold text_layout, detector_layout. by rewrite text_glyphs_detector. Qed.

(** C32: Writing text into a row lays the glyphs that the detector finds out from
    the given column up to the limit: text that does not start with ASCII is first
    joined with the glyph in front of it, a glyph that is cut through by the write
    turns into spaces, everything else in the row stays, and the caller learns what
    is left of the text, the column behind it and the columns that changed. It holds
    for every detector that keeps its promises, with AVX or without, whatever the
    memory held, whether the characters have to be moved or not. The conditions: the
    text is not empty, is in other memory than the row, and row, text and columns are
    together less than 0x8000 units; there is a column to write to; the write starts
    where a glyph starts, behind a whole cluster ([clean_start]; otherwise
    [mark_on_second_half_widens_space]); and text that is ASCII up to the limit does
    not go on with anything else ([limit_breaks]; otherwise
    [mark_behind_last_column_is_lost]). *)
Theorem ReplaceText_lays_out (avx2 : bool) (uninitialised : nat -> Z) (allocated : Z) (r : ROW) (gs : list glyph) (d : D) (s : RowWriteState) :
  row_ok r gs -> measure_ok d -> Forall is_wchar (text (ws_text s)) -> text (ws_text s) <> [] -> apart r (ws_text s) ->
  chars_len gs + view_size (ws_text s) + _columnCount r < 0x8000 ->
  let col := Z.to_nat (_clampedColumnInclusive (ws_columnBegin s) r) in
  let lim := Z.to_nat (_clampedColumnInclusive (ws_columnLimit s) r) in
  (col < lim)%nat -> clean_start d gs col (text (ws_text s)) -> limit_breaks (lim - col) (text (ws_text s)) ->
  let '(start, new, old) := detector_layout d gs col lim (text (ws_text s)) in
  let e := write_end start new (text_of new = old ++ text (ws_text s)) lim in
  exists r' d' s', ReplaceText avx2 uninitialised allocated s r d = (r', d', Returned s') /\
    row_ok r' (overwrite gs start new e) /\ kept r r' /\ same_measure d d' /\
    text (ws_text s') = drop (length (text_of new) - length old) (text (ws_text s)) /\
    ws_columnEnd s' = Z.of_nat e /\
    ws_columnBeginDirty s' = Z.of_nat (columns (before_col gs start)) /\ ws_columnEndDirty s' = Z.of_nat (columns gs - columns (after_col gs e)).
Proof.
  intros Hrow Hd Hw Hne Hap Hb col lim Hlt Hcl Hl. unfold col, lim in *. rewrite <- layout_detector by done.
  by apply (ReplaceText_text_layout avx2 uninitialised allocated r gs d s).
Qed.
End Theorems.
