(* ===== verification/RowQueries.v ===== *)
(** * What the queries of a row tell about its glyphs

    Columns, characters and glyphs: the queries that take a column, and the mapper
    from characters back to columns. *)

From stdpp Require Import list.
From S2P Require Import Prelude Til Utils TermDispatch TextAttributes Rle CodepointWidth CodepointWidthProps Row RowWrite RowProps RowWriteProps.

Section Mapper.
Context (gs : list glyph) (Hok : Forall glyph_ok gs) (Hlen : chars_len gs < 0x8000).
Local Abbreviation offsets := (cells 0 gs ++ [chars_len gs]).

(** Offsets do not decrease; those of later glyphs are larger. *)
Lemma offsets_before pre post col : gs = pre ++ post -> (col < columns pre)%nat -> exists o, offsets !! col = Some o /\ masked o < chars_len pre.
Proof.
  intros Heq Hc. assert (Hokp : Forall glyph_ok pre) by (rewrite Heq in Hok; by apply Forall_app in Hok as [? _]).
  destruct (locate pre col Hokp Hc) as (a & g & b & i & -> & -> & Hi). rewrite <- app_assoc in Heq. cbn [app] in Heq.
  rewrite (offsets_glyph gs Hok Hlen a g (b ++ post) i Heq Hi). eexists. split; [done|].
  destruct (chars_len_split gs Hok Hlen a _ Heq) as (Ha & _ & _). destruct (is_trailer_small _ Ha) as (_ & M1 & _ & M2).
  apply Forall_app in Hokp as [_ Hokp]. apply Forall_cons in Hokp as [[_ Hg] _]. pose proof (chars_len_nonneg b).
  rewrite chars_len_app, chars_len_cons. destruct (g_chars g); [done|]. simpl length. destruct (i =? 0)%nat; lia.
Qed.

Lemma offsets_behind pre g post col target : gs = pre ++ g :: post -> (columns pre < col <= columns gs)%nat ->
  chars_len pre <= target < chars_len pre + Z.of_nat (length (g_chars g)) -> exists o, offsets !! col = Some o /\ target < o.
Proof.
  intros Heq Hc Ht. destruct (decide (col = columns gs)) as [->|Hne].
  { rewrite offsets_end by done. eexists. split; [done|]. rewrite Heq, chars_len_app, chars_len_cons. pose proof (chars_len_nonneg post). lia. }
  destruct (locate gs col Hok ltac:(lia)) as (a & g' & b & i & Heq' & -> & Hi). rewrite (offsets_glyph gs Hok Hlen a g' b i Heq' Hi). eexists. split; [done|].
  destruct (chars_len_split gs Hok Hlen a _ Heq') as (Ha & _ & _). destruct (chars_len_split gs Hok Hlen pre _ Heq) as (Hp & Hp2 & Hp3). rewrite chars_len_cons in *.
  destruct (Nat.eqb_spec i 0) as [->|Hi0].
  - assert (Hpre : pre ++ [g] `prefix_of` a).
    { rewrite Heq in Heq'. destruct (app_eq_inv _ _ _ _ Heq') as [(k & Ea & Eb)|(k & -> & Eb)].
      - exfalso. rewrite Ea, columns_app in Hc. lia.
      - destruct k as [|x k]; [rewrite app_nil_r in Hc; lia|]. injection Eb as <- _. exists k. by rewrite <- app_assoc. }
    destruct Hpre as [k ->]. rewrite !chars_len_app, chars_len_cons. change (chars_len []) with 0. pose proof (chars_len_nonneg k). lia.
  - unfold CharOffsetsTrailer. pose proof (chars_len_nonneg post). lia.
Qed.

Lemma search_forward_ok target col : (col <= columns gs)%nat -> 0 <= target <= chars_len gs ->
  exists c, search_forward (drop col offsets) col target = Some c /\ (c <= columns gs)%nat /\ exists o, offsets !! c = Some o /\ target <= masked o.
Proof.
  intros Hc Ht. remember (columns gs - col)%nat as n eqn:Hn. revert col Hc Hn. induction n as [|n IH]; intros col Hc Hn.
  - assert (col = columns gs) as -> by lia. pose proof (offsets_end gs Hok) as He. rewrite (drop_S _ _ _ He). cbn [search_forward].
    destruct (is_trailer_small (chars_len gs) ltac:(lia)) as (_ & Hm & _). rewrite Hm. destruct (Z.ltb_spec (chars_len gs) target); [lia|].
    exists (columns gs). split; [done|]. split; [lia|]. exists (chars_len gs). rewrite Hm. done.
  - destruct (lookup_lt_is_Some_2 offsets col) as [o Ho]; [rewrite length_offsets by done; lia|]. rewrite (drop_S _ _ _ Ho). cbn [search_forward].
    destruct (Z.ltb_spec (masked o) target); [|exists col; split; [done|]; split; [lia|]; by exists o].
    apply IH; lia.
Qed.

Lemma search_backward_ok target lo col o : (lo <= col)%nat -> offsets !! lo = Some o -> o <= target ->
  (forall c, (lo < c <= col)%nat -> exists o', offsets !! c = Some o' /\ target < o') -> search_backward offsets col target = Some lo.
Proof.
  intros Hle Ho Ht. induction col as [|col IH]; intros Hb.
  - assert (lo = 0)%nat as -> by lia. cbn [search_backward]. rewrite Ho. destruct (Z.ltb_spec target o); [lia|done].
  - destruct (decide (lo = S col)) as [->|Hne].
    + cbn [search_backward]. rewrite Ho. destruct (Z.ltb_spec target o); [lia|done].
    + destruct (Hb (S col) ltac:(lia)) as (o' & Ho' & Hlt). cbn [search_backward]. rewrite Ho'. destruct (Z.ltb_spec target o'); [|lia].
      apply IH; [lia|]. intros c Hc. apply Hb. lia.
Qed.

(** A mapper of these glyphs, wherever it looked last. *)
Definition maps (m : CharToColumnMapper) : Prop :=
  map_charOffsets m = offsets /\ map_charsLength m = chars_len gs /\ map_columnCount m = Z.of_nat (columns gs) /\ 0 <= map_currentColumn m <= Z.of_nat (columns gs).

Lemma leading_inside m pre g post target : maps m -> gs = pre ++ g :: post -> chars_len pre <= target < chars_len pre + Z.of_nat (length (g_chars g)) ->
  exists m', GetLeadingColumnAt target m = Some (m', Z.of_nat (columns pre)) /\ maps m'.
Proof.
  intros (M1 & M2 & M3 & M4) Heq Ht. destruct (chars_len_split gs Hok Hlen pre _ Heq) as (Hp & Hp2 & Hp3). rewrite chars_len_cons in *. pose proof (chars_len_nonneg post).
  unfold GetLeadingColumnAt. rewrite M1, M2. assert (clamp target 0 (chars_len gs) = target) as ->.
  { unfold clamp. destruct (Z.ltb_spec target 0); [lia|]. destruct (Z.ltb_spec (chars_len gs) target); lia. }
  destruct (search_forward_ok target (Z.to_nat (map_currentColumn m)) ltac:(lia) ltac:(lia)) as (c & -> & Hc & o & Ho & Hm). cbn [mbind option_bind].
  rewrite (search_backward_ok target (columns pre) c (chars_len pre)).
  - eexists. split; [done|]. split; [done|]. split; [done|]. split; [done|]. cbn [map_currentColumn]. rewrite Heq, columns_app. lia.
  - destruct (decide (columns pre <= c)%nat); [done|]. destruct (offsets_before pre (g :: post) c Heq ltac:(lia)) as (o' & Ho' & Hlt).
    assert (o' = o) as -> by congruence. lia.
  - by apply (offsets_boundary gs Hok Hlen pre (g :: post)).
  - lia.
  - intros c' Hc'. apply (offsets_behind pre g post c' target Heq ltac:(lia) Ht).
Qed.

Lemma leading_at_end m target : maps m -> chars_len gs <= target ->
  exists m', GetLeadingColumnAt target m = Some (m', Z.of_nat (columns gs)) /\ maps m'.
Proof.
  intros (M1 & M2 & M3 & M4) Ht. unfold GetLeadingColumnAt. rewrite M1, M2. pose proof (chars_len_nonneg gs). assert (clamp target 0 (chars_len gs) = chars_len gs) as ->.
  { unfold clamp. destruct (Z.ltb_spec target 0); [lia|]. destruct (Z.ltb_spec (chars_len gs) target); lia. }
  destruct (search_forward_ok (chars_len gs) (Z.to_nat (map_currentColumn m)) ltac:(lia) ltac:(lia)) as (c & -> & Hc & o & Ho & Hm). cbn [mbind option_bind].
  assert (c = columns gs) as ->.
  { destruct (decide (c = columns gs)); [done|]. destruct (offsets_before gs [] c ltac:(by rewrite app_nil_r) ltac:(lia)) as (o' & Ho' & Hlt). assert (o' = o) as -> by congruence. lia. }
  rewrite (search_backward_ok (chars_len gs) (columns gs) (columns gs) (chars_len gs)); [|lia|by apply offsets_end|lia|intros; lia].
  eexists. split; [done|]. repeat (split; [done|]). cbn [map_currentColumn]. lia.
Qed.

Lemma last_trailer_forward rest col c : forward rest col = Some c -> last_trailer rest (Z.of_nat col - 1) = Some (Z.of_nat c - 1).
Proof.
  revert col. induction rest as [|o rest IH]; intros col Hf; [done|]. cbn [forward last_trailer] in *. destruct (is_trailer o); [|by injection Hf as ->].
  specialize (IH (S col) Hf). rewrite <- IH. f_equal. lia.
Qed.

Lemma trailing_inside m pre g post target : maps m -> gs = pre ++ g :: post -> chars_len pre <= target < chars_len pre + Z.of_nat (length (g_chars g)) ->
  exists m', GetTrailingColumnAt target m = Some (m', Z.of_nat (columns pre + g_width g) - 1) /\ maps m'.
Proof.
  intros Hm Heq Ht. destruct (leading_inside m pre g post target Hm Heq Ht) as (m' & E & Hm'). unfold GetTrailingColumnAt. rewrite E. cbn [mbind option_bind].
  destruct Hm' as (M1 & M2 & M3 & M4).
  assert (Hw : (1 <= g_width g)%nat) by (rewrite Heq in Hok; apply Forall_app in Hok as [_ Hok']; apply Forall_cons in Hok' as [[? _] _]; lia).
  assert (Hcol : columns gs = (columns pre + (g_width g + columns post))%nat) by (by rewrite Heq, columns_app, columns_cons).
  rewrite M1, M3. destruct (Z.ltb_spec (Z.of_nat (columns pre)) (Z.of_nat (columns gs))); [|lia].
  pose proof (last_trailer_forward _ _ _ (forward_glyph gs Hok Hlen pre g post 1 Heq ltac:(lia))) as Hl.
  replace (Z.to_nat (Z.of_nat (columns pre) + 1)) with (columns pre + 1)%nat by lia. replace (Z.of_nat (columns pre + 1) - 1) with (Z.of_nat (columns pre)) in Hl by lia.
  rewrite Hl. cbn [mbind option_bind]. by exists m'.
Qed.
End Mapper.

(** ** By column *)

Section Column.
Context (r : ROW) (gs pre : list glyph) (g : glyph) (post : list glyph) (i : nat).
Context (Hrow : row_ok r gs) (Heq : gs = pre ++ g :: post) (Hi : (i < g_width g)%nat).

Lemma columns_here : (columns gs = columns pre + (g_width g + columns post))%nat.
Proof. by rewrite Heq, columns_app, columns_cons. Qed.

Lemma clampedColumn_here : _clampedColumn (Z.of_nat (columns pre + i)) r = Z.of_nat (columns pre + i).
Proof.
  destruct Hrow as [Hc H1 _ _ _ _ Hn]. pose proof columns_here. unfold _clampedColumn, clamp. destruct (Z.ltb_spec (Z.of_nat (columns pre + i)) 0); [lia|].
  destruct (Z.ltb_spec (_columnCount r - 1) (Z.of_nat (columns pre + i))); [lia|]. rewrite u16_small; lia.
Qed.

Lemma charOffset_here : _uncheckedCharOffset (Z.of_nat (columns pre + i)) r = Some (chars_len pre).
Proof.
  pose proof Hrow as [Hc H1 Hok Ho Hlen _ Hn]. unfold _uncheckedCharOffset, offset_at. destruct (Z.ltb_spec (Z.of_nat (columns pre + i)) 0); [lia|].
  rewrite Ho, Nat2Z.id, (offsets_glyph gs Hok Hlen pre g post i Heq Hi). cbn [fmap option_fmap option_map].
  destruct (chars_len_split gs Hok Hlen pre _ Heq) as (Ha & _ & _). destruct (is_trailer_small _ Ha) as (_ & M1 & _ & M2). by destruct (i =? 0)%nat; rewrite ?M1, ?M2.
Qed.

Lemma GlyphAt_here : GlyphAt (Z.of_nat (columns pre + i)) r = Some (g_chars g).
Proof.
  pose proof Hrow as [Hc H1 Hok Ho Hlen [u Hu] Hn]. unfold GlyphAt. rewrite clampedColumn_here, charOffset_here. cbn [mbind option_bind]. unfold _adjustForward.
  destruct (Z.ltb_spec (Z.of_nat (columns pre + i) + 1) 0); [lia|]. replace (Z.to_nat (Z.of_nat (columns pre + i) + 1)) with (columns pre + (i + 1))%nat by lia.
  rewrite Ho, (forward_glyph gs Hok Hlen pre g post (i + 1) Heq ltac:(lia)). cbn [fmap option_fmap option_map mbind option_bind].
  unfold _uncheckedCharOffset, offset_at. destruct (Z.ltb_spec (Z.of_nat (columns pre + g_width g)) 0); [lia|]. rewrite Nat2Z.id, Ho.
  assert (Heq' : gs = (pre ++ [g]) ++ post) by (rewrite Heq, <- app_assoc; done).
  assert (columns (pre ++ [g]) = columns pre + g_width g)%nat as Hcc by (rewrite columns_app, columns_cons; change (columns []) with 0%nat; lia).
  rewrite <- Hcc, (offsets_boundary gs Hok Hlen _ _ Heq'). cbn [fmap option_fmap option_map mbind option_bind].
  destruct (chars_len_split gs Hok Hlen _ _ Heq') as (Ha & _ & _). destruct (is_trailer_small _ Ha) as (_ & -> & _). f_equal. unfold substring.
  rewrite chars_len_app, chars_len_cons. change (chars_len []) with 0. rewrite Hu, Heq, text_of_app, text_of_cons, <- !app_assoc. unfold chars_len at 3. rewrite Nat2Z.id, drop_app_length.
  apply take_app_length'. lia.
Qed.

Lemma DbcsAttrAt_here : DbcsAttrAt (Z.of_nat (columns pre + i)) r =
  Some (if (i =? 0)%nat then (if (g_width g =? 1)%nat then DbcsSingle else DbcsLeading) else DbcsTrailing).
Proof.
  pose proof Hrow as [Hc H1 Hok Ho Hlen _ Hn]. unfold DbcsAttrAt. rewrite clampedColumn_here. unfold _uncheckedIsTrailer, offset_at.
  destruct (Z.ltb_spec (Z.of_nat (columns pre + i)) 0); [lia|]. destruct (Z.ltb_spec (Z.of_nat (columns pre + i) + 1) 0); [lia|].
  rewrite Ho, Nat2Z.id, (offsets_glyph gs Hok Hlen pre g post i Heq Hi). cbn [fmap option_fmap option_map].
  destruct (chars_len_split gs Hok Hlen pre _ Heq) as (Ha & _ & _). destruct (is_trailer_small _ Ha) as (T1 & _ & T2 & _).
  destruct (Nat.eqb_spec i 0) as [E|E]; rewrite ?T1, ?T2; cbn [mbind option_bind]; [|done].
  replace (Z.to_nat (Z.of_nat (columns pre + i) + 1)) with (columns pre + 1)%nat by lia.
  destruct (Nat.eqb_spec (g_width g) 1) as [Hw|Hw].
  - assert (Heq' : gs = (pre ++ [g]) ++ post) by (rewrite Heq, <- app_assoc; done).
    assert (columns (pre ++ [g]) = columns pre + 1)%nat as Hcc by (rewrite columns_app, columns_cons; change (columns []) with 0%nat; lia).
    rewrite <- Hcc, (offsets_boundary gs Hok Hlen _ _ Heq'). cbn [fmap option_fmap option_map mbind option_bind].
    destruct (chars_len_split gs Hok Hlen _ _ Heq') as (Hb & _ & _). destruct (is_trailer_small _ Hb) as (-> & _). done.
  - rewrite (offsets_glyph gs Hok Hlen pre g post 1 Heq ltac:(lia)). cbn [fmap option_fmap option_map mbind option_bind Nat.eqb]. by rewrite T2.
Qed.

Lemma AdjustToGlyphStart_here : AdjustToGlyphStart (Z.of_nat (columns pre + i)) r = Some (Z.of_nat (columns pre)).
Proof.
  pose proof Hrow as [_ _ Hok Ho Hlen _ _]. unfold AdjustToGlyphStart, _adjustBackward. rewrite clampedColumn_here. destruct (Z.ltb_spec (Z.of_nat (columns pre + i)) 0); [lia|].
  by rewrite Nat2Z.id, Ho, (backward_glyph gs Hok Hlen pre g post i Heq Hi).
Qed.

Lemma NavigateToNext_here : NavigateToNext (Z.of_nat (columns pre + i)) r = Some (Z.of_nat (columns pre + g_width g)).
Proof.
  pose proof Hrow as [Hc _ Hok Ho Hlen _ _]. pose proof columns_here. unfold NavigateToNext, _adjustForward.
  destruct (clampedInclusive_ok r gs (Z.of_nat (columns pre + i) + 1) Hrow) as [_ ->]; [|lia]. destruct (Z.ltb_spec (Z.of_nat (columns pre + i) + 1) 0); [lia|].
  replace (Z.to_nat (Z.of_nat (columns pre + i) + 1)) with (columns pre + (i + 1))%nat by lia.
  by rewrite Ho, (forward_glyph gs Hok Hlen pre g post (i + 1) Heq ltac:(lia)).
Qed.
End Column.

Lemma createMapper_maps (r : ROW) gs offset : row_ok r gs -> exists m, _createCharToColumnMapper offset r = Some m /\ maps gs m.
Proof.
  intros [Hc H1 Hok Ho Hlen _ Hn]. unfold _createCharToColumnMapper, _charSize, offset_at. destruct (Z.ltb_spec (_columnCount r) 0); [lia|].
  rewrite Ho. replace (Z.to_nat (_columnCount r)) with (columns gs) by lia. rewrite offsets_end by done. cbn [mbind option_bind]. eexists. split; [done|].
  split; [done|]. split; [done|]. split; [cbn; lia|]. cbn [map_currentColumn]. unfold clamp. destruct (Z.ltb_spec offset 0); [lia|]. destruct (Z.ltb_spec (_columnCount r) offset); lia.
Qed.

(** C34: Every query that takes a column of a glyph, the leading or the trailing one,
    answers for the glyph: its characters, its half, its first column and the column
    of the next glyph. In return, every offset of one of its characters is mapped to
    its first and its last column; the searches of the mapper stay within the row
    wherever they start. *)
Theorem row_queries_see_glyphs (r : ROW) (gs pre : list glyph) (g : glyph) (post : list glyph) (i : nat) : row_ok r gs -> gs = pre ++ g :: post -> (i < g_width g)%nat ->
  let col := Z.of_nat (columns pre + i) in
  GlyphAt col r = Some (g_chars g) /\
  DbcsAttrAt col r = Some (if (i =? 0)%nat then (if (g_width g =? 1)%nat then DbcsSingle else DbcsLeading) else DbcsTrailing) /\
  AdjustToGlyphStart col r = Some (Z.of_nat (columns pre)) /\ NavigateToNext col r = Some (Z.of_nat (columns pre + g_width g)) /\
  forall k, (k < length (g_chars g))%nat ->
    GetLeadingColumnAtCharOffset (chars_len pre + Z.of_nat k) r = Some (Z.of_nat (columns pre)) /\
    GetTrailingColumnAtCharOffset (chars_len pre + Z.of_nat k) r = Some (Z.of_nat (columns pre + g_width g) - 1).
Proof.
  intros Hrow Heq Hi col. split; [by eapply GlyphAt_here|]. split; [by eapply DbcsAttrAt_here|]. split; [by eapply AdjustToGlyphStart_here|].
  split; [by eapply NavigateToNext_here|]. intros k Hk. pose proof Hrow as [_ _ Hok _ Hlen _ _].
  destruct (createMapper_maps r gs (chars_len pre + Z.of_nat k) Hrow) as (m & Em & Hm). unfold GetLeadingColumnAtCharOffset, GetTrailingColumnAtCharOffset. rewrite Em. cbn [mbind option_bind].
  destruct (leading_inside gs Hok Hlen m pre g post (chars_len pre + Z.of_nat k) Hm Heq ltac:(lia)) as (m1 & -> & _).
  destruct (trailing_inside gs Hok Hlen m pre g post (chars_len pre + Z.of_nat k) Hm Heq ltac:(lia)) as (m2 & -> & _). done.
Qed.

(** The columns of [a], a wide ideograph and a letter with a mark. *)
Definition sample_glyphs : list glyph := [mkGlyph [0x61] 1; mkGlyph [0x6F22] 2; mkGlyph [0x65; 0x301] 1].
Definition sample_row : ROW :=
  mkRow 16 16 [0x61; 0x6F22; 0x65; 0x301; 0x20] [0; 1; 0x8001; 2; 4] (rle_fill 4 TextAttribute.default) 4 LineRendition.SingleWidth false false None None.

Lemma sample_row_ok : row_ok sample_row sample_glyphs.
Proof.
  constructor; try (vm_compute; (reflexivity || discriminate)).
  - repeat (constructor; [split; [simpl; lia|discriminate]|]). constructor.
  - exists [0x20]. reflexivity.
Qed.

Lemma row_queries_see_glyphs_witness :
  GlyphAt 2 sample_row = Some [0x6F22] /\ DbcsAttrAt 2 sample_row = Some DbcsTrailing /\
  AdjustToGlyphStart 2 sample_row = Some 1 /\ NavigateToNext 2 sample_row = Some 3 /\
  GetLeadingColumnAtCharOffset 1 sample_row = Some 1 /\ GetTrailingColumnAtCharOffset 1 sample_row = Some 2.
Proof.
  pose proof (row_queries_see_glyphs sample_row sample_glyphs [mkGlyph [0x61] 1] (mkGlyph [0x6F22] 2) [mkGlyph [0x65; 0x301] 1] 1 sample_row_ok eq_refl ltac:(simpl; lia)) as (H1 & H2 & H3 & H4 & H5).
  destruct (H5 0%nat ltac:(simpl; lia)) as [H6 H7]. exact (conj H1 (conj H2 (conj H3 (conj H4 (conj H6 H7))))).
Defined.
