(* ===== verification/RowCopy.v ===== *)
(** * Copying between rows: [CopyTextFrom] and [CopyFrom]

    What a row holds after text was copied into it from another one. *)

From stdpp Require Import list.
From S2P Require Import Prelude Til Utils TermDispatch TextAttributes Rle RleProps CodepointWidth CodepointWidthProps Row RowWrite RowProps RowWriteProps RowText RowTextProps.

(** ** Offsets *)

Lemma land_trailer o : 0 <= o < 0x8000 -> Z.land o CharOffsetsTrailer = 0 /\ Z.land (o + CharOffsetsTrailer) CharOffsetsTrailer = CharOffsetsTrailer.
Proof.
  intros Ho. destruct (is_trailer_small o Ho) as (H1 & _ & H2 & _). unfold is_trailer, WI_IsFlagSet in *.
  apply negb_false_iff, Z.eqb_eq in H1. split; [done|].
  rewrite <- lor_trailer by done. rewrite Z.land_lor_distr_l, H1, Z.lor_0_l. apply Z.land_diag.
Qed.

Lemma copyOffsets_cells off delta gs : 0 <= off -> 0 <= off + delta -> off + chars_len gs < 0x8000 -> off + delta + chars_len gs < 0x8000 ->
  _copyOffsets (cells off gs) (u16 delta) = cells (off + delta) gs.
Proof.
  assert (Hu : forall o, 0 <= o -> 0 <= o + delta < 0x8000 -> u16 (o + u16 delta) = o + delta) by (intros; unfold u16; div_lia).
  unfold _copyOffsets. revert off. induction gs as [|g gs IH]; intros off Ho Hd Hl Hl'; [done|]. cbn [cells]. rewrite chars_len_cons in *. pose proof (chars_len_nonneg gs).
  destruct (is_trailer_small off ltac:(lia)) as (_ & M1 & _ & M2). destruct (land_trailer off ltac:(lia)) as [L1 L2]. unfold masked in *.
  rewrite map_app. f_equal; [|rewrite IH by lia; f_equal; lia].
  unfold glyph_cells. cbn [map]. rewrite M1, L1, Z.lor_0_r, Hu by lia. f_equal.
  rewrite fmap_replicate, M2, L2, Hu, lor_trailer by lia. done.
Qed.

Lemma backward_intro (O : list Z) k j o : (k <= j)%nat -> O !! k = Some o -> is_trailer o = false ->
  (forall c, (k < c <= j)%nat -> exists o', O !! c = Some o' /\ is_trailer o' = true) -> backward O j = Some k.
Proof.
  intros Hk Ho Ht. induction j as [|j IH]; intros Hc; cbn [backward].
  - assert (k = 0)%nat as -> by lia. by rewrite Ho, Ht.
  - destruct (decide (k = S j)) as [->|Hne]; [by rewrite Ho, Ht|]. destruct (Hc (S j) ltac:(lia)) as (o' & -> & ->). apply IH; [lia|]. intros c Hc'. apply Hc. lia.
Qed.

Section Copy.
Context {D : Type} `{MeasurementLaws D}.
Variable avx2 : bool.
Variable uninitialised : nat -> Z.
Variable allocated : Z.

Lemma write_offsets_seg d cs (h : WriteHelper D) vs : forall A B C col, col = Z.of_nat (length A) -> length B = length vs ->
  write_offsets col vs (put d cs (A ++ B ++ C) h) = (put d cs (A ++ vs ++ C) h, Returned tt).
Proof.
  induction vs as [|v vs IH]; intros A B C col Hc HB; [by destruct B|]. destruct B as [|b B]; [done|]. cbn [write_offsets app].
  unfold mbind, comp_bind. rewrite (write_offset_seg d cs h A b (B ++ C) col v Hc).
  specialize (IH (A ++ [v]) B C (col + 1) ltac:(rewrite length_app; simpl; lia) ltac:(by injection HB)). rewrite <- !app_assoc in IH. exact IH.
Qed.

(** ** The glyphs of the source *)

(** The source from a boundary [a ++ b] up to the column [sl], and the [m] columns
    of it that are copied. *)
Section Input.
Context (src : ROW) (sgs a b : list glyph) (sl m : nat).
Context (Hsrc : row_ok src sgs) (Hab : sgs = a ++ b) (Hsl : (columns a < sl <= columns sgs)%nat) (Hm : (m <= sl - columns a)%nat).
Local Abbreviation input := (take (sl - columns a + 1) (drop (columns a) (_charOffsets src))).
Local Abbreviation new := (before_col b m).

Lemma input_length : length input = (sl - columns a + 1)%nat.
Proof. pose proof Hsrc as [_ _ Hok Ho _ _ _]. rewrite length_take, length_drop, Ho, length_offsets by done. lia. Qed.

Lemma input_at c : (c <= sl - columns a)%nat -> input !! c = _charOffsets src !! (columns a + c)%nat.
Proof. intros Hc. rewrite lookup_take_lt by lia. apply lookup_drop. Qed.

Lemma new_split : exists rest j, b = new ++ rest /\ m = (columns new + j)%nat /\ cut_at rest j.
Proof.
  pose proof Hsrc as [_ _ Hok _ _ _ _]. assert (Hokb : Forall glyph_ok b) by (rewrite Hab in Hok; by apply Forall_app in Hok as [_ ?]).
  assert (Hcb : columns sgs = (columns a + columns b)%nat) by (by rewrite Hab, columns_app).
  destruct (cut b m Hokb ltac:(lia)) as (pre & post & i & Heq & Hi & Hcut).
  assert (before_col b m = pre) as -> by (rewrite Heq, Hi; apply before_col_app; [by rewrite <- Heq|done]). by exists post, i.
Qed.

Lemma new_glyphs_ok : Forall glyph_ok new /\ (columns new <= m)%nat.
Proof.
  destruct new_split as (rest & j & Hb & Hj & _). split; [|lia]. pose proof Hsrc as [_ _ Hok _ _ _ _]. rewrite Hab, Hb in Hok.
  apply Forall_app in Hok as [_ Hok]. by apply Forall_app in Hok as [? _].
Qed.

Lemma input_backward : backward input m = Some (columns new) /\ input !! columns new = Some (chars_len a + chars_len new) /\ input !! 0%nat = Some (chars_len a).
Proof.
  pose proof Hsrc as [_ _ Hok Ho Hlen _ _]. destruct new_split as (rest & j & Hb & Hj & Hcut).
  assert (Heq : sgs = (a ++ new) ++ rest) by (by rewrite <- app_assoc, <- Hb).
  assert (H1 : input !! columns new = Some (chars_len a + chars_len new)).
  { rewrite input_at, Ho, <- columns_app, <- chars_len_app by lia. by apply (offsets_boundary sgs Hok Hlen (a ++ new) rest). }
  destruct (chars_len_split sgs Hok Hlen _ _ Heq) as (Hc & _ & _). rewrite chars_len_app in Hc. destruct (is_trailer_small _ Hc) as (T1 & _).
  split; [|split; [done|]].
  - eapply backward_intro; [lia|exact H1|exact T1|]. intros c Hcc. destruct Hcut as [->|(g & rest' & -> & Hg)]; [lia|].
    rewrite input_at, Ho by lia. replace (columns a + c)%nat with (columns (a ++ new) + (c - columns new))%nat by (rewrite columns_app; lia).
    rewrite (offsets_glyph sgs Hok Hlen (a ++ new) g rest' (c - columns new) Heq) by lia. eexists. split; [done|].
    destruct (Nat.eqb_spec (c - columns new) 0); [lia|]. rewrite chars_len_app. by destruct (is_trailer_small _ Hc) as (_ & _ & ? & _).
  - rewrite input_at, Nat.add_0_r, Ho by lia. by apply (offsets_boundary sgs Hok Hlen a b).
Qed.

Lemma input_take : take (columns new) input = cells (chars_len a) new.
Proof.
  pose proof Hsrc as [_ _ Hok Ho Hlen _ _]. destruct new_split as (rest & j & Hb & Hj & _). rewrite take_take, Nat.min_l, Ho by lia.
  assert (cells (chars_len a) b = cells (chars_len a) new ++ cells (chars_len a + chars_len new) rest) as E by (rewrite <- cells_app; by rewrite <- Hb).
  rewrite (drop_offsets sgs Hok Hlen a b Hab), E, <- app_assoc. apply take_app_length'. symmetry. apply length_cells. apply new_glyphs_ok.
Qed.

(** The characters between the first and the last offset: those of the glyphs up
    to the limit. *)
Lemma input_text : exists front back, head input = Some front /\ last input = Some back /\ masked front = chars_len a /\
  substring (masked front) (masked back) src = text_of (before_col b (sl - columns a)) /\ masked back - masked front = chars_len (before_col b (sl - columns a)).
Proof.
  pose proof Hsrc as [_ _ Hok Ho Hlen [u Hu] _]. pose proof input_length as Hl. assert (Hcb : columns sgs = (columns a + columns b)%nat) by (by rewrite Hab, columns_app).
  destruct (chars_len_split sgs Hok Hlen a b Hab) as (Ha & Hb & Hs).
  assert (Hfront : input !! 0%nat = Some (chars_len a)) by apply input_backward.
  assert (Hokb : Forall glyph_ok b) by (rewrite Hab in Hok; by apply Forall_app in Hok as [_ ?]).
  destruct (cut b (sl - columns a) Hokb ltac:(lia)) as (pre & post & i & Heq & Hi & Hcut).
  assert (before_col b (sl - columns a) = pre) as Hpre by (rewrite Heq, Hi; apply before_col_app; [by rewrite <- Heq|done]). rewrite Hpre.
  assert (Heq' : sgs = (a ++ pre) ++ post) by (by rewrite <- app_assoc, <- Heq). destruct (chars_len_split sgs Hok Hlen _ _ Heq') as (Hap & Hpost & _).
  assert (exists o, _charOffsets src !! sl = Some o /\ masked o = chars_len (a ++ pre)) as (o & Hback & Hmo).
  { rewrite Ho. destruct (is_trailer_small _ Hap) as (_ & M1 & _ & M2). replace sl with (columns (a ++ pre) + i)%nat by (rewrite columns_app; lia).
    destruct Hcut as [->|(g & post' & -> & Hg)].
    - rewrite Nat.add_0_r, (offsets_boundary sgs Hok Hlen _ _ Heq'). by eexists.
    - rewrite (offsets_glyph sgs Hok Hlen _ g post' i Heq' Hg). destruct (i =? 0)%nat; eexists; split; done. }
  exists (chars_len a), o. destruct (is_trailer_small _ Ha) as (_ & Mf & _).
  split; [by rewrite head_lookup|]. split; [rewrite last_lookup, Hl; replace (pred (sl - columns a + 1)) with (sl - columns a)%nat by lia; rewrite input_at by lia; by replace (columns a + (sl - columns a))%nat with sl by lia|].
  split; [done|]. rewrite Mf, Hmo, chars_len_app. split; [|lia]. unfold substring. rewrite Hu, Heq', !text_of_app, <- !app_assoc.
  unfold chars_len at 4. rewrite Nat2Z.id, drop_app_length. apply take_app_length'. unfold chars_len. lia.
Qed.

(** ** The copy *)

Context (r : ROW) (gs pre post : list glyph) (i : nat) (d : D) (t : wstring_view) (lim : nat).
Context (Hrow : row_ok r gs) (Heq : gs = pre ++ post) (Hcut : cut_at post i) (Hlim : (columns pre + i < lim <= columns gs)%nat).
Context (Hmin : m = Nat.min (lim - (columns pre + i)) (sl - columns a)) (Ht : text t = text_of (before_col b (sl - columns a))).
Context (Hb : chars_len gs + view_size t + _columnCount r < 0x8000).
Local Abbreviation col := (columns pre + i)%nat.

Lemma new_prefix : text_of new `prefix_of` text t.
Proof.
  destruct new_split as (rest & j & Hbn & Hj & Hcutn). rewrite Ht.
  pose proof Hsrc as [_ _ Hok _ _ _ _]. assert (Hokb : Forall glyph_ok b) by (rewrite Hab in Hok; by apply Forall_app in Hok as [_ ?]).
  assert (Hcb : columns sgs = (columns a + columns b)%nat) by (by rewrite Hab, columns_app).
  destruct (cut b (sl - columns a) Hokb ltac:(lia)) as (p & q & k & Hbp & Hk & Hcutp).
  assert (before_col b (sl - columns a) = p) as -> by (rewrite Hbp, Hk; apply before_col_app; [by rewrite <- Hbp|done]).
  assert (columns new <= columns p)%nat.
  { destruct (decide (columns new <= columns p)%nat) as [|Hn]; [done|exfalso]. destruct Hcutp as [->|(g & q' & -> & Hg)]; [lia|].
    assert (p `prefix_of` new) as [x Hx] by (apply (prefix_columns b p (g :: q') new rest Hokb Hbp Hbn); lia).
    destruct x as [|y x]; [rewrite Hx, app_nil_r in Hn; lia|]. rewrite Hx, Hbp in Hbn. rewrite <- app_assoc in Hbn. apply app_inv_head in Hbn. injection Hbn as -> _.
    rewrite Hx, columns_app, columns_cons in Hj. lia. }
  destruct (prefix_columns b new rest p q Hokb Hbn Hbp ltac:(done)) as [x ->]. rewrite text_of_app. by eexists.
Qed.

Lemma helper_CopyTextFrom_ok : exists h', helper_CopyTextFrom input (start_helper r d t pre i (Z.of_nat lim)) = (h', Returned tt) /\
  exists h'', Finish uninitialised allocated h' = (h'', Returned tt) /\
  finished_as h' h'' r (overwrite gs col new (col + m)) (columns gs - columns (after_col gs (col + m))) /\
  cwd h' = d /\ colEnd h' = Z.of_nat (col + columns new) /\ charsConsumed h' = chars_len new /\ colBegDirty h' = Z.of_nat (columns pre) /\
  colLimit h' = Z.of_nat lim /\ colBeg h' = Z.of_nat col.
Proof.
  pose proof Hrow as [Hcc H1 Hok Ho Hlen Hpre Hn]. pose proof Hsrc as [Hscc _ Hsok Hso Hslen _ Hsn]. pose proof input_length as Hil. pose proof (length_offsets gs Hok) as HlO.
  destruct input_backward as (Hback & Hend & Hbase). destruct new_glyphs_ok as [Hnok Hncol]. destruct new_prefix as [u Hu].
  destruct (chars_len_split gs Hok Hlen pre post Heq) as (Hp & Hpost & Hpp). destruct (chars_len_split sgs Hsok Hslen a b Hab) as (Ha & _ & Hsl2).
  assert (Hi : (i < 2)%nat). { destruct Hcut as [->|(g & q & -> & Hg)]; [lia|]. rewrite Heq in Hok. apply Forall_app in Hok as [_ Hok']. apply Forall_cons in Hok' as [[? _] _]. lia. }
  assert (Hln : chars_len new <= view_size t) by (unfold chars_len, view_size; rewrite Hu, length_app; lia).
  assert (Hns : chars_len a + chars_len new < 0x8000).
  { destruct new_split as (rest & j & Hbn & _). rewrite Hab, Hbn, !chars_len_app in Hslen. pose proof (chars_len_nonneg rest). lia. }
  set (h := start_helper r d t pre i (Z.of_nat lim)). set (O := cells 0 gs ++ [chars_len gs]) in *.
  unfold helper_CopyTextFrom. unfold mbind at 1, comp_bind at 1, gets. cbn [id]. change (colLimit h) with (Z.of_nat lim). change (colBeg h) with (Z.of_nat col).
  rewrite Hil. destruct (Z.ltb_spec 0xFFFF (Z.of_nat (sl - columns a + 1) - 1)); [lia|].
  assert (Z.min (u16 (Z.of_nat lim - Z.of_nat col)) (Z.of_nat (sl - columns a + 1) - 1) = Z.of_nat m) as -> by (rewrite u16_small by lia; lia).
  rewrite Nat2Z.id, Hback, Hbase, Hend, input_take. change (chBeg h) with (chars_len pre + Z.of_nat i). change (colEnd h) with (Z.of_nat col).
  rewrite copyOffsets_cells by lia. replace (chars_len a + (chars_len pre + Z.of_nat i - chars_len a)) with (chars_len pre + Z.of_nat i) by lia.
  destruct (split3 O col (columns new) ltac:(lia)) as (HO & HlA & HlB). set (A := take col O) in *. set (B := take (columns new) (drop col O)) in *. set (R := drop (col + columns new) O) in *.
  assert (Hput : h = put (_data r) (_chars r) (A ++ B ++ R) h) by (rewrite <- HO, <- Ho; symmetry; apply (put_row h)).
  pose proof (write_offsets_seg (_data r) (_chars r) h (cells (chars_len pre + Z.of_nat i) new) A B R (Z.of_nat col) ltac:(lia) ltac:(rewrite length_cells by done; lia)) as Hw.
  rewrite <- Hput in Hw. unfold mbind, comp_bind. rewrite Hw.
  unfold modify. set (h1 := put _ _ _ h). eexists. split; [done|]. change (colEnd h1) with (Z.of_nat col). change (colBeg h1) with (Z.of_nat col).
  rewrite !u16_small by lia. set (h2 := set_dirty _ _ _).
  destruct (finish_write uninitialised allocated r gs h2 pre post i new (col + m)%nat R) as (h'' & Hf & Hfin); try done; try lia.
  - fold O. unfold R. rewrite length_drop. lia.
  - fold O. unfold R. rewrite drop_drop. f_equal. lia.
  - cbn. lia.
  - cbn. lia.
  - cbn. lia.
  - cbn. by exists u.
  - exists h''. split; [done|]. split; [done|]. cbn. repeat split; lia.
Qed.
End Input.

(** The start of a helper, as the lemmas above have it. *)
Lemma new_helper_start (r : ROW) (d : D) gs columnBegin columnLimit t : row_ok r gs ->
  exists pre post i, gs = pre ++ post /\ cut_at post i /\ _clampedColumnInclusive columnBegin r = Z.of_nat (columns pre + i) /\
    new_WriteHelper r d columnBegin columnLimit t = Some (start_helper r d t pre i (_clampedColumnInclusive columnLimit r)).
Proof.
  intros Hrow. destruct (new_WriteHelper_ok r d gs columnBegin columnLimit t Hrow) as (pre & post & i & Heq & Hci & Hcut & Hnew).
  exists pre, post, i. split; [done|]. split; [done|]. split; [done|]. rewrite Hnew, Hci. done.
Qed.

(** A copy from a column where a glyph starts. *)
Lemma CopyTextFrom_ok (src : ROW) sgs a b (r : ROW) gs (d : D) (s : RowCopyTextFromState) : row_ok src sgs -> sgs = a ++ b -> row_ok r gs ->
  let sl := Z.to_nat (_clampedColumnInclusive (cs_sourceColumnLimit s) src) in
  let col := Z.to_nat (_clampedColumnInclusive (cs_columnBegin s) r) in
  let lim := Z.to_nat (_clampedColumnInclusive (cs_columnLimit s) r) in
  let m := Nat.min (lim - col) (sl - columns a) in
  let new := before_col b m in
  _clampedColumnInclusive (cs_sourceColumnBegin s) src = Z.of_nat (columns a) -> (columns a < sl)%nat -> (col < lim)%nat -> before_col b (sl - columns a) <> [] ->
  chars_len gs + chars_len sgs + _columnCount r < 0x8000 ->
  exists r' s', CopyTextFrom avx2 uninitialised allocated src false s r d = (r', d, Returned s') /\ kept r r' /\ row_ok r' (overwrite gs col new (col + m)) /\
    cs_columnEnd s' = Z.of_nat (if decide (text_of new = text_of (before_col b (sl - columns a))) then col + columns new else lim) /\
    cs_sourceColumnEnd s' = Z.of_nat (columns a + columns new).
Proof.
  intros Hsrc Hab Hrow sl col lim m new Hbeg Hsl Hlt Hne Hb. pose proof Hrow as [Hcc _ Hok _ _ _ _]. pose proof Hsrc as [Hscc _ Hsok Hso Hslen _ _].
  destruct (clampedInclusive_ok src sgs (cs_sourceColumnLimit s) Hsrc) as [Hb1 _]. destruct (clampedInclusive_ok r gs (cs_columnLimit s) Hrow) as [Hb2 _].
  assert (Hm : (m <= sl - columns a)%nat) by (unfold m; lia). assert (Hsl' : (columns a < sl <= columns sgs)%nat) by lia.
  destruct (input_text src sgs a b sl m Hsrc Hab Hsl' Hm) as (front & back & Hh & Hl & Hf & Htext & Hlen).
  unfold CopyTextFrom, copied_input. rewrite Hbeg. replace (_clampedColumnInclusive (cs_sourceColumnLimit s) src) with (Z.of_nat sl) by lia.
  destruct (Z.ltb_spec (Z.of_nat (columns a)) (Z.of_nat sl)); [|lia]. rewrite Nat2Z.id. replace (Z.to_nat (Z.of_nat sl - Z.of_nat (columns a) + 1)) with (sl - columns a + 1)%nat by lia.
  set (input := take _ _) in *. rewrite Hh, Hl. cbn [mbind option_bind]. set (t := mkView _ _).
  assert (Ht : text t = text_of (before_col b (sl - columns a))) by exact Htext.
  assert (Htl : chars_len gs + view_size t + _columnCount r < 0x8000).
  { unfold view_size. rewrite Ht. fold (chars_len (before_col b (sl - columns a))). destruct (new_split src sgs a b sl (sl - columns a) Hsrc Hab Hsl' ltac:(lia)) as (rest & j & Hbn & _).
    rewrite Hab, Hbn in Hb. rewrite !chars_len_app in Hb. pose proof (chars_len_nonneg rest). pose proof (chars_len_nonneg a). lia. }
  destruct (new_helper_start r d gs (cs_columnBegin s) (cs_columnLimit s) t Hrow) as (pre & post & i & Heq & Hcut & Hci & ->).
  assert (Hcol : col = (columns pre + i)%nat) by (unfold col; lia). replace (_clampedColumnInclusive (cs_columnLimit s) r) with (Z.of_nat lim) by (unfold lim; lia).
  set (h := start_helper r d t pre i (Z.of_nat lim)).
  assert (Hvalid : IsValid h = true).
  { apply IsValid_ok. cbn [colBeg colLimit chars h start_helper]. rewrite Ht. split; [change (colBeg h) with (Z.of_nat (columns pre + i)); change (colLimit h) with (Z.of_nat lim); lia|].
    destruct (new_glyphs_ok src sgs a b sl (sl - columns a) Hsrc Hab Hsl' ltac:(lia)) as [Hnok _]. destruct (before_col b (sl - columns a)) as [|g l]; [done|].
    apply Forall_cons in Hnok as [[_ Hg] _]. rewrite text_of_cons. by destruct (g_chars g). }
  assert (Hfirst : input !! 0%nat = Some (chars_len a)) by (apply (input_backward src sgs a b sl m Hsrc Hab Hsl' Hm)).
  pose proof (input_length src sgs a sl m Hsrc Hsl' Hm) as Hil. fold input in Hil.
  assert (Hguard : (negb (IsValid h) || false || (length input <? 2)%nat || match input with o :: _ => is_trailer o | [] => false end) = false).
  { rewrite Hvalid. destruct (chars_len_split sgs Hsok Hslen a b Hab) as (Ha & _ & _). destruct (is_trailer_small _ Ha) as (Htr & _).
    destruct (Nat.ltb_spec (length input) 2); [lia|]. destruct input as [|o rest]; [done|]. simpl in Hfirst. injection Hfirst as ->. by rewrite Htr. }
  rewrite Hguard. destruct (helper_CopyTextFrom_ok src sgs a b sl m Hsrc Hab Hsl' Hm r gs pre post i d t lim Hrow Heq Hcut ltac:(lia) ltac:(unfold m; rewrite Hcol; done) Ht Htl)
    as (h' & Hh' & h'' & Hfin & [Gr Gk _ Gf] & F1 & F2 & F3 & F4 & F5 & F6). fold input h in Hh'.
  destruct (new_prefix src sgs a b sl m Hsrc Hab Hsl' Hm gs pre i t lim ltac:(lia) ltac:(unfold m; rewrite Hcol; done) Ht) as [u Hu]. fold new in Hu. rewrite Ht in Hu.
  unfold with_helper, mbind, comp_bind. rewrite Hh', Hfin. unfold gets. destruct Gf as (G1 & G2 & G3 & G4 & G5 & G6 & G7 & G8).
  exists (row h''). eexists. rewrite G1, F1. split; [done|]. split; [done|]. rewrite <- Hcol in *. split; [done|]. cbn [cs_columnEnd cs_sourceColumnEnd].
  rewrite G3, G4, G5, G7, F2, F3, F5, F6. split; [|unfold new; lia]. unfold view_size. rewrite Ht. unfold chars_len. fold new.
  destruct (Z.eqb_spec (Z.of_nat (length (text_of new))) (Z.of_nat (length (text_of (before_col b (sl - columns a)))))) as [E|E].
  - rewrite decide_True; [done|]. rewrite Hu, length_app in E. destruct u; [by rewrite app_nil_r in Hu|simpl in E; lia].
  - rewrite decide_False; [done|]. congruence.
Qed.

(** Wherever the copy starts, also on the second half of a glyph, in an empty range
    or from the row itself, where nothing is copied. *)
Lemma CopyTextFrom_anywhere (src : ROW) sgs (aliased : bool) (r : ROW) gs (d : D) (s : RowCopyTextFromState) : row_ok src sgs -> row_ok r gs ->
  chars_len gs + chars_len sgs + _columnCount r < 0x8000 ->
  exists r' s' gs', CopyTextFrom avx2 uninitialised allocated src aliased s r d = (r', d, Returned s') /\ kept r r' /\ row_ok r' gs'.
Proof.
  intros Hsrc Hrow Hb. pose proof Hsrc as [Hscc _ Hsok Hso Hslen _ _].
  assert (Hkr : kept r r) by (unfold kept; by destruct r).
  destruct (clampedInclusive_ok src sgs (cs_sourceColumnBegin s) Hsrc) as [Hb0 _]. destruct (clampedInclusive_ok src sgs (cs_sourceColumnLimit s) Hsrc) as [Hb1 _].
  destruct (cut sgs (Z.to_nat (_clampedColumnInclusive (cs_sourceColumnBegin s) src)) Hsok ltac:(lia)) as (a & b & i & Hab & Hi & Hcut).
  pose proof (length_offsets sgs Hsok) as HlO. set (sl := Z.to_nat (_clampedColumnInclusive (cs_sourceColumnLimit s) src)).
  pose proof (CopyTextFrom_ok src sgs a b r gs d s Hsrc Hab Hrow) as Hcopy. unfold CopyTextFrom in *.
  destruct (copied_input src s) as [[offsets t]|] eqn:Ein.
  2:{ exfalso. unfold copied_input in Ein. destruct (Z.ltb_spec (_clampedColumnInclusive (cs_sourceColumnBegin s) src) (_clampedColumnInclusive (cs_sourceColumnLimit s) src)); [|done].
      set (input := take _ _) in Ein. assert (length input <> 0%nat) as Hn by (unfold input; rewrite length_take, length_drop, Hso, HlO; lia).
      destruct (head input) eqn:Eh; [|by destruct input]. destruct (last input) eqn:El; [done|]. by apply last_None in El as ->. }
  destruct (new_helper_start r d gs (cs_columnBegin s) (cs_columnLimit s) t Hrow) as (pre & post & j & _ & _ & Hci & Hnew). rewrite Hnew in *.
  set (h := start_helper r d t pre j _) in *.
  destruct (negb (IsValid h) || aliased || (length offsets <? 2)%nat || match offsets with o :: _ => is_trailer o | [] => false end) eqn:Eg; [by eexists r, _, gs|].
  pose proof Eg as Eg0. apply orb_false_iff in Eg as [Eg Etr]. apply orb_false_iff in Eg as [Eg El]. apply orb_false_iff in Eg as [Ev ->]. apply negb_false_iff in Ev. pose proof Ev as Ev'. apply IsValid_ok in Ev'.
  destruct Ev' as [Hlt Hne]. change (colBeg h) with (Z.of_nat (columns pre + j)) in Hlt. change (colLimit h) with (_clampedColumnInclusive (cs_columnLimit s) r) in Hlt. change (chars h) with t in Hne.
  unfold copied_input in Ein. destruct (Z.ltb_spec (_clampedColumnInclusive (cs_sourceColumnBegin s) src) (_clampedColumnInclusive (cs_sourceColumnLimit s) src)) as [Hsl|]; [|by injection Ein as <- <-].
  rewrite Hi in Ein. set (input := take _ _) in Ein. destruct (head input) as [front|] eqn:Eh; [|done]. destruct (last input) as [back|] eqn:Elast; [|done]. cbn [mbind option_bind] in Ein. injection Ein as <- <-.
  assert (input !! 0%nat = _charOffsets src !! (columns a + i)%nat) as Hfirst by (unfold input; rewrite lookup_take_lt, lookup_drop, Nat.add_0_r by lia; done).
  destruct (chars_len_split sgs Hsok Hslen a b Hab) as (Ha & _ & _). destruct (is_trailer_small _ Ha) as (_ & _ & Htr & _).
  assert (i = 0%nat) as ->.
  { destruct Hcut as [->|(g & rest & -> & Hg)]; [done|]. rewrite Hso, (offsets_glyph sgs Hsok Hslen a g rest i Hab Hg) in Hfirst. destruct (Nat.eqb_spec i 0); [done|].
    destruct input as [|o rest']; [done|]. simpl in Hfirst. injection Hfirst as ->. congruence. }
  rewrite Nat.add_0_r in Hi. fold sl in Hcopy. specialize (Hcopy ltac:(lia) ltac:(lia) ltac:(lia)).
  destruct Hcopy as (r' & s' & E & Hk & Hr & _); [|done|rewrite Eg0 in E; by eexists r', s', _].
  intros He. destruct (input_text src sgs a b sl 0 Hsrc Hab ltac:(lia) ltac:(lia)) as (f & k & Hf & Hl & _ & Ht & _). rewrite He in Ht. apply Hne. cbn [text].
  assert (input = take (sl - columns a + 1) (drop (columns a) (_charOffsets src))) as Hin by (unfold input; f_equal; [lia|f_equal; lia]).
  rewrite <- Hin, Eh in Hf. rewrite <- Hin, Elast in Hl. injection Hf as <-. injection Hl as <-. exact Ht.
Qed.

(** ** Whole rows *)

(** The glyphs after a row was copied over others: only the readable columns are. *)
Definition copied (gs sgs : list glyph) (readable : nat) : list glyph :=
  match before_col sgs readable with
  | [] => gs
  | _ => let m := Nat.min (columns gs) readable in overwrite gs 0 (before_col sgs m) m
  end.

Lemma readable_bounds (src : ROW) sgs : row_ok src sgs -> -1 <= GetReadableColumnCount src <= _columnCount src.
Proof.
  intros [_ H1 _ _ _ _ _]. unfold GetReadableColumnCount.
  destruct (_lineRendition src =? LineRendition.SingleWidth), (_doubleBytePadded src); cbn [Z.b2z]; try lia; rewrite Z.shiftr_div_pow2 by lia; change (Z.shiftl 1 1) with 2; change (Z.shiftl 0 1) with 0; change (2 ^ 1) with 2; div_lia.
Qed.

Lemma copy_readable (src : ROW) sgs (r : ROW) gs (d : D) : row_ok src sgs -> row_ok r gs -> chars_len gs + chars_len sgs + _columnCount r < 0x8000 ->
  exists r' s', CopyTextFrom avx2 uninitialised allocated src false (mkCopyState 0 CoordTypeMax 0 (GetReadableColumnCount src) 0 0 0 0) r d = (r', d, Returned s') /\
    kept r r' /\ row_ok r' (copied gs sgs (Z.to_nat (GetReadableColumnCount src))).
Proof.
  intros Hsrc Hrow Hb. pose proof Hrow as [Hcc H1 Hok Ho Hlen Hpre Hn]. pose proof Hsrc as [Hscc Hs1 Hsok Hso Hslen [us Hus] Hsn].
  pose proof (readable_bounds src sgs Hsrc) as Hrd. set (s := mkCopyState _ _ _ _ _ _ _ _). set (rd := Z.to_nat (GetReadableColumnCount src)).
  destruct (clampedInclusive_ok src sgs 0 Hsrc) as [_ Hz]. specialize (Hz ltac:(lia)). destruct (clampedInclusive_ok r gs 0 Hrow) as [_ Hz']. specialize (Hz' ltac:(lia)).
  assert (Hsl : _clampedColumnInclusive (GetReadableColumnCount src) src = Z.of_nat rd).
  { unfold _clampedColumnInclusive, clamp. destruct (Z.ltb_spec (GetReadableColumnCount src) 0); [unfold rd; rewrite u16_small; lia|].
    destruct (Z.ltb_spec (_columnCount src) (GetReadableColumnCount src)); [lia|]. unfold rd. rewrite u16_small; lia. }
  assert (Hlim : _clampedColumnInclusive CoordTypeMax r = Z.of_nat (columns gs)).
  { unfold _clampedColumnInclusive, clamp, CoordTypeMax. destruct (Z.ltb_spec (2 ^ 31 - 1) 0); [lia|]. destruct (Z.ltb_spec (_columnCount r) (2 ^ 31 - 1)); [|lia]. rewrite u16_small; lia. }
  assert (Hcols : (columns [] = 0)%nat) by done.
  destruct (decide (before_col sgs rd = [])) as [He|He].
  - unfold copied. fold rd. rewrite He. assert (exists s', CopyTextFrom avx2 uninitialised allocated src false s r d = (r, d, Returned s')) as (s' & E).
    { unfold CopyTextFrom. assert (exists o t, copied_input src s = Some (o, t) /\ text t = []) as (o & t & -> & Ht).
      { unfold copied_input. cbn [s cs_sourceColumnBegin cs_sourceColumnLimit]. rewrite Hz, Hsl. destruct (Z.ltb_spec 0 (Z.of_nat rd)); [|by eexists _, _].
        destruct (input_text src sgs [] sgs rd 0 Hsrc eq_refl ltac:(rewrite Hcols; lia) ltac:(lia)) as (front & back & Hh & Hl & Hf & Htext & _). rewrite Hcols, !Nat.sub_0_r in *. rewrite He in Htext.
        change (Z.to_nat 0) with 0%nat. replace (Z.to_nat (Z.of_nat rd - 0 + 1)) with (rd + 1)%nat by lia. rewrite Hh, Hl. cbn [mbind option_bind]. eexists _, _. split; [done|]. exact Htext. }
      destruct (new_helper_start r d gs (cs_columnBegin s) (cs_columnLimit s) t Hrow) as (pre & post & i & _ & _ & _ & ->).
      assert (IsValid (start_helper r d t pre i (_clampedColumnInclusive (cs_columnLimit s) r)) = false) as ->.
      { apply not_true_is_false. rewrite IsValid_ok. intros [_ Hx]. by apply Hx. }
      cbn [negb orb]. by eexists. }
    exists r, s'. split; [done|]. split; [unfold kept; by destruct r|done].
  - assert (Hrd0 : (0 < rd)%nat) by (destruct rd; [exfalso; apply He; destruct sgs as [|g l]; [done|]; apply Forall_cons in Hsok as [[? _] _]; cbn [before_col]; by destruct (Nat.leb_spec (g_width g) 0); [lia|]|lia]).
    pose proof (CopyTextFrom_ok src sgs [] sgs r gs d s Hsrc eq_refl Hrow) as Hcopy. cbn [s cs_sourceColumnLimit cs_sourceColumnBegin cs_columnBegin cs_columnLimit] in Hcopy.
    rewrite Hz, Hz', Hsl, Hlim, Hcols, !Nat2Z.id, !Nat.sub_0_r in Hcopy. change (Z.to_nat 0) with 0%nat in Hcopy.
    destruct (Hcopy eq_refl Hrd0 ltac:(lia) He Hb) as (r' & s' & E & Hk & Hr & _). exists r', s'. split; [exact E|]. split; [done|].
    unfold copied. fold rd. destruct (before_col sgs rd); done.
Qed.

(** The text, the attributes and the flags of the row that is copied. *)
Record is_copy (src r r' : ROW) (gs sgs : list glyph) : Prop := {
  copy_text : row_ok r' (copied gs sgs (Z.to_nat (GetReadableColumnCount src)));
  copy_attr : rle_ok 16 (_attr r') /\ contents (_attr r') = resized (_columnCount r) (contents (_attr src));
  copy_flags : _lineRendition r' = _lineRendition src /\ _wrapForced r' = _wrapForced src;
  copy_kept : _columnCount r' = _columnCount r /\ _charsBuffer r' = _charsBuffer r /\ _promptData r' = _promptData r /\ _imageSlice r' = _imageSlice r
}.

Lemma CopyFrom_ok (src : ROW) sgs (r : ROW) gs (d : D) : row_ok src sgs -> rle_ok 16 (_attr src) -> contents (_attr src) <> [] -> row_ok r gs ->
  chars_len gs + chars_len sgs + _columnCount r < 0x8000 ->
  exists r', CopyFrom avx2 uninitialised allocated src false r d = (r', d, Returned tt) /\ is_copy src r r' gs sgs.
Proof.
  intros Hsrc Ha Hne Hrow Hb. unfold CopyFrom. set (r0 := SetLineRendition _ _).
  assert (Hr0 : row_ok r0 gs) by (by destruct Hrow).
  destruct (copy_readable src sgs r0 gs d Hsrc Hr0 Hb) as (r1 & s1 & -> & Hk & Hr1). pose proof Hrow as [_ H1 _ _ _ _ Hn].
  assert (Hc1 : _columnCount r1 = _columnCount r) by (unfold kept in Hk; by rewrite Hk).
  destruct (resize_ok 16 (_columnCount r1) (_attr src) Ha) as (a & -> & Hok & Hc); [rewrite Hc1; lia|left; intros E; apply Hne; unfold contents; by rewrite E|].
  exists (set_attr a r1). split; [done|]. split.
  - by destruct Hr1.
  - split; [done|]. cbn [set_attr _attr]. by rewrite Hc, Hc1.
  - unfold kept in Hk. by rewrite Hk.
  - unfold kept in Hk. by rewrite Hk.
Qed.

(** A row that is all readable is copied entirely. *)
Lemma copied_whole gs sgs : Forall glyph_ok gs -> chars_len gs < 0x8000 -> Forall glyph_ok sgs -> columns gs = columns sgs -> (0 < columns sgs)%nat -> copied gs sgs (columns sgs) = sgs.
Proof.
  intros Hok Hlen Hsok Hc Hpos. unfold copied. rewrite (before_col_boundary sgs sgs []) by (done || by rewrite app_nil_r). rewrite Hc, Nat.min_id.
  transitivity (overwrite gs 0 (before_col sgs (columns sgs)) (columns sgs)); [destruct sgs; [change (columns []) with 0%nat in Hpos; lia|done]|]. rewrite (before_col_boundary sgs sgs []) by (done || by rewrite app_nil_r). unfold overwrite.
  assert (before_col gs 0 = []) as -> by (apply (before_col_boundary gs [] gs); done).
  assert (after_col gs (columns sgs) = []) as -> by (rewrite <- Hc; pose proof (after_col_app gs []) as Ha; rewrite app_nil_r in Ha; by apply Ha).
  change (columns []) with 0%nat. rewrite Hc. replace (0 - 0)%nat with 0%nat by lia. replace (columns sgs - 0 - (0 + columns sgs))%nat with 0%nat by lia. change (spaces 0) with (@nil glyph). cbn [app]. by rewrite app_nil_r.
Qed.
End Copy.
