(* ===== verification/RowInvariant.v ===== *)
(** * Rows stay rows

    Whatever is done with a new row, its columns, offsets and characters fit
    together, its attributes are a vector with one entry per column, and no access
    leaves the memory of the row. *)

From stdpp Require Import list.
From S2P Require Import Prelude Til Utils TermDispatch TextAttributes Rle RleProps CodepointWidth CodepointWidthProps ImageSlice Row RowWrite RowProps RowWriteProps RowText RowTextProps RowCopy.

Section Histories.
Context {D : Type} `{MeasurementLaws D}.
Variable avx2 : bool.
Variable uninitialised : nat -> Z.
Variable allocated : Z.

Inductive row_op :=
| DoReset (attr : TextAttribute.t)
| DoReplaceCharacters (columnBegin width : Z) (t : wstring_view)
| DoClearCell (column : Z)
| DoReplaceText (s : RowWriteState)
| DoCopyTextFrom (source : ROW) (aliased : bool) (s : RowCopyTextFromState)
| DoCopyFrom (source : ROW) (aliased : bool)
| DoReplaceAttributes (beginIndex endIndex : Z) (attr : TextAttribute.t)
| DoSetAttrToEnd (columnBegin : Z) (attr : TextAttribute.t)
| DoSetWrapForced (wrap : bool)
| DoSetDoubleBytePadded (padded : bool)
| DoSetLineRendition (rendition : Z)
| DoSetScrollbarData (data : option ScrollbarData)
| DoSetImageSlice (image : option ImageSlice.t)
| DoStartPrompt
| DoEndOutput (error : option Z).

Definition done_with {A} (o : outcome A) : outcome unit :=
  match o with Returned _ => Returned tt | Threw => Threw | Undefined => Undefined | OutOfFuel => OutOfFuel end.

Definition apply_row (op : row_op) (r : ROW) (d : D) : ROW * D * outcome unit :=
  match op with
  | DoReset attr => match Reset avx2 uninitialised attr r with Some r => (r, d, Returned tt) | None => (r, d, Undefined) end
  | DoReplaceCharacters columnBegin w t => ReplaceCharacters avx2 uninitialised allocated columnBegin w t r d
  | DoClearCell column => ClearCell avx2 uninitialised allocated column r d
  | DoReplaceText s => let '(r, d, o) := ReplaceText avx2 uninitialised allocated s r d in (r, d, done_with o)
  | DoCopyTextFrom source aliased s => let '(r, d, o) := CopyTextFrom avx2 uninitialised allocated source aliased s r d in (r, d, done_with o)
  | DoCopyFrom source aliased => CopyFrom avx2 uninitialised allocated source aliased r d
  | DoReplaceAttributes b e attr => let '(r, o) := ReplaceAttributes b e attr r in (r, d, o)
  | DoSetAttrToEnd b attr => let '(r, o) := SetAttrToEnd b attr r in (r, d, o)
  | DoSetWrapForced wrap => (SetWrapForced wrap r, d, Returned tt)
  | DoSetDoubleBytePadded padded => (SetDoubleBytePadded padded r, d, Returned tt)
  | DoSetLineRendition rendition => (SetLineRendition rendition r, d, Returned tt)
  | DoSetScrollbarData data => (SetScrollbarData data r, d, Returned tt)
  | DoSetImageSlice image => (SetImageSlice image r, d, Returned tt)
  | DoStartPrompt => (StartPrompt r, d, Returned tt)
  | DoEndOutput error => (EndOutput error r, d, Returned tt)
  end.

Record row_good (r : ROW) : Prop := {
  good_text : exists gs, row_ok r gs;
  good_attr : rle_ok 16 (_attr r);
  good_size : Z.of_nat (length (contents (_attr r))) = _columnCount r
}.

(** What an operation needs: the text of a write is in other memory than the row;
    row, text (or the row that is copied) and columns are together less than
    [0x8000] units, the range of an offset; a range of attributes is neither empty
    nor reversed; the row that is copied is one itself. [aliased]: it is the same
    row. *)
Definition room_for (n : Z) (r : ROW) : Prop := exists m, _charSize r = Some m /\ m + n + _columnCount r < 0x8000.
Definition text_fits (t : wstring_view) (r : ROW) : Prop := room_for (view_size t) r.
Definition row_fits (source r : ROW) : Prop := exists n, _charSize source = Some n /\ room_for n r.
Definition row_op_ok (op : row_op) (r : ROW) : Prop :=
  match op with
  | DoReplaceCharacters _ w t => (w = 1 \/ w = 2) /\ text_fits t r
  | DoClearCell _ => room_for 1 r
  | DoReplaceText s => Forall is_wchar (text (ws_text s)) /\ text_fits (ws_text s) r /\ apart r (ws_text s)
  | DoCopyTextFrom source _ _ | DoCopyFrom source _ => row_good source /\ row_fits source r
  | DoReplaceAttributes b e _ => _clampedColumnInclusive b r < _clampedColumnInclusive e r
  | DoSetAttrToEnd b _ => _clampedColumnInclusive b r < _columnCount r
  | _ => True
  end.

Lemma charSize_glyphs r gs : row_ok r gs -> _charSize r = Some (chars_len gs).
Proof.
  intros [Hc H1 Hok Ho Hlen _ Hn]. unfold _charSize, offset_at. destruct (Z.ltb_spec (_columnCount r) 0); [lia|].
  rewrite Ho. replace (Z.to_nat (_columnCount r)) with (columns gs) by lia. by apply offsets_end.
Qed.

Lemma room_for_glyphs n r gs : row_ok r gs -> room_for n r -> chars_len gs + n + _columnCount r < 0x8000.
Proof. intros Hr (m & E & Hb). rewrite (charSize_glyphs r gs Hr) in E. by injection E as <-. Qed.

Lemma row_fits_glyphs src sgs r gs : row_ok src sgs -> row_ok r gs -> row_fits src r -> chars_len gs + chars_len sgs + _columnCount r < 0x8000.
Proof. intros Hs Hr (n & E & Hb). rewrite (charSize_glyphs src sgs Hs) in E. injection E as <-. by apply (room_for_glyphs _ r gs Hr). Qed.

Lemma kept_attr r r' : kept r r' -> _attr r' = _attr r /\ _columnCount r' = _columnCount r.
Proof. unfold kept. intros ->. done. Qed.

Lemma good_written r r' gs' : row_good r -> kept r r' -> row_ok r' gs' -> row_good r'.
Proof. intros [_ G2 G3] Hk Hr. destruct (kept_attr r r' Hk) as [E1 E2]. split; [by exists gs'|by rewrite E1|by rewrite E1, E2]. Qed.

(** The attributes, replaced on a range. *)
Lemma replace_attributes_good r b e attr : row_good r -> 0 <= b < e -> e <= _columnCount r ->
  exists a, replace_attributes b e attr r = (set_attr a r, Returned tt) /\ row_good (set_attr a r).
Proof.
  intros [[gs G1] G2 G3] Hb He. pose proof (apply_rle_ok 16 (op_replace_value b e attr) (_attr r) G2) as Ha. cbn [op_ok apply_vector apply_rle] in Ha.
  destruct Ha as (a & E & Hok & Hc); [rewrite G3; lia|]. unfold replace_attributes. rewrite E. unfold vector_replace in *. rewrite G3 in *.
  destruct (Z.ltb_spec (Z.min e (_columnCount r)) b); [lia|]. exists a. split; [done|]. cbn [fst] in Hc.
  split; [exists gs; by destruct G1|done|]. cbn [set_attr _attr _columnCount]. rewrite Hc, !length_app, length_take, length_drop, length_replicate. lia.
Qed.

Lemma reset_good r attr : row_good r -> exists r', Reset avx2 uninitialised attr r = Some r' /\ row_good r' /\ _columnCount r' = _columnCount r.
Proof.
  intros [[gs [Hc H1 _ _ _ _ Hn]] G2 G3]. unfold Reset. set (r0 := set_flags _ _ _ _ _ _).
  destruct (_init_blank avx2 uninitialised r0 ltac:(change (_columnCount r0) with (_columnCount r); lia)) as (r' & E & Hr & Er). exists r'. split; [done|].
  assert (Ha : _attr r' = set_runs [mkRun attr (_columnCount r)] (_attr r)) by (by rewrite Er). assert (Hcc : _columnCount r' = _columnCount r) by (by rewrite Er).
  split; [|done]. pose proof (size_contents 16 (_attr r) G2) as Hs. split; [by eexists| |].
  - rewrite Ha. split; cbn; [|done| |lia]; [|lia]. apply Forall_singleton. cbn. lia.
  - rewrite Ha, Hcc. unfold contents, decode, decode_run. cbn. rewrite app_nil_r, length_replicate. lia.
Qed.

Lemma set_flags_good r a b c p m : row_good r -> row_good (set_flags a b c p m r).
Proof. intros [[gs G1] G2 G3]. split; [exists gs; by destruct G1|done|done]. Qed.

Lemma replace_text_good r (d : D) s : row_good r -> measure_ok d -> row_op_ok (DoReplaceText s) r ->
  exists r' d' s', ReplaceText avx2 uninitialised allocated s r d = (r', d', Returned s') /\ row_good r' /\ same_measure d d'.
Proof.
  intros Hg Hd (Hw & Hfit & Hap). pose proof Hg as [[gs Hrow] _ _]. pose proof Hrow as [Hc _ Hok _ _ _ _].
  pose proof (room_for_glyphs _ r gs Hrow Hfit) as Hb. destruct (new_WriteHelper_ok r d gs (ws_columnBegin s) (ws_columnLimit s) (ws_text s) Hrow) as (pre & post & i & Heq & Hci & Hcut & Hnew).
  destruct (clampedInclusive_ok r gs (ws_columnLimit s) Hrow) as [Hl _].
  destruct (decide (_clampedColumnInclusive (ws_columnBegin s) r < _clampedColumnInclusive (ws_columnLimit s) r /\ text (ws_text s) <> [])) as [[Hlt Hne]|Hinv].
  - destruct (replace_writes_anywhere uninitialised allocated r gs pre post i d (ws_text s) (Z.to_nat (_clampedColumnInclusive (ws_columnLimit s) r)) Hrow Heq Hcut Hd ltac:(lia) Hw Hne Hap Hb)
      as (start & new & e & k & Hwr). rewrite Z2Nat.id in Hwr by lia.
    destruct (ReplaceText_runs avx2 uninitialised allocated s r gs d pre post i start new e k Hrow Heq Hcut Hci ltac:(lia) Hne Hwr) as (r' & d' & s' & E1 & E2 & E3 & E4 & _).
    exists r', d', s'. split; [done|]. split; [by eapply good_written|done].
  - unfold ReplaceText. rewrite Hnew. set (h := mkHelper _ _ _ _ _ _ _ _ _ _ _ _). assert (IsValid h = false) as ->.
    { apply not_true_is_false. rewrite IsValid_ok. exact Hinv. }
    cbn [negb]. do 3 eexists. split; [done|]. done.
Qed.

Lemma set_attr_good r a : row_good r -> rle_ok 16 a -> Z.of_nat (length (contents a)) = _columnCount r -> row_good (set_attr a r).
Proof. intros [[gs Hr] _ _] Ha Hl. split; [exists gs; by destruct Hr|done|done]. Qed.

Lemma copy_text_good src aliased r (d : D) s : row_good src -> row_good r -> row_fits src r ->
  exists r' s', CopyTextFrom avx2 uninitialised allocated src aliased s r d = (r', d, Returned s') /\ row_good r' /\ _columnCount r' = _columnCount r.
Proof.
  intros [[sgs Hsrc] _ _] Hg Hfit. pose proof Hg as [[gs Hrow] _ _].
  destruct (CopyTextFrom_anywhere avx2 uninitialised allocated src sgs aliased r gs d s Hsrc Hrow (row_fits_glyphs _ _ _ _ Hsrc Hrow Hfit)) as (r' & s' & gs' & E & Hk & Hr).
  exists r', s'. split; [done|]. split; [by eapply good_written|by apply kept_attr].
Qed.

Lemma copy_row_good src aliased r (d : D) : row_good src -> row_good r -> row_fits src r ->
  exists r', CopyFrom avx2 uninitialised allocated src aliased r d = (r', d, Returned tt) /\ row_good r'.
Proof.
  intros Hs Hg Hfit. unfold CopyFrom. set (r0 := SetLineRendition _ _). assert (Hg0 : row_good r0) by (by apply set_flags_good, set_flags_good).
  destruct (copy_text_good src aliased r0 d (mkCopyState 0 CoordTypeMax 0 (GetReadableColumnCount src) 0 0 0 0) Hs Hg0 Hfit) as (r1 & s1 & -> & Hg1 & Hc1).
  pose proof Hg1 as [[gs1 [_ H1 _ _ _ _ Hn]] _ _]. destruct Hs as [[sgs [_ Hs1 _ _ _ _ _]] Ha Hsz].
  assert (Hne : contents (_attr src) <> []) by (intros E; rewrite E in Hsz; simpl in Hsz; lia).
  destruct (resize_ok 16 (_columnCount r1) (_attr src) Ha) as (a & -> & Hok & Hc); [lia|left; intros E; apply Hne; unfold contents; by rewrite E|].
  eexists. split; [done|]. apply set_attr_good; [done|done|]. rewrite Hc, resized_length by (done || lia). lia.
Qed.

Lemma apply_row_good op r (d : D) : row_good r -> measure_ok d -> row_op_ok op r ->
  exists r' d', apply_row op r d = (r', d', Returned tt) /\ row_good r' /\ same_measure d d'.
Proof.
  intros Hg Hd Hop. pose proof Hg as [[gs Hrow] _ Gs]. assert (same_measure d d) as Hsame by (by split).
  destruct op as [attr|b w t|column|s|source aliased s|source aliased|b e attr|b attr|wrap|padded|rendition|data|image| |error]; cbn [apply_row].
  - destruct (reset_good r attr Hg) as (r' & -> & Hg' & _). by exists r', d.
  - destruct Hop as [Hw Hfit]. destruct (ReplaceCharacters_ok avx2 uninitialised allocated r d gs b (Z.to_nat w) t Hrow ltac:(lia) (room_for_glyphs _ _ _ Hrow Hfit)) as (r' & E & Hk & Hr).
    rewrite Z2Nat.id in E by lia. exists r', d. split; [done|]. split; [by eapply good_written|done].
  - destruct (ReplaceCharacters_ok avx2 uninitialised allocated r d gs column 1 (mkView 1 [UNICODE_SPACE]) Hrow ltac:(lia) (room_for_glyphs _ _ _ Hrow Hop)) as (r' & E & Hk & Hr).
    exists r', d. split; [exact E|]. split; [by eapply good_written|done].
  - destruct (replace_text_good r d s Hg Hd Hop) as (r' & d' & s' & -> & Hg' & Hs). by exists r', d'.
  - destruct Hop as [Hs Hfit]. destruct (copy_text_good source aliased r d s Hs Hg Hfit) as (r' & s' & -> & Hg' & _). by exists r', d.
  - destruct Hop as [Hs Hfit]. destruct (copy_row_good source aliased r d Hs Hg Hfit) as (r' & -> & Hg'). by exists r', d.
  - destruct (clampedInclusive_ok r gs b Hrow) as [Hb _], (clampedInclusive_ok r gs e Hrow) as [He _]. unfold ReplaceAttributes.
    destruct (replace_attributes_good r (_clampedColumnInclusive b r) (_clampedColumnInclusive e r) attr Hg ltac:(simpl in Hop; lia) ltac:(lia)) as (a & -> & Hg'). by eexists _, d.
  - destruct (clampedInclusive_ok r gs b Hrow) as [Hb _]. unfold SetAttrToEnd, size. rewrite <- (size_contents 16 (_attr r) (good_attr r Hg)), Gs.
    destruct (replace_attributes_good r (_clampedColumnInclusive b r) (_columnCount r) attr Hg ltac:(simpl in Hop; lia) ltac:(lia)) as (a & -> & Hg'). by eexists _, d.
  - eexists _, d. split; [done|]. split; [by apply set_flags_good|done].
  - eexists _, d. split; [done|]. split; [by apply set_flags_good|done].
  - eexists _, d. split; [done|]. split; [by apply set_flags_good|done].
  - eexists _, d. split; [done|]. split; [by apply set_flags_good|done].
  - eexists _, d. split; [done|]. split; [by apply set_flags_good|done].
  - eexists _, d. split; [done|]. split; [|done]. unfold StartPrompt. destruct (_promptData r); [done|by apply set_flags_good].
  - eexists _, d. split; [done|]. split; [|done]. unfold EndOutput. destruct (_promptData r); [by apply set_flags_good|done].
Qed.

Lemma new_row_good charsBuffer rowWidth attr : 1 <= rowWidth < 0x8000 -> exists r, new_ROW avx2 uninitialised charsBuffer rowWidth attr = Some r /\ row_good r.
Proof.
  intros Hw. unfold new_ROW. set (r0 := mkRow _ _ _ _ _ _ _ _ _ _ _). destruct (_init_blank avx2 uninitialised r0 Hw) as (r & E & Hr & Er). exists r. split; [done|].
  assert (Ha : _attr r = rle_fill rowWidth attr) by (by rewrite Er). assert (Hc : _columnCount r = rowWidth) by (by rewrite Er).
  assert (Hf : rle_fill rowWidth attr = mkRle [mkRun attr rowWidth] rowWidth) by (unfold rle_fill; by destruct (Z.eqb_spec rowWidth 0); [lia|]).
  split; [by eexists| |]; rewrite Ha, Hf.
  - split; cbn; [|done|lia|lia]. apply Forall_singleton. cbn. lia.
  - rewrite Hc. unfold contents, decode, decode_run. cbn. rewrite app_nil_r, length_replicate. lia.
Qed.

(** The rows that come about, with the detector. *)
Inductive row_reachable (charsBuffer rowWidth : Z) (attr : TextAttribute.t) (d0 : D) : ROW -> D -> Prop :=
| reach_new r : new_ROW avx2 uninitialised charsBuffer rowWidth attr = Some r -> row_reachable charsBuffer rowWidth attr d0 r d0
| reach_op r d op r' d' o : row_reachable charsBuffer rowWidth attr d0 r d -> row_op_ok op r -> apply_row op r d = (r', d', o) -> row_reachable charsBuffer rowWidth attr d0 r' d'.

Lemma row_reachable_good charsBuffer rowWidth attr d0 r d : 1 <= rowWidth < 0x8000 -> measure_ok d0 ->
  row_reachable charsBuffer rowWidth attr d0 r d -> row_good r /\ same_measure d0 d.
Proof.
  intros Hw Hd Hr. induction Hr as [r E|r d op r' d' o _ [Hg Hs] Hop E].
  - destruct (new_row_good charsBuffer rowWidth attr Hw) as (r' & E' & Hg). rewrite E in E'. injection E' as <-. split; [done|by split].
  - destruct (apply_row_good op r d Hg (proj1 Hs) Hop) as (r2 & d2 & E2 & Hg' & Hs'). rewrite E in E2. injection E2 as -> -> ->.
    split; [done|]. by eapply same_measure_trans.
Qed.

(** C33: A new row, and every row that comes from it by resetting, clearing cells,
    writing characters and text anywhere, copying text or a whole row into it,
    changing attributes, marks, the image, the rendition and the flags, in any order:
    the row consists of whole glyphs over all its columns, has an attribute for each
    of them, and the next operation succeeds, without an access outside of the row's
    memory. Writes of AVX2, the contents of memory and the detector's cache make no
    difference. What every operation needs ([row_op_ok]): a row together with the
    text or the row that is written into it and its columns is less than 0x8000 units
    (otherwise [long_cluster_hides_the_rest]); the text of [ReplaceText] is in other
    memory; characters are given a width of one or two; a range of attributes is not
    empty; a row that is copied is one itself. *)
Theorem rows_stay_rows (charsBuffer rowWidth : Z) (attr : TextAttribute.t) (d0 : D) (r : ROW) (d : D) (op : row_op) :
  1 <= rowWidth < 0x8000 -> measure_ok d0 -> row_reachable charsBuffer rowWidth attr d0 r d -> row_op_ok op r ->
  (exists gs, row_ok r gs) /\ rle_ok 16 (_attr r) /\ Z.of_nat (length (contents (_attr r))) = _columnCount r /\ same_measure d0 d /\
  exists r' d', apply_row op r d = (r', d', Returned tt).
Proof.
  intros Hw Hd Hr Hop. destruct (row_reachable_good _ _ _ _ _ _ Hw Hd Hr) as [Hg Hs]. destruct (apply_row_good op r d Hg (proj1 Hs) Hop) as (r' & d' & E & _).
  destruct Hg as [G1 G2 G3]. split; [done|]. split; [done|]. split; [done|]. split; [done|]. by exists r', d'.
Qed.
End Histories.

(** ** Rows, by example

    Concrete rows for the theorems, and the places where writing text departs from
    what the glyphs of the text would give. *)

(** A letter, a wide ideograph, a letter and a space, in five columns. *)
Definition sample_line : list glyph := [mkGlyph [0x61] 1; mkGlyph [0x6F22] 2; mkGlyph [0x65] 1; mkGlyph [0x20] 1].
Definition sample_line_row : ROW :=
  mkRow 16 16 [0x61; 0x6F22; 0x65; 0x20; 0x20] [0; 1; 0x8001; 2; 3; 4] (rle_fill 5 TextAttribute.default) 5 LineRendition.SingleWidth false false None None.

Lemma sample_line_ok : row_ok sample_line_row sample_line.
Proof.
  constructor; try (vm_compute; (reflexivity || discriminate)).
  - repeat (constructor; [split; [simpl; lia|discriminate]|]). constructor.
  - exists [0x20]. reflexivity.
Qed.

Lemma new_Detector_ok : detector_ok new_Detector.
Proof. split; [by left|by intros ? ? []]. Qed.

(** A mark that joins the letter in front of it, and a letter. *)
Definition sample_write : RowWriteState := mkWriteState (mkView 4096 [0x301; 0x78; 0x79]) 4 CoordTypeMax 0 0 0.

Lemma ReplaceText_lays_out_witness : exists r' d' s',
  ReplaceText true (fun _ => 0) 8192 sample_write sample_line_row new_Detector = (r', d', Returned s') /\
  row_ok r' [mkGlyph [0x61] 1; mkGlyph [0x6F22] 2; mkGlyph [0x65; 0x301] 1; mkGlyph [0x78] 1] /\
  text (ws_text s') = [0x79] /\ ws_columnEnd s' = 5 /\ ws_columnBeginDirty s' = 3 /\ ws_columnEndDirty s' = 5.
Proof.
  pose proof (ReplaceText_lays_out true (fun _ => 0) 8192 sample_line_row sample_line new_Detector sample_write sample_line_ok new_Detector_ok) as H.
  specialize (H ltac:(repeat constructor; vm_compute; discriminate) ltac:(discriminate) ltac:(split; [reflexivity|split; [reflexivity|left; vm_compute; discriminate]]) ltac:(vm_compute; reflexivity)).
  cbv zeta in H. specialize (H ltac:(vm_compute; lia)).
  assert (Hclean : clean_start new_Detector sample_line (Z.to_nat (_clampedColumnInclusive (ws_columnBegin sample_write) sample_line_row)) (text (ws_text sample_write))).
  { split; [vm_compute; reflexivity|]. intros p Hp. vm_compute in Hp. injection Hp as <-. split; [vm_compute; reflexivity|]. intros (E & _). vm_compute in E. discriminate. }
  specialize (H Hclean ltac:(intros E; vm_compute in E; discriminate)). revert H.
  replace (detector_layout _ _ _ _ _) with (3%nat, [mkGlyph [0x65; 0x301] 1; mkGlyph [0x78] 1], [0x65]) by (vm_compute; reflexivity).
  replace (write_end _ _ _ _) with 5%nat by (vm_compute; reflexivity).
  replace (overwrite _ _ _ _) with [mkGlyph [0x61] 1; mkGlyph [0x6F22] 2; mkGlyph [0x65; 0x301] 1; mkGlyph [0x78] 1] by (vm_compute; reflexivity).
  intros (r' & d' & s' & E1 & E2 & _ & _ & E5 & E6 & E7 & E8). exists r', d', s'. exact (conj E1 (conj E2 (conj E5 (conj E6 (conj E7 E8))))).
Defined.

(** The first operation on a new row. *)
Lemma rows_stay_rows_witness : exists r, new_ROW false (fun _ => 7) 64 20 TextAttribute.default = Some r /\
  exists r' d', apply_row false (fun _ => 7) 8192 (DoReplaceText sample_write) r new_Detector = (r', d', Returned tt).
Proof.
  eexists. split; [vm_compute; reflexivity|]. match goal with |- exists r' d', apply_row _ _ _ _ ?row _ = _ => set (r := row) end.
  pose proof (rows_stay_rows false (fun _ => 7) 8192 64 20 TextAttribute.default new_Detector r new_Detector (DoReplaceText sample_write) ltac:(lia) new_Detector_ok) as H.
  destruct H as (_ & _ & _ & _ & H); [apply reach_new; vm_compute; reflexivity| |exact H].
  split; [repeat constructor; vm_compute; discriminate|]. split; [exists 20; split; vm_compute; reflexivity|].
  split; [reflexivity|]. split; [reflexivity|]. left. vm_compute. discriminate.
Defined.

(** ** Departures *)

(** The row, or nothing if the write failed. *)
Definition written_row {A} (result : ROW * CodepointWidthDetector * outcome A) : option (wstring * list Z) :=
  match result with (r, _, Returned _) => t ← GetText r; Some (t, _charOffsets r) | _ => None end.
Definition write_at (col : Z) (t : wstring) (r : ROW) : option (wstring * list Z) :=
  written_row (ReplaceText false (fun _ => 0) 8192 (mkWriteState (mkView 4096 t) col CoordTypeMax 0 0 0) r new_Detector).

(** The fast path for ASCII looks at no more characters than there are columns: in
    the last column, a mark is separated from its letter, with room to spare it is
    not. *)
Lemma mark_behind_last_column_is_lost :
  write_at 3 [0x61; 0x301] sample_line_row = Some ([0x61; 0x6F22; 0x61; 0x301; 0x20], [0; 1; 0x8001; 2; 4; 5]) /\
  write_at 4 [0x61; 0x301] sample_line_row = Some ([0x61; 0x6F22; 0x65; 0x61], [0; 1; 0x8001; 2; 3; 4]).
Proof. split; vm_compute; reflexivity. Qed.

(** A mark that is written on the second half of a wide glyph is measured together
    with the glyph, which is then replaced by a space: a space of two columns. *)
Lemma mark_on_second_half_widens_space :
  write_at 2 [0x301] sample_line_row = Some ([0x61; 0x20; 0x301; 0x65; 0x20], [0; 1; 0x8001; 3; 4; 5]).
Proof. vm_compute. reflexivity. Qed.

(** Text may grow to [0xFFFF] characters, but an offset of [0x8000] or more looks
    like the second half of a glyph. *)
Definition long_cluster : wstring := 0x65 :: replicate (Z.to_nat 0x8000) 0x301.
Lemma long_cluster_hides_the_rest :
  match ReplaceText false (fun _ => 0) 8192 (mkWriteState (mkView 4096 long_cluster) 0 CoordTypeMax 0 0 0) sample_line_row new_Detector with
  | (r, _, Returned s) => text (ws_text s) = [] /\ take 3 (_charOffsets r) = [0; 0x8001; 1] /\ DbcsAttrAt 1 r = Some DbcsTrailing
  | _ => False
  end.
Proof. vm_compute. repeat split. Qed.
