(* ===== verification/Cursor.v ===== *)
(** * The cursor

    src/buffer/out/cursor.cpp: position, delayed wrap and appearance. [_mutationId]
    counts the changes that need a redraw; the notification of the renderer is left
    out. *)

From S2P Require Import Prelude Geometry.

Module CursorType.
Definition Legacy : Z := 0.
Definition VerticalBar : Z := 1.
Definition Underscore : Z := 2.
Definition EmptyBox : Z := 3.
Definition FullBox : Z := 4.
Definition DoubleUnderscore : Z := 5.
End CursorType.

Module Cursor.
Record t := mk {
  _mutationId : Z;
  _cPosition : point.t;
  _coordDelayedAt : option point.t;
  _ulSize : Z;
  _cursorType : Z;
  _isVisible : bool;
  _isBlinking : bool;
  _fIsDouble : bool
}.

Definition new (ulSize : Z) : t := mk 0 (point.mk 0 0) None ulSize CursorType.Legacy true true false.

Definition _redrawIfVisible (c : t) : t :=
  mk (u64 (_mutationId c + 1)) (_cPosition c) (_coordDelayedAt c) (_ulSize c) (_cursorType c) (_isVisible c) (_isBlinking c) (_fIsDouble c).

Definition set_isVisible b (c : t) : t := mk (_mutationId c) (_cPosition c) (_coordDelayedAt c) (_ulSize c) (_cursorType c) b (_isBlinking c) (_fIsDouble c).
Definition set_isBlinking b (c : t) : t := mk (_mutationId c) (_cPosition c) (_coordDelayedAt c) (_ulSize c) (_cursorType c) (_isVisible c) b (_fIsDouble c).
Definition set_fIsDouble b (c : t) : t := mk (_mutationId c) (_cPosition c) (_coordDelayedAt c) (_ulSize c) (_cursorType c) (_isVisible c) (_isBlinking c) b.
Definition set_style size type (c : t) : t := mk (_mutationId c) (_cPosition c) (_coordDelayedAt c) size type (_isVisible c) (_isBlinking c) (_fIsDouble c).
Definition set_cPosition p (c : t) : t := mk (_mutationId c) p (_coordDelayedAt c) (_ulSize c) (_cursorType c) (_isVisible c) (_isBlinking c) (_fIsDouble c).
Definition set_coordDelayedAt p (c : t) : t := mk (_mutationId c) (_cPosition c) p (_ulSize c) (_cursorType c) (_isVisible c) (_isBlinking c) (_fIsDouble c).

Definition SetIsVisible (enable : bool) (c : t) : t := if Bool.eqb (_isVisible c) enable then c else _redrawIfVisible (set_isVisible enable c).
Definition SetIsBlinking (enable : bool) (c : t) : t := if Bool.eqb (_isBlinking c) enable then c else _redrawIfVisible (set_isBlinking enable c).
Definition SetIsDouble (fIsDouble : bool) (c : t) : t := if Bool.eqb (_fIsDouble c) fIsDouble then c else _redrawIfVisible (set_fIsDouble fIsDouble c).
Definition SetSize (ulSize : Z) (c : t) : t := if _ulSize c =? ulSize then c else _redrawIfVisible (set_style ulSize (_cursorType c) c).
Definition SetStyle (ulSize type : Z) (c : t) : t :=
  if (_ulSize c =? ulSize) && (_cursorType c =? type) then c else _redrawIfVisible (set_style ulSize type c).
Definition SetType (type : Z) (c : t) : t := set_style (_ulSize c) type c.

Definition DelayEOLWrap (c : t) : t := set_coordDelayedAt (Some (_cPosition c)) c.
Definition ResetDelayEOLWrap (c : t) : t := set_coordDelayedAt None c.
Definition GetDelayEOLWrap (c : t) : option point.t := _coordDelayedAt c.

(** Moving the cursor resets the delayed wrap, even if the position stays. *)
Definition SetPosition (p : point.t) (c : t) : t :=
  let c := ResetDelayEOLWrap c in if point.eqb (_cPosition c) p then c else _redrawIfVisible (set_cPosition p c).
Definition SetXPosition (x : Z) (c : t) : t :=
  let c := ResetDelayEOLWrap c in
  if point.x (_cPosition c) =? x then c else _redrawIfVisible (set_cPosition (point.mk x (point.y (_cPosition c))) c).
Definition SetYPosition (y : Z) (c : t) : t :=
  let c := ResetDelayEOLWrap c in
  if point.y (_cPosition c) =? y then c else _redrawIfVisible (set_cPosition (point.mk (point.x (_cPosition c)) y) c).
Definition move (dx dy : Z) (c : t) : t :=
  let c := ResetDelayEOLWrap c in
  if (dx =? 0) && (dy =? 0) then c else _redrawIfVisible (set_cPosition (point.mk (point.x (_cPosition c) + dx) (point.y (_cPosition c) + dy)) c).
Definition IncrementXPosition (delta : Z) (c : t) : t := move delta 0 c.
Definition IncrementYPosition (delta : Z) (c : t) : t := move 0 delta c.
Definition DecrementXPosition (delta : Z) (c : t) : t := move (- delta) 0 c.
Definition DecrementYPosition (delta : Z) (c : t) : t := move 0 (- delta) c.

Definition CopyProperties (other c : t) : t :=
  mk (_mutationId c) (_cPosition other) (_coordDelayedAt other) (_ulSize other) (_cursorType other) (_isVisible other) (_isBlinking other) (_fIsDouble other).

(** ** What the setters do *)

Lemma position_set p c : _cPosition (SetPosition p c) = p /\ GetDelayEOLWrap (SetPosition p c) = None.
Proof.
  unfold SetPosition. cbn [ResetDelayEOLWrap set_coordDelayedAt _cPosition]. destruct (point.eqb (_cPosition c) p) eqn:E; [|done].
  split; [|done]. apply andb_true_iff in E as [E1%Z.eqb_eq E2%Z.eqb_eq]. cbn. by destruct (_cPosition c), p; simplify_eq/=.
Qed.

Lemma x_set x c : _cPosition (SetXPosition x c) = point.mk x (point.y (_cPosition c)) /\ GetDelayEOLWrap (SetXPosition x c) = None.
Proof.
  unfold SetXPosition. cbn [ResetDelayEOLWrap set_coordDelayedAt _cPosition]. destruct (Z.eqb_spec (point.x (_cPosition c)) x) as [<-|]; [|done].
  split; [|done]. cbn. by destruct (_cPosition c).
Qed.

Lemma y_set y c : _cPosition (SetYPosition y c) = point.mk (point.x (_cPosition c)) y /\ GetDelayEOLWrap (SetYPosition y c) = None.
Proof.
  unfold SetYPosition. cbn [ResetDelayEOLWrap set_coordDelayedAt _cPosition]. destruct (Z.eqb_spec (point.y (_cPosition c)) y) as [<-|]; [|done].
  split; [|done]. cbn. by destruct (_cPosition c).
Qed.
End Cursor.
