(* ===== verification/TextBuffer.v ===== *)
(** * The text buffer

    src/buffer/out/textBuffer.cpp: the ring of rows that is committed on demand, the
    operations that change it, hyperlinks and marks. A reference to a row is the index
    of its slot: slot 0 is the scratchpad row, and the slots from [_commitWatermark] on
    are reserved but not constructed, so that [_rows] is the list of the constructed
    ones. Addresses are counted in units of [wchar_t]; [VirtualAlloc] succeeds. The
    notifications of the renderer are left out. *)

From stdpp Require Import list gmap.
From stdpp Require Import list.
From S2P Require Import Prelude Til Utils TermDispatch TextAttributes Rle CodepointWidth CodepointWidthProps Geometry ImageSlice Row RowWrite Cursor.

(** ** Hashes

    src/inc/til/hash.h: wyhash, in its versions for 64-bit and for 32-bit builds, and
    the test vectors of the unit tests (src/til/ut_til/HashTests.cpp). *)

Module Hash.
(** A byte in front of the end; [memcpy] of [n] bytes is little endian. *)
Definition byte_at (p : list Z) (i : nat) : Z := default 0 (p !! i).
Definition load (n : nat) (p : list Z) : Z := fold_right (fun byte high => byte + 256 * high) 0 (take n p).

(** The bytes of a string of 16-bit characters. *)
Definition utf16_bytes (s : wstring) : list Z := concat (map (fun c => [c mod 256; c / 256]) s).

(** ** 64 bits *)

Definition _wyr3 (p : list Z) (k : nat) : Z := Z.lor (Z.lor (Z.shiftl (byte_at p 0) 16) (Z.shiftl (byte_at p (k / 2)) 8)) (byte_at p (k - 1)).
Definition _wyr4 (p : list Z) : Z := load 4 p.
Definition _wyr8 (p : list Z) : Z := load 8 p.
Definition _wymix (lhs rhs : Z) : Z := Z.lxor (u64 (lhs * rhs)) (u64 (Z.shiftr (lhs * rhs) 64)).

Definition s0 : Z := 0xa0761d6478bd642f.
Definition s1 : Z := 0xe7037ed1a0b428db.
Definition s2 : Z := 0x8ebc6af09c88c6e3.
Definition s3 : Z := 0x589965cc75374cc3.

(** The blocks of 48 bytes, then those of 16; [p] is what is left from the current
    position on, so that its length is [i]. *)
Fixpoint blocks48 (fuel : nat) (p : list Z) (seed seed1 seed2 : Z) : list Z * Z :=
  match fuel with
  | O => (p, Z.lxor seed (Z.lxor seed1 seed2))
  | S fuel =>
    if (48 <? length p)%nat then
      blocks48 fuel (drop 48 p) (_wymix (Z.lxor (_wyr8 p) s1) (Z.lxor (_wyr8 (drop 8 p)) seed))
        (_wymix (Z.lxor (_wyr8 (drop 16 p)) s2) (Z.lxor (_wyr8 (drop 24 p)) seed1))
        (_wymix (Z.lxor (_wyr8 (drop 32 p)) s3) (Z.lxor (_wyr8 (drop 40 p)) seed2))
    else (p, Z.lxor seed (Z.lxor seed1 seed2))
  end.
Fixpoint blocks16 (fuel : nat) (p : list Z) (seed : Z) : nat * Z :=
  match fuel with
  | O => (length p, seed)
  | S fuel => if (16 <? length p)%nat then blocks16 fuel (drop 16 p) (_wymix (Z.lxor (_wyr8 p) s1) (Z.lxor (_wyr8 (drop 8 p)) seed)) else (length p, seed)
  end.

Definition _wyhash64 (p : list Z) (seed : Z) : Z :=
  let len := length p in
  let seed := Z.lxor seed s0 in
  let '(a, b, seed) :=
    if (len <=? 16)%nat then
      if (4 <=? len)%nat then
        let middle := (len / 8 * 4)%nat in
        (Z.lor (Z.shiftl (_wyr4 p) 32) (_wyr4 (drop middle p)), Z.lor (Z.shiftl (_wyr4 (drop (len - 4) p)) 32) (_wyr4 (drop (len - 4 - middle) p)), seed)
      else if (0 <? len)%nat then (_wyr3 p len, 0, seed)
      else (0, 0, seed)
    else
      let '(rest, seed) := if (48 <? len)%nat then blocks48 len p seed seed seed else (p, seed) in
      let '(_, seed) := blocks16 len rest seed in
      (_wyr8 (drop (len - 16) p), _wyr8 (drop (len - 8) p), seed) in
  _wymix (Z.lxor s1 (Z.of_nat len)) (_wymix (Z.lxor a s1) (Z.lxor b seed)).

(** ** 32 bits *)

Definition _wymix32 (a b : Z) : Z * Z :=
  let c := u64 (Z.lxor a 0x53c5ca59 * Z.lxor b 0x74743c1b) in (u32 c, u32 (Z.shiftr c 32)).

Fixpoint blocks8 (fuel : nat) (p : list Z) (seed see1 : Z) : list Z * Z * Z :=
  match fuel with
  | O => (p, seed, see1)
  | S fuel =>
    if (8 <? length p)%nat then
      let '(seed, see1) := _wymix32 (Z.lxor seed (load 4 p)) (Z.lxor see1 (load 4 (drop 4 p))) in
      blocks8 fuel (drop 8 p) seed see1
    else (p, seed, see1)
  end.

Definition _wyhash32 (p : list Z) (seed : Z) : Z :=
  let '(seed, see1) := _wymix32 seed (u32 (Z.of_nat (length p))) in
  let '(p, seed, see1) := blocks8 (length p) p seed see1 in
  let i := length p in
  let '(seed, see1) :=
    if (4 <=? i)%nat then (Z.lxor seed (load 4 p), Z.lxor see1 (load 4 (drop (i - 4) p)))
    else if (0 <? i)%nat then (Z.lxor seed (_wyr3 p i), see1)
    else (seed, see1) in
  let '(seed, see1) := _wymix32 seed see1 in
  let '(seed, see1) := _wymix32 seed see1 in
  Z.lxor seed see1.

(** [til::hash] of a string; the width of [size_t] selects the version. *)
Definition _wyhash (size_bits : Z) (p : list Z) (seed : Z) : Z := if size_bits =? 32 then _wyhash32 p seed else _wyhash64 p seed.
Definition hash (size_bits : Z) (s : wstring) : Z := _wyhash size_bits (utf16_bytes s) 0.

(** ** The test vectors of the repository *)

Definition test_vectors : list (string * Z * Z * Z) := [
  (EmptyString, 0, 0x42bc986dc5eec4d3, 0xa45f982f);
  ("a"%string, 1, 0x84508dc903c31551, 0x09021114);
  ("abc"%string, 2, 0x0bc54887cfc9ecb1, 0xfe40215d);
  ("message digest"%string, 3, 0x6e2ff3298208a67c, 0x6e0fb730);
  ("abcdefghijklmnopqrstuvwxyz"%string, 4, 0x9a64e42e897195b9, 0x9435b8c2);
  ("ABCDEFGHIJKLMNOPQRSTUVWXYZabcdefghijklmnopqrstuvwxyz0123456789"%string, 5, 0x9199383239c32554, 0xccf9734c);
  ("12345678901234567890123456789012345678901234567890123456789012345678901234567890"%string, 6, 0x7c1ccf6bba30f5a5, 0x9fa5ef6e)].

Lemma test_vectors_pass : forallb (fun '(input, seed, expected64, expected32) =>
  (_wyhash 64 (wide input) seed =? expected64) && (_wyhash 32 (wide input) seed =? expected32)) test_vectors = true.
Proof. vm_compute. reflexivity. Qed.
End Hash.

Record TextBuffer (D : Type) := mkBuffer {
  _hyperlinkMap : gmap Z wstring;
  _hyperlinkCustomIdMap : gmap wstring Z;
  _currentHyperlinkId : Z;
  _buffer : Z;
  _rows : list ROW;
  _initialAttributes : TextAttribute.t;
  _width : Z;
  _height : Z;
  _currentAttributes : TextAttribute.t;
  _firstRow : Z;
  _lastMutationId : Z;
  _cursor : Cursor.t;
  _isActiveBuffer : bool;
  _detector : D;
  _allocations : nat
}.
Arguments mkBuffer {D}. Arguments _hyperlinkMap {D}. Arguments _hyperlinkCustomIdMap {D}. Arguments _currentHyperlinkId {D}.
Arguments _buffer {D}. Arguments _rows {D}. Arguments _initialAttributes {D}. Arguments _width {D}. Arguments _height {D}.
Arguments _currentAttributes {D}. Arguments _firstRow {D}. Arguments _lastMutationId {D}. Arguments _cursor {D}. Arguments _isActiveBuffer {D}.
Arguments _detector {D}. Arguments _allocations {D}.

Definition _commitReadAheadRowCount : nat := 128.

Section Setters.
Context {D : Type}.
Implicit Types b : TextBuffer D.
Definition set_hyperlinks m c i b : TextBuffer D :=
  mkBuffer m c i (_buffer b) (_rows b) (_initialAttributes b) (_width b) (_height b) (_currentAttributes b) (_firstRow b) (_lastMutationId b) (_cursor b) (_isActiveBuffer b) (_detector b) (_allocations b).
Definition set_rows rows b : TextBuffer D :=
  mkBuffer (_hyperlinkMap b) (_hyperlinkCustomIdMap b) (_currentHyperlinkId b) (_buffer b) rows (_initialAttributes b) (_width b) (_height b) (_currentAttributes b) (_firstRow b) (_lastMutationId b) (_cursor b) (_isActiveBuffer b) (_detector b) (_allocations b).
Definition set_memory buffer rows initial width height b : TextBuffer D :=
  mkBuffer (_hyperlinkMap b) (_hyperlinkCustomIdMap b) (_currentHyperlinkId b) buffer rows initial width height (_currentAttributes b) (_firstRow b) (_lastMutationId b) (_cursor b) (_isActiveBuffer b) (_detector b) (_allocations b).
Definition set_initialAttributes a b : TextBuffer D := set_memory (_buffer b) (_rows b) a (_width b) (_height b) b.
Definition set_currentAttributes a b : TextBuffer D :=
  mkBuffer (_hyperlinkMap b) (_hyperlinkCustomIdMap b) (_currentHyperlinkId b) (_buffer b) (_rows b) (_initialAttributes b) (_width b) (_height b) a (_firstRow b) (_lastMutationId b) (_cursor b) (_isActiveBuffer b) (_detector b) (_allocations b).
Definition set_firstRow f b : TextBuffer D :=
  mkBuffer (_hyperlinkMap b) (_hyperlinkCustomIdMap b) (_currentHyperlinkId b) (_buffer b) (_rows b) (_initialAttributes b) (_width b) (_height b) (_currentAttributes b) f (_lastMutationId b) (_cursor b) (_isActiveBuffer b) (_detector b) (_allocations b).
Definition set_lastMutationId i b : TextBuffer D :=
  mkBuffer (_hyperlinkMap b) (_hyperlinkCustomIdMap b) (_currentHyperlinkId b) (_buffer b) (_rows b) (_initialAttributes b) (_width b) (_height b) (_currentAttributes b) (_firstRow b) i (_cursor b) (_isActiveBuffer b) (_detector b) (_allocations b).
Definition set_cursor c b : TextBuffer D :=
  mkBuffer (_hyperlinkMap b) (_hyperlinkCustomIdMap b) (_currentHyperlinkId b) (_buffer b) (_rows b) (_initialAttributes b) (_width b) (_height b) (_currentAttributes b) (_firstRow b) (_lastMutationId b) c (_isActiveBuffer b) (_detector b) (_allocations b).
Definition set_isActiveBuffer a b : TextBuffer D :=
  mkBuffer (_hyperlinkMap b) (_hyperlinkCustomIdMap b) (_currentHyperlinkId b) (_buffer b) (_rows b) (_initialAttributes b) (_width b) (_height b) (_currentAttributes b) (_firstRow b) (_lastMutationId b) (_cursor b) a (_detector b) (_allocations b).
Definition set_detector d n b : TextBuffer D :=
  mkBuffer (_hyperlinkMap b) (_hyperlinkCustomIdMap b) (_currentHyperlinkId b) (_buffer b) (_rows b) (_initialAttributes b) (_width b) (_height b) (_currentAttributes b) (_firstRow b) (_lastMutationId b) (_cursor b) (_isActiveBuffer b) d n.
End Setters.

Section Buffer.
Context {D : Type} `{Measurement D}.
(** As for rows; [allocated n] is the address of the [n]th allocation, and [rowSize]
    is [ROW::CalculateRowSize()], which depends on the platform. *)
Variable avx2 : bool.
Variable uninitialised : nat -> Z.
Variable allocated : nat -> Z.
Variable rowSize : Z.
(** The width of [size_t], and the order in which a hash map is iterated. *)
Variable size_bits : Z.
Variable iteration : gmap wstring Z -> list (wstring * Z).
Local Abbreviation M := (comp (TextBuffer D)).
Implicit Types b : TextBuffer D.

(** ** Memory *)

Definition _bufferRowStride b : Z := (rowSize + CalculateCharsBufferSize (_width b) + CalculateCharOffsetsBufferSize (_width b)) / 2.
Definition _bufferOffsetChars : Z := rowSize / 2.

(** [gsl::narrow<uint16_t>] throws. *)
Definition narrow_u16 (z : Z) : M Z := if (0 <=? z) && (z <? 2 ^ 16) then mret z else throw.

Definition allocate : M Z := fun b => (set_detector (_detector b) (S (_allocations b)) b, Returned (allocated (_allocations b))).

Definition _reserve (screenBufferSize : size.t) (defaultAttributes : TextAttribute.t) : M unit :=
  w ← narrow_u16 (size.width screenBufferSize);
  h ← narrow_u16 (size.height screenBufferSize);
  buffer ← allocate;
  modify (set_memory buffer [] defaultAttributes w h).

(** Constructs the rows from [_commitWatermark] on. *)
Fixpoint _construct (count : nat) : M unit :=
  match count with
  | O => mret tt
  | S count =>
    b ← gets id;
    match new_ROW avx2 uninitialised (_buffer b + Z.of_nat (length (_rows b)) * _bufferRowStride b + _bufferOffsetChars) (_width b) (_initialAttributes b) with
    | Some r => modify (set_rows (_rows b ++ [r]));; _construct count
    | None => undefined
    end
  end.

Definition _commit (offset : nat) : M unit :=
  b ← gets id;
  let remaining := (S (Z.to_nat (_height b)) - length (_rows b))%nat in
  let minimum := (S offset - length (_rows b))%nat in
  let ideal := (minimum + _commitReadAheadRowCount)%nat in
  _construct (Nat.min remaining ideal).

Definition _decommit : M unit := modify (set_rows []).

(** The slot of a row, which is committed if need be. *)
Definition _getRowByOffsetDirect (offset : Z) : M nat :=
  b ← gets id;
  if (offset <? 0) || (_height b + 1 <=? offset) then throw
  else
    (if (length (_rows b) <=? Z.to_nat offset)%nat then _commit (Z.to_nat offset) else mret tt);;
    mret (Z.to_nat offset).

(** [%] truncates. *)
Definition wrapped (y h : Z) : Z := let offset := Z.rem y h in if offset <? 0 then offset + h else offset.

Definition _getRow (y : Z) : M nat :=
  b ← gets id;
  if _height b =? 0 then undefined else _getRowByOffsetDirect (wrapped (_firstRow b + y) (_height b) + 1).

Definition _estimateOffsetOfLastCommittedRow b : Z := Z.max 0 (Z.of_nat (length (_rows b)) - 2).

Definition _isRowCommitted (y : Z) b : bool := wrapped (_firstRow b + y + 1) (_height b) <? Z.of_nat (length (_rows b)).

Definition GetRowByOffset (index : Z) : M nat := _getRow index.
Definition GetMutableRowByOffset (index : Z) : M nat :=
  modify (fun b => set_lastMutationId (u64 (_lastMutationId b + 1)) b);; _getRow index.

(** Reading through a reference, and running an operation of [ROW]. *)
Definition row_at (slot : nat) : M ROW := fun b => match _rows b !! slot with Some r => (b, Returned r) | None => (b, Undefined) end.
Definition lift {A} (o : option A) : M A := match o with Some a => mret a | None => undefined end.
Definition put_row (slot : nat) (r : ROW) : M unit := fun b => if (slot <? length (_rows b))%nat then (set_rows (<[slot := r]> (_rows b)) b, Returned tt) else (b, Undefined).
Definition update_row (slot : nat) (f : ROW -> ROW) : M unit := r ← row_at slot; put_row slot (f r).
Definition with_row {A} (slot : nat) (f : Z -> ROW -> D -> ROW * D * outcome A) : M A := fun b =>
  match _rows b !! slot with
  | Some r => let '(r, d, o) := f (allocated (_allocations b)) r (_detector b) in (set_detector d (S (_allocations b)) (set_rows (<[slot := r]> (_rows b)) b), o)
  | None => (b, Undefined)
  end.
Definition with_attributes {A} (slot : nat) (f : ROW -> ROW * outcome A) : M A := with_row slot (fun _ r d => let '(r, o) := f r in (r, d, o)).
Definition with_text {A} (slot : nat) (f : ROW -> option A) : M A := r ← row_at slot; lift (f r).

Definition row_Reset (slot : nat) (attr : TextAttribute.t) : M unit := r ← row_at slot; r ← lift (Reset avx2 uninitialised attr r); put_row slot r.

Definition GetScratchpadRow (attributes : TextAttribute.t) : M nat :=
  slot ← _getRowByOffsetDirect 0;
  row_Reset slot attributes;;
  mret slot.

(** ** Construction *)

Definition TextBuffer_new (screenBufferSize : size.t) (defaultAttributes : TextAttribute.t) (cursorSize : Z) (isActiveBuffer : bool) (mutationId : Z) (d : D) (allocations : nat)
  : TextBuffer D * outcome unit :=
  let screenBufferSize := size.mk (Z.max (size.width screenBufferSize) 1) (Z.max (size.height screenBufferSize) 1) in
  _reserve screenBufferSize defaultAttributes
    (mkBuffer ∅ ∅ 1 0 [] TextAttribute.default 0 0 defaultAttributes 0 mutationId (Cursor.new cursorSize) isActiveBuffer d allocations).

Definition CopyProperties (other : TextBuffer D) : M unit := modify (fun b => set_cursor (Cursor.CopyProperties (_cursor other) (_cursor b)) b).
Definition TotalRowCount b : Z := _height b.
Definition GetSize b : Viewport.t := Viewport.FromDimensions (point.mk 0 0) (size.mk (_width b) (_height b)).

(** ** Writing *)

Definition ReplaceText_at (slot : nat) (state : RowWriteState) : M RowWriteState := with_row slot (fun a => ReplaceText avx2 uninitialised a state).
Definition CopyFrom_at (slot : nat) (source : ROW) (aliased : bool) : M unit := with_row slot (fun a => CopyFrom avx2 uninitialised a source aliased).
Definition EraseImage_at (slot : nat) (columnBegin columnEnd : Z) : M unit := r ← with_text slot (ImageSlice_EraseCells columnBegin columnEnd); put_row slot r.

Definition Replace (row : Z) (attributes : TextAttribute.t) (state : RowWriteState) : M RowWriteState :=
  r ← GetMutableRowByOffset row;
  state ← ReplaceText_at r state;
  with_attributes r (ReplaceAttributes (ws_columnBegin state) (ws_columnEnd state) attributes);;
  EraseImage_at r (ws_columnBegin state) (ws_columnEnd state);;
  mret state.

(** The attributes behind the inserted text. *)
Definition restore_attributes (r scratch : nat) (state restoreState : RowWriteState) (copyAmount : Z) : M unit :=
  first ← narrow_u16 (ws_columnBegin state);
  last ← narrow_u16 (ws_columnBegin state + copyAmount);
  scratchRow ← row_at scratch;
  let restoreAttr := slice 16 first last (_attr scratchRow) in
  dstFirst ← narrow_u16 (ws_columnBegin restoreState);
  dstLast ← narrow_u16 (ws_columnEnd restoreState);
  with_attributes r (fun row => let '(a, o) := replace_rle 16 dstFirst dstLast restoreAttr (_attr row) in (set_attr a row, o)).

Definition Insert (row : Z) (attributes : TextAttribute.t) (state : RowWriteState) : M RowWriteState :=
  r ← GetMutableRowByOffset row;
  current ← gets _currentAttributes;
  scratch ← GetScratchpadRow current;
  source ← row_at r;
  CopyFrom_at scratch source false;;
  state ← ReplaceText_at r state;
  with_attributes r (ReplaceAttributes (ws_columnBegin state) (ws_columnEnd state) attributes);;
  scratchRow ← row_at scratch;
  text ← lift (GetTextBetween (ws_columnBegin state) (ws_columnLimit state) scratchRow);
  first ← lift (GetCharOffset (ws_columnBegin state) scratchRow);
  restoreState ← ReplaceText_at r (mkWriteState (mkView (_data scratchRow + first) text) (ws_columnEnd state) (ws_columnLimit state) 0 0 0);
  let copyAmount := ws_columnEnd restoreState - ws_columnBegin restoreState in
  (if 0 <? copyAmount then
     restore_attributes r scratch state restoreState copyAmount;;
     source ← row_at r;
     r' ← lift (ImageSlice_CopyCells source true (ws_columnBegin state) (ws_columnBegin restoreState) (ws_columnEnd restoreState) source);
     put_row r r'
   else mret tt);;
  EraseImage_at r (ws_columnBegin state) (ws_columnBegin restoreState);;
  mret state.

(** Consecutive copies of the fill characters in the scratchpad row. *)
Fixpoint fill_scratchpad (fuel : nat) (scratchpad : nat) (right : Z) (fill : wstring_view) (state : RowWriteState) : M unit :=
  if ws_columnEnd state <? right then
    match fuel with
    | O => out_of_fuel
    | S fuel =>
      state ← ReplaceText_at scratchpad (mkWriteState fill (ws_columnEnd state) (ws_columnLimit state) (ws_columnEnd state) (ws_columnBeginDirty state) (ws_columnEndDirty state));
      fill_scratchpad fuel scratchpad right fill state
    end
  else mret tt.

Definition fill_row (r : rect.t) (attributes : TextAttribute.t) (scratchpad : nat) (y : Z) : M unit :=
  slot ← GetMutableRowByOffset y;
  source ← row_at scratchpad;
  with_row slot (fun a => CopyTextFrom avx2 uninitialised a source (Nat.eqb slot scratchpad) (mkCopyState (rect.left r) (rect.right r) (rect.left r) CoordTypeMax 0 0 0 0));;
  with_attributes slot (ReplaceAttributes (rect.left r) (rect.right r) attributes);;
  EraseImage_at slot (rect.left r) (rect.right r).

(** [for (y = first; y < last; ++y)] *)
Fixpoint for_rows (count : nat) (y : Z) (f : Z -> M unit) : M unit :=
  match count with
  | O => mret tt
  | S count => f y;; for_rows count (y + 1) f
  end.

Definition FillRect (r : rect.t) (fill : wstring_view) (attributes : TextAttribute.t) : M unit :=
  if negb (rect.is_valid r) || (match text fill with [] => true | _ => false end) then mret tt
  else
    scratchpad ← GetScratchpadRow attributes;
    b ← gets id;
    (if decide (text fill = [UNICODE_SPACE]) then mret tt
     else fill_scratchpad (Z.to_nat (_width b)) scratchpad (rect.right r) fill (mkWriteState (mkView 0 []) 0 (rect.right r) (rect.left r) 0 0));;
    for_rows (Z.to_nat (rect.bottom r - rect.top r)) (rect.top r) (fill_row r attributes scratchpad).

(** ** The ring *)

Definition CopyRow_into (source : ROW) (aliased : bool) (dstSlot : nat) : M unit :=
  CopyFrom_at dstSlot source aliased;; update_row dstSlot (ImageSlice_CopyRow source).
(** Within this buffer. *)
Definition CopyRow (srcRowIndex dstRowIndex : Z) : M unit :=
  dstSlot ← GetMutableRowByOffset dstRowIndex;
  srcSlot ← GetRowByOffset srcRowIndex;
  source ← row_at srcSlot;
  CopyRow_into source (Nat.eqb srcSlot dstSlot) dstSlot.

(** [for (; y != end; y += step)], with the number of rounds that it has. *)
Fixpoint scroll_loop (count : nat) (y step delta : Z) : M unit :=
  match count with
  | O => mret tt
  | S count => CopyRow y (y + delta);; scroll_loop count (y + step) step delta
  end.

Definition ScrollRows (firstRow size delta : Z) : M unit :=
  if delta =? 0 then mret tt
  else
    let size := Z.max 0 size in
    if delta <? 0 then scroll_loop (Z.to_nat size) firstRow 1 delta
    else scroll_loop (Z.to_nat size) (firstRow + size - 1) (-1) delta.

Definition FillRect_cells (left top right bottom : Z) (attributes : TextAttribute.t) : M unit :=
  FillRect (rect.mk left top right bottom) (mkView 1 [UNICODE_SPACE]) attributes.

(** *** Hyperlinks *)

Definition AddHyperlinkToMap (uri : wstring) (linkId : Z) : M unit :=
  modify (fun b => set_hyperlinks (<[linkId := uri]> (_hyperlinkMap b)) (_hyperlinkCustomIdMap b) (_currentHyperlinkId b) b).
(** [at] throws. *)
Definition GetHyperlinkUriFromId (linkId : Z) : M wstring := b ← gets id; match _hyperlinkMap b !! linkId with Some uri => mret uri | None => throw end.

Definition skip_zero (id : Z) : Z := if id =? 0 then 1 else id.
Definition GetHyperlinkId (uri customId : wstring) : M Z :=
  b ← gets id;
  let current := _currentHyperlinkId b in
  match customId with
  | [] => modify (set_hyperlinks (_hyperlinkMap b) (_hyperlinkCustomIdMap b) (skip_zero (u16 (current + 1))));; mret current
  | _ =>
    let newId := customId ++ [0x25] ++ decimal 20 (Hash.hash size_bits uri) in
    match _hyperlinkCustomIdMap b !! newId with
    | Some numericId => modify (set_hyperlinks (_hyperlinkMap b) (_hyperlinkCustomIdMap b) (skip_zero current));; mret numericId
    | None => modify (set_hyperlinks (_hyperlinkMap b) (<[newId := current]> (_hyperlinkCustomIdMap b)) (skip_zero (u16 (current + 1))));; mret current
    end
  end.

Definition custom_id_of (linkId : Z) (m : gmap wstring Z) : option wstring := '(_, entry) ← list_find (fun entry => entry.2 = linkId) (iteration m); Some entry.1.
Definition RemoveHyperlinkFromMap (linkId : Z) : M unit :=
  modify (fun b => set_hyperlinks (delete linkId (_hyperlinkMap b))
    (match custom_id_of linkId (_hyperlinkCustomIdMap b) with Some key => delete key (_hyperlinkCustomIdMap b) | None => _hyperlinkCustomIdMap b end) (_currentHyperlinkId b) b).
Definition GetCustomIdFromId (linkId : Z) b : wstring := default [] (custom_id_of linkId (_hyperlinkCustomIdMap b)).
Definition CopyHyperlinkMaps (other : TextBuffer D) : M unit :=
  modify (set_hyperlinks (_hyperlinkMap other) (_hyperlinkCustomIdMap other) (_currentHyperlinkId other)).

(** Which of the references of the first row are in none of the other rows. *)
Fixpoint unreferenced (count : nat) (i : Z) (refs : gset Z) : M (gset Z) :=
  match count with
  | O => mret refs
  | S count =>
    slot ← GetRowByOffset i;
    r ← row_at slot;
    let refs := refs ∖ list_to_set (GetHyperlinks r) in
    if decide (refs = ∅) then mret refs else unreferenced count (i + 1) refs
  end.
Fixpoint remove_hyperlinks (ids : list Z) : M unit :=
  match ids with [] => mret tt | id :: ids => RemoveHyperlinkFromMap id;; remove_hyperlinks ids end.
Definition _PruneHyperlinks : M unit :=
  slot ← GetRowByOffset 0;
  r ← row_at slot;
  match GetHyperlinks r with
  | [] => mret tt
  | hyperlinks => b ← gets id; refs ← unreferenced (Z.to_nat (TotalRowCount b) - 1) 1 (list_to_set hyperlinks); remove_hyperlinks (elements refs)
  end.

Definition IncrementCircularBuffer (fillAttributes : TextAttribute.t) : M unit :=
  _PruneHyperlinks;;
  slot ← GetMutableRowByOffset 0;
  row_Reset slot fillAttributes;;
  modify (fun b => set_firstRow (if Viewport.Height (GetSize b) <=? _firstRow b + 1 then 0 else _firstRow b + 1) b).

(** ** Queries *)

(** Upwards while the rows are empty. *)
Fixpoint last_non_space (fuel : nat) (viewportTop : Z) (p : point.t) : M point.t :=
  if (point.x p <? 0) && (viewportTop <? point.y p) then
    match fuel with
    | O => out_of_fuel
    | S fuel =>
      slot ← GetRowByOffset (point.y p - 1);
      x ← with_text slot MeasureRight;
      last_non_space fuel viewportTop (point.mk (x - 1) (point.y p - 1))
    end
  else mret p.
Definition GetLastNonSpaceCharacter (viewOptional : option Viewport.t) : M point.t :=
  b ← gets id;
  let viewport := default (GetSize b) viewOptional in
  let y := Z.min (Viewport.BottomInclusive viewport) (_estimateOffsetOfLastCommittedRow b) in
  slot ← GetRowByOffset y;
  x ← with_text slot MeasureRight;
  p ← last_non_space (Z.to_nat (y - Viewport.Top viewport)) (Viewport.Top viewport) (point.mk (x - 1) y);
  mret (point.mk (Z.max (point.x p) 0) (Z.max (point.y p) 0)).

Definition GetLineRendition (row : Z) : M Z :=
  b ← gets id;
  if negb (_isRowCommitted row b) then mret LineRendition.SingleWidth else slot ← GetRowByOffset row; r ← row_at slot; mret (_lineRendition r).
Definition IsDoubleWidthLine (row : Z) : M bool := rendition ← GetLineRendition row; mret (negb (rendition =? LineRendition.SingleWidth)).
Definition line_scale (row : Z) : M Z := double ← IsDoubleWidthLine row; mret (Z.b2z double).
Definition GetLineWidth (row : Z) : M Z := scale ← line_scale row; b ← gets id; mret (Z.shiftr (Viewport.Width (GetSize b)) scale).
Definition ClampPositionWithinLine (position : point.t) : M point.t :=
  w ← GetLineWidth (point.y position); mret (point.mk (Z.min (point.x position) (w - 1)) (point.y position)).
Definition ScreenToBufferPosition (position : point.t) : M point.t :=
  scale ← line_scale (point.y position); mret (point.mk (Z.shiftr (point.x position) scale) (point.y position)).
Definition BufferToScreenPosition (position : point.t) : M point.t :=
  scale ← line_scale (point.y position); mret (point.mk (Z.shiftl (point.x position) scale) (point.y position)).

Definition IsGlyphDoubleWidthAt (at_ : point.t) : M bool :=
  b ← gets id;
  if negb (_isRowCommitted (point.y at_) b) then mret false
  else slot ← _getRow (point.y at_); a ← with_text slot (DbcsAttrAt (point.x at_)); mret (match a with DbcsSingle => false | _ => true end).

Fixpoint blinking_rows (count : nat) (y : Z) : M bool :=
  match count with
  | O => mret false
  | S count =>
    slot ← GetRowByOffset y;
    r ← row_at slot;
    if existsb TextAttribute.IsBlinking (map value (_runs (_attr r))) then mret true else blinking_rows count (y + 1)
  end.
Definition ContainsBlinkAttributeInRegion (region : Viewport.t) : M bool :=
  b ← gets id;
  let bottom := Z.min (Viewport.BottomInclusive region) (_estimateOffsetOfLastCommittedRow b) in
  blinking_rows (Z.to_nat (bottom - Viewport.Top region)) (Viewport.Top region).

(** As if an arrow key was pressed so many times. *)
Fixpoint navigate_left (count : nat) (x y : Z) : M point.t :=
  match count with
  | O => mret (point.mk x y)
  | S count =>
    if 0 <? x then slot ← GetRowByOffset y; x ← with_text slot (NavigateToPrevious x); navigate_left count x y
    else if y <=? 0 then mret (point.mk x y)
    else slot ← GetRowByOffset (y - 1); r ← row_at slot; navigate_left count (GetReadableColumnCount r - 1) (y - 1)
  end.
Fixpoint navigate_right (count : nat) (maxY x y : Z) : M point.t :=
  match count with
  | O => mret (point.mk x y)
  | S count =>
    slot ← GetRowByOffset y;
    r ← row_at slot;
    if x <? GetReadableColumnCount r then x ← lift (NavigateToNext x r); navigate_right count maxY x y
    else if maxY <=? y then mret (point.mk x y)
    else slot ← GetRowByOffset (y + 1); navigate_right count maxY 0 (y + 1)
  end.
Definition NavigateCursor (position : point.t) (distance : Z) : M point.t :=
  b ← gets id;
  let x := clamp (point.x position) 0 (_width b - 1) in
  let y := clamp (point.y position) 0 (_height b - 1) in
  slot ← GetRowByOffset y;
  if distance <? 0 then navigate_left (Z.to_nat (- distance)) x y
  else navigate_right (Z.to_nat distance) (_height b - 1) x y.

(** ** Renditions, clearing and resizing *)

Definition SetCurrentAttributes (a : TextAttribute.t) : M unit := modify (set_currentAttributes a).
Definition SetWrapForced_at (y : Z) (wrap : bool) : M unit := slot ← GetMutableRowByOffset y; update_row slot (SetWrapForced wrap).
Definition SetAsActiveBuffer (isActive : bool) : M unit := modify (set_isActiveBuffer isActive).

Definition SetCurrentLineRendition (lineRendition : Z) (fillAttributes : TextAttribute.t) : M unit :=
  b ← gets id;
  let cursorPosition := Cursor._cPosition (_cursor b) in
  let rowIndex := point.y cursorPosition in
  slot ← GetMutableRowByOffset rowIndex;
  r ← row_at slot;
  if _lineRendition r =? lineRendition then mret tt
  else
    update_row slot (fun r => SetImageSlice None (SetWrapForced false (SetLineRendition lineRendition r)));;
    if lineRendition =? LineRendition.SingleWidth then mret tt
    else
      fillOffset ← GetLineWidth rowIndex;
      FillRect_cells fillOffset rowIndex CoordTypeMax (rowIndex + 1) fillAttributes;;
      p ← ClampPositionWithinLine cursorPosition;
      modify (fun b => set_cursor (Cursor.SetPosition p (_cursor b)) b).

Definition ResetLineRenditionRange (startRow endRow : Z) : M unit :=
  for_rows (Z.to_nat (endRow - startRow)) startRow (fun row => slot ← GetMutableRowByOffset row; update_row slot (SetLineRendition LineRendition.SingleWidth)).

Definition TextBuffer_Reset : M unit := _decommit;; modify (fun b => set_initialAttributes (_currentAttributes b) b).

Definition unmark (kind : MarkKind) (r : ROW) : ROW := set_attr (set_runs (map (fun run => mkRun (TextAttribute.SetMarkAttributes kind (value run)) (length_ run)) (_runs (_attr r))) (_attr r)) r.
Definition ClearMarksInRange (start last : point.t) : M unit :=
  b ← gets id;
  let top := clamp (Z.min (point.y start) (point.y last)) 0 (_height b - 1) in
  let bottom := clamp (Z.max (point.y start) (point.y last)) 0 (_estimateOffsetOfLastCommittedRow b) in
  for_rows (Z.to_nat (bottom + 1 - top)) top (fun y => slot ← GetMutableRowByOffset y; update_row slot (fun r => unmark MarkNone (SetScrollbarData None r))).

Definition ClearScrollback (newFirstRow rowsToKeep : Z) : M unit :=
  if newFirstRow <=? 0 then mret tt
  else if rowsToKeep <=? 0 then _decommit
  else
    b ← gets id;
    ClearMarksInRange (point.mk 0 0) (point.mk (_width b) (Z.max 0 (newFirstRow - 1)));;
    let startAbsolute := _firstRow b + newFirstRow in
    modify (set_firstRow 0);;
    ScrollRows startAbsolute rowsToKeep (- startAbsolute);;
    b ← gets id;
    for_rows (Z.to_nat (_estimateOffsetOfLastCommittedRow b + 1 - rowsToKeep)) rowsToKeep (fun y => slot ← GetMutableRowByOffset y; row_Reset slot (_initialAttributes b)).

(** The rows that are copied into the new buffer. *)
Fixpoint resize_copy (count : nat) (srcRow dstRow : Z) (newBuffer : TextBuffer D) : M (TextBuffer D) :=
  match count with
  | O => mret newBuffer
  | S count =>
    match GetMutableRowByOffset dstRow newBuffer with
    | (newBuffer, Returned dstSlot) =>
      srcSlot ← GetRowByOffset srcRow;
      source ← row_at srcSlot;
      match CopyRow_into source false dstSlot newBuffer with
      | (newBuffer, Returned _) => resize_copy count (srcRow + 1) (dstRow + 1) newBuffer
      | (_, Threw) => throw
      | (_, Undefined) => undefined
      | (_, OutOfFuel) => out_of_fuel
      end
    | (_, Threw) => throw
    | (_, Undefined) => undefined
    | (_, OutOfFuel) => out_of_fuel
    end
  end.

Definition ResizeTraditional (newSize : size.t) (mutationId : Z) : M unit :=
  b ← gets id;
  let newSize := size.mk (Z.max (size.width newSize) 1) (Z.max (size.height newSize) 1) in
  match TextBuffer_new newSize (_currentAttributes b) 0 false mutationId (_detector b) (_allocations b) with
  | (newBuffer, Returned _) =>
    let cursorRow := point.y (Cursor._cPosition (_cursor b)) in
    let copyableRows := Z.min (_height b) (size.height newSize) in
    let srcRow := if size.height newSize <=? cursorRow then cursorRow - size.height newSize + 1 else 0 in
    newBuffer ← resize_copy (Z.to_nat copyableRows) srcRow 0 newBuffer;
    modify (fun b => set_firstRow 0 (set_detector (_detector newBuffer) (Nat.max (_allocations b) (_allocations newBuffer))
      (set_memory (_buffer newBuffer) (_rows newBuffer) (_initialAttributes newBuffer) (_width newBuffer) (_height newBuffer) b)))
  | (_, Threw) => throw
  | (_, Undefined) => undefined
  | (_, OutOfFuel) => out_of_fuel
  end.
End Buffer.

(** ** Measuring text *)

Section Statics.
Context {D : Type} `{Measurement D}.

Definition TextBuffer_GraphemeNext (chars : wstring_view) (position : Z) (d : D) : D * Z :=
  let '(d, (state, _)) := measure_next (mkGraphemeState (data chars + position) 0 0 0 0) chars d in (d, position + len state).

Fixpoint fit_clusters (fuel : nat) (chars : wstring_view) (columnLimit dist col : Z) (state : GraphemeState) (d : D) : option (D * (Z * Z)) :=
  if dist <? view_size chars then
    match fuel with
    | O => None
    | S fuel =>
      let '(d, (state, _)) := measure_next state chars d in
      let col := col + width state in
      if columnLimit <? col then Some (d, (dist, col)) else fit_clusters fuel chars columnLimit (dist + len state) col state d
    end
  else Some (d, (dist, col)).

(** How many characters of ASCII a string starts with. *)
Fixpoint ascii_prefix (s : wstring) : nat := match s with c :: s => if c <? 0x80 then S (ascii_prefix s) else O | [] => O end.

(** The number of characters, and of columns; [None]: the loop has not ended. *)
Definition FitTextIntoColumns (chars : wstring_view) (columnLimit : Z) (d : D) : option (D * (Z * Z)) :=
  let columnLimit := Z.max 0 columnLimit in
  let ascii := take (Z.to_nat (Z.min (view_size chars) columnLimit)) (text chars) in
  let dist := Z.of_nat (ascii_prefix ascii) in
  if dist =? Z.of_nat (length ascii) then Some (d, (dist, dist))
  else
    let dist := if dist =? 0 then 0 else dist - 1 in
    fit_clusters (S (length (text chars))) chars columnLimit dist dist (mkGraphemeState (data chars + dist) 0 0 0 0) d.
End Statics.

Definition TextBuffer_GraphemePrev (chars : wstring_view) (position : Z) (d : CodepointWidthDetector) : CodepointWidthDetector * Z :=
  let '(d, (state, _)) := GraphemePrev (mkGraphemeState (data chars + position) 0 0 0 0) chars d in (d, position - len state).
