(* ===== verification/TextBufferProps.v ===== *)
(** * Theorems about the text buffer

    A buffer shows a list of lines. Committing memory on demand and rotating the ring
    do not show; each operation changes the lines that it names. *)

From stdpp Require Import list gmap.
From S2P Require Import Prelude Til Utils TermDispatch TextAttributes Rle RleProps CodepointWidth CodepointWidthProps Geometry ImageSlice Row RowWrite RowProps RowWriteProps RowText RowTextProps RowInvariant RowCopy Cursor TextBuffer.

Lemma wrapped_mod y h : 0 < h -> wrapped y h = y mod h.
Proof.
  intros Hh. unfold wrapped. pose proof (Z.quot_rem y h ltac:(lia)) as Hq. destruct (Z.ltb_spec (Z.rem y h) 0).
  - pose proof (Z.rem_bound_pos_neg y h). apply (Z.mod_unique y h (Z.quot y h - 1)); [|lia]. left. pose proof (Z.rem_bound_abs y h ltac:(lia)). lia.
  - apply (Z.mod_unique y h (Z.quot y h)); [|lia]. left. pose proof (Z.rem_bound_abs y h ltac:(lia)). lia.
Qed.

Section Props.
Context {D : Type} `{MeasurementLaws D}.
Variable avx2 : bool.
Variable uninitialised : nat -> Z.
Variable allocated : nat -> Z.
Variable rowSize : Z.
Variable size_bits : Z.
Variable iteration : gmap wstring Z -> list (wstring * Z).
Implicit Types b : TextBuffer D.

Local Abbreviation _construct := (TextBuffer._construct avx2 uninitialised rowSize).
Local Abbreviation _commit := (TextBuffer._commit avx2 uninitialised rowSize).
Local Abbreviation _getRowByOffsetDirect := (TextBuffer._getRowByOffsetDirect avx2 uninitialised rowSize).
Local Abbreviation _getRow := (TextBuffer._getRow avx2 uninitialised rowSize).
Local Abbreviation GetRowByOffset := (TextBuffer.GetRowByOffset avx2 uninitialised rowSize).
Local Abbreviation GetMutableRowByOffset := (TextBuffer.GetMutableRowByOffset avx2 uninitialised rowSize).

(** ** What a buffer shows *)

(** A row as it is constructed, and the row of a slot, constructed or not. *)
Definition fresh_row b (slot : nat) : option ROW :=
  new_ROW avx2 uninitialised (_buffer b + Z.of_nat slot * _bufferRowStride rowSize b + _bufferOffsetChars rowSize) (_width b) (_initialAttributes b).
Definition slot_row b (slot : nat) : option ROW := match _rows b !! slot with Some r => Some r | None => fresh_row b slot end.
Definition slot_of b (y : Z) : nat := Z.to_nat ((_firstRow b + y) mod _height b + 1).
Definition line b (y : Z) : option ROW := slot_row b (slot_of b y).
Definition lines b : list (option ROW) := map (fun y => line b (Z.of_nat y)) (seq 0 (Z.to_nat (_height b))).

Record buffer_ok b : Prop := {
  buffer_width : 1 <= _width b < 0x8000;
  buffer_height : 1 <= _height b < 2 ^ 16;
  buffer_first : 0 <= _firstRow b < _height b;
  buffer_committed : (length (_rows b) <= S (Z.to_nat (_height b)))%nat;
  buffer_rows : Forall (fun r => row_good r /\ _columnCount r = _width b) (_rows b)
}.

(** More rows are constructed, and nothing else. *)
Record grown b b' : Prop := {
  grown_same : b' = set_rows (_rows b') b;
  grown_rows : exists new, _rows b' = _rows b ++ new /\ forall i r, new !! i = Some r -> fresh_row b (length (_rows b) + i) = Some r
}.

Lemma grown_refl b : grown b b.
Proof. split; [by destruct b|]. exists []. by rewrite app_nil_r. Qed.

Lemma fresh_set_rows b rows slot : fresh_row (set_rows rows b) slot = fresh_row b slot.
Proof. done. Qed.

Lemma grown_trans b1 b2 b3 : grown b1 b2 -> grown b2 b3 -> grown b1 b3.
Proof.
  intros [S1 (n1 & E1 & F1)] [S2 (n2 & E2 & F2)]. split; [rewrite S2, S1; done|]. exists (n1 ++ n2). rewrite E2, E1, app_assoc. split; [done|].
  intros i r Hi. apply lookup_app_Some in Hi as [Hi|[Hl Hi]]; [by apply F1|]. specialize (F2 _ _ Hi). rewrite S1 in F2. rewrite fresh_set_rows in F2. cbn [set_rows _rows] in F2.
  rewrite E1, length_app in F2. replace (length (_rows b1) + i)%nat with (length (_rows b1) + length n1 + (i - length n1))%nat by lia. done.
Qed.

Lemma grown_slot b b' slot : grown b b' -> slot_row b' slot = slot_row b slot.
Proof.
  intros [S (new & E & F)]. unfold slot_row. rewrite E. destruct (_rows b !! slot) eqn:Hb; [by rewrite (lookup_app_l_Some _ _ _ _ Hb)|].
  apply lookup_ge_None in Hb. rewrite lookup_app_r by done. destruct (new !! (slot - length (_rows b))%nat) eqn:Hn.
  - apply F in Hn. replace (length (_rows b) + (slot - length (_rows b)))%nat with slot in Hn by lia. done.
  - by rewrite S, fresh_set_rows.
Qed.

Lemma grown_line b b' y : grown b b' -> line b' y = line b y.
Proof. intros Hg. unfold line. rewrite (grown_slot b b' _ Hg). destruct Hg as [-> _]. done. Qed.

Lemma grown_lines b b' : grown b b' -> lines b' = lines b.
Proof.
  intros Hg. unfold lines. assert (_height b' = _height b) as -> by (destruct Hg as [-> _]; done). apply map_ext. intros y. by apply grown_line.
Qed.

Lemma fresh_row_good b slot r : 1 <= _width b < 0x8000 -> fresh_row b slot = Some r -> row_good r /\ _columnCount r = _width b.
Proof.
  intros Hw E. unfold fresh_row in E. destruct (new_row_good avx2 uninitialised (_buffer b + Z.of_nat slot * _bufferRowStride rowSize b + _bufferOffsetChars rowSize) (_width b) (_initialAttributes b) Hw) as (r' & E' & Hg).
  rewrite E in E'. injection E' as <-. split; [done|]. unfold new_ROW, _init in E. cbn [_columnCount] in E. destruct (init_buffers _ _ _); [|done]. by injection E as <-.
Qed.

(** ** Committing *)

Lemma construct_ok n : forall b, 1 <= _width b < 0x8000 ->
  exists new, _construct n b = (set_rows (_rows b ++ new) b, Returned tt) /\ length new = n /\ forall i r, new !! i = Some r -> fresh_row b (length (_rows b) + i) = Some r.
Proof.
  induction n as [|n IH]; intros b Hw; cbn [TextBuffer._construct].
  { exists []. rewrite app_nil_r. split; [by destruct b|done]. }
  unfold mbind, comp_bind, gets. cbn [id]. fold (fresh_row b (length (_rows b))).
  destruct (fresh_row b (length (_rows b))) as [r|] eqn:E; [|exfalso; destruct (new_row_good avx2 uninitialised (_buffer b + Z.of_nat (length (_rows b)) * _bufferRowStride rowSize b + _bufferOffsetChars rowSize) (_width b) (_initialAttributes b) Hw) as (? & E' & _); unfold fresh_row in E; congruence].
  unfold modify. destruct (IH (set_rows (_rows b ++ [r]) b) Hw) as (new & -> & Hl & Hn). exists (r :: new). cbn [set_rows _rows]. rewrite <- app_assoc. split; [done|]. split; [simpl; lia|].
  intros [|i] r' Hi; [injection Hi as <-; by rewrite Nat.add_0_r|]. specialize (Hn i r' Hi). rewrite fresh_set_rows in Hn. cbn [set_rows _rows] in Hn. rewrite length_app in Hn. simpl in Hn.
  replace (length (_rows b) + S i)%nat with (length (_rows b) + 1 + i)%nat by lia. done.
Qed.

Lemma direct_ok b offset : buffer_ok b -> 0 <= offset <= _height b ->
  exists b', _getRowByOffsetDirect offset b = (b', Returned (Z.to_nat offset)) /\ grown b b' /\ buffer_ok b' /\ (Z.to_nat offset < length (_rows b'))%nat.
Proof.
  intros Hb Ho. pose proof Hb as [Hw Hh Hf Hc Hr]. unfold TextBuffer._getRowByOffsetDirect. unfold mbind at 1, comp_bind at 1, gets. cbn [id].
  destruct (Z.ltb_spec offset 0); [lia|]. destruct (Z.leb_spec (_height b + 1) offset); [lia|]. cbn [orb].
  destruct (Nat.leb_spec (length (_rows b)) (Z.to_nat offset)) as [Hle|Hlt].
  - unfold TextBuffer._commit. unfold mbind, comp_bind, gets. cbn [id]. set (n := Nat.min _ _).
    destruct (construct_ok n b Hw) as (new & -> & Hl & Hn). eexists. split; [done|].
    assert (Hg : grown b (set_rows (_rows b ++ new) b)) by (split; [done|by exists new]). split; [done|]. split.
    + split; try done; cbn [set_rows _rows _height _width].
      * rewrite length_app. unfold n in Hl. lia.
      * apply Forall_app. split; [done|]. apply Forall_forall. intros r Hin. apply list_elem_of_lookup in Hin as [i Hi]. by eapply fresh_row_good, Hn.
    + cbn [set_rows _rows]. rewrite length_app. unfold n, _commitReadAheadRowCount in Hl. lia.
  - exists b. split; [done|]. split; [apply grown_refl|done].
Qed.

Lemma getRow_ok b y : buffer_ok b ->
  exists b', _getRow y b = (b', Returned (slot_of b y)) /\ grown b b' /\ buffer_ok b' /\ (slot_of b y < length (_rows b'))%nat.
Proof.
  intros Hb. pose proof Hb as [Hw Hh Hf Hc Hr]. unfold TextBuffer._getRow. unfold mbind at 1, comp_bind at 1, gets. cbn [id].
  destruct (Z.eqb_spec (_height b) 0); [lia|]. rewrite wrapped_mod by lia. unfold slot_of. pose proof (Z.mod_pos_bound (_firstRow b + y) (_height b) ltac:(lia)).
  apply direct_ok; [done|lia].
Qed.

(** ** Frames and slots *)

(** Everything but the rows, the detector, and the counters of changes and
    allocations. *)
Definition frame b := (_hyperlinkMap b, _hyperlinkCustomIdMap b, _currentHyperlinkId b, (_buffer b, _initialAttributes b, _width b, _height b), (_currentAttributes b, _firstRow b, _cursor b, _isActiveBuffer b)).

(** The buffer shows in its slots what [show] says, and is otherwise the same. *)
Record shows b (show : nat -> option ROW) b' : Prop := {
  shows_frame : frame b' = frame b;
  shows_slot : forall slot, slot_row b' slot = show slot;
  shows_detector : same_measure (_detector b) (_detector b')
}.

Definition updated (slot : nat) (r : ROW) (show : nat -> option ROW) : nat -> option ROW := fun s => if decide (s = slot) then Some r else show s.

Lemma frame_fields b b' : frame b' = frame b ->
  _width b' = _width b /\ _height b' = _height b /\ _firstRow b' = _firstRow b /\ _hyperlinkMap b' = _hyperlinkMap b /\ _cursor b' = _cursor b /\
  _currentAttributes b' = _currentAttributes b /\ _initialAttributes b' = _initialAttributes b.
Proof. unfold frame. intros E. by injection E. Qed.

Lemma fresh_frame b b' slot : frame b' = frame b -> fresh_row b' slot = fresh_row b slot.
Proof. unfold frame. intros E. simplify_eq. unfold fresh_row, _bufferRowStride. congruence. Qed.

Lemma slot_of_frame b b' y : frame b' = frame b -> slot_of b' y = slot_of b y.
Proof. unfold frame. intros E. simplify_eq. unfold slot_of. congruence. Qed.

Lemma grown_shows b b' : grown b b' -> measure_ok (_detector b) -> shows b (slot_row b) b'.
Proof. intros Hg Hd. pose proof (grown_slot b b') as Hs. destruct Hg as [E Hr] eqn:Heq. split; [by rewrite E|intros; by apply Hs|]. rewrite E. by split. Qed.

Record good_buffer b : Prop := {
  good_ok : buffer_ok b;
  good_detector : measure_ok (_detector b)
}.

(** A reference to a row, for reading or writing. *)
Lemma get_ok b y : good_buffer b -> exists b' r, GetRowByOffset y b = (b', Returned (slot_of b y)) /\ good_buffer b' /\ shows b (slot_row b) b' /\ _detector b' = _detector b /\
  _rows b' !! slot_of b y = Some r /\ line b y = Some r /\ row_good r /\ _columnCount r = _width b.
Proof.
  intros [Hb Hd]. destruct (getRow_ok b y Hb) as (b' & E & Hg & Hb' & Hl). destruct (lookup_lt_is_Some_2 _ _ Hl) as [r Hr]. exists b', r.
  assert (Ed : _detector b' = _detector b) by (destruct Hg as [-> _]; done). split; [done|]. split; [split; [done|by rewrite Ed]|]. split; [by apply grown_shows|]. split; [done|]. split; [done|].
  assert (_width b' = _width b) as <- by (destruct Hg as [-> _]; done).
  split; [|apply (Forall_lookup_1 _ _ _ _ (buffer_rows b' Hb') Hr)]. unfold line. rewrite <- (grown_slot b b' _ Hg). unfold slot_row. by rewrite Hr.
Qed.

Lemma get_mutable_ok b y : good_buffer b -> exists b' r, GetMutableRowByOffset y b = (b', Returned (slot_of b y)) /\ good_buffer b' /\ shows b (slot_row b) b' /\ _detector b' = _detector b /\
  _rows b' !! slot_of b y = Some r /\ line b y = Some r /\ row_good r /\ _columnCount r = _width b.
Proof.
  intros [[H1 H2 H3 H4 H5] Hd]. unfold TextBuffer.GetMutableRowByOffset. unfold mbind, comp_bind, modify. set (b1 := set_lastMutationId _ b).
  assert (Hg1 : good_buffer b1) by (split; [split|]; done). destruct (get_ok b1 y Hg1) as (b' & r & E & Hg & [S1 S2 S3] & Ed & R). exists b', r. split; [exact E|]. split; [done|]. split; [by split|]. done.
Qed.

(** Writing a row to its slot. *)
Lemma put_row_ok b slot r r0 d n : good_buffer b -> _rows b !! slot = Some r0 -> row_good r -> _columnCount r = _width b -> same_measure (_detector b) d ->
  let b' := set_detector d n (set_rows (<[slot := r]> (_rows b)) b) in good_buffer b' /\ shows b (updated slot r (slot_row b)) b' /\ _rows b' !! slot = Some r.
Proof.
  intros [[H1 H2 H3 H4 H5] Hd] Hr Hg Hc Hm b'. apply lookup_lt_Some in Hr as Hl. split; [|split].
  - split; [|apply Hm]. split; try done; cbn [b' set_detector set_rows _rows _height _width].
    + by rewrite length_insert.
    + apply Forall_insert; [done|]. done.
  - split; [done| |done]. intros s. unfold updated, slot_row. cbn [b' set_detector set_rows _rows]. destruct (decide (s = slot)) as [->|Hne].
    + by rewrite list_lookup_insert_eq.
    + rewrite list_lookup_insert_ne by done. done.
  - cbn [b' set_detector set_rows _rows]. by rewrite list_lookup_insert_eq.
Qed.

Lemma shows_trans b b1 b2 f g : shows b f b1 -> shows b1 g b2 -> shows b g b2.
Proof. intros [F1 S1 D1] [F2 S2 D2]. split; [congruence|done|by eapply same_measure_trans]. Qed.

Lemma shows_ext b b' f g : (forall s, f s = g s) -> shows b f b' -> shows b g b'.
Proof. intros E [F S Dd]. split; [done|intros; by rewrite S|done]. Qed.

Lemma updated_ext slot r f g s : (forall s, f s = g s) -> updated slot r f s = updated slot r g s.
Proof. intros E. unfold updated. by rewrite E. Qed.

(** ** Lines and slots *)

Lemma slot_of_inj b y1 y2 : 0 < _height b -> 0 <= y1 < _height b -> 0 <= y2 < _height b -> slot_of b y1 = slot_of b y2 -> y1 = y2.
Proof.
  intros Hh H1 H2 E. unfold slot_of in E. pose proof (Z.mod_pos_bound (_firstRow b + y1) _ Hh). pose proof (Z.mod_pos_bound (_firstRow b + y2) _ Hh).
  assert (E' : (_firstRow b + y1) mod _height b = (_firstRow b + y2) mod _height b) by lia.
  pose proof (Z.div_mod (_firstRow b + y1) (_height b) ltac:(lia)). pose proof (Z.div_mod (_firstRow b + y2) (_height b) ltac:(lia)).
  set (q1 := (_firstRow b + y1) / _height b) in *. set (q2 := (_firstRow b + y2) / _height b) in *. destruct (Z.lt_trichotomy q1 q2) as [|[|]]; nia.
Qed.

Lemma lines_lookup b y : 0 <= y < _height b -> lines b !! Z.to_nat y = Some (line b y).
Proof.
  intros Hy. unfold lines. rewrite list_lookup_fmap, lookup_seq_lt by lia. cbn. f_equal. f_equal. lia.
Qed.

Lemma length_lines b : length (lines b) = Z.to_nat (_height b).
Proof. unfold lines. by rewrite length_map, length_seq. Qed.

(** Lists of lines that agree on every line. *)
Lemma lines_eq b (l : list (option ROW)) : length l = Z.to_nat (_height b) -> (forall y, 0 <= y < _height b -> l !! Z.to_nat y = Some (line b y)) -> lines b = l.
Proof.
  intros Hl Hy. apply list_eq. intros i. destruct (decide (Z.of_nat i < _height b)).
  - specialize (Hy (Z.of_nat i) ltac:(lia)). rewrite Nat2Z.id in Hy. pose proof (lines_lookup b (Z.of_nat i) ltac:(lia)) as Hl'. rewrite Nat2Z.id in Hl'. congruence.
  - rewrite !lookup_ge_None_2 by (rewrite ?length_lines; lia). done.
Qed.

Lemma shows_lines b b' : shows b (slot_row b) b' -> lines b' = lines b.
Proof.
  intros [F S _]. assert (_height b' = _height b) by (unfold frame in F; by simplify_eq). unfold lines. rewrite H1. apply map_ext. intros y. unfold line. by rewrite S, (slot_of_frame b b').
Qed.

(** ** Rotating *)

Definition links b (y : Z) : list Z := match line b y with Some r => GetHyperlinks r | None => [] end.

Lemma row_at_ok b slot r : _rows b !! slot = Some r -> row_at slot b = (b, Returned r).
Proof. unfold row_at. by intros ->. Qed.

Lemma shows_line b b' y : shows b (slot_row b) b' -> line b' y = line b y.
Proof. intros [F S _]. unfold line. by rewrite S, (slot_of_frame b b'). Qed.

Lemma unreferenced_ok count : forall i refs b, good_buffer b ->
  exists b' refs', TextBuffer.unreferenced avx2 uninitialised rowSize count i refs b = (b', Returned refs') /\ good_buffer b' /\ shows b (slot_row b) b' /\
    forall x, x ∈ refs' <-> x ∈ refs /\ forall y, i <= y < i + Z.of_nat count -> x ∉ links b y.
Proof.
  induction count as [|count IH]; intros i refs b Hg; cbn [TextBuffer.unreferenced].
  { exists b, refs. split; [done|]. split; [done|]. split; [split; [done|done|by split; [apply Hg|]]|]. intros x. split; [intros Hx; split; [done|lia]|by intros []]. }
  destruct (get_ok b i Hg) as (b1 & r & E & Hg1 & Hs & Hd & Hr & Hl & _). unfold mbind, comp_bind. rewrite E, (row_at_ok b1 _ r Hr).
  assert (Hlinks : links b i = GetHyperlinks r) by (unfold links; by rewrite Hl).
  assert (Hsame : forall y, links b1 y = links b y) by (intros y; unfold links; by rewrite (shows_line b b1)).
  assert (Hsplit : forall x, (forall y, i <= y < i + Z.of_nat (S count) -> x ∉ links b y) <-> (x ∉ links b i) /\ forall y, i + 1 <= y < i + 1 + Z.of_nat count -> x ∉ links b1 y).
  { intros x. setoid_rewrite Hsame. split; [intros Hx; split; [apply Hx; lia|intros; apply Hx; lia]|]. intros [H1' H2'] y Hy. destruct (decide (y = i)) as [->|]; [done|apply H2'; lia]. }
  destruct (decide (refs ∖ list_to_set (GetHyperlinks r) = ∅)) as [He|Hne].
  - eexists b1, _. split; [done|]. split; [done|]. split; [done|]. intros x. split; [by rewrite He, elem_of_empty|]. intros [Hx Hall]. apply Hsplit in Hall as [Hall _].
    rewrite Hlinks in Hall. apply elem_of_difference. split; [done|]. by rewrite elem_of_list_to_set.
  - destruct (IH (i + 1) (refs ∖ list_to_set (GetHyperlinks r)) b1 Hg1) as (b2 & refs' & -> & Hg2 & Hs2 & Hx2). exists b2, refs'. split; [done|]. split; [done|].
    split; [eapply shows_ext; [|eapply shows_trans; [exact Hs|exact Hs2]]; intros s; apply Hs|]. intros x. rewrite Hx2, elem_of_difference, elem_of_list_to_set, Hsplit, Hlinks. tauto.
Qed.

Definition without_links (dead : Z -> Prop) b b' : Prop :=
  (forall x, ~ dead x -> _hyperlinkMap b' !! x = _hyperlinkMap b !! x) /\ (forall x, dead x -> _hyperlinkMap b' !! x = None) /\
  exists m c, b' = set_hyperlinks m c (_currentHyperlinkId b) b.

Lemma remove_hyperlinks_ok ids : forall b, exists b', TextBuffer.remove_hyperlinks iteration ids b = (b', Returned tt) /\ without_links (fun x => x ∈ ids) b b'.
Proof.
  induction ids as [|x ids IH]; intros b; cbn [TextBuffer.remove_hyperlinks].
  { exists b. split; [done|]. split; [done|]. split; [intros x Hx; by apply not_elem_of_nil in Hx|]. exists (_hyperlinkMap b), (_hyperlinkCustomIdMap b). by destruct b. }
  unfold mbind, comp_bind, RemoveHyperlinkFromMap, modify. set (b1 := set_hyperlinks _ _ _ b). destruct (IH b1) as (b' & -> & K1 & K2 & m & c & K3). exists b'. split; [done|]. split; [|split].
  - intros z Hz. rewrite elem_of_cons in Hz. rewrite K1 by tauto. cbn. by rewrite lookup_delete_ne by (intros ->; tauto).
  - intros z Hz. apply elem_of_cons in Hz as [->|Hz]; [|by apply K2]. destruct (decide (x ∈ ids)) as [Hi|Hi]; [by apply K2|]. rewrite K1 by done. cbn. by rewrite lookup_delete_eq.
  - exists m, c. rewrite K3. done.
Qed.

(** The links that only the first line has. *)
Definition obsolete b (x : Z) : Prop := x ∈ links b 0 /\ forall y, 1 <= y < _height b -> x ∉ links b y.

Lemma prune_ok b : good_buffer b -> exists b1 b', _PruneHyperlinks avx2 uninitialised rowSize iteration b = (b', Returned tt) /\
  good_buffer b1 /\ shows b (slot_row b) b1 /\ without_links (obsolete b) b1 b'.
Proof.
  intros Hg. unfold _PruneHyperlinks. destruct (get_ok b 0 Hg) as (b1 & r & E & Hg1 & Hs & Hd & Hr & Hl & _). unfold mbind at 1 2, comp_bind at 1 2. rewrite E, (row_at_ok b1 _ r Hr).
  assert (Hlinks : links b 0 = GetHyperlinks r) by (unfold links; by rewrite Hl).
  destruct (GetHyperlinks r) as [|x0 xs] eqn:El.
  - exists b1, b1. split; [done|]. split; [done|]. split; [done|]. unfold obsolete. rewrite Hlinks. split; [done|]. split; [intros x [Hx _]; by apply not_elem_of_nil in Hx|]. exists (_hyperlinkMap b1), (_hyperlinkCustomIdMap b1). by destruct b1.
  - unfold mbind at 1, comp_bind at 1, gets. cbn [id]. assert (Hh : _height b1 = _height b) by (destruct Hs as [F _ _]; unfold frame in F; by simplify_eq). unfold TotalRowCount. rewrite Hh.
    destruct (unreferenced_ok (Z.to_nat (_height b) - 1) 1 (list_to_set (x0 :: xs)) b1 Hg1) as (b2 & refs & E2 & Hg2 & Hs2 & Hx). unfold mbind, comp_bind. rewrite E2.
    destruct (remove_hyperlinks_ok (elements refs) b2) as (b' & -> & K). exists b2, b'. split; [done|]. split; [done|].
    split; [eapply shows_ext; [|eapply shows_trans; [exact Hs|exact Hs2]]; intros s; apply Hs|].
    assert (Hobs : forall x, x ∈ elements refs <-> obsolete b x).
    { intros x. rewrite elem_of_elements, Hx, elem_of_list_to_set. unfold obsolete. rewrite Hlinks. pose proof (good_ok b Hg) as [_ ? _ _ _].
      assert (Hsame : forall y, links b1 y = links b y) by (intros y; unfold links; by rewrite (shows_line b b1)). setoid_rewrite Hsame.
      split; (intros [Ha Hb]; split; [done|]; intros y Hy; apply Hb; lia). }
    destruct K as (K1 & K2 & K3). split; [intros x Hn; apply K1; by rewrite Hobs|]. split; [intros x Hn; apply K2; by rewrite Hobs|done].
Qed.

(** A row of spaces with one attribute. *)
Record blank_row (attr : TextAttribute.t) (w : Z) (r : ROW) : Prop := {
  blank_text : row_ok r (spaces (Z.to_nat w));
  blank_attr : contents (_attr r) = replicate (Z.to_nat w) attr;
  blank_flags : _lineRendition r = LineRendition.SingleWidth /\ _wrapForced r = false /\ _doubleBytePadded r = false /\ _promptData r = None /\ _imageSlice r = None
}.

Lemma reset_blank r attr : row_good r -> exists r', Reset avx2 uninitialised attr r = Some r' /\ row_good r' /\ _columnCount r' = _columnCount r /\ blank_row attr (_columnCount r) r'.
Proof.
  intros Hg. destruct (reset_good avx2 uninitialised r attr Hg) as (r' & E & Hg' & Hc). exists r'. split; [done|]. split; [done|]. split; [done|].
  destruct Hg as [[gs [Hcc H1' _ _ _ _ Hn]] G2 G3]. unfold Reset in E. set (r0 := set_flags _ _ _ _ _ _) in E.
  destruct (_init_blank avx2 uninitialised r0 ltac:(change (_columnCount r0) with (_columnCount r); lia)) as (r2 & E2 & Hr & Er). rewrite E in E2. injection E2 as <-.
  split; [exact Hr| |]; rewrite Er; [|done]. cbn. unfold contents, decode, decode_run. cbn. by rewrite app_nil_r.
Qed.

Lemma row_Reset_ok b slot r attr : good_buffer b -> _rows b !! slot = Some r ->
  exists b' r', row_Reset avx2 uninitialised slot attr b = (b', Returned tt) /\ good_buffer b' /\ shows b (updated slot r' (slot_row b)) b' /\ blank_row attr (_width b) r' /\ _detector b' = _detector b.
Proof.
  intros Hg Hr. pose proof (Forall_lookup_1 _ _ _ _ (buffer_rows b (good_ok b Hg)) Hr) as [Hrg Hrc]. destruct (reset_blank r attr Hrg) as (r' & E & Hg' & Hc & Hb).
  unfold row_Reset. unfold mbind, comp_bind. rewrite (row_at_ok b slot r Hr), E. unfold lift, mret, comp_ret, put_row. apply lookup_lt_Some in Hr as Hl. destruct (Nat.ltb_spec slot (length (_rows b))); [|lia].
  destruct (put_row_ok b slot r' r (_detector b) (_allocations b) Hg Hr Hg' ltac:(congruence) ltac:(split; [apply Hg|done])) as (P1 & P2 & _).
  assert (E' : set_detector (_detector b) (_allocations b) (set_rows (<[slot:=r']> (_rows b)) b) = set_rows (<[slot:=r']> (_rows b)) b) by done. rewrite E' in *.
  eexists _, r'. split; [done|]. split; [done|]. split; [done|]. split; [by rewrite <- Hrc|done].
Qed.

(** The next line, in the rotated ring. *)
Lemma rotated_slot b y : 0 < _height b -> 0 <= _firstRow b < _height b ->
  slot_of (set_firstRow (if _height b <=? _firstRow b + 1 then 0 else _firstRow b + 1) b) y = slot_of b (y + 1).
Proof.
  intros Hh Hf. unfold slot_of. cbn [set_firstRow _firstRow _height]. do 2 f_equal. destruct (Z.leb_spec (_height b) (_firstRow b + 1)).
  - replace (_firstRow b + (y + 1)) with (0 + y + 1 * _height b) by lia. by rewrite Z.mod_add by lia.
  - f_equal. lia.
Qed.

Lemma rotate_ok b (fillAttributes : TextAttribute.t) : good_buffer b ->
  exists b' r, IncrementCircularBuffer avx2 uninitialised rowSize iteration fillAttributes b = (b', Returned tt) /\ good_buffer b' /\
    (forall y, 0 <= y < _height b -> line b' y = if decide (y = _height b - 1) then Some r else line b (y + 1)) /\ blank_row fillAttributes (_width b) r /\
    (_width b', _height b', _cursor b', _currentAttributes b') = (_width b, _height b, _cursor b, _currentAttributes b) /\
    (forall x, ~ obsolete b x -> _hyperlinkMap b' !! x = _hyperlinkMap b !! x) /\ (forall x, obsolete b x -> _hyperlinkMap b' !! x = None).
Proof.
  intros Hg. pose proof (good_ok b Hg) as [Hw Hh Hf _ _]. unfold IncrementCircularBuffer. destruct (prune_ok b Hg) as (b1 & b2 & E & Hg1 & Hs1 & K1 & K2 & m & c & K3). unfold mbind at 1, comp_bind at 1. rewrite E.
  assert (F1 : frame b1 = frame b) by apply Hs1. assert (Hg2 : good_buffer b2) by (rewrite K3; destruct Hg1 as [[] ?]; by split; [split|]).
  assert (Hl2 : forall slot, slot_row b2 slot = slot_row b slot) by (intros slot; rewrite K3; apply Hs1).
  destruct (get_mutable_ok b2 0 Hg2) as (b3 & r0 & E3 & Hg3 & Hs3 & Hd3 & Hr3 & _). unfold mbind at 1, comp_bind at 1. rewrite E3.
  destruct (row_Reset_ok b3 _ r0 fillAttributes Hg3 Hr3) as (b4 & r & E4 & Hg4 & Hs4 & Hblank & Hd4). unfold mbind, comp_bind. rewrite E4. unfold modify.
  assert (F4 : frame b4 = frame b2) by (etransitivity; [apply Hs4|apply Hs3]).
  assert (Fh : _height b4 = _height b /\ _firstRow b4 = _firstRow b /\ _width b3 = _width b /\ _hyperlinkMap b4 = _hyperlinkMap b2).
  { apply frame_fields in F1 as (W1 & G1 & I1 & _), F4 as (W4 & G4 & I4 & L4 & _). pose proof (frame_fields _ _ (shows_frame _ _ _ Hs3)) as (W3 & _).
    rewrite K3 in W3, G4, I4. cbn in W3, G4, I4. repeat split; congruence. }
  destruct Fh as (Fh & Ff & Fw & Fl).
  assert (Hgeom : Viewport.Height (GetSize b4) = _height b) by (unfold Viewport.Height, GetSize, Viewport.FromDimensions, Viewport.BottomExclusive, Viewport.Top; cbn; lia). rewrite Hgeom, Ff. set (b' := set_firstRow _ b4).
  exists b', r. split; [done|]. split; [destruct Hg4 as [[A1 A2 A3 A4 A5] A6]; split; [split; try done|done]; cbn; destruct (Z.leb_spec (_height b) (_firstRow b + 1)); lia|].
  assert (Hslot0 : slot_of b2 0 = slot_of b 0) by (rewrite <- (slot_of_frame b b1) by done; by rewrite K3).
  assert (Hline : forall y, 0 <= y < _height b -> line b' y = if decide (y = _height b - 1) then Some r else line b (y + 1)).
  { intros y Hy. unfold line. assert (slot_of b' y = slot_of b (y + 1)) as ->.
    { unfold b'. pose proof (rotated_slot b4 y ltac:(lia) ltac:(lia)) as Hr. rewrite Fh, Ff in Hr. rewrite Hr. unfold slot_of. by rewrite Ff, Fh. }
    change (slot_row b' (slot_of b (y + 1))) with (slot_row b4 (slot_of b (y + 1))). rewrite (shows_slot _ _ _ Hs4). unfold updated. rewrite (shows_slot _ _ _ Hs3), Hl2, Hslot0.
    destruct (decide (y = _height b - 1)) as [->|Hne].
    - rewrite decide_True; [done|]. unfold slot_of. do 2 f_equal. replace (_firstRow b + (_height b - 1 + 1)) with (_firstRow b + 0 + 1 * _height b) by lia. by rewrite Z.mod_add by lia.
    - rewrite decide_False; [done|]. intros Hx. apply slot_of_inj in Hx; lia. }
  split; [done|]. split; [by rewrite <- Fw|]. assert (Hm1 : _hyperlinkMap b1 = _hyperlinkMap b) by (by apply frame_fields). change (_hyperlinkMap b') with (_hyperlinkMap b4). rewrite Fl. split_and!.
  - change (_width b', _height b', _cursor b', _currentAttributes b') with (_width b4, _height b4, _cursor b4, _currentAttributes b4).
    apply frame_fields in F1 as (W1 & G1 & _ & _ & C1 & A1 & _), F4 as (W4 & G4 & _ & _ & C4 & A4 & _). rewrite W4, G4, C4, A4, K3. cbn. congruence.
  - intros x Hx. by rewrite K1, Hm1.
  - intros x Hx. by apply K2.
Qed.

(** C35: Rotating the ring scrolls the buffer by a line: the first line is gone, the
    others move up, and a blank line with the given attributes follows. It always
    succeeds, and the address of a link stays known as long as a remaining line refers
    to it, although those that only the first line used are forgotten. *)
Theorem IncrementCircularBuffer_scrolls b (fillAttributes : TextAttribute.t) : good_buffer b ->
  exists b' r, IncrementCircularBuffer avx2 uninitialised rowSize iteration fillAttributes b = (b', Returned tt) /\ good_buffer b' /\
    lines b' = drop 1 (lines b) ++ [Some r] /\ blank_row fillAttributes (_width b) r /\
    (forall x y, 1 <= y < _height b -> x ∈ links b y -> _hyperlinkMap b' !! x = _hyperlinkMap b !! x) /\
    (forall x, obsolete b x -> _hyperlinkMap b' !! x = None).
Proof.
  intros Hg. pose proof (good_ok b Hg) as [Hw Hh Hf _ _]. destruct (rotate_ok b fillAttributes Hg) as (b' & r & E & Hg' & Hline & Hblank & [= _ Fh _ _] & K1 & K2). exists b', r.
  split; [done|]. split; [done|]. split; [|split; [done|split; [|done]]].
  - apply lines_eq; rewrite Fh. { rewrite length_app, length_drop, length_lines. simpl. lia. }
    intros y Hy. rewrite Hline by done. destruct (decide (y = _height b - 1)) as [->|].
    + rewrite lookup_app_r by (rewrite length_drop, length_lines; lia). rewrite length_drop, length_lines. replace (Z.to_nat (_height b - 1) - (Z.to_nat (_height b) - 1))%nat with 0%nat by lia. done.
    + rewrite lookup_app_l by (rewrite length_drop, length_lines; lia). rewrite lookup_drop. replace (1 + Z.to_nat y)%nat with (Z.to_nat (y + 1)) by lia. apply lines_lookup. lia.
  - intros x y Hy Hx. apply K1. intros [_ Hob]. by apply (Hob y Hy).
Qed.

(** ** Memory on demand *)

Lemma commit_length b offset b' slot : buffer_ok b -> 0 <= offset <= _height b -> _getRowByOffsetDirect offset b = (b', Returned slot) ->
  length (_rows b') = if decide (Z.to_nat offset < length (_rows b))%nat then length (_rows b) else Nat.min (S (Z.to_nat (_height b))) (Z.to_nat offset + 1 + _commitReadAheadRowCount).
Proof.
  intros [Hw Hh Hf Hc Hr] Ho E. unfold TextBuffer._getRowByOffsetDirect in E. unfold mbind at 1, comp_bind at 1, gets in E. cbn [id] in E.
  destruct (Z.ltb_spec offset 0); [lia|]. destruct (Z.leb_spec (_height b + 1) offset); [lia|]. cbn [orb] in E.
  destruct (Nat.leb_spec (length (_rows b)) (Z.to_nat offset)) as [Hle|Hlt].
  - unfold TextBuffer._commit, mbind, comp_bind, gets in E. cbn [id] in E. set (n := Nat.min _ _) in E. destruct (construct_ok n b Hw) as (new & Hc' & Hl & _). rewrite Hc' in E. injection E as <- _.
    cbn [set_rows _rows]. rewrite length_app, decide_False by lia. unfold n in Hl. lia.
  - injection E as <- _. by rewrite decide_True.
Qed.

(** Every line can be had, and none of it shows: asking for a line, also one with
    a negative or too large number, which wraps around, gives the row that the buffer
    shows there; no line changes, although rows that have not been used so far are
    constructed first, at most 128 more than needed. *)
Lemma rows_on_demand b (y : Z) : good_buffer b ->
  exists b' r, GetRowByOffset y b = (b', Returned (slot_of b y)) /\ _rows b' !! slot_of b y = Some r /\ line b y = Some r /\ line b (y mod _height b) = Some r /\
    lines b' = lines b /\ frame b' = frame b /\ good_buffer b' /\
    (length (_rows b') <= Nat.max (length (_rows b)) (slot_of b y + 1 + _commitReadAheadRowCount))%nat.
Proof.
  intros Hg. destruct (get_ok b y Hg) as (b' & r & E & Hg' & Hs & Hd & Hr & Hl & _). exists b', r. split; [done|]. split; [done|]. split; [done|].
  pose proof (good_ok b Hg) as Hb. pose proof Hb as [_ Hh _ _ _]. split; [unfold line, slot_of in *; by rewrite Zplus_mod_idemp_r|]. split; [by apply shows_lines|]. split; [apply Hs|]. split; [done|].
  unfold TextBuffer.GetRowByOffset, TextBuffer._getRow in E. unfold mbind at 1, comp_bind at 1, gets in E. cbn [id] in E. destruct (Z.eqb_spec (_height b) 0); [lia|]. rewrite wrapped_mod in E by lia.
  pose proof (Z.mod_pos_bound (_firstRow b + y) (_height b) ltac:(lia)). apply commit_length in E; [|done|lia]. rewrite E. unfold slot_of. case_decide; lia.
Qed.

(** ** New buffers *)

Lemma new_buffer_good w h attr cursorSize active mutationId (d : D) n : 1 <= w < 0x8000 -> 1 <= h < 2 ^ 16 -> measure_ok d ->
  exists b, TextBuffer_new allocated (size.mk w h) attr cursorSize active mutationId d n = (b, Returned tt) /\ good_buffer b /\ _rows b = [] /\ _width b = w /\ _height b = h /\ _firstRow b = 0.
Proof.
  intros Hw Hh Hd. unfold TextBuffer_new, _reserve, narrow_u16. cbn [size.width size.height]. rewrite !Z.max_l by lia.
  destruct (Z.leb_spec 0 w); [|lia]. destruct (Z.ltb_spec w (2 ^ 16)); [|lia]. destruct (Z.leb_spec 0 h); [|lia]. destruct (Z.ltb_spec h (2 ^ 16)); [|lia]. cbn [andb].
  eexists. split; [reflexivity|]. split; [|done]. split; [split; cbn; try lia; constructor|done].
Qed.

Lemma fresh_row_blank b slot r : 1 <= _width b < 0x8000 -> fresh_row b slot = Some r -> blank_row (_initialAttributes b) (_width b) r.
Proof.
  intros Hw E. unfold fresh_row, new_ROW in E. set (r0 := mkRow _ _ _ _ _ _ _ _ _ _ _) in E. destruct (_init_blank avx2 uninitialised r0 Hw) as (r2 & E2 & Hr & Er). rewrite E in E2. injection E2 as <-.
  split; [exact Hr| |by rewrite Er]. rewrite Er. change (_attr (set_text _ _ _ r0)) with (rle_fill (_width b) (_initialAttributes b)). unfold rle_fill. destruct (Z.eqb_spec (_width b) 0); [lia|].
  unfold contents, decode, decode_run. cbn. by rewrite app_nil_r.
Qed.
End Props.
