(* ===== verification/BufferScroll.v ===== *)
(** * Moving lines in the text buffer

    [ScrollRows] and [CopyRow]: every line of a range is copied to its new place, and
    no line is overwritten before it was copied. *)

From stdpp Require Import list gmap.
From S2P Require Import Prelude Til Utils TermDispatch TextAttributes Rle RleProps CodepointWidth CodepointWidthProps Geometry ImageSlice Row RowWrite RowProps RowWriteProps RowText RowTextProps RowInvariant RowCopy Cursor TextBuffer TextBufferProps.

(** A row with room for another one of its kind. *)
Definition short_row (r : ROW) : Prop := exists n, _charSize r = Some n /\ 2 * n + _columnCount r < 0x8000.

(** [r'] is what becomes of the row [r] if [s] is copied over it. The mark of the
    scroll bar is not copied; nor is text behind the readable columns. *)
Record row_copied (s r r' : ROW) : Prop := {
  copied_text : exists gs sgs, row_ok r gs /\ row_ok s sgs /\ row_ok r' (copied gs sgs (Z.to_nat (GetReadableColumnCount s))) /\
    (_lineRendition s = LineRendition.SingleWidth -> _doubleBytePadded s = false -> row_ok r' sgs);
  copied_attr : contents (_attr r') = contents (_attr s);
  copied_flags : _lineRendition r' = _lineRendition s /\ _wrapForced r' = _wrapForced s /\ _imageSlice r' = _imageSlice s;
  copied_mark : _promptData r' = _promptData r
}.

Lemma short_chars r gs : row_ok r gs -> short_row r -> 2 * chars_len gs + _columnCount r < 0x8000.
Proof.
  intros Hr (n & E & Hn). pose proof Hr as [Hc H1 Hok Ho Hlen _ _]. unfold _charSize, offset_at in E. destruct (Z.ltb_spec (_columnCount r) 0); [lia|].
  rewrite Ho in E. replace (Z.to_nat (_columnCount r)) with (columns gs) in E by lia. rewrite offsets_end in E by done. by injection E as <-.
Qed.

Lemma resized_same (xs : list TextAttribute.t) : resized (Z.of_nat (length xs)) xs = xs.
Proof. unfold resized. rewrite Nat2Z.id, take_ge, Nat.sub_diag by lia. destruct (last xs); by rewrite app_nil_r. Qed.

Section Scroll.
Context {D : Type} `{MeasurementLaws D}.
Variable avx2 : bool.
Variable uninitialised : nat -> Z.
Variable allocated : nat -> Z.
Variable rowSize : Z.
Implicit Types b : TextBuffer D.
Local Abbreviation slot_row := (TextBufferProps.slot_row avx2 uninitialised rowSize).
Local Abbreviation line := (TextBufferProps.line avx2 uninitialised rowSize).
Local Abbreviation lines := (TextBufferProps.lines avx2 uninitialised rowSize).
Local Abbreviation shows := (TextBufferProps.shows avx2 uninitialised rowSize).
Local Abbreviation CopyRow := (TextBuffer.CopyRow avx2 uninitialised allocated rowSize).
Local Abbreviation scroll_loop := (TextBuffer.scroll_loop avx2 uninitialised allocated rowSize).

Lemma row_CopyFrom_ok address s r (d : D) : row_good s -> row_good r -> short_row s -> short_row r -> _columnCount s = _columnCount r ->
  exists r1, CopyFrom avx2 uninitialised address s false r d = (r1, d, Returned tt) /\ row_good (ImageSlice_CopyRow s r1) /\ row_copied s r (ImageSlice_CopyRow s r1) /\ _columnCount r1 = _columnCount r.
Proof.
  intros [[sgs Hs] Ha Hsz] [[gs Hr] Ha' Hsz'] Hss Hsr Hc. pose proof (short_chars _ _ Hs Hss). pose proof (short_chars _ _ Hr Hsr). pose proof Hr as [Hcc Hone Hok _ Hlen _ _]. pose proof Hs as [Hscc _ Hsok _ _ _ _].
  destruct (CopyFrom_ok avx2 uninitialised address s sgs r gs d Hs Ha) as (r1 & E & [C1 [C2 C3] C4 C5]); [intros E; rewrite E in Hsz; simpl in Hsz; lia|done|lia|].
  assert (Hcont : contents (_attr r1) = contents (_attr s)) by (rewrite C3, <- Hc, <- Hsz; apply resized_same).
  destruct C4 as [F1 F2]. destruct C5 as (F3 & F4 & F5 & F6). exists r1. split; [done|]. split; [|split; [|done]].
  - split; [eexists; destruct C1 as [D1 D2 D3 D4 D5 D6 D7]; split; [exact D1|exact D2|exact D3|exact D4|exact D5|exact D6|exact D7]|done|]. change (_attr (ImageSlice_CopyRow s r1)) with (_attr r1). change (_columnCount (ImageSlice_CopyRow s r1)) with (_columnCount r1). rewrite Hcont, F3. lia.
  - split; [|done|done|done]. exists gs, sgs. split; [done|]. split; [done|]. split; [by destruct C1|]. intros Hsingle Hpad.
    assert (GetReadableColumnCount s = _columnCount s) as Hread by (unfold GetReadableColumnCount; rewrite Hsingle, Hpad; cbn; lia). rewrite Hread in C1.
    replace (Z.to_nat (_columnCount s)) with (columns sgs) in C1 by lia. rewrite copied_whole in C1 by (done || lia). by destruct C1.
Qed.

Lemma CopyRow_ok b src dst s r : good_buffer b -> line b src = Some s -> line b dst = Some r -> short_row s -> short_row r -> slot_of b src <> slot_of b dst ->
  exists b' r', CopyRow src dst b = (b', Returned tt) /\ good_buffer b' /\ shows b (updated (slot_of b dst) r' (slot_row b)) b' /\ row_copied s r r'.
Proof.
  intros Hg Hs Hr Hss Hsr Hne. unfold TextBuffer.CopyRow.
  destruct (get_mutable_ok avx2 uninitialised rowSize b dst Hg) as (b1 & r0 & E1 & Hg1 & Hs1 & Hd1 & Hr1 & Hl1 & Hrg & Hrc). rewrite Hr in Hl1. injection Hl1 as <-. unfold mbind at 1, comp_bind at 1. rewrite E1.
  destruct (get_ok avx2 uninitialised rowSize b1 src Hg1) as (b2 & s0 & E2 & Hg2 & Hs2 & Hd2 & Hr2 & Hl2 & Hsg & Hsc). rewrite (shows_line avx2 uninitialised rowSize b b1 src Hs1), Hs in Hl2. injection Hl2 as <-. unfold mbind at 1, comp_bind at 1. rewrite E2.
  assert (F1 : frame b1 = frame b) by apply Hs1. assert (Hslot : slot_of b1 src = slot_of b src) by (by apply slot_of_frame). rewrite Hslot in *.
  unfold mbind at 1, comp_bind at 1. rewrite (row_at_ok b2 _ s Hr2). destruct (Nat.eqb_spec (slot_of b src) (slot_of b dst)); [done|].
  assert (Hrow2 : _rows b2 !! slot_of b dst = Some r).
  { pose proof (getRow_ok avx2 uninitialised rowSize b1 src (good_ok b1 Hg1)) as (b2' & E2' & Hgr & _). unfold GetRowByOffset in E2. rewrite E2 in E2'. injection E2' as <-. destruct Hgr as [_ (new & -> & _)]. by apply lookup_app_l_Some. }
  unfold CopyRow_into, mbind, comp_bind, CopyFrom_at, with_row. rewrite Hrow2.
  assert (Hcc : _columnCount s = _columnCount r) by (apply frame_fields in F1 as (? & _); congruence).
  destruct (row_CopyFrom_ok (allocated (_allocations b2)) s r (_detector b2) Hsg Hrg Hss Hsr Hcc) as (r1 & -> & Hgood & Hcopied & Hc1).
  unfold update_row, mbind, comp_bind, row_at. cbn [set_detector set_rows _rows]. apply lookup_lt_Some in Hrow2 as Hlt. rewrite list_lookup_insert_eq by done. unfold put_row. cbn [set_detector set_rows _rows]. rewrite length_insert.
  destruct (Nat.ltb_spec (slot_of b dst) (length (_rows b2))); [|lia]. rewrite list_insert_insert_eq.
  assert (Hw2 : _columnCount (ImageSlice_CopyRow s r1) = _width b2) by (cbn; rewrite Hc1; pose proof (frame_fields _ _ (shows_frame _ _ _ _ _ _ Hs2)) as (? & _); apply frame_fields in F1 as (? & _); congruence).
  destruct (put_row_ok avx2 uninitialised rowSize b2 (slot_of b dst) (ImageSlice_CopyRow s r1) r (_detector b2) (S (_allocations b2)) Hg2 Hrow2 Hgood Hw2 ltac:(split; [apply Hg2|done])) as (P1 & P2 & _).
  eexists _, (ImageSlice_CopyRow s r1). split; [reflexivity|]. split; [exact P1|]. split; [|done].
  eapply shows_ext; [|eapply shows_trans; [exact Hs1|eapply shows_trans; [exact Hs2|exact P2]]]. intros sl. cbn beta. apply updated_ext. intros sl'. rewrite (shows_slot _ _ _ _ _ _ Hs2). apply Hs1.
Qed.

(** ** Several lines *)

(** The lines [P] hold copies of what was [delta] lines away, the others are as before. *)
Record moved b (delta : Z) (P : Z -> Prop) b' : Prop := {
  moved_good : good_buffer b';
  moved_frame : frame b' = frame b;
  moved_detector : same_measure (_detector b) (_detector b');
  moved_copied : forall y, 0 <= y < _height b -> P y ->
    exists s r r', line b (y - delta) = Some s /\ line b y = Some r /\ line b' y = Some r' /\ row_copied s r r';
  moved_kept : forall y, 0 <= y < _height b -> ~ P y -> line b' y = line b y
}.

Lemma moved_nothing b delta (P : Z -> Prop) : good_buffer b -> (forall y, ~ P y) -> moved b delta P b.
Proof. intros Hg HP. split; [done|done|split; [apply Hg|done]|intros y _ Hy; by apply HP in Hy|done]. Qed.

Lemma moved_iff b delta (P Q : Z -> Prop) b' : (forall y, P y <-> Q y) -> moved b delta P b' -> moved b delta Q b'.
Proof. intros E [M1 M2 M3 M4 M5]. split; [done..| |]; intros y Hy HQ; [apply M4|apply M5]; try done; specialize (E y); tauto. Qed.

Definition all_short b : Prop := forall y r, 0 <= y < _height b -> line b y = Some r -> short_row r.

Lemma line_Some b y : good_buffer b -> exists r, line b y = Some r.
Proof. intros Hg. destruct (get_ok avx2 uninitialised rowSize b y Hg) as (_ & r & _ & _ & _ & _ & _ & Hl & _). by exists r. Qed.

Lemma moved_step b delta P b1 y : good_buffer b -> all_short b -> delta <> 0 -> moved b delta P b1 -> 0 <= y < _height b -> 0 <= y + delta < _height b -> ~ P y -> ~ P (y + delta) ->
  exists b2, CopyRow y (y + delta) b1 = (b2, Returned tt) /\ moved b delta (fun z => P z \/ z = y + delta) b2.
Proof.
  intros Hg Hshort Hd [M1 M2 M3 M4 M5] Hy Hyd HPy HPd. pose proof (frame_fields _ _ M2) as (Fw & Fh & _). pose proof (good_ok b Hg) as [_ Hh _ _ _].
  destruct (line_Some b y Hg) as [s Hs]. destruct (line_Some b (y + delta) Hg) as [r Hr].
  destruct (CopyRow_ok b1 y (y + delta) s r M1) as (b2 & r' & E & G1 & G2 & G3); [by rewrite M5|by rewrite M5|by apply (Hshort y)|by apply (Hshort (y + delta))| |].
  { intros Ex. apply slot_of_inj in Ex; lia. }
  exists b2. split; [done|].
  assert (Hline : forall z, 0 <= z < _height b -> line b2 z = if decide (z = y + delta) then Some r' else line b1 z).
  { intros z Hz. unfold TextBufferProps.line. rewrite (slot_of_frame b1 b2) by apply G2. rewrite (shows_slot _ _ _ _ _ _ G2). unfold updated.
    destruct (decide (z = y + delta)) as [->|Hne]; [by rewrite decide_True|]. rewrite decide_False; [done|]. intros Ex. apply slot_of_inj in Ex; lia. }
  split; [done|transitivity (frame b1); [apply G2|done]|eapply same_measure_trans; [exact M3|apply G2]| |].
  - intros z Hz [HP| ->].
    + rewrite Hline by done. rewrite decide_False by (intros ->; done). by apply M4.
    + exists s, r, r'. replace (y + delta - delta) with y by lia. rewrite Hline, decide_True by done. done.
  - intros z Hz Hn. rewrite Hline by done. rewrite decide_False by tauto. apply M5; tauto.
Qed.

Lemma scroll_loop_ok b delta step n : forall b1 y P, good_buffer b -> all_short b -> delta <> 0 -> moved b delta P b1 ->
  (forall i, 0 <= i < Z.of_nat n -> 0 <= y + i * step < _height b /\ 0 <= y + i * step + delta < _height b /\ ~ P (y + i * step) /\ ~ P (y + i * step + delta)) ->
  (forall i j, 0 <= i < Z.of_nat n -> 0 <= j < i -> y + i * step <> y + j * step + delta) -> step <> 0 ->
  exists b2, scroll_loop n y step delta b1 = (b2, Returned tt) /\ moved b delta (fun z => P z \/ exists i, 0 <= i < Z.of_nat n /\ z = y + i * step + delta) b2.
Proof.
  induction n as [|n IH]; intros b1 y P Hg Hshort Hd HM Hr Hover Hstep; cbn [TextBuffer.scroll_loop].
  { exists b1. split; [done|]. eapply moved_iff; [|exact HM]. intros z. split; [tauto|]. intros [?|(i & ? & _)]; [done|lia]. }
  destruct (Hr 0 ltac:(lia)) as (R1 & R2 & R3 & R4). rewrite Z.mul_0_l, Z.add_0_r in *.
  destruct (moved_step b delta P b1 y Hg Hshort Hd HM R1 R2 R3 R4) as (b2 & E & HM2). unfold mbind, comp_bind. rewrite E.
  destruct (IH b2 (y + step) (fun z => P z \/ z = y + delta) Hg Hshort Hd HM2) as (b3 & -> & HM3); [| |done|].
  - intros i Hi. destruct (Hr (i + 1) ltac:(lia)) as (K1 & K2 & K3 & K4). replace (y + (i + 1) * step) with (y + step + i * step) in * by lia.
    split; [done|]. split; [done|]. pose proof (Hover (i + 1) 0 ltac:(lia) ltac:(lia)) as Ho. replace (y + (i + 1) * step) with (y + step + i * step) in Ho by lia.
    split; [intros [?|?]; [done|lia]|]. intros [?|?]; [done|]. assert (step + i * step = 0) by lia. nia.
  - intros i j Hi Hj. pose proof (Hover (i + 1) (j + 1) ltac:(lia) ltac:(lia)). lia.
  - exists b3. split; [done|]. eapply moved_iff; [|exact HM3]. intros z. split.
    + intros [[?| ->]|(i & Hi & ->)]; [by left|right; exists 0; lia|right; exists (i + 1); lia].
    + intros [?|(i & Hi & ->)]; [by left; left|]. destruct (decide (i = 0)) as [->|]; [left; right; lia|right; exists (i - 1); lia].
Qed.

(** C36: Scrolling copies a range of lines up or down by [delta], even if the old
    and the new range overlap: afterwards each line of the new range has the text of the
    readable columns, the attributes, the rendition, the wrap flag and the image of the
    line that was [delta] away before, and all other lines are untouched. What is not
    copied ([row_copied]) is the mark of the scroll bar, which stays with the place
    ([scrolled_lines_lose_marks]), and, of a line that is padded at its end or of double
    width, the columns behind the readable ones ([padded_column_not_copied]); every other
    line is copied with all its glyphs. Range and destination lie in the buffer, and
    every line is short enough for the offsets to hold two of its kind ([all_short]). *)
Theorem ScrollRows_moves b (firstRow size delta : Z) : good_buffer b -> all_short b ->
  0 <= firstRow -> 0 <= size -> firstRow + size <= _height b -> 0 <= firstRow + delta -> firstRow + size + delta <= _height b -> delta <> 0 ->
  exists b', ScrollRows avx2 uninitialised allocated rowSize firstRow size delta b = (b', Returned tt) /\
    moved b delta (fun y => firstRow + delta <= y < firstRow + delta + size) b'.
Proof.
  intros Hg Hshort H1' H2' H3' H4' H5' Hd. unfold ScrollRows. destruct (Z.eqb_spec delta 0); [done|]. rewrite Z.max_r by lia. destruct (Z.ltb_spec delta 0).
  - destruct (scroll_loop_ok b delta 1 (Z.to_nat size) b firstRow (fun _ => False) Hg Hshort Hd) as (b' & E & HM); [by apply moved_nothing; auto| | |lia|].
    + intros i Hi. rewrite Z2Nat.id in Hi by lia. repeat split; (lia || tauto).
    + intros i j Hi Hj. lia.
    + exists b'. split; [done|]. eapply moved_iff; [|exact HM]. intros y. rewrite Z2Nat.id by lia. split; [intros [[]|(i & ? & ->)]; lia|]. intros Hy. right. exists (y - firstRow - delta). lia.
  - destruct (scroll_loop_ok b delta (-1) (Z.to_nat size) b (firstRow + size - 1) (fun _ => False) Hg Hshort Hd) as (b' & E & HM); [by apply moved_nothing; auto| | |lia|].
    + intros i Hi. rewrite Z2Nat.id in Hi by lia. repeat split; (lia || tauto).
    + intros i j Hi Hj. lia.
    + exists b'. split; [done|]. eapply moved_iff; [|exact HM]. intros y. rewrite Z2Nat.id by lia. split; [intros [[]|(i & ? & ->)]; lia|]. intros Hy. right. exists (firstRow + size - 1 - (y - delta)). lia.
Qed.
End Scroll.

(** ** Changing lines of the text buffer one by one

    Loops over lines, filling, and clearing the scrollback. *)

Section Lines.
Context {D : Type} `{MeasurementLaws D}.
Variable avx2 : bool.
Variable uninitialised : nat -> Z.
Variable allocated : nat -> Z.
Variable rowSize : Z.
Implicit Types b : TextBuffer D.
Local Abbreviation slot_row := (TextBufferProps.slot_row avx2 uninitialised rowSize).
Local Abbreviation line := (TextBufferProps.line avx2 uninitialised rowSize).
Local Abbreviation lines := (TextBufferProps.lines avx2 uninitialised rowSize).
Local Abbreviation shows := (TextBufferProps.shows avx2 uninitialised rowSize).
Local Abbreviation get_mutable_ok := (TextBufferProps.get_mutable_ok avx2 uninitialised rowSize).

(** ** Loops over lines *)

(** The lines [P] have changed as [R] says, the others not. *)
Record touched b (P : Z -> Prop) (R : ROW -> ROW -> Prop) b' : Prop := {
  touched_good : good_buffer b';
  touched_frame : frame b' = frame b;
  touched_detector : same_measure (_detector b) (_detector b');
  touched_changed : forall y, 0 <= y < _height b -> P y -> exists r r', line b y = Some r /\ line b' y = Some r' /\ R r r';
  touched_kept : forall y, 0 <= y < _height b -> ~ P y -> line b' y = line b y
}.

Lemma touched_nothing b (P : Z -> Prop) R : good_buffer b -> (forall y, ~ P y) -> touched b P R b.
Proof. intros Hg HP. split; [done|done|split; [apply Hg|done]|intros y _ Hy; by apply HP in Hy|done]. Qed.

Lemma touched_iff b (P Q : Z -> Prop) R b' : (forall y, P y <-> Q y) -> touched b P R b' -> touched b Q R b'.
Proof. intros E [M1 M2 M3 M4 M5]. split; [done..| |]; intros y Hy HQ; [apply M4|apply M5]; try done; specialize (E y); tauto. Qed.

(** One line is changed. *)
Lemma updated_line b b' y z r : good_buffer b -> 0 <= y < _height b -> 0 <= z < _height b -> shows b (updated (slot_of b y) r (slot_row b)) b' ->
  line b' z = if decide (z = y) then Some r else line b z.
Proof.
  intros Hg Hy Hz Hs. pose proof (good_ok b Hg) as [_ Hh _ _ _]. unfold TextBufferProps.line. rewrite (slot_of_frame b b') by apply Hs. rewrite (shows_slot _ _ _ _ _ _ Hs). unfold updated.
  destruct (decide (z = y)) as [->|Hne]; [by rewrite decide_True|]. rewrite decide_False; [done|]. intros Ex. apply slot_of_inj in Ex; lia.
Qed.

Lemma for_rows_ok (f : Z -> comp (TextBuffer D) unit) (I : TextBuffer D -> Prop) (Pre : ROW -> Prop) (R : ROW -> ROW -> Prop) n : forall b y,
  (forall b z r, good_buffer b -> I b -> 0 <= z < _height b -> line b z = Some r -> Pre r ->
    exists b' r', f z b = (b', Returned tt) /\ good_buffer b' /\ I b' /\ shows b (updated (slot_of b z) r' (slot_row b)) b' /\ R r r') ->
  good_buffer b -> I b -> 0 <= y -> y + Z.of_nat n <= _height b -> (forall z r, y <= z < y + Z.of_nat n -> line b z = Some r -> Pre r) ->
  exists b', for_rows n y f b = (b', Returned tt) /\ touched b (fun z => y <= z < y + Z.of_nat n) R b' /\ I b'.
Proof.
  induction n as [|n IH]; intros b y Hf Hg HI Hy Hn Hpre; cbn [for_rows].
  { exists b. split; [done|]. split; [apply touched_nothing; [done|lia]|done]. }
  destruct (line_Some avx2 uninitialised rowSize b y Hg) as [r Hl].
  destruct (Hf b y r Hg HI ltac:(lia) Hl ltac:(eapply Hpre; [|done]; lia)) as (b1 & r' & E & Hg1 & HI1 & Hs & HR). unfold mbind, comp_bind. rewrite E.
  pose proof (frame_fields _ _ (shows_frame _ _ _ _ _ _ Hs)) as (_ & Fh & _).
  assert (Hline : forall z, 0 <= z < _height b -> line b1 z = if decide (z = y) then Some r' else line b z) by (intros; apply updated_line; (done || lia)).
  destruct (IH b1 (y + 1) Hf Hg1 HI1 ltac:(lia) ltac:(lia)) as (b2 & -> & [M1 M2 M3 M4 M5] & HI2).
  { intros z q Hz Hq. apply (Hpre z); [lia|]. rewrite Hline, decide_False in Hq by lia. done. }
  exists b2. split; [done|]. split; [|done].
  split; [done|transitivity (frame b1); [done|apply Hs]|eapply same_measure_trans; [apply Hs|done]| |].
  - intros z Hz HP. destruct (decide (z = y)) as [->|Hne].
    + exists r, r'. split; [done|]. split; [|done]. rewrite M5 by lia. rewrite Hline, decide_True by done. done.
    + destruct (M4 z ltac:(lia) ltac:(lia)) as (q & q' & K1 & K2 & K3). rewrite Hline, decide_False in K1 by done. by exists q, q'.
  - intros z Hz HP. rewrite M5 by lia. rewrite Hline, decide_False by lia. done.
Qed.

(** Changing a row in place. *)
Lemma update_line_ok (g : ROW -> ROW) b y : good_buffer b -> (forall r, row_good r -> row_good (g r) /\ _columnCount (g r) = _columnCount r) ->
  exists b' r, (slot ← TextBuffer.GetMutableRowByOffset avx2 uninitialised rowSize y; update_row slot g) b = (b', Returned tt) /\ good_buffer b' /\ line b y = Some r /\
    shows b (updated (slot_of b y) (g r) (slot_row b)) b'.
Proof.
  intros Hg Hgood. destruct (get_mutable_ok b y Hg) as (b1 & r & E & Hg1 & Hs1 & Hd & Hr & Hl & Hrg & Hrc). unfold mbind, comp_bind. rewrite E. unfold update_row, mbind, comp_bind. rewrite (row_at_ok b1 _ r Hr).
  unfold put_row. apply lookup_lt_Some in Hr as Hlt. destruct (Nat.ltb_spec (slot_of b y) (length (_rows b1))); [|lia]. destruct (Hgood r Hrg) as [G1 G2].
  pose proof (frame_fields _ _ (shows_frame _ _ _ _ _ _ Hs1)) as (Fw & _).
  destruct (put_row_ok avx2 uninitialised rowSize b1 (slot_of b y) (g r) r (_detector b1) (_allocations b1) Hg1 Hr G1 ltac:(congruence) ltac:(split; [apply Hg1|done])) as (P1 & P2 & _).
  eexists _, r. split; [reflexivity|]. split; [exact P1|]. split; [done|]. eapply shows_ext; [|eapply shows_trans; [exact Hs1|exact P2]]. intros s. apply updated_ext. apply Hs1.
Qed.


(** ** Filling *)

Lemma replace_attributes_contents r first last attr : row_good r -> 0 <= first < last -> last <= _columnCount r ->
  exists a, replace_attributes first last attr r = (set_attr a r, Returned tt) /\ row_good (set_attr a r) /\
    contents a = take (Z.to_nat first) (contents (_attr r)) ++ replicate (Z.to_nat (last - first)) attr ++ drop (Z.to_nat last) (contents (_attr r)).
Proof.
  intros Hg Hb He. destruct (replace_attributes_good r first last attr Hg Hb He) as (a & E & Hg'). exists a. split; [done|]. split; [done|].
  destruct Hg as [[gs G1] G2 G3]. pose proof (apply_rle_ok 16 (op_replace_value first last attr) (_attr r) G2) as Ha. cbn [op_ok apply_vector apply_rle] in Ha.
  destruct Ha as (a' & E' & _ & Hc); [rewrite G3; lia|]. unfold replace_attributes in E. rewrite E' in E. injection E as ->.
  unfold vector_replace in Hc. rewrite G3 in Hc. destruct (Z.ltb_spec (Z.min last (_columnCount r)) first); [lia|]. cbn [fst] in Hc. rewrite Hc. replace (Z.min last (_columnCount r)) with last by lia. done.
Qed.

Definition image_ok (r : ROW) : Prop := match _imageSlice r with Some s => slice_ok s | None => True end.

Lemma EraseCells_ok r first last : image_ok r -> exists r', ImageSlice_EraseCells first last r = Some r' /\ r' = SetImageSlice (_imageSlice r') r /\ image_ok r'.
Proof.
  unfold image_ok, ImageSlice_EraseCells. intros Hi. destruct (_imageSlice r) as [s|] eqn:E.
  - destruct (eraseCells_ok (Z.shiftl first (image_scale r)) (Z.shiftl last (image_scale r)) s Hi) as (s' & gone & -> & Hs' & _). cbn [mbind option_bind]. eexists. split; [done|]. split; [done|]. by destruct gone.
  - exists r. rewrite E. split; [done|]. split; [by destruct r; cbn in *; subst|done].
Qed.

(** Columns [first] up to [last] of a row are spaces with an attribute. *)
Record row_filled (first last : nat) (attr : TextAttribute.t) (r r' : ROW) : Prop := {
  filled_text : exists gs, row_ok r gs /\ row_ok r' (overwrite gs first (spaces (last - first)) last);
  filled_attr : contents (_attr r') = take first (contents (_attr r)) ++ replicate (last - first) attr ++ drop last (contents (_attr r));
  filled_flags : _lineRendition r' = _lineRendition r /\ _wrapForced r' = _wrapForced r /\ _promptData r' = _promptData r
}.

Lemma spaces_app n m : spaces (n + m) = spaces n ++ spaces m.
Proof. unfold spaces. apply replicate_add. Qed.

Lemma before_spaces n m : (m <= n)%nat -> before_col (spaces n) m = spaces m.
Proof. intros Hm. replace n with (m + (n - m))%nat by lia. rewrite spaces_app. pose proof (before_col_app (spaces m) (spaces (n - m)) 0) as Hb. rewrite columns_spaces, Nat.add_0_r in Hb. apply Hb; [apply Forall_app; split; apply glyph_ok_spaces|by left]. Qed.

(** Copying spaces from a blank row. *)
Lemma copy_spaces address scratch attr r gs (d : D) left_ right_ : blank_row attr (_columnCount r) scratch -> row_ok r gs -> 0 <= left_ < right_ -> left_ < _columnCount r -> _columnCount scratch = _columnCount r ->
  chars_len gs + 2 * _columnCount r < 0x8000 ->
  let e := Z.to_nat (Z.min right_ (_columnCount r)) in
  exists r1 s1, CopyTextFrom avx2 uninitialised address scratch false (mkCopyState left_ right_ left_ CoordTypeMax 0 0 0 0) r d = (r1, d, Returned s1) /\ kept r r1 /\
    row_ok r1 (overwrite gs (Z.to_nat left_) (spaces (e - Z.to_nat left_)) e).
Proof.
  intros [Hb _ _] Hr Hl Hlw Hsc Hlen e. pose proof Hr as [Hcc Hone Hok _ _ _ Hn]. set (s := mkCopyState _ _ _ _ _ _ _ _). set (w := Z.to_nat (_columnCount r)) in *. set (l := Z.to_nat left_).
  destruct (clampedInclusive_ok scratch _ left_ Hb) as [_ C1]. specialize (C1 ltac:(lia)). destruct (clampedInclusive_ok r gs left_ Hr) as [_ C2]. specialize (C2 ltac:(lia)).
  assert (C3 : _clampedColumnInclusive CoordTypeMax scratch = _columnCount r) by (unfold _clampedColumnInclusive, clamp, CoordTypeMax; rewrite Hsc; destruct (Z.ltb_spec (2 ^ 31 - 1) 0); [lia|]; destruct (Z.ltb_spec (_columnCount r) (2 ^ 31 - 1)); [|lia]; apply u16_small; lia).
  assert (C4 : _clampedColumnInclusive right_ r = Z.min right_ (_columnCount r)) by (unfold _clampedColumnInclusive, clamp; destruct (Z.ltb_spec right_ 0); [lia|]; destruct (Z.ltb_spec (_columnCount r) right_); rewrite u16_small by lia; lia).
  pose proof (CopyTextFrom_ok avx2 uninitialised address scratch (spaces w) (spaces l) (spaces (w - l)) r gs d s Hb) as Hcopy. cbn [s cs_sourceColumnLimit cs_sourceColumnBegin cs_columnBegin cs_columnLimit] in Hcopy.
  rewrite C1, C2, C3, C4, !columns_spaces in Hcopy. fold e l w in Hcopy.
  assert (Hm : Nat.min (e - l) (w - l) = (e - l)%nat) by (unfold e, w, l; lia). rewrite Hm in Hcopy. rewrite !before_spaces in Hcopy by (unfold e, w, l; lia).
  destruct Hcopy as (r1 & s1 & E & Hk & Hr1 & _); [rewrite <- spaces_app; f_equal; unfold w, l; lia|done|unfold l; lia|unfold l, w; lia|unfold l, e; lia| |rewrite chars_len_spaces; unfold w; lia|].
  { intros Ex. apply (f_equal length) in Ex. unfold spaces in Ex. rewrite length_replicate in Ex. simpl in Ex. unfold w, l in Ex. lia. }
  exists r1, s1. split; [exact E|]. split; [done|]. replace (l + (e - l))%nat with e in Hr1 by (unfold e, l; lia). done.
Qed.

(** Committing only adds rows at the end. *)
Lemma get_mutable_prefix b y b1 slot : good_buffer b -> TextBuffer.GetMutableRowByOffset avx2 uninitialised rowSize y b = (b1, Returned slot) -> exists new, _rows b1 = _rows b ++ new.
Proof.
  intros [[B1 B2 B3 B4 B5] Hd] E. unfold GetMutableRowByOffset, mbind, comp_bind, modify in E. set (b0 := set_lastMutationId _ b) in E. assert (Hb0 : buffer_ok b0) by (by split).
  destruct (getRow_ok avx2 uninitialised rowSize b0 y Hb0) as (b' & E' & [_ (new & En & _)] & _). rewrite E in E'. injection E' as <- _. by exists new.
Qed.

(** Rows that can be filled. *)
Definition fillable (r : ROW) : Prop := image_ok r /\ exists n, _charSize r = Some n /\ n + 2 * _columnCount r < 0x8000.

Lemma fillable_chars r gs : row_ok r gs -> fillable r -> chars_len gs + 2 * _columnCount r < 0x8000.
Proof.
  intros Hr (_ & n & E & Hn). pose proof Hr as [Hc Hone Hok Ho Hlen _ _]. unfold _charSize, offset_at in E. destruct (Z.ltb_spec (_columnCount r) 0); [lia|].
  rewrite Ho in E. replace (Z.to_nat (_columnCount r)) with (columns gs) in E by lia. rewrite offsets_end in E by done. by injection E as <-.
Qed.

Lemma fill_row_ok rc attr scratch b y r : good_buffer b -> _rows b !! 0%nat = Some scratch -> blank_row attr (_width b) scratch -> 0 <= rect.left rc < rect.right rc -> rect.left rc < _width b ->
  0 <= y < _height b -> line b y = Some r -> fillable r ->
  exists b' r', fill_row avx2 uninitialised allocated rowSize rc attr 0 y b = (b', Returned tt) /\ good_buffer b' /\ _rows b' !! 0%nat = Some scratch /\
    shows b (updated (slot_of b y) r' (slot_row b)) b' /\ row_filled (Z.to_nat (rect.left rc)) (Z.to_nat (Z.min (rect.right rc) (_width b))) attr r r'.
Proof.
  intros Hg H0' Hblank Hlr Hlw Hy Hline Hfill. unfold fill_row. destruct (get_mutable_ok b y Hg) as (b1 & r0 & E & Hg1 & Hs1 & Hd1 & Hr1 & Hl1 & Hrg & Hrc). rewrite Hline in Hl1. injection Hl1 as <-.
  destruct (get_mutable_prefix b y b1 _ Hg E) as (new & Hnew). assert (H01 : _rows b1 !! 0%nat = Some scratch) by (rewrite Hnew; by apply lookup_app_l_Some).
  unfold mbind at 1, comp_bind at 1. rewrite E. unfold mbind at 1, comp_bind at 1. rewrite (row_at_ok b1 _ scratch H01).
  pose proof (good_ok b Hg) as [Hw Hh _ _ Hrows]. assert (Hslot : (0 < slot_of b y)%nat) by (unfold slot_of; pose proof (Z.mod_pos_bound (_firstRow b + y) (_height b) ltac:(lia)); lia).
  destruct (Nat.eqb_spec (slot_of b y) 0); [lia|]. pose proof (Forall_lookup_1 _ _ _ _ Hrows H0') as [_ Hsw]. destruct (good_text _ Hrg) as [gs Hgs].
  rewrite <- Hrc in Hblank. destruct (copy_spaces (allocated (_allocations b1)) scratch attr r gs (_detector b1) (rect.left rc) (rect.right rc) Hblank Hgs Hlr ltac:(lia) ltac:(congruence) (fillable_chars r gs Hgs Hfill)) as (r1 & s1 & E1 & Hk & Hr1').
  unfold mbind at 1, comp_bind at 1. unfold with_row at 1. rewrite Hr1, E1. apply lookup_lt_Some in Hr1 as Hlt.
  destruct (kept_attr r r1 Hk) as [Ka Kc]. assert (Hg1' : row_good r1) by (by eapply good_written). set (e := Z.min (rect.right rc) (_width b)).
  assert (Hcl : _clampedColumnInclusive (rect.left rc) r1 = rect.left rc /\ _clampedColumnInclusive (rect.right rc) r1 = e).
  { unfold _clampedColumnInclusive, clamp, e. rewrite Kc, Hrc. destruct (Z.ltb_spec (rect.left rc) 0); [lia|]. destruct (Z.ltb_spec (_width b) (rect.left rc)); [lia|].
    destruct (Z.ltb_spec (rect.right rc) 0); [lia|]. destruct (Z.ltb_spec (_width b) (rect.right rc)); rewrite !u16_small by lia; lia. }
  destruct (replace_attributes_contents r1 (rect.left rc) e attr Hg1' ltac:(lia) ltac:(lia)) as (a & E2 & Hg2 & Ha). unfold mbind at 1, comp_bind at 1. unfold with_attributes, with_row. cbn [set_detector set_rows _rows _detector].
  rewrite list_lookup_insert_eq by done. unfold ReplaceAttributes. destruct Hcl as [-> ->]. rewrite E2. cbn [set_detector set_rows _rows _detector _allocations]. rewrite list_insert_insert_eq.
  unfold kept in Hk. assert (Hi2 : image_ok (set_attr a r1)) by (unfold image_ok; rewrite Hk; apply Hfill).
  destruct (EraseCells_ok (set_attr a r1) (rect.left rc) (rect.right rc) Hi2) as (r3 & E3 & Er3 & _). unfold EraseImage_at, with_text, mbind, comp_bind, row_at. cbn [set_detector set_rows _rows]. rewrite list_lookup_insert_eq by done. rewrite E3. cbn [lift]. unfold mret, comp_ret, put_row.
  cbn [set_detector set_rows _rows]. rewrite length_insert. destruct (Nat.ltb_spec (slot_of b y) (length (_rows b1))); [|lia]. rewrite list_insert_insert_eq.
  assert (Hg3 : row_good r3) by (rewrite Er3; destruct Hg2 as [[gs2 K1] K2 K3]; split; [exists gs2; by destruct K1|done|done]).
  pose proof (frame_fields _ _ (shows_frame _ _ _ _ _ _ Hs1)) as (Fw & _).
  assert (Hc3 : _columnCount r3 = _width b1) by (rewrite Er3; cbn; congruence).
  destruct (put_row_ok avx2 uninitialised rowSize b1 (slot_of b y) r3 r (_detector b1) (S (S (_allocations b1))) Hg1 Hr1 Hg3 Hc3 ltac:(split; [apply Hg1|done])) as (P1 & P2 & _).
  eexists _, r3. split; [reflexivity|]. split; [exact P1|]. split; [cbn; by rewrite list_lookup_insert_ne by lia|].
  split; [eapply shows_ext; [|eapply shows_trans; [exact Hs1|exact P2]]; intros s; apply updated_ext; apply Hs1|].
  rewrite Er3. split; cbn [SetImageSlice set_flags set_attr _attr _lineRendition _wrapForced _promptData].
  - exists gs. split; [done|]. fold e. rewrite Hrc in Hr1'. destruct Hr1'; by split.
  - rewrite Ha, Ka. fold e. do 3 f_equal. lia.
  - by rewrite Hk.
Qed.

Lemma scratchpad_ok b attr : good_buffer b -> exists b' scratch, GetScratchpadRow avx2 uninitialised rowSize attr b = (b', Returned 0%nat) /\ good_buffer b' /\ frame b' = frame b /\
  same_measure (_detector b) (_detector b') /\ (forall slot, slot <> 0%nat -> slot_row b' slot = slot_row b slot) /\ _rows b' !! 0%nat = Some scratch /\ blank_row attr (_width b) scratch.
Proof.
  intros Hg. pose proof (good_ok b Hg) as Hb. pose proof Hb as [_ Hh _ _ _]. destruct (direct_ok avx2 uninitialised rowSize b 0 Hb ltac:(lia)) as (b1 & E & Hgr & Hb1 & Hl). unfold GetScratchpadRow, mbind, comp_bind. rewrite E.
  change (Z.to_nat 0) with 0%nat in *. assert (Hg1 : good_buffer b1) by (split; [done|destruct Hgr as [-> _]; apply Hg]). destruct (lookup_lt_is_Some_2 _ _ Hl) as [r Hr].
  destruct (row_Reset_ok avx2 uninitialised rowSize b1 0 r attr Hg1 Hr) as (b2 & r' & E2 & Hg2 & Hs2 & Hblank & Hd2). rewrite E2. exists b2, r'. split; [done|]. split; [done|].
  pose proof (grown_shows avx2 uninitialised rowSize b b1 Hgr (good_detector b Hg)) as Hs1. pose proof (frame_fields _ _ (shows_frame _ _ _ _ _ _ Hs1)) as (Fw & _).
  split; [transitivity (frame b1); [apply Hs2|apply Hs1]|]. split; [eapply same_measure_trans; [apply Hs1|apply Hs2]|].
  split; [intros slot Hne; rewrite (shows_slot _ _ _ _ _ _ Hs2); unfold updated; rewrite decide_False by done; apply Hs1|].
  pose proof (shows_slot _ _ _ _ _ _ Hs2 0%nat) as H02. unfold updated in H02. rewrite decide_True in H02 by done. unfold TextBufferProps.slot_row in H02.
  split; [|by rewrite <- Fw].
  destruct (_rows b2 !! 0%nat) eqn:E0; [done|]. exfalso. apply lookup_ge_None in E0. unfold row_Reset, mbind, comp_bind in E2. rewrite (row_at_ok b1 0 r Hr) in E2.
  destruct (Reset avx2 uninitialised attr r); [|done]. cbn [lift] in E2. unfold mret, comp_ret, put_row in E2. destruct (Nat.ltb_spec 0 (length (_rows b1))); [|lia]. injection E2 as <-. cbn in E0. rewrite length_insert in E0. lia.
Qed.

(** Erasing a rectangle leaves spaces with the given attributes in its columns, in
    each of its lines, and cuts glyphs at its edges into spaces; other columns and other
    lines are as before, and it always comes to an end. *)
Lemma FillRect_erases b (rc : rect.t) (address : Z) (attributes : TextAttribute.t) : good_buffer b -> rect.is_valid rc = true -> rect.left rc < _width b -> rect.bottom rc <= _height b ->
  (forall y r, rect.top rc <= y < rect.bottom rc -> line b y = Some r -> fillable r) ->
  exists b', FillRect avx2 uninitialised allocated rowSize rc (mkView address [UNICODE_SPACE]) attributes b = (b', Returned tt) /\
    touched b (fun y => rect.top rc <= y < rect.bottom rc) (row_filled (Z.to_nat (rect.left rc)) (Z.to_nat (Z.min (rect.right rc) (_width b))) attributes) b'.
Proof.
  intros Hg Hv Hlw Hbot Hpre. unfold FillRect. rewrite Hv. cbn [negb orb text]. unfold rect.is_valid in Hv. rewrite !andb_true_iff, !Z.leb_le, !Z.ltb_lt in Hv. destruct Hv as [[[V1 V2] V3] V4].
  destruct (scratchpad_ok b attributes Hg) as (b1 & scratch & E1 & Hg1 & F1 & D1 & S1 & H01 & Hblank). unfold mbind at 1, comp_bind at 1. rewrite E1. unfold mbind at 1, comp_bind at 1, gets. cbn [id].
  rewrite decide_True by done. unfold mbind, comp_bind, mret, comp_ret. pose proof (frame_fields _ _ F1) as (Fw & Fh & _). pose proof (good_ok b Hg) as [_ Hh _ _ _].
  assert (Hsame : forall y, line b1 y = line b y) by (intros y; unfold TextBufferProps.line; rewrite S1, (slot_of_frame b b1) by (done || (rewrite (slot_of_frame b b1) by done; unfold slot_of; pose proof (Z.mod_pos_bound (_firstRow b + y) (_height b) ltac:(lia)); lia)); done).
  set (P := fun b2 : TextBuffer D => _rows b2 !! 0%nat = Some scratch /\ frame b2 = frame b1).
  destruct (for_rows_ok (fill_row avx2 uninitialised allocated rowSize rc attributes 0) P fillable (row_filled (Z.to_nat (rect.left rc)) (Z.to_nat (Z.min (rect.right rc) (_width b))) attributes) (Z.to_nat (rect.bottom rc - rect.top rc)) b1 (rect.top rc)) as (b2 & -> & HT & _); [|done|done|lia|lia| |].
  - intros b2 z r Hg2 [I1 I2] Hz Hl Hf. pose proof (frame_fields _ _ I2) as (Fw2 & Fh2 & _).
    destruct (fill_row_ok rc attributes scratch b2 z r Hg2 I1 ltac:(by rewrite Fw2, Fw) ltac:(lia) ltac:(lia) ltac:(lia) Hl Hf) as (b3 & r' & E3 & Hg3 & I3 & Hs3 & Hfilled).
    exists b3, r'. split; [done|]. split; [done|]. split; [split; [done|transitivity (frame b2); [apply Hs3|done]]|]. split; [done|]. by rewrite Fw2, Fw in Hfilled.
  - intros z r Hz Hl. rewrite Hsame in Hl. apply (Hpre z); [lia|done].
  - exists b2. split; [done|]. rewrite Z2Nat.id in HT by lia. destruct HT as [M1 M2 M3 M4 M5]. split; [done|congruence|by eapply same_measure_trans| |]; rewrite <- ?Fh in *.
    + intros y Hy HP. destruct (M4 y ltac:(lia) ltac:(lia)) as (r & r' & K1 & K2 & K3). rewrite Hsame in K1. by exists r, r'.
    + intros y Hy HP. rewrite M5 by lia. apply Hsame.
Qed.
End Lines.
