(* ===== verification/BufferSamples.v ===== *)
(** * The text buffer, by example

    Concrete buffers for the theorems, and where the code departs from its comments. *)

From stdpp Require Import list gmap.
From S2P Require Import Prelude Til Utils TermDispatch TextAttributes Rle RleProps CodepointWidth CodepointWidthProps Geometry ImageSlice Row RowWrite RowProps RowInvariant Cursor TextBuffer TextBufferProps BufferScroll.

Local Abbreviation detector := CodepointWidthDetector.
Local Abbreviation zeros := (fun _ : nat => 0).
Definition sample_address (n : nat) : Z := Z.of_nat n * 100000 + 1000.
Definition sample_order (m : gmap wstring Z) : list (wstring * Z) := map_to_list m.
Definition sample_size : Z := 200.

Definition sample_buffer (w h : Z) : TextBuffer detector := fst (TextBuffer_new sample_address (size.mk w h) TextAttribute.default 25 true 0 new_Detector 0).

Lemma sample_good w h : 1 <= w < 0x8000 -> 1 <= h < 2 ^ 16 ->
  good_buffer (sample_buffer w h) /\ _rows (sample_buffer w h) = [] /\ _width (sample_buffer w h) = w /\ _height (sample_buffer w h) = h.
Proof.
  intros Hw Hh. destruct (new_buffer_good sample_address w h TextAttribute.default 25 true 0 new_Detector 0 Hw Hh) as (b & E & Hg & Hr & Ew & Eh & _); [exact new_Detector_ok|]. unfold sample_buffer. by rewrite E.
Qed.

(** Lines that have not been written. *)
Lemma sample_line_blank w h y r : 1 <= w < 0x8000 -> 1 <= h < 2 ^ 16 -> line true zeros sample_size (sample_buffer w h) y = Some r -> blank_row TextAttribute.default w r /\ _columnCount r = w.
Proof.
  intros Hw Hh Hl. destruct (sample_good w h Hw Hh) as (Hg & Hr & Ew & _). unfold line, slot_row in Hl. rewrite Hr in Hl. cbn in Hl.
  pose proof (fresh_row_blank true zeros sample_size (sample_buffer w h) _ r ltac:(by rewrite Ew) Hl) as Hb. pose proof (fresh_row_good true zeros sample_size (sample_buffer w h) _ r ltac:(by rewrite Ew) Hl) as [_ Hc]. rewrite Ew in Hb, Hc.
  split; [|done]. revert Hb. unfold sample_buffer, TextBuffer_new, _reserve, narrow_u16. cbn [size.width size.height]. rewrite !Z.max_l by lia.
  destruct (Z.leb_spec 0 w); [|lia]. destruct (Z.ltb_spec w (2 ^ 16)); [|lia]. destruct (Z.leb_spec 0 h); [|lia]. destruct (Z.ltb_spec h (2 ^ 16)); [|lia]. done.
Qed.

Lemma blank_charSize r attr w : blank_row attr w r -> _columnCount r = w -> 1 <= w -> _charSize r = Some w.
Proof.
  intros [[Hc Hone Hok Ho Hlen _ _] _ _] Ew Hw. unfold _charSize, offset_at. destruct (Z.ltb_spec (_columnCount r) 0); [lia|]. rewrite Ho. replace (Z.to_nat (_columnCount r)) with (columns (spaces (Z.to_nat w))) by (rewrite columns_spaces; lia).
  rewrite offsets_end by done. rewrite chars_len_spaces. f_equal. lia.
Qed.

Lemma IncrementCircularBuffer_scrolls_witness : good_buffer (sample_buffer 4 3) /\
  exists b' r, IncrementCircularBuffer true zeros sample_size sample_order TextAttribute.default (sample_buffer 4 3) = (b', Returned tt) /\ lines true zeros sample_size b' = drop 1 (lines true zeros sample_size (sample_buffer 4 3)) ++ [Some r].
Proof.
  assert (Hg : good_buffer (sample_buffer 4 3)) by (apply sample_good; lia). split; [exact Hg|].
  destruct (IncrementCircularBuffer_scrolls true zeros sample_address sample_size sample_order (sample_buffer 4 3) TextAttribute.default Hg) as (b' & r & E & _ & Hl & _). exists b', r. split; [exact E|exact Hl].
Defined.

Lemma ScrollRows_moves_witness : exists b', ScrollRows true zeros sample_address sample_size 2 3 (-1) (sample_buffer 4 6) = (b', Returned tt) /\
  moved true zeros sample_size (sample_buffer 4 6) (-1) (fun y => 2 + -1 <= y < 2 + -1 + 3) b'.
Proof.
  destruct (sample_good 4 6 ltac:(lia) ltac:(lia)) as (Hg & _ & _ & Hh).
  assert (Hs : all_short true zeros sample_size (sample_buffer 4 6)).
  { intros y r _ Hl. destruct (sample_line_blank 4 6 y r ltac:(lia) ltac:(lia) Hl) as [Hb Hc]. exists 4. rewrite (blank_charSize r _ 4 Hb Hc) by lia. rewrite Hc. split; [done|lia]. }
  apply (ScrollRows_moves true zeros sample_address sample_size (sample_buffer 4 6) 2 3 (-1) Hg Hs); rewrite ?Hh; lia.
Defined.

(** ** Departures *)

Definition write (y : Z) (t : string) : comp (TextBuffer detector) unit :=
  Replace true zeros sample_address sample_size y TextAttribute.default (mkWriteState (mkView 1 (wide t)) 0 CoordTypeMax 0 0 0);; mret tt.
Definition after {A} (m : comp (TextBuffer detector) A) (b : TextBuffer detector) : TextBuffer detector := fst (m b).
Definition result {A} (m : comp (TextBuffer detector) A) (b : TextBuffer detector) : outcome A := snd (m b).
Definition texts (b : TextBuffer detector) : list (option wstring) :=
  map (fun y => r ← line true zeros sample_size b (Z.of_nat y); GetText r) (seq 0 (Z.to_nat (_height b))).
Definition blank : wstring := wide " ".

(** Five lines, of which two have scrolled out: the ring starts in the middle. *)
Definition rotate : comp (TextBuffer detector) unit := IncrementCircularBuffer true zeros sample_size sample_order TextAttribute.default.
Definition rotated_buffer : TextBuffer detector :=
  after (write 0 "a";; write 1 "b";; write 2 "c";; write 3 "d";; write 4 "e";; rotate;; rotate;; write 3 "f";; write 4 "g") (sample_buffer 1 5).

(** [ClearScrollback] should keep the last three lines; if they wrap around in the
    ring, the copying overwrites lines that it still has to read. *)
Lemma ClearScrollback_loses_lines :
  texts rotated_buffer = map Some [wide "c"; wide "d"; wide "e"; wide "f"; wide "g"] /\
  texts (after (ClearScrollback true zeros sample_address sample_size 2 3) rotated_buffer) = map Some [wide "e"; wide "e"; wide "e"; blank; blank].
Proof. vm_compute. repeat split. Qed.

(** The mark of a prompt does not move with its line. *)
Definition marked (b : TextBuffer detector) : list bool :=
  map (fun y => match r ← line true zeros sample_size b (Z.of_nat y); _promptData r with Some _ => true | None => false end) (seq 0 (Z.to_nat (_height b))).
Definition mark_line (y : Z) : comp (TextBuffer detector) unit := slot ← GetMutableRowByOffset true zeros sample_size y; update_row slot StartPrompt.
Lemma scrolled_lines_lose_marks :
  let b := after (write 2 "p";; mark_line 2;; ScrollRows true zeros sample_address sample_size 2 1 (-2)) (sample_buffer 1 3) in
  texts b = map Some [wide "p"; blank; wide "p"] /\ marked b = [false; false; true].
Proof. vm_compute. repeat split. Qed.

(** A line whose last column is padding, since a wide glyph did not fit, is copied
    without that column: the old character stays there. *)
Lemma padded_column_not_copied :
  let wide_line : comp (TextBuffer detector) unit := Replace true zeros sample_address sample_size 1 TextAttribute.default (mkWriteState (mkView 1 [0x61; 0x62; 0x6F22]) 0 CoordTypeMax 0 0 0);; mret tt in
  let b := after (write 0 "xyz";; wide_line;; ScrollRows true zeros sample_address sample_size 1 1 (-1)) (sample_buffer 3 2) in
  (GetTextBetween 0 3 <$> line true zeros sample_size (after wide_line (sample_buffer 3 2)) 1) = Some (Some (wide "ab")) /\
  texts b !! 0%nat = Some (Some (wide "abz")).
Proof. vm_compute. repeat split. Qed.

(** Only the last line blinks: the region ends with that line, but the loop stops in
    front of it. *)
Lemma last_line_blink_missed :
  let blinking := TextAttribute.SetBlinking true TextAttribute.default in
  let b := after (Replace true zeros sample_address sample_size 1 blinking (mkWriteState (mkView 1 (wide "b")) 0 CoordTypeMax 0 0 0)) (sample_buffer 2 2) in
  result (ContainsBlinkAttributeInRegion true zeros sample_size (GetSize b)) b = Returned false /\
  (r ← line true zeros sample_size b 1; GetAttrByColumn 0 r) = Some blinking.
Proof. vm_compute. repeat split. Qed.

(** The last row of the ring counts as committed as soon as the scratchpad row is. *)
Lemma last_row_counts_as_committed :
  let b := after (GetScratchpadRow true zeros sample_size TextAttribute.default) (sample_buffer 1 300) in
  _isRowCommitted 299 b = true /\ _isRowCommitted 298 b = false /\ length (_rows b) = 129%nat /\ slot_of b 299 = 300%nat.
Proof. vm_compute. repeat split. Qed.

(** A wide glyph with one column left: two columns are reported for a limit of one. *)
Lemma fit_exceeds_limit : snd <$> FitTextIntoColumns (mkView 16 [0x6F22]) 1 new_Detector = Some (0, 2).
Proof. vm_compute. reflexivity. Qed.

(** A character without a width: it fits into no column, but a row takes one. *)
Lemma fit_differs_from_rows :
  snd <$> FitTextIntoColumns (mkView 16 [0x200B]) 5 new_Detector = Some (1, 0) /\
  (match ReplaceText true zeros 8192 (mkWriteState (mkView 4096 [0x200B]) 0 CoordTypeMax 0 0 0) sample_line_row new_Detector with (_, _, Returned s) => Some (ws_columnEnd s) | _ => None end) = Some 1.
Proof. vm_compute. repeat split. Qed.

(** Clearing the marks of a prompt and its command leaves two equal runs next to each
    other. *)
Lemma cleared_marks_not_joined :
  let marked kind := TextAttribute.SetMarkAttributes kind TextAttribute.default in
  let a := mkRle [mkRun (marked TextAttributes.MarkPrompt) 2; mkRun (marked MarkCommand) 3] 5 in
  rle_ok 16 a /\ ~ rle_ok 16 (_attr (unmark MarkNone (set_attr a sample_line_row))).
Proof.
  split.
  - split; cbn; [repeat constructor; cbn; lia|repeat constructor; discriminate|done|lia].
  - intros [_ Hd _ _]. cbn in Hd. by destruct Hd as [Hne _].
Qed.

(** If the ring was rotated before it was all committed, text in its last line is not
    found. *)
Lemma text_behind_estimate_missed :
  let b := after (rotate;; write 299 "z") (sample_buffer 1 300) in
  result (GetLastNonSpaceCharacter true zeros sample_size None) b = Returned (point.mk 0 0) /\ texts b !! 299%nat = Some (Some (wide "z")).
Proof. vm_compute. repeat split. Qed.
