(* ===== verification/Charsets.v ===== *)
(** * Character sets

    The translation tables of src/terminal/adapter/charsets.hpp. A table is an
    object whose address identifies it: [CharSet] has one constructor for each of
    them, and [table] its contents. *)

From S2P Require Import Prelude.

Inductive CharSet :=
| Ascii | Latin1 | Latin2 | LatinCyrillic | LatinGreek | LatinHebrew | Latin5 | DecSupplemental
| DecSpecialGraphics | DecCyrillic | DecGreek | DecHebrew | DecTurkish | BritishNrcs | DutchNrcs
| FinnishNrcs | FrenchNrcs | FrenchNrcsIso | FrenchCanadianNrcs | GermanNrcs | GreekNrcs | HebrewNrcs
| ItalianNrcs | NorwegianDanishNrcs | NorwegianDanishNrcsIso | PortugueseNrcs | RussianNrcs | SpanishNrcs
| SwedishNrcs | SwissNrcs | TurkishNrcs | Drcs94 | Drcs96.

#[global] Instance CharSet_eq_dec : EqDecision CharSet.
Proof. solve_decision. Defined.

(** The constructor of a table: consecutive characters, some of them replaced. *)
Definition CharSet_table (BaseChar : wchar) (Size : nat) (replacements : list (wchar * wchar)) : list wchar :=
  fold_left (fun t '(first, second) => <[Z.to_nat (first - BaseChar) := second]> t) replacements
    (map (fun i => BaseChar + Z.of_nat i) (seq 0 Size)).

(** ** The replacements *)
Definition Latin2_replacements : list (wchar * wchar) :=
  [(0xa1, 0x104); (0xa2, 0x2d8); (0xa3, 0x141); (0xa5, 0x13d); (0xa6, 0x15a); (0xa9, 0x160); (0xaa, 0x15e);
   (0xab, 0x164); (0xac, 0x179); (0xae, 0x17d); (0xaf, 0x17b); (0xb1, 0x105); (0xb2, 0x2db); (0xb3, 0x142);
   (0xb5, 0x13e); (0xb6, 0x15b); (0xb7, 0x2c7); (0xb9, 0x161); (0xba, 0x15f); (0xbb, 0x165); (0xbc, 0x17a);
   (0xbd, 0x2dd); (0xbe, 0x17e); (0xbf, 0x17c); (0xc0, 0x154); (0xc3, 0x102); (0xc5, 0x139); (0xc6, 0x106);
   (0xc8, 0x10c); (0xca, 0x118); (0xcc, 0x11a); (0xcf, 0x10e); (0xd0, 0x110); (0xd1, 0x143); (0xd2, 0x147);
   (0xd5, 0x150); (0xd8, 0x158); (0xd9, 0x16e); (0xdb, 0x170); (0xde, 0x162); (0xe0, 0x155); (0xe3, 0x103);
   (0xe5, 0x13a); (0xe6, 0x107); (0xe8, 0x10d); (0xea, 0x119); (0xec, 0x11b); (0xef, 0x10f); (0xf0, 0x111);
   (0xf1, 0x144); (0xf2, 0x148); (0xf5, 0x151); (0xf8, 0x159); (0xf9, 0x16f); (0xfb, 0x171); (0xfe, 0x163);
   (0xff, 0x2d9)].
Definition LatinCyrillic_replacements : list (wchar * wchar) :=
  [(0xa1, 0x401); (0xa2, 0x402); (0xa3, 0x403); (0xa4, 0x404); (0xa5, 0x405); (0xa6, 0x406); (0xa7, 0x407);
   (0xa8, 0x408); (0xa9, 0x409); (0xaa, 0x40a); (0xab, 0x40b); (0xac, 0x40c); (0xae, 0x40e); (0xaf, 0x40f);
   (0xb0, 0x410); (0xb1, 0x411); (0xb2, 0x412); (0xb3, 0x413); (0xb4, 0x414); (0xb5, 0x415); (0xb6, 0x416);
   (0xb7, 0x417); (0xb8, 0x418); (0xb9, 0x419); (0xba, 0x41a); (0xbb, 0x41b); (0xbc, 0x41c); (0xbd, 0x41d);
   (0xbe, 0x41e); (0xbf, 0x41f); (0xc0, 0x420); (0xc1, 0x421); (0xc2, 0x422); (0xc3, 0x423); (0xc4, 0x424);
   (0xc5, 0x425); (0xc6, 0x426); (0xc7, 0x427); (0xc8, 0x428); (0xc9, 0x429); (0xca, 0x42a); (0xcb, 0x42b);
   (0xcc, 0x42c); (0xcd, 0x42d); (0xce, 0x42e); (0xcf, 0x42f); (0xd0, 0x430); (0xd1, 0x431); (0xd2, 0x432);
   (0xd3, 0x433); (0xd4, 0x434); (0xd5, 0x435); (0xd6, 0x436); (0xd7, 0x437); (0xd8, 0x438); (0xd9, 0x439);
   (0xda, 0x43a); (0xdb, 0x43b); (0xdc, 0x43c); (0xdd, 0x43d); (0xde, 0x43e); (0xdf, 0x43f); (0xe0, 0x440);
   (0xe1, 0x441); (0xe2, 0x442); (0xe3, 0x443); (0xe4, 0x444); (0xe5, 0x445); (0xe6, 0x446); (0xe7, 0x447);
   (0xe8, 0x448); (0xe9, 0x449); (0xea, 0x44a); (0xeb, 0x44b); (0xec, 0x44c); (0xed, 0x44d); (0xee, 0x44e);
   (0xef, 0x44f); (0xf0, 0x2116); (0xf1, 0x451); (0xf2, 0x452); (0xf3, 0x453); (0xf4, 0x454); (0xf5, 0x455);
   (0xf6, 0x456); (0xf7, 0x457); (0xf8, 0x458); (0xf9, 0x459); (0xfa, 0x45a); (0xfb, 0x45b); (0xfc, 0x45c);
   (0xfd, 0xa7); (0xfe, 0x45e); (0xff, 0x45f)].
Definition LatinGreek_replacements : list (wchar * wchar) :=
  [(0xa1, 0x2018); (0xa2, 0x2019); (0xa4, 0x2426); (0xa5, 0x2426); (0xaa, 0x2426); (0xae, 0x2426); (0xaf, 0x2015);
   (0xb4, 0x384); (0xb5, 0x385); (0xb6, 0x386); (0xb8, 0x388); (0xb9, 0x389); (0xba, 0x38a); (0xbc, 0x38c);
   (0xbe, 0x38e); (0xbf, 0x38f); (0xc0, 0x390); (0xc1, 0x391); (0xc2, 0x392); (0xc3, 0x393); (0xc4, 0x394);
   (0xc5, 0x395); (0xc6, 0x396); (0xc7, 0x397); (0xc8, 0x398); (0xc9, 0x399); (0xca, 0x39a); (0xcb, 0x39b);
   (0xcc, 0x39c); (0xcd, 0x39d); (0xce, 0x39e); (0xcf, 0x39f); (0xd0, 0x3a0); (0xd1, 0x3a1); (0xd2, 0x2426);
   (0xd3, 0x3a3); (0xd4, 0x3a4); (0xd5, 0x3a5); (0xd6, 0x3a6); (0xd7, 0x3a7); (0xd8, 0x3a8); (0xd9, 0x3a9);
   (0xda, 0x3aa); (0xdb, 0x3ab); (0xdc, 0x3ac); (0xdd, 0x3ad); (0xde, 0x3ae); (0xdf, 0x3af); (0xe0, 0x3b0);
   (0xe1, 0x3b1); (0xe2, 0x3b2); (0xe3, 0x3b3); (0xe4, 0x3b4); (0xe5, 0x3b5); (0xe6, 0x3b6); (0xe7, 0x3b7);
   (0xe8, 0x3b8); (0xe9, 0x3b9); (0xea, 0x3ba); (0xeb, 0x3bb); (0xec, 0x3bc); (0xed, 0x3bd); (0xee, 0x3be);
   (0xef, 0x3bf); (0xf0, 0x3c0); (0xf1, 0x3c1); (0xf2, 0x3c2); (0xf3, 0x3c3); (0xf4, 0x3c4); (0xf5, 0x3c5);
   (0xf6, 0x3c6); (0xf7, 0x3c7); (0xf8, 0x3c8); (0xf9, 0x3c9); (0xfa, 0x3ca); (0xfb, 0x3cb); (0xfc, 0x3cc);
   (0xfd, 0x3cd); (0xfe, 0x3ce); (0xff, 0x2426)].
Definition LatinHebrew_replacements : list (wchar * wchar) :=
  [(0xa1, 0x2426); (0xaa, 0xd7); (0xba, 0xf7); (0xbf, 0x2426); (0xc0, 0x2426); (0xc1, 0x2426); (0xc2, 0x2426);
   (0xc3, 0x2426); (0xc4, 0x2426); (0xc5, 0x2426); (0xc6, 0x2426); (0xc7, 0x2426); (0xc8, 0x2426); (0xc9, 0x2426);
   (0xca, 0x2426); (0xcb, 0x2426); (0xcc, 0x2426); (0xcd, 0x2426); (0xce, 0x2426); (0xcf, 0x2426); (0xd0, 0x2426);
   (0xd1, 0x2426); (0xd2, 0x2426); (0xd3, 0x2426); (0xd4, 0x2426); (0xd5, 0x2426); (0xd6, 0x2426); (0xd7, 0x2426);
   (0xd8, 0x2426); (0xd9, 0x2426); (0xda, 0x2426); (0xdb, 0x2426); (0xdc, 0x2426); (0xdd, 0x2426); (0xde, 0x2426);
   (0xdf, 0x2017); (0xe0, 0x5d0); (0xe1, 0x5d1); (0xe2, 0x5d2); (0xe3, 0x5d3); (0xe4, 0x5d4); (0xe5, 0x5d5);
   (0xe6, 0x5d6); (0xe7, 0x5d7); (0xe8, 0x5d8); (0xe9, 0x5d9); (0xea, 0x5da); (0xeb, 0x5db); (0xec, 0x5dc);
   (0xed, 0x5dd); (0xee, 0x5de); (0xef, 0x5df); (0xf0, 0x5e0); (0xf1, 0x5e1); (0xf2, 0x5e2); (0xf3, 0x5e3);
   (0xf4, 0x5e4); (0xf5, 0x5e5); (0xf6, 0x5e6); (0xf7, 0x5e7); (0xf8, 0x5e8); (0xf9, 0x5e9); (0xfa, 0x5ea);
   (0xfb, 0x2426); (0xfc, 0x2426); (0xfd, 0x200e); (0xfe, 0x200f); (0xff, 0x2426)].
Definition Latin5_replacements : list (wchar * wchar) :=
  [(0xd0, 0x11e); (0xdd, 0x130); (0xde, 0x15e); (0xf0, 0x11f); (0xfd, 0x131); (0xfe, 0x15f)].
Definition DecSupplemental_replacements : list (wchar * wchar) :=
  [(0xa4, 0x2426); (0xa6, 0x2426); (0xa8, 0xa4); (0xac, 0x2426); (0xad, 0x2426); (0xae, 0x2426); (0xaf, 0x2426);
   (0xb4, 0x2426); (0xb8, 0x2426); (0xbe, 0x2426); (0xd0, 0x2426); (0xd7, 0x152); (0xdd, 0x178); (0xde, 0x2426);
   (0xf0, 0x2426); (0xf7, 0x153); (0xfd, 0xff); (0xfe, 0x2426)].
Definition DecSpecialGraphics_replacements : list (wchar * wchar) :=
  [(0x5f, 0x20); (0x60, 0x2666); (0x61, 0x2592); (0x62, 0x2409); (0x63, 0x240c); (0x64, 0x240d); (0x65, 0x240a);
   (0x66, 0xb0); (0x67, 0xb1); (0x68, 0x2424); (0x69, 0x240b); (0x6a, 0x2518); (0x6b, 0x2510); (0x6c, 0x250c);
   (0x6d, 0x2514); (0x6e, 0x253c); (0x6f, 0x23ba); (0x70, 0x23bb); (0x71, 0x2500); (0x72, 0x23bc); (0x73, 0x23bd);
   (0x74, 0x251c); (0x75, 0x2524); (0x76, 0x2534); (0x77, 0x252c); (0x78, 0x2502); (0x79, 0x2264); (0x7a, 0x2265);
   (0x7b, 0x3c0); (0x7c, 0x2260); (0x7d, 0xa3); (0x7e, 0xb7)].
Definition DecCyrillic_replacements : list (wchar * wchar) :=
  [(0xa1, 0x2426); (0xa2, 0x2426); (0xa3, 0x2426); (0xa4, 0x2426); (0xa5, 0x2426); (0xa6, 0x2426); (0xa7, 0x2426);
   (0xa8, 0x2426); (0xa9, 0x2426); (0xaa, 0x2426); (0xab, 0x2426); (0xac, 0x2426); (0xad, 0x2426); (0xae, 0x2426);
   (0xaf, 0x2426); (0xb0, 0x2426); (0xb1, 0x2426); (0xb2, 0x2426); (0xb3, 0x2426); (0xb4, 0x2426); (0xb5, 0x2426);
   (0xb6, 0x2426); (0xb7, 0x2426); (0xb8, 0x2426); (0xb9, 0x2426); (0xba, 0x2426); (0xbb, 0x2426); (0xbc, 0x2426);
   (0xbd, 0x2426); (0xbe, 0x2426); (0xbf, 0x2426); (0xc0, 0x44e); (0xc1, 0x430); (0xc2, 0x431); (0xc3, 0x446);
   (0xc4, 0x434); (0xc5, 0x435); (0xc6, 0x444); (0xc7, 0x433); (0xc8, 0x445); (0xc9, 0x438); (0xca, 0x439);
   (0xcb, 0x43a); (0xcc, 0x43b); (0xcd, 0x43c); (0xce, 0x43d); (0xcf, 0x43e); (0xd0, 0x43f); (0xd1, 0x44f);
   (0xd2, 0x440); (0xd3, 0x441); (0xd4, 0x442); (0xd5, 0x443); (0xd6, 0x436); (0xd7, 0x432); (0xd8, 0x44c);
   (0xd9, 0x44b); (0xda, 0x437); (0xdb, 0x448); (0xdc, 0x44d); (0xdd, 0x449); (0xde, 0x447); (0xdf, 0x44a);
   (0xe0, 0x42e); (0xe1, 0x410); (0xe2, 0x411); (0xe3, 0x426); (0xe4, 0x414); (0xe5, 0x415); (0xe6, 0x424);
   (0xe7, 0x413); (0xe8, 0x425); (0xe9, 0x418); (0xea, 0x419); (0xeb, 0x41a); (0xec, 0x41b); (0xed, 0x41c);
   (0xee, 0x41d); (0xef, 0x41e); (0xf0, 0x41f); (0xf1, 0x42f); (0xf2, 0x420); (0xf3, 0x421); (0xf4, 0x422);
   (0xf5, 0x423); (0xf6, 0x416); (0xf7, 0x412); (0xf8, 0x42c); (0xf9, 0x42b); (0xfa, 0x417); (0xfb, 0x428);
   (0xfc, 0x42d); (0xfd, 0x429); (0xfe, 0x427)].
Definition DecGreek_replacements : list (wchar * wchar) :=
  [(0xa4, 0x2426); (0xa6, 0x2426); (0xa8, 0xa4); (0xac, 0x2426); (0xad, 0x2426); (0xae, 0x2426); (0xaf, 0x2426);
   (0xb4, 0x2426); (0xb8, 0x2426); (0xbe, 0x2426); (0xc0, 0x3ca); (0xc1, 0x391); (0xc2, 0x392); (0xc3, 0x393);
   (0xc4, 0x394); (0xc5, 0x395); (0xc6, 0x396); (0xc7, 0x397); (0xc8, 0x398); (0xc9, 0x399); (0xca, 0x39a);
   (0xcb, 0x39b); (0xcc, 0x39c); (0xcd, 0x39d); (0xce, 0x39e); (0xcf, 0x39f); (0xd0, 0x2426); (0xd1, 0x3a0);
   (0xd2, 0x3a1); (0xd3, 0x3a3); (0xd4, 0x3a4); (0xd5, 0x3a5); (0xd6, 0x3a6); (0xd7, 0x3a7); (0xd8, 0x3a8);
   (0xd9, 0x3a9); (0xda, 0x3ac); (0xdb, 0x3ad); (0xdc, 0x3ae); (0xdd, 0x3af); (0xde, 0x2426); (0xdf, 0x3cc);
   (0xe0, 0x3cb); (0xe1, 0x3b1); (0xe2, 0x3b2); (0xe3, 0x3b3); (0xe4, 0x3b4); (0xe5, 0x3b5); (0xe6, 0x3b6);
   (0xe7, 0x3b7); (0xe8, 0x3b8); (0xe9, 0x3b9); (0xea, 0x3ba); (0xeb, 0x3bb); (0xec, 0x3bc); (0xed, 0x3bd);
   (0xee, 0x3be); (0xef, 0x3bf); (0xf0, 0x2426); (0xf1, 0x3c0); (0xf2, 0x3c1); (0xf3, 0x3c3); (0xf4, 0x3c4);
   (0xf5, 0x3c5); (0xf6, 0x3c6); (0xf7, 0x3c7); (0xf8, 0x3c8); (0xf9, 0x3c9); (0xfa, 0x3c2); (0xfb, 0x3cd);
   (0xfc, 0x3ce); (0xfd, 0x384); (0xfe, 0x2426)].
Definition DecHebrew_replacements : list (wchar * wchar) :=
  [(0xa4, 0x2426); (0xa6, 0x2426); (0xa8, 0xa4); (0xac, 0x2426); (0xad, 0x2426); (0xae, 0x2426); (0xaf, 0x2426);
   (0xb4, 0x2426); (0xb8, 0x2426); (0xbe, 0x2426); (0xc0, 0x2426); (0xc1, 0x2426); (0xc2, 0x2426); (0xc3, 0x2426);
   (0xc4, 0x2426); (0xc5, 0x2426); (0xc6, 0x2426); (0xc7, 0x2426); (0xc8, 0x2426); (0xc9, 0x2426); (0xca, 0x2426);
   (0xcb, 0x2426); (0xcc, 0x2426); (0xcd, 0x2426); (0xce, 0x2426); (0xcf, 0x2426); (0xd0, 0x2426); (0xd1, 0x2426);
   (0xd2, 0x2426); (0xd3, 0x2426); (0xd4, 0x2426); (0xd5, 0x2426); (0xd6, 0x2426); (0xd7, 0x2426); (0xd8, 0x2426);
   (0xd9, 0x2426); (0xda, 0x2426); (0xdb, 0x2426); (0xdc, 0x2426); (0xdd, 0x2426); (0xde, 0x2426); (0xdf, 0x2426);
   (0xe0, 0x5d0); (0xe1, 0x5d1); (0xe2, 0x5d2); (0xe3, 0x5d3); (0xe4, 0x5d4); (0xe5, 0x5d5); (0xe6, 0x5d6);
   (0xe7, 0x5d7); (0xe8, 0x5d8); (0xe9, 0x5d9); (0xea, 0x5da); (0xeb, 0x5db); (0xec, 0x5dc); (0xed, 0x5dd);
   (0xee, 0x5de); (0xef, 0x5df); (0xf0, 0x5e0); (0xf1, 0x5e1); (0xf2, 0x5e2); (0xf3, 0x5e3); (0xf4, 0x5e4);
   (0xf5, 0x5e5); (0xf6, 0x5e6); (0xf7, 0x5e7); (0xf8, 0x5e8); (0xf9, 0x5e9); (0xfa, 0x5ea); (0xfb, 0x2426);
   (0xfc, 0x2426); (0xfd, 0x2426); (0xfe, 0x2426)].
Definition DecTurkish_replacements : list (wchar * wchar) :=
  [(0xa4, 0x2426); (0xa6, 0x2426); (0xa8, 0xa4); (0xac, 0x2426); (0xad, 0x2426); (0xae, 0x130); (0xaf, 0x2426);
   (0xb4, 0x2426); (0xb8, 0x2426); (0xbe, 0x131); (0xd0, 0x11e); (0xd7, 0x152); (0xdd, 0x178); (0xde, 0x15e);
   (0xf0, 0x11f); (0xf7, 0x153); (0xfd, 0xff); (0xfe, 0x15f)].
Definition BritishNrcs_replacements : list (wchar * wchar) :=
  [(0x23, 0xa3)].
Definition DutchNrcs_replacements : list (wchar * wchar) :=
  [(0x23, 0xa3); (0x40, 0xbe); (0x5b, 0x133); (0x5c, 0xbd); (0x5d, 0x7c); (0x7b, 0xa8); (0x7c, 0x192);
   (0x7d, 0xbc); (0x7e, 0xb4)].
Definition FinnishNrcs_replacements : list (wchar * wchar) :=
  [(0x5b, 0xc4); (0x5c, 0xd6); (0x5d, 0xc5); (0x5e, 0xdc); (0x60, 0xe9); (0x7b, 0xe4); (0x7c, 0xf6); (0x7d, 0xe5);
   (0x7e, 0xfc)].
Definition FrenchNrcs_replacements : list (wchar * wchar) :=
  [(0x23, 0xa3); (0x40, 0xe0); (0x5b, 0xb0); (0x5c, 0xe7); (0x5d, 0xa7); (0x7b, 0xe9); (0x7c, 0xf9); (0x7d, 0xe8);
   (0x7e, 0xa8)].
Definition FrenchNrcsIso_replacements : list (wchar * wchar) :=
  [(0x23, 0xa3); (0x40, 0xe0); (0x5b, 0xb0); (0x5c, 0xe7); (0x5d, 0xa7); (0x60, 0xb5); (0x7b, 0xe9); (0x7c, 0xf9);
   (0x7d, 0xe8); (0x7e, 0xa8)].
Definition FrenchCanadianNrcs_replacements : list (wchar * wchar) :=
  [(0x40, 0xe0); (0x5b, 0xe2); (0x5c, 0xe7); (0x5d, 0xea); (0x5e, 0xee); (0x60, 0xf4); (0x7b, 0xe9); (0x7c, 0xf9);
   (0x7d, 0xe8); (0x7e, 0xfb)].
Definition GermanNrcs_replacements : list (wchar * wchar) :=
  [(0x40, 0xa7); (0x5b, 0xc4); (0x5c, 0xd6); (0x5d, 0xdc); (0x7b, 0xe4); (0x7c, 0xf6); (0x7d, 0xfc); (0x7e, 0xdf)].
Definition GreekNrcs_replacements : list (wchar * wchar) :=
  [(0x40, 0x3ca); (0x41, 0x391); (0x42, 0x392); (0x43, 0x393); (0x44, 0x394); (0x45, 0x395); (0x46, 0x396);
   (0x47, 0x397); (0x48, 0x398); (0x49, 0x399); (0x4a, 0x39a); (0x4b, 0x39b); (0x4c, 0x39c); (0x4d, 0x39d);
   (0x4e, 0x39e); (0x4f, 0x39f); (0x50, 0x2426); (0x51, 0x3a0); (0x52, 0x3a1); (0x53, 0x3a3); (0x54, 0x3a4);
   (0x55, 0x3a5); (0x56, 0x3a6); (0x57, 0x3a7); (0x58, 0x3a8); (0x59, 0x3a9); (0x5a, 0x3ac); (0x5b, 0x3ad);
   (0x5c, 0x3ae); (0x5d, 0x3af); (0x5e, 0x2426); (0x5f, 0x3cc); (0x60, 0x3cb); (0x61, 0x3b1); (0x62, 0x3b2);
   (0x63, 0x3b3); (0x64, 0x3b4); (0x65, 0x3b5); (0x66, 0x3b6); (0x67, 0x3b7); (0x68, 0x3b8); (0x69, 0x3b9);
   (0x6a, 0x3ba); (0x6b, 0x3bb); (0x6c, 0x3bc); (0x6d, 0x3bd); (0x6e, 0x3be); (0x6f, 0x3bf); (0x70, 0x2426);
   (0x71, 0x3c0); (0x72, 0x3c1); (0x73, 0x3c3); (0x74, 0x3c4); (0x75, 0x3c5); (0x76, 0x3c6); (0x77, 0x3c7);
   (0x78, 0x3c8); (0x79, 0x3c9); (0x7a, 0x3c2); (0x7b, 0x3cd); (0x7c, 0x3ce); (0x7d, 0x384); (0x7e, 0x2426)].
Definition HebrewNrcs_replacements : list (wchar * wchar) :=
  [(0x60, 0x5d0); (0x61, 0x5d1); (0x62, 0x5d2); (0x63, 0x5d3); (0x64, 0x5d4); (0x65, 0x5d5); (0x66, 0x5d6);
   (0x67, 0x5d7); (0x68, 0x5d8); (0x69, 0x5d9); (0x6a, 0x5da); (0x6b, 0x5db); (0x6c, 0x5dc); (0x6d, 0x5dd);
   (0x6e, 0x5de); (0x6f, 0x5df); (0x70, 0x5e0); (0x71, 0x5e1); (0x72, 0x5e2); (0x73, 0x5e3); (0x74, 0x5e4);
   (0x75, 0x5e5); (0x76, 0x5e6); (0x77, 0x5e7); (0x78, 0x5e8); (0x79, 0x5e9); (0x7a, 0x5ea)].
Definition ItalianNrcs_replacements : list (wchar * wchar) :=
  [(0x23, 0xa3); (0x40, 0xa7); (0x5b, 0xb0); (0x5c, 0xe7); (0x5d, 0xe9); (0x60, 0xf9); (0x7b, 0xe0); (0x7c, 0xf2);
   (0x7d, 0xe8); (0x7e, 0xec)].
Definition NorwegianDanishNrcs_replacements : list (wchar * wchar) :=
  [(0x40, 0xc4); (0x5b, 0xc6); (0x5c, 0xd8); (0x5d, 0xc5); (0x5e, 0xdc); (0x60, 0xe4); (0x7b, 0xe6); (0x7c, 0xf8);
   (0x7d, 0xe5); (0x7e, 0xfc)].
Definition NorwegianDanishNrcsIso_replacements : list (wchar * wchar) :=
  [(0x5b, 0xc6); (0x5c, 0xd8); (0x5d, 0xc5); (0x7b, 0xe6); (0x7c, 0xf8); (0x7d, 0xe5)].
Definition PortugueseNrcs_replacements : list (wchar * wchar) :=
  [(0x5b, 0xc3); (0x5c, 0xc7); (0x5d, 0xd5); (0x7b, 0xe3); (0x7c, 0xe7); (0x7d, 0xf5)].
Definition RussianNrcs_replacements : list (wchar * wchar) :=
  [(0x60, 0x42e); (0x61, 0x410); (0x62, 0x411); (0x63, 0x426); (0x64, 0x414); (0x65, 0x415); (0x66, 0x424);
   (0x67, 0x413); (0x68, 0x425); (0x69, 0x418); (0x6a, 0x419); (0x6b, 0x41a); (0x6c, 0x41b); (0x6d, 0x41c);
   (0x6e, 0x41d); (0x6f, 0x41e); (0x70, 0x41f); (0x71, 0x42f); (0x72, 0x420); (0x73, 0x421); (0x74, 0x422);
   (0x75, 0x423); (0x76, 0x416); (0x77, 0x412); (0x78, 0x42c); (0x79, 0x42b); (0x7a, 0x417); (0x7b, 0x428);
   (0x7c, 0x42d); (0x7d, 0x429); (0x7e, 0x427)].
Definition SpanishNrcs_replacements : list (wchar * wchar) :=
  [(0x23, 0xa3); (0x40, 0xa7); (0x5b, 0xa1); (0x5c, 0xd1); (0x5d, 0xbf); (0x7b, 0xb0); (0x7c, 0xf1); (0x7d, 0xe7)].
Definition SwedishNrcs_replacements : list (wchar * wchar) :=
  [(0x40, 0xc9); (0x5b, 0xc4); (0x5c, 0xd6); (0x5d, 0xc5); (0x5e, 0xdc); (0x60, 0xe9); (0x7b, 0xe4); (0x7c, 0xf6);
   (0x7d, 0xe5); (0x7e, 0xfc)].
Definition SwissNrcs_replacements : list (wchar * wchar) :=
  [(0x23, 0xf9); (0x40, 0xe0); (0x5b, 0xe9); (0x5c, 0xe7); (0x5d, 0xea); (0x5e, 0xee); (0x5f, 0xe8); (0x60, 0xf4);
   (0x7b, 0xe4); (0x7c, 0xf6); (0x7d, 0xfc); (0x7e, 0xfb)].
Definition TurkishNrcs_replacements : list (wchar * wchar) :=
  [(0x21, 0x131); (0x26, 0x11f); (0x40, 0x130); (0x5b, 0x15e); (0x5c, 0xd6); (0x5d, 0xc7); (0x5e, 0xdc);
   (0x60, 0x11e); (0x7b, 0x15f); (0x7c, 0xf6); (0x7d, 0xe7); (0x7e, 0xfc)].

Definition DRCS_BASE_CHAR : wchar := 0xEF20.

(** 94-character sets have 95 entries, so that the space is always among them. *)
Definition table (c : CharSet) : list wchar :=
  match c with
  | Ascii => CharSet_table 0x20 95 []
  | Latin1 => CharSet_table 0xa0 96 []
  | Latin2 => CharSet_table 0xa0 96 Latin2_replacements
  | LatinCyrillic => CharSet_table 0xa0 96 LatinCyrillic_replacements
  | LatinGreek => CharSet_table 0xa0 96 LatinGreek_replacements
  | LatinHebrew => CharSet_table 0xa0 96 LatinHebrew_replacements
  | Latin5 => CharSet_table 0xa0 96 Latin5_replacements
  | DecSupplemental => CharSet_table 0xa0 95 DecSupplemental_replacements
  | DecSpecialGraphics => CharSet_table 0x20 95 DecSpecialGraphics_replacements
  | DecCyrillic => CharSet_table 0xa0 95 DecCyrillic_replacements
  | DecGreek => CharSet_table 0xa0 95 DecGreek_replacements
  | DecHebrew => CharSet_table 0xa0 95 DecHebrew_replacements
  | DecTurkish => CharSet_table 0xa0 95 DecTurkish_replacements
  | BritishNrcs => CharSet_table 0x20 95 BritishNrcs_replacements
  | DutchNrcs => CharSet_table 0x20 95 DutchNrcs_replacements
  | FinnishNrcs => CharSet_table 0x20 95 FinnishNrcs_replacements
  | FrenchNrcs => CharSet_table 0x20 95 FrenchNrcs_replacements
  | FrenchNrcsIso => CharSet_table 0x20 95 FrenchNrcsIso_replacements
  | FrenchCanadianNrcs => CharSet_table 0x20 95 FrenchCanadianNrcs_replacements
  | GermanNrcs => CharSet_table 0x20 95 GermanNrcs_replacements
  | GreekNrcs => CharSet_table 0x20 95 GreekNrcs_replacements
  | HebrewNrcs => CharSet_table 0x20 95 HebrewNrcs_replacements
  | ItalianNrcs => CharSet_table 0x20 95 ItalianNrcs_replacements
  | NorwegianDanishNrcs => CharSet_table 0x20 95 NorwegianDanishNrcs_replacements
  | NorwegianDanishNrcsIso => CharSet_table 0x20 95 NorwegianDanishNrcsIso_replacements
  | PortugueseNrcs => CharSet_table 0x20 95 PortugueseNrcs_replacements
  | RussianNrcs => CharSet_table 0x20 95 RussianNrcs_replacements
  | SpanishNrcs => CharSet_table 0x20 95 SpanishNrcs_replacements
  | SwedishNrcs => CharSet_table 0x20 95 SwedishNrcs_replacements
  | SwissNrcs => CharSet_table 0x20 95 SwissNrcs_replacements
  | TurkishNrcs => CharSet_table 0x20 95 TurkishNrcs_replacements
  | Drcs94 => CharSet_table DRCS_BASE_CHAR 95 [(DRCS_BASE_CHAR, 0x20)]
  | Drcs96 => CharSet_table DRCS_BASE_CHAR 96 []
  end.
#[global] Arguments table : simpl never.
