(* ===== verification/TerminalOutput.v ===== *)
(** * Character set translation

    src/terminal/adapter/terminalOutput.cpp: the four G-sets, their designations,
    locking and single shifts, soft character sets and the translation of the
    characters that are printed. A [std::wstring_view] of a table is an option: the
    empty view translates nothing. *)

From S2P Require Import Prelude VtTypes Charsets.

Definition id_of (s : string) : Z := VTID._FromString (wide s).

Record TerminalOutput := mkTerminalOutput {
  _upssId : Z;
  _upssTranslationTable : option CharSet;
  _gsetTranslationTables : list (option CharSet);
  _gsetIds : list Z;
  _glSetNumber : nat;
  _grSetNumber : nat;
  _glTranslationTable : option CharSet;
  _grTranslationTable : option CharSet;
  _ssSetNumber : nat;
  _grTranslationEnabled : bool;
  _drcsId : Z;
  _drcsTranslationTable : option CharSet;
}.

(** ** Assignments *)
Section Fields.
Implicit Types t : TerminalOutput.

Definition set_upss (id : Z) (tab : option CharSet) t : TerminalOutput :=
  mkTerminalOutput id tab (_gsetTranslationTables t) (_gsetIds t) (_glSetNumber t) (_grSetNumber t)
    (_glTranslationTable t) (_grTranslationTable t) (_ssSetNumber t) (_grTranslationEnabled t) (_drcsId t) (_drcsTranslationTable t).
Definition set_gsetTranslationTables (v : list (option CharSet)) t : TerminalOutput :=
  mkTerminalOutput (_upssId t) (_upssTranslationTable t) v (_gsetIds t) (_glSetNumber t) (_grSetNumber t)
    (_glTranslationTable t) (_grTranslationTable t) (_ssSetNumber t) (_grTranslationEnabled t) (_drcsId t) (_drcsTranslationTable t).
Definition set_gsetIds (v : list Z) t : TerminalOutput :=
  mkTerminalOutput (_upssId t) (_upssTranslationTable t) (_gsetTranslationTables t) v (_glSetNumber t) (_grSetNumber t)
    (_glTranslationTable t) (_grTranslationTable t) (_ssSetNumber t) (_grTranslationEnabled t) (_drcsId t) (_drcsTranslationTable t).
Definition set_gl (n : nat) (tab : option CharSet) t : TerminalOutput :=
  mkTerminalOutput (_upssId t) (_upssTranslationTable t) (_gsetTranslationTables t) (_gsetIds t) n (_grSetNumber t)
    tab (_grTranslationTable t) (_ssSetNumber t) (_grTranslationEnabled t) (_drcsId t) (_drcsTranslationTable t).
Definition set_gr (n : nat) (tab : option CharSet) t : TerminalOutput :=
  mkTerminalOutput (_upssId t) (_upssTranslationTable t) (_gsetTranslationTables t) (_gsetIds t) (_glSetNumber t) n
    (_glTranslationTable t) tab (_ssSetNumber t) (_grTranslationEnabled t) (_drcsId t) (_drcsTranslationTable t).
Definition set_ssSetNumber (v : nat) t : TerminalOutput :=
  mkTerminalOutput (_upssId t) (_upssTranslationTable t) (_gsetTranslationTables t) (_gsetIds t) (_glSetNumber t) (_grSetNumber t)
    (_glTranslationTable t) (_grTranslationTable t) v (_grTranslationEnabled t) (_drcsId t) (_drcsTranslationTable t).
Definition set_grTranslationEnabled (v : bool) t : TerminalOutput :=
  mkTerminalOutput (_upssId t) (_upssTranslationTable t) (_gsetTranslationTables t) (_gsetIds t) (_glSetNumber t) (_grSetNumber t)
    (_glTranslationTable t) (_grTranslationTable t) (_ssSetNumber t) v (_drcsId t) (_drcsTranslationTable t).
Definition set_drcs (id : Z) (tab : option CharSet) t : TerminalOutput :=
  mkTerminalOutput (_upssId t) (_upssTranslationTable t) (_gsetTranslationTables t) (_gsetIds t) (_glSetNumber t) (_grSetNumber t)
    (_glTranslationTable t) (_grTranslationTable t) (_ssSetNumber t) (_grTranslationEnabled t) id tab.
End Fields.

Abbreviation M := (comp TerminalOutput).

(** ** Construction *)
Definition make_TerminalOutput (grEnabled : bool) : TerminalOutput :=
  let grTranslationTable := if grEnabled then Some Latin1 else Some Ascii in
  let grId := if grEnabled then id_of "<" else id_of "B" in
  mkTerminalOutput (id_of "A") (Some Latin1) [Some Ascii; Some Ascii; grTranslationTable; grTranslationTable]
    [id_of "B"; id_of "B"; grId; grId] 0 2 None None 0 grEnabled 0 None.

Definition SoftReset (t : TerminalOutput) : TerminalOutput := make_TerminalOutput (_grTranslationEnabled t).

Definition RestoreFrom (savedState t : TerminalOutput) : TerminalOutput :=
  set_grTranslationEnabled (_grTranslationEnabled t) savedState.

(** ** Looking up tables *)
Definition tables94 (t : TerminalOutput) : list (Z * option CharSet) :=
  [(id_of "B", Some Ascii); (id_of "1", Some Ascii); (id_of "0", Some DecSpecialGraphics); (id_of "2", Some DecSpecialGraphics);
   (id_of "<", _upssTranslationTable t); (id_of "A", Some BritishNrcs); (id_of "4", Some DutchNrcs);
   (id_of "5", Some FinnishNrcs); (id_of "C", Some FinnishNrcs); (id_of "R", Some FrenchNrcs); (id_of "f", Some FrenchNrcsIso);
   (id_of "9", Some FrenchCanadianNrcs); (id_of "Q", Some FrenchCanadianNrcs); (id_of "K", Some GermanNrcs);
   (id_of "Y", Some ItalianNrcs); (id_of "6", Some NorwegianDanishNrcs); (id_of "E", Some NorwegianDanishNrcs);
   (id_of "`", Some NorwegianDanishNrcsIso); (id_of "Z", Some SpanishNrcs); (id_of "7", Some SwedishNrcs); (id_of "H", Some SwedishNrcs);
   (id_of "=", Some SwissNrcs); (id_of "&4", Some DecCyrillic); (id_of "&5", Some RussianNrcs);
   (VTID._FromString [0x22; 0x3F], Some DecGreek); (VTID._FromString [0x22; 0x3E], Some GreekNrcs);
   (VTID._FromString [0x22; 0x34], Some DecHebrew); (id_of "%=", Some HebrewNrcs); (id_of "%0", Some DecTurkish);
   (id_of "%2", Some TurkishNrcs); (id_of "%5", Some DecSupplemental); (id_of "%6", Some PortugueseNrcs)].

Definition tables96 (t : TerminalOutput) : list (Z * option CharSet) :=
  [(id_of "A", Some Latin1); (id_of "<", _upssTranslationTable t); (id_of "B", Some Latin2); (id_of "L", Some LatinCyrillic);
   (id_of "F", Some LatinGreek); (id_of "H", Some LatinHebrew); (id_of "M", Some Latin5)].

Definition _LookupTranslationTable94 (charset : Z) (t : TerminalOutput) : option CharSet :=
  if charset =? _drcsId t then _drcsTranslationTable t else switch charset (tables94 t) None.

Definition _LookupTranslationTable96 (charset : Z) (t : TerminalOutput) : option CharSet :=
  if charset =? _drcsId t then _drcsTranslationTable t else switch charset (tables96 t) None.

(** [std::array::at]. *)
Definition at_ {A} (f : TerminalOutput -> list A) (n : nat) : M A := fun t =>
  match f t !! n with Some a => (t, Returned a) | None => (t, Threw) end.

(** ** Shifts *)
Definition LockingShift (gsetNumber : nat) : M unit :=
  modify (fun t => set_gl gsetNumber (_glTranslationTable t) t);;
  glTable ← at_ _gsetTranslationTables gsetNumber;
  modify (set_gl gsetNumber (if decide (glTable = Some Ascii) then None else glTable)).

Definition LockingShiftRight (gsetNumber : nat) : M unit :=
  modify (fun t => set_gr gsetNumber (_grTranslationTable t) t);;
  grTable ← at_ _gsetTranslationTables gsetNumber;
  enabled ← gets _grTranslationEnabled;
  modify (set_gr gsetNumber (if bool_decide (grTable = Some Latin1) || negb enabled then None else grTable)).

Definition SingleShift (gsetNumber : nat) (t : TerminalOutput) : TerminalOutput := set_ssSetNumber gsetNumber t.

(** Both locking shifts again, after the tables have changed. *)
Definition reapply_shifts : M unit :=
  gl ← gets _glSetNumber; LockingShift gl;;
  gr ← gets _grSetNumber; LockingShiftRight gr.

(** ** Designations *)
Definition _SetTranslationTable (gsetNumber : nat) (translationTable : option CharSet) : M unit :=
  at_ _gsetTranslationTables gsetNumber;;
  modify (fun t => set_gsetTranslationTables (<[gsetNumber := translationTable]> (_gsetTranslationTables t)) t);;
  reapply_shifts.

Definition designate (lookup : Z -> TerminalOutput -> option CharSet) (gsetNumber : nat) (charset : Z) : M unit :=
  translationTable ← gets (lookup charset);
  match translationTable with
  | None => mret tt
  | Some _ =>
    at_ _gsetIds gsetNumber;;
    modify (fun t => set_gsetIds (<[gsetNumber := charset]> (_gsetIds t)) t);;
    _SetTranslationTable gsetNumber translationTable
  end.
Definition Designate94Charset : nat -> Z -> M unit := designate _LookupTranslationTable94.
Definition Designate96Charset : nat -> Z -> M unit := designate _LookupTranslationTable96.

(** The user-preferred supplemental set is designated by a name of its own. *)
Definition upss_updated (tab : option CharSet) (ids : list Z) (tabs : list (option CharSet)) : list (option CharSet) :=
  zip_with (fun id old => if id =? id_of "<" then tab else old) ids tabs.

Definition AssignUserPreferenceCharset (charset : Z) (size96 : bool) : M unit :=
  translationTable ← gets ((if size96 then _LookupTranslationTable96 else _LookupTranslationTable94) charset);
  match translationTable with
  | None => mret tt
  | Some _ =>
    modify (fun t => set_upss charset translationTable t);;
    modify (fun t => set_gsetTranslationTables (upss_updated translationTable (_gsetIds t) (_gsetTranslationTables t)) t);;
    reapply_shifts
  end.

Definition GetUserPreferenceCharsetId (t : TerminalOutput) : Z := _upssId t.
(** The size of a view. *)
Definition view_size (v : option CharSet) : Z := match v with Some c => Z.of_nat (length (table c)) | None => 0 end.
Definition charset_size (v : option CharSet) : Z := if view_size v =? 96 then 96 else 94.
Definition GetUserPreferenceCharsetSize (t : TerminalOutput) : Z := charset_size (_upssTranslationTable t).
Definition GetCharsetId (gsetNumber : nat) : M Z := at_ _gsetIds gsetNumber.
Definition GetCharsetSize (gsetNumber : nat) : M Z := tab ← at_ _gsetTranslationTables gsetNumber; mret (charset_size tab).

(** ** Soft character sets *)
Definition replaced_drcs (oldTable newTable : option CharSet) (gsetNumber : nat) (gsetTable : option CharSet) : option CharSet :=
  let gsetTable :=
    if bool_decide (gsetTable = Some Drcs94) || bool_decide (gsetTable = Some Drcs96)
    then (if (gsetNumber <? 2)%nat then Some Ascii else Some Latin1) else gsetTable in
  if decide (gsetTable = oldTable) then newTable else gsetTable.

Definition _ReplaceDrcsTable (oldTable newTable : option CharSet) : M unit :=
  if decide (newTable = oldTable) then mret tt
  else
    modify (fun t => set_gsetTranslationTables (imap (replaced_drcs oldTable newTable) (_gsetTranslationTables t)) t);;
    reapply_shifts.

Definition set_drcs_designation (lookup : Z -> TerminalOutput -> option CharSet) (drcs : CharSet) (charset : Z) : M unit :=
  oldTable ← gets (lookup charset);
  _ReplaceDrcsTable oldTable (Some drcs);;
  modify (set_drcs charset (Some drcs)).
Definition SetDrcs94Designation : Z -> M unit := set_drcs_designation _LookupTranslationTable94 Drcs94.
Definition SetDrcs96Designation : Z -> M unit := set_drcs_designation _LookupTranslationTable96 Drcs96.

(** ** Right half *)
Definition EnableGrTranslation (enabled : bool) : M unit :=
  modify (set_grTranslationEnabled enabled);;
  modify (fun t =>
    let defaultTranslationTable := if enabled then _upssTranslationTable t else Some Ascii in
    let defaultId := if enabled then id_of "<" else id_of "B" in
    let t := set_gsetTranslationTables (<[3 := defaultTranslationTable]> (<[2 := defaultTranslationTable]> (_gsetTranslationTables t)))%nat t in
    set_gsetIds (<[3 := defaultId]> (<[2 := defaultId]> (_gsetIds t)))%nat t);;
  reapply_shifts.

(** ** Queries *)
Definition GetLeftSetNumber (t : TerminalOutput) : nat := _glSetNumber t.
Definition GetRightSetNumber (t : TerminalOutput) : nat := _grSetNumber t.
Definition IsSingleShiftPending (gsetNumber : nat) (t : TerminalOutput) : bool := (_ssSetNumber t =? gsetNumber)%nat.
Definition view_empty (v : option CharSet) : bool := view_size v =? 0.
Definition NeedToTranslate (t : TerminalOutput) : bool :=
  negb (view_empty (_glTranslationTable t)) || negb (view_empty (_grTranslationTable t)) || negb (_ssSetNumber t =? 0)%nat.

(** ** Translation *)

(** The entry of a table for a character of a 7-bit or 8-bit range, whose offset
    is an unsigned difference. *)
Definition entry (v : option CharSet) (wch base : Z) : option wchar :=
  let offset := u32 (wch - base) in
  if offset <? view_size v then match v with Some c => table c !! Z.to_nat offset | None => None end else None.

(** Single shifts are used up by the character that follows. *)
Definition TranslateKey (wch : wchar) : M wchar := fun t =>
  if ((_ssSetNumber t =? 2) || (_ssSetNumber t =? 3))%nat then
    match _gsetTranslationTables t !! _ssSetNumber t with
    | None => (t, Threw)
    | Some ssTranslationTable =>
      let wchFound := match entry ssTranslationTable wch 0x20 with
                      | Some w => w
                      | None => default wch (entry ssTranslationTable wch 0xA0)
                      end in
      (set_ssSetNumber 0 t, Returned wchFound)
    end
  else
    (t, Returned (match entry (_glTranslationTable t) wch 0x20 with
                  | Some w => w
                  | None => default wch (entry (_grTranslationTable t) wch 0xA0)
                  end)).

(** The characters of a string, one after the other. *)
Fixpoint TranslateString (string : wstring) : M wstring :=
  match string with
  | [] => mret []
  | wch :: string => w ← TranslateKey wch; ws ← TranslateString string; mret (w :: ws)
  end.

(** What [AdaptDispatch::PrintString] hands to the buffer. *)
Definition printed_text (string : wstring) : M wstring :=
  needed ← gets NeedToTranslate;
  if needed : bool then TranslateString string else mret string.
