(* ===== verification/TerminalOutputProps.v ===== *)
(** * Properties of character set translation

    However the G-sets were designated and shifted, what is printed is what the
    code extension rules of ISO 2022 say: the cached tables, and the decision not
    to translate at all, do not show. *)

From S2P Require Import Prelude VtTypes Charsets TerminalOutput.

(** ** The tables *)
Lemma table_length c : length (table c) = 95%nat \/ length (table c) = 96%nat.
Proof. destruct c; vm_compute; auto. Qed.

(** A table whose entries are consecutive characters. *)
Definition consecutive (base : Z) (c : CharSet) : bool :=
  forallb (fun i => bool_decide (table c !! i = Some (base + Z.of_nat i))) (seq 0 (length (table c))).

Lemma consecutive_entry base c i w : consecutive base c = true -> table c !! i = Some w -> w = base + Z.of_nat i.
Proof.
  intros Hc Hi. unfold consecutive in Hc. rewrite forallb_forall in Hc.
  pose proof (Hc i) as H. rewrite in_seq, bool_decide_eq_true in H.
  pose proof (lookup_lt_Some _ _ _ Hi). rewrite H in Hi by lia. by injection Hi.
Qed.

Lemma ascii_entry i w : table Ascii !! i = Some w -> w = 0x20 + Z.of_nat i.
Proof. apply consecutive_entry. by vm_compute. Qed.
Lemma latin1_entry i w : table Latin1 !! i = Some w -> w = 0xA0 + Z.of_nat i.
Proof. apply consecutive_entry. by vm_compute. Qed.
Lemma drcs_entry i : (0 < i < 95)%nat -> table Drcs94 !! i = Some (DRCS_BASE_CHAR + Z.of_nat i).
Proof.
  intros Hi. assert (forallb (fun i => bool_decide (table Drcs94 !! i = Some (DRCS_BASE_CHAR + Z.of_nat i))) (seq 1 94) = true) as Hf
    by (by vm_compute).
  rewrite forallb_forall in Hf. specialize (Hf i). rewrite in_seq, bool_decide_eq_true in Hf. apply Hf. lia.
Qed.

(** An offset below its base wraps around and is outside of every table. *)
Lemma entry_eq c wch base : is_wchar wch -> 0 <= base <= 0xA0 ->
  entry (Some c) wch base = if base <=? wch then table c !! Z.to_nat (wch - base) else None.
Proof.
  unfold is_wchar. intros Hw Hb. unfold entry, view_size. pose proof (table_length c) as Hl.
  destruct (Z.leb_spec base wch).
  - unfold u32. rewrite Z.mod_small by lia. destruct (Z.ltb_spec (wch - base) (Z.of_nat (length (table c)))); [done|].
    symmetry. apply lookup_ge_None. lia.
  - assert (u32 (wch - base) = wch - base + 2 ^ 32) as -> by (unfold u32; symmetry; apply Zmod_unique with (-1); lia).
    destruct (Z.ltb_spec (wch - base + 2 ^ 32) (Z.of_nat (length (table c)))); [lia|done].
Qed.

Lemma entry_none wch base : entry None wch base = None.
Proof. unfold entry. simpl. by destruct (_ <? 0). Qed.

(** ** The rules of ISO 2022

    The set that a character of either half is taken from, if any. *)
Definition iso_char (left right : option CharSet) (wch : wchar) : wchar :=
  let from (set : option CharSet) (base : Z) := default wch (c ← set; table c !! Z.to_nat (wch - base)) in
  if (0x20 <=? wch) && (wch <=? 0x7F) then from left 0x20
  else if (0xA0 <=? wch) && (wch <=? 0xFF) then from right 0xA0
  else wch.

(** The designated sets. *)
Definition gset (n : nat) (t : TerminalOutput) : option CharSet := default None (_gsetTranslationTables t !! n).
Definition right_set (t : TerminalOutput) : option CharSet := if _grTranslationEnabled t then gset (_grSetNumber t) t else None.

(** A single shift applies to one character, whichever half it is in. *)
Definition iso_string (t : TerminalOutput) (string : wstring) : wstring :=
  let unshifted := iso_char (gset (_glSetNumber t) t) (right_set t) in
  match string with
  | wch :: rest =>
    if (_ssSetNumber t =? 0)%nat then unshifted wch :: map unshifted rest
    else iso_char (gset (_ssSetNumber t) t) (gset (_ssSetNumber t) t) wch :: map unshifted rest
  | [] => []
  end.

(** ** The invariant *)
Record charset_ok (t : TerminalOutput) : Prop := {
  ok_tables : length (_gsetTranslationTables t) = 4%nat /\ Forall is_Some (_gsetTranslationTables t);
  ok_ids : length (_gsetIds t) = 4%nat;
  ok_gl : (_glSetNumber t < 4)%nat;
  ok_gr : (_grSetNumber t < 4)%nat;
  ok_ss : _ssSetNumber t = 0%nat \/ _ssSetNumber t = 2%nat \/ _ssSetNumber t = 3%nat;
  ok_upss : is_Some (_upssTranslationTable t);
  ok_left : _glTranslationTable t = if bool_decide (gset (_glSetNumber t) t = Some Ascii) then None else gset (_glSetNumber t) t;
  ok_right : _grTranslationTable t =
    if bool_decide (gset (_grSetNumber t) t = Some Latin1) || negb (_grTranslationEnabled t) then None else gset (_grSetNumber t) t;
}.

Lemma charset_ok_init enabled : charset_ok (make_TerminalOutput enabled).
Proof. destruct enabled; constructor; simpl; try lia; try done; split; try done; repeat constructor; by eexists. Qed.

(** All of the invariant but the cached tables. *)
Record designations_ok (t : TerminalOutput) : Prop := {
  de_tables : length (_gsetTranslationTables t) = 4%nat /\ Forall is_Some (_gsetTranslationTables t);
  de_ids : length (_gsetIds t) = 4%nat;
  de_gl : (_glSetNumber t < 4)%nat;
  de_gr : (_grSetNumber t < 4)%nat;
  de_ss : _ssSetNumber t = 0%nat \/ _ssSetNumber t = 2%nat \/ _ssSetNumber t = 3%nat;
  de_upss : is_Some (_upssTranslationTable t);
}.

Lemma charset_designations t : charset_ok t -> designations_ok t.
Proof. intros []. by constructor. Qed.

(** Locking shifts compute what the invariant says of the cached tables. *)
Definition shifted_left (n : nat) (t : TerminalOutput) : TerminalOutput :=
  set_gl n (if bool_decide (gset n t = Some Ascii) then None else gset n t) t.
Definition shifted_right (n : nat) (t : TerminalOutput) : TerminalOutput :=
  set_gr n (if bool_decide (gset n t = Some Latin1) || negb (_grTranslationEnabled t) then None else gset n t) t.

Lemma gset_lookup n t : designations_ok t -> (n < 4)%nat -> _gsetTranslationTables t !! n = Some (gset n t).
Proof.
  intros [[Hl _] _ _ _ _ _] Hn. unfold gset. destruct (lookup_lt_is_Some_2 (_gsetTranslationTables t) n) as [v ->]; [lia|done].
Qed.

Lemma LockingShift_eq n t : designations_ok t -> (n < 4)%nat -> LockingShift n t = (shifted_left n t, Returned tt).
Proof.
  intros Hd Hn. unfold LockingShift, at_, modify, mbind, comp_bind. simpl. rewrite gset_lookup by done.
  unfold shifted_left. by rewrite decide_bool_decide.
Qed.

Lemma LockingShiftRight_eq n t : designations_ok t -> (n < 4)%nat -> LockingShiftRight n t = (shifted_right n t, Returned tt).
Proof.
  intros Hd Hn. unfold LockingShiftRight, at_, gets, modify, mbind, comp_bind. simpl. by rewrite gset_lookup.
Qed.

Lemma designations_left n t : designations_ok t -> (n < 4)%nat -> designations_ok (shifted_left n t).
Proof. intros [] Hn. by constructor. Qed.
Lemma designations_right n t : designations_ok t -> (n < 4)%nat -> designations_ok (shifted_right n t).
Proof. intros [] Hn. by constructor. Qed.

Lemma reapply_ok t : designations_ok t -> exists t', reapply_shifts t = (t', Returned tt) /\ charset_ok t' /\
  _gsetTranslationTables t' = _gsetTranslationTables t /\ _glSetNumber t' = _glSetNumber t /\ _ssSetNumber t' = _ssSetNumber t /\
  _drcsId t' = _drcsId t /\ _drcsTranslationTable t' = _drcsTranslationTable t.
Proof.
  intros Hd. pose proof (de_gl t Hd) as Hgl. pose proof (de_gr t Hd) as Hgr.
  exists (shifted_right (_grSetNumber t) (shifted_left (_glSetNumber t) t)). split; [|split; [|by destruct t]].
  - unfold reapply_shifts, gets, mbind, comp_bind. rewrite LockingShift_eq by done.
    change (_grSetNumber (shifted_left (_glSetNumber t) t)) with (_grSetNumber t).
    by rewrite LockingShiftRight_eq by (done || by apply designations_left).
  - destruct Hd. by constructor.
Qed.

Lemma shift_left_ok n t : charset_ok t -> (n < 4)%nat -> charset_ok (shifted_left n t).
Proof. intros [] Hn. by constructor. Qed.
Lemma shift_right_ok n t : charset_ok t -> (n < 4)%nat -> charset_ok (shifted_right n t).
Proof. intros [] Hn. by constructor. Qed.

(** ** Operations *)
Inductive charset_op :=
| op_SoftReset
| op_Designate94Charset (gsetNumber : nat) (charset : Z)
| op_Designate96Charset (gsetNumber : nat) (charset : Z)
| op_LockingShift (gsetNumber : nat)
| op_LockingShiftRight (gsetNumber : nat)
| op_SingleShift (gsetNumber : nat)
| op_SetDrcs94Designation (charset : Z)
| op_SetDrcs96Designation (charset : Z)
| op_AssignUserPreferenceCharset (charset : Z) (size96 : bool)
| op_EnableGrTranslation (enabled : bool)
| op_Print (string : wstring).

Definition apply_charset_op (op : charset_op) : M unit :=
  match op with
  | op_SoftReset => modify SoftReset
  | op_Designate94Charset gsetNumber charset => Designate94Charset gsetNumber charset
  | op_Designate96Charset gsetNumber charset => Designate96Charset gsetNumber charset
  | op_LockingShift gsetNumber => LockingShift gsetNumber
  | op_LockingShiftRight gsetNumber => LockingShiftRight gsetNumber
  | op_SingleShift gsetNumber => modify (SingleShift gsetNumber)
  | op_SetDrcs94Designation charset => SetDrcs94Designation charset
  | op_SetDrcs96Designation charset => SetDrcs96Designation charset
  | op_AssignUserPreferenceCharset charset size96 => AssignUserPreferenceCharset charset size96
  | op_EnableGrTranslation enabled => EnableGrTranslation enabled
  | op_Print string => printed_text string;; mret tt
  end.

(** The G-sets that the sequences name. *)
Definition charset_op_wf (op : charset_op) : Prop :=
  match op with
  | op_Designate94Charset g _ | op_Designate96Charset g _ | op_LockingShift g | op_LockingShiftRight g => (g < 4)%nat
  | op_SingleShift g => g = 2%nat \/ g = 3%nat
  | _ => True
  end.

(** What a terminal can get to: operations, and restoring a saved state while the
    coding system is the one it was saved in. *)
Inductive reachable : TerminalOutput -> Prop :=
| reach_start enabled : reachable (make_TerminalOutput enabled)
| reach_op op t t' : reachable t -> charset_op_wf op -> apply_charset_op op t = (t', Returned tt) -> reachable t'
| reach_restore saved t : reachable saved -> reachable t -> _grTranslationEnabled saved = _grTranslationEnabled t ->
    reachable (RestoreFrom saved t).

(** Every operation succeeds and keeps the invariant. *)
Definition keeps_ok (m : M unit) : Prop := forall t, charset_ok t -> exists t', m t = (t', Returned tt) /\ charset_ok t'.

Lemma insert_tables n tab t : designations_ok t -> is_Some tab ->
  designations_ok (set_gsetTranslationTables (<[n := tab]> (_gsetTranslationTables t)) t).
Proof.
  intros [[Hl Ht] Hi H1 H2 H3 H4] Htab. constructor; simpl; try done. rewrite length_insert. split; [done|].
  by apply Forall_insert.
Qed.

Lemma designate_ok lookup n charset : (n < 4)%nat -> keeps_ok (designate lookup n charset).
Proof.
  intros Hn t Hok. pose proof (charset_designations t Hok) as Hd. unfold designate, gets, mbind, comp_bind.
  destruct (lookup charset t) as [c|]; [|by exists t]. unfold _SetTranslationTable, at_, modify, mbind, comp_bind.
  destruct (lookup_lt_is_Some_2 (_gsetIds t) n) as [v ->]; [rewrite (de_ids t Hd); lia|]. simpl.
  rewrite gset_lookup by done. set (t1 := set_gsetTranslationTables _ _).
  destruct (reapply_ok t1) as (t2 & Heq & Hok2 & _); [|by exists t2].
  assert (designations_ok (set_gsetIds (<[n:=charset]> (_gsetIds t)) t)) as Hd1
    by (destruct Hd; constructor; simpl; try done; by rewrite length_insert).
  exact (insert_tables n (Some c) _ Hd1 (ltac:(by eexists))).
Qed.

Lemma ss_tables_ok tabs t : charset_ok t -> length tabs = 4%nat -> Forall is_Some tabs ->
  designations_ok (set_gsetTranslationTables tabs t).
Proof. intros [] Hl Hs. by constructor. Qed.

Lemma assign_ok charset size96 : keeps_ok (AssignUserPreferenceCharset charset size96).
Proof.
  intros t Hok. pose proof Hok as [[Hl Ht] Hi _ _ _ _ _ _].
  unfold AssignUserPreferenceCharset, gets, modify, mbind, comp_bind.
  destruct ((if size96 then _LookupTranslationTable96 else _LookupTranslationTable94) charset t) as [c|]; [|by exists t].
  set (t1 := set_gsetTranslationTables _ _). destruct (reapply_ok t1) as (t2 & Heq & Hok2 & _); [|by exists t2].
  unfold t1. destruct Hok. constructor; simpl; try done. unfold upss_updated. split; [rewrite length_zip_with; lia|].
  apply Forall_forall. intros v [i Hv]%list_elem_of_lookup. apply lookup_zip_with_Some in Hv as (id & old & -> & _ & Hold).
  destruct (id =? id_of "<"); [by eexists|]. rewrite Forall_lookup in Ht. by eapply Ht.
Qed.

Lemma replaced_designations oldTable c t : charset_ok t ->
  designations_ok (set_gsetTranslationTables (imap (replaced_drcs oldTable (Some c)) (_gsetTranslationTables t)) t).
Proof.
  intros Hok. pose proof (ok_tables t Hok) as [Hl Ht]. apply ss_tables_ok; [done|by rewrite length_imap|]. apply Forall_forall.
  intros v [i Hv]%list_elem_of_lookup. apply list_lookup_imap_Some in Hv as (old & Hold & ->).
  rewrite Forall_lookup in Ht. apply Ht in Hold. unfold replaced_drcs. repeat case_match; done || by eexists.
Qed.

Lemma replace_drcs_ok oldTable c t : charset_ok t ->
  exists t', _ReplaceDrcsTable oldTable (Some c) t = (t', Returned tt) /\ charset_ok t' /\ _ssSetNumber t' = _ssSetNumber t.
Proof.
  intros Hok. unfold _ReplaceDrcsTable, modify, mbind, comp_bind. case_decide; [by exists t|].
  destruct (reapply_ok _ (replaced_designations oldTable c t Hok)) as (t2 & Heq & Hok2 & _ & _ & Hs & _). by exists t2.
Qed.

(** Loading a soft set. *)
Lemma drcs_designated lookup c t charset : charset_ok t -> exists t', set_drcs_designation lookup c charset t = (t', Returned tt) /\
  charset_ok t' /\ _ssSetNumber t' = _ssSetNumber t /\ _drcsId t' = charset /\ _drcsTranslationTable t' = Some c.
Proof.
  intros Hok. unfold set_drcs_designation, gets, mbind at 1, comp_bind at 1.
  destruct (replace_drcs_ok (lookup charset t) c t Hok) as (t1 & Heq & Hok1 & Hss).
  unfold mbind, comp_bind. rewrite Heq. eexists. split; [reflexivity|]. split; [destruct Hok1; by constructor|]. done.
Qed.

Lemma drcs_designation_ok lookup c charset : keeps_ok (set_drcs_designation lookup c charset).
Proof. intros t Hok. destruct (drcs_designated lookup c t charset Hok) as (t' & Heq & Hok' & _). by exists t'. Qed.

Lemma enable_ok enabled : keeps_ok (EnableGrTranslation enabled).
Proof.
  intros t Hok. pose proof Hok as [[Hl Ht] Hi _ _ _ Hu _ _].
  unfold EnableGrTranslation, modify, mbind, comp_bind.
  set (t1 := set_gsetIds _ _). destruct (reapply_ok t1) as (t2 & Heq & Hok2 & _); [|by exists t2].
  unfold t1. destruct Hok. constructor; simpl; rewrite ?length_insert; try done. split; [done|].
  assert (is_Some (if enabled then _upssTranslationTable t else Some Ascii)) by (destruct enabled; [done|by eexists]).
  by apply Forall_insert; [apply Forall_insert|].
Qed.

(** ** Translation *)

(** The characters of the right half follow those of the left. *)
Lemma entry_iso c1 c2 wch : is_wchar wch ->
  match entry c1 wch 0x20 with Some w => w | None => default wch (entry c2 wch 0xA0) end = iso_char c1 c2 wch.
Proof.
  intros Hw. assert (forall c base, 0 <= base <= 0xA0 -> entry c wch base =
    if base <=? wch then c' ← c; table c' !! Z.to_nat (wch - base) else None) as He.
  { intros [c|] base Hb; [by apply entry_eq|]. rewrite entry_none. by destruct (base <=? wch). }
  rewrite !He by lia. unfold iso_char.
  assert (forall c i, (96 <= i)%nat -> (c' ← c; table c' !! i) = None) as Hout.
  { intros [c|] i Hi; simpl; [|done]. apply lookup_ge_None. pose proof (table_length c). lia. }
  destruct (Z.leb_spec 0x20 wch); simpl.
  - destruct (Z.leb_spec wch 0x7F); simpl.
    + destruct (Z.leb_spec 0xA0 wch); [lia|]. by destruct (c' ← c1; table c' !! Z.to_nat (wch - 0x20)).
    + rewrite (Hout c1) by lia. destruct (Z.leb_spec 0xA0 wch); simpl; [|done].
      destruct (Z.leb_spec wch 0xFF); simpl; [done|]. by rewrite (Hout c2) by lia.
  - destruct (Z.leb_spec 0xA0 wch); [lia|done].
Qed.

(** ASCII in the left half and Latin-1 in the right half change nothing. *)
Lemma iso_char_ascii left right wch :
  iso_char (if bool_decide (left = Some Ascii) then None else left) right wch = iso_char left right wch.
Proof.
  case_bool_decide as Hl; [subst|done]. unfold iso_char. destruct ((0x20 <=? wch) && (wch <=? 0x7F)) eqn:Hr; [|done]. simpl.
  destruct (table Ascii !! Z.to_nat (wch - 32)) as [w|] eqn:Hw; [|done]. apply ascii_entry in Hw. simpl. lia.
Qed.

Lemma iso_char_latin1 left right enabled wch :
  iso_char left (if bool_decide (right = Some Latin1) || negb enabled then None else right) wch =
  iso_char left (if enabled : bool then right else None) wch.
Proof.
  case_bool_decide as Hl; simpl; [subst|by destruct enabled]. destruct enabled; [|done].
  unfold iso_char. destruct ((0x20 <=? wch) && (wch <=? 0x7F)); [done|].
  destruct ((0xA0 <=? wch) && (wch <=? 0xFF)) eqn:Hr; [|done]. simpl.
  destruct (table Latin1 !! Z.to_nat (wch - 160)) as [w|] eqn:Hw; [|done]. apply latin1_entry in Hw. simpl. lia.
Qed.

Definition unshifted (t : TerminalOutput) : wchar -> wchar := iso_char (gset (_glSetNumber t) t) (right_set t).

Lemma cached_is_iso t wch : charset_ok t -> iso_char (_glTranslationTable t) (_grTranslationTable t) wch = unshifted t wch.
Proof. intros Hok. rewrite (ok_left t Hok), (ok_right t Hok), iso_char_ascii, iso_char_latin1. done. Qed.

Lemma TranslateKey_unshifted t wch : charset_ok t -> is_wchar wch -> _ssSetNumber t = 0%nat ->
  TranslateKey wch t = (t, Returned (unshifted t wch)).
Proof. intros Hok Hw Hss. unfold TranslateKey. rewrite Hss. simpl. by rewrite entry_iso, cached_is_iso. Qed.

Lemma TranslateString_unshifted t string : charset_ok t -> Forall is_wchar string -> _ssSetNumber t = 0%nat ->
  TranslateString string t = (t, Returned (map (unshifted t) string)).
Proof.
  intros Hok Hs Hss. induction Hs as [|wch string Hw Hs IH]; [done|]. simpl. unfold mbind, comp_bind.
  by rewrite TranslateKey_unshifted, IH.
Qed.

Lemma ss_cleared_ok t : charset_ok t -> charset_ok (set_ssSetNumber 0 t).
Proof. intros []. constructor; try done. by left. Qed.

Lemma TranslateString_iso t wch string : charset_ok t -> Forall is_wchar (wch :: string) ->
  TranslateString (wch :: string) t = (set_ssSetNumber 0 t, Returned (iso_string t (wch :: string))).
Proof.
  intros Hok [Hw Hs]%Forall_cons. unfold iso_string. fold (unshifted t).
  pose proof (ok_ss t Hok) as Hss. destruct (Nat.eqb_spec (_ssSetNumber t) 0) as [H0|H0].
  - rewrite TranslateString_unshifted by (done || by apply Forall_cons). by destruct t; simpl in *; subst.
  - cbn [TranslateString]. unfold mbind at 1, comp_bind at 1, TranslateKey.
    assert ((_ssSetNumber t =? 2)%nat || (_ssSetNumber t =? 3)%nat = true) as -> by (destruct Hss as [|[-> | ->]]; done).
    rewrite gset_lookup; [|by apply charset_designations|destruct Hss as [|[-> | ->]]; lia].
    unfold mbind, comp_bind. rewrite entry_iso, TranslateString_unshifted by (done || by apply ss_cleared_ok). done.
Qed.

Lemma not_translated t wch : charset_ok t -> is_wchar wch -> NeedToTranslate t = false -> unshifted t wch = wch /\ _ssSetNumber t = 0%nat.
Proof.
  intros Hok Hw Hn. unfold NeedToTranslate in Hn.
  apply orb_false_iff in Hn as [[Hl Hr]%orb_false_iff Hs]. apply negb_false_iff in Hl, Hr, Hs. apply Nat.eqb_eq in Hs.
  split; [|done]. assert (forall v, view_empty v = true -> v = None) as Hv.
  { intros [c|]; [|done]. unfold view_empty, view_size. destruct (table_length c) as [-> | ->]; discriminate. }
  rewrite <- cached_is_iso by done. apply Hv in Hl, Hr. rewrite Hl, Hr. unfold iso_char. by repeat case_match.
Qed.

Lemma printed_text_iso t string : charset_ok t -> Forall is_wchar string ->
  printed_text string t = ((if decide (string = []) then t else set_ssSetNumber 0 t), Returned (iso_string t string)).
Proof.
  intros Hok Hs. unfold printed_text, gets, mbind, comp_bind. destruct string as [|wch string].
  - by destruct (NeedToTranslate t).
  - rewrite decide_False by done. destruct (NeedToTranslate t) eqn:Hn; [by apply TranslateString_iso|].
    pose proof (Forall_inv Hs) as Hw. destruct (not_translated t wch Hok Hw Hn) as [Hwch Hss].
    unfold iso_string. fold (unshifted t). rewrite Hss. cbn [Nat.eqb].
    change (unshifted t wch :: map (unshifted t) string) with (map (unshifted t) (wch :: string)).
    assert (map (unshifted t) (wch :: string) = wch :: string) as ->.
    { rewrite <- (map_id (wch :: string)) at 2. apply map_ext_Forall. eapply Forall_impl; [done|]. intros w Hw'. by apply not_translated. }
    f_equal. destruct t. simpl in Hss. by subst.
Qed.

(** Printing keeps the invariant whatever is printed. *)
Lemma TranslateKey_keeps wch t : charset_ok t -> exists t' w, TranslateKey wch t = (t', Returned w) /\ charset_ok t'.
Proof.
  intros Hok. unfold TranslateKey. pose proof (ok_ss t Hok) as Hss.
  destruct ((_ssSetNumber t =? 2)%nat || (_ssSetNumber t =? 3)%nat) eqn:Hs; [|by eexists _, _].
  rewrite gset_lookup; [|by apply charset_designations|lia]. eexists _, _. split; [reflexivity|]. by apply ss_cleared_ok.
Qed.

Lemma TranslateString_keeps string t : charset_ok t -> exists t' ws, TranslateString string t = (t', Returned ws) /\ charset_ok t'.
Proof.
  revert t. induction string as [|wch string IH]; intros t Hok; [by eexists _, _|]. simpl. unfold mbind, comp_bind.
  destruct (TranslateKey_keeps wch t Hok) as (t1 & w & -> & Hok1). destruct (IH t1 Hok1) as (t2 & ws & -> & Hok2). by eexists _, _.
Qed.

Lemma print_keeps_ok string : keeps_ok (printed_text string;; mret tt).
Proof.
  intros t Hok. unfold printed_text, gets, mbind, comp_bind. destruct (NeedToTranslate t); [|by exists t].
  destruct (TranslateString_keeps string t Hok) as (t' & ws & -> & Hok'). by exists t'.
Qed.

(** Designating a table that is found. *)
Lemma designated lookup t g charset c : charset_ok t -> (g < 4)%nat -> lookup charset t = Some c ->
  exists t', designate lookup g charset t = (t', Returned tt) /\ charset_ok t' /\ _ssSetNumber t' = _ssSetNumber t /\ gset g t' = Some c.
Proof.
  intros Hok Hg Hl. destruct (designate_ok lookup g charset Hg t Hok) as (t' & Heq & Hok'). exists t'. split; [done|]. split; [done|].
  pose proof (charset_designations t Hok) as Hd. revert Heq.
  unfold designate, gets, mbind, comp_bind. rewrite Hl. unfold _SetTranslationTable, at_, modify, mbind, comp_bind.
  destruct (lookup_lt_is_Some_2 (_gsetIds t) g) as [v ->]; [rewrite (de_ids t Hd); lia|]. simpl. rewrite gset_lookup by done.
  set (t1 := set_gsetTranslationTables _ _).
  assert (designations_ok t1) as Hd1.
  { apply insert_tables; [|by eexists]. destruct Hd; constructor; simpl; try done; by rewrite length_insert. }
  destruct (reapply_ok t1 Hd1) as (t2 & -> & _ & Ht & _ & Hs & _). intros [= <-]. split; [done|].
  unfold gset. rewrite Ht. simpl. rewrite list_lookup_insert_eq; [done|]. destruct (de_tables t Hd) as [-> _]. lia.
Qed.

(** ** What is printed *)
Lemma op_keeps_ok op : charset_op_wf op -> keeps_ok (apply_charset_op op).
Proof.
  intros Hwf. destruct op; cbn [apply_charset_op charset_op_wf] in *.
  - intros t _. eexists. split; [reflexivity|]. apply charset_ok_init.
  - by apply designate_ok.
  - by apply designate_ok.
  - intros t Hok. rewrite LockingShift_eq by (done || by apply charset_designations). eexists. split; [done|]. by apply shift_left_ok.
  - intros t Hok. rewrite LockingShiftRight_eq by (done || by apply charset_designations). eexists. split; [done|]. by apply shift_right_ok.
  - intros t []. eexists. split; [reflexivity|]. constructor; try done. by right.
  - apply drcs_designation_ok.
  - apply drcs_designation_ok.
  - apply assign_ok.
  - apply enable_ok.
  - apply print_keeps_ok.
Qed.

Lemma reachable_charset_ok t : reachable t -> charset_ok t.
Proof.
  induction 1 as [enabled|op t t' _ IH Hwf Heq|saved t _ IHs _ IHt He]; [apply charset_ok_init| |].
  - destruct (op_keeps_ok op Hwf t IH) as (t1 & Ht1 & Hok). congruence.
  - destruct IHs. unfold RestoreFrom. rewrite <- He. by destruct saved.
Qed.

(** A whole history. *)
Definition run_charset (ops : list charset_op) (t : TerminalOutput) : TerminalOutput :=
  fold_left (fun t op => (apply_charset_op op t).1) ops t.

Lemma reachable_run ops t : reachable t -> Forall charset_op_wf ops -> reachable (run_charset ops t).
Proof.
  intros Hr Hwf. revert t Hr. induction Hwf as [|op ops Hop _ IH]; intros t Hr; [done|]. simpl. apply IH.
  destruct (op_keeps_ok op Hop t (reachable_charset_ok t Hr)) as (t1 & Ht1 & _). rewrite Ht1. by eapply reach_op.
Qed.

(** C31: Whatever character sets were designated and shifted, including soft sets
    and after restoring a state that was saved under the present coding system,
    printing never fails and prints what ISO 2022 says: each character through the set
    in its half of the table, the first one through the pending single shift, which is
    then used up; that the terminal skips the translation when it would change nothing
    does not show. A state that was saved while GR translation was on and is restored
    while it is off, or the other way round, is not among the [reachable] ones: there
    [restore_keeps_gr_translation]. Designations and shifts are to the sets G0 to G3,
    single shifts to G2 and G3, as the dispatcher calls them. *)
Theorem printing_follows_iso2022 t string : reachable t -> Forall is_wchar string -> string <> [] ->
  printed_text string t = (set_ssSetNumber 0 t, Returned (iso_string t string)).
Proof. intros Hr Hs Hne. by rewrite printed_text_iso, decide_False by (done || by apply reachable_charset_ok). Qed.

(** A soft set in the left half. *)
Lemma soft_char right wch : 0x21 <= wch <= 0x7E -> iso_char (Some Drcs94) right wch = DRCS_BASE_CHAR + (wch - 0x20).
Proof.
  intros Hw. unfold iso_char. replace ((0x20 <=? wch) && (wch <=? 0x7F)) with true by lia. simpl.
  rewrite drcs_entry by lia. simpl. unfold DRCS_BASE_CHAR. lia.
Qed.

Lemma soft_string g t string : _ssSetNumber t = 0%nat -> gset g t = Some Drcs94 ->
  Forall (fun wch => 0x21 <= wch <= 0x7E) string ->
  iso_string (shifted_left g t) string = map (fun wch => DRCS_BASE_CHAR + (wch - 0x20)) string.
Proof.
  intros Hss Hset Hs. unfold iso_string. simpl. rewrite Hss. change (gset g (shifted_left g t)) with (gset g t). rewrite Hset.
  destruct Hs as [|wch string Hw Hs]; [done|]. simpl. f_equal; [by apply soft_char|].
  apply map_ext_Forall. eapply Forall_impl; [done|]. intros. by apply soft_char.
Qed.

(** Soft characters reach the soft font: after a soft set of 94 characters is
    loaded under a name of its own and designated and shifted into the left half,
    every printable character is printed as the private-use character of its slot
    in the font. *)
Lemma soft_characters_reach_the_font t g charset string : charset_ok t -> _ssSetNumber t = 0%nat -> (g < 4)%nat ->
  Forall (fun wch => 0x21 <= wch <= 0x7E) string -> string <> [] ->
  exists t', (SetDrcs94Designation charset;; Designate94Charset g charset;; LockingShift g;; printed_text string) t =
    (t', Returned (map (fun wch => DRCS_BASE_CHAR + (wch - 0x20)) string)).
Proof.
  intros Hok Hss Hg Hs Hne. unfold SetDrcs94Designation, Designate94Charset.
  destruct (drcs_designated _LookupTranslationTable94 Drcs94 t charset Hok) as (t1 & E1 & Hok1 & Hss1 & Hid & Htab).
  destruct (designated _LookupTranslationTable94 t1 g charset Drcs94 Hok1 Hg) as (t2 & E2 & Hok2 & Hss2 & Hset).
  { unfold _LookupTranslationTable94. by rewrite Hid, Z.eqb_refl. }
  unfold mbind, comp_bind. rewrite E1, E2, LockingShift_eq by (done || by apply charset_designations).
  rewrite printed_text_iso, decide_False by (done || (by apply shift_left_ok) || (eapply Forall_impl; [done|]; unfold is_wchar; simpl; lia)).
  eexists. f_equal. f_equal. apply soft_string; [congruence|done|done].
Qed.

(** ** Departures *)

(** Russian in the right half, saved while GR translation was on. *)
Definition cyrillic_right : TerminalOutput :=
  run_charset [op_EnableGrTranslation true; op_Designate96Charset 2 (id_of "L"); op_LockingShiftRight 2] (make_TerminalOutput false).

(** Restoring a state that was saved in another coding system does not reapply the
    shifts: GR translation stays in effect although it is disabled. *)
Lemma restore_keeps_gr_translation :
  let t := RestoreFrom cyrillic_right (run_charset [op_EnableGrTranslation false] cyrillic_right) in
  _grTranslationEnabled t = false /\ (TranslateKey 0xE1 t).2 = Returned 0x441.
Proof. by vm_compute. Qed.

(** Restoring the cursor forgets a soft set that was loaded after it was saved. *)
Lemma restore_forgets_soft_set :
  let saved := make_TerminalOutput false in
  let t := run_charset [op_SetDrcs94Designation (id_of " @")] saved in
  _LookupTranslationTable94 (id_of " @") t = Some Drcs94 /\ _LookupTranslationTable94 (id_of " @") (RestoreFrom saved t) = None.
Proof. by vm_compute. Qed.

(** A soft set that is loaded again in the other size leaves the G-sets that use it
    with a default set, although they are still reported under its name. *)
Lemma resized_soft_set_dropped :
  let t := run_charset [op_SetDrcs94Designation (id_of " @"); op_Designate94Charset 0 (id_of " @"); op_SetDrcs96Designation (id_of " @")]
             (make_TerminalOutput false) in
  (GetCharsetId 0 t).2 = Returned (id_of " @") /\ gset 0 t = Some Ascii.
Proof. by vm_compute. Qed.

(** ** Examples *)

(** Line drawing in G1, a single shift into G2. *)
Definition line_drawing : list charset_op :=
  [op_Designate94Charset 1 (id_of "0"); op_LockingShift 1; op_Designate96Charset 2 (id_of "F"); op_SingleShift 2].

Lemma printing_follows_iso2022_witness :
  (printed_text [0x61; 0x71; 0x78; 0xE9] (run_charset line_drawing (make_TerminalOutput false))).2 =
  Returned [0x3B1; 0x2500; 0x2502; 0xE9].
Proof.
  assert (reachable (run_charset line_drawing (make_TerminalOutput false))) as Hr.
  { apply reachable_run; [apply reach_start|]. repeat (apply Forall_cons; split); try by apply Forall_nil. all: simpl; lia. }
  assert (Forall is_wchar [0x61; 0x71; 0x78; 0xE9]) as Hs.
  { repeat (apply Forall_cons; split); try by apply Forall_nil. all: unfold is_wchar; lia. }
  pose proof (printing_follows_iso2022 _ [0x61; 0x71; 0x78; 0xE9] Hr Hs ltac:(discriminate)) as Heq.
  rewrite Heq. vm_compute. reflexivity.
Defined.

