(* ===== verification/InputEngine.v ===== *)
(** * The input engine

    Models src/terminal/parser/InputStateMachineEngine.{hpp,cpp}: the engine that
    turns sequences sent by the hosting terminal back into key presses, mouse
    events and focus changes for the console. It calls [IInteractDispatch]
    (src/terminal/adapter/IInteractDispatch.hpp), and the keyboard layout of the
    operating system; both are parameters. *)

From S2P Require Import Prelude Til VtTypes Chars Utils StateMachine.

(** ** Input events

    [INPUT_RECORD] and the constants of the Windows headers that describe keys and
    mouse buttons, and the constructors of src/types/inc/IInputEvent.hpp. *)

(** ** Virtual key codes *)
Module VK.
Definition BACK : Z := 8.
Definition TAB : Z := 9.
Definition CLEAR : Z := 0xC.
Definition RETURN : Z := 0xD.
Definition SHIFT : Z := 0x10.
Definition CONTROL : Z := 0x11.
Definition MENU : Z := 0x12.
Definition PAUSE : Z := 0x13.
Definition CAPITAL : Z := 0x14.
Definition ESCAPE : Z := 0x1B.
Definition SPACE : Z := 0x20.
Definition PRIOR : Z := 0x21.
Definition NEXT : Z := 0x22.
Definition END : Z := 0x23.
Definition HOME : Z := 0x24.
Definition LEFT : Z := 0x25.
Definition UP : Z := 0x26.
Definition RIGHT : Z := 0x27.
Definition DOWN : Z := 0x28.
Definition SNAPSHOT : Z := 0x2C.
Definition INSERT : Z := 0x2D.
Definition DELETE : Z := 0x2E.
Definition LWIN : Z := 0x5B.
Definition RWIN : Z := 0x5C.
Definition APPS : Z := 0x5D.
Definition NUMPAD0 : Z := 0x60.
Definition NUMPAD1 : Z := 0x61.
Definition NUMPAD2 : Z := 0x62.
Definition NUMPAD3 : Z := 0x63.
Definition NUMPAD4 : Z := 0x64.
Definition NUMPAD5 : Z := 0x65.
Definition NUMPAD6 : Z := 0x66.
Definition NUMPAD7 : Z := 0x67.
Definition NUMPAD8 : Z := 0x68.
Definition NUMPAD9 : Z := 0x69.
Definition MULTIPLY : Z := 0x6A.
Definition ADD : Z := 0x6B.
Definition SEPARATOR : Z := 0x6C.
Definition SUBTRACT : Z := 0x6D.
Definition DECIMAL : Z := 0x6E.
Definition DIVIDE : Z := 0x6F.
Definition F1 : Z := 0x70.
Definition F2 : Z := 0x71.
Definition F3 : Z := 0x72.
Definition F4 : Z := 0x73.
Definition F5 : Z := 0x74.
Definition F6 : Z := 0x75.
Definition F7 : Z := 0x76.
Definition F8 : Z := 0x77.
Definition F9 : Z := 0x78.
Definition F10 : Z := 0x79.
Definition F11 : Z := 0x7A.
Definition F12 : Z := 0x7B.
Definition F13 : Z := 0x7C.
Definition F14 : Z := 0x7D.
Definition F15 : Z := 0x7E.
Definition F16 : Z := 0x7F.
Definition F17 : Z := 0x80.
Definition F18 : Z := 0x81.
Definition F19 : Z := 0x82.
Definition F20 : Z := 0x83.
Definition F21 : Z := 0x84.
Definition F22 : Z := 0x85.
Definition F23 : Z := 0x86.
Definition F24 : Z := 0x87.
Definition NUMLOCK : Z := 0x90.
Definition SCROLL : Z := 0x91.
Definition LSHIFT : Z := 0xA0.
Definition RSHIFT : Z := 0xA1.
Definition LCONTROL : Z := 0xA2.
Definition RCONTROL : Z := 0xA3.
Definition LMENU : Z := 0xA4.
Definition RMENU : Z := 0xA5.
Definition VOLUME_MUTE : Z := 0xAD.
Definition VOLUME_DOWN : Z := 0xAE.
Definition VOLUME_UP : Z := 0xAF.
Definition MEDIA_NEXT_TRACK : Z := 0xB0.
Definition MEDIA_PREV_TRACK : Z := 0xB1.
Definition MEDIA_STOP : Z := 0xB2.
Definition MEDIA_PLAY_PAUSE : Z := 0xB3.
Definition PACKET : Z := 0xE7.
End VK.

(** ** Window messages of the mouse *)
Module WM.
Definition MOUSEMOVE : Z := 0x200.
Definition LBUTTONDOWN : Z := 0x201.
Definition LBUTTONUP : Z := 0x202.
Definition LBUTTONDBLCLK : Z := 0x203.
Definition RBUTTONDOWN : Z := 0x204.
Definition RBUTTONUP : Z := 0x205.
Definition RBUTTONDBLCLK : Z := 0x206.
Definition MBUTTONDOWN : Z := 0x207.
Definition MBUTTONUP : Z := 0x208.
Definition MBUTTONDBLCLK : Z := 0x209.
Definition MOUSEWHEEL : Z := 0x20A.
Definition XBUTTONUP : Z := 0x20C.
Definition MOUSEHWHEEL : Z := 0x20E.
End WM.

(** ** Control key states, mouse buttons and mouse events *)
Definition RIGHT_ALT_PRESSED : Z := 0x1.
Definition LEFT_ALT_PRESSED : Z := 0x2.
Definition RIGHT_CTRL_PRESSED : Z := 0x4.
Definition LEFT_CTRL_PRESSED : Z := 0x8.
Definition SHIFT_PRESSED : Z := 0x10.
Definition NUMLOCK_ON : Z := 0x20.
Definition SCROLLLOCK_ON : Z := 0x40.
Definition CAPSLOCK_ON : Z := 0x80.
Definition ENHANCED_KEY : Z := 0x100.
Definition FROM_LEFT_1ST_BUTTON_PRESSED : Z := 1.
Definition RIGHTMOST_BUTTON_PRESSED : Z := 2.
Definition FROM_LEFT_2ND_BUTTON_PRESSED : Z := 4.
Definition MOUSE_MOVED : Z := 1.
Definition DOUBLE_CLICK : Z := 2.
Definition MOUSE_WHEELED : Z := 4.
Definition MOUSE_HWHEELED : Z := 8.
Definition WHEEL_DELTA : Z := 120.

Definition ALT_PRESSED : Z := Z.lor RIGHT_ALT_PRESSED LEFT_ALT_PRESSED.
Definition CTRL_PRESSED : Z := Z.lor RIGHT_CTRL_PRESSED LEFT_CTRL_PRESSED.

(** The kinds of [MapVirtualKeyW] that are used. *)
Inductive MapType := MAPVK_VK_TO_VSC | MAPVK_VK_TO_CHAR.

(** ** Records *)
Record KeyEventRecord := mkKeyEvent {
  bKeyDown : bool;
  wRepeatCount : Z;
  wVirtualKeyCode : Z;
  wVirtualScanCode : Z;
  UnicodeChar : wchar;
  dwControlKeyState : Z;
}.

Record MouseEventRecord := mkMouseEvent {
  dwMousePosition : Z * Z;
  dwButtonState : Z;
  mouse_dwControlKeyState : Z;
  dwEventFlags : Z;
}.

Inductive INPUT_RECORD :=
| KEY_EVENT (key : KeyEventRecord)
| MOUSE_EVENT (mouse : MouseEventRecord)
| FOCUS_EVENT (bSetFocus : bool).

#[global] Instance KeyEventRecord_eq_dec : EqDecision KeyEventRecord.
Proof. solve_decision. Defined.
#[global] Instance MouseEventRecord_eq_dec : EqDecision MouseEventRecord.
Proof. solve_decision. Defined.
#[global] Instance INPUT_RECORD_eq_dec : EqDecision INPUT_RECORD.
Proof. solve_decision. Defined.

(** [base::saturated_cast] to the range of the target type. *)
Definition saturated_cast (low high z : Z) : Z := Z.max low (Z.min high z).
Definition saturated_u16 (z : Z) : Z := saturated_cast 0 0xffff z.
Definition saturated_u32 (z : Z) : Z := saturated_cast 0 0xffffffff z.
Definition saturated_SHORT (z : Z) : Z := saturated_cast (-0x8000) 0x7fff z.

Definition SynthesizeKeyEvent (keyDown : bool) (repeatCount vkey scanCode : Z) (char : wchar) (controlKeyState : Z) : KeyEventRecord :=
  mkKeyEvent keyDown repeatCount vkey scanCode char controlKeyState.

Definition SynthesizeMouseEvent (position : Z * Z) (buttonState controlKeyState eventFlags : Z) : INPUT_RECORD :=
  MOUSE_EVENT (mkMouseEvent (saturated_SHORT position.1, saturated_SHORT position.2) buttonState controlKeyState eventFlags).

(** Changing fields of a record in place. *)
Definition set_bKeyDown (v : bool) (k : KeyEventRecord) : KeyEventRecord :=
  mkKeyEvent v (wRepeatCount k) (wVirtualKeyCode k) (wVirtualScanCode k) (UnicodeChar k) (dwControlKeyState k).
Definition set_dwControlKeyState (v : Z) (k : KeyEventRecord) : KeyEventRecord :=
  mkKeyEvent (bKeyDown k) (wRepeatCount k) (wVirtualKeyCode k) (wVirtualScanCode k) (UnicodeChar k) v.
Definition set_key (vkey scanCode : Z) (k : KeyEventRecord) : KeyEventRecord :=
  mkKeyEvent (bKeyDown k) (wRepeatCount k) vkey scanCode (UnicodeChar k) (dwControlKeyState k).

(** ** The dispatch interface *)
Module IInteractDispatch.
Inductive Call :=
| WriteInput (inputEvents : list INPUT_RECORD)
| WriteCtrlKey (event : KeyEventRecord)
| WriteString (string : wstring)
| WriteStringRaw (string : wstring)
| WindowManipulation (function parameter1 parameter2 : Z)
| MoveCursor (row col : Z)
| FocusChanged (focused : bool).
End IInteractDispatch.

(** [interact] returns [None] for an exception. [steady_clock_now] is the clock
    that is used to tell double clicks. *)
Class InteractDispatch (D : Type) := {
  IsVtInputEnabled : D -> bool;
  interact : IInteractDispatch.Call -> D -> D * option unit;
  steady_clock_now : D -> D * Z;
}.

(** The keyboard layout: [OneCoreSafeVkKeyScanW] (a [SHORT], -1 if there is no such
    key) and [OneCoreSafeMapVirtualKeyW]. *)
Class Keyboard := {
  VkKeyScanW : wchar -> Z;
  MapVirtualKeyW : Z -> MapType -> Z;
}.

(** ** Constants *)
Definition KEYSCAN_SHIFT : Z := 1.
Definition KEYSCAN_CTRL : Z := 2.
Definition KEYSCAN_ALT : Z := 4.
Definition VT_SHIFT : Z := 1.
Definition VT_ALT : Z := 2.
Definition VT_CTRL : Z := 4.
Definition SCROLL_DELTA_BACKWARD : Z := 0xFF800000.
Definition SCROLL_DELTA_FORWARD : Z := 0x00800000.

Module DeviceAttribute.
Definition some : Z := 0.
End DeviceAttribute.

Module InputCsi.
Definition ArrowUp : Z := VTID._FromString (wide "A").
Definition ArrowDown : Z := VTID._FromString (wide "B").
Definition ArrowRight : Z := VTID._FromString (wide "C").
Definition ArrowLeft : Z := VTID._FromString (wide "D").
Definition Home : Z := VTID._FromString (wide "H").
Definition End_ : Z := VTID._FromString (wide "F").
Definition FocusIn : Z := VTID._FromString (wide "I").
Definition FocusOut : Z := VTID._FromString (wide "O").
Definition MouseDown : Z := VTID._FromString (wide "<M").
Definition MouseUp : Z := VTID._FromString (wide "<m").
Definition Generic : Z := VTID._FromString (wide "~").
Definition CSI_F1 : Z := VTID._FromString (wide "P").
Definition CSI_F2 : Z := VTID._FromString (wide "Q").
Definition CSI_F3 : Z := VTID._FromString (wide "R").
Definition CSI_F4 : Z := VTID._FromString (wide "S").
Definition DA_DeviceAttributes : Z := VTID._FromString (wide "?c").
Definition CursorBackTab : Z := VTID._FromString (wide "Z").
Definition Win32KeyboardInput : Z := VTID._FromString (wide "_").
End InputCsi.

Module MouseButton.
Definition Left : Z := 0.
Definition Middle : Z := 1.
Definition Right : Z := 2.
Definition Released : Z := 3.
Definition ScrollForward : Z := 4.
Definition ScrollBack : Z := 5.
Definition ScrollLeft : Z := 6.
Definition ScrollRight : Z := 7.
End MouseButton.

Module MouseModifier.
Definition Shift : Z := 4.
Definition Meta : Z := 8.
Definition Ctrl : Z := 16.
Definition Drag : Z := 32.
End MouseModifier.

Module GenericKey.
Definition GenericHome : Z := 1.
Definition Insert : Z := 2.
Definition Delete : Z := 3.
Definition GenericEnd : Z := 4.
Definition Prior : Z := 5.
Definition Next : Z := 6.
Definition F5 : Z := 15.
Definition F6 : Z := 17.
Definition F7 : Z := 18.
Definition F8 : Z := 19.
Definition F9 : Z := 20.
Definition F10 : Z := 21.
Definition F11 : Z := 23.
Definition F12 : Z := 24.
End GenericKey.

Definition s_csiMap : list (Z * Z) :=
  [(InputCsi.ArrowUp, VK.UP); (InputCsi.ArrowDown, VK.DOWN); (InputCsi.ArrowRight, VK.RIGHT); (InputCsi.ArrowLeft, VK.LEFT);
   (InputCsi.Home, VK.HOME); (InputCsi.End_, VK.END); (InputCsi.CSI_F1, VK.F1); (InputCsi.CSI_F2, VK.F2);
   (InputCsi.CSI_F3, VK.F3); (InputCsi.CSI_F4, VK.F4)].

Definition s_genericMap : list (Z * Z) :=
  [(GenericKey.GenericHome, VK.HOME); (GenericKey.Insert, VK.INSERT); (GenericKey.Delete, VK.DELETE);
   (GenericKey.GenericEnd, VK.END); (GenericKey.Prior, VK.PRIOR); (GenericKey.Next, VK.NEXT);
   (GenericKey.F5, VK.F5); (GenericKey.F6, VK.F6); (GenericKey.F7, VK.F7); (GenericKey.F8, VK.F8);
   (GenericKey.F9, VK.F9); (GenericKey.F10, VK.F10); (GenericKey.F11, VK.F11); (GenericKey.F12, VK.F12)].

(** The codes of SS3 sequences are plain characters. *)
Definition s_ss3Map : list (Z * Z) :=
  [(0x41, VK.UP); (0x42, VK.DOWN); (0x43, VK.RIGHT); (0x44, VK.LEFT); (0x46, VK.END); (0x48, VK.HOME);
   (0x50, VK.F1); (0x51, VK.F2); (0x52, VK.F3); (0x53, VK.F4)].

(** [std::find] in one of the tables, and the virtual key found. *)
Fixpoint find_vkey (table : list (Z * Z)) (code : Z) : option Z :=
  match table with
  | [] => None
  | (c, vkey) :: table => if c =? code then Some vkey else find_vkey table code
  end.

Definition _GetGenericVkey (identifier : Z) : option Z := find_vkey s_genericMap identifier.
Definition _GetCursorKeysVkey (id : Z) : option Z := find_vkey s_csiMap id.
Definition _GetSs3KeysVkey (wch : wchar) : option Z := find_vkey s_ss3Map wch.

(** ** Modifiers *)

(** VT modifiers are one more than the flags. The parameter is a [size_t]. *)
Definition _GetModifier (modifierParam : Z) : Z :=
  let vtParam := modifierParam - 1 in
  let modifierState := WI_SetFlagIf 0 SHIFT_PRESSED (WI_IsFlagSet vtParam VT_SHIFT) in
  let modifierState := WI_SetFlagIf modifierState LEFT_ALT_PRESSED (WI_IsFlagSet vtParam VT_ALT) in
  WI_SetFlagIf modifierState LEFT_CTRL_PRESSED (WI_IsFlagSet vtParam VT_CTRL).

Definition _GetCursorKeysModifierState (parameters : VTParameters.t) (id : Z) : Z :=
  let modifiers := _GetModifier (VTParameter.to_VTInt (VTParameters.at_ parameters 1)) in
  if (id <? InputCsi.CSI_F1) || (InputCsi.CSI_F4 <? id) then WI_SetFlag modifiers ENHANCED_KEY else modifiers.

Definition _GetGenericKeysModifierState (parameters : VTParameters.t) : Z :=
  let modifiers := _GetModifier (VTParameter.to_VTInt (VTParameters.at_ parameters 1)) in
  let identifier := VTParameter.to_enum (VTParameters.at_ parameters 0) in
  if identifier <=? GenericKey.Next then WI_SetFlag modifiers ENHANCED_KEY else modifiers.

Definition _GetSGRMouseModifierState (modifierParam : Z) : Z :=
  let modifiers := WI_SetFlagIf 0 SHIFT_PRESSED (WI_IsFlagSet modifierParam MouseModifier.Shift) in
  let modifiers := WI_SetFlagIf modifiers LEFT_ALT_PRESSED (WI_IsFlagSet modifierParam MouseModifier.Meta) in
  WI_SetFlagIf modifiers LEFT_CTRL_PRESSED (WI_IsFlagSet modifierParam MouseModifier.Ctrl).

(** ** Keys *)
Section Keys.
Context `{!Keyboard}.

Definition scan_code (vkey : Z) : Z := u16 (MapVirtualKeyW vkey MAPVK_VK_TO_VSC).

(** [LOBYTE] and [HIBYTE] are unsigned, so that neither of the two [short]s can be
    -1 and the test for a missing key never succeeds. *)
Definition _GenerateKeyFromChar (wch : wchar) : option (Z * Z) :=
  let keyscan := VkKeyScanW wch in
  let key := u8 keyscan in
  let keyscanModifiers := u8 (Z.shiftr (u16 keyscan) 8) in
  if (key =? -1) && (keyscanModifiers =? -1) then None
  else
    let modifierFlags :=
      Z.lor (Z.lor (if WI_IsFlagSet keyscanModifiers KEYSCAN_SHIFT then SHIFT_PRESSED else 0)
                   (if WI_IsFlagSet keyscanModifiers KEYSCAN_CTRL then LEFT_CTRL_PRESSED else 0))
            (if WI_IsFlagSet keyscanModifiers KEYSCAN_ALT then LEFT_ALT_PRESSED else 0) in
    Some (key, modifierFlags).

Definition _GetSingleKeypress (wch : wchar) (vkey modifierState : Z) : list KeyEventRecord :=
  let rec := SynthesizeKeyEvent true 1 vkey (scan_code vkey) wch modifierState in
  [rec; set_bKeyDown false rec].

(** One modifier key, going down or up: [next] is the record that is reused for
    all of them. *)
Definition modifier_event (down : bool) (vkey currentModifiers : Z) : KeyEventRecord :=
  set_key vkey (scan_code vkey) (set_dwControlKeyState currentModifiers (SynthesizeKeyEvent down 1 0 0 0 0)).

Definition when {A} (condition : bool) (a : A) : list A := if condition then [a] else [].

Definition _GenerateWrappedSequence (wch : wchar) (vkey modifierState : Z) : list KeyEventRecord :=
  let shift := WI_IsFlagSet modifierState SHIFT_PRESSED in
  let ctrl := WI_IsFlagSet modifierState LEFT_CTRL_PRESSED in
  let alt := WI_IsFlagSet modifierState LEFT_ALT_PRESSED in
  let withShift := WI_SetFlagIf 0 SHIFT_PRESSED shift in
  let withAlt := WI_SetFlagIf withShift LEFT_ALT_PRESSED alt in
  let withCtrl := WI_SetFlagIf withAlt LEFT_CTRL_PRESSED ctrl in
  let lessCtrl := WI_ClearFlagIf withCtrl LEFT_CTRL_PRESSED ctrl in
  let lessAlt := WI_ClearFlagIf lessCtrl LEFT_ALT_PRESSED alt in
  let lessShift := WI_ClearFlagIf lessAlt SHIFT_PRESSED shift in
  when shift (modifier_event true VK.SHIFT withShift) ++
  when alt (modifier_event true VK.MENU withAlt) ++
  when ctrl (modifier_event true VK.CONTROL withCtrl) ++
  _GetSingleKeypress wch vkey modifierState ++
  when ctrl (modifier_event false VK.CONTROL lessCtrl) ++
  when alt (modifier_event false VK.MENU lessAlt) ++
  when shift (modifier_event false VK.SHIFT lessShift).
End Keys.

(** A key press from the parameters of a win32-input-mode sequence. *)
Definition _GenerateWin32Key (parameters : VTParameters.t) : KeyEventRecord :=
  let value i := VTParameter.value_or (VTParameters.at_ parameters i) in
  SynthesizeKeyEvent (negb (value 3%nat 0 =? 0)) (saturated_u16 (value 5%nat 1)) (saturated_u16 (value 0%nat 0))
    (saturated_u16 (value 1%nat 0)) (saturated_u16 (value 2%nat 0)) (saturated_u32 (value 4%nat 0)).

(** ** State *)
Record InputStateMachineEngine (D : Type) := mkInputEngine {
  _pDispatch : D;
  _deviceAttributes : Z;
  _captureNextCursorPositionReport : bool;
  _encounteredWin32InputModeSequence : bool;
  _expectingStringTerminator : bool;
  _mouseButtonState : Z;
  _doubleClickTime : Z;
  _lastMouseClickPos : option (Z * Z);
  _lastMouseClickTime : option Z;
  _lastMouseClickButton : option Z;
}.
Arguments mkInputEngine {D} _ _ _ _ _ _ _ _ _ _.
Arguments _pDispatch {D} _.
Arguments _deviceAttributes {D} _.
Arguments _captureNextCursorPositionReport {D} _.
Arguments _encounteredWin32InputModeSequence {D} _.
Arguments _expectingStringTerminator {D} _.
Arguments _mouseButtonState {D} _.
Arguments _doubleClickTime {D} _.
Arguments _lastMouseClickPos {D} _.
Arguments _lastMouseClickTime {D} _.
Arguments _lastMouseClickButton {D} _.

Definition set_pDispatch {D} (v : D) (e : InputStateMachineEngine D) : InputStateMachineEngine D :=
  mkInputEngine v (_deviceAttributes e) (_captureNextCursorPositionReport e) (_encounteredWin32InputModeSequence e) (_expectingStringTerminator e) (_mouseButtonState e) (_doubleClickTime e) (_lastMouseClickPos e) (_lastMouseClickTime e) (_lastMouseClickButton e).
Definition set_deviceAttributes {D} (v : Z) (e : InputStateMachineEngine D) : InputStateMachineEngine D :=
  mkInputEngine (_pDispatch e) v (_captureNextCursorPositionReport e) (_encounteredWin32InputModeSequence e) (_expectingStringTerminator e) (_mouseButtonState e) (_doubleClickTime e) (_lastMouseClickPos e) (_lastMouseClickTime e) (_lastMouseClickButton e).
Definition set_captureNextCursorPositionReport {D} (v : bool) (e : InputStateMachineEngine D) : InputStateMachineEngine D :=
  mkInputEngine (_pDispatch e) (_deviceAttributes e) v (_encounteredWin32InputModeSequence e) (_expectingStringTerminator e) (_mouseButtonState e) (_doubleClickTime e) (_lastMouseClickPos e) (_lastMouseClickTime e) (_lastMouseClickButton e).
Definition set_encounteredWin32InputModeSequence {D} (v : bool) (e : InputStateMachineEngine D) : InputStateMachineEngine D :=
  mkInputEngine (_pDispatch e) (_deviceAttributes e) (_captureNextCursorPositionReport e) v (_expectingStringTerminator e) (_mouseButtonState e) (_doubleClickTime e) (_lastMouseClickPos e) (_lastMouseClickTime e) (_lastMouseClickButton e).
Definition set_expectingStringTerminator {D} (v : bool) (e : InputStateMachineEngine D) : InputStateMachineEngine D :=
  mkInputEngine (_pDispatch e) (_deviceAttributes e) (_captureNextCursorPositionReport e) (_encounteredWin32InputModeSequence e) v (_mouseButtonState e) (_doubleClickTime e) (_lastMouseClickPos e) (_lastMouseClickTime e) (_lastMouseClickButton e).
Definition set_mouseButtonState {D} (v : Z) (e : InputStateMachineEngine D) : InputStateMachineEngine D :=
  mkInputEngine (_pDispatch e) (_deviceAttributes e) (_captureNextCursorPositionReport e) (_encounteredWin32InputModeSequence e) (_expectingStringTerminator e) v (_doubleClickTime e) (_lastMouseClickPos e) (_lastMouseClickTime e) (_lastMouseClickButton e).
Definition set_lastMouseClick {D} (pos : option (Z * Z)) (time button : option Z) (e : InputStateMachineEngine D) : InputStateMachineEngine D :=
  mkInputEngine (_pDispatch e) (_deviceAttributes e) (_captureNextCursorPositionReport e) (_encounteredWin32InputModeSequence e) (_expectingStringTerminator e) (_mouseButtonState e) (_doubleClickTime e) pos time button.

(** ** The actions *)
Section InputEngine.
Context {D : Type} `{!InteractDispatch D} `{!Keyboard}.
Abbreviation Engine := (InputStateMachineEngine D).
Abbreviation M := (comp Engine).

Definition make_InputEngine (pDispatch : D) (doubleClickTime : Z) : Engine :=
  mkInputEngine pDispatch 0 false false false 0 doubleClickTime None None None.

Definition calls (c : IInteractDispatch.Call) : M unit := fun e =>
  let '(d, value) := interact c (_pDispatch e) in
  (set_pDispatch d e, match value with Some _ => Returned tt | None => Threw end).

Definition vt_input_enabled : M bool := gets (fun e => IsVtInputEnabled (_pDispatch e)).

Definition clock_now : M Z := fun e =>
  let '(d, time) := steady_clock_now (_pDispatch e) in (set_pDispatch d e, Returned time).

Definition CaptureNextCursorPositionReport (e : Engine) : Engine := set_captureNextCursorPositionReport true e.

(** The loop of [WaitUntilDA1]: [seen] are the values found after each wake-up,
    and the list ends when the wait times out. *)
Fixpoint wait_loop (seen : list Z) (val : Z) : Z :=
  if val =? 0 then match seen with [] => val | val :: seen => wait_loop seen val end else val.

Definition WaitUntilDA1 (seen : list Z) (e : Engine) : Engine * Z :=
  (set_captureNextCursorPositionReport false e, wait_loop seen (_deviceAttributes e)).

Definition input_UnknownSequence (e : Engine) : Engine := e.

Definition _WriteSingleKey (wch : wchar) (vkey modifierState : Z) : M unit :=
  calls (IInteractDispatch.WriteInput (map KEY_EVENT (_GenerateWrappedSequence wch vkey modifierState))).

Definition _WriteSingleVkey (vkey modifierState : Z) : M unit :=
  _WriteSingleKey (u16 (MapVirtualKeyW vkey MAPVK_VK_TO_CHAR)) vkey modifierState.

Definition _WriteMouseEvent (uiPos : Z * Z) (buttonState controlKeyState eventFlags : Z) : M unit :=
  calls (IInteractDispatch.WriteInput [SynthesizeMouseEvent uiPos buttonState controlKeyState eventFlags]).

Definition input_ActionPrint (wch : wchar) : M bool :=
  match _GenerateKeyFromChar wch with
  | Some (vkey, modifierState) => _WriteSingleKey wch vkey modifierState;; mret true
  | None => mret true
  end.

(** The switch of [_DoControlCharacter] for a C0 control: the character to write,
    whether Ctrl is pressed, and the key with its modifiers, if there is one. *)
Definition control_key (wch : wchar) : wchar * bool * option (Z * Z) :=
  let generated ch := _GenerateKeyFromChar ch in
  let without_modifiers := fmap (fun key : Z * Z => (key.1, 0)) in
  if wch =? AsciiChars.BS then (0x7f, true, without_modifiers (generated 0x7f))
  else if wch =? AsciiChars.CR then (wch, false, without_modifiers (generated wch))
  else if wch =? AsciiChars.ESC then (wch, false, Some (VK.ESCAPE, 0))
  else if wch =? AsciiChars.TAB then (wch, false, generated wch)
  else (wch, true, generated wch).

Definition ctrl_c (keyDown : bool) : KeyEventRecord :=
  SynthesizeKeyEvent keyDown 1 0x43 0 AsciiChars.ETX LEFT_CTRL_PRESSED.

Definition _DoControlCharacter (wch : wchar) (writeAlt : bool) : M bool :=
  if (wch =? AsciiChars.ETX) && negb writeAlt then
    calls (IInteractDispatch.WriteCtrlKey (ctrl_c true));;
    calls (IInteractDispatch.WriteCtrlKey (ctrl_c false));;
    mret true
  else if (0 <=? wch) && (wch <? 0x20) then
    match control_key wch with
    | (actualChar, writeCtrl, Some (vkey, modifierState)) =>
      let modifierState := WI_SetFlagIf modifierState LEFT_CTRL_PRESSED writeCtrl in
      let modifierState := WI_SetFlagIf modifierState LEFT_ALT_PRESSED writeAlt in
      _WriteSingleKey actualChar vkey modifierState;; mret true
    | (_, _, None) => mret true
    end
  else if wch =? AsciiChars.DEL then
    _WriteSingleKey AsciiChars.BS VK.BACK (if writeAlt then LEFT_ALT_PRESSED else 0);; mret true
  else input_ActionPrint wch;; mret true.

Definition input_ActionExecute (wch : wchar) : M bool := _DoControlCharacter wch false.

Definition input_ActionExecuteFromEscape (wch : wchar) : M bool :=
  vt ← vt_input_enabled;
  if vt : bool then mret false else _DoControlCharacter wch true.

Definition input_ActionPrintString (string : wstring) : M bool :=
  if decide (string = []) then mret true else calls (IInteractDispatch.WriteString string);; mret true.

Definition input_ActionPassThroughString (string : wstring) : M bool :=
  if decide (string = []) then mret true else calls (IInteractDispatch.WriteStringRaw string);; mret true.

Definition input_ActionEscDispatch (id : Z) : M bool :=
  expecting ← gets _expectingStringTerminator;
  if expecting && (id =? VTID._FromString [0x5C]) then
    modify (set_expectingStringTerminator false);; mret false
  else
    vt ← vt_input_enabled;
    if vt : bool then mret false
    else
      let wch := u16 id in
      if wch =? 0x7f then _DoControlCharacter wch true;; mret true
      else
        match _GenerateKeyFromChar wch with
        | Some (vk, modifierState) => _WriteSingleKey wch vk (WI_SetFlag modifierState LEFT_ALT_PRESSED);; mret true
        | None => mret true
        end.

Definition input_ActionVt52EscDispatch (id : Z) (parameters : VTParameters.t) : M bool := mret false.

(** *** Mouse *)

(** The 2 high bits of the encoding and its 2 low bits. *)
Definition sgr_buttonID (sgrEncoding : Z) : Z :=
  Z.lor (Z.land sgrEncoding 0x3) (Z.shiftr (Z.land sgrEncoding 0xC0) 4).

(** Step 1 of [_UpdateSGRMouseButtonState]: the bit of the button, what is added to
    the button state and the flags of the event. *)
Definition button_effect (buttonID : Z) : option (Z * Z * Z) :=
  switch buttonID
    [(MouseButton.Left, Some (FROM_LEFT_1ST_BUTTON_PRESSED, 0, 0));
     (MouseButton.Right, Some (RIGHTMOST_BUTTON_PRESSED, 0, 0));
     (MouseButton.Middle, Some (FROM_LEFT_2ND_BUTTON_PRESSED, 0, 0));
     (MouseButton.ScrollBack, Some (0, SCROLL_DELTA_BACKWARD, MOUSE_WHEELED));
     (MouseButton.ScrollForward, Some (0, SCROLL_DELTA_FORWARD, MOUSE_WHEELED));
     (MouseButton.ScrollLeft, Some (0, SCROLL_DELTA_BACKWARD, MOUSE_HWHEELED));
     (MouseButton.ScrollRight, Some (0, SCROLL_DELTA_FORWARD, MOUSE_HWHEELED));
     (MouseButton.Released, Some (0, 0, 0))]
    None.

Definition is_double_click (e : Engine) (uiPos : Z * Z) (buttonID currentTime : Z) : bool :=
  match _lastMouseClickPos e, _lastMouseClickTime e, _lastMouseClickButton e with
  | Some pos, Some time, Some button =>
    bool_decide (uiPos = pos) && (currentTime - time <? _doubleClickTime e) && (buttonID =? button)
  | _, _, _ => false
  end.

(** Tracking of clicks on a button press; the result is the flag to add. *)
Definition track_click (uiPos : Z * Z) (buttonID currentTime : Z) : M Z := fun e =>
  if is_double_click e uiPos buttonID currentTime then (set_lastMouseClick None None None e, Returned DOUBLE_CLICK)
  else if (buttonID =? MouseButton.Left) || (buttonID =? MouseButton.Right) || (buttonID =? MouseButton.Middle)
  then (set_lastMouseClick (Some uiPos) (Some currentTime) (Some buttonID) e, Returned 0)
  else (e, Returned 0).

Definition _UpdateSGRMouseButtonState (id sgrEncoding : Z) (uiPos : Z * Z) : M (option (Z * Z)) :=
  previous ← gets _mouseButtonState;
  let buttonID := sgr_buttonID sgrEncoding in
  currentTime ← clock_now;
  match button_effect buttonID with
  | None => mret None
  | Some (buttonFlag, scroll, eventFlags) =>
    let buttonState := Z.lor previous scroll in
    let finish (buttonState eventFlags : Z) : M (option (Z * Z)) :=
      let eventFlags := WI_SetFlagIf eventFlags MOUSE_MOVED (WI_IsFlagSet sgrEncoding MouseModifier.Drag) in
      modify (set_mouseButtonState (u16 buttonState));;
      mret (Some (buttonState, eventFlags)) in
    if id =? InputCsi.MouseDown then
      flag ← track_click uiPos buttonID currentTime;
      finish (Z.lor buttonState buttonFlag) (Z.lor eventFlags flag)
    else if id =? InputCsi.MouseUp then finish (Z.ldiff buttonState buttonFlag) eventFlags
    else mret None
  end.

Definition mouse_input (id : Z) (parameters : VTParameters.t) : M bool :=
  let firstParameter := VTParameter.value_or (VTParameters.at_ parameters 0) 0 in
  let uiPos := (VTParameter.to_VTInt (VTParameters.at_ parameters 1) - 1, VTParameter.to_VTInt (VTParameters.at_ parameters 2) - 1) in
  updated ← _UpdateSGRMouseButtonState id firstParameter uiPos;
  match updated with
  | Some (buttonState, eventFlags) =>
    _WriteMouseEvent uiPos buttonState (_GetSGRMouseModifierState firstParameter) eventFlags;; mret true
  | None => mret true
  end.

(** *** Control sequences *)
Definition cursor_key (id : Z) (parameters : VTParameters.t) : M bool :=
  match _GetCursorKeysVkey id with
  | Some vkey => _WriteSingleVkey vkey (_GetCursorKeysModifierState parameters id);; mret true
  | None => mret true
  end.

Definition generic_key (parameters : VTParameters.t) : M bool :=
  match _GetGenericVkey (VTParameter.to_enum (VTParameters.at_ parameters 0)) with
  | Some vkey => _WriteSingleVkey vkey (_GetGenericKeysModifierState parameters);; mret true
  | None => mret true
  end.

(** Sequences that the application gets unchanged when it asked for VT input. *)
Definition unless_vt (body : M bool) : M bool :=
  vt ← vt_input_enabled;
  if vt : bool then mret false else body.

(** F3 and the cursor position report have the same code. *)
Definition f3_or_report (parameters : VTParameters.t) : M bool :=
  capture ← gets _captureNextCursorPositionReport;
  modify (set_captureNextCursorPositionReport false);;
  if capture : bool then
    calls (IInteractDispatch.MoveCursor (VTParameter.to_VTInt (VTParameters.at_ parameters 0))
                                        (VTParameter.to_VTInt (VTParameters.at_ parameters 1)));;
    mret true
  else
    win32 ← gets _encounteredWin32InputModeSequence;
    if win32 : bool then mret false else unless_vt (cursor_key InputCsi.CSI_F3 parameters).

(** The attributes of a DA1 report; the first parameter is the conformance level. *)
Definition reported_attributes (parameters : VTParameters.t) : Z :=
  let start := enumset.of_positions [DeviceAttribute.some] in
  let len := VTParameters.size parameters in
  if (2 <=? len)%nat && (61 <=? VTParameters.at_ parameters 0) then
    fold_left (fun attributes i =>
                 let value := VTParameters.at_ parameters i in
                 if (0 <? value) && (value <? 64) then enumset.set attributes value true else attributes)
              (seq 1 (len - 1)) start
  else start.

Definition device_attributes (parameters : VTParameters.t) : M bool :=
  known ← gets _deviceAttributes;
  if known =? 0 then
    modify (fun e => set_deviceAttributes (Z.lor (_deviceAttributes e) (reported_attributes parameters)) e);;
    mret true
  else mret false.

Definition input_csi_cases (id : Z) (parameters : VTParameters.t) : list (Z * M bool) :=
  [(InputCsi.MouseDown, unless_vt (mouse_input id parameters));
   (InputCsi.MouseUp, unless_vt (mouse_input id parameters));
   (InputCsi.CSI_F3, f3_or_report parameters);
   (InputCsi.ArrowUp, unless_vt (cursor_key id parameters));
   (InputCsi.ArrowDown, unless_vt (cursor_key id parameters));
   (InputCsi.ArrowRight, unless_vt (cursor_key id parameters));
   (InputCsi.ArrowLeft, unless_vt (cursor_key id parameters));
   (InputCsi.Home, unless_vt (cursor_key id parameters));
   (InputCsi.End_, unless_vt (cursor_key id parameters));
   (InputCsi.CSI_F1, unless_vt (cursor_key id parameters));
   (InputCsi.CSI_F2, unless_vt (cursor_key id parameters));
   (InputCsi.CSI_F4, unless_vt (cursor_key id parameters));
   (InputCsi.Generic, unless_vt (generic_key parameters));
   (InputCsi.CursorBackTab, unless_vt (_WriteSingleVkey VK.TAB SHIFT_PRESSED;; mret true));
   (InputCsi.FocusIn, calls (IInteractDispatch.FocusChanged true);; mret true);
   (InputCsi.FocusOut, calls (IInteractDispatch.FocusChanged false);; mret true);
   (InputCsi.DA_DeviceAttributes, device_attributes parameters);
   (InputCsi.Win32KeyboardInput,
      calls (IInteractDispatch.WriteCtrlKey (_GenerateWin32Key parameters));;
      modify (set_encounteredWin32InputModeSequence true);; mret true)].

Definition input_ActionCsiDispatch (id : Z) (parameters : VTParameters.t) : M bool :=
  switch id (input_csi_cases id parameters) (mret false).

(** Device control strings are buffered by the parser and passed through when the
    string terminator arrives. *)
Definition input_ActionDcsDispatch (id : Z) (parameters : VTParameters.t) : M (option Empty_set) :=
  modify (set_expectingStringTerminator true);; mret None.

Definition input_ActionSs3Dispatch (wch : wchar) (parameters : VTParameters.t) : M bool :=
  unless_vt (match _GetSs3KeysVkey wch with
             | Some vkey => _WriteSingleVkey vkey 0;; mret true
             | None => mret true
             end).

Definition input_ActionOscDispatch (parameter : Z) (string : wstring) : M bool := mret false.

(** The engine never asks anything of the parser. *)
Definition replied {A} (m : M A) (v : View) (e : Engine) : Reply Engine Empty_set A :=
  let '(e', result) := m e in
  mkReply e' [] (match result with Returned a => Some a | _ => None end).
End InputEngine.

#[global] Instance InputEngine {D} `{!InteractDispatch D} `{!Keyboard} :
    IStateMachineEngine (InputStateMachineEngine D) Empty_set Empty_set := {
  UnknownSequence := input_UnknownSequence;
  EncounteredWin32InputModeSequence := _encounteredWin32InputModeSequence;
  ActionExecute := fun wch => replied (input_ActionExecute wch);
  ActionExecuteFromEscape := fun wch => replied (input_ActionExecuteFromEscape wch);
  ActionPrint := fun wch => replied (input_ActionPrint wch);
  ActionPrintString := fun string => replied (input_ActionPrintString string);
  ActionPassThroughString := fun string => replied (input_ActionPassThroughString string);
  ActionEscDispatch := fun id => replied (input_ActionEscDispatch id);
  ActionVt52EscDispatch := fun id parameters => replied (input_ActionVt52EscDispatch id parameters);
  ActionCsiDispatch := fun id parameters => replied (input_ActionCsiDispatch id parameters);
  ActionDcsDispatch := fun id parameters => replied (input_ActionDcsDispatch id parameters);
  ActionOscDispatch := fun parameter string => replied (input_ActionOscDispatch parameter string);
  ActionSs3Dispatch := fun wch parameters => replied (input_ActionSs3Dispatch wch parameters);
  CallStringHandler := fun h => match h with end;
  CallbackBegin := fun callback => match callback with end;
  CallbackEnd := fun callback => match callback with end;
}.
