(* ===== verification/TerminalInput.v ===== *)
(** * Keyboard input

    Models src/terminal/input/terminalInput.{hpp,cpp}: the translation of key
    presses to what a terminal sends to the application, in win32-input-mode, in
    the kitty keyboard protocol and in the classic encodings. The keyboard layout
    of the operating system and the build's feature flag are parameters. *)

From S2P Require Import Prelude Til Utils InputEngine.

(** ** src/inc/til/unicode.h *)
Definition is_surrogate (wch : wchar) : bool := Z.land wch 0xF800 =? 0xD800.
Definition is_leading_surrogate (wch : wchar) : bool := Z.land wch 0xFC00 =? 0xD800.
Definition is_trailing_surrogate (wch : wchar) : bool := Z.land wch 0xFC00 =? 0xDC00.
Definition combine_surrogates (lead trail : wchar) : Z := u32 (u32 (u32 (Z.shiftl lead 10) - 0x35FDC00) + trail).

(** ** Constants *)
Definition CSI_SHIFT : Z := 1.
Definition CSI_ALT : Z := 2.
Definition CSI_CTRL : Z := 4.
Definition InvalidCodepoint : Z := 0x110000.
Definition KittyKeyCodeTextSentinel : Z := 0.
Definition KittyKeyCodeLegacySentinel : Z := 1.
Definition KittyStackMaxSize : nat := 8.

(** The enumerators of [TerminalInput::Mode]. *)
Module Mode.
Definition LineFeed : Z := 0.
Definition Ansi : Z := 1.
Definition AutoRepeat : Z := 2.
Definition Keypad : Z := 3.
Definition CursorKey : Z := 4.
Definition BackarrowKey : Z := 5.
Definition Win32 : Z := 6.
Definition SendC1 : Z := 7.
Definition Utf8MouseEncoding : Z := 8.
Definition SgrMouseEncoding : Z := 9.
Definition DefaultMouseTracking : Z := 10.
Definition ButtonEventMouseTracking : Z := 11.
Definition AnyEventMouseTracking : Z := 12.
Definition FocusEvent : Z := 13.
Definition AlternateScroll : Z := 14.
End Mode.

Module Kitty.
Definition DisambiguateEscapeCodes : Z := 1.
Definition ReportEventTypes : Z := 2.
Definition ReportAlternateKeys : Z := 4.
Definition ReportAllKeysAsEscapeCodes : Z := 8.
Definition ReportAssociatedText : Z := 16.
Definition All : Z := 31.
Inductive ProtocolMode := Replace | Set_ | Reset_.
End Kitty.

(** ** State *)
Record MouseInputState := mkMouseInputState {
  lastPos : Z * Z;
  lastButton : Z;
  accumulatedDelta : Z;
}.

Record TerminalInput := mkTerminalInput {
  _leadingSurrogate : wchar;
  _lastVirtualKeyCode : option Z;
  _lastControlKeyState : Z;
  _previousControlKeyState : Z;
  _lastLeftCtrlTime : Z;
  _lastRightAltTime : Z;
  _inputMode : Z;
  _forceDisableWin32InputMode : bool;
  _inAlternateBuffer : bool;
  _forceDisableKittyKeyboardProtocol : bool;
  _kittyFlags : Z;
  _kittyMainStack : list Z;
  _kittyAltStack : list Z;
  _csi : wstring;
  _ss3 : wstring;
  _focusInSequence : wstring;
  _focusOutSequence : wstring;
  _mouseInputState : MouseInputState;
}.

Definition set_leadingSurrogate (v : wchar) (t : TerminalInput) : TerminalInput :=
  mkTerminalInput v (_lastVirtualKeyCode t) (_lastControlKeyState t) (_previousControlKeyState t) (_lastLeftCtrlTime t) (_lastRightAltTime t) (_inputMode t) (_forceDisableWin32InputMode t) (_inAlternateBuffer t) (_forceDisableKittyKeyboardProtocol t) (_kittyFlags t) (_kittyMainStack t) (_kittyAltStack t) (_csi t) (_ss3 t) (_focusInSequence t) (_focusOutSequence t) (_mouseInputState t).
Definition set_lastVirtualKeyCode (v : option Z) (t : TerminalInput) : TerminalInput :=
  mkTerminalInput (_leadingSurrogate t) v (_lastControlKeyState t) (_previousControlKeyState t) (_lastLeftCtrlTime t) (_lastRightAltTime t) (_inputMode t) (_forceDisableWin32InputMode t) (_inAlternateBuffer t) (_forceDisableKittyKeyboardProtocol t) (_kittyFlags t) (_kittyMainStack t) (_kittyAltStack t) (_csi t) (_ss3 t) (_focusInSequence t) (_focusOutSequence t) (_mouseInputState t).
Definition set_lastControlKeyState (v : Z) (t : TerminalInput) : TerminalInput :=
  mkTerminalInput (_leadingSurrogate t) (_lastVirtualKeyCode t) v (_previousControlKeyState t) (_lastLeftCtrlTime t) (_lastRightAltTime t) (_inputMode t) (_forceDisableWin32InputMode t) (_inAlternateBuffer t) (_forceDisableKittyKeyboardProtocol t) (_kittyFlags t) (_kittyMainStack t) (_kittyAltStack t) (_csi t) (_ss3 t) (_focusInSequence t) (_focusOutSequence t) (_mouseInputState t).
Definition set_previousControlKeyState (v : Z) (t : TerminalInput) : TerminalInput :=
  mkTerminalInput (_leadingSurrogate t) (_lastVirtualKeyCode t) (_lastControlKeyState t) v (_lastLeftCtrlTime t) (_lastRightAltTime t) (_inputMode t) (_forceDisableWin32InputMode t) (_inAlternateBuffer t) (_forceDisableKittyKeyboardProtocol t) (_kittyFlags t) (_kittyMainStack t) (_kittyAltStack t) (_csi t) (_ss3 t) (_focusInSequence t) (_focusOutSequence t) (_mouseInputState t).
Definition set_inputMode (v : Z) (t : TerminalInput) : TerminalInput :=
  mkTerminalInput (_leadingSurrogate t) (_lastVirtualKeyCode t) (_lastControlKeyState t) (_previousControlKeyState t) (_lastLeftCtrlTime t) (_lastRightAltTime t) v (_forceDisableWin32InputMode t) (_inAlternateBuffer t) (_forceDisableKittyKeyboardProtocol t) (_kittyFlags t) (_kittyMainStack t) (_kittyAltStack t) (_csi t) (_ss3 t) (_focusInSequence t) (_focusOutSequence t) (_mouseInputState t).
Definition set_forceDisableWin32InputMode (v : bool) (t : TerminalInput) : TerminalInput :=
  mkTerminalInput (_leadingSurrogate t) (_lastVirtualKeyCode t) (_lastControlKeyState t) (_previousControlKeyState t) (_lastLeftCtrlTime t) (_lastRightAltTime t) (_inputMode t) v (_inAlternateBuffer t) (_forceDisableKittyKeyboardProtocol t) (_kittyFlags t) (_kittyMainStack t) (_kittyAltStack t) (_csi t) (_ss3 t) (_focusInSequence t) (_focusOutSequence t) (_mouseInputState t).
Definition set_inAlternateBuffer (v : bool) (t : TerminalInput) : TerminalInput :=
  mkTerminalInput (_leadingSurrogate t) (_lastVirtualKeyCode t) (_lastControlKeyState t) (_previousControlKeyState t) (_lastLeftCtrlTime t) (_lastRightAltTime t) (_inputMode t) (_forceDisableWin32InputMode t) v (_forceDisableKittyKeyboardProtocol t) (_kittyFlags t) (_kittyMainStack t) (_kittyAltStack t) (_csi t) (_ss3 t) (_focusInSequence t) (_focusOutSequence t) (_mouseInputState t).
Definition set_forceDisableKittyKeyboardProtocol (v : bool) (t : TerminalInput) : TerminalInput :=
  mkTerminalInput (_leadingSurrogate t) (_lastVirtualKeyCode t) (_lastControlKeyState t) (_previousControlKeyState t) (_lastLeftCtrlTime t) (_lastRightAltTime t) (_inputMode t) (_forceDisableWin32InputMode t) (_inAlternateBuffer t) v (_kittyFlags t) (_kittyMainStack t) (_kittyAltStack t) (_csi t) (_ss3 t) (_focusInSequence t) (_focusOutSequence t) (_mouseInputState t).
Definition set_kittyFlags (v : Z) (t : TerminalInput) : TerminalInput :=
  mkTerminalInput (_leadingSurrogate t) (_lastVirtualKeyCode t) (_lastControlKeyState t) (_previousControlKeyState t) (_lastLeftCtrlTime t) (_lastRightAltTime t) (_inputMode t) (_forceDisableWin32InputMode t) (_inAlternateBuffer t) (_forceDisableKittyKeyboardProtocol t) v (_kittyMainStack t) (_kittyAltStack t) (_csi t) (_ss3 t) (_focusInSequence t) (_focusOutSequence t) (_mouseInputState t).
Definition set_kittyMainStack (v : list Z) (t : TerminalInput) : TerminalInput :=
  mkTerminalInput (_leadingSurrogate t) (_lastVirtualKeyCode t) (_lastControlKeyState t) (_previousControlKeyState t) (_lastLeftCtrlTime t) (_lastRightAltTime t) (_inputMode t) (_forceDisableWin32InputMode t) (_inAlternateBuffer t) (_forceDisableKittyKeyboardProtocol t) (_kittyFlags t) v (_kittyAltStack t) (_csi t) (_ss3 t) (_focusInSequence t) (_focusOutSequence t) (_mouseInputState t).
Definition set_kittyAltStack (v : list Z) (t : TerminalInput) : TerminalInput :=
  mkTerminalInput (_leadingSurrogate t) (_lastVirtualKeyCode t) (_lastControlKeyState t) (_previousControlKeyState t) (_lastLeftCtrlTime t) (_lastRightAltTime t) (_inputMode t) (_forceDisableWin32InputMode t) (_inAlternateBuffer t) (_forceDisableKittyKeyboardProtocol t) (_kittyFlags t) (_kittyMainStack t) v (_csi t) (_ss3 t) (_focusInSequence t) (_focusOutSequence t) (_mouseInputState t).
Definition set_mouseInputState (v : MouseInputState) (t : TerminalInput) : TerminalInput :=
  mkTerminalInput (_leadingSurrogate t) (_lastVirtualKeyCode t) (_lastControlKeyState t) (_previousControlKeyState t) (_lastLeftCtrlTime t) (_lastRightAltTime t) (_inputMode t) (_forceDisableWin32InputMode t) (_inAlternateBuffer t) (_forceDisableKittyKeyboardProtocol t) (_kittyFlags t) (_kittyMainStack t) (_kittyAltStack t) (_csi t) (_ss3 t) (_focusInSequence t) (_focusOutSequence t) v.

Definition set_sequences (csi ss3 focusIn focusOut : wstring) (t : TerminalInput) : TerminalInput :=
  mkTerminalInput (_leadingSurrogate t) (_lastVirtualKeyCode t) (_lastControlKeyState t) (_previousControlKeyState t) (_lastLeftCtrlTime t) (_lastRightAltTime t) (_inputMode t) (_forceDisableWin32InputMode t) (_inAlternateBuffer t) (_forceDisableKittyKeyboardProtocol t) (_kittyFlags t) (_kittyMainStack t) (_kittyAltStack t) csi ss3 focusIn focusOut (_mouseInputState t).

(** What [HandleKey] knows about a key press once it has been cleaned up. *)
Record SanitizedKeyEvent := mkKey {
  virtualKey : Z;
  scanCode : Z;
  codepoint : Z;
  controlKeyState : Z;
  keyDown : bool;
  keyRepeat : bool;
  altGrPressed : bool;
  ctrlPressed : bool;
  altPressed : bool;
  shiftPressed : bool;
}.

(** The pieces a sequence is put together from. *)
Record EncodingHelper := mkEncoding {
  csiUnicodeKeyCode : Z;
  csiAltKeyCodeShifted : Z;
  csiAltKeyCodeBase : Z;
  csiModifier : Z;
  csiEventType : Z;
  csiTextAsCodepoint : Z;
  csiFinal : wchar;
  ss3Final : wchar;
  altPrefix : bool;
  plain : wstring;
}.

Definition with_csiUnicodeKeyCode (v : Z) (enc : EncodingHelper) : EncodingHelper :=
  mkEncoding v (csiAltKeyCodeShifted enc) (csiAltKeyCodeBase enc) (csiModifier enc) (csiEventType enc) (csiTextAsCodepoint enc) (csiFinal enc) (ss3Final enc) (altPrefix enc) (plain enc).
Definition with_csiAltKeyCodeShifted (v : Z) (enc : EncodingHelper) : EncodingHelper :=
  mkEncoding (csiUnicodeKeyCode enc) v (csiAltKeyCodeBase enc) (csiModifier enc) (csiEventType enc) (csiTextAsCodepoint enc) (csiFinal enc) (ss3Final enc) (altPrefix enc) (plain enc).
Definition with_csiAltKeyCodeBase (v : Z) (enc : EncodingHelper) : EncodingHelper :=
  mkEncoding (csiUnicodeKeyCode enc) (csiAltKeyCodeShifted enc) v (csiModifier enc) (csiEventType enc) (csiTextAsCodepoint enc) (csiFinal enc) (ss3Final enc) (altPrefix enc) (plain enc).
Definition with_csiModifier (v : Z) (enc : EncodingHelper) : EncodingHelper :=
  mkEncoding (csiUnicodeKeyCode enc) (csiAltKeyCodeShifted enc) (csiAltKeyCodeBase enc) v (csiEventType enc) (csiTextAsCodepoint enc) (csiFinal enc) (ss3Final enc) (altPrefix enc) (plain enc).
Definition with_csiEventType (v : Z) (enc : EncodingHelper) : EncodingHelper :=
  mkEncoding (csiUnicodeKeyCode enc) (csiAltKeyCodeShifted enc) (csiAltKeyCodeBase enc) (csiModifier enc) v (csiTextAsCodepoint enc) (csiFinal enc) (ss3Final enc) (altPrefix enc) (plain enc).
Definition with_csiTextAsCodepoint (v : Z) (enc : EncodingHelper) : EncodingHelper :=
  mkEncoding (csiUnicodeKeyCode enc) (csiAltKeyCodeShifted enc) (csiAltKeyCodeBase enc) (csiModifier enc) (csiEventType enc) v (csiFinal enc) (ss3Final enc) (altPrefix enc) (plain enc).
Definition with_csiFinal (v : wchar) (enc : EncodingHelper) : EncodingHelper :=
  mkEncoding (csiUnicodeKeyCode enc) (csiAltKeyCodeShifted enc) (csiAltKeyCodeBase enc) (csiModifier enc) (csiEventType enc) (csiTextAsCodepoint enc) v (ss3Final enc) (altPrefix enc) (plain enc).
Definition with_ss3Final (v : wchar) (enc : EncodingHelper) : EncodingHelper :=
  mkEncoding (csiUnicodeKeyCode enc) (csiAltKeyCodeShifted enc) (csiAltKeyCodeBase enc) (csiModifier enc) (csiEventType enc) (csiTextAsCodepoint enc) (csiFinal enc) v (altPrefix enc) (plain enc).
Definition with_altPrefix (v : bool) (enc : EncodingHelper) : EncodingHelper :=
  mkEncoding (csiUnicodeKeyCode enc) (csiAltKeyCodeShifted enc) (csiAltKeyCodeBase enc) (csiModifier enc) (csiEventType enc) (csiTextAsCodepoint enc) (csiFinal enc) (ss3Final enc) v (plain enc).
Definition with_plain (v : wstring) (enc : EncodingHelper) : EncodingHelper :=
  mkEncoding (csiUnicodeKeyCode enc) (csiAltKeyCodeShifted enc) (csiAltKeyCodeBase enc) (csiModifier enc) (csiEventType enc) (csiTextAsCodepoint enc) (csiFinal enc) (ss3Final enc) (altPrefix enc) v.

Definition new_Encoding : EncodingHelper := mkEncoding 0 0 0 0 0 0 0 0 false [].

(** ** Modes *)
Definition test_mode (t : TerminalInput) (mode : Z) : bool := enumset.test (_inputMode t) mode.

Definition ESC_ : wchar := 0x1B.

(** CSI and SS3 are sent as C1 controls or as escape sequences. *)
Definition _initKeyboardMap (t : TerminalInput) : TerminalInput :=
  if test_mode t Mode.SendC1
  then set_sequences [0x9B] [0x8F] [0x9B; 0x49] [0x9B; 0x4F] t
  else set_sequences [ESC_; 0x5B] [ESC_; 0x4F] [ESC_; 0x5B; 0x49] [ESC_; 0x5B; 0x4F] t.

Definition initial_modes : Z := enumset.of_positions [Mode.Ansi; Mode.AutoRepeat; Mode.AlternateScroll].

Definition new_MouseInputState : MouseInputState := mkMouseInputState (-1, -1) 0 0.

Definition new_TerminalInput : TerminalInput :=
  _initKeyboardMap
    (mkTerminalInput 0 None 0 0 0 0 initial_modes false false false 0 [] [] [] [] [] [] new_MouseInputState).

(** Forgets the last position and button; the accumulated wheel delta stays. *)
Definition reset_lastMouse (t : TerminalInput) : TerminalInput :=
  set_mouseInputState (mkMouseInputState (-1, -1) 0 (accumulatedDelta (_mouseInputState t))) t.

Definition tracking_modes : list Z := [Mode.DefaultMouseTracking; Mode.ButtonEventMouseTracking; Mode.AnyEventMouseTracking].
Definition encoding_modes : list Z := [Mode.Utf8MouseEncoding; Mode.SgrMouseEncoding].
Definition keyMapModes : Z :=
  enumset.of_positions [Mode.LineFeed; Mode.Ansi; Mode.Keypad; Mode.CursorKey; Mode.BackarrowKey; Mode.SendC1].

Definition SetInputMode (mode : Z) (enabled : bool) (t : TerminalInput) : TerminalInput :=
  let t :=
    if bool_decide (mode ∈ tracking_modes)
    then reset_lastMouse (set_inputMode (enumset.reset_all (_inputMode t) tracking_modes) t) else t in
  let t :=
    if bool_decide (mode ∈ encoding_modes) && enabled
    then set_inputMode (enumset.reset_all (_inputMode t) encoding_modes) t else t in
  let t := set_inputMode (enumset.set (_inputMode t) mode enabled) t in
  if enumset.test keyMapModes mode then _initKeyboardMap t else t.

Definition GetInputMode (mode : Z) (t : TerminalInput) : bool := test_mode t mode.

Definition ForceDisableWin32InputMode (win32InputMode : bool) (t : TerminalInput) : TerminalInput :=
  set_forceDisableWin32InputMode win32InputMode t.

(** ** The kitty keyboard protocol: flags and stacks *)
Definition ResetKittyKeyboardProtocols (t : TerminalInput) : TerminalInput :=
  set_kittyAltStack [] (set_kittyMainStack [] (set_kittyFlags 0 t)).

Definition ResetInputModes (t : TerminalInput) : TerminalInput :=
  _initKeyboardMap (ResetKittyKeyboardProtocols (reset_lastMouse (set_inputMode initial_modes t))).

Definition ForceDisableKittyKeyboardProtocol (disable : bool) (t : TerminalInput) : TerminalInput :=
  let t := set_forceDisableKittyKeyboardProtocol disable t in
  if disable then ResetKittyKeyboardProtocols t else t.

Definition SetKittyKeyboardProtocol (flags : Z) (mode : Kitty.ProtocolMode) (t : TerminalInput) : TerminalInput :=
  if _forceDisableKittyKeyboardProtocol t then t
  else
    let flags := Z.land flags Kitty.All in
    match mode with
    | Kitty.Replace => set_kittyFlags flags t
    | Kitty.Set_ => set_kittyFlags (Z.lor (_kittyFlags t) flags) t
    | Kitty.Reset_ => set_kittyFlags (Z.ldiff (_kittyFlags t) flags) t
    end.

(** The stack of the active screen buffer. *)
Definition kitty_stack (t : TerminalInput) : list Z := if _inAlternateBuffer t then _kittyAltStack t else _kittyMainStack t.
Definition set_kitty_stack (stack : list Z) (t : TerminalInput) : TerminalInput :=
  if _inAlternateBuffer t then set_kittyAltStack stack t else set_kittyMainStack stack t.

Definition PushKittyFlags (flags : Z) (t : TerminalInput) : TerminalInput :=
  if _forceDisableKittyKeyboardProtocol t then t
  else
    let stack := kitty_stack t in
    let stack := if (KittyStackMaxSize <=? length stack)%nat then drop 1 stack else stack in
    set_kittyFlags (Z.land flags Kitty.All) (set_kitty_stack (stack ++ [_kittyFlags t]) t).

(** [stack.at(stack.size() - count)] is in range, since [0 < count < stack.size()]. *)
Definition PopKittyFlags (count : nat) (t : TerminalInput) : TerminalInput :=
  if decide (count = 0%nat) then t
  else
    let stack := kitty_stack t in
    if (length stack <=? count)%nat then set_kitty_stack [] (set_kittyFlags 0 t)
    else
      let keep := (length stack - count)%nat in
      set_kitty_stack (take keep stack) (set_kittyFlags (nth keep stack 0) t).

Definition UseMainScreenBuffer (t : TerminalInput) : TerminalInput :=
  if _inAlternateBuffer t then
    let t := set_kittyAltStack [] (set_inAlternateBuffer false t) in
    set_kittyFlags (default 0 (last (_kittyMainStack t))) t
  else t.

Definition UseAlternateScreenBuffer (t : TerminalInput) : TerminalInput :=
  if _inAlternateBuffer t then t
  else set_kittyFlags 0 (set_kittyAltStack [] (set_inAlternateBuffer true t)).

(** ** Code points *)

(** A [CodepointBuffer]: its [len] code units. *)
Definition codepoint_units (cp : Z) : wstring :=
  if cp <=? 0xFFFF then [u16 cp]
  else
    let cp := cp - 0x10000 in
    [u16 (Z.shiftr cp 10 + 0xD800); u16 (Z.land cp 0x3FF + 0xDC00)].

Definition asSingleCodepoint (units : wstring) : Z :=
  match units with
  | [unit] => if is_surrogate unit then InvalidCodepoint else unit
  | [lead; trail] =>
    if is_leading_surrogate lead && is_trailing_surrogate trail then combine_surrogates lead trail else InvalidCodepoint
  | _ => InvalidCodepoint
  end.

Definition _makeCharOutput (cp : Z) : wstring := codepoint_units cp.
Definition _makeNoOutput : wstring := [].

Definition _makeCtrlChar (ch : Z) : Z :=
  if (0x40 <=? ch) && (ch <=? 0x7E) then Z.land ch 0x1F
  else if ch =? 0x20 then 0x00
  else if ch =? 0x2F then 0x1F
  else if ch =? 0x3F then 0x7F
  else if (0x32 <=? ch) && (ch <=? 0x38) then nth (Z.to_nat (ch - 0x32)) [0; 27; 28; 29; 30; 31; 127] 0
  else ch.

(** ** Win32-input-mode

    [fmt::format] of 16-bit numbers. *)
Definition number16 (v : Z) : wstring := decimal 5 v.

Definition _makeWin32Output (t : TerminalInput) (key : KeyEventRecord) : wstring :=
  let kd := if bKeyDown key then 1 else 0 in
  let rc := u16 (wRepeatCount key) in
  let vk := u16 (wVirtualKeyCode key) in
  let sc := u16 (wVirtualScanCode key) in
  let uc := u16 (UnicodeChar key) in
  let cs := u16 (dwControlKeyState key) in
  _csi t ++ number16 vk ++ [0x3B] ++ number16 sc ++ [0x3B] ++ number16 uc ++ [0x3B] ++ number16 kd ++ [0x3B]
  ++ number16 cs ++ [0x3B] ++ number16 rc ++ [0x5F].

(** ** Control keys *)
Definition _trackControlKeyState (key : KeyEventRecord) (t : TerminalInput) : TerminalInput * Z :=
  let t := set_previousControlKeyState (_lastControlKeyState t) t in
  let pressedKeyState := Z.ldiff (dwControlKeyState key) (_lastControlKeyState t) in
  let rightAltDown := bKeyDown key && (wVirtualKeyCode key =? VK.MENU) && WI_IsFlagSet (dwControlKeyState key) ENHANCED_KEY in
  let last := WI_ClearFlagIf (dwControlKeyState key) RIGHT_ALT_PRESSED
                (WI_IsFlagSet pressedKeyState RIGHT_ALT_PRESSED && negb rightAltDown) in
  (set_lastControlKeyState last t, last).

Definition _controlKeyStateFromVirtualKey (vk controlKeyState : Z) : Z :=
  let enhanced := WI_IsFlagSet controlKeyState ENHANCED_KEY in
  switch vk
    [(VK.SHIFT, SHIFT_PRESSED); (VK.LSHIFT, SHIFT_PRESSED); (VK.RSHIFT, SHIFT_PRESSED);
     (VK.CONTROL, if enhanced then RIGHT_CTRL_PRESSED else LEFT_CTRL_PRESSED);
     (VK.LCONTROL, LEFT_CTRL_PRESSED); (VK.RCONTROL, RIGHT_CTRL_PRESSED);
     (VK.MENU, if enhanced then RIGHT_ALT_PRESSED else LEFT_ALT_PRESSED);
     (VK.LMENU, LEFT_ALT_PRESSED); (VK.RMENU, RIGHT_ALT_PRESSED)]
    0.

(** ** Functional keys of the kitty protocol

    The entries of the table are the low bytes of code points from U+E000 on. *)
Definition kitty_lut : list (Z * Z) :=
  [(VK.CAPITAL, u8 57358); (VK.SCROLL, u8 57359); (VK.NUMLOCK, u8 57360); (VK.SNAPSHOT, u8 57361);
   (VK.PAUSE, u8 57362); (VK.APPS, u8 57363); (VK.F1, KittyKeyCodeLegacySentinel); (VK.F2, KittyKeyCodeLegacySentinel);
   (VK.F3, KittyKeyCodeLegacySentinel); (VK.F4, KittyKeyCodeLegacySentinel); (VK.F5, KittyKeyCodeLegacySentinel); (VK.F6, KittyKeyCodeLegacySentinel);
   (VK.F7, KittyKeyCodeLegacySentinel); (VK.F8, KittyKeyCodeLegacySentinel); (VK.F9, KittyKeyCodeLegacySentinel); (VK.F10, KittyKeyCodeLegacySentinel);
   (VK.F11, KittyKeyCodeLegacySentinel); (VK.F12, KittyKeyCodeLegacySentinel); (VK.F13, u8 57376); (VK.F14, u8 57377);
   (VK.F15, u8 57378); (VK.F16, u8 57379); (VK.F17, u8 57380); (VK.F18, u8 57381);
   (VK.F19, u8 57382); (VK.F20, u8 57383); (VK.F21, u8 57384); (VK.F22, u8 57385);
   (VK.F23, u8 57386); (VK.F24, u8 57387); (VK.NUMPAD0, u8 57399); (VK.NUMPAD1, u8 57400);
   (VK.NUMPAD2, u8 57401); (VK.NUMPAD3, u8 57402); (VK.NUMPAD4, u8 57403); (VK.NUMPAD5, u8 57404);
   (VK.NUMPAD6, u8 57405); (VK.NUMPAD7, u8 57406); (VK.NUMPAD8, u8 57407); (VK.NUMPAD9, u8 57408);
   (VK.DECIMAL, u8 57409); (VK.DIVIDE, u8 57410); (VK.MULTIPLY, u8 57411); (VK.SUBTRACT, u8 57412);
   (VK.ADD, u8 57413); (VK.RETURN, u8 57414); (VK.SEPARATOR, u8 57416); (VK.LEFT, u8 57417);
   (VK.RIGHT, u8 57418); (VK.UP, u8 57419); (VK.DOWN, u8 57420); (VK.PRIOR, u8 57421);
   (VK.NEXT, u8 57422); (VK.HOME, u8 57423); (VK.END, u8 57424); (VK.INSERT, u8 57425);
   (VK.DELETE, u8 57426); (VK.CLEAR, KittyKeyCodeLegacySentinel); (VK.MEDIA_PLAY_PAUSE, u8 57430); (VK.MEDIA_STOP, u8 57432);
   (VK.MEDIA_NEXT_TRACK, u8 57435); (VK.MEDIA_PREV_TRACK, u8 57436); (VK.VOLUME_DOWN, u8 57438); (VK.VOLUME_UP, u8 57439);
   (VK.VOLUME_MUTE, u8 57440); (VK.LSHIFT, u8 57441); (VK.LCONTROL, u8 57442); (VK.LMENU, u8 57443);
   (VK.LWIN, u8 57444); (VK.RSHIFT, u8 57447); (VK.RCONTROL, u8 57448); (VK.RMENU, u8 57449);
   (VK.RWIN, u8 57450)].

(** A key that is set more than once would have the last value; none is. *)
Definition lut_at (vkey : Z) : Z := switch vkey kitty_lut 0.

Definition enhanced_keys : list Z :=
  [VK.LEFT; VK.RIGHT; VK.UP; VK.DOWN; VK.PRIOR; VK.NEXT; VK.HOME; VK.END; VK.INSERT; VK.DELETE].

Definition functional_from_lut (vkey : Z) : Z :=
  let v := lut_at (Z.land vkey 0xff) in
  if v <=? KittyKeyCodeLegacySentinel then v else 0xE000 + v.

Definition _getKittyFunctionalKeyCode (vkey scanCode : Z) (enhanced : bool) : Z :=
  if vkey =? VK.ESCAPE then 27
  else if vkey =? VK.RETURN then (if enhanced then 57414 else 13)
  else if vkey =? VK.TAB then 9
  else if vkey =? VK.BACK then 127
  else if bool_decide (vkey ∈ enhanced_keys) && enhanced then KittyKeyCodeLegacySentinel
  else if vkey =? VK.SHIFT then functional_from_lut (if scanCode =? 0x36 then VK.RSHIFT else VK.LSHIFT)
  else if vkey =? VK.CONTROL then functional_from_lut (if enhanced then VK.RCONTROL else VK.LCONTROL)
  else if vkey =? VK.MENU then functional_from_lut (if enhanced then VK.RMENU else VK.LMENU)
  else functional_from_lut vkey.

(** ** The keyboard layout

    [ToUnicodeEx us vkey state] is what the call returns and stores for the active
    layout, or for the US layout: as many code units as it reports, none if it
    reports a dead key. [LCMapLower] is [LCMapStringEx] for lower case,
    [loadUSLayout] says whether the US layout can be loaded, and
    [MapVirtualKeyExW] maps a scan code to a key of it, or to 0. *)
Class KeyboardLayout := {
  ToUnicodeEx : bool -> Z -> (Z -> Z) -> wstring;
  LCMapLower : wstring -> wstring;
  loadUSLayout : bool;
  MapVirtualKeyExW : Z -> Z;
}.

Section Layout.
Context `{!KeyboardLayout}.

Definition _codepointToLower (cp : Z) : Z :=
  if InvalidCodepoint <=? cp then cp
  else if cp <? 0x80 then tolower_ascii cp
  else asSingleCodepoint (LCMapLower (codepoint_units cp)).

(** [_keyboardState] as [ToUnicodeEx] sees it: every entry that is ever set is set
    anew by each call, and the key itself is only set during the call. *)
Definition keyboard_state (vkey controlKeyState i : Z) : Z :=
  let pressed flag := if WI_IsFlagSet controlKeyState flag then 0x80 else 0 in
  if i =? vkey then 0x80
  else switch i
    [(VK.SHIFT, pressed SHIFT_PRESSED);
     (VK.CONTROL, Z.lor (pressed LEFT_CTRL_PRESSED) (pressed RIGHT_CTRL_PRESSED));
     (VK.MENU, Z.lor (pressed LEFT_ALT_PRESSED) (pressed RIGHT_ALT_PRESSED));
     (VK.CAPITAL, if WI_IsFlagSet controlKeyState CAPSLOCK_ON then 0x01 else 0);
     (VK.LSHIFT, pressed SHIFT_PRESSED);
     (VK.LCONTROL, pressed LEFT_CTRL_PRESSED); (VK.RCONTROL, pressed RIGHT_CTRL_PRESSED);
     (VK.LMENU, pressed LEFT_ALT_PRESSED); (VK.RMENU, pressed RIGHT_ALT_PRESSED)]
    0.

Definition getKeyboardKey (vkey controlKeyState : Z) (us : bool) : Z :=
  let vkey := Z.land vkey 0xff in
  asSingleCodepoint (ToUnicodeEx us vkey (keyboard_state vkey controlKeyState)).

Definition getKeyboardKeyHelper (key : SanitizedKeyEvent) (removeFlags addFlags : Z) : Z :=
  let controlKeyState := Z.lor (Z.ldiff (controlKeyState key) removeFlags) addFlags in
  let controlKeyState := if altGrPressed key then Z.lor controlKeyState (Z.lor LEFT_CTRL_PRESSED RIGHT_ALT_PRESSED) else controlKeyState in
  getKeyboardKey (virtualKey key) controlKeyState false.

Definition ALT_CTRL : Z := Z.lor ALT_PRESSED CTRL_PRESSED.

Definition getUnmodifiedKeyboardKey (key : SanitizedKeyEvent) : Z := getKeyboardKeyHelper key ALT_CTRL 0.
Definition getKittyBaseKey (key : SanitizedKeyEvent) : Z :=
  _codepointToLower (getKeyboardKeyHelper key (Z.lor (Z.lor ALT_CTRL SHIFT_PRESSED) CAPSLOCK_ON) 0).
Definition getKittyShiftedKey (key : SanitizedKeyEvent) : Z :=
  getKeyboardKeyHelper key (Z.lor ALT_CTRL CAPSLOCK_ON) SHIFT_PRESSED.

Definition getKittyUSBaseKey (key : SanitizedKeyEvent) : Z :=
  if negb loadUSLayout then InvalidCodepoint
  else
    let vkey := MapVirtualKeyExW (scanCode key) in
    if vkey =? 0 then InvalidCodepoint
    else
      let keyCode := _getKittyFunctionalKeyCode vkey (scanCode key) (WI_IsFlagSet (controlKeyState key) ENHANCED_KEY) in
      if keyCode =? KittyKeyCodeLegacySentinel then InvalidCodepoint
      else if keyCode =? 0 then
        _codepointToLower (getKeyboardKey vkey (Z.ldiff (controlKeyState key) (Z.lor (Z.lor ALT_CTRL SHIFT_PRESSED) CAPSLOCK_ON)) true)
      else keyCode.

(** ** Kitty encoding *)
Definition isKittyFunctionalKey (cp : Z) : bool :=
  ((KittyKeyCodeLegacySentinel <? cp) && (cp <=? 0x1f)) || ((0x7f <=? cp) && (cp <=? 0x9f)) || ((0xE000 <=? cp) && (cp <=? 0xF8FF)).
Definition isKittyValidText (cp : Z) : bool := ((0x1f <? cp) && (cp <? 0x7f)) || ((0x9f <? cp) && (cp <? InvalidCodepoint)).
Definition isTextKey (fk : Z) : bool := fk =? KittyKeyCodeTextSentinel.
Definition isNonLegacyFunctionalKey (fk : Z) : bool := KittyKeyCodeLegacySentinel <? fk.

Definition csi_u (code : Z) (enc : EncodingHelper) : EncodingHelper := with_csiFinal 0x75 (with_csiUnicodeKeyCode code enc).

(** One step per flag of the protocol. *)
Definition kitty_disambiguate (flags functionalKeyCode : Z) (enc : EncodingHelper) : EncodingHelper :=
  if WI_IsFlagSet flags Kitty.DisambiguateEscapeCodes && isNonLegacyFunctionalKey functionalKeyCode &&
     ((functionalKeyCode =? 27) || ((functionalKeyCode <=? 127) && negb (csiModifier enc =? 0)) ||
      ((57399 <=? functionalKeyCode) && (functionalKeyCode <=? 57427)))
  then csi_u functionalKeyCode enc else enc.

Definition kitty_eventType (flags : Z) (key : SanitizedKeyEvent) (enc : EncodingHelper) : EncodingHelper :=
  if WI_IsFlagSet flags Kitty.ReportEventTypes then
    if negb (keyDown key) then with_csiEventType 3 enc
    else if keyRepeat key then with_csiEventType 2 enc
    else enc
  else enc.

Definition kitty_allKeys (flags functionalKeyCode : Z) (key : SanitizedKeyEvent) (enc : EncodingHelper) : EncodingHelper :=
  if WI_IsFlagSet flags Kitty.ReportAllKeysAsEscapeCodes ||
     (WI_IsFlagSet flags Kitty.DisambiguateEscapeCodes && isTextKey functionalKeyCode && (CSI_SHIFT <? csiModifier enc)) ||
     (csiEventType enc =? 3)
  then
    let enc :=
      if isKittyFunctionalKey functionalKeyCode then csi_u functionalKeyCode enc
      else if isTextKey functionalKeyCode then
        let cp := getKittyBaseKey key in
        if cp <? InvalidCodepoint then csi_u cp enc else enc
      else enc in
    if WI_IsFlagSet flags Kitty.ReportAssociatedText && negb (csiEventType enc =? 3) && isKittyValidText (codepoint key)
    then with_csiTextAsCodepoint (codepoint key) enc else enc
  else enc.

Definition kitty_alternateKeys (flags functionalKeyCode : Z) (key : SanitizedKeyEvent) (enc : EncodingHelper) : EncodingHelper :=
  if WI_IsFlagSet flags Kitty.ReportAlternateKeys && negb (csiUnicodeKeyCode enc =? 0) then
    let enc :=
      if isTextKey functionalKeyCode && shiftPressed key then
        let cp := getKittyShiftedKey key in
        if cp <? InvalidCodepoint then with_csiAltKeyCodeShifted cp enc else enc
      else enc in
    if negb (scanCode key =? 0) then
      let cp := getKittyUSBaseKey key in
      if (cp <? InvalidCodepoint) && negb (cp =? csiUnicodeKeyCode enc) then with_csiAltKeyCodeBase cp enc else enc
    else enc
  else enc.

Definition kitty_locks (flags : Z) (key : SanitizedKeyEvent) (enc : EncodingHelper) : EncodingHelper :=
  if isKittyFunctionalKey (csiUnicodeKeyCode enc) || WI_IsFlagSet flags Kitty.ReportAllKeysAsEscapeCodes then
    let modifier := WI_SetFlagIf (csiModifier enc) 64 (WI_IsFlagSet (controlKeyState key) CAPSLOCK_ON) in
    with_csiModifier (WI_SetFlagIf modifier 128 (WI_IsFlagSet (controlKeyState key) NUMLOCK_ON)) enc
  else enc.

(** The encoding is complete if it has a final character. *)
Definition _encodeKitty (flags : Z) (key : SanitizedKeyEvent) (enc : EncodingHelper) : EncodingHelper * bool :=
  let functionalKeyCode :=
    _getKittyFunctionalKeyCode (virtualKey key) (scanCode key) (WI_IsFlagSet (controlKeyState key) ENHANCED_KEY) in
  let enc := kitty_disambiguate flags functionalKeyCode enc in
  let enc := kitty_eventType flags key enc in
  let enc := kitty_allKeys flags functionalKeyCode key enc in
  let enc := kitty_alternateKeys flags functionalKeyCode key enc in
  let enc := kitty_locks flags key enc in
  (enc, negb (csiFinal enc =? 0)).
End Layout.

(** ** Classic encodings *)
Section Regular.
(** [Feature_KeypadModeEnabled] is set per build. *)
Context (Feature_KeypadModeEnabled : bool) (t : TerminalInput).
Implicit Types (key : SanitizedKeyEvent) (enc : EncodingHelper).

Definition esc (s : string) : wstring := ESC_ :: wide s.

(** A key that is a CSI sequence, or an SS3 sequence, with the same final. *)
Definition csi_or_ss3 (csi : bool) (final : wchar) (enc : EncodingHelper) : EncodingHelper :=
  if csi then with_csiFinal final enc else with_ss3Final final enc.

Definition decfnk (code : Z) (enc : EncodingHelper) : EncodingHelper := with_csiUnicodeKeyCode code (with_csiFinal 0x7E enc).

Definition ansi : bool := test_mode t Mode.Ansi.
Definition keypad_mode : bool := Feature_KeypadModeEnabled && test_mode t Mode.Keypad.

Definition kitty_active : bool :=
  WI_IsAnyFlagSet (_kittyFlags t)
    (Z.lor (Z.lor Kitty.DisambiguateEscapeCodes Kitty.ReportEventTypes) Kitty.ReportAllKeysAsEscapeCodes).

Definition encode_back key enc : EncodingHelper :=
  with_plain (if bool_decide (ctrlPressed key = test_mode t Mode.BackarrowKey) then [0x7F] else [0x08]) (with_altPrefix true enc).

Definition encode_tab key enc : EncodingHelper :=
  with_plain (if negb (shiftPressed key) then [0x09]
              else if test_mode t Mode.SendC1 then [0x9B; 0x5A] else esc "[Z") (with_altPrefix true enc).

Definition encode_return (enhanced : bool) key enc : EncodingHelper :=
  let enc := with_altPrefix true enc in
  if keypad_mode && enhanced then (if ansi then with_ss3Final 0x4D enc else with_plain (esc "?M") enc)
  else if negb (ctrlPressed key) then with_plain (if test_mode t Mode.LineFeed then [0x0D; 0x0A] else [0x0D]) enc
  else with_plain [0x0A] enc.

Definition encode_f1_f4 (modified : bool) key enc : EncodingHelper :=
  let offset := virtualKey key - VK.F1 in
  if ansi then
    if kitty_active && (virtualKey key =? VK.F3) then decfnk 13 enc
    else csi_or_ss3 (kitty_active || modified) (0x50 + offset) enc
  else with_plain [ESC_; 0x50 + offset] enc.

Definition fkey_codes : list Z := [15; 17; 18; 19; 20; 21; 23; 24; 25; 26; 28; 29; 31; 32; 33; 34].

Definition encode_f5_f20 key enc : EncodingHelper :=
  if ansi then decfnk (nth (Z.to_nat (virtualKey key - VK.F5)) fkey_codes 0) enc
  else switch (virtualKey key)
         [(VK.F11, with_plain [ESC_] enc); (VK.F12, with_plain [0x08] enc); (VK.F13, with_plain [0x0A] enc)] enc.

(** Cursor keys, and Clear, Home and End, which differ in the final only. *)
Definition encode_cursor (modified : bool) (final : wchar) enc : EncodingHelper :=
  if ansi then csi_or_ss3 (kitty_active || modified || negb (test_mode t Mode.CursorKey)) final enc
  else with_plain [ESC_; final] enc.

Definition encode_editing (code : Z) enc : EncodingHelper := if ansi then decfnk code enc else enc.

Definition encode_keypad (final : wchar) enc : EncodingHelper :=
  if keypad_mode then (if ansi then with_ss3Final final enc else with_plain [ESC_; 0x3F; final] enc) else enc.

Definition in_range (low high z : Z) : bool := (low <=? z) && (z <=? high).

Definition _encodeRegular key enc : EncodingHelper :=
  let modified := negb (csiModifier enc =? 0) in
  let enhanced := WI_IsFlagSet (controlKeyState key) ENHANCED_KEY in
  let vk := virtualKey key in
  if vk =? VK.BACK then encode_back key enc
  else if vk =? VK.TAB then encode_tab key enc
  else if vk =? VK.RETURN then encode_return enhanced key enc
  else if vk =? VK.PAUSE then with_plain [0x1A] enc
  else if in_range VK.F1 VK.F4 vk then encode_f1_f4 modified key enc
  else if in_range VK.F5 VK.F20 vk then encode_f5_f20 key enc
  else if in_range VK.LEFT VK.DOWN vk then
    encode_cursor modified (nth (Z.to_nat (vk - VK.LEFT)) [0x44; 0x41; 0x43; 0x42] 0) enc
  else if vk =? VK.CLEAR then encode_cursor modified 0x45 enc
  else if vk =? VK.HOME then encode_cursor modified 0x48 enc
  else if vk =? VK.END then encode_cursor modified 0x46 enc
  else if in_range VK.INSERT VK.DELETE vk then encode_editing (2 + (vk - VK.INSERT)) enc
  else if in_range VK.PRIOR VK.NEXT vk then encode_editing (5 + (vk - VK.PRIOR)) enc
  else if in_range VK.NUMPAD0 VK.NUMPAD9 vk then encode_keypad (0x70 + (vk - VK.NUMPAD0)) enc
  else if in_range VK.MULTIPLY VK.DIVIDE vk then encode_keypad (0x6A + (vk - VK.MULTIPLY)) enc
  else enc.

(** ** Putting a sequence together *)

(** [fmt::format] of a [uint32_t]. *)
Definition number32 (v : Z) : wstring := decimal 10 v.
Definition when_nonzero (v : Z) (s : wstring) : wstring := if v =? 0 then [] else s.

(** The modifier parameter is one more than the flags. *)
Definition finish_modifier enc : EncodingHelper :=
  if negb (csiModifier enc =? 0) || negb (csiEventType enc =? 0)
  then with_csiUnicodeKeyCode (Z.max (csiUnicodeKeyCode enc) 1) (with_csiModifier (u32 (csiModifier enc + 1)) enc)
  else enc.

Definition format_csi enc : wstring :=
  let enc := finish_modifier enc in
  let alternates :=
    if negb (csiAltKeyCodeShifted enc =? 0) || negb (csiAltKeyCodeBase enc =? 0) then
      [0x3A] ++ when_nonzero (csiAltKeyCodeShifted enc) (number32 (csiAltKeyCodeShifted enc))
             ++ when_nonzero (csiAltKeyCodeBase enc) (0x3A :: number32 (csiAltKeyCodeBase enc))
    else [] in
  let rest :=
    if negb (csiModifier enc =? 0) || negb (csiTextAsCodepoint enc =? 0) then
      [0x3B] ++ when_nonzero (csiModifier enc)
                  (number32 (csiModifier enc) ++ when_nonzero (csiEventType enc) (0x3A :: number32 (csiEventType enc)))
             ++ when_nonzero (csiTextAsCodepoint enc) (0x3B :: number32 (csiTextAsCodepoint enc))
    else [] in
  _csi t ++ when_nonzero (csiUnicodeKeyCode enc) (number32 (csiUnicodeKeyCode enc)) ++ alternates ++ rest ++ [csiFinal enc].

Definition _formatEncodingHelper enc key : wstring * bool :=
  let prefix := if altPrefix enc && altPressed key && ansi then [ESC_] else [] in
  if negb (csiFinal enc =? 0) then (prefix ++ format_csi enc, true)
  else if negb (ss3Final enc =? 0) then (prefix ++ _ss3 t ++ [ss3Final enc], true)
  else if bool_decide (plain enc <> []) then (prefix ++ plain enc, true)
  else (prefix, false).

(** Keys without a sequence of their own send their character. *)
Definition _formatFallback `{!KeyboardLayout} key (seq : wstring) : wstring :=
  if in_range VK.SHIFT VK.MENU (virtualKey key) then seq
  else
    let send (cp : Z) := (if altPressed key && ansi then seq ++ [ESC_] else seq) ++ codepoint_units cp in
    let ctrlSpaceKey := ctrlPressed key && (virtualKey key =? VK.SPACE) in
    if negb (codepoint key =? 0) && negb ctrlSpaceKey then
      send (if ctrlPressed key then _makeCtrlChar (codepoint key) else codepoint key)
    else if altPressed key || ctrlPressed key then
      let cp := getUnmodifiedKeyboardKey key in
      if InvalidCodepoint <=? cp then seq
      else if ctrlPressed key then
        let cp := _makeCtrlChar cp in
        send (if (0x20 <=? cp) && in_range 0x32 0x5A (virtualKey key) then _makeCtrlChar (virtualKey key) else cp)
      else send cp
    else seq.
End Regular.

(** ** HandleKey *)
Section HandleKey.
Context (Feature_KeypadModeEnabled : bool) `{!KeyboardLayout}.

Definition is_modifier_key (vk : Z) : bool := in_range VK.SHIFT VK.MENU vk || in_range VK.LSHIFT VK.RMENU vk.

(** Whether this is an auto-repeat; key releases forget the last key. *)
Definition track_repeat (vk controlKeyState : Z) (keyDown : bool) (t : TerminalInput) : TerminalInput * bool :=
  if keyDown then
    let flags := _controlKeyStateFromVirtualKey vk controlKeyState in
    if negb (flags =? 0) then (t, WI_IsAnyFlagSet (_previousControlKeyState t) flags)
    else (set_lastVirtualKeyCode (Some vk) t, bool_decide (_lastVirtualKeyCode t = Some vk))
  else (set_lastVirtualKeyCode None t, false).

(** The early returns for key releases. *)
Definition key_up_output (t : TerminalInput) (vk codepoint controlKeyState : Z) : option wstring :=
  if WI_IsFlagSet controlKeyState NUMLOCK_ON && (vk =? VK.MENU) && negb (codepoint =? 0) then Some (_makeCharOutput codepoint)
  else if WI_IsFlagClear (_kittyFlags t) Kitty.ReportEventTypes then Some _makeNoOutput
  else if WI_IsFlagClear (_kittyFlags t) Kitty.ReportAllKeysAsEscapeCodes &&
          ((vk =? VK.RETURN) || (vk =? VK.TAB) || (vk =? VK.BACK)) then Some _makeNoOutput
  else None.

Definition sanitize (t : TerminalInput) (vk scanCode codepoint controlKeyState : Z) (keyDown keyRepeat : bool) : SanitizedKeyEvent :=
  let leftCtrlIsReallyPressed :=
    WI_AreAllFlagsSet controlKeyState (Z.lor LEFT_CTRL_PRESSED RIGHT_ALT_PRESSED) &&
    (50 <? Z.max (_lastLeftCtrlTime t) (_lastRightAltTime t) - Z.min (_lastLeftCtrlTime t) (_lastRightAltTime t)) in
  let anyCtrlPressed := WI_IsAnyFlagSet controlKeyState CTRL_PRESSED in
  let bothCtrlPressed := WI_AreAllFlagsSet controlKeyState CTRL_PRESSED in
  let anyAltPressed := WI_IsAnyFlagSet controlKeyState ALT_PRESSED in
  let bothAltPressed := WI_AreAllFlagsSet controlKeyState ALT_PRESSED in
  let altGrPressed := anyAltPressed && anyCtrlPressed && ((0x20 <? codepoint) && negb (codepoint =? 0x7f)) in
  mkKey vk scanCode codepoint controlKeyState keyDown keyRepeat altGrPressed
    (bothCtrlPressed || (anyCtrlPressed && negb altGrPressed) || leftCtrlIsReallyPressed)
    (bothAltPressed || (anyAltPressed && negb altGrPressed))
    (WI_IsFlagSet controlKeyState SHIFT_PRESSED).

(** The encoding starts from the modifiers. *)
Definition start_encoding (key : SanitizedKeyEvent) : EncodingHelper :=
  let modifier := WI_SetFlagIf 0 CSI_CTRL (ctrlPressed key) in
  let modifier := WI_SetFlagIf modifier CSI_ALT (altPressed key) in
  with_csiModifier (WI_SetFlagIf modifier CSI_SHIFT (shiftPressed key)) new_Encoding.

Definition encode_key (t : TerminalInput) (key : SanitizedKeyEvent) : wstring :=
  let enc := start_encoding key in
  let enc :=
    if _kittyFlags t =? 0 then _encodeRegular Feature_KeypadModeEnabled t key enc
    else let '(enc, complete) := _encodeKitty (_kittyFlags t) key enc in
         if complete then enc else _encodeRegular Feature_KeypadModeEnabled t key enc in
  let '(seq, done) := _formatEncodingHelper t enc key in
  if done then seq else _formatFallback t key seq.

Definition HandleKeyEvent (k : KeyEventRecord) (t : TerminalInput) : TerminalInput * option wstring :=
  if test_mode t Mode.Win32 && negb (_forceDisableWin32InputMode t) && (_kittyFlags t =? 0)
  then (t, Some (_makeWin32Output t k))
  else
    let '(t, controlKeyState) := _trackControlKeyState k t in
    if is_leading_surrogate (UnicodeChar k) then (set_leadingSurrogate (UnicodeChar k) t, Some _makeNoOutput)
    else
      let codepoint :=
        if negb (_leadingSurrogate t =? 0) && is_trailing_surrogate (UnicodeChar k)
        then combine_surrogates (_leadingSurrogate t) (UnicodeChar k) else UnicodeChar k in
      let t := set_leadingSurrogate 0 t in
      let vk := wVirtualKeyCode k in
      if bKeyDown k && ((vk =? VK.PACKET) || (vk =? 0)) then (t, Some (_makeCharOutput codepoint))
      else if bKeyDown k && in_range VK.NUMPAD0 VK.NUMPAD9 vk &&
              ((controlKeyState =? LEFT_ALT_PRESSED) || (controlKeyState =? RIGHT_ALT_PRESSED)) then (t, Some _makeNoOutput)
      else
        let '(t, keyRepeat) := track_repeat vk controlKeyState (bKeyDown k) t in
        if keyRepeat && (is_modifier_key vk || negb (test_mode t Mode.AutoRepeat)) then (t, Some _makeNoOutput)
        else
          match (if bKeyDown k then None else key_up_output t vk codepoint controlKeyState) with
          | Some output => (t, Some output)
          | None =>
            (t, Some (encode_key t (sanitize t vk (wVirtualScanCode k) codepoint controlKeyState (bKeyDown k) keyRepeat)))
          end.

(** Other events are not handled. *)
Definition HandleKey (event : INPUT_RECORD) (t : TerminalInput) : TerminalInput * option wstring :=
  match event with
  | KEY_EVENT k => HandleKeyEvent k t
  | _ => (t, None)
  end.
End HandleKey.

Definition HandleFocus (focused : bool) (t : TerminalInput) : option wstring :=
  if test_mode t Mode.FocusEvent then Some (if focused then _focusInSequence t else _focusOutSequence t) else None.

(** ** Mouse input

    Models src/terminal/input/mouseInput.cpp: which mouse events a terminal
    reports, and the default, UTF-8 and SGR encodings of the reports. *)

Definition s_MaxDefaultCoordinate : Z := 94.
Definition SHORT_MAX : Z := 0x7fff.

Record MouseButtonState := mkMouseButtonState {
  isLeftButtonDown : bool;
  isMiddleButtonDown : bool;
  isRightButtonDown : bool;
}.

Definition _isButtonMsg (button : Z) : bool :=
  bool_decide (button ∈ [WM.LBUTTONDBLCLK; WM.LBUTTONDOWN; WM.LBUTTONUP; WM.MBUTTONUP; WM.RBUTTONUP; WM.RBUTTONDOWN;
                         WM.RBUTTONDBLCLK; WM.MBUTTONDOWN; WM.MBUTTONDBLCLK; WM.MOUSEWHEEL; WM.MOUSEHWHEEL]).
Definition _isHoverMsg (buttonCode : Z) : bool := buttonCode =? WM.MOUSEMOVE.
Definition _isWheelMsg (buttonCode : Z) : bool := (buttonCode =? WM.MOUSEWHEEL) || (buttonCode =? WM.MOUSEHWHEEL).
Definition _isButtonUp (button : Z) : bool :=
  bool_decide (button ∈ [WM.LBUTTONUP; WM.RBUTTONUP; WM.MBUTTONUP; WM.XBUTTONUP]).

Definition s_GetPressedButton (state : MouseButtonState) : Z :=
  if isLeftButtonDown state then WM.LBUTTONDOWN
  else if isMiddleButtonDown state then WM.MBUTTONDOWN
  else if isRightButtonDown state then WM.RBUTTONDOWN
  else WM.LBUTTONUP.

(** The end of both encodings: motion and modifiers. *)
Definition with_motion_and_modifiers (xvalue : Z) (isHover : bool) (modifierKeyState : Z) : Z :=
  let xvalue := if isHover then xvalue + 0x20 else xvalue in
  let xvalue := WI_UpdateFlag xvalue 0x04 (WI_IsAnyFlagSet modifierKeyState SHIFT_PRESSED) in
  let xvalue := WI_UpdateFlag xvalue 0x08 (WI_IsAnyFlagSet modifierKeyState ALT_PRESSED) in
  WI_UpdateFlag xvalue 0x10 (WI_IsAnyFlagSet modifierKeyState CTRL_PRESSED).

Definition _windowsButtonToXEncoding (button : Z) (isHover : bool) (modifierKeyState delta : Z) : wchar :=
  let xvalue :=
    switch button
      [(WM.LBUTTONDBLCLK, 0); (WM.LBUTTONDOWN, 0); (WM.LBUTTONUP, 3); (WM.MBUTTONUP, 3); (WM.RBUTTONUP, 3);
       (WM.RBUTTONDOWN, 2); (WM.RBUTTONDBLCLK, 2); (WM.MBUTTONDOWN, 1); (WM.MBUTTONDBLCLK, 1);
       (WM.MOUSEWHEEL, if 0 <? delta then 0x40 else 0x41); (WM.MOUSEHWHEEL, if 0 <? delta then 0x43 else 0x42)]
      0 in
  u16 (0x20 + with_motion_and_modifiers xvalue isHover modifierKeyState).

Definition _windowsButtonToSGREncoding (button : Z) (isHover : bool) (modifierKeyState delta : Z) : Z :=
  let xvalue :=
    switch button
      [(WM.LBUTTONDBLCLK, 0); (WM.LBUTTONDOWN, 0); (WM.LBUTTONUP, 0);
       (WM.RBUTTONUP, 2); (WM.RBUTTONDOWN, 2); (WM.RBUTTONDBLCLK, 2);
       (WM.MBUTTONUP, 1); (WM.MBUTTONDOWN, 1); (WM.MBUTTONDBLCLK, 1); (WM.MOUSEMOVE, 3);
       (WM.MOUSEWHEEL, if 0 <? delta then 0x40 else 0x41); (WM.MOUSEHWHEEL, if 0 <? delta then 0x43 else 0x42)]
      0 in
  with_motion_and_modifiers xvalue isHover modifierKeyState.

Definition _winToVTCoord (position : Z * Z) : Z * Z := (position.1 + 1, position.2 + 1).
Definition _encodeDefaultCoordinate (coordinate : Z) : wchar := u16 (coordinate + 32).

(** [fmt::format] of an [int]. *)
Definition number_int (v : Z) : wstring := if v <? 0 then 0x2D :: decimal 10 (- v) else decimal 10 v.

Section Mouse.
Implicit Types t : TerminalInput.

Definition IsTrackingMouseInput t : bool := enumset.any_of (_inputMode t) tracking_modes.

Definition ShouldSendAlternateScroll (button delta : Z) t : bool :=
  _inAlternateBuffer t && test_mode t Mode.AlternateScroll && (_isWheelMsg button && negb (delta =? 0)).

(** The body that the default and the UTF-8 encoding share. *)
Definition x10_sequence t (position : Z * Z) (button : Z) (isHover : bool) (modifierKeyState delta : Z) : wstring :=
  let vtCoords := _winToVTCoord position in
  _csi t ++ [0x4D; _windowsButtonToXEncoding button isHover modifierKeyState delta;
             _encodeDefaultCoordinate vtCoords.1; _encodeDefaultCoordinate vtCoords.2].

Definition _GenerateDefaultSequence t (position : Z * Z) (button : Z) (isHover : bool) (modifierKeyState delta : Z) : option wstring :=
  if (position.1 <=? s_MaxDefaultCoordinate) && (position.2 <=? s_MaxDefaultCoordinate)
  then Some (x10_sequence t position button isHover modifierKeyState delta) else None.

Definition _GenerateUtf8Sequence t (position : Z * Z) (button : Z) (isHover : bool) (modifierKeyState delta : Z) : option wstring :=
  if (position.1 <=? SHORT_MAX - 33) && (position.2 <=? SHORT_MAX - 33)
  then Some (x10_sequence t position button isHover modifierKeyState delta) else None.

Definition _GenerateSGRSequence t (position : Z * Z) (button : Z) (isRelease isHover : bool) (modifierKeyState delta : Z) : option wstring :=
  let xbutton := _windowsButtonToSGREncoding button isHover modifierKeyState delta in
  Some (_csi t ++ [0x3C] ++ number_int xbutton ++ [0x3B] ++ number_int (position.1 + 1) ++ [0x3B] ++ number_int (position.2 + 1)
        ++ [if isRelease then 0x6D else 0x4D]).

(** Scrolling sends cursor keys; the key event is all zero but for its key. *)
Definition _makeAlternateScrollOutput (Feature_KeypadModeEnabled : bool) t (button delta : Z) : option wstring :=
  let output vkey :=
    let key := mkKey vkey 0 0 0 false false false false false false in
    Some (_formatEncodingHelper t (_encodeRegular Feature_KeypadModeEnabled t key new_Encoding) key).1 in
  if button =? WM.MOUSEWHEEL then output (if 0 <? delta then VK.UP else VK.DOWN)
  else if button =? WM.MOUSEHWHEEL then output (if 0 <? delta then VK.RIGHT else VK.LEFT)
  else None.

Definition set_accumulatedDelta (delta : Z) t : TerminalInput :=
  let m := _mouseInputState t in set_mouseInputState (mkMouseInputState (lastPos m) (lastButton m) delta) t.

Definition set_lastMouse (position : Z * Z) (button : Z) t : TerminalInput :=
  set_mouseInputState (mkMouseInputState position button (accumulatedDelta (_mouseInputState t))) t.

(** The wheel: the delta accumulates until it makes a line. [true] stands for an
    event that goes on to be reported. *)
Definition accumulate_wheel (button delta : Z) t : TerminalInput * bool :=
  let t := if Z.sgn delta =? Z.sgn (accumulatedDelta (_mouseInputState t)) then t else set_accumulatedDelta 0 t in
  if _isWheelMsg button then
    let accumulated := accumulatedDelta (_mouseInputState t) + delta in
    if Z.abs accumulated <? WHEEL_DELTA then (set_accumulatedDelta accumulated t, false)
    else (set_accumulatedDelta 0 t, true)
  else (t, true).

(** Whether the event is one that the selected tracking mode reports. *)
Definition is_reported (position : Z * Z) (button realButton : Z) t : bool :=
  let isHover := _isHoverMsg button in
  let m := _mouseInputState t in
  let sameCoord := (position.1 =? (lastPos m).1) && (position.2 =? (lastPos m).2) && (lastButton m =? button) in
  let physicalButtonPressed := negb (realButton =? WM.LBUTTONUP) in
  _isButtonMsg button
  || (isHover && test_mode t Mode.ButtonEventMouseTracking && (negb sameCoord && physicalButtonPressed))
  || (isHover && test_mode t Mode.AnyEventMouseTracking && negb sameCoord).

Definition report_mouse (position : Z * Z) (button realButton modifierKeyState delta : Z) t : TerminalInput * option wstring :=
  let isHover := _isHoverMsg button in
  let physicalButtonPressed := negb (realButton =? WM.LBUTTONUP) in
  let t := if enumset.any_of (_inputMode t) [Mode.ButtonEventMouseTracking; Mode.AnyEventMouseTracking]
           then set_lastMouse position button t else t in
  (t, if test_mode t Mode.Utf8MouseEncoding then _GenerateUtf8Sequence t position realButton isHover modifierKeyState delta
      else if test_mode t Mode.SgrMouseEncoding then
        _GenerateSGRSequence t position (if physicalButtonPressed then realButton else button) (_isButtonUp button) isHover modifierKeyState delta
      else _GenerateDefaultSequence t position realButton isHover modifierKeyState delta).

Definition HandleMouse (Feature_KeypadModeEnabled : bool) (position : Z * Z) (button modifierKeyState delta : Z)
    (state : MouseButtonState) t : TerminalInput * option wstring :=
  let '(t, ready) := accumulate_wheel button delta t in
  if negb ready then
    (t, if IsTrackingMouseInput t || ShouldSendAlternateScroll button delta t then Some [] else None)
  else
    let realButton := if _isHoverMsg button then s_GetPressedButton state else button in
    if IsTrackingMouseInput t && is_reported position button realButton t
    then report_mouse position button realButton modifierKeyState delta t
    else (t, if ShouldSendAlternateScroll button delta t then _makeAlternateScrollOutput Feature_KeypadModeEnabled t button delta else None).
End Mouse.
