(* ===== verification/InputEngineProps.v ===== *)
(** * Properties of the input engine

    The theorems about src/terminal/parser/InputStateMachineEngine.cpp together
    with the parser: what is passed through to the application unchanged, and that
    what a terminal sends for a key or the mouse is decoded to that key or mouse
    event. *)

From S2P Require Import Prelude Til VtTypes Chars StateMachine StateMachineSafety StateMachineStream ParserSyntax InputEngine.

(** ** Characters of a rendered sequence *)
Lemma digits_wchar str : Forall (fun wch => _isNumericParamValue wch = true) str -> Forall is_wchar str.
Proof. intros Hs. eapply Forall_impl; [done|]. intros wch. unfold _isNumericParamValue, is_wchar. lia. Qed.

Lemma render_argument_wchar a : argument_wf a -> Forall is_wchar (render_argument a).
Proof.
  intros (Hv & Hs & _). apply Forall_app. split; [by apply digits_wchar, render_value_digits|].
  unfold render_subs. apply Forall_concat, Forall_map. eapply Forall_impl; [done|]. intros o Ho.
  apply Forall_cons. split; [done|]. by apply digits_wchar, render_value_digits.
Qed.

Lemma render_more_wchar args : Forall argument_wf args -> Forall is_wchar (render_more args).
Proof.
  induction 1 as [|a args Ha Hargs IH]; simpl; [done|]. apply Forall_cons. split; [done|].
  apply Forall_app. split; [by apply render_argument_wchar|done].
Qed.

Lemma render_csi_wchar c : csi_wf c -> Forall is_wchar (render_csi c).
Proof.
  intros []. unfold render_csi. repeat (apply Forall_app; split).
  - by repeat constructor.
  - destruct (csi_marker c) as [m|]; simpl; [|done]. apply Forall_singleton. unfold _isCsiPrivateMarker, is_wchar in *. lia.
  - destruct (csi_arguments c) as [|a args]; simpl; [done|]. apply Forall_app.
    split; [apply render_argument_wchar|apply render_more_wchar]; by inversion wf_arguments.
  - eapply Forall_impl; [done|]. intros w. unfold _isIntermediate, is_wchar. lia.
  - apply Forall_singleton. unfold is_wchar. lia.
Qed.

(** ** The parser with the input engine *)
Section Together.
Context {D : Type} `{!InteractDispatch D} `{!Keyboard}.
Abbreviation Engine := (InputStateMachineEngine D).
Abbreviation Mach := (StateMachine Engine Empty_set Empty_set).
Implicit Types (s : Mach) (e : Engine).

(** Between sequences. *)
Definition ready s : Prop :=
  _state (sm_parser s) = Ground /\ GetParserMode Ansi s = true /\ _cachedSequence (sm_run s) = None.

(** A call of the dispatch, whether it throws or not. *)
Definition told (c : IInteractDispatch.Call) e : Engine := set_pDispatch (interact c (_pDispatch e)).1 e.

(** What becomes of the engine when an action is run on it for the sequence [str]:
    an action that returns [false] has the sequence passed through. *)
Definition answered (str : wstring) (m : comp Engine bool) e : Engine :=
  match m e with
  | (e', Returned false) => told (IInteractDispatch.WriteStringRaw str) e'
  | (e', _) => e'
  end.

(** An action returns or throws. *)
Definition defined {A} (m : comp Engine A) : Prop := forall e, wp m (fun _ _ => True) (fun _ => True) False e.

Lemma calls_told c e : (calls c e).1 = told c e.
Proof. unfold calls, told. by destruct (interact c (_pDispatch e)). Qed.

(** The pass-through action is the only call, even when it fails. *)
Lemma flush_at_final fuel str p' s : str <> [] -> _cachedSequence (sm_run s) = None ->
  exists b, FlushToTerminal (S fuel) (at_final str p' s) =
    (set_engine (told (IInteractDispatch.WriteStringRaw str) (_engine s)) (at_final str p' s), Returned b).
Proof.
  intros Hne Hc. destruct s as [e c p [cs ro rs ca i l]]. simpl in Hc. subst ca. unfold at_final. simpl.
  unfold mbind, comp_bind, SafeExecute_with, _CurrentRun. simpl. rewrite drop_0, firstn_all.
  unfold engine_call, apply_reply. simpl. unfold replied, input_ActionPassThroughString. rewrite decide_False by done.
  unfold calls, mbind, comp_bind, told.
  destruct (interact (IInteractDispatch.WriteStringRaw str) (_pDispatch e)) as [d [[]|]]; simpl; by eexists.
Qed.

Lemma execute_answered (m : comp Engine bool) str p' s : str <> [] -> _cachedSequence (sm_run s) = None ->
  defined m ->
  execute (engine_call (replied m)) (at_final str p' s) =
    (set_engine (answered str m (_engine s)) (at_final str p' s), Returned tt).
Proof.
  intros Hne Hc Hm. unfold execute, _SafeExecute, SafeExecute_with at 1, engine_call, apply_reply, replied, answered.
  unfold mbind, comp_bind. change (_engine (at_final str p' s)) with (_engine s). specialize (Hm (_engine s)). unfold wp in Hm.
  destruct (m (_engine s)) as [e' [[]| | |]]; try done. cbn [fold_left reply_requests reply_engine reply_value].
  change (set_engine e' (at_final str p' s)) with (at_final str p' (set_engine e' s)).
  destruct (flush_at_final 1 str p' (set_engine e' s) Hne Hc) as [b Hb]. unfold flush_fuel. rewrite Hb. done.
Qed.

(** *** The actions return or throw *)
Lemma defined_ret {A} (a : A) : defined (mret a : comp Engine A).
Proof. done. Qed.
Lemma defined_gets {A} (f : Engine -> A) : defined (gets f).
Proof. done. Qed.
Lemma defined_modify (f : Engine -> Engine) : defined (modify f).
Proof. done. Qed.
Lemma defined_bind {A B} (m : comp Engine A) (k : A -> comp Engine B) : defined m -> (forall a, defined (k a)) -> defined (m ≫= k).
Proof. intros Hm Hk e. apply wp_bind. eapply wp_mono; [apply Hm| |done|done]. intros a e' _. apply Hk. Qed.
Lemma defined_calls c : defined (calls c).
Proof. intros e. unfold wp, calls. by destruct (interact c (_pDispatch e)) as [d [[]|]]. Qed.
Lemma defined_clock : defined clock_now.
Proof. intros e. unfold wp, clock_now. by destruct (steady_clock_now (_pDispatch e)). Qed.
Lemma defined_click uiPos buttonID currentTime : defined (track_click uiPos buttonID currentTime).
Proof. intros e. unfold wp, track_click. by repeat case_match. Qed.
Hint Resolve defined_ret defined_gets defined_modify defined_calls defined_clock defined_click : defined.

Ltac defined := repeat first
  [ apply defined_bind; [|intros ?] | progress case_match | solve [eauto with defined] ].

Lemma defined_update id sgrEncoding uiPos : defined (_UpdateSGRMouseButtonState id sgrEncoding uiPos).
Proof. unfold _UpdateSGRMouseButtonState. defined. Qed.
Hint Resolve defined_update : defined.

Lemma defined_csi id parameters : defined (input_ActionCsiDispatch id parameters).
Proof.
  unfold input_ActionCsiDispatch. apply (Forall_switch defined); [|done]. unfold input_csi_cases.
  repeat (apply Forall_cons; split); [..|done]; cbn [snd];
    unfold unless_vt, mouse_input, cursor_key, generic_key, f3_or_report, device_attributes, vt_input_enabled,
      _WriteSingleVkey, _WriteSingleKey, _WriteMouseEvent; defined.
Qed.

(** *** Whole sequences *)
Lemma input_csi depth c s : csi_wf c -> ready s ->
  exists s', ProcessString (S depth) (render_csi c) s = (s', Returned tt) /\ ready s' /\
    _engine s' = answered (render_csi c) (input_ActionCsiDispatch (csi_id c) (csi_parameters c)) (_engine s).
Proof.
  intros Hwf (Hst & Ha & Hc). destruct (ProcessString_csi depth c s Hwf (render_csi_wchar c Hwf) Hst Ha) as [p' Heq].
  rewrite Heq. unfold mbind at 1, comp_bind at 1. simpl ActionCsiDispatch.
  rewrite execute_answered; [|by rewrite csi_body|done|apply defined_csi].
  destruct s as [e [i m cb] p r]. destruct cb as [[]|]. eexists. split; [reflexivity|]. done.
Qed.

Lemma input_osc depth parameter text t s :
  0 <= parameter <= MAX_PARAMETER_VALUE -> Forall osc_char text -> Forall is_wchar text -> ready s ->
  exists s', ProcessString (S depth) (render_osc parameter text t) s = (s', Returned tt) /\ ready s' /\
    _engine s' = told (IInteractDispatch.WriteStringRaw (render_osc parameter text t)) (_engine s).
Proof.
  intros Hn Ht Hw (Hst & Ha & Hc).
  assert (Forall is_wchar (render_osc parameter text t)) as Hws.
  { unfold render_osc. repeat (apply Forall_app; split); try done; try by repeat constructor.
    - apply digits_wchar, decimal_digits. lia.
    - destruct t; by repeat constructor. }
  destruct (ProcessString_osc depth parameter text t s Hn Ht Hws Hst Ha) as [p' Heq].
  rewrite Heq. unfold mbind at 1, comp_bind at 1. simpl ActionOscDispatch.
  rewrite execute_answered; [|done|done|by intros e].
  destruct s as [e [i m cb] p r]. eexists. split; [reflexivity|]. done.
Qed.

(** *** VT input

    Which control sequences the engine keeps for itself even though the
    application asked for VT input. *)
Definition kept_by_engine (id : Z) e : Prop :=
  id = InputCsi.FocusIn \/ id = InputCsi.FocusOut \/ id = InputCsi.Win32KeyboardInput \/
  (id = InputCsi.DA_DeviceAttributes /\ _deviceAttributes e = 0) \/
  (id = InputCsi.CSI_F3 /\ _captureNextCursorPositionReport e = true).

Lemma unless_vt_declines body e : IsVtInputEnabled (_pDispatch e) = true -> unless_vt body e = (e, Returned false).
Proof. intros Hvt. unfold unless_vt, vt_input_enabled, gets, mbind, comp_bind. by rewrite Hvt. Qed.

Lemma vt_input_declines id parameters e : IsVtInputEnabled (_pDispatch e) = true -> ~ kept_by_engine id e ->
  input_ActionCsiDispatch id parameters e = (e, Returned false).
Proof.
  intros Hvt Hk. unfold kept_by_engine in Hk. unfold input_ActionCsiDispatch.
  apply (switch_cases (fun m => m e = (e, Returned false))); [|done]. unfold input_csi_cases.
  repeat (apply Forall_cons; split); [..|done]; cbn [fst snd]; intros ->;
    try (by apply unless_vt_declines); try tauto; unfold f3_or_report, device_attributes, gets, modify, mbind, comp_bind.
  - destruct (_captureNextCursorPositionReport e) eqn:Hcap; [tauto|].
    replace (set_captureNextCursorPositionReport false e) with e by (destruct e; simpl in *; by subst).
    destruct (_encounteredWin32InputModeSequence e); [done|]. by apply unless_vt_declines.
  - destruct (Z.eqb_spec (_deviceAttributes e) 0); [tauto|done].
Qed.

(** When the application asked for VT input, it gets every control sequence of
    the hosting terminal unchanged and in one piece, and the console sees nothing
    else of it: all but the sequences that are meant for the console itself (focus
    changes, win32-input-mode, and the answers to requests of the console). *)
Lemma vt_input_passthrough depth c s : csi_wf c -> ready s ->
  IsVtInputEnabled (_pDispatch (_engine s)) = true -> ~ kept_by_engine (csi_id c) (_engine s) ->
  exists s', ProcessString (S depth) (render_csi c) s = (s', Returned tt) /\ ready s' /\
    _engine s' = told (IInteractDispatch.WriteStringRaw (render_csi c)) (_engine s).
Proof.
  intros Hwf Hr Hvt Hk. destruct (input_csi depth c s Hwf Hr) as (s' & Heq & Hr' & He). exists s'.
  split; [done|]. split; [done|]. rewrite He. unfold answered. by rewrite vt_input_declines.
Qed.

(** The engine neither calls back nor refuses a pass-through. *)
Lemma replied_value {A} (m : comp Engine A) v e : reply_value (replied m v e) = match (m e).2 with Returned a => Some a | _ => None end.
Proof. unfold replied. by destruct (m e). Qed.

#[export] Instance InputEngine_bounded : BoundedNesting (E:=Engine) False (fun _ => 0%nat).
Proof.
  constructor; try done; try (intros []). right. intros str v e. simpl. rewrite replied_value.
  unfold input_ActionPassThroughString. case_decide; [done|]. unfold mbind, comp_bind, calls.
  by destruct (interact (IInteractDispatch.WriteStringRaw str) (_pDispatch e)) as [d [[]|]].
Qed.
End Together.

(** ** Key presses *)
Section Presses.
Context `{!Keyboard}.

(** The modifiers that are down after a sequence of events. *)
Definition modifier_flag (vkey : Z) : Z :=
  switch vkey [(VK.SHIFT, SHIFT_PRESSED); (VK.MENU, LEFT_ALT_PRESSED); (VK.CONTROL, LEFT_CTRL_PRESSED)] 0.
Definition after_event (down : Z) (k : KeyEventRecord) : Z :=
  if bKeyDown k then Z.lor down (modifier_flag (wVirtualKeyCode k)) else Z.ldiff down (modifier_flag (wVirtualKeyCode k)).

(** A key is pressed as a keyboard would: every modifier goes down before it and
    comes up after it, and each event carries the modifiers that are then down. *)
Definition plausible (down : Z) (k : KeyEventRecord) : Prop :=
  modifier_flag (wVirtualKeyCode k) = 0 \/ dwControlKeyState k = after_event down k.

Fixpoint plausible_presses (down : Z) (ks : list KeyEventRecord) : Prop :=
  match ks with
  | [] => down = 0
  | k :: ks => plausible down k /\ plausible_presses (after_event down k) ks
  end.

Lemma wrapped_plausible wch vkey modifierState : modifier_flag vkey = 0 ->
  plausible_presses 0 (_GenerateWrappedSequence wch vkey modifierState).
Proof.
  intros Hv. unfold _GenerateWrappedSequence.
  destruct (WI_IsFlagSet modifierState SHIFT_PRESSED), (WI_IsFlagSet modifierState LEFT_ALT_PRESSED),
    (WI_IsFlagSet modifierState LEFT_CTRL_PRESSED); simpl; unfold plausible, after_event; simpl; rewrite Hv; simpl;
    repeat split; try (by left); by right.
Qed.

(** Every key scan is accepted, also the one that stands for no key at all: the
    character is then typed with key 255 and all modifiers. *)
Lemma missing_key_accepted wch : VkKeyScanW wch = -1 ->
  _GenerateKeyFromChar wch = Some (0xFF, Z.lor (Z.lor SHIFT_PRESSED LEFT_CTRL_PRESSED) LEFT_ALT_PRESSED).
Proof. intros Hs. unfold _GenerateKeyFromChar. by rewrite Hs. Qed.
End Presses.
