(* ===== verification/TerminalInputProps.v ===== *)
(** * Properties of keyboard and mouse input

    What a terminal sends for keys and mouse events is what the input engine at the
    other end of the pipe decodes: the theorems compose src/terminal/input with the
    parser and src/terminal/parser/InputStateMachineEngine.cpp. *)

From S2P Require Import Prelude Til VtTypes Chars StateMachine StateMachineSafety StateMachineStream ParserSyntax InputEngine InputEngineProps TerminalInput.

(** ** A recording console

    An implementation of the interface behind the input engine that logs the
    calls it gets, as the mock of the engine's unit tests does, and a keyboard that
    names its keys by their codes. *)

Record Console := mkConsole { console_log : list IInteractDispatch.Call; vt_input : bool; console_time : Z }.

#[global] Instance TraceInteract : InteractDispatch Console := {
  IsVtInputEnabled := vt_input;
  interact := fun c d => (mkConsole (console_log d ++ [c]) (vt_input d) (console_time d), Some tt);
  steady_clock_now := fun d => (mkConsole (console_log d) (vt_input d) (console_time d + 1), console_time d);
}.

#[global] Instance test_keyboard : Keyboard := {
  VkKeyScanW := fun wch => wch;
  MapVirtualKeyW := fun vkey _ => vkey;
}.

#[global] Instance test_layout : KeyboardLayout := {
  ToUnicodeEx := fun _ vkey _ => [vkey];
  LCMapLower := fun units => units;
  loadUSLayout := false;
  MapVirtualKeyExW := fun scanCode => scanCode;
}.

(** A parser for input, in front of an empty log. *)
Definition new_console (vt : bool) : StateMachine (InputStateMachineEngine Console) Empty_set Empty_set :=
  make_StateMachine (make_InputEngine (mkConsole [] vt 0) 500) true.

(** ** The keyboard map *)

(** The introducers agree with the mode for C1 controls. *)
Definition keymap_ok (t : TerminalInput) : Prop := t = _initKeyboardMap t.

Lemma keymap_init t : keymap_ok (_initKeyboardMap t).
Proof. unfold keymap_ok, _initKeyboardMap at 2 3. unfold _initKeyboardMap, test_mode. by destruct (enumset.test (_inputMode t) Mode.SendC1) eqn:Ht; simpl; rewrite Ht. Qed.

(** ** An invariant of the input state *)

Definition is_kitty_flags (flags : Z) : Prop := Z.land flags Kitty.All = flags.

Record input_ok (t : TerminalInput) : Prop := {
  ok_keymap : keymap_ok t;
  ok_flags : is_kitty_flags (_kittyFlags t);
  ok_main : (length (_kittyMainStack t) <= KittyStackMaxSize)%nat /\ Forall is_kitty_flags (_kittyMainStack t);
  ok_alt : (length (_kittyAltStack t) <= KittyStackMaxSize)%nat /\ Forall is_kitty_flags (_kittyAltStack t);
  ok_outside : _inAlternateBuffer t = false -> _kittyAltStack t = [];
  ok_disabled : _forceDisableKittyKeyboardProtocol t = true -> _kittyFlags t = 0 /\ _kittyMainStack t = [] /\ _kittyAltStack t = [];
  ok_tracking : forall m1 m2, m1 ∈ tracking_modes -> m2 ∈ tracking_modes -> test_mode t m1 = true -> test_mode t m2 = true -> m1 = m2;
  ok_encoding : forall m1 m2, m1 ∈ encoding_modes -> m2 ∈ encoding_modes -> test_mode t m1 = true -> test_mode t m2 = true -> m1 = m2;
  ok_wheel : Z.abs (accumulatedDelta (_mouseInputState t)) < WHEEL_DELTA;
  ok_times : _lastLeftCtrlTime t = 0 /\ _lastRightAltTime t = 0;
}.

(** What the terminal does with its input state. *)
Inductive input_op :=
| op_SetInputMode (mode : Z) (enabled : bool)
| op_ResetInputModes
| op_ForceDisableWin32InputMode (disable : bool)
| op_ForceDisableKittyKeyboardProtocol (disable : bool)
| op_SetKittyKeyboardProtocol (flags : Z) (mode : Kitty.ProtocolMode)
| op_PushKittyFlags (flags : Z)
| op_PopKittyFlags (count : nat)
| op_ResetKittyKeyboardProtocols
| op_UseMainScreenBuffer
| op_UseAlternateScreenBuffer
| op_HandleKey (event : INPUT_RECORD)
| op_HandleMouse (position : Z * Z) (button modifierKeyState delta : Z) (state : MouseButtonState).

Section Invariant.
Context (keypad : bool) `{!KeyboardLayout}.
Implicit Types t : TerminalInput.

Definition apply_op t (op : input_op) : TerminalInput :=
  match op with
  | op_SetInputMode mode enabled => SetInputMode mode enabled t
  | op_ResetInputModes => ResetInputModes t
  | op_ForceDisableWin32InputMode disable => ForceDisableWin32InputMode disable t
  | op_ForceDisableKittyKeyboardProtocol disable => ForceDisableKittyKeyboardProtocol disable t
  | op_SetKittyKeyboardProtocol flags mode => SetKittyKeyboardProtocol flags mode t
  | op_PushKittyFlags flags => PushKittyFlags flags t
  | op_PopKittyFlags count => PopKittyFlags count t
  | op_ResetKittyKeyboardProtocols => ResetKittyKeyboardProtocols t
  | op_UseMainScreenBuffer => UseMainScreenBuffer t
  | op_UseAlternateScreenBuffer => UseAlternateScreenBuffer t
  | op_HandleKey event => (HandleKey keypad event t).1
  | op_HandleMouse position button modifierKeyState delta state =>
    (HandleMouse keypad position button modifierKeyState delta state t).1
  end.

(** Modes are enumerators. *)
Definition op_wf (op : input_op) : Prop :=
  match op with op_SetInputMode mode _ => 0 <= mode <= Mode.AlternateScroll | _ => True end.

Lemma kitty_flags_land flags : is_kitty_flags (Z.land flags Kitty.All).
Proof. unfold is_kitty_flags. rewrite <- Z.land_assoc. by rewrite Z.land_diag. Qed.

Lemma kitty_flags_lor f1 f2 : is_kitty_flags f1 -> is_kitty_flags f2 -> is_kitty_flags (Z.lor f1 f2).
Proof. unfold is_kitty_flags. intros H1 H2. by rewrite Z.land_lor_distr_l, H1, H2. Qed.

Lemma kitty_flags_ldiff f1 f2 : is_kitty_flags f1 -> is_kitty_flags (Z.ldiff f1 f2).
Proof.
  unfold is_kitty_flags. intros H1. rewrite <- H1 at 2. apply Z.bits_inj'. intros i Hi.
  rewrite !Z.land_spec, !Z.ldiff_spec, Z.land_spec. by destruct (Z.testbit f1 i), (Z.testbit Kitty.All i), (Z.testbit f2 i).
Qed.

Lemma tracking_wf : Forall (fun pos => 0 <= pos < 64) tracking_modes.
Proof. by repeat constructor. Qed.
Lemma encoding_wf : Forall (fun pos => 0 <= pos < 64) encoding_modes.
Proof. by repeat constructor. Qed.

Lemma mode_range mode : mode ∈ tracking_modes ++ encoding_modes -> 0 <= mode < 64.
Proof. rewrite list_elem_of_In. simpl. intuition (subst; done). Qed.

Lemma inputMode_init t : _inputMode (_initKeyboardMap t) = _inputMode t.
Proof. unfold _initKeyboardMap. by destruct (test_mode t Mode.SendC1). Qed.

(** What [SetInputMode] leaves of the other modes. *)
Lemma SetInputMode_test mode enabled t m : 0 <= mode < 64 -> 0 <= m < 64 ->
  test_mode (SetInputMode mode enabled t) m =
  if m =? mode then enabled
  else test_mode t m && negb (bool_decide (mode ∈ tracking_modes) && bool_decide (m ∈ tracking_modes))
       && negb (bool_decide (mode ∈ encoding_modes) && enabled && bool_decide (m ∈ encoding_modes)).
Proof.
  intros Hmode Hm. unfold test_mode, SetInputMode. cbv zeta.
  transitivity (enumset.test (enumset.set
    (let d := if bool_decide (mode ∈ tracking_modes) then enumset.reset_all (_inputMode t) tracking_modes else _inputMode t in
     if bool_decide (mode ∈ encoding_modes) && enabled then enumset.reset_all d encoding_modes else d) mode enabled) m).
  - destruct (bool_decide (mode ∈ tracking_modes)), (bool_decide (mode ∈ encoding_modes) && enabled), (enumset.test keyMapModes mode);
      rewrite ?inputMode_init; done.
  - rewrite enumset.test_set by done. destruct (m =? mode); [done|]. cbv zeta.
    pose proof tracking_wf. pose proof encoding_wf.
    destruct (bool_decide (mode ∈ tracking_modes)), (bool_decide (mode ∈ encoding_modes) && enabled);
      rewrite ?enumset.test_reset_all by done; simpl; rewrite ?andb_true_r; done.
Qed.

(** At most one of a group of modes stays set. *)
Lemma exclusive_after (group : list Z) mode enabled t :
  (forall m, m ∈ group -> 0 <= m < 64) -> 0 <= mode < 64 ->
  (forall m1 m2, m1 ∈ group -> m2 ∈ group -> test_mode t m1 = true -> test_mode t m2 = true -> m1 = m2) ->
  (forall m, mode ∈ group -> enabled = true -> m ∈ group -> m <> mode -> test_mode (SetInputMode mode enabled t) m = false) ->
  forall m1 m2, m1 ∈ group -> m2 ∈ group ->
    test_mode (SetInputMode mode enabled t) m1 = true -> test_mode (SetInputMode mode enabled t) m2 = true -> m1 = m2.
Proof.
  intros Hg Hmode Hex Hclear m1 m2 H1 H2 T1 T2.
  destruct (Z.eq_dec m1 m2) as [|Hne]; [done|exfalso].
  assert (forall m m', m ∈ group -> m' ∈ group -> m <> m' -> m = mode -> test_mode (SetInputMode mode enabled t) m = true ->
    test_mode (SetInputMode mode enabled t) m' = true -> False) as Hone.
  { intros m m' Hm Hm' Hn -> T T'. rewrite SetInputMode_test, Z.eqb_refl in T by auto.
    by rewrite (Hclear m') in T' by auto. }
  destruct (Z.eq_dec m1 mode) as [E1|E1]; [by eapply (Hone m1 m2)|].
  destruct (Z.eq_dec m2 mode) as [E2|E2]; [by eapply (Hone m2 m1)|].
  rewrite SetInputMode_test in T1, T2 by auto. apply Z.eqb_neq in E1, E2. rewrite E1 in T1. rewrite E2 in T2.
  apply andb_true_iff in T1 as [[T1 _]%andb_true_iff _], T2 as [[T2 _]%andb_true_iff _]. by apply Hne, Hex.
Qed.

Lemma SetInputMode_tracking mode enabled t m : mode ∈ tracking_modes -> m ∈ tracking_modes -> m <> mode ->
  test_mode (SetInputMode mode enabled t) m = false.
Proof.
  intros H1 H2 Hne. rewrite SetInputMode_test by (apply mode_range; rewrite elem_of_app; auto). apply Z.eqb_neq in Hne as ->.
  by rewrite !bool_decide_true, andb_false_r by done.
Qed.

Lemma SetInputMode_encoding mode t m : mode ∈ encoding_modes -> m ∈ encoding_modes -> m <> mode ->
  test_mode (SetInputMode mode true t) m = false.
Proof.
  intros H1 H2 Hne. rewrite SetInputMode_test by (apply mode_range; rewrite elem_of_app; auto). apply Z.eqb_neq in Hne as ->.
  by rewrite (bool_decide_true (mode ∈ encoding_modes)), (bool_decide_true (m ∈ encoding_modes)), andb_false_r by done.
Qed.

(** *** Every operation keeps the invariant *)

(** Operations that change neither modes nor introducers keep the map. *)
Lemma keymap_ok_iff t : keymap_ok t <->
  if test_mode t Mode.SendC1
  then _csi t = [0x9B] /\ _ss3 t = [0x8F] /\ _focusInSequence t = [0x9B; 0x49] /\ _focusOutSequence t = [0x9B; 0x4F]
  else _csi t = [ESC_; 0x5B] /\ _ss3 t = [ESC_; 0x4F] /\ _focusInSequence t = [ESC_; 0x5B; 0x49] /\ _focusOutSequence t = [ESC_; 0x5B; 0x4F].
Proof.
  unfold keymap_ok, _initKeyboardMap. destruct t, (test_mode _ _); unfold set_sequences; simpl; split;
    [intros [= -> -> -> ->]; done|by intros (-> & -> & -> & ->)|intros [= -> -> -> ->]; done|by intros (-> & -> & -> & ->)].
Qed.

(** What the invariant is about, but for the modes. *)
Record same_modes t t' : Prop := {
  same_inputMode : _inputMode t' = _inputMode t;
  same_csi : _csi t' = _csi t;
  same_ss3 : _ss3 t' = _ss3 t;
  same_focusIn : _focusInSequence t' = _focusInSequence t;
  same_focusOut : _focusOutSequence t' = _focusOutSequence t;
}.

Lemma same_modes_test t t' m : same_modes t t' -> test_mode t' m = test_mode t m.
Proof. intros []. unfold test_mode. congruence. Qed.

Lemma same_modes_keymap t t' : same_modes t t' -> keymap_ok t -> keymap_ok t'.
Proof.
  intros Hs. pose proof (same_modes_test t t' Mode.SendC1 Hs) as Ht. destruct Hs as [_ E1 E2 E3 E4].
  rewrite !keymap_ok_iff, Ht, E1, E2, E3, E4. done.
Qed.

Ltac same_modes := by constructor.

(** The kitty state is all that changes. *)
Lemma input_ok_kitty t t' : input_ok t -> same_modes t t' ->
  _mouseInputState t' = _mouseInputState t -> _lastLeftCtrlTime t' = _lastLeftCtrlTime t -> _lastRightAltTime t' = _lastRightAltTime t ->
  is_kitty_flags (_kittyFlags t') ->
  (length (_kittyMainStack t') <= KittyStackMaxSize)%nat /\ Forall is_kitty_flags (_kittyMainStack t') ->
  (length (_kittyAltStack t') <= KittyStackMaxSize)%nat /\ Forall is_kitty_flags (_kittyAltStack t') ->
  (_inAlternateBuffer t' = false -> _kittyAltStack t' = []) ->
  (_forceDisableKittyKeyboardProtocol t' = true -> _kittyFlags t' = 0 /\ _kittyMainStack t' = [] /\ _kittyAltStack t' = []) ->
  input_ok t'.
Proof.
  intros [] Hs Hm H1 H2 Hf Hmain Halt Hout Hdis. constructor; try done.
  - by eapply same_modes_keymap.
  - intros m1 m2 Hi1 Hi2. rewrite !(same_modes_test t t') by done. auto.
  - intros m1 m2 Hi1 Hi2. rewrite !(same_modes_test t t') by done. auto.
  - by rewrite Hm.
  - by rewrite H1, H2.
Qed.

(** The kitty state and the modes stay. *)
Lemma input_ok_mouse t t' : input_ok t -> same_modes t t' -> _kittyFlags t' = _kittyFlags t -> _kittyMainStack t' = _kittyMainStack t ->
  _kittyAltStack t' = _kittyAltStack t -> _inAlternateBuffer t' = _inAlternateBuffer t ->
  _forceDisableKittyKeyboardProtocol t' = _forceDisableKittyKeyboardProtocol t ->
  _lastLeftCtrlTime t' = _lastLeftCtrlTime t -> _lastRightAltTime t' = _lastRightAltTime t ->
  Z.abs (accumulatedDelta (_mouseInputState t')) < WHEEL_DELTA -> input_ok t'.
Proof.
  intros [] Hs E1 E2 E3 E4 E5 E6 E7 Hw. constructor; rewrite ?E1, ?E2, ?E3, ?E4, ?E5, ?E6, ?E7; try done.
  - by eapply same_modes_keymap.
  - intros m1 m2 Hi1 Hi2. rewrite !(same_modes_test t t') by done. auto.
  - intros m1 m2 Hi1 Hi2. rewrite !(same_modes_test t t') by done. auto.
Qed.

Lemma input_ok_new : input_ok new_TerminalInput.
Proof.
  constructor; try done.
  - by repeat constructor.
  - by repeat constructor.
  - intros m1 m2. rewrite !list_elem_of_In. simpl. intuition (subst; done).
  - intros m1 m2. rewrite !list_elem_of_In. simpl. intuition (subst; done).
Qed.

Lemma input_ok_SetInputMode mode enabled t : 0 <= mode <= Mode.AlternateScroll -> input_ok t -> input_ok (SetInputMode mode enabled t).
Proof.
  intros Hmode [Hk Hf Hm Ha Ho Hd Ht He Hw Hti]. unfold Mode.AlternateScroll in Hmode.
  assert (_kittyFlags (SetInputMode mode enabled t) = _kittyFlags t /\ _kittyMainStack (SetInputMode mode enabled t) = _kittyMainStack t /\
    _kittyAltStack (SetInputMode mode enabled t) = _kittyAltStack t /\ _inAlternateBuffer (SetInputMode mode enabled t) = _inAlternateBuffer t /\
    _forceDisableKittyKeyboardProtocol (SetInputMode mode enabled t) = _forceDisableKittyKeyboardProtocol t /\
    accumulatedDelta (_mouseInputState (SetInputMode mode enabled t)) = accumulatedDelta (_mouseInputState t) /\
    _lastLeftCtrlTime (SetInputMode mode enabled t) = _lastLeftCtrlTime t /\
    _lastRightAltTime (SetInputMode mode enabled t) = _lastRightAltTime t) as (E1 & E2 & E3 & E4 & E5 & E6 & E7 & E8).
  { unfold SetInputMode, _initKeyboardMap. by destruct (bool_decide (mode ∈ tracking_modes)), (bool_decide (mode ∈ encoding_modes) && enabled);
      destruct (enumset.test keyMapModes mode); repeat case_match. }
  constructor; rewrite ?E1, ?E2, ?E3, ?E4, ?E5, ?E6, ?E7, ?E8; try done.
  - destruct (enumset.test keyMapModes mode) eqn:Hkm.
    + unfold SetInputMode. rewrite Hkm. apply keymap_init.
    + assert (mode <> Mode.SendC1) as Hne by (intros ->; by vm_compute in Hkm).
      apply keymap_ok_iff. apply keymap_ok_iff in Hk. rewrite SetInputMode_test by (unfold Mode.SendC1; lia).
      destruct (Z.eqb_spec Mode.SendC1 mode); [done|].
      rewrite !(bool_decide_false (Mode.SendC1 ∈ _)), !andb_false_r, !andb_true_r by (rewrite list_elem_of_In; by vm_compute; intuition).
      unfold SetInputMode. rewrite Hkm.
      by destruct (bool_decide (mode ∈ tracking_modes)), (bool_decide (mode ∈ encoding_modes) && enabled).
  - apply exclusive_after; [intros; apply mode_range; rewrite elem_of_app; auto|lia|done|].
    intros. by apply SetInputMode_tracking.
  - apply exclusive_after; [intros; apply mode_range; rewrite elem_of_app; auto|lia|done|].
    intros m Hin -> Hm' Hne. by apply SetInputMode_encoding.
Qed.

Lemma input_ok_ResetInputModes t : input_ok t -> input_ok (ResetInputModes t).
Proof.
  intros []. constructor; try done.
  - by repeat constructor.
  - by repeat constructor.
  - intros m1 m2. rewrite !list_elem_of_In. simpl. intuition (subst; done).
  - intros m1 m2. rewrite !list_elem_of_In. simpl. intuition (subst; done).
Qed.

Lemma stack_nil_ok : (length ([] : list Z) <= KittyStackMaxSize)%nat /\ Forall is_kitty_flags [].
Proof. split; [simpl; lia|done]. Qed.

Lemma input_ok_ResetKitty t : input_ok t -> input_ok (ResetKittyKeyboardProtocols t).
Proof. intros Hok. eapply input_ok_kitty; try done; apply stack_nil_ok. Qed.

Lemma input_ok_ForceDisableKitty disable t : input_ok t -> input_ok (ForceDisableKittyKeyboardProtocol disable t).
Proof.
  intros Hok. unfold ForceDisableKittyKeyboardProtocol. destruct disable.
  - eapply input_ok_kitty; try done; apply stack_nil_ok.
  - pose proof Hok as []. by eapply input_ok_kitty.
Qed.

Lemma input_ok_SetKitty flags mode t : input_ok t -> input_ok (SetKittyKeyboardProtocol flags mode t).
Proof.
  intros Hok. unfold SetKittyKeyboardProtocol. destruct (_forceDisableKittyKeyboardProtocol t) eqn:Hd; [done|].
  pose proof Hok as []. pose proof (kitty_flags_land flags).
  destruct mode; (eapply input_ok_kitty; simpl; try done; try (by rewrite Hd)); simpl.
  - by apply kitty_flags_lor.
  - by apply kitty_flags_ldiff.
Qed.

(** Pushing onto a stack keeps it within its size. *)
Lemma push_ok stack flags : (length stack <= KittyStackMaxSize)%nat /\ Forall is_kitty_flags stack -> is_kitty_flags flags ->
  (length ((if (KittyStackMaxSize <=? length stack)%nat then drop 1 stack else stack) ++ [flags]) <= KittyStackMaxSize)%nat /\
  Forall is_kitty_flags ((if (KittyStackMaxSize <=? length stack)%nat then drop 1 stack else stack) ++ [flags]).
Proof.
  unfold KittyStackMaxSize. intros [Hl Hs] Hf. destruct (Nat.leb_spec 8 (length stack)).
  - rewrite length_app, length_drop. split; [simpl; lia|]. apply Forall_snoc. split; [by apply Forall_drop|done].
  - rewrite length_app. split; [simpl; lia|]. by apply Forall_snoc.
Qed.

(** Replacing the flags and the stack of the active screen. *)
Lemma input_ok_stack stack flags t : input_ok t -> (length stack <= KittyStackMaxSize)%nat /\ Forall is_kitty_flags stack ->
  is_kitty_flags flags -> (_forceDisableKittyKeyboardProtocol t = true -> flags = 0 /\ stack = []) ->
  input_ok (set_kittyFlags flags (set_kitty_stack stack t)).
Proof.
  intros Hok Hs Hf Hdis. pose proof Hok as [_ _ Hm Ha Ho Hd _ _ _ _]. unfold set_kitty_stack.
  destruct (_inAlternateBuffer t) eqn:Hb; eapply input_ok_kitty; simpl; try done; try (by rewrite Hb);
    intros Hdis'; destruct (Hdis Hdis') as [-> ->]; by destruct (Hd Hdis') as (? & ? & ?).
Qed.

Lemma stack_of_active t : input_ok t -> (length (kitty_stack t) <= KittyStackMaxSize)%nat /\ Forall is_kitty_flags (kitty_stack t).
Proof. intros []. unfold kitty_stack. by destruct (_inAlternateBuffer t). Qed.

Lemma stack_disabled t : input_ok t -> _forceDisableKittyKeyboardProtocol t = true -> kitty_stack t = [].
Proof. intros [_ _ _ _ _ Hd _ _ _ _] Hdis. destruct (Hd Hdis) as (_ & E1 & E2). unfold kitty_stack. rewrite E1, E2. by destruct (_inAlternateBuffer t). Qed.

Lemma input_ok_Push flags t : input_ok t -> input_ok (PushKittyFlags flags t).
Proof.
  intros Hok. unfold PushKittyFlags. destruct (_forceDisableKittyKeyboardProtocol t) eqn:Hd; [done|]. cbv zeta.
  apply input_ok_stack; [done| |apply kitty_flags_land|by rewrite Hd]. apply push_ok; [by apply stack_of_active|apply Hok].
Qed.

Lemma pop_ok stack n : (length stack <= KittyStackMaxSize)%nat /\ Forall is_kitty_flags stack ->
  (length (take n stack) <= KittyStackMaxSize)%nat /\ Forall is_kitty_flags (take n stack).
Proof. intros [Hl Hs]. rewrite length_take. split; [lia|]. by apply Forall_take. Qed.

Lemma nth_ok stack n : Forall is_kitty_flags stack -> is_kitty_flags (nth n stack 0).
Proof. intros Hs. revert n. induction Hs; intros []; simpl; done || auto. Qed.

Lemma set_stack_flags stack flags t : set_kitty_stack stack (set_kittyFlags flags t) = set_kittyFlags flags (set_kitty_stack stack t).
Proof. unfold set_kitty_stack. simpl. by destruct (_inAlternateBuffer t). Qed.

Lemma input_ok_Pop count t : input_ok t -> input_ok (PopKittyFlags count t).
Proof.
  intros Hok. unfold PopKittyFlags. case_decide; [done|]. cbv zeta. pose proof (stack_of_active t Hok) as Hs.
  destruct (Nat.leb_spec (length (kitty_stack t)) count) as [Hl|Hl]; rewrite set_stack_flags.
  - by apply input_ok_stack; [..|apply stack_nil_ok| |].
  - apply input_ok_stack; [done|by apply pop_ok|by apply nth_ok, Hs|].
    intros Hd. rewrite (stack_disabled t Hok Hd) in Hl. simpl in Hl. lia.
Qed.

Lemma input_ok_UseMain t : input_ok t -> input_ok (UseMainScreenBuffer t).
Proof.
  intros Hok. unfold UseMainScreenBuffer. destruct (_inAlternateBuffer t) eqn:Hb; [|done].
  pose proof Hok as [_ _ Hm Ha Ho Hd _ _ _ _]. eapply input_ok_kitty; simpl; try done; [|apply stack_nil_ok|].
  - destruct Hm as [_ Hm]. destruct (last (_kittyMainStack t)) as [f|] eqn:Hl; [|done].
    apply last_Some_elem_of in Hl. by apply (proj1 (Forall_forall _ _) Hm).
  - intros Hdis. by destruct (Hd Hdis) as (_ & -> & _).
Qed.

Lemma input_ok_UseAlternate t : input_ok t -> input_ok (UseAlternateScreenBuffer t).
Proof.
  intros Hok. unfold UseAlternateScreenBuffer. destruct (_inAlternateBuffer t) eqn:Hb; [done|].
  pose proof Hok as [_ _ Hm Ha Ho Hd _ _ _ _]. eapply input_ok_kitty; simpl; try done; [apply stack_nil_ok|].
  intros Hdis. by destruct (Hd Hdis) as (_ & -> & _).
Qed.

Lemma input_ok_HandleKey event t : input_ok t -> input_ok (HandleKey keypad event t).1.
Proof.
  intros Hok. pose proof (ok_wheel t Hok). destruct event as [k| |]; simpl; try done.
  unfold HandleKeyEvent, _trackControlKeyState, track_repeat. cbv zeta.
  repeat case_match; simplify_eq/=; by eapply input_ok_mouse.
Qed.

Lemma accumulate_wheel_ok button delta t : input_ok t -> input_ok (accumulate_wheel button delta t).1.
Proof.
  intros Hok. pose proof (ok_wheel t Hok) as Hw. unfold accumulate_wheel. cbv zeta.
  set (t1 := if _ =? _ then t else set_accumulatedDelta 0 t).
  assert (input_ok t1) as Hok1 by (unfold t1; case_match; [done|by eapply input_ok_mouse]).
  destruct (_isWheelMsg button); [|done].
  destruct (Z.ltb_spec (Z.abs (accumulatedDelta (_mouseInputState t1) + delta)) WHEEL_DELTA); by eapply input_ok_mouse.
Qed.

Lemma input_ok_HandleMouse position button modifierKeyState delta state t : input_ok t ->
  input_ok (HandleMouse keypad position button modifierKeyState delta state t).1.
Proof.
  intros Hok%(accumulate_wheel_ok button delta). unfold HandleMouse.
  destruct (accumulate_wheel button delta t) as [t1 ready]. simpl in Hok. pose proof (ok_wheel t1 Hok).
  destruct ready; simpl; [|done]. unfold report_mouse. repeat case_match; simpl; try done. all: try by eapply input_ok_mouse.
Qed.

(** C28: The input state stays consistent whatever the terminal and the
    applications do: the sequence introducers match the mode for C1 controls, at
    most one tracking mode and one mouse encoding is active, the kitty flags are
    valid, both stacks hold at most eight of them and are empty while the protocol
    is disabled, and less than one line of wheel movement is pending. *)
Theorem terminal_input_invariant ops : Forall op_wf ops -> input_ok (fold_left apply_op ops new_TerminalInput).
Proof.
  assert (forall t, input_ok t -> Forall op_wf ops -> input_ok (fold_left apply_op ops t)) as Hgen; [|apply Hgen, input_ok_new].
  induction ops as [|op ops IH]; intros t Hok Hwf; simpl; [done|]. inversion Hwf as [|? ? Hop Hops]; subst. apply IH; [|done].
  destruct op; simpl.
  - by apply input_ok_SetInputMode.
  - by apply input_ok_ResetInputModes.
  - pose proof Hok as []. by eapply input_ok_kitty.
  - by apply input_ok_ForceDisableKitty.
  - by apply input_ok_SetKitty.
  - by apply input_ok_Push.
  - by apply input_ok_Pop.
  - by apply input_ok_ResetKitty.
  - by apply input_ok_UseMain.
  - by apply input_ok_UseAlternate.
  - by apply input_ok_HandleKey.
  - by apply input_ok_HandleMouse.
Qed.
End Invariant.

(** ** Departures from the comments *)

(** The time of the Ctrl and Alt keys is never recorded, so that Ctrl together
    with AltGr is never taken for a genuine Ctrl. *)
Lemma altgr_timing_unused t vk scanCode codepoint keyDown keyRepeat : input_ok t ->
  let controlKeyState := Z.lor LEFT_CTRL_PRESSED RIGHT_ALT_PRESSED in
  0x20 < codepoint -> codepoint <> 0x7f ->
  ctrlPressed (sanitize t vk scanCode codepoint controlKeyState keyDown keyRepeat) = false.
Proof.
  intros [_ _ _ _ _ _ _ _ _ [H1 H2]] cks Hc Hd. unfold sanitize. simpl. rewrite H1, H2. simpl.
  apply Z.ltb_lt in Hc as ->. by apply Z.eqb_neq in Hd as ->.
Qed.

(** The flags of the main screen do not survive a visit to the alternate screen:
    the previous ones come back. *)
Lemma alternate_screen_loses_flags :
  let t := PushKittyFlags Kitty.ReportEventTypes new_TerminalInput in
  _kittyFlags t = Kitty.ReportEventTypes /\ _kittyFlags (UseMainScreenBuffer (UseAlternateScreenBuffer t)) = 0.
Proof. done. Qed.

(** ** Win32-input-mode *)

(** A key press whose fields fit in 16 bits. *)
Definition key16 (k : KeyEventRecord) : Prop :=
  is_wchar (wRepeatCount k) /\ is_wchar (wVirtualKeyCode k) /\ is_wchar (wVirtualScanCode k) /\
  is_wchar (UnicodeChar k) /\ is_wchar (dwControlKeyState k).

Definition plain_argument (v : Z) : CsiArgument := mkCsiArgument (Some v) [].

Definition win32_csi (k : KeyEventRecord) : Csi :=
  mkCsi None (map plain_argument [wVirtualKeyCode k; wVirtualScanCode k; UnicodeChar k; Z.b2z (bKeyDown k); dwControlKeyState k; wRepeatCount k])
    [] 0x5F.

(** Right-nested concatenations. *)
Ltac flatten := repeat first [rewrite <- app_assoc | progress cbn [app]].

Lemma render_plain v : render_argument (plain_argument v) = decimal 5 v.
Proof. unfold render_argument, render_subs. cbn [ca_value ca_subs plain_argument map concat]. apply app_nil_r. Qed.

Lemma win32_rendered t k : key16 k -> _csi t = [ESC_; 0x5B] -> _makeWin32Output t k = render_csi (win32_csi k).
Proof.
  intros (H1 & H2 & H3 & H4 & H5) Hcsi. unfold _makeWin32Output, number16. rewrite Hcsi, !u16_small by done.
  unfold render_csi, win32_csi. cbn [csi_marker csi_arguments csi_intermediates csi_final option_list map render_arguments render_more].
  rewrite !render_plain. assert ((if bKeyDown k then 1 else 0) = Z.b2z (bKeyDown k)) as -> by (by destruct (bKeyDown k)).
  change (option_list (@None Z)) with ([] : list Z). rewrite !app_nil_r. flatten. done.
Qed.

Lemma plain_argument_wf v : 0 <= v <= MAX_PARAMETER_VALUE -> argument_wf (plain_argument v).
Proof. by intros Hv. Qed.

Lemma plain_csi_wf marker values final : match marker with Some m => _isCsiPrivateMarker m = true | None => True end ->
  Forall (fun v => 0 <= v <= MAX_PARAMETER_VALUE) values -> (length values <= 32)%nat ->
  0x40 <= final <= 0x7E -> csi_wf (mkCsi marker (map plain_argument values) [] final).
Proof.
  intros Hm Hv Hl Hf. constructor; simpl; try done; try lia.
  - apply List.Forall_map. eapply Forall_impl; [done|]. apply plain_argument_wf.
  - by rewrite length_map.
  - by destruct values as [|? []].
  - unfold csi_characters. simpl. destruct marker; simpl; lia.
Qed.

Lemma win32_wf k : key16 k -> csi_wf (win32_csi k).
Proof.
  unfold key16, is_wchar. intros (H1 & H2 & H3 & H4 & H5). apply plain_csi_wf; [done| |simpl; lia|lia].
  unfold MAX_PARAMETER_VALUE. repeat (apply Forall_cons; split); try lia; [destruct (bKeyDown k); simpl; lia|done].
Qed.

Lemma saturated_u16_small z : is_wchar z -> saturated_u16 z = z.
Proof. unfold is_wchar, saturated_u16, saturated_cast. lia. Qed.

Lemma win32_decoded k : key16 k -> _GenerateWin32Key (csi_parameters (win32_csi k)) = k.
Proof.
  intros (H1 & H2 & H3 & H4 & H5). unfold _GenerateWin32Key, VTParameters.at_. simpl.
  assert (forall v d, is_wchar v -> VTParameter.value_or v d = v) as Hv.
  { unfold is_wchar, VTParameter.value_or. intros v d Hv. destruct (Z.ltb_spec v 0); lia. }
  assert (is_wchar (Z.b2z (bKeyDown k))) by (unfold is_wchar; destruct (bKeyDown k); simpl; lia).
  rewrite !Hv by done. rewrite !saturated_u16_small by done. unfold SynthesizeKeyEvent.
  assert (saturated_u32 (dwControlKeyState k) = dwControlKeyState k) as ->
    by (unfold is_wchar in H5; unfold saturated_u32, saturated_cast; lia).
  assert (negb (Z.b2z (bKeyDown k) =? 0) = bKeyDown k) as -> by (by destruct (bKeyDown k)).
  by destruct k.
Qed.

Section Pipe.
Context {D : Type} `{!InteractDispatch D} `{!Keyboard} `{!KeyboardLayout}.
Abbreviation Engine := (InputStateMachineEngine D).
Abbreviation Mach := (StateMachine Engine Empty_set Empty_set).
Implicit Types (s : Mach) (e : Engine) (t : TerminalInput).

(** One key press, typed into the terminal and read by the console. *)
Lemma win32_key_read depth t k s : key16 k -> _csi t = [ESC_; 0x5B] -> ready s ->
  exists s', ProcessString (S depth) (_makeWin32Output t k) s = (s', Returned tt) /\ ready s' /\
    _pDispatch (_engine s') = (interact (IInteractDispatch.WriteCtrlKey k) (_pDispatch (_engine s))).1.
Proof.
  intros Hk Hcsi Hr. rewrite win32_rendered by done.
  destruct (input_csi depth (win32_csi k) s (win32_wf k Hk) Hr) as (s' & Heq & Hr' & He). exists s'.
  split; [done|]. split; [done|]. rewrite He. unfold answered.
  change (input_ActionCsiDispatch (csi_id (win32_csi k)) (csi_parameters (win32_csi k))) with
    (calls (IInteractDispatch.WriteCtrlKey (_GenerateWin32Key (csi_parameters (win32_csi k))));;
     modify (set_encounteredWin32InputModeSequence (D:=D) true);; mret true).
  rewrite win32_decoded by done. unfold mbind, comp_bind, calls.
  by destruct (interact (IInteractDispatch.WriteCtrlKey k) (_pDispatch (_engine s))) as [d [[]|]].
Qed.

(** The keys that the terminal sends in win32-input-mode, one string for each. *)
Fixpoint type_keys (keypad : bool) (t : TerminalInput) (keys : list KeyEventRecord) : list wstring :=
  match keys with
  | [] => []
  | k :: keys =>
    let '(t, output) := HandleKey keypad (KEY_EVENT k) t in
    option_list output ++ type_keys keypad t keys
  end.

(** The console reads the strings one after the other. *)
Fixpoint read_strings (depth : nat) (strings : list wstring) : comp Mach unit :=
  match strings with
  | [] => mret tt
  | string :: strings => ProcessString (S depth) string;; read_strings depth strings
  end.

(** C29: Win32-input-mode loses nothing: whatever keys are typed, pressed or
    released, with any repeat counts, scan codes, characters and control key
    states of 16 bits, the console at the other end of the pipe is given exactly
    those key events, in order. *)
Theorem win32_keys_roundtrip depth keypad t keys s :
  keymap_ok t -> test_mode t Mode.SendC1 = false -> test_mode t Mode.Win32 = true -> _forceDisableWin32InputMode t = false ->
  _kittyFlags t = 0 -> Forall key16 keys -> ready s ->
  exists s', read_strings depth (type_keys keypad t keys) s = (s', Returned tt) /\ ready s' /\
    _pDispatch (_engine s') = fold_left (fun d k => (interact (IInteractDispatch.WriteCtrlKey k) d).1) keys (_pDispatch (_engine s)).
Proof.
  intros Hmap Hc1 Hw32 Hforce Hkitty Hkeys. revert s. induction Hkeys as [|k keys Hk Hkeys IH]; intros s Hr; [by exists s|].
  assert (_csi t = [ESC_; 0x5B]) as Hcsi by (apply keymap_ok_iff in Hmap; rewrite Hc1 in Hmap; apply Hmap).
  cbn [type_keys HandleKey]. unfold HandleKeyEvent. rewrite Hw32, Hforce, Hkitty. cbn [negb andb Z.eqb].
  change (option_list (Some (_makeWin32Output t k))) with [_makeWin32Output t k]. cbn [app read_strings].
  destruct (win32_key_read depth t k s Hk Hcsi Hr) as (s1 & Heq & Hr1 & Hd1).
  destruct (IH s1 Hr1) as (s2 & Heq2 & Hr2 & Hd2). exists s2. split; [|split; [done|]].
  - unfold mbind, comp_bind. by rewrite Heq.
  - simpl. by rewrite Hd2, Hd1.
Qed.
End Pipe.

(** ** Numbers *)
Lemma decimal_step n v : 0 <= v < 10 ^ Z.of_nat n -> (0 < n)%nat -> decimal (S n) v = decimal n v.
Proof.
  revert v. induction n as [|n IH]; intros v Hv Hn; [lia|]. rewrite Nat2Z.inj_succ, Z.pow_succ_r in Hv by lia.
  change (decimal (S (S n)) v) with (if v <? 10 then [0x30 + v] else decimal (S n) (v / 10) ++ [0x30 + v mod 10]).
  change (decimal (S n) v) with (if v <? 10 then [0x30 + v] else decimal n (v / 10) ++ [0x30 + v mod 10]).
  destruct (Z.ltb_spec v 10); [done|]. rewrite IH; [done| |].
  - split; [apply Z.div_pos; lia|]. apply Z.div_lt_upper_bound; lia.
  - destruct n; [simpl in Hv; lia|lia].
Qed.

Lemma decimal_ten v : 0 <= v < 100000 -> decimal 10 v = decimal 5 v.
Proof. intros Hv. by rewrite !decimal_step by (simpl; lia). Qed.

(** ** The mouse *)

(** What a mouse message does to the buttons, the wheel and the event flags. *)
Definition mouse_effect (button delta : Z) : Z * Z * Z :=
  let scroll := if 0 <? delta then SCROLL_DELTA_FORWARD else SCROLL_DELTA_BACKWARD in
  switch button
    [(WM.LBUTTONDOWN, (FROM_LEFT_1ST_BUTTON_PRESSED, 0, 0)); (WM.LBUTTONUP, (FROM_LEFT_1ST_BUTTON_PRESSED, 0, 0));
     (WM.LBUTTONDBLCLK, (FROM_LEFT_1ST_BUTTON_PRESSED, 0, 0));
     (WM.RBUTTONDOWN, (RIGHTMOST_BUTTON_PRESSED, 0, 0)); (WM.RBUTTONUP, (RIGHTMOST_BUTTON_PRESSED, 0, 0));
     (WM.RBUTTONDBLCLK, (RIGHTMOST_BUTTON_PRESSED, 0, 0));
     (WM.MBUTTONDOWN, (FROM_LEFT_2ND_BUTTON_PRESSED, 0, 0)); (WM.MBUTTONUP, (FROM_LEFT_2ND_BUTTON_PRESSED, 0, 0));
     (WM.MBUTTONDBLCLK, (FROM_LEFT_2ND_BUTTON_PRESSED, 0, 0));
     (WM.MOUSEWHEEL, (0, scroll, MOUSE_WHEELED)); (WM.MOUSEHWHEEL, (0, scroll, MOUSE_HWHEELED))]
    (0, 0, 0).

(** The console has one bit for each modifier; left and right are not told apart. *)
Definition console_modifiers (modifierKeyState : Z) : Z :=
  let modifiers := WI_SetFlagIf 0 SHIFT_PRESSED (WI_IsAnyFlagSet modifierKeyState SHIFT_PRESSED) in
  let modifiers := WI_SetFlagIf modifiers LEFT_ALT_PRESSED (WI_IsAnyFlagSet modifierKeyState ALT_PRESSED) in
  WI_SetFlagIf modifiers LEFT_CTRL_PRESSED (WI_IsAnyFlagSet modifierKeyState CTRL_PRESSED).

Definition mouse_messages : list Z :=
  [WM.MOUSEMOVE; WM.LBUTTONDBLCLK; WM.LBUTTONDOWN; WM.LBUTTONUP; WM.MBUTTONUP; WM.RBUTTONUP; WM.RBUTTONDOWN;
   WM.RBUTTONDBLCLK; WM.MBUTTONDOWN; WM.MBUTTONDBLCLK; WM.MOUSEWHEEL; WM.MOUSEHWHEEL].

Lemma sgr_decodes button isHover modifierKeyState delta : button ∈ mouse_messages ->
  let x := _windowsButtonToSGREncoding button isHover modifierKeyState delta in
  0 <= x <= 255 /\ button_effect (sgr_buttonID x) = Some (mouse_effect button delta) /\
  _GetSGRMouseModifierState x = console_modifiers modifierKeyState /\ WI_IsFlagSet x MouseModifier.Drag = isHover.
Proof.
  intros Hb. unfold _windowsButtonToSGREncoding, with_motion_and_modifiers, console_modifiers, mouse_effect.
  destruct (WI_IsAnyFlagSet modifierKeyState SHIFT_PRESSED), (WI_IsAnyFlagSet modifierKeyState ALT_PRESSED),
    (WI_IsAnyFlagSet modifierKeyState CTRL_PRESSED), isHover, (0 <? delta);
    repeat (apply elem_of_cons in Hb as [->|Hb]; [vm_compute; repeat split; done || discriminate|]); by apply elem_of_nil in Hb.
Qed.

Definition sgr_csi (x : Z) (position : Z * Z) (release : bool) : Csi :=
  mkCsi (Some 0x3C) (map plain_argument [x; position.1 + 1; position.2 + 1]) [] (if release then 0x6D else 0x4D).

Definition on_screen (position : Z * Z) : Prop := 0 <= position.1 < 0x7fff /\ 0 <= position.2 < 0x7fff.

Lemma number_int_small v : 0 <= v < 100000 -> number_int v = decimal 5 v.
Proof. intros Hv. unfold number_int. destruct (Z.ltb_spec v 0); [lia|]. by apply decimal_ten. Qed.

Lemma sgr_rendered t position button release isHover modifierKeyState delta :
  _csi t = [ESC_; 0x5B] -> on_screen position -> button ∈ mouse_messages ->
  _GenerateSGRSequence t position button release isHover modifierKeyState delta =
  Some (render_csi (sgr_csi (_windowsButtonToSGREncoding button isHover modifierKeyState delta) position release)).
Proof.
  intros Hcsi [Hx Hy] Hb. destruct (sgr_decodes button isHover modifierKeyState delta Hb) as [Hr _].
  unfold _GenerateSGRSequence. rewrite Hcsi, !number_int_small by lia. unfold render_csi, sgr_csi.
  cbn [csi_marker csi_arguments csi_intermediates csi_final map render_arguments render_more].
  rewrite !render_plain, app_nil_r. change (option_list (Some 0x3C)) with [0x3C]. flatten. done.
Qed.

Lemma sgr_wf x position release : 0 <= x <= 255 -> on_screen position -> csi_wf (sgr_csi x position release).
Proof.
  unfold on_screen. intros Hx [H1 H2]. apply plain_csi_wf; [done| |simpl; lia|destruct release; lia].
  unfold MAX_PARAMETER_VALUE. repeat (apply Forall_cons; split); try lia. done.
Qed.

Section MousePipe.
Context {D : Type} `{!InteractDispatch D} `{!Keyboard}.
Abbreviation Engine := (InputStateMachineEngine D).
Abbreviation Mach := (StateMachine Engine Empty_set Empty_set).
Implicit Types (s : Mach) (e : Engine) (t : TerminalInput).

(** The event that the console is to be given, and the buttons that are then down. *)
Definition expected_mouse e (position : Z * Z) (button : Z) (release isHover : bool) (modifierKeyState delta now : Z) : MouseEventRecord :=
  let '(flag, scroll, events) := mouse_effect button delta in
  let previous := Z.lor (_mouseButtonState e) scroll in
  let buttonID := sgr_buttonID (_windowsButtonToSGREncoding button isHover modifierKeyState delta) in
  let click := if negb release && is_double_click e position buttonID now then DOUBLE_CLICK else 0 in
  mkMouseEvent position (if release then Z.ldiff previous flag else Z.lor previous flag) (console_modifiers modifierKeyState)
    (WI_SetFlagIf (Z.lor events click) MOUSE_MOVED isHover).

Lemma to_VTInt_succ v : 0 <= v -> VTParameter.to_VTInt (v + 1) - 1 = v.
Proof. intros Hv. unfold VTParameter.to_VTInt. destruct (Z.leb_spec (v + 1) 0); lia. Qed.

Lemma saturated_position position : on_screen position -> (saturated_SHORT position.1, saturated_SHORT position.2) = position.
Proof. destruct position. unfold on_screen, saturated_SHORT, saturated_cast. simpl. intros []. f_equal; lia. Qed.

(** The engine's part. *)
Lemma mouse_input_decodes position button (release : bool) isHover modifierKeyState delta e :
  on_screen position -> button ∈ mouse_messages ->
  let x := _windowsButtonToSGREncoding button isHover modifierKeyState delta in
  let e' := (mouse_input (if release then InputCsi.MouseUp else InputCsi.MouseDown) (csi_parameters (sgr_csi x position release)) e).1 in
  let '(d, now) := steady_clock_now (_pDispatch e) in
  let event := expected_mouse e position button release isHover modifierKeyState delta now in
  _pDispatch e' = (interact (IInteractDispatch.WriteInput [MOUSE_EVENT event]) d).1 /\ _mouseButtonState e' = u16 (dwButtonState event).
Proof.
  intros Hp Hb x. destruct (sgr_decodes button isHover modifierKeyState delta Hb) as (Hr & Heff & Hmod & Hdrag).
  fold x in Hr, Heff, Hmod, Hdrag. unfold mouse_input, expected_mouse, VTParameters.at_. fold x. cbv zeta. simpl lookup. simpl default.
  assert (VTParameter.value_or x 0 = x) as -> by (unfold VTParameter.value_or; destruct (Z.ltb_spec x 0); lia).
  destruct Hp as [Hx Hy]. rewrite !to_VTInt_succ, <- surjective_pairing by lia.
  unfold _UpdateSGRMouseButtonState, clock_now, gets, modify, mbind, comp_bind. cbv zeta.
  rewrite Heff. destruct (steady_clock_now (_pDispatch e)) as [d now].
  destruct (mouse_effect button delta) as [[flag scroll] events]. rewrite Hdrag, ?Hmod. destruct release.
  - change (InputCsi.MouseUp =? InputCsi.MouseDown) with false. change (InputCsi.MouseUp =? InputCsi.MouseUp) with true. cbn [negb andb].
    rewrite Z.lor_0_r. cbn [mret comp_ret]. rewrite ?Hmod. unfold _WriteMouseEvent, calls, SynthesizeMouseEvent.
    rewrite saturated_position by done. simpl. by destruct (interact _ d) as [d' [[]|]].
  - change (InputCsi.MouseDown =? InputCsi.MouseDown) with true. cbn [negb andb]. unfold track_click.
    change (is_double_click (set_pDispatch d e) position (sgr_buttonID x) now) with (is_double_click e position (sgr_buttonID x) now).
    destruct (is_double_click e position (sgr_buttonID x) now);
      [|destruct ((sgr_buttonID x =? MouseButton.Left) || (sgr_buttonID x =? MouseButton.Right) || (sgr_buttonID x =? MouseButton.Middle))];
      cbn [mret comp_ret]; rewrite ?Hmod; unfold _WriteMouseEvent, calls, SynthesizeMouseEvent; rewrite saturated_position by done;
      simpl; by destruct (interact _ d) as [d' [[]|]].
Qed.

(** The button of a report: while the mouse moves, the one that is held down. *)
Definition reported_button (button : Z) (state : MouseButtonState) : Z :=
  if _isHoverMsg button then
    let pressed := s_GetPressedButton state in if pressed =? WM.LBUTTONUP then button else pressed
  else button.

Lemma tracked_is_reported keypad position button modifierKeyState delta state t t' str :
  IsTrackingMouseInput t = true -> str <> [] ->
  HandleMouse keypad position button modifierKeyState delta state t = (t', Some str) ->
  exists t1, _inputMode t1 = _inputMode t /\ _csi t1 = _csi t /\
    reported_button button state ∈ mouse_messages /\
    report_mouse position button (if _isHoverMsg button then s_GetPressedButton state else button) modifierKeyState delta t1 = (t', Some str).
Proof.
  intros Htr Hne. unfold HandleMouse. destruct (accumulate_wheel button delta t) as [t1 ready] eqn:Hacc.
  assert (_inputMode t1 = _inputMode t /\ _csi t1 = _csi t) as [Him Hcsi].
  { unfold accumulate_wheel in Hacc. repeat case_match; simplify_eq/=; done. }
  assert (IsTrackingMouseInput t1 = true) as Htr1 by (unfold IsTrackingMouseInput in *; by rewrite Him). rewrite Htr1.
  destruct ready; [|simpl; intros [= _ <-]; done]. cbn [negb andb].
  destruct (is_reported position button _ t1) eqn:Hrep.
  - intros Hm. exists t1. repeat split; try done. unfold reported_button, is_reported in *.
    destruct (_isHoverMsg button) eqn:Hh.
    + unfold s_GetPressedButton. unfold _isHoverMsg in Hh. apply Z.eqb_eq in Hh as ->.
      repeat case_match; simpl; apply list_elem_of_In; simpl; tauto.
    + rewrite !orb_false_r in Hrep. unfold _isButtonMsg in Hrep. apply bool_decide_eq_true in Hrep.
      apply list_elem_of_In in Hrep. apply list_elem_of_In. simpl in *. tauto.
  - unfold is_reported, _isButtonMsg in Hrep. apply orb_false_iff in Hrep as [[Hb _]%orb_false_iff _].
    apply bool_decide_eq_false in Hb. unfold ShouldSendAlternateScroll, _isWheelMsg.
    destruct (Z.eqb_spec button WM.MOUSEWHEEL) as [->|]; [exfalso; apply Hb, list_elem_of_In; simpl; tauto|].
    destruct (Z.eqb_spec button WM.MOUSEHWHEEL) as [->|]; [exfalso; apply Hb, list_elem_of_In; simpl; tauto|].
    simpl. by rewrite andb_false_r.
Qed.

Lemma mouse_input_handled id parameters e : (mouse_input id parameters e).2 <> Returned false.
Proof.
  assert (wp (mouse_input id parameters) (fun b _ => b = true) (fun _ => True) False e) as Hwp.
  { unfold mouse_input. cbv zeta. apply wp_bind. eapply wp_mono; [apply defined_update| |done|done].
    intros [[buttonState eventFlags]|] e1 _; [|done]. apply wp_bind. eapply wp_mono; [apply defined_calls|done|done|done]. }
  unfold wp in Hwp. by destruct (mouse_input id parameters e) as [e' [[]| | |]].
Qed.

Lemma answered_mouse x position release str e : IsVtInputEnabled (_pDispatch e) = false ->
  answered str (input_ActionCsiDispatch (csi_id (sgr_csi x position release)) (csi_parameters (sgr_csi x position release))) e =
  (mouse_input (if release : bool then InputCsi.MouseUp else InputCsi.MouseDown) (csi_parameters (sgr_csi x position release)) e).1.
Proof.
  intros Hvt. set (ps := csi_parameters (sgr_csi x position release)).
  assert (input_ActionCsiDispatch (csi_id (sgr_csi x position release)) ps =
    unless_vt (mouse_input (if release then InputCsi.MouseUp else InputCsi.MouseDown) ps)) as -> by (by destruct release).
  unfold answered, unless_vt, vt_input_enabled, gets, mbind, comp_bind. rewrite Hvt.
  pose proof (mouse_input_handled (if release then InputCsi.MouseUp else InputCsi.MouseDown) ps e).
  by destruct (mouse_input _ ps e) as [e' [[]| | |]].
Qed.

(** C30: Mouse reports in SGR encoding round-trip: whenever a terminal that tracks
    the mouse reports an event, the console that reads the report is given one mouse
    event at the same position, with the button, wheel and motion of the message
    and the modifiers that were held; double clicks are recognised by position,
    button and time. *)
Theorem sgr_mouse_roundtrip depth keypad position button modifierKeyState delta state t t' str s :
  keymap_ok t -> test_mode t Mode.SendC1 = false -> IsTrackingMouseInput t = true ->
  test_mode t Mode.SgrMouseEncoding = true -> test_mode t Mode.Utf8MouseEncoding = false ->
  on_screen position -> ready s -> IsVtInputEnabled (_pDispatch (_engine s)) = false -> str <> [] ->
  HandleMouse keypad position button modifierKeyState delta state t = (t', Some str) ->
  exists s', ProcessString (S depth) str s = (s', Returned tt) /\ ready s' /\
    let '(d, now) := steady_clock_now (_pDispatch (_engine s)) in
    let event := expected_mouse (_engine s) position (reported_button button state) (_isButtonUp button) (_isHoverMsg button)
                   modifierKeyState delta now in
    _pDispatch (_engine s') = (interact (IInteractDispatch.WriteInput [MOUSE_EVENT event]) d).1 /\
    _mouseButtonState (_engine s') = u16 (dwButtonState event).
Proof.
  intros Hmap Hc1 Htr Hsgr Hutf Hp Hr Hvt Hne Hm.
  destruct (tracked_is_reported _ _ _ _ _ _ _ _ _ Htr Hne Hm) as (t1 & Him & Hcsi & Hb & Hrep).
  assert (_csi t = [ESC_; 0x5B]) as Hc by (apply keymap_ok_iff in Hmap; rewrite Hc1 in Hmap; apply Hmap).
  set (rb := reported_button button state) in *. set (x := _windowsButtonToSGREncoding rb (_isHoverMsg button) modifierKeyState delta).
  assert (str = render_csi (sgr_csi x position (_isButtonUp button))) as ->.
  { unfold report_mouse in Hrep. set (t2 := if enumset.any_of _ _ then _ else t1) in Hrep.
    assert (_inputMode t2 = _inputMode t /\ _csi t2 = _csi t) as [Him2 Hcsi2] by (unfold t2; destruct (enumset.any_of _ _); by split).
    assert ((if negb ((if _isHoverMsg button then s_GetPressedButton state else button) =? WM.LBUTTONUP)
             then (if _isHoverMsg button then s_GetPressedButton state else button) else button) = rb) as Hrb.
    { unfold rb, reported_button. destruct (_isHoverMsg button), (_ =? WM.LBUTTONUP); done. }
    unfold test_mode in *. rewrite Him2, Hutf, Hsgr, Hrb, (sgr_rendered t2 position rb) in Hrep by (congruence || done).
    by injection Hrep as _ <-. }
  destruct (sgr_decodes rb (_isHoverMsg button) modifierKeyState delta Hb) as [Hx _]. fold x in Hx.
  destruct (input_csi depth (sgr_csi x position (_isButtonUp button)) s (sgr_wf x position (_isButtonUp button) Hx Hp) Hr) as (s' & Heq & Hr' & He).
  exists s'. split; [done|]. split; [done|].
  pose proof (mouse_input_decodes position rb (_isButtonUp button) (_isHoverMsg button) modifierKeyState delta (_engine s) Hp Hb) as Hdec.
  cbv zeta in Hdec. fold x in Hdec.
  assert (_engine s' = (mouse_input (if _isButtonUp button then InputCsi.MouseUp else InputCsi.MouseDown)
    (csi_parameters (sgr_csi x position (_isButtonUp button))) (_engine s)).1) as ->; [|exact Hdec].
  rewrite He. by apply answered_mouse.
Qed.
End MousePipe.

(** ** A terminal and a console at work *)

(** Shift+Up, in a console whose application asked for VT input. *)
Definition shift_up : Csi := mkCsi None (map plain_argument [1; 2]) [] 0x41.

Definition input_history : list input_op :=
  [op_SetInputMode Mode.AnyEventMouseTracking true; op_SetInputMode Mode.SgrMouseEncoding true; op_PushKittyFlags 5;
   op_HandleMouse (3, 4) WM.MOUSEWHEEL 0 60 (mkMouseButtonState false false false); op_UseAlternateScreenBuffer;
   op_SetInputMode Mode.ButtonEventMouseTracking true; op_SetInputMode Mode.SendC1 true; op_ForceDisableKittyKeyboardProtocol true].

Lemma terminal_input_invariant_witness : input_ok (fold_left (apply_op true) input_history new_TerminalInput).
Proof.
  apply (terminal_input_invariant true input_history).
  repeat (apply Forall_cons; split); try by apply Forall_nil. all: simpl; unfold Mode.AlternateScroll; lia || done.
Defined.

Definition win32_terminal : TerminalInput := SetInputMode Mode.Win32 true new_TerminalInput.
Definition typed : list KeyEventRecord :=
  [mkKeyEvent true 1 0x41 30 0x61 0; mkKeyEvent false 1 0x41 30 0x61 0; mkKeyEvent true 2 VK.RETURN 28 0xD ENHANCED_KEY].

Lemma win32_keys_roundtrip_witness :
  exists s', read_strings 2 (type_keys true win32_terminal typed) (new_console false) = (s', Returned tt) /\ ready s' /\
    console_log (_pDispatch (_engine s')) = map IInteractDispatch.WriteCtrlKey typed.
Proof.
  destruct (win32_keys_roundtrip 2 true win32_terminal typed (new_console false)) as (s' & Heq & Hr & Hd);
    [vm_compute; reflexivity..| |repeat split|].
  - repeat (apply Forall_cons; split); try by apply Forall_nil. all: unfold key16, is_wchar; vm_compute; repeat split; discriminate || done.
  - exists s'. split; [exact Heq|]. split; [exact Hr|]. rewrite Hd. reflexivity.
Defined.

Definition mouse_terminal : TerminalInput :=
  SetInputMode Mode.SgrMouseEncoding true (SetInputMode Mode.DefaultMouseTracking true new_TerminalInput).

Lemma sgr_mouse_roundtrip_witness :
  let s := new_console false in
  let pressed := mkMouseButtonState true false false in
  let '(_, report) := HandleMouse true (10, 4) WM.LBUTTONDOWN SHIFT_PRESSED 0 pressed mouse_terminal in
  exists str s', report = Some str /\ ProcessString 3 str s = (s', Returned tt) /\ ready s' /\
    console_log (_pDispatch (_engine s')) =
      [IInteractDispatch.WriteInput [MOUSE_EVENT (mkMouseEvent (10, 4) FROM_LEFT_1ST_BUTTON_PRESSED SHIFT_PRESSED 0)]].
Proof.
  cbv zeta. set (pressed := mkMouseButtonState true false false).
  destruct (HandleMouse true (10, 4) WM.LBUTTONDOWN SHIFT_PRESSED 0 pressed mouse_terminal) as [t' report] eqn:Hm.
  assert (report = Some (render_csi (sgr_csi 4 (10, 4) false))) as -> by (vm_compute in Hm |- *; congruence).
  destruct (sgr_mouse_roundtrip 2 true (10, 4) WM.LBUTTONDOWN SHIFT_PRESSED 0 pressed mouse_terminal t'
    (render_csi (sgr_csi 4 (10, 4) false)) (new_console false)) as (s' & Heq & Hr & Hd & _);
    [vm_compute; reflexivity..|split; simpl; lia|repeat split|vm_compute; reflexivity|discriminate|exact Hm|].
  eexists _, s'. split; [reflexivity|]. split; [exact Heq|]. split; [exact Hr|]. rewrite Hd. vm_compute. reflexivity.
Defined.
