(* ===== verification/RenderSettings.v ===== *)
(** * Colours and render modes

    src/renderer/base/RenderSettings.cpp: the colour table with its aliases, their saved
    defaults, and how the colours of a cell are found. The adjustment of text that cannot
    be told from its background computes with floating-point numbers; it is a parameter. *)

From S2P Require Import Prelude Til Utils ColorTable TextAttributes.

Module ColorAlias.
Definition DefaultForeground : nat := 0.
Definition DefaultBackground : nat := 1.
Definition FrameForeground : nat := 2.
Definition FrameBackground : nat := 3.
Definition ENUM_COUNT : nat := 4.
End ColorAlias.

Definition DEFAULT_FOREGROUND : Z := 261.
Definition DEFAULT_BACKGROUND : Z := 262.
Definition FRAME_FOREGROUND : Z := 263.
Definition FRAME_BACKGROUND : Z := 264.
Definition CURSOR_COLOR : Z := 265.
Definition SELECTION_BACKGROUND : Z := 266.
Definition TABLE_SIZE : Z := 267.
Definition INVALID_COLOR : Z := 0xffffffff.

Module RenderMode.
Definition IndexedDistinguishableColors : Z := 0.
Definition AlwaysDistinguishableColors : Z := 1.
Definition IntenseIsBold : Z := 2.
Definition IntenseIsBright : Z := 3.
Definition ScreenReversed : Z := 4.
Definition SynchronizedOutput : Z := 5.
End RenderMode.

Record RenderSettings := mkRenderSettings {
  _renderMode : Z;
  _colorTable : list Z;
  _colorAliasIndices : list Z;
  _defaultColorTable : list Z;
  _defaultColorAliasIndices : list Z;
  _blinkShouldBeFaint : bool
}.

Definition set_renderMode m (s : RenderSettings) : RenderSettings :=
  mkRenderSettings m (_colorTable s) (_colorAliasIndices s) (_defaultColorTable s) (_defaultColorAliasIndices s) (_blinkShouldBeFaint s).
Definition set_colors table aliases (s : RenderSettings) : RenderSettings :=
  mkRenderSettings (_renderMode s) table aliases (_defaultColorTable s) (_defaultColorAliasIndices s) (_blinkShouldBeFaint s).

Definition SaveDefaultSettings (s : RenderSettings) : RenderSettings :=
  mkRenderSettings (_renderMode s) (_colorTable s) (_colorAliasIndices s) (_colorTable s) (_colorAliasIndices s) (_blinkShouldBeFaint s).
Definition RestoreDefaultSettings (s : RenderSettings) : RenderSettings :=
  set_renderMode (enumset.reset_all (_renderMode s) [RenderMode.ScreenReversed; RenderMode.SynchronizedOutput])
    (set_colors (_defaultColorTable s) (_defaultColorAliasIndices s) s).

Definition SetRenderMode (mode : Z) (enabled : bool) (s : RenderSettings) : RenderSettings := set_renderMode (enumset.set (_renderMode s) mode enabled) s.
Definition GetRenderMode (mode : Z) (s : RenderSettings) : bool := enumset.test (_renderMode s) mode.
Definition RenderSettings_ResetColorTable (s : RenderSettings) : RenderSettings :=
  set_colors (InitializeColorTable (take 16 (_colorTable s)) ++ drop 16 (_colorTable s)) (_colorAliasIndices s) s.

(** [at] of an array throws. *)
Definition SetColorTableEntry (tableIndex color : Z) : comp RenderSettings unit := fun s =>
  if (0 <=? tableIndex) && (tableIndex <? TABLE_SIZE) then (set_colors (<[Z.to_nat tableIndex := color]> (_colorTable s)) (_colorAliasIndices s) s, Returned tt) else (s, Threw).
Definition GetColorTableEntry (tableIndex : Z) : comp RenderSettings Z := fun s =>
  if (0 <=? tableIndex) && (tableIndex <? TABLE_SIZE) then match _colorTable s !! Z.to_nat tableIndex with Some c => (s, Returned c) | None => (s, Undefined) end else (s, Threw).
Definition RestoreDefaultIndexed256ColorTable (s : RenderSettings) : RenderSettings :=
  set_colors (take 256 (_defaultColorTable s) ++ drop 256 (_colorTable s)) (_colorAliasIndices s) s.
Definition RestoreDefaultColorTableEntry (tableIndex : Z) : comp RenderSettings unit := fun s =>
  match _defaultColorTable s !! Z.to_nat tableIndex with
  | Some c => SetColorTableEntry tableIndex c s
  | None => (s, Threw)
  end.

Definition SetColorAliasIndex (alias : nat) (tableIndex : Z) (s : RenderSettings) : RenderSettings :=
  if (0 <=? tableIndex) && (tableIndex <? TABLE_SIZE) then set_colors (_colorTable s) (<[alias := tableIndex]> (_colorAliasIndices s)) s else s.
Definition GetColorAliasIndex (alias : nat) (s : RenderSettings) : Z := nth alias (_colorAliasIndices s) 0.
Definition RestoreDefaultColorAliasIndex (alias : nat) (s : RenderSettings) : RenderSettings :=
  set_colors (_colorTable s) (<[alias := nth alias (_defaultColorAliasIndices s) 0]> (_colorAliasIndices s)) s.
Definition SetColorAlias (alias : nat) (tableIndex color : Z) : comp RenderSettings unit :=
  modify (SetColorAliasIndex alias tableIndex);; SetColorTableEntry tableIndex color.
Definition GetColorAlias (alias : nat) : comp RenderSettings Z := s ← gets id; GetColorTableEntry (GetColorAliasIndex alias s).

Definition ToggleBlinkRendition (s : RenderSettings) : RenderSettings :=
  mkRenderSettings (_renderMode s) (_colorTable s) (_colorAliasIndices s) (_defaultColorTable s) (_defaultColorAliasIndices s) (negb (_blinkShouldBeFaint s)).

(** The constructor; [memory] is what the table holds before it is initialised, and keeps
    in the entries that are reserved. *)
Definition new_RenderSettings (memory : list Z) : RenderSettings :=
  let table := InitializeColorTable memory in
  let table := fold_left (fun t i => <[Z.to_nat i := INVALID_COLOR]> t)
    [DEFAULT_FOREGROUND; DEFAULT_BACKGROUND; FRAME_FOREGROUND; FRAME_BACKGROUND; CURSOR_COLOR; SELECTION_BACKGROUND] table in
  SaveDefaultSettings (mkRenderSettings (enumset.of_positions [RenderMode.IntenseIsBright]) table
    [TextColor.DARK_WHITE; TextColor.DARK_BLACK; FRAME_FOREGROUND; FRAME_BACKGROUND] [] [] false).

(** ** The colours of a cell *)
Section Colors.
(** [Feature_AdjustIndistinguishableText::IsEnabled()], and [ColorFix::GetPerceivableColor]
    with the difference that is asked for. *)
Variable Feature_AdjustIndistinguishableText : bool.
Variable GetPerceivableColor : Z -> Z -> Z.

Definition GetAttributeColors (attr : TextAttribute.t) (s : RenderSettings) : Z * Z :=
  let fgTextColor := TextAttribute._foreground attr in
  let bgTextColor := TextAttribute._background attr in
  let brightenFg := TextAttribute.IsIntense attr && GetRenderMode RenderMode.IntenseIsBright s in
  let dimFg := TextAttribute.IsFaint attr || (_blinkShouldBeFaint s && TextAttribute.IsBlinking attr) in
  let swapFgAndBg := xorb (TextAttribute.IsReverseVideo attr) (GetRenderMode RenderMode.ScreenReversed s) in
  let fg := TextColor.GetColor (_colorTable s) (GetColorAliasIndex ColorAlias.DefaultForeground s) brightenFg fgTextColor in
  let bg := TextColor.GetColor (_colorTable s) (GetColorAliasIndex ColorAlias.DefaultBackground s) false bgTextColor in
  let fg := if dimFg then Z.land (Z.shiftr fg 1) 0x7F7F7F else fg in
  let '(fg, bg) := if swapFgAndBg then (bg, fg) else (fg, bg) in
  let fg := if TextAttribute.IsInvisible attr then bg else fg in
  if Feature_AdjustIndistinguishableText &&
     (enumset.any_of (_renderMode s) [RenderMode.IndexedDistinguishableColors; RenderMode.AlwaysDistinguishableColors] && negb (fg =? bg) &&
      (enumset.test (_renderMode s) RenderMode.AlwaysDistinguishableColors || (TextColor.IsDefaultOrLegacy fgTextColor && TextColor.IsDefaultOrLegacy bgTextColor)))
  then (GetPerceivableColor fg bg, bg) else (fg, bg).

Definition GetAttributeColorsWithAlpha (attr : TextAttribute.t) (s : RenderSettings) : Z * Z :=
  let '(fg, bg) := GetAttributeColors attr s in
  (Z.lor fg 0xff000000,
   if negb (TextColor.IsDefault (TextAttribute._background attr)) || xorb (TextAttribute.IsReverseVideo attr) (GetRenderMode RenderMode.ScreenReversed s) || TextAttribute.IsInvisible attr
   then Z.lor bg 0xff000000 else bg).

Definition GetAttributeUnderlineColor (attr : TextAttribute.t) (s : RenderSettings) : Z :=
  let '(fg, bg) := GetAttributeColors attr s in
  let ulTextColor := TextAttribute._underlineColor attr in
  if TextColor.IsDefault ulTextColor then fg
  else
    let ul := TextColor.GetColor (_colorTable s) (GetColorAliasIndex ColorAlias.DefaultForeground s) true ulTextColor in
    let ul := if TextAttribute.IsInvisible attr then bg else ul in
    if Feature_AdjustIndistinguishableText &&
       (negb (ul =? bg) &&
        (enumset.test (_renderMode s) RenderMode.AlwaysDistinguishableColors ||
         (enumset.test (_renderMode s) RenderMode.IndexedDistinguishableColors && TextColor.IsDefaultOrLegacy ulTextColor && TextColor.IsDefaultOrLegacy (TextAttribute._background attr))))
    then GetPerceivableColor ul bg else ul.
End Colors.
