(* ===== verification/Pages.v ===== *)
(** * The terminal as the dispatcher sees it, and its pages

    src/terminal/adapter/ITerminalApi.hpp and PageManager.cpp. [ITerminalApi] is a
    class: its methods, and the objects that the dispatcher shares with the terminal.
    A reference to a text buffer is the visible one or that of a background page.
    The redrawing of the screen is left out. *)

From stdpp Require Import list gmap.
From S2P Require Import Prelude Til Utils TermDispatch TextAttributes CodepointWidth CodepointWidthProps Geometry Cursor TextBuffer TerminalInput RenderSettings.

(** What is global to the process: the width detector, the heap, and the first mutation
    identifier of the next buffer. *)
Record Process (D : Type) := mkProcess { singleton : D; heap : nat; s_lastMutationIdInitialValue : Z }.
Arguments mkProcess {D}. Arguments singleton {D}. Arguments heap {D}. Arguments s_lastMutationIdInitialValue {D}.

Module SystemMode.
Definition AutoWrap : Z := 0.
Definition LineFeed : Z := 1.
Definition BracketedPaste : Z := 2.
End SystemMode.

(** The method [GetBufferAndViewport] returns a reference to the buffer; it is read and
    written with [visibleBuffer] and [put_visibleBuffer]. The dispatcher has references
    to the [TerminalInput] and the [RenderSettings] of the terminal as well. *)
Class ITerminalApi (A D : Type) := {
  visibleBuffer : A -> TextBuffer D;
  put_visibleBuffer : TextBuffer D -> A -> A;
  visibleViewport : A -> rect.t;
  isMainBuffer : A -> bool;
  terminalInput : A -> TerminalInput;
  put_terminalInput : TerminalInput -> A -> A;
  renderSettings : A -> RenderSettings;
  put_renderSettings : RenderSettings -> A -> A;
  process : A -> Process D;
  put_process : Process D -> A -> A;
  api_UnknownSequence : A -> A;
  api_ReturnResponse : wstring -> comp A unit;
  api_IsConPTY : A -> bool;
  api_SetViewportPosition : point.t -> comp A unit;
  api_IsVtInputEnabled : A -> bool;
  api_SetSystemMode : Z -> bool -> comp A unit;
  api_GetSystemMode : Z -> A -> bool;
  api_ReturnAnswerback : comp A unit;
  api_WarningBell : comp A unit;
  api_SetWindowTitle : wstring -> comp A unit;
  api_UseAlternateScreenBuffer : TextAttribute.t -> comp A unit;
  api_UseMainScreenBuffer : comp A unit;
  api_GetUserDefaultCursorStyle : A -> Z;
  api_ShowWindow : bool -> comp A unit;
  api_SetCodePage : Z -> comp A unit;
  api_ResetCodePage : comp A unit;
  api_GetOutputCodePage : A -> Z;
  api_GetInputCodePage : A -> Z;
  api_CopyToClipboard : wstring -> comp A unit;
  api_SetTaskbarProgress : Z -> Z -> comp A unit;
  api_SetWorkingDirectory : wstring -> comp A unit;
  api_SetShellType : wstring -> wstring -> comp A unit;
  api_PlayMidiNote : Z -> Z -> Z -> comp A unit;
  api_ResizeWindow : Z -> Z -> comp A bool;
  api_NotifyBufferRotation : Z -> comp A unit;
  api_NotifyShellIntegrationMark : comp A unit;
  api_InvokeCompletions : wstring -> Z -> comp A unit;
  api_SearchMissingCommand : wstring -> comp A unit;
  api_NotifyVtSequence : wstring -> comp A unit;
  api_ShowNotification : wstring -> wstring -> comp A unit
}.

(** ** Pages *)

(** [page_ref]: [None] is the visible buffer, [Some n] that of the background page [n]. *)
Record Page := mkPage { page_ref : option nat; _viewport : rect.t; _number : Z }.

Module Page.
Definition Viewport (p : Page) : rect.t := _viewport p.
Definition Number (p : Page) : Z := _number p.
Definition Top (p : Page) : Z := rect.top (_viewport p).
Definition Bottom (p : Page) : Z := rect.bottom (_viewport p).
Definition Height (p : Page) : Z := Bottom p - Top p.
Definition XPanOffset (p : Page) : Z := rect.left (_viewport p).
Definition YPanOffset (p : Page) : Z := 0.
Definition MoveViewportDown (p : Page) : Page :=
  let v := _viewport p in mkPage (page_ref p) (rect.mk (rect.left v) (rect.top v + 1) (rect.right v) (rect.bottom v + 1)) (_number p).
End Page.

Definition MAX_PAGES : Z := 6.

Record PageManager (A D : Type) := mkPages {
  _api : A;
  _activePageNumber : Z;
  _visiblePageNumber : Z;
  _buffers : list (option (TextBuffer D))
}.
Arguments mkPages {A D}. Arguments _api {A D}. Arguments _activePageNumber {A D}. Arguments _visiblePageNumber {A D}. Arguments _buffers {A D}.

Section Pages.
Context {A D : Type} `{Measurement D} `{!ITerminalApi A D}.
Variable avx2 : bool.
Variable uninitialised : nat -> Z.
Variable allocated : nat -> Z.
Variable rowSize : Z.
Local Abbreviation M := (comp (PageManager A D)).
Implicit Types s : PageManager A D.

Definition set_api (a : A) s : PageManager A D := mkPages a (_activePageNumber s) (_visiblePageNumber s) (_buffers s).
Definition set_active (n : Z) s : PageManager A D := mkPages (_api s) n (_visiblePageNumber s) (_buffers s).
Definition set_visible (n : Z) s : PageManager A D := mkPages (_api s) (_activePageNumber s) n (_buffers s).
Definition set_buffers v s : PageManager A D := mkPages (_api s) (_activePageNumber s) (_visiblePageNumber s) v.

Definition with_api {X} (m : comp A X) : M X := fun s => let '(a, o) := m (_api s) in (set_api a s, o).

(** ** References to buffers *)

Definition buffer_of (ref : option nat) s : option (TextBuffer D) :=
  match ref with None => Some (visibleBuffer (_api s)) | Some n => mjoin (_buffers s !! n) end.
Definition put_buffer (ref : option nat) (b : TextBuffer D) s : PageManager A D :=
  match ref with None => set_api (put_visibleBuffer b (_api s)) s | Some n => set_buffers (<[n := Some b]> (_buffers s)) s end.

(** A method of a buffer: it measures with the one detector, and allocates from the one
    heap of the process. *)
Definition attached (p : Process D) (b : TextBuffer D) : TextBuffer D := set_detector (singleton p) (heap p) b.
Definition on_buffer {X} (ref : option nat) (m : comp (TextBuffer D) X) : M X := fun s =>
  match buffer_of ref s with
  | None => (s, Undefined)
  | Some b =>
    let p := process (_api s) in
    let '(b, o) := m (attached p b) in
    let s := put_buffer ref b s in
    (set_api (put_process (mkProcess (_detector b) (_allocations b) (s_lastMutationIdInitialValue p)) (_api s)) s, o)
  end.
Definition read_buffer {X} (ref : option nat) (f : TextBuffer D -> X) : M X := fun s =>
  match buffer_of ref s with None => (s, Undefined) | Some b => (s, Returned (f b)) end.

(** [s_lastMutationIdInitialValue.fetch_add(0x100000000)] *)
Definition next_mutation_id : M Z := fun s =>
  let p := process (_api s) in
  (set_api (put_process (mkProcess (singleton p) (heap p) (u64 (s_lastMutationIdInitialValue p + 2 ^ 32))) (_api s)) s, Returned (s_lastMutationIdInitialValue p)).

(** ** The page manager *)

Definition new_PageManager (a : A) : PageManager A D := mkPages a 1 1 (repeat None (Z.to_nat MAX_PAGES)).
Definition PageManager_Reset : M unit := modify (fun s => mkPages (_api s) 1 1 (repeat None (Z.to_nat MAX_PAGES))).

Definition _getBuffer (pageNumber : Z) (pageSize : size.t) : M nat :=
  let n := Z.to_nat (pageNumber - 1) in
  s ← gets id;
  match _buffers s !! n with
  | None => undefined
  | Some None =>
    mutationId ← next_mutation_id;
    s ← gets id;
    let p := process (_api s) in
    match TextBuffer_new allocated pageSize TextAttribute.default 0 false mutationId (singleton p) (heap p) with
    | (b, Returned _) =>
      modify (fun s => set_api (put_process (mkProcess (_detector b) (_allocations b) (s_lastMutationIdInitialValue p)) (_api s)) (set_buffers (<[n := Some b]> (_buffers s)) s));;
      mret n
    | (_, Threw) => throw
    | (_, Undefined) => undefined
    | (_, OutOfFuel) => out_of_fuel
    end
  | Some (Some b) =>
    (if (_width b =? size.width pageSize) && (_height b =? size.height pageSize) then mret tt
     else mutationId ← next_mutation_id; on_buffer (Some n) (ResizeTraditional avx2 uninitialised allocated rowSize pageSize mutationId));;
    mret n
  end.

(** The checked arithmetic of rectangles throws. *)
Definition checked {X} (o : option X) : M X := match o with Some x => mret x | None => throw end.
Definition viewport_size (v : rect.t) : M size.t := w ← checked (rect.width v); h ← checked (rect.height v); mret (size.mk w h).

Definition Get (pageNumber : Z) : M Page :=
  let requestedPageNumber := Z.min (Z.max pageNumber 1) MAX_PAGES in
  s ← gets id;
  let visible := visibleViewport (_api s) in
  if negb (isMainBuffer (_api s)) then mret (mkPage None visible 1)
  else if requestedPageNumber =? _visiblePageNumber s then mret (mkPage None visible (_visiblePageNumber s))
  else
    pageSize ← viewport_size visible;
    n ← _getBuffer requestedPageNumber pageSize;
    mret (mkPage (Some n) (rect.of_size pageSize) requestedPageNumber).

Definition ActivePage : M Page := s ← gets id; Get (_activePageNumber s).
Definition VisiblePage : M Page := s ← gets id; Get (_visiblePageNumber s).

(** [src.CopyRow(srcRow, dstRow, dst)] between two buffers. *)
Definition CopyRow_between (src dst : option nat) (srcRow dstRow : Z) : M unit :=
  dstSlot ← on_buffer dst (GetMutableRowByOffset avx2 uninitialised rowSize dstRow);
  srcSlot ← on_buffer src (GetRowByOffset avx2 uninitialised rowSize srcRow);
  source ← on_buffer src (row_at srcSlot);
  on_buffer dst (CopyRow_into avx2 uninitialised allocated source false dstSlot).

Fixpoint copy_page (count : nat) (src dst : option nat) (srcRow dstRow : Z) : M unit :=
  match count with
  | O => mret tt
  | S count => CopyRow_between src dst srcRow dstRow;; copy_page count src dst (srcRow + 1) (dstRow + 1)
  end.

(** Swaps the visible page out, and the new one in. *)
Definition swap_pages (newPageNumber : Z) (pageSize : size.t) (visibleTop : Z) : M unit :=
  newBuffer ← _getBuffer newPageNumber pageSize;
  visiblePageNumber ← gets _visiblePageNumber;
  saveBuffer ← _getBuffer visiblePageNumber pageSize;
  copy_page (Z.to_nat (size.height pageSize)) None (Some saveBuffer) visibleTop 0;;
  copy_page (Z.to_nat (size.height pageSize)) (Some newBuffer) None 0 visibleTop;;
  modify (set_visible newPageNumber).

(** The properties of the old buffer go to the new one. *)
Definition hand_over (oldBuffer newBuffer : option nat) (oldTop newTop : Z) : M unit :=
  old ← read_buffer oldBuffer id;
  let position := Cursor._cPosition (_cursor old) in
  on_buffer newBuffer (SetCurrentAttributes (_currentAttributes old);; CopyProperties old;;
    modify (fun b => set_cursor (Cursor.SetPosition (point.mk (point.x position) (point.y position - oldTop + newTop)) (_cursor b)) b)).

Definition MoveTo (pageNumber : Z) (makeVisible : bool) : M unit :=
  s ← gets id;
  if negb (isMainBuffer (_api s)) then mret tt
  else
    pageSize ← viewport_size (visibleViewport (_api s));
    let visibleTop := rect.top (visibleViewport (_api s)) in
    let wasVisible := _activePageNumber s =? _visiblePageNumber s in
    let newPageNumber := Z.min (Z.max pageNumber 1) MAX_PAGES in
    (if makeVisible && negb (_visiblePageNumber s =? newPageNumber) then swap_pages newPageNumber pageSize visibleTop else mret tt);;
    visiblePageNumber ← gets _visiblePageNumber;
    let isVisible := newPageNumber =? visiblePageNumber in
    (if negb wasVisible || negb isVisible then
       oldBuffer ← (if wasVisible then mret None else n ← _getBuffer (_activePageNumber s) pageSize; mret (Some n));
       newBuffer ← (if isVisible then mret None else n ← _getBuffer newPageNumber pageSize; mret (Some n));
       (if decide (oldBuffer = newBuffer) then mret tt
        else hand_over oldBuffer newBuffer (if wasVisible then visibleTop else 0) (if isVisible then visibleTop else 0));;
       if wasVisible && negb isVisible then on_buffer None (modify (fun b => set_cursor (Cursor.SetIsVisible false (_cursor b)) b)) else mret tt
     else mret tt);;
    modify (set_active newPageNumber).

Definition MoveRelative (pageCount : Z) (makeVisible : bool) : M unit := s ← gets id; MoveTo (_activePageNumber s + pageCount) makeVisible.
Definition MakeActivePageVisible : M unit :=
  s ← gets id; if _activePageNumber s =? _visiblePageNumber s then mret tt else MoveTo (_activePageNumber s) true.
End Pages.
