(* ===== verification/BufferMarks.v ===== *)
(** * Marks of the shell integration

    src/buffer/out/textBuffer.cpp and Marks.hpp: where prompts, commands and outputs lie in
    the buffer, and how the shell marks them. *)

From stdpp Require Import list gmap.
From S2P Require Import Prelude Til Utils TermDispatch TextAttributes Rle CodepointWidth CodepointWidthProps Geometry ImageSlice Row RowWrite Cursor TextBuffer.

Record MarkExtents := mkExtents {
  extent_data : ScrollbarData;
  extent_start : point.t;
  extent_end : point.t;
  commandEnd : option point.t;
  outputEnd : option point.t
}.
Definition HasCommand (m : MarkExtents) : bool := match commandEnd m with Some p => negb (point.eqb p (extent_end m)) | None => false end.
(** [*commandEnd] is there whenever there is an output. *)
Definition HasOutput (m : MarkExtents) : bool := match outputEnd m with Some p => negb (point.eqb p (default (point.mk 0 0) (commandEnd m))) | None => false end.
Definition GetExtent (m : MarkExtents) : point.t * point.t :=
  (extent_start m, match outputEnd m with Some p => p | None => default (extent_end m) (commandEnd m) end).

(** The variables of [_scrollMarkExtentForRow]. *)
Record ExtentState := mkExtentState { mark : MarkExtents; startedPrompt : bool; startedCommand : bool; startedOutput : bool; lastMarkedText : point.t }.

Definition endThisMark (s : ExtentState) : ExtentState :=
  let p := lastMarkedText s in
  let m := mark s in
  let m := if startedOutput s then mkExtents (extent_data m) (extent_start m) (extent_end m) (commandEnd m) (Some p) else m in
  let m := if negb (startedOutput s) && startedCommand s then mkExtents (extent_data m) (extent_start m) (extent_end m) (Some p) (outputEnd m) else m in
  let m := if startedCommand s then m else mkExtents (extent_data m) (extent_start m) p (commandEnd m) (outputEnd m) in
  mkExtentState m (startedPrompt s) (startedCommand s) (startedOutput s) (lastMarkedText s).

(** One run from column [x] on; [None] leaves the loop over the runs. *)
Definition extent_run (y x nextX : Z) (kind : MarkKind) (s : ExtentState) : option ExtentState * ExtentState :=
  let s := mkExtentState (mark s) (startedPrompt s) (startedCommand s) (startedOutput s) (point.mk nextX y) in
  match kind with
  | MarkNone => (Some s, s)
  | TextAttributes.MarkPrompt =>
    if startedCommand s || startedOutput s then (None, s)
    else
      let m := mark s in
      let s := if startedPrompt s then s else mkExtentState (mkExtents (extent_data m) (point.mk x y) (extent_end m) (commandEnd m) (outputEnd m)) true (startedCommand s) (startedOutput s) (lastMarkedText s) in
      let s := endThisMark s in (Some s, s)
  | MarkCommand =>
    let s := if startedPrompt s then endThisMark (mkExtentState (mark s) true true (startedOutput s) (lastMarkedText s)) else s in (Some s, s)
  | MarkOutput =>
    let s :=
      if startedPrompt s then
        let m := mark s in
        let '(m, command) := match commandEnd m with
          | Some _ => (m, startedCommand s)
          | None => (mkExtents (extent_data m) (extent_start m) (extent_end m) (Some (extent_end m)) (outputEnd m), true)
          end in
        endThisMark (mkExtentState m true command true (lastMarkedText s))
      else s in (Some s, s)
  end.
Fixpoint extent_runs (y x : Z) (runs : list (rle_pair TextAttribute.t)) (s : ExtentState) : ExtentState :=
  match runs with
  | [] => s
  | run :: runs =>
    let nextX := u16 (x + length_ run) in
    let kind := TextAttribute._markKind (value run) in
    if decide (kind = MarkNone) then extent_runs y nextX runs s
    else match extent_run y x nextX kind s with (Some s, _) => extent_runs y nextX runs s | (None, s) => s end
  end.

(** The text of the command in one row; [None]: the search is over. *)
Record CommandState := mkCommandState { commandBuilder : wstring; lastMarkKind : MarkKind }.
Fixpoint command_runs (r : ROW) (cursor : option Z) (x : Z) (runs : list (rle_pair TextAttribute.t)) (s : CommandState) : option (CommandState * bool) :=
  match runs with
  | [] => Some (s, false)
  | run :: runs =>
    let nextX := u16 (x + length_ run) in
    let nextX := match cursor with Some c => Z.min nextX (u16 c) | None => nextX end in
    let kind := TextAttribute._markKind (value run) in
    if decide (kind <> lastMarkKind s /\ lastMarkKind s = MarkCommand) then Some (s, true)
    else
      text ← (if decide (kind = MarkCommand) then GetTextBetween x nextX r else Some []);
      let s := mkCommandState (commandBuilder s ++ text) kind in
      match cursor with
      | Some c => if nextX =? c then Some (s, true) else command_runs r cursor nextX runs s
      | None => command_runs r cursor nextX runs s
      end
  end.

Section Marks.
Context {D : Type} `{Measurement D}.
Variable avx2 : bool.
Variable uninitialised : nat -> Z.
Variable rowSize : Z.
Local Abbreviation M := (comp (TextBuffer D)).
Implicit Types b : TextBuffer D.
Local Abbreviation GetRowByOffset := (GetRowByOffset avx2 uninitialised rowSize).
Local Abbreviation GetMutableRowByOffset := (GetMutableRowByOffset avx2 uninitialised rowSize).

(** ** Finding marks *)

Fixpoint mark_rows (count : nat) (y : Z) : M (list (Z * ScrollbarData)) :=
  match count with
  | O => mret []
  | S count =>
    slot ← GetRowByOffset y;
    r ← row_at slot;
    marks ← mark_rows count (y + 1);
    mret (match _promptData r with Some data => (y, data) :: marks | None => marks end)
  end.
Definition GetMarkRows : M (list (Z * ScrollbarData)) := b ← gets id; mark_rows (Z.to_nat (_estimateOffsetOfLastCommittedRow b + 1)) 0.

Fixpoint extent_rows (count : nat) (y : Z) (s : ExtentState) : M ExtentState :=
  match count with
  | O => mret s
  | S count => slot ← GetRowByOffset y; r ← row_at slot; extent_rows count (y + 1) (extent_runs y 0 (_runs (_attr r)) s)
  end.
Definition _scrollMarkExtentForRow (rowOffset bottomInclusive : Z) : M MarkExtents :=
  slot ← GetRowByOffset rowOffset;
  r ← row_at slot;
  match _promptData r with
  | Some data =>
    let zero := point.mk 0 0 in
    s ← extent_rows (Z.to_nat (bottomInclusive + 1 - rowOffset)) rowOffset (mkExtentState (mkExtents data zero zero None None) false false false (point.mk 0 rowOffset));
    mret (mark (if startedCommand s then s else endThisMark s))
  | None => undefined
  end.

(** Upwards; the last mark first. *)
Fixpoint mark_extents (count : nat) (promptY lastPromptY : Z) (limit : nat) : M (list MarkExtents) :=
  match count, limit with
  | S count, S limit =>
    slot ← GetRowByOffset promptY;
    r ← row_at slot;
    match _promptData r with
    | Some data =>
      match category data with
      | MarkDefault => mark_extents count (promptY - 1) lastPromptY (S limit)
      | _ => m ← _scrollMarkExtentForRow promptY lastPromptY; marks ← mark_extents count (promptY - 1) promptY limit; mret (m :: marks)
      end
    | None => mark_extents count (promptY - 1) lastPromptY (S limit)
    end
  | _, _ => mret []
  end.
Definition GetMarkExtents (limit : nat) : M (list MarkExtents) :=
  b ← gets id;
  let bottom := _estimateOffsetOfLastCommittedRow b in
  marks ← mark_extents (Z.to_nat (bottom + 1)) bottom bottom limit;
  mret (rev marks).

(** ** Commands *)

Fixpoint command_rows (count : nat) (y : Z) (clipAtCursor : bool) (cursorPosition : point.t) (s : CommandState) : M wstring :=
  match count with
  | O => mret (commandBuilder s)
  | S count =>
    slot ← GetRowByOffset y;
    r ← row_at slot;
    '(s, done) ← lift (command_runs r (if clipAtCursor && (y =? point.y cursorPosition) then Some (point.x cursorPosition) else None) 0 (_runs (_attr r)) s);
    if done : bool then mret (commandBuilder s) else command_rows count (y + 1) clipAtCursor cursorPosition s
  end.
Definition _commandForRow (rowOffset bottomInclusive : Z) (clipAtCursor : bool) : M wstring :=
  b ← gets id;
  command_rows (Z.to_nat (bottomInclusive + 1 - rowOffset)) rowOffset clipAtCursor (Cursor._cPosition (_cursor b)) (mkCommandState [] TextAttributes.MarkPrompt).

Fixpoint current_command (count : nat) (promptY : Z) : M wstring :=
  match count with
  | O => mret []
  | S count =>
    slot ← GetRowByOffset promptY;
    r ← row_at slot;
    match _promptData r with
    | Some _ => b ← gets id; _commandForRow promptY (_estimateOffsetOfLastCommittedRow b) true
    | None => current_command count (promptY - 1)
    end
  end.
Definition CurrentCommand : M wstring := b ← gets id; let promptY := point.y (Cursor._cPosition (_cursor b)) in current_command (Z.to_nat (promptY + 1)) promptY.

Fixpoint commands_above (count : nat) (promptY lastPromptY : Z) : M (list wstring) :=
  match count with
  | O => mret []
  | S count =>
    slot ← GetRowByOffset promptY;
    r ← row_at slot;
    match _promptData r with
    | Some _ =>
      command ← _commandForRow promptY lastPromptY false;
      commands ← commands_above count (promptY - 1) promptY;
      mret (match command with [] => commands | _ => command :: commands end)
    | None => commands_above count (promptY - 1) lastPromptY
    end
  end.
Definition Commands : M (list wstring) :=
  b ← gets id;
  let bottom := _estimateOffsetOfLastCommittedRow b in
  commands ← commands_above (Z.to_nat (bottom + 1)) bottom bottom;
  mret (rev commands).

(** ** Marking *)

Definition set_current_mark (kind : MarkKind) : M unit := modify (fun b => set_currentAttributes (TextAttribute.SetMarkAttributes kind (_currentAttributes b)) b).
Definition cursor_row : M nat := b ← gets id; GetMutableRowByOffset (point.y (Cursor._cPosition (_cursor b))).

Definition TextBuffer_StartPrompt : M unit := slot ← cursor_row; update_row slot StartPrompt;; set_current_mark TextAttributes.MarkPrompt.
Definition _createPromptMarkIfNeeded : M bool :=
  marks ← GetMarkExtents 1;
  match marks with
  | m :: _ => if negb (HasOutput m) || HasCommand m then mret false else slot ← cursor_row; update_row slot StartPrompt;; mret true
  | [] => slot ← cursor_row; update_row slot StartPrompt;; mret true
  end.
Definition StartCommand : M bool := created ← _createPromptMarkIfNeeded; set_current_mark MarkCommand;; mret created.
Definition StartOutput : M bool := created ← _createPromptMarkIfNeeded; set_current_mark MarkOutput;; mret created.

Fixpoint end_command (count : nat) (y : Z) (error : option Z) : M unit :=
  match count with
  | O => mret tt
  | S count =>
    slot ← GetMutableRowByOffset y;
    r ← row_at slot;
    match _promptData r with
    | Some _ => update_row slot (EndOutput error)
    | None => end_command count (y - 1) error
    end
  end.
Definition EndCurrentCommand (error : option Z) : M unit :=
  set_current_mark MarkNone;;
  b ← gets id;
  let y := point.y (Cursor._cPosition (_cursor b)) in
  end_command (Z.to_nat (y + 1)) y error.

Definition SetScrollbarData_at (data : option ScrollbarData) (y : Z) : M unit := slot ← GetMutableRowByOffset y; update_row slot (SetScrollbarData data).
Definition ManuallyMarkRowAsPrompt (y : Z) : M unit := slot ← GetMutableRowByOffset y; update_row slot (unmark TextAttributes.MarkPrompt).
Definition ClearAllMarks : M unit := b ← gets id; ClearMarksInRange avx2 uninitialised rowSize (point.mk 0 0) (point.mk (_width b - 1) (_height b - 1)).
End Marks.
