(* ===== verification/BufferText.v ===== *)
(** * Text out of the buffer

    src/buffer/out/textBuffer.cpp: the text of a selection, plain or with the control
    sequences that restore its renditions, and the dump of a whole buffer. *)

From stdpp Require Import list gmap.
From S2P Require Import Prelude Til Utils VtTypes Chars StateMachine ParserSyntax TermDispatch TextAttributes Graphics GraphicsProps Rle CodepointWidth CodepointWidthProps Geometry ImageSlice Row RowWrite Cursor TextBuffer.

(** ** Requests *)

Record CopyRequest := mkCopyRequest {
  req_beg : point.t;
  req_end : point.t;
  minX : Z;
  maxX : Z;
  blockSelection : bool;
  trimTrailingWhitespace : bool;
  includeLineBreak : bool;
  formatWrappedRows : bool;
  bufferCoordinates : bool
}.

(** [std::max] and [std::min] of points. *)
Definition point_max (a b : point.t) : point.t := if point.lt a b then b else a.
Definition point_min (a b : point.t) : point.t := if point.lt b a then b else a.

Definition CopyRequest_new (width height : Z) (beg last : point.t) (blockSelection includeLineBreak trimTrailingWhitespace formatWrappedRows bufferCoordinates : bool) : CopyRequest :=
  let beg := point_max beg (point.mk 0 0) in
  let last := point_min last (point.mk (width - 1) (height - 1)) in
  mkCopyRequest beg last (Z.min (point.x beg) (point.x last)) (Z.max (point.x beg) (point.x last))
    blockSelection trimTrailingWhitespace includeLineBreak formatWrappedRows bufferCoordinates.

Definition FromConfig (width height : Z) (beg last : point.t) (singleLine blockSelection trimBlockSelection bufferCoordinates : bool) : CopyRequest :=
  CopyRequest_new width height beg last blockSelection (negb singleLine || blockSelection)
    (negb singleLine && (negb blockSelection || trimBlockSelection)) blockSelection bufferCoordinates.

Definition ScreenToBufferLineInclusive (p : point.t) (lineRendition : Z) : point.t :=
  point.mk (Z.shiftr (point.x p) (if lineRendition =? LineRendition.SingleWidth then 0 else 1)) (point.y p).

(** The columns of a row that a request covers, and whether a line break follows. *)
Definition _RowCopyHelper (req : CopyRequest) (iRow : Z) (row : ROW) : option (Z * Z * bool) :=
  let lineRendition := _lineRendition row in
  let convert p := if bufferCoordinates req then p else ScreenToBufferLineInclusive p lineRendition in
  let '(rowBeg, rowEnd) :=
    if blockSelection req then (point.x (convert (point.mk (minX req) iRow)), point.x (convert (point.mk (maxX req) iRow)))
    else
      let beg := convert (req_beg req) in
      let last := convert (req_end req) in
      (if negb (iRow =? point.y beg) then 0 else point.x beg, if negb (iRow =? point.y last) then GetReadableColumnCount row else point.x last) in
  rowBeg ← AdjustToGlyphStart rowBeg row;
  rowEnd ← AdjustToGlyphEnd rowEnd row;
  let shouldFormatRow := formatWrappedRows req || negb (_wrapForced row) in
  rowEnd ← (if shouldFormatRow && trimTrailingWhitespace req then last ← GetLastNonSpaceColumn row; Some (Z.min rowEnd last) else Some rowEnd);
  Some (rowBeg, rowEnd, shouldFormatRow && includeLineBreak req).

(** ** Renditions as control sequences *)

Definition CharacterAttributes_Unused1 : Z := 0x200.
Definition csi_m (parameters : wstring) : wstring := [0x1B] ++ wide "[" ++ parameters ++ wide "m".
Definition fmt_m (n : Z) : wstring := csi_m (decimal 3 n).
Definition any_flag (flags mask : Z) : bool := negb (Z.land flags mask =? 0).
Definition INTENSE_FAINT : Z := Z.lor CharacterAttributes.Intense CharacterAttributes.Faint.

(** [{off, on}] *)
Definition attribute_mappings : list (Z * (Z * Z)) :=
  [(CharacterAttributes.Intense, (22, 1)); (CharacterAttributes.Italics, (23, 3)); (CharacterAttributes.Blinking, (25, 5));
   (CharacterAttributes.Invisible, (28, 8)); (CharacterAttributes.CrossedOut, (29, 9)); (CharacterAttributes.Faint, (22, 2));
   (CharacterAttributes.TopGridline, (55, 53)); (CharacterAttributes.ReverseVideo, (27, 7))].
Definition underline_mappings : list wstring :=
  [csi_m (wide "24"); csi_m (wide "4"); csi_m (wide "21"); csi_m (wide "4:3"); csi_m (wide "4:4"); csi_m (wide "4:5")].

(** The branch for intense and faint text: its output, and the changes that remain. *)
Definition intense_and_faint (previousAttr attr attrDelta : Z) : wstring * Z :=
  if (Z.land previousAttr INTENSE_FAINT =? INTENSE_FAINT) && any_flag attrDelta INTENSE_FAINT then
    (csi_m (if any_flag attr INTENSE_FAINT then wide "22;" ++ (if any_flag attr CharacterAttributes.Intense then wide "1" else wide "2") else wide "22"),
     Z.ldiff attrDelta INTENSE_FAINT)
  else ([], attrDelta).

Definition mapped_attributes (attr attrDelta : Z) : wstring :=
  flat_map (fun '(flag, (off, on)) => if any_flag attrDelta flag then fmt_m (if any_flag attr flag then on else off) else []) attribute_mappings.

Definition underline_change (value : TextAttribute.t) (attrDelta : Z) : wstring :=
  if any_flag attrDelta CharacterAttributes.UnderlineStyle then
    let idx := TextAttribute.GetUnderlineStyle value in
    let idx := if Z.of_nat (length underline_mappings) <=? idx then 1 else idx in
    default [] (underline_mappings !! Z.to_nat idx)
  else [].

Definition attribute_changes (previousAttr : Z) (value : TextAttribute.t) : wstring :=
  let attr := TextAttribute._attrs value in
  if previousAttr =? attr then []
  else
    let '(first, attrDelta) := intense_and_faint previousAttr attr (Z.lxor attr previousAttr) in
    first ++ mapped_attributes attr attrDelta ++ underline_change value attrDelta.

(** Foreground and background differ in the codes. *)
Definition color_changes (previous current : TextColor.t) (fallback dark bright extended : Z) : wstring :=
  if decide (previous = current) then []
  else
    match TextColor._meta current with
    | IsDefaultColor => fmt_m fallback
    | IsIndex16Color => fmt_m ((if WI_IsFlagSet (TextColor.GetIndex current) 8 then bright else dark) + Z.land (TextColor.GetIndex current) 7)
    | IsIndex256Color => csi_m (decimal 3 extended ++ wide ";5;" ++ decimal 3 (TextColor.GetIndex current))
    | IsRgbColor => csi_m (decimal 3 extended ++ wide ";2;" ++ decimal 3 (TextColor._red current) ++ wide ";" ++ decimal 3 (TextColor._green current) ++ wide ";" ++ decimal 3 (TextColor._blue current))
    end.

(** The type that decides is that of the foreground [fg]. *)
Definition underline_color_changes (previous current fg : TextColor.t) : wstring :=
  if decide (previous = current) then []
  else
    match TextColor._meta fg with
    | IsDefaultColor => fmt_m 59
    | IsIndex256Color => csi_m (wide "58:5:" ++ decimal 3 (TextColor.GetIndex current))
    | IsRgbColor => csi_m (wide "58:2::" ++ decimal 3 (TextColor._red current) ++ wide ":" ++ decimal 3 (TextColor._green current) ++ wide ":" ++ decimal 3 (TextColor._blue current))
    | IsIndex16Color => []
    end.

(** What the attributes of nothing before are compared with. *)
Definition no_attribute : TextAttribute.t := TextAttribute.mk CharacterAttributes_Unused1 0 TextColor.default TextColor.default TextColor.default MarkNone.

Definition rendition_changes (previous value : TextAttribute.t) : wstring :=
  attribute_changes (TextAttribute._attrs previous) value ++
  color_changes (TextAttribute._foreground previous) (TextAttribute._foreground value) 39 30 90 38 ++
  color_changes (TextAttribute._background previous) (TextAttribute._background value) 49 40 100 48 ++
  underline_color_changes (TextAttribute._underlineColor previous) (TextAttribute._underlineColor value) (TextAttribute._foreground value).

(** ** Rows with control sequences *)

Definition line_break : wstring := [0x0D; 0x0A].
Definition hyperlink (uri : wstring) : wstring := [0x1B] ++ wide "]8;;" ++ uri ++ [0x1B; 0x5C].
Definition rendition_mappings : list wstring := [[0x1B] ++ wide "#6"; [0x1B] ++ wide "#3"; [0x1B] ++ wide "#4"].

(** The string so far and the two variables that the calls for successive rows share. *)
Record Serial := mkSerial {
  serial_buffer : wstring;
  previousTextAttr : option TextAttribute.t;
  delayedLineBreak : bool
}.
Definition append (s : wstring) (st : Serial) : Serial := mkSerial (serial_buffer st ++ s) (previousTextAttr st) (delayedLineBreak st).
Definition take_line_break (st : Serial) : Serial :=
  if delayedLineBreak st then mkSerial (serial_buffer st ++ line_break) (previousTextAttr st) false else st.

Section BufferText.
Context {D : Type} `{Measurement D}.
Variable avx2 : bool.
Variable uninitialised : nat -> Z.
Variable rowSize : Z.
Local Abbreviation M := (comp (TextBuffer D)).
Local Abbreviation GetRowByOffset := (GetRowByOffset avx2 uninitialised rowSize).
Implicit Types b : TextBuffer D.

Definition hyperlink_changes (previous current : Z) : M wstring :=
  if previous =? current then mret []
  else if current =? 0 then mret (hyperlink [])
  else uri ← GetHyperlinkUriFromId current; mret (match uri with [] => [] | _ => hyperlink uri end).

(** The runs that are left, of which [last] is the final one; [first] is the first run
    of all. *)
Fixpoint serialize_runs (row : ROW) (lastCharX : Z) (first : TextAttribute.t) (runs : list (rle_pair TextAttribute.t)) (oldX : Z) (st : Serial) : M Serial :=
  match runs with
  | [] => mret st
  | it :: runs =>
    let previous := default no_attribute (previousTextAttr st) in
    link ← hyperlink_changes (TextAttribute._hyperlinkId previous) (TextAttribute._hyperlinkId (value it));
    let st := append (rendition_changes previous (value it) ++ link) st in
    let st := take_line_break (mkSerial (serial_buffer st) (Some (value it)) (delayedLineBreak st)) in
    let newX := oldX + length_ it in
    let trimTrailingWhitespaces := bool_decide (runs = []) && (lastCharX <? newX) in
    let clearToEndOfLine := trimTrailingWhitespaces && (negb (bool_decide (first = TextAttribute.default)) || negb (bool_decide (value it = TextAttribute.default))) in
    let newX := if trimTrailingWhitespaces then lastCharX else newX in
    t ← lift (GetTextBetween oldX newX row);
    serialize_runs row lastCharX first runs newX (append (t ++ (if clearToEndOfLine then [0x1B] ++ wide "[K" else [])) st)
  end.

Definition _SerializeRow (row : ROW) (startX endX : Z) (addLineBreak isLastRow : bool) (st : Serial) : M Serial :=
  let lr := _lineRendition row in
  let st := if negb (lr =? LineRendition.SingleWidth) then append (default [] (rendition_mappings !! Z.to_nat (clamp (lr - 1) 0 2))) st else st in
  let runs := _runs (slice 16 (u16 startX) (u16 endX) (_attr row)) in
  lastCharX ← lift (MeasureRight row);
  st ← serialize_runs row lastCharX (default TextAttribute.default (value <$> head runs)) runs startX st;
  let st := take_line_break st in
  let st := mkSerial (serial_buffer st) (previousTextAttr st) (negb (_wrapForced row) && addLineBreak) in
  mret (if isLastRow then
          append ((match previousTextAttr st with Some a => if negb (TextAttribute._hyperlinkId a =? 0) then hyperlink [] else [] | None => [] end)
                  ++ [0x1B] ++ wide "[0m" ++ (if addLineBreak then line_break else [])) st
        else st).

(** ** Selections *)

Fixpoint plain_rows (count : nat) (req : CopyRequest) (iRow : Z) : M wstring :=
  match count with
  | O => mret []
  | S count =>
    slot ← GetRowByOffset iRow;
    row ← row_at slot;
    '(rowBeg, rowEnd, addLineBreak) ← lift (_RowCopyHelper req iRow row);
    t ← lift (GetTextBetween rowBeg rowEnd row);
    rest ← plain_rows count req (iRow + 1);
    mret (t ++ (if addLineBreak && negb (iRow =? point.y (req_end req)) then line_break else []) ++ rest)
  end.
Definition rows_of (req : CopyRequest) : nat := Z.to_nat (point.y (req_end req) - point.y (req_beg req) + 1).
Definition GetPlainText (req : CopyRequest) : M wstring :=
  if point.gt (req_beg req) (req_end req) then mret [] else plain_rows (rows_of req) req (point.y (req_beg req)).
Definition GetPlainText_between (start last : point.t) : M wstring :=
  b ← gets id; GetPlainText (FromConfig (_width b) (_height b) start last true false false false).

Fixpoint sequence_rows (count : nat) (req : CopyRequest) (currentRow : Z) (st : Serial) : M Serial :=
  match count with
  | O => mret st
  | S count =>
    slot ← GetRowByOffset currentRow;
    row ← row_at slot;
    '(startX, endX, reqAddLineBreak) ← lift (_RowCopyHelper req currentRow row);
    let isLastRow := currentRow =? point.y (req_end req) in
    st ← _SerializeRow row startX endX (reqAddLineBreak && negb isLastRow) isLastRow st;
    sequence_rows count req (currentRow + 1) st
  end.
Definition GetWithControlSequences (req : CopyRequest) : M wstring :=
  if point.gt (req_beg req) (req_end req) then mret []
  else st ← sequence_rows (rows_of req) req (point.y (req_beg req)) (mkSerial [] None false); mret (serial_buffer st).

(** ** The whole buffer

    [writes n]: the [n]th call of [WriteFile] succeeds. The strings that are written. *)
Variable writes : nat -> bool.
Definition writeThreshold : nat := 32 * 1024.

Fixpoint serialize_rows (count : nat) (currentRow lastRow : Z) (written : list wstring) (st : Serial) : M (list wstring) :=
  match count with
  | O => out_of_fuel
  | S count =>
    slot ← GetRowByOffset currentRow;
    row ← row_at slot;
    let isLastRow := currentRow =? lastRow in
    let addLineBreak := negb (_wrapForced row) || isLastRow in
    st ← _SerializeRow row 0 (GetReadableColumnCount row) addLineBreak isLastRow st;
    '(written, st) ←
      (if (writeThreshold <=? length (serial_buffer st))%nat || isLastRow then
         if (Z.of_nat (length (serial_buffer st)) * 2 <? 2 ^ 32) && writes (length written)
         then mret (written ++ [serial_buffer st], mkSerial [] (previousTextAttr st) (delayedLineBreak st))
         else throw
       else mret (written, st));
    if isLastRow then mret written else serialize_rows count (currentRow + 1) lastRow written st
  end.
Definition SerializeTo : M (list wstring) :=
  last ← GetLastNonSpaceCharacter avx2 uninitialised rowSize None;
  serialize_rows (S (Z.to_nat (point.y last))) 0 (point.y last) [] (mkSerial [0xFEFF] None false).
End BufferText.

(** ** The control sequences restore the renditions *)

(** A sequence that ends in [m] and asks for the options. *)
Definition sgr_csi (opts : list SgrOption) : Csi := mkCsi None (concat (map sgr_arguments opts)) [] 0x6D.
Definition select_rendition (c : Csi) : Prop := csi_wf c /\ csi_marker c = None /\ csi_intermediates c = [] /\ csi_final c = 0x6D.
(** The string is made of SGR sequences that turn one attribute into the other. *)
Definition turns (str : wstring) (p v : TextAttribute.t) : Prop :=
  exists cs, str = concat (map render_csi cs) /\ Forall select_rendition cs /\
    fold_left (fun attr c => _ApplyGraphicsOptions (parameters_of (csi_arguments c)) attr) cs p = v.
Definition meaning (opts : list SgrOption) (attr : TextAttribute.t) : TextAttribute.t := fold_left (fun attr o => sgr_meaning o attr) opts attr.
Definition well_written (opts : list SgrOption) : Prop := opts <> [] /\ Forall sgr_wf opts /\ csi_wf (sgr_csi opts).

Lemma turns_nil p : turns [] p p.
Proof. exists []. split_and!; [done|by apply Forall_nil|done]. Qed.
Lemma turns_app s t p q v : turns s p q -> turns t q v -> turns (s ++ t) p v.
Proof. intros (l & -> & Hl & <-) (k & -> & Hk & <-). exists (l ++ k). rewrite map_app, concat_app, fold_left_app. split_and!; [done|by apply Forall_app|done]. Qed.
Lemma turns_one opts p v : well_written opts -> meaning opts p = v -> turns (render_csi (sgr_csi opts)) p v.
Proof.
  intros (Hne & Hw & Hc) <-. exists [sgr_csi opts]. cbn [map concat fold_left]. rewrite app_nil_r. split_and!; [done|by apply Forall_singleton|]. cbn [sgr_csi csi_arguments].
  pose proof (opts_length opts) as Hl. apply (apply_options_meaning _ []); [done| |].
  - unfold VTParameters.size. cbn [parameters_of VTParameters._params]. rewrite length_map. lia.
  - intros H. simpl in H. rewrite H in Hl. destruct opts; [done|simpl in Hl; lia].
Qed.

Lemma decimal_3_5 v : 0 <= v < 1000 -> decimal 3 v = decimal 5 v.
Proof.
  intros Hv. cbn [decimal]. destruct (Z.ltb_spec v 10); [done|]. destruct (Z.ltb_spec (v / 10) 10); [done|]. destruct (Z.ltb_spec (v / 10 / 10) 10); [done|]. div_lia.
Qed.

(** Arguments with values of at most three digits. *)
Definition value_small (o : option Z) : Prop := match o with Some v => 0 <= v < 1000 | None => True end.
Lemma value_small_wf o : value_small o -> value_wf o.
Proof. destruct o as [v|]; simpl; [unfold MAX_PARAMETER_VALUE; lia|done]. Qed.
Lemma sgr_csi_wf opts : Forall (fun a => value_small (ca_value a) /\ Forall value_small (ca_subs a) /\ (length (ca_subs a) <= 5)%nat) (concat (map sgr_arguments opts)) ->
  (length (concat (map sgr_arguments opts)) <= 5)%nat -> concat (map sgr_arguments opts) <> [empty_argument] -> csi_wf (sgr_csi opts).
Proof.
  intros Ha Hl Hne. split; cbn; try done; [|unfold MAX_PARAMETER_COUNT; lia|lia]. eapply Forall_impl; [exact Ha|]. intros a (H1 & H2 & H3).
  split_and!; [by apply value_small_wf|eapply Forall_impl; [exact H2|apply value_small_wf]|unfold MAX_SUBPARAMETER_COUNT; lia].
Qed.

(** The shapes that occur. *)
Ltac small_arguments := repeat first [apply Forall_nil_2 | apply Forall_cons_2]; cbn; repeat split; try lia; repeat first [apply Forall_nil_2 | apply Forall_cons_2]; cbn; try lia; try done.
Lemma one_wf n : 0 <= n < 1000 -> n <> 38 -> n <> 48 -> well_written [SgrOne (Some n)].
Proof.
  intros Hn H1 H2. split; [done|]. split; [|apply sgr_csi_wf; [small_arguments|simpl; lia|done]].
  apply Forall_singleton. split_and!; [simpl; lia|intros [= E]; unfold GraphicsOptions.ForegroundExtended in E; lia|intros [= E]; unfold GraphicsOptions.BackgroundExtended in E; lia].
Qed.
Lemma indexed_wf fg i : 0 <= i < 256 -> well_written [SgrIndexed fg (Some i)].
Proof. intros Hi. split; [done|]. split; [apply Forall_singleton; simpl; lia|apply sgr_csi_wf; [destruct fg; small_arguments|simpl; lia|by destruct fg]]. Qed.
Lemma rgb_wf fg r g b : 0 <= r < 256 -> 0 <= g < 256 -> 0 <= b < 256 -> well_written [SgrRgb fg (Some r) (Some g) (Some b)].
Proof. intros Hr Hg Hb. split; [done|]. split; [apply Forall_singleton; simpl; lia|apply sgr_csi_wf; [destruct fg; small_arguments|simpl; lia|by destruct fg]]. Qed.
Lemma subs_wf n s l : 0 <= n < 1000 -> value_small s -> Forall value_small l -> (length l <= 4)%nat -> well_written [SgrSubs (Some n) s l].
Proof. intros Hn Hs Hl Hlen. split; [done|]. split; [apply Forall_singleton; simpl; lia|apply sgr_csi_wf; [|simpl; lia|done]]. apply Forall_singleton. split_and!; [done|by apply Forall_cons_2|simpl; lia]. Qed.

Ltac written := unfold csi_m, render_csi; cbn -[decimal]; unfold render_argument, render_subs; cbn -[decimal]; rewrite ?app_nil_r, ?decimal_3_5 by lia; repeat progress (rewrite <- ?app_assoc; cbn -[decimal]); reflexivity.
Lemma fmt_m_one n : 0 <= n < 1000 -> fmt_m n = render_csi (sgr_csi [SgrOne (Some n)]).
Proof. intros Hn. unfold fmt_m. written. Qed.
Lemma fmt_m_turns n p v : 0 <= n < 1000 -> n <> 38 -> n <> 48 -> sgr_meaning (SgrOne (Some n)) p = v -> turns (fmt_m n) p v.
Proof. intros Hn H1 H2 Hm. rewrite fmt_m_one by done. by apply turns_one; [apply one_wf|]. Qed.

(** *** Flags *)

Lemma testbit_update x k b i : 0 <= i -> 0 <= k -> Z.testbit (WI_UpdateFlag x (2 ^ k) b) i = if i =? k then b else Z.testbit x i.
Proof.
  intros Hi Hk. unfold WI_UpdateFlag. destruct b; rewrite ?Z.lor_spec, ?Z.ldiff_spec, Z.pow2_bits_eqb, (Z.eqb_sym k) by done; destruct (i =? k); by rewrite ?orb_true_r, ?orb_false_r, ?andb_false_r, ?andb_true_r.
Qed.
Lemma any_flag_bit x k : 0 <= k -> any_flag x (2 ^ k) = Z.testbit x k.
Proof.
  intros Hk. unfold any_flag. rewrite Z.land_comm. destruct (Z.testbit x k) eqn:E.
  - apply negb_true_iff, Z.eqb_neq. intros H0. assert (Z.testbit (Z.land (2 ^ k) x) k = true) by (by rewrite Z.land_spec, Z.pow2_bits_true). rewrite H0, Z.bits_0 in H. done.
  - apply negb_false_iff, Z.eqb_eq. apply Z.bits_inj'. intros i Hi. rewrite Z.land_spec, Z.bits_0, Z.pow2_bits_eqb by done. destruct (Z.eqb_spec k i) as [->|]; [by rewrite E|done].
Qed.

(** The string changes the flags as the function says, and nothing else. *)
Definition moves (str : wstring) (g : Z -> Z) : Prop := forall x, turns str x (TextAttribute.set_attrs (g (TextAttribute._attrs x)) x).
Lemma flags_nil : moves [] (fun x => x).
Proof. intros [? ? ? ? ? ?]. apply turns_nil. Qed.
Lemma flags_app s t g h : moves s g -> moves t h -> moves (s ++ t) (fun x => h (g x)).
Proof. intros Hs Ht x. eapply turns_app; [apply Hs|]. apply (Ht (TextAttribute.set_attrs _ x)). Qed.

(** There is one code that turns off both intense and faint. *)
Definition flag_effect (k : Z) (set : bool) (x : Z) : Z :=
  if set then WI_UpdateFlag x (2 ^ k) true
  else if (k =? 0) || (k =? 5) then WI_UpdateFlag (WI_UpdateFlag x (2 ^ 0) false) (2 ^ 5) false else WI_UpdateFlag x (2 ^ k) false.
Definition flag_step (a delta k x : Z) : Z := if Z.testbit delta k then flag_effect k (Z.testbit a k) x else x.

Definition flag_codes : list (Z * (Z * Z)) := [(0, (22, 1)); (1, (23, 3)); (2, (25, 5)); (3, (28, 8)); (4, (29, 9)); (5, (22, 2)); (10, (55, 53)); (14, (27, 7))].
Lemma flag_moves a delta k off on : (k, (off, on)) ∈ flag_codes ->
  moves (if any_flag delta (2 ^ k) then fmt_m (if any_flag a (2 ^ k) then on else off) else []) (flag_step a delta k).
Proof.
  intros Hin. unfold flag_codes in Hin. set_unfold in Hin. assert (0 <= k) by (repeat destruct Hin as [Hin|Hin]; simplify_eq; lia). rewrite !any_flag_bit by done. unfold flag_step. destruct (Z.testbit delta k); [|apply flags_nil].
  intros x. repeat destruct Hin as [Hin|Hin]; simplify_eq; try contradiction; (destruct (Z.testbit a _); (apply fmt_m_turns; [lia|lia|lia|reflexivity])).
Qed.

Definition all_flags (a delta x : Z) : Z := fold_left (fun x k => flag_step a delta k x) (map fst flag_codes) x.
Lemma mapped_moves a delta : moves (mapped_attributes a delta) (all_flags a delta).
Proof.
  unfold mapped_attributes. change attribute_mappings with (map (fun '(k, c) => (2 ^ k, c)) flag_codes).
  assert (forall l, incl l flag_codes -> moves (flat_map (fun '(flag, (off, on)) => if any_flag delta flag then fmt_m (if any_flag a flag then on else off) else []) (map (fun '(k, c) => (2 ^ k, c)) l))
    (fun x => fold_left (fun x k => flag_step a delta k x) (map fst l) x)) as Hall; [|apply Hall, incl_refl].
  induction l as [|[k [off on]] l IH]; intros Hl; [apply flags_nil|]. cbn [map flat_map fold_left fst].
  apply (flags_app _ _ (flag_step a delta k)); [apply flag_moves, list_elem_of_In, Hl; by left|]. apply IH. intros y Hy. apply Hl. by right.
Qed.

(** Only the code for both flags reaches a bit other than its own. *)
Lemma testbit_step a delta k x i : 0 <= k -> 0 <= i -> Z.testbit (flag_step a delta k x) i =
  if Z.testbit delta k && ((i =? k) || negb (Z.testbit a k) && ((k =? 0) || (k =? 5)) && ((i =? 0) || (i =? 5))) then (i =? k) && Z.testbit a k else Z.testbit x i.
Proof.
  intros Hk Hi. unfold flag_step, flag_effect. destruct (Z.testbit delta k); [|done]. cbn [andb]. destruct (Z.testbit a k); cbn [negb andb].
  - rewrite testbit_update by done. by destruct (i =? k).
  - destruct ((k =? 0) || (k =? 5)) eqn:E; rewrite !testbit_update by lia; destruct (Z.eqb_spec i k), (Z.eqb_spec i 0), (Z.eqb_spec i 5); try done. lia.
Qed.

(** The branch for both flags. *)
Definition both_effect (a x : Z) : Z :=
  let x := WI_UpdateFlag (WI_UpdateFlag x (2 ^ 0) false) (2 ^ 5) false in
  if Z.testbit a 0 then WI_UpdateFlag x (2 ^ 0) true else if Z.testbit a 5 then WI_UpdateFlag x (2 ^ 5) true else x.
Lemma any_flag_both x : any_flag x INTENSE_FAINT = Z.testbit x 0 || Z.testbit x 5.
Proof.
  rewrite <- (any_flag_bit x 0), <- (any_flag_bit x 5) by lia. unfold any_flag, INTENSE_FAINT. rewrite Z.land_lor_distr_r, <- negb_andb. f_equal.
  apply eq_true_iff_eq. by rewrite andb_true_iff, !Z.eqb_eq, Z.lor_eq_0_iff.
Qed.
Lemma both_moves a : moves (csi_m (if any_flag a INTENSE_FAINT then wide "22;" ++ (if any_flag a CharacterAttributes.Intense then wide "1" else wide "2") else wide "22")) (both_effect a).
Proof.
  intros x. rewrite any_flag_both. change CharacterAttributes.Intense with (2 ^ 0). rewrite any_flag_bit by lia. unfold both_effect.
  destruct (Z.testbit a 0); [|destruct (Z.testbit a 5)]; cbn [orb].
  - apply (turns_one [SgrOne (Some 22); SgrOne (Some 1)]); [|done]. split; [done|]. split; [small_arguments|apply sgr_csi_wf; [small_arguments|simpl; lia|done]].
  - apply (turns_one [SgrOne (Some 22); SgrOne (Some 2)]); [|done]. split; [done|]. split; [small_arguments|apply sgr_csi_wf; [small_arguments|simpl; lia|done]].
  - apply (turns_one [SgrOne (Some 22)]); [apply one_wf; lia|done].
Qed.

Definition underline_effect (a delta x : Z) : Z :=
  if any_flag delta CharacterAttributes.UnderlineStyle then Z.lor (Z.ldiff x CharacterAttributes.UnderlineStyle) (Z.land a CharacterAttributes.UnderlineStyle) else x.
Lemma style_bits a style : TextAttribute.GetUnderlineStyle a = style -> Z.land (TextAttribute._attrs a) CharacterAttributes.UnderlineStyle = Z.shiftl style UNDERLINE_STYLE_SHIFT.
Proof.
  intros <-. unfold TextAttribute.GetUnderlineStyle, UNDERLINE_STYLE_SHIFT. rewrite <- Z.ldiff_ones_r by lia. apply Z.bits_inj'. intros i Hi. rewrite Z.ldiff_spec, !Z.land_spec.
  destruct (Z.ltb_spec i 6); [|by rewrite Z.ones_spec_high, andb_true_r by lia].
  rewrite Z.ones_spec_low, andb_false_r by lia. assert (i = 0 \/ i = 1 \/ i = 2 \/ i = 3 \/ i = 4 \/ i = 5) as Hc by lia. by destruct_or! Hc; subst; rewrite andb_false_r.
Qed.
Lemma underline_moves v delta : TextAttribute.GetUnderlineStyle v <= UnderlineStyle.Max -> moves (underline_change v delta) (underline_effect (TextAttribute._attrs v) delta).
Proof.
  intros Hs. unfold underline_change, underline_effect. destruct (any_flag delta _); [|apply flags_nil]. intros x. rewrite (style_bits v _ eq_refl).
  assert (0 <= TextAttribute.GetUnderlineStyle v) as H0 by (apply Z.shiftr_nonneg, Z.land_nonneg; by right). unfold UnderlineStyle.Max, UnderlineStyle.DashedUnderlined in Hs.
  set (style := TextAttribute.GetUnderlineStyle v) in *. clearbody style. assert (style = 0 \/ style = 1 \/ style = 2 \/ style = 3 \/ style = 4 \/ style = 5) as Hc by lia.
  destruct_or! Hc; subst style.
  - by apply (turns_one [SgrOne (Some 24)]); [apply one_wf|].
  - by apply (turns_one [SgrOne (Some 4)]); [apply one_wf|].
  - by apply (turns_one [SgrOne (Some 21)]); [apply one_wf|].
  - apply (turns_one [SgrSubs (Some 4) (Some 3) []]); [apply subs_wf; simpl; try lia; by apply Forall_nil|done].
  - apply (turns_one [SgrSubs (Some 4) (Some 4) []]); [apply subs_wf; simpl; try lia; by apply Forall_nil|done].
  - apply (turns_one [SgrSubs (Some 4) (Some 5) []]); [apply subs_wf; simpl; try lia; by apply Forall_nil|done].
Qed.

(** Flags that no sequence changes. *)
Definition SILENT : Z := 0xBA00.
Definition faint_to_intense (previous current : Z) : bool :=
  negb (any_flag previous CharacterAttributes.Intense) && any_flag previous CharacterAttributes.Faint && any_flag current CharacterAttributes.Intense && negb (any_flag current CharacterAttributes.Faint).

Lemma testbit_all a delta x i : 0 <= i < 16 -> Z.testbit (all_flags a delta x) i =
  if (i =? 0) then (if Z.testbit delta 5 && negb (Z.testbit a 5) then false else if Z.testbit delta 0 then Z.testbit a 0 else Z.testbit x 0)
  else if (i =? 5) then (if Z.testbit delta 5 then Z.testbit a 5 else if Z.testbit delta 0 && negb (Z.testbit a 0) then false else Z.testbit x 5)
  else if Z.testbit delta i && Z.testbit 0x441E i then Z.testbit a i else Z.testbit x i.
Proof.
  intros Hi. unfold all_flags. cbn [map flag_codes fst fold_left]. rewrite !testbit_step by lia.
  assert (i = 0 \/ i = 1 \/ i = 2 \/ i = 3 \/ i = 4 \/ i = 5 \/ i = 6 \/ i = 7 \/ i = 8 \/ i = 9 \/ i = 10 \/ i = 11 \/ i = 12 \/ i = 13 \/ i = 14 \/ i = 15) as Hc by lia.
  destruct_or! Hc; subst i; cbn -[Z.testbit]; rewrite ?andb_false_r, ?andb_true_r, ?orb_false_r; try done.
  all: try (destruct (Z.testbit delta _); done).
Qed.

Lemma testbit_underline a delta x i : 0 <= i -> Z.testbit (underline_effect a delta x) i =
  if any_flag delta CharacterAttributes.UnderlineStyle && Z.testbit CharacterAttributes.UnderlineStyle i then Z.testbit a i else Z.testbit x i.
Proof.
  intros Hi. unfold underline_effect. destruct (any_flag delta _); [|done]. rewrite Z.lor_spec, Z.ldiff_spec, Z.land_spec.
  destruct (Z.testbit CharacterAttributes.UnderlineStyle i); by rewrite ?andb_false_r, ?andb_true_r, ?orb_false_r.
Qed.
Lemma no_flag_bit x m i : any_flag x m = false -> Z.testbit m i = true -> Z.testbit x i = false.
Proof. unfold any_flag. rewrite negb_false_iff, Z.eqb_eq. intros H Hm. apply (f_equal (fun z => Z.testbit z i)) in H. by rewrite Z.land_spec, Hm, andb_true_r, Z.bits_0 in H. Qed.
Lemma equal_masked a q m i : Z.land a m = Z.land q m -> Z.testbit m i = true -> Z.testbit a i = Z.testbit q i.
Proof. intros H Hm. apply (f_equal (fun z => Z.testbit z i)) in H. by rewrite !Z.land_spec, Hm, !andb_true_r in H. Qed.

(** Enough for the flags to become those of [a]. *)
Lemma flags_restored a delta x : 0 <= a < 2 ^ 16 -> 0 <= underline_effect a delta (all_flags a delta x) < 2 ^ 16 -> Z.land a SILENT = Z.land x SILENT ->
  (forall i, 0 <= i < 16 -> Z.testbit delta i = false -> Z.testbit x i = Z.testbit a i) ->
  (Z.testbit delta 5 && negb (Z.testbit a 5) = true -> Z.testbit a 0 = false) ->
  (negb (Z.testbit delta 5) && Z.testbit delta 0 && negb (Z.testbit a 0) = true -> Z.testbit a 5 = false) -> underline_effect a delta (all_flags a delta x) = a.
Proof.
  intros Ha Hr Hs Hd H0 H5. apply Z.bits_inj'. intros i Hi. destruct (Z.ltb_spec i 16); [|by rewrite !bits_above by lia].
  rewrite testbit_underline, testbit_all by lia. destruct (Z.testbit CharacterAttributes.UnderlineStyle i) eqn:Eu.
  - rewrite andb_true_r. destruct (any_flag delta _) eqn:E; [done|]. pose proof (no_flag_bit _ _ _ E Eu) as Hf. rewrite Hf.
    destruct (Z.eqb_spec i 0) as [->|]; [done|]. destruct (Z.eqb_spec i 5) as [->|]; [done|]. by apply Hd.
  - rewrite andb_false_r. destruct (Z.eqb_spec i 0) as [->|].
    { destruct (Z.testbit delta 5 && negb (Z.testbit a 5)); [by rewrite H0|]. destruct (Z.testbit delta 0) eqn:E; [done|by apply Hd]. }
    destruct (Z.eqb_spec i 5) as [->|].
    { destruct (Z.testbit delta 5) eqn:E; [done|]. cbn [negb andb] in H5. destruct (Z.testbit delta 0 && negb (Z.testbit a 0)); [by rewrite H5|by apply Hd]. }
    destruct (Z.testbit delta i) eqn:E; [|by apply Hd]. destruct (Z.testbit 0x441E i) eqn:Em; [done|]. cbn [andb]. symmetry. apply (equal_masked _ _ SILENT); [done|].
    assert (i = 1 \/ i = 2 \/ i = 3 \/ i = 4 \/ i = 6 \/ i = 7 \/ i = 8 \/ i = 9 \/ i = 10 \/ i = 11 \/ i = 12 \/ i = 13 \/ i = 14 \/ i = 15) as Hc by lia.
    by destruct_or! Hc; subst i.
Qed.

Lemma flag_step_16 a delta k x : 0 <= k < 16 -> 0 <= x < 2 ^ 16 -> 0 <= flag_step a delta k x < 2 ^ 16.
Proof.
  intros Hk Hx. assert (forall j, 0 <= j < 16 -> 0 <= 2 ^ j < 2 ^ 16) as Hp by (intros j Hj; split; [apply Z.pow_nonneg; lia|apply Z.pow_lt_mono_r; lia]).
  unfold flag_step, flag_effect. repeat case_match; repeat apply UpdateFlag_16; auto; by apply Hp.
Qed.
Lemma effects_16 a delta x : 0 <= a < 2 ^ 16 -> 0 <= x < 2 ^ 16 -> 0 <= underline_effect a delta (all_flags a delta x) < 2 ^ 16.
Proof.
  intros Ha Hx. assert (0 <= all_flags a delta x < 2 ^ 16) as Hall by (unfold all_flags; cbn [map flag_codes fst fold_left]; repeat (apply flag_step_16; [lia|]); done).
  destruct (below_16 (underline_effect a delta (all_flags a delta x))) as [H1 H2]; [|by rewrite H2].
  intros i Hi. rewrite testbit_underline by lia. rewrite !bits_above by done. by case_match.
Qed.

Lemma both_effect_bits a q : Z.testbit a 0 && Z.testbit a 5 = false -> forall i, 0 <= i -> Z.testbit (both_effect a q) i = if (i =? 0) || (i =? 5) then Z.testbit a i else Z.testbit q i.
Proof.
  intros Hn i Hi. unfold both_effect. destruct (Z.testbit a 0) eqn:E0, (Z.testbit a 5) eqn:E5; try done; rewrite !testbit_update by lia;
    destruct (Z.eqb_spec i 0), (Z.eqb_spec i 5); subst; cbn [orb]; congruence.
Qed.
Lemma both_effect_16 a q : 0 <= q < 2 ^ 16 -> 0 <= both_effect a q < 2 ^ 16.
Proof. intros Hq. unfold both_effect. repeat case_match; repeat apply UpdateFlag_16; done. Qed.

Lemma land_both q : (Z.land q INTENSE_FAINT =? INTENSE_FAINT) = Z.testbit q 0 && Z.testbit q 5.
Proof.
  apply eq_true_iff_eq. rewrite Z.eqb_eq, andb_true_iff. split.
  - intros H. split; [apply (f_equal (fun z => Z.testbit z 0)) in H|apply (f_equal (fun z => Z.testbit z 5)) in H]; rewrite Z.land_spec in H; by apply andb_true_iff in H as [H _].
  - intros [H0 H5]. apply Z.bits_inj'. intros i Hi. rewrite Z.land_spec. change INTENSE_FAINT with (Z.lor (2 ^ 0) (2 ^ 5)). rewrite Z.lor_spec, !Z.pow2_bits_eqb by lia.
    destruct (Z.eqb_spec 0 i) as [<-|]; [by rewrite H0|]. destruct (Z.eqb_spec 5 i) as [<-|]; [by rewrite H5|]. by rewrite andb_false_r.
Qed.

Lemma attributes_turn p v : 0 <= TextAttribute._attrs p < 2 ^ 16 -> 0 <= TextAttribute._attrs v < 2 ^ 16 -> TextAttribute.GetUnderlineStyle v <= UnderlineStyle.Max ->
  Z.land (TextAttribute._attrs v) SILENT = Z.land (TextAttribute._attrs p) SILENT -> faint_to_intense (TextAttribute._attrs p) (TextAttribute._attrs v) = false ->
  turns (attribute_changes (TextAttribute._attrs p) v) p (TextAttribute.set_attrs (TextAttribute._attrs v) p).
Proof.
  set (q := TextAttribute._attrs p). set (a := TextAttribute._attrs v). intros Hq Ha Hu Hs Hf. unfold attribute_changes. fold a.
  destruct (Z.eqb_spec q a) as [<-|_]; [destruct p; apply turns_nil|].
  unfold faint_to_intense in Hf. change CharacterAttributes.Intense with (2 ^ 0) in Hf. change CharacterAttributes.Faint with (2 ^ 5) in Hf. rewrite !any_flag_bit in Hf by lia.
  unfold intense_and_faint. rewrite land_both, any_flag_both, !Z.lxor_spec.
  destruct (Z.testbit q 0 && Z.testbit q 5 && (xorb (Z.testbit a 0) (Z.testbit q 0) || xorb (Z.testbit a 5) (Z.testbit q 5))) eqn:E.
  - assert (Z.testbit a 0 && Z.testbit a 5 = false) as Hn by (destruct (Z.testbit a 0), (Z.testbit a 5), (Z.testbit q 0), (Z.testbit q 5); done).
    set (delta := Z.ldiff _ _). assert (forall i, Z.testbit delta i = xorb (Z.testbit a i) (Z.testbit q i) && negb (Z.testbit INTENSE_FAINT i)) as Hd by (intros; unfold delta; by rewrite Z.ldiff_spec, Z.lxor_spec).
    pose proof (flags_app _ _ _ _ (both_moves a) (flags_app _ _ _ _ (mapped_moves a delta) (underline_moves v delta Hu)) p) as H. cbv beta in H. fold q a in H. rewrite flags_restored in H; [exact H|done| | | | |].
    + by apply effects_16, both_effect_16.
    + apply Z.bits_inj'. intros i Hi. rewrite Hs, !Z.land_spec, both_effect_bits by done. destruct (Z.eqb_spec i 0) as [->|]; [by rewrite !andb_false_r|]. destruct (Z.eqb_spec i 5) as [->|]; [by rewrite !andb_false_r|done].
    + intros i Hi. rewrite Hd, both_effect_bits by (done || lia). intros Hx. destruct (Z.eqb_spec i 0); [done|]. destruct (Z.eqb_spec i 5); [done|]. cbn [orb].
      change INTENSE_FAINT with (Z.lor (2 ^ 0) (2 ^ 5)) in Hx. rewrite Z.lor_spec, !Z.pow2_bits_eqb in Hx by lia. destruct (Z.eqb_spec 0 i); [lia|]. destruct (Z.eqb_spec 5 i); [lia|].
      by destruct (Z.testbit a i), (Z.testbit q i).
    + rewrite Hd. by rewrite andb_false_r.
    + rewrite !Hd. by rewrite !andb_false_r.
  - pose proof (flags_app _ _ _ _ (mapped_moves a (Z.lxor a q)) (underline_moves v (Z.lxor a q) Hu) p) as H. cbv beta in H. fold q a in H. rewrite flags_restored in H; [exact H|done| | | | |].
    + by apply effects_16.
    + done.
    + intros i Hi. rewrite Z.lxor_spec. by destruct (Z.testbit a i), (Z.testbit q i).
    + rewrite Z.lxor_spec. by destruct (Z.testbit a 0), (Z.testbit a 5), (Z.testbit q 0), (Z.testbit q 5).
    + rewrite !Z.lxor_spec. by destruct (Z.testbit a 0), (Z.testbit a 5), (Z.testbit q 0), (Z.testbit q 5).
Qed.

(** *** Colours *)

(** What the constructors of a colour make. *)
Definition color_ok (c : TextColor.t) : Prop :=
  match TextColor._meta c with
  | IsDefaultColor => c = TextColor.default
  | IsIndex16Color => 0 <= TextColor._red c < 16 /\ c = TextColor.of_index (TextColor._red c) false
  | IsIndex256Color => 0 <= TextColor._red c < 256 /\ c = TextColor.of_index (TextColor._red c) true
  | IsRgbColor => 0 <= TextColor._red c < 256 /\ 0 <= TextColor._green c < 256 /\ 0 <= TextColor._blue c < 256
  end.
Definition codes (fg : bool) : Z * Z * Z * Z := if fg then (39, 30, 90, 38) else (49, 40, 100, 48).
Definition color_of (fg : bool) : TextAttribute.t -> TextColor.t := if fg then TextAttribute._foreground else TextAttribute._background.

Lemma color_turns fg c x : color_ok c -> let '(fallback, dark, bright, extended) := codes fg in
  turns (color_changes (color_of fg x) c fallback dark bright extended) x (set_color fg c x).
Proof.
  intros Hc. unfold color_changes. destruct (codes fg) as [[[fallback dark] bright] extended] eqn:Ec.
  destruct (decide (color_of fg x = c)) as [<-|_]; [destruct fg, x; apply turns_nil|].
  unfold color_ok in Hc. destruct c as [m r g b]. cbn [TextColor._meta TextColor._red TextColor._green TextColor._blue TextColor.GetIndex] in *. destruct m.
  - rewrite Hc. destruct fg; injection Ec as <- <- <- <-; by apply fmt_m_turns.
  - destruct Hc as [Hr [= -> ->]].
    assert (r = 0 \/ r = 1 \/ r = 2 \/ r = 3 \/ r = 4 \/ r = 5 \/ r = 6 \/ r = 7 \/ r = 8 \/ r = 9 \/ r = 10 \/ r = 11 \/ r = 12 \/ r = 13 \/ r = 14 \/ r = 15) as Hk by lia.
    destruct fg; injection Ec as <- <- <- <-; destruct_or! Hk; subst r; (apply fmt_m_turns; [split; by vm_compute|by vm_compute|by vm_compute|reflexivity]).
  - destruct Hc as [Hr [= -> ->]]. assert (csi_m (decimal 3 extended ++ wide ";5;" ++ decimal 3 r) = render_csi (sgr_csi [SgrIndexed fg (Some r)])) as ->
      by (destruct fg; injection Ec as <- <- <- <-; written).
    apply turns_one; [by apply indexed_wf|]. unfold meaning. cbn -[Z.leb]. by destruct (Z.leb_spec r 255); [|lia].
  - destruct Hc as (Hr & Hg & Hb).
    assert (csi_m (decimal 3 extended ++ wide ";2;" ++ decimal 3 r ++ wide ";" ++ decimal 3 g ++ wide ";" ++ decimal 3 b) = render_csi (sgr_csi [SgrRgb fg (Some r) (Some g) (Some b)])) as ->
      by (destruct fg; injection Ec as <- <- <- <-; written).
    apply turns_one; [by apply rgb_wf|]. unfold meaning. cbn -[Z.leb].
    destruct (Z.leb_spec r 255), (Z.leb_spec g 255), (Z.leb_spec b 255); try lia. done.
Qed.

Lemma value_or_pos v d : 0 <= v -> VTParameter.value_or v d = v.
Proof. intros Hv. unfold VTParameter.value_or. by destruct (Z.ltb_spec v 0); [lia|]. Qed.
Lemma underline_indexed r x : 0 <= r < 256 -> sgr_meaning (SgrSubs (Some 58) (Some 5) [Some r]) x = TextAttribute.SetUnderlineColor (TextColor.of_index r true) x.
Proof.
  intros Hr. change (sgr_meaning _ x) with (if VTParameter.value_or r 0 <=? 255 then applyColor 58 (TextColor.of_index (VTParameter.value_or r 0) true) x else x).
  rewrite value_or_pos by lia. by destruct (Z.leb_spec r 255); [|lia].
Qed.
Lemma underline_rgb r g b x : 0 <= r < 256 -> 0 <= g < 256 -> 0 <= b < 256 ->
  sgr_meaning (SgrSubs (Some 58) (Some 2) [None; Some r; Some g; Some b]) x = TextAttribute.SetUnderlineColor (TextColor.mk IsRgbColor r g b) x.
Proof.
  intros Hr Hg Hb. change (sgr_meaning _ x) with (if is_byte_rgb (VTParameter.value_or r 0) (VTParameter.value_or g 0) (VTParameter.value_or b 0)
    then applyColor 58 (TextColor.of_rgb (RGB (VTParameter.value_or r 0) (VTParameter.value_or g 0) (VTParameter.value_or b 0))) x else x).
  rewrite !value_or_pos, of_rgb_RGB by lia. unfold is_byte_rgb. destruct (Z.leb_spec r 255), (Z.leb_spec g 255), (Z.leb_spec b 255); try lia. done.
Qed.
Lemma underline_color_turns c fg x : color_ok c -> TextColor._meta fg = TextColor._meta c -> TextColor._meta c <> IsIndex16Color ->
  turns (underline_color_changes (TextAttribute._underlineColor x) c fg) x (TextAttribute.SetUnderlineColor c x).
Proof.
  intros Hc Hm Hn. unfold underline_color_changes. destruct (decide _) as [<-|_]; [destruct x; apply turns_nil|].
  rewrite Hm. unfold color_ok in Hc. destruct c as [m r g b]. cbn [TextColor._meta TextColor._red TextColor._green TextColor._blue TextColor.GetIndex] in *. destruct m; [|done|..].
  - rewrite Hc. by apply fmt_m_turns.
  - destruct Hc as [Hr [= -> ->]]. assert (csi_m (wide "58:5:" ++ decimal 3 r) = render_csi (sgr_csi [SgrSubs (Some 58) (Some 5) [Some r]])) as -> by written.
    apply turns_one; [apply subs_wf; [lia|simpl; lia|small_arguments|simpl; lia]|]. by apply underline_indexed.
  - destruct Hc as (Hr & Hg & Hb).
    assert (csi_m (wide "58:2::" ++ decimal 3 r ++ wide ":" ++ decimal 3 g ++ wide ":" ++ decimal 3 b) = render_csi (sgr_csi [SgrSubs (Some 58) (Some 2) [None; Some r; Some g; Some b]])) as -> by written.
    apply turns_one; [apply subs_wf; [lia|simpl; lia|small_arguments|simpl; lia]|]. by apply underline_rgb.
Qed.

(** The renditions between which the sequences go. *)
Record restorable (p v : TextAttribute.t) : Prop := {
  rest_flags : 0 <= TextAttribute._attrs p < 2 ^ 16;
  rest_ok : attribute_ok v;
  rest_silent : Z.land (TextAttribute._attrs v) SILENT = Z.land (TextAttribute._attrs p) SILENT;
  rest_faint : faint_to_intense (TextAttribute._attrs p) (TextAttribute._attrs v) = false;
  rest_foreground : color_ok (TextAttribute._foreground v);
  rest_background : color_ok (TextAttribute._background v);
  rest_underline : TextAttribute._underlineColor p = TextAttribute._underlineColor v \/
    color_ok (TextAttribute._underlineColor v) /\ TextColor._meta (TextAttribute._foreground v) = TextColor._meta (TextAttribute._underlineColor v) /\ TextColor._meta (TextAttribute._underlineColor v) <> IsIndex16Color;
  rest_link : TextAttribute._hyperlinkId p = TextAttribute._hyperlinkId v;
  rest_mark : TextAttribute._markKind p = TextAttribute._markKind v;
}.

Lemma rendition_turns p v : restorable p v -> turns (rendition_changes p v) p v.
Proof.
  intros [Hq [Ha Hu] Hs Hf Hfg Hbg Hul Hl Hm]. unfold rendition_changes. eapply turns_app; [by apply attributes_turn|].
  eapply turns_app; [apply (color_turns true _ (TextAttribute.set_attrs _ p) Hfg)|]. eapply turns_app; [apply (color_turns false _ (set_color true _ (TextAttribute.set_attrs _ p)) Hbg)|].
  destruct Hul as [He|(Hc & Ht & Hn)].
  - unfold underline_color_changes. rewrite He. destruct (decide _); [|done]. destruct p, v; cbn in *; subst. apply turns_nil.
  - pose proof (underline_color_turns _ _ (set_color false (TextAttribute._background v) (set_color true (TextAttribute._foreground v) (TextAttribute.set_attrs (TextAttribute._attrs v) p))) Hc Ht Hn) as H.
    destruct p, v; cbn in *; subst. exact H.
Qed.

(** Nothing before is like the default rendition: the flag that stands for it has no
    sequence. *)
Lemma any_flag_unused a f : Z.land CharacterAttributes_Unused1 f = 0 -> any_flag (Z.lxor a CharacterAttributes_Unused1) f = any_flag a f.
Proof.
  intros H. unfold any_flag. do 2 f_equal. apply Z.bits_inj'. intros i Hi. apply (f_equal (fun z => Z.testbit z i)) in H. rewrite Z.land_spec, Z.bits_0 in H.
  rewrite !Z.land_spec, Z.lxor_spec. destruct (Z.testbit a i), (Z.testbit _ i), (Z.testbit f i); done.
Qed.
Lemma attribute_changes_first v : Z.land (TextAttribute._attrs v) SILENT = 0 -> attribute_changes CharacterAttributes_Unused1 v = attribute_changes 0 v.
Proof.
  intros Hs. unfold attribute_changes. set (a := TextAttribute._attrs v) in *. destruct (Z.eqb_spec CharacterAttributes_Unused1 a) as [E|_]; [by rewrite <- E in Hs|].
  cbn [intense_and_faint]. unfold intense_and_faint. change (Z.land CharacterAttributes_Unused1 INTENSE_FAINT =? INTENSE_FAINT) with false. cbn [andb app].
  assert (mapped_attributes a (Z.lxor a CharacterAttributes_Unused1) = mapped_attributes a a) as -> by (unfold mapped_attributes, attribute_mappings; cbn [flat_map]; by rewrite !any_flag_unused by done).
  assert (underline_change v (Z.lxor a CharacterAttributes_Unused1) = underline_change v a) as -> by (unfold underline_change; by rewrite any_flag_unused by done).
  destruct (Z.eqb_spec 0 a) as [<-|_]; [done|]. cbn [Z.land andb Z.eqb]. by rewrite Z.lxor_0_r.
Qed.

(** C18: renditions survive the trip through text. Between two runs of a row the
    serialiser writes SGR sequences, each of them well-formed, which change the
    attribute of the first run into that of the second: given to SGR one after the
    other they turn all the flags that have a code, the underline style and the three
    colours. In front of the first run they start from the default attribute. What is
    excluded ([restorable]) is a change from faint to intense ([intense_lost]), a change
    to an underline colour of another type than the foreground or to one of the sixteen
    colours ([underline_color_lost]), a change of the flags without a code, and of the
    hyperlink and the mark, which other sequences carry. *)
Theorem renditions_restored p v : restorable p v ->
  turns (rendition_changes p v) p v /\ (p = TextAttribute.default -> turns (rendition_changes no_attribute v) TextAttribute.default v).
Proof.
  intros Hr. split; [by apply rendition_turns|]. intros ->. pose proof (rendition_turns _ _ Hr) as H. unfold rendition_changes in *.
  change (TextAttribute._attrs no_attribute) with CharacterAttributes_Unused1. rewrite attribute_changes_first by apply Hr. exact H.
Qed.

(** Intense and faint, curly and crossed out text on a bright background becomes
    italic, dotted text in direct colours. *)
Definition sample_before : TextAttribute.t := TextAttribute.mk 0xF1 0 TextColor.default (TextColor.of_index 12 false) TextColor.default MarkNone.
Definition sample_after : TextAttribute.t := TextAttribute.mk 0x122 0 (TextColor.mk IsRgbColor 1 20 255) (TextColor.of_index 200 true) (TextColor.mk IsRgbColor 0 7 9) MarkNone.
Lemma sample_restorable : restorable sample_before sample_after.
Proof.
  split; try done. right. by split_and!.
Qed.
Lemma renditions_restored_witness : turns (rendition_changes sample_before sample_after) sample_before sample_after.
Proof. apply (renditions_restored sample_before sample_after). exact sample_restorable. Defined.

(** The underline colour is written as if it had the type of the foreground: an
    indexed one over default text is turned into the default. *)
Definition underlined_text : TextAttribute.t := TextAttribute.SetUnderlineColor (TextColor.of_index 9 true) TextAttribute.default.
Lemma underline_color_lost : rendition_changes TextAttribute.default underlined_text = [0x1B] ++ wide "[59m" /\
  underlined_text <> TextAttribute.default /\ sgr_meaning (SgrOne (Some 59)) TextAttribute.default = TextAttribute.default.
Proof. split_and!; [by vm_compute|done|done]. Qed.

(** The code that turns off faint follows the one that turns on intense, and turns it
    off as well. *)
Lemma intense_lost : rendition_changes (TextAttribute.SetFaint true TextAttribute.default) (TextAttribute.SetIntense true TextAttribute.default) = [0x1B] ++ wide "[1m" ++ [0x1B] ++ wide "[22m" /\
  meaning [SgrOne (Some 1); SgrOne (Some 22)] (TextAttribute.SetFaint true TextAttribute.default) = TextAttribute.default.
Proof. split; by vm_compute. Qed.
