(* ===== verification/Cells.v ===== *)
(** * Cells

    Reading and writing the buffer cell by cell: src/buffer/out/OutputCell.cpp, the view
    of textBufferCellIterator.cpp at its first position, [ROW::WriteCells] of Row.cpp for an
    iterator over cells, [TextBuffer::WriteLine], and the blocks of ImageSlice.cpp. *)

From stdpp Require Import list gmap.
From S2P Require Import Prelude Til Utils TermDispatch TextAttributes Rle CodepointWidth CodepointWidthProps Geometry ImageSlice Row RowWrite Cursor TextBuffer TerminalInput RenderSettings Pages.

Inductive TextAttributeBehavior := Stored | Current | StoredOnly.
#[global] Instance TextAttributeBehavior_eq_dec : EqDecision TextAttributeBehavior.
Proof. solve_decision. Defined.

Record OutputCell := mkCell {
  _text : wstring;
  _dbcsAttribute : DbcsAttribute;
  _textAttribute : TextAttribute.t;
  _behavior : TextAttributeBehavior
}.

Section Cells.
Context {D : Type} `{Measurement D}.
Variable avx2 : bool.
Variable uninitialised : nat -> Z.
Variable allocated : nat -> Z.
Variable rowSize : Z.
Local Abbreviation M := (comp (TextBuffer D)).
Implicit Types b : TextBuffer D.

(** [*GetCellDataAt(at)], copied. *)
Definition GetCellDataAt (at_ : point.t) : M OutputCell :=
  slot ← GetRowByOffset avx2 uninitialised rowSize (point.y at_);
  b ← gets id;
  if negb (Viewport.IsInBounds (GetSize b) at_ false) then throw
  else
    glyph ← with_text slot (GlyphAt (point.x at_));
    dbcs ← with_text slot (DbcsAttrAt (point.x at_));
    attr ← with_text slot (GetAttrByColumn (point.x at_));
    mret (mkCell glyph dbcs attr Stored).

Definition ReplaceCharacters_at (slot : nat) (column width : Z) (chars : wstring) : M unit :=
  with_row allocated slot (fun a => ReplaceCharacters avx2 uninitialised a column width (mkView 1 chars)).
Definition ClearCell_at (slot : nat) (column : Z) : M unit := with_row allocated slot (fun a => ClearCell avx2 uninitialised a column).
Definition replace_color (slot : nat) (first last : Z) (attr : TextAttribute.t) : M unit :=
  with_attributes allocated slot (replace_attributes first last attr).

(** The text of one cell; whether the iterator moves on. *)
Definition write_cell (slot : nat) (cell : OutputCell) (position currentIndex finalColumnInRow : Z) : M bool :=
  match _dbcsAttribute cell with
  | DbcsLeading =>
    if currentIndex =? finalColumnInRow then ClearCell_at slot currentIndex;; update_row slot (SetDoubleBytePadded true);; mret false
    else ReplaceCharacters_at slot currentIndex 2 (_text cell);; mret true
  | DbcsTrailing =>
    (if currentIndex =? 0 then ClearCell_at slot currentIndex
     else if position =? 0 then ReplaceCharacters_at slot (currentIndex - 1) 2 (_text cell)
     else mret tt);;
    mret true
  | DbcsSingle => ReplaceCharacters_at slot currentIndex 1 (_text cell);; mret true
  end.

(** The loop over the columns [currentIndex, ..., finalColumnInRow]; [colored] is
    [colorUses != 0]. The result is the number of cells that were consumed. *)
Fixpoint write_cells (fuel : nat) (slot : nat) (wrap : option bool) (finalColumnInRow : Z) (cells : list OutputCell) (position currentIndex : Z)
    (currentColor : TextAttribute.t) (colored : bool) (colorStarts : Z) : M Z :=
  match fuel, cells with
  | S fuel, cell :: rest =>
    let color := _textAttribute cell in
    '(currentColor, colored, colorStarts) ←
      (if decide (_behavior cell = Current) then mret (currentColor, colored, colorStarts)
       else if decide (currentColor = color) then mret (currentColor, true, colorStarts)
       else replace_color slot colorStarts currentIndex currentColor;; mret (color, true, currentIndex));
    advance ←
      (if decide (_behavior cell = StoredOnly) then mret true
       else
         advance ← write_cell slot cell position currentIndex finalColumnInRow;
         (match wrap with Some w => if currentIndex =? finalColumnInRow then update_row slot (SetWrapForced w) else mret tt | None => mret tt end);;
         mret advance);
    write_cells fuel slot wrap finalColumnInRow (if advance : bool then rest else cells) (if advance : bool then position + 1 else position) (currentIndex + 1) currentColor colored colorStarts
  | _, _ => (if colored then replace_color slot colorStarts currentIndex currentColor else mret tt);; mret position
  end.

Definition WriteCells (slot : nat) (cells : list OutputCell) (columnBegin : Z) (wrap : option bool) (limitRight : option Z) : M Z :=
  r ← row_at slot;
  if (_columnCount r <=? columnBegin) || (_columnCount r <=? default 0 limitRight) then throw
  else
    match cells with
    | [] => undefined
    | cell :: _ =>
      let finalColumnInRow := u16 (default (_columnCount r - 1) limitRight) in
      write_cells (Z.to_nat (finalColumnInRow + 1 - columnBegin)) slot wrap finalColumnInRow cells 0 (u16 columnBegin) (_textAttribute cell) false (u16 columnBegin)
    end.

Definition WriteLine (cells : list OutputCell) (target : point.t) (wrap : option bool) (limitRight : option Z) : M Z :=
  b ← gets id;
  if negb (Viewport.IsInBounds (GetSize b) target false) then mret 0
  else slot ← GetMutableRowByOffset avx2 uninitialised rowSize (point.y target); WriteCells slot cells (point.x target) wrap limitRight.

(** ** Blocks of images *)

Definition EraseBlock (r : rect.t) : M unit :=
  for_rows (Z.to_nat (rect.bottom r - rect.top r)) (rect.top r) (fun y => slot ← GetMutableRowByOffset avx2 uninitialised rowSize y; EraseImage_at slot (rect.left r) (rect.right r)).

(** A stretch of cells that may go over several lines. *)
Fixpoint ImageSlice_EraseStream (fuel : nat) (x y distanceRemaining : Z) : M unit :=
  if 0 <? distanceRemaining then
    match fuel with
    | O => out_of_fuel
    | S fuel =>
      slot ← GetMutableRowByOffset avx2 uninitialised rowSize y;
      EraseImage_at slot x (x + distanceRemaining);;
      r ← row_at slot;
      ImageSlice_EraseStream fuel 0 (y + 1) (distanceRemaining - (_columnCount r - x))
    end
  else mret tt.
End Cells.

Section Blocks.
Context {A D : Type} `{Measurement D} `{!ITerminalApi A D}.
Variable avx2 : bool.
Variable uninitialised : nat -> Z.
Variable allocated : nat -> Z.
Variable rowSize : Z.
Local Abbreviation M := (comp (PageManager A D)).

(** One line of a block; source and destination may be the same row. *)
Definition copy_image_line (src dst : option nat) (srcRect dstRect : rect.t) (y : Z) : M unit :=
  srcSlot ← on_buffer src (GetRowByOffset avx2 uninitialised rowSize (rect.top srcRect + y));
  dstSlot ← on_buffer dst (GetMutableRowByOffset avx2 uninitialised rowSize (rect.top dstRect + y));
  source ← on_buffer src (row_at srcSlot);
  let aliased := bool_decide (src = dst) && Nat.eqb srcSlot dstSlot in
  on_buffer dst (r ← with_text dstSlot (ImageSlice_CopyCells source aliased (rect.left srcRect) (rect.left dstRect) (rect.right dstRect)); put_row dstSlot r).

Fixpoint copy_image_lines (count : nat) (src dst : option nat) (srcRect dstRect : rect.t) (y step : Z) : M unit :=
  match count with
  | O => mret tt
  | S count => copy_image_line src dst srcRect dstRect y;; copy_image_lines count src dst srcRect dstRect (y + step) step
  end.
Definition CopyBlock (src dst : option nat) (srcRect dstRect : rect.t) : M unit :=
  height ← checked (rect.height srcRect);
  if rect.top srcRect <? rect.top dstRect then copy_image_lines (Z.to_nat height) src dst srcRect dstRect (height - 1) (-1)
  else copy_image_lines (Z.to_nat height) src dst srcRect dstRect 0 1.
End Blocks.
