(* ===== verification/Navigation.v ===== *)
(** * Positions in the text buffer

    src/buffer/out/textBufferCellIterator.cpp, the iterator over the cells of a buffer, and
    the part of textBuffer.cpp that finds words, glyphs and the areas of a selection. An
    iterator holds the slot of the row that it points to. *)

From stdpp Require Import list gmap.
From S2P Require Import Prelude Til Utils TermDispatch TextAttributes Rle CodepointWidth CodepointWidthProps Geometry ImageSlice Row RowWrite Cursor TextBuffer BufferText Cells.

#[global] Instance DelimiterClass_eq_dec : EqDecision DelimiterClass.
Proof. solve_decision. Defined.
#[global] Instance DbcsAttribute_eq_dec : EqDecision DbcsAttribute.
Proof. solve_decision. Defined.
#[global] Instance rle_iterator_eq_dec : EqDecision rle_iterator.
Proof. solve_decision. Defined.
#[global] Instance inclusive_rect_eq_dec : EqDecision inclusive_rect.t.
Proof. solve_decision. Defined.

Record TextBufferCellIterator := mkCellIterator {
  _attrIter : rle_iterator;
  _view : OutputCell;
  _pRow : nat;
  _bounds : Viewport.t;
  _exceeded : bool;
  cell_pos : point.t
}.

(** [line.left >> scale] and the like *)
Definition ScreenToBufferLine (line : inclusive_rect.t) (lineRendition : Z) : inclusive_rect.t :=
  let scale := if lineRendition =? LineRendition.SingleWidth then 0 else 1 in
  inclusive_rect.mk (Z.shiftr (inclusive_rect.left line) scale) (inclusive_rect.top line) (Z.shiftr (inclusive_rect.right line) scale) (inclusive_rect.bottom line).

Section Navigation.
Context {D : Type} `{Measurement D}.
Variable avx2 : bool.
Variable uninitialised : nat -> Z.
Variable rowSize : Z.
Local Abbreviation M := (comp (TextBuffer D)).
Local Abbreviation GetRowByOffset := (GetRowByOffset avx2 uninitialised rowSize).
Local Abbreviation GetCellDataAt := (GetCellDataAt avx2 uninitialised rowSize).
Local Abbreviation ScreenToBufferPosition := (ScreenToBufferPosition avx2 uninitialised rowSize).
Local Abbreviation GetLineRendition := (GetLineRendition avx2 uninitialised rowSize).
Implicit Types b : TextBuffer D.

(** ** The iterator *)

Definition s_GetRow (pos : point.t) : M nat := GetRowByOffset (point.y pos).
(** [_view] for a position of the row [slot]; [*_attrIter] is read through the row. *)
Definition generate_view (slot : nat) (attrIter : rle_iterator) (x : Z) : M OutputCell :=
  glyph ← with_text slot (GlyphAt x);
  dbcs ← with_text slot (DbcsAttrAt x);
  attr ← with_text slot (fun r => deref attrIter (_attr r));
  mret (mkCell glyph dbcs attr Stored).
Definition _GenerateView (it : TextBufferCellIterator) : M TextBufferCellIterator :=
  view ← generate_view (_pRow it) (_attrIter it) (point.x (cell_pos it));
  mret (mkCellIterator (_attrIter it) view (_pRow it) (_bounds it) (_exceeded it) (cell_pos it)).
Definition attr_advance (slot : nat) (i : rle_iterator) (move : Z) : M rle_iterator := with_text slot (fun r => advance 16 i move (_attr r)).
Definition AttrBegin (slot : nat) : M rle_iterator := with_text slot (fun r => Some (begin_ (_attr r))).

Definition new_TextBufferCellIterator (pos : point.t) (limits : Viewport.t) : M TextBufferCellIterator :=
  row ← s_GetRow pos;
  row' ← s_GetRow pos;
  begin ← AttrBegin row';
  b ← gets id;
  if negb (Viewport.IsInBounds_viewport (GetSize b) limits) then throw
  else if negb (Viewport.IsInBounds limits pos false) then throw
  else
    attrIter ← attr_advance row begin (point.x pos);
    _GenerateView (mkCellIterator attrIter (mkCell [] DbcsSingle TextAttribute.default Stored) row limits false pos).
Definition GetCellDataAt_iterator (at_ : point.t) : M TextBufferCellIterator := b ← gets id; new_TextBufferCellIterator at_ (GetSize b).
Definition GetCellDataAt_limited (at_ : point.t) (limit : Viewport.t) : M TextBufferCellIterator := new_TextBufferCellIterator at_ limit.
Definition GetCellLineDataAt (at_ : point.t) : M TextBufferCellIterator :=
  b ← gets id;
  new_TextBufferCellIterator at_ (Viewport.FromInclusive (inclusive_rect.mk 0 (point.y at_) (Viewport.RightInclusive (GetSize b)) (point.y at_))).

Definition iterator_bool (it : TextBufferCellIterator) : bool := negb (_exceeded it) && Viewport.IsInBounds (_bounds it) (cell_pos it) false.
(** Both iterators are of the same buffer. *)
Definition iterator_eqb (it it' : TextBufferCellIterator) : bool :=
  point.eqb (cell_pos it) (cell_pos it') && Bool.eqb (_exceeded it) (_exceeded it') && bool_decide (_bounds it = _bounds it') &&
  (_pRow it =? _pRow it')%nat && bool_decide (_attrIter it = _attrIter it').

(** The loop that moves the position: where it ends, and [_exceeded]. *)
Fixpoint move_cells (move : nat) (bounds : Viewport.t) (newX newY : Z) (exceeded : bool) : Z * Z * bool :=
  match move with
  | O => (newX, newY, exceeded)
  | S move =>
    if newX =? Viewport.RightInclusive bounds then
      if Viewport.BottomInclusive bounds <? newY + 1 then (Viewport.Left bounds, Viewport.Top bounds, true)
      else move_cells move bounds (Viewport.Left bounds) (newY + 1) exceeded
    else move_cells move bounds (newX + 1) newY false
  end.
Definition move_forward_by (movement : nat) (it : TextBufferCellIterator) : M TextBufferCellIterator :=
  let oldX := point.x (cell_pos it) in
  let oldY := point.y (cell_pos it) in
  let '(newX, newY, exceeded) := move_cells movement (_bounds it) oldX oldY (_exceeded it) in
  if exceeded then mret (mkCellIterator (_attrIter it) (_view it) (_pRow it) (_bounds it) true (cell_pos it))
  else if newY =? oldY then
    attrIter ← attr_advance (_pRow it) (_attrIter it) (newX - oldX);
    view ← generate_view (_pRow it) attrIter newX;
    mret (mkCellIterator attrIter view (_pRow it) (_bounds it) false (point.mk newX oldY))
  else
    row ← s_GetRow (point.mk newX newY);
    begin ← AttrBegin row;
    attrIter ← attr_advance row begin newX;
    _GenerateView (mkCellIterator attrIter (_view it) row (_bounds it) false (point.mk newX newY)).

Definition _SetPos (newPos : point.t) (it : TextBufferCellIterator) : M TextBufferCellIterator :=
  '(row, attrIter, x) ←
    (if negb (point.y newPos =? point.y (cell_pos it)) then row ← s_GetRow newPos; begin ← AttrBegin row; mret (row, begin, 0)
     else mret (_pRow it, _attrIter it, point.x (cell_pos it)));
  attrIter ← (if negb (point.x newPos =? x) then attr_advance row attrIter (point.x newPos - x) else mret attrIter);
  _GenerateView (mkCellIterator attrIter (_view it) row (_bounds it) (_exceeded it) newPos).

(** [while (move > 0 && !_exceeded)] with a step of the viewport. *)
Fixpoint walk_cells (step : point.t -> option (point.t * bool)) (move : nat) (pos : point.t) (exceeded : bool) : option (point.t * bool) :=
  match move with
  | O => Some (pos, exceeded)
  | S move => if exceeded then Some (pos, exceeded) else '(pos, moved) ← step pos; walk_cells step move pos (negb moved)
  end.
Definition with_exceeded (e : bool) (it : TextBufferCellIterator) : TextBufferCellIterator := mkCellIterator (_attrIter it) (_view it) (_pRow it) (_bounds it) e (cell_pos it).
Definition move_backward_by (movement : nat) (it : TextBufferCellIterator) : M TextBufferCellIterator :=
  '(newPos, exceeded) ← lift (walk_cells (fun pos => Viewport.DecrementInBounds (_bounds it) pos false) movement (cell_pos it) (_exceeded it));
  it ← _SetPos newPos (with_exceeded exceeded it);
  _GenerateView it.
Definition add_assign (movement : Z) (it : TextBufferCellIterator) : M TextBufferCellIterator :=
  if movement <? 0 then move_backward_by (Z.to_nat (- movement)) it else move_forward_by (Z.to_nat movement) it.
Definition sub_assign (movement : Z) (it : TextBufferCellIterator) : M TextBufferCellIterator :=
  if movement <? 0 then move_forward_by (Z.to_nat (- movement)) it else move_backward_by (Z.to_nat movement) it.
Definition iterator_difference (it it' : TextBufferCellIterator) : M Z := lift (Viewport.CompareInBounds (_bounds it) (cell_pos it) (cell_pos it')).

(** [while (startCell != endCell)] *)
Fixpoint cell_distance (fuel : nat) (startCell endCell : TextBufferCellIterator) (delta : Z) : M Z :=
  match fuel with
  | O => out_of_fuel
  | S fuel => if iterator_eqb startCell endCell then mret delta else startCell ← add_assign 1 startCell; cell_distance fuel startCell endCell (delta + 1)
  end.
Definition GetCellDistance (fuel : nat) (from to : point.t) : M Z :=
  startCell ← GetCellDataAt_iterator from;
  endCell ← GetCellDataAt_iterator to;
  cell_distance fuel startCell endCell 0.

(** ** Words *)

Definition _GetDelimiterClassAt (pos : point.t) (wordDelimiters : wstring) : M DelimiterClass :=
  realPos ← ScreenToBufferPosition pos;
  slot ← GetRowByOffset (point.y realPos);
  with_text slot (DelimiterClassAt (point.x realPos) wordDelimiters).
Definition class_in_bounds (pos : point.t) (wordDelimiters : wstring) : M DelimiterClass :=
  b ← gets id; if Viewport.IsInBounds (GetSize b) pos false then _GetDelimiterClassAt pos wordDelimiters else mret ControlChar.
Definition was_wrapped (y : Z) : M bool := slot ← GetRowByOffset y; row ← row_at slot; mret (_wrapForced row).

(** The loops visit each position of the exclusive bounds at most once. *)
Definition walk_fuel b : nat := Z.to_nat ((_width b + 1) * _height b + 1).

Fixpoint run_start (fuel : nat) (wordDelimiters : wstring) (accessibilityMode : bool) (initialDelimClass : DelimiterClass) (pos nextPos : point.t) : M point.t :=
  match fuel with
  | O => out_of_fuel
  | S fuel =>
    b ← gets id;
    if point.eqb nextPos (Viewport.Origin (GetSize b)) then mret pos
    else
      '(nextPos, _) ← lift (Viewport.DecrementInExclusiveBounds (GetSize b) nextPos);
      if point.x nextPos =? Viewport.RightExclusive (GetSize b) then
        wrapForced ← was_wrapped (point.y nextPos);
        if negb wrapForced && negb accessibilityMode then mret pos
        else run_start fuel wordDelimiters accessibilityMode initialDelimClass pos nextPos
      else
        c ← _GetDelimiterClassAt nextPos wordDelimiters;
        if decide (c = initialDelimClass) then run_start fuel wordDelimiters accessibilityMode initialDelimClass nextPos nextPos else mret pos
  end.
Definition _GetDelimiterClassRunStart (pos : point.t) (wordDelimiters : wstring) (accessibilityMode : bool) : M point.t :=
  initialDelimClass ← class_in_bounds pos wordDelimiters;
  b ← gets id;
  run_start (walk_fuel b) wordDelimiters accessibilityMode initialDelimClass pos pos.

Fixpoint run_end (fuel : nat) (wordDelimiters : wstring) (accessibilityMode : bool) (initialDelimClass : DelimiterClass) (pos nextPos : point.t) : M point.t :=
  match fuel with
  | O => out_of_fuel
  | S fuel =>
    b ← gets id;
    if point.eqb nextPos (Viewport.BottomInclusiveRightExclusive (GetSize b)) then mret pos
    else
      '(nextPos, _) ← lift (Viewport.IncrementInExclusiveBounds (GetSize b) nextPos);
      if point.x nextPos =? Viewport.Left (GetSize b) then
        wrapForced ← was_wrapped (point.y pos);
        if accessibilityMode then
          c ← _GetDelimiterClassAt nextPos wordDelimiters;
          if decide (c = initialDelimClass) then run_end fuel wordDelimiters accessibilityMode initialDelimClass nextPos nextPos else mret nextPos
        else
          changed ← (if negb wrapForced then mret true else c ← _GetDelimiterClassAt nextPos wordDelimiters; mret (negb (bool_decide (c = initialDelimClass))));
          if changed : bool then mret pos else run_end fuel wordDelimiters accessibilityMode initialDelimClass nextPos nextPos
      else
        changed ← (if Viewport.IsInBounds (GetSize b) nextPos false then c ← _GetDelimiterClassAt nextPos wordDelimiters; mret (negb (bool_decide (c = initialDelimClass))) else mret false);
        if changed : bool then mret nextPos else run_end fuel wordDelimiters accessibilityMode initialDelimClass nextPos nextPos
  end.
Definition _GetDelimiterClassRunEnd (pos : point.t) (wordDelimiters : wstring) (accessibilityMode : bool) : M point.t :=
  initialDelimClass ← class_in_bounds pos wordDelimiters;
  b ← gets id;
  run_end (walk_fuel b) wordDelimiters accessibilityMode initialDelimClass pos pos.

Definition GetWordStart (pos : point.t) (wordDelimiters : wstring) (includeWhitespace : bool) (limitOptional : option point.t) : M point.t :=
  b ← gets id;
  let bufferSize := GetSize b in
  let limit := default (Viewport.BottomInclusiveRightExclusive bufferSize) limitOptional in
  if point.lt pos (Viewport.Origin bufferSize) then mret (Viewport.Origin bufferSize)
  else
    let pos := if point.ge pos limit then limit else pos in
    initialDelimiter ← class_in_bounds pos wordDelimiters;
    pos ← _GetDelimiterClassRunStart pos wordDelimiters includeWhitespace;
    if negb includeWhitespace || (point.x pos =? Viewport.Left bufferSize) then mret pos
    else if decide (initialDelimiter = ControlChar) then
      '(pos, _) ← lift (Viewport.DecrementInExclusiveBounds bufferSize pos);
      _GetDelimiterClassRunStart pos wordDelimiters includeWhitespace
    else mret pos.

Definition GetWordEnd (pos : point.t) (wordDelimiters : wstring) (includeWhitespace : bool) (limitOptional : option point.t) : M point.t :=
  b ← gets id;
  let bufferSize := GetSize b in
  let limit := default (Viewport.BottomInclusiveRightExclusive bufferSize) limitOptional in
  if point.ge pos limit then mret limit
  else
    let pos := if point.lt pos (Viewport.Origin bufferSize) then Viewport.Origin bufferSize else pos in
    pos ← _GetDelimiterClassRunEnd pos wordDelimiters includeWhitespace;
    if point.ge pos limit then mret limit
    else if negb includeWhitespace || (point.x pos =? Viewport.RightExclusive bufferSize) then mret pos
    else
      nextDelimClass ← class_in_bounds pos wordDelimiters;
      if decide (nextDelimClass = ControlChar) then pos ← _GetDelimiterClassRunEnd pos wordDelimiters includeWhitespace; mret (point_min pos limit)
      else mret pos.

Definition IsWordBoundary (pos : point.t) (wordDelimiters : wstring) : M bool :=
  b ← gets id;
  let bufferSize := GetSize b in
  if negb (Viewport.IsInExclusiveBounds bufferSize pos) then mret false
  else if point.eqb pos (Viewport.Origin bufferSize) || point.eqb pos (Viewport.BottomInclusiveRightExclusive bufferSize) then mret true
  else
    first ← (if point.x pos =? Viewport.Left bufferSize then wrapForced ← was_wrapped (point.y pos - 1); mret (negb wrapForced) else mret false);
    if first : bool then mret true
    else
      last ← (if point.x pos =? Viewport.RightExclusive bufferSize then wrapForced ← was_wrapped (point.y pos); mret (negb wrapForced) else mret false);
      if last : bool then mret true
      else
        '(prevPos, _) ← lift (Viewport.DecrementInBounds bufferSize pos false);
        prevDelimiterClass ← _GetDelimiterClassAt prevPos wordDelimiters;
        currentDelimiterClass ← _GetDelimiterClassAt pos wordDelimiters;
        mret (negb (bool_decide (prevDelimiterClass = currentDelimiterClass)) && negb (bool_decide (currentDelimiterClass = ControlChar))).

(** ** Glyphs *)

Definition dbcs_at (pos : point.t) : M DbcsAttribute := cell ← GetCellDataAt pos; mret (_dbcsAttribute cell).
Definition is_dbcs_at (pos : point.t) (a : DbcsAttribute) : M bool :=
  b ← gets id; if Viewport.IsInBounds (GetSize b) pos false then c ← dbcs_at pos; mret (bool_decide (c = a)) else mret false.
(** A step whose result is not looked at, if the condition holds. *)
Definition step_if (c : bool) (step : option (point.t * bool)) (pos : point.t) : M point.t :=
  if c then '(pos, _) ← lift step; mret pos else mret pos.

Definition GetGlyphStart (pos : point.t) (limitOptional : option point.t) : M point.t :=
  b ← gets id;
  let limit := default (Viewport.EndExclusive (GetSize b)) limitOptional in
  if point.gt pos limit then mret limit
  else trailing ← is_dbcs_at pos DbcsTrailing; step_if trailing (Viewport.DecrementInBounds (GetSize b) pos true) pos.

Definition GetGlyphEnd (pos : point.t) (accessibilityMode : bool) (limitOptional : option point.t) : M point.t :=
  b ← gets id;
  let limit := default (Viewport.EndExclusive (GetSize b)) limitOptional in
  if point.gt pos limit then mret limit
  else
    leading ← is_dbcs_at pos DbcsLeading;
    resultPos ← step_if leading (Viewport.IncrementInBounds (GetSize b) pos true) pos;
    step_if accessibilityMode (Viewport.IncrementInBounds (GetSize b) resultPos true) resultPos.

Definition MoveToNextGlyph (pos : point.t) (allowExclusiveEnd : bool) (limitOptional : option point.t) : M (point.t * bool) :=
  b ← gets id;
  let limit := default (Viewport.EndExclusive (GetSize b)) limitOptional in
  distanceToLimit ← lift (Viewport.CompareInBounds (GetSize b) pos limit);
  if 0 <=? distanceToLimit then mret (limit, false)
  else if negb allowExclusiveEnd && (distanceToLimit =? -1) then mret (pos, false)
  else
    iter ← GetCellDataAt_limited pos (GetSize b);
    iter ← add_assign 1 iter;
    let success := iterator_bool iter in
    iter ← (if success && bool_decide (_dbcsAttribute (_view iter) = DbcsTrailing) then add_assign 1 iter else mret iter);
    mret (cell_pos iter, success).

Definition MoveToNextGlyph2 (pos : point.t) (limitOptional : option point.t) : M (point.t * bool) :=
  b ← gets id;
  let limit := default (Viewport.BottomInclusiveRightExclusive (GetSize b)) limitOptional in
  if point.ge pos limit then mret (limit, false)
  else
    '(pos, success) ← lift (Viewport.IncrementInExclusiveBounds (GetSize b) pos);
    trailing ← (if success : bool then is_dbcs_at pos DbcsTrailing else mret false);
    pos ← step_if trailing (Viewport.IncrementInExclusiveBounds (GetSize b) pos) pos;
    mret (pos, success).

Definition MoveToPreviousGlyph (pos : point.t) (limitOptional : option point.t) : M (point.t * bool) :=
  b ← gets id;
  let limit := default (Viewport.EndExclusive (GetSize b)) limitOptional in
  distance ← lift (Viewport.CompareInBounds (GetSize b) pos limit);
  if 0 <? distance then mret (limit, true)
  else
    '(resultPos, success) ← lift (Viewport.DecrementInBounds (GetSize b) pos true);
    leading ← (if negb (point.eqb resultPos (Viewport.EndExclusive (GetSize b))) then c ← dbcs_at resultPos; mret (bool_decide (c = DbcsLeading)) else mret false);
    resultPos ← step_if leading (Viewport.DecrementInBounds (GetSize b) resultPos true) resultPos;
    mret (resultPos, success).

Definition MoveToPreviousGlyph2 (pos : point.t) (limitOptional : option point.t) : M (point.t * bool) :=
  b ← gets id;
  let limit := default (Viewport.BottomInclusiveRightExclusive (GetSize b)) limitOptional in
  if point.ge pos limit then mret (limit, false)
  else
    '(pos, success) ← lift (Viewport.DecrementInExclusiveBounds (GetSize b) pos);
    trailing ← (if success : bool then is_dbcs_at pos DbcsTrailing else mret false);
    pos ← step_if trailing (Viewport.DecrementInExclusiveBounds (GetSize b) pos) pos;
    mret (pos, success).

(** ** Areas *)

Definition _ExpandTextRow (textRow : inclusive_rect.t) : M inclusive_rect.t :=
  b ← gets id;
  let target := point.mk (inclusive_rect.left textRow) (inclusive_rect.top textRow) in
  trailing ← is_dbcs_at target DbcsTrailing;
  first ← step_if trailing (Viewport.DecrementInExclusiveBounds (GetSize b) target) target;
  let target := point.mk (inclusive_rect.right textRow) (inclusive_rect.bottom textRow) in
  trailing ← is_dbcs_at target DbcsTrailing;
  last ← step_if trailing (Viewport.IncrementInExclusiveBounds (GetSize b) target) target;
  mret (inclusive_rect.mk (point.x first) (inclusive_rect.top textRow) (point.x last) (inclusive_rect.bottom textRow)).

Definition row_rect (higherCoord lowerCoord : point.t) (blockSelection : bool) (bufferSize : Viewport.t) (row : Z) : inclusive_rect.t :=
  if blockSelection || (point.y higherCoord =? point.y lowerCoord)
  then inclusive_rect.mk (Z.min (point.x higherCoord) (point.x lowerCoord)) row (Z.max (point.x higherCoord) (point.x lowerCoord)) row
  else inclusive_rect.mk (if row =? point.y higherCoord then point.x higherCoord else Viewport.Left bufferSize) row
         (if row =? point.y lowerCoord then point.x lowerCoord else Viewport.RightInclusive bufferSize) row.
Fixpoint text_rects (count : nat) (higherCoord lowerCoord : point.t) (blockSelection bufferCoordinates : bool) (row : Z) : M (list inclusive_rect.t) :=
  match count with
  | O => mret []
  | S count =>
    b ← gets id;
    let textRow := row_rect higherCoord lowerCoord blockSelection (GetSize b) row in
    textRow ← (if bufferCoordinates then mret textRow else rendition ← GetLineRendition row; mret (ScreenToBufferLine textRow rendition));
    textRow ← _ExpandTextRow textRow;
    rest ← text_rects count higherCoord lowerCoord blockSelection bufferCoordinates (row + 1);
    mret (textRow :: rest)
  end.
Definition in_order (start last : point.t) : point.t * point.t := if point.le start last then (start, last) else (last, start).
Definition GetTextRects (start last : point.t) (blockSelection bufferCoordinates : bool) : M (list inclusive_rect.t) :=
  let '(higherCoord, lowerCoord) := in_order start last in
  text_rects (Z.to_nat (1 + point.y lowerCoord - point.y higherCoord)) higherCoord lowerCoord blockSelection bufferCoordinates (point.y higherCoord).

Definition GetTextSpans (start last : point.t) (blockSelection bufferCoordinates : bool) : M (list (point.t * point.t)) :=
  if blockSelection then
    rects ← GetTextRects start last true bufferCoordinates;
    mret (map (fun r => (point.mk (inclusive_rect.left r) (inclusive_rect.top r), point.mk (inclusive_rect.right r) (inclusive_rect.bottom r))) rects)
  else
    let '(higherCoord, lowerCoord) := in_order start last in
    '(higherCoord, lowerCoord) ←
      (if bufferCoordinates then mret (higherCoord, lowerCoord)
       else
         higher ← GetLineRendition (point.y higherCoord);
         lower ← GetLineRendition (point.y lowerCoord);
         mret (ScreenToBufferLineInclusive higherCoord higher, ScreenToBufferLineInclusive lowerCoord lower));
    asRect ← _ExpandTextRow (inclusive_rect.mk (point.x higherCoord) (point.y higherCoord) (point.x lowerCoord) (point.y lowerCoord));
    mret [(point.mk (inclusive_rect.left asRect) (inclusive_rect.top asRect), point.mk (inclusive_rect.right asRect) (inclusive_rect.bottom asRect))].
End Navigation.
