(* ===== verification/TerminalCore.v ===== *)
(** * The terminal of Windows Terminal

    src/cascadia/TerminalCore/TerminalApi.cpp with the parts of Terminal.cpp it uses: the
    main buffer with its history, the alternate screen, the viewport, the selection while
    the buffer scrolls, titles, taskbar and shell state. It is an instance of
    [ITerminalApi]. The callbacks of the control are all set, and what they are called
    with is recorded. The search for links in the text and the resizing of the window are
    left out: a resize is never deferred. *)

From stdpp Require Import list gmap.
From S2P Require Import Prelude Til Utils TermDispatch TextAttributes CodepointWidth CodepointWidthProps Geometry Cursor TextBuffer TerminalInput ColorTable RenderSettings Pages.

Definition TaskbarMinProgress : Z := 10.
Definition SHRT_MAX : Z := 0x7FFF.

Module TaskbarState.
Definition Clear : Z := 0.
Definition Set_ : Z := 1.
Definition Error_ : Z := 2.
Definition Indeterminate : Z := 3.
Definition Paused : Z := 4.
End TaskbarState.

(** The callbacks. *)
Inductive Event :=
| WriteInput (response : wstring)
| WarningBellRang
| TitleChanged (title : wstring)
| ClipboardSet (content : wstring)
| ScrollPositionChanged (top height bottom : Z)
| TaskbarProgressChanged
| ShowWindowChanged (show : bool)
| MidiNote (note velocity duration : Z)
| CompletionsChanged (menu : wstring) (length : Z)
| MissingCommand (command : wstring) (row : Z)
| VtSequence (sequence : wstring)
| Notification (title body : wstring)
| WindowSizeChanged (width height : Z).

Record SelectionInfo := mkSelection { selection_start : point.t; selection_end : point.t; selection_pivot : point.t; selection_active : bool }.

(** Settings that the program's output does not change. *)
Record CoreSettings := mkSettings {
  _answerbackMessage : wstring;
  _suppressApplicationTitle : bool;
  _startingTitle : option wstring;
  _defaultCursorShape : Z;
  _clipboardOperationsAllowed : bool;
  _focused : bool;
  AlwaysNotifyOnBufferRotation : bool
}.

Record ShellState := mkShell {
  _title : option wstring;
  _taskbarState : Z;
  _taskbarProgress : Z;
  _workingDirectory : wstring;
  _workingDirectoryReportedByShell : bool;
  _shellName : wstring;
  _shellVersion : wstring
}.

Record Terminal (D : Type) := mkTerminal {
  _mainBuffer : TextBuffer D;
  _altBuffer : option (TextBuffer D);
  _mutableViewport : Viewport.t;
  _altBufferSize : size.t;
  _scrollOffset : Z;
  _selection : SelectionInfo;
  _systemMode : Z;
  _terminalInput : TerminalInput;
  _renderSettings : RenderSettings;
  _process : Process D;
  _shell : ShellState;
  _settings : CoreSettings;
  _events : list Event
}.
Arguments mkTerminal {D}. Arguments _mainBuffer {D}. Arguments _altBuffer {D}. Arguments _mutableViewport {D}. Arguments _altBufferSize {D}. Arguments _scrollOffset {D}. Arguments _selection {D}.
Arguments _systemMode {D}. Arguments _terminalInput {D}. Arguments _renderSettings {D}. Arguments _process {D}. Arguments _shell {D}. Arguments _settings {D}. Arguments _events {D}.

Section Terminal.
Context {D : Type}.
Variable allocated : nat -> Z.
Local Abbreviation M := (comp (Terminal D)).
Implicit Types t : Terminal D.

Definition set_buffers (main : TextBuffer D) (alt : option (TextBuffer D)) t : Terminal D := mkTerminal main alt (_mutableViewport t) (_altBufferSize t) (_scrollOffset t) (_selection t) (_systemMode t) (_terminalInput t) (_renderSettings t) (_process t) (_shell t) (_settings t) (_events t).
Definition set_viewport v size t : Terminal D := mkTerminal (_mainBuffer t) (_altBuffer t) v size (_scrollOffset t) (_selection t) (_systemMode t) (_terminalInput t) (_renderSettings t) (_process t) (_shell t) (_settings t) (_events t).
Definition set_scroll offset selection t : Terminal D := mkTerminal (_mainBuffer t) (_altBuffer t) (_mutableViewport t) (_altBufferSize t) offset selection (_systemMode t) (_terminalInput t) (_renderSettings t) (_process t) (_shell t) (_settings t) (_events t).
Definition set_systemMode v t : Terminal D := mkTerminal (_mainBuffer t) (_altBuffer t) (_mutableViewport t) (_altBufferSize t) (_scrollOffset t) (_selection t) v (_terminalInput t) (_renderSettings t) (_process t) (_shell t) (_settings t) (_events t).
Definition set_terminalInput v t : Terminal D := mkTerminal (_mainBuffer t) (_altBuffer t) (_mutableViewport t) (_altBufferSize t) (_scrollOffset t) (_selection t) (_systemMode t) v (_renderSettings t) (_process t) (_shell t) (_settings t) (_events t).
Definition set_renderSettings v t : Terminal D := mkTerminal (_mainBuffer t) (_altBuffer t) (_mutableViewport t) (_altBufferSize t) (_scrollOffset t) (_selection t) (_systemMode t) (_terminalInput t) v (_process t) (_shell t) (_settings t) (_events t).
Definition set_process v t : Terminal D := mkTerminal (_mainBuffer t) (_altBuffer t) (_mutableViewport t) (_altBufferSize t) (_scrollOffset t) (_selection t) (_systemMode t) (_terminalInput t) (_renderSettings t) v (_shell t) (_settings t) (_events t).
Definition set_shell v t : Terminal D := mkTerminal (_mainBuffer t) (_altBuffer t) (_mutableViewport t) (_altBufferSize t) (_scrollOffset t) (_selection t) (_systemMode t) (_terminalInput t) (_renderSettings t) (_process t) v (_settings t) (_events t).
Definition set_events v t : Terminal D := mkTerminal (_mainBuffer t) (_altBuffer t) (_mutableViewport t) (_altBufferSize t) (_scrollOffset t) (_selection t) (_systemMode t) (_terminalInput t) (_renderSettings t) (_process t) (_shell t) (_settings t) v.

Definition callback (e : Event) : M unit := modify (fun t => set_events (_events t ++ [e]) t).

(** ** Buffers and viewports *)

Definition _inAltBuffer t : bool := match _altBuffer t with Some _ => true | None => false end.
Definition _activeBuffer t : TextBuffer D := default (_mainBuffer t) (_altBuffer t).
Definition put_activeBuffer (b : TextBuffer D) t : Terminal D :=
  match _altBuffer t with Some _ => set_buffers (_mainBuffer t) (Some b) t | None => set_buffers b None t end.
Definition _GetMutableViewport t : Viewport.t := if _inAltBuffer t then Viewport.FromDimensions (point.mk 0 0) (_altBufferSize t) else _mutableViewport t.
Definition GetBufferHeight t : Z := Viewport.BottomExclusive (_GetMutableViewport t).
Definition ViewStartIndex t : Z := if _inAltBuffer t then 0 else Viewport.Top (_mutableViewport t).
Definition ViewEndIndex t : Z := if _inAltBuffer t then size.height (_altBufferSize t) - 1 else Viewport.BottomInclusive (_mutableViewport t).
Definition _VisibleStartIndex t : Z := if _inAltBuffer t then 0 else Z.max 0 (Viewport.Top (_mutableViewport t) - _scrollOffset t).
Definition _VisibleEndIndex t : Z := if _inAltBuffer t then size.height (_altBufferSize t) - 1 else Z.max 0 (Viewport.BottomInclusive (_mutableViewport t) - _scrollOffset t).
Definition _GetVisibleViewport t : Viewport.t :=
  Viewport.FromDimensions (point.mk 0 (_VisibleStartIndex t)) (if _inAltBuffer t then _altBufferSize t else Viewport.Dimensions (_mutableViewport t)).
Definition IsSelectionActive t : bool := selection_active (_selection t).

Definition _PreserveUserScrollOffset (viewportDelta : Z) t : Terminal D :=
  if (0 <? viewportDelta) && (IsSelectionActive t || negb (_scrollOffset t =? 0)) then
    let maxScrollOffset := Viewport.Height (GetSize (_activeBuffer t)) - Viewport.Height (_mutableViewport t) in
    set_scroll (Z.min (_scrollOffset t + viewportDelta) maxScrollOffset) (_selection t) t
  else t.
Definition UserScrollViewport (viewTop : Z) t : Terminal D :=
  if _inAltBuffer t then t else set_scroll (Z.max 0 (ViewStartIndex t - Z.max 0 viewTop)) (_selection t) t.
Definition _NotifyScrollEvent : M unit :=
  t ← gets id;
  let visible := _GetVisibleViewport t in
  callback (ScrollPositionChanged (Viewport.Top visible) (Viewport.Height visible) (GetBufferHeight t)).

Definition SetViewportPosition (position : point.t) : M unit :=
  t ← gets id;
  if _inAltBuffer t then mret tt
  else
    let bufferSize := Viewport.Dimensions (GetSize (_mainBuffer t)) in
    let viewSize := Viewport.Dimensions (_GetMutableViewport t) in
    let position := point.mk (clamp (point.x position) 0 (size.width bufferSize - size.width viewSize)) (clamp (point.y position) 0 (size.height bufferSize - size.height viewSize)) in
    let viewportDelta := point.y position - point.y (Viewport.Origin (_GetMutableViewport t)) in
    modify (set_viewport (Viewport.FromDimensions position viewSize) (_altBufferSize t));;
    modify (_PreserveUserScrollOffset viewportDelta);;
    _NotifyScrollEvent.

Definition ClearSelection t : Terminal D :=
  let s := _selection t in set_scroll (_scrollOffset t) (mkSelection (selection_start s) (selection_end s) (selection_pivot s) false) t.

(** ** The alternate screen *)

Definition take_mutation_id t : Z * Terminal D :=
  let p := _process t in (s_lastMutationIdInitialValue p, set_process (mkProcess (singleton p) (heap p) (u64 (s_lastMutationIdInitialValue p + 2 ^ 32))) t).
Definition copy_cursor (from : Cursor.t) (offset : Z) (to : Cursor.t) : Cursor.t :=
  let to := Cursor.SetStyle (Cursor._ulSize from) (Cursor._cursorType from) to in
  let to := Cursor.SetIsVisible (Cursor._isVisible from) to in
  let to := Cursor.SetIsBlinking (Cursor._isBlinking from) to in
  let p := Cursor._cPosition from in
  Cursor.SetPosition (point.mk (point.x p) (point.y p + offset)) to.

Definition UseAlternateScreenBuffer (attrs : TextAttribute.t) : M unit :=
  modify (fun t => ClearSelection (set_viewport (_mutableViewport t) (Viewport.Dimensions (_mutableViewport t)) t));;
  t ← gets id;
  let '(mutationId, t) := take_mutation_id t in
  let p := _process t in
  let main := _mainBuffer t in
  match TextBuffer_new allocated (_altBufferSize t) attrs (Cursor._ulSize (_cursor main)) true mutationId (singleton p) (heap p) with
  | (b, Returned _) =>
    let b := TextBuffer.set_cursor (copy_cursor (_cursor main) (- Viewport.Top (_mutableViewport t)) (_cursor b)) b in
    modify (fun _ => set_buffers (set_isActiveBuffer false main) (Some b) (set_process (mkProcess (_detector b) (_allocations b) (s_lastMutationIdInitialValue p)) t));;
    modify (fun t => set_terminalInput (TerminalInput.UseAlternateScreenBuffer (_terminalInput t)) t);;
    _NotifyScrollEvent
  | (_, Threw) => throw
  | (_, Undefined) => undefined
  | (_, OutOfFuel) => out_of_fuel
  end.

Definition UseMainScreenBuffer : M unit :=
  t ← gets id;
  match _altBuffer t with
  | None => mret tt
  | Some alt =>
    modify (fun t => ClearSelection (set_buffers (set_isActiveBuffer true (_mainBuffer t)) None t));;
    modify (fun t => let main := _mainBuffer t in set_buffers (TextBuffer.set_cursor (copy_cursor (_cursor alt) (Viewport.Top (_mutableViewport t)) (_cursor main)) main) None t);;
    modify (fun t => set_terminalInput (TerminalInput.UseMainScreenBuffer (_terminalInput t)) t);;
    _NotifyScrollEvent
  end.

(** ** Rotation of the buffer *)

Definition rotated_selection (delta : Z) (s : SelectionInfo) : SelectionInfo :=
  if selection_active s then
    if point.y (selection_end s) <? delta then mkSelection (selection_start s) (selection_end s) (selection_pivot s) false
    else
      let pivotWasStart := point.eqb (selection_start s) (selection_pivot s) in
      let start := point.mk (point.x (selection_start s)) (Z.max (point.y (selection_start s) - delta) 0) in
      let end_ := point.mk (point.x (selection_end s)) (Z.max (point.y (selection_end s) - delta) 0) in
      mkSelection start end_ (if pivotWasStart then start else end_) true
  else s.
Definition NotifyBufferRotation (delta : Z) : M unit :=
  modify (fun t => set_scroll (_scrollOffset t) (rotated_selection delta (_selection t)) t);;
  oldScrollOffset ← gets _scrollOffset;
  modify (_PreserveUserScrollOffset delta);;
  t ← gets id;
  if negb (_scrollOffset t =? oldScrollOffset) || AlwaysNotifyOnBufferRotation (_settings t) then _NotifyScrollEvent else mret tt.

(** ** The rest of the interface *)

Definition ReturnResponse (response : wstring) : M unit := match response with [] => mret tt | _ => callback (WriteInput response) end.
Definition SetSystemMode (mode : Z) (enabled : bool) : M unit := modify (fun t => set_systemMode (enumset.set (_systemMode t) mode enabled) t).
Definition GetSystemMode (mode : Z) t : bool := enumset.test (_systemMode t) mode.
Definition ReturnAnswerback : M unit := t ← gets id; ReturnResponse (_answerbackMessage (_settings t)).
Definition GetConsoleTitle t : wstring := default (default [] (_startingTitle (_settings t))) (_title (_shell t)).
Definition SetWindowTitle (title : wstring) : M unit :=
  t ← gets id;
  if _suppressApplicationTitle (_settings t) then mret tt
  else
    modify (fun t => let s := _shell t in
      set_shell (mkShell (match title with [] => None | _ => Some title end) (_taskbarState s) (_taskbarProgress s) (_workingDirectory s) (_workingDirectoryReportedByShell s) (_shellName s) (_shellVersion s)) t);;
    t ← gets id;
    callback (TitleChanged (GetConsoleTitle t)).
Definition ResizeWindow (width height : Z) : M bool :=
  t ← gets id;
  let current := Viewport.Dimensions (_GetMutableViewport t) in
  if (width <=? 0) || (height <=? 0) || (SHRT_MAX <? width) || (SHRT_MAX <? height) then mret false
  else if (width =? size.width current) && (height =? size.height current) then mret false
  else callback (WindowSizeChanged width height);; mret true.
Definition CopyToClipboard (content : wstring) : M unit :=
  t ← gets id; if _clipboardOperationsAllowed (_settings t) && _focused (_settings t) then callback (ClipboardSet content) else mret tt.
Definition new_progress (state progress current : Z) : Z :=
  if state =? TaskbarState.Clear then 0
  else if state =? TaskbarState.Set_ then progress
  else if state =? TaskbarState.Indeterminate then current
  else if (state =? TaskbarState.Error_) || (state =? TaskbarState.Paused) then
    if progress =? 0 then if current =? 0 then TaskbarMinProgress else current else progress
  else current.
Definition SetTaskbarProgress (state progress : Z) : M unit :=
  modify (fun t => let s := _shell t in
    set_shell (mkShell (_title s) state (new_progress state progress (_taskbarProgress s)) (_workingDirectory s) (_workingDirectoryReportedByShell s) (_shellName s) (_shellVersion s)) t);;
  callback TaskbarProgressChanged.
Definition SetWorkingDirectory (uri : wstring) : M unit :=
  modify (fun t => let s := _shell t in set_shell (mkShell (_title s) (_taskbarState s) (_taskbarProgress s) uri true (_shellName s) (_shellVersion s)) t).
Definition SetShellType (shellName shellVersion : wstring) : M unit :=
  modify (fun t => let s := _shell t in set_shell (mkShell (_title s) (_taskbarState s) (_taskbarProgress s) (_workingDirectory s) (_workingDirectoryReportedByShell s) shellName shellVersion) t).
Definition SearchMissingCommand (command : wstring) : M unit := t ← gets id; callback (MissingCommand command (point.y (Cursor._cPosition (_cursor (_activeBuffer t))))).

(** [til::rect{ viewport.ToInclusive() }] *)
Definition viewport_rect (v : Viewport.t) : rect.t := rect.of_inclusive (Viewport.ToInclusive v).

Definition Terminal_api : ITerminalApi (Terminal D) D := {|
  visibleBuffer := _activeBuffer;
  put_visibleBuffer := put_activeBuffer;
  visibleViewport t := viewport_rect (_GetMutableViewport t);
  isMainBuffer t := negb (_inAltBuffer t);
  terminalInput := _terminalInput;
  put_terminalInput := set_terminalInput;
  renderSettings := _renderSettings;
  put_renderSettings := set_renderSettings;
  process := _process;
  put_process := set_process;
  api_UnknownSequence t := t;
  api_ReturnResponse := ReturnResponse;
  api_IsConPTY _ := false;
  api_SetViewportPosition := SetViewportPosition;
  api_IsVtInputEnabled _ := false;
  api_SetSystemMode := SetSystemMode;
  api_GetSystemMode := GetSystemMode;
  api_ReturnAnswerback := ReturnAnswerback;
  api_WarningBell := callback WarningBellRang;
  api_SetWindowTitle := SetWindowTitle;
  api_UseAlternateScreenBuffer := UseAlternateScreenBuffer;
  api_UseMainScreenBuffer := UseMainScreenBuffer;
  api_GetUserDefaultCursorStyle t := _defaultCursorShape (_settings t);
  api_ShowWindow show := callback (ShowWindowChanged show);
  api_SetCodePage _ := mret tt;
  api_ResetCodePage := mret tt;
  api_GetOutputCodePage _ := 65001;
  api_GetInputCodePage _ := 65001;
  api_CopyToClipboard := CopyToClipboard;
  api_SetTaskbarProgress := SetTaskbarProgress;
  api_SetWorkingDirectory := SetWorkingDirectory;
  api_SetShellType := SetShellType;
  api_PlayMidiNote note velocity duration := callback (MidiNote note velocity duration);
  api_ResizeWindow := ResizeWindow;
  api_NotifyBufferRotation := NotifyBufferRotation;
  api_NotifyShellIntegrationMark := _NotifyScrollEvent;
  api_InvokeCompletions menu length := callback (CompletionsChanged menu length);
  api_SearchMissingCommand := SearchMissingCommand;
  api_NotifyVtSequence sequence := callback (VtSequence sequence);
  api_ShowNotification title body := callback (Notification title body)
|}.

(** ** Construction *)

Definition ClampToShortMax (value min : Z) : Z := clamp value min SHRT_MAX.
Definition RGB (r g b : Z) : Z := Z.lor r (Z.lor (Z.shiftl g 8) (Z.shiftl b 16)).
Definition initial_colors (r : RenderSettings) : RenderSettings :=
  (SetColorAlias ColorAlias.DefaultBackground DEFAULT_BACKGROUND (RGB 0 0 0) (SetColorAlias ColorAlias.DefaultForeground DEFAULT_FOREGROUND (RGB 255 255 255) r).1).1.

(** [Terminal::Terminal] and [Terminal::Create]; [memory] is that of the colour table
    before it is initialised. *)
Definition Create (memory : list Z) (settings : CoreSettings) (p : Process D) (viewportSize : size.t) (scrollbackLines : Z) : option (Terminal D) :=
  let bufferSize := size.mk (size.width viewportSize) (ClampToShortMax (size.height viewportSize + scrollbackLines) 1) in
  let zero := point.mk 0 0 in
  match TextBuffer_new allocated bufferSize TextAttribute.default 12 true (s_lastMutationIdInitialValue p) (singleton p) (heap p) with
  | (b, Returned _) =>
    Some (mkTerminal b None (Viewport.FromDimensions zero viewportSize) (size.mk 0 0) 0 (mkSelection zero zero zero false) (enumset.of_positions [SystemMode.AutoWrap]) new_TerminalInput
      (initial_colors (new_RenderSettings memory)) (mkProcess (_detector b) (_allocations b) (u64 (s_lastMutationIdInitialValue p + 2 ^ 32)))
      (mkShell None 0 0 [] false [] []) settings [])
  | _ => None
  end.
End Terminal.
