(* ===== verification/AdaptDispatch.v ===== *)
(** * The dispatcher: cursor, margins, tab stops and pages

    src/terminal/adapter/adaptDispatch.cpp. The state of [AdaptDispatch] over any
    terminal; what it asks of the parser is recorded in [_requests]. The sixel
    parser and the soft font are created on demand; AdaptShell.v adds them. Parameters of control sequences are at most 65535, so that the arithmetic
    on positions does not leave the range of [int]. The macro buffer is shared with the
    callbacks that invoke macros: [_macroBuffers] are all that were ever created, and
    [_macroBuffer] says which one is current. *)

From stdpp Require Import list gmap.
From S2P Require Import Prelude Til Utils VtTypes StateMachine TermDispatch TextAttributes Graphics CodepointWidth CodepointWidthProps Geometry Row RowWrite Cursor TextBuffer MacroBuffer Charsets TerminalOutput TerminalInput RenderSettings Pages.

(** [enum class Mode] of the dispatcher. *)
Module AdaptMode.
Definition InsertReplace : Z := 0.
Definition Origin : Z := 1.
Definition Column : Z := 2.
Definition AllowDECCOLM : Z := 3.
Definition AllowDECSLRM : Z := 4.
Definition SixelDisplay : Z := 5.
Definition EraseColor : Z := 6.
Definition RectangularChangeExtent : Z := 7.
Definition PageCursorCoupling : Z := 8.
End AdaptMode.

Record CursorState := mkCursorState {
  saved_Row : Z;
  saved_Column : Z;
  saved_Page : Z;
  IsDelayedEOLWrap : bool;
  IsOriginModeRelative : bool;
  saved_Attributes : TextAttribute.t;
  saved_TermOutput : TerminalOutput
}.
Definition new_CursorState : CursorState := mkCursorState 1 1 1 false false TextAttribute.default (make_TerminalOutput false).

Record Offset := mkOffset { Value : Z; IsAbsolute : bool }.
Module Offset.
Definition Absolute (value : Z) : Offset := mkOffset (value - 1) true.
Definition Forward (value : Z) : Offset := mkOffset value false.
Definition Backward (value : Z) : Offset := mkOffset (- value) false.
Definition Unchanged : Offset := Forward 0.
End Offset.

Record AdaptDispatch (A D CB : Type) := mkAdapt {
  _pages : PageManager A D;
  _requests : list (Request CB);
  _tabStopColumns : list bool;
  _initDefaultTabStops : bool;
  _termOutput : TerminalOutput;
  _macroBuffer : option nat;
  _macroBuffers : list MacroBuffer;
  _optionalFeatures : Z;
  _savedCursorState : list CursorState;
  _usingAltBuffer : bool;
  _scrollMargins : inclusive_rect.t;
  _modes : Z;
  _stack : SgrStack.t
}.
Arguments mkAdapt {A D CB}. Arguments _pages {A D CB}. Arguments _requests {A D CB}. Arguments _tabStopColumns {A D CB}. Arguments _initDefaultTabStops {A D CB}.
Arguments _termOutput {A D CB}. Arguments _macroBuffer {A D CB}. Arguments _macroBuffers {A D CB}. Arguments _optionalFeatures {A D CB}. Arguments _savedCursorState {A D CB}.
Arguments _usingAltBuffer {A D CB}. Arguments _scrollMargins {A D CB}. Arguments _modes {A D CB}. Arguments _stack {A D CB}.

(** What the code depends on of the machine it runs on; see TextBuffer. The strings that
    are printed lie at [string_address]. *)
Record Platform := mkPlatform {
  avx2 : bool;
  uninitialised : nat -> Z;
  allocated : nat -> Z;
  rowSize : Z;
  size_bits : Z;
  string_address : Z;
  iteration : gmap wstring Z -> list (wstring * Z)
}.

Section State.
Context {A D CB : Type}.
Local Abbreviation S' := (AdaptDispatch A D CB).
Implicit Types s : S'.
Definition set_pages v s : S' := mkAdapt v (_requests s) (_tabStopColumns s) (_initDefaultTabStops s) (_termOutput s) (_macroBuffer s) (_macroBuffers s) (_optionalFeatures s) (_savedCursorState s) (_usingAltBuffer s) (_scrollMargins s) (_modes s) (_stack s).
Definition set_requests v s : S' := mkAdapt (_pages s) v (_tabStopColumns s) (_initDefaultTabStops s) (_termOutput s) (_macroBuffer s) (_macroBuffers s) (_optionalFeatures s) (_savedCursorState s) (_usingAltBuffer s) (_scrollMargins s) (_modes s) (_stack s).
Definition set_tabStops v i s : S' := mkAdapt (_pages s) (_requests s) v i (_termOutput s) (_macroBuffer s) (_macroBuffers s) (_optionalFeatures s) (_savedCursorState s) (_usingAltBuffer s) (_scrollMargins s) (_modes s) (_stack s).
Definition set_termOutput v s : S' := mkAdapt (_pages s) (_requests s) (_tabStopColumns s) (_initDefaultTabStops s) v (_macroBuffer s) (_macroBuffers s) (_optionalFeatures s) (_savedCursorState s) (_usingAltBuffer s) (_scrollMargins s) (_modes s) (_stack s).
Definition set_macroBuffer v heap s : S' := mkAdapt (_pages s) (_requests s) (_tabStopColumns s) (_initDefaultTabStops s) (_termOutput s) v heap (_optionalFeatures s) (_savedCursorState s) (_usingAltBuffer s) (_scrollMargins s) (_modes s) (_stack s).
Definition set_optionalFeatures v s : S' := mkAdapt (_pages s) (_requests s) (_tabStopColumns s) (_initDefaultTabStops s) (_termOutput s) (_macroBuffer s) (_macroBuffers s) v (_savedCursorState s) (_usingAltBuffer s) (_scrollMargins s) (_modes s) (_stack s).
Definition set_savedCursorState v s : S' := mkAdapt (_pages s) (_requests s) (_tabStopColumns s) (_initDefaultTabStops s) (_termOutput s) (_macroBuffer s) (_macroBuffers s) (_optionalFeatures s) v (_usingAltBuffer s) (_scrollMargins s) (_modes s) (_stack s).
Definition set_usingAltBuffer v s : S' := mkAdapt (_pages s) (_requests s) (_tabStopColumns s) (_initDefaultTabStops s) (_termOutput s) (_macroBuffer s) (_macroBuffers s) (_optionalFeatures s) (_savedCursorState s) v (_scrollMargins s) (_modes s) (_stack s).
Definition set_scrollMargins v s : S' := mkAdapt (_pages s) (_requests s) (_tabStopColumns s) (_initDefaultTabStops s) (_termOutput s) (_macroBuffer s) (_macroBuffers s) (_optionalFeatures s) (_savedCursorState s) (_usingAltBuffer s) v (_modes s) (_stack s).
Definition set_modes v s : S' := mkAdapt (_pages s) (_requests s) (_tabStopColumns s) (_initDefaultTabStops s) (_termOutput s) (_macroBuffer s) (_macroBuffers s) (_optionalFeatures s) (_savedCursorState s) (_usingAltBuffer s) (_scrollMargins s) v (_stack s).
Definition set_stack v s : S' := mkAdapt (_pages s) (_requests s) (_tabStopColumns s) (_initDefaultTabStops s) (_termOutput s) (_macroBuffer s) (_macroBuffers s) (_optionalFeatures s) (_savedCursorState s) (_usingAltBuffer s) (_scrollMargins s) (_modes s) v.

Definition mode (m : Z) s : bool := enumset.test (_modes s) m.
Definition set_mode (m : Z) (enable : bool) s : S' := set_modes (enumset.set (_modes s) m enable) s.
Definition reset_modes (ms : list Z) s : S' := set_modes (enumset.reset_all (_modes s) ms) s.
End State.

Section Dispatch.
Context {A D CB : Type} `{Measurement D} `{!ITerminalApi A D}.
Variable P : Platform.
Local Abbreviation M := (comp (AdaptDispatch A D CB)).
Implicit Types (s : AdaptDispatch A D CB) (page : Page).

(** ** Access to the parts *)

Definition with_pages {X} (m : comp (PageManager A D) X) : M X := fun s => let '(p, o) := m (_pages s) in (set_pages p s, o).
Definition api {X} (m : comp A X) : M X := with_pages (with_api m).
Definition ask {X} (f : A -> X) : M X := s ← gets id; mret (f (_api (_pages s))).
Definition request (r : Request CB) : M unit := modify (fun s => set_requests (_requests s ++ [r]) s).
Definition charsets {X} (m : comp TerminalOutput X) : M X := fun s => let '(t, o) := m (_termOutput s) in (set_termOutput t s, o).
Definition on_page {X} page (m : comp (TextBuffer D) X) : M X := with_pages (on_buffer (page_ref page) m).
Definition read_page {X} page (f : TextBuffer D -> X) : M X := with_pages (read_buffer (page_ref page) f).
Definition on_cursor page (f : Cursor.t -> Cursor.t) : M unit := on_page page (modify (fun b => set_cursor (f (_cursor b)) b)).
Definition on_input (f : TerminalInput -> TerminalInput) : M unit := api (modify (fun a => put_terminalInput (f (terminalInput a)) a)).

Definition active_page : M Page := with_pages (ActivePage (avx2 P) (uninitialised P) (allocated P) (rowSize P)).
Definition visible_page : M Page := with_pages (VisiblePage (avx2 P) (uninitialised P) (allocated P) (rowSize P)).
Definition cursor_position page : M point.t := c ← read_page page _cursor; mret (Cursor._cPosition c).
Definition page_Width page : M Z := read_page page (fun b => Viewport.Width (GetSize b)).
Definition page_BufferHeight page : M Z := read_page page (fun b => Viewport.Height (GetSize b)).
Definition page_Attributes page : M TextAttribute.t := read_page page _currentAttributes.
Definition page_SetAttributes page (attr : TextAttribute.t) : M unit := on_page page (SetCurrentAttributes attr).
Definition line_width page (row : Z) : M Z := on_page page (GetLineWidth (avx2 P) (uninitialised P) (rowSize P) row).
Definition clamp_position page (p : point.t) : M point.t := on_page page (ClampPositionWithinLine (avx2 P) (uninitialised P) (rowSize P) p).

(** ** Margins *)

Definition _GetVerticalMargins page (absolute : bool) : M (Z * Z) := fun s =>
  let bottommostRow := Page.Height page - 1 in
  let m := _scrollMargins s in
  let m := if bottommostRow <=? inclusive_rect.top m then inclusive_rect.mk (inclusive_rect.left m) 0 (inclusive_rect.right m) 0 else m in
  let marginsSet := inclusive_rect.top m <? inclusive_rect.bottom m in
  let topMargin := if marginsSet then inclusive_rect.top m else 0 in
  let bottomMargin := Z.min (if marginsSet then inclusive_rect.bottom m else bottommostRow) bottommostRow in
  let offset := if absolute then Page.Top page else 0 in
  (set_scrollMargins m s, Returned (topMargin + offset, bottomMargin + offset)).

Definition _GetHorizontalMargins (pageWidth : Z) : M (Z * Z) := fun s =>
  let rightmostColumn := pageWidth - 1 in
  let m := _scrollMargins s in
  let m := if rightmostColumn <=? inclusive_rect.left m then inclusive_rect.mk 0 (inclusive_rect.top m) 0 (inclusive_rect.bottom m) else m in
  let marginsSet := inclusive_rect.left m <? inclusive_rect.right m in
  let leftMargin := if marginsSet then inclusive_rect.left m else 0 in
  let rightMargin := Z.min (if marginsSet then inclusive_rect.right m else rightmostColumn) rightmostColumn in
  (set_scrollMargins m s, Returned (leftMargin, rightMargin)).

(** ** Cursor movement *)

(** Where the row and the column end up. *)
Definition moved_row page (origin clampInMargins : bool) (topMargin bottomMargin leftMargin rightMargin : Z) (rowOffset : Offset) (cursorPosition : point.t) : Z :=
  let row := if IsAbsolute rowOffset then if origin then topMargin else Page.Top page else point.y cursorPosition in
  let row := clamp (row + Value rowOffset) (Page.Top page) (Page.Bottom page - 1) in
  if (clampInMargins || origin) && ((leftMargin <=? point.x cursorPosition) && (point.x cursorPosition <=? rightMargin)) then
    let row := if topMargin <=? point.y cursorPosition then Z.max row topMargin else row in
    if point.y cursorPosition <=? bottomMargin then Z.min row bottomMargin else row
  else row.
Definition moved_column (pageWidth : Z) (origin clampInMargins : bool) (topMargin bottomMargin leftMargin rightMargin : Z) (colOffset : Offset) (cursorPosition : point.t) (row : Z) : Z :=
  let col := if IsAbsolute colOffset then if origin then leftMargin else 0 else point.x cursorPosition in
  let col := clamp (col + Value colOffset) 0 (pageWidth - 1) in
  if (clampInMargins || origin) && ((topMargin <=? row) && (row <=? bottomMargin)) then
    let col := if leftMargin <=? point.x cursorPosition then Z.max col leftMargin else col in
    if point.x cursorPosition <=? rightMargin then Z.min col rightMargin else col
  else col.

Definition _CursorMovePosition (rowOffset colOffset : Offset) (clampInMargins : bool) : M unit :=
  page ← active_page;
  pageWidth ← page_Width page;
  cursorPosition ← cursor_position page;
  '(topMargin, bottomMargin) ← _GetVerticalMargins page true;
  '(leftMargin, rightMargin) ← _GetHorizontalMargins pageWidth;
  origin ← gets (mode AdaptMode.Origin);
  let row := moved_row page origin clampInMargins topMargin bottomMargin leftMargin rightMargin rowOffset cursorPosition in
  let col := moved_column pageWidth origin clampInMargins topMargin bottomMargin leftMargin rightMargin colOffset cursorPosition row in
  position ← clamp_position page (point.mk col row);
  on_cursor page (Cursor.SetPosition position).

Definition CursorUp (distance : Z) : M unit := _CursorMovePosition (Offset.Backward distance) Offset.Unchanged true.
Definition CursorDown (distance : Z) : M unit := _CursorMovePosition (Offset.Forward distance) Offset.Unchanged true.
Definition CursorForward (distance : Z) : M unit := _CursorMovePosition Offset.Unchanged (Offset.Forward distance) true.
Definition CursorBackward (distance : Z) : M unit := _CursorMovePosition Offset.Unchanged (Offset.Backward distance) true.
Definition CursorNextLine (distance : Z) : M unit := _CursorMovePosition (Offset.Forward distance) (Offset.Absolute 1) true.
Definition CursorPrevLine (distance : Z) : M unit := _CursorMovePosition (Offset.Backward distance) (Offset.Absolute 1) true.
Definition CursorHorizontalPositionAbsolute (column : Z) : M unit := _CursorMovePosition Offset.Unchanged (Offset.Absolute column) false.
Definition VerticalLinePositionAbsolute (line : Z) : M unit := _CursorMovePosition (Offset.Absolute line) Offset.Unchanged false.
Definition HorizontalPositionRelative (distance : Z) : M unit := _CursorMovePosition Offset.Unchanged (Offset.Forward distance) false.
Definition VerticalPositionRelative (distance : Z) : M unit := _CursorMovePosition (Offset.Forward distance) Offset.Unchanged false.
Definition CursorPosition (line column : Z) : M unit := _CursorMovePosition (Offset.Absolute line) (Offset.Absolute column) false.
Definition CarriageReturn : M unit := _CursorMovePosition Offset.Unchanged (Offset.Absolute 1) true.

(** ** Pages *)

Definition move_to (page : Z) (makeVisible : bool) : M unit := with_pages (MoveTo (avx2 P) (uninitialised P) (allocated P) (rowSize P) page makeVisible).
Definition move_relative (pageCount : Z) (makeVisible : bool) : M unit := with_pages (MoveRelative (avx2 P) (uninitialised P) (allocated P) (rowSize P) pageCount makeVisible).
Definition PagePositionAbsolute (page : Z) : M unit := coupled ← gets (mode AdaptMode.PageCursorCoupling); move_to page coupled.
Definition PagePositionRelative (pageCount : Z) : M unit := coupled ← gets (mode AdaptMode.PageCursorCoupling); move_relative pageCount coupled.
Definition PagePositionBack (pageCount : Z) : M unit := coupled ← gets (mode AdaptMode.PageCursorCoupling); move_relative (- pageCount) coupled.
Definition NextPage (pageCount : Z) : M unit := PagePositionRelative pageCount;; CursorPosition 1 1.
Definition PrecedingPage (pageCount : Z) : M unit := PagePositionBack pageCount;; CursorPosition 1 1.

(** ** The saved cursor *)

(** The cursor relative to the page, or to the margins; counted from 1. *)
Definition relative_position page : M point.t :=
  position ← cursor_position page;
  let position := point.mk (point.x position) (point.y position - Page.Top page) in
  origin ← gets (mode AdaptMode.Origin);
  position ←
    (if origin : bool then
       w ← page_Width page;
       '(leftMargin, _) ← _GetHorizontalMargins w;
       '(topMargin, _) ← _GetVerticalMargins page false;
       mret (point.mk (point.x position - leftMargin) (point.y position - topMargin))
     else mret position);
  mret (point.mk (point.x position + 1) (point.y position + 1)).

Definition saved_index s : nat := if _usingAltBuffer s then 1 else 0.
Definition saved_state : M CursorState := fun s => match _savedCursorState s !! saved_index s with Some c => (s, Returned c) | None => (s, Threw) end.

Definition CursorSaveState : M unit :=
  page ← active_page;
  position ← relative_position page;
  cursor ← read_page page _cursor;
  attributes ← page_Attributes page;
  modify (fun s => set_savedCursorState (<[saved_index s :=
    mkCursorState (point.y position) (point.x position) (Page.Number page) (bool_decide (Cursor.GetDelayEOLWrap cursor <> None)) (mode AdaptMode.Origin s) attributes (_termOutput s)]> (_savedCursorState s)) s).

Definition CursorRestoreState : M unit :=
  saved ← saved_state;
  modify (set_mode AdaptMode.Origin (IsOriginModeRelative saved));;
  PagePositionAbsolute (saved_Page saved);;
  CursorPosition (saved_Row saved) (saved_Column saved);;
  page ← active_page;
  (if IsDelayedEOLWrap saved then on_cursor page Cursor.DelayEOLWrap else mret tt);;
  page_SetAttributes page (saved_Attributes saved);;
  charsets (modify (RestoreFrom (saved_TermOutput saved))).

(** ** Setting the margins *)

(** The margins in one direction, if they are valid: top or left, and bottom or right. *)
Definition actual_margins (first last extent : Z) : option (Z * Z) :=
  let first := if first =? 0 then 1 else first in
  let last := if last =? 0 then extent else last in
  if (first <? last) && (last <=? extent) then Some (if (first =? 1) && (last =? extent) then (0, 0) else (first - 1, last - 1)) else None.

Definition _DoSetTopBottomScrollingMargins (topMargin bottomMargin : Z) (homeCursor : bool) : M unit :=
  page ← active_page;
  match actual_margins topMargin bottomMargin (Page.Height page) with
  | Some (top, bottom) =>
    modify (fun s => let m := _scrollMargins s in set_scrollMargins (inclusive_rect.mk (inclusive_rect.left m) top (inclusive_rect.right m) bottom) s);;
    if homeCursor then CursorPosition 1 1 else mret tt
  | None => mret tt
  end.
Definition _DoSetLeftRightScrollingMargins (leftMargin rightMargin : Z) (homeCursor : bool) : M unit :=
  page ← active_page;
  pageWidth ← page_Width page;
  match actual_margins leftMargin rightMargin pageWidth with
  | Some (newLeft, newRight) =>
    modify (fun s => let m := _scrollMargins s in set_scrollMargins (inclusive_rect.mk newLeft (inclusive_rect.top m) newRight (inclusive_rect.bottom m)) s);;
    if homeCursor then CursorPosition 1 1 else mret tt
  | None => mret tt
  end.
Definition SetTopBottomScrollingMargins (topMargin bottomMargin : Z) : M unit := _DoSetTopBottomScrollingMargins topMargin bottomMargin true.
Definition SetLeftRightScrollingMargins (leftMargin rightMargin : Z) : M unit :=
  allowed ← gets (mode AdaptMode.AllowDECSLRM);
  if allowed : bool then _DoSetLeftRightScrollingMargins leftMargin rightMargin true else CursorSaveState.

(** ** Tab stops *)

(** [resize] and the new stops of every eight columns. *)
Definition tab_stops_for_width (width : nat) (init : bool) (stops : list bool) : list bool :=
  stops ++ map (fun column => init && negb (column =? 0)%nat && (column mod 8 =? 0)%nat) (seq (length stops) (width - length stops)).
Definition _InitTabStopsForWidth (width : Z) : M unit :=
  if width <? 0 then throw else modify (fun s => set_tabStops (tab_stops_for_width (Z.to_nat width) (_initDefaultTabStops s) (_tabStopColumns s)) (_initDefaultTabStops s) s).

(** [_tabStopColumns.at(column) = value] throws. *)
Definition set_tab_stop (column : Z) (value : bool) : M unit := fun s =>
  if (0 <=? column) && (column <? Z.of_nat (length (_tabStopColumns s)))
  then (set_tabStops (<[Z.to_nat column := value]> (_tabStopColumns s)) (_initDefaultTabStops s) s, Returned tt) else (s, Threw).

Definition HorizontalTabSet : M unit :=
  page ← active_page;
  position ← cursor_position page;
  w ← page_Width page;
  _InitTabStopsForWidth w;;
  set_tab_stop (point.x position) true.
Definition _ClearSingleTabStop : M unit :=
  page ← active_page;
  position ← cursor_position page;
  w ← page_Width page;
  _InitTabStopsForWidth w;;
  set_tab_stop (point.x position) false.
Definition _ClearAllTabStops : M unit := modify (set_tabStops [] false).
Definition TabClear (clearType : Z) : M unit := switch clearType [(0, _ClearSingleTabStop); (3, _ClearAllTabStops)] (mret tt).
Definition TabSet (setType : Z) : M unit := if VTParameter.value_or setType 5 =? 5 then modify (set_tabStops [] true) else mret tt.

(** The loops over the columns; [til::at] is unchecked. *)
Fixpoint forward_tabs (fuel : nat) (stops : list bool) (column maxColumn tabsPerformed numTabs : Z) : option Z :=
  if (column <? maxColumn) && (tabsPerformed <? numTabs) then
    match fuel with
    | O => None
    | S fuel => stop ← stops !! Z.to_nat (column + 1); forward_tabs fuel stops (column + 1) maxColumn (if stop : bool then tabsPerformed + 1 else tabsPerformed) numTabs
    end
  else Some column.
Fixpoint backward_tabs (fuel : nat) (stops : list bool) (column minColumn tabsPerformed numTabs : Z) : option Z :=
  if (minColumn <? column) && (tabsPerformed <? numTabs) then
    match fuel with
    | O => None
    | S fuel => stop ← stops !! Z.to_nat (column - 1); backward_tabs fuel stops (column - 1) minColumn (if stop : bool then tabsPerformed + 1 else tabsPerformed) numTabs
    end
  else Some column.

Definition ForwardTab (numTabs : Z) : M unit :=
  page ← active_page;
  position ← cursor_position page;
  width ← line_width page (point.y position);
  '(topMargin, bottomMargin) ← _GetVerticalMargins page true;
  '(leftMargin, rightMargin) ← _GetHorizontalMargins width;
  let clampToMargin := (topMargin <=? point.y position) && (point.y position <=? bottomMargin) && (point.x position <=? rightMargin) in
  let maxColumn := if clampToMargin then rightMargin else width - 1 in
  _InitTabStopsForWidth width;;
  stops ← gets _tabStopColumns;
  match forward_tabs (Z.to_nat (maxColumn - point.x position)) stops (point.x position) maxColumn 0 numTabs with
  | Some column =>
    cursor ← read_page page _cursor;
    on_cursor page (Cursor.SetXPosition column);;
    if bool_decide (Cursor.GetDelayEOLWrap cursor <> None) then on_cursor page Cursor.DelayEOLWrap else mret tt
  | None => undefined
  end.
Definition BackwardsTab (numTabs : Z) : M unit :=
  page ← active_page;
  position ← cursor_position page;
  width ← line_width page (point.y position);
  '(topMargin, bottomMargin) ← _GetVerticalMargins page true;
  '(leftMargin, rightMargin) ← _GetHorizontalMargins width;
  let clampToMargin := (topMargin <=? point.y position) && (point.y position <=? bottomMargin) && (leftMargin <=? point.x position) in
  let minColumn := if clampToMargin then leftMargin else 0 in
  _InitTabStopsForWidth width;;
  stops ← gets _tabStopColumns;
  match backward_tabs (Z.to_nat (point.x position - minColumn)) stops (point.x position) minColumn 0 numTabs with
  | Some column => on_cursor page (Cursor.SetXPosition column)
  | None => undefined
  end.
End Dispatch.
