(* ===== verification/AdaptScreen.v ===== *)
(** * The dispatcher: writing, erasing and scrolling

    src/terminal/adapter/adaptDispatch.cpp, the operations on the contents of a page. *)

From stdpp Require Import list gmap.
From S2P Require Import Prelude Til Utils VtTypes StateMachine TermDispatch TextAttributes Graphics Rle CodepointWidth CodepointWidthProps Geometry ImageSlice Row RowWrite Cursor TextBuffer MacroBuffer Charsets TerminalOutput TerminalInput RenderSettings Pages Cells AdaptDispatch.

(** [DispatchTypes::EraseType] *)
Module EraseType.
Definition ToEnd : Z := 0.
Definition FromBeginning : Z := 1.
Definition All : Z := 2.
Definition Scrollback : Z := 3.
End EraseType.

(** Changes to the attributes of a cell: masks for the flags, and colours. *)
Record ChangeOps := mkChangeOps {
  andAttrMask : Z;
  xorAttrMask : Z;
  foreground : option TextColor.t;
  background : option TextColor.t;
  underlineColor : option TextColor.t
}.

Section Screen.
Context {A D CB : Type} `{Measurement D} `{!ITerminalApi A D}.
Variable P : Platform.
Local Abbreviation M := (comp (AdaptDispatch A D CB)).
Implicit Types (s : AdaptDispatch A D CB) (page : Page).
Local Abbreviation active_page := (active_page P).
Local Abbreviation line_width := (line_width P).
Local Abbreviation clamp_position := (clamp_position P).
Local Abbreviation CursorPosition := (CursorPosition P).

(** ** Erasing *)

Definition _GetEraseAttributes page : M TextAttribute.t :=
  erase ← gets (mode AdaptMode.EraseColor);
  if erase : bool then mret TextAttribute.default else attr ← page_Attributes page; mret (TextAttribute.SetStandardErase attr).

Definition _FillRect page (fillRect : rect.t) (fillChar : wstring) (fillAttrs : TextAttribute.t) : M unit :=
  on_page page (FillRect (avx2 P) (uninitialised P) (allocated P) (rowSize P) fillRect (mkView 1 fillChar) fillAttrs).
Definition whitespace : wstring := [UNICODE_SPACE].
Definition reset_line_renditions page (startRow endRow : Z) : M unit :=
  on_page page (ResetLineRenditionRange (avx2 P) (uninitialised P) (rowSize P) startRow endRow).

(** ** Scrolling *)

Definition cell_at page (p : point.t) : M OutputCell := on_page page (GetCellDataAt (avx2 P) (uninitialised P) (rowSize P) p).
Definition write_cell_at page (cell : OutputCell) (p : point.t) : M Z :=
  on_page page (WriteLine (avx2 P) (uninitialised P) (allocated P) (rowSize P) [cell] p None None).
Definition copy_block (src dst : Page) (srcRect dstRect : rect.t) : M unit :=
  with_pages (CopyBlock (avx2 P) (uninitialised P) (rowSize P) (page_ref src) (page_ref dst) srcRect dstRect).
(** [noexcept], so that a failing conversion ends the program. *)
Definition walk (v : Viewport.t) (p : point.t) (direction : Z) : M (point.t * bool) :=
  match Viewport.WalkInBounds v p direction false with Some r => mret r | None => undefined end.
Definition check {X} (o : option X) : M X := match o with Some x => mret x | None => throw end.

(** The loops go through the cells of the target; there are [fuel] of them. *)
Fixpoint copy_cells (fuel : nat) page (srcView dstView : Viewport.t) (direction : Z) (srcPos dstPos : point.t) : M unit :=
  match fuel with
  | O => out_of_fuel
  | S fuel =>
    current ← cell_at page srcPos;
    write_cell_at page current dstPos;;
    '(srcPos, _) ← walk srcView srcPos direction;
    '(dstPos, more) ← walk dstView dstPos direction;
    if more : bool then copy_cells fuel page srcView dstView direction srcPos dstPos else mret tt
  end.

Definition _ScrollRectVertically page (scrollRect : rect.t) (delta : Z) : M unit :=
  rectHeight ← check (rect.height scrollRect);
  let absoluteDelta := Z.min (Z.abs delta) rectHeight in
  (if absoluteDelta <? rectHeight then
     let top := if 0 <? delta then rect.top scrollRect else rect.top scrollRect + absoluteDelta in
     width ← check (rect.width scrollRect);
     let height := rectHeight - absoluteDelta in
     let actualDelta := if 0 <? delta then absoluteDelta else - absoluteDelta in
     pageWidth ← page_Width page;
     if width =? pageWidth then
       on_page page (ScrollRows (avx2 P) (uninitialised P) (allocated P) (rowSize P) top height actualDelta)
     else
       let srcView := Viewport.FromDimensions (point.mk (rect.left scrollRect) top) (size.mk width height) in
       let dstView := Viewport.FromDimensions (point.mk (rect.left scrollRect) (top + actualDelta)) (size.mk width height) in
       let walkDirection := Viewport.DetermineWalkDirection srcView dstView in
       copy_cells (Z.to_nat (width * height)) page srcView dstView walkDirection (Viewport.GetWalkOrigin srcView walkDirection) (Viewport.GetWalkOrigin dstView walkDirection);;
       copy_block page page (Viewport.ToExclusive srcView) (Viewport.ToExclusive dstView)
   else mret tt);;
  let eraseTop := if 0 <? delta then rect.top scrollRect else rect.bottom scrollRect - absoluteDelta in
  let eraseRect := rect.mk (rect.left scrollRect) eraseTop (rect.right scrollRect) (eraseTop + absoluteDelta) in
  eraseAttributes ← _GetEraseAttributes page;
  _FillRect page eraseRect whitespace eraseAttributes;;
  reset_line_renditions page (rect.top eraseRect) (rect.bottom eraseRect).

(** Two cells are read before the first is written. *)
Fixpoint shift_cells (fuel : nat) page (source target : Viewport.t) (direction : Z) (next : OutputCell) (sourcePos targetPos : point.t) : M unit :=
  match fuel with
  | O => out_of_fuel
  | S fuel =>
    '(sourcePos, _) ← walk source sourcePos direction;
    following ← cell_at page sourcePos;
    write_cell_at page next targetPos;;
    '(targetPos, more) ← walk target targetPos direction;
    if more : bool then shift_cells fuel page source target direction following sourcePos targetPos else mret tt
  end.

Definition _ScrollRectHorizontally page (scrollRect : rect.t) (delta : Z) : M unit :=
  rectWidth ← check (rect.width scrollRect);
  let absoluteDelta := Z.min (Z.abs delta) rectWidth in
  (if absoluteDelta <? rectWidth then
     let left_ := if 0 <? delta then rect.left scrollRect else rect.left scrollRect + absoluteDelta in
     let width := rectWidth - absoluteDelta in
     height ← check (rect.height scrollRect);
     let actualDelta := if 0 <? delta then absoluteDelta else - absoluteDelta in
     let source := Viewport.FromDimensions (point.mk left_ (rect.top scrollRect)) (size.mk width height) in
     let target := Viewport.Offset source (point.mk actualDelta 0) in
     let walkDirection := Viewport.DetermineWalkDirection source target in
     let sourcePos := Viewport.GetWalkOrigin source walkDirection in
     next ← cell_at page sourcePos;
     shift_cells (Z.to_nat (width * height)) page source target walkDirection next sourcePos (Viewport.GetWalkOrigin target walkDirection);;
     copy_block page page (Viewport.ToExclusive source) (Viewport.ToExclusive target)
   else mret tt);;
  let eraseLeft := if 0 <? delta then rect.left scrollRect else rect.right scrollRect - absoluteDelta in
  eraseAttributes ← _GetEraseAttributes page;
  _FillRect page (rect.mk eraseLeft (rect.top scrollRect) (eraseLeft + absoluteDelta) (rect.bottom scrollRect)) whitespace eraseAttributes.

Definition _InsertDeleteCharacterHelper (delta : Z) : M unit :=
  page ← active_page;
  position ← cursor_position page;
  let row := point.y position in
  let col := point.x position in
  lineWidth ← line_width page row;
  '(topMargin, bottomMargin) ← _GetVerticalMargins page true;
  '(leftMargin, rightMargin) ← (if (topMargin <=? row) && (row <=? bottomMargin) then _GetHorizontalMargins lineWidth else mret (0, lineWidth - 1));
  if (leftMargin <=? col) && (col <=? rightMargin) then
    _ScrollRectHorizontally page (rect.mk col row (rightMargin + 1) (row + 1)) delta;;
    on_cursor page Cursor.ResetDelayEOLWrap
  else mret tt.
Definition InsertCharacter (count : Z) : M unit := _InsertDeleteCharacterHelper count.
Definition DeleteCharacter (count : Z) : M unit := _InsertDeleteCharacterHelper (- count).

Definition _InsertDeleteLineHelper (delta : Z) : M unit :=
  page ← active_page;
  position ← cursor_position page;
  let row := point.y position in
  let col := point.x position in
  '(topMargin, bottomMargin) ← _GetVerticalMargins page true;
  w ← page_Width page;
  '(leftMargin, rightMargin) ← _GetHorizontalMargins w;
  if (topMargin <=? row) && (row <=? bottomMargin) && (leftMargin <=? col) && (col <=? rightMargin) then
    _ScrollRectVertically page (rect.mk leftMargin row (rightMargin + 1) (bottomMargin + 1)) delta;;
    on_cursor page (Cursor.SetXPosition leftMargin)
  else mret tt.
Definition InsertLine (distance : Z) : M unit := _InsertDeleteLineHelper distance.
Definition DeleteLine (distance : Z) : M unit := _InsertDeleteLineHelper (- distance).

Definition _InsertDeleteColumnHelper (delta : Z) : M unit :=
  page ← active_page;
  position ← cursor_position page;
  let row := point.y position in
  let col := point.x position in
  '(topMargin, bottomMargin) ← _GetVerticalMargins page true;
  w ← page_Width page;
  '(leftMargin, rightMargin) ← _GetHorizontalMargins w;
  if (topMargin <=? row) && (row <=? bottomMargin) && (leftMargin <=? col) && (col <=? rightMargin) then
    _ScrollRectHorizontally page (rect.mk col topMargin (rightMargin + 1) (bottomMargin + 1)) delta
  else mret tt.
Definition InsertColumn (distance : Z) : M unit := _InsertDeleteColumnHelper distance.
Definition DeleteColumn (distance : Z) : M unit := _InsertDeleteColumnHelper (- distance).

Definition _ScrollMovement (delta : Z) : M unit :=
  page ← active_page;
  '(topMargin, bottomMargin) ← _GetVerticalMargins page true;
  w ← page_Width page;
  '(leftMargin, rightMargin) ← _GetHorizontalMargins w;
  _ScrollRectVertically page (rect.mk leftMargin topMargin (rightMargin + 1) (bottomMargin + 1)) delta.
Definition ScrollUp (uiDistance : Z) : M unit := _ScrollMovement (- uiDistance).
Definition ScrollDown (uiDistance : Z) : M unit := _ScrollMovement uiDistance.

(** ** Line feeds *)

Definition set_viewport_position (p : point.t) : M unit := api (api_SetViewportPosition p).

Definition _DoLineFeed page (withReturn wrapForced : bool) : M bool :=
  pageWidth ← page_Width page;
  bufferHeight ← page_BufferHeight page;
  '(topMargin, bottomMargin) ← _GetVerticalMargins page true;
  '(leftMargin, rightMargin) ← _GetHorizontalMargins pageWidth;
  current ← cursor_position page;
  on_page page (SetWrapForced_at (avx2 P) (uninitialised P) (rowSize P) (point.y current) wrapForced);;
  let newX :=
    if withReturn then
      if (topMargin <=? point.y current) && (point.y current <=? bottomMargin) && (leftMargin <=? point.x current) then leftMargin else 0
    else point.x current in
  '(newPosition, viewportMoved) ←
    (if negb (point.y current =? bottomMargin) || (newX <? leftMargin) || (rightMargin <? newX) then
       p ← clamp_position page (point.mk newX (Z.min (point.y current + 1) (Page.Bottom page - 1)));
       mret (p, false)
     else if (Page.Top page <? topMargin) || (0 <? leftMargin) || (rightMargin <? pageWidth - 1) then
       _ScrollRectVertically page (rect.mk leftMargin topMargin (rightMargin + 1) (bottomMargin + 1)) (-1);;
       mret (point.mk newX (point.y current), false)
     else if Page.Bottom page <? bufferHeight then
       set_viewport_position (point.mk (Page.XPanOffset page) (Page.Top page + 1));;
       (if bottomMargin <? Page.Bottom page - 1 then
          _ScrollRectVertically page (rect.mk 0 (bottomMargin + 1) pageWidth (Page.Bottom page + 1)) 1
        else
          eraseAttributes ← _GetEraseAttributes page;
          on_page page (slot ← GetMutableRowByOffset (avx2 P) (uninitialised P) (rowSize P) (point.y current + 1); row_Reset (avx2 P) (uninitialised P) slot eraseAttributes));;
       mret (point.mk newX (point.y current + 1), true)
     else
       eraseAttributes ← _GetEraseAttributes page;
       on_page page (IncrementCircularBuffer (avx2 P) (uninitialised P) (rowSize P) (iteration P) eraseAttributes);;
       api (api_NotifyBufferRotation 1);;
       (if bottomMargin <? Page.Bottom page - 1 then _ScrollRectVertically page (rect.mk 0 bottomMargin pageWidth bufferHeight) 1 else mret tt);;
       mret (point.mk newX (point.y current), false));
  on_cursor page (Cursor.SetPosition newPosition);;
  mret viewportMoved.

Definition LineFeed (lineFeedType : Z) : M unit :=
  page ← active_page;
  if lineFeedType =? DispatchTypes.LineFeedType.DependsOnMode then r ← ask (api_GetSystemMode SystemMode.LineFeed); _DoLineFeed page r false;; mret tt
  else if lineFeedType =? DispatchTypes.LineFeedType.WithoutReturn then _DoLineFeed page false false;; mret tt
  else if lineFeedType =? DispatchTypes.LineFeedType.WithReturn then _DoLineFeed page true false;; mret tt
  else mret tt.

Definition ReverseLineFeed : M unit :=
  page ← active_page;
  position ← cursor_position page;
  w ← page_Width page;
  '(leftMargin, rightMargin) ← _GetHorizontalMargins w;
  '(topMargin, bottomMargin) ← _GetVerticalMargins page true;
  if (point.y position =? topMargin) && (leftMargin <=? point.x position) && (point.x position <=? rightMargin) then
    _ScrollRectVertically page (rect.mk leftMargin topMargin (rightMargin + 1) (bottomMargin + 1)) 1
  else if Page.Top page <? point.y position then
    p ← clamp_position page (point.mk (point.x position) (point.y position - 1));
    on_cursor page (Cursor.SetPosition p)
  else mret tt.

Definition BackIndex : M unit :=
  page ← active_page;
  position ← cursor_position page;
  w ← page_Width page;
  '(leftMargin, rightMargin) ← _GetHorizontalMargins w;
  '(topMargin, bottomMargin) ← _GetVerticalMargins page true;
  if (point.x position =? leftMargin) && (topMargin <=? point.y position) && (point.y position <=? bottomMargin) then
    _ScrollRectHorizontally page (rect.mk leftMargin topMargin (rightMargin + 1) (bottomMargin + 1)) 1
  else if 0 <? point.x position then on_cursor page (Cursor.SetXPosition (point.x position - 1))
  else mret tt.
Definition ForwardIndex : M unit :=
  page ← active_page;
  position ← cursor_position page;
  w ← page_Width page;
  '(leftMargin, rightMargin) ← _GetHorizontalMargins w;
  '(topMargin, bottomMargin) ← _GetVerticalMargins page true;
  if (point.x position =? rightMargin) && (topMargin <=? point.y position) && (point.y position <=? bottomMargin) then
    _ScrollRectHorizontally page (rect.mk leftMargin topMargin (rightMargin + 1) (bottomMargin + 1)) (-1)
  else
    lineWidth ← line_width page (point.y position);
    if point.x position <? lineWidth - 1 then on_cursor page (Cursor.SetXPosition (point.x position + 1)) else mret tt.

(** ** Writing *)

Definition grapheme_next page (v : wstring_view) : M Z :=
  on_page page (fun b => let '(d, n) := TextBuffer_GraphemeNext v 0 (_detector b) in (set_detector d (_allocations b) b, Returned n)).
Definition substr (v : wstring_view) (n : Z) : M wstring_view := if CodepointWidth.view_size v <? n then throw else mret (mkView (data v + n) (drop (Z.to_nat n) (text v))).

Definition insert_or_replace page (y : Z) (state : RowWriteState) : M RowWriteState :=
  insert ← gets (mode AdaptMode.InsertReplace);
  attributes ← page_Attributes page;
  on_page page (if insert : bool then Insert (avx2 P) (uninitialised P) (allocated P) (rowSize P) y attributes state
    else Replace (avx2 P) (uninitialised P) (allocated P) (rowSize P) y attributes state).

(** A delayed wrap takes place before the next character. *)
Definition wrap_line page (topMargin bottomMargin rightMargin : Z) (wrapAtEOL : bool) (cursorPosition : point.t) (limit : Z) : M (Page * Z * Z * point.t * Z) :=
  cursor ← read_page page _cursor;
  match Cursor.GetDelayEOLWrap cursor with
  | Some delayed =>
    if wrapAtEOL then
      on_cursor page Cursor.ResetDelayEOLWrap;;
      if point.eqb delayed cursorPosition then
        moved ← _DoLineFeed page true true;
        '(page, topMargin, bottomMargin) ←
          (if moved : bool then
             let page := Page.MoveViewportDown page in
             '(topMargin, bottomMargin) ← _GetVerticalMargins page true;
             mret (page, topMargin, bottomMargin)
           else mret (page, topMargin, bottomMargin));
        cursorPosition ← cursor_position page;
        lineWidth ← line_width page (point.y cursorPosition);
        let lineWidth := if (topMargin <=? point.y cursorPosition) && (point.y cursorPosition <=? bottomMargin) then Z.min lineWidth (rightMargin + 1) else lineWidth in
        mret (page, topMargin, bottomMargin, cursorPosition, lineWidth)
      else mret (page, topMargin, bottomMargin, cursorPosition, limit)
    else mret (page, topMargin, bottomMargin, cursorPosition, limit)
  | None => mret (page, topMargin, bottomMargin, cursorPosition, limit)
  end.

Fixpoint write_loop (fuel : nat) page (topMargin bottomMargin rightMargin : Z) (wrapAtEOL : bool) (cursorPosition : point.t) (state : RowWriteState) : M unit :=
  match text (ws_text state) with
  | [] => mret tt
  | _ =>
    match fuel with
    | O => out_of_fuel
    | S fuel =>
      '(page, topMargin, bottomMargin, cursorPosition, limit) ← wrap_line page topMargin bottomMargin rightMargin wrapAtEOL cursorPosition (ws_columnLimit state);
      let before := data (ws_text state) in
      state ← insert_or_replace page (point.y cursorPosition)
        (mkWriteState (ws_text state) (point.x cursorPosition) limit (ws_columnEnd state) (ws_columnBeginDirty state) (ws_columnEndDirty state));
      let isWrapping := ws_columnLimit state <=? ws_columnEnd state in
      let cursorPosition := point.mk (if isWrapping then ws_columnLimit state - 1 else ws_columnEnd state) (point.y cursorPosition) in
      on_cursor page (Cursor.SetPosition cursorPosition);;
      state ←
        (if isWrapping then
           rest ←
             (if (before =? data (ws_text state)) && ((ws_columnBegin state =? 0) || negb wrapAtEOL) then
                n ← grapheme_next page (ws_text state);
                substr (ws_text state) n
              else mret (ws_text state));
           (if wrapAtEOL then on_cursor page Cursor.DelayEOLWrap else mret tt);;
           mret (mkWriteState rest (ws_columnBegin state) (ws_columnLimit state) (ws_columnEnd state) (ws_columnBeginDirty state) (ws_columnEndDirty state))
         else mret state);
      write_loop fuel page topMargin bottomMargin rightMargin wrapAtEOL cursorPosition state
    end
  end.

(** A wide glyph that does not fit behind the left margin of double-width lines moves down
    line by line until the page scrolls, so that a character may take as many rounds as
    the page has lines. *)
Definition _WriteToBuffer (string : wstring) : M unit :=
  page ← active_page;
  cursorPosition ← cursor_position page;
  wrapAtEOL ← ask (api_GetSystemMode SystemMode.AutoWrap);
  '(topMargin, bottomMargin) ← _GetVerticalMargins page true;
  w ← page_Width page;
  '(leftMargin, rightMargin) ← _GetHorizontalMargins w;
  lineWidth ← line_width page (point.y cursorPosition);
  let lineWidth := if (point.x cursorPosition <=? rightMargin) && (topMargin <=? point.y cursorPosition) && (point.y cursorPosition <=? bottomMargin)
    then Z.min lineWidth (rightMargin + 1) else lineWidth in
  write_loop ((Z.to_nat (Page.Height page) + 3) * length string + 1) page topMargin bottomMargin rightMargin wrapAtEOL cursorPosition (mkWriteState (mkView (string_address P) string) 0 lineWidth 0 0 0).

Definition Print (wchPrintable : wchar) : M unit :=
  wchTranslated ← charsets (TranslateKey wchPrintable);
  if wchTranslated =? 0x7F then mret tt else _WriteToBuffer [wchTranslated].
Definition PrintString (string : wstring) : M unit := translated ← charsets (printed_text string); _WriteToBuffer translated.
End Screen.
