(* ===== verification/AdaptAreas.v ===== *)
(** * The dispatcher: erasing and rectangular areas

    src/terminal/adapter/adaptDispatch.cpp: ED, EL, ECH and their selective variants, the
    operations on rectangular areas, and what acts on the attributes of the page. *)

From stdpp Require Import list gmap.
From S2P Require Import Prelude Til Utils VtTypes StateMachine TermDispatch TextAttributes Graphics Rle CodepointWidth CodepointWidthProps Geometry ImageSlice Row RowWrite Cursor TextBuffer MacroBuffer Charsets TerminalOutput TerminalInput RenderSettings Pages Cells AdaptDispatch AdaptScreen.

Definition CP_UTF8 : Z := 65001.

Section Areas.
Context {A D CB : Type} `{Measurement D} `{!ITerminalApi A D}.
Variable P : Platform.
Local Abbreviation M := (comp (AdaptDispatch A D CB)).
Implicit Types (s : AdaptDispatch A D CB) (page : Page).
Local Abbreviation active_page := (active_page P).
Local Abbreviation visible_page := (visible_page P).
Local Abbreviation line_width := (line_width P).
Local Abbreviation CursorPosition := (CursorPosition P).
Local Abbreviation _FillRect := (_FillRect P).
Local Abbreviation reset_line_renditions := (reset_line_renditions P).

(** ** Erasing *)

Definition EraseCharacters (numChars : Z) : M unit :=
  page ← active_page;
  position ← cursor_position page;
  let row := point.y position in
  let startCol := point.x position in
  w ← line_width page row;
  on_cursor page Cursor.ResetDelayEOLWrap;;
  eraseAttributes ← _GetEraseAttributes page;
  _FillRect page (rect.mk startCol row (Z.min (startCol + numChars) w) (row + 1)) whitespace eraseAttributes.

Definition _EraseScrollback : M unit :=
  page ← visible_page;
  position ← cursor_position page;
  on_page page (ClearScrollback (avx2 P) (uninitialised P) (allocated P) (rowSize P) (Page.Top page) (Page.Height page));;
  set_viewport_position (point.mk (Page.XPanOffset page) 0);;
  on_cursor page (Cursor.SetYPosition (point.y position - Page.Top page)).

Fixpoint rotate (count : nat) page : M unit :=
  match count with
  | O => mret tt
  | S count => on_page page (IncrementCircularBuffer (avx2 P) (uninitialised P) (rowSize P) (iteration P) TextAttribute.default);; rotate count page
  end.

Definition _EraseAll : M unit :=
  page ← active_page;
  pageWidth ← page_Width page;
  let pageHeight := Page.Height page in
  bufferHeight ← page_BufferHeight page;
  position ← cursor_position page;
  let row := point.y position - Page.Top page in
  lastChar ← on_page page (GetLastNonSpaceCharacter (avx2 P) (uninitialised P) (rowSize P) None);
  let newPageTop := if point.eqb lastChar (point.mk 0 0) then 0 else point.y lastChar + 1 in
  let delta := newPageTop + pageHeight - bufferHeight in
  (if 0 <? delta then rotate (Z.to_nat delta) page;; api (api_NotifyBufferRotation delta) else mret tt);;
  let newPageTop := if 0 <? delta then newPageTop - delta else newPageTop in
  let newPageBottom := newPageTop + pageHeight in
  (if newPageTop =? Page.Top page then mret tt else set_viewport_position (point.mk (Page.XPanOffset page) newPageTop));;
  on_cursor page (Cursor.SetYPosition (row + newPageTop));;
  eraseAttributes ← _GetEraseAttributes page;
  _FillRect page (rect.mk 0 newPageTop pageWidth newPageBottom) whitespace eraseAttributes;;
  reset_line_renditions page newPageTop newPageBottom.

Definition EraseInDisplay (eraseType : Z) : M unit :=
  if EraseType.Scrollback <? eraseType then mret tt
  else if eraseType =? EraseType.Scrollback then _EraseScrollback
  else if eraseType =? EraseType.All then _EraseAll
  else
    page ← active_page;
    pageWidth ← page_Width page;
    position ← cursor_position page;
    let row := point.y position in
    let col := point.x position in
    on_cursor page Cursor.ResetDelayEOLWrap;;
    eraseAttributes ← _GetEraseAttributes page;
    if eraseType =? EraseType.FromBeginning then
      reset_line_renditions page (Page.Top page) row;;
      _FillRect page (rect.mk 0 (Page.Top page) pageWidth row) whitespace eraseAttributes;;
      _FillRect page (rect.mk 0 row (col + 1) (row + 1)) whitespace eraseAttributes
    else if eraseType =? EraseType.ToEnd then
      reset_line_renditions page (if 0 <? col then row + 1 else row) (Page.Bottom page);;
      _FillRect page (rect.mk col row pageWidth (row + 1)) whitespace eraseAttributes;;
      _FillRect page (rect.mk 0 (row + 1) pageWidth (Page.Bottom page)) whitespace eraseAttributes
    else mret tt.

Definition EraseInLine (eraseType : Z) : M unit :=
  page ← active_page;
  position ← cursor_position page;
  let row := point.y position in
  let col := point.x position in
  on_cursor page Cursor.ResetDelayEOLWrap;;
  eraseAttributes ← _GetEraseAttributes page;
  if eraseType =? EraseType.FromBeginning then _FillRect page (rect.mk 0 row (col + 1) (row + 1)) whitespace eraseAttributes
  else if eraseType =? EraseType.ToEnd then w ← line_width page row; _FillRect page (rect.mk col row w (row + 1)) whitespace eraseAttributes
  else if eraseType =? EraseType.All then w ← line_width page row; _FillRect page (rect.mk 0 row w (row + 1)) whitespace eraseAttributes
  else mret tt.

(** ** Loops over the cells of a rectangle *)

Fixpoint for_columns (count : nat) (col : Z) (f : Z -> comp (TextBuffer D) unit) : comp (TextBuffer D) unit :=
  match count with
  | O => mret tt
  | S count => f col;; for_columns count (col + 1) f
  end.
Definition for_cells (r : rect.t) (f : nat -> Z -> comp (TextBuffer D) unit) : comp (TextBuffer D) unit :=
  for_rows (Z.to_nat (rect.bottom r - rect.top r)) (rect.top r) (fun row =>
    slot ← GetMutableRowByOffset (avx2 P) (uninitialised P) (rowSize P) row;
    for_columns (Z.to_nat (rect.right r - rect.left r)) (rect.left r) (f slot)).

(** *** Selective erasing *)

Definition selective_erase_cell (slot : nat) (col : Z) : comp (TextBuffer D) unit :=
  attr ← with_text slot (GetAttrByColumn col);
  if TextAttribute.IsProtected attr then mret tt
  else ClearCell_at (avx2 P) (uninitialised P) (allocated P) slot col;; EraseImage_at slot col (col + 1).
Definition _SelectiveEraseRect page (eraseRect : rect.t) : M unit :=
  if rect.is_valid eraseRect then on_page page (for_cells eraseRect selective_erase_cell) else mret tt.

Definition SelectiveEraseInDisplay (eraseType : Z) : M unit :=
  page ← active_page;
  pageWidth ← page_Width page;
  position ← cursor_position page;
  let row := point.y position in
  let col := point.x position in
  on_cursor page Cursor.ResetDelayEOLWrap;;
  if eraseType =? EraseType.FromBeginning then
    _SelectiveEraseRect page (rect.mk 0 (Page.Top page) pageWidth row);;
    _SelectiveEraseRect page (rect.mk 0 row (col + 1) (row + 1))
  else if eraseType =? EraseType.ToEnd then
    _SelectiveEraseRect page (rect.mk col row pageWidth (row + 1));;
    _SelectiveEraseRect page (rect.mk 0 (row + 1) pageWidth (Page.Bottom page))
  else if eraseType =? EraseType.All then _SelectiveEraseRect page (rect.mk 0 (Page.Top page) pageWidth (Page.Bottom page))
  else mret tt.
Definition SelectiveEraseInLine (eraseType : Z) : M unit :=
  page ← active_page;
  position ← cursor_position page;
  let row := point.y position in
  let col := point.x position in
  on_cursor page Cursor.ResetDelayEOLWrap;;
  if eraseType =? EraseType.FromBeginning then _SelectiveEraseRect page (rect.mk 0 row (col + 1) (row + 1))
  else if eraseType =? EraseType.ToEnd then w ← line_width page row; _SelectiveEraseRect page (rect.mk col row w (row + 1))
  else if eraseType =? EraseType.All then w ← line_width page row; _SelectiveEraseRect page (rect.mk 0 row w (row + 1))
  else mret tt.

(** *** Changing attributes *)

Definition changed_attribute (ops : ChangeOps) (attr : TextAttribute.t) : TextAttribute.t :=
  let attr := TextAttribute.set_attrs (Z.lxor (Z.land (TextAttribute._attrs attr) (andAttrMask ops)) (xorAttrMask ops)) attr in
  let attr := match foreground ops with Some c => TextAttribute.SetForeground c attr | None => attr end in
  let attr := match background ops with Some c => TextAttribute.SetBackground c attr | None => attr end in
  match underlineColor ops with Some c => TextAttribute.SetUnderlineColor c attr | None => attr end.
Definition change_cell (ops : ChangeOps) (slot : nat) (col : Z) : comp (TextBuffer D) unit :=
  attr ← with_text slot (GetAttrByColumn col);
  with_attributes (allocated P) slot (ReplaceAttributes col (col + 1) (changed_attribute ops attr)).
Definition _ChangeRectAttributes page (changeRect : rect.t) (ops : ChangeOps) : M unit :=
  if rect.is_valid changeRect then on_page page (for_cells changeRect (change_cell ops)) else mret tt.

Definition _CalculateRectArea page (top left_ bottom right_ : Z) : M rect.t :=
  pageWidth ← page_Width page;
  let pageHeight := Page.Height page in
  '(topMargin, bottomMargin) ← _GetVerticalMargins page false;
  '(leftMargin, rightMargin) ← _GetHorizontalMargins pageWidth;
  origin ← gets (mode AdaptMode.Origin);
  let yOffset := if origin : bool then topMargin else 0 in
  let yMaximum := if origin then bottomMargin + 1 else pageHeight in
  let xOffset := if origin then leftMargin else 0 in
  let xMaximum := if origin then rightMargin + 1 else pageWidth in
  let fillRight := if right_ =? 0 then xMaximum else right_ + xOffset in
  let fillBottom := if bottom =? 0 then yMaximum else bottom + yOffset in
  mret (rect.of_inclusive (inclusive_rect.mk
    (Z.min (left_ + xOffset) xMaximum - 1) (Z.min (top + yOffset) yMaximum - 1 + Page.Top page)
    (Z.min fillRight xMaximum - 1) (Z.min fillBottom yMaximum - 1 + Page.Top page))).

Definition _ChangeRectOrStreamAttributes (changeArea : rect.t) (ops : ChangeOps) : M unit :=
  page ← active_page;
  changeRect ← _CalculateRectArea page (rect.top changeArea) (rect.left changeArea) (rect.bottom changeArea) (rect.right changeArea);
  lineCount ← check (rect.height changeRect);
  rectangular ← gets (mode AdaptMode.RectangularChangeExtent);
  if (rectangular : bool) || (lineCount =? 1) then _ChangeRectAttributes page changeRect ops
  else if (1 <? lineCount) && (rect.left changeRect <? rect.right changeRect) then
    pageWidth ← page_Width page;
    first ← check (rect.at_size (rect.origin changeRect) (size.mk (pageWidth - rect.left changeRect) 1));
    _ChangeRectAttributes page first ops;;
    middle ← check (rect.at_size (point.mk 0 (rect.top changeRect + 1)) (size.mk pageWidth (lineCount - 2)));
    _ChangeRectAttributes page middle ops;;
    last ← check (rect.at_size (point.mk 0 (rect.bottom changeRect - 1)) (size.mk (rect.right changeRect) 1));
    _ChangeRectAttributes page last ops
  else mret tt.

(** The masks and colours that the options of SGR amount to. *)
Definition black_attribute : TextAttribute.t := TextAttribute.of_rgb 0 0 0.
Definition change_ops_of (attrs : VTParameters.t) : ChangeOps :=
  let allAttrsOff := _ApplyGraphicsOptions attrs TextAttribute.default in
  let allAttrsOn := _ApplyGraphicsOptions attrs (TextAttribute.set_attrs CharacterAttributes.All black_attribute) in
  let orAttrMask := TextAttribute._attrs allAttrsOff in
  let changed (color : TextAttribute.t -> TextColor.t) : option TextColor.t :=
    if negb (TextColor.IsDefault (color allAttrsOff)) || TextColor.IsDefault (color allAttrsOn) then Some (color allAttrsOff) else None in
  mkChangeOps (Z.ldiff (TextAttribute._attrs allAttrsOn) orAttrMask) orAttrMask (changed TextAttribute._foreground) (changed TextAttribute._background) (changed TextAttribute._underlineColor).
Definition ChangeAttributesRectangularArea (top left_ bottom right_ : Z) (attrs : VTParameters.t) : M unit :=
  _ChangeRectOrStreamAttributes (rect.mk left_ top right_ bottom) (change_ops_of attrs).

(** All rendition bits; of the underline style only that of a single line. *)
Definition reverse_all : Z := Z.lor (Z.ldiff CharacterAttributes.Rendition CharacterAttributes.UnderlineStyle) (Z.shiftl UnderlineStyle.SinglyUnderlined UNDERLINE_STYLE_SHIFT).
Fixpoint reverse_mask (fuel : nat) (attrs : VTParameters.t) (i : nat) (mask : Z) : Z :=
  match fuel with
  | O => mask
  | S fuel =>
    if (VTParameters.size attrs <=? i)%nat then mask
    else if VTParameter.value_or (VTParameters.at_ attrs i) 0 =? 0 then reverse_mask fuel attrs (S i) (Z.lxor mask reverse_all)
    else
      let '(n, allAttrsOff) := _ApplyGraphicsOption attrs i TextAttribute.default in
      reverse_mask fuel attrs (i + n) (Z.lxor mask (TextAttribute._attrs allAttrsOff))
  end.
Definition ReverseAttributesRectangularArea (top left_ bottom right_ : Z) (attrs : VTParameters.t) : M unit :=
  let mask := if VTParameters.empty attrs then CharacterAttributes.Normal else reverse_mask (VTParameters.size attrs) attrs 0 CharacterAttributes.Normal in
  if mask =? CharacterAttributes.Normal then mret tt
  else _ChangeRectOrStreamAttributes (rect.mk left_ top right_ bottom) (mkChangeOps CharacterAttributes.All mask None None None).
Definition SelectAttributeChangeExtent (changeExtent : Z) : M unit :=
  switch changeExtent [(0, modify (reset_modes [AdaptMode.RectangularChangeExtent])); (1, modify (reset_modes [AdaptMode.RectangularChangeExtent]));
    (2, modify (set_mode AdaptMode.RectangularChangeExtent true))] (mret tt).

(** *** Copying and filling *)

Fixpoint copy_area (fuel : nat) (src dst : Page) (srcView dstView : Viewport.t) (direction : Z) (next : OutputCell) (srcPos dstPos : point.t) : M unit :=
  match fuel with
  | O => out_of_fuel
  | S fuel =>
    '(nextPos, _) ← walk srcView srcPos direction;
    following ← cell_at P src nextPos;
    w ← line_width src (point.y srcPos);
    (if point.x srcPos <? w then write_cell_at P dst next dstPos;; mret tt else mret tt);;
    '(dstPos, more) ← walk dstView dstPos direction;
    if more : bool then copy_area fuel src dst srcView dstView direction following nextPos dstPos else mret tt
  end.
Definition CopyRectangularArea (top left_ bottom right_ page dstTop dstLeft dstPage : Z) : M unit :=
  src ← with_pages (Get (avx2 P) (uninitialised P) (allocated P) (rowSize P) page);
  dst ← with_pages (Get (avx2 P) (uninitialised P) (allocated P) (rowSize P) dstPage);
  srcRect ← _CalculateRectArea src top left_ bottom right_;
  srcHeight ← check (rect.height srcRect);
  srcWidth ← check (rect.width srcRect);
  dstRect ← _CalculateRectArea dst dstTop dstLeft (dstTop + srcHeight - 1) (dstLeft + srcWidth - 1);
  if rect.is_valid dstRect && (negb (point.eqb (rect.origin dstRect) (rect.origin srcRect)) || negb (Page.Number src =? Page.Number dst)) then
    width ← check (rect.width dstRect);
    height ← check (rect.height dstRect);
    let srcView := Viewport.FromDimensions (rect.origin srcRect) (size.mk width height) in
    let dstView := Viewport.FromDimensions (rect.origin dstRect) (size.mk width height) in
    let walkDirection := Viewport.DetermineWalkDirection srcView dstView in
    let srcPos := Viewport.GetWalkOrigin srcView walkDirection in
    next ← cell_at P src srcPos;
    copy_area (Z.to_nat (width * height)) src dst srcView dstView walkDirection next srcPos (Viewport.GetWalkOrigin dstView walkDirection);;
    copy_block P src dst (Viewport.ToExclusive srcView) (Viewport.ToExclusive dstView)
  else mret tt.

Definition FillRectangularArea (ch top left_ bottom right_ : Z) : M unit :=
  page ← active_page;
  fillRect ← _CalculateRectArea page top left_ bottom right_;
  let charValue := if VTParameter.value_or ch 0 =? 0 then 32 else ch in
  codePage ← ask api_GetOutputCodePage;
  let glChar := (32 <=? charValue) && (charValue <=? 126) in
  let grChar := (160 <=? charValue) && (charValue <=? 255) in
  let unicodeChar := (256 <=? charValue) && (charValue <=? 65535) && (codePage =? CP_UTF8) in
  if glChar || grChar || unicodeChar then
    fillChar ← charsets (TranslateKey charValue);
    fillAttributes ← page_Attributes page;
    _FillRect page fillRect [fillChar] fillAttributes
  else mret tt.
Definition EraseRectangularArea (top left_ bottom right_ : Z) : M unit :=
  page ← active_page;
  eraseRect ← _CalculateRectArea page top left_ bottom right_;
  eraseAttributes ← _GetEraseAttributes page;
  _FillRect page eraseRect whitespace eraseAttributes.
Definition SelectiveEraseRectangularArea (top left_ bottom right_ : Z) : M unit :=
  page ← active_page;
  eraseRect ← _CalculateRectArea page top left_ bottom right_;
  _SelectiveEraseRect page eraseRect.

(** ** Renditions, links and the test pattern *)

Definition on_attributes (f : TextAttribute.t -> TextAttribute.t) : M unit := page ← active_page; attr ← page_Attributes page; page_SetAttributes page (f attr).
Definition SetGraphicsRendition (options : VTParameters.t) : M unit := on_attributes (_ApplyGraphicsOptions options).
Definition SetCharacterProtectionAttribute (options : VTParameters.t) : M unit := on_attributes (apply_protection options).
Definition PushGraphicsRendition (options : VTParameters.t) : M unit :=
  page ← active_page;
  currentAttributes ← page_Attributes page;
  s ← gets id;
  match SgrStack.Push currentAttributes options (_stack s) with Some stack => modify (set_stack stack) | None => undefined end.
Definition PopGraphicsRendition : M unit :=
  page ← active_page;
  currentAttributes ← page_Attributes page;
  s ← gets id;
  match SgrStack.Pop currentAttributes (_stack s) with Some (stack, attr) => modify (set_stack stack);; page_SetAttributes page attr | None => undefined end.

Definition SetLineRendition (rendition : Z) : M unit :=
  allowed ← gets (mode AdaptMode.AllowDECSLRM);
  if allowed : bool then mret tt
  else
    page ← active_page;
    eraseAttributes ← _GetEraseAttributes page;
    on_page page (SetCurrentLineRendition (avx2 P) (uninitialised P) (allocated P) (rowSize P) rendition eraseAttributes);;
    on_cursor page Cursor.ResetDelayEOLWrap.

Definition ScreenAlignmentPattern : M unit :=
  page ← active_page;
  w ← page_Width page;
  _FillRect page (rect.mk 0 (Page.Top page) w (Page.Bottom page)) (wide "E") TextAttribute.default;;
  reset_line_renditions page (Page.Top page) (Page.Bottom page);;
  attr ← page_Attributes page;
  page_SetAttributes page (TextAttribute.SetStandardErase attr);;
  modify (reset_modes [AdaptMode.Origin; AdaptMode.AllowDECSLRM]);;
  _DoSetTopBottomScrollingMargins P 0 0 false;;
  _DoSetLeftRightScrollingMargins P 0 0 false;;
  CursorPosition 1 1.

Definition AddHyperlink (uri params : wstring) : M unit :=
  page ← active_page;
  attr ← page_Attributes page;
  id ← on_page page (GetHyperlinkId (size_bits P) uri params);
  page_SetAttributes page (TextAttribute.SetHyperlinkId id attr);;
  on_page page (AddHyperlinkToMap uri id).
Definition EndHyperlink : M unit := on_attributes (TextAttribute.SetHyperlinkId 0).
End Areas.
