(* ===== verification/AdaptModes.v ===== *)
(** * The dispatcher: modes, charsets and resets

    src/terminal/adapter/adaptDispatch.cpp: SM, RM and DECRQM, the keyboard protocol of
    kitty, the designation of charsets, DECSTR and RIS, and the responses that it sends. *)

From stdpp Require Import list gmap.
From S2P Require Import Prelude Til Utils VtTypes StateMachine TermDispatch TextAttributes Graphics CodepointWidth CodepointWidthProps Geometry Row RowWrite Cursor TextBuffer MacroBuffer Charsets TerminalOutput TerminalInput RenderSettings Pages Cells AdaptDispatch AdaptScreen AdaptAreas.

(** [DispatchTypes::ModeParams] *)
Module ModeParams.
Definition ansi (n : Z) : Z := n.
Definition private (n : Z) : Z := DispatchTypes.FlaggedEnumValue 0x01000000 n.
Definition IRM_InsertReplaceMode : Z := ansi 4.
Definition LNM_LineFeedNewLineMode : Z := ansi 20.
Definition DECCKM_CursorKeysMode : Z := private 1.
Definition DECANM_AnsiMode : Z := private 2.
Definition DECCOLM_SetNumberOfColumns : Z := private 3.
Definition DECSCNM_ScreenMode : Z := private 5.
Definition DECOM_OriginMode : Z := private 6.
Definition DECAWM_AutoWrapMode : Z := private 7.
Definition DECARM_AutoRepeatMode : Z := private 8.
Definition ATT610_StartCursorBlink : Z := private 12.
Definition DECTCEM_TextCursorEnableMode : Z := private 25.
Definition XTERM_EnableDECCOLMSupport : Z := private 40.
Definition DECPCCM_PageCursorCouplingMode : Z := private 64.
Definition DECNKM_NumericKeypadMode : Z := private 66.
Definition DECBKM_BackarrowKeyMode : Z := private 67.
Definition DECLRMM_LeftRightMarginMode : Z := private 69.
Definition DECSDM_SixelDisplayMode : Z := private 80.
Definition DECECM_EraseColorMode : Z := private 117.
Definition VT200_MOUSE_MODE : Z := private 1000.
Definition BUTTON_EVENT_MOUSE_MODE : Z := private 1002.
Definition ANY_EVENT_MOUSE_MODE : Z := private 1003.
Definition FOCUS_EVENT_MODE : Z := private 1004.
Definition UTF8_EXTENDED_MODE : Z := private 1005.
Definition SGR_EXTENDED_MODE : Z := private 1006.
Definition ALTERNATE_SCROLL : Z := private 1007.
Definition ASB_AlternateScreenBuffer : Z := private 1049.
Definition XTERM_BracketedPasteMode : Z := private 2004.
Definition SO_SynchronizedOutput : Z := private 2026.
Definition GCM_GraphemeClusterMode : Z := private 2027.
Definition W32IM_Win32InputMode : Z := private 9001.
End ModeParams.

(** [DispatchTypes::ModeResponses] *)
Definition DECRPM_Unsupported : Z := 0.
Definition DECRPM_Enabled : Z := 1.
Definition DECRPM_Disabled : Z := 2.
Definition DECRPM_PermanentlyEnabled : Z := 3.
Definition DECRPM_PermanentlyDisabled : Z := 4.

Module OptionalFeature.
Definition ChecksumReport : Z := 0.
Definition ClipboardWrite : Z := 1.
Definition DesktopNotification : Z := 2.
End OptionalFeature.

(** [AdaptDispatch::AdaptDispatch] *)
Definition new_AdaptDispatch {A D CB : Type} (a : A) : AdaptDispatch A D CB :=
  mkAdapt (new_PageManager a) [] [] true (make_TerminalOutput false) None [] (enumset.of_positions [OptionalFeature.ClipboardWrite])
    [new_CursorState; new_CursorState] false (inclusive_rect.mk 0 0 0 0) (enumset.of_positions [AdaptMode.PageCursorCoupling]) SgrStack.init.

(** A signed number in decimal, as the format functions write it. *)
Definition number (v : Z) : wstring := if v <? 0 then 0x2D :: decimal 10 (- v) else decimal 10 v.
Definition join_with (separator : wstring) (parts : list wstring) : wstring :=
  match parts with [] => [] | part :: parts => part ++ concat (map (fun p => separator ++ p) parts) end.
Definition numbers (ns : list Z) : wstring := join_with (wide ";") (map number ns).

Section Modes.
Context {A D CB : Type} `{Measurement D} `{!ITerminalApi A D}.
Variable P : Platform.
(** [CodepointWidthDetector::Singleton().GetMode() == TextMeasurementMode::Graphemes] *)
Variable graphemes : D -> bool.
Local Abbreviation M := (comp (AdaptDispatch A D CB)).
Implicit Types (s : AdaptDispatch A D CB) (page : Page).
Local Abbreviation active_page := (active_page P).
Local Abbreviation visible_page := (visible_page P).
Local Abbreviation CursorPosition := (CursorPosition P).

(** ** Responses *)

Definition send_c1 : M bool := a ← ask terminalInput; mret (GetInputMode TerminalInput.Mode.SendC1 a).
Definition _ReturnCsiResponse (response : wstring) : M unit := c1 ← send_c1; api (api_ReturnResponse ((if c1 : bool then [0x9B] else [0x1B; 0x5B]) ++ response)).
Definition _ReturnDcsResponse (response : wstring) : M unit :=
  c1 ← send_c1; api (api_ReturnResponse ((if c1 : bool then [0x90] else [0x1B; 0x50]) ++ response ++ (if c1 then [0x9C] else [0x1B; 0x5C]))).
Definition _ReturnOscResponse (response : wstring) : M unit :=
  c1 ← send_c1; api (api_ReturnResponse ((if c1 : bool then [0x9D] else [0x1B; 0x5D]) ++ response ++ (if c1 then [0x9C] else [0x1B; 0x5C]))).

(** ** Charsets and the parser *)

Definition gset (gsetNumber : Z) : nat := Z.to_nat gsetNumber.
Definition Designate94Charset (gsetNumber charset : Z) : M unit := charsets (TerminalOutput.Designate94Charset (gset gsetNumber) charset).
Definition Designate96Charset (gsetNumber charset : Z) : M unit := charsets (TerminalOutput.Designate96Charset (gset gsetNumber) charset).
Definition LockingShift (gsetNumber : Z) : M unit := charsets (TerminalOutput.LockingShift (gset gsetNumber)).
Definition LockingShiftRight (gsetNumber : Z) : M unit := charsets (TerminalOutput.LockingShiftRight (gset gsetNumber)).
Definition SingleShift (gsetNumber : Z) : M unit := charsets (modify (TerminalOutput.SingleShift (gset gsetNumber))).
Definition AcceptC1Controls (enabled : bool) : M unit := request (ReqSetParserMode AcceptC1 enabled).
Definition SendC1Controls (enabled : bool) : M unit :=
  codepage ← ask api_GetInputCodePage;
  if negb enabled || (codepage =? CP_UTF8) || (codepage =? 28591) then on_input (SetInputMode TerminalInput.Mode.SendC1 enabled) else mret tt.
Definition DesignateCodingSystem (codingSystem : Z) : M unit :=
  if codingSystem =? id_of "@" then api (api_SetCodePage 28591);; AcceptC1Controls true;; charsets (EnableGrTranslation true)
  else if codingSystem =? id_of "G" then api (api_SetCodePage CP_UTF8);; AcceptC1Controls false;; charsets (EnableGrTranslation false)
  else mret tt.
Definition ascii_in_GL : M unit := Designate94Charset 0 (id_of "B");; LockingShift 0.
Definition AnnounceCodeStructure (ansiLevel : Z) : M unit :=
  if (ansiLevel =? 1) || (ansiLevel =? 2) then Designate96Charset 1 (id_of "A");; LockingShiftRight 1;; ascii_in_GL
  else if ansiLevel =? 3 then ascii_in_GL
  else mret tt.

(** ** Keyboard *)

Definition SetKeypadMode (fApplicationMode : bool) : M unit := on_input (SetInputMode TerminalInput.Mode.Keypad fApplicationMode).
Definition SetAnsiMode (ansiMode : bool) : M unit :=
  charsets (modify TerminalOutput.SoftReset);;
  request (ReqSetParserMode Ansi ansiMode);;
  on_input (SetInputMode TerminalInput.Mode.Ansi ansiMode).
Definition unless_conpty (m : M unit) : M unit := conpty ← ask api_IsConPTY; if conpty : bool then mret tt else m.
(** The mode is cast to a byte; a value that is no enumerator changes nothing. *)
Definition kitty_mode (mode : Z) : option Kitty.ProtocolMode := switch (u8 mode) [(1, Some Kitty.Replace); (2, Some Kitty.Set_); (3, Some Kitty.Reset_)] None.
Definition SetKittyKeyboardProtocol (flags mode : Z) : M unit :=
  unless_conpty (match kitty_mode (VTParameter.value_or mode 1) with Some m => on_input (TerminalInput.SetKittyKeyboardProtocol (u8 (VTParameter.value_or flags 0)) m) | None => mret tt end).
Definition QueryKittyKeyboardProtocol : M unit := unless_conpty (i ← ask terminalInput; _ReturnCsiResponse (wide "?" ++ number (_kittyFlags i) ++ wide "u")).
Definition PushKittyKeyboardProtocol (flags : Z) : M unit := unless_conpty (on_input (PushKittyFlags (u8 (VTParameter.value_or flags 0)))).
Definition PopKittyKeyboardProtocol (count : Z) : M unit := unless_conpty (on_input (PopKittyFlags (Z.to_nat (VTParameter.value_or count 1)))).

(** ** Modes *)

Definition on_render_settings (f : RenderSettings -> RenderSettings) : M unit := api (modify (fun a => put_renderSettings (f (renderSettings a)) a)).

Definition _SetColumnMode (enable : bool) : M unit :=
  allowed ← gets (mode AdaptMode.AllowDECCOLM);
  if allowed : bool then
    page ← visible_page;
    api (api_ResizeWindow (if enable then 132 else 80) (Page.Height page));;
    modify (fun s => reset_modes [AdaptMode.Origin; AdaptMode.AllowDECSLRM] (set_mode AdaptMode.Column enable s));;
    CursorPosition 1 1;;
    EraseInDisplay P EraseType.All;;
    _DoSetTopBottomScrollingMargins P 0 0 false;;
    _DoSetLeftRightScrollingMargins P 0 0 false
  else mret tt.

Definition _SetAlternateScreenBufferMode (enable : bool) : M unit :=
  if enable then
    CursorSaveState P;;
    page ← active_page;
    attributes ← _GetEraseAttributes page;
    api (api_UseAlternateScreenBuffer attributes);;
    modify (set_usingAltBuffer true)
  else
    api api_UseMainScreenBuffer;;
    modify (set_usingAltBuffer false);;
    CursorRestoreState P.

Definition set_line_feed_mode (enable : bool) : M unit :=
  a ← ask id;
  if Bool.eqb (api_GetSystemMode SystemMode.LineFeed a) (GetInputMode TerminalInput.Mode.LineFeed (terminalInput a)) then
    api (api_SetSystemMode SystemMode.LineFeed enable);; on_input (SetInputMode TerminalInput.Mode.LineFeed enable)
  else mret tt.
Definition on_active_cursor (f : Cursor.t -> Cursor.t) : M unit := page ← active_page; on_cursor page f.
Definition set_margin_mode (enable : bool) : M unit :=
  modify (set_mode AdaptMode.AllowDECSLRM enable);;
  _DoSetLeftRightScrollingMargins P 0 0 false;;
  if enable then page ← active_page; reset_line_renditions P page (Page.Top page) (Page.Bottom page) else mret tt.

(** The modes that are a flag of [TerminalInput], and nothing else. *)
Definition input_modes : list (Z * Z) :=
  [(ModeParams.DECCKM_CursorKeysMode, TerminalInput.Mode.CursorKey); (ModeParams.DECARM_AutoRepeatMode, TerminalInput.Mode.AutoRepeat);
   (ModeParams.DECNKM_NumericKeypadMode, TerminalInput.Mode.Keypad); (ModeParams.DECBKM_BackarrowKeyMode, TerminalInput.Mode.BackarrowKey);
   (ModeParams.VT200_MOUSE_MODE, TerminalInput.Mode.DefaultMouseTracking); (ModeParams.BUTTON_EVENT_MOUSE_MODE, TerminalInput.Mode.ButtonEventMouseTracking);
   (ModeParams.ANY_EVENT_MOUSE_MODE, TerminalInput.Mode.AnyEventMouseTracking); (ModeParams.UTF8_EXTENDED_MODE, TerminalInput.Mode.Utf8MouseEncoding);
   (ModeParams.SGR_EXTENDED_MODE, TerminalInput.Mode.SgrMouseEncoding); (ModeParams.ALTERNATE_SCROLL, TerminalInput.Mode.AlternateScroll)].
(** Those that are a flag of the dispatcher, and nothing else. *)
Definition own_modes : list (Z * Z) :=
  [(ModeParams.IRM_InsertReplaceMode, AdaptMode.InsertReplace); (ModeParams.XTERM_EnableDECCOLMSupport, AdaptMode.AllowDECCOLM);
   (ModeParams.DECSDM_SixelDisplayMode, AdaptMode.SixelDisplay); (ModeParams.DECECM_EraseColorMode, AdaptMode.EraseColor)].

Definition mode_actions (enable : bool) : list (Z * M unit) :=
  map (fun m => (m.1, on_input (SetInputMode m.2 enable))) input_modes ++
  map (fun m => (m.1, modify (set_mode m.2 enable))) own_modes ++
  [(ModeParams.LNM_LineFeedNewLineMode, set_line_feed_mode enable);
   (ModeParams.DECANM_AnsiMode, SetAnsiMode enable);
   (ModeParams.DECCOLM_SetNumberOfColumns, _SetColumnMode enable);
   (ModeParams.DECSCNM_ScreenMode, on_render_settings (SetRenderMode RenderMode.ScreenReversed enable));
   (ModeParams.DECOM_OriginMode, modify (set_mode AdaptMode.Origin enable);; CursorPosition 1 1);
   (ModeParams.DECAWM_AutoWrapMode, api (api_SetSystemMode SystemMode.AutoWrap enable);; if enable then mret tt else on_active_cursor Cursor.ResetDelayEOLWrap);
   (ModeParams.ATT610_StartCursorBlink, on_active_cursor (Cursor.SetIsBlinking enable));
   (ModeParams.DECTCEM_TextCursorEnableMode, on_active_cursor (Cursor.SetIsVisible enable));
   (ModeParams.DECPCCM_PageCursorCouplingMode,
     modify (set_mode AdaptMode.PageCursorCoupling enable);;
     if enable then with_pages (MakeActivePageVisible (avx2 P) (uninitialised P) (allocated P) (rowSize P)) else mret tt);
   (ModeParams.DECLRMM_LeftRightMarginMode, set_margin_mode enable);
   (ModeParams.FOCUS_EVENT_MODE, on_input (SetInputMode TerminalInput.Mode.FocusEvent enable);; if enable then mret tt else request (ReqInjectSequence DECSET_FOCUS));
   (ModeParams.ASB_AlternateScreenBuffer, _SetAlternateScreenBufferMode enable);
   (ModeParams.XTERM_BracketedPasteMode, api (api_SetSystemMode SystemMode.BracketedPaste enable));
   (ModeParams.SO_SynchronizedOutput, on_render_settings (SetRenderMode RenderMode.SynchronizedOutput enable));
   (ModeParams.GCM_GraphemeClusterMode, mret tt);
   (ModeParams.W32IM_Win32InputMode, on_input (SetInputMode TerminalInput.Mode.Win32 enable);; if enable then mret tt else request (ReqInjectSequence W32IM))].
Definition _ModeParamsHelper (param : Z) (enable : bool) : M unit := switch param (mode_actions enable) (mret tt).
Definition SetMode (param : Z) : M unit := _ModeParamsHelper param true.
Definition ResetMode (param : Z) : M unit := _ModeParamsHelper param false.

Definition mapTemp (b : bool) : Z := if b then DECRPM_Enabled else DECRPM_Disabled.
Definition mapPerm (b : bool) : Z := if b then DECRPM_PermanentlyEnabled else DECRPM_PermanentlyDisabled.
Definition of_input (m : Z) : M Z := i ← ask terminalInput; mret (mapTemp (GetInputMode m i)).
Definition of_mode (m : Z) : M Z := b ← gets (mode m); mret (mapTemp b).
Definition of_system (m : Z) : M Z := b ← ask (api_GetSystemMode m); mret (mapTemp b).
Definition of_render (m : Z) : M Z := r ← ask renderSettings; mret (mapTemp (GetRenderMode m r)).
Definition of_cursor (f : Cursor.t -> bool) : M Z := page ← active_page; c ← read_page page _cursor; mret (mapTemp (f c)).
Definition mode_states (ansi : bool) : list (Z * M Z) :=
  map (fun m => (m.1, of_input m.2)) input_modes ++
  map (fun m => (m.1, of_mode m.2)) own_modes ++
  [(ModeParams.LNM_LineFeedNewLineMode,
     a ← ask id;
     if Bool.eqb (api_GetSystemMode SystemMode.LineFeed a) (GetInputMode TerminalInput.Mode.LineFeed (terminalInput a)) then of_input TerminalInput.Mode.LineFeed else mret DECRPM_Unsupported);
   (ModeParams.DECANM_AnsiMode, mret (mapTemp ansi));
   (ModeParams.DECCOLM_SetNumberOfColumns, of_mode AdaptMode.Column);
   (ModeParams.DECSCNM_ScreenMode, of_render RenderMode.ScreenReversed);
   (ModeParams.DECOM_OriginMode, of_mode AdaptMode.Origin);
   (ModeParams.DECAWM_AutoWrapMode, of_system SystemMode.AutoWrap);
   (ModeParams.ATT610_StartCursorBlink, of_cursor Cursor._isBlinking);
   (ModeParams.DECTCEM_TextCursorEnableMode, of_cursor Cursor._isVisible);
   (ModeParams.DECPCCM_PageCursorCouplingMode, of_mode AdaptMode.PageCursorCoupling);
   (ModeParams.DECLRMM_LeftRightMarginMode, of_mode AdaptMode.AllowDECSLRM);
   (ModeParams.FOCUS_EVENT_MODE, of_input TerminalInput.Mode.FocusEvent);
   (ModeParams.ASB_AlternateScreenBuffer, b ← gets _usingAltBuffer; mret (mapTemp b));
   (ModeParams.XTERM_BracketedPasteMode, of_system SystemMode.BracketedPaste);
   (ModeParams.SO_SynchronizedOutput, of_render RenderMode.SynchronizedOutput);
   (ModeParams.GCM_GraphemeClusterMode, p ← ask process; mret (mapPerm (graphemes (singleton p))));
   (ModeParams.W32IM_Win32InputMode, of_input TerminalInput.Mode.Win32)].

(** [ansi]: the mode of the parser. *)
Definition mode_state (param : Z) (ansi : bool) : M Z := switch param (mode_states ansi) (mret DECRPM_Unsupported).
Definition RequestMode (param : Z) (ansi : bool) : M unit :=
  state ← mode_state param ansi;
  let private := 0x01000000 <=? param in
  _ReturnCsiResponse ((if private then wide "?" else []) ++ numbers [if private then param - 0x01000000 else param; state] ++ wide "$y").

(** ** Cursor style and windows *)

Definition SetCursorStyle (cursorStyle : Z) : M unit :=
  default_type ← ask api_GetUserDefaultCursorStyle;
  match switch cursorStyle
    [(0, Some (default_type, true)); (1, Some (CursorType.FullBox, true)); (2, Some (CursorType.FullBox, false)); (3, Some (CursorType.Underscore, true));
     (4, Some (CursorType.Underscore, false)); (5, Some (CursorType.VerticalBar, true)); (6, Some (CursorType.VerticalBar, false))] None with
  | Some (actualType, fEnableBlinking) => page ← active_page; on_cursor page (Cursor.SetType actualType);; on_cursor page (Cursor.SetIsBlinking fEnableBlinking)
  | None => mret tt
  end.

(** ** Resets *)

Definition SoftReset : M unit :=
  on_active_cursor (Cursor.SetIsVisible true);;
  modify (reset_modes [AdaptMode.InsertReplace; AdaptMode.Origin; AdaptMode.AllowDECSLRM]);;
  api (api_SetSystemMode SystemMode.AutoWrap true);;
  on_input (SetInputMode TerminalInput.Mode.CursorKey false);;
  on_input (SetInputMode TerminalInput.Mode.Keypad false);;
  _DoSetTopBottomScrollingMargins P 0 0 false;;
  _DoSetLeftRightScrollingMargins P 0 0 false;;
  charsets (modify TerminalOutput.SoftReset);;
  SetGraphicsRendition P (VTParameters.of_params []);;
  SetCharacterProtectionAttribute P (VTParameters.of_params []);;
  modify (fun s => set_savedCursorState (<[saved_index s := mkCursorState 1 1 1 false false TextAttribute.default (_termOutput s)]> (_savedCursorState s)) s).

Definition release_macros : M unit :=
  modify (fun s => match _macroBuffer s with
    | Some n => set_macroBuffer None (alter ClearMacrosIfInUse n (_macroBuffers s)) s
    | None => s
    end).

Definition HardReset (erase : bool) : M unit :=
  alternate ← gets _usingAltBuffer;
  (if alternate : bool then api api_UseMainScreenBuffer;; modify (set_usingAltBuffer false) else mret tt);;
  with_pages PageManager_Reset;;
  modify (set_termOutput (make_TerminalOutput false));;
  api api_ResetCodePage;;
  AcceptC1Controls false;;
  SendC1Controls false;;
  SoftReset;;
  (if erase then EraseInDisplay P EraseType.All;; EraseInDisplay P EraseType.Scrollback else mret tt);;
  on_render_settings RestoreDefaultSettings;;
  (if erase then CursorPosition 1 1 else mret tt);;
  i ← ask terminalInput;
  (if GetInputMode TerminalInput.Mode.LineFeed i then api (api_SetSystemMode SystemMode.LineFeed false) else mret tt);;
  on_input ResetInputModes;;
  api (api_SetSystemMode SystemMode.BracketedPaste false);;
  on_active_cursor (Cursor.SetIsBlinking true);;
  TabSet 5;;
  modify (set_modes (enumset.of_positions [AdaptMode.PageCursorCoupling]));;
  release_macros;;
  request (ReqInjectSequence RIS).
End Modes.
