(* ===== verification/AdaptReports.v ===== *)
(** * The dispatcher: reports and what restores them

    src/terminal/adapter/adaptDispatch.cpp: device status and attributes, checksums, the
    colour table, DECRQSS and DECRQPSR with the handlers that parse such reports, macros,
    and the commands of window, taskbar and shell. *)

From stdpp Require Import list gmap.
From S2P Require Import Prelude Til Utils VtTypes StateMachine TermDispatch TextAttributes Graphics CodepointWidth CodepointWidthProps Geometry Row RowWrite Cursor TextBuffer MacroBuffer Charsets TerminalOutput TerminalInput RenderSettings Pages Cells AdaptDispatch AdaptScreen AdaptAreas AdaptModes.

(** [%04X] and [{:04x}] of a 16-bit number. *)
Definition hex_digit (upper : bool) (d : Z) : Z := if d <? 10 then 0x30 + d else (if upper then 0x41 else 0x61) + d - 10.
Definition hex4 (upper : bool) (v : Z) : wstring := map (fun i => hex_digit upper (Z.land (Z.shiftr v (4 * i)) 15)) [3; 2; 1; 0].

(** The formatter of [VTID]: its characters up to the first zero. *)
Fixpoint id_chars (fuel : nat) (id : Z) : wstring :=
  match fuel with
  | O => []
  | S fuel => let c := Z.land id 0xFF in if c =? 0 then [] else c :: id_chars fuel (Z.shiftr id 8)
  end.
Definition id_string (id : Z) : wstring := id_chars 8 id.

(** ** Closures that receive a string

    What each captures by value; [true] asks for more. *)
Inductive StringHandler :=
| ColorTableHandler (parameter : Z) (parameters : list Z)
| SettingHandler (parameter : Z) (builder : VTIDBuilder.t)
| CursorHandler (field value : Z) (charsetId : VTIDBuilder.t) (charset96 : list bool) (row column : Z)
| TabStopHandler (width column : Z)
| CharsetHandler (charsetSize : Z) (builder : VTIDBuilder.t)
| MacroHandler.

(** The callback of a macro: the buffer and the macro. *)
Record MacroCallback := mkMacroCallback { callback_buffer : nat; callback_macroId : nat }.

Section Reports.
Context {A D : Type} `{Measurement D} `{!ITerminalApi A D}.
Variable P : Platform.
(** Colours as hue, lightness and saturation: floating-point arithmetic. *)
Variable ColorToHLS : Z -> Z * Z * Z.
Variable ColorFromHLS : Z -> Z -> Z -> Z.
Variable Feature_VtChecksumReport : bool.
Local Abbreviation M := (comp (AdaptDispatch A D MacroCallback)).
Implicit Types (s : AdaptDispatch A D MacroCallback) (page : Page).
Local Abbreviation active_page := (active_page P).
Local Abbreviation visible_page := (visible_page P).
Local Abbreviation CursorPosition := (CursorPosition P).

(** ** Device status and attributes *)

Definition _DeviceStatusReport (parameters : string) : M unit := _ReturnCsiResponse (wide parameters ++ wide "n").
Definition _CursorPositionReport (extendedReport : bool) : M unit :=
  page ← active_page;
  position ← relative_position page;
  if extendedReport then _ReturnCsiResponse (wide "?" ++ numbers [point.y position; point.x position; Page.Number page] ++ wide "R")
  else _ReturnCsiResponse (numbers [point.y position; point.x position] ++ wide "R").

Definition macro_buffer s : option MacroBuffer := n ← _macroBuffer s; _macroBuffers s !! n.
Definition _MacroSpaceReport : M unit :=
  b ← gets macro_buffer;
  let spaceInBytes := match b with Some b => GetSpaceAvailable (size_bits P) b | None => MAX_SPACE end in
  _ReturnCsiResponse (decimal 20 (spaceInBytes / 16) ++ wide "*{").
Definition _MacroChecksumReport (id : Z) : M unit :=
  b ← gets macro_buffer;
  let checksum := match b with Some b => CalculateChecksum b | None => 0 end in
  _ReturnDcsResponse (number (VTParameter.value_or id 0) ++ wide "!~" ++ hex4 true checksum).

Definition status_actions (id : Z) : list (Z * M unit) :=
  [(5, _DeviceStatusReport "0"); (6, _CursorPositionReport false);
   (ModeParams.private 6, _CursorPositionReport true); (ModeParams.private 15, _DeviceStatusReport "?13");
   (ModeParams.private 25, _DeviceStatusReport "?23"); (ModeParams.private 26, _DeviceStatusReport "?27;0;0;5");
   (ModeParams.private 55, _DeviceStatusReport "?53"); (ModeParams.private 56, _DeviceStatusReport "?57;0");
   (ModeParams.private 62, _MacroSpaceReport); (ModeParams.private 63, _MacroChecksumReport id);
   (ModeParams.private 75, _DeviceStatusReport "?70"); (ModeParams.private 85, _DeviceStatusReport "?83")].
Definition DeviceStatusReport (statusType id : Z) : M unit := switch statusType (status_actions id) (mret tt).

Definition DeviceAttributes : M unit :=
  features ← gets _optionalFeatures;
  _ReturnCsiResponse (wide (if enumset.test features OptionalFeature.ClipboardWrite then "?61;4;6;7;14;21;22;23;24;28;32;42;52c" else "?61;4;6;7;14;21;22;23;24;28;32;42c")).
Definition SecondaryDeviceAttributes : M unit := _ReturnCsiResponse (wide ">0;10;1c").
Definition TertiaryDeviceAttributes : M unit := _ReturnDcsResponse (wide "!|00000000").
Definition Vt52DeviceAttributes : M unit := api (api_ReturnResponse (0x1B :: wide "/Z")).
Definition RequestTerminalParameters (permission : Z) : M unit :=
  switch permission [(0, _ReturnCsiResponse (wide "2;1;1;128;128;1;0x")); (1, _ReturnCsiResponse (wide "3;1;1;128;128;1;0x"))] (mret tt).

Definition RequestDisplayedExtent : M unit :=
  page ← visible_page;
  width ← check (rect.width (Page.Viewport page));
  height ← check (rect.height (Page.Viewport page));
  _ReturnCsiResponse (numbers [height; width; Page.XPanOffset page + 1; Page.YPanOffset page + 1; Page.Number page] ++ [0x22; 0x77]).

(** ** Checksums of areas *)

Definition cell_checksum (defaultFgIndex defaultBgIndex : Z) (cell : OutputCell) : Z :=
  let attr := _textAttribute cell in
  let flag (b : bool) (v : Z) := if b then v else 0 in
  let colorIndex (color : TextColor.t) (defaultIndex : Z) := if TextColor.IsLegacy color then TextColor._red color else defaultIndex in
  fold_left Z.add (map (fun ch => if ch =? 0x2426 then 0x1B else ch) (_text cell)) 0 +
  flag (TextAttribute.IsProtected attr) 0x04 + flag (TextAttribute.IsInvisible attr) 0x08 + flag (TextAttribute.IsUnderlined attr) 0x10 +
  flag (TextAttribute.IsReverseVideo attr) 0x20 + flag (TextAttribute.IsBlinking attr) 0x40 + flag (TextAttribute.IsIntense attr) 0x80 +
  u16 (Z.shiftl (colorIndex (TextAttribute._foreground attr) defaultFgIndex) 4) + u16 (colorIndex (TextAttribute._background attr) defaultBgIndex).
Fixpoint checksum_columns (count : nat) page (defaultFgIndex defaultBgIndex row col checksum : Z) : M Z :=
  match count with
  | O => mret checksum
  | S count => cell ← cell_at P page (point.mk col row); checksum_columns count page defaultFgIndex defaultBgIndex row (col + 1) (u16 (checksum - cell_checksum defaultFgIndex defaultBgIndex cell))
  end.
Fixpoint checksum_rows (count : nat) page (defaultFgIndex defaultBgIndex : Z) (area : rect.t) (row checksum : Z) : M Z :=
  match count with
  | O => mret checksum
  | S count =>
    checksum ← checksum_columns (Z.to_nat (rect.right area - rect.left area)) page defaultFgIndex defaultBgIndex row (rect.left area) checksum;
    checksum_rows count page defaultFgIndex defaultBgIndex area (row + 1) checksum
  end.
Definition RequestChecksumRectangularArea (id page top left_ bottom right_ : Z) : M unit :=
  features ← gets _optionalFeatures;
  checksum ←
    (if Feature_VtChecksumReport && enumset.test features OptionalFeature.ChecksumReport && negb (page =? 0) then
       r ← ask renderSettings;
       let defaultFgIndex := GetColorAliasIndex ColorAlias.DefaultForeground r in
       let defaultBgIndex := GetColorAliasIndex ColorAlias.DefaultBackground r in
       target ← with_pages (Get (avx2 P) (uninitialised P) (allocated P) (rowSize P) page);
       eraseRect ← _CalculateRectArea target top left_ bottom right_;
       checksum_rows (Z.to_nat (rect.bottom eraseRect - rect.top eraseRect)) target (if defaultFgIndex <? 16 then defaultFgIndex else 7) (if defaultBgIndex <? 16 then defaultBgIndex else 0)
         eraseRect (rect.top eraseRect) 0
     else mret 0);
  _ReturnDcsResponse (number id ++ wide "!~" ++ hex4 true checksum).

(** ** Colours *)

Definition render {X} (m : comp RenderSettings X) : M X := api (fun a => let '(r, o) := m (renderSettings a) in (put_renderSettings r a, o)).
Definition SetColorTableEntry (tableIndex dwColor : Z) : M unit := render (RenderSettings.SetColorTableEntry tableIndex dwColor).
Definition color_spec (color : Z) : wstring := wide "rgb:" ++ join_with (wide "/") (map (fun c => hex4 false (c * 0x0101)) [GetRValue color; GetGValue color; GetBValue color]).
Definition report_color (prefix : wstring) (color : Z) : M unit := if color =? INVALID_COLOR then mret tt else _ReturnOscResponse (prefix ++ wide ";" ++ color_spec color).
Definition RequestColorTableEntry (tableIndex : Z) : M unit :=
  color ← render (GetColorTableEntry tableIndex); report_color (wide "4;" ++ decimal 20 tableIndex) color.
Definition ResetColorTable : M unit := render (modify RestoreDefaultIndexed256ColorTable).
Definition ResetColorTableEntry (tableIndex : Z) : M unit := render (RestoreDefaultColorTableEntry tableIndex).

(** [XtermResourceColorTableMappings]: the entry and the alias, if any, from 10 on. *)
Definition XtermResourceColorTableMappings : list (Z * option nat) :=
  [(DEFAULT_FOREGROUND, Some ColorAlias.DefaultForeground); (DEFAULT_BACKGROUND, Some ColorAlias.DefaultBackground); (CURSOR_COLOR, None);
   (-1, None); (-1, None); (-1, None); (-1, None); (SELECTION_BACKGROUND, None); (-1, None); (-1, None)].
(** The [at] of the array throws. *)
Definition with_resource (resource : Z) (f : Z -> option nat -> M unit) : M unit :=
  match (if resource <? 10 then None else XtermResourceColorTableMappings !! Z.to_nat (resource - 10)) with
  | Some (index, alias) => if 0 <? index then f index alias else mret tt
  | None => throw
  end.
Definition SetXtermColorResource (resource color : Z) : M unit := with_resource resource (fun index alias =>
  (match alias with Some a => render (modify (SetColorAliasIndex a index)) | None => mret tt end);; SetColorTableEntry index color).
Definition RequestXtermColorResource (resource : Z) : M unit := with_resource resource (fun index alias =>
  r ← ask renderSettings;
  color ← render (GetColorTableEntry (match alias with Some a => GetColorAliasIndex a r | None => index end));
  report_color (decimal 20 resource) color).
Definition ResetXtermColorResource (resource : Z) : M unit := with_resource resource (fun index alias =>
  (match alias with Some a => render (modify (RestoreDefaultColorAliasIndex a)) | None => mret tt end);; ResetColorTableEntry index).
Definition AssignColor (item fgIndex bgIndex : Z) : M unit :=
  switch item
    [(1, render (modify (fun r => SetColorAliasIndex ColorAlias.DefaultBackground bgIndex (SetColorAliasIndex ColorAlias.DefaultForeground fgIndex r))));
     (2, render (modify (fun r => SetColorAliasIndex ColorAlias.FrameBackground bgIndex (SetColorAliasIndex ColorAlias.FrameForeground fgIndex r))))] (mret tt).

Definition ColorFromRGB100 (r g b : Z) : Z := let scale v := u8 ((Z.min v 100 * 255 + 50) / 100) in color_COLORREF (color_rgb (scale r) (scale g) (scale b)).
Definition ColorToRGB100 (color : Z) : Z * Z * Z := let scale v := (v * 100 + 128) / 255 in (scale (GetRValue color), scale (GetGValue color), scale (GetBValue color)).

Definition report_entry (colorModel colorNumber color : Z) : wstring :=
  let '(x, y, z) := if colorModel =? 1 then ColorToHLS color else ColorToRGB100 color in
  (if 0 <? colorNumber then wide "/" else []) ++ numbers [colorNumber; colorModel; x; y; z].
Definition _ReportColorTable (colorModel : Z) : M unit :=
  r ← ask renderSettings;
  let entries := filter (fun e => e.2 <> INVALID_COLOR) (zip (map Z.of_nat (seq 0 (Z.to_nat TABLE_SIZE))) (_colorTable r)) in
  if (colorModel =? 1) || (colorModel =? 2) || bool_decide (entries = []) then
    _ReturnDcsResponse (wide "2$s" ++ concat (map (fun e => report_entry colorModel e.1 e.2) entries))
  else mret tt.
Definition RequestTerminalStateReport (format formatOption : Z) : M unit := if format =? 2 then _ReportColorTable (VTParameter.to_enum formatOption) else mret tt.

(** A decimal digit more of a parameter. *)
Definition add_digit (parameter ch : Z) : Z := Z.min (parameter * 10 + (ch - 0x30)) MAX_PARAMETER_VALUE.

Definition restore_color (parameters : list Z) : M unit :=
  let at_ i := VTParameters.at_ (VTParameters.of_params parameters) i in
  let colorNumber := VTParameter.value_or (at_ 0%nat) 0 in
  let x := VTParameter.value_or (at_ 2%nat) 0 in
  let y := VTParameter.value_or (at_ 3%nat) 0 in
  let z := VTParameter.value_or (at_ 4%nat) 0 in
  if colorNumber <? TABLE_SIZE then
    let colorModel := VTParameter.to_enum (at_ 1%nat) in
    if colorModel =? 1 then SetColorTableEntry colorNumber (ColorFromHLS x y z)
    else if colorModel =? 2 then SetColorTableEntry colorNumber (ColorFromRGB100 x y z)
    else mret tt
  else mret tt.
Definition color_table_character (ch : Z) (parameter : Z) (parameters : list Z) : M (StringHandler * bool) :=
  let more := negb (ch =? 0x1B) in
  if (0x30 <=? ch) && (ch <=? 0x39) then mret (ColorTableHandler (add_digit parameter ch) parameters, more)
  else if ch =? 0x3B then mret (ColorTableHandler 0 (if (length parameters <? 5)%nat then parameters ++ [parameter] else parameters), more)
  else if (ch =? 0x2F) || (ch =? 0x1B) then restore_color (parameters ++ [parameter]);; mret (ColorTableHandler 0 [], more)
  else mret (ColorTableHandler parameter parameters, more).

(** ** Settings *)

Definition sgr_color (base : Z) (color : TextColor.t) : wstring :=
  if TextColor.IsIndex16 color then wide ";" ++ number (base + (if 8 <=? TextColor._red color then 60 else 0) + TextColor._red color mod 8)
  else if TextColor.IsIndex256 color then wide ";" ++ number (base + 8) ++ wide ":5:" ++ number (TextColor._red color)
  else if TextColor.IsRgb color then wide ";" ++ number (base + 8) ++ wide ":2::" ++ join_with (wide ":") (map number [TextColor._red color; TextColor._green color; TextColor._blue color])
  else [].
Definition sgr_setting (attr : TextAttribute.t) : wstring :=
  let add (parameter : wstring) (enabled : bool) := if enabled then parameter else [] in
  let ulStyle := TextAttribute.GetUnderlineStyle attr in
  wide "0" ++ add (wide ";1") (TextAttribute.IsIntense attr) ++ add (wide ";2") (TextAttribute.IsFaint attr) ++ add (wide ";3") (TextAttribute.IsItalic attr) ++
  add (wide ";4") (ulStyle =? UnderlineStyle.SinglyUnderlined) ++ add (wide ";4:3") (ulStyle =? UnderlineStyle.CurlyUnderlined) ++ add (wide ";4:4") (ulStyle =? UnderlineStyle.DottedUnderlined) ++
  add (wide ";4:5") (ulStyle =? UnderlineStyle.DashedUnderlined) ++ add (wide ";5") (TextAttribute.IsBlinking attr) ++ add (wide ";7") (TextAttribute.IsReverseVideo attr) ++
  add (wide ";8") (TextAttribute.IsInvisible attr) ++ add (wide ";9") (TextAttribute.IsCrossedOut attr) ++ add (wide ";21") (ulStyle =? UnderlineStyle.DoublyUnderlined) ++ add (wide ";53") (TextAttribute.IsOverlined attr) ++
  sgr_color 30 (TextAttribute._foreground attr) ++ sgr_color 40 (TextAttribute._background attr) ++ sgr_color 50 (TextAttribute._underlineColor attr).
Definition _ReportSGRSetting : M unit :=
  page ← active_page; attr ← page_Attributes page; _ReturnDcsResponse (wide "1$r" ++ sgr_setting attr ++ wide "m").
Definition _ReportDECSTBMSetting : M unit :=
  page ← active_page; '(marginTop, marginBottom) ← _GetVerticalMargins page false; _ReturnDcsResponse (wide "1$r" ++ numbers [marginTop + 1; marginBottom + 1] ++ wide "r").
Definition _ReportDECSLRMSetting : M unit :=
  page ← active_page; w ← page_Width page; '(marginLeft, marginRight) ← _GetHorizontalMargins w; _ReturnDcsResponse (wide "1$r" ++ numbers [marginLeft + 1; marginRight + 1] ++ wide "s").
Definition _ReportDECSCUSRSetting : M unit :=
  page ← active_page;
  cursor ← read_page page _cursor;
  let style (blinking steady : string) := if Cursor._isBlinking cursor then blinking else steady in
  _ReturnDcsResponse (wide (switch (Cursor._cursorType cursor)
    [(CursorType.FullBox, style "1$r1 q"%string "1$r2 q"%string); (CursorType.Underscore, style "1$r3 q"%string "1$r4 q"%string); (CursorType.VerticalBar, style "1$r5 q"%string "1$r6 q"%string)] "1$r0 q"%string)).
Definition _ReportDECSCASetting : M unit :=
  page ← active_page; attr ← page_Attributes page; _ReturnDcsResponse (wide (if TextAttribute.IsProtected attr then "1$r1" else "1$r0") ++ [0x22; 0x71]).
Definition _ReportDECSACESetting : M unit := r ← gets (mode AdaptMode.RectangularChangeExtent); _ReturnDcsResponse (wide (if r : bool then "1$r2*x" else "1$r1*x")).
Definition _ReportDECACSetting (itemNumber : Z) : M unit :=
  r ← ask renderSettings;
  match switch itemNumber [(1, Some (ColorAlias.DefaultForeground, ColorAlias.DefaultBackground)); (2, Some (ColorAlias.FrameForeground, ColorAlias.FrameBackground))] None with
  | Some (fg, bg) => _ReturnDcsResponse (wide "1$r" ++ numbers [itemNumber; GetColorAliasIndex fg r; GetColorAliasIndex bg r] ++ wide ",|")
  | None => _ReturnDcsResponse (wide "0$r")
  end.
Definition report_setting (id parameter : Z) : M unit :=
  switch id
    [(id_of "m", _ReportSGRSetting); (id_of "r", _ReportDECSTBMSetting); (id_of "s", _ReportDECSLRMSetting); (id_of " q", _ReportDECSCUSRSetting);
     (VTID._FromString [0x22; 0x71], _ReportDECSCASetting); (id_of "*x", _ReportDECSACESetting); (id_of ",|", _ReportDECACSetting (VTParameter.to_VTInt parameter))]
    (_ReturnDcsResponse (wide "0$r")).
(** The digit 9 is no parameter here. *)
Definition setting_character (ch : Z) (parameter : Z) (builder : VTIDBuilder.t) : M (StringHandler * bool) :=
  if (0x40 <=? ch) && (ch <=? 0x7E) then report_setting (VTIDBuilder.Finalize builder ch) parameter;; mret (SettingHandler parameter builder, false)
  else if ((0x3C <=? ch) && (ch <=? 0x3F)) || ((0x20 <=? ch) && (ch <=? 0x2F)) then mret (SettingHandler parameter (VTIDBuilder.AddIntermediate builder ch), true)
  else if (0x30 <=? ch) && (ch <? 0x39) then mret (SettingHandler (add_digit parameter ch) builder, true)
  else mret (SettingHandler parameter builder, true).

(** ** Tab stops *)

Definition tab_stop_columns (width : nat) (stops : list bool) : list Z :=
  map (fun column => Z.of_nat column + 1) (filter (fun column => stops !! column = Some true) (seq 0 width)).
Definition _ReportTabStops : M unit :=
  page ← active_page;
  width ← page_Width page;
  _InitTabStopsForWidth width;;
  stops ← gets _tabStopColumns;
  _ReturnDcsResponse (wide "2$u" ++ join_with (wide "/") (map number (tab_stop_columns (Z.to_nat width) stops))).
Definition _RestoreTabStops : M StringHandler :=
  page ← active_page;
  w ← page_Width page;
  let width := Z.max w 132 in
  _ClearAllTabStops;;
  _InitTabStopsForWidth width;;
  mret (TabStopHandler width 0).
Definition tab_stop_character (ch width column : Z) : M (StringHandler * bool) :=
  if (0x30 <=? ch) && (ch <=? 0x39) then mret (TabStopHandler width (add_digit column ch), true)
  else if (ch =? 0x2F) || (ch =? 0x1B) then
    (if (1 <? column) && (column <=? width) then set_tab_stop (column - 1) true else mret tt);;
    mret (TabStopHandler width 0, negb (ch =? 0x1B))
  else mret (TabStopHandler width column, false).

(** ** Cursor information *)

Definition bits (flags : list bool) : Z := fold_right (fun b acc => Z.b2z b + 2 * acc) 0 flags.
Definition _ReportCursorInformation : M unit :=
  page ← active_page;
  cursor ← read_page page _cursor;
  attributes ← page_Attributes page;
  position ← relative_position page;
  s ← gets id;
  let t := _termOutput s in
  let renditionAttributes := 0x40 + bits [TextAttribute.IsIntense attributes; TextAttribute.IsUnderlined attributes; TextAttribute.IsBlinking attributes; TextAttribute.IsReverseVideo attributes; TextAttribute.IsInvisible attributes] in
  let characterAttributes := if TextAttribute.IsProtected attributes then 0x41 else 0x40 in
  let flags := 0x40 + bits [mode AdaptMode.Origin s; IsSingleShiftPending 2 t; IsSingleShiftPending 3 t; bool_decide (Cursor.GetDelayEOLWrap cursor <> None)] in
  size0 ← charsets (GetCharsetSize 0); size1 ← charsets (GetCharsetSize 1); size2 ← charsets (GetCharsetSize 2); size3 ← charsets (GetCharsetSize 3);
  let charsetSizes := 0x40 + bits [size0 =? 96; size1 =? 96; size2 =? 96; size3 =? 96] in
  charset0 ← charsets (GetCharsetId 0); charset1 ← charsets (GetCharsetId 1); charset2 ← charsets (GetCharsetId 2); charset3 ← charsets (GetCharsetId 3);
  _ReturnDcsResponse (wide "1$u" ++ join_with (wide ";")
    [number (point.y position); number (point.x position); number (Page.Number page); [renditionAttributes]; [characterAttributes]; [flags];
     number (Z.of_nat (GetLeftSetNumber t)); number (Z.of_nat (GetRightSetNumber t)); [charsetSizes];
     id_string charset0 ++ id_string charset1 ++ id_string charset2 ++ id_string charset3]).
Definition RequestPresentationStateReport (format : Z) : M unit := switch format [(1, _ReportCursorInformation); (2, _ReportTabStops)] (mret tt).

(** The fields are numbered Row, Column, Page, SGR, Attr, Flags, GL, GR, Sizes, G0, G1, G2, G3. *)
Definition restore_number (field value row column : Z) : M (Z * Z) :=
  if field =? 0 then mret (value, column)
  else if field =? 1 then mret (row, value)
  else
    (if field =? 2 then PagePositionAbsolute P value
     else if (field =? 6) && (value <=? 3) then LockingShift value
     else if (field =? 7) && (value <=? 3) then LockingShiftRight value
     else mret tt);;
    mret (row, column).
Definition restore_rendition (value : Z) (attr : TextAttribute.t) : TextAttribute.t :=
  TextAttribute.SetInvisible (Z.testbit value 4) (TextAttribute.SetReverseVideo (Z.testbit value 3) (TextAttribute.SetBlinking (Z.testbit value 2)
    (TextAttribute.SetUnderlineStyle (if Z.testbit value 1 then UnderlineStyle.SinglyUnderlined else UnderlineStyle.NoUnderline) (TextAttribute.SetIntense (Z.testbit value 0) attr)))).
Definition restore_flags (value row column : Z) : M unit :=
  modify (set_mode AdaptMode.Origin (Z.testbit value 0));;
  CursorPosition (VTParameter.to_VTInt row) (VTParameter.to_VTInt column);;
  SingleShift (if Z.testbit value 2 then 3 else if Z.testbit value 1 then 2 else 0);;
  if Z.testbit value 3 then on_active_cursor P Cursor.DelayEOLWrap else mret tt.
Definition restore_flag_field (field value row column : Z) : M unit :=
  if field =? 3 then on_attributes P (restore_rendition value)
  else if field =? 4 then on_attributes P (TextAttribute.SetProtected (Z.testbit value 0))
  else if field =? 5 then restore_flags value row column
  else mret tt.
Definition cursor_character (ch field value : Z) (charsetId : VTIDBuilder.t) (charset96 : list bool) (row column : Z) : M (StringHandler * bool) :=
  let more := negb (ch =? 0x1B) in
  if existsb (Z.eqb field) [0; 1; 2; 6; 7] then
    if (0x30 <=? ch) && (ch <=? 0x39) then mret (CursorHandler field (add_digit value ch) charsetId charset96 row column, more)
    else if (ch =? 0x3B) || (ch =? 0x1B) then
      '(row, column) ← restore_number field value row column;
      mret (CursorHandler (field + 1) 0 charsetId charset96 row column, more)
    else mret (CursorHandler field value charsetId charset96 row column, more)
  else if existsb (Z.eqb field) [3; 4; 5; 8] then
    if (0x40 <=? ch) && (ch <=? 0x7E) && (value =? 0) then
      restore_flag_field field ch row column;;
      mret (CursorHandler field ch charsetId (if field =? 8 then map (Z.testbit ch) [0; 1; 2; 3] else charset96) row column, more)
    else if ch =? 0x3B then mret (CursorHandler (field + 1) 0 charsetId charset96 row column, more)
    else mret (CursorHandler field value charsetId charset96 row column, more)
  else if existsb (Z.eqb field) [9; 10; 11; 12] then
    if (0x20 <=? ch) && (ch <=? 0x2F) then mret (CursorHandler field value (VTIDBuilder.AddIntermediate charsetId ch) charset96 row column, more)
    else if (0x30 <=? ch) && (ch <=? 0x7E) then
      let id := VTIDBuilder.Finalize charsetId ch in
      (if default false (charset96 !! Z.to_nat (field - 9)) then Designate96Charset (field - 9) id else Designate94Charset (field - 9) id);;
      mret (CursorHandler (field + 1) value VTIDBuilder.Clear charset96 row column, more)
    else mret (CursorHandler field value charsetId charset96 row column, more)
  else mret (CursorHandler field value charsetId charset96 row column, more).
Definition _RestoreCursorInformation : StringHandler := CursorHandler 0 0 VTIDBuilder.Clear [false; false; false; false] VTParameter.default VTParameter.default.

(** ** Charsets and macros *)

Definition RequestUserPreferenceCharset : M unit :=
  t ← gets _termOutput;
  _ReturnDcsResponse (number (if GetUserPreferenceCharsetSize t =? 96 then 1 else 0) ++ wide "!u" ++ id_string (GetUserPreferenceCharsetId t)).
Definition charset_character (ch charsetSize : Z) (builder : VTIDBuilder.t) : M (StringHandler * bool) :=
  if (0x20 <=? ch) && (ch <=? 0x2F) then mret (CharsetHandler charsetSize (VTIDBuilder.AddIntermediate builder ch), true)
  else if (0x30 <=? ch) && (ch <=? 0x7E) then
    let id := VTIDBuilder.Finalize builder ch in
    switch charsetSize [(0, charsets (AssignUserPreferenceCharset id false)); (1, charsets (AssignUserPreferenceCharset id true))] (mret tt);;
    mret (CharsetHandler charsetSize builder, false)
  else mret (CharsetHandler charsetSize builder, true).

(** A method of the current macro buffer. *)
Definition on_macros {X} (m : comp MacroBuffer X) : M X := fun s =>
  match _macroBuffer s with
  | Some n =>
    match _macroBuffers s !! n with
    | Some b => let '(b, o) := m b in (set_macroBuffer (Some n) (<[n := b]> (_macroBuffers s)) s, o)
    | None => (s, Undefined)
    end
  | None => (s, Undefined)
  end.
Definition DefineMacro (macroId deleteControl encoding : Z) : M (option StringHandler) :=
  modify (fun s => match _macroBuffer s with Some _ => s | None => set_macroBuffer (Some (length (_macroBuffers s))) (_macroBuffers s ++ [new_MacroBuffer]) s end);;
  accepted ← on_macros (InitParser (size_bits P) (Z.to_nat macroId) deleteControl encoding);
  mret (if accepted : bool then Some MacroHandler else None).
Definition InvokeMacro (macroId : Z) : M unit :=
  b ← gets _macroBuffer;
  match b with Some n => request (ReqOnCsiComplete (mkMacroCallback n (Z.to_nat macroId))) | None => mret tt end.

(** ** The handlers *)

Definition RestoreTerminalState (format : Z) : M (option StringHandler) := mret (if format =? 2 then Some (ColorTableHandler 0 []) else None).
Definition RequestSetting : M (option StringHandler) := mret (Some (SettingHandler 0 VTIDBuilder.Clear)).
Definition RestorePresentationState (format : Z) : M (option StringHandler) :=
  if format =? 1 then mret (Some _RestoreCursorInformation) else if format =? 2 then h ← _RestoreTabStops; mret (Some h) else mret None.
Definition AssignUserPreferenceCharset_handler (charsetSize : Z) : M (option StringHandler) := mret (Some (CharsetHandler charsetSize VTIDBuilder.Clear)).

(** One character; the handler as it is kept, and whether it wants more. *)
Definition call_handler (h : StringHandler) (ch : wchar) : M (StringHandler * bool) :=
  match h with
  | ColorTableHandler parameter parameters => color_table_character ch parameter parameters
  | SettingHandler parameter builder => setting_character ch parameter builder
  | CursorHandler field value charsetId charset96 row column => cursor_character ch field value charsetId charset96 row column
  | TabStopHandler width column => tab_stop_character ch width column
  | CharsetHandler charsetSize builder => charset_character ch charsetSize builder
  | MacroHandler => more ← on_macros (ParseDefinition (size_bits P) ch); mret (MacroHandler, more)
  end.
(** A whole string, as the state machine passes it on. *)
Fixpoint feed_handler (h : StringHandler) (string : wstring) : M bool :=
  match string with
  | [] => mret true
  | ch :: string => '(h, more) ← call_handler h ch; if more : bool then feed_handler h string else mret false
  end.

(** ** Windows, sounds and features *)

Definition report_size (function : Z) (s : size.t) : M unit := _ReturnCsiResponse (numbers [function - 10; size.height s; size.width s] ++ wide "t").
Definition visible_size : M size.t := page ← visible_page; w ← page_Width page; mret (size.mk w (Page.Height page)).
Definition WindowManipulation (function parameter1 parameter2 : Z) : M unit :=
  switch function
    [(1, api (api_ShowWindow true)); (2, api (api_ShowWindow false)); (7, visible_page;; mret tt);
     (8, api (api_ResizeWindow (VTParameter.value_or parameter2 0) (VTParameter.value_or parameter1 0));; mret tt);
     (18, s ← visible_size; report_size function s);
     (14, s ← visible_size; s ← check (size.mul s (size.mk 10 20)); report_size function s);
     (16, report_size function (size.mk 10 20))] (mret tt).

Fixpoint play_notes (notes : list Z) (velocity duration : Z) : M unit :=
  match notes with
  | [] => mret tt
  | note :: notes =>
    let noteNumber := Z.min (VTParameter.value_or note 0) 25 + 71 in
    api (api_PlayMidiNote noteNumber (if noteNumber =? 71 then 0 else velocity) duration);; play_notes notes velocity duration
  end.
Definition PlaySounds (parameters : VTParameters.t) : M unit :=
  let velocity := Z.min (VTParameter.value_or (VTParameters.at_ parameters 0) 0) 7 * 127 / 7 in
  let duration := Z.min (VTParameter.value_or (VTParameters.at_ parameters 1) 0) 255 * 1000000 / 32 in
  play_notes (VTParameters.for_each_values (VTParameters.subspan parameters 2)) velocity duration.

Definition EnquireAnswerback : M unit := api api_ReturnAnswerback.
Definition WarningBell : M unit := api api_WarningBell.
Definition SetWindowTitle (title : wstring) : M unit := api (api_SetWindowTitle title).
Definition SetClipboard (content : wstring) : M unit := api (api_CopyToClipboard content).
Definition SetOptionalFeatures (features : Z) : M unit := modify (set_optionalFeatures features).
Definition NotifyVtSequence (sequence : wstring) : M unit := api (api_NotifyVtSequence sequence).
Definition UnknownSequence : M unit := api (modify api_UnknownSequence).
End Reports.
