(* ===== verification/SixelParser.v ===== *)
(** * Sixel images

    Models src/terminal/adapter/SixelParser.{hpp,cpp}: the parser of sixel images, its
    colours, the buffer it draws in, and the transfer of that buffer to the rows of a
    page. A pixel of the buffer is [None] where it is transparent, else the index of its
    colour. Accesses outside of the buffer, and a size of the buffer that is not an [int],
    are undefined behaviour; the other products of coordinates are not larger than that
    size. Redrawing is not modelled. *)

From stdpp Require Import list gmap.
From S2P Require Import Prelude Til Utils ColorTable VtTypes StateMachine TermDispatch TextAttributes CodepointWidth CodepointWidthProps Geometry ImageSlice Row RowWrite Cursor TextBuffer RenderSettings Pages AdaptDispatch AdaptScreen AdaptModes AdaptReports.

Module Sixel.

Inductive States := Normal | Attributes | Color | Repeat.
#[global] Instance States_eq_dec : EqDecision States.
Proof. solve_decision. Defined.

Definition DefaultConformance : Z := 9.
Definition MAX_COLORS : Z := 256.
(** [DispatchTypes::SixelBackground] and [ColorModel] *)
Definition Background_Transparent : Z := 1.
Definition ColorModel_HLS : Z := 1.
Definition ColorModel_RGB : Z := 2.

Definition CellSizeForLevel (conformanceLevel : Z) : size.t := switch conformanceLevel [(1, size.mk 9 20)] (size.mk 10 20).
Definition MaxColorsForLevel (conformanceLevel : Z) : Z := switch conformanceLevel [(1, 4); (2, 4); (3, 16)] MAX_COLORS.

Record t := mk {
  _conformanceLevel : Z;
  _state : States;
  _parameters : list Z;
  _cellSize : size.t;
  _displayMode : bool;
  _textMargins : rect.t;
  _textCursor : point.t;
  _textCursorWasVisible : bool;
  _availablePixelWidth : Z;
  _availablePixelHeight : Z;
  _maxPixelAspectRatio : Z;
  _pixelAspectRatio : Z;
  _sixelHeight : Z;
  _segmentHeight : Z;
  _pendingTextScrollCount : Z;
  _backgroundSize : size.t;
  _backgroundFillRequired : bool;
  _filledBackgroundHeight : option Z;
  _colorMap : list Z;
  _colorMapUsed : list bool;
  _colorTable : list Z;
  _maxColors : Z;
  _colorsUsed : Z;
  _colorsAvailable : Z;
  _foregroundPixel : Z;
  _colorTableChanged : bool;
  _imageBuffer : list (option Z);
  _imageOriginCell : point.t;
  _imageCursor : point.t;
  _imageWidth : Z;
  _imageMaxWidth : Z;
  _imageLineCount : Z;
  _lastFlushLine : Z;
  _lastFlushTime : Z
}.

Definition set_state (v : States) (p : t) : t :=
  mk (_conformanceLevel p) v (_parameters p) (_cellSize p) (_displayMode p) (_textMargins p) (_textCursor p) (_textCursorWasVisible p) (_availablePixelWidth p) (_availablePixelHeight p) (_maxPixelAspectRatio p) (_pixelAspectRatio p) (_sixelHeight p) (_segmentHeight p) (_pendingTextScrollCount p) (_backgroundSize p) (_backgroundFillRequired p) (_filledBackgroundHeight p) (_colorMap p) (_colorMapUsed p) (_colorTable p) (_maxColors p) (_colorsUsed p) (_colorsAvailable p) (_foregroundPixel p) (_colorTableChanged p) (_imageBuffer p) (_imageOriginCell p) (_imageCursor p) (_imageWidth p) (_imageMaxWidth p) (_imageLineCount p) (_lastFlushLine p) (_lastFlushTime p).
Definition set_parameters (v : list Z) (p : t) : t :=
  mk (_conformanceLevel p) (_state p) v (_cellSize p) (_displayMode p) (_textMargins p) (_textCursor p) (_textCursorWasVisible p) (_availablePixelWidth p) (_availablePixelHeight p) (_maxPixelAspectRatio p) (_pixelAspectRatio p) (_sixelHeight p) (_segmentHeight p) (_pendingTextScrollCount p) (_backgroundSize p) (_backgroundFillRequired p) (_filledBackgroundHeight p) (_colorMap p) (_colorMapUsed p) (_colorTable p) (_maxColors p) (_colorsUsed p) (_colorsAvailable p) (_foregroundPixel p) (_colorTableChanged p) (_imageBuffer p) (_imageOriginCell p) (_imageCursor p) (_imageWidth p) (_imageMaxWidth p) (_imageLineCount p) (_lastFlushLine p) (_lastFlushTime p).
Definition set_displayMode (v : bool) (p : t) : t :=
  mk (_conformanceLevel p) (_state p) (_parameters p) (_cellSize p) v (_textMargins p) (_textCursor p) (_textCursorWasVisible p) (_availablePixelWidth p) (_availablePixelHeight p) (_maxPixelAspectRatio p) (_pixelAspectRatio p) (_sixelHeight p) (_segmentHeight p) (_pendingTextScrollCount p) (_backgroundSize p) (_backgroundFillRequired p) (_filledBackgroundHeight p) (_colorMap p) (_colorMapUsed p) (_colorTable p) (_maxColors p) (_colorsUsed p) (_colorsAvailable p) (_foregroundPixel p) (_colorTableChanged p) (_imageBuffer p) (_imageOriginCell p) (_imageCursor p) (_imageWidth p) (_imageMaxWidth p) (_imageLineCount p) (_lastFlushLine p) (_lastFlushTime p).
Definition set_textMargins (v : rect.t) (p : t) : t :=
  mk (_conformanceLevel p) (_state p) (_parameters p) (_cellSize p) (_displayMode p) v (_textCursor p) (_textCursorWasVisible p) (_availablePixelWidth p) (_availablePixelHeight p) (_maxPixelAspectRatio p) (_pixelAspectRatio p) (_sixelHeight p) (_segmentHeight p) (_pendingTextScrollCount p) (_backgroundSize p) (_backgroundFillRequired p) (_filledBackgroundHeight p) (_colorMap p) (_colorMapUsed p) (_colorTable p) (_maxColors p) (_colorsUsed p) (_colorsAvailable p) (_foregroundPixel p) (_colorTableChanged p) (_imageBuffer p) (_imageOriginCell p) (_imageCursor p) (_imageWidth p) (_imageMaxWidth p) (_imageLineCount p) (_lastFlushLine p) (_lastFlushTime p).
Definition set_textCursor (v : point.t) (p : t) : t :=
  mk (_conformanceLevel p) (_state p) (_parameters p) (_cellSize p) (_displayMode p) (_textMargins p) v (_textCursorWasVisible p) (_availablePixelWidth p) (_availablePixelHeight p) (_maxPixelAspectRatio p) (_pixelAspectRatio p) (_sixelHeight p) (_segmentHeight p) (_pendingTextScrollCount p) (_backgroundSize p) (_backgroundFillRequired p) (_filledBackgroundHeight p) (_colorMap p) (_colorMapUsed p) (_colorTable p) (_maxColors p) (_colorsUsed p) (_colorsAvailable p) (_foregroundPixel p) (_colorTableChanged p) (_imageBuffer p) (_imageOriginCell p) (_imageCursor p) (_imageWidth p) (_imageMaxWidth p) (_imageLineCount p) (_lastFlushLine p) (_lastFlushTime p).
Definition set_textCursorWasVisible (v : bool) (p : t) : t :=
  mk (_conformanceLevel p) (_state p) (_parameters p) (_cellSize p) (_displayMode p) (_textMargins p) (_textCursor p) v (_availablePixelWidth p) (_availablePixelHeight p) (_maxPixelAspectRatio p) (_pixelAspectRatio p) (_sixelHeight p) (_segmentHeight p) (_pendingTextScrollCount p) (_backgroundSize p) (_backgroundFillRequired p) (_filledBackgroundHeight p) (_colorMap p) (_colorMapUsed p) (_colorTable p) (_maxColors p) (_colorsUsed p) (_colorsAvailable p) (_foregroundPixel p) (_colorTableChanged p) (_imageBuffer p) (_imageOriginCell p) (_imageCursor p) (_imageWidth p) (_imageMaxWidth p) (_imageLineCount p) (_lastFlushLine p) (_lastFlushTime p).
Definition set_availablePixelWidth (v : Z) (p : t) : t :=
  mk (_conformanceLevel p) (_state p) (_parameters p) (_cellSize p) (_displayMode p) (_textMargins p) (_textCursor p) (_textCursorWasVisible p) v (_availablePixelHeight p) (_maxPixelAspectRatio p) (_pixelAspectRatio p) (_sixelHeight p) (_segmentHeight p) (_pendingTextScrollCount p) (_backgroundSize p) (_backgroundFillRequired p) (_filledBackgroundHeight p) (_colorMap p) (_colorMapUsed p) (_colorTable p) (_maxColors p) (_colorsUsed p) (_colorsAvailable p) (_foregroundPixel p) (_colorTableChanged p) (_imageBuffer p) (_imageOriginCell p) (_imageCursor p) (_imageWidth p) (_imageMaxWidth p) (_imageLineCount p) (_lastFlushLine p) (_lastFlushTime p).
Definition set_availablePixelHeight (v : Z) (p : t) : t :=
  mk (_conformanceLevel p) (_state p) (_parameters p) (_cellSize p) (_displayMode p) (_textMargins p) (_textCursor p) (_textCursorWasVisible p) (_availablePixelWidth p) v (_maxPixelAspectRatio p) (_pixelAspectRatio p) (_sixelHeight p) (_segmentHeight p) (_pendingTextScrollCount p) (_backgroundSize p) (_backgroundFillRequired p) (_filledBackgroundHeight p) (_colorMap p) (_colorMapUsed p) (_colorTable p) (_maxColors p) (_colorsUsed p) (_colorsAvailable p) (_foregroundPixel p) (_colorTableChanged p) (_imageBuffer p) (_imageOriginCell p) (_imageCursor p) (_imageWidth p) (_imageMaxWidth p) (_imageLineCount p) (_lastFlushLine p) (_lastFlushTime p).
Definition set_maxPixelAspectRatio (v : Z) (p : t) : t :=
  mk (_conformanceLevel p) (_state p) (_parameters p) (_cellSize p) (_displayMode p) (_textMargins p) (_textCursor p) (_textCursorWasVisible p) (_availablePixelWidth p) (_availablePixelHeight p) v (_pixelAspectRatio p) (_sixelHeight p) (_segmentHeight p) (_pendingTextScrollCount p) (_backgroundSize p) (_backgroundFillRequired p) (_filledBackgroundHeight p) (_colorMap p) (_colorMapUsed p) (_colorTable p) (_maxColors p) (_colorsUsed p) (_colorsAvailable p) (_foregroundPixel p) (_colorTableChanged p) (_imageBuffer p) (_imageOriginCell p) (_imageCursor p) (_imageWidth p) (_imageMaxWidth p) (_imageLineCount p) (_lastFlushLine p) (_lastFlushTime p).
Definition set_pixelAspectRatio (v : Z) (p : t) : t :=
  mk (_conformanceLevel p) (_state p) (_parameters p) (_cellSize p) (_displayMode p) (_textMargins p) (_textCursor p) (_textCursorWasVisible p) (_availablePixelWidth p) (_availablePixelHeight p) (_maxPixelAspectRatio p) v (_sixelHeight p) (_segmentHeight p) (_pendingTextScrollCount p) (_backgroundSize p) (_backgroundFillRequired p) (_filledBackgroundHeight p) (_colorMap p) (_colorMapUsed p) (_colorTable p) (_maxColors p) (_colorsUsed p) (_colorsAvailable p) (_foregroundPixel p) (_colorTableChanged p) (_imageBuffer p) (_imageOriginCell p) (_imageCursor p) (_imageWidth p) (_imageMaxWidth p) (_imageLineCount p) (_lastFlushLine p) (_lastFlushTime p).
Definition set_sixelHeight (v : Z) (p : t) : t :=
  mk (_conformanceLevel p) (_state p) (_parameters p) (_cellSize p) (_displayMode p) (_textMargins p) (_textCursor p) (_textCursorWasVisible p) (_availablePixelWidth p) (_availablePixelHeight p) (_maxPixelAspectRatio p) (_pixelAspectRatio p) v (_segmentHeight p) (_pendingTextScrollCount p) (_backgroundSize p) (_backgroundFillRequired p) (_filledBackgroundHeight p) (_colorMap p) (_colorMapUsed p) (_colorTable p) (_maxColors p) (_colorsUsed p) (_colorsAvailable p) (_foregroundPixel p) (_colorTableChanged p) (_imageBuffer p) (_imageOriginCell p) (_imageCursor p) (_imageWidth p) (_imageMaxWidth p) (_imageLineCount p) (_lastFlushLine p) (_lastFlushTime p).
Definition set_segmentHeight (v : Z) (p : t) : t :=
  mk (_conformanceLevel p) (_state p) (_parameters p) (_cellSize p) (_displayMode p) (_textMargins p) (_textCursor p) (_textCursorWasVisible p) (_availablePixelWidth p) (_availablePixelHeight p) (_maxPixelAspectRatio p) (_pixelAspectRatio p) (_sixelHeight p) v (_pendingTextScrollCount p) (_backgroundSize p) (_backgroundFillRequired p) (_filledBackgroundHeight p) (_colorMap p) (_colorMapUsed p) (_colorTable p) (_maxColors p) (_colorsUsed p) (_colorsAvailable p) (_foregroundPixel p) (_colorTableChanged p) (_imageBuffer p) (_imageOriginCell p) (_imageCursor p) (_imageWidth p) (_imageMaxWidth p) (_imageLineCount p) (_lastFlushLine p) (_lastFlushTime p).
Definition set_pendingTextScrollCount (v : Z) (p : t) : t :=
  mk (_conformanceLevel p) (_state p) (_parameters p) (_cellSize p) (_displayMode p) (_textMargins p) (_textCursor p) (_textCursorWasVisible p) (_availablePixelWidth p) (_availablePixelHeight p) (_maxPixelAspectRatio p) (_pixelAspectRatio p) (_sixelHeight p) (_segmentHeight p) v (_backgroundSize p) (_backgroundFillRequired p) (_filledBackgroundHeight p) (_colorMap p) (_colorMapUsed p) (_colorTable p) (_maxColors p) (_colorsUsed p) (_colorsAvailable p) (_foregroundPixel p) (_colorTableChanged p) (_imageBuffer p) (_imageOriginCell p) (_imageCursor p) (_imageWidth p) (_imageMaxWidth p) (_imageLineCount p) (_lastFlushLine p) (_lastFlushTime p).
Definition set_backgroundSize (v : size.t) (p : t) : t :=
  mk (_conformanceLevel p) (_state p) (_parameters p) (_cellSize p) (_displayMode p) (_textMargins p) (_textCursor p) (_textCursorWasVisible p) (_availablePixelWidth p) (_availablePixelHeight p) (_maxPixelAspectRatio p) (_pixelAspectRatio p) (_sixelHeight p) (_segmentHeight p) (_pendingTextScrollCount p) v (_backgroundFillRequired p) (_filledBackgroundHeight p) (_colorMap p) (_colorMapUsed p) (_colorTable p) (_maxColors p) (_colorsUsed p) (_colorsAvailable p) (_foregroundPixel p) (_colorTableChanged p) (_imageBuffer p) (_imageOriginCell p) (_imageCursor p) (_imageWidth p) (_imageMaxWidth p) (_imageLineCount p) (_lastFlushLine p) (_lastFlushTime p).
Definition set_backgroundFillRequired (v : bool) (p : t) : t :=
  mk (_conformanceLevel p) (_state p) (_parameters p) (_cellSize p) (_displayMode p) (_textMargins p) (_textCursor p) (_textCursorWasVisible p) (_availablePixelWidth p) (_availablePixelHeight p) (_maxPixelAspectRatio p) (_pixelAspectRatio p) (_sixelHeight p) (_segmentHeight p) (_pendingTextScrollCount p) (_backgroundSize p) v (_filledBackgroundHeight p) (_colorMap p) (_colorMapUsed p) (_colorTable p) (_maxColors p) (_colorsUsed p) (_colorsAvailable p) (_foregroundPixel p) (_colorTableChanged p) (_imageBuffer p) (_imageOriginCell p) (_imageCursor p) (_imageWidth p) (_imageMaxWidth p) (_imageLineCount p) (_lastFlushLine p) (_lastFlushTime p).
Definition set_filledBackgroundHeight (v : option Z) (p : t) : t :=
  mk (_conformanceLevel p) (_state p) (_parameters p) (_cellSize p) (_displayMode p) (_textMargins p) (_textCursor p) (_textCursorWasVisible p) (_availablePixelWidth p) (_availablePixelHeight p) (_maxPixelAspectRatio p) (_pixelAspectRatio p) (_sixelHeight p) (_segmentHeight p) (_pendingTextScrollCount p) (_backgroundSize p) (_backgroundFillRequired p) v (_colorMap p) (_colorMapUsed p) (_colorTable p) (_maxColors p) (_colorsUsed p) (_colorsAvailable p) (_foregroundPixel p) (_colorTableChanged p) (_imageBuffer p) (_imageOriginCell p) (_imageCursor p) (_imageWidth p) (_imageMaxWidth p) (_imageLineCount p) (_lastFlushLine p) (_lastFlushTime p).
Definition set_colorMap (v : list Z) (p : t) : t :=
  mk (_conformanceLevel p) (_state p) (_parameters p) (_cellSize p) (_displayMode p) (_textMargins p) (_textCursor p) (_textCursorWasVisible p) (_availablePixelWidth p) (_availablePixelHeight p) (_maxPixelAspectRatio p) (_pixelAspectRatio p) (_sixelHeight p) (_segmentHeight p) (_pendingTextScrollCount p) (_backgroundSize p) (_backgroundFillRequired p) (_filledBackgroundHeight p) v (_colorMapUsed p) (_colorTable p) (_maxColors p) (_colorsUsed p) (_colorsAvailable p) (_foregroundPixel p) (_colorTableChanged p) (_imageBuffer p) (_imageOriginCell p) (_imageCursor p) (_imageWidth p) (_imageMaxWidth p) (_imageLineCount p) (_lastFlushLine p) (_lastFlushTime p).
Definition set_colorMapUsed (v : list bool) (p : t) : t :=
  mk (_conformanceLevel p) (_state p) (_parameters p) (_cellSize p) (_displayMode p) (_textMargins p) (_textCursor p) (_textCursorWasVisible p) (_availablePixelWidth p) (_availablePixelHeight p) (_maxPixelAspectRatio p) (_pixelAspectRatio p) (_sixelHeight p) (_segmentHeight p) (_pendingTextScrollCount p) (_backgroundSize p) (_backgroundFillRequired p) (_filledBackgroundHeight p) (_colorMap p) v (_colorTable p) (_maxColors p) (_colorsUsed p) (_colorsAvailable p) (_foregroundPixel p) (_colorTableChanged p) (_imageBuffer p) (_imageOriginCell p) (_imageCursor p) (_imageWidth p) (_imageMaxWidth p) (_imageLineCount p) (_lastFlushLine p) (_lastFlushTime p).
Definition set_colorTable (v : list Z) (p : t) : t :=
  mk (_conformanceLevel p) (_state p) (_parameters p) (_cellSize p) (_displayMode p) (_textMargins p) (_textCursor p) (_textCursorWasVisible p) (_availablePixelWidth p) (_availablePixelHeight p) (_maxPixelAspectRatio p) (_pixelAspectRatio p) (_sixelHeight p) (_segmentHeight p) (_pendingTextScrollCount p) (_backgroundSize p) (_backgroundFillRequired p) (_filledBackgroundHeight p) (_colorMap p) (_colorMapUsed p) v (_maxColors p) (_colorsUsed p) (_colorsAvailable p) (_foregroundPixel p) (_colorTableChanged p) (_imageBuffer p) (_imageOriginCell p) (_imageCursor p) (_imageWidth p) (_imageMaxWidth p) (_imageLineCount p) (_lastFlushLine p) (_lastFlushTime p).
Definition set_colorsUsed (v : Z) (p : t) : t :=
  mk (_conformanceLevel p) (_state p) (_parameters p) (_cellSize p) (_displayMode p) (_textMargins p) (_textCursor p) (_textCursorWasVisible p) (_availablePixelWidth p) (_availablePixelHeight p) (_maxPixelAspectRatio p) (_pixelAspectRatio p) (_sixelHeight p) (_segmentHeight p) (_pendingTextScrollCount p) (_backgroundSize p) (_backgroundFillRequired p) (_filledBackgroundHeight p) (_colorMap p) (_colorMapUsed p) (_colorTable p) (_maxColors p) v (_colorsAvailable p) (_foregroundPixel p) (_colorTableChanged p) (_imageBuffer p) (_imageOriginCell p) (_imageCursor p) (_imageWidth p) (_imageMaxWidth p) (_imageLineCount p) (_lastFlushLine p) (_lastFlushTime p).
Definition set_colorsAvailable (v : Z) (p : t) : t :=
  mk (_conformanceLevel p) (_state p) (_parameters p) (_cellSize p) (_displayMode p) (_textMargins p) (_textCursor p) (_textCursorWasVisible p) (_availablePixelWidth p) (_availablePixelHeight p) (_maxPixelAspectRatio p) (_pixelAspectRatio p) (_sixelHeight p) (_segmentHeight p) (_pendingTextScrollCount p) (_backgroundSize p) (_backgroundFillRequired p) (_filledBackgroundHeight p) (_colorMap p) (_colorMapUsed p) (_colorTable p) (_maxColors p) (_colorsUsed p) v (_foregroundPixel p) (_colorTableChanged p) (_imageBuffer p) (_imageOriginCell p) (_imageCursor p) (_imageWidth p) (_imageMaxWidth p) (_imageLineCount p) (_lastFlushLine p) (_lastFlushTime p).
Definition set_foregroundPixel (v : Z) (p : t) : t :=
  mk (_conformanceLevel p) (_state p) (_parameters p) (_cellSize p) (_displayMode p) (_textMargins p) (_textCursor p) (_textCursorWasVisible p) (_availablePixelWidth p) (_availablePixelHeight p) (_maxPixelAspectRatio p) (_pixelAspectRatio p) (_sixelHeight p) (_segmentHeight p) (_pendingTextScrollCount p) (_backgroundSize p) (_backgroundFillRequired p) (_filledBackgroundHeight p) (_colorMap p) (_colorMapUsed p) (_colorTable p) (_maxColors p) (_colorsUsed p) (_colorsAvailable p) v (_colorTableChanged p) (_imageBuffer p) (_imageOriginCell p) (_imageCursor p) (_imageWidth p) (_imageMaxWidth p) (_imageLineCount p) (_lastFlushLine p) (_lastFlushTime p).
Definition set_colorTableChanged (v : bool) (p : t) : t :=
  mk (_conformanceLevel p) (_state p) (_parameters p) (_cellSize p) (_displayMode p) (_textMargins p) (_textCursor p) (_textCursorWasVisible p) (_availablePixelWidth p) (_availablePixelHeight p) (_maxPixelAspectRatio p) (_pixelAspectRatio p) (_sixelHeight p) (_segmentHeight p) (_pendingTextScrollCount p) (_backgroundSize p) (_backgroundFillRequired p) (_filledBackgroundHeight p) (_colorMap p) (_colorMapUsed p) (_colorTable p) (_maxColors p) (_colorsUsed p) (_colorsAvailable p) (_foregroundPixel p) v (_imageBuffer p) (_imageOriginCell p) (_imageCursor p) (_imageWidth p) (_imageMaxWidth p) (_imageLineCount p) (_lastFlushLine p) (_lastFlushTime p).
Definition set_imageBuffer (v : list (option Z)) (p : t) : t :=
  mk (_conformanceLevel p) (_state p) (_parameters p) (_cellSize p) (_displayMode p) (_textMargins p) (_textCursor p) (_textCursorWasVisible p) (_availablePixelWidth p) (_availablePixelHeight p) (_maxPixelAspectRatio p) (_pixelAspectRatio p) (_sixelHeight p) (_segmentHeight p) (_pendingTextScrollCount p) (_backgroundSize p) (_backgroundFillRequired p) (_filledBackgroundHeight p) (_colorMap p) (_colorMapUsed p) (_colorTable p) (_maxColors p) (_colorsUsed p) (_colorsAvailable p) (_foregroundPixel p) (_colorTableChanged p) v (_imageOriginCell p) (_imageCursor p) (_imageWidth p) (_imageMaxWidth p) (_imageLineCount p) (_lastFlushLine p) (_lastFlushTime p).
Definition set_imageOriginCell (v : point.t) (p : t) : t :=
  mk (_conformanceLevel p) (_state p) (_parameters p) (_cellSize p) (_displayMode p) (_textMargins p) (_textCursor p) (_textCursorWasVisible p) (_availablePixelWidth p) (_availablePixelHeight p) (_maxPixelAspectRatio p) (_pixelAspectRatio p) (_sixelHeight p) (_segmentHeight p) (_pendingTextScrollCount p) (_backgroundSize p) (_backgroundFillRequired p) (_filledBackgroundHeight p) (_colorMap p) (_colorMapUsed p) (_colorTable p) (_maxColors p) (_colorsUsed p) (_colorsAvailable p) (_foregroundPixel p) (_colorTableChanged p) (_imageBuffer p) v (_imageCursor p) (_imageWidth p) (_imageMaxWidth p) (_imageLineCount p) (_lastFlushLine p) (_lastFlushTime p).
Definition set_imageCursor (v : point.t) (p : t) : t :=
  mk (_conformanceLevel p) (_state p) (_parameters p) (_cellSize p) (_displayMode p) (_textMargins p) (_textCursor p) (_textCursorWasVisible p) (_availablePixelWidth p) (_availablePixelHeight p) (_maxPixelAspectRatio p) (_pixelAspectRatio p) (_sixelHeight p) (_segmentHeight p) (_pendingTextScrollCount p) (_backgroundSize p) (_backgroundFillRequired p) (_filledBackgroundHeight p) (_colorMap p) (_colorMapUsed p) (_colorTable p) (_maxColors p) (_colorsUsed p) (_colorsAvailable p) (_foregroundPixel p) (_colorTableChanged p) (_imageBuffer p) (_imageOriginCell p) v (_imageWidth p) (_imageMaxWidth p) (_imageLineCount p) (_lastFlushLine p) (_lastFlushTime p).
Definition set_imageWidth (v : Z) (p : t) : t :=
  mk (_conformanceLevel p) (_state p) (_parameters p) (_cellSize p) (_displayMode p) (_textMargins p) (_textCursor p) (_textCursorWasVisible p) (_availablePixelWidth p) (_availablePixelHeight p) (_maxPixelAspectRatio p) (_pixelAspectRatio p) (_sixelHeight p) (_segmentHeight p) (_pendingTextScrollCount p) (_backgroundSize p) (_backgroundFillRequired p) (_filledBackgroundHeight p) (_colorMap p) (_colorMapUsed p) (_colorTable p) (_maxColors p) (_colorsUsed p) (_colorsAvailable p) (_foregroundPixel p) (_colorTableChanged p) (_imageBuffer p) (_imageOriginCell p) (_imageCursor p) v (_imageMaxWidth p) (_imageLineCount p) (_lastFlushLine p) (_lastFlushTime p).
Definition set_imageMaxWidth (v : Z) (p : t) : t :=
  mk (_conformanceLevel p) (_state p) (_parameters p) (_cellSize p) (_displayMode p) (_textMargins p) (_textCursor p) (_textCursorWasVisible p) (_availablePixelWidth p) (_availablePixelHeight p) (_maxPixelAspectRatio p) (_pixelAspectRatio p) (_sixelHeight p) (_segmentHeight p) (_pendingTextScrollCount p) (_backgroundSize p) (_backgroundFillRequired p) (_filledBackgroundHeight p) (_colorMap p) (_colorMapUsed p) (_colorTable p) (_maxColors p) (_colorsUsed p) (_colorsAvailable p) (_foregroundPixel p) (_colorTableChanged p) (_imageBuffer p) (_imageOriginCell p) (_imageCursor p) (_imageWidth p) v (_imageLineCount p) (_lastFlushLine p) (_lastFlushTime p).
Definition set_imageLineCount (v : Z) (p : t) : t :=
  mk (_conformanceLevel p) (_state p) (_parameters p) (_cellSize p) (_displayMode p) (_textMargins p) (_textCursor p) (_textCursorWasVisible p) (_availablePixelWidth p) (_availablePixelHeight p) (_maxPixelAspectRatio p) (_pixelAspectRatio p) (_sixelHeight p) (_segmentHeight p) (_pendingTextScrollCount p) (_backgroundSize p) (_backgroundFillRequired p) (_filledBackgroundHeight p) (_colorMap p) (_colorMapUsed p) (_colorTable p) (_maxColors p) (_colorsUsed p) (_colorsAvailable p) (_foregroundPixel p) (_colorTableChanged p) (_imageBuffer p) (_imageOriginCell p) (_imageCursor p) (_imageWidth p) (_imageMaxWidth p) v (_lastFlushLine p) (_lastFlushTime p).
Definition set_lastFlushLine (v : Z) (p : t) : t :=
  mk (_conformanceLevel p) (_state p) (_parameters p) (_cellSize p) (_displayMode p) (_textMargins p) (_textCursor p) (_textCursorWasVisible p) (_availablePixelWidth p) (_availablePixelHeight p) (_maxPixelAspectRatio p) (_pixelAspectRatio p) (_sixelHeight p) (_segmentHeight p) (_pendingTextScrollCount p) (_backgroundSize p) (_backgroundFillRequired p) (_filledBackgroundHeight p) (_colorMap p) (_colorMapUsed p) (_colorTable p) (_maxColors p) (_colorsUsed p) (_colorsAvailable p) (_foregroundPixel p) (_colorTableChanged p) (_imageBuffer p) (_imageOriginCell p) (_imageCursor p) (_imageWidth p) (_imageMaxWidth p) (_imageLineCount p) v (_lastFlushTime p).
Definition set_lastFlushTime (v : Z) (p : t) : t :=
  mk (_conformanceLevel p) (_state p) (_parameters p) (_cellSize p) (_displayMode p) (_textMargins p) (_textCursor p) (_textCursorWasVisible p) (_availablePixelWidth p) (_availablePixelHeight p) (_maxPixelAspectRatio p) (_pixelAspectRatio p) (_sixelHeight p) (_segmentHeight p) (_pendingTextScrollCount p) (_backgroundSize p) (_backgroundFillRequired p) (_filledBackgroundHeight p) (_colorMap p) (_colorMapUsed p) (_colorTable p) (_maxColors p) (_colorsUsed p) (_colorsAvailable p) (_foregroundPixel p) (_colorTableChanged p) (_imageBuffer p) (_imageOriginCell p) (_imageCursor p) (_imageWidth p) (_imageMaxWidth p) (_imageLineCount p) (_lastFlushLine p) v.

Definition new_SixelParser (conformanceLevel : Z) : t :=
  mk conformanceLevel Normal [] (CellSizeForLevel conformanceLevel) true rect.zero (point.mk 0 0) false 0 0 0 0 0 0 0 (size.mk 0 0) false None
    (repeat 0 256) (repeat false 256) (InitializeExtendedColorTable (InitializeVT340ColorTable (repeat 0 256)) false)
    (MaxColorsForLevel conformanceLevel) 0 0 0 false [] (point.mk 0 0) (point.mk 0 0) 0 0 0 0 0.

Definition SetDisplayMode (enabled : bool) (p : t) : t := if 3 <=? _conformanceLevel p then set_displayMode enabled p else p.

Local Abbreviation I := (comp t).

(** ** Parameters *)

Definition _parseParameterChar (ch : wchar) (p : t) : t :=
  if (length (_parameters p) <=? 5)%nat then
    let parameters := match _parameters p with [] => [VTParameter.default] | ps => ps end in
    set_parameters
      (if ch =? 0x3B then parameters ++ [VTParameter.default]
       else
         let currentValue := VTParameter.value_or (default VTParameter.default (last parameters)) 0 in
         take (length parameters - 1) parameters ++ [Z.min (currentValue * 10 + (ch - 0x30)) MAX_PARAMETER_VALUE]) p
  else p.
Definition command_parameters (p : t) : VTParameters.t := VTParameters.of_params (_parameters p).

(** ** The image buffer *)

Definition _executeCarriageReturn : I unit :=
  modify (fun p => set_imageCursor (point.mk 0 (point.y (_imageCursor p))) (set_imageWidth (Z.max (_imageWidth p) (point.x (_imageCursor p))) p)).

Definition is_int (z : Z) : bool := (CoordTypeMin <=? z) && (z <=? CoordTypeMax).

Definition _resizeImageBuffer (requiredHeight : Z) : I unit :=
  p ← gets id;
  let requiredSize := (point.y (_imageCursor p) + requiredHeight) * _imageMaxWidth p in
  if negb (is_int requiredSize) then undefined
  else if requiredSize <? 0 then throw
  else if Z.of_nat (length (_imageBuffer p)) <? requiredSize
  then modify (set_imageBuffer (_imageBuffer p ++ repeat None (Z.to_nat requiredSize - length (_imageBuffer p))))
  else mret tt.

(** [std::fill_n], which does nothing for a count that is not positive. *)
Definition fill_pixels (offset count : Z) (pixel : option Z) : I unit :=
  buffer ← gets _imageBuffer;
  if count <=? 0 then mret tt
  else if (0 <=? offset) && (offset + count <=? Z.of_nat (length buffer))
  then modify (set_imageBuffer (take (Z.to_nat offset) buffer ++ repeat pixel (Z.to_nat count) ++ drop (Z.to_nat (offset + count)) buffer))
  else undefined.

Fixpoint fill_rows (rows : nat) (offset stride count : Z) (pixel : option Z) : I unit :=
  match rows with
  | O => mret tt
  | S rows => fill_pixels offset count pixel;; fill_rows rows (offset + stride) stride count pixel
  end.

(** [_fillImageBackground(backgroundHeight)] *)
Definition fill_background (backgroundHeight : Z) : I unit :=
  p ← gets id;
  let backgroundWidth := Z.min (size.width (_backgroundSize p)) (_availablePixelWidth p) in
  fill_rows (Z.to_nat backgroundHeight) (point.y (_imageCursor p) * _imageMaxWidth p) (_imageMaxWidth p) backgroundWidth (Some 0);;
  modify (set_imageWidth (Z.max (_imageWidth p) backgroundWidth)).

Definition _fillImageBackgroundWhenScrolled : I unit :=
  p ← gets id;
  let imageHeight := point.y (_imageCursor p) + _sixelHeight p in
  match _filledBackgroundHeight p with
  | Some filled =>
    if filled <? imageHeight then
      let cell := size.height (_cellSize p) in
      let filled := (imageHeight + cell - 1) ÷ cell * cell in
      modify (set_filledBackgroundHeight (Some filled));;
      let additionalFillHeight := filled - point.y (_imageCursor p) in
      _resizeImageBuffer additionalFillHeight;;
      fill_background additionalFillHeight
    else mret tt
  | None => mret tt
  end.

Definition _fillImageBackground : I unit :=
  p ← gets id;
  if _backgroundFillRequired p then
    modify (set_backgroundFillRequired false);;
    let backgroundHeight := Z.min (size.height (_backgroundSize p)) (_availablePixelHeight p) in
    _resizeImageBuffer backgroundHeight;;
    fill_background backgroundHeight;;
    modify (set_filledBackgroundHeight (Some (point.y (_imageCursor p) + _availablePixelHeight p)));;
    _fillImageBackgroundWhenScrolled
  else mret tt.

Definition _decreaseFilledBackgroundHeight (decreasedHeight : Z) (p : t) : t :=
  match _filledBackgroundHeight p with Some filled => set_filledBackgroundHeight (Some (filled - decreasedHeight)) p | None => p end.

(** *** Writing sixels *)

Definition pixel_at (offset : Z) : I (option Z) :=
  buffer ← gets _imageBuffer;
  if (0 <=? offset) && (offset <? Z.of_nat (length buffer)) then mret (default None (buffer !! Z.to_nat offset)) else undefined.
Definition put_pixel (offset : Z) (pixel : option Z) : I unit :=
  buffer ← gets _imageBuffer;
  if (0 <=? offset) && (offset <? Z.of_nat (length buffer)) then modify (set_imageBuffer (<[Z.to_nat offset := pixel]> buffer)) else undefined.

(** The path for an aspect ratio of 1: one column of six pixels after the other, each
    of them read and written. *)
Fixpoint write_column (rounds : nat) (i ptr stride sixelValue : Z) (foreground : option Z) : I unit :=
  match rounds with
  | O => mret tt
  | S rounds =>
    before ← pixel_at (ptr + i * stride);
    put_pixel (ptr + i * stride) (if negb (Z.land sixelValue (Z.shiftl 1 i) =? 0) then foreground else before);;
    write_column rounds (i + 1) ptr stride sixelValue foreground
  end.
Fixpoint write_columns (repeatCount : nat) (ptr stride sixelValue : Z) (foreground : option Z) : I unit :=
  match repeatCount with
  | O => mret tt
  | S repeatCount =>
    write_column 6 0 ptr stride sixelValue foreground;;
    modify (fun p => set_imageCursor (point.mk (point.x (_imageCursor p) + 1) (point.y (_imageCursor p))) p);;
    write_columns repeatCount (ptr + 1) stride sixelValue foreground
  end.

(** The path for other ratios: one of the six rows after the other, each of them as many
    times as the aspect ratio says. *)
Fixpoint write_bands (rounds : nat) (ptr stride sixelValue aspectRatio repeatCount : Z) (foreground : option Z) : I unit :=
  match rounds with
  | O => mret tt
  | S rounds =>
    (if negb (Z.land sixelValue 1 =? 0) then fill_rows (Z.to_nat aspectRatio) ptr stride repeatCount foreground else mret tt);;
    write_bands rounds (ptr + stride * aspectRatio) stride (Z.shiftr sixelValue 1) aspectRatio repeatCount foreground
  end.

Definition write_sixel (sixelValue repeatCount : Z) : I unit :=
  p ← gets id;
  let repeatCount := Z.min repeatCount (_imageMaxWidth p - point.x (_imageCursor p)) in
  let advance := modify (set_imageCursor (point.mk (point.x (_imageCursor p) + repeatCount) (point.y (_imageCursor p)))) in
  if repeatCount <=? 0 then mret tt
  else if sixelValue =? 0 then advance
  else
    let targetOffset := point.y (_imageCursor p) * _imageMaxWidth p + point.x (_imageCursor p) in
    let foreground := Some (_foregroundPixel p) in
    if _pixelAspectRatio p =? 1 then write_columns (Z.to_nat repeatCount) targetOffset (_imageMaxWidth p) sixelValue foreground
    else write_bands 6 targetOffset (_imageMaxWidth p) sixelValue (_pixelAspectRatio p) repeatCount foreground;; advance.

Definition _writeToImageBuffer (sixelValue repeatCount : Z) : I unit := _fillImageBackground;; write_sixel sixelValue repeatCount.

Definition _eraseImageBufferRows (rowCount rowOffset : Z) : I unit :=
  p ← gets id;
  let pixelCount := rowCount * size.height (_cellSize p) in
  let bufferOffset := rowOffset * size.height (_cellSize p) * _imageMaxWidth p in
  let bufferOffsetEnd := bufferOffset + pixelCount * _imageMaxWidth p in
  let cursor := _imageCursor p in
  if Z.of_nat (length (_imageBuffer p)) <=? bufferOffsetEnd then
    modify (_decreaseFilledBackgroundHeight (point.y cursor));;
    modify (set_imageBuffer []);;
    modify (set_imageCursor (point.mk (point.x cursor) 0))
  else
    modify (_decreaseFilledBackgroundHeight pixelCount);;
    modify (set_imageBuffer (take (Z.to_nat bufferOffset) (_imageBuffer p) ++ drop (Z.to_nat bufferOffsetEnd) (_imageBuffer p)));;
    modify (set_imageCursor (point.mk (point.x cursor) (point.y cursor - pixelCount))).

(** ** Raster attributes *)

Definition _initRasterAttributes (macroParameter backgroundSelect : Z) (p : t) : t :=
  let ratio :=
    if _conformanceLevel p <? 3 then 2
    else switch macroParameter [(0, 2); (1, 2); (5, 2); (6, 2); (2, 5); (3, 3); (4, 3); (7, 1); (8, 1); (9, 1)] 1 in
  let transparent := backgroundSelect =? Background_Transparent in
  set_filledBackgroundHeight None (set_backgroundSize (size.mk CoordTypeMax CoordTypeMax)
    (set_backgroundFillRequired ((_conformanceLevel p =? 1) || negb transparent)
      (set_segmentHeight (6 * ratio) (set_sixelHeight (6 * ratio) (set_pixelAspectRatio ratio p))))).

(** The quotient is rounded up: that of two parameters is no closer than 1/65535 to an
    integer it does not reach, so that the division of the [double]s is exact enough. *)
Definition _updateRasterAttributes (rasterAttributes : VTParameters.t) : I unit :=
  let yAspect := VTParameter.value_or (VTParameters.at_ rasterAttributes 0) 0 in
  let xAspect := VTParameter.value_or (VTParameters.at_ rasterAttributes 1) 0 in
  (if 0 <? xAspect then
     p ← gets id;
     let ratio := clamp ((yAspect + xAspect - 1) / xAspect) 1 (_maxPixelAspectRatio p) in
     modify (set_pixelAspectRatio ratio);;
     modify (set_sixelHeight (6 * ratio));;
     modify (set_segmentHeight (Z.max (_segmentHeight p) (6 * ratio)));;
     _resizeImageBuffer (6 * ratio)
   else mret tt);;
  let width := VTParameter.value_or (VTParameters.at_ rasterAttributes 2) 0 in
  let height := VTParameter.value_or (VTParameters.at_ rasterAttributes 3) 0 in
  modify (fun p => set_backgroundSize (size.mk (if 0 <? width then width else size.width (_backgroundSize p)) (if 0 <? height then height else size.height (_backgroundSize p))) p);;
  _fillImageBackgroundWhenScrolled;;
  _executeCarriageReturn.

(** ** Colours *)

Definition _initColorMap (backgroundColor : Z) : I unit :=
  modify (set_colorsUsed 0);;
  modify (fun p => set_colorsAvailable (_maxColors p) p);;
  modify (set_colorTableChanged false);;
  modify (fun p => set_colorMap (map (fun colorNumber => u8 (Z.of_nat colorNumber mod _maxColors p)) (seq 0 256)) p);;
  modify (set_colorMapUsed (repeat false 256));;
  p ← gets id;
  (if (_conformanceLevel p =? 2) && VTParameter.has_value backgroundColor then
     if backgroundColor <? _maxColors p then
       modify (set_colorMap (<[Z.to_nat backgroundColor := 0]> (_colorMap p)));;
       modify (set_colorMapUsed (<[Z.to_nat backgroundColor := true]> (_colorMapUsed p)))
     else modify (set_colorsAvailable (_maxColors p - 1))
   else mret tt);;
  modify (set_foregroundPixel (u8 (Z.min (_maxColors p - 1) 15))).

(** The last of the entries that are closest to a colour; the loop of the VT240. *)
Definition color_difference (c1 c2 : Z) : Z :=
  let red := GetRValue c1 - GetRValue c2 in
  let green := GetGValue c1 - GetGValue c2 in
  let blue := GetBValue c1 - GetBValue c2 in
  red * red + green * green + blue * blue.
Definition closest_entry (table : list Z) (maxColors color : Z) : Z :=
  (foldl (fun '(tableIndex, bestDiff) i =>
    let totalDiff := color_difference (default 0 (table !! i)) color in
    if totalDiff <=? bestDiff then (Z.of_nat i, totalDiff) else (tableIndex, bestDiff)) (0, 2 ^ 31 - 1) (seq 0 (Z.to_nat maxColors))).1.

(** The colour of a number that has no entry yet. *)
Definition assign_color (colorNumber : nat) (color : Z) (p : t) : t :=
  let p :=
    if _colorsUsed p <? _colorsAvailable p then
      let tableIndex := (_colorsUsed p + 1) mod _maxColors p in
      set_colorTableChanged true (set_colorTable (<[Z.to_nat tableIndex := color]> (_colorTable p))
        (set_colorMap (<[colorNumber := u8 tableIndex]> (_colorMap p)) (set_colorsUsed (_colorsUsed p + 1) p)))
    else if _conformanceLevel p =? 2 then set_colorMap (<[colorNumber := u8 (closest_entry (_colorTable p) (_maxColors p) color)]> (_colorMap p)) p
    else p in
  set_colorMapUsed (<[colorNumber := true]> (_colorMapUsed p)) p.

Definition _colorFromIndex (p : t) (tableIndex : Z) : Z := default 0 (_colorTable p !! Z.to_nat tableIndex).
Definition _makeRGBQUAD (color : Z) : Z :=
  Z.lor (Z.lor (GetBValue color) (Z.shiftl (GetGValue color) 8)) (Z.lor (Z.shiftl (GetRValue color) 16) (Z.shiftl 255 24)).

(** ** The image on the page *)

(** What a row of pixels shows after the image was drawn over it. *)
Definition overlay (p : t) (pixels : list (option Z)) (below : list Z) : list Z :=
  zip_with (fun pixel rgb => match pixel with Some index => _makeRGBQUAD (_colorFromIndex p index) | None => rgb end) pixels below.

(** The pixel rows of one row of the page: the pixels of the slice, and where the image
    continues. *)
Fixpoint draw_rows (rows : nat) (p : t) (src dst stride : Z) (pixels : list Z) : option (list Z * Z) :=
  match rows with
  | O => Some (pixels, src)
  | S rows =>
    let size := Z.of_nat (length (_imageBuffer p)) in
    if (0 <=? src) && (src + _imageWidth p <=? size) then
      below ← ImageSlice.cut dst (_imageWidth p) pixels;
      pixels ← ImageSlice.paste dst (overlay p (take (Z.to_nat (_imageWidth p)) (drop (Z.to_nat src) (_imageBuffer p))) below) pixels;
      let src := src + _imageMaxWidth p in
      if size <=? src then Some (pixels, src) else draw_rows rows p src (dst + stride) stride pixels
    else None
  end.

Definition draw_slice (p : t) (columnBegin columnEnd src : Z) (slice : ImageSlice.t) : option (ImageSlice.t * Z) :=
  '(slice, dst) ← ImageSlice.MutablePixels columnBegin columnEnd slice;
  '(pixels, src) ← draw_rows (Z.to_nat (size.height (_cellSize p))) p src dst (ImageSlice.PixelWidth slice) (ImageSlice._pixelBuffer slice);
  Some (ImageSlice.set_pixels pixels slice, src).

Definition draw_row (p : t) (columnBegin columnEnd src : Z) (r : ROW) : option (ROW * Z) :=
  let slice := match _imageSlice r with Some slice => slice | None => ImageSlice.new (_cellSize p) end in
  '(slice, src) ← draw_slice p columnBegin columnEnd src slice;
  Some (SetImageSlice (Some slice) r, src).

End Sixel.

(** ** With the dispatcher

    [steady_clock::now] is the next of the readings of [clock], in nanoseconds;
    [readings] counts them. Whether the character is the last of the string that is being
    processed, [IsProcessingLastCharacter], is an argument of the operations. *)
Section Sixels.
Context {A D : Type} `{Measurement D} `{!ITerminalApi A D}.
Variable P : Platform.
Variable clock : nat -> Z.
Variable ColorFromHLS : Z -> Z -> Z -> Z.

Record SixelState := mkSixelState {
  parser : Sixel.t;
  adapt : AdaptDispatch A D MacroCallback;
  readings : nat
}.
Local Abbreviation M := (comp SixelState).

Definition with_image {X} (m : comp Sixel.t X) : M X := fun s => let '(p, o) := m (parser s) in (mkSixelState p (adapt s) (readings s), o).
Definition with_dispatcher {X} (m : comp (AdaptDispatch A D MacroCallback) X) : M X :=
  fun s => let '(d, o) := m (adapt s) in (mkSixelState (parser s) d (readings s), o).
Definition steady_now : M Z := fun s => (mkSixelState (parser s) (adapt s) (S (readings s)), Returned (clock (readings s))).
Definition image {X} (f : Sixel.t -> X) : M X := with_image (gets f).
Definition update (f : Sixel.t -> Sixel.t) : M unit := with_image (modify f).
Definition page_of_image : M Page := with_dispatcher (active_page P).

(** *** Boundaries *)

Definition _initTextBufferBoundaries : M bool :=
  page ← page_of_image;
  width ← with_dispatcher (page_Width page);
  p ← image id;
  let cell := Sixel._cellSize p in
  validOrigin ←
    (if Sixel._displayMode p then
       update (Sixel.set_textMargins (rect.mk 0 (Page.Top page) width (Page.Bottom page)));;
       update (Sixel.set_textCursor (point.mk 0 (Page.Top page)));;
       update (Sixel.set_availablePixelWidth (width * size.width cell));;
       update (Sixel.set_availablePixelHeight (Page.Height page * size.height cell));;
       mret true
     else
       '(topMargin, bottomMargin) ← with_dispatcher (_GetVerticalMargins page true);
       '(leftMargin, rightMargin) ← with_dispatcher (_GetHorizontalMargins width);
       position ← with_dispatcher (cursor_position page);
       update (Sixel.set_textMargins (rect.mk leftMargin topMargin (rightMargin + 1) (bottomMargin + 1)));;
       update (Sixel.set_textCursor position);;
       update (Sixel.set_availablePixelWidth ((rightMargin + 1 - point.x position) * size.width cell));;
       update (Sixel.set_availablePixelHeight ((bottomMargin + 1 - point.y position) * size.height cell));;
       mret ((leftMargin <=? point.x position) && (point.x position <=? rightMargin) && (point.y position <=? bottomMargin)));
  update (Sixel.set_pendingTextScrollCount 0);;
  update (fun p => Sixel.set_maxPixelAspectRatio ((rect.bottom (Sixel._textMargins p) - rect.top (Sixel._textMargins p)) * size.height cell ÷ 6) p);;
  visible ← with_dispatcher (read_page page (fun b => Cursor._isVisible (_cursor b)));
  update (Sixel.set_textCursorWasVisible visible);;
  (if visible && validOrigin then with_dispatcher (on_cursor page (Cursor.SetIsVisible false)) else mret tt);;
  mret validOrigin.

(** *** Scrolling *)

Fixpoint scroll_lines (amount : nat) (page : Page) (panAmount : Z) : M (Page * Z) :=
  match amount with
  | O => mret (page, panAmount)
  | S amount =>
    panned ← with_dispatcher (_DoLineFeed P page false false);
    if (panned : bool) then scroll_lines amount (Page.MoveViewportDown page) (panAmount + 1) else scroll_lines amount page panAmount
  end.

Definition _scrollTextBuffer (page : Page) (scrollAmount : Z) : M Page :=
  p ← image id;
  (if negb (point.y (Sixel._textCursor p) =? rect.bottom (Sixel._textMargins p) - 1) then
     let cursor := point.mk (point.x (Sixel._textCursor p)) (rect.bottom (Sixel._textMargins p) - 1) in
     update (Sixel.set_textCursor cursor);;
     with_dispatcher (on_cursor page (Cursor.SetPosition cursor))
   else mret tt);;
  '(page, panAmount) ← scroll_lines (Z.to_nat scrollAmount) page 0;
  update (fun p => Sixel.set_textCursor (point.mk (point.x (Sixel._textCursor p)) (point.y (Sixel._textCursor p) + panAmount)) p);;
  update (fun p => let m := Sixel._textMargins p in Sixel.set_textMargins (rect.mk (rect.left m) (rect.top m + panAmount) (rect.right m) (rect.bottom m + panAmount)) p);;
  (if panAmount <? scrollAmount then
     p ← image id;
     width ← with_dispatcher (page_Width page);
     let margins := Sixel._textMargins p in
     let expectedMovement := scrollAmount - panAmount in
     movement ←
       (if (Page.Top page <? rect.top margins) || (0 <? rect.left margins) || (rect.right margins <? width - 1) then
          let availableSpace := Z.max (point.y (Sixel._imageOriginCell p) - rect.top margins) 0 in
          if availableSpace <? expectedMovement then
            with_image (Sixel._eraseImageBufferRows (expectedMovement - availableSpace) (Z.max (rect.top margins - point.y (Sixel._imageOriginCell p)) 0));;
            mret availableSpace
          else mret expectedMovement
        else mret expectedMovement);
     update (fun p => Sixel.set_imageOriginCell (point.mk (point.x (Sixel._imageOriginCell p)) (point.y (Sixel._imageOriginCell p) - movement)) p)
   else mret tt);;
  mret page.

Definition _updateTextCursor (page : Page) : M unit :=
  p ← image id;
  (if negb (Sixel._displayMode p) then
     let finalRow := point.y (Sixel._imageOriginCell p) + point.y (Sixel._imageCursor p) ÷ size.height (Sixel._cellSize p) in
     if negb (finalRow =? point.y (Sixel._textCursor p)) then with_dispatcher (on_cursor page (Cursor.SetPosition (point.mk (point.x (Sixel._textCursor p)) finalRow))) else mret tt
   else mret tt);;
  if Sixel._textCursorWasVisible p then with_dispatcher (on_cursor page (Cursor.SetIsVisible true)) else mret tt.

(** *** Colours of the text *)

Fixpoint update_entries (entries : list nat) : M unit :=
  match entries with
  | [] => mret tt
  | i :: entries =>
    p ← image id;
    with_dispatcher (SetColorTableEntry (Z.of_nat i) (Sixel._colorFromIndex p (Z.of_nat i)));;
    update_entries entries
  end.
Definition _updateTextColors : M unit :=
  p ← image id;
  if (Sixel._conformanceLevel p <=? 3) && (2 <? Sixel._maxColors p) && Sixel._colorTableChanged p then
    update_entries (if Sixel._maxColors p <=? 16 then seq 0 (Z.to_nat (Sixel._maxColors p)) else []);;
    update (Sixel.set_colorTableChanged false)
  else mret tt.

Definition SixelParser_SoftReset : M unit :=
  p ← image id;
  if Sixel._conformanceLevel p =? 2 then
    update (fun p => Sixel.set_colorTable (InitializeVT340ColorTable (Sixel._colorTable p)) p);; _updateTextColors
  else mret tt.

(** *** Flushing *)

(** The loop that makes room for the current segment. Each round adds the height of a
    cell, so that the height of the margins bounds the number of rounds. *)
Fixpoint reserve_rows (fuel : nat) (marginPixelHeight : Z) (p : Sixel.t) : Sixel.t :=
  match fuel with
  | O => p
  | S fuel =>
    if (Sixel._availablePixelHeight p <? marginPixelHeight) && (Sixel._availablePixelHeight p <=? Sixel._segmentHeight p) then
      reserve_rows fuel marginPixelHeight
        (Sixel.set_availablePixelHeight (Sixel._availablePixelHeight p + size.height (Sixel._cellSize p))
          (Sixel.set_pendingTextScrollCount (Sixel._pendingTextScrollCount p + 1) p))
    else p
  end.
Definition reserve_segment (p : Sixel.t) : Sixel.t :=
  if (Sixel._availablePixelHeight p <? Sixel._segmentHeight p) && negb (Sixel._displayMode p) then
    let marginPixelHeight := (rect.bottom (Sixel._textMargins p) - rect.top (Sixel._textMargins p)) * size.height (Sixel._cellSize p) in
    reserve_rows (Z.to_nat (marginPixelHeight - Sixel._availablePixelHeight p)) marginPixelHeight p
  else p.

(** The rows of the page the image covers, from [rowOffset] on. *)
Fixpoint draw_image (rounds : nat) (page : Page) (columnBegin columnEnd src rowOffset : Z) : M unit :=
  match rounds with
  | O => mret tt
  | S rounds =>
    p ← image id;
    if (src <? Z.of_nat (length (Sixel._imageBuffer p))) && (rowOffset <? Page.Bottom page) then
      src ←
        (if 0 <=? rowOffset then
           with_dispatcher (on_page page (
             slot ← GetMutableRowByOffset (avx2 P) (uninitialised P) (rowSize P) rowOffset;
             r ← row_at slot;
             '(r, src) ← lift (Sixel.draw_row p columnBegin columnEnd src r);
             put_row slot r;;
             mret src))
         else mret (src + Sixel._imageMaxWidth p * size.height (Sixel._cellSize p)));
      draw_image rounds page columnBegin columnEnd src (rowOffset + 1)
    else mret tt
  end.

Definition flush_image (page : Page) : M unit :=
  p ← image id;
  if 0 <? Sixel._imageWidth p then
    let origin := Sixel._imageOriginCell p in
    let cellWidth := size.width (Sixel._cellSize p) in
    let columnEnd := point.x origin + (Sixel._imageWidth p + cellWidth - 1) ÷ cellWidth in
    draw_image (Z.to_nat (Page.Bottom page - point.y origin)) page (point.x origin) columnEnd 0 (point.y origin);;
    if point.y origin <? Page.Top page then
      let rowsToDelete := Page.Top page - point.y origin in
      with_image (Sixel._eraseImageBufferRows rowsToDelete 0);;
      update (Sixel.set_imageOriginCell (point.mk (point.x origin) (point.y origin + rowsToDelete)))
    else mret tt
  else mret tt.

Definition _maybeFlushImageBuffer (lastCharacter endOfSequence : bool) : M unit :=
  update reserve_segment;;
  update (fun p => Sixel.set_segmentHeight (Sixel._sixelHeight p) p);;
  currentTime ← steady_now;
  p ← image id;
  let timeSinceLastFlush := (currentTime - Sixel._lastFlushTime p) ÷ 1000000 in
  let linesSinceLastFlush := Sixel._imageLineCount p - Sixel._lastFlushLine p in
  if endOfSequence || (500 <? timeSinceLastFlush) || ((linesSinceLastFlush <=? 1) && lastCharacter) then
    update (Sixel.set_lastFlushTime currentTime);;
    update (fun p => Sixel.set_lastFlushLine (Sixel._imageLineCount p) p);;
    page ← page_of_image;
    page ← (if 0 <? Sixel._pendingTextScrollCount p then
              page ← _scrollTextBuffer page (Sixel._pendingTextScrollCount p);
              update (Sixel.set_pendingTextScrollCount 0);;
              mret page
            else mret page);
    flush_image page;;
    _updateTextColors;;
    if endOfSequence then _updateTextCursor page else mret tt
  else mret tt.

(** *** Commands *)

Definition define_color_entry (lastCharacter : bool) (colorNumber : nat) (color : Z) : M unit :=
  p ← image id;
  if default false (Sixel._colorMapUsed p !! colorNumber) then
    update (fun p => Sixel.set_colorTable (<[Z.to_nat (default 0 (Sixel._colorMap p !! colorNumber)) := color]> (Sixel._colorTable p)) p);;
    update (Sixel.set_colorTableChanged true);;
    if (0 <? Sixel._imageWidth p) && lastCharacter then _maybeFlushImageBuffer lastCharacter false else mret tt
  else update (Sixel.assign_color colorNumber color).

Definition _defineColor (lastCharacter : bool) (colorParameters : VTParameters.t) : M unit :=
  let colorNumber := Z.to_nat (VTParameter.value_or (VTParameters.at_ colorParameters 0) 0 mod 256) in
  level ← image Sixel._conformanceLevel;
  (if (1 <? VTParameters.size colorParameters)%nat && (1 <? level) then
     let x := VTParameter.value_or (VTParameters.at_ colorParameters 2) 0 in
     let y := VTParameter.value_or (VTParameters.at_ colorParameters 3) 0 in
     let z := VTParameter.value_or (VTParameters.at_ colorParameters 4) 0 in
     switch (VTParameter.to_enum (VTParameters.at_ colorParameters 1))
       [(Sixel.ColorModel_HLS, define_color_entry lastCharacter colorNumber (ColorFromHLS x y z));
        (Sixel.ColorModel_RGB, define_color_entry lastCharacter colorNumber (ColorFromRGB100 x y z))] (mret tt)
   else mret tt);;
  update (fun p => Sixel.set_foregroundPixel (default 0 (Sixel._colorMap p !! colorNumber)) p).

Definition _applyPendingCommand (lastCharacter : bool) : M Z :=
  p ← image id;
  update (Sixel.set_state Sixel.Normal);;
  match Sixel._state p with
  | Sixel.Normal => mret 1
  | Sixel.Color => _defineColor lastCharacter (Sixel.command_parameters p);; mret 1
  | Sixel.Repeat => mret (VTParameter.to_VTInt (VTParameters.at_ (Sixel.command_parameters p) 0))
  | Sixel.Attributes => with_image (Sixel._updateRasterAttributes (Sixel.command_parameters p));; mret 1
  end.

Definition _executeNextLine (lastCharacter : bool) : M unit :=
  with_image Sixel._executeCarriageReturn;;
  update (fun p => Sixel.set_imageLineCount (Sixel._imageLineCount p + 1) p);;
  _maybeFlushImageBuffer lastCharacter false;;
  p ← image id;
  if 0 <? Sixel._availablePixelHeight p then
    update (Sixel.set_imageCursor (point.mk (point.x (Sixel._imageCursor p)) (point.y (Sixel._imageCursor p) + Sixel._sixelHeight p)));;
    update (Sixel.set_availablePixelHeight (Sixel._availablePixelHeight p - Sixel._sixelHeight p));;
    with_image (Sixel._resizeImageBuffer (Sixel._sixelHeight p));;
    with_image Sixel._fillImageBackgroundWhenScrolled
  else mret tt.

Definition _executeMoveToHome (lastCharacter : bool) : M unit :=
  with_image Sixel._executeCarriageReturn;;
  _maybeFlushImageBuffer lastCharacter false;;
  update (fun p => Sixel.set_imageCursor (point.mk (point.x (Sixel._imageCursor p)) 0) p);;
  update (fun p => Sixel.set_availablePixelHeight ((rect.bottom (Sixel._textMargins p) - rect.top (Sixel._textMargins p)) * size.height (Sixel._cellSize p)) p).

Definition start_command (lastCharacter : bool) (state : Sixel.States) : M unit :=
  _applyPendingCommand lastCharacter;; update (Sixel.set_state state);; update (Sixel.set_parameters []).

Definition end_of_image (lastCharacter : bool) : M unit :=
  state ← image Sixel._state;
  (if decide (state = Sixel.Color) then _applyPendingCommand lastCharacter;; mret tt else mret tt);;
  with_image Sixel._fillImageBackground;;
  with_image Sixel._executeCarriageReturn;;
  _maybeFlushImageBuffer lastCharacter true.

Definition _parseCommandChar (lastCharacter : bool) (ch : wchar) : M unit :=
  if (0x3F <=? ch) && (ch <=? 0x7E) then
    repeatCount ← _applyPendingCommand lastCharacter;
    with_image (Sixel._writeToImageBuffer (ch - 0x3F) repeatCount)
  else if ((0x30 <=? ch) && (ch <=? 0x39)) || (ch =? 0x3B) then update (Sixel._parseParameterChar ch)
  else
    level ← image Sixel._conformanceLevel;
    switch ch
      [(0x23, start_command lastCharacter Sixel.Color);
       (0x21, start_command lastCharacter Sixel.Repeat);
       (0x24, _applyPendingCommand lastCharacter;; with_image Sixel._executeCarriageReturn);
       (0x2D, _applyPendingCommand lastCharacter;; _executeNextLine lastCharacter);
       (0x2B, if level =? 2 then _applyPendingCommand lastCharacter;; _executeMoveToHome lastCharacter else mret tt);
       (0x22, if 3 <=? level then start_command lastCharacter Sixel.Attributes else mret tt);
       (0x1B, end_of_image lastCharacter)]
      (mret tt).

(** *** Images *)

Definition _initImageBuffer : M unit :=
  update (Sixel.set_imageBuffer []);;
  update (fun p => Sixel.set_imageOriginCell (Sixel._textCursor p) p);;
  update (Sixel.set_imageCursor (point.mk 0 0));;
  update (Sixel.set_imageWidth 0);;
  update (fun p => Sixel.set_imageMaxWidth (Sixel._availablePixelWidth p) p);;
  update (Sixel.set_imageLineCount 0);;
  height ← image Sixel._sixelHeight;
  with_image (Sixel._resizeImageBuffer height);;
  update (Sixel.set_lastFlushLine 0);;
  time ← steady_now;
  update (Sixel.set_lastFlushTime time);;
  level ← image Sixel._conformanceLevel;
  if level <? 3 then with_image Sixel._fillImageBackground else mret tt.

(** [true]: there is a handler for the data. *)
Definition DefineImage (macroParameter backgroundSelect backgroundColor : Z) : M bool :=
  valid ← _initTextBufferBoundaries;
  if (valid : bool) then
    update (Sixel._initRasterAttributes macroParameter backgroundSelect);;
    with_image (Sixel._initColorMap backgroundColor);;
    _initImageBuffer;;
    update (Sixel.set_state Sixel.Normal);;
    update (Sixel.set_parameters []);;
    mret true
  else mret false.

(** The handler: an exception ends the image. *)
Definition image_character (lastCharacter : bool) (ch : wchar) : M bool := fun s =>
  match _parseCommandChar lastCharacter ch s with
  | (s, Returned tt) => (s, Returned true)
  | (s, Threw) => (s, Returned false)
  | (s, Undefined) => (s, Undefined)
  | (s, OutOfFuel) => (s, OutOfFuel)
  end.
End Sixels.
