(* ===== verification/AdaptShell.v ===== *)
(** * The dispatcher as an implementation of the interface

    The commands of shells and other terminals of src/terminal/adapter/adaptDispatch.cpp, the
    images and fonts that control strings define, and [AdaptDispatch] with all of its
    parts as an instance of [TermDispatch]. *)

From stdpp Require Import list gmap.
From S2P Require Import Prelude Til Utils VtTypes StateMachine TermDispatch TextAttributes Graphics CodepointWidth CodepointWidthProps Geometry Row RowWrite Cursor TextBuffer MacroBuffer Charsets TerminalOutput TerminalInput RenderSettings Pages BufferMarks Cells FontBuffer AdaptDispatch AdaptScreen AdaptAreas AdaptModes AdaptReports SixelParser.

(** [til::is_legal_path]: the characters that [pathFilter] marks with [_P]. *)
Definition path_illegal : list Z := [0x22; 0x2A; 0x3C; 0x3E; 0x3F; 0x7C].
Definition is_legal_path (str : wstring) : bool := negb (existsb (fun ch => existsb (Z.eqb ch) path_illegal) str).

(** [til::split_iterator]: the next part, and what remains. *)
Definition split_next (str : wstring) (needle : wchar) : wstring * wstring := match split_at needle str with Some parts => parts | None => (str, []) end.

Section Shell.
Context {A D : Type} `{Measurement D} `{!ITerminalApi A D}.
Variable P : Platform.
(** Features of the build, and [PathCreateFromUrlW] of Windows. *)
Variable Feature_ScrollbarMarks Feature_ShellCompletions : bool.
Variable PathCreateFromUrl : wstring -> option wstring.
Local Abbreviation M := (comp (AdaptDispatch A D MacroCallback)).
Local Abbreviation active_page := (active_page P).

Definition on_marks {X} (m : comp (TextBuffer D) X) : M unit := page ← active_page; on_page page m;; api api_NotifyShellIntegrationMark.
Definition start_prompt : M unit := on_marks (TextBuffer_StartPrompt (avx2 P) (uninitialised P) (rowSize P)).
Definition start_command : M unit := on_marks (StartCommand (avx2 P) (uninitialised P) (rowSize P)).
Definition start_output : M unit := on_marks (StartOutput (avx2 P) (uninitialised P) (rowSize P)).

Definition SetCurrentWorkingDirectory (uri : wstring) : M unit :=
  match PathCreateFromUrl uri with
  | Some path => if is_legal_path path then api (api_SetWorkingDirectory path) else mret tt
  | None => throw
  end.

(** The number of a part; an empty or missing part is 0, anything else ends the command. *)
Definition optional_uint (part : option wstring) : option Z := match part with None | Some [] => Some 0 | Some p => StringToUint p end.
Definition unquoted (path : wstring) : wstring :=
  if (3 <=? length path)%nat && bool_decide (head path = Some 0x22) && bool_decide (last path = Some 0x22) then take (length path - 2) (drop 1 path) else path.

Definition DoConEmuAction (string : wstring) : M unit :=
  let parts := SplitString string 0x3B in
  match parts !! 0%nat ≫= StringToUint with
  | None => mret tt
  | Some subParam =>
    if subParam =? 4 then
      match optional_uint (parts !! 1%nat), optional_uint (parts !! 2%nat) with
      | Some state, Some progress => if 4 <? state then mret tt else api (api_SetTaskbarProgress state (Z.min progress 100))
      | _, _ => mret tt
      end
    else if subParam =? 9 then
      match parts !! 1%nat with
      | Some path => let path := unquoted path in if is_legal_path path then api (api_SetWorkingDirectory path) else mret tt
      | None => mret tt
      end
    else if subParam =? 12 then start_command
    else UnknownSequence
  end.

Definition DoITerm2Action (string : wstring) : M unit :=
  if negb Feature_ScrollbarMarks then mret tt
  else match SplitString string 0x3B with
  | [] => mret tt
  | action :: _ => if bool_decide (action = wide "SetMark") then start_prompt else UnknownSequence
  end.

Definition end_command_of (parts : list wstring) : M unit :=
  let error := match parts !! 1%nat with Some errorString => Some (default (2 ^ 32 - 1) (StringToUint errorString)) | None => None end in
  on_marks (EndCurrentCommand (avx2 P) (uninitialised P) (rowSize P) error).
Definition DoFinalTermAction (string : wstring) : M unit :=
  if negb Feature_ScrollbarMarks then mret tt
  else
    let parts := SplitString string 0x3B in
    match parts with
    | [] => mret tt
    | [ch] :: _ => switch ch [(0x41, start_prompt); (0x42, start_command); (0x43, start_output); (0x44, end_command_of parts)] UnknownSequence
    | _ => UnknownSequence
    end.

(** The parts in front of the completions; they are followed by semicolons. *)
Definition DoVsCodeAction (string : wstring) : M unit :=
  if negb Feature_ShellCompletions then mret tt
  else
    let parts := SplitString string 0x3B in
    match parts with
    | [] => mret tt
    | action :: _ =>
      if bool_decide (action = wide "Completions") then
        match parts !! 1%nat ≫= StringToUint, parts !! 2%nat ≫= StringToUint, parts !! 3%nat ≫= StringToUint with
        | Some _, Some replacementLength, Some _ =>
          let prefixLength := (list_sum (map length (take 4 parts)) + 4)%nat in
          if (length string <? prefixLength)%nat then mret tt
          else api (api_InvokeCompletions (if (length parts <? 5)%nat then [] else drop prefixLength string) replacementLength)
        | _, _, _ => mret tt
        end
      else UnknownSequence
    end.

Definition DoWTAction (string : wstring) : M unit :=
  let parts := SplitString string 0x3B in
  match parts with
  | [] => mret tt
  | action :: _ =>
    if bool_decide (action = wide "CmdNotFound") then match parts !! 1%nat with Some missingCmd => api (api_SearchMissingCommand missingCmd) | None => mret tt end
    else if bool_decide (action = wide "ShellType") then api (api_SetShellType (default [] (parts !! 1%nat)) (default [] (parts !! 2%nat)))
    else mret tt
  end.

Definition DoUrxvtAction (string : wstring) : M unit :=
  features ← gets _optionalFeatures;
  if negb (enumset.test features OptionalFeature.DesktopNotification) then mret tt
  else match SplitString string 0x3B with
  | [] => mret tt
  | _ =>
    let '(action, rest) := split_next string 0x3B in
    if bool_decide (action = wide "notify") then let '(title, body) := split_next rest 0x3B in api (api_ShowNotification title body) else UnknownSequence
  end.

(** ** The interface *)

Variable graphemes : D -> bool.
Variable ColorToHLS : Z -> Z * Z * Z.
Variable ColorFromHLS : Z -> Z -> Z -> Z.
Variable Feature_VtChecksumReport : bool.

Definition adapt_invoke (call : ITermDispatch.Call) (ansi : bool) : M unit :=
  match call with
  | ITermDispatch.Print wchPrintable => Print P wchPrintable
  | ITermDispatch.PrintString string => PrintString P string
  | ITermDispatch.CursorUp distance => CursorUp P distance
  | ITermDispatch.CursorDown distance => CursorDown P distance
  | ITermDispatch.CursorForward distance => CursorForward P distance
  | ITermDispatch.CursorBackward distance => CursorBackward P distance
  | ITermDispatch.CursorNextLine distance => CursorNextLine P distance
  | ITermDispatch.CursorPrevLine distance => CursorPrevLine P distance
  | ITermDispatch.CursorHorizontalPositionAbsolute column => CursorHorizontalPositionAbsolute P column
  | ITermDispatch.VerticalLinePositionAbsolute line => VerticalLinePositionAbsolute P line
  | ITermDispatch.HorizontalPositionRelative distance => HorizontalPositionRelative P distance
  | ITermDispatch.VerticalPositionRelative distance => VerticalPositionRelative P distance
  | ITermDispatch.CursorPosition line column => CursorPosition P line column
  | ITermDispatch.CursorSaveState => CursorSaveState P
  | ITermDispatch.CursorRestoreState => CursorRestoreState P
  | ITermDispatch.InsertCharacter count => InsertCharacter P count
  | ITermDispatch.DeleteCharacter count => DeleteCharacter P count
  | ITermDispatch.ScrollUp distance => ScrollUp P distance
  | ITermDispatch.ScrollDown distance => ScrollDown P distance
  | ITermDispatch.NextPage pageCount => NextPage P pageCount
  | ITermDispatch.PrecedingPage pageCount => PrecedingPage P pageCount
  | ITermDispatch.PagePositionAbsolute page => PagePositionAbsolute P page
  | ITermDispatch.PagePositionRelative pageCount => PagePositionRelative P pageCount
  | ITermDispatch.PagePositionBack pageCount => PagePositionBack P pageCount
  | ITermDispatch.RequestDisplayedExtent => RequestDisplayedExtent P
  | ITermDispatch.InsertLine distance => InsertLine P distance
  | ITermDispatch.DeleteLine distance => DeleteLine P distance
  | ITermDispatch.InsertColumn distance => InsertColumn P distance
  | ITermDispatch.DeleteColumn distance => DeleteColumn P distance
  | ITermDispatch.SetKeypadMode applicationMode => SetKeypadMode applicationMode
  | ITermDispatch.SetAnsiMode ansiMode => SetAnsiMode ansiMode
  | ITermDispatch.SetKittyKeyboardProtocol flags mode => SetKittyKeyboardProtocol flags mode
  | ITermDispatch.QueryKittyKeyboardProtocol => QueryKittyKeyboardProtocol
  | ITermDispatch.PushKittyKeyboardProtocol flags => PushKittyKeyboardProtocol flags
  | ITermDispatch.PopKittyKeyboardProtocol count => PopKittyKeyboardProtocol count
  | ITermDispatch.SetTopBottomScrollingMargins topMargin bottomMargin => SetTopBottomScrollingMargins P topMargin bottomMargin
  | ITermDispatch.SetLeftRightScrollingMargins leftMargin rightMargin => SetLeftRightScrollingMargins P leftMargin rightMargin
  | ITermDispatch.EnquireAnswerback => EnquireAnswerback
  | ITermDispatch.WarningBell => WarningBell
  | ITermDispatch.CarriageReturn => CarriageReturn P
  | ITermDispatch.LineFeed lineFeedType => LineFeed P lineFeedType
  | ITermDispatch.ReverseLineFeed => ReverseLineFeed P
  | ITermDispatch.BackIndex => BackIndex P
  | ITermDispatch.ForwardIndex => ForwardIndex P
  | ITermDispatch.SetWindowTitle title => SetWindowTitle title
  | ITermDispatch.SetCurrentWorkingDirectory uri => SetCurrentWorkingDirectory uri
  | ITermDispatch.HorizontalTabSet => HorizontalTabSet P
  | ITermDispatch.ForwardTab numTabs => ForwardTab P numTabs
  | ITermDispatch.BackwardsTab numTabs => BackwardsTab P numTabs
  | ITermDispatch.TabClear clearType => TabClear P clearType
  | ITermDispatch.TabSet setType => TabSet setType
  | ITermDispatch.SetColorTableEntry tableIndex color => SetColorTableEntry tableIndex color
  | ITermDispatch.RequestColorTableEntry tableIndex => RequestColorTableEntry tableIndex
  | ITermDispatch.ResetColorTable => ResetColorTable
  | ITermDispatch.ResetColorTableEntry tableIndex => ResetColorTableEntry tableIndex
  | ITermDispatch.SetXtermColorResource resource color => SetXtermColorResource resource color
  | ITermDispatch.RequestXtermColorResource resource => RequestXtermColorResource resource
  | ITermDispatch.ResetXtermColorResource resource => ResetXtermColorResource resource
  | ITermDispatch.AssignColor item fgIndex bgIndex => AssignColor item fgIndex bgIndex
  | ITermDispatch.EraseInDisplay eraseType => EraseInDisplay P eraseType
  | ITermDispatch.EraseInLine eraseType => EraseInLine P eraseType
  | ITermDispatch.EraseCharacters numChars => EraseCharacters P numChars
  | ITermDispatch.SelectiveEraseInDisplay eraseType => SelectiveEraseInDisplay P eraseType
  | ITermDispatch.SelectiveEraseInLine eraseType => SelectiveEraseInLine P eraseType
  | ITermDispatch.ChangeAttributesRectangularArea top l bottom r attrs => ChangeAttributesRectangularArea P top l bottom r attrs
  | ITermDispatch.ReverseAttributesRectangularArea top l bottom r attrs => ReverseAttributesRectangularArea P top l bottom r attrs
  | ITermDispatch.CopyRectangularArea top l bottom r page dstTop dstLeft dstPage => CopyRectangularArea P top l bottom r page dstTop dstLeft dstPage
  | ITermDispatch.FillRectangularArea ch top l bottom r => FillRectangularArea P ch top l bottom r
  | ITermDispatch.EraseRectangularArea top l bottom r => EraseRectangularArea P top l bottom r
  | ITermDispatch.SelectiveEraseRectangularArea top l bottom r => SelectiveEraseRectangularArea P top l bottom r
  | ITermDispatch.SelectAttributeChangeExtent changeExtent => SelectAttributeChangeExtent changeExtent
  | ITermDispatch.RequestChecksumRectangularArea id page top l bottom r => RequestChecksumRectangularArea P Feature_VtChecksumReport id page top l bottom r
  | ITermDispatch.SetGraphicsRendition options => SetGraphicsRendition P options
  | ITermDispatch.SetLineRendition rendition => SetLineRendition P rendition
  | ITermDispatch.SetCharacterProtectionAttribute options => SetCharacterProtectionAttribute P options
  | ITermDispatch.PushGraphicsRendition options => PushGraphicsRendition P options
  | ITermDispatch.PopGraphicsRendition => PopGraphicsRendition P
  | ITermDispatch.SetMode param => SetMode P param
  | ITermDispatch.ResetMode param => ResetMode P param
  | ITermDispatch.RequestMode param => RequestMode P graphemes param ansi
  | ITermDispatch.DeviceStatusReport statusType id => DeviceStatusReport P statusType id
  | ITermDispatch.DeviceAttributes => DeviceAttributes
  | ITermDispatch.SecondaryDeviceAttributes => SecondaryDeviceAttributes
  | ITermDispatch.TertiaryDeviceAttributes => TertiaryDeviceAttributes
  | ITermDispatch.Vt52DeviceAttributes => Vt52DeviceAttributes
  | ITermDispatch.RequestTerminalParameters permission => RequestTerminalParameters permission
  | ITermDispatch.DesignateCodingSystem codingSystem => DesignateCodingSystem codingSystem
  | ITermDispatch.Designate94Charset gsetNumber charset => Designate94Charset gsetNumber charset
  | ITermDispatch.Designate96Charset gsetNumber charset => Designate96Charset gsetNumber charset
  | ITermDispatch.LockingShift gsetNumber => LockingShift gsetNumber
  | ITermDispatch.LockingShiftRight gsetNumber => LockingShiftRight gsetNumber
  | ITermDispatch.SingleShift gsetNumber => SingleShift gsetNumber
  | ITermDispatch.AcceptC1Controls enabled => AcceptC1Controls enabled
  | ITermDispatch.SendC1Controls enabled => SendC1Controls enabled
  | ITermDispatch.AnnounceCodeStructure ansiLevel => AnnounceCodeStructure ansiLevel
  | ITermDispatch.SoftReset => SoftReset P
  | ITermDispatch.HardReset erase => HardReset P erase
  | ITermDispatch.ScreenAlignmentPattern => ScreenAlignmentPattern P
  | ITermDispatch.SetCursorStyle cursorStyle => SetCursorStyle P cursorStyle
  | ITermDispatch.SetClipboard content => SetClipboard content
  | ITermDispatch.WindowManipulation function parameter1 parameter2 => WindowManipulation P function parameter1 parameter2
  | ITermDispatch.AddHyperlink uri params => AddHyperlink P uri params
  | ITermDispatch.EndHyperlink => EndHyperlink P
  | ITermDispatch.DoConEmuAction string => DoConEmuAction string
  | ITermDispatch.DoITerm2Action string => DoITerm2Action string
  | ITermDispatch.DoFinalTermAction string => DoFinalTermAction string
  | ITermDispatch.DoVsCodeAction string => DoVsCodeAction string
  | ITermDispatch.DoWTAction string => DoWTAction string
  | ITermDispatch.DoUrxvtAction string => DoUrxvtAction string
  | ITermDispatch.RequestUserPreferenceCharset => RequestUserPreferenceCharset
  | ITermDispatch.InvokeMacro macroId => InvokeMacro macroId
  | ITermDispatch.RequestTerminalStateReport format formatOption => RequestTerminalStateReport ColorToHLS format formatOption
  | ITermDispatch.RequestPresentationStateReport format => RequestPresentationStateReport P format
  | ITermDispatch.PlaySounds parameters => PlaySounds parameters
  | ITermDispatch.SetOptionalFeatures features => SetOptionalFeatures features
  | ITermDispatch.NotifyVtSequence sequence => NotifyVtSequence sequence
  end.

(** Callbacks: the macro is invoked in the buffer that was current when it was asked for. *)
Definition adapt_callbackBegin (cb : MacroCallback) (s : AdaptDispatch A D MacroCallback) : AdaptDispatch A D MacroCallback * option wstring :=
  match _macroBuffers s !! callback_buffer cb with
  | Some b => let '(b, string) := InvokeMacro_begin (size_bits P) (callback_macroId cb) b in (set_macroBuffer (_macroBuffer s) (<[callback_buffer cb := b]> (_macroBuffers s)) s, string)
  | None => (s, None)
  end.
Definition adapt_callbackEnd (cb : MacroCallback) (s : AdaptDispatch A D MacroCallback) : AdaptDispatch A D MacroCallback :=
  set_macroBuffer (_macroBuffer s) (alter (InvokeMacro_end (size_bits P)) (callback_buffer cb) (_macroBuffers s)) s.

(** ** Images and fonts

    The dispatcher with the sixel parser and the font buffer, which are created on demand.
    A font buffer is built in [font_memory]. [whole_undefined]: the behaviour of the
    program was undefined at some point; nothing is said about what follows. *)
Variable clock : nat -> Z.
Variable font_memory : Font.t.

Record Whole := mkWhole {
  whole_adapt : AdaptDispatch A D MacroCallback;
  whole_sixel : option Sixel.t;
  whole_font : option Font.t;
  whole_readings : nat;
  whole_undefined : bool
}.
Definition new_Whole (s : AdaptDispatch A D MacroCallback) : Whole := mkWhole s None None 0 false.

Local Abbreviation W := (comp Whole).
Definition on_adapt {X} (m : M X) : W X := fun w => let '(s, o) := m (whole_adapt w) in (mkWhole s (whole_sixel w) (whole_font w) (whole_readings w) (whole_undefined w), o).
Definition set_sixel (p : option Sixel.t) (w : Whole) : Whole := mkWhole (whole_adapt w) p (whole_font w) (whole_readings w) (whole_undefined w).
Definition set_font (f : option Font.t) (w : Whole) : Whole := mkWhole (whole_adapt w) (whole_sixel w) f (whole_readings w) (whole_undefined w).
Definition on_sixel {X} (m : comp SixelState X) : W X := fun w =>
  match whole_sixel w with
  | Some p => let '(s, o) := m (mkSixelState p (whole_adapt w) (whole_readings w)) in (mkWhole (adapt s) (Some (parser s)) (whole_font w) (readings s) (whole_undefined w), o)
  | None => (w, Undefined)
  end.
Definition on_font {X} (m : comp Font.t X) : W X := fun w =>
  match whole_font w with
  | Some f => let '(f, o) := m f in (set_font (Some f) w, o)
  | None => (w, Undefined)
  end.

(** What captures nothing refers to the members of the dispatcher. *)
Inductive WholeHandler :=
| ReportHandler (h : StringHandler)
| SixelHandler
| FontHandler (charsetSize : Z).

Definition DefineSixelImage (macroParameter backgroundSelect backgroundColor : Z) : W (option WholeHandler) :=
  modify (fun w => match whole_sixel w with
    | Some _ => w
    | None => set_sixel (Some (Sixel.SetDisplayMode (mode AdaptMode.SixelDisplay (whole_adapt w)) (Sixel.new_SixelParser Sixel.DefaultConformance))) w
    end);;
  valid ← on_sixel (DefineImage P clock macroParameter backgroundSelect backgroundColor);
  mret (if valid : bool then Some SixelHandler else None).

Definition DownloadDRCS (fontNumber startChar eraseControl cellMatrix fontSet fontUsage cellHeight charsetSize : Z) : W (option WholeHandler) :=
  modify (fun w => match whole_font w with Some _ => w | None => set_font (Some (Font.new_FontBuffer font_memory)) w end);;
  success ← on_font (Font.drcs_parameters (Font.mkDrcs fontNumber startChar eraseControl cellMatrix fontSet fontUsage cellHeight charsetSize));
  mret (if success : bool then Some (FontHandler charsetSize) else None).

Definition font_character (charsetSize : Z) (ch : wchar) : W bool :=
  if negb (ch =? 0x1B) then on_font (Font.drcs_character ch)
  else
    finished ← on_font (Font.FinalizeSixelData (size_bits P));
    (if finished : bool then
       id ← on_font (gets Font.GetDesignation);
       on_adapt (charsets (if charsetSize =? CharsetSize.Size96 then SetDrcs96Designation id else SetDrcs94Designation id))
     else mret tt);;
    mret true.

(** ** The interface *)

(** The methods that concern the images and fonts too. *)
Definition whole_invoke (call : ITermDispatch.Call) (ansi : bool) : W unit :=
  match call with
  | ITermDispatch.SetMode param | ITermDispatch.ResetMode param =>
    on_adapt (adapt_invoke call ansi);;
    if param =? ModeParams.DECSDM_SixelDisplayMode
    then modify (fun w => set_sixel (Sixel.SetDisplayMode (mode AdaptMode.SixelDisplay (whole_adapt w)) <$> whole_sixel w) w) else mret tt
  | ITermDispatch.SoftReset =>
    on_adapt (adapt_invoke call ansi);;
    w ← gets id;
    match whole_sixel w with Some _ => on_sixel SixelParser_SoftReset | None => mret tt end
  | ITermDispatch.HardReset _ => modify (set_sixel None);; on_adapt (adapt_invoke call ansi);; modify (set_font None)
  | _ => on_adapt (adapt_invoke call ansi)
  end.

Definition on_report (m : M (option StringHandler)) : W (option WholeHandler) := h ← on_adapt m; mret (ReportHandler <$> h).
Definition whole_invokeString (call : ITermDispatch.StringCall) : W (option WholeHandler) :=
  match call with
  | ITermDispatch.DefineSixelImage macroParameter backgroundSelect backgroundColor => DefineSixelImage macroParameter backgroundSelect backgroundColor
  | ITermDispatch.DownloadDRCS fontNumber startChar eraseControl cellMatrix fontSet fontUsage cellHeight charsetSize =>
    DownloadDRCS fontNumber startChar eraseControl cellMatrix fontSet fontUsage cellHeight charsetSize
  | ITermDispatch.AssignUserPreferenceCharset charsetSize => on_report (AssignUserPreferenceCharset_handler charsetSize)
  | ITermDispatch.DefineMacro macroId deleteControl encoding => on_report (DefineMacro P macroId deleteControl encoding)
  | ITermDispatch.RestoreTerminalState format => on_report (RestoreTerminalState format)
  | ITermDispatch.RequestSetting => on_report RequestSetting
  | ITermDispatch.RestorePresentationState format => on_report (RestorePresentationState P format)
  end.

Definition whole_handler (h : WholeHandler) (ch : wchar) (lastCharacter : bool) : W (WholeHandler * bool) :=
  match h with
  | ReportHandler h => '(h, more) ← on_adapt (call_handler P ColorFromHLS h ch); mret (ReportHandler h, more)
  | SixelHandler => more ← on_sixel (image_character P clock ColorFromHLS lastCharacter ch); mret (SixelHandler, more)
  | FontHandler charsetSize => more ← font_character charsetSize ch; mret (FontHandler charsetSize, more)
  end.

(** A method as the state machine sees it: what it asks of the parser, and whether it
    threw. *)
Definition replies {X} (m : W X) (w : Whole) : Reply Whole MacroCallback X :=
  if whole_undefined w then mkReply w [] None
  else
    let '(w, o) := m (mkWhole (set_requests [] (whole_adapt w)) (whole_sixel w) (whole_font w) (whole_readings w) false) in
    match o with
    | Returned x => mkReply w (_requests (whole_adapt w)) (Some x)
    | Threw => mkReply w (_requests (whole_adapt w)) None
    | Undefined | OutOfFuel => mkReply (mkWhole (whole_adapt w) (whole_sixel w) (whole_font w) (whole_readings w) true) [] None
    end.

Definition whole_call (h : WholeHandler) (ch : wchar) (v : View) (w : Whole) : WholeHandler * Reply Whole MacroCallback bool :=
  let r := replies (whole_handler h ch (view_lastCharacter v)) w in
  (match reply_value r with Some (h, _) => h | None => h end, mkReply (reply_engine r) (reply_requests r) (snd <$> reply_value r)).

#[global] Instance AdaptDispatch_TermDispatch : TermDispatch Whole WholeHandler MacroCallback := {
  unknownSequence := fun w => (on_adapt UnknownSequence w).1;
  invoke := fun call v => replies (whole_invoke call (view_Ansi v));
  invokeString := fun call _ => replies (whole_invokeString call);
  callHandler := whole_call;
  callbackBegin := fun cb w => let '(s, string) := adapt_callbackBegin cb (whole_adapt w) in (mkWhole s (whole_sixel w) (whole_font w) (whole_readings w) (whole_undefined w), string);
  callbackEnd := fun cb w => mkWhole (adapt_callbackEnd cb (whole_adapt w)) (whole_sixel w) (whole_font w) (whole_readings w) (whole_undefined w);
}.
End Shell.
