(* ===== verification/AdaptProps.v ===== *)
(** * Theorems about the dispatcher: cursor, margins and reports

    The dispatcher runs over any terminal that keeps the promises of its interface,
    [ITerminalApiLaws]. What it does to the active page is stated about the buffer it
    sees, and about everything else that can be observed. *)

From stdpp Require Import list gmap.
From S2P Require Import Prelude Til Utils VtTypes StateMachine TermDispatch TextAttributes Graphics Rle CodepointWidth CodepointWidthProps Geometry Row RowWrite RowProps RowInvariant Cursor TextBuffer TextBufferProps MacroBuffer Charsets TerminalOutput TerminalInput RenderSettings Pages AdaptDispatch AdaptScreen AdaptAreas AdaptModes AdaptReports.

(** ** Computations that return *)

Definition returns {S X} (m : comp S X) (s : S) (Q : S -> X -> Prop) : Prop := exists s' x, m s = (s', Returned x) /\ Q s' x.

Lemma returns_bind {S X Y} (m : comp S X) (k : X -> comp S Y) s Q : returns m s (fun s' x => returns (k x) s' Q) -> returns (x ← m; k x) s Q.
Proof. intros (s1 & x & E & s2 & y & E2 & HQ). exists s2, y. split; [|done]. unfold mbind, comp_bind. by rewrite E. Qed.

Lemma returns_then {S X Y} (m : comp S X) (k : comp S Y) s Q : returns m s (fun s' _ => returns k s' Q) -> returns (m;; k) s Q.
Proof. apply returns_bind. Qed.

Lemma returns_ret {S X} (x : X) (s : S) (Q : S -> X -> Prop) : Q s x -> returns (mret x) s Q.
Proof. intros. by exists s, x. Qed.

Lemma returns_gets {S X} (f : S -> X) (s : S) (Q : S -> X -> Prop) : Q s (f s) -> returns (gets f) s Q.
Proof. intros. by exists s, (f s). Qed.

Lemma returns_modify {S} (f : S -> S) (s : S) (Q : S -> unit -> Prop) : Q (f s) tt -> returns (modify f) s Q.
Proof. intros. by exists (f s), tt. Qed.

Lemma returns_mono {S X} (m : comp S X) s (Q R : S -> X -> Prop) : returns m s Q -> (forall s' x, Q s' x -> R s' x) -> returns m s R.
Proof. intros (s' & x & E & HQ) HR. exists s', x. auto. Qed.

Ltac step := first [apply returns_bind | apply returns_ret | apply returns_gets | apply returns_modify].

(** ** The promises of the terminal *)

Section View.
Context {A D : Type} `{ITerminalApi A D}.
(** What can be observed of the terminal besides its visible buffer and its modes. *)
Definition view (responses : A -> list wstring) (a : A) :=
  (visibleViewport a, isMainBuffer a, terminalInput a, renderSettings a, s_lastMutationIdInitialValue (process a), responses a).
End View.

Class ITerminalApiLaws (A D : Type) `{ITerminalApi A D} := {
  responses : A -> list wstring;
  put_buffer_law b a : visibleBuffer (put_visibleBuffer b a) = b /\ process (put_visibleBuffer b a) = process a /\ view responses (put_visibleBuffer b a) = view responses a /\
    forall m, api_GetSystemMode m (put_visibleBuffer b a) = api_GetSystemMode m a;
  put_process_law p a : visibleBuffer (put_process p a) = visibleBuffer a /\ process (put_process p a) = p /\
    (s_lastMutationIdInitialValue p = s_lastMutationIdInitialValue (process a) -> view responses (put_process p a) = view responses a) /\
    forall m, api_GetSystemMode m (put_process p a) = api_GetSystemMode m a;
  put_input_law i a : visibleBuffer (put_terminalInput i a) = visibleBuffer a /\ process (put_terminalInput i a) = process a /\
    view responses (put_terminalInput i a) = (visibleViewport a, isMainBuffer a, i, renderSettings a, s_lastMutationIdInitialValue (process a), responses a) /\
    forall m, api_GetSystemMode m (put_terminalInput i a) = api_GetSystemMode m a;
  put_render_law r a : visibleBuffer (put_renderSettings r a) = visibleBuffer a /\ process (put_renderSettings r a) = process a /\
    view responses (put_renderSettings r a) = (visibleViewport a, isMainBuffer a, terminalInput a, r, s_lastMutationIdInitialValue (process a), responses a) /\
    forall m, api_GetSystemMode m (put_renderSettings r a) = api_GetSystemMode m a;
  ReturnResponse_law response a : response <> [] -> returns (api_ReturnResponse response) a (fun a' _ =>
    visibleBuffer a' = visibleBuffer a /\ process a' = process a /\
    view responses a' = (visibleViewport a, isMainBuffer a, terminalInput a, renderSettings a, s_lastMutationIdInitialValue (process a), responses a ++ [response]) /\
    forall m, api_GetSystemMode m a' = api_GetSystemMode m a);
  SetSystemMode_law m enabled a : m ∈ [SystemMode.AutoWrap; SystemMode.LineFeed; SystemMode.BracketedPaste] -> returns (api_SetSystemMode m enabled) a (fun a' _ =>
    visibleBuffer a' = visibleBuffer a /\ process a' = process a /\ view responses a' = view responses a /\
    forall m', m' ∈ [SystemMode.AutoWrap; SystemMode.LineFeed; SystemMode.BracketedPaste] -> api_GetSystemMode m' a' = if m' =? m then enabled else api_GetSystemMode m' a);
  SetViewportPosition_law p a : isMainBuffer a = true -> returns (api_SetViewportPosition p) a (fun a' _ =>
    visibleBuffer a' = visibleBuffer a /\ process a' = process a /\
    let v := visibleViewport a in
    let b := visibleBuffer a in
    let x := clamp (point.x p) 0 (_width b - (rect.right v - rect.left v)) in
    let y := clamp (point.y p) 0 (_height b - (rect.bottom v - rect.top v)) in
    view responses a' = (rect.mk x y (x + (rect.right v - rect.left v)) (y + (rect.bottom v - rect.top v)), true, terminalInput a, renderSettings a, s_lastMutationIdInitialValue (process a), responses a) /\
    forall m, api_GetSystemMode m a' = api_GetSystemMode m a);
  NotifyBufferRotation_law delta a : returns (api_NotifyBufferRotation delta) a (fun a' _ =>
    visibleBuffer a' = visibleBuffer a /\ process a' = process a /\ view responses a' = view responses a /\ forall m, api_GetSystemMode m a' = api_GetSystemMode m a)
}.

(** ** Margins *)

Definition vertical_margins (height : Z) (m : inclusive_rect.t) : Z * Z :=
  if (inclusive_rect.top m <? height - 1) && (inclusive_rect.top m <? inclusive_rect.bottom m) then (inclusive_rect.top m, Z.min (inclusive_rect.bottom m) (height - 1)) else (0, height - 1).
Definition horizontal_margins (width : Z) (m : inclusive_rect.t) : Z * Z :=
  if (inclusive_rect.left m <? width - 1) && (inclusive_rect.left m <? inclusive_rect.right m) then (inclusive_rect.left m, Z.min (inclusive_rect.right m) (width - 1)) else (0, width - 1).
Definition margins_sane (m : inclusive_rect.t) : Prop := 0 <= inclusive_rect.top m /\ 0 <= inclusive_rect.left m.

Lemma vertical_margins_bounds height m : margins_sane m -> 0 < height -> 0 <= (vertical_margins height m).1 <= (vertical_margins height m).2 /\ (vertical_margins height m).2 < height.
Proof. intros [Ht Hl] Hh. unfold vertical_margins. repeat case_match; cbn; try lia; rewrite ?andb_true_iff, ?Z.ltb_lt in *; lia. Qed.

Lemma horizontal_margins_bounds width m : margins_sane m -> 0 < width -> 0 <= (horizontal_margins width m).1 <= (horizontal_margins width m).2 /\ (horizontal_margins width m).2 < width.
Proof. intros [Ht Hl] Hh. unfold horizontal_margins. repeat case_match; cbn; try lia; rewrite ?andb_true_iff, ?Z.ltb_lt in *; lia. Qed.

Section Dispatch.
Context {A D CB : Type} `{MeasurementLaws D} `{!ITerminalApi A D} `{!ITerminalApiLaws A D}.
Variable P : Platform.
Implicit Types (s : AdaptDispatch A D CB) (page : Page) (b : TextBuffer D).
Local Abbreviation lines := (lines (avx2 P) (uninitialised P) (rowSize P)).
Local Abbreviation line := (line (avx2 P) (uninitialised P) (rowSize P)).

Definition terminal s : A := _api (_pages s).
(** The visible buffer as its methods see it. *)
Definition buffer s : TextBuffer D := attached (process (terminal s)) (visibleBuffer (terminal s)).
Definition cursor s : point.t := Cursor._cPosition (_cursor (buffer s)).
Definition viewport s : rect.t := visibleViewport (terminal s).

(** Everything but the visible buffer and the margins. *)
Record same_rest s s' : Prop := {
  rest_view : view responses (terminal s') = view responses (terminal s);
  rest_modes : forall m, api_GetSystemMode m (terminal s') = api_GetSystemMode m (terminal s);
  rest_pages : (_activePageNumber (_pages s'), _visiblePageNumber (_pages s'), _buffers (_pages s')) = (_activePageNumber (_pages s), _visiblePageNumber (_pages s), _buffers (_pages s));
  rest_own : (_requests s', _tabStopColumns s', _initDefaultTabStops s', _termOutput s', _macroBuffer s', _macroBuffers s', _optionalFeatures s', _savedCursorState s', _usingAltBuffer s', _modes s', _stack s') =
             (_requests s, _tabStopColumns s, _initDefaultTabStops s, _termOutput s, _macroBuffer s, _macroBuffers s, _optionalFeatures s, _savedCursorState s, _usingAltBuffer s, _modes s, _stack s)
}.
#[global] Instance same_rest_preorder : PreOrder same_rest.
Proof. split; [by split|]. intros s1 s2 s3 [V1 M1 P1 O1] [V2 M2 P2 O2]. split; [congruence| |congruence|congruence]. intros m. by rewrite M2. Qed.

(** The active page is the visible one, which the alternate screen always is. *)
Definition on_visible s : Prop :=
  isMainBuffer (terminal s) = false \/ (_activePageNumber (_pages s) = _visiblePageNumber (_pages s) /\ 1 <= _visiblePageNumber (_pages s) <= MAX_PAGES).
Definition page_of s : Page := mkPage None (viewport s) (if isMainBuffer (terminal s) then _visiblePageNumber (_pages s) else 1).

Record page_ready s : Prop := {
  ready_visible : on_visible s;
  ready_buffer : good_buffer (buffer s);
  ready_viewport : 0 <= rect.top (viewport s) < rect.bottom (viewport s) /\ rect.bottom (viewport s) <= _height (buffer s);
  ready_columns : 0 <= rect.left (viewport s) < rect.right (viewport s) /\ rect.right (viewport s) <= _width (buffer s);
  ready_width : 2 <= _width (buffer s);
  ready_margins : margins_sane (_scrollMargins s)
}.

(** ** The rules of the parts *)

Lemma active_page_rule s (Q : _ -> _ -> Prop) : on_visible s -> Q s (page_of s) -> returns (active_page P) s Q.
Proof.
  intros Hv HQ. exists s, (page_of s). split; [|done]. unfold active_page, with_pages, ActivePage, Get, page_of, viewport. unfold mbind, comp_bind, gets, mret, comp_ret. cbn.
  unfold on_visible, terminal in *. destruct Hv as [Hv|[Hv Hr]]; [rewrite Hv; cbn; by destruct s|].
  destruct (isMainBuffer _); cbn; [|by destruct s]. rewrite Hv, (Z.max_l _ 1), Z.min_l, Z.eqb_refl by lia. by destruct s.
Qed.

Definition put_terminal (a : A) s : AdaptDispatch A D CB := set_pages (set_api a (_pages s)) s.

Lemma on_page_rule {X} page (m : comp (TextBuffer D) X) s (Q : _ -> _ -> Prop) : page_ref page = None ->
  returns m (buffer s) (fun b x => forall s', same_rest s s' -> buffer s' = b -> _scrollMargins s' = _scrollMargins s -> Q s' x) -> returns (on_page page m) s Q.
Proof.
  intros Hp (b & x & E & HQ). set (p := process (terminal s)). set (a1 := put_visibleBuffer b (terminal s)). set (a2 := put_process (mkProcess (_detector b) (_allocations b) (s_lastMutationIdInitialValue p)) a1).
  exists (put_terminal a2 s), x. split.
  - unfold on_page, with_pages, on_buffer, buffer_of. rewrite Hp. fold (terminal s). unfold buffer in E. rewrite E. done.
  - destruct (put_buffer_law b (terminal s)) as (B1 & B2 & B3 & B4). destruct (put_process_law (mkProcess (_detector b) (_allocations b) (s_lastMutationIdInitialValue p)) a1) as (P1 & P2 & P3 & P4).
    apply HQ; [split| |done]; try done.
    + cbn. rewrite <- B3. apply P3. unfold a1. by rewrite B2.
    + intros mode. cbn. fold a1 a2. unfold a2. by rewrite P4, <- B4.
    + unfold buffer. cbn. fold a1 a2. unfold a2. rewrite P2, P1. unfold a1. rewrite B1. unfold attached. cbn. by destruct b.
Qed.

Lemma read_page_rule {X} page (f : TextBuffer D -> X) s (Q : _ -> _ -> Prop) : page_ref page = None -> (forall d n, f (set_detector d n (visibleBuffer (terminal s))) = f (visibleBuffer (terminal s))) ->
  Q s (f (buffer s)) -> returns (read_page page f) s Q.
Proof.
  intros Hp Hf HQ. exists s, (f (buffer s)). split; [|done]. unfold read_page, with_pages, read_buffer, buffer_of. rewrite Hp. fold (terminal s). unfold buffer, attached. rewrite Hf. by destruct s as [[] ? ? ? ? ? ? ? ? ? ? ? ?].
Qed.

Lemma vertical_rule page (absolute : bool) s (Q : _ -> _ -> Prop) : margins_sane (_scrollMargins s) -> 0 < Page.Height page ->
  (forall s', same_rest s s' -> buffer s' = buffer s -> margins_sane (_scrollMargins s') -> (forall h, h <= Page.Height page -> vertical_margins h (_scrollMargins s') = vertical_margins h (_scrollMargins s)) ->
     (forall w, horizontal_margins w (_scrollMargins s') = horizontal_margins w (_scrollMargins s)) ->
     let '(t, bm) := vertical_margins (Page.Height page) (_scrollMargins s) in let o := if absolute then Page.Top page else 0 in Q s' (t + o, bm + o)) ->
  returns (_GetVerticalMargins page absolute) s Q.
Proof.
  intros [Ht Hl] Hh HQ. eexists _, _. split; [reflexivity|]. cbv zeta. destruct (_scrollMargins s) as [l t r bo] eqn:Em. cbn in Ht, Hl |- *.
  assert (Hs : forall m, same_rest s (set_scrollMargins m s)) by (by split). unfold vertical_margins in HQ. cbn in HQ.
  destruct (Z.leb_spec (Page.Height page - 1) t), (Z.ltb_spec t (Page.Height page - 1)); try lia; cbn in *.
  - rewrite Z.min_id. apply HQ; [done|done|split; cbn; lia| |done]. intros h Hle. destruct (Z.ltb_spec t (h - 1)); [lia|]. by rewrite andb_false_r.
  - destruct (t <? bo) eqn:Eb; rewrite ?Z.min_id; apply HQ; first [done|split; cbn; lia|intros; cbn; by rewrite Eb].
Qed.

Lemma horizontal_rule (w : Z) s (Q : _ -> _ -> Prop) : margins_sane (_scrollMargins s) -> 0 < w ->
  (forall s', same_rest s s' -> buffer s' = buffer s -> margins_sane (_scrollMargins s') -> (forall h, vertical_margins h (_scrollMargins s') = vertical_margins h (_scrollMargins s)) ->
     (forall w', w' <= w -> horizontal_margins w' (_scrollMargins s') = horizontal_margins w' (_scrollMargins s)) ->
     Q s' (horizontal_margins w (_scrollMargins s))) ->
  returns (_GetHorizontalMargins w) s Q.
Proof.
  intros [Ht Hl] Hh HQ. eexists _, _. split; [reflexivity|]. cbv zeta. destruct (_scrollMargins s) as [l t r bo] eqn:Em. cbn in Ht, Hl |- *.
  assert (Hs : forall m, same_rest s (set_scrollMargins m s)) by (by split). unfold horizontal_margins in HQ. cbn in HQ.
  destruct (Z.leb_spec (w - 1) l), (Z.ltb_spec l (w - 1)); try lia; cbn in *.
  - rewrite Z.min_id. apply HQ; [done|done|split; cbn; lia|done|]. intros w' Hle. destruct (Z.ltb_spec l (w' - 1)); [lia|]. by rewrite andb_false_r.
  - destruct (l <? r) eqn:Eb; rewrite ?Z.min_id; apply HQ; first [done|split; cbn; lia|intros; cbn; by rewrite Eb].
Qed.

(** ** Positions *)

Definition line_width_at b (y : Z) : Z := match line b y with Some r => Z.shiftr (_width b) (Z.b2z (negb (_lineRendition r =? LineRendition.SingleWidth))) | None => 0 end.

Lemma GetSize_width b : Viewport.Width (GetSize b) = _width b.
Proof. unfold Viewport.Width, Viewport.RightExclusive, Viewport.Left, GetSize, Viewport.FromDimensions. cbn. lia. Qed.
Lemma GetSize_height b : Viewport.Height (GetSize b) = _height b.
Proof. unfold Viewport.Height, Viewport.BottomExclusive, Viewport.Top, GetSize, Viewport.FromDimensions. cbn. lia. Qed.

Lemma uncommitted_fresh b y : good_buffer b -> _isRowCommitted y b = false -> _rows b !! slot_of b y = None.
Proof.
  intros [[Hw Hh Hf Hc Hr] _] E. unfold _isRowCommitted in E. rewrite wrapped_mod in E by lia. apply Z.ltb_ge in E. apply lookup_ge_None. unfold slot_of.
  pose proof (Z.mod_pos_bound (_firstRow b + y) (_height b) ltac:(lia)) as Hm. rewrite <- Z.add_mod_idemp_l in E by lia. destruct (Z.eq_dec ((_firstRow b + y) mod _height b + 1) (_height b)) as [Eq|Ne].
  - rewrite Eq, Z.mod_same in E by lia. lia.
  - rewrite Z.mod_small in E by lia. lia.
Qed.

Lemma line_rendition_rule b y (Q : _ -> _ -> Prop) : good_buffer b ->
  (forall b' r, good_buffer b' -> frame b' = frame b -> (forall z, line b' z = line b z) -> line b y = Some r -> Q b' (_lineRendition r)) -> returns (GetLineRendition (avx2 P) (uninitialised P) (rowSize P) y) b Q.
Proof.
  intros Hg HQ. unfold GetLineRendition. do 2 step. cbn [id]. destruct (get_ok (avx2 P) (uninitialised P) (rowSize P) b y Hg) as (b' & r & E & Hg' & Hs & _ & Hr & Hl & _).
  destruct (_isRowCommitted y b) eqn:Ec; cbn [negb].
  - step. exists b', (slot_of b y). split; [exact E|]. step. exists b', r. split; [by apply row_at_ok|]. step. apply HQ; [done|apply Hs| |done]. intros z. by apply shows_line.
  - step. assert (_lineRendition r = LineRendition.SingleWidth) as <-; [|by apply HQ]. unfold TextBufferProps.line, slot_row in Hl. rewrite (uncommitted_fresh b y Hg Ec) in Hl.
    unfold fresh_row, new_ROW, _init in Hl. cbn [_columnCount] in Hl. destruct (init_buffers _ _ _); [|done]. by injection Hl as <-.
Qed.

Lemma line_width_rule b y (Q : _ -> _ -> Prop) : good_buffer b ->
  (forall b', good_buffer b' -> frame b' = frame b -> lines b' = lines b -> (forall z, line b' z = line b z) -> Q b' (line_width_at b y)) -> returns (GetLineWidth (avx2 P) (uninitialised P) (rowSize P) y) b Q.
Proof.
  intros Hg HQ. unfold GetLineWidth, line_scale, IsDoubleWidthLine. do 3 apply returns_bind. apply (returns_mono (GetLineRendition (avx2 P) (uninitialised P) (rowSize P) y) b
    (fun b' v => good_buffer b' /\ frame b' = frame b /\ (forall z, line b' z = line b z) /\ exists r, line b y = Some r /\ v = _lineRendition r)).
  { apply line_rendition_rule; [done|]. intros b' r Hg' Hf Hl Hr. do 3 (split; [done|]). by exists r. }
  intros b' v (Hg' & Hf & Hl & r & Hr & ->). do 5 step. destruct (frame_fields _ _ Hf) as (Ew & Eh & _). cbn [id]. rewrite GetSize_width, Ew.
  specialize (HQ b' Hg' Hf). unfold line_width_at in HQ. rewrite Hr in HQ. apply HQ; [|done]. unfold TextBufferProps.lines. rewrite Eh. apply map_ext. intros z. apply Hl.
Qed.

(** ** Moving the cursor *)

(** The text is the same: lines, size, colours. *)
Record same_text b b' : Prop := {
  text_good : good_buffer b';
  text_line : forall y, line b' y = line b y;
  text_width : _width b' = _width b;
  text_height : _height b' = _height b;
  text_attributes : _currentAttributes b' = _currentAttributes b
}.

Definition page_height s : Z := rect.bottom (viewport s) - rect.top (viewport s).
Definition margins_of s : (Z * Z) * (Z * Z) := (vertical_margins (page_height s) (_scrollMargins s), horizontal_margins (_width (buffer s)) (_scrollMargins s)).

(** The same screen, but for the cursor. *)
Record same_screen s s' : Prop := {
  screen_rest : same_rest s s';
  screen_text : same_text (buffer s) (buffer s');
  screen_margins : margins_of s' = margins_of s;
  screen_sane : margins_sane (_scrollMargins s')
}.

Lemma same_rest_viewport s s' : same_rest s s' -> viewport s' = viewport s /\ isMainBuffer (terminal s') = isMainBuffer (terminal s).
Proof. intros [V _ _ _]. unfold view in V. unfold viewport. split; congruence. Qed.

Lemma same_rest_terminal s s' : same_rest s s' ->
  terminalInput (terminal s') = terminalInput (terminal s) /\ renderSettings (terminal s') = renderSettings (terminal s) /\ responses (terminal s') = responses (terminal s).
Proof. intros [V _ _ _]. unfold view in V. split_and!; congruence. Qed.

Lemma same_rest_number s s' : same_rest s s' -> Page.Number (page_of s') = Page.Number (page_of s).
Proof.
  intros Hr. destruct (same_rest_viewport s s' Hr) as [_ Em]. destruct Hr as [_ _ Rp _]. unfold Page.Number, page_of. cbn. rewrite Em.
  by replace (_visiblePageNumber (_pages s')) with (_visiblePageNumber (_pages s)) by congruence.
Qed.

Lemma same_rest_mode s s' m : same_rest s s' -> mode m s' = mode m s.
Proof. intros [_ _ _ O]. unfold mode. congruence. Qed.

Lemma same_screen_ready s s' : page_ready s -> same_screen s s' -> page_ready s'.
Proof.
  intros [Hv Hg Hp Hq Hw Hm] [Hr [Tg Tl Tw Th Ta] _ Hs]. destruct (same_rest_viewport s s' Hr) as [Ev Em]. destruct Hr as [_ _ Rp _]. split; try done.
  - unfold on_visible in *. rewrite Em. destruct Hv as [Hv|Hv]; [by left|right]. injection Rp as -> -> _. done.
  - by rewrite Ev, Th.
  - by rewrite Ev, Tw.
  - by rewrite Tw.
Qed.

Lemma point_eqb_eq (p q : point.t) : point.eqb p q = true <-> p = q.
Proof. unfold point.eqb. rewrite andb_true_iff, !Z.eqb_eq. destruct p, q. cbn. split; [intros [-> ->]; done|]. intros [= -> ->]. done. Qed.

Lemma cursor_SetPosition p c : Cursor._cPosition (Cursor.SetPosition p c) = p.
Proof. unfold Cursor.SetPosition. destruct (point.eqb _ _) eqn:E; [|done]. by apply point_eqb_eq in E. Qed.

Definition target (rowOffset colOffset : Offset) (clampInMargins : bool) s : point.t :=
  let '((t, bm), (l, r)) := margins_of s in
  let o := rect.top (viewport s) in
  let row := moved_row (page_of s) (mode AdaptMode.Origin s) clampInMargins (t + o) (bm + o) l r rowOffset (cursor s) in
  let col := moved_column (_width (buffer s)) (mode AdaptMode.Origin s) clampInMargins (t + o) (bm + o) l r colOffset (cursor s) row in
  point.mk (Z.min col (line_width_at (buffer s) row - 1)) row.

Lemma same_text_trans b1 b2 b3 : same_text b1 b2 -> same_text b2 b3 -> same_text b1 b3.
Proof. intros [G1 L1 W1 H1' A1] [G2 L2 W2 H2' A2]. split; [done|intros y; by rewrite L2|congruence..]. Qed.

Lemma same_screen_refl s : page_ready s -> same_screen s s.
Proof. intros [_ Hg _ _ _ Hm]. by split. Qed.

Lemma same_screen_trans s1 s2 s3 : same_screen s1 s2 -> same_screen s2 s3 -> same_screen s1 s3.
Proof. intros [R1 T1 M1 S1] [R2 T2 M2 S2]. split; [by etransitivity|by eapply same_text_trans|congruence|done]. Qed.

(** A change of the visible buffer that keeps its text. *)
Lemma keeps_text s s' : page_ready s -> same_rest s s' -> same_text (buffer s) (buffer s') -> _scrollMargins s' = _scrollMargins s -> same_screen s s'.
Proof.
  intros [_ _ _ _ _ Hm] Hr Ht Em. split; [done|done| |by rewrite Em]. destruct (same_rest_viewport s s' Hr) as [Ev _]. unfold margins_of, page_height. by rewrite Ev, Em, (text_width _ _ Ht).
Qed.

(** ** Rules for the active page *)

Lemma page_rule s (Q : _ -> _ -> Prop) : page_ready s -> Q s (page_of s) -> returns (active_page P) s Q.
Proof. intros [Hv _ _ _ _ _]. by apply active_page_rule. Qed.

Lemma v_rule s0 s (absolute : bool) (Q : _ -> _ -> Prop) : page_ready s -> viewport s0 = viewport s ->
  (forall s', same_screen s s' -> buffer s' = buffer s -> let o := if absolute then rect.top (viewport s) else 0 in Q s' ((margins_of s).1.1 + o, (margins_of s).1.2 + o)) ->
  returns (_GetVerticalMargins (page_of s0) absolute) s Q.
Proof.
  intros Hr Ev HQ. pose proof Hr as [Hv Hg Hp Hq Hw Hm]. apply vertical_rule; [done|unfold Page.Height, Page.Bottom, Page.Top, page_of; cbn; rewrite Ev; lia|]. intros s1 R1 B1 M1 V1 H1'.
  assert (Hh : Page.Height (page_of s0) = page_height s) by (unfold Page.Height, Page.Bottom, Page.Top, page_of, page_height; cbn; by rewrite Ev). rewrite Hh in *.
  change (Page.Top (page_of s0)) with (rect.top (viewport s0)). rewrite Ev.
  assert (HS : same_screen s s1). { split; [done|by rewrite B1| |done]. destruct (same_rest_viewport s s1 R1) as [E1 _]. unfold margins_of, page_height in *. rewrite E1, B1, H1', V1; done. }
  specialize (HQ s1 HS B1). unfold margins_of in HQ. by destruct (vertical_margins _ _).
Qed.

Lemma h_rule s (Q : _ -> _ -> Prop) : page_ready s -> (forall s', same_screen s s' -> buffer s' = buffer s -> Q s' (margins_of s).2) -> returns (_GetHorizontalMargins (_width (buffer s))) s Q.
Proof.
  intros Hr HQ. pose proof Hr as [Hv Hg Hp Hq Hw Hm]. apply horizontal_rule; [done|lia|]. intros s1 R1 B1 M1 V1 H1'. apply HQ; [|done].
  split; [done|by rewrite B1| |done]. destruct (same_rest_viewport s s1 R1) as [E1 _]. unfold margins_of, page_height. rewrite E1, B1, V1, H1'; done.
Qed.

Lemma width_rule s0 s (Q : _ -> _ -> Prop) : Q s (_width (buffer s)) -> returns (page_Width (page_of s0)) s Q.
Proof. intros. apply read_page_rule; [done|done|]. by rewrite GetSize_width. Qed.

Lemma position_rule s0 s (Q : _ -> _ -> Prop) : Q s (cursor s) -> returns (cursor_position (page_of s0)) s Q.
Proof. intros. unfold cursor_position. step. apply read_page_rule; [done|done|]. by step. Qed.

Lemma set_cursor_same c b : good_buffer b -> same_text b (set_cursor c b).
Proof. intros [[H1' H2' H3' H4' H5'] Hd]. split; [|done..]. split; [|done]. by split. Qed.

Lemma on_cursor_rule s0 s f (Q : _ -> _ -> Prop) : page_ready s -> (forall s', same_screen s s' -> _cursor (buffer s') = f (_cursor (buffer s)) -> Q s' tt) -> returns (on_cursor (page_of s0) f) s Q.
Proof.
  intros Hr HQ. apply on_page_rule; [done|]. step. intros s' R' B' M'. apply HQ; [|by rewrite B']. apply keeps_text; try done. rewrite B'. apply set_cursor_same, Hr.
Qed.

Lemma line_width_page_rule s0 s y (Q : _ -> _ -> Prop) : page_ready s -> (forall s', same_screen s s' -> _cursor (buffer s') = _cursor (buffer s) -> Q s' (line_width_at (buffer s) y)) -> returns (line_width P (page_of s0) y) s Q.
Proof.
  intros Hr HQ. apply on_page_rule; [done|]. apply line_width_rule; [apply Hr|]. intros b' G F L Ln s' R' B' M'. destruct (frame_fields _ _ F) as (Fw & Fh & _ & _ & Fc & Fa & _).
  apply HQ; [|by rewrite B']. apply keeps_text; try done. rewrite B'. by split.
Qed.

Lemma clamp_rule s0 s p (Q : _ -> _ -> Prop) : page_ready s -> (forall s', same_screen s s' -> _cursor (buffer s') = _cursor (buffer s) -> Q s' (point.mk (Z.min (point.x p) (line_width_at (buffer s) (point.y p) - 1)) (point.y p))) ->
  returns (clamp_position P (page_of s0) p) s Q.
Proof.
  intros Hr HQ. apply on_page_rule; [done|]. unfold ClampPositionWithinLine. step. apply line_width_rule; [apply Hr|]. intros b' G F L Ln. step. intros s' R' B' M'. destruct (frame_fields _ _ F) as (Fw & Fh & _ & _ & Fc & Fa & _).
  apply HQ; [|by rewrite B']. apply keeps_text; try done. rewrite B'. by split.
Qed.

Lemma line_width_same s s' y : same_screen s s' -> line_width_at (buffer s') y = line_width_at (buffer s) y.
Proof. intros [_ [_ L W _ _] _ _]. unfold line_width_at. by rewrite L, W. Qed.

Lemma move_rule rowOffset colOffset clampInMargins s (Q : _ -> _ -> Prop) : page_ready s ->
  (forall s', same_screen s s' -> _cursor (buffer s') = Cursor.SetPosition (target rowOffset colOffset clampInMargins s) (_cursor (buffer s)) -> Q s' tt) ->
  returns (_CursorMovePosition P rowOffset colOffset clampInMargins) s Q.
Proof.
  intros Hr HQ. unfold _CursorMovePosition. step. apply page_rule; [done|]. step. apply width_rule. step. apply position_rule.
  step. apply v_rule; [done|done|]. intros s1 S1 B1. cbv beta iota zeta. step. pose proof (same_screen_ready _ _ Hr S1) as Hr1. rewrite <- B1. apply h_rule; [done|]. intros s2 S2 B2. rewrite (screen_margins _ _ S1).
  destruct (margins_of s) as [[t bm] [l r]] eqn:Em. cbv beta iota zeta. do 2 step. pose proof (same_screen_trans _ _ _ S1 S2) as S12. pose proof (same_screen_ready _ _ Hr S12) as Hr2. rewrite (same_rest_mode s s2) by apply S12.
  cbn [fst snd]. set (row := moved_row _ _ _ _ _ _ _ _ _). set (col := moved_column _ _ _ _ _ _ _ _ _ _).
  step. apply clamp_rule; [done|]. intros s3 S3 C3. cbn [point.x point.y]. pose proof (same_screen_ready _ _ Hr2 S3) as Hr3. apply on_cursor_rule; [done|]. intros s4 S4 C4. apply HQ.
  - eapply same_screen_trans; [exact S12|]. by eapply same_screen_trans.
  - rewrite C4, C3, B2, B1. unfold target. rewrite Em. unfold row, col. by rewrite B1.
Qed.
(** ** Where the cursor ends up *)

Lemma line_width_bounds b y : good_buffer b -> 2 <= _width b -> 1 <= line_width_at b y <= _width b.
Proof.
  intros Hg Hw. destruct (get_ok (avx2 P) (uninitialised P) (rowSize P) b y Hg) as (b' & r & _ & _ & _ & _ & _ & Hl & _). unfold line_width_at. rewrite Hl.
  destruct (_lineRendition r =? LineRendition.SingleWidth); cbn [negb Z.b2z]; rewrite Z.shiftr_div_pow2 by lia; [change (2 ^ 0) with 1; rewrite Z.div_1_r; lia|change (2 ^ 1) with 2].
  split; [apply Z.div_le_lower_bound; lia|apply Z.div_le_upper_bound; lia].
Qed.

Lemma margins_bounds s : page_ready s -> let '((t, bm), (l, r)) := margins_of s in 0 <= t <= bm /\ bm < page_height s /\ 0 <= l <= r /\ r < _width (buffer s).
Proof.
  intros [Hv Hg Hp Hq Hw Hm]. unfold margins_of. pose proof (vertical_margins_bounds (page_height s) _ Hm ltac:(unfold page_height; lia)). pose proof (horizontal_margins_bounds (_width (buffer s)) _ Hm ltac:(lia)).
  destruct (vertical_margins _ _), (horizontal_margins _ _). cbn in *. lia.
Qed.

Lemma target_bounds rowOffset colOffset clampInMargins s : page_ready s ->
  let p := target rowOffset colOffset clampInMargins s in
  rect.top (viewport s) <= point.y p < rect.bottom (viewport s) /\ 0 <= point.x p < line_width_at (buffer s) (point.y p).
Proof.
  intros Hr. pose proof (margins_bounds s Hr) as Hb. pose proof Hr as [Hv Hg Hp Hq Hw Hm]. unfold target. destruct (margins_of s) as [[t bm] [l r]]. cbn [point.x point.y]. unfold page_height in Hb.
  set (row := moved_row _ _ _ _ _ _ _ _ _). assert (Hrow : rect.top (viewport s) <= row < rect.bottom (viewport s)).
  { unfold row, moved_row, Page.Top, Page.Bottom, page_of. cbn [_viewport]. rewrite clamp_spec by lia. repeat case_match; lia. }
  split; [done|]. pose proof (line_width_bounds (buffer s) row Hg Hw). assert (0 <= moved_column (_width (buffer s)) (mode AdaptMode.Origin s) clampInMargins (t + rect.top (viewport s)) (bm + rect.top (viewport s)) l r colOffset (cursor s) row); [|lia].
  unfold moved_column. rewrite clamp_spec by lia. repeat case_match; lia.
Qed.

(** Inside the margins. *)
Definition in_margins s (p : point.t) : Prop :=
  let '((t, bm), (l, r)) := margins_of s in t <= point.y p - rect.top (viewport s) <= bm /\ l <= point.x p <= r.

Lemma target_in_margins rowOffset colOffset clampInMargins s : page_ready s -> clampInMargins || mode AdaptMode.Origin s = true -> in_margins s (cursor s) ->
  let p := target rowOffset colOffset clampInMargins s in
  (margins_of s).2.1 < line_width_at (buffer s) (point.y p) -> in_margins s p.
Proof.
  intros Hr Hc Hi. pose proof (margins_bounds s Hr) as Hb. pose proof Hr as [Hv Hg Hp Hq Hw Hm]. unfold target, in_margins in *. destruct (margins_of s) as [[t bm] [l r]]. cbn [point.x point.y fst snd]. unfold page_height in Hb.
  set (row := moved_row _ _ _ _ _ _ _ _ _). assert (Hrow : t <= row - rect.top (viewport s) <= bm).
  { unfold row, moved_row, Page.Top, Page.Bottom, page_of. cbn [_viewport]. rewrite clamp_spec, Hc by lia. repeat (case_match; rewrite ?andb_true_iff, ?andb_false_iff, ?Z.leb_le, ?Z.leb_gt in *); lia. }
  intros Hl. split; [done|]. unfold moved_column. rewrite clamp_spec, Hc by lia. repeat (case_match; rewrite ?andb_true_iff, ?andb_false_iff, ?Z.leb_le, ?Z.leb_gt in *); lia.
Qed.

(** C8: However the cursor is moved - up, down, forward, back, to a line, a column or a
    position, with margins and origin mode or without - on a page of at least two columns
    ([page_ready]; for one column see [cursor_left_of_page]) the movement comes back with
    the cursor on the page and within the width of its line, which is half as many columns
    for double-width lines, and nothing else on the screen has changed. A movement that
    respects the margins, started inside of them, ends inside of them if the left margin is
    within the line it ends on. *)
Theorem cursor_stays_on_page rowOffset colOffset clampInMargins s : page_ready s ->
  returns (_CursorMovePosition P rowOffset colOffset clampInMargins) s (fun s' _ =>
    same_screen s s' /\ page_ready s' /\
    rect.top (viewport s') <= point.y (cursor s') < rect.bottom (viewport s') /\ 0 <= point.x (cursor s') < line_width_at (buffer s') (point.y (cursor s')) /\
    (clampInMargins || mode AdaptMode.Origin s = true -> in_margins s (cursor s) -> (margins_of s').2.1 < line_width_at (buffer s') (point.y (cursor s')) -> in_margins s' (cursor s'))).
Proof.
  intros Hr. apply move_rule; [done|]. intros s' Hs Hc. assert (Ec : cursor s' = target rowOffset colOffset clampInMargins s) by (unfold cursor; rewrite Hc; apply cursor_SetPosition).
  destruct (same_rest_viewport s s' (screen_rest _ _ Hs)) as [Ev _]. rewrite Ec, Ev, (line_width_same s s' _ Hs), (screen_margins _ _ Hs). destruct (target_bounds rowOffset colOffset clampInMargins s Hr) as [Hy Hx].
  split; [done|]. split; [by eapply same_screen_ready|]. split; [done|]. split; [done|]. intros Hm Hi Hl. unfold in_margins. rewrite Ev, (screen_margins _ _ Hs). by apply target_in_margins.
Qed.
(** ** Positions as programs see them *)

Definition origin_of s : point.t := if mode AdaptMode.Origin s then point.mk (margins_of s).2.1 (margins_of s).1.1 else point.mk 0 0.
Definition extent_of s : size.t :=
  if mode AdaptMode.Origin s then size.mk ((margins_of s).2.2 - (margins_of s).2.1 + 1) ((margins_of s).1.2 - (margins_of s).1.1 + 1) else size.mk (_width (buffer s)) (page_height s).
(** Where line [l] and column [c] are, and the line and column of the cursor. *)
Definition absolute s (l c : Z) : point.t := point.mk (c - 1 + point.x (origin_of s)) (l - 1 + point.y (origin_of s) + rect.top (viewport s)).
Definition relative s : point.t := point.mk (point.x (cursor s) - point.x (origin_of s) + 1) (point.y (cursor s) - rect.top (viewport s) - point.y (origin_of s) + 1).
Definition addressable s (l c : Z) : Prop :=
  1 <= l <= size.height (extent_of s) /\ 1 <= c <= size.width (extent_of s) /\ point.x (absolute s l c) < line_width_at (buffer s) (point.y (absolute s l c)).

Lemma target_absolute s l c : page_ready s -> addressable s l c -> target (Offset.Absolute l) (Offset.Absolute c) false s = absolute s l c.
Proof.
  intros Hr (Hl & Hc & Hw'). pose proof (margins_bounds s Hr) as Hb. pose proof Hr as [Hv Hg Hp Hq Hw Hm]. unfold target. unfold absolute, extent_of, origin_of in Hl, Hc, Hw' |- *. destruct (margins_of s) as [[t bm] [lm rm]].
  cbn [fst snd] in *. unfold page_height in Hb, Hl. set (row := moved_row _ _ _ _ _ _ _ _ _). set (col := moved_column _ _ _ _ _ _ _ _ _ _).
  assert (row = l - 1 + (if mode AdaptMode.Origin s then t else 0) + rect.top (viewport s)) as Er.
  { unfold row, moved_row, Offset.Absolute, Page.Top, Page.Bottom, page_of. cbn [IsAbsolute Value _viewport orb]. rewrite !clamp_spec by lia.
    destruct (mode AdaptMode.Origin s); cbn [point.x point.y size.width size.height andb] in *; repeat (case_match; rewrite ?andb_true_iff, ?Z.leb_le, ?Z.leb_gt in * ); lia. }
  assert (col = c - 1 + (if mode AdaptMode.Origin s then lm else 0)) as ->.
  { unfold col, moved_column, Offset.Absolute. cbn [IsAbsolute Value orb]. rewrite !clamp_spec by lia.
    destruct (mode AdaptMode.Origin s); cbn [point.x point.y size.width size.height andb] in *; repeat (case_match; rewrite ?andb_true_iff, ?Z.leb_le, ?Z.leb_gt in * ); lia. }
  rewrite Er. destruct (mode AdaptMode.Origin s); cbn [point.x point.y] in *; f_equal; lia.
Qed.

Lemma relative_absolute s s' l c : same_screen s s' -> cursor s' = absolute s l c -> relative s' = point.mk c l.
Proof.
  intros Hs Ec. destruct (same_rest_viewport s s' (screen_rest _ _ Hs)) as [Ev _]. unfold relative. rewrite Ec, Ev. unfold origin_of. rewrite (same_rest_mode s s') by apply Hs. rewrite (screen_margins _ _ Hs).
  unfold absolute, origin_of. destruct (mode AdaptMode.Origin s); cbn; f_equal; lia.
Qed.

Lemma relative_rule s0 s (Q : _ -> _ -> Prop) : page_ready s -> viewport s0 = viewport s -> (forall s', same_screen s s' -> buffer s' = buffer s -> Q s' (relative s)) -> returns (relative_position (page_of s0)) s Q.
Proof.
  intros Hr Ev HQ. unfold relative_position. step. apply position_rule. cbv zeta. do 3 step. unfold relative, origin_of in HQ. change (Page.Top (page_of s0)) with (rect.top (viewport s0)). rewrite Ev.
  destruct (mode AdaptMode.Origin s) eqn:Eo.
  - step. apply width_rule. step. apply h_rule; [done|]. intros s1 S1 B1. pose proof (same_screen_ready _ _ Hr S1) as Hr1. destruct (same_rest_viewport s s1 (screen_rest _ _ S1)) as [E1 _].
    destruct (margins_of s) as [[t bm] [l r]] eqn:Em. cbn [fst snd] in *. cbv beta iota. step. apply v_rule; [done|congruence|]. intros s2 S2 B2. rewrite (screen_margins _ _ S1), Em. cbn [fst snd]. cbv zeta. do 2 step.
    cbn [point.x point.y] in *. rewrite Z.add_0_r. apply HQ; [by eapply same_screen_trans|congruence].
  - do 2 step. cbn [point.x point.y] in *. rewrite !Z.sub_0_r in HQ. apply HQ; [by apply same_screen_refl|done].
Qed.

(** ** Responses *)

(** A response was sent, and nothing else happened. *)
Record answered (response : wstring) s s' : Prop := {
  answered_responses : responses (terminal s') = responses (terminal s) ++ [response];
  answered_buffer : buffer s' = buffer s;
  answered_viewport : viewport s' = viewport s;
  answered_main : isMainBuffer (terminal s') = isMainBuffer (terminal s);
  answered_own : s' = put_terminal (terminal s') s
}.

Definition csi s : wstring := if GetInputMode TerminalInput.Mode.SendC1 (terminalInput (terminal s)) then [0x9B] else [0x1B; 0x5B].
Definition dcs s : wstring := if GetInputMode TerminalInput.Mode.SendC1 (terminalInput (terminal s)) then [0x90] else [0x1B; 0x50].
Definition st s : wstring := if GetInputMode TerminalInput.Mode.SendC1 (terminalInput (terminal s)) then [0x9C] else [0x1B; 0x5C].

Lemma response_rule response s (Q : _ -> _ -> Prop) : response <> [] -> (forall s', answered response s s' -> Q s' tt) -> returns (api (api_ReturnResponse response)) s Q.
Proof.
  intros Hn HQ. destruct (ReturnResponse_law response (terminal s) Hn) as (a & [] & E & B & Pr & V & _). exists (put_terminal a s), tt. split.
  - unfold api, with_pages, with_api. fold (terminal s). by rewrite E.
  - unfold view in V. apply HQ. split; [|unfold buffer|unfold viewport| |done]; cbn; congruence.
Qed.

Lemma answered_ready response s s' : page_ready s -> answered response s s' -> page_ready s'.
Proof.
  intros [Hv Hg Hp Hq Hw Hm] [_ Eb Ev Em Eo]. split; rewrite ?Eb, ?Ev; try done; [|by rewrite Eo].
  unfold on_visible. rewrite Em. by rewrite Eo.
Qed.

Lemma csi_rule response s (Q : _ -> _ -> Prop) : (forall s', answered (csi s ++ response) s s' -> Q s' tt) -> returns (_ReturnCsiResponse response) s Q.
Proof. intros HQ. unfold _ReturnCsiResponse, send_c1, ask. repeat step. fold (terminal s). apply response_rule; [|done]. by destruct (GetInputMode _ _). Qed.

Lemma dcs_rule response s (Q : _ -> _ -> Prop) : (forall s', answered (dcs s ++ response ++ st s) s s' -> Q s' tt) -> returns (_ReturnDcsResponse response) s Q.
Proof. intros HQ. unfold _ReturnDcsResponse, send_c1, ask. repeat step. fold (terminal s). apply response_rule; [|done]. by destruct (GetInputMode _ _). Qed.
End Dispatch.
