(* ===== verification/NavigationProps.v ===== *)
(** * Theorems about positions in the text buffer

    Words are maximal runs of one class of characters, and the iterator over cells shows the
    cell that it points to. Positions are counted in reading order: the cell at (x, y) of a
    buffer of width w has the number y * w + x. *)

From stdpp Require Import list gmap.
From S2P Require Import Prelude Til Utils TermDispatch TextAttributes Rle RleProps CodepointWidth CodepointWidthProps Geometry GeometryProps Row RowWrite RowProps RowQueries RowInvariant Cursor TextBuffer TextBufferProps AdaptDispatch BufferText Cells Navigation AdaptProps BufferSamples.

(** Every column of a row has a class. *)
Lemma clamped_glyph r gs col : row_ok r gs -> exists pre g post i, gs = pre ++ g :: post /\ (i < g_width g)%nat /\ _clampedColumn col r = Z.of_nat (columns pre + i) /\ g_chars g <> [].
Proof.
  intros Hrow. pose proof Hrow as [Hc H1 Hok _ _ _ Hn]. assert (0 <= _clampedColumn col r < _columnCount r) as Hcl.
  { unfold _clampedColumn, clamp. repeat case_match; rewrite u16_small; lia. }
  destruct (locate gs (Z.to_nat (_clampedColumn col r)) Hok ltac:(lia)) as (pre & g & post & i & E & Hi & Hk). exists pre, g, post, i. split; [done|]. split; [done|]. split; [lia|].
  rewrite E in Hok. apply Forall_app in Hok as [_ Hok]. apply Forall_cons in Hok as [[_ Hg] _]. done.
Qed.
Lemma char_here r gs pre g post : row_ok r gs -> gs = pre ++ g :: post -> g_chars g <> [] -> exists c, _uncheckedChar (chars_len pre) r = Some c /\ head (g_chars g) = Some c.
Proof.
  intros [_ _ _ _ _ [rest Hch] _] -> Hne. destruct (g_chars g) as [|c cs] eqn:Eg; [done|]. exists c. split; [|done]. unfold _uncheckedChar. pose proof (chars_len_nonneg pre).
  destruct (Z.ltb_spec (chars_len pre) 0); [lia|]. rewrite Hch, text_of_app, text_of_cons, Eg, <- app_assoc. unfold chars_len. rewrite Nat2Z.id, lookup_app_r by lia. by rewrite Nat.sub_diag.
Qed.
Lemma DelimiterClassAt_some r col delimiters : row_good r -> exists c, DelimiterClassAt col delimiters r = Some c.
Proof.
  intros [[gs Hrow] _ _]. destruct (clamped_glyph r gs col Hrow) as (pre & g & post & i & E & Hi & Hcl & Hne). unfold DelimiterClassAt.
  rewrite Hcl, (charOffset_here r gs pre g post i Hrow E Hi). cbn [mbind option_bind]. destruct (char_here r gs pre g post Hrow E Hne) as (c & -> & _). cbn [mbind option_bind]. by eexists.
Qed.

(** ** Steps of a viewport that starts at the origin *)

Section Walks.
Context (w h : Z) (Hw : 1 <= w < 0x8000) (Hh : 1 <= h < 2 ^ 16).
Local Abbreviation bounds := (Viewport.FromDimensions (point.mk 0 0) (size.mk w h)).

Lemma exclusive_walk x y delta : 0 <= (w + 1) * y + x + delta < (w + 1) * h -> let off := (w + 1) * y + x + delta in
  Viewport.WalkInExclusiveBounds bounds (point.mk x y) delta = Some (point.mk (off mod (w + 1)) (off / (w + 1)), true).
Proof.
  intros Ho off. unfold Viewport.WalkInExclusiveBounds, Viewport.walk. cbn. rewrite !Z.max_r by lia. replace (0 + w - 1 - 0 + 2) with (w + 1) by lia. replace (0 + h - 1 - 0 + 1) with h by lia. rewrite !Z.sub_0_r, !Z.add_0_r. fold off.
  assert (clamp off 0 ((w + 1) * h) = off) as -> by (unfold clamp; destruct (Z.ltb_spec off 0); [lia|]; destruct (Z.ltb_spec ((w + 1) * h) off); lia).
  destruct (Z.eqb_spec (w + 1) 0); [lia|]. destruct (Z.ltb_spec ((w + 1) * h) 0); [nia|]. cbn [orb]. rewrite Z.eqb_refl, Z.rem_mod_nonneg, Z.quot_div_nonneg by lia.
  pose proof (Z.mod_pos_bound off (w + 1) ltac:(lia)). assert (0 <= off / (w + 1) < h) by (split; [apply Z.div_pos; lia|apply Z.div_lt_upper_bound; lia]).
  by rewrite !narrow_id by (unfold CoordTypeMin, CoordTypeMax; lia).
Qed.
Lemma dec_exclusive x y : 0 <= x <= w -> 0 <= y < h -> ~ (x = 0 /\ y = 0) ->
  Viewport.DecrementInExclusiveBounds bounds (point.mk x y) = Some (if x =? 0 then point.mk w (y - 1) else point.mk (x - 1) y, true).
Proof.
  intros Hx Hy Hn. unfold Viewport.DecrementInExclusiveBounds. rewrite exclusive_walk by nia. do 2 f_equal. destruct (Z.eqb_spec x 0) as [->|].
  - f_equal; [symmetry; apply (Z.mod_unique _ _ (y - 1)); lia|symmetry; apply (Z.div_unique _ _ _ w); lia].
  - f_equal; [symmetry; apply (Z.mod_unique _ _ y); lia|symmetry; apply (Z.div_unique _ _ _ (x - 1)); lia].
Qed.
Lemma inc_exclusive x y : 0 <= x <= w -> 0 <= y < h -> ~ (x = w /\ y = h - 1) ->
  Viewport.IncrementInExclusiveBounds bounds (point.mk x y) = Some (if x =? w then point.mk 0 (y + 1) else point.mk (x + 1) y, true).
Proof.
  intros Hx Hy Hn. unfold Viewport.IncrementInExclusiveBounds. rewrite exclusive_walk by nia. do 2 f_equal. destruct (Z.eqb_spec x w) as [->|].
  - f_equal; [symmetry; apply (Z.mod_unique _ _ (y + 1)); lia|symmetry; apply (Z.div_unique _ _ _ 0); lia].
  - f_equal; [symmetry; apply (Z.mod_unique _ _ y); lia|symmetry; apply (Z.div_unique _ _ _ (x + 1)); lia].
Qed.
Lemma in_bounds x y : Viewport.IsInBounds bounds (point.mk x y) false = (0 <=? x) && (x <? w) && (0 <=? y) && (y <? h).
Proof. unfold Viewport.IsInBounds. cbn. unfold Viewport.RightExclusive, Viewport.BottomExclusive, Viewport.Left, Viewport.Top. cbn. by replace (0 + w - 1 + 1) with w by lia; replace (0 + h - 1 + 1) with h by lia. Qed.
End Walks.

Section Navigation.
Context {D : Type} `{MeasurementLaws D}.
Variable P : Platform.
Implicit Types b : TextBuffer D.
Local Abbreviation line := (TextBufferProps.line (avx2 P) (uninitialised P) (rowSize P)).
Local Abbreviation GetRowByOffset := (TextBuffer.GetRowByOffset (avx2 P) (uninitialised P) (rowSize P)).
Local Abbreviation _GetDelimiterClassAt := (Navigation._GetDelimiterClassAt (avx2 P) (uninitialised P) (rowSize P)).
Local Abbreviation was_wrapped := (Navigation.was_wrapped (avx2 P) (uninitialised P) (rowSize P)).
Local Abbreviation class_in_bounds := (Navigation.class_in_bounds (avx2 P) (uninitialised P) (rowSize P)).

(** ** Reading *)

(** The two buffers look alike: rows may have been committed in between. *)
Record alike b b' : Prop := {
  alike_good : good_buffer b';
  alike_frame : frame b' = frame b;
  alike_line : forall y, line b' y = line b y
}.
Lemma alike_refl b : good_buffer b -> alike b b.
Proof. by split. Qed.
Lemma alike_trans b1 b2 b3 : alike b1 b2 -> alike b2 b3 -> alike b1 b3.
Proof. intros [G1 F1 L1] [G2 F2 L2]. split; [done|congruence|]. intros y. by rewrite L2. Qed.
Lemma alike_size b b' : alike b b' -> GetSize b' = GetSize b.
Proof. intros [_ F _]. apply frame_fields in F as (E1 & E2 & _). unfold GetSize. by rewrite E1, E2. Qed.

(** The computation has the value, and leaves a buffer that looks alike. *)
Definition reads {X} (m : comp (TextBuffer D) X) b (v : X) : Prop := forall Q : _ -> _ -> Prop, (forall b', alike b b' -> Q b' v) -> returns m b Q.
Lemma reads_bind {X Y} (m : comp (TextBuffer D) X) (k : X -> comp (TextBuffer D) Y) b v w : reads m b v -> (forall b', alike b b' -> reads (k v) b' w) -> reads (x ← m; k x) b w.
Proof. intros Hm Hk Q HQ. apply returns_bind, Hm. intros b' Ha. apply Hk; [done|]. intros b2 Ha2. by apply HQ, (alike_trans b b' b2). Qed.
Lemma reads_ret {X} (v : X) b : good_buffer b -> reads (mret v) b v.
Proof. intros Hg Q HQ. by apply returns_ret, HQ, alike_refl. Qed.
Lemma reads_row {X} y (k : nat -> comp (TextBuffer D) X) b r v : good_buffer b -> line b y = Some r ->
  (forall b', alike b b' -> _rows b' !! slot_of b y = Some r -> reads (k (slot_of b y)) b' v) -> reads (slot ← GetRowByOffset y; k slot) b v.
Proof.
  intros Hg Hr Hk. destruct (get_ok (avx2 P) (uninitialised P) (rowSize P) b y Hg) as (b' & r' & E & Hg' & Hs & _ & Hrow & Hl & _). rewrite Hr in Hl. injection Hl as <-.
  assert (alike b b') as Ha by (split; [done|apply Hs|intros z; by apply shows_line]). intros Q HQ. apply returns_bind. exists b', (slot_of b y). split; [exact E|].
  apply Hk; [done|done|]. intros b2 Ha2. by apply HQ, (alike_trans b b' b2).
Qed.
Lemma row_text_reads {X} slot (f : ROW -> option X) b r v : good_buffer b -> _rows b !! slot = Some r -> f r = Some v -> reads (with_text slot f) b v.
Proof.
  intros Hg Hr Hf Q HQ. unfold with_text. apply returns_bind. exists b, r. split; [unfold row_at; by rewrite Hr|]. rewrite Hf. by apply reads_ret.
Qed.

Lemma line_some b y : good_buffer b -> exists r, line b y = Some r /\ row_good r /\ _columnCount r = _width b.
Proof. intros Hg. destruct (get_ok (avx2 P) (uninitialised P) (rowSize P) b y Hg) as (b' & r & _ & _ & _ & _ & _ & Hl & Hr & Hc). by exists r. Qed.

Definition wrapped_line b y : bool := match line b y with Some r => _wrapForced r | None => false end.
Lemma was_wrapped_reads b y : good_buffer b -> reads (was_wrapped y) b (wrapped_line b y).
Proof.
  intros Hg. destruct (line_some b y Hg) as (r & Hr & _). unfold wrapped_line. rewrite Hr. apply (reads_row y _ b r _ Hg Hr). intros b' Ha Hs Q HQ.
  apply returns_bind. exists b', r. split; [unfold row_at; by rewrite Hs|]. by apply reads_ret; [apply Ha|].
Qed.

Definition class_of b (delimiters : wstring) (p : point.t) : DelimiterClass :=
  match line b (point.y p) with
  | Some r => default ControlChar (DelimiterClassAt (Z.shiftr (point.x p) (Z.b2z (negb (_lineRendition r =? LineRendition.SingleWidth)))) delimiters r)
  | None => ControlChar
  end.
Lemma class_of_alike b b' delimiters p : alike b b' -> class_of b' delimiters p = class_of b delimiters p.
Proof. intros Ha. unfold class_of. by rewrite (alike_line _ _ Ha). Qed.
Lemma wrapped_line_alike b b' y : alike b b' -> wrapped_line b' y = wrapped_line b y.
Proof. intros Ha. unfold wrapped_line. by rewrite (alike_line _ _ Ha). Qed.

Lemma class_reads b delimiters p : good_buffer b -> reads (_GetDelimiterClassAt p delimiters) b (class_of b delimiters p).
Proof.
  intros Hg. destruct (line_some b (point.y p) Hg) as (r & Hr & Hrg & _). unfold Navigation._GetDelimiterClassAt, ScreenToBufferPosition, line_scale, IsDoubleWidthLine.
  intros Q HQ. do 4 apply returns_bind. apply (line_rendition_rule P b (point.y p)); [done|]. intros b1 r1 Hg1 Hf1 Hl1 Hr1. rewrite Hr in Hr1. injection Hr1 as <-. do 3 step. cbn [point.y point.x].
  assert (alike b b1) as Ha by (by split). unfold class_of in HQ. rewrite Hr in HQ.
  destruct (DelimiterClassAt_some r (Z.shiftr (point.x p) (Z.b2z (negb (_lineRendition r =? LineRendition.SingleWidth)))) delimiters Hrg) as (c & E). rewrite E in HQ. cbn [default from_option] in HQ.
  apply (reads_row (point.y p) _ b1 r c Hg1); [by rewrite Hl1| |intros b2 Ha2; by apply HQ, (alike_trans b b1 b2)].
  intros b2 Ha2 Hs. by apply (row_text_reads _ _ _ r); [apply Ha2|..].
Qed.

(** ** Runs of one class *)

Section Words.
Context (b0 : TextBuffer D) (Hg0 : good_buffer b0) (delimiters : wstring) (accessibilityMode : bool).
Local Abbreviation w := (_width b0).
Local Abbreviation h := (_height b0).
Local Abbreviation run_start := (Navigation.run_start (avx2 P) (uninitialised P) (rowSize P)).
Local Abbreviation run_end := (Navigation.run_end (avx2 P) (uninitialised P) (rowSize P)).

Definition cell_at (n : Z) : point.t := point.mk (n mod w) (n / w).
Definition class_at (n : Z) : DelimiterClass := class_of b0 delimiters (cell_at n).
(** Whether a run may go on from a line to the next. *)
Definition crosses (y : Z) : bool := accessibilityMode || wrapped_line b0 y.

(** The cells [lo, ..., hi - 1] are of one class, on lines that belong together. *)
Record one_run (c : DelimiterClass) (lo hi : Z) : Prop := {
  run_class : forall k, lo <= k < hi -> class_at k = c;
  run_lines : forall k, lo < k < hi -> k mod w = 0 -> crosses (k / w - 1) = true
}.
(** Nothing in front of [lo], or behind [hi], belongs to the run. *)
Definition starts_run (c : DelimiterClass) (lo : Z) : Prop := lo = 0 \/ class_at (lo - 1) <> c \/ lo mod w = 0 /\ crosses (lo / w - 1) = false.
Definition ends_run (c : DelimiterClass) (hi : Z) : Prop := hi = w * h \/ class_at hi <> c \/ hi mod w = 0 /\ crosses (hi / w - 1) = false.

Lemma width_bounds : 1 <= w < 0x8000 /\ 1 <= h < 2 ^ 16.
Proof. destruct (good_ok b0 Hg0) as [Hw Hh _ _ _]. done. Qed.

Lemma cell_in k : 0 <= k < w * h -> 0 <= k mod w < w /\ 0 <= k / w < h.
Proof. pose proof width_bounds as [Hw Hh]. intros Hk. split; [apply Z.mod_pos_bound; lia|]. split; [apply Z.div_pos; lia|apply Z.div_lt_upper_bound; lia]. Qed.
Lemma cell_prev k : 0 < k < w * h -> cell_at (k - 1) = if k mod w =? 0 then point.mk (w - 1) (k / w - 1) else point.mk (k mod w - 1) (k / w).
Proof.
  pose proof width_bounds as [Hw Hh]. intros Hk. pose proof (Z.div_mod k w ltac:(lia)) as E. pose proof (cell_in k ltac:(lia)) as [Hx Hy]. unfold cell_at. destruct (Z.eqb_spec (k mod w) 0).
  - f_equal; [symmetry; apply (Z.mod_unique _ _ (k / w - 1)); lia|symmetry; apply (Z.div_unique _ _ _ (w - 1)); lia].
  - f_equal; [symmetry; apply (Z.mod_unique _ _ (k / w)); lia|symmetry; apply (Z.div_unique _ _ _ (k mod w - 1)); lia].
Qed.
Lemma one_run_prev c k hi : one_run c k hi -> class_at (k - 1) = c -> (k mod w = 0 -> crosses (k / w - 1) = true) -> one_run c (k - 1) hi.
Proof.
  intros [Hc Hl] Hp Hx. split; intros j Hj.
  - destruct (Z.eq_dec j (k - 1)) as [->|]; [done|apply Hc; lia].
  - intros Hm. destruct (Z.eq_dec j k) as [->|]; [by apply Hx|apply Hl; [lia|done]].
Qed.

(** One round of the loop. *)
Lemma run_start_origin fuel c b pos Q : alike b0 b -> Q b pos -> returns (run_start (S fuel) delimiters accessibilityMode c pos (point.mk 0 0)) b Q.
Proof. intros Ha HQ. cbn [Navigation.run_start]. do 2 step. cbn [id]. rewrite (alike_size b0 b Ha). by apply returns_ret. Qed.
Lemma right_exclusive : Viewport.RightExclusive (GetSize b0) = w.
Proof. unfold Viewport.RightExclusive, GetSize, Viewport.FromDimensions. cbn. lia. Qed.
Lemma run_start_step fuel c b pos x y Q : alike b0 b -> 0 <= x <= w -> 0 <= y < h -> ~ (x = 0 /\ y = 0) ->
  returns (if x =? 0 then
      wrapForced ← was_wrapped (y - 1);
      if negb wrapForced && negb accessibilityMode then mret pos else run_start fuel delimiters accessibilityMode c pos (point.mk w (y - 1))
    else
      c' ← _GetDelimiterClassAt (point.mk (x - 1) y) delimiters;
      if decide (c' = c) then run_start fuel delimiters accessibilityMode c (point.mk (x - 1) y) (point.mk (x - 1) y) else mret pos) b Q ->
  returns (run_start (S fuel) delimiters accessibilityMode c pos (point.mk x y)) b Q.
Proof.
  intros Ha Hx Hy Hn HQ. pose proof width_bounds as [Hw Hh]. cbn [Navigation.run_start]. do 2 step. cbn [id]. rewrite (alike_size b0 b Ha), right_exclusive.
  assert (point.eqb (point.mk x y) (Viewport.Origin (GetSize b0)) = false) as -> by (unfold point.eqb; cbn; lia).
  unfold GetSize. rewrite dec_exclusive by done. step. apply returns_ret. destruct (Z.eqb_spec x 0); cbn [point.x point.y]; [by rewrite Z.eqb_refl|]. by destruct (Z.eqb_spec (x - 1) w); [lia|].
Qed.

Lemma run_start_ok c hi fuel : forall b k nextPos, alike b0 b -> 0 <= k < w * h -> one_run c k hi ->
  nextPos = cell_at k \/ (k mod w = 0 /\ 0 < k /\ crosses (k / w - 1) = true /\ nextPos = point.mk w (k / w - 1)) ->
  (w + 1) * point.y nextPos + point.x nextPos < Z.of_nat fuel ->
  returns (run_start fuel delimiters accessibilityMode c (cell_at k) nextPos) b (fun b' p => alike b0 b' /\ exists s, p = cell_at s /\ 0 <= s <= k /\ one_run c s hi /\ starts_run c s).
Proof.
  pose proof width_bounds as [Hw Hh]. induction fuel as [|fuel IH]; intros b k nextPos Ha Hk Hr Hn Hf; pose proof (cell_in k Hk) as [Hx Hy]; pose proof (Z.div_mod k w ltac:(lia)) as Ek.
  { destruct Hn as [->|(Hm & Hp & _ & ->)]; cbn in Hf; nia. }
  assert (Hprev : forall x y, point.mk x y = cell_at (k - 1) -> 0 < k -> (k mod w = 0 -> crosses (k / w - 1) = true) -> (w + 1) * y + x < Z.of_nat fuel ->
    returns (c' ← _GetDelimiterClassAt (point.mk x y) delimiters; if decide (c' = c) then run_start fuel delimiters accessibilityMode c (point.mk x y) (point.mk x y) else mret (cell_at k)) b
      (fun b' p => alike b0 b' /\ exists s, p = cell_at s /\ 0 <= s <= k /\ one_run c s hi /\ starts_run c s)).
  { intros x y Exy H1 H2 H3. apply returns_bind, (class_reads b delimiters _ (alike_good _ _ Ha)). intros b' Ha'. rewrite (class_of_alike b0 b) by done. rewrite Exy. fold (class_at (k - 1)).
    assert (alike b0 b') by (by apply (alike_trans b0 b b')). destruct (decide (class_at (k - 1) = c)) as [E|E].
    - eapply returns_mono; [apply (IH b' (k - 1)); [done|lia|by apply one_run_prev|by left|by rewrite <- Exy]|]. intros b2 p (A & s & -> & Hs & R). split; [done|]. exists s. split; [done|]. split; [lia|done].
    - apply returns_ret. split; [done|]. exists k. split; [done|]. split; [lia|]. split; [done|]. right. by left. }
  destruct Hn as [->|(Hm & Hp & Hcr & ->)].
  - destruct (Z.eq_dec k 0) as [->|Hk0]; [change (cell_at 0) with (point.mk (0 mod w) (0 / w)); rewrite Z.mod_0_l, Z.div_0_l by lia; apply run_start_origin; [done|]; split; [done|]; exists 0; split; [unfold cell_at; by rewrite Z.mod_0_l, Z.div_0_l by lia|]; split; [lia|]; split; [done|by left]|].
    cbn [cell_at point.x point.y] in Hf. apply run_start_step; [done|lia|lia|nia|]. destruct (Z.eqb_spec (k mod w) 0) as [E0|E0].
    + apply returns_bind, (was_wrapped_reads b _ (alike_good _ _ Ha)). intros b' Ha'. rewrite (wrapped_line_alike b0 b) by done. assert (alike b0 b') by (by apply (alike_trans b0 b b')).
      destruct (negb (wrapped_line b0 (k / w - 1)) && negb accessibilityMode) eqn:E.
      * apply returns_ret. split; [done|]. exists k. split; [done|]. split; [lia|]. split; [done|]. right. right. split; [done|]. unfold crosses. by destruct accessibilityMode, (wrapped_line b0 _).
      * apply IH; [done|done|done| |cbn; nia]. right. split; [done|]. split; [lia|]. split; [|done]. unfold crosses. by destruct accessibilityMode, (wrapped_line b0 _).
    + apply Hprev; [|lia|done|lia]. rewrite cell_prev by lia. by destruct (Z.eqb_spec (k mod w) 0).
  - cbn [point.x point.y] in Hf. apply run_start_step; [done|lia|nia|lia|]. destruct (Z.eqb_spec w 0); [lia|]. apply Hprev; [|lia|done|lia]. rewrite cell_prev by lia. by destruct (Z.eqb_spec (k mod w) 0).
Qed.

(** The other direction. *)
Lemma run_end_last fuel c b pos Q : alike b0 b -> Q b pos -> returns (run_end (S fuel) delimiters accessibilityMode c pos (point.mk w (h - 1))) b Q.
Proof.
  intros Ha HQ. cbn [Navigation.run_end]. do 2 step. cbn [id]. rewrite (alike_size b0 b Ha). unfold Viewport.BottomInclusiveRightExclusive. rewrite right_exclusive.
  unfold point.eqb, Viewport.BottomInclusive, GetSize, Viewport.FromDimensions. cbn. replace (0 + h - 1) with (h - 1) by lia. rewrite !Z.eqb_refl. by apply returns_ret.
Qed.
Definition if_changed (c : DelimiterClass) (p : point.t) : comp (TextBuffer D) bool := c' ← _GetDelimiterClassAt p delimiters; mret (negb (bool_decide (c' = c))).
Lemma run_end_step fuel c b x y Q : alike b0 b -> 0 <= x <= w -> 0 <= y < h -> ~ (x = w /\ y = h - 1) ->
  returns (if x =? w then
      wrapForced ← was_wrapped y;
      if accessibilityMode then
        c' ← _GetDelimiterClassAt (point.mk 0 (y + 1)) delimiters;
        if decide (c' = c) then run_end fuel delimiters accessibilityMode c (point.mk 0 (y + 1)) (point.mk 0 (y + 1)) else mret (point.mk 0 (y + 1))
      else
        changed ← (if negb wrapForced then mret true else if_changed c (point.mk 0 (y + 1)));
        if changed : bool then mret (point.mk w y) else run_end fuel delimiters accessibilityMode c (point.mk 0 (y + 1)) (point.mk 0 (y + 1))
    else
      changed ← (if x + 1 <? w then if_changed c (point.mk (x + 1) y) else mret false);
      if changed : bool then mret (point.mk (x + 1) y) else run_end fuel delimiters accessibilityMode c (point.mk (x + 1) y) (point.mk (x + 1) y)) b Q ->
  returns (run_end (S fuel) delimiters accessibilityMode c (point.mk x y) (point.mk x y)) b Q.
Proof.
  intros Ha Hx Hy Hn HQ. pose proof width_bounds as [Hw Hh]. cbn [Navigation.run_end]. do 2 step. cbn [id]. rewrite (alike_size b0 b Ha).
  assert (point.eqb (point.mk x y) (Viewport.BottomInclusiveRightExclusive (GetSize b0)) = false) as ->.
  { unfold point.eqb, Viewport.BottomInclusiveRightExclusive. rewrite right_exclusive. unfold Viewport.BottomInclusive, GetSize, Viewport.FromDimensions. cbn. lia. }
  unfold GetSize. rewrite inc_exclusive by done. step. apply returns_ret. destruct (Z.eqb_spec x w) as [->|]; cbn [point.x point.y]; change (Viewport.Left _) with 0; [exact HQ|].
  destruct (Z.eqb_spec (x + 1) 0); [lia|]. rewrite in_bounds. destruct (Z.ltb_spec (x + 1) w).
  - destruct (Z.leb_spec 0 (x + 1)), (Z.leb_spec 0 y), (Z.ltb_spec y h); try lia. exact HQ.
  - rewrite andb_false_r. exact HQ.
Qed.

Lemma if_changed_reads c b p : alike b0 b -> reads (if_changed c p) b (negb (bool_decide (class_of b0 delimiters p = c))).
Proof.
  intros Ha. rewrite <- (class_of_alike b0 b) by done. apply (reads_bind _ _ _ (class_of b delimiters p)); [by apply class_reads, Ha|]. intros b' Ha'. apply reads_ret, Ha'.
Qed.

(** Where the loop is, having seen the cells from [n] on. *)
Record scanned (c : DelimiterClass) (n x y : Z) : Prop := {
  scan_column : 0 <= x <= w;
  scan_line : 0 <= y < h;
  scan_run : one_run c n (w * y + x);
  scan_inside : x < w -> n <= w * y + x /\ class_at (w * y + x) = c /\ (n < w * y + x -> x = 0 -> crosses (y - 1) = true);
  scan_edge : x = w -> n < w * y + x
}.
Lemma cell_number x y : 0 <= x < w -> cell_at (w * y + x) = point.mk x y.
Proof. intros Hx. unfold cell_at. f_equal; [symmetry; by apply (Z.mod_unique _ _ y); [left|]|symmetry; by apply (Z.div_unique _ _ _ x); [left|]]. Qed.
Lemma one_run_next c n e : one_run c n e -> class_at e = c -> (n < e -> e mod w = 0 -> crosses (e / w - 1) = true) -> one_run c n (e + 1).
Proof.
  intros [Hc Hl] He Hx. split; intros j Hj.
  - destruct (Z.eq_dec j e) as [->|]; [done|apply Hc; lia].
  - intros Hm. destruct (Z.eq_dec j e) as [->|]; [by apply Hx; [lia|]|apply Hl; [lia|done]].
Qed.

(** The end of a run: a position behind its last cell. *)
Definition run_until (c : DelimiterClass) (n : Z) (p : point.t) : Prop :=
  0 <= point.x p <= w /\ 0 <= point.y p < h /\ let e := w * point.y p + point.x p in n < e /\ one_run c n e /\ ends_run c e.

Lemma scanned_next c n x y : scanned c n x y -> x < w -> one_run c n (w * y + x + 1).
Proof.
  intros [Hx Hy Hr Hi He] Hlt. pose proof width_bounds as [Hw Hh]. destruct (Hi Hlt) as (H1 & H2 & H3). apply one_run_next; [done|done|]. intros Hn Hm.
  assert ((w * y + x) mod w = x /\ (w * y + x) / w = y) as [E1 E2] by (split; [symmetry; apply (Z.mod_unique _ _ y); lia|symmetry; apply (Z.div_unique _ _ _ x); lia]).
  rewrite E2. apply H3; [done|]. by rewrite <- E1.
Qed.

Lemma run_end_ok c n fuel : forall b x y, alike b0 b -> scanned c n x y -> (w + 1) * h - ((w + 1) * y + x) < Z.of_nat fuel ->
  returns (run_end fuel delimiters accessibilityMode c (point.mk x y) (point.mk x y)) b (fun b' p => alike b0 b' /\ run_until c n p).
Proof.
  pose proof width_bounds as [Hw Hh]. induction fuel as [|fuel IH]; intros b x y Ha Hs Hf; pose proof Hs as [Hx Hy Hr Hi He]; [nia|].
  destruct (Z.eq_dec x w) as [->|Hxw].
  - specialize (He eq_refl). destruct (Z.eq_dec y (h - 1)) as [->|Hyh].
    { apply run_end_last; [done|]. split; [done|]. split; [cbn; lia|]. split; [cbn; lia|]. cbn. split; [done|]. split; [done|]. left. lia. }
    assert (class_at (w * y + w) = class_of b0 delimiters (point.mk 0 (y + 1))) as Ec by (unfold class_at; replace (w * y + w) with (w * (y + 1) + 0) by lia; by rewrite cell_number by lia).
    assert ((w * y + w) mod w = 0 /\ (w * y + w) / w - 1 = y) as [Em Ed] by (replace (w * y + w) with ((y + 1) * w) by lia; rewrite Z.mod_mul, Z.div_mul by lia; lia).
    assert (Hnext : class_of b0 delimiters (point.mk 0 (y + 1)) = c -> crosses y = true -> scanned c n 0 (y + 1)).
    { intros H1 H2. replace (w * y + w) with (w * (y + 1) + 0) in * by lia. split; [lia|lia|done| |lia]. intros _. split; [lia|]. split; [by rewrite Ec|]. intros _ _. by replace (y + 1 - 1) with y by lia. }
    apply run_end_step; [done|lia|lia|lia|]. rewrite Z.eqb_refl. apply returns_bind, (was_wrapped_reads b _ (alike_good _ _ Ha)). intros b1 Ha1. rewrite (wrapped_line_alike b0 b) by done.
    assert (alike b0 b1) as A1 by (by apply (alike_trans b0 b b1)). destruct accessibilityMode eqn:Eacc.
    + apply returns_bind, (class_reads b1 delimiters _ (alike_good _ _ Ha1)). intros b2 Ha2. assert (alike b0 b2) as A2 by (by apply (alike_trans b0 b1 b2)). rewrite (class_of_alike b0 b1) by done.
      destruct (decide (class_of b0 delimiters (point.mk 0 (y + 1)) = c)) as [E|E].
      * apply IH; [done|apply Hnext; [done|]; unfold crosses; by rewrite Eacc|nia].
      * apply returns_ret. split; [done|]. split; [cbn; lia|]. split; [cbn; lia|]. cbn. replace (w * (y + 1) + 0) with (w * y + w) by lia. split; [done|]. split; [done|]. right. left. by rewrite Ec.
    + apply returns_bind. destruct (wrapped_line b0 y) eqn:Ewr; cbn [negb].
      * apply (if_changed_reads c b1 _ A1). intros b2 Ha2. assert (alike b0 b2) as A2 by (by apply (alike_trans b0 b1 b2)).
        destruct (bool_decide_reflect (class_of b0 delimiters (point.mk 0 (y + 1)) = c)) as [E|E]; cbn [negb].
        { apply IH; [done|apply Hnext; [done|]; unfold crosses; by rewrite Ewr, orb_true_r|nia]. }
        apply returns_ret. split; [done|]. split; [cbn; lia|]. split; [cbn; lia|]. cbn. split; [done|]. split; [done|]. right. left. by rewrite Ec.
      * apply returns_ret, returns_ret. split; [done|]. split; [cbn; lia|]. split; [cbn; lia|]. cbn. split; [done|]. split; [done|]. right. right. split; [done|]. unfold crosses. by rewrite Ed, Eacc, Ewr.
  - pose proof (scanned_next c n x y Hs ltac:(lia)) as Hr'. destruct (Hi ltac:(lia)) as (H1 & H2 & H3). rewrite <- Z.add_assoc in Hr'.
    apply run_end_step; [done|lia|lia|lia|]. destruct (Z.eqb_spec x w); [lia|]. destruct (Z.ltb_spec (x + 1) w).
    + apply returns_bind, (if_changed_reads c b _ Ha). intros b1 Ha1. assert (alike b0 b1) as A1 by (by apply (alike_trans b0 b b1)).
      assert (class_at (w * y + (x + 1)) = class_of b0 delimiters (point.mk (x + 1) y)) as Ec by (unfold class_at; by rewrite cell_number by lia).
      destruct (bool_decide_reflect (class_of b0 delimiters (point.mk (x + 1) y) = c)) as [E|E]; cbn [negb].
      * apply IH; [done| |nia]. split; [lia|lia|done| |lia]. intros _. split; [lia|]. split; [by rewrite Ec|lia].
      * apply returns_ret. split; [done|]. split; [cbn; lia|]. split; [cbn; lia|]. cbn. split; [lia|]. split; [done|]. right. left. by rewrite Ec.
    + do 2 step. apply IH; [done| |nia]. split; [lia|lia|done|lia|lia].
Qed.

Local Abbreviation _GetDelimiterClassRunStart := (Navigation._GetDelimiterClassRunStart (avx2 P) (uninitialised P) (rowSize P)).
Local Abbreviation _GetDelimiterClassRunEnd := (Navigation._GetDelimiterClassRunEnd (avx2 P) (uninitialised P) (rowSize P)).

Lemma cell_in_bounds n : 0 <= n < w * h -> Viewport.IsInBounds (GetSize b0) (cell_at n) false = true.
Proof. pose proof width_bounds as [Hw Hh]. intros Hn. pose proof (cell_in n Hn). unfold GetSize, cell_at. rewrite in_bounds by done. lia. Qed.
Lemma class_in_bounds_reads b n : alike b0 b -> 0 <= n < w * h -> reads (class_in_bounds (cell_at n) delimiters) b (class_at n).
Proof.
  intros Ha Hn. unfold Navigation.class_in_bounds. intros Q HQ. do 2 step. cbn [id]. rewrite (alike_size b0 b Ha), cell_in_bounds by done. apply (class_reads b delimiters _ (alike_good _ _ Ha)).
  intros b' Ha'. rewrite (class_of_alike b0 b) by done. by apply HQ.
Qed.
Lemma walk_fuel_alike b : alike b0 b -> walk_fuel b = walk_fuel b0.
Proof. intros [_ F _]. apply frame_fields in F as (E1 & E2 & _). unfold walk_fuel. by rewrite E1, E2. Qed.

Lemma one_run_cell n : one_run (class_at n) n (n + 1).
Proof. split; intros k Hk; [by replace k with n by lia|lia]. Qed.

Lemma run_start_returns b n : alike b0 b -> 0 <= n < w * h ->
  returns (_GetDelimiterClassRunStart (cell_at n) delimiters accessibilityMode) b
    (fun b' p => alike b0 b' /\ exists lo, p = cell_at lo /\ 0 <= lo <= n /\ one_run (class_at n) lo (n + 1) /\ starts_run (class_at n) lo).
Proof.
  intros Ha Hn. pose proof width_bounds as [Hw Hh]. unfold Navigation._GetDelimiterClassRunStart. apply returns_bind, (class_in_bounds_reads b n Ha Hn). intros b1 Ha1.
  assert (alike b0 b1) as A1 by (by apply (alike_trans b0 b b1)). do 2 step. cbn [id]. rewrite (walk_fuel_alike b1 A1).
  apply run_start_ok; [done|done|apply one_run_cell|by left|]. pose proof (cell_in n Hn). unfold walk_fuel, cell_at. cbn. nia.
Qed.
Lemma run_end_returns b n : alike b0 b -> 0 <= n < w * h ->
  returns (_GetDelimiterClassRunEnd (cell_at n) delimiters accessibilityMode) b (fun b' p => alike b0 b' /\ run_until (class_at n) n p).
Proof.
  intros Ha Hn. pose proof width_bounds as [Hw Hh]. unfold Navigation._GetDelimiterClassRunEnd. apply returns_bind, (class_in_bounds_reads b n Ha Hn). intros b1 Ha1.
  assert (alike b0 b1) as A1 by (by apply (alike_trans b0 b b1)). do 2 step. cbn [id]. rewrite (walk_fuel_alike b1 A1). pose proof (cell_in n Hn) as [Hx Hy].
  assert (w * (n / w) + n mod w = n) as En by (rewrite <- Z.div_mod; lia).
  apply run_end_ok; [done| |unfold walk_fuel; nia]. split; [lia|lia| | |lia].
  - rewrite En. split; intros; lia.
  - intros _. rewrite En. split; [lia|]. split; [done|lia].
Qed.
End Words.

(** ** Words *)

Local Abbreviation GetWordStart := (Navigation.GetWordStart (avx2 P) (uninitialised P) (rowSize P)).
Local Abbreviation GetWordEnd := (Navigation.GetWordEnd (avx2 P) (uninitialised P) (rowSize P)).

Lemma one_run_join b0 delimiters a c lo n hi : one_run b0 delimiters a c lo (n + 1) -> one_run b0 delimiters a c n hi -> one_run b0 delimiters a c lo hi.
Proof.
  intros [C1 L1] [C2 L2]. split; intros k Hk; [destruct (Z.le_gt_cases k n); [apply C1|apply C2]; lia|]. intros Hm. destruct (Z.le_gt_cases k n); [apply L1|apply L2]; try lia; done.
Qed.

Lemma cell_before_limit b n : good_buffer b -> 0 <= n < _width b * _height b ->
  point.lt (cell_at b n) (Viewport.Origin (GetSize b)) = false /\ point.ge (cell_at b n) (Viewport.BottomInclusiveRightExclusive (GetSize b)) = false.
Proof.
  intros Hg Hn. pose proof (cell_in b Hg n Hn) as [Hx Hy]. unfold point.lt, point.ge, Viewport.BottomInclusiveRightExclusive. rewrite right_exclusive by done. unfold Viewport.BottomInclusive, GetSize, Viewport.FromDimensions. cbn. split; lia.
Qed.
Lemma word_start_returns b delimiters n : good_buffer b -> 0 <= n < _width b * _height b ->
  returns (GetWordStart (cell_at b n) delimiters false None) b (fun b' p => alike b b' /\ exists lo, p = cell_at b lo /\ 0 <= lo <= n /\
    one_run b delimiters false (class_at b delimiters n) lo (n + 1) /\ starts_run b delimiters false (class_at b delimiters n) lo).
Proof.
  intros Hg Hn. pose proof (alike_refl b Hg) as Ha. destruct (cell_before_limit b n Hg Hn) as [E1 E2]. unfold Navigation.GetWordStart. do 2 step. cbn [id default from_option]. rewrite E1, E2.
  apply returns_bind, (class_in_bounds_reads b Hg delimiters b n Ha Hn). intros b1 A1. apply returns_bind. eapply returns_mono; [by apply (run_start_returns b Hg)|]. intros b2 p Hp. by apply returns_ret.
Qed.
Lemma word_end_returns b delimiters b' n : good_buffer b -> alike b b' -> 0 <= n < _width b * _height b ->
  returns (GetWordEnd (cell_at b n) delimiters false None) b' (fun b' p => alike b b' /\ run_until b delimiters false (class_at b delimiters n) n p).
Proof.
  intros Hg Ha Hn. destruct (cell_before_limit b n Hg Hn) as [E1 E2]. unfold Navigation.GetWordEnd. do 2 step. cbn [id default from_option]. rewrite (alike_size b b' Ha), E1, E2.
  apply returns_bind. eapply returns_mono; [by apply (run_end_returns b Hg)|]. intros b2 p [A2 Hp]. pose proof Hp as (Hx & Hy & _).
  destruct (point.ge p (Viewport.BottomInclusiveRightExclusive (GetSize b))) eqn:E; [|by apply returns_ret].
  assert (p = Viewport.BottomInclusiveRightExclusive (GetSize b)) as <-; [|by apply returns_ret].
  unfold point.ge, Viewport.BottomInclusiveRightExclusive in *. rewrite right_exclusive in * by done. unfold Viewport.BottomInclusive, GetSize, Viewport.FromDimensions in *. cbn in *. destruct p as [x y]. cbn in *. f_equal; lia.
Qed.

(** C19: a double click selects a word. For every cell [n] of a buffer, both searches come
    back, no line changes, and what lies between them, from [lo] to [hi], holds the cell and
    is a maximal run of characters of its class: all cells are of the class, every line
    but the last goes on in the next one, and neither the cell in front of it nor the
    one behind it could be added. *)
Theorem word_is_maximal_run b delimiters n : good_buffer b -> 0 <= n < _width b * _height b ->
  returns (first ← GetWordStart (cell_at b n) delimiters false None; last ← GetWordEnd (cell_at b n) delimiters false None; mret (first, last)) b
    (fun b' '(first, last) => alike b b' /\ exists lo, first = cell_at b lo /\ 0 <= lo <= n /\ let hi := _width b * point.y last + point.x last in n < hi <= _width b * _height b /\
      let c := class_at b delimiters n in one_run b delimiters false c lo hi /\ starts_run b delimiters false c lo /\ ends_run b delimiters false c hi).
Proof.
  intros Hg Hn. pose proof (alike_refl b Hg) as Ha. apply returns_bind. eapply returns_mono; [by apply word_start_returns|]. intros b1 first (A1 & lo & -> & Hlo & R1 & S1).
  apply returns_bind. eapply returns_mono; [by apply (word_end_returns b delimiters b1)|]. intros b2 last (A2 & Hx & Hy & He & R2 & S2). apply returns_ret. split; [done|]. exists lo. split; [done|]. split; [done|].
  split; [nia|]. split; [by eapply one_run_join|done].
Qed.

(** ** The iterator over cells *)

(** What a cell of a row shows. *)
Record shown (r : ROW) (x : Z) (cell : OutputCell) : Prop := {
  shown_text : GlyphAt x r = Some (_text cell);
  shown_half : DbcsAttrAt x r = Some (_dbcsAttribute cell);
  shown_attribute : contents (_attr r) !! Z.to_nat x = Some (_textAttribute cell);
  shown_behavior : _behavior cell = Stored
}.
(** The bounds lie in the buffer, the position in the bounds, and row, attribute and view
    are those of the position. *)
Record points_to b (it : TextBufferCellIterator) : Prop := {
  to_columns : 0 <= inclusive_rect.left (_bounds it) /\ inclusive_rect.right (_bounds it) < _width b;
  to_lines : 0 <= inclusive_rect.top (_bounds it) /\ inclusive_rect.bottom (_bounds it) < _height b;
  to_inside : in_viewport (_bounds it) (cell_pos it);
  to_row : exists r, line b (point.y (cell_pos it)) = Some r /\ _rows b !! _pRow it = Some r /\
    valid_iterator (_attrIter it) (_attr r) /\ offset (_attrIter it) (_attr r) = point.x (cell_pos it) /\ shown r (point.x (cell_pos it)) (_view it)
}.

Lemma column_here r gs x : row_ok r gs -> 0 <= x < _columnCount r -> exists pre g post i, gs = pre ++ g :: post /\ (i < g_width g)%nat /\ x = Z.of_nat (columns pre + i).
Proof.
  intros [Hc H1 Hok _ _ _ _] Hx. destruct (locate gs (Z.to_nat x) Hok ltac:(lia)) as (pre & g & post & i & E & Hi & Hk). exists pre, g, post, i. split; [done|]. split; [done|lia].
Qed.
Lemma generate_view_ok b slot r i x : _rows b !! slot = Some r -> row_good r -> 0 <= x < _columnCount r -> valid_iterator i (_attr r) -> offset i (_attr r) = x ->
  exists cell, generate_view slot i x b = (b, Returned cell) /\ shown r x cell.
Proof.
  intros Hr [[gs Hrow] Hattr Hsize] Hx Hv Ho. destruct (column_here r gs x Hrow Hx) as (pre & g & post & j & E & Hj & ->).
  pose proof (GlyphAt_here r gs pre g post j Hrow E Hj) as Hgl. pose proof (DbcsAttrAt_here r gs pre g post j Hrow E Hj) as Hdb.
  destruct (lookup_lt_is_Some_2 (contents (_attr r)) (Z.to_nat (Z.of_nat (columns pre + j))) ltac:(lia)) as [a Ea].
  eexists (mkCell (g_chars g) _ a Stored). split; [|by split; [exact Hgl|exact Hdb|exact Ea|]].
  unfold generate_view, with_text, row_at, mbind, comp_bind. rewrite Hr, Hgl. cbn -[DbcsAttrAt]. rewrite Hr, Hdb. cbn. rewrite Hr, (deref_ok 16) by done. rewrite Ho, Ea. done.
Qed.
Lemma attr_advance_ok b slot r i n : _rows b !! slot = Some r -> row_good r -> valid_iterator i (_attr r) -> 0 <= offset i (_attr r) + n <= _columnCount r ->
  exists j, attr_advance slot i n b = (b, Returned j) /\ valid_iterator j (_attr r) /\ offset j (_attr r) = offset i (_attr r) + n.
Proof.
  intros Hr [_ Hattr Hsize] Hv Hn. destruct (advance_ok 16 i n (_attr r) Hattr Hv) as (j & E & Hj & Ho).
  { rewrite <- Hsize, (size_contents 16) in Hn by done. exact Hn. }
  exists j. split; [|done]. unfold attr_advance, with_text, row_at, mbind, comp_bind. by rewrite Hr, E.
Qed.

(** Moving by index within the bounds. *)
Definition nth_cell (v : Viewport.t) (i : Z) : point.t := point.mk (inclusive_rect.left v + i mod Viewport.Width v) (inclusive_rect.top v + i / Viewport.Width v).
Definition cells_of (v : Viewport.t) : Z := Viewport.Width v * Viewport.Height v.
Definition index_in (v : Viewport.t) (p : point.t) : Z := reading_index v (Viewport.Width v) p.

Lemma nth_cell_in v i : 1 <= Viewport.Width v -> 0 <= i < cells_of v -> in_viewport v (nth_cell v i) /\ index_in v (nth_cell v i) = i.
Proof.
  unfold cells_of, index_in, reading_index, nth_cell. cbn [point.x point.y]. intros Hw Hi. pose proof (Z.mod_pos_bound i (Viewport.Width v) ltac:(lia)). pose proof (Z.div_mod i (Viewport.Width v) ltac:(lia)).
  assert (0 <= i / Viewport.Width v < Viewport.Height v) by (split; [apply Z.div_pos; lia|apply Z.div_lt_upper_bound; lia]). split; [|lia].
  unfold in_viewport. unfold Viewport.Width, Viewport.Height in *. viewport. cbn [point.x point.y]. lia.
Qed.
Lemma index_nth v p : in_viewport v p -> 0 <= index_in v p < cells_of v /\ p = nth_cell v (index_in v p).
Proof.
  unfold in_viewport, cells_of, index_in, reading_index, nth_cell. destruct p as [x y]. unfold Viewport.Width, Viewport.Height. viewport. cbn [point.x point.y]. intros Hp.
  set (W := inclusive_rect.right v + 1 - inclusive_rect.left v) in *. split; [unfold W in *; nia|]. f_equal.
  - rewrite <- (Z.mod_unique (W * (y - inclusive_rect.top v) + (x - inclusive_rect.left v)) W (y - inclusive_rect.top v) (x - inclusive_rect.left v)); unfold W; lia.
  - rewrite <- (Z.div_unique (W * (y - inclusive_rect.top v) + (x - inclusive_rect.left v)) W (y - inclusive_rect.top v) (x - inclusive_rect.left v)); unfold W; lia.
Qed.
Lemma nth_cell_succ v i : 1 <= Viewport.Width v -> 0 <= i ->
  nth_cell v (i + 1) = if i mod Viewport.Width v =? Viewport.Width v - 1 then point.mk (inclusive_rect.left v) (inclusive_rect.top v + i / Viewport.Width v + 1)
    else point.mk (inclusive_rect.left v + i mod Viewport.Width v + 1) (inclusive_rect.top v + i / Viewport.Width v).
Proof.
  intros Hw Hi. unfold nth_cell. set (W := Viewport.Width v) in *. pose proof (Z.mod_pos_bound i W ltac:(lia)). pose proof (Z.div_mod i W ltac:(lia)). destruct (Z.eqb_spec (i mod W) (W - 1)).
  - rewrite <- (Z.mod_unique (i + 1) W (i / W + 1) 0), <- (Z.div_unique (i + 1) W (i / W + 1) 0) by lia. f_equal; lia.
  - rewrite <- (Z.mod_unique (i + 1) W (i / W) (i mod W + 1)), <- (Z.div_unique (i + 1) W (i / W) (i mod W + 1)) by lia. f_equal; lia.
Qed.
Lemma move_cells_ok v m : 1 <= Viewport.Width v -> forall i, 0 <= i < cells_of v ->
  move_cells m v (point.x (nth_cell v i)) (point.y (nth_cell v i)) false =
  if i + Z.of_nat m <? cells_of v then (point.x (nth_cell v (i + Z.of_nat m)), point.y (nth_cell v (i + Z.of_nat m)), false) else (inclusive_rect.left v, inclusive_rect.top v, true).
Proof.
  intros Hw. induction m as [|m IH]; intros i Hi; cbn [move_cells].
  { rewrite Z.add_0_r. by destruct (Z.ltb_spec i (cells_of v)); [|lia]. }
  pose proof (nth_cell_succ v i Hw ltac:(lia)) as Hs. pose proof (Z.mod_pos_bound i (Viewport.Width v) ltac:(lia)). pose proof (Z.div_mod i (Viewport.Width v) ltac:(lia)) as Ed.
  assert ((point.x (nth_cell v i) =? Viewport.RightInclusive v) = (i mod Viewport.Width v =? Viewport.Width v - 1)) as -> by (cbn; unfold Viewport.Width; viewport; lia).
  replace (i + Z.of_nat (S m)) with (i + 1 + Z.of_nat m) by lia. destruct (Z.eqb_spec (i mod Viewport.Width v) (Viewport.Width v - 1)) as [E|E].
  - cbn [nth_cell point.y]. destruct (Z.ltb_spec (Viewport.BottomInclusive v) (inclusive_rect.top v + i / Viewport.Width v + 1)) as [Hb|Hb].
    + destruct (Z.ltb_spec (i + 1 + Z.of_nat m) (cells_of v)) as [Hlt|]; [|done]. unfold cells_of, Viewport.Height in *. viewport. nia.
    + replace (Viewport.Left v) with (point.x (nth_cell v (i + 1))) by (rewrite Hs; done). replace (inclusive_rect.top v + i / Viewport.Width v + 1) with (point.y (nth_cell v (i + 1))) by (rewrite Hs; done).
      apply IH. unfold cells_of, Viewport.Height in *. viewport. nia.
  - replace (point.x (nth_cell v i) + 1) with (point.x (nth_cell v (i + 1))) by (rewrite Hs; done). replace (point.y (nth_cell v i)) with (point.y (nth_cell v (i + 1))) by (rewrite Hs; done).
    apply IH. unfold cells_of in *. assert (i / Viewport.Width v < Viewport.Height v) by (apply Z.div_lt_upper_bound; lia). nia.
Qed.

Local Abbreviation add_assign := (Navigation.add_assign (avx2 P) (uninitialised P) (rowSize P)).
Local Abbreviation s_GetRow := (Navigation.s_GetRow (avx2 P) (uninitialised P) (rowSize P)).

(** The iterator now points to [p], with its bounds. *)
Definition moved_to b (it : TextBufferCellIterator) (p : point.t) (exceeded : bool) : TextBuffer D -> TextBufferCellIterator -> Prop := fun b' it' =>
  alike b b' /\ points_to b' it' /\ _bounds it' = _bounds it /\ cell_pos it' = p /\ _exceeded it' = exceeded.

Lemma get_row_rule b y (Q : _ -> _ -> Prop) : good_buffer b ->
  (forall b' slot r, alike b b' -> _rows b' !! slot = Some r -> line b y = Some r -> row_good r -> _columnCount r = _width b -> Q b' slot) -> returns (GetRowByOffset y) b Q.
Proof.
  intros Hg HQ. destruct (get_ok (avx2 P) (uninitialised P) (rowSize P) b y Hg) as (b' & r & E & Hg' & Hs & _ & Hrow & Hl & Hr & Hc). exists b', (slot_of b y). split; [exact E|].
  apply (HQ b' (slot_of b y) r); try done. split; [done|apply Hs|intros z; by apply shows_line].
Qed.
(** From the beginning of a row, or from a position in it, to the column [x]. *)
Lemma generated b b1 it slot r i p exceeded : alike b b1 -> points_to b it -> in_viewport (_bounds it) p -> _rows b1 !! slot = Some r -> line b (point.y p) = Some r -> row_good r -> _columnCount r = _width b ->
  valid_iterator i (_attr r) -> offset i (_attr r) = point.x p -> forall view, exists view',
  _GenerateView (mkCellIterator i view slot (_bounds it) exceeded p) b1 = (b1, Returned (mkCellIterator i view' slot (_bounds it) exceeded p)) /\
  moved_to b it p exceeded b1 (mkCellIterator i view' slot (_bounds it) exceeded p).
Proof.
  intros Ha [Hcol Hlin _ _] Hp Hr Hl Hrg Hcc Hv Ho view. destruct (frame_fields _ _ (alike_frame _ _ Ha)) as (Ew & Eh & _).
  destruct (generate_view_ok b1 slot r i (point.x p) Hr Hrg) as (cell & E & Hs); [|done|done|].
  { rewrite Hcc. unfold in_viewport in Hp. lia. }
  exists cell. split; [unfold _GenerateView, mbind, comp_bind; cbn [_pRow _attrIter cell_pos]; by rewrite E|]. split; [done|]. split; [|done].
  split; cbn [_bounds cell_pos _pRow _attrIter _view]; rewrite ?Ew, ?Eh; [done|done|done|]. exists r. split; [by rewrite (alike_line _ _ Ha)|done].
Qed.

Lemma forward_moves b it n : good_buffer b -> points_to b it -> _exceeded it = false -> let i := index_in (_bounds it) (cell_pos it) in
  if i + Z.of_nat n <? cells_of (_bounds it) then returns (move_forward_by (avx2 P) (uninitialised P) (rowSize P) n it) b (moved_to b it (nth_cell (_bounds it) (i + Z.of_nat n)) false)
  else move_forward_by (avx2 P) (uninitialised P) (rowSize P) n it b = (b, Returned (with_exceeded true it)).
Proof.
  intros Hg Hp He i. pose proof Hp as [Hcol Hlin Hin (r & Hl & Hr & Hv & Ho & Hs)]. destruct (line_some b (point.y (cell_pos it)) Hg) as (r' & Hl' & Hrg & Hcc). rewrite Hl in Hl'. injection Hl' as <-.
  destruct (index_nth _ _ Hin) as [Hi Ep]. fold i in Hi, Ep. assert (1 <= Viewport.Width (_bounds it)) as Hw by (unfold in_viewport in Hin; unfold Viewport.Width; viewport; lia).
  unfold move_forward_by. pose proof (move_cells_ok (_bounds it) n Hw i Hi) as Hm. rewrite <- Ep in Hm. rewrite He, Hm. destruct (Z.ltb_spec (i + Z.of_nat n) (cells_of (_bounds it))) as [Hlt|Hge]; [|done].
  destruct (nth_cell_in (_bounds it) (i + Z.of_nat n) Hw ltac:(lia)) as [Hin' _]. set (p := nth_cell (_bounds it) (i + Z.of_nat n)) in *.
  assert (0 <= point.x p < _width b) as Hx by (unfold in_viewport in Hin'; lia). destruct (Z.eqb_spec (point.y p) (point.y (cell_pos it))) as [Ey|Ey].
  - destruct (attr_advance_ok b (_pRow it) r (_attrIter it) (point.x p - point.x (cell_pos it)) Hr Hrg Hv ltac:(lia)) as (j & Ej & Hj & Hoj).
    apply returns_bind. exists b, j. split; [exact Ej|]. destruct (generated b b it (_pRow it) r j p false (alike_refl b Hg) Hp Hin' Hr ltac:(by rewrite Ey) Hrg Hcc Hj ltac:(lia) (_view it)) as (view' & Eg & Hmv).
    unfold _GenerateView, mbind, comp_bind in Eg. cbn [_pRow _attrIter cell_pos] in Eg. destruct (generate_view (_pRow it) j (point.x p) b) as [b2 [cell| | |]] eqn:E; try done. injection Eg as -> ->.
    apply returns_bind. exists b, view'. split; [exact E|]. apply returns_ret. rewrite <- Ey. by destruct p.
  - apply returns_bind. apply (get_row_rule b (point.y p)); [done|]. intros b1 slot r1 Ha Hr1 Hl1 Hrg1 Hcc1. apply returns_bind. exists b1, (begin_ (_attr r1)).
    split; [unfold AttrBegin, with_text, row_at, mbind, comp_bind; by rewrite Hr1|]. destruct (begin_valid 16 (_attr r1) (good_attr r1 Hrg1)) as [Hb0 Hb1].
    destruct (attr_advance_ok b1 slot r1 (begin_ (_attr r1)) (point.x p) Hr1 Hrg1 Hb0 ltac:(lia)) as (j & Ej & Hj & Hoj). apply returns_bind. exists b1, j. split; [exact Ej|].
    destruct (generated b b1 it slot r1 j p false Ha Hp Hin' Hr1 Hl1 Hrg1 Hcc1 Hj ltac:(lia) (_view it)) as (view' & Eg & Hmv). exists b1. eexists. split; [|exact Hmv]. destruct p; exact Eg.
Qed.

(** The steps of the viewport, one by one. *)
Lemma step_in_bounds v i d : small_viewport v -> 0 <= i < cells_of v ->
  Viewport.WalkInBounds v (nth_cell v i) d false = Some (nth_cell v (clamp (i + d) 0 (cells_of v - 1)), i + d =? clamp (i + d) 0 (cells_of v - 1)).
Proof.
  intros Hs Hi. pose proof Hs as (Hv & _). apply IsValid_iff in Hv. assert (1 <= Viewport.Width v) as Hw by (unfold Viewport.Width; viewport; lia).
  destruct (nth_cell_in v i Hw Hi) as [Hin Hx]. destruct (walk_in_bounds v (nth_cell v i) d Hs) as (p & E & Hp & Hinp). fold (index_in v (nth_cell v i)) in E, Hp. fold (cells_of v) in E, Hp. rewrite Hx in E, Hp.
  rewrite E. destruct (index_nth v p Hinp) as [_ Ep]. unfold index_in in Ep. by rewrite Hp in Ep; rewrite <- Ep.
Qed.
Lemma walk_forward v m : small_viewport v -> forall i, 0 <= i -> i + Z.of_nat m < cells_of v ->
  walk_cells (fun pos => Viewport.IncrementInBounds v pos false) m (nth_cell v i) false = Some (nth_cell v (i + Z.of_nat m), false).
Proof.
  intros Hs. induction m as [|m IH]; intros i Hi Hm; cbn [walk_cells]; [by rewrite Z.add_0_r|].
  unfold Viewport.IncrementInBounds. rewrite step_in_bounds by (done || lia). cbn [mbind option_bind]. rewrite clamp_spec, Z.max_r, Z.min_l by lia. rewrite Z.eqb_refl. cbn [negb].
  fold (Viewport.IncrementInBounds v). replace (i + Z.of_nat (S m)) with (i + 1 + Z.of_nat m) by lia. apply IH; lia.
Qed.
Lemma walk_backward v m : small_viewport v -> forall i, 0 <= i < cells_of v ->
  walk_cells (fun pos => Viewport.DecrementInBounds v pos false) m (nth_cell v i) false =
  Some (if Z.of_nat m <=? i then (nth_cell v (i - Z.of_nat m), false) else (nth_cell v 0, true)).
Proof.
  intros Hs. induction m as [|m IH]; intros i Hi; cbn [walk_cells]; [rewrite Z.sub_0_r; by destruct (Z.leb_spec (Z.of_nat 0) i); [|lia]|].
  unfold Viewport.DecrementInBounds. rewrite step_in_bounds by done. cbn [mbind option_bind]. rewrite clamp_spec by lia. destruct (Z.eq_dec i 0) as [->|Hi0].
  - rewrite Z.max_l by lia. cbn -[nth_cell]. destruct m as [|m]; reflexivity.
  - rewrite Z.max_r, Z.min_l by lia. rewrite Z.eqb_refl. cbn [negb]. fold (Viewport.DecrementInBounds v). replace (i + -1) with (i - 1) by lia. rewrite IH by lia.
    replace (i - 1 - Z.of_nat m) with (i - Z.of_nat (S m)) by lia. destruct (Z.leb_spec (Z.of_nat m) (i - 1)), (Z.leb_spec (Z.of_nat (S m)) i); (done || lia).
Qed.

Lemma set_pos_ok b it p : good_buffer b -> points_to b it -> in_viewport (_bounds it) p -> forall exceeded,
  returns (_SetPos (avx2 P) (uninitialised P) (rowSize P) p (with_exceeded exceeded it)) b (moved_to b it p exceeded).
Proof.
  intros Hg Hp Hin' exceeded. pose proof Hp as [Hcol Hlin Hin (r & Hl & Hr & Hv & Ho & Hs)]. destruct (line_some b (point.y (cell_pos it)) Hg) as (r' & Hl' & Hrg & Hcc). rewrite Hl in Hl'. injection Hl' as <-.
  assert (0 <= point.x p < _width b) as Hx by (unfold in_viewport in Hin'; lia). unfold _SetPos. cbn [with_exceeded cell_pos _pRow _attrIter _view _bounds _exceeded].
  apply returns_bind. eapply (returns_mono _ _ (fun b1 '(slot, i, x) => alike b b1 /\ exists r1, _rows b1 !! slot = Some r1 /\ line b (point.y p) = Some r1 /\ row_good r1 /\ _columnCount r1 = _width b /\
    valid_iterator i (_attr r1) /\ offset i (_attr r1) = x)).
  - destruct (Z.eqb_spec (point.y p) (point.y (cell_pos it))) as [Ey|Ey]; cbn [negb].
    + apply returns_ret. split; [by apply alike_refl|]. exists r. rewrite Ey. done.
    + apply returns_bind. apply (get_row_rule b (point.y p)); [done|]. intros b1 slot r1 Ha Hr1 Hl1 Hrg1 Hcc1. apply returns_bind. exists b1, (begin_ (_attr r1)).
      split; [unfold AttrBegin, with_text, row_at, mbind, comp_bind; by rewrite Hr1|]. apply returns_ret. split; [done|]. exists r1. split; [done|]. split; [done|]. split; [done|]. split; [done|].
      apply (begin_valid 16 (_attr r1) (good_attr r1 Hrg1)).
  - intros b1 [[slot i] x] (Ha & r1 & Hr1 & Hl1 & Hrg1 & Hcc1 & Hv1 & Ho1). apply returns_bind.
    assert (exists j, (if negb (point.x p =? x) then attr_advance slot i (point.x p - x) else mret i) b1 = (b1, Returned j) /\ valid_iterator j (_attr r1) /\ offset j (_attr r1) = point.x p) as (j & Ej & Hj & Hoj).
    { destruct (Z.eqb_spec (point.x p) x) as [E|E]; cbn [negb]; [exists i; split; [done|]; split; [done|congruence]|].
      destruct (attr_advance_ok b1 slot r1 i (point.x p - x) Hr1 Hrg1 Hv1 ltac:(lia)) as (j & Ej & Hj & Hoj). exists j. split; [exact Ej|]. split; [done|lia]. }
    exists b1, j. split; [exact Ej|]. destruct (generated b b1 it slot r1 j p exceeded Ha Hp Hin' Hr1 Hl1 Hrg1 Hcc1 Hj Hoj (_view it)) as (view' & Eg & Hmv). exists b1. eexists. split; [exact Eg|exact Hmv].
Qed.
(** Making the view again changes nothing. *)
Lemma generate_again b it : good_buffer b -> points_to b it -> returns (_GenerateView it) b (moved_to b it (cell_pos it) (_exceeded it)).
Proof.
  intros Hg Hp. pose proof Hp as [Hcol Hlin Hin (r & Hl & Hr & Hv & Ho & Hs)]. destruct (line_some b (point.y (cell_pos it)) Hg) as (r' & Hl' & Hrg & Hcc). rewrite Hl in Hl'. injection Hl' as <-.
  destruct (generated b b it (_pRow it) r (_attrIter it) (cell_pos it) (_exceeded it) (alike_refl b Hg) Hp Hin Hr Hl Hrg Hcc Hv Ho (_view it)) as (view' & Eg & Hmv).
  exists b. eexists. split; [|exact Hmv]. destruct it; exact Eg.
Qed.
Lemma backward_moves b it n : good_buffer b -> points_to b it -> _exceeded it = false -> small_viewport (_bounds it) -> let i := index_in (_bounds it) (cell_pos it) in
  returns (move_backward_by (avx2 P) (uninitialised P) (rowSize P) n it) b
    (if Z.of_nat n <=? i then moved_to b it (nth_cell (_bounds it) (i - Z.of_nat n)) false else moved_to b it (nth_cell (_bounds it) 0) true).
Proof.
  intros Hg Hp He Hs i. destruct (index_nth _ _ (to_inside _ _ Hp)) as [Hi Ep]. fold i in Hi, Ep. pose proof Hs as (Hv & _). apply IsValid_iff in Hv.
  assert (1 <= Viewport.Width (_bounds it)) as Hw by (unfold Viewport.Width; viewport; lia). unfold move_backward_by. rewrite Ep at 1. rewrite He, walk_backward by done. apply returns_bind, returns_ret.
  assert (forall p e, in_viewport (_bounds it) p -> returns (it ← _SetPos (avx2 P) (uninitialised P) (rowSize P) p (with_exceeded e it); _GenerateView it) b (moved_to b it p e)) as Hgo.
  { intros p e Hin. apply returns_bind. eapply returns_mono; [by apply set_pos_ok|]. intros b1 it1 (A1 & P1 & B1 & C1 & E1). eapply returns_mono; [apply generate_again; [apply A1|done]|].
    intros b2 it2 (A2 & P2 & B2 & C2 & E2). split; [by apply (alike_trans b b1 b2)|]. split; [done|]. split; [congruence|]. split; congruence. }
  destruct (Z.leb_spec (Z.of_nat n) i); apply Hgo, nth_cell_in; lia.
Qed.

(** Where a move leads: to the cell [i + movement] in reading order. A move beyond the
    bounds only marks the iterator, a move before them also takes it to the first cell. *)
Lemma iterator_moves b it movement : good_buffer b -> points_to b it -> _exceeded it = false -> small_viewport (_bounds it) ->
  let v := _bounds it in let i := index_in v (cell_pos it) in
  returns (add_assign movement it) b (fun b' it' => alike b b' /\ points_to b' it' /\ _bounds it' = v /\
    if (0 <=? i + movement) && (i + movement <? cells_of v) then cell_pos it' = nth_cell v (i + movement) /\ _exceeded it' = false /\
      (0 <= movement -> walk_cells (fun pos => Viewport.IncrementInBounds v pos false) (Z.to_nat movement) (cell_pos it) false = Some (cell_pos it', false))
    else _exceeded it' = true /\ cell_pos it' = if movement <? 0 then nth_cell v 0 else cell_pos it).
Proof.
  intros Hg Hp He Hs v i. destruct (index_nth _ _ (to_inside _ _ Hp)) as [Hi Ep]. fold v i in Hi, Ep. unfold Navigation.add_assign. destruct (Z.ltb_spec movement 0) as [Hm|Hm].
  - pose proof (backward_moves b it (Z.to_nat (- movement)) Hg Hp He Hs) as Hb. cbv zeta in Hb. fold v i in Hb. eapply returns_mono; [exact Hb|].
    intros b1 it1 Hit. destruct (Z.leb_spec (Z.of_nat (Z.to_nat (- movement))) i), (Z.leb_spec 0 (i + movement)); try lia; destruct Hit as (A1 & P1 & B1 & C1 & E1); (split; [done|]; split; [done|]; split; [done|]).
    + destruct (Z.ltb_spec (i + movement) (cells_of v)); [|lia]. cbn [andb]. split; [rewrite C1; f_equal; lia|]. split; [done|lia].
    + done.
  - pose proof (forward_moves b it (Z.to_nat movement) Hg Hp He) as Hf. cbv zeta in Hf. fold v i in Hf. rewrite Z2Nat.id in Hf by lia. destruct (Z.leb_spec 0 (i + movement)); [|lia].
    destruct (Z.ltb_spec (i + movement) (cells_of v)) as [Hlt|Hge]; cbn [andb].
    + eapply returns_mono; [exact Hf|]. intros b1 it1 (A1 & P1 & B1 & C1 & E1). split; [done|]. split; [done|]. split; [done|]. split; [done|]. split; [done|]. intros _.
      rewrite Ep at 1. rewrite walk_forward by (done || lia). rewrite C1. do 3 f_equal. lia.
    + exists b, (with_exceeded true it). split; [exact Hf|]. split; [by apply alike_refl|]. split; [by destruct it, Hp|]. done.
Qed.

(** C20: the iterator over cells shows the cell that it points to. Moving it by [movement], in
    either direction, to a cell within its bounds leads from the cell [i] to the cell
    [i + movement] in reading order, and its view, row and attribute are those of this cell.
    Forwards this is where the loop of [IncrementInBounds] leads that the comment in
    [operator+=] gives as its equivalent, backwards the loop of [DecrementInBounds]. Moves
    that leave the bounds are not meant: beyond the end the optimised code departs from the loop
    ([overrun_stays]). *)
Theorem iterator_shows_cells b it movement : good_buffer b -> points_to b it -> _exceeded it = false -> small_viewport (_bounds it) ->
  let v := _bounds it in let i := index_in v (cell_pos it) in 0 <= i + movement < cells_of v ->
  returns (add_assign movement it) b (fun b' it' => alike b b' /\ points_to b' it' /\ _bounds it' = v /\
    cell_pos it' = nth_cell v (i + movement) /\ _exceeded it' = false /\
    walk_cells (fun pos => if 0 <=? movement then Viewport.IncrementInBounds v pos false else Viewport.DecrementInBounds v pos false) (Z.to_nat (Z.abs movement)) (cell_pos it) false = Some (cell_pos it', false)).
Proof.
  intros Hg Hp He Hs v i Hin. eapply returns_mono; [by apply iterator_moves|]. fold v i. intros b' it' (Ha & Hp' & Hb & Hm).
  destruct (Z.leb_spec 0 (i + movement)); [|lia]. destruct (Z.ltb_spec (i + movement) (cells_of v)); [|lia]. cbn [andb] in Hm. destruct Hm as (Hc & Hx & Hwalk).
  split_and!; try done. destruct (Z.leb_spec 0 movement) as [Hpos|Hneg]; [rewrite Z.abs_eq by done; by apply Hwalk|].
  destruct (index_nth _ _ (to_inside _ _ Hp)) as [Hi Ep]. fold v i in Hi, Ep. pose proof Hs as (Hv & _). apply IsValid_iff in Hv. assert (1 <= Viewport.Width v) as Hw by (unfold v, Viewport.Width; viewport; lia).
  rewrite Ep at 1. rewrite walk_backward by (done || lia). destruct (Z.leb_spec (Z.of_nat (Z.to_nat (Z.abs movement))) i); [|lia]. rewrite Hc. do 3 f_equal. lia.
Qed.
End Navigation.

(** ** By example *)

(** Two lines with a letter, a wide glyph, a letter and a space. *)
Definition word_platform : Platform := mkPlatform true (fun _ => 0) sample_address sample_size 64 1 sample_order.
Definition word_buffer : TextBuffer CodepointWidthDetector := set_rows [sample_line_row; sample_line_row; sample_line_row] (sample_buffer 5 2).
Lemma sample_row_good : row_good sample_line_row.
Proof. split; [exists sample_line; exact sample_line_ok| |reflexivity]. split; [repeat constructor|repeat constructor|reflexivity|vm_compute; reflexivity]. Qed.
Lemma word_buffer_good : good_buffer word_buffer.
Proof.
  destruct (sample_good 5 2 ltac:(lia) ltac:(lia)) as ([[H1 H2 H3 H4 H5] Hd] & Hr & Hw & Hh). split; [|exact Hd]. split; [exact H1|exact H2|exact H3|vm_compute; lia|].
  repeat (apply Forall_cons; split; [split; [exact sample_row_good|reflexivity]|]). by apply Forall_nil.
Qed.

(** The wide glyph belongs to the word of four columns. *)
Lemma word_is_maximal_run_witness : 0 <= 2 < _width word_buffer * _height word_buffer /\
  returns (first ← GetWordStart true (fun _ => 0) sample_size (point.mk 2 0) [0x2E] false None; last ← GetWordEnd true (fun _ => 0) sample_size (point.mk 2 0) [0x2E] false None; mret (first, last)) word_buffer
    (fun _ '(first, last) => first = point.mk 0 0 /\ last = point.mk 4 0).
Proof.
  assert (Hn : 0 <= 2 < _width word_buffer * _height word_buffer) by (vm_compute; split; [discriminate|reflexivity]). split; [exact Hn|].
  destruct (word_is_maximal_run word_platform word_buffer [0x2E] 2 word_buffer_good Hn) as (b' & p & E & _).
  change (cell_at word_buffer 2) with (point.mk 2 0) in E. exists b', p. split; [exact E|]. vm_compute in E. injection E as _ <-. split; reflexivity.
Defined.

Definition wide_iterator : TextBufferCellIterator := mkCellIterator (mkIterator 0 1) (mkCell [0x6F22] DbcsLeading TextAttribute.default Stored) 1 (GetSize word_buffer) false (point.mk 1 0).
Lemma wide_iterator_ok : points_to word_platform word_buffer wide_iterator.
Proof.
  split; [vm_compute; intuition congruence|vm_compute; intuition congruence|vm_compute; intuition congruence|]. exists sample_line_row. split; [vm_compute; reflexivity|]. split; [reflexivity|].
  split; [exists [], (_runs (_attr sample_line_row)); split; [reflexivity|]; split; [reflexivity|]; vm_compute; intuition congruence|]. split; [reflexivity|]. split; vm_compute; reflexivity.
Qed.
Lemma iterator_shows_cells_witness : points_to word_platform word_buffer wide_iterator /\
  returns (add_assign true (fun _ => 0) sample_size 6 wide_iterator) word_buffer (fun _ it' => cell_pos it' = point.mk 2 1 /\ _dbcsAttribute (_view it') = DbcsTrailing).
Proof.
  split; [exact wide_iterator_ok|].
  destruct (iterator_shows_cells word_platform word_buffer wide_iterator 6 word_buffer_good wide_iterator_ok eq_refl) as (b' & it' & E & _); [vm_compute; intuition congruence|vm_compute; intuition congruence|].
  exists b', it'. split; [exact E|]. vm_compute in E. injection E as _ <-. split; reflexivity.
Defined.

(** ** Departures *)

Local Abbreviation zeros := (fun _ : nat => 0).

(** Back from the letter behind a wide glyph, the position is the second half of the
    glyph; the newer function goes to its first half. *)
Lemma previous_glyph_second_half : snd (MoveToPreviousGlyph true zeros sample_size (point.mk 3 0) None word_buffer) = Returned (point.mk 2 0, true) /\
  DbcsAttrAt 2 sample_line_row = Some DbcsTrailing /\ snd (MoveToPreviousGlyph2 true zeros sample_size (point.mk 3 0) None word_buffer) = Returned (point.mk 1 0, true).
Proof. split_and!; by vm_compute. Qed.

(** The exclusive end cannot be reached, allowed or not. *)
Lemma exclusive_end_unreachable allowExclusiveEnd : snd (MoveToNextGlyph true zeros sample_size (point.mk 4 1) allowExclusiveEnd None word_buffer) = Returned (point.mk 4 1, false).
Proof. destruct allowExclusiveEnd; by vm_compute. Qed.

(** Beyond the end the iterator stays where it was; the loop in the comment would leave it
    at the last cell. *)
Lemma overrun_stays : (exists b it, add_assign true zeros sample_size 9 wide_iterator word_buffer = (b, Returned it) /\ cell_pos it = point.mk 1 0 /\ _exceeded it = true) /\
  walk_cells (fun pos => Viewport.IncrementInBounds (GetSize word_buffer) pos false) 9 (point.mk 1 0) false = Some (point.mk 4 1, true).
Proof. split; [|by vm_compute]. eexists _, _. split; [vm_compute; reflexivity|]. split; reflexivity. Qed.

(** The word in front of blank cells is found if a blank cell follows it on its line, but
    not if it fills the line. *)
Definition blank_below (t : string) : TextBuffer CodepointWidthDetector := after (write 0 t) (after (write 1 "     ") (sample_buffer 5 2)).
Lemma word_start_stops_at_margin : snd (GetWordStart true zeros sample_size (point.mk 2 1) [] true None (blank_below "abcd ")) = Returned (point.mk 0 0) /\
  snd (GetWordStart true zeros sample_size (point.mk 2 1) [] true None (blank_below "abcde")) = Returned (point.mk 0 1).
Proof. split; by vm_compute. Qed.

(** A rectangle whose last column is the second half of a wide glyph gets another column,
    one that ends with the first half does not. *)
Lemma rects_end_exclusive :
  snd (GetTextRects true zeros sample_size (point.mk 0 0) (point.mk 2 0) true true word_buffer) = Returned [inclusive_rect.mk 0 0 3 0] /\
  snd (GetTextRects true zeros sample_size (point.mk 0 0) (point.mk 1 0) true true word_buffer) = Returned [inclusive_rect.mk 0 0 1 0].
Proof. split; by vm_compute. Qed.
