(* ===== verification/Reflow.v ===== *)
(** * Reflow

    [TextBuffer::Reflow] of src/buffer/out/textBuffer.cpp copies the lines of a buffer into
    a new one of another size, and wraps them anew. The state is the pair of the old and
    the new buffer; the variables of the loops are the record [Flow]. Coordinates are not
    bounded by the width of an [int]. *)

From stdpp Require Import list gmap.
From S2P Require Import Prelude Til Utils TermDispatch TextAttributes Rle RleProps CodepointWidth CodepointWidthProps Geometry ImageSlice Row RowWrite RowProps RowWriteProps RowText RowTextProps RowQueries RowInvariant RowCopy Cursor TextBuffer TextBufferProps BufferScroll BufferSamples BufferMarks AdaptDispatch AdaptProps Navigation NavigationProps.

Record PositionInformation := mkPosition { info_mutableViewportTop : Z; info_visibleViewportTop : Z }.

(** [positionInfo] without a value is the null pointer. *)
Record Flow := mkFlow {
  newX : Z;
  newY : Z;
  newYLimit : Z;
  newCursorPos : point.t;
  mutableViewportTop : Z;
  visibleViewportTop : Z;
  positionInfo : option PositionInformation
}.
Definition set_position (x y : Z) (st : Flow) : Flow := mkFlow x y (newYLimit st) (newCursorPos st) (mutableViewportTop st) (visibleViewportTop st) (positionInfo st).
Definition newline (st : Flow) : Flow := set_position 0 (newY st + 1) st.
Definition set_newCursor (p : point.t) (limit : Z) (st : Flow) : Flow := mkFlow (newX st) (newY st) limit p (mutableViewportTop st) (visibleViewportTop st) (positionInfo st).

(** Where the tops of the viewports end up. *)
Definition note_tops (oldY : Z) (st : Flow) : Flow :=
  let st := if mutableViewportTop st <=? oldY
    then mkFlow (newX st) (newY st) (newYLimit st) (newCursorPos st) CoordTypeMax (visibleViewportTop st) ((fun i => mkPosition (newY st) (info_visibleViewportTop i)) <$> positionInfo st) else st in
  if visibleViewportTop st <=? oldY
  then mkFlow (newX st) (newY st) (newYLimit st) (newCursorPos st) (mutableViewportTop st) CoordTypeMax ((fun i => mkPosition (info_mutableViewportTop i) (newY st)) <$> positionInfo st) else st.

(** The attributes of the new row from [newX] on: those of the old row from [oldX] on. *)
Definition reflow_attributes (oldRow : ROW) (oldX newX newWidth : Z) (r : ROW) : ROW * outcome unit :=
  let attributes := slice 16 (u16 oldX) (size (_attr oldRow)) (_attr oldRow) in
  let '(a, o) := (replace_rle 16 (u16 newX) (size (_attr r)) attributes;; resize_trailing_extent 16 (u16 newWidth)) (_attr r) in (set_attr a r, o).
Definition copy_attributes (oldRow : ROW) (newWidth : Z) (r : ROW) : ROW * outcome unit :=
  let '(a, o) := resize_trailing_extent 16 (u16 newWidth) (_attr oldRow) in (set_attr a r, o).

Section Reflow.
Context {D : Type} `{Measurement D}.
Variable avx2 : bool.
Variable uninitialised : nat -> Z.
Variable allocated : nat -> Z.
Variable rowSize : Z.
Local Abbreviation M := (comp (TextBuffer D * TextBuffer D)).
Local Abbreviation GetRowByOffset := (GetRowByOffset avx2 uninitialised rowSize).
Local Abbreviation GetMutableRowByOffset := (GetMutableRowByOffset avx2 uninitialised rowSize).

Definition on_old {A} (m : comp (TextBuffer D) A) : M A := fun s => let '(b, o) := m s.1 in ((b, s.2), o).
Definition on_new {A} (m : comp (TextBuffer D) A) : M A := fun s => let '(b, o) := m s.2 in ((s.1, b), o).
Definition old_row (y : Z) : M ROW := on_old (slot ← GetRowByOffset y; row_at slot).

(** *** A row that is wrapped *)

(** One round of the inner loop, behind the wrapping: the columns up to which old and new
    row are done. *)
Definition flow_text (oldRow : ROW) (oldY oldRowLimit : Z) (oldCursorPos : point.t) (oldX : Z) (st : Flow) : M (Z * Flow) :=
  b ← gets snd;
  slot ← on_new (GetMutableRowByOffset (newY st));
  state ← on_new (with_row allocated slot (fun a => CopyTextFrom avx2 uninitialised a oldRow false (mkCopyState (newX st) CoordTypeMax oldX oldRowLimit 0 0 0 0)));
  on_new (if oldX =? 0 then update_row slot (ImageSlice_CopyRow oldRow) else mret tt);;
  on_new (with_attributes allocated slot (reflow_attributes oldRow oldX (newX st) (Viewport.Width (GetSize b))));;
  st ← (if (oldY =? point.y oldCursorPos) && (oldX <=? point.x oldCursorPos)
        then x ← on_new (with_text slot (AdjustToGlyphStart (point.x oldCursorPos - oldX + newX st))); mret (set_newCursor (point.mk x (newY st)) (newY st + Viewport.Height (GetSize b)) st)
        else mret st);
  let st := note_tops oldY st in
  mret (cs_sourceColumnEnd state, set_position (cs_columnEnd state) (newY st) st).

Fixpoint flow_row (fuel : nat) (oldRow : ROW) (oldY oldRowLimit : Z) (oldCursorPos : point.t) (oldX : Z) (st : Flow) : M Flow :=
  match fuel with
  | O => out_of_fuel
  | S fuel =>
    b ← gets snd;
    st ← (if Viewport.Width (GetSize b) <=? newX st then on_new (SetWrapForced_at avx2 uninitialised rowSize (newY st) true);; mret (newline st) else mret st);
    stop ← (if (Viewport.Height (GetSize b) <=? newY st) && (newX st =? 0) then
              if newYLimit st <=? newY st then mret true
              else on_new (slot ← GetMutableRowByOffset (newY st); row_Reset avx2 uninitialised slot (_initialAttributes b));; mret false
            else mret false);
    if stop : bool then mret st
    else
      '(oldX, st) ← flow_text oldRow oldY oldRowLimit oldCursorPos oldX st;
      if oldX <? oldRowLimit then flow_row fuel oldRow oldY oldRowLimit oldCursorPos oldX st else mret st
  end.

(** *** A row that is truncated *)

Definition flow_truncated (oldRow : ROW) (oldY : Z) (oldCursorPos : point.t) (st : Flow) : M Flow :=
  b ← gets snd;
  let st := if negb (newX st =? 0) then newline st else st in
  slot ← on_new (GetMutableRowByOffset (newY st));
  on_new (if Viewport.Height (GetSize b) <=? newY st then row_Reset avx2 uninitialised slot (_initialAttributes b) else mret tt);;
  on_new (CopyFrom_at avx2 uninitialised allocated slot oldRow false);;
  on_new (update_row slot (SetWrapForced false));;
  st ← (if oldY =? point.y oldCursorPos then x ← on_new (with_text slot (AdjustToGlyphStart (point.x oldCursorPos))); mret (set_newCursor (point.mk x (newY st)) (newYLimit st) st) else mret st);
  let st := note_tops oldY st in
  mret (set_position (newX st) (newY st + 1) st).

(** *** All rows *)

Definition flow_line (fuel : nat) (oldY : Z) (oldCursorPos : point.t) (st : Flow) : M Flow :=
  oldRow ← old_row oldY;
  if negb (_lineRendition oldRow =? LineRendition.SingleWidth) then flow_truncated oldRow oldY oldCursorPos st
  else
    limit ← on_old (lift (MeasureRight oldRow));
    let oldRowLimit := if oldY =? point.y oldCursorPos then Z.max limit (point.x oldCursorPos + 1) else limit in
    on_new (match _promptData oldRow with Some _ => SetScrollbarData_at avx2 uninitialised rowSize (_promptData oldRow) (newY st) | None => mret tt end);;
    st ← flow_row fuel oldRow oldY oldRowLimit oldCursorPos 0 st;
    mret (if negb (_wrapForced oldRow) then newline st else st).

(** [for (; oldY < oldHeight && newY < newYLimit; ++oldY)], [count] rows from the end: where it
    stopped. *)
Fixpoint flow_lines (fuel : nat) (count : nat) (oldY : Z) (oldCursorPos : point.t) (st : Flow) : M (Z * Flow) :=
  match count with
  | O => mret (oldY, st)
  | S count =>
    if newY st <? newYLimit st then st ← flow_line fuel oldY oldCursorPos st; flow_lines fuel count (oldY + 1) oldCursorPos st
    else mret (oldY, st)
  end.

(** The attributes of the rows below the text. *)
Fixpoint flow_attributes (count : nat) (oldY initializedRowsEnd newY newHeight newWidth : Z) : M Z :=
  match count with
  | O => mret newY
  | S count =>
    if (oldY <? initializedRowsEnd) && (newY <? newHeight) then
      oldRow ← old_row oldY;
      on_new (slot ← GetMutableRowByOffset newY; with_attributes allocated slot (copy_attributes oldRow newWidth));;
      flow_attributes count (oldY + 1) initializedRowsEnd (newY + 1) newHeight newWidth
    else mret newY
  end.

(** The position of the cursor is the last one that was found, in the rotated ring. *)
Definition flow_finish (newY newHeight : Z) (newCursorPos : point.t) : M unit :=
  newCursorPos ← (if newHeight <? newY then
      on_new (modify (set_firstRow (Z.rem newY newHeight)));;
      mret (point.mk (point.x newCursorPos) (Z.rem (point.y newCursorPos - Z.rem newY newHeight + newHeight) newHeight))
    else mret newCursorPos);
  old ← gets fst;
  on_new (CopyProperties old);;
  on_new (CopyHyperlinkMaps old);;
  on_new (modify (fun b => set_cursor (Cursor.SetPosition newCursorPos (Cursor.SetSize (Cursor._ulSize (_cursor old)) (_cursor b))) b)).

Definition Reflow (fuel : nat) (lastCharacterViewport : option Viewport.t) (info : option PositionInformation) : M (option PositionInformation) :=
  old ← gets fst;
  new ← gets snd;
  let p := Cursor._cPosition (_cursor old) in
  let oldCursorPos := point.mk (clamp (point.x p) 0 (_width old - 1)) (clamp (point.y p) 0 (_height old - 1)) in
  last ← on_old (GetLastNonSpaceCharacter avx2 uninitialised rowSize lastCharacterViewport);
  let top f := match info with Some i => f i | None => CoordTypeMax end in
  let oldHeight := Z.max (point.y last) (point.y oldCursorPos) + 1 in
  '(oldY, st) ← flow_lines fuel (Z.to_nat oldHeight) 0 oldCursorPos
    (mkFlow 0 0 CoordTypeMax (point.mk 0 0) (top info_mutableViewportTop) (top info_visibleViewportTop) info);
  let st := if negb (newX st =? 0) then newline st else st in
  old ← gets fst;
  let newHeight := Viewport.Height (GetSize new) in
  newY ← flow_attributes (Z.to_nat (newHeight - newY st)) oldY (_estimateOffsetOfLastCommittedRow old + 1) (newY st) newHeight (Viewport.Width (GetSize new));
  flow_finish newY newHeight (newCursorPos st);;
  mret (positionInfo st).
End Reflow.

(** ** Rows *)

Definition thin (K : nat) (gs : list glyph) : Prop := Forall (fun g => (length (g_chars g) <= K)%nat) gs.

Lemma thin_app K a b : thin K (a ++ b) <-> thin K a /\ thin K b.
Proof. apply Forall_app. Qed.
Lemma thin_spaces K n : (1 <= K)%nat -> thin K (spaces n).
Proof. intros HK. apply Forall_replicate. simpl. lia. Qed.
Lemma thin_before K gs col : thin K gs -> thin K (before_col gs col).
Proof. intros Hg. revert col. induction Hg as [|g gs Hg _ IH]; intros col; cbn [before_col]; [by constructor|]. destruct (g_width g <=? col)%nat; [constructor; [done|apply IH]|by constructor]. Qed.
Lemma thin_after K gs col : thin K gs -> thin K (after_col gs col).
Proof. intros Hg. revert col. induction Hg as [|g gs Hg Hgs IH]; intros col; cbn [after_col]; [by constructor|]. destruct (col =? 0)%nat; [by constructor|apply IH]. Qed.
Lemma thin_overwrite K gs col new e : (1 <= K)%nat -> thin K gs -> thin K new -> thin K (overwrite gs col new e).
Proof. intros HK Hg Hn. unfold overwrite. rewrite !thin_app. split_and!; auto using thin_before, thin_after, thin_spaces. Qed.
Lemma thin_chars K gs : thin K gs -> Forall glyph_ok gs -> chars_len gs <= Z.of_nat K * Z.of_nat (columns gs).
Proof.
  intros Hg Hok. induction Hok as [|g gs [Hw _] _ IH]; [change (chars_len []) with 0; change (columns []) with 0%nat; lia|]. apply Forall_cons in Hg as [Hk Hg]. rewrite chars_len_cons, columns_cons. specialize (IH Hg). nia.
Qed.

(** A row of at most [K] characters per glyph. *)
Definition thin_row (K : nat) (r : ROW) : Prop := exists gs, row_ok r gs /\ thin K gs.

Section Rows.
Context {D : Type} `{MeasurementLaws D}.
Variable avx2 : bool.
Variable uninitialised : nat -> Z.
Variable allocated : Z.
Local Abbreviation CopyTextFrom := (CopyTextFrom avx2 uninitialised allocated).

(** There is nothing to copy: the whole source counts as consumed. *)
Lemma copy_nothing (src : ROW) sgs a b (r : ROW) gs (d : D) newX limit : row_ok src sgs -> sgs = a ++ b -> row_ok r gs -> 0 <= newX <= _columnCount r ->
  let sl := Z.to_nat (_clampedColumnInclusive limit src) in ((columns a < sl)%nat -> before_col b (sl - columns a) = []) ->
  exists s', CopyTextFrom src false (mkCopyState newX CoordTypeMax (Z.of_nat (columns a)) limit 0 0 0 0) r d = (r, d, Returned s') /\ cs_columnEnd s' = newX /\ cs_sourceColumnEnd s' = _columnCount src.
Proof.
  intros Hsrc Hab Hrow Hx sl Hn. pose proof Hsrc as [Hscc _ _ _ _ _ _]. assert (columns sgs = columns a + columns b)%nat as Hcb by (by rewrite Hab, columns_app).
  destruct (clampedInclusive_ok src sgs (Z.of_nat (columns a)) Hsrc) as [_ Hz]. specialize (Hz ltac:(lia)). destruct (clampedInclusive_ok src sgs limit Hsrc) as [Hb1 _].
  destruct (clampedInclusive_ok r gs newX Hrow) as [_ Hz']. specialize (Hz' Hx). set (s := mkCopyState _ _ _ _ _ _ _ _). unfold RowWrite.CopyTextFrom.
  assert (exists o t, copied_input src s = Some (o, t) /\ text t = []) as (o & t & -> & Ht).
  { unfold copied_input. cbn [s cs_sourceColumnBegin cs_sourceColumnLimit]. rewrite Hz. replace (_clampedColumnInclusive limit src) with (Z.of_nat sl) by (unfold sl; lia).
    destruct (Z.ltb_spec (Z.of_nat (columns a)) (Z.of_nat sl)); [|by eexists _, _].
    destruct (input_text src sgs a b sl 0 Hsrc Hab ltac:(lia) ltac:(lia)) as (front & back & Hh & Hl & Hf & Htext & _). rewrite Hn in Htext by lia.
    rewrite Nat2Z.id. replace (Z.to_nat (Z.of_nat sl - Z.of_nat (columns a) + 1)) with (sl - columns a + 1)%nat by lia. rewrite Hh, Hl. cbn [mbind option_bind]. eexists _, _. split; [done|]. exact Htext. }
  destruct (new_helper_start r d gs (cs_columnBegin s) (cs_columnLimit s) t Hrow) as (pre & post & i & _ & _ & Hci & ->). cbn [s cs_columnBegin] in Hci. rewrite Hz' in Hci.
  assert (IsValid (start_helper r d t pre i (_clampedColumnInclusive (cs_columnLimit s) r)) = false) as -> by (apply not_true_is_false; rewrite IsValid_ok; intros [_ Hv]; by apply Hv).
  cbn [negb orb]. eexists. split; [reflexivity|]. split; [|done]. cbn [cs_columnEnd]. rewrite Hci. done.
Qed.

(** A round makes progress in the old row, or finds no room for a wide glyph. *)
Lemma copy_progress K (src : ROW) sgs a b (r : ROW) gs (d : D) newX limit : (1 <= K)%nat -> row_ok src sgs -> thin K sgs -> sgs = a ++ b -> row_ok r gs -> thin K gs -> 0 <= newX < _columnCount r ->
  Z.of_nat K * (_columnCount src + _columnCount r) + _columnCount r < 0x8000 ->
  exists r' s', CopyTextFrom src false (mkCopyState newX CoordTypeMax (Z.of_nat (columns a)) limit 0 0 0 0) r d = (r', d, Returned s') /\ kept r r' /\ thin_row K r' /\
    0 <= cs_columnEnd s' <= _columnCount r /\
    (cs_sourceColumnEnd s' = _columnCount src \/
     (exists a' b', sgs = a' ++ b' /\ (columns a < columns a')%nat /\ cs_sourceColumnEnd s' = Z.of_nat (columns a')) \/
     (cs_sourceColumnEnd s' = Z.of_nat (columns a) /\ cs_columnEnd s' = _columnCount r /\ newX = _columnCount r - 1)).
Proof.
  intros HK Hsrc Hts Hab Hrow Htg Hx Hbig. pose proof Hrow as [Hcc _ Hok _ _ _ _]. pose proof Hsrc as [Hscc _ Hsok _ _ _ _]. set (sl := Z.to_nat (_clampedColumnInclusive limit src)).
  assert (columns sgs = columns a + columns b)%nat as Hcb by (by rewrite Hab, columns_app). destruct (clampedInclusive_ok src sgs limit Hsrc) as [Hb1 _].
  destruct (decide ((columns a < sl)%nat /\ before_col b (sl - columns a) <> [])) as [[Hlt Hne]|Hno].
  - pose proof (CopyTextFrom_ok avx2 uninitialised allocated src sgs a b r gs d (mkCopyState newX CoordTypeMax (Z.of_nat (columns a)) limit 0 0 0 0) Hsrc Hab Hrow) as Hc.
    cbn [cs_sourceColumnLimit cs_sourceColumnBegin cs_columnBegin cs_columnLimit] in Hc. fold sl in Hc.
    destruct (clampedInclusive_ok src sgs (Z.of_nat (columns a)) Hsrc) as [_ Hz]. specialize (Hz ltac:(lia)). destruct (clampedInclusive_ok r gs newX Hrow) as [_ Hz']. specialize (Hz' ltac:(lia)).
    assert (_clampedColumnInclusive CoordTypeMax r = _columnCount r) as Hlim.
    { pose proof (rep_narrow r gs Hrow). unfold _clampedColumnInclusive, clamp, CoordTypeMax. destruct (Z.ltb_spec (2 ^ 31 - 1) 0); [lia|]. destruct (Z.ltb_spec (_columnCount r) (2 ^ 31 - 1)); [|lia]. rewrite u16_small; lia. }
    rewrite Hz', Hlim in Hc. set (col := Z.to_nat newX) in *. set (lim := Z.to_nat (_columnCount r)) in *. set (m := Nat.min (lim - col) (sl - columns a)) in *. set (new := before_col b m) in *.
    assert (chars_len gs + chars_len sgs + _columnCount r < 0x8000) as Hcl by (pose proof (thin_chars K gs Htg Hok); pose proof (thin_chars K sgs Hts Hsok); nia).
    destruct (Hc Hz Hlt ltac:(unfold col, lim; lia) Hne Hcl) as (r' & s' & E & Hk & Hr' & He1 & He2). exists r', s'. split; [exact E|]. split; [done|].
    assert (thin K b) as Htb by (rewrite Hab in Hts; by apply thin_app in Hts as [_ ?]). split; [eexists; split; [exact Hr'|apply thin_overwrite; [done|done|by apply thin_before]]|].
    assert (Forall glyph_ok b) as Hokb by (rewrite Hab in Hsok; by apply Forall_app in Hsok as [_ ?]).
    assert (m <= columns b)%nat as Hmb by (unfold m; lia). destruct (cut b m Hokb Hmb) as (pre & post & i & Hb & Hm & Hcut).
    assert (new = pre) as Hnew by (unfold new; rewrite Hb, Hm; apply before_col_app; [by rewrite <- Hb|done]).
    assert (columns pre <= m)%nat as Hpm by lia.
    split; [rewrite He1; case_decide; [rewrite Hnew; unfold m, col, lim in *; lia|unfold lim; lia]|].
    destruct (decide (columns pre = 0)%nat) as [H0'|H0'].
    + right. right. rewrite He2, Hnew, H0', Nat.add_0_r. split; [done|]. assert (pre = []) as Epre.
      { destruct pre as [|g pre]; [done|]. rewrite columns_cons in H0'. rewrite Hb in Hokb. apply Forall_app in Hokb as [Hp _]. apply Forall_cons in Hp as [[? _] _]. lia. }
      assert (i = m) as Him by lia. assert (0 < m)%nat as Hm0 by (unfold m, col, lim; lia).
      destruct Hcut as [->|(g & post' & Ep & Hig)]; [lia|]. rewrite Epre in Hb. simpl in Hb. rewrite Hb, Ep in Hokb. pose proof Hokb as [[Hgw Hgc] _]%Forall_cons. rewrite Ep in Hb.
      assert (before_col b (sl - columns a) <> []) as Hne' by done. rewrite Hb in Hne'. cbn [before_col] in Hne'. destruct (Nat.leb_spec (g_width g) (sl - columns a)) as [Hgs|]; [|done].
      assert (m = lim - col)%nat as Hml by (unfold m in *; lia). split.
      * rewrite He1, decide_False; [unfold lim; lia|]. rewrite Hnew, Epre, Hb. cbn [before_col]. destruct (Nat.leb_spec (g_width g) (sl - columns a)); [|lia]. rewrite text_of_cons. change (text_of []) with (@nil Z).
        intros E0. symmetry in E0. apply app_eq_nil in E0 as [E0 _]. done.
      * unfold col, lim in Hml. lia.
    + right. left. exists (a ++ pre), post. split; [by rewrite Hab, Hb, app_assoc|]. rewrite columns_app, He2, Hnew. split; [lia|done].
  - assert ((columns a < sl)%nat -> before_col b (sl - columns a) = []) as Hn by (intros; destruct (before_col b (sl - columns a)) eqn:E; [done|]; exfalso; by apply Hno).
    destruct (copy_nothing src sgs a b r gs d newX limit Hsrc Hab Hrow ltac:(lia) Hn) as (s' & E & E1 & E2). exists r, s'. split; [exact E|]. split; [unfold kept; by destruct r|]. split; [by exists gs|].
    rewrite E1. split; [lia|]. by left.
Qed.
End Rows.

Lemma set_attr_thin K r a : thin_row K r -> thin_row K (set_attr a r).
Proof. intros (gs & Hr & Ht). exists gs. split; [by destruct Hr|done]. Qed.
Lemma runs_nonempty (v : basic_rle TextAttribute.t) : contents v <> [] -> _runs v <> [].
Proof. intros Hc E. apply Hc. unfold contents. by rewrite E. Qed.

Lemma reflow_attributes_ok oldRow oldX newX w r : row_good oldRow -> row_good r -> _columnCount r = w -> 0 <= oldX < _columnCount oldRow -> 0 <= newX < w -> w < 0x8000 -> _columnCount oldRow < 0x8000 ->
  exists a, reflow_attributes oldRow oldX newX w r = (set_attr a r, Returned tt) /\ row_good (set_attr a r).
Proof.
  intros [_ Ho1 Ho2] Hr Ew Hox Hnx Hw How. pose proof Hr as [_ Hr1 Hr2]. unfold reflow_attributes. rewrite !u16_small by lia. unfold size.
  destruct (RleProps.slice_ok 16 oldX (_total_length (_attr oldRow)) (_attr oldRow) Ho1 ltac:(lia)) as [Hs1 Hs2].
  { rewrite <- size_contents with (size_bits := 16) by done. lia. }
  set (sl := slice 16 _ _ _) in *. rewrite <- (size_contents 16) in Hs2 by done. rewrite Nat2Z.id, firstn_all in Hs2.
  assert (length (contents sl) = Z.to_nat (_columnCount oldRow) - Z.to_nat oldX)%nat as Hsl by (rewrite Hs2, length_drop; lia).
  pose proof (length_decode (_runs sl) (ok_positive _ _ Hs1)) as Hd. fold (contents sl) in Hd.
  destruct (replace_runs_ok 16 newX (_total_length (_attr r)) (_runs sl) (_attr r) Hr1) as (v1 & E1 & Hv1 & Hc1); [lia| | | | |].
  - rewrite <- (size_contents 16) by done. lia.
  - apply Hs1.
  - apply Hs1.
  - rewrite <- (size_contents 16 (_attr r)) by done. rewrite Hr2. intros _. rewrite Z.min_id. lia.
  - unfold vector_replace in E1, Hc1. rewrite (size_contents 16 (_attr r)), Z.min_id in E1, Hc1 by done. rewrite <- (size_contents 16 (_attr r)), Hr2 in E1, Hc1 by done.
    destruct (Z.ltb_spec (_columnCount r) newX); [lia|]. cbn [fst snd] in E1, Hc1.
    assert (length (contents v1) = Z.to_nat newX + (Z.to_nat (_columnCount oldRow) - Z.to_nat oldX))%nat as Hl1.
    { rewrite Hc1, !length_app, length_take, length_drop. fold (contents sl). rewrite Hsl. lia. }
    assert (contents v1 <> []) as Hne by (intros E; rewrite E in Hl1; simpl in Hl1; lia).
    destruct (resize_ok 16 w v1 Hv1 ltac:(lia) ltac:(left; by apply runs_nonempty)) as (v2 & E2 & Hv2 & Hc2). exists v2.
    unfold replace_rle, mbind, comp_bind. rewrite <- (size_contents 16 (_attr r)), Hr2 by done. rewrite E1, E2. split; [done|]. apply set_attr_good; [done|done|].
    rewrite Hc2, resized_length by (done || lia). lia.
Qed.
Lemma copy_attributes_ok oldRow w r : row_good oldRow -> row_good r -> _columnCount r = w -> 1 <= w < 0x8000 -> 1 <= _columnCount oldRow ->
  exists a, copy_attributes oldRow w r = (set_attr a r, Returned tt) /\ row_good (set_attr a r).
Proof.
  intros [_ Ho1 Ho2] Hr Ew Hw How. unfold copy_attributes. rewrite u16_small by lia. assert (contents (_attr oldRow) <> []) as Hne by (intros E; rewrite E in Ho2; simpl in Ho2; lia).
  destruct (resize_ok 16 w (_attr oldRow) Ho1 ltac:(lia) ltac:(left; by apply runs_nonempty)) as (v & E & Hv & Hc). exists v. rewrite E. split; [done|]. apply set_attr_good; [done|done|].
  rewrite Hc, resized_length by (done || lia). lia.
Qed.

(** ** Measuring *)

Lemma readable_bound r gs : row_ok r gs -> 2 <= _columnCount r -> 0 <= GetReadableColumnCount r <= _columnCount r.
Proof.
  intros _ H2. unfold GetReadableColumnCount. destruct (_lineRendition r =? LineRendition.SingleWidth); [destruct (_doubleBytePadded r); cbn [Z.b2z]; lia|].
  rewrite Z.shiftr_div_pow2, Z.shiftl_mul_pow2 by lia. change (2 ^ 1) with 2. destruct (_doubleBytePadded r); cbn [Z.b2z]; Z.to_euclidean_division_equations; lia.
Qed.
Lemma MeasureRight_some r : row_good r -> 2 <= _columnCount r -> exists x, MeasureRight r = Some x /\ x <= _columnCount r.
Proof.
  intros [[gs Hr] _ _] H2. pose proof (readable_bound r gs Hr H2) as Hb. pose proof (rep_narrow r gs Hr) as Hn. unfold MeasureRight.
  destruct (_wrapForced r); [eexists; split; [done|]; destruct (_doubleBytePadded r); cbn [Z.b2z]; rewrite u16_small; lia|].
  pose proof Hr as [Hc _ Hok Ho _ _ _]. unfold GetLastNonSpaceColumn, GetText, offset_at. destruct (Z.ltb_spec (GetReadableColumnCount r) 0); [lia|].
  rewrite Ho. destruct (lookup_lt_is_Some_2 (cells 0 gs ++ [chars_len gs]) (Z.to_nat (GetReadableColumnCount r))) as [o ->]; [rewrite length_offsets by done; lia|].
  cbn [mbind option_bind]. eexists. split; [done|]. lia.
Qed.
Lemma AdjustToGlyphStart_some r col : row_good r -> exists x, AdjustToGlyphStart col r = Some x.
Proof.
  intros [[gs Hr] _ _]. destruct (clamped_glyph r gs col Hr) as (pre & g & post & i & Heq & Hi & Hc & _). exists (Z.of_nat (columns pre)).
  pose proof (AdjustToGlyphStart_here r gs pre g post i Hr Heq Hi) as E. unfold AdjustToGlyphStart in *. rewrite (clampedColumn_here r gs pre g post i Hr Heq Hi) in E. by rewrite Hc.
Qed.
Lemma kept_good K r r' : row_good r -> kept r r' -> thin_row K r' -> row_good r' /\ _columnCount r' = _columnCount r.
Proof. intros [_ H1 H2] Hk (gs & Hr & _). unfold kept in Hk. rewrite Hk in Hr |- *. split; [split; [by exists gs|done|done]|done]. Qed.
Lemma same_cells K r r' : row_good r -> thin_row K r -> _columnCount r' = _columnCount r -> _charOffsets r' = _charOffsets r -> _chars r' = _chars r -> _attr r' = _attr r -> row_good r' /\ thin_row K r'.
Proof.
  intros [[gs Hr] H1 H2] (gs' & Hr' & Ht) Ec Eo Es Ea. split; [split; [exists gs|congruence|congruence]|exists gs'; split; [|done]].
  - destruct Hr as [D1 D2 D3 D4 D5 D6 D7]. split; congruence.
  - destruct Hr' as [D1 D2 D3 D4 D5 D6 D7]. split; congruence.
Qed.
Lemma thin_copied K gs sgs n : (1 <= K)%nat -> thin K gs -> thin K sgs -> thin K (copied gs sgs n).
Proof. intros HK Hg Hs. unfold copied. destruct (before_col sgs n) eqn:E; [done|]. apply thin_overwrite; [done|done|]. by apply thin_before. Qed.

Lemma cursor_size p z c : Cursor._ulSize (Cursor.SetPosition p (Cursor.SetSize z c)) = z.
Proof. unfold Cursor.SetPosition, Cursor.SetSize. destruct (Z.eqb_spec (Cursor._ulSize c) z) as [<-|]; by destruct (point.eqb _ _). Qed.
Lemma returns_assoc {S X Y Z} (m : comp S X) (f : X -> comp S Y) (k : Y -> comp S Z) s Q : returns (y ← (x ← m; f x); k y) s Q -> returns (x ← m; y ← f x; k y) s Q.
Proof. unfold returns, mbind, comp_bind. by destruct (m s) as [s' [x| | | ]]. Qed.

(** ** The new buffer *)

Section Termination.
Context {D : Type} `{MeasurementLaws D}.
Variable P : Platform.
Context (K : nat) (w h : Z) (HK : (1 <= K)%nat) (Hw : 1 <= w < 0x8000).
Local Abbreviation GetMutableRowByOffset := (TextBuffer.GetMutableRowByOffset (avx2 P) (uninitialised P) (rowSize P)).
Implicit Types n o : TextBuffer D.

Record flows n : Prop := {
  flows_good : good_buffer n;
  flows_width : _width n = w;
  flows_height : _height n = h;
  flows_thin : Forall (thin_row K) (_rows n)
}.

Lemma flows_mutation n m : flows n -> flows (set_lastMutationId m n).
Proof. intros [[[H1 H2 H3 H4 H5] Hd] Ew Eh Ht]. split; [split; [split|]|..]; done. Qed.
Lemma flows_put n slot r r' d k : flows n -> _rows n !! slot = Some r -> row_good r' -> _columnCount r' = w -> thin_row K r' -> d = _detector n ->
  flows (set_detector d k (set_rows (<[slot := r']> (_rows n)) n)) /\ <[slot := r']> (_rows n) !! slot = Some r'.
Proof.
  intros [[[H1 H2 H3 H4 H5] Hd] Ew Eh Ht] Hr Hg Hc Hthin ->. apply lookup_lt_Some in Hr as Hl. split; [|by apply list_lookup_insert_eq].
  split; [split; [split|]|..]; try done; cbn [set_detector set_rows _rows _height _width].
  - by rewrite length_insert.
  - apply Forall_insert; [done|]. split; [done|congruence].
  - by apply Forall_insert.
Qed.

Lemma mutable_rule n y (Q : _ -> _ -> Prop) : flows n -> (forall n' slot r, flows n' -> _rows n' !! slot = Some r -> row_good r -> _columnCount r = w -> thin_row K r -> Q n' slot) -> returns (GetMutableRowByOffset y) n Q.
Proof.
  intros Hn HQ. unfold TextBuffer.GetMutableRowByOffset. apply returns_bind, returns_modify. set (n1 := set_lastMutationId _ n). pose proof (flows_mutation n _ Hn : flows n1) as [[Hb Hd] Ew Eh Ht].
  destruct (getRow_ok (avx2 P) (uninitialised P) (rowSize P) n1 y Hb) as (n' & E & [Es (new & Enew & Hnew)] & Hb' & Hl). exists n', (slot_of n1 y). split; [exact E|].
  destruct (lookup_lt_is_Some_2 _ _ Hl) as [r Hr].
  assert (flows n') as Hn'.
  { split; [split; [done|by rewrite Es]|by rewrite Es|by rewrite Es|]. rewrite Enew. apply Forall_app. split; [done|]. apply Forall_lookup. intros i r' Hi. apply Hnew in Hi.
    apply fresh_row_blank in Hi; [|rewrite Ew; exact Hw]. destruct Hi as [Hi _ _]. eexists. split; [exact Hi|by apply thin_spaces]. }
  pose proof (Forall_lookup_1 _ _ _ _ (buffer_rows _ (good_ok _ (flows_good _ Hn'))) Hr) as [Hg Hc]. apply (HQ n' _ r Hn' Hr Hg); [by rewrite Hc, (flows_width n')|]. apply (Forall_lookup_1 _ _ _ _ (flows_thin n' Hn') Hr).
Qed.
Lemma row_update_rule n slot r f (Q : _ -> _ -> Prop) : flows n -> _rows n !! slot = Some r -> row_good (f r) -> _columnCount (f r) = w -> thin_row K (f r) ->
  (forall n', flows n' -> _rows n' !! slot = Some (f r) -> Q n' tt) -> returns (update_row slot f) n Q.
Proof.
  intros Hn Hr Hg Hc Ht HQ. destruct (flows_put n slot r (f r) (_detector n) (_allocations n) Hn Hr Hg Hc Ht eq_refl) as [Hp Hl]. unfold update_row. apply returns_bind. exists n, r. split; [unfold row_at; by rewrite Hr|].
  eexists _, tt. split; [unfold put_row; apply lookup_lt_Some in Hr; by destruct (Nat.ltb_spec slot (length (_rows n))); [|lia]|]. assert (set_detector (_detector n) (_allocations n) (set_rows (<[slot:=f r]> (_rows n)) n) = set_rows (<[slot:=f r]> (_rows n)) n) as Es by (by destruct n).
  rewrite Es in Hp. by apply HQ.
Qed.
Lemma with_row_rule {X} n slot r (f : Z -> ROW -> D -> ROW * D * outcome X) (Q : _ -> _ -> Prop) : flows n -> _rows n !! slot = Some r ->
  (forall a, exists r' x, f a r (_detector n) = (r', _detector n, Returned x) /\ row_good r' /\ _columnCount r' = w /\ thin_row K r' /\ (forall n', flows n' -> _rows n' !! slot = Some r' -> Q n' x)) ->
  returns (with_row (allocated P) slot f) n Q.
Proof.
  intros Hn Hr Hf. destruct (Hf (allocated P (_allocations n))) as (r' & x & E & Hg & Hc & Ht & HQ). destruct (flows_put n slot r r' (_detector n) (S (_allocations n)) Hn Hr Hg Hc Ht eq_refl) as [Hp Hl].
  eexists _, x. split; [unfold with_row; rewrite Hr, E; reflexivity|]. by apply HQ.
Qed.
Lemma reset_rule n slot r attr (Q : _ -> _ -> Prop) : flows n -> _rows n !! slot = Some r -> row_good r -> _columnCount r = w ->
  (forall n' r', flows n' -> _rows n' !! slot = Some r' -> row_good r' -> _columnCount r' = w -> thin_row K r' -> Q n' tt) -> returns (row_Reset (avx2 P) (uninitialised P) slot attr) n Q.
Proof.
  intros Hn Hr Hg Hc HQ. destruct (reset_blank (avx2 P) (uninitialised P) r attr Hg) as (r' & E & Hg' & Hc' & [Hb _ _]).
  assert (thin_row K r') as Ht by (eexists; split; [exact Hb|by apply thin_spaces]). rewrite Hc in Hc'.
  destruct (flows_put n slot r r' (_detector n) (_allocations n) Hn Hr Hg' Hc' Ht eq_refl) as [Hp Hl]. unfold row_Reset. apply returns_bind. exists n, r. split; [unfold row_at; by rewrite Hr|]. rewrite E. apply returns_bind, returns_ret.
  eexists _, tt. split; [unfold put_row; apply lookup_lt_Some in Hr; by destruct (Nat.ltb_spec slot (length (_rows n))); [|lia]|]. assert (set_detector (_detector n) (_allocations n) (set_rows (<[slot:=r']> (_rows n)) n) = set_rows (<[slot:=r']> (_rows n)) n) as Es by (by destruct n).
  rewrite Es in Hp. by apply (HQ _ r').
Qed.

(** ** Both buffers *)

Context (o0 : TextBuffer D) (Hgood : good_buffer o0).
Local Abbreviation line := (TextBufferProps.line (avx2 P) (uninitialised P) (rowSize P)).
Context (Hthin : forall y r, line o0 y = Some r -> thin_row K r).
Context (Hold : 2 <= _width o0) (Hnew : 2 <= w) (Hroom : Z.of_nat K * (_width o0 + w) + w < 0x8000).
Local Abbreviation State := (TextBuffer D * TextBuffer D)%type.
Implicit Types s : State.

Definition during s : Prop := alike P o0 s.1 /\ flows s.2.
Lemma on_new_rule {X} (m : comp (TextBuffer D) X) s (Q : State -> X -> Prop) : returns m s.2 (fun n x => Q (s.1, n) x) -> returns (on_new m) s Q.
Proof. intros (n & x & E & HQ). exists (s.1, n), x. split; [unfold on_new; by rewrite E|done]. Qed.
Lemma on_old_rule {X} (m : comp (TextBuffer D) X) s (Q : State -> X -> Prop) : returns m s.1 (fun o x => Q (o, s.2) x) -> returns (on_old m) s Q.
Proof. intros (o & x & E & HQ). exists (o, s.2), x. split; [unfold on_old; by rewrite E|done]. Qed.
Lemma new_size s : during s -> Viewport.Width (GetSize s.2) = w /\ Viewport.Height (GetSize s.2) = h.
Proof. intros [_ [_ Ew Eh _]]. by rewrite GetSize_width, GetSize_height. Qed.
Lemma glyph_start_rule n slot r col (Q : _ -> _ -> Prop) : _rows n !! slot = Some r -> row_good r -> (forall x, Q n x) -> returns (with_text slot (AdjustToGlyphStart col)) n Q.
Proof.
  intros Hr Hg HQ. destruct (AdjustToGlyphStart_some r col Hg) as [x E]. unfold with_text. apply returns_bind. exists n, r. split; [unfold row_at; by rewrite Hr|]. rewrite E. by apply returns_ret.
Qed.
Lemma old_row_rule y s (Q : State -> ROW -> Prop) : during s -> (forall s' r, during s' -> row_good r -> _columnCount r = _width o0 -> thin_row K r -> Q s' r) ->
  returns (old_row (avx2 P) (uninitialised P) (rowSize P) y) s Q.
Proof.
  intros [Ha Hn] HQ. apply on_old_rule, returns_bind, (get_row_rule P); [apply Ha|]. intros o slot r Ho Hs Hl Hg Hc. exists o, r. split; [unfold row_at; by rewrite Hs|]. apply HQ; [|done|..].
  - split; [by apply (alike_trans P o0 s.1)|done].
  - rewrite Hc. pose proof (alike_frame P _ _ Ha) as F. by apply frame_fields in F as (-> & _).
  - apply (Hthin y). by rewrite <- (alike_line P _ _ Ha y).
Qed.

Local Abbreviation flow_text := (flow_text (avx2 P) (uninitialised P) (allocated P) (rowSize P)).
Local Abbreviation flow_row := (flow_row (avx2 P) (uninitialised P) (allocated P) (rowSize P)).
Lemma note_tops_position y st : newX (note_tops y st) = newX st /\ newY (note_tops y st) = newY st.
Proof. unfold note_tops. destruct (mutableViewportTop st <=? y); cbn; by destruct (_ <=? y). Qed.

(** Where a round ends in a row of the glyphs [sgs], begun behind [a]. *)
Definition advanced (sgs a : list glyph) (from to : Flow) (x : Z) : Prop :=
  0 <= newX to <= w /\
  (x = Z.of_nat (columns sgs) \/ (exists a' b', sgs = a' ++ b' /\ (columns a < columns a')%nat /\ x = Z.of_nat (columns a')) \/
   (x = Z.of_nat (columns a) /\ newX to = w /\ newX from = w - 1)).

Lemma flow_text_ok oldRow sgs a b oldY limit cursor st s : during s -> row_good oldRow -> row_ok oldRow sgs -> thin K sgs -> _columnCount oldRow = _width o0 ->
  sgs = a ++ b -> (columns a < columns sgs)%nat -> 0 <= newX st < w ->
  returns (flow_text oldRow oldY limit cursor (Z.of_nat (columns a)) st) s (fun s' '(x, st') => during s' /\ advanced sgs a st st' x).
Proof.
  intros Hs Hgr Hr Ht Hc Hab Hlt Hx. destruct (new_size s Hs) as [Ew _]. pose proof Hr as [Hcc _ _ _ _ _ Hnarrow]. unfold Reflow.flow_text. step. step. rewrite Ew.
  step. apply on_new_rule, mutable_rule; [apply Hs|]. intros n1 slot r Hn1 Hr1 Hg1 Hc1 (gs & Hrok & Hgs). step. apply on_new_rule. apply (with_row_rule n1 slot r); [done|done|]. intros address.
  destruct (copy_progress (avx2 P) (uninitialised P) address K oldRow sgs a b r gs (_detector n1) (newX st) limit HK Hr Ht Hab Hrok Hgs ltac:(lia) ltac:(lia)) as (r2 & cs & E & Hk & Ht2 & Hend & Hadv).
  destruct (kept_good K r r2 Hg1 Hk Ht2) as [Hg2 Hc2]. rewrite Hc1 in Hc2. exists r2, cs. split; [exact E|]. split; [done|]. split; [done|]. split; [done|]. intros n2 Hn2 Hr2.
  assert (exists r3, returns (on_new (if Z.of_nat (columns a) =? 0 then update_row slot (ImageSlice_CopyRow oldRow) else mret tt)) (s.1, n2) (fun s' _ => s'.1 = s.1 /\ flows s'.2 /\ _rows s'.2 !! slot = Some r3) /\ row_good r3 /\ _columnCount r3 = w /\ thin_row K r3) as (r3 & E3 & Hg3 & Hc3 & Ht3).
  { destruct (Z.of_nat (columns a) =? 0); [|exists r2; split; [by apply on_new_rule, returns_ret|done]].
    destruct (same_cells K r2 (ImageSlice_CopyRow oldRow r2) Hg2 Ht2) as [? ?]; [done..|].
    exists (ImageSlice_CopyRow oldRow r2). split; [|done]. by apply on_new_rule, (row_update_rule n2 slot r2). }
  step. apply (returns_mono _ _ _ _ E3). intros [o3 n3] _ (Ho3 & Hn3 & Hr3). cbn [fst snd] in Ho3, Hn3, Hr3. step. apply on_new_rule, (with_row_rule n3 slot r3); [done|done|]. intros address'.
  destruct (reflow_attributes_ok oldRow (Z.of_nat (columns a)) (newX st) w r3 Hgr Hg3 Hc3 ltac:(lia) Hx ltac:(lia) Hnarrow) as (at4 & E4 & Hg4). exists (set_attr at4 r3), tt. rewrite E4. split; [done|]. split; [done|]. split; [done|]. split; [by apply set_attr_thin|].
  intros n4 Hn4 Hr4. assert (during (o3, n4)) as Hs4 by (split; [cbn [fst]; rewrite Ho3; apply Hs|done]).
  assert (forall st', advanced sgs a st (set_position (cs_columnEnd cs) (newY st') st') (cs_sourceColumnEnd cs)) as Hout.
  { intros st'. split; [cbn; lia|]. cbn. rewrite Hcc, <- Hc1. destruct Hadv as [?|[?|(?&?&?)]]; [by left|by right; left|]. right. right. lia. }
  step. destruct ((oldY =? point.y cursor) && _).
  - step. apply on_new_rule. apply (glyph_start_rule n4 slot _ _ _ Hr4 Hg4). intros x. do 2 step. split; [done|]. by apply Hout.
  - do 2 step. split; [done|]. by apply Hout.
Qed.

Lemma mark_rule y f n (Q : _ -> _ -> Prop) : flows n -> (forall r, _columnCount (f r) = _columnCount r /\ _charOffsets (f r) = _charOffsets r /\ _chars (f r) = _chars r /\ _attr (f r) = _attr r) ->
  (forall n', flows n' -> Q n' tt) -> returns (slot ← GetMutableRowByOffset y; update_row slot f) n Q.
Proof.
  intros Hn Hf HQ. step. apply mutable_rule; [done|]. intros n1 slot r Hn1 Hr Hg Hc Ht. destruct (Hf r) as (E1 & E2 & E3 & E4). destruct (same_cells K r (f r) Hg Ht E1 E2 E3 E4) as [Hg' Ht'].
  apply (row_update_rule n1 slot r); [done|done|done|congruence|done|]. intros n2 Hn2 _. by apply HQ.
Qed.

(** Each round reaches farther in the old row, except for one that finds no room for a
    wide glyph at the end of the new row. *)
Definition rounds (sgs a : list glyph) (st : Flow) : nat :=
  2 * (columns sgs - columns a) + (if decide (0 < newX st < w) then 1 else 0).
Lemma flow_row_ok fuel oldRow sgs a b oldY limit cursor st s : during s -> row_good oldRow -> row_ok oldRow sgs -> thin K sgs -> _columnCount oldRow = _width o0 ->
  sgs = a ++ b -> (columns a < columns sgs)%nat -> limit <= Z.of_nat (columns sgs) -> 0 <= newX st <= w -> (rounds sgs a st < fuel)%nat ->
  returns (flow_row fuel oldRow oldY limit cursor (Z.of_nat (columns a)) st) s (fun s' st' => during s' /\ 0 <= newX st' <= w).
Proof.
  intros Hs Hgr Hr Ht Hc. revert a b st s Hs. induction fuel as [|fuel IH]; intros a b st s Hs Hab Hlt Hlim Hx Hfuel; [lia|]. destruct (new_size s Hs) as [Ew Eh].
  cbn [Reflow.flow_row]. step. step. rewrite Ew, Eh. step.
  assert (exists st1, returns (if w <=? newX st then on_new (SetWrapForced_at (avx2 P) (uninitialised P) (rowSize P) (newY st) true);; mret (newline st) else mret st) s (fun s' st' => during s' /\ st' = st1) /\
    0 <= newX st1 < w /\ (rounds sgs a st1 <= rounds sgs a st)%nat) as (st1 & E1 & Hx1 & Hr1).
  { destruct (Z.leb_spec w (newX st)).
    - exists (newline st). split; [|split; [cbn; lia|unfold rounds; cbn [newline newX set_position]; rewrite !decide_False by lia; lia]].
      step. apply on_new_rule, mark_rule; [apply Hs|done|]. intros n' Hn'. apply returns_ret. split; [split; [apply Hs|done]|done].
    - exists st. split; [by apply returns_ret|]. split; [lia|done]. }
  apply (returns_mono _ _ _ _ E1). intros s1 ? [Hs1 ->]. step.
  assert (returns (if (h <=? newY st1) && (newX st1 =? 0) then if newYLimit st1 <=? newY st1 then mret true
     else on_new (slot ← GetMutableRowByOffset (newY st1); row_Reset (avx2 P) (uninitialised P) slot (_initialAttributes s.2));; mret false else mret false) s1 (fun s' _ => during s')) as E2.
  { destruct ((h <=? newY st1) && (newX st1 =? 0)); [|by step]. destruct (newYLimit st1 <=? newY st1); [by step|]. step. apply on_new_rule. step. apply mutable_rule; [apply Hs1|]. intros n2 slot r Hn2 Hr2 Hg2 Hc2 _.
    apply (reset_rule n2 slot r); [done..|]. intros n3 r3 Hn3 _ _ _ _. step. split; [apply Hs1|done]. }
  apply (returns_mono _ _ _ _ E2). intros s2 stop Hs2. destruct stop; [step; split; [done|lia]|]. step.
  apply (returns_mono _ _ _ _ (flow_text_ok oldRow sgs a b oldY limit cursor st1 s2 Hs2 Hgr Hr Ht Hc Hab Hlt Hx1)). intros s3 [x st3] [Hs3 [Hx3 Hadv]].
  destruct (Z.ltb_spec x limit) as [Hxl|]; [|by step]. destruct Hadv as [->|[(a' & b' & Hab' & Hlt' & ->)|(-> & Hw3 & Hw1)]]; [lia| |].
  - apply (IH a' b' st3 s3); try done; [lia|]. enough (rounds sgs a' st3 < rounds sgs a st1)%nat by lia. unfold rounds. repeat case_decide; lia.
  - apply (IH a b st3 s3); try done. enough (rounds sgs a st3 < rounds sgs a st1)%nat by lia. unfold rounds. repeat case_decide; lia.
Qed.

(** ** The other parts *)

Lemma flow_truncated_ok oldRow oldY cursor st s : during s -> row_good oldRow -> thin_row K oldRow -> _columnCount oldRow = _width o0 -> 0 <= newX st <= w ->
  returns (flow_truncated (avx2 P) (uninitialised P) (allocated P) (rowSize P) oldRow oldY cursor st) s (fun s' st' => during s' /\ 0 <= newX st' <= w).
Proof.
  intros Hs [_ Ha Hsz] (sgs & Hr & Ht) Hc Hx. destruct (new_size s Hs) as [_ Eh]. pose proof Hr as [Hcc Hone Hok _ _ _ _]. unfold flow_truncated. step. step. rewrite Eh.
  set (st1 := if negb (newX st =? 0) then newline st else st). assert (0 <= newX st1 <= w) as Hx1 by (unfold st1; destruct (negb _); cbn; lia). step. apply on_new_rule, mutable_rule; [apply Hs|]. intros n1 slot r Hn1 Hr1 Hg1 Hc1 Ht1. step.
  assert (returns (if h <=? newY st1 then row_Reset (avx2 P) (uninitialised P) slot (_initialAttributes s.2) else mret tt) n1 (fun n' _ => flows n' /\ exists r', _rows n' !! slot = Some r' /\ _columnCount r' = w /\ thin_row K r' /\ row_good r')) as E2.
  { destruct (h <=? newY st1); [|step; split; [done|by exists r]]. apply (reset_rule n1 slot r); [done..|]. intros n' r' Hn' ? ? ? ?. split; [done|by exists r']. }
  apply on_new_rule. apply (returns_mono _ _ _ _ E2). intros n2 _ (Hn2 & r2 & Hr2 & Hc2 & (gs & Hrok & Hgs) & _). step. apply on_new_rule, (with_row_rule n2 slot r2); [done|done|]. intros address.
  pose proof Hrok as [Hcc2 _ Hok2 _ _ _ _]. pose proof (thin_chars K gs Hgs Hok2). pose proof (thin_chars K sgs Ht Hok).
  destruct (CopyFrom_ok (avx2 P) (uninitialised P) address oldRow sgs r2 gs (_detector n2) Hr Ha) as (r3 & E3 & [C1 [C2 C3] _ (C5 & _)]); [intros E; rewrite E in Hsz; simpl in Hsz; lia|done|nia|].
  assert (row_good r3) as Hg3.
  { split; [by eexists|done|]. rewrite C3, resized_length, C5; [lia|lia|intros E; rewrite E in Hsz; simpl in Hsz; lia]. }
  assert (thin_row K r3) as Ht3 by (eexists; split; [exact C1|by apply thin_copied]). exists r3, tt. split; [exact E3|]. split; [done|]. split; [congruence|]. split; [done|]. intros n3 Hn3 Hr3.
  destruct (same_cells K r3 (SetWrapForced false r3) Hg3 Ht3) as [Hg4 Ht4]; [done..|]. step. apply on_new_rule, (row_update_rule n3 slot r3); [done|done|done|cbn; congruence|done|]. intros n4 Hn4 Hr4.
  assert (during (s.1, n4)) as Hs4 by (split; [apply Hs|done]). assert (forall st2, newX st2 = newX st1 -> 0 <= newX (set_position (newX (note_tops oldY st2)) (newY (note_tops oldY st2) + 1) (note_tops oldY st2)) <= w) as Hout.
  { intros st2 E. cbn. by rewrite (proj1 (note_tops_position _ _)), E. }
  step. destruct (oldY =? point.y cursor).
  - step. apply on_new_rule, (glyph_start_rule n4 slot _ _ _ Hr4 Hg4). intros x. do 2 step. split; [done|]. by apply Hout.
  - do 2 step. split; [done|]. by apply Hout.
Qed.

(** The rounds that are enough for every row. *)
Context (fuel : nat) (Hfuel : (2 * Z.to_nat (_width o0) + 2 <= fuel)%nat).
Lemma flow_line_ok oldY cursor st s : during s -> point.x cursor < _width o0 -> 0 <= newX st <= w ->
  returns (flow_line (avx2 P) (uninitialised P) (allocated P) (rowSize P) fuel oldY cursor st) s (fun s' st' => during s' /\ 0 <= newX st' <= w).
Proof.
  intros Hs Hcur Hx. unfold flow_line. step. apply old_row_rule; [done|]. intros s1 r Hs1 Hg Hc Ht. destruct (negb _); [by apply flow_truncated_ok|].
  destruct (MeasureRight_some r Hg ltac:(lia)) as (limit & -> & Hlimit). step. apply on_old_rule. step. step.
  assert (returns (on_new (match _promptData r with Some _ => SetScrollbarData_at (avx2 P) (uninitialised P) (rowSize P) (_promptData r) (newY st) | None => mret tt end)) (s1.1, s1.2) (fun s' _ => during s')) as E2.
  { apply on_new_rule. destruct (_promptData r); [|by step; destruct Hs1]. apply mark_rule; [apply Hs1|done|]. intros n Hn. split; [apply Hs1|done]. }
  apply (returns_mono _ _ _ _ E2). intros s2 _ Hs2. step. set (oldRowLimit := if oldY =? point.y cursor then _ else _). destruct Ht as (sgs & Hr & Ht). pose proof Hr as [Hcc _ _ _ _ _ _].
  assert (oldRowLimit <= Z.of_nat (columns sgs)) as Hl by (unfold oldRowLimit; destruct (oldY =? point.y cursor); lia).
  pose proof (flow_row_ok fuel r sgs [] sgs oldY oldRowLimit cursor st s2 Hs2 Hg Hr Ht Hc eq_refl) as E3. change (Z.of_nat (columns [])) with 0 in E3.
  eapply returns_mono; [apply E3; [change (columns []) with 0%nat; lia|done|done|]|].
  - unfold rounds. change (columns []) with 0%nat. destruct (decide (0 < newX st < w)); lia.
  - intros s3 st3 [Hs3 Hx3]. step. split; [done|]. destruct (negb _); [cbn; lia|done].
Qed.
Lemma flow_lines_ok count oldY cursor st s : during s -> point.x cursor < _width o0 -> 0 <= newX st <= w ->
  returns (flow_lines (avx2 P) (uninitialised P) (allocated P) (rowSize P) fuel count oldY cursor st) s (fun s' _ => during s').
Proof.
  intros Hs Hcur. revert oldY st s Hs. induction count as [|count IH]; intros oldY st s Hs Hx; cbn [flow_lines]; [by step|]. destruct (newY st <? newYLimit st); [|by step].
  step. eapply returns_mono; [by apply flow_line_ok|]. intros s1 st1 [Hs1 Hx1]. by apply IH.
Qed.
Lemma flow_attributes_ok count oldY last y s : during s ->
  returns (flow_attributes (avx2 P) (uninitialised P) (allocated P) (rowSize P) count oldY last y h w) s (fun s' _ => during s').
Proof.
  revert oldY y s. induction count as [|count IH]; intros oldY y s Hs; cbn [flow_attributes]; [by step|]. destruct (_ && _); [|by step]. step. apply old_row_rule; [done|]. intros s1 r Hs1 Hg Hc _. step. apply on_new_rule. step.
  apply mutable_rule; [apply Hs1|]. intros n2 slot r2 Hn2 Hr2 Hg2 Hc2 Ht2. apply (with_row_rule n2 slot r2); [done|done|]. intros _.
  destruct (copy_attributes_ok r w r2 Hg Hg2 Hc2 ltac:(lia) ltac:(lia)) as (a & E & Hg3). exists (set_attr a r2), tt. rewrite E. split; [done|]. split; [done|]. split; [done|]. split; [by apply set_attr_thin|].
  intros n3 Hn3 _. apply IH. split; [apply Hs1|done].
Qed.
Lemma last_rule (y : Z) (o : TextBuffer D) (Q : _ -> _ -> Prop) : alike P o0 o -> (forall o' x, alike P o0 o' -> Q o' x) ->
  returns (slot ← GetRowByOffset (avx2 P) (uninitialised P) (rowSize P) y; with_text slot MeasureRight) o Q.
Proof.
  intros Ha HQ. apply returns_bind, (get_row_rule P); [apply Ha|]. intros o1 slot r Ho1 Hs _ Hg Hc. pose proof (alike_frame P _ _ Ha) as F. apply frame_fields in F as (Ew & _). destruct (MeasureRight_some r Hg ltac:(lia)) as (x & E & _).
  unfold with_text. apply returns_bind. exists o1, r. split; [unfold row_at; by rewrite Hs|]. rewrite E. apply returns_ret, HQ. by apply (alike_trans P o0 o).
Qed.
Lemma last_non_space_ok count top p (o : TextBuffer D) : alike P o0 o -> (Z.to_nat (point.y p - top) <= count)%nat ->
  returns (last_non_space (avx2 P) (uninitialised P) (rowSize P) count top p) o (fun o' _ => alike P o0 o').
Proof.
  revert p o. induction count as [|count IH]; intros p o Ha Hc; cbn [last_non_space]; destruct ((point.x p <? 0) && (top <? point.y p)) eqn:E; try (by step); apply andb_true_iff in E as [_ E%Z.ltb_lt]; [lia|].
  apply returns_assoc. step. apply last_rule; [done|]. intros o' x Ho'. apply IH; [done|cbn; lia].
Qed.
Lemma last_character_ok view (o : TextBuffer D) : alike P o0 o -> returns (GetLastNonSpaceCharacter (avx2 P) (uninitialised P) (rowSize P) view) o (fun o' _ => alike P o0 o').
Proof.
  intros Ha. unfold GetLastNonSpaceCharacter. step. step. set (y := Z.min _ _). set (top := Viewport.Top _).
  apply returns_assoc. step. apply last_rule; [done|]. intros o1 x Ho1. step. eapply returns_mono; [by apply last_non_space_ok|]. intros o2 p Ho2. by step.
Qed.

Record finished s : Prop := {
  finished_old : alike P o0 s.1;
  finished_new : good_buffer s.2 /\ _width s.2 = w /\ _height s.2 = h;
  finished_links : _hyperlinkMap s.2 = _hyperlinkMap o0;
  finished_cursor : Cursor._ulSize (_cursor s.2) = Cursor._ulSize (_cursor o0)
}.
Lemma flow_finish_ok y p s : during s -> returns (flow_finish y h p) s (fun s' _ => finished s').
Proof.
  intros Hs. unfold flow_finish. step. assert (returns (if h <? y then on_new (modify (set_firstRow (Z.rem y h)));; mret (point.mk (point.x p) (Z.rem (point.y p - Z.rem y h + h) h)) else mret p) s (fun s' _ => during s')) as E.
  { destruct (Z.ltb_spec h y); [|by step]. step. apply on_new_rule. do 2 step. split; [apply Hs|]. destruct Hs as [_ [[[B1 B2 B3 B4 B5] Hd] Ew Eh Ht]]. split; [split; [split|]|..]; try done. cbn. rewrite Eh. apply Z.rem_bound_pos; lia. }
  apply (returns_mono _ _ _ _ E). intros s1 q [Ha [[[B1 B2 B3 B4 B5] Hd] Ew Eh Ht]]. step. step. step. apply on_new_rule. step. step. apply on_new_rule. step. apply on_new_rule. step.
  pose proof (alike_frame P _ _ Ha) as F. unfold frame in F. injection F as F1 _ _ _ _ _ _ _ _ Fc _. split; [done|split; [split; [split|]|..]; done|done|].
  cbn [fst snd set_cursor _cursor]. by rewrite cursor_size, Fc.
Qed.

Lemma Reflow_ok view info s : during s -> returns (Reflow (avx2 P) (uninitialised P) (allocated P) (rowSize P) fuel view info) s (fun s' _ => finished s').
Proof.
  intros Hs. destruct (new_size s Hs) as [Ew Eh]. unfold Reflow.Reflow. do 4 step. rewrite Ew, Eh. step. apply on_old_rule. eapply returns_mono; [apply last_character_ok, Hs|]. intros o1 last Ho1. cbn [id]. step.
  eapply returns_mono; [apply flow_lines_ok; [split; [exact Ho1|apply Hs]| |cbn; lia]|].
  - pose proof (alike_frame P _ _ (proj1 Hs)) as F. apply frame_fields in F as (Ew0 & _). cbn. unfold clamp. repeat case_match; lia.
  - intros s2 [oldY st] Hs2. do 3 step. eapply returns_mono; [by apply flow_attributes_ok|]. intros s3 y Hs3. step. eapply returns_mono; [by apply flow_finish_ok|]. intros s4 ? Hs4. by step.
Qed.
End Termination.

Lemma lines_thin {D : Type} `{MeasurementLaws D} P K (b : TextBuffer D) : (1 <= K)%nat -> good_buffer b -> Forall (thin_row K) (_rows b) ->
  forall y r, line (avx2 P) (uninitialised P) (rowSize P) b y = Some r -> thin_row K r.
Proof.
  intros HK Hg Ht y r Hl. unfold line, slot_row in Hl. case_match eqn:E; [simplify_eq; by apply (Forall_lookup_1 _ _ _ _ Ht E)|].
  apply fresh_row_blank in Hl as [Hl _ _]; [|apply Hg]. eexists. split; [exact Hl|by apply thin_spaces].
Qed.

(** C21: A reflow comes to an end. Between buffers of at least two columns each line takes at
    most two rounds per column of the old buffer, plus two: every round copies a glyph, except
    for one that finds no room for a wide glyph at the end of a row. No access on the way is
    out of bounds, provided that the text of two rows fits the offsets. The old buffer still
    shows the same, and the new one keeps its size, is as consistent as before, and has
    the hyperlinks and the cursor size of the old one. *)
Theorem reflow_terminates {D : Type} `{MeasurementLaws D} P (K : nat) (o n : TextBuffer D) (fuel : nat) view info :
  good_buffer o -> good_buffer n -> (1 <= K)%nat -> Forall (thin_row K) (_rows o) -> Forall (thin_row K) (_rows n) ->
  2 <= _width o -> 2 <= _width n -> Z.of_nat K * (_width o + _width n) + _width n < 0x8000 -> (2 * Z.to_nat (_width o) + 2 <= fuel)%nat ->
  exists o' n' info', Reflow (avx2 P) (uninitialised P) (allocated P) (rowSize P) fuel view info (o, n) = ((o', n'), Returned info') /\
    alike P o o' /\ good_buffer n' /\ _width n' = _width n /\ _height n' = _height n /\
    _hyperlinkMap n' = _hyperlinkMap o /\ Cursor._ulSize (_cursor n') = Cursor._ulSize (_cursor o).
Proof.
  intros Hgo Hgn HK Hto Htn Hwo Hwn Hroom Hfuel. pose proof (buffer_width _ (good_ok _ Hgn)) as Hw.
  destruct (Reflow_ok P K (_width n) (_height n) HK Hw o (lines_thin P K o HK Hgo Hto) Hwo Hwn Hroom fuel Hfuel view info (o, n)) as ([o' n'] & i & E & [Ha (Hg & Ew & Eh) Hl Hc]); [split; [by apply alike_refl|by split]|].
  by exists o', n', i.
Qed.

(** ** By example *)

Definition at_cursor (x y : Z) (b : TextBuffer CodepointWidthDetector) : TextBuffer CodepointWidthDetector := set_cursor (Cursor.SetPosition (point.mk x y) (_cursor b)) b.
Definition reflowed (fuel : nat) (o n : TextBuffer CodepointWidthDetector) := Reflow true (fun _ => 0) sample_address sample_size fuel None None (o, n).
Definition shown (s : TextBuffer CodepointWidthDetector * TextBuffer CodepointWidthDetector) := (texts s.2, Cursor._cPosition (_cursor s.2)).

(** From five columns to three: the wide glyph is wrapped as a whole. *)
Lemma reflow_terminates_witness : good_buffer word_buffer /\ exists o' n' info', reflowed 12 word_buffer (sample_buffer 3 4) = ((o', n'), Returned info') /\ alike word_platform word_buffer o' /\ good_buffer n'.
Proof.
  split; [exact word_buffer_good|]. destruct (sample_good 3 4 ltac:(lia) ltac:(lia)) as (Hg & Hr & _).
  destruct (reflow_terminates word_platform 2 word_buffer (sample_buffer 3 4) 12 None None word_buffer_good Hg ltac:(lia)) as (o' & n' & i & E & Ha & Hn & _);
    [|rewrite Hr; constructor|vm_compute; discriminate|vm_compute; discriminate|vm_compute; reflexivity|vm_compute; lia|exists o', n', i; split; [exact E|split; [exact Ha|exact Hn]]].
  repeat (apply Forall_cons; split; [exists sample_line; split; [exact sample_line_ok|repeat constructor]|]). by apply Forall_nil.
Defined.

(** Lines of five and three letters: wrapped at three columns, and joined again. *)
Definition two_lines : TextBuffer CodepointWidthDetector := at_cursor 2 1 (after (write 1 "xyz") (after (write 0 "abcde") (sample_buffer 5 4))).
Example reflow_narrows : shown (fst (reflowed 12 two_lines (sample_buffer 3 4))) = ([Some (wide "abc"); Some (wide "de "); Some (wide "xyz"); Some (wide "   ")], point.mk 2 2).
Proof. vm_compute. reflexivity. Qed.
Example reflow_widens : shown (fst (reflowed 12 (fst (reflowed 12 two_lines (sample_buffer 3 4))).2 (sample_buffer 5 4))) = (texts two_lines, point.mk 2 1).
Proof. vm_compute. reflexivity. Qed.

(** A line below the cursor's does not fit: the loop over its columns ends early, but the
    line still counts as ended by a newline. The ring is rotated by one row too many, and the
    line with the cursor is shown below the one that followed it. *)
Definition below_cursor : TextBuffer CodepointWidthDetector := at_cursor 0 0 (after (write 1 "cdef") (after (write 0 "ab") (sample_buffer 4 2))).
Lemma reflow_swaps_lines : texts below_cursor = [Some (wide "ab  "); Some (wide "cdef")] /\
  shown (fst (reflowed 12 below_cursor (sample_buffer 2 2))) = ([Some (wide "cd"); Some (wide "ab")], point.mk 0 1).
Proof. vm_compute. split; reflexivity. Qed.

(** A wide glyph does not fit a buffer of one column: each round starts a new row and copies
    nothing. It ends when the rows reach the limit, which only the row of the cursor
    lowers from the greatest coordinate. *)
Lemma one_column_spins : snd (reflowed 500 (at_cursor 4 1 word_buffer) (sample_buffer 1 4)) = OutOfFuel.
Proof. vm_compute. reflexivity. Qed.

(** The mark of a line moves to the new row at once. Beyond the height of the new buffer
    the row is then reset for its text, and the mark is lost. *)
Definition prompt_mark : option ScrollbarData := Some (mkScrollbarData MarkPrompt None None).
Definition marked_line : TextBuffer CodepointWidthDetector :=
  at_cursor 0 2 (after (SetScrollbarData_at true (fun _ => 0) sample_size prompt_mark 2) (after (write 2 "xy") (after (write 1 "cdef") (after (write 0 "ab") (sample_buffer 4 3))))).
Definition marks_of (b : TextBuffer CodepointWidthDetector) : list (option ScrollbarData) :=
  map (fun y => r ← line true (fun _ => 0) sample_size b (Z.of_nat y); _promptData r) (seq 0 (Z.to_nat (_height b))).
Lemma reflow_loses_mark :
  let same := (fst (reflowed 12 marked_line (sample_buffer 4 3))).2 in let narrow := (fst (reflowed 12 marked_line (sample_buffer 3 3))).2 in
  marks_of marked_line = [None; None; prompt_mark] /\ marks_of same = [None; None; prompt_mark] /\
  texts narrow = [Some (wide "cde"); Some (wide "f  "); Some (wide "xy ")] /\ marks_of narrow = [None; None; None].
Proof. vm_compute. split_and!; reflexivity. Qed.
