(* ===== verification/AdaptRoundtrips.v ===== *)
(** * Theorems about the dispatcher: what is saved, set or reported comes back

    Positions, saved cursors, modes and tab stops, over any terminal that keeps the
    promises of its interface. *)

From stdpp Require Import list gmap.
From S2P Require Import Prelude Til Utils UtilsProps VtTypes StateMachine TermDispatch TextAttributes Graphics Rle CodepointWidth CodepointWidthProps Geometry Row RowWrite RowProps RowInvariant Cursor TextBuffer TextBufferProps MacroBuffer Charsets TerminalOutput TerminalInput RenderSettings Pages AdaptDispatch AdaptScreen AdaptAreas AdaptModes AdaptReports AdaptProps.

Section Roundtrips.
Context {A D : Type} `{MeasurementLaws D} `{!ITerminalApi A D} `{!ITerminalApiLaws A D}.
Variable P : Platform.
Local Abbreviation State := (AdaptDispatch A D MacroCallback).
Implicit Types (s : State) (page : Page) (b : TextBuffer D).
Local Abbreviation same_screen := (same_screen P).
Local Abbreviation addressable := (addressable P).

(** ** Positions *)

Lemma position_report_rule (extended : bool) s0 s (Q : _ -> _ -> Prop) : page_ready s -> viewport s0 = viewport s ->
  (forall s1 s', same_screen s s1 -> buffer s1 = buffer s ->
     answered (csi s ++ (if extended then wide "?" ++ numbers [point.y (relative s); point.x (relative s); Page.Number (page_of s)] else numbers [point.y (relative s); point.x (relative s)]) ++ wide "R") s1 s' -> Q s' tt) ->
  returns (_CursorPositionReport P extended) s Q.
Proof.
  intros Hr Ev HQ. unfold _CursorPositionReport. step. apply page_rule; [done|]. step. apply (relative_rule P); [done|done|]. intros s1 S1 B1.
  assert (Ec : csi s1 = csi s) by (unfold csi; by destruct (same_rest_terminal s s1 (screen_rest _ _ _ S1)) as (-> & _)).
  destruct extended; apply csi_rule; intros s' Hs; rewrite Ec in Hs; by apply (HQ s1).
Qed.

(** The cursor position report answers with the line and the column that the cursor
    was addressed with, relative to the margins if origin mode is on, and the extended
    report with the page as well. *)
Lemma cursor_position_reported (extended : bool) (l c id : Z) s : page_ready s -> addressable s l c ->
  returns (CursorPosition P l c;; DeviceStatusReport P (if extended then ModeParams.private 6 else 6) id) s (fun s' _ =>
    responses (terminal s') = responses (terminal s) ++
      [csi s ++ (if extended then wide "?" ++ numbers [l; c; Page.Number (page_of s)] else numbers [l; c]) ++ wide "R"] /\
    cursor s' = absolute s l c).
Proof.
  intros Hr Ha. step. apply move_rule; [done|]. intros s1 S1 C1. pose proof (same_screen_ready _ _ _ Hr S1) as Hr1. rewrite (target_absolute P s l c Hr Ha) in C1.
  assert (Ec : cursor s1 = absolute s l c) by (unfold cursor; rewrite C1; apply cursor_SetPosition). pose proof (relative_absolute P s s1 l c S1 Ec) as Er.
  destruct (same_rest_terminal s s1 (screen_rest _ _ _ S1)) as (Ei & _ & Es). assert (Ecsi : csi s1 = csi s) by (unfold csi; by rewrite Ei). pose proof (same_rest_number s s1 (screen_rest _ _ _ S1)) as En.
  replace (DeviceStatusReport P (if extended then ModeParams.private 6 else 6) id) with (_CursorPositionReport (A := A) (D := D) P extended) by (by destruct extended).
  apply (position_report_rule extended s1); [done|done|]. intros s2 s' S2 B2 Hs. rewrite Er, En, Ecsi in Hs. cbn [point.x point.y] in Hs. destruct Hs as [Hr' Hb _ _ _]. split.
  - destruct (same_rest_terminal s1 s2 (screen_rest _ _ _ S2)) as (_ & _ & E2). by rewrite Hr', E2, Es.
  - unfold cursor in *. by rewrite Hb, B2.
Qed.
(** ** The saved cursor *)

Lemma set_mode_same m (v : bool) s : terminal (set_mode m v s) = terminal s /\ buffer (set_mode m v s) = buffer s /\ margins_of (set_mode m v s) = margins_of s /\ viewport (set_mode m v s) = viewport s /\ page_of (set_mode m v s) = page_of s.
Proof. done. Qed.

Lemma set_mode_ready m (v : bool) s : page_ready s -> page_ready (set_mode m v s).
Proof. intros [Hv Hg Hp Hq Hw Hm]. by split. Qed.

Lemma mode_set_mode m m' (v : bool) s : 0 <= m < 64 -> 0 <= m' < 64 -> mode m (set_mode m' v s) = if m =? m' then v else mode m s.
Proof. intros Hm Hm'. unfold mode, set_mode. cbn [set_modes _modes]. by rewrite enumset.test_set. Qed.

(** Moving to the page one is on changes nothing. *)
Lemma move_to_rule n (makeVisible : bool) s (Q : _ -> _ -> Prop) : page_ready s -> n = Page.Number (page_of s) -> Q s tt -> returns (move_to P n makeVisible) s Q.
Proof.
  intros [Hv Hg Hp Hq Hw Hm] -> HQ. unfold move_to, with_pages.
  assert (Hm' : returns (MoveTo (avx2 P) (uninitialised P) (allocated P) (rowSize P) (Page.Number (page_of s)) makeVisible) (_pages s) (fun p _ => p = _pages s)).
  2: { destruct Hm' as (p & [] & E & ->). exists s, tt. rewrite E. by destruct s. }
  unfold MoveTo. do 2 step. cbn [id]. fold (terminal s). unfold Page.Number, page_of. cbn [_number].
  destruct Hv as [Hv|[Hv Hn]]; [rewrite Hv; by step|]. destruct (isMainBuffer (terminal s)); [|by step]. cbn [negb]. fold (viewport s).
  pose proof (buffer_width _ (good_ok _ Hg)). pose proof (buffer_height _ (good_ok _ Hg)).
  assert (Ex : forall v, 0 <= v < 2 ^ 16 -> extract v = Some v). { intros v Hvv. unfold extract, is_CoordType, CoordTypeMin, CoordTypeMax. destruct (Z.leb_spec (- 2 ^ 31) v), (Z.leb_spec v (2 ^ 31 - 1)); try lia; done. }
  unfold viewport_size, checked, rect.width, rect.height. rewrite !Ex by lia. do 6 step. rewrite (Z.max_l _ 1), Z.min_l, Z.eqb_refl, andb_false_r by lia. step. do 3 step. rewrite Hv, Z.eqb_refl. cbn [negb orb]. do 2 step. step.
  rewrite <- Hv. unfold set_active. by destruct (_pages s).
Qed.

Lemma relative_same s s' : same_rest s s' -> cursor s' = cursor s -> margins_of s' = margins_of s -> relative s' = relative s.
Proof.
  intros R C M. destruct (same_rest_viewport s s' R) as [Ev _]. unfold relative, origin_of. by rewrite C, Ev, M, (same_rest_mode s s').
Qed.

Lemma delay_SetPosition p c : Cursor.GetDelayEOLWrap (Cursor.SetPosition p c) = None.
Proof. unfold Cursor.SetPosition. by destruct (point.eqb _ _). Qed.

Lemma saved_rule s (Q : _ -> _ -> Prop) : page_ready s ->
  (forall s1 s', same_screen s s1 -> buffer s1 = buffer s ->
     s' = set_savedCursorState (<[saved_index s1 := mkCursorState (point.y (relative s)) (point.x (relative s)) (Page.Number (page_of s)) (bool_decide (Cursor.GetDelayEOLWrap (_cursor (buffer s)) <> None))
       (mode AdaptMode.Origin s) (_currentAttributes (buffer s)) (_termOutput s)]> (_savedCursorState s1)) s1 -> Q s' tt) ->
  returns (CursorSaveState P) s Q.
Proof.
  intros Hr HQ. unfold CursorSaveState. step. apply page_rule; [done|]. step. apply (relative_rule P); [done|done|]. intros s1 S1 B1. step. apply read_page_rule; [done|done|]. step. apply read_page_rule; [done|done|]. step.
  apply (HQ s1); [done|done|]. rewrite (same_rest_mode s s1) by apply S1. replace (_termOutput s1) with (_termOutput s) by (destruct S1 as [[_ _ _ O] _ _ _]; congruence). by rewrite B1.
Qed.

Lemma attributes_rule attr s0 s (Q : _ -> _ -> Prop) : page_ready s ->
  (forall s', same_rest s s' -> buffer s' = set_currentAttributes attr (buffer s) -> _scrollMargins s' = _scrollMargins s -> Q s' tt) -> returns (page_SetAttributes (page_of s0) attr) s Q.
Proof. intros Hr HQ. apply on_page_rule; [done|]. step. intros s' R B M. by apply HQ. Qed.

(** C22: A cursor that is saved and later restored has its line and column again, counted
    from the margins if it was saved in origin mode, with the delayed wrap, the origin
    mode, the renditions and the charsets it was saved with; whatever happened in
    between, provided that the page has such a position and the saved state was not
    overwritten. The text is not touched. *)
Theorem saved_cursor_restored s : page_ready s -> length (_savedCursorState s) = 2%nat ->
  returns (CursorSaveState P) s (fun s1 _ => buffer s1 = buffer s /\
    forall s2, page_ready s2 -> Page.Number (page_of s2) = Page.Number (page_of s) -> _savedCursorState s2 = _savedCursorState s1 -> _usingAltBuffer s2 = _usingAltBuffer s1 ->
      addressable (set_mode AdaptMode.Origin (mode AdaptMode.Origin s) s2) (point.y (relative s)) (point.x (relative s)) ->
      returns (CursorRestoreState P) s2 (fun s3 _ =>
        mode AdaptMode.Origin s3 = mode AdaptMode.Origin s /\ relative s3 = relative s /\ _currentAttributes (buffer s3) = _currentAttributes (buffer s) /\
        Cursor.GetDelayEOLWrap (_cursor (buffer s3)) = (match Cursor.GetDelayEOLWrap (_cursor (buffer s)) with Some _ => Some (cursor s3) | None => None end) /\
        _termOutput s3 = RestoreFrom (_termOutput s) (_termOutput s2) /\
        forall y, line (avx2 P) (uninitialised P) (rowSize P) (buffer s3) y = line (avx2 P) (uninitialised P) (rowSize P) (buffer s2) y)).
Proof.
  intros Hr Hl. apply saved_rule; [done|]. intros s1 s' S1 B1 ->. split; [done|]. cbn [_savedCursorState set_savedCursorState _usingAltBuffer]. intros s2 Hr2 En Es Eu Ha.
  set (saved := mkCursorState _ _ _ _ _ _ _) in Es. assert (Hsave : _savedCursorState s2 !! saved_index s2 = Some saved).
  { unfold saved_index in *. rewrite Es, Eu. apply list_lookup_insert_eq. replace (_savedCursorState s1) with (_savedCursorState s) by (destruct S1 as [[_ _ _ O] _ _ _]; congruence). rewrite Hl. destruct (_usingAltBuffer s1); lia. }
  unfold CursorRestoreState. step. exists s2, saved. split; [unfold saved_state; by rewrite Hsave|]. step. step. cbn [saved IsOriginModeRelative saved_Page saved_Row saved_Column IsDelayedEOLWrap saved_Attributes saved_TermOutput].
  set (s3 := set_mode _ _ s2) in *. assert (Hr3 : page_ready s3) by (by apply set_mode_ready). step. unfold PagePositionAbsolute. do 2 step. apply move_to_rule; [done|done|].
  step. apply move_rule; [done|]. intros s4 S4 C4. rewrite (target_absolute P s3 _ _ Hr3 Ha) in C4. pose proof (same_screen_ready _ _ _ Hr3 S4) as Hr4.
  assert (Ec4 : cursor s4 = absolute s3 (point.y (relative s)) (point.x (relative s))) by (unfold cursor; rewrite C4; apply cursor_SetPosition). pose proof (relative_absolute P s3 s4 _ _ S4 Ec4) as Er4.
  step. apply page_rule; [done|]. step. apply (returns_mono _ _ (fun s5 _ => same_screen s4 s5 /\ cursor s5 = cursor s4 /\
    Cursor.GetDelayEOLWrap (_cursor (buffer s5)) = match Cursor.GetDelayEOLWrap (_cursor (buffer s)) with Some _ => Some (cursor s4) | None => None end)).
  { destruct (Cursor.GetDelayEOLWrap (_cursor (buffer s))); [rewrite bool_decide_true by done|rewrite bool_decide_false by (intros HF; by apply HF)].
    - apply (on_cursor_rule P); [done|]. intros s5 S5 C5. unfold cursor. by rewrite C5.
    - step. split; [by apply same_screen_refl|]. split; [done|]. rewrite C4. apply delay_SetPosition. }
  intros s5 [] (S5 & C5 & D5). pose proof (same_screen_ready _ _ _ Hr4 S5) as Hr5. step. apply attributes_rule; [done|]. intros s6 R6 B6 M6.
  exists (set_termOutput (RestoreFrom (_termOutput s) (_termOutput s6)) s6), tt. split; [done|]. pose proof (same_screen_trans _ _ _ _ S4 S5) as S35.
  assert (R36 : same_rest s3 s6) by (etransitivity; [apply S35|done]). assert (E6 : cursor s6 = cursor s4) by (unfold cursor in *; by rewrite B6). split_and!.
  - transitivity (mode AdaptMode.Origin s3); [by apply (same_rest_mode s3 s6)|]. unfold s3. by rewrite mode_set_mode.
  - transitivity (relative s6); [done|]. rewrite (relative_same s4 s6); [by rewrite Er4; destruct (relative s)|etransitivity; [apply S5|done]|done|].
    rewrite <- (screen_margins _ _ _ S5). unfold margins_of, page_height. destruct (same_rest_viewport s5 s6 R6) as [-> _]. by rewrite B6, M6.
  - change (_currentAttributes (buffer s6) = _currentAttributes (buffer s)). by rewrite B6.
  - change (Cursor.GetDelayEOLWrap (_cursor (buffer s6)) = match Cursor.GetDelayEOLWrap (_cursor (buffer s)) with Some _ => Some (cursor s6) | None => None end). rewrite E6, <- D5. by rewrite B6.
  - cbn. f_equal. destruct R36 as [_ _ _ O]. unfold s3 in O. cbn in O. congruence.
  - intros y. change (TextBufferProps.line (avx2 P) (uninitialised P) (rowSize P) (buffer s6) y = TextBufferProps.line (avx2 P) (uninitialised P) (rowSize P) (buffer s3) y). rewrite B6. apply S35.
Qed.
(** ** Modes *)

Variable graphemes : D -> bool.

(** Setting the mode with [m] is what [q] then finds, and nothing is answered. *)
Definition settles (m : comp State unit) (q : comp State Z) (enable : bool) s : Prop :=
  returns (m;; q) s (fun s' v => v = mapTemp enable /\ responses (terminal s') = responses (terminal s) /\ csi s' = csi s).

Lemma reported param (ansi enable : bool) s : settles (_ModeParamsHelper P param enable) (mode_state P graphemes param ansi) enable s ->
  returns (_ModeParamsHelper P param enable;; RequestMode P graphemes param ansi) s (fun s' _ => responses (terminal s') = responses (terminal s) ++
    [csi s ++ (if 0x01000000 <=? param then wide "?" else []) ++ numbers [if 0x01000000 <=? param then param - 0x01000000 else param; mapTemp enable] ++ wide "$y"]).
Proof.
  intros (s2 & v & E & -> & Hr & Hc). unfold RequestMode. unfold mbind, comp_bind in E. destruct (_ModeParamsHelper P param enable s) as [s1 [[]| | |]] eqn:Em; try done. step. exists s1, tt. split; [done|].
  step. exists s2, (mapTemp enable). split; [done|]. apply csi_rule. intros s' [Ha _ _ _]. rewrite Ha, Hr, Hc. done.
Qed.

Lemma settles_unit m q (enable : bool) s : settles (m;; mret tt) q enable s -> settles m q enable s.
Proof. unfold settles, returns. intros (s' & v & E & HQ). exists s', v. split; [|done]. unfold mbind at 1, comp_bind at 1 in E. rewrite comp_bind_unit in E. exact E. Qed.

Lemma input_rule f s (Q : _ -> _ -> Prop) : (forall s', terminalInput (terminal s') = f (terminalInput (terminal s)) -> responses (terminal s') = responses (terminal s) -> Q s' tt) -> returns (on_input f) s Q.
Proof.
  intros HQ. eexists _, tt. split; [reflexivity|]. destruct (put_input_law (f (terminalInput (terminal s))) (terminal s)) as (_ & _ & V & _). unfold view in V. apply HQ; cbn; fold (terminal s); congruence.
Qed.

Lemma input_mode_set m m' (enable : bool) i : 0 <= m < 64 -> 0 <= m' < 64 -> m' ∉ tracking_modes -> m' ∉ encoding_modes ->
  GetInputMode m (SetInputMode m enable i) = enable /\ (m' <> m -> GetInputMode m' (SetInputMode m enable i) = GetInputMode m' i).
Proof.
  intros Hm Hm' Ht He. unfold GetInputMode, test_mode, SetInputMode.
  assert (Hk : forall t, _inputMode (if enumset.test keyMapModes m then _initKeyboardMap t else t) = _inputMode t) by (intros t; destruct (enumset.test _ _); [|done]; unfold _initKeyboardMap; by destruct (test_mode _ _)). rewrite !Hk. cbn [set_inputMode _inputMode].
  split; [by rewrite enumset.test_set, Z.eqb_refl|]. intros Hne. rewrite enumset.test_set by done. destruct (Z.eqb_spec m' m); [done|].
  assert (H1' : forall data modes, (modes = tracking_modes \/ modes = encoding_modes) -> enumset.test (enumset.reset_all data modes) m' = enumset.test data m').
  { intros data modes Hmd. rewrite enumset.test_reset_all; [|destruct Hmd as [-> | ->]; apply (bool_decide_unpack _); by vm_compute|done]. rewrite (bool_decide_false (m' ∈ modes)) by (by destruct Hmd as [-> | ->]). by rewrite andb_true_r. }
  destruct (bool_decide (m ∈ encoding_modes) && enable), (bool_decide (m ∈ tracking_modes)); cbn [set_inputMode _inputMode reset_lastMouse set_mouseInputState]; rewrite ?H1' by auto; done.
Qed.
Lemma input_settles m (enable : bool) k s : 0 <= m < 64 -> m <> TerminalInput.Mode.SendC1 -> (k = mret tt \/ exists r, k = request r) -> settles (on_input (SetInputMode m enable);; k) (of_input m) enable s.
Proof.
  intros Hm Hc Hk. destruct (input_mode_set m TerminalInput.Mode.SendC1 enable (terminalInput (terminal s))) as [E1 E2]; [done|by unfold TerminalInput.Mode.SendC1|apply (bool_decide_unpack _); by vm_compute..|].
  unfold settles. do 2 step. apply input_rule. intros s1 I1 R1. assert (H1' : returns k s1 (fun s2 _ => terminal s2 = terminal s1)) by (destruct Hk as [-> |[r ->]]; [by step|by eexists _, tt]).
  apply (returns_mono _ _ _ _ H1'). intros s2 [] T2. unfold of_input, ask. repeat step. cbn [id]. fold (terminal s2). unfold csi. rewrite T2, I1, R1, E1. by rewrite E2.
Qed.

Lemma own_settles m (enable : bool) s : 0 <= m < 64 -> settles (modify (set_mode m enable)) (of_mode m) enable s.
Proof. intros Hm. unfold settles, of_mode. repeat step. by rewrite mode_set_mode, Z.eqb_refl. Qed.

Lemma render_settles m (enable : bool) s : 0 <= m < 64 -> settles (on_render_settings (SetRenderMode m enable)) (of_render m) enable s.
Proof.
  intros Hm. unfold settles. step. eexists _, tt. split; [reflexivity|]. set (r := SetRenderMode m enable (renderSettings (terminal s))). destruct (put_render_law r (terminal s)) as (_ & _ & V & _). unfold view in V.
  assert (Er : renderSettings (put_renderSettings r (terminal s)) = r) by congruence. assert (Ei : terminalInput (put_renderSettings r (terminal s)) = terminalInput (terminal s)) by congruence.
  unfold of_render, ask. repeat step. cbn [id]. unfold csi. cbn. fold (terminal s) r. rewrite Er, Ei. split; [|split; [congruence|done]]. unfold r, GetRenderMode, SetRenderMode. cbn. by rewrite enumset.test_set, Z.eqb_refl.
Qed.

Lemma system_settles m (enable : bool) k s : page_ready s -> m ∈ [SystemMode.AutoWrap; SystemMode.LineFeed; SystemMode.BracketedPaste] ->
  (k = mret tt \/ k = on_active_cursor P Cursor.ResetDelayEOLWrap) -> settles (api (api_SetSystemMode m enable);; k) (of_system m) enable s.
Proof.
  intros Hr Hin Hk. unfold settles. do 2 step. destruct (SetSystemMode_law m enable (terminal s) Hin) as (a & [] & E & B & Pr & V & M). exists (put_terminal a s), tt.
  split; [unfold api, with_pages, with_api; fold (terminal s); by rewrite E|]. set (s1 := put_terminal a s). unfold view in V.
  assert (Ei : csi s1 = csi s) by (unfold csi; cbn; by replace (terminalInput a) with (terminalInput (terminal s)) by congruence). assert (Es : responses (terminal s1) = responses (terminal s)) by (cbn; congruence).
  assert (Hr1 : page_ready s1). { destruct Hr as [Hv Hg Hp Hq Hw Hm]. assert (Eb : buffer s1 = buffer s) by (unfold buffer; cbn; congruence). assert (Ev : viewport s1 = viewport s) by (unfold viewport; cbn; congruence).
    split; rewrite ?Eb, ?Ev; try done. unfold on_visible. cbn. by replace (isMainBuffer a) with (isMainBuffer (terminal s)) by congruence. }
  assert (H1' : returns k s1 (fun s2 _ => same_rest s1 s2)). { destruct Hk as [-> | ->]; [by step|]. unfold on_active_cursor. step. apply page_rule; [done|]. apply (on_cursor_rule P); [done|]. intros s2 S2 _. apply S2. }
  apply (returns_mono _ _ _ _ H1'). intros s2 [] R2. unfold of_system, ask. repeat step. cbn [id]. fold (terminal s2). rewrite (rest_modes _ _ R2), M, Z.eqb_refl by done. destruct (same_rest_terminal _ _ R2) as (Ei2 & _ & Es2).
  split; [done|]. split; [congruence|]. unfold csi in *. by rewrite Ei2.
Qed.

Lemma cursor_settles (f : bool -> Cursor.t -> Cursor.t) g (enable : bool) s : page_ready s -> (forall c, g (f enable c) = enable) -> settles (on_active_cursor P (f enable)) (of_cursor P g) enable s.
Proof.
  intros Hr Hg. unfold settles. step. unfold on_active_cursor. step. apply page_rule; [done|]. apply (on_cursor_rule P); [done|]. intros s1 S1 C1. pose proof (same_screen_ready _ _ _ Hr S1) as Hr1.
  unfold of_cursor. step. apply page_rule; [done|]. step. apply read_page_rule; [done|done|]. step. rewrite C1, Hg. destruct (same_rest_terminal _ _ (screen_rest _ _ _ S1)) as (Ei & _ & Es). split; [done|]. split; [done|]. unfold csi. by rewrite Ei.
Qed.
Lemma origin_settles (enable : bool) s : page_ready s -> settles (modify (set_mode AdaptMode.Origin enable);; CursorPosition P 1 1) (of_mode AdaptMode.Origin) enable s.
Proof.
  intros Hr. unfold settles. do 3 step. apply move_rule; [by apply set_mode_ready|]. intros s1 S1 _. unfold of_mode. repeat step. rewrite (same_rest_mode _ s1 _ (screen_rest _ _ _ S1)), mode_set_mode, Z.eqb_refl by done.
  destruct (same_rest_terminal _ _ (screen_rest _ _ _ S1)) as (Ei & _ & Es). split; [done|]. split; [done|]. unfold csi. by rewrite Ei.
Qed.

Lemma coupling_settles (enable : bool) s : page_ready s ->
  settles (modify (set_mode AdaptMode.PageCursorCoupling enable);; if enable then with_pages (MakeActivePageVisible (avx2 P) (uninitialised P) (allocated P) (rowSize P)) else mret tt)
    (of_mode AdaptMode.PageCursorCoupling) enable s.
Proof.
  intros Hr. unfold settles. do 3 step. set (s1 := set_mode _ _ _). assert (Hk : returns (if enable then with_pages (MakeActivePageVisible (avx2 P) (uninitialised P) (allocated P) (rowSize P)) else mret tt) s1 (fun s2 _ => s2 = s1)).
  { destruct enable; [|by step]. assert (Hp : returns (MakeActivePageVisible (avx2 P) (uninitialised P) (allocated P) (rowSize P)) (_pages s1) (fun p _ => p = _pages s1)); [|destruct Hp as (p & [] & E & ->); exists s1, tt; unfold with_pages; by rewrite E].
    unfold MakeActivePageVisible. do 2 step. cbn [id]. destruct (ready_visible s Hr) as [Hv|[Hv _]]; [|cbn; rewrite Hv, Z.eqb_refl; by step]. destruct (_ =? _); [by step|]. unfold MoveTo. do 2 step. cbn [id].
    change (_api (_pages s1)) with (terminal s). rewrite Hv. by step. }
  apply (returns_mono _ _ _ _ Hk). intros s2 [] ->. unfold of_mode. repeat step. unfold s1. by rewrite mode_set_mode, Z.eqb_refl.
Qed.

Definition reportable_modes : list Z :=
  map fst input_modes ++ map fst own_modes ++
  [ModeParams.DECSCNM_ScreenMode; ModeParams.DECOM_OriginMode; ModeParams.DECAWM_AutoWrapMode; ModeParams.ATT610_StartCursorBlink; ModeParams.DECTCEM_TextCursorEnableMode;
   ModeParams.DECPCCM_PageCursorCouplingMode; ModeParams.FOCUS_EVENT_MODE; ModeParams.XTERM_BracketedPasteMode; ModeParams.SO_SynchronizedOutput; ModeParams.W32IM_Win32InputMode].

(** C23: Setting or resetting one of the [reportable_modes] is what a request for
    the mode then reports, on a page of at least two columns. These are the modes for
    cursor keys, auto repeat, numeric keypad, backarrow key, the three kinds of mouse
    tracking, the two mouse encodings and alternate scroll, insertion, permission of
    DECCOLM, sixel display and erase colour, reversed screen, origin, autowrap, cursor
    blinking and visibility, page cursor coupling, focus events, bracketed paste,
    synchronised output and win32-input-mode. Not among them are LNM and DECCOLM, which
    are ignored under conditions of their own, DECANM, DECLRMM and the alternate screen,
    which change more than a flag, and grapheme clusters, which cannot be changed. *)
Theorem modes_are_reported param (enable ansi : bool) s : page_ready s -> param ∈ reportable_modes ->
  returns ((if enable then SetMode P param else ResetMode P param);; RequestMode P graphemes param ansi) s (fun s' _ =>
    responses (terminal s') = responses (terminal s) ++
      [csi s ++ (if 0x01000000 <=? param then wide "?" else []) ++ numbers [if 0x01000000 <=? param then param - 0x01000000 else param; mapTemp enable] ++ wide "$y"]).
Proof.
  intros Hr Hin. replace (if enable then SetMode P param else ResetMode P param) with (_ModeParamsHelper (CB := MacroCallback) P param enable) by (by destruct enable).
  assert (Hb : forall c, Cursor._isBlinking (Cursor.SetIsBlinking enable c) = enable) by (intros c; unfold Cursor.SetIsBlinking; destruct (Bool.eqb_spec (Cursor._isBlinking c) enable); done).
  assert (Hv : forall c, Cursor._isVisible (Cursor.SetIsVisible enable c) = enable) by (intros c; unfold Cursor.SetIsVisible; destruct (Bool.eqb_spec (Cursor._isVisible c) enable); done).
  unfold reportable_modes in Hin. cbn [map app input_modes own_modes fst] in Hin.
  repeat (apply elem_of_cons in Hin as [-> | Hin]; [apply reported|]); [..|by apply elem_of_nil in Hin].
  1-10: apply settles_unit; apply input_settles; [done|done|by left].
  1-4: apply own_settles; done.
  - apply render_settles; done.
  - by apply origin_settles.
  - apply system_settles; [done|apply (bool_decide_unpack _); by vm_compute|]. destruct enable; [by left|by right].
  - apply (cursor_settles Cursor.SetIsBlinking); done.
  - apply (cursor_settles Cursor.SetIsVisible); done.
  - by apply coupling_settles.
  - apply input_settles; [done|done|]. destruct enable; [by left|right; by eexists].
  - apply settles_unit, system_settles; [done|apply (bool_decide_unpack _); by vm_compute|by left].
  - apply render_settles; done.
  - apply input_settles; [done|done|]. destruct enable; [by left|right; by eexists].
Qed.
End Roundtrips.
