(* ===== verification/AdaptWriting.v ===== *)
(** * Theorems about the dispatcher: text on the screen

    What is printed is on the page, and a page that is full moves up. *)

From stdpp Require Import list gmap.
From S2P Require Import Prelude Til Utils VtTypes StateMachine TermDispatch TextAttributes Graphics Rle RleProps CodepointWidth CodepointWidthProps Geometry ImageSlice Row RowWrite RowProps RowWriteProps RowText RowTextProps RowInvariant Cursor TextBuffer TextBufferProps BufferScroll MacroBuffer Charsets TerminalOutput TerminalInput RenderSettings Pages AdaptDispatch AdaptScreen AdaptProps.

(** ** Plain text in a row *)

Definition plain (t : wstring) : Prop := Forall (fun c => 0 <= c < 0x80) t.

Section Rows.
Context {D : Type} `{MeasurementLaws D}.
Variable avx2 : bool.
Variable uninitialised : nat -> Z.

Lemma text_glyphs_plain (d : D) room t : plain t -> (length t <= room)%nat -> text_glyphs d room t = singles t.
Proof.
  intros Hp Hl. unfold text_glyphs. rewrite take_ge by done. replace (forallb ascii t) with true; [done|]. symmetry. apply forallb_forall. intros c Hc. apply list_elem_of_In in Hc.
  unfold plain in Hp. rewrite Forall_forall in Hp. apply Hp in Hc. unfold ascii. apply Z.ltb_lt. lia.
Qed.

Lemma ReplaceText_rest address (s : RowWriteState) (r : ROW) (d : D) r' d' s' : ReplaceText avx2 uninitialised address s r d = (r', d', Returned s') ->
  ws_columnBegin s' = ws_columnBegin s /\ ws_columnLimit s' = ws_columnLimit s /\ exists k, ws_text s' = mkView (data (ws_text s) + k) (drop (Z.to_nat k) (text (ws_text s))).
Proof.
  unfold ReplaceText. destruct (new_WriteHelper _ _ _ _ _) as [h|]; [|done]. destruct (negb _).
  { intros [= <- <- <-]. split_and!; [done..|]. exists 0. cbn. rewrite Z.add_0_r, drop_0. by destruct (ws_text s). }
  unfold with_helper, mbind, comp_bind. destruct (helper_ReplaceText h) as [h1 [[]| | |]]; try done; [|by destruct (Reset _ _ _ _)].
  destruct (Finish _ _ h1) as [h2 [[]| | |]]; try done; [|by destruct (Reset _ _ _ _)]. unfold gets. intros [= <- <- <-]. split_and!; [done..|]. by eexists.
Qed.

(** All of the text is written; the rest of it is empty and lies behind it. *)
Record all_written (s s' : RowWriteState) : Prop := {
  written_text : text (ws_text s') = [];
  written_moved : data (ws_text s') <> data (ws_text s);
  written_begin : ws_columnBegin s' = ws_columnBegin s;
  written_limit : ws_columnLimit s' = ws_columnLimit s;
  written_last : ws_columnEnd s' = ws_columnBegin s + Z.of_nat (length (text (ws_text s)))
}.

Lemma ReplaceText_plain address (r : ROW) gs (d : D) (s : RowWriteState) : row_ok r gs -> measure_ok d ->
  let t := text (ws_text s) in
  t <> [] -> plain t -> 0 <= ws_columnBegin s -> ws_columnBegin s + Z.of_nat (length t) <= ws_columnLimit s -> ws_columnLimit s <= _columnCount r ->
  chars_len gs + Z.of_nat (length t) + _columnCount r < 0x8000 ->
  let col := Z.to_nat (ws_columnBegin s) in
  exists r' d' s', ReplaceText avx2 uninitialised address s r d = (r', d', Returned s') /\ row_ok r' (overwrite gs col (singles t) (col + length t)) /\ kept r r' /\ same_measure d d' /\
    all_written s s'.
Proof.
  intros Hrow Hd t Hne Hp Hb Hfit Hl Hlen col. pose proof Hrow as [Hc _ Hok _ _ _ Hn].
  assert (Hpos : (0 < length t)%nat) by (destruct t; [done|simpl; lia]).
  assert (C1 : _clampedColumnInclusive (ws_columnBegin s) r = ws_columnBegin s) by (apply (clampedInclusive_ok r gs); [done|lia]).
  assert (C2 : _clampedColumnInclusive (ws_columnLimit s) r = ws_columnLimit s) by (apply (clampedInclusive_ok r gs); [done|lia]).
  destruct (cut gs col Hok ltac:(lia)) as (pre & post & i & Heq & Hci & Hcut).
  pose proof (plain_writes uninitialised address r gs pre post i d (ws_text s) (Z.to_nat (ws_columnLimit s)) Hrow Heq Hcut Hd ltac:(lia)) as Hw. fold t in Hw. cbv zeta in Hw. rewrite <- Hci in Hw.
  rewrite text_glyphs_plain in Hw by (done || lia). destruct (singles_ok t) as (S1 & S2 & S3). assert (Hce : chars_len (singles t) = Z.of_nat (length t)) by (unfold chars_len; by rewrite S1).
  unfold write_end in Hw. rewrite decide_True, S2, Hce in Hw by done.
  destruct (ReplaceText_runs avx2 uninitialised address s r gs d pre post i col (singles t) (col + length t) (Z.of_nat (length t)) Hrow Heq Hcut) as (r' & d' & s' & E1 & E2 & E3 & E4 & E5 & E6 & _).
  - lia.
  - rewrite C2. lia.
  - done.
  - rewrite C2, <- (Z2Nat.id (ws_columnLimit s)) by lia. apply Hw; [|destruct t as [|c t']; [done|]; exists c, t'; split; [done|]|done].
    + eapply Forall_impl; [exact Hp|]. intros c Hcc. unfold is_wchar. cbv beta in Hcc. lia.
    + apply Forall_cons in Hp as [Hcc _]. unfold ascii. apply Z.ltb_lt. lia.
  - exists r', d', s'. destruct (ReplaceText_rest _ _ _ _ _ _ _ E1) as (B1 & B2 & k & B3). fold t in E5, B3. rewrite Nat2Z.id, drop_all in E5. rewrite E5 in E6. rewrite S2 in E6. repeat (split; [done|]).
    split; [done| |done|done|rewrite E6; fold t; lia]. rewrite B3 in *. cbn in E5 |- *. intros Ek. assert (k = 0) as -> by lia. rewrite drop_0 in E5. done.
Qed.
End Rows.

(** ** Plain text in a buffer *)

Section Buffers.
Context {D : Type} `{MeasurementLaws D}.
Variable avx2 : bool.
Variable uninitialised : nat -> Z.
Variable allocated : nat -> Z.
Variable rowSize : Z.
Implicit Types b : TextBuffer D.
Local Abbreviation slot_row := (TextBufferProps.slot_row avx2 uninitialised rowSize).
Local Abbreviation line := (TextBufferProps.line avx2 uninitialised rowSize).
Local Abbreviation shows := (TextBufferProps.shows avx2 uninitialised rowSize).

(** The row has room for so many more characters. *)
Definition writable (n : nat) (r : ROW) : Prop := image_ok r /\ exists k, _charSize r = Some k /\ k + Z.of_nat n + _columnCount r < 0x8000.

(** The text is in the row from a column on, with its attributes. *)
Record row_printed (col : nat) (t : wstring) (attr : TextAttribute.t) (r r' : ROW) : Prop := {
  printed_glyphs : exists gs, row_ok r gs /\ row_ok r' (overwrite gs col (singles t) (col + length t));
  printed_attr : contents (_attr r') = take col (contents (_attr r)) ++ replicate (length t) attr ++ drop (col + length t) (contents (_attr r));
  printed_flags : _lineRendition r' = _lineRendition r /\ _wrapForced r' = _wrapForced r /\ _promptData r' = _promptData r
}.

Lemma writable_chars n r gs : row_ok r gs -> writable n r -> chars_len gs + Z.of_nat n + _columnCount r < 0x8000.
Proof.
  intros [Hc _ Hok Ho _ _ _] (_ & k & E & Hk). unfold _charSize, offset_at in E. destruct (Z.ltb_spec (_columnCount r) 0); [lia|].
  rewrite Ho in E. replace (Z.to_nat (_columnCount r)) with (columns gs) in E by lia. rewrite offsets_end in E by done. by injection E as <-.
Qed.

Lemma Replace_plain b y attr (s : RowWriteState) r : good_buffer b -> line b y = Some r ->
  let t := text (ws_text s) in
  t <> [] -> plain t -> 0 <= ws_columnBegin s -> ws_columnBegin s + Z.of_nat (length t) <= ws_columnLimit s -> ws_columnLimit s <= _width b -> writable (length t) r ->
  exists b' r' s', Replace avx2 uninitialised allocated rowSize y attr s b = (b', Returned s') /\ good_buffer b' /\ shows b (updated (slot_of b y) r' (slot_row b)) b' /\
    row_printed (Z.to_nat (ws_columnBegin s)) t attr r r' /\
    all_written s s'.
Proof.
  intros Hg Hline t Hne Hp Hb Hfit Hlim Hw. unfold Replace. destruct (get_mutable_ok avx2 uninitialised rowSize b y Hg) as (b1 & r0 & E & Hg1 & Hs1 & Hd1 & Hr1 & Hl1 & Hrg & Hrc). rewrite Hline in Hl1. injection Hl1 as <-.
  unfold mbind at 1, comp_bind at 1. rewrite E. destruct (good_text _ Hrg) as [gs Hgs]. assert (Hpos : (0 < length t)%nat) by (destruct t; [done|simpl; lia]).
  destruct (ReplaceText_plain avx2 uninitialised (allocated (_allocations b1)) r gs (_detector b1) s Hgs (good_detector _ Hg1) Hne Hp Hb Hfit ltac:(lia) (writable_chars _ _ _ Hgs Hw)) as (r1 & d1 & s1 & E1 & R1 & K1 & M1 & Hall).
  fold t in R1. pose proof Hall as [_ _ B1 _ C1]. fold t in C1. unfold mbind at 1, comp_bind at 1. unfold ReplaceText_at, with_row at 1. rewrite Hr1, E1. apply lookup_lt_Some in Hr1 as Hlt. destruct (kept_attr r r1 K1) as [Ka Kc]. assert (Hg1' : row_good r1) by (by eapply good_written).
  pose proof R1 as [_ _ _ _ _ _ Hn1].
  assert (Q1 : _clampedColumnInclusive (ws_columnBegin s1) r1 = ws_columnBegin s) by (rewrite B1; apply (clampedInclusive_ok r1 _ _ R1); lia).
  assert (Q2 : _clampedColumnInclusive (ws_columnEnd s1) r1 = ws_columnBegin s + Z.of_nat (length t)) by (rewrite C1; apply (clampedInclusive_ok r1 _ _ R1); lia).
  destruct (replace_attributes_contents r1 (ws_columnBegin s) (ws_columnBegin s + Z.of_nat (length t)) attr Hg1' ltac:(lia) ltac:(lia)) as (a & E2 & Hg2 & Ha).
  unfold mbind at 1, comp_bind at 1. unfold with_attributes, with_row. cbn [set_detector set_rows _rows _detector]. rewrite list_lookup_insert_eq by done. unfold ReplaceAttributes. rewrite Q1, Q2, E2. cbn [set_detector set_rows _rows _detector _allocations]. rewrite list_insert_insert_eq.
  assert (Hi2 : image_ok (set_attr a r1)) by (unfold image_ok; unfold kept in K1; rewrite K1; apply Hw).
  destruct (EraseCells_ok (set_attr a r1) (ws_columnBegin s1) (ws_columnEnd s1) Hi2) as (r3 & E3 & Er3 & _). unfold EraseImage_at, with_text, mbind, comp_bind, row_at. cbn [set_detector set_rows _rows]. rewrite list_lookup_insert_eq by done. rewrite E3. cbn [lift]. unfold mret, comp_ret, put_row.
  cbn [set_detector set_rows _rows]. rewrite length_insert. destruct (Nat.ltb_spec (slot_of b y) (length (_rows b1))); [|lia]. rewrite list_insert_insert_eq.
  assert (Hg3 : row_good r3) by (rewrite Er3; destruct Hg2 as [[gs2 J1] J2 J3]; split; [exists gs2; by destruct J1|done|done]). pose proof (frame_fields _ _ (shows_frame _ _ _ _ _ _ Hs1)) as (Fw & _).
  assert (Hc3 : _columnCount r3 = _width b1) by (rewrite Er3; cbn; congruence).
  destruct (put_row_ok avx2 uninitialised rowSize b1 (slot_of b y) r3 r d1 (S (S (_allocations b1))) Hg1 Hr1 Hg3 Hc3 M1) as (P1 & P2 & _).
  eexists _, r3, s1. split; [reflexivity|]. split; [exact P1|]. split; [eapply shows_ext; [|eapply shows_trans; [exact Hs1|exact P2]]; intros sl; apply updated_ext; apply Hs1|]. split; [|done].
  rewrite Er3. split; cbn [SetImageSlice set_flags set_attr _attr _lineRendition _wrapForced _promptData].
  - exists gs. split; [done|]. destruct R1; by split.
  - rewrite Ha, Ka. by replace (Z.to_nat (ws_columnBegin s + Z.of_nat (length t) - ws_columnBegin s)) with (length t) by lia; replace (Z.to_nat (ws_columnBegin s + Z.of_nat (length t))) with (Z.to_nat (ws_columnBegin s) + length t)%nat by lia.
  - unfold kept in K1. by rewrite K1.
Qed.
End Buffers.

(** ** Plain text on the page *)

Section Printing.
Context {A D CB : Type} `{MeasurementLaws D} `{!ITerminalApi A D} `{!ITerminalApiLaws A D}.
Variable P : Platform.
Implicit Types (s : AdaptDispatch A D CB) (page : Page) (b : TextBuffer D).
Local Abbreviation line := (TextBufferProps.line (avx2 P) (uninitialised P) (rowSize P)).
Local Abbreviation same_screen := (same_screen P).

(** The column that text must not reach: behind the line or behind the right margin. *)
Definition limit_at s (p : point.t) : Z :=
  let '((t, bm), (_, r)) := margins_of s in
  let w := line_width_at P (buffer s) (point.y p) in
  let o := rect.top (viewport s) in
  if (point.x p <=? r) && (t + o <=? point.y p) && (point.y p <=? bm + o) then Z.min w (r + 1) else w.
Definition limit_of s : Z := limit_at s (cursor s).

Lemma limit_at_same s s' p : same_screen s s' -> limit_at s' p = limit_at s p.
Proof.
  intros S. unfold limit_at. rewrite (screen_margins _ _ _ S), (line_width_same P s s' _ S). destruct (same_rest_viewport s s' (screen_rest _ _ _ S)) as [-> _]. done.
Qed.

Lemma limit_bounds s : page_ready s -> 0 <= point.x (cursor s) -> 1 <= limit_of s <= _width (buffer s).
Proof.
  intros Hr Hx. pose proof (margins_bounds s Hr) as Hb. unfold limit_of, limit_at. destruct (margins_of s) as [[t bm] [l r]]. pose proof (line_width_bounds P (buffer s) (point.y (cursor s)) (ready_buffer s Hr) (ready_width s Hr)).
  case_match; lia.
Qed.

Lemma line_changed s s' y r' : page_ready s -> 0 <= y < _height (buffer s) ->
  shows (avx2 P) (uninitialised P) (rowSize P) (buffer s) (updated (slot_of (buffer s) y) r' (slot_row (avx2 P) (uninitialised P) (rowSize P) (buffer s))) (buffer s') ->
  line (buffer s') y = Some r' /\ forall z, 0 <= z < _height (buffer s) -> z <> y -> line (buffer s') z = line (buffer s) z.
Proof.
  intros Hr Hy Hs. pose proof (ready_buffer s Hr) as Hg. split; [rewrite (updated_line _ _ _ (buffer s) (buffer s') y y r') by done; by rewrite decide_True|].
  intros z Hz Hne. rewrite (updated_line _ _ _ (buffer s) (buffer s') y z r') by done. by rewrite decide_False.
Qed.

Lemma insert_or_replace_plain s0 s y (st : RowWriteState) r (Q : _ -> _ -> Prop) : page_ready s -> 0 <= y < _height (buffer s) -> mode AdaptMode.InsertReplace s = false -> line (buffer s) y = Some r ->
  let t := text (ws_text st) in
  t <> [] -> plain t -> 0 <= ws_columnBegin st -> ws_columnBegin st + Z.of_nat (length t) <= ws_columnLimit st -> ws_columnLimit st <= _width (buffer s) -> writable (length t) r ->
  (forall s' r' st', same_rest s s' -> _scrollMargins s' = _scrollMargins s -> good_buffer (buffer s') -> frame (buffer s') = frame (buffer s) ->
     line (buffer s') y = Some r' -> row_printed (Z.to_nat (ws_columnBegin st)) t (_currentAttributes (buffer s)) r r' ->
     (forall z, 0 <= z < _height (buffer s) -> z <> y -> line (buffer s') z = line (buffer s) z) -> all_written st st' -> Q s' st') ->
  returns (insert_or_replace P (page_of s0) y st) s Q.
Proof.
  intros Hr Hy Hm Hl t Hne Hp Hb Hf Hlim Hw HQ. unfold insert_or_replace. do 2 step. rewrite Hm. step. apply read_page_rule; [done|done|]. apply on_page_rule; [done|].
  destruct (Replace_plain (avx2 P) (uninitialised P) (allocated P) (rowSize P) (buffer s) y (_currentAttributes (buffer s)) st r (ready_buffer s Hr) Hl Hne Hp Hb Hf Hlim Hw) as (b' & r' & st' & E & Hg & Hs & Hpr & Hall).
  exists b', st'. split; [done|]. intros s' R B M. rewrite <- B in Hs, Hg. destruct (line_changed s s' y r' Hr Hy Hs) as [L1 L2]. apply (HQ s' r' st'); try done. apply Hs.
Qed.

Lemma ready_sized s s' : page_ready s -> same_rest s s' -> _scrollMargins s' = _scrollMargins s -> good_buffer (buffer s') -> _width (buffer s') = _width (buffer s) -> _height (buffer s') = _height (buffer s) -> page_ready s'.
Proof.
  intros [Hv Hg Hp Hq Hw Hm] R M G Fw Fh. destruct (same_rest_viewport s s' R) as [Ev Em]. destruct R as [_ _ Rp _]. split; rewrite ?Ev, ?Fw, ?Fh, ?M; try done.
  unfold on_visible in *. rewrite Em. destruct Hv as [Hv|Hv]; [by left|right]. injection Rp as -> -> _. done.
Qed.
Lemma ready_kept s s' : page_ready s -> same_rest s s' -> _scrollMargins s' = _scrollMargins s -> good_buffer (buffer s') -> frame (buffer s') = frame (buffer s) -> page_ready s'.
Proof. intros Hr R M G F. destruct (frame_fields _ _ F) as (Fw & Fh & _). by apply (ready_sized s). Qed.

(** The cursor behind text that ends in front of column [e]. *)
Definition cursor_behind (e limit y : Z) (wrap : bool) s' : Prop :=
  cursor s' = point.mk (Z.min e (limit - 1)) y /\ Cursor.GetDelayEOLWrap (_cursor (buffer s')) = if (limit <=? e) && wrap then Some (cursor s') else None.

(** Text is left to write only if there is some. *)
Lemma write_loop_done fuel page topM botM rightM (wrap : bool) p (st : RowWriteState) s (Q : _ -> _ -> Prop) : text (ws_text st) = [] -> Q s tt -> returns (write_loop P fuel page topM botM rightM wrap p st) s Q.
Proof. intros Ht HQ. destruct fuel; cbn [write_loop]; rewrite Ht; by step. Qed.

Lemma write_loop_plain fuel s0 topM botM rightM (wrap : bool) (st : RowWriteState) r s (Q : _ -> _ -> Prop) : (0 < fuel)%nat -> page_ready s -> let p := cursor s in
  0 <= point.y p < _height (buffer s) -> mode AdaptMode.InsertReplace s = false -> line (buffer s) (point.y p) = Some r -> Cursor.GetDelayEOLWrap (_cursor (buffer s)) = None ->
  let t := text (ws_text st) in
  t <> [] -> plain t -> 0 <= point.x p -> point.x p + Z.of_nat (length t) <= ws_columnLimit st -> ws_columnLimit st <= _width (buffer s) -> writable (length t) r ->
  (forall s' r', same_rest s s' -> page_ready s' -> line (buffer s') (point.y p) = Some r' -> row_printed (Z.to_nat (point.x p)) t (_currentAttributes (buffer s)) r r' ->
     (forall z, 0 <= z < _height (buffer s) -> z <> point.y p -> line (buffer s') z = line (buffer s) z) ->
     cursor_behind (point.x p + Z.of_nat (length t)) (ws_columnLimit st) (point.y p) wrap s' -> Q s' tt) ->
  returns (write_loop P fuel (page_of s0) topM botM rightM wrap (cursor s) st) s Q.
Proof.
  intros Hfuel Hr p Hy Hm Hl Hd t Hne Hp Hx Hf Hlim Hw HQ. destruct fuel as [|fuel]; [lia|]. cbn [write_loop]. fold t. destruct t as [|c t'] eqn:Et; [done|]. rewrite <- Et in *.
  step. unfold wrap_line at 1. step. apply read_page_rule; [done|done|]. rewrite Hd. step. cbv beta iota zeta. step.
  apply (insert_or_replace_plain s0 s (point.y p) _ r); try done; cbn [ws_text ws_columnBegin ws_columnLimit]; try (fold t; rewrite ?Et; done).
  intros s1 r' st' R1 M1 G1 F1 L1 Hpr Lz [W1 W2 W3 W4 W5]. cbn [ws_text ws_columnBegin ws_columnLimit] in *. pose proof (ready_kept s s1 Hr R1 M1 G1 F1) as Hr1. rewrite W4, W5.
  set (e := point.x (cursor s) + Z.of_nat (length (text (ws_text st)))) in *. set (q := point.mk _ _). step. apply (on_cursor_rule P); [done|]. intros s2 S2 C2. pose proof (same_screen_ready _ _ _ Hr1 S2) as Hr2.
  assert (Ec : cursor s2 = q) by (unfold cursor; rewrite C2; apply cursor_SetPosition). assert (Ed : Cursor.GetDelayEOLWrap (_cursor (buffer s2)) = None) by (rewrite C2; apply Cursor.position_set).
  assert (Hfin : forall s3, same_screen s2 s3 -> cursor s3 = q -> Cursor.GetDelayEOLWrap (_cursor (buffer s3)) = (if (ws_columnLimit st <=? e) && wrap then Some q else None) -> Q s3 tt).
  { intros s3 S3 E3 D3. pose proof (same_screen_trans _ _ _ _ S2 S3) as [R T _ _]. pose proof (text_line _ _ _ T) as TL. apply (HQ s3 r'); [by etransitivity|by eapply same_screen_ready|by rewrite TL|done| |].
    - intros z Hz Hnz. rewrite TL. by apply Lz.
    - split; [|by rewrite D3, E3]. rewrite E3. unfold q. f_equal. fold p e. destruct (Z.leb_spec (ws_columnLimit st) e); change (point.x p + Z.of_nat (length t)) with e; lia. }
  destruct (ws_columnLimit st <=? e) eqn:El; cbn [andb] in Hfin.
  - destruct (Z.eqb_spec (data (ws_text st)) (data (ws_text st'))); [congruence|]. cbn [andb]. do 4 step. destruct wrap.
    + apply (on_cursor_rule P); [done|]. intros s3 S3 C3. step. apply write_loop_done; [done|]. apply Hfin; [done|unfold cursor in *; by rewrite C3|rewrite C3; change (Some (cursor s2) = Some q); by rewrite Ec].
    + do 2 step. apply write_loop_done; [done|]. apply Hfin; [by apply same_screen_refl|done|done].
  - do 2 step. apply write_loop_done; [done|]. apply Hfin; [by apply same_screen_refl|done|done].
Qed.

Definition autowrap s : bool := api_GetSystemMode SystemMode.AutoWrap (terminal s).

(** The text is on the page, at the cursor, which is now behind it. *)
Definition printed (string : wstring) (limit : Z) (r : ROW) s s' : Prop :=
  let p := cursor s in
  same_rest s s' /\ page_ready s' /\
  (exists r', line (buffer s') (point.y p) = Some r' /\ row_printed (Z.to_nat (point.x p)) string (_currentAttributes (buffer s)) r r') /\
  (forall z, 0 <= z < _height (buffer s) -> z <> point.y p -> line (buffer s') z = line (buffer s) z) /\
  cursor_behind (point.x p + Z.of_nat (length string)) limit (point.y p) (autowrap s) s'.

Lemma write_plain string s r : page_ready s -> rect.top (viewport s) <= point.y (cursor s) < rect.bottom (viewport s) -> 0 <= point.x (cursor s) ->
  mode AdaptMode.InsertReplace s = false -> Cursor.GetDelayEOLWrap (_cursor (buffer s)) = None ->
  string <> [] -> plain string -> point.x (cursor s) + Z.of_nat (length string) <= limit_of s -> line (buffer s) (point.y (cursor s)) = Some r -> writable (length string) r ->
  returns (_WriteToBuffer P string) s (fun s' _ => printed string (limit_of s) r s s').
Proof.
  intros Hr Hy Hx Hm Hd Hne Hp Hf Hl Hw. pose proof (limit_bounds s Hr Hx) as Hlim. unfold _WriteToBuffer. step. apply page_rule; [done|]. step. apply position_rule. step. unfold ask at 1. do 3 step. cbn [id]. fold (terminal s) (autowrap s).
  step. apply (v_rule P); [done|done|]. intros s1 S1 B1. cbv beta iota zeta. pose proof (same_screen_ready _ _ _ Hr S1) as Hr1. step. apply width_rule. step. apply (h_rule P); [done|]. intros s2 S2 B2. rewrite (screen_margins _ _ _ S1).
  pose proof (same_screen_trans _ _ _ _ S1 S2) as S12. pose proof (same_screen_ready _ _ _ Hr S12) as Hr2. unfold limit_of, limit_at in *. destruct (margins_of s) as [[t bm] [l rm]] eqn:Em. cbn [fst snd]. cbv beta iota. step. apply line_width_page_rule; [done|]. intros s3 S3 C3.
  assert (Eb : buffer s2 = buffer s) by congruence. rewrite Eb in *. pose proof (same_screen_trans _ _ _ _ S12 S3) as S. pose proof (same_screen_ready _ _ _ Hr S) as Hr3. pose proof S as [R [_ TL TW TH TA] _ _].
  assert (Ec : cursor s = cursor s3) by (unfold cursor; by rewrite C3). cbv zeta. set (limit := if _ && _ && _ then _ else _) in *. rewrite Ec. pose proof (ready_viewport s Hr) as Hv.
  apply (write_loop_plain _ _ _ _ _ _ _ r); cbn [ws_text text ws_columnLimit]; rewrite <- ?Ec, ?TH, ?TW, ?TL, ?C3; try done; try lia.
  - by rewrite (same_rest_mode s s3).
  - intros s4 r' R4 Hr4 L4 Hpr Lz Hc. split; [by etransitivity|]. split; [done|]. split; [exists r'; split; [done|]; by rewrite <- TA|]. split; [|done].
    intros z Hz Hnz. rewrite Lz by done. apply TL.
Qed.

(** C6: Printing a string puts its characters, as the charsets in use translate them, on
    the page: each into a column of its own from the cursor on, in the current
    renditions, over what was there, where a wide glyph that is cut becomes a space; the
    other lines and everything else stay as they were. The cursor ends up behind the
    text, or in the last column before the right margin with the wrap delayed if
    autowrap is on. This is so for ASCII that fits on the line while insertion is off;
    and printing comes to an end. *)
Theorem text_is_printed string t' translated s r : page_ready s -> rect.top (viewport s) <= point.y (cursor s) < rect.bottom (viewport s) -> 0 <= point.x (cursor s) ->
  mode AdaptMode.InsertReplace s = false -> Cursor.GetDelayEOLWrap (_cursor (buffer s)) = None ->
  printed_text string (_termOutput s) = (t', Returned translated) -> translated <> [] -> plain translated -> point.x (cursor s) + Z.of_nat (length translated) <= limit_of s ->
  line (buffer s) (point.y (cursor s)) = Some r -> writable (length translated) r ->
  returns (PrintString P string) s (fun s' _ => printed translated (limit_of s) r (set_termOutput t' s) s').
Proof.
  intros Hr Hy Hx Hm Hd Ht Hne Hp Hf Hl Hw. unfold PrintString. step. exists (set_termOutput t' s), translated. split; [unfold charsets; by rewrite Ht|].
  apply (write_plain translated (set_termOutput t' s) r); try done. by destruct Hr; split.
Qed.

(** ** Line feeds *)

Definition erase_attributes s : TextAttribute.t := if mode AdaptMode.EraseColor s then TextAttribute.default else TextAttribute.SetStandardErase (_currentAttributes (buffer s)).
Definition page_line s (i : Z) : option ROW := line (buffer s) (rect.top (viewport s) + i).
Definition page_lines s : list (option ROW) := (fun i => page_line s (Z.of_nat i)) <$> seq 0 (Z.to_nat (page_height s)).
Definition with_last {X} (f : X -> X) (l : list (option X)) : list (option X) := alter (fmap f) (length l - 1)%nat l.

Lemma erase_rule s0 s (Q : _ -> _ -> Prop) : Q s (erase_attributes s) -> returns (_GetEraseAttributes (page_of s0)) s Q.
Proof. intros HQ. unfold _GetEraseAttributes. do 2 step. unfold erase_attributes in HQ. destruct (mode AdaptMode.EraseColor s); [by step|]. step. apply read_page_rule; [done|done|]. by step. Qed.

Lemma page_lines_lookup s i : 0 <= i < page_height s -> page_lines s !! Z.to_nat i = Some (page_line s i).
Proof. intros Hi. unfold page_lines. rewrite list_lookup_fmap, lookup_seq_lt by lia. cbn. by rewrite Z2Nat.id by lia. Qed.
Lemma length_page_lines s : length (page_lines s) = Z.to_nat (page_height s).
Proof. unfold page_lines. by rewrite length_fmap, length_seq. Qed.

(** The lines of a page that has moved up by one. *)
Lemma scrolled_page s s' (f : ROW -> ROW) r : 0 < page_height s -> page_height s' = page_height s ->
  (forall i, 0 <= i < page_height s - 1 -> page_line s' i = if decide (i = page_height s - 2) then f <$> page_line s (i + 1) else page_line s (i + 1)) -> page_line s' (page_height s - 1) = Some r ->
  page_lines s' = drop 1 (with_last f (page_lines s)) ++ [Some r].
Proof.
  intros Hh Hs Hi Hl. apply list_eq_same_length with (n := Z.to_nat (page_height s)); [unfold with_last; rewrite length_app, length_drop, length_alter, length_page_lines; simpl; lia|rewrite length_page_lines; lia|].
  intros i x y Hlt Hx Hy. rewrite <- (Nat2Z.id i), page_lines_lookup in Hx by lia. injection Hx as <-. destruct (decide (Z.of_nat i = page_height s - 1)) as [E|E].
  - rewrite lookup_app_r in Hy by (unfold with_last; rewrite length_drop, length_alter, length_page_lines; lia). unfold with_last in Hy. rewrite length_drop, length_alter, length_page_lines in Hy.
    replace (i - _)%nat with 0%nat in Hy by lia. injection Hy as <-. by rewrite E.
  - rewrite lookup_app_l in Hy by (unfold with_last; rewrite length_drop, length_alter, length_page_lines; lia). rewrite lookup_drop in Hy. unfold with_last in Hy. rewrite length_page_lines in Hy. rewrite Hi by lia.
    replace (1 + i)%nat with (Z.to_nat (Z.of_nat i + 1)) in Hy by lia. destruct (decide (Z.of_nat i = page_height s - 2)) as [E2|E2].
    + replace (Z.to_nat (page_height s) - 1)%nat with (Z.to_nat (Z.of_nat i + 1)) in Hy by lia. rewrite list_lookup_alter_eq, page_lines_lookup in Hy by lia. by injection Hy as <-.
    + rewrite list_lookup_alter_ne, page_lines_lookup in Hy by lia. by injection Hy as <-.
Qed.

(** The viewport moves over the buffer. *)
Lemma viewport_rule p s (Q : _ -> _ -> Prop) : isMainBuffer (terminal s) = true -> page_ready s -> 0 <= point.x p <= _width (buffer s) - (rect.right (viewport s) - rect.left (viewport s)) -> 0 <= point.y p <= _height (buffer s) - page_height s ->
  (forall s', page_ready s' -> buffer s' = buffer s -> viewport s' = rect.mk (point.x p) (point.y p) (point.x p + (rect.right (viewport s) - rect.left (viewport s))) (point.y p + page_height s) ->
     s' = put_terminal (terminal s') s -> Q s' tt) ->
  returns (set_viewport_position p) s Q.
Proof.
  intros Hm Hr Hx Hy HQ. destruct (SetViewportPosition_law p (terminal s) Hm) as (a & [] & E & B & Pr & V & _). exists (put_terminal a s), tt. split; [unfold set_viewport_position, api, with_pages, with_api; fold (terminal s); by rewrite E|].
  unfold page_height, viewport in *. change (_width (buffer s)) with (_width (visibleBuffer (terminal s))) in Hx. change (_height (buffer s)) with (_height (visibleBuffer (terminal s))) in Hy. rewrite !clamp_spec in V by lia.
  rewrite Z.min_l, Z.max_r, Z.min_l, Z.max_r in V by lia. unfold view in V.
  assert (Eb : buffer (put_terminal a s) = buffer s) by (unfold buffer; cbn; congruence). assert (Ev : visibleViewport (terminal (put_terminal a s)) = rect.mk (point.x p) (point.y p) (point.x p + (rect.right (visibleViewport (terminal s)) - rect.left (visibleViewport (terminal s)))) (point.y p + (rect.bottom (visibleViewport (terminal s)) - rect.top (visibleViewport (terminal s))))) by (cbn; congruence).
  apply HQ; [|done|done|done]. destruct Hr as [Hv Hg Hp Hq Hw Hmm]. unfold viewport in *. split; rewrite ?Eb; try done; unfold viewport; rewrite ?Ev; cbn [rect.top rect.bottom rect.left rect.right].
  - unfold on_visible in *. cbn. right. by destruct Hv as [Hv|Hv]; [congruence|].
  - change (_height (buffer s)) with (_height (visibleBuffer (terminal s))). lia.
  - change (_width (buffer s)) with (_width (visibleBuffer (terminal s))). lia.
Qed.

Lemma rotation_rule delta s (Q : _ -> _ -> Prop) : (forall s', same_rest s s' -> buffer s' = buffer s -> _scrollMargins s' = _scrollMargins s -> Q s' tt) -> returns (api (api_NotifyBufferRotation delta)) s Q.
Proof.
  intros HQ. destruct (NotifyBufferRotation_law delta (terminal s)) as (a & [] & E & B & Pr & V & M). exists (put_terminal a s), tt. split; [unfold api, with_pages, with_api; fold (terminal s); by rewrite E|].
  apply HQ; [by split|unfold buffer; cbn; congruence|done].
Qed.

(** Changing a row in place, through a page. *)
Lemma change_row_rule s0 s y (g : ROW -> ROW) (Q : _ -> _ -> Prop) : page_ready s -> 0 <= y < _height (buffer s) -> (forall r, row_good r -> row_good (g r) /\ _columnCount (g r) = _columnCount r) ->
  (forall s', same_rest s s' -> _scrollMargins s' = _scrollMargins s -> page_ready s' -> frame (buffer s') = frame (buffer s) ->
     (forall z, 0 <= z < _height (buffer s) -> line (buffer s') z = if decide (z = y) then g <$> line (buffer s) y else line (buffer s) z) -> Q s' tt) ->
  returns (on_page (page_of s0) (slot ← GetMutableRowByOffset (avx2 P) (uninitialised P) (rowSize P) y; update_row slot g)) s Q.
Proof.
  intros Hr Hy Hgood HQ. apply on_page_rule; [done|]. destruct (update_line_ok (avx2 P) (uninitialised P) (rowSize P) g (buffer s) y (ready_buffer s Hr) Hgood) as (b' & r & E & Hg & Hl & Hs).
  exists b', tt. split; [exact E|]. intros s' R B M. rewrite <- B in Hs, Hg. destruct (line_changed s s' y (g r) Hr Hy Hs) as [L1 L2]. apply HQ; [done|done|by eapply ready_kept; [| | | |apply Hs]|apply Hs|].
  intros z Hz. rewrite Hl. destruct (decide (z = y)) as [-> |]; [done|by apply L2].
Qed.

Lemma reset_row_rule s0 s y attr (Q : _ -> _ -> Prop) : page_ready s -> 0 <= y < _height (buffer s) ->
  (forall s' r, same_rest s s' -> _scrollMargins s' = _scrollMargins s -> page_ready s' -> frame (buffer s') = frame (buffer s) -> blank_row attr (_width (buffer s)) r ->
     (forall z, 0 <= z < _height (buffer s) -> line (buffer s') z = if decide (z = y) then Some r else line (buffer s) z) -> Q s' tt) ->
  returns (on_page (page_of s0) (slot ← GetMutableRowByOffset (avx2 P) (uninitialised P) (rowSize P) y; row_Reset (avx2 P) (uninitialised P) slot attr)) s Q.
Proof.
  intros Hr Hy HQ. pose proof (ready_buffer s Hr) as Hg. apply on_page_rule; [done|]. step. destruct (get_mutable_ok (avx2 P) (uninitialised P) (rowSize P) (buffer s) y Hg) as (b1 & r0 & E & Hg1 & Hs1 & _ & Hr1 & _). exists b1, (slot_of (buffer s) y). split; [exact E|].
  destruct (row_Reset_ok (avx2 P) (uninitialised P) (rowSize P) b1 _ r0 attr Hg1 Hr1) as (b2 & r & E2 & Hg2 & Hs2 & Hb & _). exists b2, tt. split; [exact E2|]. intros s' R B M.
  assert (Hs : shows (avx2 P) (uninitialised P) (rowSize P) (buffer s) (updated (slot_of (buffer s) y) r (slot_row (avx2 P) (uninitialised P) (rowSize P) (buffer s))) (buffer s')).
  { rewrite B. eapply shows_ext; [|eapply shows_trans; [exact Hs1|exact Hs2]]. intros sl. apply updated_ext. apply Hs1. }
  rewrite <- B in Hg2. destruct (line_changed s s' y r Hr Hy Hs) as [L1 L2]. pose proof (frame_fields _ _ (shows_frame _ _ _ _ _ _ Hs1)) as (Fw & _).
  apply (HQ s' r); [done|done|by eapply ready_kept; [| | | |apply Hs]|apply Hs|by rewrite <- Fw|]. intros z Hz. destruct (decide (z = y)) as [-> |]; [done|by apply L2].
Qed.

(** No margins are set, and the cursor is on the last line. *)
Definition at_bottom s : Prop :=
  margins_of s = ((0, page_height s - 1), (0, _width (buffer s) - 1)) /\ point.y (cursor s) = rect.bottom (viewport s) - 1 /\ 0 <= point.x (cursor s) < _width (buffer s) /\
  (isMainBuffer (terminal s) = true \/ rect.bottom (viewport s) = _height (buffer s)).

(** The page has moved up, and a blank line has appeared below. *)
Definition fed (newX : Z) (wrapForced : bool) s s' : Prop :=
  page_ready s' /\ page_height s' = page_height s /\
  (exists r, page_lines s' = drop 1 (with_last (SetWrapForced wrapForced) (page_lines s)) ++ [Some r] /\ blank_row (erase_attributes s) (_width (buffer s)) r) /\
  cursor s' = point.mk newX (rect.bottom (viewport s') - 1) /\
  (rect.bottom (viewport s) < _height (buffer s) -> rect.top (viewport s') = rect.top (viewport s) + 1 /\ forall y, 0 <= y < rect.bottom (viewport s) - 1 -> line (buffer s') y = line (buffer s) y).

Lemma fed_intro newX (wrapForced : bool) s s' r : page_ready s -> point.y (cursor s) = rect.bottom (viewport s) - 1 -> page_ready s' -> page_height s' = page_height s -> blank_row (erase_attributes s) (_width (buffer s)) r -> cursor s' = point.mk newX (rect.bottom (viewport s') - 1) ->
  (forall i, 0 <= i < page_height s -> page_line s' i =
     if decide (i = page_height s - 1) then Some r else if decide (i = page_height s - 2) then SetWrapForced wrapForced <$> page_line s (i + 1) else page_line s (i + 1)) ->
  (rect.bottom (viewport s) < _height (buffer s) -> rect.top (viewport s') = rect.top (viewport s) + 1 /\ forall y, 0 <= y < rect.bottom (viewport s) - 1 -> line (buffer s') y = line (buffer s) y) ->
  fed newX wrapForced s s'.
Proof.
  intros Hr Hy Hr' Hh Hb Hc Hl Ht. assert (0 < page_height s) by (destruct Hr as [_ _ Hp _ _ _]; unfold page_height; lia). split; [done|]. split; [done|]. split; [|done]. exists r. split; [|done]. apply scrolled_page; [done|done| |].
  - intros i Hi. rewrite Hl by lia. by rewrite decide_False by lia.
  - rewrite Hl by lia. by rewrite decide_True.
Qed.

Lemma feed_rule (withReturn wrapForced : bool) s : page_ready s -> at_bottom s ->
  returns (_DoLineFeed P (page_of s) withReturn wrapForced) s (fun s' moved => moved = (rect.bottom (viewport s) <? _height (buffer s)) /\ fed (if withReturn then 0 else point.x (cursor s)) wrapForced s s').
Proof.
  intros Hr (Hm & Hy & Hx & Hmain). pose proof Hr as [Hv Hg Hp Hq Hw Hmm]. unfold _DoLineFeed. step. apply width_rule. step. apply read_page_rule; [done|done|]. rewrite GetSize_height. step. apply (v_rule P); [done|done|]. intros s1 S1 B1. rewrite Hm. cbn [fst snd]. cbv beta iota zeta.
  pose proof (same_screen_ready _ _ _ Hr S1) as Hr1. step. rewrite <- B1. apply (h_rule P); [done|]. intros s2 S2 B2. rewrite (screen_margins _ _ _ S1), Hm. cbn [fst snd]. cbv beta iota. pose proof (same_screen_trans _ _ _ _ S1 S2) as S12. pose proof (same_screen_ready _ _ _ Hr S12) as Hr2.
  assert (B : buffer s2 = buffer s) by congruence. rewrite B1. step. apply position_rule. assert (Ec : cursor s2 = cursor s) by (unfold cursor; by rewrite B). rewrite Ec. cbn [fst snd] in *. unfold page_height in *.
  step. unfold SetWrapForced_at. apply change_row_rule; rewrite ?B; [done|lia|intros r; split; [by apply set_flags_good|done]|]. intros s3 R3 M3 Hr3 F3 L3. cbv zeta.
  set (newX := if withReturn then _ else _). assert (En : newX = if withReturn then 0 else point.x (cursor s)) by (unfold newX; destruct withReturn; [by case_match|done]). clearbody newX. rewrite <- En.
  assert (Hnx : 0 <= newX < _width (buffer s)) by (rewrite En; destruct withReturn; lia). change (Page.Top (page_of s)) with (rect.top (viewport s)). change (Page.Bottom (page_of s)) with (rect.bottom (viewport s)). change (Page.XPanOffset (page_of s)) with (rect.left (viewport s)).
  destruct (Z.eqb_spec (point.y (cursor s)) (rect.bottom (viewport s) - rect.top (viewport s) - 1 + rect.top (viewport s))); [|lia]. destruct (Z.ltb_spec newX 0); [lia|]. destruct (Z.ltb_spec (_width (buffer s) - 1) newX); [lia|]. cbn [negb orb].
  destruct (Z.ltb_spec (rect.top (viewport s)) (0 + rect.top (viewport s))); [lia|]. destruct (Z.ltb_spec (_width (buffer s) - 1) (_width (buffer s) - 1)); [lia|]. cbn [orb]. change (0 <? 0) with false. cbn iota.
  destruct (Z.ltb_spec (rect.bottom (viewport s) - rect.top (viewport s) - 1 + rect.top (viewport s)) (rect.bottom (viewport s) - 1)); [lia|].
  assert (R : same_rest s s3) by (etransitivity; [apply S12|done]). destruct (same_rest_viewport s s3 R) as [Ev Emain]. destruct (frame_fields _ _ F3) as (Fw & Fh & _ & _ & Fc & Fa & _).
  assert (Ea : erase_attributes s3 = erase_attributes s) by (unfold erase_attributes; by rewrite (same_rest_mode s s3), Fa).
  step. destruct (Z.ltb_spec (rect.bottom (viewport s)) (_height (buffer s))) as [Hpan|Hfull].
  - step. apply viewport_rule; rewrite ?Ev, ?Fw, ?Fh; cbn [point.x point.y]; [rewrite Emain; destruct Hmain; [done|lia]|done|lia|unfold page_height; rewrite Ev; lia|]. intros s4 Hr4 B4 V4 E4.
    step. step. apply erase_rule. assert (Ea4 : erase_attributes s4 = erase_attributes s) by (rewrite <- Ea; unfold erase_attributes; rewrite B4; by rewrite E4).
    apply reset_row_rule; rewrite ?B4, ?Fh; [done|lia|]. intros s5 r R5 M5 Hr5 F5 Hb L5. rewrite Fw, Ea4 in Hb. step. cbv beta iota. step. apply (on_cursor_rule P); [done|]. intros s6 S6 C6. step. split; [done|].
    destruct (same_rest_viewport s4 s6 (transitivity R5 (screen_rest _ _ _ S6))) as [Ev6 _]. pose proof (text_line _ _ _ (screen_text _ _ _ S6)) as TL. unfold page_height in *. rewrite Ev in V4. rewrite Hy in *.
    apply (fed_intro newX wrapForced s s6 r); [done|done|by eapply same_screen_ready|unfold page_height; rewrite Ev6, V4; cbn; lia|done| | |].
    + unfold cursor. rewrite C6, cursor_SetPosition, Ev6, V4. cbn. f_equal. lia.
    + intros i Hi. unfold page_line, page_height in *. rewrite TL, Ev6, V4. cbn [rect.top]. rewrite L5, L3 by lia. repeat case_decide; try lia; try done; f_equal; first [lia|f_equal; lia].
    + intros _. rewrite Ev6, V4. split; [done|]. intros y Hyy. rewrite TL, L5, L3 by lia. by rewrite !decide_False by lia.
  - step. apply erase_rule. rewrite Ea. step. apply on_page_rule; [done|].
    destruct (rotate_ok (avx2 P) (uninitialised P) (allocated P) (rowSize P) (iteration P) (buffer s3) (erase_attributes s) (ready_buffer s3 Hr3)) as (b' & r & E & Hg' & Hline & Hb & [= Gw Gh Gc Ga] & _). exists b', tt. split; [exact E|]. intros s4 R4 B4 M4.
    step. apply rotation_rule. intros s5 R5 B5 M5. rewrite <- B4, <- B5 in *.
    assert (Hr5 : page_ready s5). { apply (ready_sized s3); [done|by etransitivity|congruence|done..]. }
    do 3 step. cbv beta iota. step. apply (on_cursor_rule P); [done|]. intros s6 S6 C6. step. split; [done|].
    destruct (same_rest_viewport s3 s6 (transitivity (transitivity R4 R5) (screen_rest _ _ _ S6))) as [Ev6 _]. pose proof (text_line _ _ _ (screen_text _ _ _ S6)) as TL. rewrite Fh in *. rewrite Ev in Ev6. rewrite Hy in *.
    apply (fed_intro newX wrapForced s s6 r); [done|done|by eapply same_screen_ready|unfold page_height; by rewrite Ev6|by rewrite <- Fw| | |lia].
    + unfold cursor. rewrite C6, cursor_SetPosition, Ev6. done.
    + intros i Hi. unfold page_line, page_height in *. rewrite TL, Ev6. rewrite Hline by lia. case_decide; [by rewrite decide_True by lia|]. rewrite (decide_False (P := i = _)), L3 by lia. repeat case_decide; try lia; f_equal; first [lia|f_equal; lia].
Qed.

Definition with_return (lineFeedType : Z) s : bool :=
  (lineFeedType =? DispatchTypes.LineFeedType.WithReturn) || (lineFeedType =? DispatchTypes.LineFeedType.DependsOnMode) && api_GetSystemMode SystemMode.LineFeed (terminal s).

(** C7: A line feed on the last line of a page without margins moves the page up by one
    line and leaves a blank line in the erasing renditions below, whether there are lines
    of the buffer left under the viewport, which then moves down while its old first line
    becomes history, or the ring of lines is full and is rotated. The cursor is on the
    new line, in its column or in the first one if the line feed returns. *)
Theorem line_feed_scrolls lineFeedType s : page_ready s -> at_bottom s -> lineFeedType ∈ [DispatchTypes.LineFeedType.DependsOnMode; DispatchTypes.LineFeedType.WithoutReturn; DispatchTypes.LineFeedType.WithReturn] ->
  returns (LineFeed P lineFeedType) s (fun s' _ => fed (if with_return lineFeedType s then 0 else point.x (cursor s)) false s s').
Proof.
  intros Hr Hb Hin. unfold LineFeed. step. apply page_rule; [done|].
  assert (Hf : forall b : bool, returns (_DoLineFeed P (page_of s) b false;; mret tt) s (fun s' _ => fed (if b then 0 else point.x (cursor s)) false s s')).
  { intros b. step. apply (returns_mono _ _ _ _ (feed_rule b false s Hr Hb)). intros s' moved [_ HF]. by step. }
  unfold with_return. repeat (apply elem_of_cons in Hin as [-> | Hin]); [| | |by apply elem_of_nil in Hin]; cbn -[fed].
  - step. unfold ask. do 3 step. apply Hf.
  - apply (Hf false).
  - apply (Hf true).
Qed.
End Printing.
