(* ===== verification/AdaptTabs.v ===== *)
(** * Theorems about the dispatcher: tab stops, margins and the page

    Tabs go to tab stops, and the operations on cursor, margins and tab stops keep the
    page in order. *)

From stdpp Require Import list list_numbers gmap.
From S2P Require Import Prelude Til Utils VtTypes StateMachine TermDispatch TextAttributes Graphics Rle CodepointWidth CodepointWidthProps Geometry Row RowWrite RowProps RowInvariant Cursor TextBuffer TextBufferProps MacroBuffer Charsets TerminalOutput TerminalInput RenderSettings Pages AdaptDispatch AdaptScreen AdaptReports AdaptProps AdaptRoundtrips AdaptWriting.

(** ** Tab stops in a row of columns *)

Definition is_stop (stops : list bool) (c : Z) : Prop := stops !! Z.to_nat c = Some true.
#[global] Instance is_stop_dec stops c : Decision (is_stop stops c).
Proof. unfold is_stop. apply _. Defined.

(** The stops to the right of a column, and those to its left. *)
Definition stops_after (stops : list bool) (column limit : Z) : list Z := filter (is_stop stops) (seqZ (column + 1) (limit - column)).
Definition stops_before (stops : list bool) (column limit : Z) : list Z := filter (is_stop stops) (reverse (seqZ limit (column - limit))).

Lemma forward_tabs_spec stops limit fuel : forall column k n, fuel = Z.to_nat (limit - column) -> 0 <= column -> limit < Z.of_nat (length stops) -> k < n ->
  forward_tabs fuel stops column limit k n = Some (default (Z.max column limit) (stops_after stops column limit !! Z.to_nat (n - k - 1))).
Proof.
  induction fuel as [|fuel IH]; intros column k n Hf Hc Hl Hk; cbn [forward_tabs]; destruct (Z.ltb_spec column limit); try lia; cbn [andb].
  - unfold stops_after. rewrite seqZ_nil by lia. cbn [reverse]. rewrite ?filter_nil, lookup_nil. cbn [default]. f_equal. lia.
  - destruct (Z.ltb_spec k n); [|lia]. destruct (lookup_lt_is_Some_2 stops (Z.to_nat (column + 1)) ltac:(lia)) as [stop E]. rewrite E. cbn [mbind option_bind]. unfold stops_after. rewrite seqZ_cons by lia.
    rewrite filter_cons. destruct (decide (is_stop stops (column + 1))) as [Hs|Hs]; unfold is_stop in Hs; rewrite E in Hs.
    + injection Hs as ->. destruct (Z.eq_dec (n - k) 1) as [E1|E1].
      * replace (Z.to_nat (n - k - 1)) with 0%nat by lia. cbn [lookup list_lookup default]. destruct fuel; cbn [forward_tabs]; (destruct (Z.ltb_spec (k + 1) n); [lia|]); by rewrite andb_false_r.
      * rewrite IH by lia. replace (Z.to_nat (n - k - 1)) with (S (Z.to_nat (n - (k + 1) - 1))) by lia. cbn [lookup list_lookup]. unfold stops_after.
        replace (Z.succ (column + 1)) with (column + 1 + 1) by lia. replace (Z.pred (limit - column)) with (limit - (column + 1)) by lia. by replace (Z.max column limit) with (Z.max (column + 1) limit) by lia.
    + destruct stop; [done|]. rewrite IH by lia. unfold stops_after. replace (Z.succ (column + 1)) with (column + 1 + 1) by lia. replace (Z.pred (limit - column)) with (limit - (column + 1)) by lia. by replace (Z.max column limit) with (Z.max (column + 1) limit) by lia.
Qed.

Lemma backward_tabs_spec stops limit fuel : forall column k n, fuel = Z.to_nat (column - limit) -> 0 <= limit -> column < Z.of_nat (length stops) -> k < n ->
  backward_tabs fuel stops column limit k n = Some (default (Z.min column limit) (stops_before stops column limit !! Z.to_nat (n - k - 1))).
Proof.
  induction fuel as [|fuel IH]; intros column k n Hf Hc Hl Hk; cbn [backward_tabs]; destruct (Z.ltb_spec limit column); try lia; cbn [andb].
  - unfold stops_before. rewrite seqZ_nil by lia. change (reverse []) with (@nil Z). rewrite ?filter_nil, lookup_nil. cbn [default]. f_equal. lia.
  - destruct (Z.ltb_spec k n); [|lia]. destruct (lookup_lt_is_Some_2 stops (Z.to_nat (column - 1)) ltac:(lia)) as [stop E]. rewrite E. cbn [mbind option_bind]. unfold stops_before.
    replace (column - limit) with (Z.of_nat (S (Z.to_nat (column - 1 - limit)))) by lia. rewrite seqZ_S, reverse_snoc, Z2Nat.id by lia. replace (limit + (column - 1 - limit)) with (column - 1) by lia.
    rewrite filter_cons. destruct (decide (is_stop stops (column - 1))) as [Hs|Hs]; unfold is_stop in Hs; rewrite E in Hs.
    + injection Hs as ->. destruct (Z.eq_dec (n - k) 1) as [E1|E1].
      * replace (Z.to_nat (n - k - 1)) with 0%nat by lia. cbn [lookup list_lookup default]. destruct fuel; cbn [backward_tabs]; (destruct (Z.ltb_spec (k + 1) n); [lia|]); by rewrite andb_false_r.
      * rewrite IH by lia. replace (Z.to_nat (n - k - 1)) with (S (Z.to_nat (n - (k + 1) - 1))) by lia. cbn [lookup list_lookup]. unfold stops_before. by replace (Z.min column limit) with (Z.min (column - 1) limit) by lia.
    + destruct stop; [done|]. rewrite IH by lia. unfold stops_before. by replace (Z.min column limit) with (Z.min (column - 1) limit) by lia.
Qed.

Lemma length_tab_stops width (init : bool) stops : (width <= length (tab_stops_for_width width init stops))%nat.
Proof. unfold tab_stops_for_width. rewrite length_app, length_map, length_seq. lia. Qed.

(** ** Tabs on the page *)

Section Tabs.
Context {A D CB : Type} `{MeasurementLaws D} `{!ITerminalApi A D} `{!ITerminalApiLaws A D}.
Variable P : Platform.
Implicit Types (s : AdaptDispatch A D CB) (page : Page) (b : TextBuffer D).
Local Abbreviation same_screen := (same_screen P).

(** The tab stops as they are once all columns of the page have been looked at. *)
Definition stops_of s : list bool := tab_stops_for_width (Z.to_nat (_width (buffer s))) (_initDefaultTabStops s) (_tabStopColumns s).
Definition with_stops s : AdaptDispatch A D CB := set_tabStops (stops_of s) (_initDefaultTabStops s) s.
Definition left_limit s : Z :=
  let '((t, bm), (l, _)) := margins_of s in let o := rect.top (viewport s) in
  if (t + o <=? point.y (cursor s)) && (point.y (cursor s) <=? bm + o) && (l <=? point.x (cursor s)) then l else 0.

Lemma with_stops_ready s v i : page_ready s -> page_ready (set_tabStops v i s).
Proof. intros [Hv Hg Hp Hq Hw Hm]. by split. Qed.

Lemma same_screen_stops s s' v i : same_screen s s' -> same_screen (set_tabStops v i s) (set_tabStops v i s').
Proof. intros [[V M Pg O] T Mg Sn]. split; [split; try done|done|done|done]. cbn. cbn in O. congruence. Qed.

Lemma stops_same s s' : same_screen s s' -> stops_of s' = stops_of s /\ _initDefaultTabStops s' = _initDefaultTabStops s.
Proof. intros [[_ _ _ O] [_ _ W _ _] _ _]. unfold stops_of. rewrite W. split; [|congruence]. f_equal; congruence. Qed.

Lemma init_tabs_rule s s' (Q : _ -> _ -> Prop) : page_ready s -> same_screen s s' -> (forall s2, same_screen (with_stops s) s2 -> buffer s2 = buffer s' -> _tabStopColumns s2 = stops_of s -> Q s2 tt) ->
  returns (_InitTabStopsForWidth (_width (buffer s))) s' Q.
Proof.
  intros Hr S HQ. pose proof (ready_width s Hr). unfold _InitTabStopsForWidth. destruct (Z.ltb_spec (_width (buffer s)) 0); [lia|]. step.
  destruct (stops_same s s' S) as [E1 E2]. replace (tab_stops_for_width _ _ _) with (stops_of s) by (rewrite <- E1; unfold stops_of; by rewrite (text_width _ _ _ (screen_text _ _ _ S))). rewrite E2.
  apply HQ; [by apply same_screen_stops|done|done].
Qed.

(** What both kinds of tabs look at first. *)
Lemma tab_rules {X} s (k : Z -> Z -> Z -> Z -> Z -> comp (AdaptDispatch A D CB) X) (Q : _ -> _ -> Prop) : page_ready s -> line_width_at P (buffer s) (point.y (cursor s)) = _width (buffer s) ->
  (forall s2, same_screen s s2 -> _cursor (buffer s2) = _cursor (buffer s) ->
    let '((t, bm), (l, r)) := margins_of s in let o := rect.top (viewport s) in returns (k (_width (buffer s)) (t + o) (bm + o) l r) s2 Q) ->
  returns (width ← line_width P (page_of s) (point.y (cursor s)); '(topMargin, bottomMargin) ← _GetVerticalMargins (page_of s) true; '(leftMargin, rightMargin) ← _GetHorizontalMargins width;
    k width topMargin bottomMargin leftMargin rightMargin) s Q.
Proof.
  intros Hr Hl HQ. step. apply line_width_page_rule; [done|]. intros s1 S1 C1. rewrite Hl. pose proof (same_screen_ready _ _ _ Hr S1) as Hr1. destruct (same_rest_viewport s s1 (screen_rest _ _ _ S1)) as [Ev _].
  step. apply (v_rule P); [done|done|]. intros s2 S2 B2. rewrite (screen_margins _ _ _ S1), Ev. cbv beta iota zeta. pose proof (same_screen_trans _ _ _ _ S1 S2) as S12. pose proof (same_screen_ready _ _ _ Hr S12) as Hr2.
  step. rewrite <- (text_width _ _ _ (screen_text _ _ _ S12)). apply (h_rule P); [done|]. intros s3 S3 B3. rewrite (screen_margins _ _ _ S12). pose proof (same_screen_trans _ _ _ _ S12 S3) as S13.
  specialize (HQ s3 S13 ltac:(by rewrite B3, B2)). rewrite (text_width _ _ _ (screen_text _ _ _ S12)). destruct (margins_of s) as [[t bm] [l r]]. exact HQ.
Qed.

(** The column behind [n] of the stops, or the limit if there are fewer. *)
Definition stop_or (limit : Z) (stops : list Z) (n : Z) : Z := default limit (stops !! Z.to_nat (n - 1)).

Lemma forward_rule n s (Q : _ -> _ -> Prop) : page_ready s -> 0 <= point.x (cursor s) -> line_width_at P (buffer s) (point.y (cursor s)) = _width (buffer s) -> 1 <= n ->
  (forall s', same_screen (with_stops s) s' ->
     cursor s' = point.mk (stop_or (Z.max (point.x (cursor s)) (limit_of P s - 1)) (stops_after (stops_of s) (point.x (cursor s)) (limit_of P s - 1)) n) (point.y (cursor s)) ->
     Cursor.GetDelayEOLWrap (_cursor (buffer s')) = (match Cursor.GetDelayEOLWrap (_cursor (buffer s)) with Some _ => Some (cursor s') | None => None end) -> Q s' tt) ->
  returns (ForwardTab P n) s Q.
Proof.
  intros Hr Hx Hl Hn HQ. pose proof (limit_bounds P s Hr Hx) as Hb. unfold limit_of, limit_at in HQ, Hb. pose proof (with_stops_ready s (stops_of s) (_initDefaultTabStops s) Hr) as Hr'. pose proof (length_tab_stops (Z.to_nat (_width (buffer s))) (_initDefaultTabStops s) (_tabStopColumns s)) as Hlen. fold (stops_of s) in Hlen.
  unfold ForwardTab. step. apply page_rule; [done|]. step. apply position_rule. eapply tab_rules; [done|done|]. intros s1 S1 C1. rewrite Hl in *. destruct (margins_of s) as [[t bm] [l r]] eqn:Em. cbv zeta.
  pose proof (margins_bounds s Hr) as Hmb. rewrite Em in Hmb. set (o := rect.top (viewport s)) in *. set (maxColumn := if _ && _ && _ then r else _).
  assert (Emax : maxColumn = (if (point.x (cursor s) <=? r) && (t + o <=? point.y (cursor s)) && (point.y (cursor s) <=? bm + o) then Z.min (_width (buffer s)) (r + 1) else _width (buffer s)) - 1).
  { unfold maxColumn. destruct (point.x (cursor s) <=? r), (t + o <=? point.y (cursor s)), (point.y (cursor s) <=? bm + o); cbn [andb]; lia. }
  rewrite <- Emax in HQ. clearbody maxColumn. step. apply init_tabs_rule; [done|done|]. intros s2 S2 B2 T2. do 2 step. rewrite T2, forward_tabs_spec by lia. replace (n - 0 - 1) with (n - 1) by lia. fold (stop_or (Z.max (point.x (cursor s)) maxColumn) (stops_after (stops_of s) (point.x (cursor s)) maxColumn) n).
  set (column := stop_or _ _ _) in *. pose proof (same_screen_ready _ _ _ Hr' S2) as Hr2. step. apply read_page_rule; [done|done|]. rewrite B2, C1. step. apply (on_cursor_rule P); [done|]. intros s3 S3 C3. pose proof (same_screen_ready _ _ _ Hr2 S3) as Hr3.
  assert (Ec : cursor s3 = point.mk column (point.y (cursor s))) by (unfold cursor in *; rewrite C3, B2, C1; apply Cursor.x_set). assert (Ed : Cursor.GetDelayEOLWrap (_cursor (buffer s3)) = None) by (rewrite C3; apply Cursor.x_set).
  pose proof (same_screen_trans _ _ _ _ S2 S3) as S23. destruct (Cursor.GetDelayEOLWrap (_cursor (buffer s))); [rewrite bool_decide_true by done|rewrite bool_decide_false by (intros HF; by apply HF)].
  - apply (on_cursor_rule P); [done|]. intros s4 S4 C4. apply HQ; [by eapply same_screen_trans|unfold cursor in *; by rewrite C4|rewrite C4; unfold cursor; rewrite C4; done].
  - step. by apply HQ.
Qed.

Lemma backward_rule n s (Q : _ -> _ -> Prop) : page_ready s -> 0 <= point.x (cursor s) < _width (buffer s) -> line_width_at P (buffer s) (point.y (cursor s)) = _width (buffer s) -> 1 <= n ->
  (forall s', same_screen (with_stops s) s' ->
     cursor s' = point.mk (stop_or (Z.min (point.x (cursor s)) (left_limit s)) (stops_before (stops_of s) (point.x (cursor s)) (left_limit s)) n) (point.y (cursor s)) -> Q s' tt) ->
  returns (BackwardsTab P n) s Q.
Proof.
  intros Hr Hx Hl Hn HQ. pose proof (with_stops_ready s (stops_of s) (_initDefaultTabStops s) Hr) as Hr'. pose proof (length_tab_stops (Z.to_nat (_width (buffer s))) (_initDefaultTabStops s) (_tabStopColumns s)) as Hlen. fold (stops_of s) in Hlen.
  unfold BackwardsTab. step. apply page_rule; [done|]. step. apply position_rule. eapply tab_rules; [done|done|]. intros s1 S1 C1. unfold left_limit in HQ. destruct (margins_of s) as [[t bm] [l r]] eqn:Em. cbv zeta in HQ |- *.
  pose proof (margins_bounds s Hr) as Hmb. rewrite Em in Hmb. set (minColumn := if _ && _ && _ then l else 0) in *. assert (0 <= minColumn) by (unfold minColumn; case_match; lia). clearbody minColumn.
  step. apply init_tabs_rule; [done|done|]. intros s2 S2 B2 T2. do 2 step. rewrite T2, backward_tabs_spec by lia. replace (n - 0 - 1) with (n - 1) by lia. pose proof (same_screen_ready _ _ _ Hr' S2) as Hr2.
  apply (on_cursor_rule P); [done|]. intros s3 S3 C3. apply HQ; [by eapply same_screen_trans|]. unfold cursor in *. rewrite C3, B2, C1. apply Cursor.x_set.
Qed.

(** C25: On a line of single width, a number of tabs takes the cursor from a column other than
    the last one to that many tab stops further to the right, and backwards from any column to
    the left, counting the stops of every eight columns that have not been changed; if there are
    fewer, to the margin when the cursor is within the margins and otherwise to the edge
    of the page. The line stays, a delayed wrap survives tabs but not backward ones, and nothing is
    written. (The comment of [ForwardTab] has a tab in the last column go to the next
    line, which the code does not do: [tab_in_last_column_stays].) *)
Theorem tabs_go_to_stops n s : page_ready s -> 0 <= point.x (cursor s) < _width (buffer s) -> line_width_at P (buffer s) (point.y (cursor s)) = _width (buffer s) -> 1 <= n ->
  let x := point.x (cursor s) in
  (x < _width (buffer s) - 1 -> returns (ForwardTab P n) s (fun s' _ => same_screen (with_stops s) s' /\
    cursor s' = point.mk (stop_or (Z.max x (limit_of P s - 1)) (stops_after (stops_of s) x (limit_of P s - 1)) n) (point.y (cursor s)) /\
    Cursor.GetDelayEOLWrap (_cursor (buffer s')) = match Cursor.GetDelayEOLWrap (_cursor (buffer s)) with Some _ => Some (cursor s') | None => None end)) /\
  returns (BackwardsTab P n) s (fun s' _ => same_screen (with_stops s) s' /\
    cursor s' = point.mk (stop_or (Z.min x (left_limit s)) (stops_before (stops_of s) x (left_limit s)) n) (point.y (cursor s))).
Proof.
  intros Hr Hx Hl Hn x. split; [intros _; apply forward_rule|apply backward_rule]; try done. lia.
Qed.
End Tabs.

(** ** The page stays in order *)

Lemma forward_tabs_bounds stops limit column n : 0 <= column -> limit < Z.of_nat (length stops) ->
  exists c, forward_tabs (Z.to_nat (limit - column)) stops column limit 0 n = Some c /\ column <= c <= Z.max column limit.
Proof.
  intros Hc Hl. destruct (Z.lt_ge_cases 0 n) as [Hn|Hn].
  - rewrite forward_tabs_spec by lia. eexists. split; [done|]. destruct (stops_after stops column limit !! Z.to_nat (n - 0 - 1)) as [c|] eqn:E; cbn; [|lia].
    apply list_elem_of_lookup_2, list_elem_of_filter in E as [_ E]. apply elem_of_seqZ in E. lia.
  - exists column. split; [|lia]. destruct (Z.to_nat (limit - column)); cbn [forward_tabs]; (destruct (Z.ltb_spec 0 n); [lia|]); by rewrite andb_false_r.
Qed.

Lemma backward_tabs_bounds stops limit column n : 0 <= limit -> column < Z.of_nat (length stops) ->
  exists c, backward_tabs (Z.to_nat (column - limit)) stops column limit 0 n = Some c /\ Z.min column limit <= c <= column.
Proof.
  intros Hc Hl. destruct (Z.lt_ge_cases 0 n) as [Hn|Hn].
  - rewrite backward_tabs_spec by lia. eexists. split; [done|]. destruct (stops_before stops column limit !! Z.to_nat (n - 0 - 1)) as [c|] eqn:E; cbn; [|lia].
    apply list_elem_of_lookup_2, list_elem_of_filter in E as [_ E]. apply elem_of_reverse, elem_of_seqZ in E. lia.
  - exists column. split; [|lia]. destruct (Z.to_nat (column - limit)); cbn [backward_tabs]; (destruct (Z.ltb_spec 0 n); [lia|]); by rewrite andb_false_r.
Qed.

Section Invariant.
Context {A D : Type} `{MeasurementLaws D} `{!ITerminalApi A D} `{!ITerminalApiLaws A D}.
Variable P : Platform.
Local Abbreviation State := (AdaptDispatch A D MacroCallback).
Implicit Types s : State.

(** A page in order: it has at least two columns, the cursor is on it and on a column of its
    line, which has half of the columns if it is of double width; and there is a place for each
    saved cursor. *)
Record screen_ok s : Prop := {
  ok_ready : page_ready s;
  ok_row : rect.top (viewport s) <= point.y (cursor s) < rect.bottom (viewport s);
  ok_column : 0 <= point.x (cursor s) < line_width_at P (buffer s) (point.y (cursor s));
  ok_saved : length (_savedCursorState s) = 2%nat
}.

Inductive screen_op :=
| Moved (rowOffset colOffset : Offset) (clampInMargins : bool)
| SetsTopBottom (topMargin bottomMargin : Z)
| SetsLeftRight (leftMargin rightMargin : Z)
| SetsTab
| ClearsTab (clearType : Z)
| SetsTabs (setType : Z)
| Tabs (n : Z)
| TabsBack (n : Z)
| Saves.

Definition apply_screen (op : screen_op) : comp State unit :=
  match op with
  | Moved r c clampInMargins => _CursorMovePosition P r c clampInMargins
  | SetsTopBottom t b => SetTopBottomScrollingMargins P t b
  | SetsLeftRight l r => SetLeftRightScrollingMargins P l r
  | SetsTab => HorizontalTabSet P
  | ClearsTab clearType => TabClear P clearType
  | SetsTabs setType => TabSet setType
  | Tabs n => ForwardTab P n
  | TabsBack n => BackwardsTab P n
  | Saves => CursorSaveState P
  end.

(** A change of margins and of the cursor within the page. *)
Lemma ok_moved s s' : screen_ok s -> same_rest s s' -> same_text P (buffer s) (buffer s') -> margins_sane (_scrollMargins s') ->
  rect.top (viewport s) <= point.y (cursor s') < rect.bottom (viewport s) -> 0 <= point.x (cursor s') < line_width_at P (buffer s) (point.y (cursor s')) -> screen_ok s'.
Proof.
  intros [[Hv Hg Hp Hq Hw Hm] _ _ Hl] R [Tg Tl Tw Th Ta] M Hy Hx. destruct (same_rest_viewport s s' R) as [Ev Em]. assert (line_width_at P (buffer s') (point.y (cursor s')) = line_width_at P (buffer s) (point.y (cursor s'))) as El by (unfold line_width_at; by rewrite Tl, Tw).
  split; [split| | |]; rewrite ?Ev, ?El, ?Tw, ?Th; try done.
  - unfold on_visible in *. rewrite Em. destruct R as [_ _ Rp _]. destruct Hv as [Hv|Hv]; [by left|right]. injection Rp as -> -> _. done.
  - destruct R as [_ _ _ O]. by replace (_savedCursorState s') with (_savedCursorState s) by congruence.
Qed.

Lemma ok_set_margins s m : screen_ok s -> margins_sane m -> screen_ok (set_scrollMargins m s).
Proof. intros [[Hv Hg Hp Hq Hw Hm] Hy Hx Hl] Hs. split; [by split|done..]. Qed.
Lemma ok_set_tabs s v i : screen_ok s -> screen_ok (set_tabStops v i s).
Proof. intros [[Hv Hg Hp Hq Hw Hm] Hy Hx Hl]. split; [by split|done..]. Qed.

Lemma ok_move rowOffset colOffset clampInMargins s : screen_ok s -> returns (_CursorMovePosition P rowOffset colOffset clampInMargins) s (fun s' _ => screen_ok s').
Proof.
  intros Hs. pose proof (ok_ready s Hs) as Hr. apply move_rule; [done|]. intros s' [R T _ M] Hc. assert (Ec : cursor s' = target P rowOffset colOffset clampInMargins s) by (unfold cursor; rewrite Hc; apply cursor_SetPosition).
  destruct (target_bounds P rowOffset colOffset clampInMargins s Hr) as [Hy Hx]. apply (ok_moved s); try done; rewrite Ec; done.
Qed.

Lemma actual_margins_sane first last extent x y : 0 <= first -> actual_margins first last extent = Some (x, y) -> 0 <= x.
Proof. intros Hf. unfold actual_margins. repeat case_match; try done; intros [= <- <-]; try lia; destruct (Z.eqb_spec first 0); lia. Qed.

Lemma ok_top_bottom t b s : screen_ok s -> 0 <= t -> returns (SetTopBottomScrollingMargins P t b) s (fun s' _ => screen_ok s').
Proof.
  intros Hs Ht. unfold SetTopBottomScrollingMargins, _DoSetTopBottomScrollingMargins. step. apply page_rule; [apply Hs|]. destruct (actual_margins _ _ _) as [[x y]|] eqn:E; [|by step].
  do 2 step. apply ok_move, ok_set_margins; [done|]. destruct (ready_margins s (ok_ready s Hs)). split; cbn; [exact (actual_margins_sane _ _ _ _ _ Ht E)|done].
Qed.

Lemma ok_save s : screen_ok s -> returns (CursorSaveState P) s (fun s' _ => screen_ok s').
Proof.
  intros Hs. apply saved_rule; [apply Hs|]. intros s1 s' S1 B1 ->. assert (Hs1 : screen_ok s1). { destruct S1 as [R T _ M]. apply (ok_moved s); try done; unfold cursor; rewrite B1; apply Hs. }
  destruct Hs1 as [[Hv Hg Hp Hq Hw Hm] Hy Hx Hl]. split; [by split|done|done|]. cbn. by rewrite length_insert.
Qed.

Lemma ok_left_right l r s : screen_ok s -> 0 <= l -> returns (SetLeftRightScrollingMargins P l r) s (fun s' _ => screen_ok s').
Proof.
  intros Hs Hl. unfold SetLeftRightScrollingMargins. do 2 step. destruct (mode _ s); [|by apply ok_save]. unfold _DoSetLeftRightScrollingMargins. step. apply page_rule; [apply Hs|]. step. apply width_rule.
  destruct (actual_margins _ _ _) as [[x y]|] eqn:E; [|by step]. do 2 step. apply ok_move, ok_set_margins; [done|]. destruct (ready_margins s (ok_ready s Hs)). split; cbn; [done|exact (actual_margins_sane _ _ _ _ _ Hl E)].
Qed.

(** The tab stop under the cursor can be changed. *)
Lemma ok_tab_stop (value : bool) s : screen_ok s ->
  returns (page ← active_page P; position ← cursor_position page; w ← page_Width page; _InitTabStopsForWidth w;; set_tab_stop (point.x position) value) s (fun s' _ => screen_ok s').
Proof.
  intros Hs. pose proof (ok_ready s Hs) as Hr. step. apply page_rule; [done|]. step. apply position_rule. step. apply width_rule. step. unfold _InitTabStopsForWidth. destruct (ok_column s Hs) as [Hx1 Hx2]. pose proof (line_width_bounds P (buffer s) (point.y (cursor s)) (ready_buffer s Hr) (ready_width s Hr)).
  destruct (Z.ltb_spec (_width (buffer s)) 0); [lia|]. step. set (s1 := set_tabStops _ _ s). pose proof (length_tab_stops (Z.to_nat (_width (buffer s))) (_initDefaultTabStops s) (_tabStopColumns s)) as Hlen. change (tab_stops_for_width _ _ _) with (_tabStopColumns s1) in Hlen.
  eexists _, tt. split; [unfold set_tab_stop; destruct (Z.leb_spec 0 (point.x (cursor s))); [|lia]; destruct (Z.ltb_spec (point.x (cursor s)) (Z.of_nat (length (_tabStopColumns s1)))); [|lia]; reflexivity|].
  by apply ok_set_tabs, ok_set_tabs.
Qed.

(** Tabs on lines of any width. *)
Lemma ok_tabs_margins {X} s (k : Z -> Z -> Z -> Z -> Z -> comp State X) (Q : _ -> _ -> Prop) : screen_ok s ->
  (forall s2 t bm l r, let w := line_width_at P (buffer s) (point.y (cursor s)) in screen_ok s2 -> same_rest s s2 -> cursor s2 = cursor s -> line_width_at P (buffer s2) (point.y (cursor s2)) = w -> 1 <= w -> 0 <= l -> r < w -> returns (k w t bm l r) s2 Q) ->
  returns (width ← line_width P (page_of s) (point.y (cursor s)); '(topMargin, bottomMargin) ← _GetVerticalMargins (page_of s) true; '(leftMargin, rightMargin) ← _GetHorizontalMargins width;
    k width topMargin bottomMargin leftMargin rightMargin) s Q.
Proof.
  intros Hs HQ. pose proof (ok_ready s Hs) as Hr. pose proof (line_width_bounds P (buffer s) (point.y (cursor s)) (ready_buffer s Hr) (ready_width s Hr)) as Hw. step. apply line_width_page_rule; [done|]. intros s1 S1 C1. pose proof (same_screen_ready _ _ _ Hr S1) as Hr1.
  step. apply (v_rule P); [done|by destruct (same_rest_viewport s s1 (screen_rest _ _ _ S1))|]. intros s2 S2 B2. cbv beta iota zeta. pose proof (same_screen_trans _ _ _ _ S1 S2) as S12. step. apply horizontal_rule; [apply S12|lia|]. intros s3 R3 B3 M3 _ _.
  assert (Hpos : 0 < line_width_at P (buffer s) (point.y (cursor s))) by lia. pose proof (horizontal_margins_bounds _ (_scrollMargins s2) (screen_sane _ _ _ S12) Hpos) as Hb. destruct (horizontal_margins _ _) as [l r]. cbn [fst snd] in Hb. cbv beta iota.
  assert (Ec : cursor s3 = cursor s) by (unfold cursor; by rewrite B3, B2, C1). assert (T3 : same_text P (buffer s) (buffer s3)) by (rewrite B3; apply S12). assert (R : same_rest s s3) by (etransitivity; [apply S12|done]).
  apply HQ; [|done|done|rewrite Ec; unfold line_width_at; by rewrite (text_line _ _ _ T3), (text_width _ _ _ T3)|lia|lia|lia]. apply (ok_moved s); try done; rewrite Ec; apply Hs.
Qed.

Lemma ok_set_column s0 s c : screen_ok s -> 0 <= c < line_width_at P (buffer s) (point.y (cursor s)) -> returns (on_cursor (page_of s0) (Cursor.SetXPosition c)) s (fun s' _ => screen_ok s').
Proof.
  intros Hs Hc. apply (on_cursor_rule P); [apply Hs|]. intros s' [R T _ M] C. assert (Ec : cursor s' = point.mk c (point.y (cursor s))) by (unfold cursor; rewrite C; apply Cursor.x_set). apply (ok_moved s); try done; rewrite Ec; [apply Hs|done].
Qed.

Lemma ok_delay s0 s : screen_ok s -> returns (on_cursor (page_of s0) Cursor.DelayEOLWrap) s (fun s' _ => screen_ok s').
Proof. intros Hs. apply (on_cursor_rule P); [apply Hs|]. intros s' [R T _ M] C. assert (Ec : cursor s' = cursor s) by (unfold cursor; by rewrite C). apply (ok_moved s); try done; rewrite Ec; apply Hs. Qed.

(** The tab stops reach at least as far as the line. *)
Lemma ok_init_tabs w s (Q : _ -> _ -> Prop) : screen_ok s -> 1 <= w -> (forall s', screen_ok s' -> cursor s' = cursor s -> buffer s' = buffer s -> (Z.to_nat w <= length (_tabStopColumns s'))%nat -> Q s' tt) ->
  returns (_InitTabStopsForWidth w) s Q.
Proof. intros Hs Hw HQ. unfold _InitTabStopsForWidth. destruct (Z.ltb_spec w 0); [lia|]. step. apply HQ; [by apply ok_set_tabs|done|done|]. apply length_tab_stops. Qed.

Lemma ok_forward n s : screen_ok s -> returns (ForwardTab P n) s (fun s' _ => screen_ok s').
Proof.
  intros Hs. unfold ForwardTab. step. apply page_rule; [apply Hs|]. step. apply position_rule. eapply ok_tabs_margins; [done|]. intros s2 t bm l r w Hs2 R2 C2 L2 Hw Hl Hr'. cbv zeta. clearbody w. set (maxColumn := if _ && _ && _ then r else _).
  assert (Hmax : maxColumn < w) by (unfold maxColumn; case_match; lia). clearbody maxColumn. step. apply ok_init_tabs; [done|lia|]. intros s3 Hs3 C3 W3 L3. do 2 step. pose proof (ok_column s3 Hs3) as Hx. assert (line_width_at P (buffer s3) (point.y (cursor s3)) = w) as L3' by (by rewrite W3, C3). rewrite L3', C3, C2 in Hx.
  edestruct (forward_tabs_bounds (_tabStopColumns s3) maxColumn (point.x (cursor s)) n) as (c & -> & Hc); [lia|lia|]. step. apply read_page_rule; [done|done|]. step. eapply returns_mono; [apply (ok_set_column s s3 c Hs3); rewrite L3'; lia|]. intros s4 [] Hs4.
  destruct (bool_decide _); [by apply ok_delay|by step].
Qed.

Lemma ok_backward n s : screen_ok s -> returns (BackwardsTab P n) s (fun s' _ => screen_ok s').
Proof.
  intros Hs. unfold BackwardsTab. step. apply page_rule; [apply Hs|]. step. apply position_rule. eapply ok_tabs_margins; [done|]. intros s2 t bm l r w Hs2 R2 C2 L2 Hw Hl Hr'. cbv zeta. clearbody w. set (minColumn := if _ && _ && _ then l else 0).
  assert (Hmin : 0 <= minColumn) by (unfold minColumn; case_match; lia). clearbody minColumn. step. apply ok_init_tabs; [done|lia|]. intros s3 Hs3 C3 W3 L3. do 2 step. pose proof (ok_column s3 Hs3) as Hx. assert (line_width_at P (buffer s3) (point.y (cursor s3)) = w) as L3' by (by rewrite W3, C3). rewrite L3', C3, C2 in Hx.
  edestruct (backward_tabs_bounds (_tabStopColumns s3) minColumn (point.x (cursor s)) n) as (c & -> & Hc); [lia|lia|]. apply ok_set_column; [done|rewrite L3'; lia].
Qed.

(** Parameters of control sequences are not negative. *)
Definition screen_op_ok (op : screen_op) : Prop :=
  match op with SetsTopBottom t _ => 0 <= t | SetsLeftRight l _ => 0 <= l | _ => True end.

(** C24: On a page of at least two columns with the cursor on a column of its line, moving the
    cursor, setting margins, setting, clearing and using tab stops, forwards and
    backwards, and saving the cursor always succeed and keep the page in order: the cursor
    on the page and on a column of its line, margins that are not negative, rows that are rows, and a
    viewport inside of the buffer. (Scrolling a double-width line under the cursor is none of these
    operations; it can leave the cursor behind the end of the line, where a backward tab
    fails: [backward_tab_reads_beyond].) *)
Theorem screen_stays_in_order (op : screen_op) s : screen_ok s -> screen_op_ok op -> returns (apply_screen op) s (fun s' _ => screen_ok s').
Proof.
  intros Hs Hop. destruct op; cbn [apply_screen screen_op_ok] in *.
  - by apply ok_move.
  - by apply ok_top_bottom.
  - by apply ok_left_right.
  - by apply ok_tab_stop.
  - unfold TabClear. cbn [switch]. destruct (_ =? 0); [by apply ok_tab_stop|]. destruct (_ =? 3); [|by step]. unfold _ClearAllTabStops. step. by apply ok_set_tabs.
  - unfold TabSet. destruct (_ =? 5); [|by step]. step. by apply ok_set_tabs.
  - by apply ok_forward.
  - by apply ok_backward.
  - by apply ok_save.
Qed.
End Invariant.
