(* ===== verification/SixelProps.v ===== *)
(** * Sixel images: theorems

    What the sixels of an image draw in its buffer, for either of the two ways the parser
    writes them; and that in display mode no image, whatever its data, leads to an access
    outside of the buffer, whose size is bounded. *)

From stdpp Require Import list gmap.
From S2P Require Import Prelude Til Utils ColorTable VtTypes StateMachine TermDispatch TextAttributes CodepointWidth CodepointWidthProps Geometry ImageSlice Row RowWrite RowProps RowInvariant Cursor TextBuffer TextBufferProps BufferScroll RenderSettings Pages AdaptDispatch AdaptScreen AdaptModes AdaptReports AdaptProps AdaptWriting FontProps SixelParser.

(** ** Pixels *)

Definition pixel_in (l : list (option Z)) (j : Z) : option Z := default None (l !! Z.to_nat j).

(** [paints m p Q]: [m] returns, and changes nothing but pixels of the buffer. *)
Definition paints (m : comp Sixel.t unit) (p : Sixel.t) (Q : list (option Z) -> Prop) : Prop :=
  exists l, m p = (Sixel.set_imageBuffer l p, Returned tt) /\ length l = length (Sixel._imageBuffer p) /\ Q l.

Lemma set_imageBuffer_same p : Sixel.set_imageBuffer (Sixel._imageBuffer p) p = p.
Proof. by destruct p. Qed.

Lemma paints_ret p (Q : list (option Z) -> Prop) : Q (Sixel._imageBuffer p) -> paints (mret tt) p Q.
Proof. intros HQ. exists (Sixel._imageBuffer p). by rewrite set_imageBuffer_same. Qed.

Lemma paints_bind m k p (Q : list (option Z) -> Prop) :
  paints m p (fun l => paints k (Sixel.set_imageBuffer l p) Q) -> paints (m;; k) p Q.
Proof.
  intros (l & E & Hl & l' & E' & Hl' & HQ). exists l'. unfold mbind, comp_bind. rewrite E, E'. cbn in *. split; [done|]. split; [congruence|done].
Qed.

Lemma paints_mono m p (Q R : list (option Z) -> Prop) : paints m p Q -> (forall l, Q l -> R l) -> paints m p R.
Proof. intros (l & E & Hl & HQ) HR. exists l. auto. Qed.

Lemma fill_pixels_spec offset count pixel p : 0 <= offset -> offset + count <= Z.of_nat (length (Sixel._imageBuffer p)) ->
  paints (Sixel.fill_pixels offset count pixel) p (fun l => forall j, 0 <= j ->
    pixel_in l j = if (offset <=? j) && (j <? offset + count) then pixel else pixel_in (Sixel._imageBuffer p) j).
Proof.
  intros Ho Hc. unfold Sixel.fill_pixels. destruct (Z.leb_spec count 0) as [Hle|Hgt].
  - exists (Sixel._imageBuffer p). rewrite set_imageBuffer_same. split; [done|]. split; [done|].
    intros j Hj. bounds.
  - eexists. unfold mbind, comp_bind, gets, modify. rewrite (proj2 (Z.leb_le 0 offset)), (proj2 (Z.leb_le (offset + count) _)) by lia. cbn [andb].
    split; [reflexivity|]. split; [rewrite !length_app, length_take, length_drop, repeat_length; lia|]. intros j Hj. unfold pixel_in.
    destruct (Z.leb_spec offset j), (Z.ltb_spec j (offset + count)); cbn [andb]; try lia.
    + rewrite lookup_app_r by (rewrite length_take; lia). rewrite lookup_app_l by (rewrite length_take, repeat_length; lia).
      rewrite length_take. destruct (repeat pixel (Z.to_nat count) !! _) as [v|] eqn:E.
      * apply list_elem_of_lookup_2, list_elem_of_In, repeat_spec in E. by subst.
      * apply lookup_ge_None_1 in E. rewrite repeat_length in E. lia.
    + rewrite lookup_app_r by (rewrite length_take; lia). rewrite lookup_app_r by (rewrite length_take, repeat_length; lia).
      rewrite length_take, repeat_length, lookup_drop. f_equal. f_equal. lia.
    + rewrite lookup_app_l by (rewrite length_take; lia). by rewrite lookup_take_lt by lia.
Qed.

(** ** In rows and columns

    The buffer has rows of [w] pixels. *)
Section Rows.
Variable w : Z.
Hypothesis Hw : 0 < w.

Definition pixel_rc (l : list (option Z)) (r c : Z) : option Z := pixel_in l (r * w + c).
Definition has_rows (p : Sixel.t) (rows : Z) : Prop := rows * w <= Z.of_nat (length (Sixel._imageBuffer p)).
Definition in_box (y x height width r c : Z) : bool := (y <=? r) && (r <? y + height) && (x <=? c) && (c <? x + width).

Lemma has_rows_set l p rows : length l = length (Sixel._imageBuffer p) -> has_rows p rows -> has_rows (Sixel.set_imageBuffer l p) rows.
Proof. unfold has_rows. cbn. intros ->. done. Qed.

Lemma fill_row y x count pixel p : 0 <= y -> 0 <= x -> 0 <= count -> x + count <= w -> has_rows p (y + 1) ->
  paints (Sixel.fill_pixels (y * w + x) count pixel) p (fun l => forall r c, 0 <= r -> 0 <= c < w ->
    pixel_rc l r c = if in_box y x 1 count r c then pixel else pixel_rc (Sixel._imageBuffer p) r c).
Proof.
  intros Hy Hx Hc Hxc Hr. unfold has_rows in Hr. eapply paints_mono; [apply fill_pixels_spec; nia|]. intros l E r c Hr' Hc'. unfold pixel_rc, in_box. rewrite E by nia.
  destruct (Z.eq_dec r y) as [->|Hne]; [bounds|].
  destruct (Z.leb_spec (y * w + x) (r * w + c)), (Z.ltb_spec (r * w + c) (y * w + x + count)); cbn [andb]; try (exfalso; nia); bounds.
Qed.

Lemma fill_rows_spec rows y x count pixel p : 0 <= y -> 0 <= x -> 0 <= count -> x + count <= w -> has_rows p (y + Z.of_nat rows) ->
  paints (Sixel.fill_rows rows (y * w + x) w count pixel) p (fun l => forall r c, 0 <= r -> 0 <= c < w ->
    pixel_rc l r c = if in_box y x (Z.of_nat rows) count r c then pixel else pixel_rc (Sixel._imageBuffer p) r c).
Proof.
  revert y p. induction rows as [|rows IH]; intros y p Hy Hx Hc Hxc Hr; cbn [Sixel.fill_rows].
  - apply paints_ret. intros r c _ _. unfold in_box. bounds.
  - apply paints_bind. unfold has_rows in *. assert (has_rows p (y + 1)) by (unfold has_rows; nia).
    destruct (fill_row y x count pixel p Hy Hx Hc Hxc H) as (l & E & Hl & HP). exists l. split; [done|]. split; [done|].
    replace (y * w + x + w) with ((y + 1) * w + x) by lia.
    eapply paints_mono; [apply IH; [lia|done|done|done|cbn; rewrite Hl; replace (y + 1 + Z.of_nat rows) with (y + Z.of_nat (S rows)) by lia; done]|].
    cbn. intros l' E' r c Hr' Hc'. rewrite E', HP by done. unfold in_box. bounds.
Qed.

(** ** Writing a sixel

    Bit [i] of a sixel stands for the rows [i * ratio] to [(i + 1) * ratio] of its band. *)
Definition sixel_bit (value ratio i : Z) : bool := Z.testbit value (i / ratio).

Lemma write_bands_spec rounds y x value ratio count fg p : 0 <= y -> 0 <= x -> 0 <= count -> x + count <= w -> 1 <= ratio -> has_rows p (y + Z.of_nat rounds * ratio) ->
  paints (Sixel.write_bands rounds (y * w + x) w value ratio count fg) p (fun l => forall r c, 0 <= r -> 0 <= c < w ->
    pixel_rc l r c = if in_box y x (Z.of_nat rounds * ratio) count r c && sixel_bit value ratio (r - y) then fg else pixel_rc (Sixel._imageBuffer p) r c).
Proof.
  revert y value p. induction rounds as [|rounds IH]; intros y value p Hy Hx Hc Hxc Ha Hr; cbn [Sixel.write_bands].
  - apply paints_ret. intros r c _ _. unfold in_box. bounds.
  - apply paints_bind. unfold has_rows in Hr.
    assert (Hfirst : paints (if negb (Z.land value 1 =? 0) then Sixel.fill_rows (Z.to_nat ratio) (y * w + x) w count fg else mret tt) p (fun l => forall r c, 0 <= r -> 0 <= c < w ->
      pixel_rc l r c = if in_box y x ratio count r c && Z.testbit value 0 then fg else pixel_rc (Sixel._imageBuffer p) r c)).
    { change 1 with (Z.shiftl 1 0) at 1. rewrite testbit_land_shift by lia. destruct (Z.testbit value 0).
      - eapply paints_mono; [apply fill_rows_spec; unfold has_rows; [lia|lia|lia|lia|nia]|]. intros l E r c ? ?. rewrite E, Z2Nat.id by (done || lia). by rewrite andb_true_r.
      - apply paints_ret. intros. by rewrite andb_false_r. }
    destruct Hfirst as (l & E & Hl & HP). exists l. split; [done|]. split; [done|].
    replace (y * w + x + w * ratio) with ((y + ratio) * w + x) by lia.
    eapply paints_mono; [apply IH; [lia|done|done|done|done|unfold has_rows; cbn; rewrite Hl; nia]|].
    cbn. intros l' E' r c Hr' Hc'. rewrite E', HP by done. unfold sixel_bit.
    destruct (Z.ltb_spec r (y + ratio)) as [Hin|Hout].
    + unfold in_box at 1. replace (y + ratio <=? r) with false by bounds. cbn [andb].
      destruct (Z.leb_spec y r) as [Hle|Hlt]; [|unfold in_box; bounds]. rewrite (Z.div_small (r - y)) by lia.
      replace (in_box y x (Z.of_nat (S rounds) * ratio) count r c) with (in_box y x ratio count r c); [done|]. unfold in_box.
      replace (r <? y + ratio) with true by bounds. replace (r <? y + Z.of_nat (S rounds) * ratio) with true by (symmetry; apply Z.ltb_lt; nia). done.
    + replace (in_box y x ratio count r c) with false by (unfold in_box; bounds). cbn [andb].
      replace (in_box y x (Z.of_nat (S rounds) * ratio) count r c) with (in_box (y + ratio) x (Z.of_nat rounds * ratio) count r c)
        by (unfold in_box; replace (y + Z.of_nat (S rounds) * ratio) with (y + ratio + Z.of_nat rounds * ratio) by lia; bounds).
      rewrite Z.shiftr_spec by (apply Z.div_pos; lia). replace (r - y) with (r - (y + ratio) + 1 * ratio) by lia. rewrite Z.div_add by lia. done.
Qed.

Lemma put_pixel_spec y x pixel p : 0 <= y -> 0 <= x < w -> has_rows p (y + 1) ->
  paints (Sixel.put_pixel (y * w + x) pixel) p (fun l => forall r c, 0 <= r -> 0 <= c < w ->
    pixel_rc l r c = if (r =? y) && (c =? x) then pixel else pixel_rc (Sixel._imageBuffer p) r c).
Proof.
  intros Hy Hx Hr. unfold has_rows in Hr. eexists. unfold Sixel.put_pixel, mbind, comp_bind, gets, modify.
  rewrite (proj2 (Z.leb_le _ _)), (proj2 (Z.ltb_lt _ _)) by nia. cbn [andb]. split; [reflexivity|]. split; [apply length_insert|].
  intros r c Hr' Hc'. unfold pixel_rc, pixel_in. destruct (Z.eqb_spec r y) as [->|Hne]; [destruct (Z.eqb_spec c x) as [->|Hne]|]; cbn [andb].
  - rewrite list_lookup_insert_eq by nia. done.
  - rewrite list_lookup_insert_ne by nia. done.
  - rewrite list_lookup_insert_ne; [done|]. intros E. apply Hne. assert (y * w + x = r * w + c) by nia. nia.
Qed.

Lemma write_column_spec rounds i y x value fg p : 0 <= i -> 0 <= y -> 0 <= x < w -> has_rows p (y + i + Z.of_nat rounds) ->
  paints (Sixel.write_column rounds i (y * w + x) w value fg) p (fun l => forall r c, 0 <= r -> 0 <= c < w ->
    pixel_rc l r c = if in_box (y + i) x (Z.of_nat rounds) 1 r c && Z.testbit value (r - y) then fg else pixel_rc (Sixel._imageBuffer p) r c).
Proof.
  revert i p. induction rounds as [|rounds IH]; intros i p Hi Hy Hx Hr; cbn [Sixel.write_column].
  - apply paints_ret. intros r c _ _. unfold in_box. bounds.
  - unfold has_rows in Hr. assert (Hat : Sixel.pixel_at (y * w + x + i * w) p = (p, Returned (pixel_rc (Sixel._imageBuffer p) (y + i) x))).
    { unfold Sixel.pixel_at, mbind, comp_bind, gets, pixel_rc, pixel_in. rewrite (proj2 (Z.leb_le _ _)), (proj2 (Z.ltb_lt _ _)) by nia.
      cbn [andb]. replace ((y + i) * w + x) with (y * w + x + i * w) by lia. done. }
    set (pixel := if Z.testbit value i then fg else pixel_rc (Sixel._imageBuffer p) (y + i) x).
    destruct (put_pixel_spec (y + i) x pixel p) as (l & E & Hl & HP); [lia|lia|unfold has_rows; nia|].
    destruct (IH (i + 1) (Sixel.set_imageBuffer l p)) as (l' & E' & Hl' & HP'); [lia|lia|lia|unfold has_rows; cbn; nia|].
    exists l'. unfold mbind, comp_bind. rewrite Hat, testbit_land_shift by lia. fold pixel.
    replace (y * w + x + i * w) with ((y + i) * w + x) by lia. rewrite E, E'. split; [done|]. cbn in *. split; [congruence|].
    intros r c Hr' Hc'. rewrite HP', HP by done. unfold pixel. destruct (Z.eq_dec r (y + i)) as [->|Hne]; [destruct (Z.eq_dec c x) as [->|Hne]|].
    + rewrite !Z.eqb_refl. cbn [andb]. replace (y + i - y) with i by lia. unfold in_box. destruct (Z.testbit value i); bounds.
    + replace (c =? x) with false by bounds. rewrite andb_false_r. unfold in_box. bounds.
    + replace (r =? y + i) with false by bounds. cbn [andb]. replace (in_box (y + (i + 1)) x (Z.of_nat rounds) 1 r c) with (in_box (y + i) x (Z.of_nat (S rounds)) 1 r c) by (unfold in_box; bounds). done.
Qed.

(** The two ways move the cursor at different times; the picture is the same. *)
Lemma write_columns_spec count y x value fg p : 0 <= y -> 0 <= x -> x + Z.of_nat count <= w -> has_rows p (y + 6) ->
  exists l, Sixel.write_columns count (y * w + x) w value fg p =
      (Sixel.set_imageCursor (point.mk (point.x (Sixel._imageCursor p) + Z.of_nat count) (point.y (Sixel._imageCursor p))) (Sixel.set_imageBuffer l p), Returned tt) /\
    length l = length (Sixel._imageBuffer p) /\ forall r c, 0 <= r -> 0 <= c < w ->
    pixel_rc l r c = if in_box y x 6 (Z.of_nat count) r c && Z.testbit value (r - y) then fg else pixel_rc (Sixel._imageBuffer p) r c.
Proof.
  revert x p. induction count as [|count IH]; intros x p Hy Hx Hc Hr; cbn [Sixel.write_columns].
  - exists (Sixel._imageBuffer p). split; [rewrite set_imageBuffer_same, Z.add_0_r; by destruct p as [? ? ? ? ? ? ? ? ? ? ? ? ? ? ? ? ? ? ? ? ? ? ? ? ? ? ? ? [] ? ? ? ? ?]|].
    split; [done|]. intros r c _ _. unfold in_box. bounds.
  - destruct (write_column_spec 6 0 y x value fg p) as (l & E & Hl & HP); [lia|lia|lia|unfold has_rows in *; cbn; nia|].
    set (p1 := Sixel.set_imageCursor (point.mk (point.x (Sixel._imageCursor p) + 1) (point.y (Sixel._imageCursor p))) (Sixel.set_imageBuffer l p)).
    destruct (IH (x + 1) p1) as (l' & E' & Hl' & HP'); [lia|lia|lia|unfold has_rows in *; cbn; rewrite Hl; done|].
    exists l'. unfold mbind, comp_bind, modify. rewrite E. change (Sixel.set_imageCursor _ (Sixel.set_imageBuffer l p)) with p1.
    replace (y * w + x + 1) with (y * w + (x + 1)) by lia. rewrite E'. cbn in *. split; [|split; [congruence|]].
    + replace (point.x (Sixel._imageCursor p) + 1 + Z.of_nat count) with (point.x (Sixel._imageCursor p) + Z.of_nat (S count)) by lia. done.
    + intros r c Hr' Hc'. rewrite HP', HP by done. rewrite Z.add_0_r. destruct (Z.testbit value (r - y)); rewrite ?andb_true_r, ?andb_false_r; [|done]. unfold in_box. bounds.
Qed.

(** The picture a sixel draws at a position, and the buffer with room for it. *)
Definition sixel_picture (y x value ratio count : Z) (fg : option Z) (below : Z -> Z -> option Z) (r c : Z) : option Z :=
  if in_box y x (6 * ratio) count r c && sixel_bit value ratio (r - y) then fg else below r c.
End Rows.

Lemma write_sixel_spec (p : Sixel.t) (value n : Z) :
  let w := Sixel._imageMaxWidth p in
  let y := point.y (Sixel._imageCursor p) in
  let x := point.x (Sixel._imageCursor p) in
  let ratio := Sixel._pixelAspectRatio p in
  let count := Z.max 0 (Z.min n (w - x)) in
  0 < w -> 0 <= y -> 0 <= x -> 1 <= ratio -> has_rows w p (y + 6 * ratio) ->
  exists l, Sixel.write_sixel value n p = (Sixel.set_imageCursor (point.mk (x + count) y) (Sixel.set_imageBuffer l p), Returned tt) /\
    length l = length (Sixel._imageBuffer p) /\ forall r c, 0 <= r -> 0 <= c < w ->
      pixel_rc w l r c = sixel_picture y x value ratio count (Some (Sixel._foregroundPixel p)) (pixel_rc w (Sixel._imageBuffer p)) r c.
Proof.
  intros w y x ratio count Hw Hy Hx Ha Hr. unfold Sixel.write_sixel. unfold mbind at 1, comp_bind at 1, gets at 1, id.
  fold w x y ratio. destruct (Z.leb_spec (Z.min n (w - x)) 0) as [Hle|Hgt].
  - exists (Sixel._imageBuffer p). rewrite set_imageBuffer_same. replace count with 0 by lia. rewrite Z.add_0_r. split; [unfold x, y; by destruct p as [? ? ? ? ? ? ? ? ? ? ? ? ? ? ? ? ? ? ? ? ? ? ? ? ? ? ? ? [] ? ? ? ? ?]|].
    split; [done|]. intros r c _ _. unfold sixel_picture, in_box. bounds.
  - replace (Z.min n (w - x)) with count by lia. destruct (Z.eqb_spec value 0) as [->|Hnz].
    + exists (Sixel._imageBuffer p). rewrite set_imageBuffer_same. split; [done|]. split; [done|]. intros r c _ _. unfold sixel_picture, sixel_bit. by rewrite Z.bits_0, andb_false_r.
    + destruct (Z.eqb_spec ratio 1) as [Ha1|Ha1].
      * destruct (write_columns_spec w Hw (Z.to_nat count) y x value (Some (Sixel._foregroundPixel p)) p) as (l & E & Hl & HP); [lia|lia|lia|by rewrite Ha1 in Hr|].
        exists l. rewrite E. rewrite Z2Nat.id in * by lia. split; [done|]. split; [done|]. intros r c Hr' Hc'. rewrite HP by done.
        unfold sixel_picture, sixel_bit. rewrite Ha1, Z.div_1_r. done.
      * destruct (write_bands_spec w Hw 6 y x value ratio count (Some (Sixel._foregroundPixel p)) p) as (l & E & Hl & HP); [lia|lia|lia|lia|lia|done|].
        exists l. unfold mbind, comp_bind, modify. rewrite E. split; [done|]. split; [done|]. intros r c Hr' Hc'. rewrite HP by done. done.
Qed.

(** C16: A sixel draws a column of six dots, as often as it is repeated, each dot as high as the
    aspect ratio says, in the current colour, and nothing to the right of the image; the cursor moves right by the repetitions. This
    holds for both of the ways the parser has of writing them: the one for an aspect ratio of 1, which
    writes column by column, and the general one, which writes row by row. *)
Theorem sixels_are_drawn (p : Sixel.t) (value n : Z) :
  let w := Sixel._imageMaxWidth p in
  let y := point.y (Sixel._imageCursor p) in
  let x := point.x (Sixel._imageCursor p) in
  let ratio := Sixel._pixelAspectRatio p in
  let count := Z.max 0 (Z.min n (w - x)) in
  0 < w -> 0 <= y -> 0 <= x -> 1 <= ratio -> Sixel._backgroundFillRequired p = false -> has_rows w p (y + 6 * ratio) ->
  exists l, Sixel._writeToImageBuffer value n p = (Sixel.set_imageCursor (point.mk (x + count) y) (Sixel.set_imageBuffer l p), Returned tt) /\
    length l = length (Sixel._imageBuffer p) /\ forall r c, 0 <= r -> 0 <= c < w ->
      pixel_rc w l r c = sixel_picture y x value ratio count (Some (Sixel._foregroundPixel p)) (pixel_rc w (Sixel._imageBuffer p)) r c.
Proof.
  intros w y x ratio count Hw Hy Hx Ha Hb Hr. unfold Sixel._writeToImageBuffer, Sixel._fillImageBackground.
  unfold mbind at 1, comp_bind at 1. unfold mbind at 1, comp_bind at 1, gets at 1, id at 1. rewrite Hb. by apply write_sixel_spec.
Qed.

(** A blank image of four by twelve pixels, and dots twice as high as wide. *)
Definition small_image : Sixel.t := Sixel.set_foregroundPixel 7 (Sixel.set_pixelAspectRatio 2 (Sixel.set_imageBuffer (repeat None 48) (Sixel.set_imageMaxWidth 4 (Sixel.new_SixelParser Sixel.DefaultConformance)))).
Lemma sixels_are_drawn_witness : exists l, Sixel._writeToImageBuffer 5 3 small_image = (Sixel.set_imageCursor (point.mk 3 0) (Sixel.set_imageBuffer l small_image), Returned tt) /\
  pixel_rc 4 l 5 2 = Some 7 /\ pixel_rc 4 l 3 2 = None.
Proof.
  destruct (sixels_are_drawn small_image 5 3 ltac:(reflexivity) ltac:(discriminate) ltac:(discriminate) ltac:(discriminate) eq_refl ltac:(vm_compute; discriminate)) as (l & E & _ & Hp). exists l. split; [exact E|].
  split; rewrite (Hp _ _); try discriminate; try (vm_compute; reflexivity); split; vm_compute; (discriminate || reflexivity).
Defined.

(** ** Images in display mode

    In display mode an image is drawn on the whole page and does not scroll. The
    invariant of its parser: the buffer has the rows of the current line of sixels, and
    its size stays within a bound that depends on the page alone. *)

Import Sixel.

Section Image.
(** The page in pixels, and its first row. *)
Variables W H top : Z.
Hypothesis HW : 0 < W.
Hypothesis HH : 20 <= H.

(** The highest line of sixels: the aspect ratio of a sequence may be 5, and that of the
    raster attributes as large as the page allows. *)
Definition tallest : Z := Z.max 30 H.
Definition most_rows : Z := H + 2 * tallest + 20.
Hypothesis Hint : most_rows * W <= CoordTypeMax.

Definition cursor_y (p : t) : Z := point.y (_imageCursor p).
Definition cursor_x (p : t) : Z := point.x (_imageCursor p).

(** The buffer is made of whole rows, at least [need] of them. *)
Definition covers (p : t) (need : Z) : Prop := exists k, Z.of_nat (length (_imageBuffer p)) = k * W /\ need <= k <= most_rows.

Record drawing_state (p : t) : Prop := mk_drawing_state {
  ds_level : _conformanceLevel p = DefaultConformance;
  ds_cell : _cellSize p = size.mk 10 20;
  ds_display : _displayMode p = true;
  ds_pending : _pendingTextScrollCount p = 0;
  ds_width : _imageMaxWidth p = W /\ _availablePixelWidth p = W;
  ds_ratio : 1 <= _pixelAspectRatio p /\ _sixelHeight p = 6 * _pixelAspectRatio p /\ _sixelHeight p <= tallest;
  ds_maxRatio : 1 <= _maxPixelAspectRatio p /\ 6 * _maxPixelAspectRatio p <= tallest;
  ds_column : 0 <= cursor_x p <= W;
  ds_row : 0 <= cursor_y p < H + tallest;
  ds_height : cursor_y p + _availablePixelHeight p = H;
  ds_imageWidth : 0 <= _imageWidth p <= W;
  ds_background : 0 < size.width (_backgroundSize p) /\ 0 < size.height (_backgroundSize p);
  ds_origin : _imageOriginCell p = point.mk 0 top
}.

(** Ready for the next command. *)
Definition ready_image (p : t) : Prop := drawing_state p /\ covers p (cursor_y p + _sixelHeight p).

Lemma covers_le p need need' : covers p need -> need' <= need -> covers p need'.
Proof. intros (k & E & Hk) Hle. exists k. split; [done|lia]. Qed.

Lemma covers_rows p need : covers p need -> has_rows W p need.
Proof. intros (k & E & Hk). unfold has_rows. nia. Qed.

Lemma drawing_state_buffer l p : drawing_state p -> drawing_state (set_imageBuffer l p).
Proof. intros []. by constructor. Qed.

Lemma resize_rule h p (Q : t -> unit -> Prop) : drawing_state p -> covers p 0 -> 0 <= cursor_y p + h <= most_rows ->
  (forall l, covers (set_imageBuffer l p) (cursor_y p + h) -> (forall need, covers p need -> covers (set_imageBuffer l p) need) -> Q (set_imageBuffer l p) tt) ->
  returns (_resizeImageBuffer h) p Q.
Proof.
  intros Hd (k & Ek & Hk) Hh HQ. unfold _resizeImageBuffer. do 2 step. cbn [id]. destruct (ds_width p Hd) as [-> _]. fold (cursor_y p). unfold is_int, CoordTypeMin, CoordTypeMax in *.
  rewrite (proj2 (Z.leb_le _ _)), (proj2 (Z.leb_le _ (2 ^ 31 - 1))) by nia. cbn [andb negb]. rewrite (proj2 (Z.ltb_ge _ _)) by nia.
  destruct (Z.ltb_spec (Z.of_nat (length (_imageBuffer p))) ((cursor_y p + h) * W)) as [Hlt|Hge].
  - step. assert (E : Z.of_nat (length (_imageBuffer p ++ repeat None (Z.to_nat ((cursor_y p + h) * W) - length (_imageBuffer p)))) = (cursor_y p + h) * W)
      by (rewrite length_app, repeat_length; lia).
    apply HQ; [exists (cursor_y p + h); split; [exact E|lia]|]. intros need (k' & Ek' & Hk'). exists (cursor_y p + h). split; [exact E|]. assert (k' = k) as -> by nia. nia.
  - step. specialize (HQ (_imageBuffer p)). rewrite set_imageBuffer_same in HQ. apply HQ; [|done]. exists k. split; [done|]. nia.
Qed.

Lemma fill_background_rule h p (Q : t -> unit -> Prop) : drawing_state p -> covers p (cursor_y p + Z.max 0 h) ->
  (forall l v, length l = length (_imageBuffer p) -> 0 <= v <= W -> Q (set_imageWidth v (set_imageBuffer l p)) tt) ->
  returns (fill_background h) p Q.
Proof.
  intros Hd Hc HQ. unfold fill_background. do 2 step. cbn [id]. destruct (ds_width p Hd) as [-> ->]. pose proof (ds_background p Hd) as [Hb _]. pose proof (ds_imageWidth p Hd).
  set (bw := Z.min (size.width (_backgroundSize p)) W). fold (cursor_y p). rewrite <- (Z.add_0_r (cursor_y p * W)).
  pose proof (ds_row p Hd). destruct (fill_rows_spec W HW (Z.to_nat h) (cursor_y p) 0 bw (Some 0) p) as (l & E & Hl & _); [lia|lia|lia|lia| |].
  { apply covers_rows. eapply covers_le; [exact Hc|lia]. }
  step. exists (set_imageBuffer l p), tt. split; [exact E|]. step. apply HQ; [done|lia].
Qed.

(** Nothing but pixels, the width of the image and the record of the filled area change. *)
Definition repainted (p p' : t) : Prop :=
  exists l v f g, p' = set_filledBackgroundHeight f (set_backgroundFillRequired g (set_imageWidth v (set_imageBuffer l p))) /\ 0 <= v <= W /\ forall need, covers p need -> covers p' need.

Lemma repainted_ready p p' : ready_image p -> repainted p p' -> ready_image p'.
Proof. intros [[] Hc] (l & v & f & g & -> & Hv & Hn). split; [by constructor|]. exact (Hn _ Hc). Qed.

Lemma repainted_refl p : drawing_state p -> repainted p p.
Proof. intros Hd. exists (_imageBuffer p), (_imageWidth p), (_filledBackgroundHeight p), (_backgroundFillRequired p). split; [by destruct p|]. split; [apply Hd|done]. Qed.

Lemma repainted_trans p1 p2 p3 : repainted p1 p2 -> repainted p2 p3 -> repainted p1 p3.
Proof. intros (l & v & f & g & -> & Hv & Hn) (l' & v' & f' & g' & -> & Hv' & Hn'). exists l', v', f', g'. split; [done|]. split; [done|]. auto. Qed.

Lemma covers_same p p' need : length (_imageBuffer p') = length (_imageBuffer p) -> covers p need -> covers p' need.
Proof. unfold covers. by intros ->. Qed.

Lemma scrolled_background_rule p : ready_image p -> returns _fillImageBackgroundWhenScrolled p (fun p' _ => repainted p p').
Proof.
  intros [Hd Hc]. unfold _fillImageBackgroundWhenScrolled. do 2 step. cbn [id]. fold (cursor_y p). destruct (_filledBackgroundHeight p) as [filled|]; [|step; by apply repainted_refl].
  destruct (Z.ltb_spec filled (cursor_y p + _sixelHeight p)) as [Hlt|Hge]; [|step; by apply repainted_refl].
  rewrite (ds_cell p Hd). cbn [size.height]. pose proof (ds_ratio p Hd). pose proof (ds_row p Hd). pose proof (ds_imageWidth p Hd).
  set (new := (cursor_y p + _sixelHeight p + 20 - 1) ÷ 20 * 20).
  assert (Hnew : cursor_y p + _sixelHeight p <= new < cursor_y p + _sixelHeight p + 20).
  { unfold new. rewrite Z.quot_div_nonneg by lia. Z.to_euclidean_division_equations. lia. }
  do 2 step. set (p1 := set_filledBackgroundHeight (Some new) p). assert (Hd1 : drawing_state p1) by (destruct Hd; by constructor).
  step. apply resize_rule; [exact Hd1|eapply covers_le; [exact Hc|lia]|change (cursor_y p1) with (cursor_y p); unfold most_rows, tallest in *; lia|].
  intros l Hl Hkeep. apply fill_background_rule; [by apply drawing_state_buffer|change (cursor_y (set_imageBuffer l p1)) with (cursor_y p); eapply covers_le; [exact Hl|change (cursor_y p1) with (cursor_y p); lia]|].
  intros l' v El Hv. exists l', v, (Some new), (_backgroundFillRequired p). split; [by destruct p|]. split; [done|]. intros need Hn. apply (covers_same (set_imageBuffer l p1)); [done|]. apply Hkeep, Hn.
Qed.

Lemma background_rule p : ready_image p -> returns _fillImageBackground p (fun p' _ => repainted p p').
Proof.
  intros [Hd Hc]. unfold _fillImageBackground. do 2 step. cbn [id]. destruct (_backgroundFillRequired p) eqn:Eb; [|step; by apply repainted_refl].
  pose proof (ds_ratio p Hd). pose proof (ds_row p Hd). pose proof (ds_height p Hd) as Hh. pose proof (ds_background p Hd) as [_ Hbg].
  set (bh := Z.min (size.height (_backgroundSize p)) (_availablePixelHeight p)). do 2 step. set (p1 := set_backgroundFillRequired false p).
  assert (Hd1 : drawing_state p1) by (destruct Hd; by constructor).
  step. apply resize_rule; [exact Hd1|eapply covers_le; [exact Hc|lia]|change (cursor_y p1) with (cursor_y p); unfold most_rows, tallest in *; lia|].
  intros l Hl Hkeep. step. apply fill_background_rule; [by apply drawing_state_buffer| |].
  { change (cursor_y (set_imageBuffer l p1)) with (cursor_y p). destruct (Z.le_gt_cases 0 bh); [rewrite Z.max_r by lia; exact Hl|]. apply Hkeep. eapply covers_le; [exact Hc|lia]. }
  intros l' v El Hv. do 2 step. set (p2 := set_filledBackgroundHeight _ _).
  assert (Hrep : repainted p p2).
  { exists l', v, (Some (cursor_y p + _availablePixelHeight p)), false. split; [by destruct p|]. split; [done|]. intros need Hn. apply (covers_same (set_imageBuffer l p1)); [done|]. apply Hkeep, Hn. }
  apply (returns_mono _ _ _ _ (scrolled_background_rule p2 (repainted_ready _ _ (conj Hd Hc) Hrep))). intros p3 _ Hr3. by eapply repainted_trans.
Qed.

Lemma write_rule value n p : ready_image p -> returns (_writeToImageBuffer value n) p (fun p' _ => ready_image p').
Proof.
  intros Hp. unfold _writeToImageBuffer. step. apply (returns_mono _ _ _ _ (background_rule p Hp)). intros p1 _ Hrep.
  pose proof (repainted_ready _ _ Hp Hrep) as [Hd Hc]. destruct (ds_width p1 Hd) as [Ew _]. pose proof (ds_ratio p1 Hd) as (Hr1 & Hr2 & _).
  pose proof (ds_row p1 Hd). pose proof (ds_column p1 Hd). unfold cursor_x, cursor_y in *.
  destruct (write_sixel_spec p1 value n) as (l & E & Hl & _); [by rewrite Ew|lia|lia|lia|rewrite Ew; apply covers_rows; eapply covers_le; [exact Hc|unfold cursor_y; lia]|].
  eexists _, tt. split; [exact E|]. rewrite Ew. split; [destruct Hd; constructor; try done; unfold cursor_x in *; cbn; lia|].
  apply (covers_same p1); [done|]. exact Hc.
Qed.

Lemma return_rule p : ready_image p -> returns _executeCarriageReturn p (fun p' _ => ready_image p').
Proof.
  intros [Hd Hc]. unfold _executeCarriageReturn. step. split; [|exact Hc]. pose proof (ds_imageWidth p Hd). pose proof (ds_column p Hd). unfold cursor_x in *.
  destruct Hd; constructor; try done; unfold cursor_x in *; cbn; lia.
Qed.

(** Another height of the sixels, with room for the line. *)
Lemma ratio_rule ratio seg p : ready_image p -> 1 <= ratio -> 6 * ratio <= tallest ->
  returns (modify (set_pixelAspectRatio ratio);; modify (set_sixelHeight (6 * ratio));; modify (set_segmentHeight seg);; _resizeImageBuffer (6 * ratio)) p (fun p' _ => ready_image p').
Proof.
  intros [Hd Hc] Hr1 Hr2. do 6 step. set (p1 := set_segmentHeight _ _). assert (Hd1 : drawing_state p1) by (destruct Hd; constructor; done).
  pose proof (ds_row p Hd). pose proof (ds_ratio p Hd). apply resize_rule; [done|eapply covers_le; [exact Hc|lia]|change (cursor_y p1) with (cursor_y p); unfold most_rows, tallest in *; lia|].
  intros l Hl _. split; [by apply drawing_state_buffer|exact Hl].
Qed.

Lemma raster_rule attributes p : ready_image p -> returns (_updateRasterAttributes attributes) p (fun p' _ => ready_image p').
Proof.
  intros Hp. unfold _updateRasterAttributes. step. apply (returns_mono _ _ (fun p' _ => ready_image p')).
  - case_match; [|by step]. do 2 step. cbn [id]. destruct Hp as [Hd Hc]. pose proof (ds_maxRatio p Hd) as [Hm1 Hm2].
    apply ratio_rule; [done| |]; rewrite clamp_spec by lia; lia.
  - intros p1 _ [Hd Hc]. do 2 step. set (p2 := set_backgroundSize _ _). assert (Hp2 : ready_image p2).
    { split; [|exact Hc]. destruct Hd as [? ? ? ? ? ? ? ? ? ? ? [? ?] ?]; constructor; try done. cbn. destruct (Z.ltb_spec 0 (VTParameter.value_or (VTParameters.at_ attributes 2) 0)),
        (Z.ltb_spec 0 (VTParameter.value_or (VTParameters.at_ attributes 3) 0)); lia. }
    step. apply (returns_mono _ _ _ _ (scrolled_background_rule p2 Hp2)). intros p3 _ Hr3. apply return_rule. by eapply repainted_ready.
Qed.

(** The next line of sixels. *)
Lemma advance_rule p (Q : t -> unit -> Prop) : ready_image p -> 0 < _availablePixelHeight p ->
  (forall p', ready_image p' -> Q p' tt) ->
  returns (modify (set_imageCursor (point.mk (point.x (_imageCursor p)) (point.y (_imageCursor p) + _sixelHeight p)));;
           modify (set_availablePixelHeight (_availablePixelHeight p - _sixelHeight p));;
           _resizeImageBuffer (_sixelHeight p);; _fillImageBackgroundWhenScrolled) p Q.
Proof.
  intros [Hd Hc] Ha HQ. do 4 step. set (p1 := set_availablePixelHeight _ _). pose proof (ds_row p Hd). pose proof (ds_ratio p Hd) as (? & ? & ?). pose proof (ds_height p Hd). unfold cursor_y in *.
  assert (Hd1 : drawing_state p1) by (destruct Hd; constructor; try done; unfold cursor_y in *; cbn; lia).
  step. apply resize_rule; [done|eapply covers_le; [exact Hc|cbn; lia]|unfold cursor_y; cbn; unfold most_rows, tallest in *; lia|].
  intros l Hl _. assert (Hp2 : ready_image (set_imageBuffer l p1)) by (split; [by apply drawing_state_buffer|exact Hl]).
  apply (returns_mono _ _ _ _ (scrolled_background_rule _ Hp2)). intros p3 [] Hr3. apply HQ. by eapply repainted_ready.
Qed.
End Image.

(** ** The rows of the page *)

Definition image_good (r : ROW) : Prop := match _imageSlice r with Some sl => slice_ok sl /\ ImageSlice._cellSize sl = size.mk 10 20 | None => True end.

Lemma draw_rows_ok W p rows j dst stride pixels :
  0 < W -> _imageMaxWidth p = W -> 0 < _imageWidth p <= W -> (exists k, Z.of_nat (length (_imageBuffer p)) = k * W) -> 0 <= j -> j * W < Z.of_nat (length (_imageBuffer p)) ->
  0 <= dst -> 0 <= stride -> (rows <> 0%nat -> dst + (Z.of_nat rows - 1) * stride + _imageWidth p <= Z.of_nat (length pixels)) ->
  exists pixels' j', draw_rows rows p (j * W) dst stride pixels = Some (pixels', j' * W) /\ length pixels' = length pixels /\ 0 <= j'.
Proof.
  intros HW Ew Hiw [k Ek]. revert j dst pixels. induction rows as [|rows IH]; intros j dst pixels Hj Hlt Hdst Hst Hfit; cbn [draw_rows]; [by exists pixels, j|].
  specialize (Hfit ltac:(done)). assert (Hseg : 0 <= j * W /\ j * W + _imageWidth p <= Z.of_nat (length (_imageBuffer p))).
  { assert (j < k) by (rewrite Ek in Hlt; apply (Z.mul_lt_mono_pos_r W); lia). assert ((j + 1) * W <= k * W) by (apply Z.mul_le_mono_nonneg_r; lia). nia. }
  rewrite Ew. rewrite (proj2 (Z.leb_le 0 _)), (proj2 (Z.leb_le (j * W + _imageWidth p) _)) by lia. cbn [andb].
  unfold ImageSlice.cut. rewrite (proj2 (Z.leb_le 0 dst)), (proj2 (Z.leb_le 0 (_imageWidth p))), (proj2 (Z.leb_le (dst + _imageWidth p) _)) by (assert (0 <= (Z.of_nat (S rows) - 1) * stride) by nia; lia). cbn [andb mbind option_bind].
  set (new := overlay _ _ _). assert (Hn : Z.of_nat (length new) = _imageWidth p).
  { unfold new, overlay. rewrite length_zip_with, !length_take, !length_drop. clear IH Hlt Hj. assert (0 <= (Z.of_nat (S rows) - 1) * stride) by nia. lia. }
  destruct (paste_ok dst new pixels) as (pixels1 & -> & Hl1 & _); [lia|assert (0 <= (Z.of_nat (S rows) - 1) * stride) by nia; lia|]. cbn [mbind option_bind].
  replace (j * W + W) with ((j + 1) * W) by lia. destruct (Z.leb_spec (Z.of_nat (length (_imageBuffer p))) ((j + 1) * W)); [by exists pixels1, (j + 1); split; [|split; [|lia]]|].
  destruct (IH (j + 1) (dst + stride) pixels1) as (pixels2 & j' & E & Hl2 & Hj'); [lia|lia|lia|lia|rewrite Hl1; nia|]. exists pixels2, j'. split; [done|]. split; [congruence|done].
Qed.

Lemma draw_row_ok W p r columnEnd j :
  0 < W -> _imageMaxWidth p = W -> 0 < _imageWidth p <= W -> _cellSize p = size.mk 10 20 -> (exists k, Z.of_nat (length (_imageBuffer p)) = k * W) ->
  0 <= j -> j * W < Z.of_nat (length (_imageBuffer p)) -> _imageWidth p <= columnEnd * 10 -> image_good r ->
  exists sl j', draw_row p 0 columnEnd (j * W) r = Some (SetImageSlice (Some sl) r, j' * W) /\ slice_ok sl /\ ImageSlice._cellSize sl = size.mk 10 20 /\ 0 <= j'.
Proof.
  intros HW Ew Hiw Ec Hk Hj Hlt Hcol Hr. unfold draw_row, draw_slice.
  set (slice := match _imageSlice r with Some slice => slice | None => _ end).
  assert (Hs : slice_ok slice /\ ImageSlice._cellSize slice = size.mk 10 20).
  { unfold slice, image_good in *. destruct (_imageSlice r); [done|]. rewrite Ec. split; [|done]. by split. }
  destruct Hs as [Hs Hcell]. destruct (MutablePixels_ok 0 columnEnd slice Hs) as (s1 & -> & Hs1 & Hsame & _ & Hb & He & _); [lia|]. cbn [mbind option_bind].
  unfold same_cells in Hsame. rewrite Hcell, Ec in *. cbn [size.width size.height]. pose proof Hs1 as [_ Hcols Hpw Hlen]. rewrite Hsame in Hpw, Hlen. cbn in Hpw, Hlen.
  destruct (draw_rows_ok W p 20 j ((0 - ImageSlice._columnBegin s1) * 10) (ImageSlice.PixelWidth s1) (ImageSlice._pixelBuffer s1)) as (pixels & j' & E & Hl & Hj'); try done; unfold ImageSlice.PixelWidth; [lia|lia|intros _; nia|].
  change (Z.to_nat 20) with 20%nat. unfold ImageSlice.PixelWidth in E. rewrite E. cbn [mbind option_bind]. eexists _, j'. split; [done|]. split; [|by cbn; split].
  destruct Hs1 as [? ? ? ?]. split; cbn; try done. by rewrite Hl.
Qed.

Section Screen.
Context {A D : Type} `{MeasurementLaws D} `{!ITerminalApi A D} `{!ITerminalApiLaws A D}.
Variable P : Platform.
Variable clock : nat -> Z.
Variable ColorFromHLS : Z -> Z -> Z -> Z.
Implicit Types (d : AdaptDispatch A D MacroCallback) (s : SixelState (A := A) (D := D)).
Local Abbreviation line := (line (avx2 P) (uninitialised P) (rowSize P)).

(** The page and the images on its rows. *)
Record screen_ready (W Hp top : Z) d : Prop := mk_screen_ready {
  sr_page : page_ready d;
  sr_size : W = _width (buffer d) * 10 /\ Hp = (rect.bottom (viewport d) - rect.top (viewport d)) * 20 /\ top = rect.top (viewport d);
  sr_images : forall y r, rect.top (viewport d) <= y < rect.bottom (viewport d) -> line (buffer d) y = Some r -> image_good r
}.

Lemma with_image_rule {X} (m : comp Sixel.t X) s (Q : _ -> _ -> Prop) :
  returns m (parser s) (fun p x => Q (mkSixelState p (adapt s) (readings s)) x) -> returns (with_image m) s Q.
Proof. intros (p & x & E & HQ). eexists _, x. unfold with_image. rewrite E. by split. Qed.

Lemma with_dispatcher_rule {X} (m : comp (AdaptDispatch A D MacroCallback) X) s (Q : _ -> _ -> Prop) :
  returns m (adapt s) (fun d x => Q (mkSixelState (parser s) d (readings s)) x) -> returns (with_dispatcher m) s Q.
Proof. intros (d & x & E & HQ). eexists _, x. unfold with_dispatcher. rewrite E. by split. Qed.

Lemma image_rule {X} (f : Sixel.t -> X) s (Q : _ -> _ -> Prop) : Q s (f (parser s)) -> returns (image f) s Q.
Proof. intros HQ. apply with_image_rule. step. by destruct s. Qed.

Lemma update_rule f s (Q : _ -> _ -> Prop) : Q (mkSixelState (f (parser s)) (adapt s) (readings s)) tt -> returns (update f) s Q.
Proof. intros HQ. apply with_image_rule. by step. Qed.

(** Drawing a row of the page. *)
Lemma draw_row_rule d0 d W Hp top p y j columnEnd (Q : _ -> _ -> Prop) :
  screen_ready W Hp top d -> viewport d0 = viewport d -> rect.top (viewport d) <= y < rect.bottom (viewport d) ->
  0 < W -> _imageMaxWidth p = W -> 0 < _imageWidth p <= W -> _cellSize p = size.mk 10 20 -> (exists k, Z.of_nat (length (_imageBuffer p)) = k * W) ->
  0 <= j -> j * W < Z.of_nat (length (_imageBuffer p)) -> _imageWidth p <= columnEnd * 10 ->
  (forall d' j', screen_ready W Hp top d' -> viewport d' = viewport d -> 0 <= j' -> Q d' (j' * W)) ->
  returns (on_page (page_of d0) (
    slot ← GetMutableRowByOffset (avx2 P) (uninitialised P) (rowSize P) y;
    r ← row_at slot;
    '(r, src) ← lift (draw_row p 0 columnEnd (j * W) r);
    put_row slot r;;
    mret src)) d Q.
Proof.
  intros [Hr Hsize Him] Ev Hy HW Ew Hiw Ec Hk Hj Hlt Hcol HQ. pose proof (ready_viewport d Hr) as [Hv1 Hv2]. apply on_page_rule; [done|].
  destruct (get_mutable_ok (avx2 P) (uninitialised P) (rowSize P) (buffer d) y (ready_buffer d Hr)) as (b1 & r & E & Hg1 & Hs1 & _ & Hrow & Hl & _).
  destruct (draw_row_ok W p r columnEnd j HW Ew Hiw Ec Hk Hj Hlt Hcol (Him y r Hy Hl)) as (sl & j' & Edraw & Hsl & Hcell & Hj').
  destruct (update_line_ok (avx2 P) (uninitialised P) (rowSize P) (SetImageSlice (Some sl)) (buffer d) y (ready_buffer d Hr)) as (b' & r' & E' & Hg' & Hl' & Hs').
  { intros r0 Hr0. split; [by apply set_flags_good|done]. }
  assert (r' = r) as -> by congruence. exists b', (j' * W). split.
  - unfold mbind, comp_bind in E' |- *. rewrite E in *. unfold update_row, mbind, comp_bind in E'. rewrite (row_at_ok b1 _ r Hrow) in *. rewrite Edraw. cbn. by rewrite E'.
  - intros d' R B M. rewrite <- B in Hs', Hg'. destruct (line_changed P d d' y (SetImageSlice (Some sl) r) Hr ltac:(lia) Hs') as [L1 L2].
    destruct (same_rest_viewport d d' R) as [Evd _]. pose proof (shows_frame _ _ _ _ _ _ Hs') as F. destruct (frame_fields _ _ F) as (Fw & Fh & _).
    apply HQ; [|done|done]. split; [by eapply ready_kept|by rewrite Fw, Evd|]. rewrite Evd. intros z rz Hz Hlz. destruct (Z.eq_dec z y) as [->|Hne].
    + rewrite L1 in Hlz. injection Hlz as <-. unfold image_good. cbn. done.
    + rewrite L2 in Hlz by lia. exact (Him z rz Hz Hlz).
Qed.

Lemma screen_same W Hp top d d' : screen_ready W Hp top d -> same_screen P d d' -> screen_ready W Hp top d' /\ viewport d' = viewport d.
Proof.
  intros [Hr Hs Hi] S. destruct (same_rest_viewport d d' (screen_rest _ _ _ S)) as [Ev _]. pose proof (screen_text _ _ _ S) as T. split; [|done].
  split; [by eapply same_screen_ready|by rewrite Ev, (text_width _ _ _ T)|]. rewrite Ev. intros y r Hy Hl. rewrite (text_line _ _ _ T) in Hl. by apply (Hi y r).
Qed.

(** *** Flushing *)
Section Flush.
Variables W Hp top : Z.
Hypothesis HW : 0 < W.

(** The image and the page. *)
Definition sixel_ready s : Prop := ready_image W Hp top (parser s) /\ screen_ready W Hp top (adapt s).

(** The page after the image was drawn, with the same image. *)
Definition flushed s s' : Prop := screen_ready W Hp top (adapt s') /\ parser s' = parser s /\ viewport (adapt s') = viewport (adapt s).

Lemma draw_image_rule rounds d0 columnEnd j y s : sixel_ready s -> viewport d0 = viewport (adapt s) -> top <= y -> 0 <= j -> 0 < _imageWidth (parser s) ->
  _imageWidth (parser s) <= columnEnd * 10 -> returns (draw_image P rounds (page_of d0) 0 columnEnd (j * W) y) s (fun s' _ => flushed s s').
Proof.
  revert j y s. induction rounds as [|rounds IH]; intros j y s Hs Ev Hy Hj Hiw Hcol; cbn [draw_image]; [step; split; [apply Hs|done]|].
  step. apply image_rule. cbn [id]. destruct Hs as [[Hd Hc] Hscr]. destruct (_ && _) eqn:E; [|step; by split].
  apply andb_true_iff in E as [E1 E2]. rewrite Z.ltb_lt in E1, E2. change (Page.Bottom (page_of d0)) with (rect.bottom (viewport d0)) in E2. rewrite Ev in E2.
  pose proof (sr_size _ _ _ _ Hscr) as (_ & _ & Et). pose proof (ready_viewport _ (sr_page _ _ _ _ Hscr)) as [Hv _]. pose proof (ds_imageWidth _ _ _ _ Hd). pose proof (ds_width _ _ _ _ Hd) as [Ew _].
  rewrite (proj2 (Z.leb_le 0 y)) by lia. step. apply with_dispatcher_rule.
  eapply draw_row_rule; [exact Hscr|done|lia|exact HW|done|lia|apply Hd| |done|done|done|].
  { destruct Hc as (k & Ek & _). by exists k. }
  intros d' j' Hscr' Ev' Hj'. set (s1 := mkSixelState (parser s) d' (readings s)).
  apply (returns_mono _ _ _ _ (IH j' (y + 1) s1 (conj (conj Hd Hc) Hscr') ltac:(cbn; congruence) ltac:(lia) Hj' Hiw Hcol)).
  intros s2 [] (F1 & F2 & F3). split; [done|]. split; [done|]. cbn in F3. congruence.
Qed.

Lemma flush_image_rule d0 s : sixel_ready s -> viewport d0 = viewport (adapt s) -> returns (flush_image P (page_of d0)) s (fun s' _ => flushed s s').
Proof.
  intros Hs Ev. unfold flush_image. step. apply image_rule. cbn [id]. destruct Hs as [[Hd Hc] Hscr]. destruct (Z.ltb_spec 0 (_imageWidth (parser s))) as [Hiw|]; [|step; by split].
  rewrite (ds_origin _ _ _ _ Hd), (ds_cell _ _ _ _ Hd). cbn [point.x point.y size.width]. pose proof (sr_size _ _ _ _ Hscr) as (_ & _ & Et).
  change (Page.Top (page_of d0)) with (rect.top (viewport d0)). rewrite Ev, <- Et. rewrite Z.ltb_irrefl. step.
  set (columnEnd := 0 + (_imageWidth (parser s) + 10 - 1) ÷ 10). change 0 with (0 * W) at 2. assert (Hcol : _imageWidth (parser s) <= columnEnd * 10)
    by (unfold columnEnd; rewrite Z.add_0_l, Z.quot_div_nonneg by lia; Z.to_euclidean_division_equations; lia).
  apply (returns_mono _ _ _ _ (draw_image_rule _ d0 columnEnd 0 top s (conj (conj Hd Hc) Hscr) Ev ltac:(lia) ltac:(lia) Hiw Hcol)).
  intros s' _ F. by step.
Qed.

Lemma cursor_rule d0 f s (Q : _ -> _ -> Prop) : sixel_ready s -> (forall d', screen_ready W Hp top d' -> Q (mkSixelState (parser s) d' (readings s)) tt) ->
  returns (with_dispatcher (on_cursor (page_of d0) f)) s Q.
Proof.
  intros [Hi Hs] HQ. apply with_dispatcher_rule, (on_cursor_rule P); [apply Hs|]. intros d' S _. apply HQ. by destruct (screen_same _ _ _ _ _ Hs S).
Qed.

(** Only the bookkeeping of the flushes changes. *)
Lemma ready_bookkeeping p a b c : ready_image W Hp top p -> ready_image W Hp top (set_lastFlushLine a (set_lastFlushTime b (set_segmentHeight c p))).
Proof. intros [[] Hc]. split; [by constructor|exact Hc]. Qed.

Lemma maybe_flush_rule last ends s (Q : _ -> _ -> Prop) : sixel_ready s ->
  (forall s', sixel_ready s' -> (exists a b c, parser s' = set_lastFlushLine a (set_lastFlushTime b (set_segmentHeight c (parser s)))) -> Q s' tt) ->
  returns (_maybeFlushImageBuffer P clock last ends) s Q.
Proof.
  intros [Hi Hscr] HQ. pose proof Hi as [Hd _]. unfold _maybeFlushImageBuffer. step. apply update_rule.
  assert (reserve_segment (parser s) = parser s) as -> by (unfold reserve_segment; by rewrite (ds_display _ _ _ _ Hd), andb_false_r).
  step. apply update_rule. cbn [parser adapt readings]. step. eexists _, _. split; [reflexivity|]. cbn [parser adapt readings]. step. apply image_rule. cbn [id parser].
  destruct (_ || _) eqn:E.
  - step. apply update_rule. step. apply update_rule. cbn [parser adapt readings]. step. unfold page_of_image. apply with_dispatcher_rule. cbn [adapt].
    apply (page_rule P); [apply Hscr|]. cbn [parser adapt readings]. change (_pendingTextScrollCount _) with (_pendingTextScrollCount (parser s)). rewrite (ds_pending _ _ _ _ Hd).
    step. step. step. set (p1 := set_lastFlushLine _ _). set (s1 := mkSixelState p1 _ _).
    assert (Hp1 : exists a b c, p1 = set_lastFlushLine a (set_lastFlushTime b (set_segmentHeight c (parser s)))) by (eexists _, _, _; reflexivity).
    assert (Hs1 : sixel_ready s1) by (split; [destruct Hp1 as (a & b & c & E1); cbn; rewrite E1; by apply ready_bookkeeping|done]).
    apply (returns_mono _ _ _ _ (flush_image_rule (adapt s) s1 Hs1 eq_refl)). intros s2 _ (F1 & F2 & F3). step. unfold _updateTextColors. step. apply image_rule. cbn [id]. rewrite F2.
    change (_conformanceLevel (parser s1)) with (_conformanceLevel (parser s)). rewrite (ds_level _ _ _ _ Hd). cbn [DefaultConformance]. change (9 <=? 3) with false. cbn [andb]. step.
    assert (Hs2 : sixel_ready s2) by (split; [rewrite F2; apply Hs1|done]).
    destruct ends; [|step; apply HQ; [done|by rewrite F2]]. unfold _updateTextCursor. step. apply image_rule. cbn [id]. rewrite F2. change (_displayMode (parser s1)) with (_displayMode (parser s)). rewrite (ds_display _ _ _ _ Hd). cbn [negb].
    step. step. case_match; [|step; apply HQ; [done|by rewrite F2]]. apply cursor_rule; [done|]. intros d' Hd'. apply HQ; [split; [apply Hs2|done]|cbn; by rewrite F2].
  - step. apply HQ; [split; [|done]|].
    + cbn. destruct Hi as [[] Hc]. split; [by constructor|exact Hc].
    + exists (_lastFlushLine (parser s)), (_lastFlushTime (parser s)), (_sixelHeight (parser s)). cbn. by destruct (parser s).
Qed.

(** An update of which only [R] is to be remembered. *)
Lemma update_such (R : Sixel.t -> Prop) f s (Q : _ -> _ -> Prop) : R (f (parser s)) -> (forall p, R p -> Q (mkSixelState p (adapt s) (readings s)) tt) -> returns (update f) s Q.
Proof. intros HR HQ. apply update_rule. by apply HQ. Qed.

(** *** Commands *)

Hypothesis HH : 20 <= Hp.
Hypothesis Hint : most_rows Hp * W <= CoordTypeMax.

Lemma image_step {X} (m : comp Sixel.t X) s (Q : _ -> _ -> Prop) : sixel_ready s -> returns m (parser s) (fun p' _ => ready_image W Hp top p') ->
  (forall s' x, sixel_ready s' -> Q s' x) -> returns (with_image m) s Q.
Proof. intros [_ Hs] Hm HQ. apply with_image_rule. apply (returns_mono _ _ _ _ Hm). intros p' x Hp'. apply HQ. by split. Qed.

Lemma update_step f s (Q : _ -> _ -> Prop) : sixel_ready s -> (forall p, ready_image W Hp top p -> ready_image W Hp top (f p)) -> (forall s', sixel_ready s' -> Q s' tt) -> returns (update f) s Q.
Proof. intros [Hi Hs] Hf HQ. apply update_rule. apply HQ. split; [by apply Hf|done]. Qed.

Lemma ready_state v p : ready_image W Hp top p -> ready_image W Hp top (set_state v p).
Proof. intros [[] Hc]. split; [by constructor|exact Hc]. Qed.
Lemma ready_parameters v p : ready_image W Hp top p -> ready_image W Hp top (set_parameters v p).
Proof. intros [[] Hc]. split; [by constructor|exact Hc]. Qed.
Lemma ready_parameter_char ch p : ready_image W Hp top p -> ready_image W Hp top (_parseParameterChar ch p).
Proof. intros Hi. unfold _parseParameterChar. case_match; [by apply ready_parameters|done]. Qed.
Lemma ready_colorTable v p : ready_image W Hp top p -> ready_image W Hp top (set_colorTable v p).
Proof. intros [[] Hc]. split; [by constructor|exact Hc]. Qed.
Lemma ready_tableChanged v p : ready_image W Hp top p -> ready_image W Hp top (set_colorTableChanged v p).
Proof. intros [[] Hc]. split; [by constructor|exact Hc]. Qed.
Lemma ready_foreground v p : ready_image W Hp top p -> ready_image W Hp top (set_foregroundPixel v p).
Proof. intros [[] Hc]. split; [by constructor|exact Hc]. Qed.
Lemma ready_lineCount v p : ready_image W Hp top p -> ready_image W Hp top (set_imageLineCount v p).
Proof. intros [[] Hc]. split; [by constructor|exact Hc]. Qed.
Lemma ready_assigned n color p : ready_image W Hp top p -> ready_image W Hp top (assign_color n color p).
Proof. intros [[] Hc]. unfold assign_color. repeat case_match; (split; [by constructor|exact Hc]). Qed.

Lemma color_entry_rule last n color s : sixel_ready s -> returns (define_color_entry P clock last n color) s (fun s' _ => sixel_ready s').
Proof.
  intros Hs. unfold define_color_entry. step. apply image_rule. cbn [id]. case_match; [|by apply update_step; [|intros; by apply ready_assigned|]].
  step. apply update_step; [done|intros; by apply ready_colorTable|]. intros s1 Hs1. step. apply update_step; [done|intros; by apply ready_tableChanged|]. intros s2 Hs2.
  case_match; [|by step]. by apply maybe_flush_rule.
Qed.

Lemma define_color_rule last parameters s : sixel_ready s -> returns (_defineColor P clock ColorFromHLS last parameters) s (fun s' _ => sixel_ready s').
Proof.
  intros Hs. unfold _defineColor. step. apply image_rule. step. apply (returns_mono _ _ (fun s' _ => sixel_ready s')).
  - case_match; [|by step]. apply (Forall_switch (fun m => returns m s (fun s' _ => sixel_ready s'))); [|by step].
    apply Forall_cons_2; [|apply Forall_cons_2; [|apply Forall_nil_2]]; by apply color_entry_rule.
  - intros s1 _ Hs1. apply update_step; [done|intros; by apply ready_foreground|done].
Qed.

Lemma apply_rule last s : sixel_ready s -> returns (_applyPendingCommand P clock ColorFromHLS last) s (fun s' _ => sixel_ready s').
Proof.
  intros Hs. unfold _applyPendingCommand. step. apply image_rule. cbn [id]. step. apply update_step; [done|intros; by apply ready_state|]. intros s1 Hs1. case_match.
  - by step.
  - step. apply image_step; [done|by apply raster_rule, Hs1|]. intros s2 _ Hs2. by step.
  - step. apply (returns_mono _ _ _ _ (define_color_rule last _ s1 Hs1)). intros s2 _ Hs2. by step.
  - by step.
Qed.

Lemma with_image_seq3 {X} (m1 m2 m3 : comp Sixel.t unit) (m4 : comp Sixel.t X) s : (with_image m1;; with_image m2;; with_image m3;; with_image m4) s = with_image (m1;; m2;; m3;; m4) s.
Proof.
  unfold with_image, mbind, comp_bind. destruct (m1 (parser s)) as [p1 [[]| | |]]; [|done..]. cbn. destruct (m2 p1) as [p2 [[]| | |]]; [|done..]. cbn.
  by destruct (m3 p2) as [p3 [[]| | |]].
Qed.

Lemma returns_eq {T X} (m m' : comp T X) (x : T) Q : m x = m' x -> returns m' x Q -> returns m x Q.
Proof. unfold returns. by intros ->. Qed.

Lemma next_line_rule last s : sixel_ready s -> returns (_executeNextLine P clock last) s (fun s' _ => sixel_ready s').
Proof.
  intros Hs. unfold _executeNextLine. step. apply image_step; [done|by apply return_rule, Hs|]. intros s1 _ Hs1. step. apply update_step; [done|intros; by apply ready_lineCount|]. intros s2 Hs2.
  step. apply maybe_flush_rule; [done|]. intros s3 Hs3 _. step. apply image_rule. cbn [id]. destruct (Z.ltb_spec 0 (_availablePixelHeight (parser s3))) as [Ha|]; [|by step].
  unfold update. eapply returns_eq; [apply with_image_seq3|]. apply with_image_rule. apply (advance_rule W Hp top); [done..|apply Hs3|done|]. intros p' Hp'. split; [done|apply Hs3].
Qed.

Lemma start_command_rule last state s : sixel_ready s -> returns (start_command P clock ColorFromHLS last state) s (fun s' _ => sixel_ready s').
Proof.
  intros Hs. unfold start_command. step. apply (returns_mono _ _ _ _ (apply_rule last s Hs)). intros s1 _ Hs1. step. apply update_step; [done|intros; by apply ready_state|]. intros s2 Hs2.
  apply update_step; [done|intros; by apply ready_parameters|done].
Qed.

Lemma end_rule last s : sixel_ready s -> returns (end_of_image P clock ColorFromHLS last) s (fun s' _ => sixel_ready s').
Proof.
  intros Hs. unfold end_of_image. step. apply image_rule. step. apply (returns_mono _ _ (fun s' _ => sixel_ready s')).
  - case_match; [|by step]. step. apply (returns_mono _ _ _ _ (apply_rule last s Hs)). intros s1 _ Hs1. by step.
  - intros s1 _ Hs1. step. apply image_step; [done| |].
    + apply (returns_mono _ _ _ _ (background_rule W Hp top HW HH Hint _ (proj1 Hs1))). intros p' _ Hr. by eapply repainted_ready; [apply Hs1|].
    + intros s2 _ Hs2. step. apply image_step; [done|by apply return_rule, Hs2|]. intros s3 _ Hs3. by apply maybe_flush_rule.
Qed.

Lemma character_rule last ch s : sixel_ready s -> returns (_parseCommandChar P clock ColorFromHLS last ch) s (fun s' _ => sixel_ready s').
Proof.
  intros Hs. unfold _parseCommandChar. case_match.
  - step. apply (returns_mono _ _ _ _ (apply_rule last s Hs)). intros s1 n Hs1. apply image_step; [done|by apply write_rule, Hs1|done].
  - case_match; [apply update_step; [done|intros; by apply ready_parameter_char|done]|].
    step. apply image_rule. rewrite (ds_level _ _ _ _ (proj1 (proj1 Hs))).
    apply (Forall_switch (fun m => returns m s (fun s' _ => sixel_ready s'))); [|by step].
    repeat apply Forall_cons_2; [by apply start_command_rule|by apply start_command_rule| | |by step|by apply start_command_rule|by apply end_rule|by apply Forall_nil_2]; cbn [snd].
    + step. apply (returns_mono _ _ _ _ (apply_rule last s Hs)). intros s1 _ Hs1. apply image_step; [done|by apply return_rule, Hs1|done].
    + step. apply (returns_mono _ _ _ _ (apply_rule last s Hs)). intros s1 _ Hs1. by apply next_line_rule.
Qed.

(** The data of an image: its characters, and which of them end a packet. *)
Fixpoint image_data (data : list (bool * wchar)) : comp (SixelState (A := A) (D := D)) bool :=
  match data with
  | [] => mret true
  | (last, ch) :: data => go ← image_character P clock ColorFromHLS last ch; if (go : bool) then image_data data else mret false
  end.

Lemma data_rule data s : sixel_ready s -> returns (image_data data) s (fun s' go => go = true /\ sixel_ready s').
Proof.
  revert s. induction data as [|[last ch] data IH]; intros s Hs; cbn [image_data]; [by step|]. step.
  destruct (character_rule last ch s Hs) as (s1 & [] & E & Hs1). exists s1, true. split; [unfold image_character; by rewrite E|]. by apply IH.
Qed.

(** *** The beginning of an image *)

(** A parser as [DefineSixelImage] makes it, in display mode. *)
Definition displaying (p : Sixel.t) : Prop := _conformanceLevel p = DefaultConformance /\ _cellSize p = size.mk 10 20 /\ _displayMode p = true.

Lemma raster_ratio macroParameter backgroundSelect p : _conformanceLevel p = DefaultConformance ->
  exists ratio required, _initRasterAttributes macroParameter backgroundSelect p =
    set_filledBackgroundHeight None (set_backgroundSize (size.mk CoordTypeMax CoordTypeMax) (set_backgroundFillRequired required
      (set_segmentHeight (6 * ratio) (set_sixelHeight (6 * ratio) (set_pixelAspectRatio ratio p))))) /\ 1 <= ratio <= 5.
Proof.
  intros Hl. unfold _initRasterAttributes. rewrite Hl. cbn [DefaultConformance]. change (9 <? 3) with false. cbv iota. eexists _, _. split; [reflexivity|].
  apply (Forall_switch (fun r => 1 <= r <= 5)); [|lia]. repeat apply Forall_cons_2; try apply Forall_nil_2; cbn; lia.
Qed.

(** What the colours have nothing to do with. *)
Definition recoloured (p p' : Sixel.t) : Prop :=
  (_conformanceLevel p', _cellSize p', _displayMode p', _textCursor p', _pendingTextScrollCount p', _availablePixelWidth p', _availablePixelHeight p') =
  (_conformanceLevel p, _cellSize p, _displayMode p, _textCursor p, _pendingTextScrollCount p, _availablePixelWidth p, _availablePixelHeight p) /\
  (_maxPixelAspectRatio p', _pixelAspectRatio p', _sixelHeight p', _backgroundSize p') = (_maxPixelAspectRatio p, _pixelAspectRatio p, _sixelHeight p, _backgroundSize p).

Lemma color_map_rule color p : returns (_initColorMap color) p (fun p' _ => recoloured p p').
Proof.
  unfold _initColorMap. do 10 step. step. apply returns_gets. cbn [id]. match goal with |- returns _ ?q _ => assert (Hq : recoloured p q) by (split; reflexivity); generalize dependent q end.
  intros q [E1 E2]. step. apply (returns_mono _ _ (fun p' _ => recoloured q p')).
  - destruct (_ && _); [destruct (_ <? _)|].
    + apply returns_bind, returns_modify, returns_modify. by split.
    + apply returns_modify. by split.
    + apply returns_ret. by split.
  - intros q' _ [E3 E4]. apply returns_modify. split; cbn; congruence.
Qed.

Lemma boundaries_rule s (Q : _ -> _ -> Prop) : displaying (parser s) -> screen_ready W Hp top (adapt s) ->
  (forall s' p', p' = parser s' -> screen_ready W Hp top (adapt s') -> displaying p' -> _textCursor p' = point.mk 0 top -> _pendingTextScrollCount p' = 0 ->
     _availablePixelWidth p' = W -> _availablePixelHeight p' = Hp -> _maxPixelAspectRatio p' = Hp ÷ 6 -> Q s' true) ->
  returns (_initTextBufferBoundaries P) s Q.
Proof.
  intros (Hl & Hc & Hm) Hscr HQ. unfold _initTextBufferBoundaries. step. unfold page_of_image. apply with_dispatcher_rule. apply (page_rule P); [apply Hscr|].
  step. apply with_dispatcher_rule. apply width_rule. step. apply image_rule. cbn [id parser]. rewrite Hm, Hc. step.
  pose proof (sr_size _ _ _ _ Hscr) as (EW & EH & Et). do 4 (step; apply update_rule; cbn [parser adapt readings]). step. cbn [size.width size.height].
  do 2 (step; apply update_rule; cbn [parser adapt readings]). set (p1 := set_maxPixelAspectRatio _ _). step. apply with_dispatcher_rule. cbn [adapt].
  apply read_page_rule; [done|done|]. cbn [parser adapt readings]. step. apply update_rule. cbn [parser adapt readings]. step.
  set (p2 := set_textCursorWasVisible _ _). set (s2 := mkSixelState p2 _ _).
  assert (HQ' : forall s', parser s' = p2 -> screen_ready W Hp top (adapt s') -> Q s' true).
  { intros s' Ep Hs'. apply (HQ s' p2); try done.
    - unfold p2, p1. cbn. rewrite Et. done.
    - unfold p2, p1. cbn. unfold Page.Bottom, Page.Top, page_of. cbn. by rewrite EH. }
  case_match; [|step; step; apply HQ'; [done|by destruct s]].
  apply with_dispatcher_rule, (on_cursor_rule P); [apply Hscr|]. intros d' S _. step. apply HQ'; [done|]. by destruct (screen_same _ _ _ _ _ Hscr S).
Qed.

Lemma init_buffer_rule s (Q : _ -> _ -> Prop) : screen_ready W Hp top (adapt s) -> displaying (parser s) -> _textCursor (parser s) = point.mk 0 top ->
  _pendingTextScrollCount (parser s) = 0 -> _availablePixelWidth (parser s) = W -> _availablePixelHeight (parser s) = Hp -> _maxPixelAspectRatio (parser s) = Hp ÷ 6 ->
  1 <= _pixelAspectRatio (parser s) <= 5 -> _sixelHeight (parser s) = 6 * _pixelAspectRatio (parser s) -> _backgroundSize (parser s) = size.mk CoordTypeMax CoordTypeMax ->
  (forall s', sixel_ready s' -> Q s' tt) -> returns (_initImageBuffer clock) s Q.
Proof.
  intros Hscr (Hl & Hc & Hm) Htc Hpend Hw Hh Hmr Hra Hsh Hbg HQ. unfold _initImageBuffer.
  step. apply (update_such (fun p => recoloured (parser s) p /\ _imageBuffer p = [])); [done|]. intros p1 (R1 & B1).
  step. apply (update_such (fun p => recoloured (parser s) p /\ _imageBuffer p = [] /\ _imageOriginCell p = _textCursor p1)); [done|]. intros p2 (R2 & B2 & O2).
  step. apply (update_such (fun p => recoloured (parser s) p /\ _imageBuffer p = [] /\ _imageOriginCell p = _textCursor p1 /\ _imageCursor p = point.mk 0 0)); [done|]. intros p3 (R3 & B3 & O3 & C3).
  step. apply (update_such (fun p => recoloured (parser s) p /\ _imageBuffer p = [] /\ _imageOriginCell p = _textCursor p1 /\ _imageCursor p = point.mk 0 0 /\ _imageWidth p = 0)); [done|].
  intros p4 (R4 & B4 & O4 & C4 & W4).
  step. apply (update_such (fun p => recoloured (parser s) p /\ _imageBuffer p = [] /\ _imageOriginCell p = _textCursor p1 /\ _imageCursor p = point.mk 0 0 /\ _imageWidth p = 0 /\ _imageMaxWidth p = _availablePixelWidth p4)); [done|].
  intros p5 (R5 & B5 & O5 & C5 & W5 & M5).
  step. apply (update_such (fun p => recoloured (parser s) p /\ _imageBuffer p = [] /\ _imageOriginCell p = _textCursor p1 /\ _imageCursor p = point.mk 0 0 /\ _imageWidth p = 0 /\ _imageMaxWidth p = _availablePixelWidth p4)); [done|].
  intros p6 (R6 & Eb & O6 & C6 & W6 & M6). cbn [adapt readings]. step. apply image_rule. cbn [parser].
  unfold recoloured in R1, R4, R6. destruct R1 as [R1 _], R4 as [R4 _], R6 as [R6 R6']. injection R1 as _ _ _ T1 _ _ _. injection R4 as _ _ _ _ _ A4 _. injection R6 as F1 F2 F3 F4 F5 F6 F7. injection R6' as G1 G2 G3 G4.
  assert (Hd1 : drawing_state W Hp top p6).
  { assert (Hmr' : 1 <= Hp ÷ 6 /\ 6 * (Hp ÷ 6) <= tallest Hp) by (unfold tallest; rewrite Z.quot_div_nonneg by lia; Z.to_euclidean_division_equations; lia).
    assert (HM : CoordTypeMax = 2 ^ 31 - 1) by done. assert (HT : 30 <= tallest Hp /\ Hp <= tallest Hp) by (unfold tallest; lia).
    constructor; unfold cursor_x, cursor_y; rewrite ?C6, ?G4, ?Hbg; cbn [point.x point.y size.width size.height]; try congruence; try lia; rewrite ?G1, ?G2, ?G3; try lia. }
  assert (Ey : cursor_y p6 = 0) by (unfold cursor_y; by rewrite C6). assert (Es : _sixelHeight p6 = 6 * _pixelAspectRatio (parser s)) by congruence.
  step. apply with_image_rule. cbn [parser adapt readings].
  apply (resize_rule W Hp top); [done|done|done|exists 0; rewrite Eb; cbn; unfold most_rows, tallest; lia|rewrite Ey, Es; unfold most_rows, tallest; lia|].
  intros l Hl1 _. assert (Hi : ready_image W Hp top (set_imageBuffer l p6)) by (split; [by apply drawing_state_buffer|exact Hl1]). generalize dependent (set_imageBuffer l p6). clear l. intros q _ Hi.
  step. apply update_rule. cbn [parser adapt readings]. step. eexists _, _. split; [reflexivity|]. cbn [parser adapt readings]. step. apply update_rule. cbn [parser adapt readings].
  step. apply image_rule. cbn [parser]. change (_conformanceLevel _) with (_conformanceLevel q). rewrite (ds_level _ _ _ _ (proj1 Hi)). cbn [DefaultConformance]. change (9 <? 3) with false. cbv iota. step.
  apply HQ. split; [|done]. cbn. destruct Hi as [[] Hcov]. split; [by constructor|exact Hcov].
Qed.

Lemma define_rule macroParameter backgroundSelect backgroundColor s : displaying (parser s) -> screen_ready W Hp top (adapt s) ->
  returns (DefineImage P clock macroParameter backgroundSelect backgroundColor) s (fun s' valid => valid = true /\ sixel_ready s').
Proof.
  intros Hdisp Hscr. unfold DefineImage. step. apply boundaries_rule; [done|done|]. intros s1 p1 E1 Hscr1 Hdisp1 Htc Hpend Hw Hh Hmr. step. apply update_rule. rewrite <- E1.
  destruct (raster_ratio macroParameter backgroundSelect p1 (proj1 Hdisp1)) as (ratio & required & -> & Hr). cbn [parser adapt readings]. step. apply with_image_rule. cbn [parser adapt readings].
  apply (returns_mono _ _ _ _ (color_map_rule backgroundColor _)). intros p2 [] [E2 E3]. cbn in E2, E3. injection E2 as F1 F2 F3 F4 F5 F6 F7. injection E3 as G1 G2 G3 G4.
  destruct Hdisp1 as (D1 & D2 & D3). step. apply init_buffer_rule; cbn [parser adapt]; try congruence; try lia; [by split_and!; congruence|].
  intros s3 Hs3. step. apply update_step; [done|intros; by apply ready_state|]. intros s4 Hs4. step. apply update_step; [done|intros; by apply ready_parameters|]. intros s5 Hs5. by step.
Qed.
End Flush.

(** C17: In display mode, sixel images are memory safe and their size is bounded, whatever
    is in them: for any parameters, any data, any division of the data into packets and any times at which it arrives, the
    parser accepts the whole image, reads and writes only inside of its buffer and of the images of the
    rows, and leaves the page intact; the buffer never has more rows of pixels than the page, two
    more lines of sixels and a cell. *)
Theorem sixel_display_bounded (s : SixelState (A := A) (D := D)) (macroParameter backgroundSelect backgroundColor : Z) (data : list (bool * wchar)) :
  let W := _width (buffer (adapt s)) * 10 in
  let Hp := (rect.bottom (viewport (adapt s)) - rect.top (viewport (adapt s))) * 20 in
  displaying (parser s) -> page_ready (adapt s) ->
  (forall y r, rect.top (viewport (adapt s)) <= y < rect.bottom (viewport (adapt s)) -> line (buffer (adapt s)) y = Some r -> image_good r) ->
  most_rows Hp * W <= CoordTypeMax ->
  returns (DefineImage P clock macroParameter backgroundSelect backgroundColor;; image_data data) s (fun s' complete =>
    complete = true /\ page_ready (adapt s') /\
    rect.top (viewport (adapt s')) = rect.top (viewport (adapt s)) /\ rect.bottom (viewport (adapt s')) = rect.bottom (viewport (adapt s)) /\
    Z.of_nat (length (_imageBuffer (parser s'))) <= (Hp + 2 * Z.max 30 Hp + 20) * W).
Proof.
  intros W Hp Hdisp Hr Him Hint. pose proof (ready_viewport _ Hr). pose proof (ready_width _ Hr).
  assert (Hscr : screen_ready W Hp (rect.top (viewport (adapt s))) (adapt s)) by (split; [done|by split_and!|done]).
  assert (HW : 0 < W) by (unfold W; lia). assert (HH : 20 <= Hp) by (unfold Hp; lia).
  step. apply (returns_mono _ _ _ _ (define_rule W Hp _ HW HH Hint macroParameter backgroundSelect backgroundColor s Hdisp Hscr)). intros s1 valid [_ Hs1].
  apply (returns_mono _ _ _ _ (data_rule W Hp _ HW HH Hint data s1 Hs1)). intros s2 go [-> [[Hd Hc] Hscr2]]. split; [done|]. split; [apply Hscr2|].
  destruct (sr_size _ _ _ _ Hscr2) as (_ & E1 & E2). unfold Hp in E1. split; [done|]. split; [lia|].
  destruct Hc as (k & -> & Hk). apply Z.mul_le_mono_nonneg_r; [lia|]. unfold most_rows, tallest in Hk. lia.
Qed.
End Screen.
