(* ===== verification/AdaptSamples.v ===== *)
(** * The dispatcher over the terminal of Windows Terminal

    The terminal keeps the promises that the theorems about the dispatcher rely on; and
    the dispatcher at work on a small terminal. *)

From stdpp Require Import list gmap.
From S2P Require Import Prelude Til Utils VtTypes StateMachine TermDispatch TextAttributes Graphics Rle CodepointWidth CodepointWidthProps Geometry Row RowWrite RowProps RowInvariant Cursor TextBuffer TextBufferProps BufferScroll BufferSamples MacroBuffer Charsets TerminalOutput TerminalInput RenderSettings Pages TerminalCore AdaptDispatch AdaptScreen AdaptAreas AdaptModes AdaptReports AdaptProps AdaptRoundtrips AdaptWriting AdaptTabs.

Local Abbreviation detector := CodepointWidthDetector.
#[local] Instance sample_api : ITerminalApi (Terminal detector) detector := Terminal_api sample_address.

(** ** The terminal keeps the promises *)

Definition sent (e : Event) : list wstring := match e with WriteInput response => [response] | _ => [] end.
Definition terminal_responses (t : Terminal detector) : list wstring := flat_map sent (_events t).

Lemma scroll_notification (t : Terminal detector) : returns _NotifyScrollEvent t (fun t' _ => exists e, sent e = [] /\ t' = set_events (_events t ++ [e]) t).
Proof. unfold _NotifyScrollEvent, callback. repeat step. eexists; split; [|reflexivity]; done. Qed.

Lemma responses_quiet t e : sent e = [] -> terminal_responses (set_events (_events t ++ [e]) t) = terminal_responses t.
Proof. intros He. unfold terminal_responses. cbn. rewrite flat_map_app. cbn. by rewrite He, !app_nil_r. Qed.

Lemma viewport_rect_dimensions x y w h : viewport_rect (Viewport.FromDimensions (point.mk x y) (size.mk w h)) = rect.mk x y (x + w) (y + h).
Proof. unfold viewport_rect, rect.of_inclusive, Viewport.ToInclusive, Viewport.FromDimensions. cbn. f_equal; lia. Qed.

Lemma preserved_scroll delta (t : Terminal detector) : exists o, _PreserveUserScrollOffset delta t = set_scroll o (_selection t) t.
Proof. unfold _PreserveUserScrollOffset. case_match; [by eexists|]. exists (_scrollOffset t). by destruct t. Qed.

#[local] Instance terminal_laws : ITerminalApiLaws (Terminal detector) detector.
Proof.
  refine {| responses := terminal_responses |}.
  - intros b t. unfold view. cbn. unfold _activeBuffer, _GetMutableViewport, _inAltBuffer, put_activeBuffer. by destruct t as [? [] ? ? ? ? ? ? ? ? ? ? ?].
  - intros p t. unfold view. cbn. split_and!; [done|done| |done]. by intros ->.
  - done.
  - done.
  - intros [|u response] t Hn; [done|]. eexists _, tt. split; [reflexivity|]. split_and!; [done|done| |done]. unfold view. cbn. unfold terminal_responses. cbn. by rewrite flat_map_app.
  - intros m enabled t Hin. eexists _, tt. split; [reflexivity|]. split_and!; try done. intros m' Hin'. cbn. unfold GetSystemMode. cbn.
    assert (Hb : forall k, k ∈ [SystemMode.AutoWrap; SystemMode.LineFeed; SystemMode.BracketedPaste] -> 0 <= k < 64) by (intros k Hk; unfold SystemMode.AutoWrap, SystemMode.LineFeed, SystemMode.BracketedPaste in Hk; set_unfold in Hk; lia).
    by rewrite enumset.test_set by auto.
  - intros p t Hm. cbn in Hm. apply negb_true_iff in Hm. cbn. unfold SetViewportPosition. do 2 step. cbn [id]. rewrite Hm. do 3 step. step.
    set (t1 := set_viewport _ _ _). set (d := _ - _). destruct (preserved_scroll d t1) as [o ->]. apply (returns_mono _ _ _ _ (scroll_notification _)). intros t2 [] (e & He & ->).
    unfold _inAltBuffer in Hm. destruct t as [main [alt|] v sz o' sel sm ti rs pr sh se ev]; [done|]. split_and!; [done|done| |done].
    unfold view. cbn [visibleViewport isMainBuffer terminalInput renderSettings process sample_api Terminal_api]. change (terminal_responses (set_events _ _)) with (terminal_responses (set_events (_events t1 ++ [e]) t1)).
    rewrite responses_quiet by done. unfold t1, _GetMutableViewport, _inAltBuffer, _activeBuffer. cbn [_altBuffer set_events set_scroll set_viewport _mutableViewport negb _mainBuffer default].
    unfold Viewport.Dimensions. rewrite viewport_rect_dimensions. rewrite GetSize_width, GetSize_height.
    destruct v. reflexivity.
  - intros delta t. cbn. unfold NotifyBufferRotation. do 6 step.
    destruct (preserved_scroll delta (set_scroll (_scrollOffset t) (rotated_selection delta (_selection t)) t)) as [o ->]. set (t1 := set_scroll o _ _).
    assert (E : visibleBuffer t1 = visibleBuffer t /\ process t1 = process t /\ view terminal_responses t1 = view terminal_responses t /\ forall m, api_GetSystemMode m t1 = api_GetSystemMode m t) by done.
    do 2 step. cbn [id]. case_match; [|by step]. apply (returns_mono _ _ _ _ (scroll_notification _)). intros t2 [] (e & He & ->). unfold view. cbn [visibleViewport isMainBuffer terminalInput renderSettings process sample_api Terminal_api]. by rewrite responses_quiet.
Defined.

(** ** A small terminal *)

Definition sample_platform : Platform := mkPlatform true (fun _ => 0) sample_address sample_size 64 1 sample_order.
Definition sample_settings : CoreSettings := mkSettings (wide "answer") false None 0 true true false.

Lemma created_ready memory settings p w h scrollback : 2 <= w < 0x8000 -> 1 <= h -> 0 <= scrollback -> h + scrollback <= SHRT_MAX -> measure_ok (singleton p) ->
  exists t, Create sample_address memory settings p (size.mk w h) scrollback = Some t /\ terminal_responses t = [] /\ page_ready (CB := MacroCallback) (new_AdaptDispatch t).
Proof.
  intros Hw Hh Hs Hm Hd. unfold Create, ClampToShortMax. unfold SHRT_MAX in *. cbn [size.width size.height]. rewrite clamp_spec, Z.min_l, Z.max_r by lia.
  destruct (new_buffer_good sample_address w (h + scrollback) TextAttribute.default 12 true (s_lastMutationIdInitialValue p) (singleton p) (heap p)) as (b & -> & Hg & _ & Ew & Eh & _); [lia..|done|].
  eexists. split; [reflexivity|]. split; [done|]. split; cbn.
  - right. done.
  - destruct Hg as [[H1 H2 H3 H4 H5] Hd']. split; [by split|done].
  - rewrite Eh. lia.
  - rewrite Ew. lia.
  - rewrite Ew. lia.
  - done.
Qed.

(** Ten columns and four lines, with six lines of history. *)
Definition starts (t : Terminal detector) : Prop := Create sample_address (repeat 0 256) sample_settings (mkProcess new_Detector 0 0) (size.mk 10 4) 6 = Some t.
Local Abbreviation dispatcher t := (new_AdaptDispatch (CB := MacroCallback) t).
Lemma sample_starts : exists t, starts t /\ terminal_responses t = [] /\ page_ready (dispatcher t).
Proof. apply created_ready; [lia..| | |exact new_Detector_ok]; unfold SHRT_MAX; lia. Qed.

Lemma sample_widths t y : starts t -> y ∈ [0; 1; 2; 3] -> line_width_at sample_platform (buffer (dispatcher t)) y = 10.
Proof. intros Hs Hy. vm_compute in Hs. injection Hs as <-. set_unfold in Hy. destruct Hy as [-> |[-> |[-> |[-> |[]]]]]; vm_compute; reflexivity. Qed.

Lemma cursor_stays_on_page_witness : exists t, starts t /\
  returns (_CursorMovePosition sample_platform (Offset.Forward 9) (Offset.Absolute 77) true) (dispatcher t) (fun s' _ => 0 <= point.y (cursor s') < 4 /\ 0 <= point.x (cursor s') < 10).
Proof.
  destruct sample_starts as (t & Hs & _ & Hr). exists t. split; [exact Hs|].
  apply (returns_mono _ _ _ _ (cursor_stays_on_page sample_platform (Offset.Forward 9) (Offset.Absolute 77) true (dispatcher t) Hr)).
  intros s' x (Hsame & _ & Hy & Hx & _). destruct (same_rest_viewport _ _ (screen_rest _ _ _ Hsame)) as [Ev _]. rewrite Ev in Hy. assert (Ev' : viewport (dispatcher t) = rect.mk 0 0 10 4) by (vm_compute in Hs; injection Hs as <-; reflexivity).
  rewrite Ev' in Hy. cbn in Hy. rewrite (line_width_same _ _ _ _ Hsame), (sample_widths t _ Hs) in Hx by (set_unfold; lia). lia.
Defined.

Lemma saved_cursor_restored_witness : exists t, starts t /\
  returns (CursorSaveState sample_platform) (dispatcher t) (fun s1 _ => returns (CursorRestoreState sample_platform) s1 (fun s2 _ => relative s2 = point.mk 1 1)).
Proof.
  destruct sample_starts as (t & Hs & He & Hr). exists t. split; [exact Hs|]. destruct (saved_cursor_restored sample_platform (dispatcher t) Hr eq_refl) as (s1 & x & E & B & Hs2). exists s1, x. split; [exact E|].
  vm_compute in Hs. injection Hs as <-. vm_compute in E. injection E as <- <-. set (s1 := mkAdapt _ _ _ _ _ _ _ _ _ _ _ _ _) in *. destruct Hr as [Hv Hg Hp Hq Hw Hm].
  assert (Hr1 : page_ready s1) by (split; rewrite ?B; done). apply (returns_mono _ _ _ _ (Hs2 s1 Hr1 eq_refl eq_refl eq_refl ltac:(vm_compute; repeat split; discriminate))). intros s3 y (_ & -> & _). vm_compute. reflexivity.
Defined.

Lemma modes_are_reported_witness : exists t, starts t /\
  returns (SetMode sample_platform ModeParams.XTERM_BracketedPasteMode;; RequestMode sample_platform (fun _ => true) ModeParams.XTERM_BracketedPasteMode false) (dispatcher t) (fun s' _ =>
    responses (terminal s') = [[0x1B; 0x5B] ++ wide "?2004;1$y"]).
Proof.
  destruct sample_starts as (t & Hs & He & Hr). exists t. split; [exact Hs|].
  assert (Hin : ModeParams.XTERM_BracketedPasteMode ∈ reportable_modes) by (apply (bool_decide_unpack _); by vm_compute).
  pose proof (modes_are_reported sample_platform (fun _ => true) ModeParams.XTERM_BracketedPasteMode true false (dispatcher t) Hr Hin) as H.
  vm_compute in Hs. injection Hs as <-. exact H.
Defined.

Lemma text_is_printed_witness : exists t, starts t /\
  returns (PrintString sample_platform (wide "hello")) (dispatcher t) (fun s' _ => cursor s' = point.mk 5 0).
Proof.
  destruct sample_starts as (t & Hs & He & Hr). exists t. split; [exact Hs|]. destruct (line_Some true (fun _ => 0) sample_size (buffer (dispatcher t)) 0 (ready_buffer _ Hr)) as [r Hl].
  assert (Hw : writable 5 r). { vm_compute in Hs. injection Hs as <-. vm_compute in Hl. injection Hl as <-. split; [done|]. exists 10. split; [vm_compute; reflexivity|vm_compute; reflexivity]. }
  assert (Hc : cursor (dispatcher t) = point.mk 0 0 /\ viewport (dispatcher t) = rect.mk 0 0 10 4 /\ limit_of sample_platform (dispatcher t) = 10) by (vm_compute in Hs; injection Hs as <-; vm_compute; done). destruct Hc as (Hc & Hv & Hlim).
  assert (Hd : Cursor.GetDelayEOLWrap (_cursor (buffer (dispatcher t))) = None) by (vm_compute in Hs; injection Hs as <-; reflexivity).
  pose proof (text_is_printed sample_platform (wide "hello") (make_TerminalOutput false) (wide "hello") (dispatcher t) r Hr) as H. rewrite Hc, Hv, Hlim in H.
  apply (returns_mono _ _ _ _ (H ltac:(cbn; lia) ltac:(cbn; lia) eq_refl Hd eq_refl ltac:(discriminate) ltac:(repeat constructor; cbn; lia) ltac:(cbn; lia) Hl Hw)).
  intros s' x (_ & _ & _ & _ & Ec & _). rewrite Ec. change (cursor (set_termOutput _ (dispatcher t))) with (cursor (dispatcher t)). rewrite Hc. reflexivity.
Defined.

(** A line feed on the last of four lines, with six more in the buffer. *)
Definition to_last_line (s : AdaptDispatch (Terminal detector) detector MacroCallback) : AdaptDispatch (Terminal detector) detector MacroCallback :=
  put_terminal (put_visibleBuffer (TextBuffer.set_cursor (Cursor.SetPosition (point.mk 2 3) (_cursor (buffer s))) (buffer s)) (terminal s)) s.
Lemma line_feed_scrolls_witness : exists t, starts t /\
  returns (LineFeed sample_platform DispatchTypes.LineFeedType.WithReturn) (to_last_line (dispatcher t)) (fun s' _ => page_height s' = 4 /\ cursor s' = point.mk 0 (rect.bottom (viewport s') - 1) /\ rect.top (viewport s') = 1).
Proof.
  destruct sample_starts as (t & Hs & _ & Hr). exists t. split; [exact Hs|].
  assert (Hl : page_ready (to_last_line (dispatcher t)) /\ at_bottom (to_last_line (dispatcher t)) /\ viewport (to_last_line (dispatcher t)) = rect.mk 0 0 10 4 /\ _height (buffer (to_last_line (dispatcher t))) = 10).
  { vm_compute in Hs. injection Hs as <-. destruct Hr as [Hv [[K1 K2 K3 K4 K5] K6] Hp Hq Hw Hm]. split; [split; try done; try (split; [by split|done])|]. split; [|done]. vm_compute. repeat split; try discriminate. by left. }
  destruct Hl as (Hl & Hb & Hv & Hh).
  apply (returns_mono _ _ _ _ (line_feed_scrolls sample_platform DispatchTypes.LineFeedType.WithReturn (to_last_line (dispatcher t)) Hl Hb ltac:(set_solver))).
  intros s' x (_ & Eh & _ & Ec & Ht). unfold page_height in *. rewrite Hv, Hh in *. cbn in *. split; [exact Eh|]. split; [exact Ec|]. by apply Ht.
Defined.

Lemma tabs_go_to_stops_witness : exists t, starts t /\
  returns (ForwardTab sample_platform 1) (dispatcher t) (fun s' _ => cursor s' = point.mk 8 0) /\ returns (BackwardsTab sample_platform 3) (dispatcher t) (fun s' _ => cursor s' = point.mk 0 0).
Proof.
  destruct sample_starts as (t & Hs & _ & Hr). exists t. split; [exact Hs|]. pose proof (sample_widths t 0 Hs ltac:(set_solver)) as Hw.
  assert (Hc : cursor (dispatcher t) = point.mk 0 0 /\ _width (buffer (dispatcher t)) = 10) by (vm_compute in Hs; injection Hs as <-; done). destruct Hc as [Hc Hwd].
  pose proof (tabs_go_to_stops sample_platform 1 (dispatcher t) Hr) as H1. pose proof (tabs_go_to_stops sample_platform 3 (dispatcher t) Hr) as H2. rewrite Hc, Hwd in H1, H2.
  destruct (H1 ltac:(cbn; lia) Hw ltac:(lia)) as [F1 _]. destruct (H2 ltac:(cbn; lia) Hw ltac:(lia)) as [_ F2]. clear H1 H2. vm_compute in Hs. injection Hs as <-. split.
  - apply (returns_mono _ _ _ _ (F1 eq_refl)). intros s' x (_ & -> & _). vm_compute. reflexivity.
  - apply (returns_mono _ _ _ _ F2). intros s' x (_ & ->). vm_compute. reflexivity.
Defined.

Lemma screen_stays_in_order_witness : exists t, starts t /\ returns (apply_screen sample_platform (SetsTopBottom 2 3)) (dispatcher t) (fun s' _ => screen_ok sample_platform s').
Proof.
  destruct sample_starts as (t & Hs & _ & Hr). exists t. split; [exact Hs|]. apply (screen_stays_in_order sample_platform (SetsTopBottom 2 3) (dispatcher t)); [|cbn; lia].
  split; [exact Hr|vm_compute in Hs; injection Hs as <-; vm_compute; repeat split; discriminate..].
Defined.

(** ** Departures *)

(** What is left of a run on the sample terminal, and how it ended. *)
Definition observe_on {X Y} (w h : Z) (m : comp (AdaptDispatch (Terminal detector) detector MacroCallback) X) (f : AdaptDispatch (Terminal detector) detector MacroCallback -> Y) : option (Y * outcome unit) :=
  match Create sample_address (repeat 0 256) sample_settings (mkProcess new_Detector 0 0) (size.mk w h) 6 with
  | Some t => let '(s, o) := m (dispatcher t) in Some (f s, match o with Returned _ => Returned tt | Threw => Threw | Undefined => Undefined | OutOfFuel => OutOfFuel end)
  | None => None
  end.
Definition observe {X Y} := @observe_on X Y 10 4.
Definition answers (s : AdaptDispatch (Terminal detector) detector MacroCallback) : list wstring := terminal_responses (terminal s).
Definition P := sample_platform.

(** A digit 9 is dropped from the parameter of a request for a setting: 19 counts as 1. *)
Definition ask_setting (request : string) : comp (AdaptDispatch (Terminal detector) detector MacroCallback) unit :=
  h ← RequestSetting; match h with Some h => feed_handler P (fun _ _ _ => 0) h (wide request);; mret tt | None => mret tt end.
Lemma nine_is_dropped : observe (ask_setting "19,|") answers = observe (ask_setting "1,|") answers /\ observe (ask_setting "18,|") answers <> observe (ask_setting "1,|") answers.
Proof. vm_compute. split; [reflexivity|discriminate]. Qed.

(** Tabs in the last column stay on the line. *)
Lemma tab_in_last_column_stays : observe (CursorPosition P 1 10;; ForwardTab P 1) cursor = Some (point.mk 9 0, Returned tt).
Proof. vm_compute. reflexivity. Qed.

(** A double-width line that scrolls under the cursor has fewer columns than the cursor
    needs: a backward tab reads behind the end of the tab stops. *)
Definition double_width_below (column : Z) : comp (AdaptDispatch (Terminal detector) detector MacroCallback) unit :=
  CursorPosition P 2 1;; SetLineRendition P LineRendition.DoubleWidth;; CursorPosition P 1 column;; ScrollUp P 1.
Lemma backward_tab_reads_beyond : option_map snd (observe (double_width_below 9;; BackwardsTab P 1) cursor) = Some Undefined /\ option_map snd (observe (double_width_below 5;; BackwardsTab P 1) cursor) = Some (Returned tt).
Proof. vm_compute. split; reflexivity. Qed.

(** On a page of one column a double-width line has no columns: the cursor goes to column
    -1 there. *)
Lemma cursor_left_of_page : observe_on 1 4 (CursorPosition P 1 1;; SetLineRendition P LineRendition.DoubleWidth;; CursorPosition P 1 1) cursor = Some (point.mk (-1) 0, Returned tt).
Proof. vm_compute. reflexivity. Qed.

(** A full reset keeps the cursor that was saved on the alternate screen, and the saved
    renditions. *)
Lemma reset_keeps_saved_state :
  observe (SetMode P ModeParams.ASB_AlternateScreenBuffer;; CursorPosition P 3 4;; CursorSaveState P;; PushGraphicsRendition P (VTParameters.of_params []);; HardReset P true)
    (fun s => (saved_Row <$> _savedCursorState s !! 1%nat, SgrStack._numSavedAttrs (_stack s))) = Some ((Some 3, 1%nat), Returned tt).
Proof. vm_compute. reflexivity. Qed.

(** Scrolling up between left and right margins: a wide glyph across the left margin is
    written as a whole, also to the column outside, where the a was. *)
Definition row_text (y : Z) (s : AdaptDispatch (Terminal detector) detector MacroCallback) : option wstring := r ← line true (fun _ => 0) sample_size (buffer s) y; GetText r.
Lemma scrolling_writes_outside_margins :
  observe (PrintString P (wide "abcd");; CursorPosition P 2 1;; PrintString P [0x6F22; 0x6F22];; SetMode P ModeParams.DECLRMM_LeftRightMarginMode;; SetLeftRightScrollingMargins P 2 10;; ScrollUp P 1) (row_text 0)
  = Some (Some ([0x6F22; 0x6F22] ++ wide "      "), Returned tt).
Proof. vm_compute. reflexivity. Qed.
