(* ===== verification/WholeTerminal.v ===== *)
(** * The whole terminal

    The parser, the output engine, the dispatcher and a terminal put together, the way
    [Terminal::Create] and [Terminal::Write] do it: what a program writes is what the
    screen shows. *)

From stdpp Require Import list gmap.
From S2P Require Import Prelude Til Utils UtilsProps VtTypes Chars StateMachine ParserSyntax ActionCodes TermDispatch OutputEngine TextAttributes Graphics Rle CodepointWidth CodepointWidthProps Geometry Row RowWrite RowProps RowInvariant Cursor TextBuffer TextBufferProps BufferScroll BufferSamples MacroBuffer FontBuffer Charsets TerminalOutput TerminalInput RenderSettings Pages TerminalCore AdaptDispatch AdaptScreen AdaptModes AdaptReports SixelParser AdaptShell AdaptProps AdaptRoundtrips AdaptWriting AdaptSamples FontProps SixelProps.

Section Sessions.
Context {A D : Type} `{MeasurementLaws D} `{!ITerminalApi A D} `{!ITerminalApiLaws A D} `{!U8U16}.
Variable P : Platform.
Variable Feature_ScrollbarMarks Feature_ShellCompletions Feature_VtChecksumReport : bool.
Variable PathCreateFromUrl : wstring -> option wstring.
Variable graphemes : D -> bool.
Variable ColorToHLS : Z -> Z * Z * Z.
Variable ColorFromHLS : Z -> Z -> Z -> Z.
Variable clock : nat -> Z.
Variable font_memory : Font.t.
Local Abbreviation W := (Whole (A := A) (D := D)).
#[local] Instance whole_dispatch : TermDispatch W WholeHandler MacroCallback :=
  AdaptDispatch_TermDispatch P Feature_ScrollbarMarks Feature_ShellCompletions PathCreateFromUrl graphemes ColorToHLS ColorFromHLS Feature_VtChecksumReport clock font_memory.
Local Abbreviation whole_invoke := (whole_invoke P Feature_ScrollbarMarks Feature_ShellCompletions PathCreateFromUrl graphemes ColorToHLS Feature_VtChecksumReport).
Local Abbreviation Machine := (StateMachine (OutputStateMachineEngine W) WholeHandler MacroCallback).
Implicit Types (s : Machine) (w : W).

Definition whole_of s : W := _dispatch (_engine s).
Definition adapt_of s : AdaptDispatch A D MacroCallback := whole_adapt (whole_of s).

(** Between two commands. *)
Record idle s : Prop := {
  idle_ground : StateMachine._state (sm_parser s) = Ground;
  idle_ansi : GetParserMode Ansi s = true;
  idle_callback : _onCsiCompleteCallback (sm_conf s) = None;
  idle_defined : whole_undefined (whole_of s) = false
}.

(** What a method of the dispatcher starts from. *)
Definition entered w : W := mkWhole (set_requests [] (whole_adapt w)) (whole_sixel w) (whole_font w) (whole_readings w) false.
(** It asked nothing of the parser. *)
Definition quiet w : Prop := _requests (whole_adapt w) = [] /\ whole_undefined w = false.

Lemma replies_quiet (m : comp W unit) w w' : whole_undefined w = false -> m (entered w) = (w', Returned tt) -> quiet w' -> replies m w = mkReply w' [] (Some tt).
Proof. intros Hu E [Hq _]. unfold replies. rewrite Hu. unfold entered in E. rewrite E. by rewrite Hq. Qed.

Lemma on_adapt_rule {X} (m : comp (AdaptDispatch A D MacroCallback) X) w (Q : _ -> _ -> Prop) :
  returns m (whole_adapt w) (fun a x => Q (mkWhole a (whole_sixel w) (whole_font w) (whole_readings w) (whole_undefined w)) x) -> returns (on_adapt m) w Q.
Proof. intros (a & x & E & HQ). eexists _, x. split; [|exact HQ]. unfold on_adapt. by rewrite E. Qed.

(** ** One command *)

(** A control sequence that stands for one method runs it. *)
Lemma csi_runs depth c (m : ITermDispatch.Call) s (Q : Machine -> unit -> Prop) : csi_wf c -> Forall is_wchar (render_csi c) -> idle s ->
  VTParameters.hasSubParams (csi_parameters c) = false ->
  switch (csi_id c) (csi_cases (csi_parameters c)) call_UnknownSequence = call m ->
  returns (whole_invoke m true) (entered (whole_of s)) (fun w _ => quiet w /\ forall s', idle s' -> whole_of s' = w -> Q s' tt) ->
  returns (ProcessString (S depth) (render_csi c)) s Q.
Proof.
  intros Hwf Hc [Hst Ha Hcb Hu] Hsub Hsw (w & [] & E & Hq & HQ). destruct (ProcessString_csi depth c s Hwf Hc Hst Ha) as [p' Hp].
  set (r := set_cachedSequence None (StateMachine.mkRun (render_csi c) 0 (length (render_csi c)) (_cachedSequence (sm_run s)) [] true)).
  set (s' := mkStateMachine (mkOutputEngine w AsciiChars.NUL) (sm_conf s) (set_state Ground p') r).
  exists s', tt. split.
  - rewrite Hp. set (f := at_final _ _ _). unfold mbind at 1, comp_bind at 1. unfold execute, _SafeExecute, SafeExecute_with, mbind at 1, comp_bind at 1, engine_call, apply_reply.
    change (ActionCsiDispatch (csi_id c) (csi_parameters c)) with (engine_ActionCsiDispatch (csi_id c) (csi_parameters c)). unfold engine_ActionCsiDispatch. rewrite Hsub, Hsw. cbn [andb].
    assert (Ev : view_Ansi (StateMachine.view f) = true) by exact Ha.
    assert (Er : invoke (TermDispatch := whole_dispatch) m (StateMachine.view f) (_dispatch (_engine f)) = mkReply w [] (Some tt)) by (cbn [invoke whole_dispatch AdaptDispatch_TermDispatch]; rewrite Ev; by apply replies_quiet).
    unfold call, dispatched, mbind, engineM_bind. cbv beta zeta. rewrite Er. unfold _EnterGround, enter, modify_parser, reset_cachedSequence, modify_run, modify, _ExecuteCsiCompleteCallback, finish_string, with_parser, gets, f, at_final, mbind, comp_bind. cbn. by rewrite Hcb.
  - apply HQ; [|done]. split; [done|exact Ha|exact Hcb|apply Hq].
Qed.

Lemma plainSearch_all (str : wstring) : Forall (fun c => 0x20 <= c < 0x7F) str -> plainSearch str = length str.
Proof. induction 1 as [|c l Hc Hl IH]; [done|]. cbn [plainSearch length]. rewrite isActionable_range by (unfold is_wchar; lia). destruct (Z.leb_spec c 0x1f), (Z.leb_spec 0x7f c); try lia. cbn [orb andb]. by rewrite IH. Qed.

Lemma process_loop_round {E G CB} `{IStateMachineEngine E G CB} nested k str rest : rest <> [] ->
  process_loop nested (S k) str rest = (print_run (length str - length rest) (FindActionableControlCharacter rest);; vt_start nested (process_loop nested k str) (drop (FindActionableControlCharacter rest) rest)).
Proof. by destruct rest. Qed.

(** Printable ASCII between two commands is printed in one go. *)
Lemma text_runs depth (str : wstring) s (Q : Machine -> unit -> Prop) : str <> [] -> Forall (fun c => 0x20 <= c < 0x7F) str -> idle s ->
  returns (whole_invoke (ITermDispatch.PrintString str) true) (entered (whole_of s)) (fun w _ => quiet w /\ forall s', idle s' -> whole_of s' = w -> Q s' tt) ->
  returns (ProcessString (S depth) str) s Q.
Proof.
  intros Hne Hc [Hst Ha Hcb Hu] (w & [] & E & Hq & HQ). destruct (last str) as [wch|] eqn:El; [|by apply last_None in El].
  assert (Hl : AsciiChars.SPC <= wch) by (apply last_Some_elem_of in El; rewrite Forall_forall in Hc; specialize (Hc _ El); unfold AsciiChars.SPC; lia).
  assert (Hn : FindActionableControlCharacter str = length str). { rewrite FindActionable_plainSearch; [by apply plainSearch_all|]. eapply Forall_impl; [exact Hc|]. unfold is_wchar. cbv beta. lia. }
  set (r := StateMachine.mkRun str (length str) 0 (_cachedSequence (sm_run s)) [] (_processingLastCharacter (sm_run s))).
  set (s' := mkStateMachine (mkOutputEngine w wch) (sm_conf s) (sm_parser s) r). exists s', tt. split.
  - cbn [ProcessString]. unfold ProcessString_body, process_current, with_parser, modify_run, modify, gets. unfold mbind, comp_bind. cbn [set_run sm_parser sm_run]. rewrite Hst, decide_True by done.
    destruct (length str) as [|k] eqn:Ek; [by apply nil_length_inv in Ek|]. rewrite process_loop_round by done. rewrite Hn, Nat.sub_diag, (drop_ge str) by lia. unfold print_run. rewrite decide_False by done. unfold modify_run, modify, _CurrentRun, _ActionPrintString, execute, _SafeExecute, SafeExecute_with, engine_call, apply_reply.
    change (ActionPrintString) with (engine_ActionPrintString (D := W) (CB := MacroCallback) (H := WholeHandler)).
    unfold mbind, comp_bind. cbn [set_run sm_run _runOffset _currentString _runSize set_runSize set_runOffset Nat.leb drop]. rewrite drop_0, (take_ge str (S k)) by lia.
    unfold engine_ActionPrintString. rewrite El. unfold stash_lastPrintedChar. rewrite (proj2 (Z.leb_le _ _) Hl). unfold set_lastPrintedChar, call, dispatched, mbind, engineM_bind. cbv beta zeta. cbn [reply_value reply_requests reply_engine _dispatch fold_left].
    match goal with |- context [invoke ?m ?v ?d] => assert (Er : invoke (TermDispatch := whole_dispatch) m v d = mkReply w [] (Some tt)) end.
    { cbn [invoke whole_dispatch AdaptDispatch_TermDispatch]. change (view_Ansi _) with (GetParserMode Ansi s). rewrite Ha. by apply replies_quiet. }
    rewrite Er. cbn. unfold finish_string, with_parser, gets, mbind, comp_bind. cbn. by rewrite Hst.
  - apply HQ; [|done]. split; [done|exact Ha|exact Hcb|apply Hq].
Qed.

(** ** A session *)

Local Abbreviation line := (TextBufferProps.line (avx2 P) (uninitialised P) (rowSize P)).
Definition argument (v : Z) : CsiArgument := mkCsiArgument (Some v) [].
(** CUP and DSR, as programs write them. *)
Definition cup (l c : Z) : Csi := mkCsi None [argument l; argument c] [] 0x48.
Definition dsr_position : Csi := mkCsi None [argument 6] [] 0x6E.

Lemma decimal_wchars n v : 0 <= v -> Forall is_wchar (decimal n v).
Proof.
  intros Hv. eapply Forall_impl; [by apply decimal_digits|]. intros c Hc. unfold _isNumericParamValue in Hc. unfold is_wchar. lia.
Qed.

Lemma argument_ok v : 0 <= v <= MAX_PARAMETER_VALUE -> argument_wf (argument v).
Proof. intros Hv. split; [exact Hv|]. split; [by apply Forall_nil_2|]. cbn. unfold MAX_SUBPARAMETER_COUNT. lia. Qed.

Lemma cup_wf l c : 0 <= l <= MAX_PARAMETER_VALUE -> 0 <= c <= MAX_PARAMETER_VALUE -> csi_wf (cup l c) /\ Forall is_wchar (render_csi (cup l c)).
Proof.
  intros Hl Hc. split.
  - split; try done; cbn; [|unfold MAX_PARAMETER_COUNT; lia|lia]. by repeat constructor; apply argument_ok.
  - change (Forall is_wchar ([AsciiChars.ESC; 0x5B] ++ [] ++ ((decimal 5 l ++ []) ++ [0x3B] ++ (decimal 5 c ++ []) ++ []) ++ [] ++ [0x48])).
    repeat (apply Forall_app; split); try apply Forall_nil_2; try (apply decimal_wchars; lia); repeat constructor; unfold AsciiChars.ESC; lia.
Qed.

Lemma entered_ready w : page_ready (whole_adapt w) -> page_ready (whole_adapt (entered w)).
Proof. intros [Hv Hg Hp Hq Hw Hm]. by split. Qed.

Lemma cup_runs depth l c s (Q : Machine -> unit -> Prop) : idle s -> 1 <= l <= MAX_PARAMETER_VALUE -> 1 <= c <= MAX_PARAMETER_VALUE -> page_ready (adapt_of s) -> addressable P (adapt_of s) l c ->
  (forall s', idle s' -> same_screen P (set_requests [] (adapt_of s)) (adapt_of s') -> _cursor (buffer (adapt_of s')) = Cursor.SetPosition (absolute (adapt_of s) l c) (_cursor (buffer (adapt_of s))) -> Q s' tt) ->
  returns (ProcessString (S depth) (render_csi (cup l c))) s Q.
Proof.
  intros Hi Hl Hc Hr Ha HQ. destruct (cup_wf l c) as [Hwf Hch]; [lia..|]. apply (csi_runs depth (cup l c) (ITermDispatch.CursorPosition (int_at (csi_parameters (cup l c)) 0) (int_at (csi_parameters (cup l c)) 1))); [done|done|done|reflexivity|reflexivity|].
  assert (El : forall v, 1 <= v -> VTParameter.to_VTInt v = v) by (intros v Hv; unfold VTParameter.to_VTInt; destruct (Z.leb_spec v 0); lia).
  change (int_at _ 0) with (VTParameter.to_VTInt l). change (int_at _ 1) with (VTParameter.to_VTInt c). rewrite !El by lia. cbn [AdaptShell.whole_invoke adapt_invoke]. apply on_adapt_rule. apply entered_ready in Hr.
  apply move_rule; [exact Hr|]. intros a S C. split; [split; [by destruct (screen_rest _ _ _ S) as [_ _ _ O]; injection O|done]|].
  intros s' Hi' Ew. apply HQ; [done|unfold adapt_of; by rewrite Ew|]. unfold adapt_of. rewrite Ew. cbn [whole_adapt]. rewrite C. by rewrite (target_absolute P _ l c Hr Ha).
Qed.

Lemma position_runs depth s (Q : Machine -> unit -> Prop) : idle s -> page_ready (adapt_of s) ->
  (forall s' a1, idle s' -> same_screen P (set_requests [] (adapt_of s)) a1 -> buffer a1 = buffer (adapt_of s) ->
     answered (csi (adapt_of s) ++ numbers [point.y (relative (adapt_of s)); point.x (relative (adapt_of s))] ++ wide "R") a1 (adapt_of s') -> Q s' tt) ->
  returns (ProcessString (S depth) (render_csi dsr_position)) s Q.
Proof.
  intros Hi Hr HQ. apply (csi_runs depth dsr_position (ITermDispatch.DeviceStatusReport 6 (VTParameters.at_ (csi_parameters dsr_position) 1))); [split; try done; cbn; [|unfold MAX_PARAMETER_COUNT; lia|lia]; apply Forall_singleton, argument_ok; unfold MAX_PARAMETER_VALUE; lia
    |cbn; unfold is_wchar; apply (bool_decide_unpack _); by vm_compute|done|reflexivity|reflexivity|].
  cbn [AdaptShell.whole_invoke adapt_invoke]. apply on_adapt_rule. apply entered_ready in Hr.
  change (DeviceStatusReport P 6 _) with (_CursorPositionReport (A := A) (D := D) P false). apply (position_report_rule P false (whole_adapt (entered (whole_of s)))); [done|done|]. intros a1 a S1 B1 Ha. split.
  - split; [|done]. cbn [whole_adapt]. rewrite (answered_own _ _ _ Ha). by destruct (screen_rest _ _ _ S1) as [_ _ _ O]; injection O.
  - intros s' Hi' Ew. apply (HQ s' a1); [done|done|done|]. unfold adapt_of at 4. rewrite Ew. exact Ha.
Qed.

Lemma text_shown depth (str : wstring) t' translated s r (Q : Machine -> unit -> Prop) : idle s -> let a := adapt_of s in page_ready a ->
  rect.top (viewport a) <= point.y (cursor a) < rect.bottom (viewport a) -> 0 <= point.x (cursor a) -> mode AdaptMode.InsertReplace a = false -> Cursor.GetDelayEOLWrap (_cursor (buffer a)) = None ->
  str <> [] -> Forall (fun c => 0x20 <= c < 0x7F) str -> printed_text str (_termOutput a) = (t', Returned translated) -> translated <> [] -> plain translated ->
  point.x (cursor a) + Z.of_nat (length translated) <= limit_of P a -> line (buffer a) (point.y (cursor a)) = Some r -> writable (length translated) r ->
  (forall s', idle s' -> printed P translated (limit_of P a) r (set_termOutput t' (set_requests [] a)) (adapt_of s') -> Q s' tt) -> returns (ProcessString (S depth) str) s Q.
Proof.
  intros Hi a Hr Hy Hx Hm Hd Hne Hs Ht Htn Hp Hf Hl Hw HQ. apply text_runs; [done|done|done|]. cbn [AdaptShell.whole_invoke adapt_invoke]. apply on_adapt_rule.
  unfold PrintString. step. exists (set_termOutput t' (set_requests [] a)), translated. split; [unfold charsets; match goal with |- context [printed_text str ?x] => change x with (_termOutput a) end; by rewrite Ht|].
  refine (returns_mono _ _ _ _ (write_plain P translated (set_termOutput t' (set_requests [] a)) r _ _ _ _ _ _ _ _ _ _) _); try done; [by destruct Hr; split|].
  intros a' [] Ha'. split; [split; [by destruct Ha' as [[_ _ _ O] _]; injection O|done]|]. intros s' Hi' Ew. apply HQ; [done|]. unfold adapt_of. rewrite Ew. exact Ha'.
Qed.

(** C13: What a program writes is what the terminal shows, through all of its parts: from
    the parser between two commands, the string [ESC [ l ; c H], printable text that
    fits on the line, and the question [ESC [ 6 n] leave the text, as the charsets in
    use translate it, on line l from column c on, in the current renditions; every other
    line as it was; an answer that says where the text ends; and the parser ready for
    the next command. *)
Theorem session_shows_text depth l c str t' translated s r : let a := adapt_of s in let p := absolute a l c in
  idle s -> page_ready a -> 1 <= l <= MAX_PARAMETER_VALUE -> 1 <= c <= MAX_PARAMETER_VALUE -> addressable P a l c ->
  mode AdaptMode.InsertReplace a = false -> mode AdaptMode.Origin a = false ->
  str <> [] -> Forall (fun c => 0x20 <= c < 0x7F) str -> printed_text str (_termOutput a) = (t', Returned translated) -> translated <> [] -> plain translated ->
  point.x p + Z.of_nat (length translated) <= limit_at P a p -> line (buffer a) (point.y p) = Some r -> writable (length translated) r ->
  returns (ProcessString (S depth) (render_csi (cup l c));; ProcessString (S depth) str;; ProcessString (S depth) (render_csi dsr_position)) s (fun s' _ =>
    let a' := adapt_of s' in
    idle s' /\ page_ready a' /\
    (exists r', line (buffer a') (point.y p) = Some r' /\ row_printed (Z.to_nat (c - 1)) translated (_currentAttributes (buffer a)) r r') /\
    (forall z, 0 <= z < _height (buffer a) -> z <> point.y p -> line (buffer a') z = line (buffer a) z) /\
    responses (terminal a') = responses (terminal a) ++ [csi a ++ numbers [l; Z.min (c + Z.of_nat (length translated)) (limit_at P a p)] ++ wide "R"]).
Proof.
  intros a p Hi Hr Hl Hc Ha Hm Ho Hne Hs Ht Htn Hp Hf Hln Hw. step. apply (cup_runs depth l c); [done..|]. intros s1 I1 S1 C1. fold a p in S1, C1. set (a1 := adapt_of s1) in *.
  assert (Hr0 : page_ready (set_requests [] a)) by (by destruct Hr; split). pose proof (same_screen_ready _ _ _ Hr0 S1) as Hr1. assert (Ec : cursor a1 = p) by (unfold cursor; rewrite C1; apply cursor_SetPosition).
  destruct (same_rest_viewport _ _ (screen_rest _ _ _ S1)) as [Ev Em]. change (viewport (set_requests [] a)) with (viewport a) in Ev. destruct (same_rest_terminal _ _ (screen_rest _ _ _ S1)) as (Ei & _ & Es). destruct (screen_text _ _ _ S1) as [TG TL TW TH TA].
  assert (Ep : p = point.mk (c - 1) (l - 1 + rect.top (viewport a))) by (unfold p, absolute, origin_of; rewrite Ho; cbn; f_equal; lia).
  assert (Hy : rect.top (viewport a) <= point.y p < rect.bottom (viewport a)) by (rewrite Ep; destruct Ha as (Hla & _ & _); unfold extent_of in Hla; rewrite Ho in Hla; cbn in Hla |- *; unfold page_height in Hla; lia).
  assert (El : limit_of P a1 = limit_at P a p) by (unfold limit_of; rewrite Ec; exact (limit_at_same P _ _ p S1)).
  step. apply (text_shown depth str t' translated s1 r); fold a1; rewrite ?Ec, ?Ev, ?El, ?C1; try done; [rewrite Ep; cbn; lia|by rewrite (same_rest_mode (set_requests [] a)) by apply S1|by apply Cursor.position_set|
    by destruct (screen_rest _ _ _ S1) as [_ _ _ O]; replace (_termOutput a1) with (_termOutput a) by (cbn in O; congruence)|by rewrite TL|].
  intros s2 I2 (R2 & Hr2 & (r' & L2 & P2) & Z2 & [C2 _]). fold a1 in R2, Z2. set (a2 := adapt_of s2) in *. change (cursor (set_termOutput _ _)) with (cursor a1) in L2, P2, Z2, C2. rewrite Ec in L2, P2, Z2, C2.
  destruct (same_rest_viewport _ _ R2) as [Ev2 _]. destruct (same_rest_terminal _ _ R2) as (Ei2 & _ & Es2). change (viewport (set_termOutput t' (set_requests [] a1))) with (viewport a1) in Ev2.
  apply (position_runs depth s2); [done|done|]. intros s3 a3 I3 S3 B3 A3. fold a2 in S3, B3, A3. set (a4 := adapt_of s3) in *. destruct (same_rest_terminal _ _ (screen_rest _ _ _ S3)) as (_ & _ & Es3).
  assert (Hr3 : page_ready a3) by (eapply same_screen_ready; [|exact S3]; by destruct Hr2; split).
  pose proof (answered_buffer _ _ _ A3) as B4. rewrite B3 in B4. cbv zeta. fold a4. split; [done|]. split; [by eapply answered_ready|]. rewrite B4. split; [exists r'; split; [done|]|].
  - change (_currentAttributes (buffer (set_termOutput t' (set_requests [] a1)))) with (_currentAttributes (buffer a1)) in P2. rewrite TA, Ep in P2. exact P2.
  - split; [intros z Hz Hnz; rewrite Z2; [exact (TL z)|change (0 <= z < _height (buffer a1)); by rewrite TH|done]|]. rewrite (answered_responses _ _ _ A3), Es3. change (responses (terminal (set_requests [] a2))) with (responses (terminal a2)). rewrite Es2.
    change (responses (terminal (set_termOutput t' (set_requests [] a1)))) with (responses (terminal a1)). rewrite Es. change (responses (terminal (set_requests [] a))) with (responses (terminal a)). do 3 f_equal.
    + unfold csi. rewrite Ei2. change (terminalInput (terminal (set_termOutput t' (set_requests [] a1)))) with (terminalInput (terminal a1)). by rewrite Ei.
    + assert (Eo : mode AdaptMode.Origin a2 = false) by (rewrite (same_rest_mode _ _ _ R2); change (mode AdaptMode.Origin a1 = false); by rewrite (same_rest_mode (set_requests [] a)) by apply S1).
      f_equal. unfold relative, origin_of. rewrite C2, Eo, Ev2, Ev, Ep. cbn [point.x point.y]. repeat f_equal; lia.
Qed.
End Sessions.

(** ** A small terminal *)

Local Abbreviation detector := CodepointWidthDetector.
#[local] Instance small_api : ITerminalApi (Terminal detector) detector := Terminal_api sample_address.
#[local] Instance small_laws : ITerminalApiLaws (Terminal detector) detector := terminal_laws.
#[local] Instance bytes_u8u16 : U8U16 := Some.
#[local] Instance small_dispatch : TermDispatch (Whole (A := Terminal detector) (D := detector)) WholeHandler MacroCallback :=
  whole_dispatch sample_platform true true true (fun _ => None) (fun _ => true) (fun _ => (0, 0, 0)) (fun _ _ _ => 0) (fun _ => 0) some_memory.
Local Abbreviation Machine := (StateMachine (OutputStateMachineEngine (Whole (A := Terminal detector) (D := detector))) WholeHandler MacroCallback).
Definition machine (t : Terminal detector) : Machine := make_StateMachine (make_OutputEngine (new_Whole (new_AdaptDispatch (CB := MacroCallback) t))) false.

Lemma session_shows_text_witness : exists t, starts t /\
  returns (ProcessString 2 (render_csi (cup 2 3));; ProcessString 2 (wide "hello");; ProcessString 2 (render_csi dsr_position)) (machine t) (fun s' _ =>
    idle s' /\ responses (terminal (adapt_of s')) = [[0x1B; 0x5B] ++ wide "2;8R"]).
Proof.
  destruct sample_starts as (t & Hs & He & Hr). exists t. split; [exact Hs|]. destruct (line_Some true (fun _ => 0) sample_size (buffer (adapt_of (machine t))) 1 (ready_buffer _ Hr)) as [r Hl].
  assert (Hw : writable 5 r). { vm_compute in Hs. injection Hs as <-. vm_compute in Hl. injection Hl as <-. split; [done|]. exists 10. split; [vm_compute; reflexivity|vm_compute; reflexivity]. }
  assert (Hi : idle (machine t)) by (by split).
  assert (Ha : addressable sample_platform (adapt_of (machine t)) 2 3 /\ absolute (adapt_of (machine t)) 2 3 = point.mk 2 1 /\ limit_at sample_platform (adapt_of (machine t)) (point.mk 2 1) = 10 /\ csi (adapt_of (machine t)) = [0x1B; 0x5B])
    by (vm_compute in Hs; injection Hs as <-; vm_compute; repeat split; discriminate). destruct Ha as (Ha & Hp & Hlim & Hc).
  pose proof (session_shows_text sample_platform true true true (fun _ => None) (fun _ => true) (fun _ => (0, 0, 0)) (fun _ _ _ => 0) (fun _ => 0) some_memory 1 2 3 (wide "hello") (make_TerminalOutput false) (wide "hello") (machine t) r) as H.
  cbv zeta in H. rewrite Hp, Hlim, Hc in H. change (responses (terminal (adapt_of (machine t)))) with (terminal_responses t) in H. rewrite He in H.
  refine (returns_mono _ _ _ _ (H Hi Hr _ _ Ha eq_refl eq_refl _ _ eq_refl _ _ _ Hl Hw) _); [unfold MAX_PARAMETER_VALUE; lia..|discriminate| |discriminate| |cbn; lia|]; try (apply (bool_decide_unpack _); by vm_compute).
  intros s' [] (I' & _ & _ & _ & E). split; [exact I'|]. rewrite E. reflexivity.
Defined.

(** Two lines of sixels, the second in packets of one character. *)
Definition drawing : list (bool * wchar) := ((fun c => (false, c)) <$> wide "#1~~-") ++ ((fun c => (true, c)) <$> wide "#2;2;100;0;0!40~").
Lemma sixel_display_bounded_witness : exists t, starts t /\
  returns (DefineImage sample_platform (fun _ => 0) 0 0 VTParameter.default;; image_data sample_platform (fun _ => 0) (fun _ _ _ => 0) drawing)
    (mkSixelState (Sixel.new_SixelParser Sixel.DefaultConformance) (new_AdaptDispatch (CB := MacroCallback) t) 0) (fun s' complete =>
    complete = true /\ Z.of_nat (length (Sixel._imageBuffer (parser s'))) <= 26000).
Proof.
  destruct sample_starts as (t & Hs & _ & Hr). exists t. split; [exact Hs|]. set (a := new_AdaptDispatch t) in *.
  assert (Hv : viewport a = rect.mk 0 0 10 4 /\ _width (buffer a) = 10) by (vm_compute in Hs; injection Hs as <-; done). destruct Hv as [Hv Hw].
  assert (Him : forall y r, 0 <= y < 4 -> TextBufferProps.line true (fun _ => 0) sample_size (buffer a) y = Some r -> image_good r).
  { intros y r Hy Hl. assert (y ∈ [0; 1; 2; 3]) as Hin by (set_unfold; lia). subst a. vm_compute in Hs. injection Hs as <-. set_unfold in Hin. destruct Hin as [-> |[-> |[-> |[-> |[]]]]]; vm_compute in Hl; injection Hl as <-; done. }
  pose proof (sixel_display_bounded sample_platform (fun _ => 0) (fun _ _ _ => 0) (mkSixelState (Sixel.new_SixelParser Sixel.DefaultConformance) a 0) 0 0 VTParameter.default drawing) as H. cbn [adapt parser] in H. rewrite Hv, Hw in H.
  refine (returns_mono _ _ _ _ (H _ Hr Him _) _); [by split_and!|vm_compute; discriminate|]. intros s' complete (-> & _ & _ & _ & Hl). split; [done|]. exact Hl.
Defined.

(** ** Departures *)

(** The state of the parser, whether everything was defined and the results, after
    some strings. *)
Definition run_strings (strings : list wstring) : option (VTStates * bool * point.t * list (outcome unit)) :=
  match Create sample_address (repeat 0 256) sample_settings (mkProcess new_Detector 0 0) (size.mk 10 4) 6 with
  | Some t =>
    let '(s, os) := fold_left (fun '(s, os) string => let '(s, o) := ProcessString 4 string s in (s, os ++ [o])) strings (machine t, []) in
    Some (StateMachine._state (sm_parser s), whole_undefined (whole_of s), cursor (adapt_of s), os)
  | None => None
  end.

(** A soft font whose last character ends with a separator: its string cannot be ended.
    ESC and CAN throw, every time, and the parser does not leave the string. *)
Definition unending_font : wstring := [0x1B] ++ wide "P0;95{@~;".
Lemma font_string_never_ends : run_strings [unending_font; [0x1B]; [0x18]; wide "\"; [0x1B] ++ wide "[2;3H"; [0x18]] =
  Some (DcsPassThrough, false, point.mk 0 0, [Returned tt; Threw; Threw; Returned tt; Threw; Threw]).
Proof. vm_compute. reflexivity. Qed.

(** An image whose lines of sixels are nearly as high as the page: a colour that is
    redefined in the last character of a packet moves the image in the middle of a line,
    and the next sixel is written before the buffer. Without the
    redefinition nothing is undefined. *)
Definition tall_sixels (data : wstring) : wstring := [0x1B] ++ wide "Pq" ++ [0x22] ++ wide "13;1#1;2;100;0;0~-" ++ data.
Lemma sixel_before_buffer :
  (fun r => r.1.1.2) <$> run_strings [tall_sixels (wide "#1;2;0;100;0~")] = Some true /\ (fun r => r.1.1.2) <$> run_strings [tall_sixels (wide "~")] = Some false.
Proof. vm_compute. split; reflexivity. Qed.
